(* ===== verification/_CoqProject ===== *)
-Q . S2P
Prelude.v
Arrays.v
CLib.v
Threads.v
Doubles.v
LongDouble.v
Getopt.v
Harness.v
Handshake.v
PtDump.v
BTreeMem.v
BTree.v
BTreeRep.v
BTreeFind.v
BTreeInsert.v
BTreeMap.v
BTreeDelete.v
BTreeRemove.v
BTreeShrink.v
BTreeErase.v
BTreePrint.v
BTreeBulk.v
BTreeMain.v
BTreeRun.v
Gups.v
GupsToy.v
Murmur.v
HashJoin.v
HashJoinMain.v
ModArith.v
Mrg.v
MrgTable0.v
MrgTable1.v
MrgTable2.v
MrgTable.v
Scramble.v
Graph.v
Kronecker.v
Rmat.v
SeqList.v
Verify.v
SeqCsr.v
Stream.v
Canneal.v
OmpCsr.v
Bitmap.v
OmpBfs.v
OmpTopDown.v
OmpBottomUp.v
OmpQueue.v
OmpSearch.v
Graph500.v
Options.v
Graph500Main.v
MakeEdgelist.v
XsBench.v
XsSearch.v
XsGrid.v
XsBins.v
XsLookup.v
XsRun.v
