(* ===== verification/Prelude.v ===== *)
(** * A verification of the memory benchmarks

    The repository collects the benchmark programs of a study of page-table
    placement on NUMA machines (sources/), with scripts that run them (bin/)
    and the logs of the runs (results/).  Every benchmark is a program of its
    own: sources/common/main-*.c or a main.c of the benchmark starts it, passes
    the options on to [real_main] and handles the signal files; the programs
    share nothing else.  This library models the C code that is the
    repository's own work or its own copy of small kernels, benchmark by
    benchmark, and proves that each computes what it is meant to.

    ** Conventions

    A C integer is a [Z] and each operation that can leave its width writes the
    wrap-around out ([u32], [u64], [s64]).  An array is a list read and written
    with [a.[i]] and [a.[i <- v]], which are [None] outside the bounds; an
    assertion of the code is [assert!], [None] when it fails; a division checks
    its divisor.  So a theorem that says a function returns [Some] says that the
    C code stays inside its arrays, divides by nothing that is 0, meets its
    assertions and terminates.  The B+ tree, which allocates, runs in a state
    and error monad of its own: [Ok], [Exit] (the code called [exit], with the
    reason) or [Undefined] (a wild pointer, an index out of bounds).

    ** Files

    - Prelude: machine integers, bit vectors, arrays, loops and their rules.
    - Arrays: the array loops C programs repeat (scan, shift, block copy).
    - CLib: strings, [strtoull], [atol], [atoi], comparison and decimal printing of
      the C library.  Getopt: the C library's [getopt], as it is documented.
    - Doubles: IEEE binary64 as the Standard Library specifies it, with error
      bounds of its division, multiplication and addition.  LongDouble: the 80-bit
      [long double], and the error of dividing by a sum.
    - BTreeMem, BTree, BTreeRep, BTreeFind, BTreeInsert, BTreeMap:
      sources/btree/btree.c, search and insertion.  BTreeMem has [struct node],
      the heap, the monad, the two slab allocators and their free lists over a
      class [OS] of what [mmap] and [posix_memalign] promise.  BTree has the code
      function by function.  BTreeRep says what heap stores what tree: parent
      pointers, leaf chain, key order, fill.  BTreeFind and BTreeInsert prove the
      functions against it, BTreeMap states the result for finite maps.
    - BTreeDelete, BTreeRemove, BTreeShrink, BTreeErase: deletion (code, the
      entry removed from a node, merging and borrowing, the result) and
      [destroy_tree].  BTreePrint: the functions that print trees.  BTreeBulk:
      [bulk_load].
    - BTreeMain, BTreeRun: the 48-bit generator and the benchmark; the options,
      the parallel lookups over a class [OMP], and [real_main].
    - Gups: sources/gups/gups.c, the shift-register stream, its jump-ahead and
      the update loops, sequential and OpenMP.  GupsToy: gupstoy.c.
    - Murmur, HashJoin: sources/hashjoin/src/murmurhash.c and hashjoin.c.
      HashJoinMain: its options, signal files and output, and main.c.
    - Harness: sources/common/main-mt.c, main-st.c and main-ptdump.c, as the list of
      the calls of a process that can be seen from outside, over a class [System]
      of what the operating system answers.  PtDump: the checksum, the encodings of
      ptdump.h and the page-table dump of main-ptdump.c.
    - Handshake: the files by which a benchmark and bin/launch_benchmark.sh wait
      for each other, as two state machines and a schedule.
    - ModArith, Mrg, MrgTable0, MrgTable1, MrgTable2, MrgTable: the random
      number generator of sources/graph500/generator/, that is mod_arith_32bit.h
      and mod_arith_64bit.h as two instances of one class, splittable_mrg.c, and
      the table of mrg_transitions.c, copied row by row.
    - Scramble, Kronecker: graph_generator.c, make_graph.c and utils.c of the same
      directory: bit reversal and vertex scrambling, the quadrant sampler, the
      edges, and the edge list of one process or of several.  Rmat: the other
      edge generator, sources/graph500/rmat.c.
    - Graph: edge lists, neighbours, distances and breadth-first trees, the terms
      in which the searches are specified.
    - SeqList, SeqCsr: sources/graph500/seq-list and seq-csr, construction and
      search.  Verify: verify.c.
    - Threads: teams of threads, a scheduler as a class [Team] and the rules for
      parallel regions.
    - Stream: sources/stream/stream.c.  Canneal: the netlist generator
      src/datasets/fast_canneal_int.c.
    - OmpCsr, Bitmap, OmpBfs: sources/graph500/omp-csr (construction, bitmap.h, the
      search code); OmpTopDown, OmpBottomUp, OmpQueue, OmpSearch: its proofs, one
      step of the search each.
    - Graph500: graph500.c, roots, searches and checks, over a class [Kernel] that
      states what a search promises; the sequential searches are its instances.
    - Options, Graph500Main, MakeEdgelist: options.c, [real_main] of graph500.c in
      full, and make-edgelist.c.
    - XsBench: sources/xsbench/src/, all of the code.  XsSearch, XsGrid, XsBins,
      XsLookup, XsRun: its proofs, for the binary searches, the grids, the bins of
      the hash grid, the lookups and the run.

    ** What is proved

    - B+ tree: [find], [insert] and [delete] refine lookup, insertion and deletion
      of a finite map on every heap that represents one, with all splits, merges,
      exchanges, new and lost roots and allocations; the program's insertions and
      lookups end with the checksum the generator's seed predicts, or in an [exit]
      that names a request for memory or a file which the system refused, and never
      in undefined behaviour, for all options below 2^62 elements and all orders of
      up to 173956 threads.  [bulk_load] builds a proper tree
      unless a child is left over; with one left over a later deletion follows a
      null pointer; [destroy_tree] frees what was not allocated.  The printing
      functions print what the map holds.
    - GUPS: [HPCC_starts] agrees with single steps for every 64-bit count; all
      table accesses of a run are inside the allocation; running twice restores
      the table; every interleaving of the threads' atomic updates gives the
      same table; how many updates the OpenMP loops execute.  gupstoy writes
      behind its table in every run.
    - Hash join: the number of matches and of conflicts for every split of the
      rows between threads; an 8-byte key can be recovered from its hash; the
      process prints these numbers for every accepted command line.
    - Harness: a process hands the benchmark what follows ["--"], creates ".done"
      after it and ends, however the script behaves; when the time it prints is
      right.  Benchmark and script both end in every fair schedule and the
      measurement is ordered; one schedule makes the script give up.  The
      checksum is the CRC-32 of the shift register and detects bursts; a dump
      lists exactly the frames its tables hold.
    - graph500: the two arithmetic headers agree and never overflow; the stored
      table is the one [dump_mrg_powers] writes; [mrg_skip] advances by the
      192-bit count, as that many single steps would; the sampler's rejection
      loop ends and is unbiased; scrambling permutes the vertices; the processes
      make the edges one process makes.  Without OpenMP R-MAT's edges
      are those its stream describes and its two shuffles are Fisher and Yates's,
      as long as they draw numbers below 1; the generator can return 1, but no
      more, and the shuffle then leaves its array; with OpenMP the generator never
      gets past the shuffle of the edges.  Every search stays inside its arrays,
      ends and returns a breadth-first tree, the parallel one for every schedule
      in which the threads do not come to disagree about a direction, which one
      schedule makes them do.  The checker accepts exactly the breadth-first
      trees among the arrays it can read.  The options' function ends in the ways
      its options call for, never in its [abort], and the probabilities it returns
      are the given ones divided by their sum up to rounding; a run from the
      command line to the exit never aborts; a named edge file is never read;
      make-edgelist.c writes the edges graph500 generates, and distinct roots.
    - XSBench: the event-based run stays inside its arrays, has no undefined
      conversion and ends, for every schedule and all three kinds of grids, and
      they all print the checksum of a sequential run with the nuclides' own
      grids; the unionized grid's indices and the hash grid's bins are shown to
      give the interval of the binary search, rounding errors included.
    - STREAM: the kernels compute, in every element and for every schedule, what
      the check computes with scalars, so the run validates.
    - Netlists: every element has one line, whole and well-formed, in the output
      of every schedule, and no buffer overflows.

    ** Fuel and bounds

    Loops with a counter need no fuel.  The loops of the B+ tree over levels
    have [FUEL] = 66 rounds: a tree of order at least 3 has fewer levels than
    that for any number of entries a 64-bit machine can hold, and the theorems
    state the bound on the entries they use.  The walk of a hash chain has one
    round more than there are elements, and the theorem of the join shows that
    it is enough.  Where an allocation's size is computed in [size_t] the model
    computes it so and the theorems carry the bound below which it does not
    wrap.

    The rejection loop of the sampler has 9 draws, which a theorem shows to be
    enough.  The searches' loops have as many rounds as there are vertices, the
    walks of half-edge lists as many as half-edges, and a parallel region as many
    steps as its measure at the start ([build_steps], [search_steps]); a binary
    search has one round per element of its range.  The wait for the statistics
    has 3001 rounds, one more than the code's limit, and the one for the flushed
    caches the 600 of the code; the roots of make-edgelist.c take a round per
    vertex; the loop that repeats the dump has as many rounds as its theorem says
    attempts fail, since nothing in the code limits them.  The theorems that a function
    returns show in each case that the fuel is enough.

    What the code takes from outside is a parameter with laws that the
    documentation states: [OS] (memory from the system), [OMP] and [Team] (threads
    and schedules), [Qsort] (a sorted permutation; the order of equal elements is
    open), [Rand], [RandR], [Sprintf], [System], [Build] and [Machine] (the harness and
    its script), [PtModule] (the kernel module), [strtod], [strdup], the C library's
    [free], the contents of memory that
    was not initialised, and the variable that graph500.c does not set.

    ** What is not modelled

    Timing and progress messages, but for the printed times of the harness.  Of
    the harness: PAPI and the placement of threads and memory, which the builds
    leave out.  Of the scripts: all but the handshake.  Of splittable_mrg.c: the
    XMT branch.  Of graph500: omp-csr-old.c, which the build does not use,
    the statistics, which the program never reaches, and the exits of xmalloc,
    xmalloc_large and the generator's xmalloc when memory is refused: there the
    requests succeed, as do the netlist generator's.  Of xsbench: MPI,
    PAPI, the binary files and the report; and the history-based run is modelled,
    but no theorem says that it ends, since its seeds go through a conversion
    that is undefined for a negative cross section; the line that the
    verification build formats is taken to fit into its 256 characters.  Of stream: the rates and
    the placement of memory.  memcached, redis, liblinear, canneal, gapbs and memtier
    are third-party programs that the repository only builds and runs.

    ** Plan

    Modelled in this order: the kernels of the benchmarks, their data structures
    and generators, the parallel searches, and the programs around them from the
    command line to the exit.  What could follow: the parallel search as a
    [Kernel] of Graph500, and a condition under which the history-based run of
    xsbench is defined. *)

From stdpp Require Import gmap list numbers.
From Stdlib Require Import ZArith Lia.
#[local] Open Scope Z_scope.

(** ** Machine integers

    A C integer of width [w] is a [Z]; each operation of the code that can
    leave the range writes its wrap-around out with one of these. *)

Definition u32 (x : Z) : Z := x mod 2 ^ 32.
Definition u64 (x : Z) : Z := x mod 2 ^ 64.

(** The value of a 64-bit pattern read as [int64_t]. *)
Definition s64 (x : Z) : Z :=
  let y := u64 x in if y <? 2 ^ 63 then y else y - 2 ^ 64.

Definition in_u32 (x : Z) : Prop := 0 <= x < 2 ^ 32.
Definition in_u64 (x : Z) : Prop := 0 <= x < 2 ^ 64.
Definition in_s64 (x : Z) : Prop := - 2 ^ 63 <= x < 2 ^ 63.

(** [lia] for goals with quotients and remainders by constants. *)
Ltac zdiv := zify; Z.to_euclidean_division_equations; lia.

Create HintDb cint.
Create Rewrite HintDb cint.

Lemma u64_range x : in_u64 (u64 x).
Proof. unfold in_u64, u64. apply Z.mod_pos_bound. lia. Qed.

Lemma u32_range x : in_u32 (u32 x).
Proof. unfold in_u32, u32. apply Z.mod_pos_bound. lia. Qed.

Lemma u64_id x : in_u64 x -> u64 x = x.
Proof. intros; apply Z.mod_small; done. Qed.

Lemma u32_id x : in_u32 x -> u32 x = x.
Proof. intros; apply Z.mod_small; done. Qed.

Lemma s64_range x : in_s64 (s64 x).
Proof.
  unfold in_s64, s64. pose proof (u64_range x) as H. unfold in_u64 in H.
  destruct (Z.ltb_spec (u64 x) (2 ^ 63)); lia.
Qed.

Lemma s64_id x : in_s64 x -> s64 x = x.
Proof.
  unfold in_s64, s64, u64. intros Hx. destruct (decide (0 <= x)).
  - rewrite Z.mod_small by lia. destruct (Z.ltb_spec x (2 ^ 63)); lia.
  - assert (x mod 2 ^ 64 = x + 2 ^ 64) as ->.
    { symmetry. apply Z.mod_unique with (-1); lia. }
    destruct (Z.ltb_spec (x + 2 ^ 64) (2 ^ 63)); lia.
Qed.

#[export] Hint Resolve u64_range u32_range s64_range : cint.
#[export] Hint Rewrite u64_id u32_id s64_id using (solve [auto with cint]) : cint.

(** ** Bits *)

(** A non-negative number below [2^n] has no bit at or above [n]. *)
Lemma testbit_high n x i : 0 <= x < 2 ^ n -> 0 <= n <= i -> Z.testbit x i = false.
Proof.
  intros Hx Hi. rewrite <- (Z.mod_small x (2 ^ n)) by done.
  apply Z.mod_pow2_bits_high. lia.
Qed.

(** A number whose bits stop at [n] is below [2^n]. *)
Lemma bits_bound n x :
  0 <= n -> 0 <= x -> (forall i, n <= i -> Z.testbit x i = false) -> x < 2 ^ n.
Proof.
  intros Hn Hx Hbits. destruct (decide (x < 2 ^ n)) as [|Hge]; [done|exfalso].
  assert (Hl : n <= Z.log2 x).
  { apply Z.log2_le_pow2; [|lia]. pose proof (Z.pow_pos_nonneg 2 n). lia. }
  pose proof (Hbits _ Hl) as Hb. rewrite Z.bit_log2 in Hb; [done|].
  pose proof (Z.pow_pos_nonneg 2 n). lia.
Qed.

Lemma lxor_range n x y :
  0 <= n -> 0 <= x < 2 ^ n -> 0 <= y < 2 ^ n -> 0 <= Z.lxor x y < 2 ^ n.
Proof.
  intros Hn Hx Hy. split; [apply Z.lxor_nonneg; lia|].
  apply bits_bound; [done|apply Z.lxor_nonneg; lia|]. intros i Hi.
  rewrite Z.lxor_spec, !(testbit_high n) by lia. done.
Qed.

Lemma lor_range n x y :
  0 <= n -> 0 <= x < 2 ^ n -> 0 <= y < 2 ^ n -> 0 <= Z.lor x y < 2 ^ n.
Proof.
  intros Hn Hx Hy. split; [apply Z.lor_nonneg; lia|].
  apply bits_bound; [done|apply Z.lor_nonneg; lia|]. intros i Hi.
  rewrite Z.lor_spec, !(testbit_high n) by lia. done.
Qed.

Lemma lxor_u64 x y : in_u64 x -> in_u64 y -> in_u64 (Z.lxor x y).
Proof. apply lxor_range. lia. Qed.
#[export] Hint Resolve lxor_u64 : cint.

(** Equations between exclusive ors, bit by bit. *)
Ltac xor_solve :=
  apply Z.bits_inj'; intros ? ?; rewrite ?Z.lxor_spec, ?Z.bits_0;
  repeat match goal with |- context [Z.testbit ?a ?i] => destruct (Z.testbit a i) end;
  reflexivity.

(** Exclusive or is a commutative group of exponent two. *)
Lemma lxor_swap x y z : Z.lxor (Z.lxor x y) z = Z.lxor (Z.lxor x z) y.
Proof. rewrite !Z.lxor_assoc. f_equal. apply Z.lxor_comm. Qed.

Lemma lxor_cancel x y : Z.lxor (Z.lxor x y) y = x.
Proof. by rewrite Z.lxor_assoc, Z.lxor_nilpotent, Z.lxor_0_r. Qed.

(** [(x >> i) & 1] as a condition. *)
Definition bit_at (x i : Z) : bool := negb (Z.land (Z.shiftr x i) 1 =? 0).

Lemma bit_at_testbit x i : 0 <= i -> bit_at x i = Z.testbit x i.
Proof.
  intros Hi. unfold bit_at. rewrite Z.testbit_odd.
  change 1 with (Z.ones 1). rewrite Z.land_ones by lia. change (2 ^ 1) with 2.
  rewrite Zmod_odd. by destruct (Z.odd _).
Qed.

(** Reduction modulo a power of two distributes over exclusive or. *)
Lemma lxor_mod_pow2 n x y :
  0 <= n -> Z.lxor x y mod 2 ^ n = Z.lxor (x mod 2 ^ n) (y mod 2 ^ n).
Proof.
  intros Hn. apply Z.bits_inj'. intros i Hi. rewrite Z.lxor_spec.
  destruct (decide (i < n)).
  - rewrite !Z.mod_pow2_bits_low by lia. apply Z.lxor_spec.
  - rewrite !Z.mod_pow2_bits_high by lia. done.
Qed.

(** The top bit of an [n + 1]-bit number splits off by exclusive or. *)
Lemma low_bits_split (n : nat) x :
  0 <= x < 2 ^ Z.of_nat (S n) ->
  x = Z.lxor (x mod 2 ^ Z.of_nat n)
        (if Z.testbit x (Z.of_nat n) then 2 ^ Z.of_nat n else 0).
Proof.
  intros Hx. apply Z.bits_inj'. intros i Hi. rewrite Z.lxor_spec.
  destruct (decide (i < Z.of_nat n)); [|destruct (decide (i = Z.of_nat n)) as [->|]].
  - rewrite Z.mod_pow2_bits_low by lia.
    assert (Z.testbit (if Z.testbit x (Z.of_nat n) then 2 ^ Z.of_nat n else 0) i = false) as ->.
    { destruct (Z.testbit x _); [apply Z.pow2_bits_false; lia|apply Z.bits_0]. }
    by rewrite xorb_false_r.
  - rewrite Z.mod_pow2_bits_high by lia.
    destruct (Z.testbit x (Z.of_nat n)); rewrite ?Z.pow2_bits_true, ?Z.bits_0 by lia; done.
  - rewrite Z.mod_pow2_bits_high, (testbit_high (Z.of_nat (S n)) x) by lia.
    destruct (Z.testbit x (Z.of_nat n)); rewrite ?Z.pow2_bits_false, ?Z.bits_0 by lia; done.
Qed.

(** ** Arrays

    A C array is a list.  Reading or writing outside it is undefined in C and
    [None] here, so a theorem that a routine returns [Some] also says that
    every access of the run is in bounds. *)

Declare Scope c_scope.
Delimit Scope c_scope with c.
#[global] Open Scope c_scope.

Section Arrays.
Context {A : Type}.
Implicit Types (a : list A) (i : Z) (v : A).

Definition alen a : Z := Z.of_nat (length a).

Definition aget a i : option A :=
  if i <? 0 then None else a !! Z.to_nat i.

Definition aset a i v : option (list A) :=
  if (0 <=? i) && (i <? alen a) then Some (<[Z.to_nat i := v]> a) else None.

Lemma alen_nonneg a : 0 <= alen a.
Proof. unfold alen. lia. Qed.

Lemma aget_some_range a i v : aget a i = Some v -> 0 <= i < alen a.
Proof.
  unfold aget, alen. destruct (Z.ltb_spec i 0); [done|].
  intros Hl%lookup_lt_Some. lia.
Qed.

Lemma aget_in a i : 0 <= i < alen a -> exists v, aget a i = Some v.
Proof.
  unfold aget, alen. intros Hi. destruct (Z.ltb_spec i 0); [lia|].
  apply lookup_lt_is_Some. lia.
Qed.

Lemma aset_in a i v :
  0 <= i < alen a -> aset a i v = Some (<[Z.to_nat i := v]> a).
Proof.
  intros Hi. unfold aset.
  destruct (Z.leb_spec 0 i), (Z.ltb_spec i (alen a)); try lia. done.
Qed.

Lemma aset_some a i v a' :
  aset a i v = Some a' -> 0 <= i < alen a /\ a' = <[Z.to_nat i := v]> a.
Proof.
  unfold aset. destruct (Z.leb_spec 0 i), (Z.ltb_spec i (alen a)); simpl;
    intros; simplify_eq; done.
Qed.

Lemma alen_insert a (k : nat) v : alen (<[k := v]> a) = alen a.
Proof. unfold alen. by rewrite length_insert. Qed.

Lemma aset_alen a i v a' : aset a i v = Some a' -> alen a' = alen a.
Proof. intros [_ ->]%aset_some. apply alen_insert. Qed.

Lemma aget_insert a i j v :
  0 <= i < alen a ->
  aget (<[Z.to_nat i := v]> a) j = if decide (j = i) then Some v else aget a j.
Proof.
  intros Hi. unfold aget. destruct (Z.ltb_spec j 0).
  { case_decide; [lia|done]. }
  case_decide as E.
  - subst. apply list_lookup_insert_eq. unfold alen in Hi. lia.
  - apply list_lookup_insert_ne. lia.
Qed.

Lemma aget_set_eq a i v a' : aset a i v = Some a' -> aget a' i = Some v.
Proof. intros [Hi ->]%aset_some. rewrite aget_insert by done. by case_decide. Qed.

Lemma aget_set_ne a i j v a' :
  aset a i v = Some a' -> j <> i -> aget a' j = aget a j.
Proof.
  intros [Hi ->]%aset_some Hne. rewrite aget_insert by done. by case_decide.
Qed.

Lemma aget_nat a (k : nat) : aget a (Z.of_nat k) = a !! k.
Proof. unfold aget. destruct (Z.ltb_spec (Z.of_nat k) 0); [lia|]. by rewrite Nat2Z.id. Qed.

Lemma array_ext a b :
  alen a = alen b -> (forall i, 0 <= i < alen a -> aget a i = aget b i) -> a = b.
Proof.
  intros Hl Hi. apply list_eq. intros k.
  destruct (decide (k < length a)%nat) as [Hk|Hk].
  - rewrite <- !aget_nat. apply Hi. unfold alen. lia.
  - rewrite !lookup_ge_None_2; [done| |lia]. unfold alen in Hl. lia.
Qed.
End Arrays.

Notation "a .[ i ]" := (aget a i)
  (at level 1, i at level 200, left associativity, format "a .[ i ]") : c_scope.
Notation "a .[ i <- v ]" := (aset a i v)
  (at level 1, i at level 200, v at level 200, left associativity) : c_scope.

Lemma seqZ_snoc m n : 0 <= n -> seqZ m (n + 1) = seqZ m n ++ [m + n].
Proof. intros. by rewrite seqZ_app by lia. Qed.

(** [k] consecutive blocks of [n] integers. *)
Lemma seqZ_blocks m n k :
  0 <= n -> 0 <= k -> (seqZ 0 k ≫= fun j => seqZ (m + n * j) n) = seqZ m (n * k).
Proof.
  intros Hn Hk. pattern k. apply natlike_ind; [by rewrite Z.mul_0_r| |done].
  clear k Hk. intros k Hk IH. rewrite <- Z.add_1_r, seqZ_snoc, bind_app, IH by done.
  cbn [mbind list_bind]. rewrite app_nil_r.
  replace (n * (k + 1)) with (n * k + n) by lia. by rewrite seqZ_app by lia.
Qed.

(** Swapping two nested loops permutes what they produce. *)
Lemma bind_cons_perm {A B} (g : A -> B) (h : A -> list B) (l : list A) :
  (l ≫= fun j => g j :: h j) ≡ₚ (g <$> l) ++ (l ≫= h).
Proof.
  induction l as [|x l IH]; [done|]. cbn. constructor.
  rewrite IH, !app_assoc. f_equiv. apply Permutation_app_comm.
Qed.

Lemma bind_swap {A B C} (f : A -> B -> C) (l1 : list A) (l2 : list B) :
  (l1 ≫= fun i => f i <$> l2) ≡ₚ (l2 ≫= fun j => (fun i => f i j) <$> l1).
Proof.
  induction l1 as [|x l1 IH]; cbn.
  - induction l2; [done|]. cbn. done.
  - rewrite IH. symmetry. apply (bind_cons_perm (f x)).
Qed.

Lemma fmap_list_bind {A B C} (g : B -> C) (f : A -> list B) (l : list A) :
  g <$> (l ≫= f) = l ≫= fun x => g <$> f x.
Proof. induction l as [|x l IH]; [done|]. cbn. by rewrite fmap_app, IH. Qed.

Lemma fold_left_bind {A B S} (f : S -> B -> S) (g : A -> list B) (l : list A) (s : S) :
  fold_left (fun s x => fold_left f (g x) s) l s = fold_left f (l ≫= g) s.
Proof.
  revert s. induction l as [|x l IH]; intros s; [done|]. cbn.
  by rewrite IH, fold_left_app.
Qed.

Lemma length_bind_const {A B} (k : nat) (g : A -> list B) (l : list A) :
  (forall x, length (g x) = k) -> length (l ≫= g) = (k * length l)%nat.
Proof.
  intros Hg. induction l as [|x l IH]; [cbn; lia|].
  rewrite bind_cons, length_app, Hg, IH. cbn. lia.
Qed.

Lemma fold_left_snoc {A B} (g : A -> list B) (l : list A) (acc : list B) :
  fold_left (fun acc x => acc ++ g x) l acc = acc ++ (l ≫= g).
Proof.
  revert acc. induction l as [|x l IH]; intros acc; cbn; [by rewrite app_nil_r|].
  by rewrite IH, <- app_assoc.
Qed.

(** The array with [f i] at each [i] below [n]. *)
Definition tab {A} (n : Z) (f : Z -> A) : list A := f <$> seqZ 0 n.

Lemma alen_tab {A} n (f : Z -> A) : 0 <= n -> alen (tab n f) = n.
Proof. intros. unfold alen, tab. rewrite length_fmap, length_seqZ. lia. Qed.

Lemma aget_tab {A} n (f : Z -> A) i : 0 <= i < n -> (tab n f).[i] = Some (f i).
Proof.
  intros Hi. unfold aget, tab. destruct (Z.ltb_spec i 0); [lia|].
  rewrite list_lookup_fmap, lookup_seqZ_lt by lia. simpl. do 2 f_equal. lia.
Qed.

Lemma tab_ext {A} n (f g : Z -> A) :
  (forall i, 0 <= i < n -> f i = g i) -> tab n f = tab n g.
Proof.
  intros H. apply list_fmap_ext. intros k i Hk.
  apply lookup_seqZ in Hk as [-> ?]. apply H. lia.
Qed.

Lemma aset_tab {A} n (f : Z -> A) i v :
  0 <= i < n -> (tab n f).[i <- v] = Some (tab n (fun j => if j =? i then v else f j)).
Proof.
  intros Hi. rewrite aset_in by (rewrite alen_tab; lia). f_equal.
  apply array_ext; [rewrite alen_insert, !alen_tab by lia; done|].
  rewrite alen_insert, alen_tab by lia. intros j Hj.
  rewrite aget_insert, !aget_tab by (rewrite ?alen_tab; lia).
  case_decide; destruct (Z.eqb_spec j i); done.
Qed.

Lemma tab_replicate {A} (n : nat) (v : A) : replicate n v = tab (Z.of_nat n) (fun _ => v).
Proof.
  assert (alen (replicate n v) = Z.of_nat n) as Hl by (unfold alen; by rewrite length_replicate).
  apply array_ext; rewrite Hl.
  - rewrite alen_tab; lia.
  - intros i Hi. rewrite aget_tab by done. unfold aget.
    destruct (Z.ltb_spec i 0); [lia|]. apply lookup_replicate_2. lia.
Qed.

(** ** Assertions and undefined overflow

    [assert (b)] aborts the program when [b] is false, and signed overflow is
    undefined: both are [None]. *)

Definition check (b : bool) : option unit := if b then Some tt else None.
Definition sint32 (x : Z) : option Z :=
  if (- 2 ^ 31 <=? x) && (x <? 2 ^ 31) then Some x else None.

Notation "'assert!' b ; k" := (_ ← check b; k)
  (at level 20, b at level 100, k at level 200, only parsing) : c_scope.

Lemma check_true b : b = true -> check b = Some tt.
Proof. by intros ->. Qed.

Lemma sint32_id x : - 2 ^ 31 <= x < 2 ^ 31 -> sint32 x = Some x.
Proof.
  intros Hx. unfold sint32.
  destruct (Z.leb_spec (- 2 ^ 31) x), (Z.ltb_spec x (2 ^ 31)); simpl; lia || done.
Qed.

(** An operation on [int64_t], undefined when it overflows. *)
Definition sint64 (x : Z) : option Z :=
  if (- 2 ^ 63 <=? x) && (x <? 2 ^ 63) then Some x else None.

Lemma sint64_id x : - 2 ^ 63 <= x < 2 ^ 63 -> sint64 x = Some x.
Proof.
  intros Hx. unfold sint64.
  destruct (Z.leb_spec (- 2 ^ 63) x), (Z.ltb_spec x (2 ^ 63)); cbn [andb]; lia || done.
Qed.

(** ** Loops

    [for_z lo hi body s] is [for (i = lo; i < hi; ++i) body]; [while_fuel] is a
    [while] whose [None] on an empty fuel is only ever met when the fuel is too
    small: each use comes with a theorem that its fuel suffices. *)

Section Loops.
Context {S : Type}.

Fixpoint for_nat (n : nat) (i : Z) (body : Z -> S -> option S) (s : S) : option S :=
  match n with
  | O => Some s
  | Datatypes.S n => s' ← body i s; for_nat n (i + 1) body s'
  end.

Definition for_z (lo hi : Z) (body : Z -> S -> option S) (s : S) : option S :=
  for_nat (Z.to_nat (hi - lo)) lo body s.

Fixpoint while_fuel (fuel : nat) (cond : S -> option bool)
    (body : S -> option S) (s : S) : option S :=
  match fuel with
  | O => None
  | Datatypes.S fuel =>
      b ← cond s;
      if (b : bool) then s' ← body s; while_fuel fuel cond body s' else Some s
  end.

(** The invariant rule of [for]: the body succeeds from the invariant. *)
Lemma for_z_inv (I : Z -> S -> Prop) lo hi body s :
  lo <= hi -> I lo s ->
  (forall i s, lo <= i < hi -> I i s -> exists s', body i s = Some s' /\ I (i + 1) s') ->
  exists s', for_z lo hi body s = Some s' /\ I hi s'.
Proof.
  intros Hle H0 Hstep. unfold for_z.
  remember (Z.to_nat (hi - lo)) as n eqn:Hn.
  revert lo s Hle H0 Hstep Hn. induction n as [|n IH]; intros lo s Hle H0 Hstep Hn; simpl.
  - assert (lo = hi) as -> by lia. eauto.
  - destruct (Hstep lo s) as (s' & -> & HI); [lia|done|]. simpl.
    apply IH; [lia|done| |lia]. intros. apply Hstep; [lia|done].
Qed.

(** The partial-correctness rule: what a run that returned satisfies. *)
Lemma for_z_partial (I : Z -> S -> Prop) lo hi body s s' :
  lo <= hi -> I lo s ->
  (forall i s s', lo <= i < hi -> I i s -> body i s = Some s' -> I (i + 1) s') ->
  for_z lo hi body s = Some s' -> I hi s'.
Proof.
  intros Hle H0 Hstep. unfold for_z.
  remember (Z.to_nat (hi - lo)) as n eqn:Hn.
  revert lo s Hle H0 Hstep Hn. induction n as [|n IH];
    intros lo s Hle H0 Hstep Hn Hrun; simpl in Hrun.
  - assert (lo = hi) as -> by lia. by simplify_eq.
  - destruct (body lo s) as [s1|] eqn:Hb; simpl in Hrun; [|done].
    eapply (IH (lo + 1) s1); [lia| | |lia|done].
    + eapply Hstep; [lia|done|done].
    + intros i s2 s3 Hi. apply Hstep. lia.
Qed.

(** The total-correctness rule of [while]: a measure bounded by the fuel. *)
Lemma while_fuel_inv (I : S -> Prop) (m : S -> nat) fuel cond body s :
  I s -> (m s < fuel)%nat ->
  (forall s, I s -> cond s = Some false \/
     cond s = Some true /\
     exists s', body s = Some s' /\ I s' /\ (m s' < m s)%nat) ->
  exists s', while_fuel fuel cond body s = Some s' /\ I s' /\ cond s' = Some false.
Proof.
  revert s. induction fuel as [|fuel IH]; intros s HI Hm Hstep; [lia|]. simpl.
  destruct (Hstep s HI) as [Hc|(Hc & s' & Hb & HI' & Hlt)]; rewrite Hc; simpl.
  - eauto.
  - rewrite Hb. simpl. apply IH; [done|lia|done].
Qed.

Lemma while_fuel_done fuel cond body (s : S) :
  cond s = Some false -> while_fuel (Datatypes.S fuel) cond body s = Some s.
Proof. intros Hc. simpl. by rewrite Hc. Qed.

Lemma for_z_empty lo hi body (s : S) : hi <= lo -> for_z lo hi body s = Some s.
Proof. intros. unfold for_z. by replace (Z.to_nat (hi - lo)) with O by lia. Qed.

Lemma for_z_step lo hi body (s : S) :
  lo < hi -> for_z lo hi body s = s' ← body lo s; for_z (lo + 1) hi body s'.
Proof.
  intros. unfold for_z.
  replace (Z.to_nat (hi - lo)) with (Datatypes.S (Z.to_nat (hi - (lo + 1)))) by lia.
  done.
Qed.

Lemma for_z_ext (body' body : Z -> S -> option S) lo hi s :
  (forall i s, body i s = body' i s) -> for_z lo hi body s = for_z lo hi body' s.
Proof.
  intros H. unfold for_z. generalize (Z.to_nat (hi - lo)). intros n. revert lo s.
  induction n as [|n IH]; intros lo s; [done|]. simpl. rewrite H.
  destruct (body' lo s); [|done]. apply IH.
Qed.

(** A loop whose body never fails is a fold over its indices. *)
Lemma for_z_pure (f : Z -> S -> S) lo hi s :
  for_z lo hi (fun i s => Some (f i s)) s
  = Some (fold_left (fun s i => f i s) (seqZ lo (hi - lo)) s).
Proof.
  unfold for_z, seqZ.
  remember (Z.to_nat (hi - lo)) as n eqn:Hn. clear Hn.
  rewrite <- (Z.add_0_r lo) at 1. change 0 with (Z.of_nat 0). generalize O.
  revert s. induction n as [|n IH]; intros s k; simpl; [done|].
  replace (lo + Z.of_nat k + 1) with (lo + Z.of_nat (Datatypes.S k)) by lia.
  rewrite IH. do 3 f_equal. lia.
Qed.
End Loops.

(** The loop that writes every cell of an array. *)
Lemma for_z_fill {A} n (f : Z -> A) (a : list A) (v : Z -> option A) :
  0 <= n <= alen a -> (forall i, 0 <= i < n -> v i = Some (f i)) ->
  exists a', for_z 0 n (fun i a => x ← v i; a.[i <- x]) a = Some a' /\
    alen a' = alen a /\
    forall j, 0 <= j -> a'.[j] = if j <? n then Some (f j) else a.[j].
Proof.
  intros Hn Hv. eapply (for_z_inv (fun i a' => alen a' = alen a /\
    forall j, 0 <= j -> a'.[j] = if j <? i then Some (f j) else a.[j])); [lia| |].
  - split; [done|]. intros j Hj. destruct (Z.ltb_spec j 0); [lia|done].
  - intros i a1 Hi [Hl Ha]. rewrite Hv by lia. simpl.
    rewrite aset_in by lia. eexists. split; [done|].
    rewrite alen_insert. split; [done|]. intros j Hj.
    rewrite aget_insert by lia. rewrite Ha by done.
    case_decide; destruct (Z.ltb_spec j (i + 1)), (Z.ltb_spec j i); subst; done || lia.
Qed.

(** Peels the monadic structure of a run that is known to have returned. *)
Ltac run_inv H :=
  repeat (simpl in H;
    match type of H with
    | mbind _ ?o = Some _ =>
        let E := fresh "E" in destruct o eqn:E; [|discriminate H]
    | Some _ = Some _ => injection H as H
    end).
