(* ===== verification/Arrays.v ===== *)
(** * Array loops

    The loops that C code keeps writing over arrays: linear scans, shifts by
    one cell, block copies, copies that leave a hole.  Each comes with the cell
    by cell description of its result. *)

From stdpp Require Import list numbers.
From Stdlib Require Import ZArith Lia.
From S2P Require Import Prelude.
#[local] Open Scope Z_scope.

(** [i = 0; while (i < n && test(i)) i++;] *)
Definition scan (n : Z) (test : Z -> option bool) : option Z :=
  while_fuel (S (Z.to_nat n))
    (fun i => if i <? n then test i else Some false) (fun i => Some (i + 1)) 0.

(** [for (i = hi; i > lo; i--) body] *)
Definition for_down {S} (hi lo : Z) (body : Z -> S -> option S) (s : S) : option S :=
  for_z 0 (hi - lo) (fun k s => body (hi - k) s) s.

(** [a[i] = b[j]] *)
Definition copy {A} (a : list A) (i : Z) (b : list A) (j : Z) : option (list A) :=
  x ← b.[j]; a.[i <- x].

(** ** Scans *)

(** The scan stops at the first index where the test fails. *)
Lemma scan_ok n (f : Z -> bool) test :
  0 <= n -> (forall i, 0 <= i < n -> test i = Some (f i)) ->
  exists j, scan n test = Some j /\ 0 <= j <= n /\
    (forall i, 0 <= i < j -> f i = true) /\ (j < n -> f j = false).
Proof.
  intros Hn Ht. unfold scan.
  destruct (while_fuel_inv (fun j => 0 <= j <= n /\ forall i, 0 <= i < j -> f i = true)
    (fun j => Z.to_nat (n - j)) (S (Z.to_nat n))
    (fun i => if i <? n then test i else Some false) (fun i => Some (i + 1)) 0)
    as (j & Hrun & (Hj & Hf) & Hc).
  - split; [lia|]. intros. lia.
  - lia.
  - intros j [Hj Hf]. destruct (Z.ltb_spec j n); [|by left]. rewrite Ht by lia.
    destruct (f j) eqn:E; [right|by left]. split; [done|]. eexists. split; [done|].
    split; [|lia]. split; [lia|]. intros i Hi. destruct (decide (i = j)) as [->|]; [done|].
    apply Hf. lia.
  - exists j. split; [done|]. split; [done|]. split; [done|]. intros Hlt.
    destruct (Z.ltb_spec j n); [|lia]. rewrite Ht in Hc by lia. by injection Hc.
Qed.

(** The index the scan returns is determined by its test. *)
Lemma scan_unique n (f : Z -> bool) test j :
  0 <= j <= n -> (forall i, 0 <= i < n -> test i = Some (f i)) ->
  (forall i, 0 <= i < j -> f i = true) -> (j < n -> f j = false) ->
  scan n test = Some j.
Proof.
  intros Hj Ht H1 H2. destruct (scan_ok n f test) as (j' & -> & Hj' & H1' & H2'); [lia|done|].
  f_equal. destruct (Z.lt_trichotomy j j') as [Hlt|[->|Hlt]]; [|done|].
  - specialize (H1' j ltac:(lia)). specialize (H2 ltac:(lia)). congruence.
  - specialize (H1 j' ltac:(lia)). specialize (H2' ltac:(lia)). congruence.
Qed.

(** ** Loops over several arrays *)

(** A loop on two independent components is the two loops. *)
Lemma for_z_pair {S T} lo hi (f : Z -> S -> option S) (g : Z -> T -> option T) s t s' t' :
  for_z lo hi f s = Some s' -> for_z lo hi g t = Some t' ->
  for_z lo hi (fun i '(s, t) => s ← f i s; t ← g i t; Some (s, t)) (s, t) = Some (s', t').
Proof.
  unfold for_z. generalize (Z.to_nat (hi - lo)). intros n. revert lo s t.
  induction n as [|n IH]; intros lo s t Hs Ht; cbn [for_nat] in *; [by simplify_eq|].
  destruct (f lo s) as [s1|]; cbn [mbind option_bind] in *; [|done].
  destruct (g lo t) as [t1|]; cbn [mbind option_bind] in *; [|done]. by apply IH.
Qed.

(** A counter in a loop counts the iterations. *)
Lemma for_z_count lo hi n :
  lo <= hi -> for_z lo hi (fun _ n => Some (n + 1)) n = Some (n + (hi - lo)).
Proof.
  intros Hle. edestruct (for_z_inv (fun i m => m = n + (i - lo)) lo hi
    (fun _ n => Some (n + 1)) n) as (m & Hrun & ->); [done|lia| |exact Hrun].
  intros i m Hi ->. eexists. split; [done|]. lia.
Qed.

Section Loops.
Context {A : Type}.
Implicit Types (a b : list A).

Lemma copy_in a i b j x :
  0 <= i < alen a -> b.[j] = Some x -> copy a i b j = Some (<[Z.to_nat i := x]> a).
Proof. intros Hi Hj. unfold copy. rewrite Hj. cbn [mbind option_bind]. by apply aset_in. Qed.

(** [for (i = hi; i > lo; i--) a[i] = a[i - 1];] *)
Lemma shift_right_ok a lo hi :
  0 <= lo <= hi -> hi < alen a ->
  exists a', for_down hi lo (fun i a => copy a i a (i - 1)) a = Some a' /\ alen a' = alen a /\
    forall j, 0 <= j -> a'.[j] = if (lo <? j) && (j <=? hi) then a.[j - 1] else a.[j].
Proof.
  intros Hlo Hhi. unfold for_down.
  destruct (for_z_inv (fun k a' => alen a' = alen a /\ forall j, 0 <= j ->
      a'.[j] = if (hi - k <? j) && (j <=? hi) then a.[j - 1] else a.[j])
    0 (hi - lo) (fun k a => copy a (hi - k) a (hi - k - 1)) a) as (a' & Hrun & Hl & Ha).
  - lia.
  - split; [done|]. intros j Hj.
    destruct (Z.ltb_spec (hi - 0) j), (Z.leb_spec j hi); simpl; lia || done.
  - intros k a1 Hk [Hl Ha]. destruct (aget_in a (hi - k - 1)) as [x Hx]; [lia|].
    rewrite (copy_in _ _ _ _ x); [|lia|].
    2:{ rewrite Ha by lia. destruct (Z.ltb_spec (hi - k) (hi - k - 1)); [lia|done]. }
    eexists. split; [done|]. rewrite alen_insert. split; [done|]. intros j Hj.
    rewrite aget_insert by lia. case_decide as E.
    + subst j. destruct (Z.ltb_spec (hi - (k + 1)) (hi - k)), (Z.leb_spec (hi - k) hi);
        simpl; lia || done.
    + rewrite Ha by done. destruct (Z.ltb_spec (hi - (k + 1)) j), (Z.ltb_spec (hi - k) j),
        (Z.leb_spec j hi); simpl; lia || done.
  - exists a'. split; [done|]. split; [done|]. intros j Hj. rewrite Ha by done.
    replace (hi - (hi - lo)) with lo by lia. done.
Qed.

(** [for (i = lo; i < hi; i++) a[i - 1] = a[i];] *)
Lemma shift_left_ok a lo hi :
  1 <= lo <= hi -> hi <= alen a ->
  exists a', for_z lo hi (fun i a => copy a (i - 1) a i) a = Some a' /\ alen a' = alen a /\
    forall j, 0 <= j -> a'.[j] = if (lo - 1 <=? j) && (j <? hi - 1) then a.[j + 1] else a.[j].
Proof.
  intros Hlo Hhi.
  destruct (for_z_inv (fun i a' => alen a' = alen a /\ forall j, 0 <= j ->
      a'.[j] = if (lo - 1 <=? j) && (j <? i - 1) then a.[j + 1] else a.[j])
    lo hi (fun i a => copy a (i - 1) a i) a) as (a' & Hrun & Hl & Ha).
  - lia.
  - split; [done|]. intros j Hj.
    destruct (Z.leb_spec (lo - 1) j), (Z.ltb_spec j (lo - 1)); simpl; lia || done.
  - intros i a1 Hi [Hl Ha]. destruct (aget_in a i) as [x Hx]; [lia|].
    rewrite (copy_in _ _ _ _ x); [|lia|].
    2:{ rewrite Ha by lia. destruct (Z.ltb_spec i (i - 1)); [lia|].
        by rewrite andb_false_r. }
    eexists. split; [done|]. rewrite alen_insert. split; [done|]. intros j Hj.
    rewrite aget_insert by lia. case_decide as E.
    + subst j. replace (i - 1 + 1) with i by lia.
      destruct (Z.leb_spec (lo - 1) (i - 1)), (Z.ltb_spec (i - 1) (i + 1 - 1));
        simpl; lia || done.
    + rewrite Ha by done. destruct (Z.leb_spec (lo - 1) j), (Z.ltb_spec j (i - 1)),
        (Z.ltb_spec j (i + 1 - 1)); simpl; lia || done.
  - exists a'. done.
Qed.

(** [for (i = lo, j = dst; i < hi; i++, j++) b[j] = a[i];] *)
Lemma copy_block_ok a b lo hi dst :
  0 <= lo <= hi -> hi <= alen a -> 0 <= dst -> dst + (hi - lo) <= alen b ->
  exists b', for_z lo hi (fun i '(j, b) => b ← copy b j a i; Some (j + 1, b)) (dst, b)
      = Some (dst + (hi - lo), b') /\ alen b' = alen b /\
    forall j, 0 <= j -> b'.[j] =
      if (dst <=? j) && (j <? dst + (hi - lo)) then a.[j - dst + lo] else b.[j].
Proof.
  intros Hlo Hhi Hd Hb.
  destruct (for_z_inv (fun i '(d, b') => d = dst + (i - lo) /\ alen b' = alen b /\
      forall j, 0 <= j -> b'.[j] =
        if (dst <=? j) && (j <? dst + (i - lo)) then a.[j - dst + lo] else b.[j])
    lo hi (fun i '(j, b) => b ← copy b j a i; Some (j + 1, b)) (dst, b))
    as ([d b'] & Hrun & -> & Hl & Ha).
  - lia.
  - split; [lia|]. split; [done|]. intros j Hj.
    destruct (Z.leb_spec dst j), (Z.ltb_spec j (dst + (lo - lo))); simpl; lia || done.
  - intros i [d b1] Hi (-> & Hl & Ha). destruct (aget_in a i) as [x Hx]; [lia|].
    rewrite (copy_in _ _ _ _ x) by (done || lia). cbn [mbind option_bind].
    eexists. split; [done|]. split; [lia|]. rewrite alen_insert. split; [done|].
    intros j Hj. rewrite aget_insert by lia. case_decide as E.
    + subst j. replace (dst + (i - lo) - dst + lo) with i by lia.
      destruct (Z.leb_spec dst (dst + (i - lo))), (Z.ltb_spec (dst + (i - lo)) (dst + (i + 1 - lo)));
        simpl; lia || done.
    + rewrite Ha by done. destruct (Z.leb_spec dst j), (Z.ltb_spec j (dst + (i - lo))),
        (Z.ltb_spec j (dst + (i + 1 - lo))); simpl; lia || done.
  - exists b'. done.
Qed.

(** [for (i = 0, j = 0; i < n; i++, j++) { if (j == h) j++; b[j] = a[i]; }] *)
Lemma copy_hole_ok a b n h :
  0 <= h <= n -> n <= alen a -> n < alen b ->
  exists d b', for_z 0 n (fun i '(j, b) =>
        let j := if j =? h then j + 1 else j in b ← copy b j a i; Some (j + 1, b)) (0, b)
      = Some (d, b') /\ alen b' = alen b /\
    forall j, 0 <= j -> j <> h -> b'.[j] =
      if j <? h then a.[j] else if j <=? n then a.[j - 1] else b.[j].
Proof.
  intros Hh Hn Hb.
  destruct (for_z_inv (fun i '(d, b') => d = (if i <=? h then i else i + 1) /\ alen b' = alen b /\
      forall j, 0 <= j -> j <> h -> b'.[j] =
        if (j <? h) && (j <? i) then a.[j]
        else if (h <? j) && (j <=? i) then a.[j - 1] else b.[j])
    0 n (fun i '(j, b) =>
        let j := if j =? h then j + 1 else j in b ← copy b j a i; Some (j + 1, b)) (0, b))
    as ([d b'] & Hrun & Hd & Hl & Ha).
  - lia.
  - split; [destruct (Z.leb_spec 0 h); lia|]. split; [done|]. intros j Hj Hne.
    destruct (Z.ltb_spec j h), (Z.ltb_spec j 0), (Z.ltb_spec h j), (Z.leb_spec j 0);
      simpl; lia || done.
  - intros i [d b1] Hi (-> & Hl & Ha). destruct (aget_in a i) as [x Hx]; [lia|].
    cbv zeta. set (d := if (if i <=? h then i else i + 1) =? h then _ else _).
    assert (d = if i <? h then i else i + 1) as Hd.
    { unfold d. destruct (Z.leb_spec i h), (Z.ltb_spec i h);
        [destruct (Z.eqb_spec i h)|destruct (Z.eqb_spec i h)|destruct (Z.eqb_spec (i + 1) h)
        |destruct (Z.eqb_spec (i + 1) h)]; lia. }
    clearbody d. rewrite (copy_in _ _ _ _ x); [|destruct (Z.ltb_spec i h); lia|done].
    cbn [mbind option_bind]. eexists. split; [done|].
    split; [destruct (Z.ltb_spec i h), (Z.leb_spec (i + 1) h); lia|].
    rewrite alen_insert. split; [done|]. intros j Hj Hne.
    rewrite aget_insert by (destruct (Z.ltb_spec i h); lia). case_decide as E.
    + subst j. destruct (Z.ltb_spec i h); subst d.
      * destruct (Z.ltb_spec i h), (Z.ltb_spec i (i + 1)); simpl; lia || done.
      * replace (i + 1 - 1) with i by lia.
        destruct (Z.ltb_spec (i + 1) h), (Z.ltb_spec h (i + 1)), (Z.leb_spec (i + 1) (i + 1));
          simpl; lia || done.
    + rewrite Ha by done.
      destruct (Z.ltb_spec i h), (Z.ltb_spec j h), (Z.ltb_spec j i), (Z.ltb_spec j (i + 1)),
        (Z.ltb_spec h j), (Z.leb_spec j i), (Z.leb_spec j (i + 1)); simpl; lia || done.
  - exists d, b'. split; [done|]. split; [done|]. intros j Hj Hne. rewrite Ha by done.
    destruct (Z.ltb_spec j h), (Z.ltb_spec j n), (Z.ltb_spec h j), (Z.leb_spec j n);
      simpl; lia || done.
Qed.

(** [for (i = lo; i < hi; i++) a[i] = v;] *)
Lemma fill_range_ok a lo hi (v : A) :
  0 <= lo -> hi <= alen a ->
  exists a', for_z lo hi (fun i a => a.[i <- v]) a = Some a' /\ alen a' = alen a /\
    forall j, 0 <= j -> a'.[j] = if (lo <=? j) && (j <? hi) then Some v else a.[j].
Proof.
  intros Hlo Hhi. destruct (decide (hi < lo)).
  { exists a. rewrite for_z_empty by lia. split; [done|]. split; [done|]. intros j Hj.
    destruct (Z.leb_spec lo j), (Z.ltb_spec j hi); simpl; lia || done. }
  destruct (for_z_inv (fun i a' => alen a' = alen a /\ forall j, 0 <= j ->
      a'.[j] = if (lo <=? j) && (j <? i) then Some v else a.[j])
    lo hi (fun i a => a.[i <- v]) a) as (a' & Hrun & Hl & Ha).
  - lia.
  - split; [done|]. intros j Hj.
    destruct (Z.leb_spec lo j), (Z.ltb_spec j lo); simpl; lia || done.
  - intros i a1 Hi [Hl Ha]. rewrite aset_in by lia. eexists. split; [done|].
    rewrite alen_insert. split; [done|]. intros j Hj. rewrite aget_insert, Ha by lia.
    case_decide; destruct (Z.leb_spec lo j), (Z.ltb_spec j i), (Z.ltb_spec j (i + 1));
      simpl; lia || done.
  - by exists a'.
Qed.
End Loops.

(** ** Arrays that start with a list *)

Definition holds {A} (a l : list A) : Prop :=
  alen l <= alen a /\ forall i, 0 <= i < alen l -> a.[i] = l.[i].

Lemma holds_nil {A} (a : list A) : holds a [].
Proof. split; [apply alen_nonneg|]. unfold alen. simpl. lia. Qed.

Lemma holds_get {A} (a l : list A) i : holds a l -> 0 <= i < alen l -> exists x, a.[i] = Some x /\ l.[i] = Some x.
Proof. intros [_ H] Hi. destruct (aget_in l i Hi) as [x Hx]. exists x. by rewrite H. Qed.

Lemma alen_app {A} (l k : list A) : alen (l ++ k) = alen l + alen k.
Proof. unfold alen. rewrite length_app. lia. Qed.

Lemma alen_cons {A} (x : A) l : alen (x :: l) = alen l + 1.
Proof. unfold alen. simpl. lia. Qed.

Lemma alen_nil {A} : alen (@nil A) = 0.
Proof. done. Qed.

Lemma alen_fmap {A B} (f : A -> B) l : alen (f <$> l) = alen l.
Proof. unfold alen. by rewrite length_fmap. Qed.

Lemma aget_app_l {A} (l k : list A) i : i < alen l -> (l ++ k).[i] = l.[i].
Proof.
  intros Hi. unfold aget. destruct (Z.ltb_spec i 0); [done|].
  apply lookup_app_l. unfold alen in Hi. lia.
Qed.

Lemma aget_app_r {A} (l k : list A) i : alen l <= i -> (l ++ k).[i] = k.[i - alen l].
Proof.
  intros Hi. unfold aget, alen in *. destruct (Z.ltb_spec i 0), (Z.ltb_spec (i - Z.of_nat (length l)) 0);
    [lia|lia|lia|].
  rewrite lookup_app_r by lia. f_equal. lia.
Qed.

Lemma aget_cons {A} (x : A) l i :
  (x :: l).[i] = if i =? 0 then Some x else l.[i - 1].
Proof.
  unfold aget. destruct (Z.ltb_spec i 0), (Z.eqb_spec i 0), (Z.ltb_spec (i - 1) 0);
    try lia; subst; try done.
  replace (Z.to_nat i) with (S (Z.to_nat (i - 1))) by lia. done.
Qed.

Lemma aget_fmap {A B} (f : A -> B) l i : (f <$> l).[i] = f <$> l.[i].
Proof. unfold aget. destruct (i <? 0); [done|]. apply list_lookup_fmap. Qed.

Lemma aget_middle {A} (l k : list A) x : (l ++ x :: k).[alen l] = Some x.
Proof. rewrite aget_app_r, Z.sub_diag by lia. done. Qed.

Lemma holds_app_l {A} (a l k : list A) : holds a (l ++ k) -> holds a l.
Proof.
  intros [Hl H]. rewrite alen_app in *. pose proof (alen_nonneg k). split; [lia|].
  intros i Hi. rewrite H by lia. apply aget_app_l. lia.
Qed.

(** A loop on two arrays that share their running index. *)
Lemma for_z_share {S T} lo hi (f : Z -> Z -> S -> option S) (f' : Z -> Z -> T -> option T)
    (g : Z -> Z) j s t j' s' t' :
  for_z lo hi (fun i '(j, s) => s ← f i j s; Some (g j, s)) (j, s) = Some (j', s') ->
  for_z lo hi (fun i '(j, t) => t ← f' i j t; Some (g j, t)) (j, t) = Some (j', t') ->
  for_z lo hi (fun i '(j, s, t) => s ← f i j s; t ← f' i j t; Some (g j, s, t)) (j, s, t)
  = Some (j', s', t').
Proof.
  unfold for_z. generalize (Z.to_nat (hi - lo)). intros n. revert lo j s t.
  induction n as [|n IH]; intros lo j s t Hs Ht; cbn [for_nat] in *; [by simplify_eq|].
  destruct (f lo j s) as [s1|]; cbn [mbind option_bind] in *; [|done].
  destruct (f' lo j t) as [t1|]; cbn [mbind option_bind] in *; [|done]. by apply IH.
Qed.

(** The same with a counter of the copied cells. *)
Lemma for_z_share_count {S T} lo hi (f : Z -> Z -> S -> option S) (f' : Z -> Z -> T -> option T)
    (g : Z -> Z) j s t n j' s' t' :
  lo <= hi ->
  for_z lo hi (fun i '(j, s) => s ← f i j s; Some (g j, s)) (j, s) = Some (j', s') ->
  for_z lo hi (fun i '(j, t) => t ← f' i j t; Some (g j, t)) (j, t) = Some (j', t') ->
  for_z lo hi (fun i '(j, s, t, n) => s ← f i j s; t ← f' i j t; Some (g j, s, t, n + 1))
    (j, s, t, n) = Some (j', s', t', n + (hi - lo)).
Proof.
  intros Hle Hs Ht. pose proof (for_z_share lo hi f f' g j s t j' s' t' Hs Ht) as Hst.
  rewrite <- (for_z_pair lo hi _ (fun _ n => Some (n + 1)) _ n _ _ Hst (for_z_count lo hi n Hle)).
  apply for_z_ext. intros i [[[j1 s1] t1] n1]. cbn [mbind option_bind].
  destruct (f i j1 s1); [|done]. cbn [mbind option_bind]. by destruct (f' i j1 t1).
Qed.

Lemma for_z_pair_count {S T} lo hi (f : Z -> S -> option S) (g : Z -> T -> option T) s t n s' t' :
  lo <= hi -> for_z lo hi f s = Some s' -> for_z lo hi g t = Some t' ->
  for_z lo hi (fun i '(s, t, n) => s ← f i s; t ← g i t; Some (s, t, n + 1)) (s, t, n)
  = Some (s', t', n + (hi - lo)).
Proof.
  intros Hle Hs Ht. pose proof (for_z_pair lo hi f g s t s' t' Hs Ht) as Hst.
  rewrite <- (for_z_pair lo hi _ (fun _ n => Some (n + 1)) _ n _ _ Hst (for_z_count lo hi n Hle)).
  apply for_z_ext. intros i [[s1 t1] n1]. cbn [mbind option_bind].
  destruct (f i s1); [|done]. cbn [mbind option_bind]. by destruct (g i t1).
Qed.

Section Holds.
Context {A : Type}.
Implicit Types (a b l : list A).

(** Cell by cell description of [l1 ++ x :: l2]. *)
Lemma aget_insert_mid l1 l2 (x : A) i :
  0 <= i -> i <> alen l1 ->
  (l1 ++ x :: l2).[i] = if i <? alen l1 then (l1 ++ l2).[i] else (l1 ++ l2).[i - 1].
Proof.
  intros Hi Hne. destruct (Z.ltb_spec i (alen l1)).
  - by rewrite !aget_app_l by lia.
  - rewrite !aget_app_r, aget_cons by lia. destruct (Z.eqb_spec (i - alen l1) 0); [lia|].
    f_equal. lia.
Qed.

(** Shifting the cells above [l1] and writing [x] inserts it after [l1]. *)
Lemma shift_insert a l1 l2 x :
  holds a (l1 ++ l2) -> alen (l1 ++ l2) < alen a ->
  exists a1 a', for_down (alen (l1 ++ l2)) (alen l1) (fun i a => copy a i a (i - 1)) a = Some a1 /\
    a1.[alen l1 <- x] = Some a' /\ alen a' = alen a /\ holds a' (l1 ++ x :: l2) /\
    forall j, alen (l1 ++ l2) < j -> a'.[j] = a.[j].
Proof.
  intros [_ Hh] Hlen. pose proof (alen_nonneg l1). pose proof (alen_nonneg l2).
  rewrite alen_app in *.
  destruct (shift_right_ok a (alen l1) (alen l1 + alen l2)) as (a1 & Hrun & Hl & Ha); [lia..|].
  exists a1. rewrite aset_in by lia. eexists. split; [done|]. split; [done|].
  rewrite alen_insert. split; [done|]. split.
  - split; rewrite alen_app, alen_cons, ?alen_insert; [lia|]. intros i Hi.
    rewrite aget_insert by lia. case_decide as E; [subst; by rewrite aget_middle|].
    rewrite Ha, aget_insert_mid by lia.
    destruct (Z.ltb_spec i (alen l1)), (Z.ltb_spec (alen l1) i), (Z.leb_spec i (alen l1 + alen l2));
      simpl; try lia; apply Hh; lia.
  - intros j Hj. rewrite aget_insert by lia. case_decide; [lia|]. rewrite Ha by lia.
    destruct (Z.leb_spec j (alen l1 + alen l2)); [lia|]. by rewrite andb_false_r.
Qed.

(** Copying around a hole and writing [x] into it does the same in a fresh array. *)
Lemma hole_insert a b l1 l2 x :
  holds a (l1 ++ l2) -> alen (l1 ++ l2) < alen b ->
  exists d b1 b', for_z 0 (alen (l1 ++ l2)) (fun i '(j, b) =>
        let j := if j =? alen l1 then j + 1 else j in b ← copy b j a i; Some (j + 1, b)) (0, b)
      = Some (d, b1) /\
    b1.[alen l1 <- x] = Some b' /\ alen b' = alen b /\ holds b' (l1 ++ x :: l2).
Proof.
  intros [Hle Hh] Hlen. pose proof (alen_nonneg l1). pose proof (alen_nonneg l2).
  rewrite alen_app in *.
  destruct (copy_hole_ok a b (alen l1 + alen l2) (alen l1)) as (d & b1 & Hrun & Hl & Hb); [lia..|].
  exists d, b1. rewrite aset_in by lia. eexists. split; [done|]. split; [done|].
  rewrite alen_insert. split; [done|].
  split; rewrite alen_app, alen_cons, ?alen_insert; [lia|]. intros i Hi.
  rewrite aget_insert by lia. case_decide as E; [subst; by rewrite aget_middle|].
  rewrite Hb, aget_insert_mid by lia.
  destruct (Z.ltb_spec i (alen l1)), (Z.leb_spec i (alen l1 + alen l2)); try lia; apply Hh; lia.
Qed.

Lemma copy_prefix a t l1 l2 :
  holds t (l1 ++ l2) -> alen l1 <= alen a ->
  exists a', for_z 0 (alen l1) (fun i a => copy a i t i) a = Some a' /\ alen a' = alen a /\
    holds a' l1 /\ forall j, alen l1 <= j -> a'.[j] = a.[j].
Proof.
  intros [Hle Hh] Hlen. pose proof (alen_nonneg l1). pose proof (alen_nonneg l2).
  rewrite alen_app in *.
  destruct (for_z_inv (fun i a' => alen a' = alen a /\ forall j, 0 <= j ->
      a'.[j] = if j <? i then t.[j] else a.[j]) 0 (alen l1) (fun i a => copy a i t i) a)
    as (a' & Hrun & Hl & Ha).
  - lia.
  - split; [done|]. intros j Hj. destruct (Z.ltb_spec j 0); [lia|done].
  - intros i a1 Hi [Hl Ha]. destruct (aget_in t i) as [x Hx]; [lia|].
    rewrite (copy_in _ _ _ _ x) by (done || lia). eexists. split; [done|].
    rewrite alen_insert. split; [done|]. intros j Hj. rewrite aget_insert by lia.
    case_decide; [subst; destruct (Z.ltb_spec i (i + 1)); [done|lia]|]. rewrite Ha by done.
    destruct (Z.ltb_spec j i), (Z.ltb_spec j (i + 1)); lia || done.
  - exists a'. split; [done|]. split; [done|]. split.
    + split; [lia|]. intros i Hi. rewrite Ha by lia. destruct (Z.ltb_spec i (alen l1)); [|lia].
      rewrite Hh by lia. apply aget_app_l. lia.
    + intros j Hj. rewrite Ha by lia. destruct (Z.ltb_spec j (alen l1)); [lia|done].
Qed.

Lemma copy_suffix a t l1 l2 :
  holds t (l1 ++ l2) -> alen l2 <= alen a ->
  exists a', for_z (alen l1) (alen (l1 ++ l2))
      (fun i '(j, a) => a ← copy a j t i; Some (j + 1, a)) (0, a) = Some (alen l2, a') /\
    alen a' = alen a /\ holds a' l2 /\ forall j, alen l2 <= j -> a'.[j] = a.[j].
Proof.
  intros [Hle Hh] Hlen. pose proof (alen_nonneg l1). pose proof (alen_nonneg l2).
  rewrite alen_app in *.
  destruct (copy_block_ok t a (alen l1) (alen l1 + alen l2) 0) as (a' & Hrun & Hl & Ha); [lia..|].
  replace (0 + (alen l1 + alen l2 - alen l1)) with (alen l2) in * by lia.
  exists a'. split; [done|]. split; [done|]. split.
  - split; [lia|]. intros i Hi. rewrite Ha by lia.
    destruct (Z.leb_spec 0 i), (Z.ltb_spec i (alen l2)); simpl; try lia.
    rewrite Hh by lia. rewrite aget_app_r by lia. f_equal. lia.
  - intros j Hj. rewrite Ha by lia. destruct (Z.ltb_spec j (alen l2)); [lia|].
    by rewrite andb_false_r.
Qed.

(** One more cell behind the prefix. *)
Lemma holds_snoc a l x a' :
  holds a l -> a.[alen l <- x] = Some a' -> holds a' (l ++ [x]).
Proof.
  intros [Hle Hh] [Hi ->]%aset_some. split; rewrite alen_app, ?alen_insert.
  - change (alen [x]) with 1. lia.
  - change (alen [x]) with 1. intros i Hi'. rewrite aget_insert by lia.
    case_decide; [subst; by rewrite aget_middle|]. rewrite Hh by lia.
    rewrite aget_app_l by lia. done.
Qed.

(** Writes above the prefix. *)
Lemma holds_ext a a' l :
  holds a l -> alen a' = alen a -> (forall j, 0 <= j < alen l -> a'.[j] = a.[j]) -> holds a' l.
Proof. intros [Hle Hh] Hl Ha. split; [lia|]. intros i Hi. by rewrite Ha, Hh. Qed.
End Holds.

(** The elements of an array. *)
Lemma elem_aget {A} (l : list A) x : x ∈ l <-> exists i, l.[i] = Some x.
Proof.
  split.
  - intros [i Hi]%list_elem_of_lookup. exists (Z.of_nat i). by rewrite aget_nat.
  - intros [i Hi]. pose proof (aget_some_range _ _ _ Hi) as Hr. unfold aget in Hi.
    destruct (Z.ltb_spec i 0); [lia|]. by apply list_elem_of_lookup_2 in Hi.
Qed.
