(* ===== verification/CLib.v ===== *)
(** * Strings and numbers of the C library

    A C string is the list of its characters before the terminating zero.  The
    functions that turn strings into numbers are those of the C library the
    programs are linked with: they skip white space, stop at the first character
    that is not a digit, and stay at the end of the type's range. *)

From Stdlib Require Import ZArith Lia Ascii String.
From stdpp Require Import list numbers.
From S2P Require Import Prelude.
#[local] Open Scope Z_scope.

Definition isspace (c : Z) : bool := (c =? 32) || ((9 <=? c) && (c <=? 13)).
Definition isdigit (c : Z) : bool := (48 <=? c) && (c <=? 57).

Fixpoint skip_space (s : list Z) : list Z :=
  match s with c :: s' => if isspace c then skip_space s' else s | [] => [] end.

(** The digits at the start of [s] as a number, and what follows them. *)
Fixpoint digits (acc : Z) (s : list Z) : Z * list Z :=
  match s with
  | c :: s' => if isdigit c then digits (10 * acc + (c - 48)) s' else (acc, s)
  | [] => (acc, [])
  end.

Definition ULLONG_MAX : Z := 2 ^ 64 - 1.

(** [strtoull(str, &endptr, 10)] of the C library. *)
Definition strtoull (str : list Z) : Z * list Z :=
  let s := skip_space str in
  let '(neg, s) := match s with
                   | c :: s' => if c =? 45 then (true, s') else if c =? 43 then (false, s') else (false, s)
                   | [] => (false, [])
                   end in
  match s with
  | c :: _ =>
      if isdigit c then
        let '(v, endptr) := digits 0 s in
        if ULLONG_MAX <? v then (ULLONG_MAX, endptr) else (if neg then u64 (- v) else v, endptr)
      else (0, str)
  | [] => (0, str)
  end.

(** The [int] with the low 32 bits of a number. *)
Definition s32 (x : Z) : Z := let y := u32 x in if y <? 2 ^ 31 then y else y - 2 ^ 32.

Definition atol (str : list Z) : Z :=
  let s := skip_space str in
  let '(neg, s) := match s with
                   | c :: s' => if c =? 45 then (true, s') else if c =? 43 then (false, s') else (false, s)
                   | [] => (false, [])
                   end in
  let v := fst (digits 0 s) in
  if neg then Z.max (- 2 ^ 63) (- v) else Z.min (2 ^ 63 - 1) v.
Definition atoi (str : list Z) : Z := s32 (atol str).

(** A literal. *)
Definition chars (s : string) : list Z := (fun c => Z.of_N (N_of_ascii c)) <$> list_ascii_of_string s.

Definition tolower (c : Z) : Z := if (65 <=? c) && (c <=? 90) then c + 32 else c.

(** [strcmp(a, b) == 0], [strcasecmp(a, b) == 0] *)
Definition streq (a b : list Z) : bool := bool_decide (a = b).
Definition strcaseeq (a b : list Z) : bool := streq (tolower <$> a) (tolower <$> b).

Lemma s32_range x : - 2 ^ 31 <= s32 x < 2 ^ 31.
Proof.
  unfold s32. pose proof (u32_range x) as H. unfold in_u32 in H. destruct (Z.ltb_spec (u32 x) (2 ^ 31)); lia.
Qed.

Lemma atol_range str : in_s64 (atol str).
Proof.
  unfold atol, in_s64. destruct (match skip_space str with [] => _ | _ => _ end) as [neg s].
  assert (forall s acc, 0 <= acc -> 0 <= fst (digits acc s)) as Hd.
  { clear. induction s as [|c s IH]; intros acc Ha; cbn [digits]; [done|]. destruct (isdigit c) eqn:Ec; [|done].
    apply IH. unfold isdigit in Ec. lia. }
  specialize (Hd s 0 ltac:(lia)). destruct neg; lia.
Qed.

(** ** Numbers, printed and read back *)

(** [printf("%lu")] *)
Fixpoint print_digits (fuel : nat) (n : Z) (acc : list Z) : list Z :=
  match fuel with
  | O => acc
  | S fuel => let acc := 48 + n mod 10 :: acc in if n <? 10 then acc else print_digits fuel (n / 10) acc
  end.
Definition decimal (n : Z) : list Z := print_digits 20 n [].

Lemma isdigit_digit d : 0 <= d < 10 -> isdigit (48 + d) = true.
Proof. intros. unfold isdigit. apply andb_true_intro. split; lia. Qed.

Lemma print_digits_app fuel n acc rest : print_digits fuel n acc ++ rest = print_digits fuel n (acc ++ rest).
Proof. revert n acc. induction fuel as [|fuel IH]; intros n acc; cbn; [done|]. by case_match; [|rewrite IH]. Qed.

Lemma print_digits_head fuel n acc : exists d s, print_digits (S fuel) n acc = 48 + d :: s /\ 0 <= d < 10.
Proof.
  revert n acc. induction fuel as [|fuel IH]; intros n acc; cbn [print_digits] in *.
  - exists (n mod 10), acc. split; [by case_match|]. apply Z.mod_pos_bound. lia.
  - destruct (n <? 10); [|apply IH]. exists (n mod 10), acc. split; [done|]. apply Z.mod_pos_bound. lia.
Qed.

Lemma digits_print fuel n acc : 0 <= n < 10 ^ Z.of_nat fuel -> digits 0 (print_digits fuel n acc) = digits n acc.
Proof.
  revert n acc. induction fuel as [|fuel IH]; intros n acc Hn; cbn [print_digits].
  - by replace n with 0 by lia.
  - rewrite Nat2Z.inj_succ, Z.pow_succ_r in Hn by lia. pose proof (Z.mod_pos_bound n 10 ltac:(lia)) as Hm.
    pose proof (Z.div_mod n 10 ltac:(lia)) as Hd.
    assert (forall a, digits a (48 + n mod 10 :: acc) = digits (10 * a + n mod 10) acc) as Hstep.
    { intros a. cbn [digits]. rewrite isdigit_digit by done. by replace (48 + n mod 10 - 48) with (n mod 10) by lia. }
    destruct (Z.ltb_spec n 10).
    + rewrite Hstep, Z.mod_small by lia. f_equal.
    + rewrite IH by (split; [apply Z.div_pos; lia|apply Z.div_lt_upper_bound; lia]). rewrite Hstep. f_equal. lia.
Qed.

Lemma strtoull_decimal n rest : in_u64 n -> digits n rest = (n, rest) -> strtoull (decimal n ++ rest) = (n, rest).
Proof.
  intros Hn Hrest. unfold strtoull, decimal. rewrite print_digits_app. cbn [app].
  destruct (print_digits_head 19 n rest) as (d & s & E & Hd).
  assert (digits 0 (print_digits 20 n rest) = (n, rest)) as Hv.
  { rewrite digits_print; [done|]. unfold in_u64 in Hn. change (10 ^ Z.of_nat 20) with 100000000000000000000. lia. }
  rewrite E in *. cbn [skip_space].
  assert (isspace (48 + d) = false) as -> by (unfold isspace; lia).
  destruct (Z.eqb_spec (48 + d) 45); [lia|]. destruct (Z.eqb_spec (48 + d) 43); [lia|].
  rewrite isdigit_digit by done. rewrite Hv. destruct (Z.ltb_spec ULLONG_MAX n); [|done].
  unfold in_u64, ULLONG_MAX in *. lia.
Qed.
