(* ===== verification/Threads.v ===== *)
(** * Teams of threads

    A parallel region between two barriers: threads with private state that
    take atomic steps on shared state in any order.  A program that has such
    regions is a function of the scheduler, which decides at every step which
    of the threads that still run goes next, and how the iterations of a loop
    are dealt out; a theorem about it holds for every scheduler.  [None] is an
    access out of range, a failed assertion, or a region that has not ended
    after the number of steps it was given. *)

From Stdlib Require Import ZArith Lia.
From stdpp Require Import list numbers.
From S2P Require Import Prelude Arrays.
#[local] Open Scope Z_scope.

(** The number of threads and the decisions of the runtime, by the number of
    steps taken so far. *)
Class Team := {
  nt : Z;
  nt_pos : 0 < nt;
  pick : nat -> nat;
  deal : nat -> Z -> Z -> list (list Z);
  deal_length c lo hi : alen (deal c lo hi) = nt;
  deal_all c lo hi : mjoin (deal c lo hi) ≡ₚ seqZ lo (hi - lo);
}.

(** A computation with a clock that counts the steps. *)
Definition Par (A : Type) : Type := nat -> option (A * nat).

#[export] Instance Par_ret : MRet Par := fun A a c => Some (a, c).
#[export] Instance Par_bind : MBind Par := fun A B f p c =>
  match p c with Some (a, c) => f a c | None => None end.

Definition lift {A} (o : option A) : Par A := fun c => match o with Some a => Some (a, c) | None => None end.

(** It ends, whatever the time, and what it returns satisfies [Q]. *)
Definition ends {A} (p : Par A) (Q : A -> Prop) : Prop :=
  forall c, exists a c', p c = Some (a, c') /\ Q a.

Section Ends.
Context {A B : Type}.

Lemma ends_ret (a : A) (Q : A -> Prop) : Q a -> ends (mret a) Q.
Proof. intros HQ c. by exists a, c. Qed.

Lemma ends_bind (p : Par A) (f : A -> Par B) Q : ends p (fun a => ends (f a) Q) -> ends (p ≫= f) Q.
Proof.
  intros Hp c. destruct (Hp c) as (a & c' & E & Hf). destruct (Hf c') as (b & c2 & E2 & HQ).
  exists b, c2. split; [|done]. unfold mbind, Par_bind. by rewrite E.
Qed.

Lemma ends_lift (o : option A) a (Q : A -> Prop) : o = Some a -> Q a -> ends (lift o) Q.
Proof. intros -> HQ c. by exists a, c. Qed.

Lemma ends_mono (p : Par A) (P Q : A -> Prop) : ends p P -> (forall a, P a -> Q a) -> ends p Q.
Proof. intros Hp HPQ c. destruct (Hp c) as (a & c' & E & HP). eauto. Qed.

(** What holds in every run and is found along the way. *)
Lemma ends_exists (p : Par A) (o : option A) (Q : A -> Prop) :
  (exists a, o = Some a /\ Q a) -> p = lift o -> ends p Q.
Proof. intros (a & -> & HQ) ->. by eapply ends_lift. Qed.
End Ends.

Section Region.
Context {team_of : Team} {S T : Type} (act : nat -> S -> T -> option (S * T)) (fin : T -> bool).

(** The threads that still run. *)
Definition runs (ts : list T) (tid : nat) : bool :=
  match ts !! tid with Some t => negb (fin t) | None => false end.
Definition running (ts : list T) : list nat := filter (fun tid => runs ts tid = true) (seq 0 (length ts)).

Fixpoint region (fuel : nat) (s : S) (ts : list T) : Par (S * list T) := fun c =>
  match running ts with
  | [] => Some ((s, ts), c)
  | ready =>
      match fuel with
      | O => None
      | Datatypes.S fuel =>
          tid ← ready !! (pick c mod length ready)%nat;
          t ← ts !! tid;
          '(s, t) ← act tid s t;
          region fuel s (<[tid := t]> ts) (Datatypes.S c)
      end
  end.

Lemma running_elem ts tid : tid ∈ running ts <-> exists t, ts !! tid = Some t /\ fin t = false.
Proof.
  unfold running. rewrite list_elem_of_filter, elem_of_seq. split.
  - intros [H _]. unfold runs in H. destruct (ts !! tid) as [t|]; [|done]. exists t. by destruct (fin t).
  - intros (t & Ht & Hf). unfold runs. rewrite Ht, Hf. split; [done|]. apply lookup_lt_Some in Ht. lia.
Qed.

(** The rule of a region: an invariant that every step of every thread keeps,
    and a measure that every step makes smaller. *)
Lemma region_ok (I : S -> list T -> Prop) (m : S -> list T -> nat) fuel s ts :
  I s ts -> (m s ts <= fuel)%nat ->
  (forall s ts tid t, I s ts -> ts !! tid = Some t -> fin t = false ->
    exists s' t', act tid s t = Some (s', t') /\ I s' (<[tid := t']> ts) /\ (m s' (<[tid := t']> ts) < m s ts)%nat) ->
  ends (region fuel s ts) (fun '(s', ts') => I s' ts' /\ Forall (fun t => fin t = true) ts').
Proof.
  intros HI Hm Hstep. revert s ts HI Hm. induction fuel as [|fuel IH]; intros s ts HI Hm c; cbn [region].
  all: destruct (running ts) as [|tid0 ready] eqn:Er.
  1,3: exists (s, ts), c; split; [done|]; split; [done|]; apply Forall_lookup; intros tid t Ht;
    destruct (fin t) eqn:Ef; [done|]; exfalso;
    assert (tid ∈ running ts) as Hin by (apply running_elem; eauto);
    rewrite Er in Hin; by apply not_elem_of_nil in Hin.
  - assert (tid0 ∈ running ts) as (t & Ht & Hf)%running_elem by (rewrite Er; left).
    destruct (Hstep s ts tid0 t HI Ht Hf) as (? & ? & _ & _ & ?). lia.
  - destruct (lookup_lt_is_Some_2 (tid0 :: ready) (pick c mod length (tid0 :: ready))%nat) as [tid Htid].
    { apply Nat.mod_upper_bound. cbn. lia. }
    rewrite Htid. cbn [mbind option_bind].
    assert (tid ∈ running ts) as (t & Ht & Hf)%running_elem by (rewrite Er; by eapply list_elem_of_lookup_2).
    rewrite Ht. cbn [mbind option_bind].
    destruct (Hstep s ts tid t HI Ht Hf) as (s' & t' & -> & HI' & Hlt). cbn [mbind option_bind].
    apply IH; [done|lia].
Qed.
End Region.

(** ** Loops whose iterations are dealt out *)

Section Deal.
Context {team_of : Team}.

Definition dealt (lo hi : Z) : Par (list (list Z)) := fun c => Some (deal c lo hi, c).

Lemma ends_dealt lo hi (Q : list (list Z) -> Prop) :
  (forall todos, alen todos = nt -> mjoin todos ≡ₚ seqZ lo (hi - lo) -> Q todos) -> ends (dealt lo hi) Q.
Proof. intros HQ c. exists (deal c lo hi), c. split; [done|]. apply HQ; [apply deal_length|apply deal_all]. Qed.

Lemma join_insert {A} (ls : list (list A)) i x l : ls !! i = Some (x :: l) -> mjoin ls ≡ₚ x :: mjoin (<[i := l]> ls).
Proof.
  revert i. induction ls as [|l0 ls IH]; intros [|i] Hi; try done; cbn in *.
  - by injection Hi as ->.
  - rewrite (IH i Hi). by rewrite Permutation_middle.
Qed.

(** What the threads still have, after one of them has made a step. *)
Lemma bind_insert {T A} (f : T -> list A) (ts : list T) i t t' :
  ts !! i = Some t -> exists rest, ts ≫= f ≡ₚ f t ++ rest /\ <[i := t']> ts ≫= f ≡ₚ f t' ++ rest.
Proof.
  revert i. induction ts as [|t0 ts IH]; intros [|i] Hi; try done; cbn in *.
  - injection Hi as ->. by exists (ts ≫= f).
  - destruct (IH i Hi) as (rest & E1 & E2). exists (f t0 ++ rest). rewrite E1, E2.
    rewrite !app_assoc. by split; apply Permutation_app_tail; rewrite Permutation_app_comm.
Qed.

(** A sum over the threads. *)
Fixpoint sum_of {T} (f : T -> nat) (ts : list T) : nat :=
  match ts with [] => O | t :: ts => (f t + sum_of f ts)%nat end.

Lemma sum_of_insert {T} (f : T -> nat) (ts : list T) i t t' :
  ts !! i = Some t -> (sum_of f (<[i := t']> ts) + f t = sum_of f ts + f t')%nat.
Proof.
  revert i. induction ts as [|t0 ts IH]; intros [|i] Hi; try done; cbn [sum_of insert list_insert lookup list_lookup] in *.
  - injection Hi as ->. lia.
  - specialize (IH i Hi). unfold insert in IH |- *. lia.
Qed.

Lemma sum_of_fmap {T U} (f : T -> nat) (g : U -> T) (us : list U) : sum_of f (g <$> us) = sum_of (fun u => f (g u)) us.
Proof. induction us as [|u us IH]; [done|]. cbn. by rewrite <- IH. Qed.

Lemma sum_of_length {A} (ls : list (list A)) : sum_of length ls = length (mjoin ls).
Proof. induction ls as [|l ls IH]; [done|]. cbn [sum_of]. rewrite IH. symmetry. apply length_app. Qed.

Lemma sum_of_le {T} (f : T -> nat) (b : nat) (ts : list T) : (forall t, t ∈ ts -> (f t <= b)%nat) -> (sum_of f ts <= b * length ts)%nat.
Proof.
  induction ts as [|t ts IH]; intros H; cbn; [lia|]. pose proof (H t ltac:(left)).
  specialize (IH ltac:(intros; apply H; by right)). lia.
Qed.
End Deal.

Section For.
Context {team_of : Team} {S : Type} (body : Z -> S -> option S).

Definition for_step (_ : nat) (s : S) (todo : list Z) : option (S * list Z) :=
  match todo with k :: todo => s ← body k s; Some (s, todo) | [] => None end.

(** [#pragma omp for] whose iterations are atomic. *)
Definition par_for (fuel : nat) (lo hi : Z) (s : S) : Par S :=
  todos ← dealt lo hi;
  r ← region for_step (fun todo => match todo with [] => true | _ => false end) fuel s todos;
  mret (fst r).

(** The rule: [I todo s] with the iterations still to do. *)
Lemma par_for_ok (I : list Z -> S -> Prop) fuel lo hi s :
  (forall l l' s, l ≡ₚ l' -> I l s -> I l' s) ->
  I (seqZ lo (hi - lo)) s -> (Z.to_nat (hi - lo) <= fuel)%nat ->
  (forall k todo s, I (k :: todo) s -> exists s', body k s = Some s' /\ I todo s') ->
  ends (par_for fuel lo hi s) (I []).
Proof.
  intros HI H0 Hf Hstep. unfold par_for. apply ends_bind, ends_dealt. intros ts0 _ Hts0.
  apply ends_bind. eapply ends_mono.
  - apply (region_ok _ _ (fun s ts => I (mjoin ts) s) (fun _ ts => length (mjoin ts))).
    + eapply HI; [|exact H0]. by symmetry.
    + rewrite Hts0, length_seqZ. done.
    + intros s1 ts tid [|k todo] HI1 Ht Hfin; [done|]. pose proof (join_insert _ _ _ _ Ht) as Hp.
      destruct (Hstep k (mjoin (<[tid := todo]> ts)) s1) as (s2 & E & HI2); [by eapply HI|].
      exists s2, todo. cbn [for_step]. rewrite E. split; [done|]. split; [done|]. rewrite Hp. cbn. lia.
  - intros [s1 ts] [HI1 Hfin]. apply ends_ret. cbn [fst].
    assert (mjoin ts = []) as E; [|by rewrite E in HI1].
    clear -Hfin. induction Hfin as [|t ts Ht _ IH]; [done|]. destruct t; [|done]. exact IH.
Qed.

(** The rule for iterations that each change one place: [h k] is the value of
    place [k]. *)
Lemma par_for_each {X} (J : (Z -> X) -> S -> Prop) (old new : Z -> X) fuel lo hi s :
  (forall h h' s, (forall v, lo <= v < hi -> h v = h' v) -> J h s -> J h' s) ->
  J old s -> hi - lo <= Z.of_nat fuel ->
  (forall k h s, lo <= k < hi -> h k = old k -> J h s ->
    exists s', body k s = Some s' /\ J (fun v => if decide (v = k) then new k else h v) s') ->
  ends (par_for fuel lo hi s) (J new).
Proof.
  intros HJ H0 Hf Hstep. eapply ends_mono.
  - apply (par_for_ok (fun todo s => NoDup todo /\ (forall k, k ∈ todo -> lo <= k < hi) /\
      J (fun v => if decide (v ∈ todo) then old v else new v) s)).
    + intros l l' s1 Hp (Hnd & Hr & Hs1). split; [by rewrite <- Hp|]. split; [intros k; rewrite <- Hp; apply Hr|].
      eapply HJ; [|exact Hs1]. intros v _. cbn beta. by repeat case_decide; rewrite Hp in *.
    + split; [apply NoDup_seqZ|]. split; [intros k Hk%elem_of_seqZ; lia|].
      eapply HJ; [|exact H0]. intros v Hv. cbn beta. rewrite decide_True; [done|]. apply elem_of_seqZ. lia.
    + lia.
    + intros k todo s1 (Hnd & Hr & Hs1). apply list.NoDup_cons in Hnd as [Hk Hnd].
      destruct (Hstep k (fun v => if decide (v ∈ k :: todo) then old v else new v) s1) as (s2 & E & Hs2);
        [apply Hr; left|cbn beta; rewrite decide_True; [done|left]|done|].
      exists s2. split; [done|]. split; [done|]. split; [intros j Hj; apply Hr; by right|].
      eapply HJ; [|exact Hs2]. intros v Hv. cbn beta. destruct (decide (v = k)) as [->|Hne]; [by rewrite decide_False|].
      destruct (decide (v ∈ todo)); [by rewrite decide_True by (by right)|].
      rewrite decide_False; [done|]. by intros [?|?]%elem_of_cons.
  - intros s1 (_ & _ & Hs1). eapply HJ; [|exact Hs1]. intros v _. cbn beta. rewrite decide_False; [done|].
    apply not_elem_of_nil.
Qed.
End For.

(** ** What holds if a computation returns *)

Definition if_returns {A} (p : Par A) (Q : A -> Prop) : Prop := forall c a c', p c = Some (a, c') -> Q a.

Lemma if_returns_bind {A B} (p : Par A) (f : A -> Par B) Q :
  if_returns p (fun a => if_returns (f a) Q) -> if_returns (p ≫= f) Q.
Proof.
  intros Hp c b c' E. unfold mbind, Par_bind in E. destruct (p c) as [[a c1]|] eqn:Ep; [|done]. by apply (Hp c a c1 Ep c1 b c').
Qed.

Lemma if_returns_any {A} (p : Par A) (Q : A -> Prop) : (forall a, Q a) -> if_returns p Q.
Proof. intros HQ c a c' _. apply HQ. Qed.

Lemma if_returns_mono {A} (p : Par A) (P Q : A -> Prop) : if_returns p P -> (forall a, P a -> Q a) -> if_returns p Q.
Proof. intros Hp HPQ c a c' E. eapply HPQ, Hp, E. Qed.

Lemma region_keeps {team_of : Team} {S T} act fin (I : S -> Prop) fuel s (ts : list T) :
  I s -> (forall tid s t s' t', I s -> act tid s t = Some (s', t') -> I s') ->
  if_returns (region act fin fuel s ts) (fun r => I (fst r)).
Proof.
  intros HI Hact. revert s ts HI. induction fuel as [|fuel IH]; intros s ts HI c [s' ts'] c' E; cbn [region] in E.
  all: destruct (running fin ts) as [|tid0 ready]; [by injection E as <- _ _|].
  - done.
  - destruct (_ !! _) as [tid|]; [|done]. cbn [mbind option_bind] in E. destruct (ts !! tid) as [t|]; [|done].
    cbn [mbind option_bind] in E. destruct (act tid s t) as [[s1 t1]|] eqn:Ea; [|done]. cbn [mbind option_bind] in E.
    eapply (IH s1 (<[tid := t1]> ts)); [by eapply Hact|exact E].
Qed.

Lemma par_for_keeps {team_of : Team} {S} (body : Z -> S -> option S) (I : S -> Prop) fuel lo hi s :
  I s -> (forall k s s', I s -> body k s = Some s' -> I s') -> if_returns (par_for body fuel lo hi s) I.
Proof.
  intros HI Hb. unfold par_for. apply if_returns_bind, if_returns_any. intros todos. apply if_returns_bind.
  eapply if_returns_mono; [apply (region_keeps _ _ I); [exact HI|]|].
  - intros tid s1 [|k todo] s2 t2 H1 E; [done|]. cbn [for_step] in E. destruct (body k s1) as [s3|] eqn:Eb; [|done].
    injection E as <- _. by eapply Hb.
  - intros r Hr c a c' [= <- _]. exact Hr.
Qed.

(** ** Two threads, the first of which always goes first *)

Definition halves (lo hi : Z) : list (list Z) :=
  let n := Z.max 0 (hi - lo) in [seqZ lo (n / 2); seqZ (lo + n / 2) (n - n / 2)].

Lemma halves_all lo hi : mjoin (halves lo hi) ≡ₚ seqZ lo (hi - lo).
Proof.
  unfold halves. set (n := Z.max 0 (hi - lo)). cbn [mjoin list_join]. rewrite app_nil_r.
  assert (0 <= n) by (unfold n; lia). rewrite <- seqZ_app by zdiv. replace (n / 2 + (n - n / 2)) with n by lia.
  unfold n. destruct (decide (0 <= hi - lo)); [by rewrite Z.max_r by lia|]. rewrite Z.max_l by lia. by rewrite !seqZ_nil by lia.
Qed.

Definition first_first : Team := {|
  nt := 2; nt_pos := eq_refl; pick _ := O; deal _ := halves;
  deal_length _ _ _ := eq_refl; deal_all _ := halves_all;
|}.
