(* ===== verification/Doubles.v ===== *)
(** * IEEE double precision

    The [double] of C as the standard library's specification of binary64:
    53-bit mantissas, rounding to nearest, ties to even.  The operations are
    executable; the comparisons of numbers that are not NaN are a total
    preorder; a quotient of positive numbers has the relative error 2^-53. *)

From Stdlib Require Import ZArith Lia SpecFloat.
From stdpp Require Import list numbers.
From S2P Require Import Prelude.
#[local] Open Scope Z_scope.

(** ** The operations *)

Definition double : Type := spec_float.

Definition dadd : double -> double -> double := SFadd 53 1024.
Definition dsub : double -> double -> double := SFsub 53 1024.
Definition dmul : double -> double -> double := SFmul 53 1024.
Definition ddiv : double -> double -> double := SFdiv 53 1024.
Definition dltb (x y : double) : bool := SFltb x y.
Definition dleb (x y : double) : bool := SFleb x y.
Definition dzero : double := S754_zero false.

(** The conversion of an integer. *)
Definition double_of (n : Z) : double := binary_normalize 53 1024 n 0 false.

(** The conversion to an integer drops the fraction; a value that the integer
    type does not have is undefined. *)
Definition dtrunc (x : double) : option Z :=
  match x with
  | S754_zero _ => Some 0
  | S754_finite s m e =>
      let a := if 0 <=? e then Zpos m * 2 ^ e else Zpos m / 2 ^ (- e) in Some (if s then - a else a)
  | _ => None
  end.
Definition long_of (x : double) : option Z :=
  n ← dtrunc x; assert! (- 2 ^ 63 <=? n) && (n <? 2 ^ 63); Some n.
Definition ulong_of (x : double) : option Z :=
  n ← dtrunc x; assert! (0 <=? n) && (n <? 2 ^ 64); Some n.

(** [floor], as an integer. *)
Definition dfloor (x : double) : option Z :=
  match x with
  | S754_zero _ => Some 0
  | S754_finite s m e => let a := if s then Zneg m else Zpos m in Some (if 0 <=? e then a * 2 ^ e else a / 2 ^ (- e))
  | _ => None
  end.

(** A decimal literal [num / den], rounded once. *)
Definition literal (num den : positive) : double := SFdiv 53 1024 (S754_finite false num 0) (S754_finite false den 0).

(** ** Comparison *)

Definition num (x : double) : Prop := x <> S754_nan.

(** Numbers are compared by sign and size, then by exponent, then by mantissa. *)
Definition key (x : double) : Z * Z * Z :=
  match x with
  | S754_infinity true => (-2, 0, 0)
  | S754_finite true m e => (-1, - e, Zneg m)
  | S754_zero _ | S754_nan => (0, 0, 0)
  | S754_finite false m e => (1, e, Zpos m)
  | S754_infinity false => (2, 0, 0)
  end.

Definition below (a b : Z * Z * Z) : Prop :=
  let '(a1, a2, a3) := a in let '(b1, b2, b3) := b in
  a1 < b1 \/ (a1 = b1 /\ (a2 < b2 \/ (a2 = b2 /\ a3 < b3))).

Lemma compare_key x y :
  num x -> num y ->
  exists c, SFcompare x y = Some c /\
    match c with Lt => below (key x) (key y) | Gt => below (key y) (key x) | Eq => key x = key y end.
Proof.
  unfold num. intros Hx Hy.
  destruct x as [[]|[]| |[] m e]; destruct y as [[]|[]| |[] m' e']; try done; cbn [SFcompare key below];
    try (eexists; split; [reflexivity|]; cbn; done || lia).
  all: destruct (Z.compare_spec e e') as [->|He|He]; try (eexists; split; [reflexivity|]; cbn; lia).
  all: change (Pos.compare_cont Eq m m') with (Pos.compare m m');
    destruct (Pos.compare_spec m m') as [->|Hm|Hm]; eexists; (split; [reflexivity|]); cbn; done || lia.
Qed.

Lemma dltb_key x y : num x -> num y -> dltb x y = true <-> below (key x) (key y).
Proof.
  intros Hx Hy. destruct (compare_key x y Hx Hy) as (c & Hc & Hk). unfold dltb, SFltb. rewrite Hc.
  destruct (key x) as [[? ?] ?], (key y) as [[? ?] ?]. destruct c; cbn in *; split; try done; try injection Hk; intros; lia.
Qed.

Lemma dleb_key x y : num x -> num y -> dleb x y = true <-> ~ below (key y) (key x).
Proof.
  intros Hx Hy. destruct (compare_key x y Hx Hy) as (c & Hc & Hk). unfold dleb, SFleb. rewrite Hc.
  destruct (key x) as [[? ?] ?], (key y) as [[? ?] ?]. destruct c; cbn in *; split; try done; try injection Hk; intros; lia.
Qed.

Lemma dltb_nan_l x : dltb S754_nan x = false.
Proof. done. Qed.

(** The order of the numbers. *)
Definition dle (x y : double) : Prop := dleb x y = true.
Definition dlt (x y : double) : Prop := dltb x y = true.

Lemma below_trans a b c : ~ below b a -> ~ below c b -> ~ below c a.
Proof. destruct a as [[? ?] ?], b as [[? ?] ?], c as [[? ?] ?]. cbn. lia. Qed.

Lemma dle_refl x : num x -> dle x x.
Proof. intros Hx. unfold dle. rewrite dleb_key by done. destruct (key x) as [[? ?] ?]. cbn. lia. Qed.

Lemma dle_trans x y z : num x -> num y -> num z -> dle x y -> dle y z -> dle x z.
Proof. unfold dle. intros ? ? ?. rewrite !dleb_key by done. intros Hxy Hyz. by eapply below_trans. Qed.

Lemma dltb_dleb x y : num x -> num y -> dltb x y = negb (dleb y x).
Proof.
  intros Hx Hy. apply eq_true_iff_eq. rewrite negb_true_iff, <- not_true_iff_false, dltb_key, dleb_key by done.
  destruct (key x) as [[? ?] ?], (key y) as [[? ?] ?]. cbn. lia.
Qed.

Lemma dlt_nle x y : num x -> num y -> dlt x y <-> ~ dle y x.
Proof. intros Hx Hy. unfold dlt, dle. rewrite dltb_dleb by done. by destruct (dleb y x). Qed.

Lemma dlt_dle x y : num x -> num y -> dlt x y -> dle x y.
Proof.
  unfold dlt, dle. intros ? ?. rewrite dltb_key, dleb_key by done.
  destruct (key x) as [[? ?] ?], (key y) as [[? ?] ?]. cbn. lia.
Qed.

Lemma dle_total x y : num x -> num y -> dle x y \/ dlt y x.
Proof. intros Hx Hy. destruct (dleb x y) eqn:E; [by left|right]. apply dlt_nle; [done..|]. unfold dle. by rewrite E. Qed.

Lemma dle_lt_trans x y z : num x -> num y -> num z -> dle x y -> dlt y z -> dlt x z.
Proof. intros ? ? ? Hxy Hyz. apply dlt_nle; [done..|]. intros Hzx. apply dlt_nle in Hyz; [|done..]. by apply Hyz, (dle_trans z x y). Qed.

Lemma dlt_le_trans x y z : num x -> num y -> num z -> dlt x y -> dle y z -> dlt x z.
Proof. intros ? ? ? Hxy Hyz. apply dlt_nle; [done..|]. intros Hzx. apply dlt_nle in Hxy; [|done..]. by apply Hxy, (dle_trans y z x). Qed.

#[export] Instance dle_dec x y : Decision (dle x y).
Proof. unfold dle. apply _. Defined.
#[export] Instance dlt_dec x y : Decision (dlt x y).
Proof. unfold dlt. apply _. Defined.

(** ** Rounding *)

(** A number in units of 2^-1074, the smallest there is. *)
Definition UNIT : Z := 2 ^ 1074.
Definition dval (x : double) : Z :=
  match x with
  | S754_finite s m e => (if s then Zneg m else Zpos m) * 2 ^ (e + 1074)
  | _ => 0
  end.

Lemma digits_bound p : 2 ^ (Zpos (digits2_pos p) - 1) <= Zpos p < 2 ^ Zpos (digits2_pos p).
Proof.
  induction p as [p IH|p IH|]; cbn [digits2_pos]; [| |lia].
  all: rewrite Pos2Z.inj_succ; unfold Z.succ; rewrite Z.add_simpl_r, Z.pow_add_r by lia; change (2 ^ 1) with 2.
  all: assert (2 ^ Zpos (digits2_pos p) = 2 * 2 ^ (Zpos (digits2_pos p) - 1)) as Hp
    by (rewrite <- Z.pow_succ_r by lia; f_equal; lia); lia.
Qed.

Lemma digits_Z n : 0 < n -> 2 ^ (Zdigits2 n - 1) <= n < 2 ^ Zdigits2 n.
Proof. destruct n; intros; try lia. apply digits_bound. Qed.

Lemma digits_unique n k : 2 ^ (k - 1) <= n < 2 ^ k -> 0 < k -> Zdigits2 n = k.
Proof.
  intros [Hl Hh] Hk. assert (0 < 2 ^ (k - 1)) by (apply Z.pow_pos_nonneg; lia).
  destruct (digits_Z n ltac:(lia)) as [Hl' Hh']. set (d := Zdigits2 n) in *.
  assert (k - 1 < d) by (apply (Z.pow_lt_mono_r_iff 2); [lia| |]; try lia; destruct n; cbn; lia).
  assert (d - 1 < k) by (apply (Z.pow_lt_mono_r_iff 2); lia). lia.
Qed.

(** A record of the shifts stands for [A / B] after [n] shifts: the quotient and
    how the rest compares with half a unit. *)
Definition located (A B n : Z) (mrs : shr_record) : Prop :=
  let W := B * 2 ^ n in
  let rest := A - shr_m mrs * W in
  0 <= shr_m mrs /\ 0 <= rest < W /\
  match shr_r mrs, shr_s mrs with
  | false, false => rest = 0
  | false, true => 0 < 2 * rest < W
  | true, false => 2 * rest = W
  | true, true => W < 2 * rest
  end.

Lemma shr_1_ok A B n mrs : 0 < B -> 0 <= n -> located A B n mrs -> located A B (n + 1) (shr_1 mrs).
Proof.
  intros HB Hn. destruct mrs as [m r s]. unfold located. cbn [shr_m shr_r shr_s shr_1]. rewrite Z.pow_add_r by lia. change (2 ^ 1) with 2.
  assert (0 < 2 ^ n) by (apply Z.pow_pos_nonneg; lia). set (W := B * 2 ^ n).
  replace (B * (2 ^ n * 2)) with (2 * W) by (unfold W; ring). assert (0 < W) by (unfold W; nia).
  intros (Hm & Hr & Hl). destruct m as [|[p|p|]|p]; [| | | |lia]; cbn [shr_m shr_r shr_s].
  - split; [lia|]. split; [lia|]. destruct r, s; cbn [orb]; lia.
  - assert (Zpos p~1 = 2 * Zpos p + 1) as Hp by lia. rewrite Hp in *. split; [lia|]. split; [lia|]. destruct r, s; cbn [orb]; lia.
  - assert (Zpos p~0 = 2 * Zpos p) as Hp by lia. rewrite Hp in *. split; [lia|]. split; [lia|]. destruct r, s; cbn [orb]; lia.
  - split; [lia|]. split; [lia|]. destruct r, s; cbn [orb]; lia.
Qed.

Lemma iter_shr_ok A B p : 0 < B ->
  forall n mrs, 0 <= n -> located A B n mrs -> located A B (n + Zpos p) (SpecFloat.iter_pos shr_1 p mrs).
Proof.
  intros HB. induction p as [p IH|p IH|]; intros n mrs Hn Hl; cbn [SpecFloat.iter_pos].
  - replace (n + Zpos p~1) with (n + 1 + Zpos p + Zpos p) by lia. apply IH; [lia|]. apply IH; [lia|]. by apply shr_1_ok.
  - replace (n + Zpos p~0) with (n + Zpos p + Zpos p) by lia. apply IH; [lia|]. by apply IH.
  - by apply shr_1_ok.
Qed.

Lemma shr_ok A B mrs e k : 0 < B -> 0 <= k -> located A B 0 mrs ->
  exists mrs', shr mrs e k = (mrs', e + k) /\ located A B k mrs'.
Proof.
  intros HB Hk Hl. destruct k as [|p|p]; [| |lia]; cbn [shr].
  - exists mrs. by rewrite Z.add_0_r.
  - exists (SpecFloat.iter_pos shr_1 p mrs). split; [done|]. by apply (iter_shr_ok A B p HB 0).
Qed.

Lemma nearest_ok A B n mrs : 0 < B -> 0 <= n -> located A B n mrs ->
  let M := round_nearest_even (shr_m mrs) (loc_of_shr_record mrs) in
  shr_m mrs <= M <= shr_m mrs + 1 /\ - (B * 2 ^ n) <= 2 * (M * (B * 2 ^ n) - A) <= B * 2 ^ n.
Proof.
  intros HB Hn. destruct mrs as [m r s]. unfold located. cbn [shr_m shr_r shr_s]. set (W := B * 2 ^ n). intros (Hm & Hr & Hl).
  destruct r, s; cbn [loc_of_shr_record round_nearest_even].
  - split; [lia|]. nia.
  - destruct (Z.even m); (split; [lia|]; nia).
  - split; [lia|]. nia.
  - split; [lia|]. nia.
Qed.

(** The rounding of [A / B] (in units of [2 ^ e]) when the quotient has enough
    digits and the exponent is far from the limits, for any format. *)
Section Rounding.
Context (prec emax : Z) (Hprec : 2 <= prec).

Lemma shr_fexp_exact M e : 2 ^ (prec - 1) <= M < 2 ^ prec -> emin prec emax <= e ->
  shr_fexp prec emax M e loc_Exact = (Build_shr_record M false false, e).
Proof.
  intros HM He. unfold shr_fexp. rewrite (digits_unique M prec) by lia.
  assert (fexp prec emax (prec + e) - e = 0) as -> by (unfold fexp; lia). done.
Qed.

Lemma shr_fexp_carry e : emin prec emax <= e ->
  shr_fexp prec emax (2 ^ prec) e loc_Exact = (Build_shr_record (2 ^ (prec - 1)) false false, e + 1).
Proof.
  intros He. unfold shr_fexp. assert (2 ^ prec < 2 ^ (prec + 1)) by (apply Z.pow_lt_mono_r; lia).
  rewrite (digits_unique (2 ^ prec) (prec + 1)) by (lia || (replace (prec + 1 - 1) with prec by lia; lia)).
  assert (fexp prec emax (prec + 1 + e) - e = 1) as -> by (unfold fexp; lia).
  assert (2 ^ prec = 2 * 2 ^ (prec - 1)) as -> by (rewrite <- Z.pow_succ_r by lia; f_equal; lia).
  assert (0 < 2 ^ (prec - 1)) by (apply Z.pow_pos_nonneg; lia). by destruct (2 ^ (prec - 1)) as [|p|p] eqn:Ep; [lia| |lia].
Qed.

Lemma round_aux_gen A B q e l :
  0 < B -> located A B 0 (shr_record_of_loc q l) -> 2 ^ (prec - 1) <= q -> emin prec emax <= e -> Zdigits2 q + e < emax ->
  exists m e', binary_round_aux prec emax false q e l = S754_finite false m e' /\ 2 ^ (prec - 1) <= Zpos m < 2 ^ prec /\
    e + Zdigits2 q - prec <= e' <= e + Zdigits2 q - prec + 1 /\ 0 <= e' - e /\
    2 ^ prec * Z.abs (Zpos m * 2 ^ (e' - e) * B - A) <= A.
Proof.
  intros HB Hl Hq He Hmax. assert (0 < 2 ^ (prec - 1)) as Hpp by (apply Z.pow_pos_nonneg; lia).
  assert (2 ^ prec = 2 * 2 ^ (prec - 1)) as Hp2 by (rewrite <- Z.pow_succ_r by lia; f_equal; lia).
  pose proof (digits_Z q ltac:(lia)) as Hd. set (d := Zdigits2 q) in *. assert (prec <= d) as Hdp.
  { destruct (decide (prec <= d)); [done|]. assert (2 ^ d <= 2 ^ (prec - 1)) by (apply Z.pow_le_mono_r; lia). lia. }
  unfold binary_round_aux, shr_fexp at 1. fold d.
  assert (fexp prec emax (d + e) - e = d - prec) as -> by (unfold fexp; lia).
  destruct (shr_ok A B _ e (d - prec) HB ltac:(lia) Hl) as (mrs & -> & Hloc).
  pose proof (nearest_ok A B (d - prec) mrs HB ltac:(lia) Hloc) as [HM Hnear]. set (M := round_nearest_even _ _) in *.
  set (W := B * 2 ^ (d - prec)) in *. assert (0 < 2 ^ (d - prec)) by (apply Z.pow_pos_nonneg; lia). assert (0 < W) by (unfold W; nia).
  assert (2 ^ (prec - 1) * W <= A < 2 ^ prec * W) as HA.
  { destruct Hl as (_ & Hr & _). rewrite Z.pow_0_r, Z.mul_1_r in Hr. assert (shr_m (shr_record_of_loc q l) = q) as Eq by (by destruct l as [|[]]).
    rewrite Eq in Hr. assert (2 ^ (d - 1) = 2 ^ (prec - 1) * 2 ^ (d - prec)) as E1 by (rewrite <- Z.pow_add_r by lia; f_equal; lia).
    assert (2 ^ d = 2 ^ prec * 2 ^ (d - prec)) as E2 by (rewrite <- Z.pow_add_r by lia; f_equal; lia). rewrite E1, E2 in Hd. unfold W. clear - Hr Hd HB H. nia. }
  assert (2 ^ (prec - 1) <= M <= 2 ^ prec) as HMr.
  { destruct Hloc as (_ & Hr & _). fold W in Hr. clear - Hr HA HM H0. nia. }
  assert (2 ^ prec * Z.abs (M * W - A) <= A) as Herr by (rewrite Hp2; clear - Hnear HA Hpp; nia).
  assert (emin prec emax <= e + (d - prec)) as He2 by lia.
  destruct (decide (M = 2 ^ prec)) as [EM|NM].
  - rewrite EM, shr_fexp_carry by done. cbn [shr_m]. destruct (2 ^ (prec - 1)) as [|p|p] eqn:Ep; [lia| |lia].
    rewrite (proj2 (Z.leb_le _ _)) by lia. eexists _, _. split; [done|]. split; [lia|]. split; [lia|]. split; [lia|].
    replace (Zpos p * 2 ^ (e + (d - prec) + 1 - e) * B) with (M * W); [done|]. rewrite EM, Hp2. unfold W.
    replace (e + (d - prec) + 1 - e) with (d - prec + 1) by lia. rewrite Z.pow_add_r by lia. lia.
  - rewrite shr_fexp_exact by lia. cbn [shr_m]. destruct M as [|m|m] eqn:EM'; [lia| |lia].
    rewrite (proj2 (Z.leb_le _ _)) by lia. eexists _, _. split; [done|]. split; [lia|]. split; [lia|].
    split; [lia|]. replace (Zpos m * 2 ^ (e + (d - prec) - e) * B) with (Zpos m * W); [done|]. unfold W.
    replace (e + (d - prec) - e) with (d - prec) by lia. ring.
Qed.
End Rounding.

Lemma round_aux_ok A B q e l :
  0 < B -> located A B 0 (shr_record_of_loc q l) -> 2 ^ 52 <= q -> -1074 <= e -> Zdigits2 q + e <= 1000 ->
  exists m e', binary_round_aux 53 1024 false q e l = S754_finite false m e' /\ 2 ^ 52 <= Zpos m < 2 ^ 53 /\
    e + Zdigits2 q - 53 <= e' <= e + Zdigits2 q - 52 /\ 0 <= e' - e /\
    2 ^ 53 * Z.abs (Zpos m * 2 ^ (e' - e) * B - A) <= A.
Proof.
  intros HB Hl Hq He Hmax. destruct (round_aux_gen 53 1024 ltac:(lia) A B q e l HB Hl Hq) as (m & e' & H1 & H2 & H3 & H4);
    [unfold emin; lia|lia|]. exists m, e'. split; [done|]. split; [done|]. split; [lia|done].
Qed.

(** Positive numbers with a full mantissa. *)
Definition normal (lo hi : Z) (x : double) : Prop :=
  exists m e, x = S754_finite false m e /\ 2 ^ 52 <= Zpos m < 2 ^ 53 /\ lo <= e <= hi.

Lemma new_location_ok A B : 0 < B -> 0 <= A ->
  located A B 0 (shr_record_of_loc (A / B) (new_location B (A mod B))).
Proof.
  intros HB HA. pose proof (Z.div_mod A B ltac:(lia)) as Hdm. pose proof (Z.mod_pos_bound A B HB) as Hr.
  pose proof (Z.div_pos A B HA HB) as Hq. set (q := A / B) in *. set (k := A mod B) in *. clearbody q k.
  unfold located, new_location, new_location_even, new_location_odd. rewrite Z.pow_0_r, Z.mul_1_r.
  destruct (Z.even B) eqn:Ev.
  - destruct (Z.eqb_spec k 0) as [->|Hk]; [cbn; lia|]. destruct (Z.compare_spec (2 * k) B); cbn [shr_record_of_loc shr_m shr_r shr_s]; lia.
  - assert (2 * k <> B) as Hodd by (intros <-; by rewrite Z.even_mul in Ev).
    destruct (Z.eqb_spec k 0) as [->|Hk]; [cbn; lia|].
    destruct (Z.compare_spec (2 * k + 1) B); cbn [shr_record_of_loc shr_m shr_r shr_s]; lia.
Qed.

Lemma ddiv_core lo1 hi1 lo2 hi2 x y :
  -300 <= lo1 -> hi1 <= 300 -> -300 <= lo2 -> hi2 <= 300 -> normal lo1 hi1 x -> normal lo2 hi2 y ->
  normal (lo1 - hi2 - 53) (hi1 - lo2 - 51) (ddiv x y) /\
  2 ^ 53 * Z.abs (dval (ddiv x y) * dval y - UNIT * dval x) <= UNIT * dval x.
Proof.
  intros Hlo1 Hhi1 Hlo2 Hhi2 (m1 & e1 & -> & Hm1 & He1) (m2 & e2 & -> & Hm2 & He2).
  unfold ddiv, SFdiv, SFdiv_core_binary. rewrite (digits_unique (Zpos m1) 53), (digits_unique (Zpos m2) 53) by lia.
  assert (Z.min (fexp 53 1024 (53 + e1 - (53 + e2))) (e1 - e2) = e1 - e2 - 53) as -> by (unfold fexp, emin; lia).
  replace (e1 - e2 - (e1 - e2 - 53)) with 53 by lia. cbn iota. rewrite Z.shiftl_mul_pow2 by lia.
  destruct (Z.div_eucl (Zpos m1 * 2 ^ 53) (Zpos m2)) as [q r] eqn:Eqr.
  assert (q = Zpos m1 * 2 ^ 53 / Zpos m2) as Hq by (unfold Z.div; by rewrite Eqr).
  assert (r = (Zpos m1 * 2 ^ 53) mod Zpos m2) as Hr by (unfold Z.modulo; by rewrite Eqr).
  set (A := Zpos m1 * 2 ^ 53) in *. assert (2 ^ 52 < q + 1 /\ q < 2 ^ 54) as Hqr.
  { pose proof (Z.div_mod A (Zpos m2) ltac:(lia)) as Hdm. pose proof (Z.mod_pos_bound A (Zpos m2) ltac:(lia)) as Hrm.
    rewrite <- Hq, <- Hr in Hdm. rewrite <- Hr in Hrm. unfold A in *. nia. }
  assert (53 <= Zdigits2 q <= 54) as Hdq.
  { destruct (decide (q < 2 ^ 53)); [rewrite (digits_unique q 53) by lia|rewrite (digits_unique q 54) by lia]; lia. }
  cbn [xorb]. destruct (round_aux_ok A (Zpos m2) q (e1 - e2 - 53) (new_location (Zpos m2) r)) as (m & e & -> & Hm & He & He' & Herr);
    [lia|rewrite Hq, Hr; apply new_location_ok; unfold A; lia|lia|lia|lia|]. 
  split; [exists m, e; split; [done|]; split; [done|]; lia|].
  cbn [dval]. unfold UNIT. set (K := 2 ^ (e1 - e2 - 53 + e2 + 2148)). assert (0 < K) as HK by (apply Z.pow_pos_nonneg; lia).
  replace (Zpos m * 2 ^ (e + 1074) * (Zpos m2 * 2 ^ (e2 + 1074))) with (Zpos m * 2 ^ (e - (e1 - e2 - 53)) * Zpos m2 * K).
  2:{ unfold K. replace (Zpos m * 2 ^ (e + 1074) * (Zpos m2 * 2 ^ (e2 + 1074))) with (Zpos m * Zpos m2 * (2 ^ (e + 1074) * 2 ^ (e2 + 1074))) by ring.
      rewrite <- Z.pow_add_r by lia. replace (e + 1074 + (e2 + 1074)) with (e - (e1 - e2 - 53) + (e1 - e2 - 53 + e2 + 2148)) by lia.
      rewrite (Z.pow_add_r 2 (e - (e1 - e2 - 53))) by lia. ring. }
  replace (2 ^ 1074 * (Zpos m1 * 2 ^ (e1 + 1074))) with (A * K).
  2:{ unfold A, K. replace (2 ^ 1074 * (Zpos m1 * 2 ^ (e1 + 1074))) with (Zpos m1 * (2 ^ 1074 * 2 ^ (e1 + 1074))) by ring.
      rewrite <- Z.pow_add_r by lia. replace (1074 + (e1 + 1074)) with (53 + (e1 - e2 - 53 + e2 + 2148)) by lia.
      rewrite (Z.pow_add_r 2 53) by lia. ring. }
  clearbody K. clear Hq Hr Eqr. rewrite <- Z.mul_sub_distr_r, Z.abs_mul, (Z.abs_eq K) by lia. nia.
Qed.

(** A small integer is converted exactly. *)
Lemma double_of_ok n : 0 < n < 2 ^ 53 -> normal (-52) 0 (double_of n) /\ dval (double_of n) = n * UNIT.
Proof.
  intros Hn. destruct n as [|p|p]; [lia| |lia]. unfold double_of, binary_normalize, binary_round.
  pose proof (digits_bound p) as Hd. set (d := Zpos (digits2_pos p)) in *.
  assert (d <= 53) as Hd53.
  { destruct (decide (d <= 53)); [done|]. assert (2 ^ 53 <= 2 ^ (d - 1)) by (apply Z.pow_le_mono_r; lia). lia. }
  assert (1 <= d) by (unfold d; lia). rewrite Z.add_0_r.
  assert (fexp 53 1024 d = d - 53) as -> by (unfold fexp, emin; lia).
  assert (exists mz, shl_align p 0 (d - 53) = (mz, d - 53) /\ Zpos mz = Zpos p * 2 ^ (53 - d)) as (mz & -> & Hmz).
  { unfold shl_align. rewrite Z.sub_0_r. destruct (d - 53) as [|k|k] eqn:Ek; [|lia|].
    - exists p. split; [done|]. replace (53 - d) with 0 by lia. rewrite Z.pow_0_r. lia.
    - exists (Pos.iter xO p k). split; [done|]. replace (53 - d) with (Zpos k) by lia.
      clear. induction k as [|k IH] using Pos.peano_ind; [cbn; lia|].
      rewrite Pos.iter_succ, Pos2Z.inj_succ, Z.pow_succ_r by lia. lia. }
  assert (2 ^ 52 <= Zpos mz < 2 ^ 53) as Hmr.
  { rewrite Hmz. assert (2 ^ 52 = 2 ^ (d - 1) * 2 ^ (53 - d)) as -> by (rewrite <- Z.pow_add_r by lia; f_equal; lia).
    assert (2 ^ 53 = 2 ^ d * 2 ^ (53 - d)) as -> by (rewrite <- Z.pow_add_r by lia; f_equal; lia).
    assert (0 < 2 ^ (53 - d)) by (apply Z.pow_pos_nonneg; lia). nia. }
  assert (binary_round_aux 53 1024 false (Zpos mz) (d - 53) loc_Exact = S754_finite false mz (d - 53)) as ->.
  { unfold binary_round_aux, shr_fexp. rewrite (digits_unique (Zpos mz) 53) by lia.
    assert (fexp 53 1024 (53 + (d - 53)) - (d - 53) = 0) as -> by (unfold fexp, emin; lia).
    cbn [shr shr_record_of_loc shr_m loc_of_shr_record round_nearest_even]. rewrite (digits_unique (Zpos mz) 53) by lia.
    assert (fexp 53 1024 (53 + (d - 53)) - (d - 53) = 0) as -> by (unfold fexp, emin; lia). cbn [shr shr_m].
    by rewrite (proj2 (Z.leb_le _ _)) by lia. }
  split; [exists mz, (d - 53); split; [done|]; split; [done|lia]|]. cbn [dval]. rewrite Hmz. unfold UNIT.
  rewrite <- Z.mul_assoc, <- Z.pow_add_r by lia. do 2 f_equal. lia.
Qed.

Lemma dtrunc_normal lo hi x : -1074 <= lo -> normal lo hi x -> dtrunc x = Some (dval x / UNIT).
Proof.
  intros Hlo (m & e & -> & Hm & He). cbn [dtrunc dval]. f_equal. unfold UNIT. destruct (Z.leb_spec 0 e).
  - rewrite Z.pow_add_r by lia. rewrite Z.mul_assoc, Z.div_mul by lia. done.
  - assert (2 ^ 1074 = 2 ^ (- e) * 2 ^ (e + 1074)) as -> by (rewrite <- Z.pow_add_r by lia; f_equal; lia).
    rewrite Z.div_mul_cancel_r; [done| |]; apply Z.pow_nonzero; lia.
Qed.

Lemma normal_num lo hi x : normal lo hi x -> num x.
Proof. by intros (m & e & -> & _). Qed.

Lemma normal_dval lo hi x : normal lo hi x -> 0 < dval x \/ lo < -1074.
Proof.
  intros (m & e & -> & Hm & He). cbn [dval]. destruct (decide (lo < -1074)); [by right|left].
  assert (0 < 2 ^ (e + 1074)) by (apply Z.pow_pos_nonneg; lia). nia.
Qed.

Lemma dmul_core lo1 hi1 lo2 hi2 x y :
  -300 <= lo1 -> hi1 <= 300 -> -300 <= lo2 -> hi2 <= 300 -> normal lo1 hi1 x -> normal lo2 hi2 y ->
  normal (lo1 + lo2 + 52) (hi1 + hi2 + 54) (dmul x y) /\
  2 ^ 53 * Z.abs (dval (dmul x y) * UNIT - dval x * dval y) <= dval x * dval y.
Proof.
  intros Hlo1 Hhi1 Hlo2 Hhi2 (m1 & e1 & -> & Hm1 & He1) (m2 & e2 & -> & Hm2 & He2).
  unfold dmul, SFmul. cbn [xorb]. rewrite Pos2Z.inj_mul. set (A := Zpos m1 * Zpos m2).
  assert (2 ^ 104 <= A < 2 ^ 106) as HA by (unfold A; nia).
  assert (105 <= Zdigits2 A <= 106) as Hd.
  { destruct (decide (A < 2 ^ 105)); [rewrite (digits_unique A 105) by lia|rewrite (digits_unique A 106) by lia]; lia. }
  destruct (round_aux_ok A 1 A (e1 + e2) loc_Exact) as (m & e & -> & Hm & He & He' & Herr);
    [lia|unfold located; cbn; lia|lia|lia|lia|].
  split; [exists m, e; split; [done|]; split; [done|]; lia|].
  cbn [dval]. unfold UNIT. set (K := 2 ^ (e1 + e2 + 2148)). assert (0 < K) as HK by (apply Z.pow_pos_nonneg; lia).
  replace (Zpos m * 2 ^ (e + 1074) * 2 ^ 1074) with (Zpos m * 2 ^ (e - (e1 + e2)) * 1 * K).
  2:{ unfold K. rewrite <- (Z.mul_assoc (Zpos m) (2 ^ (e + 1074))), <- Z.pow_add_r by lia.
      replace (e + 1074 + 1074) with (e - (e1 + e2) + (e1 + e2 + 2148)) by lia. rewrite (Z.pow_add_r 2 (e - (e1 + e2))) by lia. ring. }
  replace (Zpos m1 * 2 ^ (e1 + 1074) * (Zpos m2 * 2 ^ (e2 + 1074))) with (A * K).
  2:{ unfold A, K. replace (Zpos m1 * 2 ^ (e1 + 1074) * (Zpos m2 * 2 ^ (e2 + 1074))) with (Zpos m1 * Zpos m2 * (2 ^ (e1 + 1074) * 2 ^ (e2 + 1074))) by ring.
      rewrite <- Z.pow_add_r by lia. do 2 f_equal. lia. }
  clearbody K. rewrite <- Z.mul_sub_distr_r, Z.abs_mul, (Z.abs_eq K) by lia. nia.
Qed.

(** Positive numbers are compared like their values. *)
Lemma dlt_normal lo1 hi1 lo2 hi2 x y :
  -1074 <= lo1 -> -1074 <= lo2 -> normal lo1 hi1 x -> normal lo2 hi2 y -> dlt x y <-> dval x < dval y.
Proof.
  intros Hlo1 Hlo2 (m1 & e1 & -> & Hm1 & He1) (m2 & e2 & -> & Hm2 & He2). unfold dlt. rewrite dltb_key by done. cbn [key below dval].
  assert (forall a b m m', -1074 <= a < b -> 0 < m < 2 ^ 53 -> 2 ^ 52 <= m' -> m * 2 ^ (a + 1074) < m' * 2 ^ (b + 1074)) as Hlt.
  { intros a b m m' Hab Hm Hm'. replace (b + 1074) with (a + 1074 + (b - a)) by lia. rewrite (Z.pow_add_r 2 (a + 1074)) by lia.
    assert (0 < 2 ^ (a + 1074)) as HK by (apply Z.pow_pos_nonneg; lia). set (K := 2 ^ (a + 1074)) in *.
    assert (2 ^ 1 <= 2 ^ (b - a)) as H1 by (apply Z.pow_le_mono_r; lia). clearbody K. set (T := 2 ^ (b - a)) in *. clearbody T.
    assert (m < m' * T) by nia. replace (m' * (K * T)) with (m' * T * K) by ring. by apply Z.mul_lt_mono_pos_r. }
  assert (0 < 2 ^ (e1 + 1074)) by (apply Z.pow_pos_nonneg; lia).
  destruct (Z.lt_trichotomy e1 e2) as [He|[->|He]].
  - pose proof (Hlt e1 e2 (Zpos m1) (Zpos m2) ltac:(lia) ltac:(lia) ltac:(lia)). lia.
  - split; [intros; nia|]. intros Hv. right. split; [done|]. right. split; [done|]. nia.
  - pose proof (Hlt e2 e1 (Zpos m2) (Zpos m1) ltac:(lia) ltac:(lia) ltac:(lia)). lia.
Qed.

(** ** Sums of positive numbers *)

Lemma shl_align_ok m e e' : e' <= e -> Zpos (fst (shl_align m e e')) = Zpos m * 2 ^ (e - e').
Proof.
  intros He. unfold shl_align. destruct (e' - e) as [|k|k] eqn:Ek; cbn [fst]; [|lia|].
  - replace (e - e') with 0 by lia. lia.
  - replace (e - e') with (Zpos k) by lia. clear. induction k as [|k IH] using Pos.peano_ind; [cbn; lia|].
    rewrite Pos.iter_succ, Pos2Z.inj_succ, Z.pow_succ_r by lia. lia.
Qed.

Lemma normalize_ok p e :
  2 ^ 52 <= Zpos p -> -1074 <= e -> Zdigits2 (Zpos p) + e <= 1000 ->
  exists m e', binary_normalize 53 1024 (Zpos p) e false = S754_finite false m e' /\ 2 ^ 52 <= Zpos m < 2 ^ 53 /\
    e <= e' <= e + Zdigits2 (Zpos p) - 52 /\ 2 ^ 53 * Z.abs (Zpos m * 2 ^ (e' - e) - Zpos p) <= Zpos p.
Proof.
  intros Hp He Hmax. pose proof (digits_bound p) as Hd. change (Zdigits2 (Zpos p)) with (Zpos (digits2_pos p)) in *. set (d := Zpos (digits2_pos p)) in *.
  assert (53 <= d) as Hd53.
  { destruct (decide (53 <= d)); [done|]. assert (2 ^ d <= 2 ^ 52) by (apply Z.pow_le_mono_r; lia). lia. }
  unfold binary_normalize, binary_round. fold d. assert (fexp 53 1024 (d + e) = d + e - 53) as -> by (unfold fexp, emin; lia).
  assert (shl_align p e (d + e - 53) = (p, e)) as ->.
  { unfold shl_align. destruct (d + e - 53 - e) eqn:Ek; [done|done|lia]. }
  destruct (round_aux_ok (Zpos p) 1 (Zpos p) e loc_Exact) as (m & e' & -> & Hm & He' & He0 & Herr); [lia|unfold located; cbn; lia|done|done|done|].
  change (Zdigits2 (Zpos p)) with d in *. exists m, e'. split; [done|]. split; [done|]. split; [lia|]. by rewrite Z.mul_1_r in Herr.
Qed.

Lemma dadd_core lo hi x y :
  -500 <= lo -> hi <= 300 -> hi - lo <= 300 -> normal lo hi x -> normal lo hi y ->
  normal lo (hi + 2) (dadd x y) /\ 2 ^ 53 * Z.abs (dval (dadd x y) - (dval x + dval y)) <= dval x + dval y.
Proof.
  intros Hlo Hhi Hw (m1 & e1 & -> & Hm1 & He1) (m2 & e2 & -> & Hm2 & He2). unfold dadd. cbn [SFadd cond_Zopp].
  set (ez := Z.min e1 e2). rewrite !shl_align_ok by lia. set (S1 := Zpos m1 * 2 ^ (e1 - ez)). set (S2 := Zpos m2 * 2 ^ (e2 - ez)).
  assert (forall e m, lo <= e <= hi -> ez <= e -> 2 ^ 52 <= m < 2 ^ 53 -> 2 ^ 52 <= m * 2 ^ (e - ez) < 2 ^ (53 + (hi - ez))) as Hrange.
  { intros e m He Hez Hm. assert (1 <= 2 ^ (e - ez)) by (apply (Z.pow_le_mono_r 2 0); lia). assert (2 ^ (e - ez) <= 2 ^ (hi - ez)) by (apply Z.pow_le_mono_r; lia).
    rewrite Z.pow_add_r by lia. nia. }
  pose proof (Hrange e1 (Zpos m1) He1 ltac:(lia) Hm1) as R1. pose proof (Hrange e2 (Zpos m2) He2 ltac:(lia) Hm2) as R2. fold S1 in R1. fold S2 in R2.
  destruct (S1 + S2) as [|p|p] eqn:Es; [lia| |lia].
  assert (Zdigits2 (Zpos p) <= 54 + (hi - ez)) as Hdig.
  { pose proof (digits_Z (Zpos p) ltac:(lia)) as [Hl _]. apply Z.le_sub_le_add_r. replace (54 + (hi - ez)) with (53 + (hi - ez) + 1) in * by lia.
    destruct (decide (Zdigits2 (Zpos p) - 1 < 54 + (hi - ez))) as [|Hn]; [lia|]. exfalso.
    assert (2 ^ (54 + (hi - ez)) <= 2 ^ (Zdigits2 (Zpos p) - 1)) as Hpw by (apply Z.pow_le_mono_r; lia).
    replace (54 + (hi - ez)) with (1 + (53 + (hi - ez))) in Hpw by lia. rewrite Z.pow_add_r in Hpw by lia. lia. }
  destruct (normalize_ok p ez) as (m & e & -> & Hm & He & Herr); [lia|lia|lia|].
  split; [exists m, e; split; [done|]; split; [done|lia]|]. cbn [dval].
  set (K := 2 ^ (ez + 1074)). assert (0 < K) as HK by (apply Z.pow_pos_nonneg; lia).
  assert (forall a b, ez <= b -> a * 2 ^ (b + 1074) = a * 2 ^ (b - ez) * K) as Hsc.
  { intros a b Hb. unfold K. rewrite <- Z.mul_assoc, <- Z.pow_add_r by lia. do 2 f_equal. lia. }
  rewrite !Hsc by lia. fold S1 S2. replace (S1 * K + S2 * K) with (Zpos p * K) by (rewrite <- Es; ring).
  rewrite <- Z.mul_sub_distr_r, Z.abs_mul, (Z.abs_eq K) by lia. clearbody K. nia.
Qed.

(** The floor of a positive number is what the conversion keeps. *)
Lemma dfloor_normal lo hi x : -1074 <= lo -> normal lo hi x -> dfloor x = Some (dval x / UNIT).
Proof. intros Hlo Hx. rewrite <- (dtrunc_normal lo hi x Hlo Hx). destruct Hx as (m & e & -> & _). cbn. by destruct (0 <=? e). Qed.

(** ** Rounding is monotone *)

(** The numbers of full mantissa above [y] are at least a unit of [y] above it. *)
Lemma normal_gap lo1 hi1 lo2 hi2 x m e :
  -1074 <= lo1 -> -1074 <= lo2 -> normal lo1 hi1 x -> 2 ^ 52 <= Zpos m < 2 ^ 53 -> lo2 <= e <= hi2 ->
  dval (S754_finite false m e) < dval x -> (Zpos m + 1) * 2 ^ (e + 1074) <= dval x.
Proof.
  intros Hlo1 Hlo2 (m1 & e1 & -> & Hm1 & He1) Hm He. cbn [dval].
  assert (0 < 2 ^ (e + 1074)) as HK by (apply Z.pow_pos_nonneg; lia).
  destruct (Z.lt_trichotomy e1 e) as [Hlt|[->|Hgt]]; intros Hv.
  - exfalso. replace (e + 1074) with (e1 + 1074 + (e - e1)) in Hv by lia. rewrite (Z.pow_add_r 2 (e1 + 1074) (e - e1)) in Hv by lia.
    assert (2 ^ 1 <= 2 ^ (e - e1)) as HT by (apply Z.pow_le_mono_r; lia).
    assert (0 < 2 ^ (e1 + 1074)) as HL by (apply Z.pow_pos_nonneg; lia).
    set (T := 2 ^ (e - e1)) in *. set (L := 2 ^ (e1 + 1074)) in *. clearbody T L. clear HK.
    assert (Zpos m1 < Zpos m * T) by nia. assert (Zpos m1 * L < Zpos m * T * L) by nia. nia.
  - apply Z.mul_le_mono_nonneg_r; [lia|]. nia.
  - replace (e1 + 1074) with (e + 1074 + (e1 - e)) by lia. rewrite (Z.pow_add_r 2 (e + 1074) (e1 - e)) by lia.
    assert (2 ^ 1 <= 2 ^ (e1 - e)) as HT by (apply Z.pow_le_mono_r; lia). clear Hv.
    set (T := 2 ^ (e1 - e)) in *. set (L := 2 ^ (e + 1074)) in *. clearbody T L.
    assert (Zpos m + 1 <= Zpos m1 * T) by nia. nia.
Qed.

(** [x] is [A / K] rounded: when [A / K] is at most the number [y], so is [x]. *)
Lemma rounded_below lo1 hi1 lo2 hi2 A K x y :
  -1074 <= lo1 -> -1074 <= lo2 -> normal lo1 hi1 x -> normal lo2 hi2 y -> 0 < K ->
  2 ^ 53 * Z.abs (dval x * K - A) <= A -> A <= dval y * K -> dval x <= dval y.
Proof.
  intros Hlo1 Hlo2 Hx (m & e & -> & Hm & He) HK Herr HA. apply Z.le_ngt. intros Hlt.
  pose proof (normal_gap lo1 hi1 lo2 hi2 x m e Hlo1 Hlo2 Hx Hm He Hlt) as Hgap. cbn [dval] in *.
  assert (0 < 2 ^ (e + 1074)) by (apply Z.pow_pos_nonneg; lia). set (T := 2 ^ (e + 1074)) in *. clearbody T.
  set (X := dval x) in *. clearbody X. assert (Zpos m * T * K + T * K <= X * K) as H1 by nia.
  assert (2 ^ 53 * (T * K) <= A) as H2 by lia. assert (0 < T * K) by nia. nia.
Qed.
