(* ===== verification/LongDouble.v ===== *)
(** * The extended format of [long double]

    The 80-bit format of x86: 64-bit mantissas.  Sums and quotients of numbers of
    ordinary size have the relative error 2^-64, and the conversion to [double]
    the relative error 2^-53; together they bound the error of dividing numbers by
    their sum. *)

From Stdlib Require Import ZArith Lia SpecFloat.
From stdpp Require Import list numbers.
From S2P Require Import Prelude Doubles.
#[local] Open Scope Z_scope.

(** A [double] is a [long double] with the same value. *)
Definition ladd : spec_float -> spec_float -> spec_float := SFadd 64 16384.
Definition ldiv : spec_float -> spec_float -> spec_float := SFdiv 64 16384.
Definition double_of_long_double (x : spec_float) : double :=
  match x with
  | S754_finite s m e => binary_normalize 53 1024 (if s then Zneg m else Zpos m) e s
  | x => x
  end.

(** A positive number whose leading digit is between [2 ^ (lo - 1)] and
    [2 ^ (hi - 1)]. *)
Definition sized (lo hi : Z) (x : spec_float) : Prop :=
  exists m e, x = S754_finite false m e /\ -1074 <= e /\ lo <= Zpos (digits2_pos m) + e <= hi.

(** Zero or such a number. *)
Definition sized0 (lo hi : Z) (x : spec_float) : Prop := (exists s, x = S754_zero s) \/ sized lo hi x.

Lemma sized_mono lo hi lo' hi' x : lo' <= lo -> hi <= hi' -> sized lo hi x -> sized lo' hi' x.
Proof. intros ? ? (m & e & -> & He & Hd). exists m, e. split; [done|]. lia. Qed.

Lemma sized_pos lo hi x : sized lo hi x -> 0 < dval x.
Proof.
  intros (m & e & -> & He & _). cbn [dval]. assert (0 < 2 ^ (e + 1074)) by (apply Z.pow_pos_nonneg; lia). nia.
Qed.

Lemma sized0_nonneg lo hi x : sized0 lo hi x -> 0 <= dval x.
Proof. intros [[s ->]|H]; [done|]. apply sized_pos in H. lia. Qed.

(** ** Rounding an integer *)

Section Normalize.
Context (prec emax : Z) (Hprec : 2 <= prec <= 64) (Hemax : emin prec emax <= -1074).

Lemma normalize_gen p e (d := Zpos (digits2_pos p)) :
  -1074 <= e -> -1074 <= d + e - prec -> d + e < emax ->
  let x := binary_normalize prec emax (Zpos p) e false in
  sized (d + e) (d + e + 1) x /\ 2 ^ prec * Z.abs (dval x - Zpos p * 2 ^ (e + 1074)) <= Zpos p * 2 ^ (e + 1074).
Proof.
  intros He Hlo Hhi. cbv zeta. unfold binary_normalize, binary_round. fold d. set (t := d + e - prec) in *.
  assert (fexp prec emax (d + e) = t) as -> by (unfold fexp; lia). pose proof (digits_bound p) as Hd. fold d in Hd.
  assert (exists mz ez, shl_align p e t = (mz, ez) /\ ez = Z.min e t /\ Zpos mz = Zpos p * 2 ^ (e - ez)) as (mz & ez & -> & Hez & Hmz).
  { destruct (decide (t <= e)).
    - pose proof (shl_align_ok p e t ltac:(lia)) as Hs. exists (fst (shl_align p e t)), t. rewrite Hs. split_and!; [|lia|done].
      unfold shl_align. destruct (t - e) eqn:Et; [|lia|done]. cbn. f_equal. lia.
    - exists p, e. unfold shl_align. destruct (t - e) eqn:Et; [lia| |lia]. split_and!; [done|lia|]. rewrite Z.sub_diag, Z.pow_0_r. lia. }
  assert (1 <= d) by (unfold d; lia). assert (0 < 2 ^ (e - ez)) as HT by (apply Z.pow_pos_nonneg; lia).
  assert (Zdigits2 (Zpos mz) = d + (e - ez)) as Hdz.
  { apply digits_unique; [|lia]. replace (d + (e - ez) - 1) with (d - 1 + (e - ez)) by lia. rewrite !Z.pow_add_r, Hmz by lia. nia. }
  destruct (round_aux_gen prec emax ltac:(lia) (Zpos mz) 1 (Zpos mz) ez loc_Exact) as (m & e' & -> & Hm & He' & He0 & Herr);
    [lia|unfold located; cbn; lia| |lia|lia|].
  { pose proof (digits_Z (Zpos mz) ltac:(lia)) as [Hl _]. rewrite Hdz in Hl. etrans; [|exact Hl]. apply Z.pow_le_mono_r; lia. }
  rewrite Hdz in He'. split.
  { exists m, e'. split; [done|]. split; [lia|]. change (Zpos (digits2_pos m)) with (Zdigits2 (Zpos m)). rewrite (digits_unique (Zpos m) prec) by lia. lia. }
  cbn [dval]. rewrite Z.mul_1_r, Hmz in Herr. set (K := 2 ^ (ez + 1074)). assert (0 < K) as HK by (apply Z.pow_pos_nonneg; lia).
  assert (forall a b, ez <= b -> a * 2 ^ (b + 1074) = a * 2 ^ (b - ez) * K) as Hsc.
  { intros a b Hb. unfold K. rewrite <- Z.mul_assoc, <- Z.pow_add_r by lia. do 2 f_equal. lia. }
  rewrite !Hsc by lia. rewrite <- Z.mul_sub_distr_r, Z.abs_mul, (Z.abs_eq K) by lia. clearbody K.
  set (X := Z.abs _) in *. set (Y := Zpos p * 2 ^ (e - ez)) in *. clearbody X Y. set (P := 2 ^ prec) in *. clearbody P. clear -Herr HK. nia.
Qed.
End Normalize.

(** ** Sums *)

Lemma dval_scaled m e ez : -1074 <= ez <= e -> Zpos m * 2 ^ (e + 1074) = Zpos m * 2 ^ (e - ez) * 2 ^ (ez + 1074).
Proof. intros He. rewrite <- Z.mul_assoc, <- Z.pow_add_r by lia. do 2 f_equal. lia. Qed.

Lemma digits_mul m k : 0 <= k -> 2 ^ (Zpos (digits2_pos m) + k - 1) <= Zpos m * 2 ^ k < 2 ^ (Zpos (digits2_pos m) + k).
Proof.
  intros Hk. pose proof (digits_bound m) as Hd. set (d := Zpos (digits2_pos m)) in *. assert (1 <= d) by (unfold d; lia).
  replace (d + k - 1) with (d - 1 + k) by lia. rewrite !Z.pow_add_r by lia. assert (0 < 2 ^ k) by (apply Z.pow_pos_nonneg; lia). nia.
Qed.

Lemma ladd_sized lo hi x y :
  -1000 <= lo -> hi <= 2000 -> sized lo hi x -> sized lo hi y ->
  sized lo (hi + 2) (ladd x y) /\ 2 ^ 64 * Z.abs (dval (ladd x y) - (dval x + dval y)) <= dval x + dval y.
Proof.
  intros Hlo Hhi (m1 & e1 & -> & He1 & Hd1) (m2 & e2 & -> & He2 & Hd2). unfold ladd. cbn [SFadd cond_Zopp]. set (ez := Z.min e1 e2).
  rewrite !shl_align_ok by lia. cbn [dval]. rewrite (dval_scaled m1 e1 ez), (dval_scaled m2 e2 ez) by lia.
  pose proof (digits_mul m1 (e1 - ez) ltac:(lia)) as [L1 U1]. pose proof (digits_mul m2 (e2 - ez) ltac:(lia)) as [L2 U2].
  set (S1 := Zpos m1 * 2 ^ (e1 - ez)) in *. set (S2 := Zpos m2 * 2 ^ (e2 - ez)) in *. rewrite <- Z.mul_add_distr_r.
  destruct (S1 + S2) as [|p|p] eqn:Es; [lia| |lia].
  assert (lo - ez <= Zpos (digits2_pos p) <= hi - ez + 1) as Hdp.
  { pose proof (digits_bound p) as [Hl Hh]. set (d := Zpos (digits2_pos p)) in *. assert (1 <= d) by (unfold d; lia).
    assert (0 <= S2) by (unfold S2; lia). split.
    - apply Z.le_ngt. intros Hlt. assert (2 ^ d <= 2 ^ (Zpos (digits2_pos m1) + (e1 - ez) - 1)) by (apply Z.pow_le_mono_r; lia). lia.
    - apply Z.le_ngt. intros Hlt. assert (2 ^ (hi - ez + 1) <= 2 ^ (d - 1)) as Hb by (apply Z.pow_le_mono_r; lia).
      assert (2 ^ (Zpos (digits2_pos m1) + (e1 - ez)) <= 2 ^ (hi - ez)) by (apply Z.pow_le_mono_r; lia).
      assert (2 ^ (Zpos (digits2_pos m2) + (e2 - ez)) <= 2 ^ (hi - ez)) by (apply Z.pow_le_mono_r; lia).
      rewrite Z.pow_add_r in Hb by lia. lia. }
  destruct (normalize_gen 64 16384 ltac:(lia) ltac:(unfold emin; lia) p ez) as [Hs Herr]; [lia|lia|lia|].
  split; [|done]. eapply sized_mono; [..|exact Hs]; lia.
Qed.

Lemma ladd_sized0 lo hi x y :
  -1000 <= lo -> hi <= 2000 -> sized0 lo hi x -> sized0 lo hi y ->
  sized0 lo (hi + 2) (ladd x y) /\ 2 ^ 64 * Z.abs (dval (ladd x y) - (dval x + dval y)) <= dval x + dval y.
Proof.
  intros Hlo Hhi Hx Hy. assert (forall z, sized lo hi z -> sized0 lo (hi + 2) z) as Hmono by (intros z Hz; right; eapply sized_mono; [..|exact Hz]; lia).
  pose proof (sized0_nonneg _ _ _ Hx). pose proof (sized0_nonneg _ _ _ Hy).
  destruct Hx as [[s ->]|Hx], Hy as [[s' ->]|Hy].
  - split; [|by destruct s, s']. left. destruct s, s'; eauto.
  - assert (ladd (S754_zero s) y = y) as -> by (destruct Hy as (m & e & -> & _); done). split; [by apply Hmono|]. cbn [dval] in *. lia.
  - assert (ladd x (S754_zero s') = x) as -> by (destruct Hx as (m & e & -> & _); done). split; [by apply Hmono|]. cbn [dval] in *. lia.
  - destruct (ladd_sized lo hi x y Hlo Hhi Hx Hy) as [Hs Herr]. split; [by right|done].
Qed.

(** ** Quotients *)

Lemma ldiv_quotient m1 m2 s (A := Zpos m1 * 2 ^ s) (q := A / Zpos m2) :
  0 <= s -> Zpos (digits2_pos m2) - Zpos (digits2_pos m1) + 64 <= s ->
  2 ^ 63 <= q /\ Zpos (digits2_pos m1) + s - Zpos (digits2_pos m2) <= Zdigits2 q <= Zpos (digits2_pos m1) + s - Zpos (digits2_pos m2) + 1.
Proof.
  intros Hs Hs2. pose proof (digits_mul m1 s Hs) as [L1 U1]. fold A in L1, U1. pose proof (digits_bound m2) as [L2 U2].
  set (d1 := Zpos (digits2_pos m1)) in *. set (d2 := Zpos (digits2_pos m2)) in *. assert (1 <= d1 /\ 1 <= d2) as [? ?] by (unfold d1, d2; lia).
  assert (2 ^ (d1 + s - d2 - 1) <= q) as Hq1.
  { unfold q. apply Z.div_le_lower_bound; [lia|]. assert (2 ^ (d1 + s - 1) = 2 ^ d2 * 2 ^ (d1 + s - d2 - 1)) as E by (rewrite <- Z.pow_add_r by lia; f_equal; lia).
    assert (0 < 2 ^ (d1 + s - d2 - 1)) by (apply Z.pow_pos_nonneg; lia). nia. }
  assert (q < 2 ^ (d1 + s - d2 + 1)) as Hq2.
  { unfold q. apply Z.div_lt_upper_bound; [lia|]. assert (2 ^ (d1 + s) = 2 ^ (d2 - 1) * 2 ^ (d1 + s - d2 + 1)) as E by (rewrite <- Z.pow_add_r by lia; f_equal; lia).
    assert (0 < 2 ^ (d1 + s - d2 + 1)) by (apply Z.pow_pos_nonneg; lia). nia. }
  assert (2 ^ 63 <= 2 ^ (d1 + s - d2 - 1)) as Hq0 by (apply Z.pow_le_mono_r; lia). split; [lia|].
  pose proof (digits_Z q ltac:(lia)) as [Hl Hh]. split; apply Z.le_ngt; intros Hlt.
  - assert (2 ^ Zdigits2 q <= 2 ^ (d1 + s - d2 - 1)); [|lia]. apply Z.pow_le_mono_r; lia.
  - assert (2 ^ (d1 + s - d2 + 1) <= 2 ^ (Zdigits2 q - 1)); [|lia]. apply Z.pow_le_mono_r; lia.
Qed.

Lemma ldiv_sized lo1 hi1 lo2 hi2 x y :
  -1000 <= lo1 - hi2 -> hi1 - lo2 <= 4000 -> hi2 <= 4000 -> sized lo1 hi1 x -> sized lo2 hi2 y ->
  sized (lo1 - hi2) (hi1 - lo2 + 2) (ldiv x y) /\ 2 ^ 64 * Z.abs (dval (ldiv x y) * dval y - UNIT * dval x) <= UNIT * dval x.
Proof.
  intros Hlo Hhi Hh2 (m1 & e1 & -> & He1 & Hd1) (m2 & e2 & -> & He2 & Hd2). unfold ldiv, SFdiv, SFdiv_core_binary.
  change (Zdigits2 (Zpos m1)) with (Zpos (digits2_pos m1)). change (Zdigits2 (Zpos m2)) with (Zpos (digits2_pos m2)).
  set (d1 := Zpos (digits2_pos m1)) in *. set (d2 := Zpos (digits2_pos m2)) in *.
  assert (fexp 64 16384 (d1 + e1 - (d2 + e2)) = d1 + e1 - (d2 + e2) - 64) as -> by (unfold fexp, emin; lia).
  set (e' := Z.min (d1 + e1 - (d2 + e2) - 64) (e1 - e2)). set (s := e1 - e2 - e').
  assert (match s with Z0 => Zpos m1 | Zpos _ => Z.shiftl (Zpos m1) s | Zneg _ => 0 end = Zpos m1 * 2 ^ s) as ->.
  { destruct s eqn:Es; [lia|by rewrite Z.shiftl_mul_pow2 by lia|unfold s, e' in Es; lia]. }
  destruct (ldiv_quotient m1 m2 s) as [Hq Hdq]; [unfold s, e'; lia|fold d1 d2; unfold s, e'; lia|]. fold d1 d2 in Hdq.
  set (A := Zpos m1 * 2 ^ s) in *. destruct (Z.div_eucl A (Zpos m2)) as [q r] eqn:Eqr.
  assert (A / Zpos m2 = q) as Eq by (unfold Z.div; by rewrite Eqr). assert (A mod Zpos m2 = r) as Er by (unfold Z.modulo; by rewrite Eqr).
  rewrite Eq in Hq, Hdq. assert (0 <= s) by (unfold s, e'; lia). assert (0 < 2 ^ s) by (apply Z.pow_pos_nonneg; lia).
  cbn [xorb]. destruct (round_aux_gen 64 16384 ltac:(lia) A (Zpos m2) q e' (new_location (Zpos m2) r)) as (m & e & -> & Hm & He & He0 & Herr);
    [lia|rewrite <- Eq, <- Er; apply new_location_ok; unfold A; lia|done|unfold emin, e'; lia|unfold s, e' in *; lia|].
  assert (d1 + e1 - (d2 + e2) - 64 <= e) as Hel by (unfold s in *; lia). split.
  { exists m, e. split; [done|]. split; [lia|]. change (Zpos (digits2_pos m)) with (Zdigits2 (Zpos m)). rewrite (digits_unique (Zpos m) 64) by lia.
    unfold s in *. lia. }
  cbn [dval]. unfold UNIT. set (K := 2 ^ (e' + e2 + 2148)). assert (0 <= e' + e2 + 2148) as HKe by (unfold e'; lia).
  assert (0 < K) as HK by (apply Z.pow_pos_nonneg; lia).
  replace (Zpos m * 2 ^ (e + 1074) * (Zpos m2 * 2 ^ (e2 + 1074))) with (Zpos m * 2 ^ (e - e') * Zpos m2 * K).
  2:{ unfold K. replace (Zpos m * 2 ^ (e + 1074) * (Zpos m2 * 2 ^ (e2 + 1074))) with (Zpos m * Zpos m2 * (2 ^ (e + 1074) * 2 ^ (e2 + 1074))) by ring.
      rewrite <- Z.pow_add_r by lia. replace (e + 1074 + (e2 + 1074)) with (e - e' + (e' + e2 + 2148)) by lia.
      rewrite (Z.pow_add_r 2 (e - e')) by lia. ring. }
  replace (2 ^ 1074 * (Zpos m1 * 2 ^ (e1 + 1074))) with (A * K).
  2:{ unfold A, K. replace (2 ^ 1074 * (Zpos m1 * 2 ^ (e1 + 1074))) with (Zpos m1 * (2 ^ 1074 * 2 ^ (e1 + 1074))) by ring.
      rewrite <- Z.pow_add_r by lia. replace (1074 + (e1 + 1074)) with (s + (e' + e2 + 2148)) by (unfold s; lia).
      rewrite (Z.pow_add_r 2 s) by lia. ring. }
  clearbody K A. clear -Herr HK. rewrite <- Z.mul_sub_distr_r, Z.abs_mul, (Z.abs_eq K) by lia. nia.
Qed.

(** ** The conversion *)

Lemma double_of_sized lo hi x :
  -1000 <= lo -> hi <= 1000 -> sized lo hi x ->
  sized lo (hi + 1) (double_of_long_double x) /\ 2 ^ 53 * Z.abs (dval (double_of_long_double x) - dval x) <= dval x.
Proof.
  intros Hlo Hhi (m & e & -> & He & Hd). cbn [double_of_long_double].
  destruct (normalize_gen 53 1024 ltac:(lia) ltac:(unfold emin; lia) m e) as [Hs Herr]; [lia|lia|lia|].
  split; [eapply sized_mono; [..|exact Hs]; lia|done].
Qed.

(** ** Dividing by the sum *)

(** The quotient of [v] by the sum of four numbers of ordinary size, one of which
    is not zero, has the relative error 2^-52. *)
Lemma share_error v a b c d (sum := ladd (ladd (ladd a b) c) d) (T := dval a + dval b + dval c + dval d) :
  sized0 (-400) 400 a -> sized0 (-400) 400 b -> sized0 (-400) 400 c -> sized0 (-400) 400 d -> 0 < T ->
  sized0 (-400) 400 v ->
  2 ^ 52 * Z.abs (dval (double_of_long_double (ldiv v sum)) * T - UNIT * dval v) <= UNIT * dval v.
Proof.
  intros Ha Hb Hc Hd HT Hv. assert (forall hi z, 400 <= hi -> sized0 (-400) 400 z -> sized0 (-400) hi z) as Hmono.
  { intros hi z Hh [?|Hz]; [by left|right; eapply sized_mono; [..|exact Hz]; lia]. }
  destruct (ladd_sized0 (-400) 400 a b ltac:(lia) ltac:(lia) Ha Hb) as [S1 E1].
  destruct (ladd_sized0 (-400) (400 + 2) (ladd a b) c ltac:(lia) ltac:(lia) S1) as [S2 E2]; [apply Hmono; [lia|done]|].
  destruct (ladd_sized0 (-400) (400 + 2 + 2) (ladd (ladd a b) c) d ltac:(lia) ltac:(lia) S2) as [S3 E3]; [apply Hmono; [lia|done]|]. fold sum in S3, E3.
  pose proof (sized0_nonneg _ _ _ Ha). pose proof (sized0_nonneg _ _ _ Hb). pose proof (sized0_nonneg _ _ _ Hc). pose proof (sized0_nonneg _ _ _ Hd).
  pose proof (sized0_nonneg _ _ _ S1). pose proof (sized0_nonneg _ _ _ S2). assert (2 ^ 61 * Z.abs (dval sum - T) <= T) as ES by (unfold T; lia).
  destruct S3 as [[s Es]|S3]; [rewrite Es in ES; cbn [dval] in ES; lia|].
  destruct Hv as [[s ->]|Hv]; [destruct S3 as (m & e & -> & _); cbn [ldiv SFdiv double_of_long_double dval]; lia|].
  destruct (ldiv_sized (-400) 400 (-400) (400 + 2 + 2 + 2) v sum ltac:(lia) ltac:(lia) ltac:(lia) Hv S3) as [SQ EQ].
  destruct (double_of_sized (-400 - (400 + 2 + 2 + 2)) (400 - -400 + 2) _ ltac:(lia) ltac:(lia) SQ) as [_ ER]. apply sized_pos in SQ, Hv.
  assert (0 < UNIT) as HU by (apply Z.pow_pos_nonneg; lia). set (Q := dval (ldiv v sum)) in *. set (R := dval (double_of_long_double _)) in *.
  set (S := dval sum) in *. set (W := UNIT * dval v) in *. clearbody T S Q R. assert (0 < W) by (unfold W; lia). clearbody W.
  assert (2 ^ 61 * Z.abs (Q * S - Q * T) <= Q * T) as F1 by (rewrite <- Z.mul_sub_distr_l, Z.abs_mul, (Z.abs_eq Q) by lia; clear -ES SQ; nia).
  assert (2 ^ 53 * Z.abs (R * T - Q * T) <= Q * T) as F2 by (rewrite <- Z.mul_sub_distr_r, Z.abs_mul, (Z.abs_eq T) by lia; clear -ER HT; nia).
  set (X := Q * S) in *. set (P := Q * T) in *. set (Y := R * T) in *. clearbody X P Y. lia.
Qed.
