(* ===== verification/Getopt.v ===== *)
(** * [getopt] of the C library

    The scan of a command line with short options, as the programs use it: the
    option string has no leading ['+'], ['-'] or [':'] and no optional
    arguments.  The library sorts the argument vector while it scans, so that
    the arguments that are neither options nor arguments of options end up
    behind the options; ["--"] ends the scan.  The programs either leave during
    the scan or finish it, so the scan is given at once: the values [getopt]
    returns, one by one, and the argument vector at the end. *)

From Stdlib Require Import ZArith Lia String.
From stdpp Require Import list sets numbers.
From S2P Require Import Prelude CLib.
#[local] Open Scope Z_scope.

Module Getopt.

(** What a call returns: an option with the value of [optarg], or ['?'] with
    the value of [optopt], for an unknown option or a missing argument. *)
Inductive result :=
| Found (c : Z) (optarg : option (list Z))
| Unknown (optopt : Z).

#[export] Instance result_eq_dec : EqDecision result.
Proof. solve_decision. Defined.

(** Is [c] an option, and does it take an argument? *)
Fixpoint option_kind (optstring : list Z) (c : Z) : option bool :=
  match optstring with
  | [] => None
  | d :: optstring' =>
      if (c =? 58) || (c =? 59) then None
      else if d =? c then Some (match optstring' with e :: _ => e =? 58 | [] => false end)
      else option_kind optstring' c
  end.

Section Scan.
Context (optstring : list Z).

(** The options in an argument behind its ['-'], and the last one if it takes
    its argument from the next element of the vector. *)
Fixpoint cluster (s : list Z) : list result * option Z :=
  match s with
  | [] => ([], None)
  | c :: s' =>
      match option_kind optstring c with
      | None => let '(r, next) := cluster s' in (Unknown c :: r, next)
      | Some false => let '(r, next) := cluster s' in (Found c None :: r, next)
      | Some true => match s' with [] => ([], Some c) | _ => ([Found c (Some s')], None) end
      end
  end.

(** The results; the elements that are options and their arguments, in order;
    the others; whether ["--"] ended the scan, and what follows it. *)
Record scanned := MkScanned {
  results : list result;
  options : list (list Z);
  operands : list (list Z);
  dashes : bool;
  rest : list (list Z);
}.

Definition dash_dash : list Z := [45; 45].

(** A ['-'] alone is no option. *)
Definition is_option (a : list Z) : bool := match a with c :: _ :: _ => c =? 45 | _ => false end.

Fixpoint scan (args : list (list Z)) : scanned :=
  match args with
  | [] => MkScanned [] [] [] false []
  | a :: args' =>
      if streq a dash_dash then MkScanned [] [] [] true args'
      else if is_option a then
        let '(r, next) := cluster (tail a) in
        match next, args' with
        | None, _ =>
            let sc := scan args' in
            MkScanned (r ++ results sc) (a :: options sc) (operands sc) (dashes sc) (rest sc)
        | Some c, [] => MkScanned (r ++ [Unknown c]) [a] [] false []
        | Some c, v :: args'' =>
            let sc := scan args'' in
            MkScanned (r ++ Found c (Some v) :: results sc) (a :: v :: options sc) (operands sc)
              (dashes sc) (rest sc)
        end
      else
        let sc := scan args' in
        MkScanned (results sc) (options sc) (a :: operands sc) (dashes sc) (rest sc)
  end.

(** The argument vector behind its first element when the scan has ended. *)
Definition sorted_args (sc : scanned) : list (list Z) :=
  options sc ++ (if dashes sc then [dash_dash] else []) ++ operands sc ++ rest sc.

End Scan.

(** ** What a scan leaves *)

Section ScanLemmas.
Context (optstring : list Z).
Abbreviation scan := (scan optstring).

(** Induction over a command line as the scan takes it apart. *)
Lemma args_ind (P : list (list Z) -> Prop) :
  P [] -> (forall a, P [] -> P [a]) -> (forall a v args, P args -> P (v :: args) -> P (a :: v :: args)) ->
  forall args, P args.
Proof.
  intros H0 H1 H2 args. enough (P args /\ forall a, P (a :: args)) by tauto.
  induction args as [|v args [IH IH']]; split; auto.
Qed.

Lemma streq_true a b : streq a b = true <-> a = b.
Proof. unfold streq. by rewrite bool_decide_eq_true. Qed.

(** The scan of the first argument. *)
Lemma scan_cons a args :
  scan (a :: args) =
  if streq a dash_dash then MkScanned [] [] [] true args
  else if is_option a then
    let '(r, next) := cluster optstring (tail a) in
    match next, args with
    | None, _ =>
        let sc := scan args in
        MkScanned (r ++ results sc) (a :: options sc) (operands sc) (dashes sc) (rest sc)
    | Some c, [] => MkScanned (r ++ [Unknown c]) [a] [] false []
    | Some c, v :: args' =>
        let sc := scan args' in
        MkScanned (r ++ Found c (Some v) :: results sc) (a :: v :: options sc) (operands sc)
          (dashes sc) (rest sc)
    end
  else
    let sc := scan args in
    MkScanned (results sc) (options sc) (a :: operands sc) (dashes sc) (rest sc).
Proof. by destruct args. Qed.

(** Every option is known and has its argument. *)
Definition accepted (args : list (list Z)) : Prop := forall c, Unknown c ∉ results (scan args).

(** Arguments before a ["--"] are scanned as if they were all. *)
Lemma scan_app own args :
  dash_dash ∉ own -> accepted own ->
  scan (own ++ dash_dash :: args) =
  MkScanned (results (scan own)) (options (scan own)) (operands (scan own)) true args.
Proof.
  unfold accepted. induction own as [|a _|a v own IH1 IH2] using args_ind; intros Hd Hc; [done|..];
    rewrite !list.elem_of_cons in Hd; cbn [app]; rewrite !(scan_cons a) in *;
    (destruct (streq a dash_dash) eqn:Ea; [apply streq_true in Ea; subst; tauto|]);
    (destruct (is_option a); [destruct (cluster optstring (tail a)) as [r [c|]]|]); cbn [results] in Hc.
  - destruct (Hc c). apply elem_of_app. right. left.
  - done.
  - done.
  - rewrite IH1; [done|tauto|]. intros c' Hc'. apply (Hc c'), elem_of_app. right. by right.
  - specialize (IH2 ltac:(rewrite list.elem_of_cons; tauto)). cbn [app] in IH2. rewrite IH2; [done|].
    intros c' Hc'. apply (Hc c'), elem_of_app. by right.
  - specialize (IH2 ltac:(rewrite list.elem_of_cons; tauto)). cbn [app] in IH2. by rewrite IH2.
Qed.

(** Sorting only moves arguments. *)
Lemma sorted_args_perm args : sorted_args (scan args) ≡ₚ args.
Proof.
  unfold sorted_args.
  induction args as [|a _|a v own IH1 IH2] using args_ind; [done|..]; rewrite (scan_cons a);
    (destruct (streq a dash_dash) eqn:Ea; [apply streq_true in Ea; by subst|]);
    (destruct (is_option a); [destruct (cluster optstring (tail a)) as [r [c|]]|]);
    cbn [options operands rest dashes app]; try done.
  - by rewrite IH1.
  - by rewrite IH2.
  - etransitivity; [|apply Permutation_skip, IH2]. rewrite !app_assoc, <- Permutation_middle. by rewrite <- !app_assoc.
Qed.
End ScanLemmas.
End Getopt.
