(* ===== verification/Harness.v ===== *)
(** * The processes that run the benchmarks (src/sources/common/main-*.c)

    [main] reads the harness's options, hands what follows ["--"] to the
    benchmark's [real_main], and tells the script that measures it, by files in
    /tmp, that the benchmark is ready and done.  There are three versions: for
    one thread, for several, and with page-table dumps.  A run is the list of
    the calls a process makes that can be seen from outside. *)

From Stdlib Require Import ZArith Lia String.
From stdpp Require Import list numbers.
From S2P Require Import Prelude CLib Getopt.
Import Getopt.
#[local] Open Scope Z_scope.

Module Harness.

(** ** Runs *)

Inductive file := Stdout | Stderr | Opened (path : list Z).

Inductive event :=
| Out (f : file) (s : list Z)         (* [fprintf] *)
| Creat (path : list Z)               (* [fopen(path, "w")] *)
| Append (path : list Z)              (* [fopen(path, "a")] *)
| Failed (path : list Z)              (* an [fopen] or [open] that returns no file *)
| OpenDev (path : list Z)             (* [open(path, 0)] *)
| Unlink (path : list Z)
| Usleep (us : Z)
| Poll (path : list Z) (found : bool) (* [access(path, F_OK)] *)
| Membind (node : Z)
| Policy                              (* [numa_set_strict(1)] and [numa_set_bind_policy(1)] *)
| Handler                             (* [sigaction(SIGUSR1, ...)] *)
| Run (argv : list (list Z)).         (* the call of [real_main] *)

#[export] Instance file_eq_dec : EqDecision file.
Proof. solve_decision. Defined.
#[export] Instance event_eq_dec : EqDecision event.
Proof. solve_decision. Defined.

(** A computation returns, ends the process with a status, or leaves what C
    defines or the rounds of its loop, which is shown not to happen. *)
Inductive ending (A : Type) := Ret (a : A) | Exit (status : Z) | Undefined.
Arguments Ret {A}.
Arguments Exit {A}.
Arguments Undefined {A}.

Definition M (A : Type) : Type := list event * ending A.

#[export] Instance M_ret : MRet M := fun A a => ([], Ret a).
#[export] Instance M_bind : MBind M := fun A B f m =>
  match m with
  | (t, Ret a) => let '(t', r) := f a in (t ++ t', r)
  | (t, Exit z) => (t, Exit z)
  | (t, Undefined) => (t, Undefined)
  end.

Definition emit (e : event) : M unit := ([e], Ret ()).
Definition fprintf (f : file) (s : list Z) : M unit := emit (Out f s).
(** [exit(status)], or [return status] in [main] *)
Definition exit {A} (status : Z) : M A := ([], Exit status).

Definition when (b : bool) (m : M unit) : M unit := if b then m else mret ().

(** ** What the operating system answers *)

Record timeval := MkTimeval { tv_sec : Z; tv_usec : Z }.

(** [access k] is the answer to question [k] about the file of the captured
    statistics, [real_main] the benchmark: what it does and the status with
    which it ends the process, if it does. *)
Class System := {
  numa_available : Z;
  nodemask_allocated : bool;
  numa_num_configured_nodes : Z;
  fopen_w : list Z -> bool;
  fopen_a : list Z -> bool;
  device : bool;
  access : nat -> bool;
  tstart : timeval;
  tend : timeval;
  real_main : list (list Z) -> list event * option Z;
}.

(** How the program was compiled. *)
Class Build := { openmp : bool; DISABLE_SIGNAL_IN_MAIN : bool }.

Definition CONFIG_SHM_FILE_NAME : list Z := chars "/tmp/alloctest-bench".
Definition ready_file : list Z := CONFIG_SHM_FILE_NAME ++ chars ".ready".
Definition done_file : list Z := CONFIG_SHM_FILE_NAME ++ chars ".done".
Definition stats_file : list Z := CONFIG_SHM_FILE_NAME ++ chars ".stats_captured".
Definition PTDUMP_FILE : list Z := chars "/proc/ptdump".

(** ** Formats *)

(** [%d] and [%i] *)
Definition print_int (n : Z) : list Z := if n <? 0 then 45 :: decimal (- n) else decimal n.
(** [%03zu] *)
Definition pad3 (s : list Z) : list Z := replicate (3 - length s) 48 ++ s.
Definition newline : list Z := [10].
Definition print_flag (b : bool) : list Z := if b then chars "1" else chars "0".

(** The time of the run: the differences are [long], printed as [size_t]. *)
Definition took (tstart tend : timeval) : list Z :=
  chars "Took: " ++ decimal (u64 (tv_sec tend - tv_sec tstart)) ++ chars "." ++
  pad3 (decimal (u64 (Z.quot (tv_usec tend - tv_usec tstart) 1000))) ++ newline.

Section Main.
Context {sys : System} {build : Build}.

(** ** Settings *)

(** The variables the options set. *)
Record settings := MkSettings {
  opt_file_out : file;
  opt_numa_node_pte : Z;
  opt_madvise_huge : bool;
  opt_interference : bool;
  opt_dump_pt_crc : bool;
  opt_dump_pt_full : bool;
  node_data : Z;
  node_run : Z;
  mem : Z;
}.

Definition set_out f s := MkSettings f (opt_numa_node_pte s) (opt_madvise_huge s) (opt_interference s)
  (opt_dump_pt_crc s) (opt_dump_pt_full s) (node_data s) (node_run s) (mem s).
Definition set_pte n s := MkSettings (opt_file_out s) n (opt_madvise_huge s) (opt_interference s)
  (opt_dump_pt_crc s) (opt_dump_pt_full s) (node_data s) (node_run s) (mem s).
Definition set_huge s := MkSettings (opt_file_out s) (opt_numa_node_pte s) true (opt_interference s)
  (opt_dump_pt_crc s) (opt_dump_pt_full s) (node_data s) (node_run s) (mem s).
Definition set_interference s := MkSettings (opt_file_out s) (opt_numa_node_pte s) (opt_madvise_huge s) true
  (opt_dump_pt_crc s) (opt_dump_pt_full s) (node_data s) (node_run s) (mem s).
Definition set_crc s := MkSettings (opt_file_out s) (opt_numa_node_pte s) (opt_madvise_huge s)
  (opt_interference s) true (opt_dump_pt_full s) (node_data s) (node_run s) (mem s).
Definition set_full s := MkSettings (opt_file_out s) (opt_numa_node_pte s) (opt_madvise_huge s)
  (opt_interference s) (opt_dump_pt_crc s) true (node_data s) (node_run s) (mem s).
Definition set_data n s := MkSettings (opt_file_out s) (opt_numa_node_pte s) (opt_madvise_huge s)
  (opt_interference s) (opt_dump_pt_crc s) (opt_dump_pt_full s) n (node_run s) (mem s).
Definition set_run n s := MkSettings (opt_file_out s) (opt_numa_node_pte s) (opt_madvise_huge s)
  (opt_interference s) (opt_dump_pt_crc s) (opt_dump_pt_full s) (node_data s) n (mem s).
Definition set_mem n s := MkSettings (opt_file_out s) (opt_numa_node_pte s) (opt_madvise_huge s)
  (opt_interference s) (opt_dump_pt_crc s) (opt_dump_pt_full s) (node_data s) (node_run s) n.

(** The variables before the options; [node_data] is -1 or 0. *)
Definition initial (node_data : Z) : settings :=
  MkSettings Stdout 0 false false false false node_data 0 (Z.shiftl 1 30).

(** ** Options *)

(** [n = strtol(optarg, NULL, 10); CHECK_NODE(n, what);] with an [int n] *)
Definition CHECK_NODE (optarg : list Z) (what : string) : M Z :=
  let n := s32 (atol optarg) in
  if (n <? 0) || (numa_num_configured_nodes <=? n) then
    _ ← fprintf Stderr (chars "WARNING: provided numa node for " ++ chars what ++ chars " was  " ++ print_int n ++
                        chars " out of supported range! setting to 0." ++ newline);
    mret 0
  else mret n.

(** [strtoull(optarg, NULL, 10) << 30] *)
Definition memory_size (optarg : list Z) : Z := u64 (Z.shiftl (fst (strtoull optarg)) 30).

(** [-o], [-h] and ['?'], which the three programs treat alike. *)
Definition open_output (optarg : list Z) (s : settings) : M settings :=
  if fopen_a optarg then
    _ ← emit (Append optarg);
    mret (set_out (Opened optarg) s)
  else
    _ ← emit (Failed optarg);
    _ ← fprintf Stderr (chars "Could not open the file '" ++ optarg ++ chars "' switching to stdout" ++ newline);
    mret (set_out Stdout s).

Definition usage (argv0 : list Z) : M settings :=
  _ ← fprintf Stdout (chars "usage: " ++ argv0 ++ chars " [-p N] [-d N] [-r N] [-m N] [-o FILE]" ++ newline);
  _ ← fprintf Stdout (chars "p: pagetable node, d: datanode, r: runnode, m: memory in GB" ++ newline);
  exit 0.

Definition is_char (c : Z) (s : string) : bool := streq [c] (chars s).

Definition bad_option (optopt : Z) : M settings :=
  if is_char optopt "p" || is_char optopt "r" || is_char optopt "d" || is_char optopt "m" || is_char optopt "o" then
    _ ← fprintf Stderr (chars "Option -" ++ [optopt] ++ chars " requires an argument." ++ newline);
    exit (-1)
  else
    _ ← fprintf Stderr (chars "Unknown option `-" ++ [optopt] ++ chars "'." ++ newline);
    exit (-1).

(** The switch of main-mt.c. *)
Definition option_mt (argv0 : list Z) (s : settings) (r : result) : M settings :=
  match r with
  | Found c (Some optarg) =>
      if is_char c "p" then n ← CHECK_NODE optarg "pagetable node"; mret (set_pte n s)
      else if is_char c "d" then n ← CHECK_NODE optarg "data node"; mret (set_data n s)
      else if is_char c "m" then mret (set_mem (memory_size optarg) s)
      else if is_char c "o" then open_output optarg s
      else mret s
  | Found c None =>
      if is_char c "t" then mret (set_huge s)
      else if is_char c "h" then usage argv0
      else mret s
  | Unknown optopt => bad_option optopt
  end.

(** The switch of main-st.c; [-s] sets a variable that nothing reads. *)
Definition option_st (argv0 : list Z) (s : settings) (r : result) : M settings :=
  match r with
  | Found c (Some optarg) =>
      if is_char c "p" then n ← CHECK_NODE optarg "pagetable node"; mret (set_pte n s)
      else if is_char c "r" then n ← CHECK_NODE optarg "run node"; mret (set_run n s)
      else if is_char c "d" then n ← CHECK_NODE optarg "data node"; mret (set_data n s)
      else if is_char c "m" then mret (set_mem (memory_size optarg) s)
      else if is_char c "o" then open_output optarg s
      else mret s
  | Found c None =>
      if is_char c "i" then mret (set_interference s)
      else if is_char c "t" then mret (set_huge s)
      else if is_char c "h" then usage argv0
      else mret s
  | Unknown optopt => bad_option optopt
  end.

(** The switch of main-ptdump.c. *)
Definition option_dump (argv0 : list Z) (s : settings) (r : result) : M settings :=
  match r with
  | Found c (Some optarg) =>
      if is_char c "p" then n ← CHECK_NODE optarg "pagetable node"; mret (set_pte n s)
      else if is_char c "d" then n ← CHECK_NODE optarg "data node"; mret (set_data n s)
      else if is_char c "m" then mret (set_mem (memory_size optarg) s)
      else if is_char c "o" then open_output optarg s
      else mret s
  | Found c None =>
      if is_char c "c" then mret (set_crc s)
      else if is_char c "f" then mret (set_full s)
      else if is_char c "t" then mret (set_huge s)
      else if is_char c "h" then usage argv0
      else mret s
  | Unknown optopt => bad_option optopt
  end.

(** The loop around a switch. *)
Fixpoint options_loop (switch : settings -> result -> M settings) (rs : list result) (s : settings) : M settings :=
  match rs with
  | [] => mret s
  | r :: rs => s ← switch s r; options_loop switch rs s
  end.

Definition optstring_mt : list Z := chars "p:d:m:o:fhitc".
Definition optstring_st : list Z := chars "p:d:r:m:o:fhistc".

(** ** The parts of [main] *)

Fixpoint print_argv (argv : list (list Z)) : M unit :=
  match argv with
  | [] => mret ()
  | a :: argv => _ ← fprintf Stdout (a ++ chars " "); print_argv argv
  end.

(** The benchmark's arguments: the first ["--"] is replaced by [argv[0]]. *)
Fixpoint from_dashes (argv0 : list Z) (argv : list (list Z)) : option (list (list Z)) :=
  match argv with
  | [] => None
  | a :: argv => if streq a dash_dash then Some (argv0 :: argv) else from_dashes argv0 argv
  end.
Definition prog_argv (argv0 : list Z) (argv : list (list Z)) : list (list Z) := default argv (from_dashes argv0 argv).

(** [fopen(path, "w")], and the message and [exit(-1)] when it fails *)
Definition create_file (path : list Z) : M unit :=
  if fopen_w path then emit (Creat path)
  else
    _ ← emit (Failed path);
    _ ← fprintf Stderr (chars "ERROR: could not create the shared memory file descriptor" ++ newline);
    exit (-1).

Definition signal_ready : M unit :=
  if DISABLE_SIGNAL_IN_MAIN then mret ()
  else
    _ ← fprintf Stderr (chars "signalling readyness to " ++ ready_file ++ newline);
    _ ← create_file ready_file;
    emit (Usleep 250).

(** The calls that print the configuration, up to the ones of main-st.c only. *)
Definition print_config (argv0 : list Z) (s : settings) (only_st : bool) : M unit :=
  let out := fprintf (opt_file_out s) in
  _ ← out (chars "<benchmark exec=" ++ [34] ++ argv0 ++ [34] ++ chars ">" ++ newline);
  _ ← out (chars "<config>" ++ newline);
  _ ← out (if openmp then chars "  <openmp>on</openmp>" else chars "  <openmp>off</openmp>");
  _ ← out (chars "  <memsize>" ++ decimal (Z.shiftr (mem s) 30) ++ chars "G <memsize>");
  _ ← out (chars "  <hugetlb>" ++ print_flag (opt_madvise_huge s) ++ chars "</hugetlb>" ++ newline);
  _ ← out (chars "  <data>" ++ print_int (node_data s) ++ chars "</data>");
  _ ← when only_st (_ ← out (chars "  <pte>" ++ print_int (opt_numa_node_pte s) ++ chars "</pte>");
                    out (chars "  <run>" ++ print_int (node_run s) ++ chars "</run>" ++ newline));
  _ ← out (chars "  <interference>" ++ print_flag (opt_interference s) ++ chars "</interference>" ++ newline);
  out (chars "</config>" ++ newline).

(** The call of [real_main], which may end the process. *)
Definition call_real_main (argv : list (list Z)) : M unit :=
  let '(t, r) := real_main argv in
  (Run argv :: t, match r with None => Ret () | Some status => Exit status end).

(** The call between its tags, and the file that says it is done. *)
Definition run_benchmark (s : settings) (argv : list (list Z)) : M unit :=
  _ ← emit Handler;
  _ ← fprintf (opt_file_out s) (chars "<run>" ++ newline);
  _ ← call_real_main argv;
  _ ← fprintf (opt_file_out s) (chars "</run>" ++ newline);
  create_file done_file.

(** The loop of main-mt.c that waits for the statistics. *)
Fixpoint wait_stats (fuel : nat) (waited : Z) : M unit :=
  match fuel with
  | O => ([], Undefined)
  | S fuel =>
      if access (Z.to_nat waited) then emit (Poll stats_file true)
      else
        _ ← emit (Poll stats_file false);
        _ ← emit (Usleep 10000);
        let waited := waited + 1 in
        if 3000 <? waited then
          fprintf Stderr (chars "WARNING: timed out waiting for stats capture" ++ newline)
        else wait_stats fuel waited
  end.
(** One round more than the limit of the loop. *)
Definition WAIT_FUEL : nat := 3001.

(** The times, in both outputs, and the end of the document. *)
Definition print_took (s : settings) : M unit :=
  _ ← fprintf Stdout (took tstart tend);
  _ ← fprintf (opt_file_out s) (took tstart tend);
  fprintf (opt_file_out s) (chars "</benchmark>" ++ newline).

(** ** The three programs *)

(** main-mt.c; the placement of memory and threads is compiled out. *)
Definition main_mt (argv0 : list Z) (args : list (list Z)) : M unit :=
  _ ← print_argv (argv0 :: args);
  _ ← fprintf Stdout newline;
  let sc := scan optstring_mt args in
  s ← options_loop (option_mt argv0) (results sc) (initial (-1));
  let argv := prog_argv argv0 (argv0 :: sorted_args sc) in
  _ ← signal_ready;
  _ ← print_config argv0 s false;
  _ ← run_benchmark s argv;
  _ ← wait_stats WAIT_FUEL 0;
  _ ← print_took s;
  exit 0.

Fixpoint print_prog_argv (i : Z) (argv : list (list Z)) : M unit :=
  match argv with
  | [] => mret ()
  | a :: argv => _ ← fprintf Stdout (chars "prog_argv[" ++ print_int i ++ chars "]=" ++ a ++ newline);
                 print_prog_argv (i + 1) argv
  end.

(** main-st.c; the placement of memory is compiled out, all but its policy. *)
Definition main_st (argv0 : list Z) (args : list (list Z)) : M unit :=
  _ ← print_argv (argv0 :: args);
  _ ← fprintf Stdout newline;
  _ ← when (numa_available =? -1)
        (_ ← fprintf Stderr (chars "ERROR: Numa not available on this machine." ++ newline); exit (-1));
  _ ← when (negb nodemask_allocated)
        (_ ← fprintf Stderr (chars "ERROR: No memory for nodemask" ++ newline); exit (-1));
  let sc := scan optstring_st args in
  s ← options_loop (option_st argv0) (results sc) (initial 0);
  let argv := prog_argv argv0 (argv0 :: sorted_args sc) in
  _ ← print_prog_argv 0 argv;
  _ ← fprintf Stderr (chars "NO signalling readyness to " ++ ready_file ++ newline);
  _ ← signal_ready;
  _ ← print_config argv0 s true;
  _ ← emit Policy;
  _ ← run_benchmark s argv;
  _ ← emit (Usleep 250);
  _ ← print_took s;
  exit 0.

(** main-ptdump.c without OpenMP and PAPI, as it is built; the dumps before and
    after the run are commented out. *)
Definition main_dump (argv0 : list Z) (args : list (list Z)) : M unit :=
  _ ← print_argv (argv0 :: args);
  _ ← fprintf Stdout newline;
  let sc := scan optstring_mt args in
  s ← options_loop (option_dump argv0) (results sc) (initial (-1));
  _ ← when (negb (node_data s =? -1)) (emit (Membind (node_data s)));
  let argv := prog_argv argv0 (argv0 :: sorted_args sc) in
  _ ← signal_ready;
  _ ← print_config argv0 s false;
  _ ← when (opt_dump_pt_full s || opt_dump_pt_crc s)
        (if device then emit (OpenDev PTDUMP_FILE)
         else
           _ ← emit (Failed PTDUMP_FILE);
           _ ← fprintf Stderr (chars "Can't open device file: /proc/ptdumpself" ++ newline);
           exit (-1));
  _ ← run_benchmark s argv;
  _ ← emit (Usleep 250);
  _ ← print_took s;
  exit 0.

(** ** The signal *)

Definition signalhandler (out : file) (sig : Z) : M unit :=
  _ ← fprintf out (chars "<sig>Signal " ++ print_int sig ++ chars " caught!</sig>" ++ newline);
  _ ← create_file done_file;
  _ ← emit (Usleep 250);
  _ ← fprintf out (chars "</benchmark>" ++ newline);
  exit 0.

(** A signal after [k] calls of a run: the handler ends the process once it is
    installed; before that the signal does, with nothing more done ([None]). *)
Definition interrupted (k : nat) (sig : Z) (out : file) (run : list event) : list event * option (ending unit) :=
  if bool_decide (Handler ∈ take k run) then
    let '(t, r) := signalhandler out sig in (take k run ++ t, Some r)
  else (take k run, None).

End Main.

(** ** Proofs *)

Lemma M_bind_ret {A B} (f : A -> M B) t a : mbind (M := M) f (t, Ret a) = (t ++ fst (f a), snd (f a)).
Proof. cbn. by destruct (f a). Qed.

Section Proofs.
Context {sys : System} {build : Build}.

(** *** The waiting loop *)

(** [n] questions without success, then one with, or the end of the patience. *)
Definition wait_trace (n : nat) (captured : bool) : list event :=
  concat (replicate n [Poll stats_file false; Usleep 10000]) ++
  [if captured then Poll stats_file true
   else Out Stderr (chars "WARNING: timed out waiting for stats capture" ++ newline)].

Definition waited_for (from n : nat) (captured : bool) : Prop :=
  (forall k, (from <= k < from + n)%nat -> access k = false) /\
  if captured then (from + n <= 3000)%nat /\ access (from + n) = true else (from + n = 3001)%nat.

Lemma wait_stats_ends fuel from :
  (from <= 3000)%nat -> (3001 <= fuel + from)%nat ->
  exists n captured, wait_stats fuel (Z.of_nat from) = (wait_trace n captured, Ret ()) /\ waited_for from n captured.
Proof.
  revert from. induction fuel as [|fuel IH]; intros from Hf Hl; [lia|]. cbn [wait_stats]. rewrite Nat2Z.id.
  destruct (access from) eqn:Ea.
  { exists 0%nat, true. split; [done|]. split; [intros; lia|]. rewrite Nat.add_0_r. split; [lia|done]. }
  destruct (Z.ltb_spec 3000 (Z.of_nat from + 1)).
  { exists 1%nat, false. split; [done|]. split; [|lia]. intros k Hk. by replace k with from by lia. }
  replace (Z.of_nat from + 1) with (Z.of_nat (S from)) by lia.
  destruct (IH (S from)) as (n & captured & Hw & Hb & He); [lia..|]. exists (S n), captured. split.
  - rewrite Hw. done.
  - split; [|replace (from + S n)%nat with (S from + n)%nat by lia; done].
    intros k Hk. destruct (decide (k = from)) as [->|]; [done|]. apply Hb. lia.
Qed.

(** The statistics are seen unless they come too late. *)
Lemma waited_for_captured n captured :
  waited_for 0 n captured -> captured = true <-> exists k, (k <= 3000)%nat /\ access k = true.
Proof.
  intros [Hb He]. split.
  - intros ->. destruct He. by exists n.
  - intros (k & Hk & Ha). destruct captured; [done|]. rewrite Hb in Ha; [done|lia].
Qed.

(** *** What comes before the benchmark *)

Definition before_run (e : event) : Prop :=
  match e with Creat path => path = ready_file | Run _ | Handler => False | _ => True end.

(** [m] returns [a] with [P a], and does nothing that belongs to the run. *)
Definition prepares {A} (m : M A) (P : A -> Prop) : Prop :=
  exists t a, m = (t, Ret a) /\ Forall before_run t /\ P a.

Lemma prepares_ret {A} (a : A) (P : A -> Prop) : P a -> prepares (mret a) P.
Proof. intros. by exists [], a. Qed.

Lemma prepares_emit e : before_run e -> prepares (emit e) (fun _ => True).
Proof. intros. exists [e], (). split_and!; [done|by repeat constructor|done]. Qed.

Lemma prepares_fprintf f s : prepares (fprintf f s) (fun _ => True).
Proof. by apply prepares_emit. Qed.

Lemma prepares_bind {A B} (m : M A) (f : A -> M B) P Q :
  prepares m P -> (forall a, P a -> prepares (f a) Q) -> prepares (m ≫= f) Q.
Proof.
  intros (t & a & -> & Ht & Ha) Hf. destruct (Hf a Ha) as (t' & b & E & Ht' & Hb).
  exists (t ++ t'), b. rewrite M_bind_ret, E. split_and!; [done|by apply list.Forall_app|done].
Qed.

(** What a preparation is followed by. *)
Lemma prepares_then {A B} (m : M A) (f : A -> M B) P (R : list event * ending B -> Prop) :
  prepares m P ->
  (forall pre a, Forall before_run pre -> P a -> R (pre ++ fst (f a), snd (f a))) -> R (m ≫= f).
Proof. intros (t & a & -> & Ht & Ha) Hf. rewrite M_bind_ret. by apply Hf. Qed.

Lemma prepares_weaken {A} (m : M A) (P Q : A -> Prop) : prepares m P -> (forall a, P a -> Q a) -> prepares m Q.
Proof. intros (t & a & ? & ? & ?) HPQ. exists t, a. auto. Qed.

Lemma prepares_print_argv argv : prepares (print_argv argv) (fun _ => True).
Proof.
  induction argv as [|a argv IH]; [by apply prepares_ret|].
  eapply prepares_bind; [apply prepares_fprintf|auto].
Qed.

Lemma prepares_print_prog_argv i argv : prepares (print_prog_argv i argv) (fun _ => True).
Proof.
  revert i. induction argv as [|a argv IH]; intros i; [by apply prepares_ret|].
  eapply prepares_bind; [apply prepares_fprintf|auto].
Qed.

Lemma prepares_when b m : (b = true -> prepares m (fun _ => True)) -> prepares (when b m) (fun _ => True).
Proof. destruct b; [by auto|]. intros _. by apply prepares_ret. Qed.

Lemma prepares_print_config argv0 s only_st : prepares (print_config argv0 s only_st) (fun _ => True).
Proof.
  unfold print_config. repeat (eapply prepares_bind; [first [apply prepares_fprintf|apply prepares_when; intros _]|intros _ _]).
  all: apply prepares_fprintf.
Qed.

(** The file of the first signal can be created if this program creates it. *)
Definition can_signal : Prop := DISABLE_SIGNAL_IN_MAIN = false -> fopen_w ready_file = true.

Lemma prepares_signal_ready : can_signal -> prepares signal_ready (fun _ => True).
Proof.
  unfold can_signal, signal_ready, create_file. destruct DISABLE_SIGNAL_IN_MAIN; intros Hs; [by apply prepares_ret|].
  rewrite Hs by done. eapply prepares_bind; [apply prepares_fprintf|intros _ _].
  eapply prepares_bind; intros; by apply prepares_emit.
Qed.

(** *** Settings *)

Definition is_node (n : Z) : Prop := 0 <= n < numa_num_configured_nodes.

(** Nodes that the machine has; [none] for a data node that was not given. *)
Definition placed (none : Z) (s : settings) : Prop :=
  is_node (opt_numa_node_pte s) /\ (node_data s = none \/ is_node (node_data s)) /\
  is_node (node_run s) /\ in_u64 (mem s).

Lemma CHECK_NODE_node optarg what :
  0 < numa_num_configured_nodes -> prepares (CHECK_NODE optarg what) is_node.
Proof.
  intros Hn. unfold CHECK_NODE. set (n := s32 _).
  destruct (Z.ltb_spec n 0), (Z.leb_spec numa_num_configured_nodes n); cbn [orb];
    try (apply prepares_ret; unfold is_node; lia);
    (eapply prepares_bind; [apply prepares_fprintf|intros _ _; apply prepares_ret; unfold is_node; lia]).
Qed.

Lemma open_output_placed none optarg s : placed none s -> prepares (open_output optarg s) (placed none).
Proof.
  intros Hs. unfold open_output. destruct (fopen_a optarg);
    repeat (eapply prepares_bind; [by apply prepares_emit|intros _ _]); by apply prepares_ret.
Qed.

Definition no_help (r : result) : Prop :=
  match r with Found c None => is_char c "h" = false | Found _ _ => True | Unknown _ => False end.

(** A switch that keeps the settings in range for all options but the help. *)
Definition sound_switch (none : Z) (switch : settings -> result -> M settings) : Prop :=
  forall s r, placed none s -> no_help r -> prepares (switch s r) (placed none).

Lemma memory_size_range optarg : in_u64 (memory_size optarg).
Proof. apply u64_range. Qed.

Ltac settled :=
  apply prepares_ret; match goal with H : placed _ _ |- _ => destruct H as (? & ? & ? & ?) end;
  pose proof memory_size_range; split_and!; cbn; auto.

Lemma switches_sound argv0 :
  0 < numa_num_configured_nodes ->
  sound_switch (-1) (option_mt argv0) /\ sound_switch 0 (option_st argv0) /\ sound_switch (-1) (option_dump argv0).
Proof.
  intros Hn. split_and!; intros s [c [optarg|]|?] Hs Hr; try done; cbn in Hr;
    unfold option_mt, option_st, option_dump; rewrite ?Hr;
    repeat case_match; try settled; try by apply open_output_placed.
  all: (eapply prepares_bind; [by apply CHECK_NODE_node|intros; settled]).
Qed.

Lemma options_loop_placed none switch rs s :
  sound_switch none switch -> placed none s -> Forall no_help rs -> prepares (options_loop switch rs s) (placed none).
Proof.
  intros Hsw Hs Hrs. revert s Hs. induction Hrs as [|r rs Hr Hrs IH]; intros s Hs; [by apply prepares_ret|].
  eapply prepares_bind; eauto.
Qed.

Lemma Forall_no_help optstring own :
  accepted optstring own -> (forall o, Found 104 o ∉ results (scan optstring own)) ->
  Forall no_help (results (scan optstring own)).
Proof.
  intros Ha Hh. apply list.Forall_forall. intros [c [o|]|c] Hr; cbn; [done| |by destruct (Ha c)].
  unfold is_char. destruct (streq [c] (chars "h")) eqn:E; [|done]. apply streq_true in E.
  injection E as ->. by destruct (Hh None).
Qed.

(** *** The benchmark's arguments *)

Lemma from_dashes_app argv0 l argv :
  dash_dash ∉ l -> from_dashes argv0 (l ++ dash_dash :: argv) = Some (argv0 :: argv).
Proof.
  induction l as [|a l IH]; intros Hl; [done|]. rewrite list.elem_of_cons in Hl. cbn.
  destruct (streq a dash_dash) eqn:E; [apply streq_true in E; subst; tauto|]. apply IH. tauto.
Qed.

Lemma options_elem optstring own a : a ∈ options (scan optstring own) -> a ∈ own.
Proof.
  intros Ha. rewrite <- (sorted_args_perm optstring own). unfold sorted_args. apply elem_of_app. by left.
Qed.

Lemma prog_argv_dashes optstring argv0 own args :
  dash_dash ∉ argv0 :: own -> accepted optstring own ->
  prog_argv argv0 (argv0 :: sorted_args (scan optstring (own ++ dash_dash :: args))) =
  argv0 :: operands (scan optstring own) ++ args.
Proof.
  intros Hd Ha. rewrite list.elem_of_cons in Hd. rewrite scan_app by tauto. unfold sorted_args, prog_argv. cbn [options dashes operands rest app].
  rewrite app_comm_cons, from_dashes_app; [done|]. rewrite list.elem_of_cons.
  intros [?|?%options_elem]; tauto.
Qed.

(** *** The run *)

Lemma run_benchmark_done s argv :
  fopen_w done_file = true -> snd (real_main argv) = None ->
  run_benchmark s argv =
  ([Handler; Out (opt_file_out s) (chars "<run>" ++ newline); Run argv] ++ fst (real_main argv) ++
   [Out (opt_file_out s) (chars "</run>" ++ newline); Creat done_file], Ret ()).
Proof.
  intros Hf Hr. unfold run_benchmark, call_real_main, create_file. rewrite Hf.
  destruct (real_main argv) as [t r]. cbn in Hr |- *. by rewrite Hr.
Qed.

(** The process [m] prepares, runs the benchmark with [argv], creates the file
    that says so when the benchmark has returned, and ends with status 0. *)
Definition hands_over (none : Z) (m : M unit) (argv : list (list Z)) (after : settings -> list event -> Prop) : Prop :=
  exists pre s t,
    m = (pre ++ [Handler; Out (opt_file_out s) (chars "<run>" ++ newline); Run argv] ++ fst (real_main argv) ++
         [Out (opt_file_out s) (chars "</run>" ++ newline); Creat done_file] ++ t, Exit 0) /\
    Forall before_run pre /\ placed none s /\ after s t.

(** Both times and the end of the document. *)
Definition farewell (s : settings) : list event :=
  [Out Stdout (took tstart tend); Out (opt_file_out s) (took tstart tend);
   Out (opt_file_out s) (chars "</benchmark>" ++ newline)].

Lemma hands_over_prepares {A} none (m : M A) (f : A -> M unit) P argv after :
  prepares m P -> (forall a, P a -> hands_over none (f a) argv after) -> hands_over none (m ≫= f) argv after.
Proof.
  intros (t & a & -> & Ht & Ha) Hf. destruct (Hf a Ha) as (pre & s & t' & E & Hpre & ? & ?).
  exists (t ++ pre), s, t'. rewrite M_bind_ret, E. cbn [fst snd]. rewrite <- app_assoc.
  split_and!; [done|by apply list.Forall_app|done..].
Qed.

Lemma hands_over_run none s argv (m : M unit) t (after : settings -> list event -> Prop) :
  fopen_w done_file = true -> snd (real_main argv) = None -> placed none s ->
  m = (t, Exit 0) -> after s t -> hands_over none (_ ← run_benchmark s argv; m) argv after.
Proof.
  intros Hf Hr Hs -> Ha. rewrite run_benchmark_done by done. rewrite M_bind_ret. cbn [fst snd].
  exists [], s, t. split_and!; [|done..]. cbn [app]. by rewrite <- !app_assoc.
Qed.

(** What a command line must have: the options known, no [-h], nodes on the
    machine, files that can be created and a benchmark that returns. *)
Definition good_run (optstring argv0 : list Z) (own args : list (list Z)) : Prop :=
  dash_dash ∉ argv0 :: own /\ accepted optstring own /\ (forall o, Found 104 o ∉ results (scan optstring own)) /\
  0 < numa_num_configured_nodes /\ can_signal /\ fopen_w done_file = true /\
  snd (real_main (argv0 :: operands (scan optstring own) ++ args)) = None.

Lemma initial_placed none : 0 < numa_num_configured_nodes -> placed none (initial none).
Proof. intros. unfold placed, is_node. cbn -[in_u64]. split_and!; [lia..|by left|lia|lia|done]. Qed.

Lemma options_prepare none switch optstring own :
  sound_switch none switch -> 0 < numa_num_configured_nodes -> accepted optstring own ->
  (forall o, Found 104 o ∉ results (scan optstring own)) ->
  prepares (options_loop switch (results (scan optstring own)) (initial none)) (placed none).
Proof. intros. apply options_loop_placed; [done|by apply initial_placed|by apply Forall_no_help]. Qed.

(** C18: the process for several threads.  With options of its own before ["--"],
    files that can be created and a benchmark that returns, it hands the
    benchmark its name, the operands and exactly what follows ["--"]; it creates
    no ".done" before the benchmark has returned and creates it then; it asks for
    the statistics until they are there, but no more than 3001 times, so that it
    ends with status 0 whatever the script does; and the nodes it reports are
    nodes of the machine. *)
Theorem main_mt_hands_over argv0 own args :
  good_run optstring_mt argv0 own args ->
  hands_over (-1) (main_mt argv0 (own ++ dash_dash :: args)) (argv0 :: operands (scan optstring_mt own) ++ args)
    (fun s t => exists n captured, t = wait_trace n captured ++ farewell s /\ waited_for 0 n captured).
Proof.
  intros (Hd & Ha & Hh & Hn & Hs & Hf & Hr). unfold main_mt.
  eapply hands_over_prepares; [apply prepares_print_argv|intros _ _].
  eapply hands_over_prepares; [apply prepares_fprintf|intros _ _].
  rewrite prog_argv_dashes by done. apply not_elem_of_cons in Hd as [_ Hd]. rewrite scan_app by done. cbn [results].
  eapply hands_over_prepares; [eapply options_prepare; [by apply switches_sound|done..]|intros s Hp].
  eapply hands_over_prepares; [by apply prepares_signal_ready|intros _ _].
  eapply hands_over_prepares; [apply prepares_print_config|intros _ _].
  destruct (wait_stats_ends WAIT_FUEL 0) as (n & captured & Hw & Hc); [lia|by apply Nat.leb_le|].
  eapply hands_over_run; [done..| |by exists n, captured].
  change (Z.of_nat 0) with 0 in Hw. rewrite Hw. rewrite M_bind_ret. done.
Qed.

(** main-st.c and main-ptdump.c do not wait for the statistics. *)
Theorem main_st_hands_over argv0 own args :
  numa_available <> -1 -> nodemask_allocated = true -> good_run optstring_st argv0 own args ->
  hands_over 0 (main_st argv0 (own ++ dash_dash :: args)) (argv0 :: operands (scan optstring_st own) ++ args)
    (fun s t => t = Usleep 250 :: farewell s).
Proof.
  intros Hnuma Hmask (Hd & Ha & Hh & Hn & Hs & Hf & Hr). unfold main_st.
  assert (numa_available =? -1 = false) as -> by lia. rewrite Hmask.
  eapply hands_over_prepares; [apply prepares_print_argv|intros _ _].
  eapply hands_over_prepares; [apply prepares_fprintf|intros _ _].
  do 2 (eapply hands_over_prepares; [by apply (prepares_ret () (fun _ => True))|intros _ _]).
  rewrite prog_argv_dashes by done. apply not_elem_of_cons in Hd as [_ Hd]. rewrite scan_app by done. cbn [results].
  eapply hands_over_prepares; [eapply options_prepare; [by apply switches_sound|done..]|intros s Hp].
  eapply hands_over_prepares; [apply prepares_print_prog_argv|intros _ _].
  eapply hands_over_prepares; [apply prepares_fprintf|intros _ _].
  eapply hands_over_prepares; [by apply prepares_signal_ready|intros _ _].
  eapply hands_over_prepares; [apply prepares_print_config|intros _ _].
  eapply hands_over_prepares; [by apply prepares_emit|intros _ _].
  by eapply hands_over_run.
Qed.

Theorem main_dump_hands_over argv0 own args :
  device = true -> good_run optstring_mt argv0 own args ->
  hands_over (-1) (main_dump argv0 (own ++ dash_dash :: args)) (argv0 :: operands (scan optstring_mt own) ++ args)
    (fun s t => t = Usleep 250 :: farewell s).
Proof.
  intros Hdev (Hd & Ha & Hh & Hn & Hs & Hf & Hr). unfold main_dump. rewrite Hdev.
  eapply hands_over_prepares; [apply prepares_print_argv|intros _ _].
  eapply hands_over_prepares; [apply prepares_fprintf|intros _ _].
  rewrite prog_argv_dashes by done. apply not_elem_of_cons in Hd as [_ Hd]. rewrite scan_app by done. cbn [results].
  eapply hands_over_prepares; [eapply options_prepare; [by apply switches_sound|done..]|intros s Hp].
  eapply hands_over_prepares; [apply prepares_when; intros _; by apply prepares_emit|intros _ _].
  eapply hands_over_prepares; [by apply prepares_signal_ready|intros _ _].
  eapply hands_over_prepares; [apply prepares_print_config|intros _ _].
  eapply hands_over_prepares; [apply prepares_when; intros _; by apply prepares_emit|intros _ _].
  by eapply hands_over_run.
Qed.

(** A signal that finds the handler installed leaves the file that says the
    benchmark is done, and status 0. *)
Theorem interrupted_done k sig out run :
  fopen_w done_file = true -> Handler ∈ take k run ->
  exists t, interrupted k sig out run = (t, Some (Exit 0)) /\ Creat done_file ∈ t /\ take k run `prefix_of` t.
Proof.
  intros Hf Hk. unfold interrupted. rewrite bool_decide_eq_true_2 by done. unfold signalhandler, create_file. rewrite Hf.
  eexists. split; [done|]. split; [|by eexists]. apply elem_of_app. right. right. left.
Qed.

End Proofs.

(** ** The time of the run *)

Definition valid_timeval (t : timeval) : Prop := 0 <= tv_sec t < 2 ^ 62 /\ 0 <= tv_usec t < 1000000.
Definition microseconds (t : timeval) : Z := 1000000 * tv_sec t + tv_usec t.

(** Seconds and milliseconds of a duration. *)
Definition duration (us : Z) : list Z :=
  chars "Took: " ++ decimal (us / 1000000) ++ chars "." ++ pad3 (decimal (us mod 1000000 / 1000)) ++ newline.

Lemma decimal_dot_inj a b s t :
  in_u64 a -> in_u64 b -> decimal a ++ 46 :: s = decimal b ++ 46 :: t -> a = b.
Proof.
  intros Ha Hb E. pose proof (strtoull_decimal a (46 :: s) Ha eq_refl) as Ea.
  rewrite E, strtoull_decimal in Ea by done. by injection Ea.
Qed.

(** C33: the time of the run, as all the programs print it.  The seconds and
    milliseconds are right exactly when the clock's microseconds at the end are
    not below those at the start: the difference of the microseconds is printed
    without borrowing a second, and a negative one as a number near 2^64. *)
Theorem took_right_iff s e :
  valid_timeval s -> valid_timeval e -> microseconds s <= microseconds e ->
  took s e = duration (microseconds e - microseconds s) <-> tv_usec s <= tv_usec e.
Proof.
  unfold valid_timeval, microseconds. intros Hs He Hle.
  set (us := 1000000 * tv_sec e + tv_usec e - (1000000 * tv_sec s + tv_usec s)). unfold took, duration. split.
  - intros E. apply app_inv_head, decimal_dot_inj in E; [|apply u64_range|unfold in_u64, us; zdiv].
    rewrite u64_id in E by (unfold in_u64; lia).
    destruct (decide (tv_usec s <= tv_usec e)); [done|]. exfalso. unfold us in E. zdiv.
  - intros Hu. rewrite !u64_id; [|unfold in_u64; zify; Z.to_euclidean_division_equations; lia..].
    assert (us / 1000000 = tv_sec e - tv_sec s) as -> by (unfold us; zdiv).
    assert (us mod 1000000 / 1000 = Z.quot (tv_usec e - tv_usec s) 1000) as ->; [|done].
    rewrite Z.quot_div_nonneg by lia. f_equal. unfold us. zdiv.
Qed.

Lemma took_right_iff_witness :
  took (MkTimeval 10 900000) (MkTimeval 11 100000) =
    duration (microseconds (MkTimeval 11 100000) - microseconds (MkTimeval 10 900000)) <-> 900000 <= 100000.
Proof.
  apply (took_right_iff (MkTimeval 10 900000) (MkTimeval 11 100000)).
  - split; cbn; lia.
  - split; cbn; lia.
  - vm_compute. discriminate.
Defined.

(** What that run prints for its 200 milliseconds. *)
Example took_wrong :
  took (MkTimeval 10 900000) (MkTimeval 11 100000) = chars "Took: 1.18446744073709550816" ++ newline.
Proof. vm_compute. reflexivity. Qed.

(** ** An example *)

#[local] Instance example_system : System := {
  numa_available := 0; nodemask_allocated := true; numa_num_configured_nodes := 2;
  fopen_w _ := true; fopen_a _ := true; device := true; access k := (1 <? Z.of_nat k);
  tstart := MkTimeval 10 0; tend := MkTimeval 12 500000; real_main _ := ([], None);
}.
#[local] Instance example_build : Build := { openmp := true; DISABLE_SIGNAL_IN_MAIN := false }.

Lemma main_mt_hands_over_witness :
  hands_over (-1) (main_mt (chars "bench") ([chars "-p1"; chars "-d"; chars "7"; chars "x"] ++ dash_dash :: [chars "-n5"]))
    [chars "bench"; chars "x"; chars "-n5"]
    (fun s t => exists n captured, t = wait_trace n captured ++ farewell s /\ waited_for 0 n captured).
Proof.
  apply (main_mt_hands_over (chars "bench") [chars "-p1"; chars "-d"; chars "7"; chars "x"] [chars "-n5"]).
  split_and!.
  - intros H. apply list_elem_of_In in H. vm_compute in H. intuition discriminate.
  - intros c H. apply list_elem_of_In in H. vm_compute in H. intuition discriminate.
  - intros o H. apply list_elem_of_In in H. vm_compute in H. intuition discriminate.
  - cbn. lia.
  - intros _. reflexivity.
  - reflexivity.
  - reflexivity.
Defined.
End Harness.
