(* ===== verification/Handshake.v ===== *)
(** * The benchmark and the script that measures it

    The process of a benchmark (the B+ tree with several threads:
    src/sources/btree/btree.c under src/sources/common/main-mt.c) and one
    iteration of the script src/bin/launch_benchmark.sh, which talk by files:
    the benchmark creates ".ready" and ".pid" when it is set up and ".done"
    when the measured part is over; the script answers with ".flushed" and
    ".stats_captured".  Both processes are state machines over the files, and a
    schedule says who makes the next step. *)

From Stdlib Require Import ZArith Lia.
From stdpp Require Import list numbers.
From S2P Require Import Prelude.
#[local] Open Scope Z_scope.

Module Handshake.

(** ** The two processes *)

(** [pid_written]: ".pid" is not empty. *)
Record files := MkFiles { ready : bool; pid : bool; pid_written : bool; flushed : bool; done : bool; captured : bool }.

(** Where the benchmark is.  Setting up and the measured part take some number
    of steps; [flush_seen] and [stats_seen] say how a wait ended. *)
Inductive bench :=
| B_off                                    (* not launched *)
| B_setup (n : nat)
| B_ready                                  (* creates ".ready" *)
| B_pid                                    (* creates ".pid" *)
| B_pid_write                              (* writes its number into it *)
| B_flush (i : Z)                          (* waits for ".flushed" *)
| B_work (n : nat) (flush_seen : bool)     (* the measured part *)
| B_done                                   (* [real_main] creates ".done" *)
| B_done_main                              (* and [main] once more *)
| B_stats (waited : Z)                     (* waits for ".stats_captured" *)
| B_exited (stats_seen : bool)             (* has ended with status 0 *)
| B_dead.                                  (* has ended otherwise *)

(** Where the script is. *)
Inductive script :=
| S_clean | S_launch
| S_wait_ready | S_ready_alive             (* the two tests of a waiting loop *)
| S_check_pid | S_read_pid
| S_check_proc (known : bool)              (* is there a number in ".pid"? *)
| S_flush
| S_wait_done | S_done_alive | S_if_done
| S_snapshot | S_capture | S_wait_exit
| S_end
| S_failed.

#[export] Instance bench_eq_dec : EqDecision bench.
Proof. solve_decision. Defined.
#[export] Instance script_eq_dec : EqDecision script.
Proof. solve_decision. Defined.

Record state := MkState { fs : files; bm : bench; sc : script }.

(** What the machine decides: the lengths of the two parts of the benchmark and
    whether one of them ends the process, which files can be created, and whether the benchmark survives the end of
    the terminal the script gave it. *)
Class Machine := {
  setup_steps : nat;
  work_steps : nat;
  setup_fails : bool;
  work_fails : bool;
  fopen_ready : bool;
  fopen_pid : bool;
  fopen_done : bool;
  hangup : bool;
}.

Section Steps.
Context {machine : Machine}.

Definition set_bm (b : bench) (s : state) : state := MkState (fs s) b (sc s).
Definition set_sc (c : script) (s : state) : state := MkState (fs s) (bm s) c.
Definition set_fs (f : files) (s : state) : state := MkState f (bm s) (sc s).

Definition touch_ready f := MkFiles true (pid f) (pid_written f) (flushed f) (done f) (captured f).
Definition touch_pid f := MkFiles (ready f) true (pid_written f) (flushed f) (done f) (captured f).
Definition write_pid f := MkFiles (ready f) (pid f) true (flushed f) (done f) (captured f).
Definition touch_flushed f := MkFiles (ready f) (pid f) (pid_written f) true (done f) (captured f).
Definition unlink_flushed f := MkFiles (ready f) (pid f) (pid_written f) false (done f) (captured f).
Definition touch_done f := MkFiles (ready f) (pid f) (pid_written f) (flushed f) true (captured f).
Definition touch_captured f := MkFiles (ready f) (pid f) (pid_written f) (flushed f) (done f) true.

(** A step of the benchmark. *)
Definition bench_step (s : state) : state :=
  let f := fs s in
  match bm s with
  | B_off | B_exited _ | B_dead => s
  | B_setup O => set_bm (if setup_fails then B_dead else B_ready) s
  | B_setup (S n) => set_bm (B_setup n) s
  | B_ready => if fopen_ready then set_bm B_pid (set_fs (touch_ready f) s) else set_bm B_dead s
  | B_pid => if fopen_pid then set_bm B_pid_write (set_fs (touch_pid f) s) else set_bm (B_flush 0) s
  | B_pid_write => set_bm (B_flush 0) (set_fs (write_pid f) s)
  | B_flush i =>
      if i <? 600 then
        if flushed f then set_bm (B_work work_steps true) (set_fs (unlink_flushed f) s)
        else set_bm (B_flush (i + 1)) s
      else set_bm (B_work work_steps false) s
  | B_work O _ => set_bm (if work_fails then B_dead else B_done) s
  | B_work (S n) seen => set_bm (B_work n seen) s
  | B_done => if fopen_done then set_bm B_done_main (set_fs (touch_done f) s) else set_bm B_dead s
  | B_done_main => if fopen_done then set_bm (B_stats 0) (set_fs (touch_done f) s) else set_bm B_dead s
  | B_stats waited =>
      if captured f then set_bm (B_exited true) s
      else
        let waited := waited + 1 in
        if 3000 <? waited then set_bm (B_exited false) s else set_bm (B_stats waited) s
  end.

Definition alive (b : bench) : bool := match b with B_exited _ | B_dead => false | _ => true end.

(** The script gives up: it ends the program that runs the benchmark. *)
Definition give_up_on (s : state) : state :=
  set_sc S_failed (if hangup && alive (bm s) then set_bm B_dead s else s).

(** A step of the script.  Without a number in ".pid" it asks for the directory
    [/proc/] itself, which is there. *)
Definition script_step (s : state) : state :=
  let f := fs s in
  match sc s with
  | S_clean => set_sc S_launch (set_fs (MkFiles false false false false false false) s)
  | S_launch => set_sc S_wait_ready (set_bm (B_setup setup_steps) s)
  | S_wait_ready => if ready f then set_sc S_check_pid s else set_sc S_ready_alive s
  | S_ready_alive => if alive (bm s) then set_sc S_wait_ready s else set_sc S_failed s
  | S_check_pid => if pid f then set_sc S_read_pid s else give_up_on s
  | S_read_pid => set_sc (S_check_proc (pid_written f)) s
  | S_check_proc known => if negb known || alive (bm s) then set_sc S_flush s else give_up_on s
  | S_flush => set_sc S_wait_done (set_fs (touch_flushed f) s)
  | S_wait_done => if done f then set_sc S_if_done s else set_sc S_done_alive s
  | S_done_alive => if alive (bm s) then set_sc S_wait_done s else set_sc S_if_done s
  | S_if_done => if done f then set_sc S_snapshot s else set_sc S_wait_exit s
  | S_snapshot => set_sc S_capture s
  | S_capture => set_sc S_wait_exit (set_fs (touch_captured f) s)
  | S_wait_exit => if alive (bm s) then s else set_sc S_end s
  | S_end | S_failed => s
  end.

Inductive process := Bench | Script.

Definition step (p : process) : state -> state := match p with Bench => bench_step | Script => script_step end.

(** The state after [n] steps; the files of an earlier run may be there. *)
Fixpoint run (sched : nat -> process) (f : files) (n : nat) : state :=
  match n with
  | O => MkState f B_off S_clean
  | S n => step (sched n) (run sched f n)
  end.

(** Both processes run again and again. *)
Definition fair (sched : nat -> process) : Prop := forall p n, exists m, (n <= m)%nat /\ sched m = p.

Definition script_ended (c : script) : Prop := c = S_end \/ c = S_failed.

(** ** Progress

    [leads_to] in the sense of temporal logic, with the rule for a process
    whose steps bring it nearer to the goal while the other's do no harm. *)

Section LeadsTo.
Context (sched : nat -> process) (f : files) (Hfair : fair sched).

Definition leads_to (P Q : state -> Prop) : Prop :=
  forall n, P (run sched f n) -> exists m, (n <= m)%nat /\ Q (run sched f m).

Lemma leads_to_trans P Q R : leads_to P Q -> leads_to Q R -> leads_to P R.
Proof.
  intros HPQ HQR n Hn. destruct (HPQ n Hn) as (m & ? & Hm). destruct (HQR m Hm) as (k & ? & ?).
  exists k. split; [lia|done].
Qed.

Lemma leads_to_weaken (P P' Q Q' : state -> Prop) :
  (forall s, P' s -> P s) -> (forall s, Q s -> Q' s) -> leads_to P Q -> leads_to P' Q'.
Proof. intros HP HQ H n Hn. destruct (H n (HP _ Hn)) as (m & ? & ?). eauto. Qed.

(** The goal is reached when [p] runs often enough. *)
Lemma leads_to_measure (p : process) (mu : state -> nat) (P Q : state -> Prop) :
  (forall s, P s -> Q (step p s) \/ (P (step p s) /\ mu (step p s) < mu s)%nat) ->
  (forall q s, P s -> Q (step q s) \/ (P (step q s) /\ mu (step q s) <= mu s)%nat) ->
  leads_to P Q.
Proof.
  intros Hp Hq n Hn. remember (mu (run sched f n)) as k eqn:Hk. revert n Hn Hk.
  induction k as [k IHk] using lt_wf_ind. intros n Hn ->.
  destruct (Hfair p n) as (m & Hm & Hs).
  (* up to the next step of [p] *)
  enough (forall d, (n + d <= m)%nat ->
            (exists m', (n <= m')%nat /\ Q (run sched f m')) \/
            (P (run sched f (n + d)) /\ (mu (run sched f (n + d)) <= mu (run sched f n))%nat)) as Hd.
  { destruct (Hd (m - n)%nat) as [?|[HP Hmu]]; [lia|done|]. replace (n + (m - n))%nat with m in * by lia.
    destruct (Hp _ HP) as [HQ|[HP' Hmu']].
    - exists (S m). split; [lia|]. cbn [run]. by rewrite Hs.
    - destruct (IHk (mu (run sched f (S m)))) with (n := S m) as (m' & ? & ?); cbn [run]; rewrite ?Hs; [lia|done|done|].
      exists m'. split; [lia|done]. }
  induction d as [|d IHd]; intros Hle.
  - right. rewrite Nat.add_0_r. split; [done|lia].
  - destruct IHd as [?|[HP Hmu]]; [lia|by left|]. replace (n + S d)%nat with (S (n + d)) by lia. cbn [run].
    destruct (Hq (sched (n + d)%nat) _ HP) as [HQ|[HP' Hmu']].
    + left. exists (S (n + d)). split; [lia|done].
    + right. split; [done|lia].
Qed.

(** *** The rounds: launch, the benchmark's end, the script's end *)

Definition launching (s : state) : Prop := bm s = B_off /\ (sc s = S_clean \/ sc s = S_launch).
Definition launched (s : state) : Prop := bm s <> B_off /\ sc s <> S_clean /\ sc s <> S_launch.
Definition bench_ended (s : state) : Prop := launched s /\ alive (bm s) = false.

Definition launch_left (s : state) : nat := match sc s with S_clean => 2 | _ => 1 end.

(** How many steps the benchmark has left at most: its waits are bounded. *)
Definition bench_left (s : state) : nat :=
  let w := Z.of_nat work_steps in
  Z.to_nat match bm s with
  | B_off | B_exited _ | B_dead => 0
  | B_stats waited => 1 + Z.max 0 (3001 - waited)
  | B_done_main => 3003
  | B_done => 3004
  | B_work n _ => 3005 + Z.of_nat n
  | B_flush i => 3006 + w + Z.max 0 (600 - i)
  | B_pid_write => 3607 + w
  | B_pid => 3608 + w
  | B_ready => 3609 + w
  | B_setup n => 3610 + w + Z.of_nat n
  end.

Definition script_left (s : state) : nat :=
  match sc s with
  | S_end | S_failed => 0
  | S_wait_exit => 1 | S_capture => 2 | S_snapshot => 3 | S_if_done => 4 | S_done_alive => 5 | S_wait_done => 6
  | S_flush => 7 | S_check_proc _ => 8 | S_read_pid => 9 | S_check_pid => 10 | S_ready_alive => 11 | S_wait_ready => 12
  | S_launch => 13 | S_clean => 14
  end.

Lemma launch_happens : leads_to launching launched.
Proof.
  apply (leads_to_measure Script launch_left).
  - intros [fl b c] [Hb [Hc|Hc]]; cbn in Hb, Hc; subst; unfold launching, launched; cbn; [right|left]; auto.
  - intros [] [fl b c] [Hb [Hc|Hc]]; cbn in Hb, Hc; subst; unfold launching, launched; cbn; auto.
Qed.

Lemma script_step_launched s :
  launched s -> bench_ended (script_step s) \/ (launched (script_step s) /\ bm (script_step s) = bm s).
Proof.
  destruct s as [fl b c]. unfold bench_ended, launched, script_step, give_up_on. cbn. intros (Hb & Hc & Hl).
  destruct c; cbn; try done; repeat case_match; cbn; auto.
Qed.

Lemma bench_step_launched s :
  launched s -> alive (bm s) = true ->
  bench_ended (bench_step s) \/ (launched (bench_step s) /\ (bench_left (bench_step s) < bench_left s)%nat).
Proof.
  destruct s as [fl b c]. unfold bench_ended, launched, bench_step, bench_left. cbn. intros (Hb & Hc & Hl) Ha.
  destruct b as [|[|n]| | | |i|[|n] seen| | |waited| |]; try done;
    repeat (match goal with |- context [if ?t then _ else _] => destruct t eqn:? end);
    cbn -[Z.add Z.ltb Z.max Z.of_nat Z.to_nat]; rewrite ?Z.ltb_lt, ?Z.ltb_ge in *; auto; right; split_and!; auto; lia.
Qed.

Lemma bench_ends : leads_to launched bench_ended.
Proof.
  intros n Hn. destruct (alive (bm (run sched f n))) eqn:Ha; [|by exists n].
  revert n Hn Ha. enough (leads_to (fun s => launched s /\ alive (bm s) = true) bench_ended) as H.
  { intros n Hn Ha. by apply H. }
  assert (forall s, launched s -> bench_ended s \/ (launched s /\ alive (bm s) = true)) as Hcase.
  { intros s Hs. unfold bench_ended. destruct (alive (bm s)); auto. }
  apply (leads_to_measure Bench bench_left).
  - intros s [Hs Ha]. destruct (bench_step_launched s Hs Ha) as [|[Hl Hm]]; [by left|].
    destruct (Hcase _ Hl); [by left|by right].
  - intros [] s [Hs Ha].
    + destruct (bench_step_launched s Hs Ha) as [|[Hl Hm]]; [by left|].
      destruct (Hcase _ Hl); [by left|right; split; [done|cbn [step]; lia]].
    + destruct (script_step_launched s Hs) as [|[Hl Hb]]; [by left|right]. cbn [step]. rewrite Hb.
      unfold bench_left. by rewrite Hb.
Qed.

Lemma script_step_ended s :
  bench_ended s -> (bench_ended (script_step s) /\ script_ended (sc (script_step s))) \/
  (bench_ended (script_step s) /\ script_left (script_step s) < script_left s)%nat.
Proof.
  destruct s as [fl b c]. unfold bench_ended, launched, script_step, give_up_on, script_ended, script_left. cbn.
  intros ((Hb & Hc & Hl) & Ha). rewrite Ha, andb_false_r.
  destruct c as [| | | | | |[]| | | | | | | | |]; try done; repeat case_match; cbn;
    first [left; split_and!; solve [done|auto]|right; split_and!; solve [done|lia]].
Qed.

Lemma bench_step_ended s : bench_ended s -> bench_step s = s.
Proof. destruct s as [fl b c]. intros ((Hb & _) & Ha). cbn in *. by destruct b. Qed.

Lemma script_ends : leads_to bench_ended (fun s => bench_ended s /\ script_ended (sc s)).
Proof.
  apply (leads_to_measure Script script_left).
  - apply script_step_ended.
  - intros [] s Hs; cbn [step].
    + rewrite bench_step_ended by done. right. auto.
    + destruct (script_step_ended s Hs) as [?|[? ?]]; [by left|right; auto with lia].
Qed.

End LeadsTo.

(** C8: no schedule that lets both processes run again and again keeps them
    waiting: whatever files an earlier run left, whichever files can be created
    and however long the parts of the benchmark are, the benchmark ends, and so
    does the script's iteration, with or without an error. *)
Theorem handshake_ends sched f :
  fair sched -> exists n, alive (bm (run sched f n)) = false /\ script_ended (sc (run sched f n)).
Proof.
  intros Hfair.
  destruct (leads_to_trans sched f _ _ _ (launch_happens sched f Hfair)
              (leads_to_trans sched f _ _ _ (bench_ends sched f Hfair) (script_ends sched f Hfair)) 0%nat)
    as (n & _ & [_ Ha] & Hs); [by split; [|left]|]. by exists n.
Qed.

(** ** Order *)

(** The script has attached its counters and said that the caches are cold. *)
Definition past_flush (c : script) : bool :=
  match c with
  | S_wait_done | S_done_alive | S_if_done | S_snapshot | S_capture | S_wait_exit | S_end => true
  | _ => false
  end.
Definition taking_snapshot (c : script) : bool := match c with S_snapshot | S_capture => true | _ => false end.
(** The measured part is over and ".done" was created. *)
Definition work_over (b : bench) : bool := match b with B_done_main | B_stats _ | B_exited _ => true | _ => false end.

Definition no_files (f : files) : Prop := f = MkFiles false false false false false false.

(** What each file says about the process that creates it. *)
Record inv (s : state) : Prop := {
  inv_clean : sc s = S_clean -> bm s = B_off;
  inv_launch : sc s = S_launch -> bm s = B_off /\ no_files (fs s);
  inv_off : bm s = B_off -> sc s = S_clean \/ sc s = S_launch;
  inv_done : sc s <> S_clean -> done (fs s) = true -> fopen_done = true /\ (work_over (bm s) = true \/ sc s = S_failed);
  inv_snapshot : taking_snapshot (sc s) = true -> done (fs s) = true;
  inv_captured : sc s <> S_clean -> captured (fs s) = true -> sc s = S_wait_exit \/ sc s = S_end;
  inv_flushed : sc s <> S_clean -> flushed (fs s) = true -> past_flush (sc s) = true;
  inv_work n : bm s = B_work n true -> past_flush (sc s) = true;
  inv_exited : bm s = B_exited true -> captured (fs s) = true;
}.

Lemma inv_initial f : inv (MkState f B_off S_clean).
Proof. split; cbn; naive_solver. Qed.

Lemma inv_bench s : inv s -> inv (bench_step s).
Proof.
  destruct s as [fl b c]. intros [H1 H2 H3 H4 H5 H6 H7 H8 H9]. cbn in *. unfold bench_step. cbn.
  destruct b as [|[|n]| | | |i|[|n] seen| | |waited| |]; cbn;
    repeat (match goal with |- context [if ?t then _ else _] => destruct t eqn:? end);
    (split; cbn; try done; intros; try solve [intuition congruence]; simplify_eq/=; eauto).
Qed.

Lemma inv_script s : inv s -> inv (script_step s).
Proof.
  destruct s as [fl b c]. intros [H1 H2 H3 H4 H5 H6 H7 H8 H9]. cbn in *. unfold script_step, give_up_on. cbn.
  destruct c; cbn; try (destruct (H2 eq_refl) as [-> ->]);
    repeat (match goal with |- context [if ?t then _ else _] => destruct t eqn:? end);
    (split; cbn; try done; intros; try solve [intuition congruence]; simplify_eq/=; eauto).
Qed.

Lemma inv_run sched f n : inv (run sched f n).
Proof.
  induction n as [|n IH]; [apply inv_initial|]. cbn [run]. destruct (sched n); [by apply inv_bench|by apply inv_script].
Qed.

(** C9: the order of the measurement, in every schedule: the snapshot is taken when the measured part is over and
    before the benchmark leaves, unless that has run out of patience; a
    benchmark that leaves because of the script's file leaves after the
    snapshot; a measured part that begins because of the script's file begins
    after the script was ready for it. *)
Theorem handshake_ordered sched f n (s := run sched f n) :
  (taking_snapshot (sc s) = true ->
   bm s = B_done_main \/ (exists waited, bm s = B_stats waited) \/ bm s = B_exited false) /\
  (bm s = B_exited true -> captured (fs s) = true /\ (sc s = S_wait_exit \/ sc s = S_end)) /\
  (forall k, bm s = B_work k true -> past_flush (sc s) = true).
Proof.
  destruct (inv_run sched f n) as [H1 H2 H3 H4 H5 H6 H7 H8 H9]. fold s in H1, H2, H3, H4, H5, H6, H7, H8, H9.
  split_and!; [|intros Hb|done].
  - intros Ht. destruct H4 as [_ [Hw|Hw]]; [by intros E; rewrite E in Ht|by apply H5| |by rewrite Hw in Ht].
    destruct (bm s) as [| | | | | | | | |waited|[]|]; try done; [by auto|by eauto| |by auto].
    destruct H6 as [E|E]; [by intros E; rewrite E in Ht|by apply H9|by rewrite E in Ht..].
  - split; [by apply H9|]. apply H6; [|by apply H9]. intros E. rewrite H1 in Hb by done. done.
Qed.

(** ** A race

    The benchmark creates ".ready" before ".pid", and the script looks for the
    second as soon as it has seen the first. *)

Definition race_sched (t : nat) : process :=
  if (t <? 2)%nat then Script else if (t <? setup_steps + 4)%nat then Bench
  else if (t <? setup_steps + 6)%nat then Script else if Nat.even t then Bench else Script.

Lemma race_sched_fair : fair race_sched.
Proof.
  intros p n. set (k := (2 * (n + setup_steps + 3))%nat).
  assert (forall t, (k <= t)%nat -> race_sched t = if Nat.even t then Bench else Script) as Hk.
  { intros t Ht. unfold race_sched, k in *. 
    destruct (Nat.ltb_spec t 2); [lia|]. destruct (Nat.ltb_spec t (setup_steps + 4)); [lia|].
    by destruct (Nat.ltb_spec t (setup_steps + 6)); [lia|]. }
  assert (Nat.even k = true) as He by (unfold k; by rewrite Nat.even_mul).
  destruct p; [exists k|exists (S k)]; (split; [unfold k; lia|]); rewrite Hk by lia; [by rewrite He|].
  by rewrite Nat.even_succ, <- Nat.negb_even, He.
Qed.

Lemma race_setup f k :
  (k <= setup_steps)%nat ->
  run race_sched f (2 + k) = MkState (MkFiles false false false false false false) (B_setup (setup_steps - k)) S_wait_ready.
Proof.
  induction k as [|k IH]; intros Hk; [cbn; by rewrite Nat.sub_0_r|].
  replace (2 + S k)%nat with (S (2 + k)) by lia. cbn [run]. rewrite IH by lia.
  assert (race_sched (2 + k) = Bench) as ->.
  { unfold race_sched. destruct (Nat.ltb_spec (2 + k) 2); [lia|]. by destruct (Nat.ltb_spec (2 + k) (setup_steps + 4)); [|lia]. }
  replace (setup_steps - k)%nat with (S (setup_steps - S k)) by lia. done.
Qed.

Theorem handshake_race f :
  fopen_ready = true -> setup_fails = false ->
  exists sched n, fair sched /\ sc (run sched f n) = S_failed /\
    bm (run sched f n) = if hangup then B_dead else B_pid.
Proof.
  intros Hr Hsf. exists race_sched, (setup_steps + 6)%nat. split; [apply race_sched_fair|].
  assert (forall t, (setup_steps + 2 <= t < setup_steps + 4)%nat -> race_sched t = Bench) as Hb.
  { intros t Ht. unfold race_sched. destruct (Nat.ltb_spec t 2); [lia|]. by destruct (Nat.ltb_spec t (setup_steps + 4)); [|lia]. }
  assert (forall t, (setup_steps + 4 <= t < setup_steps + 6)%nat -> race_sched t = Script) as Hs.
  { intros t Ht. unfold race_sched. destruct (Nat.ltb_spec t 2); [lia|]. destruct (Nat.ltb_spec t (setup_steps + 4)); [lia|].
    by destruct (Nat.ltb_spec t (setup_steps + 6)); [|lia]. }
  pose proof (race_setup f setup_steps ltac:(lia)) as H. rewrite Nat.sub_diag in H.
  replace (setup_steps + 6)%nat with (S (S (S (S (2 + setup_steps))))) by lia. cbn [run]. rewrite H.
  rewrite (Hb (2 + setup_steps)%nat), (Hb (S (2 + setup_steps))), (Hs (S (S (2 + setup_steps)))),
    (Hs (S (S (S (2 + setup_steps))))) by lia.
  cbn. rewrite Hsf. cbn. rewrite Hr. cbn. unfold give_up_on. cbn. rewrite andb_true_r. by destruct hangup.
Qed.

End Steps.

(** ** An example: the processes take turns *)

#[local] Instance example_machine : Machine :=
  { setup_steps := 3; work_steps := 5; setup_fails := false; work_fails := false; fopen_ready := true; fopen_pid := true; fopen_done := true; hangup := true }.

Definition turns (t : nat) : process := if Nat.even t then Bench else Script.

Lemma turns_fair : fair turns.
Proof.
  intros p n. assert (Nat.even (2 * n) = true) as He by (by rewrite Nat.even_mul).
  destruct p; [exists (2 * n)%nat|exists (S (2 * n))]; (split; [lia|]); unfold turns.
  - by rewrite He.
  - by rewrite Nat.even_succ, <- Nat.negb_even, He.
Qed.

Lemma handshake_ends_witness :
  exists n, alive (bm (run turns (MkFiles true true true true true true) n)) = false /\
    script_ended (sc (run turns (MkFiles true true true true true true) n)).
Proof. apply (handshake_ends turns). exact turns_fair. Defined.

(** In turns the measurement succeeds. *)
Example turns_succeed :
  (fun s => (bm s, sc s)) (run turns (MkFiles true true true true true true) 60) = (B_exited true, S_end).
Proof. vm_compute. reflexivity. Qed.
End Handshake.
