(* ===== verification/PtDump.v ===== *)
(** * Checksums and page-table dumps (src/sources/common/main-ptdump.c, ptdump.h)

    The CRC-32 routine, the encoding of the commands to the kernel module, and
    the function that prints the tables the module has collected. *)

From Stdlib Require Import ZArith Lia String.
From stdpp Require Import list numbers.
From S2P Require Import Prelude Arrays CLib.
#[local] Open Scope Z_scope.

Module PtDump.

(** ** CRC-32 *)

Definition POLY : Z := 0xEDB88320.

(** One round of the loop of [crc32_for_byte]. *)
Definition crc_round (r : Z) : Z := Z.lxor (if Z.land r 1 =? 0 then POLY else 0) (Z.shiftr r 1).

Definition crc32_for_byte (r : Z) : Z := Z.lxor (Nat.iter 8 crc_round r) 0xFF000000.

(** The table is static: its first entry says whether it was filled.  The
    checksum is updated in place. *)
Definition fill_table (table : list Z) : option (list Z) :=
  for_z 0 256 (fun i table => table.[i <- crc32_for_byte i]) table.

Definition crc_update (table : list Z) (byte crc : Z) : option Z :=
  t ← table.[Z.lxor (crc mod 2 ^ 8) byte];
  Some (Z.lxor t (Z.shiftr crc 8)).

Definition crc32 (table data : list Z) (n_bytes crc : Z) : option (list Z * Z) :=
  first ← table.[0];
  table ← (if first =? 0 then fill_table table else Some table);
  crc ← for_z 0 n_bytes (fun i crc => byte ← data.[i]; crc_update table byte crc) crc;
  Some (table, crc).

(** *** The checksum by its definition

    A shift register of 32 bits takes the message bit by bit, the low bit of
    each byte first, and feeds back the polynomial; it starts with ones and is
    complemented at the end. *)

Definition shift (c : Z) : Z := Z.lxor (Z.shiftr c 1) (if Z.odd c then POLY else 0).
Definition shift8 (c : Z) : Z := Nat.iter 8 shift c.
Definition shift_byte (c byte : Z) : Z := shift8 (Z.lxor c byte).
Definition ONES : Z := 2 ^ 32 - 1.
Definition crc_of (c : Z) (data : list Z) : Z := Z.lxor ONES (fold_left shift_byte data (Z.lxor ONES c)).

Example crc_check_value : crc_of 0 (chars "123456789") = 0xCBF43926.
Proof. vm_compute. reflexivity. Qed.

Definition is_byte (b : Z) : Prop := 0 <= b < 2 ^ 8.

Lemma shift_lxor x y : shift (Z.lxor x y) = Z.lxor (shift x) (shift y).
Proof.
  unfold shift. rewrite Z.shiftr_lxor. rewrite <- !Z.bit0_odd, Z.lxor_spec, !Z.bit0_odd.
  destruct (Z.odd x), (Z.odd y); cbn [xorb]; xor_solve.
Qed.

Lemma shifts_lxor n x y : Nat.iter n shift (Z.lxor x y) = Z.lxor (Nat.iter n shift x) (Nat.iter n shift y).
Proof. induction n as [|n IH]; [done|]. by rewrite !Nat.iter_succ, IH, shift_lxor. Qed.

Lemma shift_shiftl h n : 0 <= n -> shift (Z.shiftl h (n + 1)) = Z.shiftl h n.
Proof.
  intros Hn. unfold shift. rewrite <- Z.bit0_odd, Z.shiftl_spec_low by lia. rewrite Z.lxor_0_r.
  rewrite Z.shiftr_shiftl_l by lia. f_equal. lia.
Qed.

Lemma shifts_shiftl n h : Nat.iter n shift (Z.shiftl h (Z.of_nat n)) = h.
Proof.
  induction n as [|n IH]; [apply Z.shiftl_0_r|]. rewrite Nat.iter_succ_r.
  replace (Z.of_nat (S n)) with (Z.of_nat n + 1) by lia. by rewrite shift_shiftl by lia.
Qed.

Lemma shift8_shiftl h : shift8 (Z.shiftl h 8) = h.
Proof. exact (shifts_shiftl 8 h). Qed.

Lemma shift8_lxor x y : shift8 (Z.lxor x y) = Z.lxor (shift8 x) (shift8 y).
Proof. apply shifts_lxor. Qed.

(** Eight rounds move the high bits down and depend on the low byte only. *)
Lemma shifts_split c : shift8 c = Z.lxor (shift8 (c mod 2 ^ 8)) (Z.shiftr c 8).
Proof.
  assert (c = Z.lxor (c mod 2 ^ 8) (Z.shiftl (Z.shiftr c 8) 8)) as E.
  { apply Z.bits_inj'. intros i Hi. rewrite Z.lxor_spec. destruct (decide (i < 8)).
    - rewrite Z.mod_pow2_bits_low, Z.shiftl_spec_low by lia. by rewrite xorb_false_r.
    - rewrite Z.mod_pow2_bits_high, Z.shiftl_spec, Z.shiftr_spec by lia. rewrite xorb_false_l. f_equal. lia. }
  rewrite E at 1. by rewrite shift8_lxor, shift8_shiftl.
Qed.

(** The inverted rounds of the code are those of the complement. *)
Lemma crc32_for_byte_shift i :
  is_byte i -> crc32_for_byte i = Z.lxor (shift8 (Z.lxor i 0xFF)) 0xFF000000.
Proof.
  intros Hi. assert (forallb (fun n => let i := Z.of_nat n in
    crc32_for_byte i =? Z.lxor (shift8 (Z.lxor i 0xFF)) 0xFF000000) (seq 0 256) = true) as H.
  { vm_compute. reflexivity. }
  rewrite forallb_forall in H. specialize (H (Z.to_nat i)). rewrite Z2Nat.id in H by (unfold is_byte in Hi; lia).
  apply Z.eqb_eq, H, in_seq. unfold is_byte in Hi. lia.
Qed.

(** *** The table *)

Definition filled (table : list Z) : Prop :=
  alen table = 256 /\ forall i, is_byte i -> table.[i] = Some (crc32_for_byte i).

(** A static array is cleared when the program starts. *)
Definition cleared (table : list Z) : Prop := alen table = 256 /\ table.[0] = Some 0.

Lemma fill_table_spec table : alen table = 256 -> exists table', fill_table table = Some table' /\ filled table'.
Proof.
  intros Hl. destruct (for_z_fill 256 crc32_for_byte table (fun i => Some (crc32_for_byte i))) as (t & E & Hl' & Ht);
    [lia|done|].
  exists t. split; [exact E|]. split; [lia|]. intros i Hi. unfold is_byte in Hi. rewrite Ht by lia.
  by destruct (Z.ltb_spec i 256); [|lia].
Qed.

Definition in_register (c : Z) : Prop := 0 <= c < 2 ^ 32.

Lemma in_register_lxor x y : in_register x -> in_register y -> in_register (Z.lxor x y).
Proof. apply lxor_range. lia. Qed.

Lemma is_byte_register b : is_byte b -> in_register b.
Proof. unfold is_byte, in_register. lia. Qed.

Lemma ONES_register : in_register ONES.
Proof. done. Qed.

Lemma POLY_register : in_register POLY.
Proof. done. Qed.

Lemma shiftr_register c n : 0 <= n -> in_register c -> in_register (Z.shiftr c n).
Proof.
  intros Hn [H1 H2]. unfold in_register. rewrite Z.shiftr_div_pow2 by done. pose proof (Z.pow_pos_nonneg 2 n).
  split; [apply Z.div_pos; lia|]. apply Z.div_lt_upper_bound; nia.
Qed.

#[local] Hint Resolve in_register_lxor is_byte_register ONES_register POLY_register : core.

Lemma shift_register c : in_register c -> in_register (shift c).
Proof. intros. unfold shift. apply in_register_lxor; [by apply shiftr_register|by destruct (Z.odd c)]. Qed.

Lemma shifts_register n c : in_register c -> in_register (Nat.iter n shift c).
Proof. intros. induction n; [done|]. rewrite Nat.iter_succ. by apply shift_register. Qed.

Lemma shift8_register c : in_register c -> in_register (shift8 c).
Proof. unfold shift8. apply shifts_register. Qed.

Lemma complement_low c byte :
  is_byte byte -> Z.lxor (Z.lxor ONES c) byte mod 2 ^ 8 = Z.lxor (Z.lxor (c mod 2 ^ 8) byte) 0xFF.
Proof.
  intros Hb. rewrite !lxor_mod_pow2 by lia. rewrite (Z.mod_small byte) by done.
  assert (ONES mod 2 ^ 8 = 0xFF) as -> by reflexivity. xor_solve.
Qed.

Lemma complement_high c byte :
  is_byte byte -> Z.shiftr (Z.lxor (Z.lxor ONES c) byte) 8 = Z.lxor 0xFFFFFF (Z.shiftr c 8).
Proof.
  intros Hb. rewrite !Z.shiftr_lxor. assert (Z.shiftr byte 8 = 0) as ->.
  { rewrite Z.shiftr_div_pow2 by lia. by apply Z.div_small. }
  rewrite Z.lxor_0_r. f_equal.
Qed.

Lemma complement_mask t h : Z.lxor (Z.lxor t 0xFF000000) h = Z.lxor ONES (Z.lxor t (Z.lxor 0xFFFFFF h)).
Proof. assert (ONES = Z.lxor 0xFFFFFF 0xFF000000) as -> by reflexivity. xor_solve. Qed.

Lemma low_byte_lxor c byte : is_byte byte -> is_byte (Z.lxor (c mod 2 ^ 8) byte).
Proof. intros Hb. apply lxor_range; [lia|zdiv|done]. Qed.

Lemma shift_byte_complement c byte :
  is_byte byte ->
  shift_byte (Z.lxor ONES c) byte =
  Z.lxor (shift8 (Z.lxor (Z.lxor (c mod 2 ^ 8) byte) 0xFF)) (Z.lxor 0xFFFFFF (Z.shiftr c 8)).
Proof. intros. unfold shift_byte. by rewrite shifts_split, complement_low, complement_high. Qed.

Lemma crc_update_lookup table c byte :
  filled table -> is_byte byte ->
  crc_update table byte c = Some (Z.lxor (crc32_for_byte (Z.lxor (c mod 2 ^ 8) byte)) (Z.shiftr c 8)).
Proof. intros [_ Ht] Hb. unfold crc_update. by rewrite Ht by by apply low_byte_lxor. Qed.

Lemma crc_update_shift table c byte :
  filled table -> is_byte byte ->
  crc_update table byte c = Some (Z.lxor ONES (shift_byte (Z.lxor ONES c) byte)).
Proof.
  intros Ht Hb. rewrite crc_update_lookup, shift_byte_complement by done. f_equal.
  rewrite crc32_for_byte_shift by by apply low_byte_lxor. apply complement_mask.
Qed.

Lemma fold_left_step {A B} (f : A -> B -> A) b l a : fold_left f (b :: l) a = fold_left f l (f a b).
Proof. done. Qed.

Lemma shift_byte_register c b : in_register c -> is_byte b -> in_register (shift_byte c b).
Proof. intros. unfold shift_byte. apply shift8_register. auto. Qed.

Lemma crc_fold_register data c :
  in_register c -> Forall is_byte data -> in_register (fold_left shift_byte data c).
Proof.
  intros Hc Hd. revert c Hc. induction Hd as [|b data Hb Hd IH]; intros c Hc; [done|].
  rewrite fold_left_step. apply IH. by apply shift_byte_register.
Qed.

Lemma crc_of_snoc c data b :
  crc_of c (data ++ [b]) = Z.lxor ONES (shift_byte (Z.lxor ONES (crc_of c data)) b).
Proof.
  unfold crc_of. rewrite fold_left_app, fold_left_step. do 2 f_equal. rewrite <- Z.lxor_assoc, Z.lxor_nilpotent. done.
Qed.

Lemma crc_of_register c data : in_register c -> Forall is_byte data -> in_register (crc_of c data).
Proof. intros. unfold crc_of. apply in_register_lxor; [done|]. apply crc_fold_register; auto. Qed.

Lemma crc_loop table data n c :
  filled table -> Forall is_byte data -> 0 <= n <= alen data -> in_register c ->
  for_z 0 n (fun i crc => byte ← data.[i]; crc_update table byte crc) c = Some (crc_of c (take (Z.to_nat n) data)).
Proof.
  intros Ht Hd Hn Hc.
  destruct (for_z_inv (fun i crc => crc = crc_of c (take (Z.to_nat i) data)) 0 n
              (fun i crc => byte ← data.[i]; crc_update table byte crc) c) as (c' & E & ->); [lia| | |done].
  - unfold crc_of. change (Z.to_nat 0) with O. rewrite take_0. cbn [fold_left]. by rewrite <- Z.lxor_assoc, Z.lxor_nilpotent.
  - intros i crc Hi ->. destruct (aget_in data i) as [b Hb]; [lia|]. rewrite Hb. cbn [mbind option_bind].
    assert (data !! Z.to_nat i = Some b) as Hb' by (unfold aget in Hb; by destruct (i <? 0)).
    rewrite crc_update_shift; [|done|by eapply list.Forall_lookup_1].
    eexists. split; [done|]. replace (Z.to_nat (i + 1)) with (S (Z.to_nat i)) by lia.
    by rewrite (take_S_r _ _ b), crc_of_snoc.
Qed.

(** C32: the checksum.  The table of inverted rounds, filled in the first call,
    gives for every start value and every number of bytes the CRC-32 of the bytes
    as the shift register defines it, bit by bit; the table is as good for the
    next call, and no access leaves it or the data. *)
Theorem crc32_correct table data n crc :
  cleared table \/ filled table -> Forall is_byte data -> 0 <= n <= alen data -> in_register crc ->
  exists table', crc32 table data n crc = Some (table', crc_of crc (take (Z.to_nat n) data)) /\ filled table'.
Proof.
  intros Ht Hd Hn Hc. unfold crc32.
  assert (exists table', (first ← table.[0]; if first =? 0 then fill_table table else Some table) = Some table' /\
            filled table') as (table' & E & Hf).
  { destruct Ht as [[Hl ->]|Hf]; cbn [mbind option_bind]; [by apply fill_table_spec|].
    exists table. split; [|done]. rewrite (proj2 Hf) by done. done. }
  exists table'. split; [|done]. destruct (table.[0]) as [first|]; [|done]. cbn [mbind option_bind] in *. rewrite E.
  cbn [mbind option_bind]. by rewrite crc_loop.
Qed.

Lemma crc32_correct_witness :
  exists table', crc32 (replicate 256 0) (chars "123456789") 9 0 =
      Some (table', crc_of 0 (take (Z.to_nat 9) (chars "123456789"))) /\ filled table'.
Proof.
  apply (crc32_correct (replicate 256 0) (chars "123456789") 9 0).
  - left. split; reflexivity.
  - vm_compute. repeat constructor; discriminate.
  - vm_compute. split; discriminate.
  - split; [lia|reflexivity].
Defined.

(** *** What the checksum detects *)

Lemma shift_top c : in_register c -> Z.testbit (shift c) 31 = Z.odd c.
Proof.
  intros Hc. unfold shift. rewrite Z.lxor_spec, Z.shiftr_spec, (testbit_high 32) by (lia || done).
  by destruct (Z.odd c).
Qed.

Lemma shift_inj x y : in_register x -> in_register y -> shift x = shift y -> x = y.
Proof.
  intros Hx Hy E. assert (Z.odd x = Z.odd y) as Ho by (rewrite <- !shift_top by done; by rewrite E).
  unfold shift in E. rewrite Ho in E.
  assert (Z.shiftr x 1 = Z.shiftr y 1) as Er.
  { rewrite <- (lxor_cancel (Z.shiftr x 1) (if Z.odd y then POLY else 0)), E. apply lxor_cancel. }
  rewrite (Z.div2_odd x), (Z.div2_odd y), !Z.div2_spec, Er, Ho. done.
Qed.

Lemma shifts_inj n x y :
  in_register x -> in_register y -> Nat.iter n shift x = Nat.iter n shift y -> x = y.
Proof.
  intros Hx Hy. induction n as [|n IH]; [done|]. rewrite !Nat.iter_succ. intros E. apply IH, shift_inj; [by apply shifts_register..|done].
Qed.

(** Up to four bytes as the number whose low byte comes first. *)
Fixpoint little_endian (data : list Z) : Z :=
  match data with [] => 0 | b :: data => Z.lxor b (Z.shiftl (little_endian data) 8) end.

Lemma shifts_add8 n c : Nat.iter (n + 8) shift c = Nat.iter n shift (shift8 c).
Proof. unfold shift8. apply Nat.iter_add. Qed.

Lemma fold_shift_bytes data c :
  fold_left shift_byte data c = Nat.iter (8 * length data) shift (Z.lxor c (little_endian data)).
Proof.
  revert c. induction data as [|b data IH]; intros c; cbn [little_endian length]; [by rewrite Z.lxor_0_r|].
  rewrite fold_left_step, IH. replace (8 * S (length data))%nat with (8 * length data + 8)%nat by lia. rewrite shifts_add8. f_equal.
  unfold shift_byte. by rewrite <- Z.lxor_assoc, (shift8_lxor (Z.lxor c b)), shift8_shiftl.
Qed.

Lemma land_shiftl n x y : 0 <= n -> 0 <= x < 2 ^ n -> Z.land x (Z.shiftl y n) = 0.
Proof.
  intros Hn Hx. apply Z.bits_inj'. intros i Hi. rewrite Z.land_spec, Z.bits_0. destruct (decide (i < n)).
  - by rewrite Z.shiftl_spec_low, andb_false_r by lia.
  - by rewrite (testbit_high n) by (done || lia).
Qed.

Lemma little_endian_cons b data : is_byte b -> little_endian (b :: data) = b + 256 * little_endian data.
Proof.
  intros Hb. cbn [little_endian]. rewrite <- Z.add_nocarry_lxor by (by apply land_shiftl).
  rewrite Z.shiftl_mul_pow2 by lia. lia.
Qed.

Lemma little_endian_range data :
  Forall is_byte data -> 0 <= little_endian data < 2 ^ (8 * Z.of_nat (length data)).
Proof.
  induction 1 as [|b data Hb Hd IH]; [done|]. rewrite little_endian_cons by done. cbn [length].
  replace (8 * Z.of_nat (S (length data))) with (8 + 8 * Z.of_nat (length data)) by lia.
  rewrite Z.pow_add_r by lia. change (2 ^ 8) with 256. unfold is_byte in Hb. lia.
Qed.

Lemma little_endian_inj d d' :
  Forall is_byte d -> Forall is_byte d' -> length d = length d' -> little_endian d = little_endian d' -> d = d'.
Proof.
  intros Hd. revert d'. induction Hd as [|b d Hb Hd IH]; intros [|b' d'] Hd' Hl E; try done.
  apply list.Forall_cons in Hd' as [Hb' Hd']. rewrite !little_endian_cons in E by done. unfold is_byte in *.
  f_equal; [lia|]. apply IH; [done|by injection Hl|lia].
Qed.

Lemma lxor_inj_l c x y : Z.lxor c x = Z.lxor c y -> x = y.
Proof. intros E. rewrite <- (lxor_cancel x c), (Z.lxor_comm x), E, (Z.lxor_comm c). apply lxor_cancel. Qed.

Lemma shift8_inj x y : in_register x -> in_register y -> shift8 x = shift8 y -> x = y.
Proof. unfold shift8. apply shifts_inj. Qed.

Lemma shift_byte_inj x y b :
  in_register x -> in_register y -> is_byte b -> shift_byte x b = shift_byte y b -> x = y.
Proof.
  unfold shift_byte. intros Hx Hy Hb E. apply shift8_inj in E; [|by auto..].
  apply (lxor_inj_l b). by rewrite !(Z.lxor_comm b).
Qed.

Lemma fold_shift_inj data x y :
  in_register x -> in_register y -> Forall is_byte data ->
  fold_left shift_byte data x = fold_left shift_byte data y -> x = y.
Proof.
  intros Hx Hy Hd. revert x y Hx Hy. induction Hd as [|b data Hb Hd IH]; intros x y Hx Hy E; [done|].
  rewrite !fold_left_step in E. apply IH in E; [|by apply shift_byte_register..]. by apply shift_byte_inj in E.
Qed.

(** Two messages that differ only inside four consecutive bytes. *)
Theorem crc_detects_bursts crc before burst burst' after :
  in_register crc -> Forall is_byte (before ++ burst ++ burst' ++ after) ->
  length burst = length burst' -> (length burst <= 4)%nat -> burst <> burst' ->
  crc_of crc (before ++ burst ++ after) <> crc_of crc (before ++ burst' ++ after).
Proof.
  intros Hc Hb Hl H4 Hne E. rewrite !list.Forall_app in Hb. destruct Hb as (Hb & Hu & Hu' & Ha).
  apply Hne. unfold crc_of in E. apply lxor_inj_l in E. rewrite !fold_left_app in E.
  assert (in_register (fold_left shift_byte before (Z.lxor ONES crc))) as Hr by (apply crc_fold_register; auto).
  apply fold_shift_inj in E; [|by apply crc_fold_register..|done].
  assert (forall d, Forall is_byte d -> (length d <= 4)%nat -> in_register (little_endian d)) as Hle.
  { intros d Hd Hd4. pose proof (little_endian_range d Hd) as H. unfold in_register.
    pose proof (Z.pow_le_mono_r 2 (8 * Z.of_nat (length d)) 32). lia. }
  revert Hr E. generalize (fold_left shift_byte before (Z.lxor ONES crc)). intros c Hr E.
  rewrite !fold_shift_bytes, <- Hl in E. apply shifts_inj in E; [|apply in_register_lxor; auto with lia..].
  apply little_endian_inj; [done..|]. by eapply lxor_inj_l.
Qed.

(** ** Commands to the kernel module (ptdump.h) *)

(** The arguments of the macros are [unsigned int] and [unsigned long]. *)
Definition PTDUMP_IOCTL_MKCMD (cmd ptstart ptend : Z) : Z :=
  Z.lor (Z.lor (Z.land cmd 0xff) (u32 (Z.shiftl (Z.land ptstart 0x1ff) 8))) (u32 (Z.shiftl (Z.land ptend 0x1ff) 17)).
Definition PTDUMP_IOCTL_EXCMD (x : Z) : Z := Z.land x 0xff.
Definition PTDUMP_IOCTL_EXPTSTART (x : Z) : Z := Z.land (Z.shiftr x 8) 0x1ff.
Definition PTDUMP_IOCTL_EXPTEND (x : Z) : Z := Z.land (Z.shiftr x 17) 0x1ff.

Definition PTDUMP_IOCTL_MKARGBUF (buf bits : Z) : Z :=
  Z.lor (Z.land buf 0xffffffffffff) (u64 (Z.shiftl (Z.land bits 0xff) 48)).
Definition PTDUMP_IOCTL_EXBUF (arg : Z) : Z := Z.land arg 0xffffffffffff.
Definition PTDUMP_IOCTL_EXBITS (arg : Z) : Z := Z.land (Z.shiftr arg 48) 0xff.

Definition PTDUMP_TABLE_MKBASE (base level : Z) : Z :=
  Z.lor (u64 (Z.shiftl (Z.land level 0xff) 48)) (Z.land base 0xffffffffffff).
Definition PTDUMP_TABLE_EXLEVEL (base : Z) : Z := u32 (Z.shiftr base 48).
Definition PTDUMP_TABLE_EXBASE (base : Z) : Z := Z.land base 0xffffffffffff.

Lemma lor_shiftl n x y : 0 <= n -> 0 <= x < 2 ^ n -> Z.lor x (Z.shiftl y n) = x + 2 ^ n * y.
Proof.
  intros Hn Hx. rewrite <- Z.lxor_lor, <- Z.add_nocarry_lxor by (by apply land_shiftl).
  rewrite Z.shiftl_mul_pow2 by done. lia.
Qed.

Lemma land_mask x n : 0 <= n -> Z.land x (2 ^ n - 1) = x mod 2 ^ n.
Proof. intros. rewrite <- Z.land_ones by done. by rewrite Z.ones_equiv. Qed.

Ltac masks :=
  change 0xff with (2 ^ 8 - 1); change 0x1ff with (2 ^ 9 - 1); change 0xffffffffffff with (2 ^ 48 - 1);
  rewrite !land_mask by lia.

Lemma mkcmd_fields cmd ptstart ptend :
  PTDUMP_IOCTL_MKCMD cmd ptstart ptend = cmd mod 2 ^ 8 + 2 ^ 8 * (ptstart mod 2 ^ 9) + 2 ^ 17 * (ptend mod 2 ^ 9).
Proof.
  unfold PTDUMP_IOCTL_MKCMD. masks.
  pose proof (Z.mod_pos_bound cmd (2 ^ 8) ltac:(lia)). pose proof (Z.mod_pos_bound ptstart (2 ^ 9) ltac:(lia)).
  pose proof (Z.mod_pos_bound ptend (2 ^ 9) ltac:(lia)). revert H H0 H1.
  generalize (cmd mod 2 ^ 8) (ptstart mod 2 ^ 9) (ptend mod 2 ^ 9). intros c s e Hc Hs He.
  rewrite !u32_id by (unfold in_u32; rewrite Z.shiftl_mul_pow2 by lia; lia).
  rewrite (lor_shiftl 8) by lia. by rewrite (lor_shiftl 17) by lia.
Qed.

Lemma mkargbuf_fields buf bits :
  PTDUMP_IOCTL_MKARGBUF buf bits = buf mod 2 ^ 48 + 2 ^ 48 * (bits mod 2 ^ 8).
Proof.
  unfold PTDUMP_IOCTL_MKARGBUF. masks.
  pose proof (Z.mod_pos_bound buf (2 ^ 48) ltac:(lia)). pose proof (Z.mod_pos_bound bits (2 ^ 8) ltac:(lia)).
  revert H H0. generalize (buf mod 2 ^ 48) (bits mod 2 ^ 8). intros b s Hb Hs.
  rewrite !u64_id by (unfold in_u64; rewrite Z.shiftl_mul_pow2 by lia; lia). by rewrite (lor_shiftl 48) by lia.
Qed.

Lemma mkbase_fields base level :
  PTDUMP_TABLE_MKBASE base level = base mod 2 ^ 48 + 2 ^ 48 * (level mod 2 ^ 8).
Proof. rewrite <- mkargbuf_fields. unfold PTDUMP_TABLE_MKBASE, PTDUMP_IOCTL_MKARGBUF. apply Z.lor_comm. Qed.

(** What is packed is unpacked, each field as far as it fits. *)
Theorem ioctl_roundtrip cmd ptstart ptend buf bits base level :
  let x := PTDUMP_IOCTL_MKCMD cmd ptstart ptend in
  let arg := PTDUMP_IOCTL_MKARGBUF buf bits in
  let b := PTDUMP_TABLE_MKBASE base level in
  in_u32 x /\ in_u64 arg /\ in_u64 b /\
  PTDUMP_IOCTL_EXCMD x = cmd mod 2 ^ 8 /\ PTDUMP_IOCTL_EXPTSTART x = ptstart mod 2 ^ 9 /\
  PTDUMP_IOCTL_EXPTEND x = ptend mod 2 ^ 9 /\
  PTDUMP_IOCTL_EXBUF arg = buf mod 2 ^ 48 /\ PTDUMP_IOCTL_EXBITS arg = bits mod 2 ^ 8 /\
  PTDUMP_TABLE_EXBASE b = base mod 2 ^ 48 /\ PTDUMP_TABLE_EXLEVEL b = level mod 2 ^ 8.
Proof.
  cbv zeta. rewrite mkcmd_fields, mkargbuf_fields, mkbase_fields.
  unfold PTDUMP_IOCTL_EXCMD, PTDUMP_IOCTL_EXPTSTART, PTDUMP_IOCTL_EXPTEND, PTDUMP_IOCTL_EXBUF, PTDUMP_IOCTL_EXBITS,
    PTDUMP_TABLE_EXBASE, PTDUMP_TABLE_EXLEVEL, u32, in_u32, in_u64.
  masks. rewrite !Z.shiftr_div_pow2 by lia. split_and!; zdiv.
Qed.

(** ** The dump *)

Record ptdump_table := MkTable { base : Z; vbase : Z; entries : list Z }.
Record ptdump := MkDump { num_tables : Z; table : list ptdump_table }.
Record ptranges := MkRanges {
  pml4_base : Z; pml4_limit : Z; pt_base : Z; pt_limit : Z; code_base : Z; code_limit : Z;
  data_base : Z; data_limit : Z; kernel_base : Z; kernel_limit : Z;
}.
Record ptcrc32 := MkCrcs { pml4 : Z; pdpt : Z; pdir : Z; pt : Z; data : Z }.

(** What the module answers: to attempt [k] at a dump, and to the two other
    commands, or that it failed. *)
Class PtModule := {
  ioctl_dump : nat -> option ptdump;
  ioctl_ranges : option ptranges;
  ioctl_crc32 : option ptcrc32;
}.

(** [%0<width>lx] *)
Definition hex_digit (d : Z) : Z := if d <? 10 then 48 + d else 87 + d.
Fixpoint hex_digits (fuel : nat) (n : Z) (acc : list Z) : list Z :=
  match fuel with
  | O => acc
  | S fuel => let acc := hex_digit (n mod 16) :: acc in if n <? 16 then acc else hex_digits fuel (n / 16) acc
  end.
Definition print_hex (width : nat) (n : Z) : list Z :=
  let s := hex_digits 16 n [] in replicate (width - length s) 48 ++ s.

Definition PTABLE_BASE_MASK (x : Z) : Z := Z.land x 0xfffffffff000.

Definition present (e : Z) : bool := negb (Z.land e 1 =? 0).
Definition no_execute (e : Z) : bool := negb (Z.land e (Z.shiftl 1 63) =? 0).
Definition large_page (e : Z) : bool := negb (Z.land e (Z.shiftl 1 7) =? 0).

(** The numbers of the frames, in a loop over tables of one level. *)
Definition print_frames (level : Z) (keep : Z -> bool) (width : nat) (shift : Z) (d : ptdump) : option (list Z) :=
  for_z 0 (num_tables d) (fun i out =>
    t ← (table d).[i];
    if negb (PTDUMP_TABLE_EXLEVEL (base t) =? level) then Some out
    else
      for_z 0 512 (fun j out =>
        e ← (entries t).[j];
        if keep e then Some (out ++ print_hex width (Z.shiftr (PTABLE_BASE_MASK e) shift) ++ [32]) else Some out) out) [].

Definition tag (name : string) (body : list Z) : list Z :=
  chars "<" ++ chars name ++ chars ">" ++ body ++ chars "</" ++ chars name ++ chars ">" ++ [10].

Definition code4k (e : Z) : bool := present e && negb (no_execute e).
Definition data4k (e : Z) : bool := present e && no_execute e.
Definition code2M (e : Z) : bool := present e && large_page e && negb (no_execute e).
Definition data2M (e : Z) : bool := present e && large_page e && no_execute e.

(** The part for a full dump. *)
Definition print_dump (d : ptdump) : option (list Z) :=
  bases ← for_z 0 (num_tables d) (fun i out =>
            t ← (table d).[i]; Some (out ++ print_hex 9 (Z.shiftr (PTABLE_BASE_MASK (base t)) 12) ++ [32])) [];
  c4 ← print_frames 1 code4k 9 12 d;
  d4 ← print_frames 1 data4k 9 12 d;
  c2 ← print_frames 2 code2M 7 21 d;
  d2 ← print_frames 2 data2M 7 21 d;
  Some (tag "ptables" bases ++ tag "codeframes4k" c4 ++ tag "dataframes4k" d4 ++
        tag "codeframes2M" c2 ++ tag "dataframes2M" d2).

Definition print_range (name : string) (lo hi : Z) : list Z :=
  tag name (chars "0x" ++ print_hex 12 lo ++ chars "..0x" ++ print_hex 12 hi).
Definition print_crc (name : string) (c : Z) : list Z :=
  chars "<" ++ chars name ++ chars ">0x" ++ print_hex 8 c ++ chars "</" ++ chars name ++ chars ">".

(** The part for checksums. *)
Definition print_ranges (r : option ptranges) : list Z :=
  match r with
  | Some r => chars "<ptranges>" ++ [10] ++ print_range "l4" (pml4_base r) (pml4_limit r) ++
      print_range "table" (pt_base r) (pt_limit r) ++ print_range "data" (data_base r) (data_limit r) ++
      print_range "code" (code_base r) (code_limit r) ++ print_range "kernel" (kernel_base r) (kernel_limit r) ++
      chars "</ptranges>" ++ [10]
  | None => tag "ptranges" (chars "INVALID")
  end.
Definition print_crcs (c : option ptcrc32) : list Z :=
  match c with
  | Some c => tag "crc" (print_crc "l4" (pml4 c) ++ print_crc "l3" (pdpt c) ++ print_crc "l2" (pdir c) ++
                         print_crc "l1" (pt c) ++ print_crc "d" (data c))
  | None => tag "crc" (chars "INVALID")
  end.

Section Dump.
Context {module : PtModule}.

(** The loop that repeats the command until it succeeds. *)
Fixpoint dump_until (fuel k : nat) : option ptdump :=
  match fuel with
  | O => None
  | S fuel => match ioctl_dump k with Some d => Some d | None => dump_until fuel (S k) end
  end.

Definition dump_page_tables (fuel : nat) (opt_dump_pt_full opt_dump_pt_crc : bool) : option (list Z) :=
  body ← (if opt_dump_pt_full then d ← dump_until fuel 0; print_dump d
          else if opt_dump_pt_crc then Some (print_ranges ioctl_ranges ++ print_crcs ioctl_crc32)
          else Some (chars "Page table dumping disabled." ++ [10]));
  Some (chars "<pagetables>" ++ [10] ++ body ++ chars "</pagetables>" ++ [10]).
End Dump.

(** *** What a dump lists *)

(** The array is large enough and every table is one page. *)
Definition dump_ok (d : ptdump) : Prop :=
  0 <= num_tables d <= alen (table d) /\ Forall (fun t => alen (entries t) = 512) (table d).

(** The entries of the tables of a level. *)
Definition level_entries (level : Z) (d : ptdump) : list Z :=
  t ← take (Z.to_nat (num_tables d)) (table d);
  if PTDUMP_TABLE_EXLEVEL (base t) =? level then entries t else [].

Definition frames_text (width : nat) (shift : Z) (es : list Z) : list Z :=
  es ≫= fun e => print_hex width (Z.shiftr (PTABLE_BASE_MASK e) shift) ++ [32].

Lemma for_z_concat {A B} (a : list A) n (f : A -> list B) (out : list B) :
  0 <= n <= alen a ->
  for_z 0 n (fun i out => x ← a.[i]; Some (out ++ f x)) out = Some (out ++ (take (Z.to_nat n) a ≫= f)).
Proof.
  intros Hn.
  destruct (for_z_inv (fun i o => o = out ++ (take (Z.to_nat i) a ≫= f)) 0 n
              (fun i out => x ← a.[i]; Some (out ++ f x)) out) as (o & E & ->); [lia| | |done].
  - by rewrite app_nil_r.
  - intros i o Hi ->. destruct (aget_in a i) as [x Hx]; [lia|]. rewrite Hx. cbn [mbind option_bind]. eexists. split; [done|].
    assert (a !! Z.to_nat i = Some x) as Hx' by (unfold aget in Hx; by destruct (i <? 0)).
    replace (Z.to_nat (i + 1)) with (S (Z.to_nat i)) by lia. rewrite (take_S_r _ _ x) by done.
    rewrite bind_app. cbn. by rewrite app_nil_r, app_assoc.
Qed.

Lemma filter_bind {A B} (keep : A -> bool) (f : A -> list B) l :
  (l ≫= fun x => if keep x then f x else []) = filter keep l ≫= f.
Proof.
  induction l as [|x l IH]; [done|]. rewrite filter_cons, bind_cons, IH.
  by case_decide as H; destruct (keep x).
Qed.

Lemma for_z_congr {S} lo hi (body body' : Z -> S -> option S) s :
  (forall i s, lo <= i < hi -> body i s = body' i s) -> for_z lo hi body s = for_z lo hi body' s.
Proof.
  intros H. unfold for_z. remember (Z.to_nat (hi - lo)) as n eqn:Hn. revert lo H Hn s.
  induction n as [|n IH]; intros lo H Hn s; [done|]. cbn [for_nat]. rewrite H by lia.
  destruct (body' lo s); [|done]. cbn [mbind option_bind]. apply IH; [|lia]. intros. apply H. lia.
Qed.

Lemma print_frames_lists level keep width shift d :
  dump_ok d -> print_frames level keep width shift d = Some (frames_text width shift (filter keep (level_entries level d))).
Proof.
  intros [Hn Hd]. set (hex := fun e => print_hex width (Z.shiftr (PTABLE_BASE_MASK e) shift) ++ [32]).
  set (f := fun t => if PTDUMP_TABLE_EXLEVEL (base t) =? level then filter keep (entries t) ≫= hex else []).
  transitivity (for_z 0 (num_tables d) (fun i out => t ← (table d).[i]; Some (out ++ f t)) []).
  - apply for_z_congr. intros i out Hi. destruct (aget_in (table d) i) as [t Ht]; [lia|]. rewrite Ht.
    cbn [mbind option_bind]. unfold f. destruct (PTDUMP_TABLE_EXLEVEL (base t) =? level); cbn [negb]; [|by rewrite app_nil_r].
    assert (alen (entries t) = 512) as Hl.
    { unfold aget in Ht. destruct (i <? 0); [done|]. exact (list.Forall_lookup_1 _ _ _ _ Hd Ht). }
    rewrite <- filter_bind.
    transitivity (for_z 0 512 (fun j out => e ← (entries t).[j]; Some (out ++ (if keep e then hex e else []))) out).
    + apply for_z_congr. intros j out' Hj. destruct (aget_in (entries t) j) as [e He]; [lia|]. rewrite He.
      cbn [mbind option_bind]. destruct (keep e); [done|by rewrite app_nil_r].
    + rewrite for_z_concat by lia. rewrite take_ge; [done|]. unfold alen in Hl. lia.
  - rewrite for_z_concat by done. cbn [app]. f_equal. unfold frames_text, level_entries. fold hex.
    induction (take (Z.to_nat (num_tables d)) (table d)) as [|t l IH]; [done|]. cbn [mbind list_bind] in *.
    rewrite list.filter_app, bind_app, <- IH. f_equal. unfold f. by destruct (_ =? _).
Qed.

Lemma print_dump_complete d :
  dump_ok d ->
  exists bases c4 d4 c2 d2,
    print_dump d = Some (tag "ptables" bases ++ tag "codeframes4k" (frames_text 9 12 c4) ++
      tag "dataframes4k" (frames_text 9 12 d4) ++ tag "codeframes2M" (frames_text 7 21 c2) ++
      tag "dataframes2M" (frames_text 7 21 d2)) /\
    c4 ++ d4 ≡ₚ filter present (level_entries 1 d) /\
    c2 ++ d2 ≡ₚ filter (fun e => present e && large_page e) (level_entries 2 d) /\
    Forall (fun e => no_execute e = false) (c4 ++ c2) /\ Forall no_execute (d4 ++ d2).
Proof.
  intros Hd. destruct Hd as [Hn Ht]. unfold print_dump.
  rewrite for_z_concat by done. cbn [mbind option_bind app].
  rewrite !print_frames_lists by done. cbn [mbind option_bind].
  do 5 eexists. split; [done|].
  assert (forall (p : Z -> bool) l,
    filter (fun e => p e && negb (no_execute e)) l ++ filter (fun e => p e && no_execute e) l ≡ₚ filter p l) as Hsplit.
  { intros p l. induction l as [|e l IH]; [done|]. rewrite !filter_cons.
    destruct (p e), (no_execute e); cbn [andb negb]; repeat case_decide; try done.
    - by rewrite <- Permutation_middle, IH.
    - cbn [app]. by rewrite IH. }
  split_and!; [apply Hsplit|apply (Hsplit (fun e => present e && large_page e))|..].
  all: apply list.Forall_app; split; apply list.Forall_forall; intros e [He _]%list_elem_of_filter;
    rewrite ?Is_true_true in *; unfold code4k, data4k, code2M, data2M in He; repeat apply andb_prop in He as [He ?]; destruct (no_execute e); done.
Qed.

Lemma dump_until_ends {module : PtModule} k d fuel :
  ioctl_dump k = Some d -> (forall j, (j < k)%nat -> ioctl_dump j = None) -> (k < fuel)%nat ->
  dump_until fuel 0 = Some d.
Proof.
  intros Hk Hj Hf. enough (forall n from, (from + n = k)%nat -> (n < fuel)%nat -> dump_until fuel from = Some d) as H.
  { by apply (H k). }
  clear Hf. induction fuel as [|fuel IH]; intros n from Hn Hf; [lia|]. cbn [dump_until].
  destruct n as [|n].
  - replace from with k by lia. by rewrite Hk.
  - rewrite Hj by lia. apply (IH n); lia.
Qed.

(** A full dump ends when the module answers, and lists, between its tags, every
    present page of the tables once, by size and by whether code may run
    from it. *)
Theorem dump_complete {module : PtModule} k d fuel crc :
  ioctl_dump k = Some d -> (forall j, (j < k)%nat -> ioctl_dump j = None) -> (k < fuel)%nat -> dump_ok d ->
  exists bases c4 d4 c2 d2,
    dump_page_tables fuel true crc = Some (chars "<pagetables>" ++ [10] ++
      (tag "ptables" bases ++ tag "codeframes4k" (frames_text 9 12 c4) ++ tag "dataframes4k" (frames_text 9 12 d4) ++
       tag "codeframes2M" (frames_text 7 21 c2) ++ tag "dataframes2M" (frames_text 7 21 d2)) ++
      chars "</pagetables>" ++ [10]) /\
    c4 ++ d4 ≡ₚ filter present (level_entries 1 d) /\
    c2 ++ d2 ≡ₚ filter (fun e => present e && large_page e) (level_entries 2 d) /\
    Forall (fun e => no_execute e = false) (c4 ++ c2) /\ Forall no_execute (d4 ++ d2).
Proof.
  intros Hk Hj Hf Hd. destruct (print_dump_complete d Hd) as (bases & c4 & d4 & c2 & d2 & E & H).
  exists bases, c4, d4, c2, d2. split; [|done]. unfold dump_page_tables.
  rewrite (dump_until_ends k d) by done. cbn [mbind option_bind]. by rewrite E.
Qed.
End PtDump.
