(* ===== verification/BTreeMem.v ===== *)
(** * Memory of the B+ tree benchmark (sources/btree/btree.c, allocators)

    The heap of nodes and of 8-byte words, the state monad the code runs in,
    the two slab allocators with their free lists, and what they promise to the
    tree: a node or record that is handed out is live in nobody else's hands. *)

From Stdlib Require Import ZArith Lia.
From stdpp Require Import gmap list numbers.
From S2P Require Import Prelude Arrays.
#[local] Open Scope Z_scope.

(** [struct node]; a pointer is its address, [NULL] is 0.  The two arrays
    belong to the node alone and are kept in it; an array that is not allocated
    has no cell. *)
Record node := MkNode {
  pointers : list Z;
  keys : list Z;
  parent : Z;
  is_leaf : bool;
  num_keys : Z;
  next : Z;
}.

Definition with_pointers (n : node) (v : list Z) : node :=
  MkNode v (keys n) (parent n) (is_leaf n) (num_keys n) (next n).
Definition with_keys (n : node) (v : list Z) : node :=
  MkNode (pointers n) v (parent n) (is_leaf n) (num_keys n) (next n).
Definition with_parent (n : node) (v : Z) : node :=
  MkNode (pointers n) (keys n) v (is_leaf n) (num_keys n) (next n).
Definition with_is_leaf (n : node) (v : bool) : node :=
  MkNode (pointers n) (keys n) (parent n) v (num_keys n) (next n).
Definition with_num_keys (n : node) (v : Z) : node :=
  MkNode (pointers n) (keys n) (parent n) (is_leaf n) v (next n).
Definition with_next (n : node) (v : Z) : node :=
  MkNode (pointers n) (keys n) (parent n) (is_leaf n) (num_keys n) v.

(** Pages come zeroed. *)
Definition zero_node : node := MkNode [] [] 0 false 0 0.

(** [words] holds the records (a value, or the next free record) and the
    elements they point to; [maps] lists the mappings made so far. *)
Record mem := MkMem {
  nodes : gmap Z node;
  words : gmap Z Z;
  free_nodes : Z;
  free_recs : Z;
  maps : list (Z * Z);
  allocator_stat : Z;
}.

Definition with_nodes (m : mem) (v : gmap Z node) : mem :=
  MkMem v (words m) (free_nodes m) (free_recs m) (maps m) (allocator_stat m).
Definition with_words (m : mem) (v : gmap Z Z) : mem :=
  MkMem (nodes m) v (free_nodes m) (free_recs m) (maps m) (allocator_stat m).
Definition with_free_nodes (m : mem) (v : Z) : mem :=
  MkMem (nodes m) (words m) v (free_recs m) (maps m) (allocator_stat m).
Definition with_free_recs (m : mem) (v : Z) : mem :=
  MkMem (nodes m) (words m) (free_nodes m) v (maps m) (allocator_stat m).
Definition with_stat (m : mem) (v : Z) : mem :=
  MkMem (nodes m) (words m) (free_nodes m) (free_recs m) (maps m) v.
Definition with_map (m : mem) (v : Z * Z) : mem :=
  MkMem (nodes m) (words m) (free_nodes m) (free_recs m) (v :: maps m) (allocator_stat m).

(** Why a run calls [exit]: the message it leaves and, for memory, the request
    that the system refused. *)
Inductive reason :=
| No_mmap (maps : list (Z * Z)) (size : Z)     (* ENOMEM, after [mmap] *)
| No_memalign (stat size : Z)                  (* ENOMEM, after [posix_memalign] *)
| Record_creation
| Node_creation
| Nonexistent_pointer
| No_ready_file
| No_done_file.

(** A run returns, leaves through [exit], or does something undefined (a bad
    access, or a model loop out of fuel). *)
Inductive result (A : Type) :=
| Ok (a : A) (m : mem)
| Exit (code : Z) (why : reason)
| Undefined.
Arguments Ok {A}. Arguments Exit {A}. Arguments Undefined {A}.

Definition M (A : Type) : Type := mem -> result A.

#[export] Instance M_ret : MRet M := fun A a m => Ok a m.
#[export] Instance M_bind : MBind M := fun A B f c m =>
  match c m with
  | Ok a m' => f a m'
  | Exit z why => Exit z why
  | Undefined => Undefined
  end.

Definition undef {A} : M A := fun _ => Undefined.
Definition exit_with {A} (code : Z) (why : reason) : M A := fun _ => Exit code why.
Definition lift {A} (o : option A) : M A := fun m =>
  match o with Some a => Ok a m | None => Undefined end.
Definition get : M mem := fun m => Ok m m.
Definition put (m : mem) : M unit := fun _ => Ok tt m.

(** [*p] as a node, read and written as a whole. *)
Definition load (p : Z) : M node := fun m =>
  match nodes m !! p with Some n => Ok n m | None => Undefined end.
Definition store (p : Z) (n : node) : M unit := fun m =>
  match nodes m !! p with
  | Some _ => Ok tt (with_nodes m (<[p := n]> (nodes m)))
  | None => Undefined
  end.

(** [*p] as an 8-byte word. *)
Definition load_word (p : Z) : M Z := fun m =>
  match words m !! p with Some v => Ok v m | None => Undefined end.
Definition store_word (p v : Z) : M unit := fun m =>
  match words m !! p with
  | Some _ => Ok tt (with_words m (<[p := v]> (words m)))
  | None => Undefined
  end.

Fixpoint mfor_nat {S} (n : nat) (i : Z) (body : Z -> S -> M S) (s : S) : M S :=
  match n with
  | O => mret s
  | Datatypes.S n => s ← body i s; mfor_nat n (i + 1) body s
  end.
Definition mfor {S} (lo hi : Z) (body : Z -> S -> M S) (s : S) : M S :=
  mfor_nat (Z.to_nat (hi - lo)) lo body s.

(** ** The operating system

    [mmap] answers from the mappings made so far, with a range that is new, and
    refuses an empty one ([EINVAL]);
    [memalign_ok] says whether the next array allocation succeeds, and
    [fopen_ready] and [fopen_done] whether the two signal files can be created. *)
Class OS := {
  mmap : list (Z * Z) -> Z -> option Z;
  memalign_ok : Z -> Z -> bool;
  fopen_ready : bool;
  fopen_done : bool;
  mmap_fresh ms size base :
    mmap ms size = Some base ->
    0 < base /\ base + size <= 2 ^ 64 /\
    forall b s, (b, s) ∈ ms -> base + size <= b \/ b + s <= base;
  mmap_empty ms : mmap ms 0 = None;
}.

Section Alloc.
Context {os : OS}.

(** ** The allocators *)

Definition allocate (size : Z) : M Z := fun m =>
  match mmap (maps m) size with
  | None => Exit 1 (No_mmap (maps m) size)
  | Some base => Ok base (with_stat (with_map m (base, size)) (u64 (allocator_stat m + size)))
  end.

(** An array of [n] zeroed 8-byte cells. *)
Definition allocate_align64 (n : Z) : M (list Z) := fun m =>
  if memalign_ok (allocator_stat m) (n * 8) then
    Ok (replicate (Z.to_nat n) 0) (with_stat m (u64 (allocator_stat m + n * 8)))
  else Exit 1 (No_memalign (allocator_stat m) (n * 8)).

Definition NODE_SLAB_GROW : Z := Z.shiftl 1 18.
Definition sizeof_node : Z := 48.

(** [n[i].next = free_nodes; free_nodes = &n[i];] on the fresh page. *)
Definition slab_node (n i : Z) : M unit :=
  m ← get;
  let p := n + sizeof_node * i in
  put (with_free_nodes
         (with_nodes m (<[p := with_next zero_node (free_nodes m)]> (nodes m))) p).

Definition grow_nodes : M unit :=
  n ← allocate NODE_SLAB_GROW;
  mfor 0 (NODE_SLAB_GROW / sizeof_node) (fun i _ => slab_node n i) tt.

Definition alloc_node : M Z :=
  m ← get;
  _ ← (if free_nodes m =? 0 then grow_nodes else mret tt);
  m ← get;
  let nd := free_nodes m in
  n ← load nd;
  _ ← put (with_free_nodes m (next n));
  mret nd.

Definition free_node (p : Z) : M unit :=
  n ← load p;
  m ← get;
  _ ← store p (with_next n (free_nodes m));
  m ← get;
  put (with_free_nodes m p).

Definition RECORD_SLAB_GROW : Z := Z.shiftl 1 18.
Definition sizeof_record : Z := 8.

Definition slab_record (r i : Z) : M unit :=
  m ← get;
  let p := r + sizeof_record * i in
  put (with_free_recs (with_words m (<[p := free_recs m]> (words m))) p).

Definition grow_records : M unit :=
  r ← allocate RECORD_SLAB_GROW;
  mfor 0 (RECORD_SLAB_GROW / sizeof_record) (fun i _ => slab_record r i) tt.

Definition alloc_record : M Z :=
  m ← get;
  _ ← (if free_recs m =? 0 then grow_records else mret tt);
  m ← get;
  let rec := free_recs m in
  nxt ← load_word rec;
  _ ← put (with_free_recs m nxt);
  mret rec.

Definition free_record (r : Z) : M unit :=
  m ← get;
  _ ← store_word r (free_recs m);
  m ← get;
  put (with_free_recs m r).

Definition make_record (value : Z) : M Z :=
  new_record ← alloc_record;
  _ ← (if new_record =? 0 then exit_with 1 Record_creation else mret tt);
  _ ← store_word new_record value;
  mret new_record.

End Alloc.

(** ** Weakest preconditions

    [wp c m Q]: from [m] the run of [c] does nothing undefined; it either
    returns and satisfies [Q], or leaves through an [exit] that the system is to
    blame for: with status 1 after it has refused the request for memory that
    [reason] names, or with status -1 after it could not create a signal file.
    No other [exit] of the code is reached. *)

Definition excused {os : OS} (code : Z) (why : reason) : Prop :=
  match why with
  | No_mmap ms size => code = 1 /\ mmap ms size = None
  | No_memalign stat size => code = 1 /\ memalign_ok stat size = false
  | No_ready_file => code = -1 /\ fopen_ready = false
  | No_done_file => code = -1 /\ fopen_done = false
  | Record_creation | Node_creation | Nonexistent_pointer => False
  end.

Definition wp {os : OS} {A} (c : M A) (m : mem) (Q : A -> mem -> Prop) : Prop :=
  match c m with
  | Ok a m' => Q a m'
  | Exit z why => excused z why
  | Undefined => False
  end.

Section WP.
Context {os : OS} {A B : Type}.
Implicit Types (c : M A) (m : mem).

Lemma wp_ret (a : A) m Q : Q a m -> wp (mret a) m Q.
Proof. done. Qed.

Lemma wp_bind c (f : A -> M B) m Q : wp c m (fun a m' => wp (f a) m' Q) -> wp (c ≫= f) m Q.
Proof. unfold wp. cbv [mbind M_bind]. by destruct (c m). Qed.

Lemma wp_mono c m (P Q : A -> mem -> Prop) :
  wp c m P -> (forall a m', P a m' -> Q a m') -> wp c m Q.
Proof. unfold wp. destruct (c m); auto. Qed.

Lemma wp_lift (o : option A) a m Q : o = Some a -> Q a m -> wp (lift o) m Q.
Proof. by intros ->. Qed.

Lemma wp_run c m Q a m' : wp c m Q -> c m = Ok a m' -> Q a m'.
Proof. unfold wp. intros H E. by rewrite E in H. Qed.
End WP.

Section WPHeap.
Context {os : OS}.

Lemma wp_load p n m Q : nodes m !! p = Some n -> Q n m -> wp (load p) m Q.
Proof. unfold wp, load. by intros ->. Qed.

Lemma wp_store p n n' m Q :
  nodes m !! p = Some n' -> Q tt (with_nodes m (<[p := n]> (nodes m))) -> wp (store p n) m Q.
Proof. unfold wp, store. by intros ->. Qed.

Lemma wp_load_word p v m Q : words m !! p = Some v -> Q v m -> wp (load_word p) m Q.
Proof. unfold wp, load_word. by intros ->. Qed.

Lemma wp_store_word p v v' m Q :
  words m !! p = Some v' -> Q tt (with_words m (<[p := v]> (words m))) ->
  wp (store_word p v) m Q.
Proof. unfold wp, store_word. by intros ->. Qed.

Lemma wp_get m Q : Q m m -> wp get m Q.
Proof. done. Qed.

Lemma wp_put m m' Q : Q tt m' -> wp (put m') m Q.
Proof. done. Qed.

Lemma wp_mfor {S} (I : Z -> S -> mem -> Prop) lo hi body (s : S) m :
  lo <= hi -> I lo s m ->
  (forall i s m, lo <= i < hi -> I i s m -> wp (body i s) m (I (i + 1))) ->
  wp (mfor lo hi body s) m (I hi).
Proof.
  intros Hle H0 Hstep. unfold mfor. remember (Z.to_nat (hi - lo)) as n eqn:Hn.
  revert lo s m Hle H0 Hstep Hn. induction n as [|n IH]; intros lo s m Hle H0 Hstep Hn;
    cbn [mfor_nat].
  - apply wp_ret. by replace hi with lo by lia.
  - apply wp_bind. eapply wp_mono; [apply Hstep; [lia|done]|]. intros s' m' HI.
    apply IH; [lia|done| |lia]. intros. apply Hstep; [lia|done].
Qed.

End WPHeap.

(** ** Free lists and the invariant of the allocators *)

(** The cells of a free list, in order; [nx] reads the link of a cell. *)
Fixpoint chain (nx : Z -> option Z) (p : Z) (l : list Z) : Prop :=
  match l with
  | [] => p = 0
  | x :: l => p = x /\ x <> 0 /\ exists q, nx x = Some q /\ chain nx q l
  end.

Definition node_link (m : mem) (p : Z) : option Z := next <$> nodes m !! p.

(** The range of [p] lies in a mapping. *)
Definition mapped (ms : list (Z * Z)) (p size : Z) : Prop :=
  exists b s, (b, s) ∈ ms /\ b <= p /\ p + size <= b + s.

(** The node allocator with [live] nodes handed out. *)
Definition nodes_ok (m : mem) (live : list Z) : Prop :=
  exists free, chain (node_link m) (free_nodes m) free /\ NoDup (live ++ free) /\
    (forall p, p ∈ live -> is_Some (nodes m !! p)) /\
    (forall p n, nodes m !! p = Some n -> 0 < p /\ mapped (maps m) p sizeof_node).

(** The record allocator with [live] words handed out (records and elements). *)
Definition words_ok (m : mem) (live : list Z) : Prop :=
  exists free, chain (fun p => words m !! p) (free_recs m) free /\ NoDup (live ++ free) /\
    (forall p, p ∈ live -> is_Some (words m !! p)) /\
    (forall p v, words m !! p = Some v -> 0 < p /\ mapped (maps m) p sizeof_record).

Lemma chain_ext (nx nx' : Z -> option Z) p l :
  (forall x, x ∈ l -> nx' x = nx x) -> chain nx p l -> chain nx' p l.
Proof.
  revert p. induction l as [|x l IH]; intros p Hx; [done|]. cbn [chain].
  intros (-> & Hnz & q & Hq & Hc). split; [done|]. split; [done|]. exists q.
  rewrite Hx by (by left). split; [done|]. apply IH; [|done]. intros y Hy. apply Hx. by right.
Qed.

Lemma chain_nil nx l : chain nx 0 l -> l = [].
Proof. destruct l; [done|]. by intros (-> & ? & _). Qed.

Lemma mapped_weaken ms x p s : mapped ms p s -> mapped (x :: ms) p s.
Proof. intros (b & sz & Hin & H). exists b, sz. split; [by right|done]. Qed.

#[export] Instance nodes_ok_perm m : Proper ((≡ₚ) ==> iff) (nodes_ok m).
Proof.
  intros l l' Hl. unfold nodes_ok.
  split; intros (free & Hc & Hnd & Hlive & Hm); exists free; (split; [done|]);
    (split; [by rewrite Hl in Hnd || rewrite <- Hl in Hnd|]); (split; [|done]);
    intros p Hp; apply Hlive; by rewrite Hl in Hp || rewrite <- Hl in Hp.
Qed.

#[export] Instance words_ok_perm m : Proper ((≡ₚ) ==> iff) (words_ok m).
Proof.
  intros l l' Hl. unfold words_ok.
  split; intros (free & Hc & Hnd & Hlive & Hm); exists free; (split; [done|]);
    (split; [by rewrite Hl in Hnd || rewrite <- Hl in Hnd|]); (split; [|done]);
    intros p Hp; apply Hlive; by rewrite Hl in Hp || rewrite <- Hl in Hp.
Qed.

Lemma nodes_ok_nodup m live : nodes_ok m live -> NoDup live.
Proof. intros (free & _ & Hnd & _). by apply list.NoDup_app in Hnd as (? & _). Qed.

Lemma words_ok_nodup m live : words_ok m live -> NoDup live.
Proof. intros (free & _ & Hnd & _). by apply list.NoDup_app in Hnd as (? & _). Qed.

Lemma nodes_ok_pos m live p : nodes_ok m live -> p ∈ live -> 0 < p.
Proof. intros (free & _ & _ & Hl & Hm) Hp. destruct (Hl p Hp) as [n Hn]. by eapply Hm. Qed.

Lemma words_ok_pos m live p : words_ok m live -> p ∈ live -> 0 < p.
Proof. intros (free & _ & _ & Hl & Hm) Hp. destruct (Hl p Hp) as [n Hn]. by eapply Hm. Qed.

(** Writing a live node keeps the allocator's invariant. *)
Lemma nodes_ok_store m live p n :
  p ∈ live -> nodes_ok m live -> nodes_ok (with_nodes m (<[p := n]> (nodes m))) live.
Proof.
  intros Hp (free & Hc & Hnd & Hlive & Hm). exists free. cbn [free_nodes nodes maps with_nodes].
  apply list.NoDup_app in Hnd as (Hnd1 & Hd & Hnd2). split; [|split; [|split]].
  - eapply chain_ext; [|exact Hc]. intros x Hx. unfold node_link. cbn [nodes with_nodes].
    rewrite lookup_insert_ne; [done|]. intros ->. by eapply Hd.
  - by apply list.NoDup_app.
  - intros q Hq. destruct (decide (p = q)) as [->|];
      [rewrite lookup_insert_eq; eauto|rewrite lookup_insert_ne by done; eauto].
  - intros q n'. rewrite lookup_insert_Some. intros [[-> ->]|[_ Hq]]; [|eauto].
    destruct (Hlive _ Hp) as [n0 Hn0]. eauto.
Qed.

Lemma words_ok_store m live p v :
  p ∈ live -> words_ok m live -> words_ok (with_words m (<[p := v]> (words m))) live.
Proof.
  intros Hp (free & Hc & Hnd & Hlive & Hm). exists free. cbn [free_recs words maps with_words].
  apply list.NoDup_app in Hnd as (Hnd1 & Hd & Hnd2). split; [|split; [|split]].
  - eapply chain_ext; [|exact Hc]. intros x Hx. cbn [words with_words].
    rewrite lookup_insert_ne; [done|]. intros ->. by eapply Hd.
  - by apply list.NoDup_app.
  - intros q Hq. destruct (decide (p = q)) as [->|];
      [rewrite lookup_insert_eq; eauto|rewrite lookup_insert_ne by done; eauto].
  - intros q n'. rewrite lookup_insert_Some. intros [[-> ->]|[_ Hq]]; [|eauto].
    destruct (Hlive _ Hp) as [n0 Hn0]. eauto.
Qed.

(** ** What the allocators promise *)

(** Mappings are never removed. *)
Definition grows (m m' : mem) : Prop :=
  forall p s, mapped (maps m) p s -> mapped (maps m') p s.

(** The part of the memory the node code leaves alone, and the record code's. *)
Definition words_same (m m' : mem) : Prop :=
  words m' = words m /\ free_recs m' = free_recs m /\ grows m m'.
Definition nodes_same (m m' : mem) : Prop :=
  nodes m' = nodes m /\ free_nodes m' = free_nodes m /\ grows m m'.

(** Closes the comparison of two memories that differ elsewhere. *)
Ltac same_solve :=
  repeat split; try done;
  let H := fresh in intros ? ? H; first [exact H | by apply mapped_weaken].

#[export] Instance grows_preorder : PreOrder grows.
Proof. split; unfold grows; repeat intro; eauto. Qed.
#[export] Instance words_same_preorder : PreOrder words_same.
Proof.
  split; [by repeat split|]. intros m1 m2 m3 (H1 & H2 & H3) (H4 & H5 & H6).
  split; [congruence|]. split; [congruence|]. by etransitivity.
Qed.
#[export] Instance nodes_same_preorder : PreOrder nodes_same.
Proof.
  split; [by repeat split|]. intros m1 m2 m3 (H1 & H2 & H3) (H4 & H5 & H6).
  split; [congruence|]. split; [congruence|]. by etransitivity.
Qed.

Lemma words_ok_same m m' live : words_same m m' -> words_ok m live -> words_ok m' live.
Proof.
  intros (Hw & Hf & Hg) (free & Hc & Hnd & Hl & Hm). exists free. rewrite Hf, Hw.
  do 3 (split; [done|]). intros p v Hp. destruct (Hm p v Hp). split; [done|]. by apply Hg.
Qed.

Lemma nodes_ok_same m m' live : nodes_same m m' -> nodes_ok m live -> nodes_ok m' live.
Proof.
  intros (Hw & Hf & Hg) (free & Hc & Hnd & Hl & Hm). exists free. unfold node_link.
  rewrite Hf, Hw. do 3 (split; [done|]). intros p v Hp. destruct (Hm p v Hp).
  split; [done|]. by apply Hg.
Qed.

Section Promises.
Context {os : OS}.

Lemma wp_allocate size m :
  wp (allocate size) m (fun base m' =>
    nodes_same m m' /\ words_same m m' /\ maps m' = (base, size) :: maps m /\
    0 < base /\ base + size <= 2 ^ 64 /\
    forall b s, (b, s) ∈ maps m -> base + size <= b \/ b + s <= base).
Proof.
  unfold wp, allocate. destruct (mmap (maps m) size) as [base|] eqn:E; [|done].
  destruct (mmap_fresh _ _ _ E) as (? & ? & ?). split; [same_solve|]. split; [same_solve|]. done.
Qed.

Lemma wp_allocate_align64 n m :
  wp (allocate_align64 n) m (fun a m' =>
    a = replicate (Z.to_nat n) 0 /\ nodes_same m m' /\ words_same m m').
Proof. unfold wp, allocate_align64. destruct (memalign_ok _ _) eqn:E; [split; [done|]; split; same_solve|by split]. Qed.

(** An address in a fresh range was not mapped before. *)
Lemma fresh_unmapped ms base size p s :
  (forall b s, (b, s) ∈ ms -> base + size <= b \/ b + s <= base) ->
  base <= p < base + size -> 0 < s -> mapped ms p s -> False.
Proof. intros Hf Hp Hs (b & sz & Hin & H). destruct (Hf _ _ Hin); lia. Qed.

Lemma wp_grow_nodes m live :
  nodes_ok m live -> free_nodes m = 0 ->
  wp grow_nodes m (fun _ m' => nodes_ok m' live /\ free_nodes m' <> 0 /\
    (forall q, q ∈ live -> nodes m' !! q = nodes m !! q) /\ words_same m m').
Proof.
  intros (free & Hc & Hnd & Hl & Hm) H0. rewrite H0 in Hc. apply chain_nil in Hc as ->.
  rewrite app_nil_r in Hnd. unfold grow_nodes. apply wp_bind.
  eapply wp_mono; [apply wp_allocate|].
  intros n m1 ((Hn1 & Hf1 & _) & Hw1 & Hm1 & Hpos & Hmax & Hfresh).
  assert (Hout : forall p nd, nodes m !! p = Some nd -> p < n \/ n + NODE_SLAB_GROW <= p).
  { intros p nd Hp. destruct (Hm p nd Hp) as [_ Hmp].
    destruct (decide (n <= p < n + NODE_SLAB_GROW)); [|lia].
    exfalso. eapply fresh_unmapped; [exact Hfresh|done| |exact Hmp]. done. }
  eapply wp_mono; [apply (wp_mfor (fun i _ m' =>
    words_same m1 m' /\ maps m' = maps m1 /\
    (forall q, q < n \/ n + NODE_SLAB_GROW <= q -> nodes m' !! q = nodes m !! q) /\
    (forall q nd, nodes m' !! q = Some nd -> 0 < q /\ mapped (maps m1) q sizeof_node) /\
    exists fl, chain (node_link m') (free_nodes m') fl /\ NoDup fl /\
      (forall x, x ∈ fl -> n <= x < n + sizeof_node * i) /\ (0 < i -> free_nodes m' <> 0)))|].
  - done.
  - split; [done|]. split; [done|]. rewrite Hn1, Hf1, H0. split; [done|]. split.
    { intros q nd Hq. destruct (Hm q nd Hq). split; [done|]. rewrite Hm1. by apply mapped_weaken. }
    exists []. split; [done|]. split; [apply NoDup_nil_2|]. split; [by intros x ?%not_elem_of_nil|lia].
  - intros i _ m2 Hi (Hw2 & Hm2 & Ho2 & Hd2 & fl & Hc2 & Hnd2 & Hin2 & _).
    set (p := n + sizeof_node * i).
    assert (Hp : p ∉ fl) by (intros Hp; specialize (Hin2 p Hp); unfold p in Hin2; lia).
    assert (n <= p /\ p + sizeof_node <= n + NODE_SLAB_GROW)
      by (unfold p, sizeof_node, NODE_SLAB_GROW in *; cbn in *; zdiv).
    unfold slab_node. apply wp_bind, wp_get, wp_put. fold p.
    split; [etransitivity; [exact Hw2|same_solve]|]. split; [done|].
    cbn [nodes maps free_nodes with_nodes with_free_nodes]. split; [|split].
    + intros q Hq. rewrite lookup_insert_ne; [by apply Ho2|]. intros ->.
      unfold sizeof_node in *. lia.
    + intros q nd. rewrite lookup_insert_Some. intros [[<- _]|[_ Hq]]; [|by eapply Hd2].
      split; [lia|]. rewrite Hm1. exists n, NODE_SLAB_GROW. split; [by left|lia].
    + exists (p :: fl). split; [|split; [|split]].
      * cbn [chain]. split; [done|]. split; [lia|]. exists (free_nodes m2).
        unfold node_link. cbn [nodes with_nodes with_free_nodes]. rewrite lookup_insert_eq.
        split; [done|]. eapply chain_ext; [|exact Hc2]. intros x Hx. unfold node_link.
        rewrite lookup_insert_ne; [done|]. by intros ->.
      * by constructor.
      * intros x. rewrite elem_of_cons. unfold sizeof_node in *.
        intros [->|Hx]; [|specialize (Hin2 x Hx)]; lia.
      * intros _. lia.
  - intros _ m2 (Hw2 & Hm2 & Ho2 & Hd2 & fl & Hc2 & Hnd2 & Hin2 & Hpos2).
    assert (Hlo : forall q, q ∈ live -> q < n \/ n + NODE_SLAB_GROW <= q).
    { intros q Hq. destruct (Hl q Hq) as [nd Hq']. eauto. }
    split; [|split; [|split]].
    + exists fl. split; [done|]. split; [|split].
      * apply list.NoDup_app. split; [done|]. split; [|done]. intros q Hq Hq'.
        specialize (Hin2 q Hq'). destruct (Hlo q Hq); [lia|].
        unfold sizeof_node, NODE_SLAB_GROW in *. cbn in *. zdiv.
      * intros q Hq. rewrite Ho2 by auto. by apply Hl.
      * intros q nd Hq. rewrite Hm2. by eapply Hd2.
    + by apply Hpos2.
    + intros q Hq. by apply Ho2, Hlo.
    + by etransitivity.
Qed.

Lemma wp_alloc_node m live :
  nodes_ok m live ->
  wp alloc_node m (fun p m' => nodes_ok m' (p :: live) /\
    (forall q, q ∈ live -> nodes m' !! q = nodes m !! q) /\ words_same m m').
Proof.
  intros Hok. unfold alloc_node. apply wp_bind, wp_get, wp_bind.
  assert (wp (if free_nodes m =? 0 then grow_nodes else mret tt) m (fun _ m' =>
    nodes_ok m' live /\ free_nodes m' <> 0 /\
    (forall q, q ∈ live -> nodes m' !! q = nodes m !! q) /\ words_same m m')) as Hgrow.
  { destruct (Z.eqb_spec (free_nodes m) 0); [by apply wp_grow_nodes|by apply wp_ret]. }
  eapply wp_mono; [exact Hgrow|]. clear Hok Hgrow.
  intros _ m1 ((free & Hc & Hnd & Hl & Hm) & Hnz & Hsame & Hw).
  apply wp_bind, wp_get. destruct free as [|p free]; [done|].
  destruct Hc as (-> & Hp & q & Hq & Hc). unfold node_link in Hq.
  destruct (nodes m1 !! p) as [nd|] eqn:Hnd'; [|done]. simpl in Hq. injection Hq as <-.
  apply wp_bind. eapply wp_load; [done|]. apply wp_bind, wp_put, wp_ret.
  split; [|split; [done|]].
  - exists free. cbn [free_nodes nodes maps with_free_nodes]. split; [done|].
    split; [|split].
    + change ((p :: live) ++ free) with (p :: (live ++ free)).
      by rewrite Permutation_middle.
    + intros x. rewrite elem_of_cons. intros [->|Hx]; [by rewrite Hnd'|by apply Hl].
    + done.
  - etransitivity; [exact Hw|same_solve].
Qed.

(** Freeing a live node puts it back on the list. *)
Lemma wp_free_node m live p :
  nodes_ok m (p :: live) ->
  wp (free_node p) m (fun _ m' => nodes_ok m' live /\
    (forall q, q ∈ live -> nodes m' !! q = nodes m !! q) /\ words_same m m').
Proof.
  intros (free & Hc & Hnd & Hl & Hm). unfold free_node.
  destruct (Hl p ltac:(by left)) as [nd Hp]. apply wp_bind. eapply wp_load; [done|].
  apply wp_bind, wp_get, wp_bind. eapply wp_store; [done|]. apply wp_bind, wp_get, wp_put.
  apply list.NoDup_cons in Hnd as [Hpn Hnd]. rewrite elem_of_app in Hpn.
  assert (forall q, q ∈ live ->
    <[p := with_next nd (free_nodes m)]> (nodes m) !! q = nodes m !! q) as Hframe.
  { intros q Hq. rewrite lookup_insert_ne; [done|]. intros <-. auto. }
  cbn [free_nodes nodes maps with_nodes with_free_nodes]. split; [|split; [done|same_solve]].
  exists (p :: free). cbn [free_nodes nodes maps with_nodes with_free_nodes chain].
  destruct (Hm p nd Hp). split; [|split; [|split]].
  - split; [done|]. split; [lia|]. exists (free_nodes m).
    unfold node_link. cbn [nodes with_nodes with_free_nodes].
    rewrite lookup_insert_eq. split; [done|]. eapply chain_ext; [|exact Hc].
    intros x Hx. unfold node_link. rewrite lookup_insert_ne; [done|]. intros <-. auto.
  - rewrite <- Permutation_middle. constructor; [|done]. rewrite elem_of_app. done.
  - intros q Hq. rewrite Hframe by done. apply Hl. by right.
  - intros q nd'. rewrite lookup_insert_Some. intros [[<- _]|[_ Hq]]; [done|by eapply Hm].
Qed.
Lemma wp_grow_records m live :
  words_ok m live -> free_recs m = 0 ->
  wp grow_records m (fun _ m' => words_ok m' live /\ free_recs m' <> 0 /\
    (forall q, q ∈ live -> words m' !! q = words m !! q) /\ nodes_same m m').
Proof.
  intros (free & Hc & Hnd & Hl & Hm) H0. rewrite H0 in Hc. apply chain_nil in Hc as ->.
  rewrite app_nil_r in Hnd. unfold grow_records. apply wp_bind.
  eapply wp_mono; [apply wp_allocate|].
  intros n m1 (Hn1 & (Hw1 & Hf1 & _) & Hm1 & Hpos & Hmax & Hfresh).
  assert (Hout : forall p v, words m !! p = Some v -> p < n \/ n + RECORD_SLAB_GROW <= p).
  { intros p v Hp. destruct (Hm p v Hp) as [_ Hmp].
    destruct (decide (n <= p < n + RECORD_SLAB_GROW)); [|lia].
    exfalso. eapply fresh_unmapped; [exact Hfresh|done| |exact Hmp]. done. }
  eapply wp_mono; [apply (wp_mfor (fun i _ m' =>
    nodes_same m1 m' /\ maps m' = maps m1 /\
    (forall q, q < n \/ n + RECORD_SLAB_GROW <= q -> words m' !! q = words m !! q) /\
    (forall q v, words m' !! q = Some v -> 0 < q /\ mapped (maps m1) q sizeof_record) /\
    exists fl, chain (fun p => words m' !! p) (free_recs m') fl /\ NoDup fl /\
      (forall x, x ∈ fl -> n <= x < n + sizeof_record * i) /\ (0 < i -> free_recs m' <> 0)))|].
  - done.
  - split; [done|]. split; [done|]. rewrite Hw1, Hf1, H0. split; [done|]. split.
    { intros q v Hq. destruct (Hm q v Hq). split; [done|]. rewrite Hm1. by apply mapped_weaken. }
    exists []. split; [done|]. split; [apply NoDup_nil_2|]. split; [by intros x ?%not_elem_of_nil|lia].
  - intros i _ m2 Hi (Hw2 & Hm2 & Ho2 & Hd2 & fl & Hc2 & Hnd2 & Hin2 & _).
    set (p := n + sizeof_record * i).
    assert (Hp : p ∉ fl) by (intros Hp; specialize (Hin2 p Hp); unfold p in Hin2; lia).
    assert (n <= p /\ p + sizeof_record <= n + RECORD_SLAB_GROW)
      by (unfold p, sizeof_record, RECORD_SLAB_GROW in *; cbn in *; zdiv).
    unfold slab_record. apply wp_bind, wp_get, wp_put. fold p.
    split; [etransitivity; [exact Hw2|same_solve]|]. split; [done|].
    cbn [words maps free_recs with_words with_free_recs]. split; [|split].
    + intros q Hq. rewrite lookup_insert_ne; [by apply Ho2|]. intros ->.
      unfold sizeof_record in *. lia.
    + intros q v. rewrite lookup_insert_Some. intros [[<- _]|[_ Hq]]; [|by eapply Hd2].
      split; [lia|]. rewrite Hm1. exists n, RECORD_SLAB_GROW. split; [by left|lia].
    + exists (p :: fl). split; [|split; [|split]].
      * cbn [chain]. split; [done|]. split; [lia|]. exists (free_recs m2).
        rewrite lookup_insert_eq.
        split; [done|]. eapply chain_ext; [|exact Hc2]. intros x Hx.
        rewrite lookup_insert_ne; [done|]. by intros ->.
      * by constructor.
      * intros x. rewrite elem_of_cons. unfold sizeof_record in *.
        intros [->|Hx]; [|specialize (Hin2 x Hx)]; lia.
      * intros _. lia.
  - intros _ m2 (Hw2 & Hm2 & Ho2 & Hd2 & fl & Hc2 & Hnd2 & Hin2 & Hpos2).
    assert (Hlo : forall q, q ∈ live -> q < n \/ n + RECORD_SLAB_GROW <= q).
    { intros q Hq. destruct (Hl q Hq) as [nd Hq']. eauto. }
    split; [|split; [|split]].
    + exists fl. split; [done|]. split; [|split].
      * apply list.NoDup_app. split; [done|]. split; [|done]. intros q Hq Hq'.
        specialize (Hin2 q Hq'). destruct (Hlo q Hq); [lia|].
        unfold sizeof_record, RECORD_SLAB_GROW in *. cbn in *. zdiv.
      * intros q Hq. rewrite Ho2 by auto. by apply Hl.
      * intros q v Hq. rewrite Hm2. by eapply Hd2.
    + by apply Hpos2.
    + intros q Hq. by apply Ho2, Hlo.
    + by etransitivity.
Qed.

Lemma wp_alloc_record m live :
  words_ok m live ->
  wp alloc_record m (fun p m' => words_ok m' (p :: live) /\
    (forall q, q ∈ live -> words m' !! q = words m !! q) /\ nodes_same m m').
Proof.
  intros Hok. unfold alloc_record. apply wp_bind, wp_get, wp_bind.
  assert (wp (if free_recs m =? 0 then grow_records else mret tt) m (fun _ m' =>
    words_ok m' live /\ free_recs m' <> 0 /\
    (forall q, q ∈ live -> words m' !! q = words m !! q) /\ nodes_same m m')) as Hgrow.
  { destruct (Z.eqb_spec (free_recs m) 0); [by apply wp_grow_records|by apply wp_ret]. }
  eapply wp_mono; [exact Hgrow|]. clear Hok Hgrow.
  intros _ m1 ((free & Hc & Hnd & Hl & Hm) & Hnz & Hsame & Hw).
  apply wp_bind, wp_get. destruct free as [|p free]; [done|].
  destruct Hc as (-> & Hp & q & Hq & Hc).
  apply wp_bind. eapply wp_load_word; [done|]. apply wp_bind, wp_put, wp_ret.
  split; [|split; [done|]].
  - exists free. cbn [free_recs words maps with_free_recs]. split; [done|].
    split; [|split].
    + change ((p :: live) ++ free) with (p :: (live ++ free)).
      by rewrite Permutation_middle.
    + intros x. rewrite elem_of_cons. intros [->|Hx]; [by rewrite Hq|by apply Hl].
    + done.
  - etransitivity; [exact Hw|same_solve].
Qed.

Lemma wp_make_record m live value :
  words_ok m live ->
  wp (make_record value) m (fun p m' => words_ok m' (p :: live) /\
    words m' !! p = Some value /\
    (forall q, q ∈ live -> words m' !! q = words m !! q) /\ nodes_same m m').
Proof.
  intros Hok. unfold make_record. apply wp_bind.
  eapply wp_mono; [by apply wp_alloc_record|]. intros p m1 (Hok1 & Hsame & Hn).
  pose proof (words_ok_pos _ _ p Hok1 ltac:(by left)).
  destruct (Z.eqb_spec p 0); [lia|]. apply wp_bind, wp_ret, wp_bind.
  pose proof Hok1 as (free & _ & Hnd & Hl & _). destruct (Hl p ltac:(by left)) as [v Hv].
  eapply wp_store_word; [done|]. apply wp_ret.
  split; [apply words_ok_store; [by left|done]|].
  cbn [words with_words]. rewrite lookup_insert_eq. split; [done|].
  split; [|etransitivity; [exact Hn|same_solve]]. intros q Hq.
  apply list.NoDup_cons in Hnd as [Hpn _]. rewrite elem_of_app in Hpn.
  rewrite lookup_insert_ne; [by apply Hsame|]. intros ->. auto.
Qed.

Lemma wp_free_record m live p :
  words_ok m (p :: live) ->
  wp (free_record p) m (fun _ m' => words_ok m' live /\
    (forall q, q ∈ live -> words m' !! q = words m !! q) /\ nodes_same m m').
Proof.
  intros (free & Hc & Hnd & Hl & Hm). unfold free_record.
  destruct (Hl p ltac:(by left)) as [v Hp]. apply wp_bind, wp_get, wp_bind.
  eapply wp_store_word; [done|]. apply wp_bind, wp_get, wp_put.
  apply list.NoDup_cons in Hnd as [Hpn Hnd]. rewrite elem_of_app in Hpn.
  assert (forall q, q ∈ live -> <[p := free_recs m]> (words m) !! q = words m !! q) as Hframe.
  { intros q Hq. rewrite lookup_insert_ne; [done|]. intros <-. auto. }
  cbn [free_recs words maps with_words with_free_recs]. split; [|split; [done|same_solve]].
  exists (p :: free). cbn [free_recs words maps with_words with_free_recs chain].
  destruct (Hm p v Hp). split; [|split; [|split]].
  - split; [done|]. split; [lia|]. exists (free_recs m).
    rewrite lookup_insert_eq. split; [done|]. eapply chain_ext; [|exact Hc].
    intros x Hx. rewrite lookup_insert_ne; [done|]. intros <-. auto.
  - rewrite <- Permutation_middle. constructor; [|done]. rewrite elem_of_app. done.
  - intros q Hq. rewrite Hframe by done. apply Hl. by right.
  - intros q v'. rewrite lookup_insert_Some. intros [[<- _]|[_ Hq]]; [done|by eapply Hm].
Qed.

End Promises.

(** ** A concrete system

    Mappings laid out one after the other from the first page, for running the
    model. *)

Definition maps_end (ms : list (Z * Z)) : Z := foldr (fun '(b, s) e => Z.max (b + s) e) 4096 ms.

Lemma maps_end_le ms b s : (b, s) ∈ ms -> b + s <= maps_end ms.
Proof.
  induction ms as [|[b' s'] ms IH]; [by intros ?%not_elem_of_nil|].
  rewrite elem_of_cons. intros [[= <- <-]|Hin]; simpl; [lia|]. specialize (IH Hin). lia.
Qed.

Lemma maps_end_pos ms : 0 < maps_end ms.
Proof. induction ms as [|[b s] ms IH]; simpl; lia. Qed.

Definition bump_mmap (ms : list (Z * Z)) (size : Z) : option Z :=
  if (0 <? size) && (maps_end ms + size <=? 2 ^ 64) then Some (maps_end ms) else None.

Lemma bump_fresh ms size base :
  bump_mmap ms size = Some base ->
  0 < base /\ base + size <= 2 ^ 64 /\
  forall b s, (b, s) ∈ ms -> base + size <= b \/ b + s <= base.
Proof.
  unfold bump_mmap. destruct (Z.ltb_spec 0 size), (Z.leb_spec (maps_end ms + size) (2 ^ 64));
    simpl; try done. intros [= <-]. split; [apply maps_end_pos|]. split; [lia|].
  intros b s Hin. right. by apply maps_end_le.
Qed.

Definition bump_os : OS :=
  {| mmap := bump_mmap; memalign_ok := fun _ _ => true; fopen_ready := true; fopen_done := true; mmap_fresh := bump_fresh;
     mmap_empty := fun _ => eq_refl |}.

(** The globals before [main]. *)
Definition boot : mem := MkMem ∅ ∅ 0 0 [] 0.

Lemma boot_nodes : nodes_ok boot [].
Proof.
  exists []. split; [done|]. split; [apply NoDup_nil_2|].
  split; [by intros p ?%not_elem_of_nil|]. cbn [nodes words boot]. intros p n.
  by rewrite lookup_empty.
Qed.

Lemma boot_words : words_ok boot [].
Proof.
  exists []. split; [done|]. split; [apply NoDup_nil_2|].
  split; [by intros p ?%not_elem_of_nil|]. cbn [nodes words boot]. intros p n.
  by rewrite lookup_empty.
Qed.
