(* ===== verification/BTree.v ===== *)
(** * The B+ tree benchmark: the code (sources/btree/btree.c)

    Search and insertion with splitting on the heap of
    nodes with parent pointers.  A routine that only reads and writes the fields
    of one node loads it, works on its fields and stores it back.

    Loops over levels of the tree take fuel; [FUEL] levels are more than a tree
    of 64-bit keys can have. *)

From Stdlib Require Import ZArith Lia.
From stdpp Require Import gmap list numbers.
From S2P Require Import Prelude Arrays BTreeMem.
#[local] Open Scope Z_scope.

Definition FUEL : nat := 66.

Section Code.
Context {os : OS} (order : Z).

(** ** Search *)

(** [i = 0; while (i < c->num_keys) { if (key >= c->keys[i]) i++; else break; }] *)
Definition child_index (c : node) (key : Z) : option Z :=
  scan (num_keys c) (fun i => k ← (keys c).[i]; Some (k <=? key)).

Fixpoint find_leaf_loop (fuel : nat) (c key : Z) : M Z :=
  match fuel with
  | O => undef
  | S fuel =>
      n ← load c;
      if is_leaf n then mret c
      else
        i ← lift (child_index n key);
        c ← lift ((pointers n).[i]);
        find_leaf_loop fuel c key
  end.

Definition find_leaf (root key : Z) : M Z :=
  if root =? 0 then mret root else find_leaf_loop FUEL root key.

(** Returns the record and [*leaf_out]. *)
Definition find (root key : Z) : M (Z * Z) :=
  if root =? 0 then mret (0, 0)
  else
    leaf ← find_leaf root key;
    n ← load leaf;
    i ← lift (scan (num_keys n) (fun i => k ← (keys n).[i]; Some (negb (k =? key))));
    if i =? num_keys n then mret (0, leaf)
    else r ← lift ((pointers n).[i]); mret (r, leaf).

Definition cut (length : Z) : Z :=
  if length mod 2 =? 0 then length / 2 else length / 2 + 1.

(** ** Nodes *)

Definition make_node : M Z :=
  new_node ← alloc_node;
  _ ← (if new_node =? 0 then exit_with 1 Node_creation else mret tt);
  ks ← allocate_align64 (order - 1);
  ps ← allocate_align64 order;
  _ ← store new_node (MkNode ps ks 0 false 0 0);
  mret new_node.

Definition make_leaf : M Z :=
  leaf ← make_node;
  n ← load leaf;
  _ ← store leaf (with_is_leaf n true);
  mret leaf.

(** ** Insertion *)

Definition get_left_index (parent left : Z) : M Z :=
  n ← load parent;
  lift (scan (num_keys n + 1) (fun i => p ← (pointers n).[i]; Some (negb (p =? left)))).

Definition insert_into_leaf (leaf key pointer : Z) : M Z :=
  n ← load leaf;
  insertion_point ← lift (scan (num_keys n) (fun i => k ← (keys n).[i]; Some (k <? key)));
  '(ks, ps) ← lift (for_down (num_keys n) insertion_point (fun i '(ks, ps) =>
      ks ← copy ks i ks (i - 1); ps ← copy ps i ps (i - 1); Some (ks, ps))
    (keys n, pointers n));
  ks ← lift (ks.[insertion_point <- key]);
  ps ← lift (ps.[insertion_point <- pointer]);
  _ ← store leaf (with_num_keys (with_pointers (with_keys n ks) ps) (num_keys n + 1));
  mret leaf.

Definition insert_into_new_root (left key right : Z) : M Z :=
  root ← make_node;
  n ← load root;
  ks ← lift ((keys n).[0 <- key]);
  ps ← lift ((pointers n).[0 <- left]);
  ps ← lift (ps.[1 <- right]);
  _ ← store root (with_parent
        (with_num_keys (with_pointers (with_keys n ks) ps) (num_keys n + 1)) 0);
  l ← load left;
  _ ← store left (with_parent l root);
  r ← load right;
  _ ← store right (with_parent r root);
  mret root.

Definition insert_into_node (root n_ left_index key right : Z) : M Z :=
  n ← load n_;
  '(ps, ks) ← lift (for_down (num_keys n) left_index (fun i '(ps, ks) =>
      ps ← copy ps (i + 1) ps i; ks ← copy ks i ks (i - 1); Some (ps, ks))
    (pointers n, keys n));
  ps ← lift (ps.[left_index + 1 <- right]);
  ks ← lift (ks.[left_index <- key]);
  _ ← store n_ (with_num_keys (with_pointers (with_keys n ks) ps) (num_keys n + 1));
  mret root.

(** [child->parent = new_node] for the first [n] pointers. *)
Definition set_parents (ps : list Z) (n new_node : Z) : M unit :=
  mfor 0 n (fun i _ =>
    child ← lift (ps.[i]);
    c ← load child;
    store child (with_parent c new_node)) tt.

(** [insert_into_parent] is passed in: the two call each other. *)
Definition insert_into_node_after_splitting (insert_into_parent : Z -> Z -> Z -> Z -> M Z)
    (root old_node left_index key right : Z) : M Z :=
  temp_pointers ← allocate_align64 (order + 1);
  temp_keys ← allocate_align64 order;
  old ← load old_node;
  '(_, temp_pointers) ← lift (for_z 0 (num_keys old + 1) (fun i '(j, t) =>
      let j := if j =? left_index + 1 then j + 1 else j in
      t ← copy t j (pointers old) i; Some (j + 1, t)) (0, temp_pointers));
  '(_, temp_keys) ← lift (for_z 0 (num_keys old) (fun i '(j, t) =>
      let j := if j =? left_index then j + 1 else j in
      t ← copy t j (keys old) i; Some (j + 1, t)) (0, temp_keys));
  temp_pointers ← lift (temp_pointers.[left_index + 1 <- right]);
  temp_keys ← lift (temp_keys.[left_index <- key]);
  let split := cut order in
  new_node ← make_node;
  '(ps, ks, nk) ← lift (for_z 0 (split - 1) (fun i '(ps, ks, nk) =>
      ps ← copy ps i temp_pointers i; ks ← copy ks i temp_keys i; Some (ps, ks, nk + 1))
    (pointers old, keys old, 0));
  ps ← lift (copy ps (split - 1) temp_pointers (split - 1));
  _ ← store old_node (with_num_keys (with_pointers (with_keys old ks) ps) nk);
  k_prime ← lift (temp_keys.[split - 1]);
  new ← load new_node;
  '(j, ps, ks, nk) ← lift (for_z split order (fun i '(j, ps, ks, nk) =>
      ps ← copy ps j temp_pointers i; ks ← copy ks j temp_keys i;
      Some (j + 1, ps, ks, nk + 1))
    (0, pointers new, keys new, num_keys new));
  ps ← lift (copy ps j temp_pointers order);
  _ ← store new_node (with_parent
        (with_num_keys (with_pointers (with_keys new ks) ps) nk) (parent old));
  _ ← set_parents ps (nk + 1) new_node;
  insert_into_parent root old_node k_prime new_node.

Fixpoint insert_into_parent (fuel : nat) (root left key right : Z) : M Z :=
  match fuel with
  | O => undef
  | S fuel =>
      l ← load left;
      let p := parent l in
      if p =? 0 then insert_into_new_root left key right
      else
        left_index ← get_left_index p left;
        n ← load p;
        if num_keys n <? order - 1 then insert_into_node root p left_index key right
        else insert_into_node_after_splitting (insert_into_parent fuel)
               root p left_index key right
  end.

Definition insert_into_leaf_after_splitting (root leaf key pointer : Z) : M Z :=
  new_leaf ← make_leaf;
  temp_keys ← allocate_align64 (order + 1);
  temp_pointers ← allocate_align64 (order + 1);
  n ← load leaf;
  insertion_index ← lift (scan (order - 1) (fun i => k ← (keys n).[i]; Some (k <? key)));
  '(_, temp_keys, temp_pointers) ← lift (for_z 0 (num_keys n) (fun i '(j, tk, tp) =>
      let j := if j =? insertion_index then j + 1 else j in
      tk ← copy tk j (keys n) i; tp ← copy tp j (pointers n) i; Some (j + 1, tk, tp))
    (0, temp_keys, temp_pointers));
  temp_keys ← lift (temp_keys.[insertion_index <- key]);
  temp_pointers ← lift (temp_pointers.[insertion_index <- pointer]);
  let split := cut (order - 1) in
  '(ps, ks, nk) ← lift (for_z 0 split (fun i '(ps, ks, nk) =>
      ps ← copy ps i temp_pointers i; ks ← copy ks i temp_keys i; Some (ps, ks, nk + 1))
    (pointers n, keys n, 0));
  new ← load new_leaf;
  '(_, nps, nks, nnk) ← lift (for_z split order (fun i '(j, ps, ks, nk) =>
      ps ← copy ps j temp_pointers i; ks ← copy ks j temp_keys i;
      Some (j + 1, ps, ks, nk + 1))
    (0, pointers new, keys new, num_keys new));
  nps ← lift (copy nps (order - 1) ps (order - 1));
  ps ← lift (ps.[order - 1 <- new_leaf]);
  ps ← lift (for_z nk (order - 1) (fun i ps => ps.[i <- 0]) ps);
  nps ← lift (for_z nnk (order - 1) (fun i ps => ps.[i <- 0]) nps);
  _ ← store leaf (with_num_keys (with_pointers (with_keys n ks) ps) nk);
  _ ← store new_leaf (with_parent
        (with_num_keys (with_pointers (with_keys new nks) nps) nnk) (parent n));
  new_key ← lift (nks.[0]);
  insert_into_parent FUEL root leaf new_key new_leaf.

Definition start_new_tree (key pointer : Z) : M Z :=
  root ← make_leaf;
  n ← load root;
  ks ← lift ((keys n).[0 <- key]);
  ps ← lift ((pointers n).[0 <- pointer]);
  ps ← lift (ps.[order - 1 <- 0]);
  _ ← store root (with_num_keys
        (with_parent (with_pointers (with_keys n ks) ps) 0) (num_keys n + 1));
  mret root.

Definition insert (root key value : Z) : M Z :=
  '(record_pointer, _) ← find root key;
  if negb (record_pointer =? 0) then
    _ ← store_word record_pointer value; mret root
  else
    record_pointer ← make_record value;
    if root =? 0 then start_new_tree key record_pointer
    else
      leaf ← find_leaf root key;
      n ← load leaf;
      if num_keys n <? order - 1 then
        _ ← insert_into_leaf leaf key record_pointer; mret root
      else insert_into_leaf_after_splitting root leaf key record_pointer.

Definition insert_unique (root key rec : Z) : M Z :=
  if root =? 0 then start_new_tree key rec
  else
    leaf ← find_leaf root key;
    n ← load leaf;
    if num_keys n <? order - 1 then
      at_end ← (if num_keys n =? 0 then mret true
                else k ← lift ((keys n).[num_keys n - 1]); mret (k <? key));
      if (at_end : bool) then
        ks ← lift ((keys n).[num_keys n <- key]);
        ps ← lift ((pointers n).[num_keys n <- rec]);
        _ ← store leaf (with_num_keys (with_pointers (with_keys n ks) ps) (num_keys n + 1));
        mret root
      else
        _ ← insert_into_leaf leaf key rec; mret root
    else insert_into_leaf_after_splitting root leaf key rec.

End Code.
