(* ===== verification/BTreeRep.v ===== *)
(** * The B+ tree benchmark: what a heap represents

    Trees as values, balanced by their type, the zipper of a node of a tree, the
    heap that stores them and the search invariant.  A child carries the lower
    bound of its keys, so that the children of a node are one list whose parts
    concatenate. *)

From Stdlib Require Import ZArith Lia Sorted.
From stdpp Require Import gmap list numbers.
From S2P Require Import Prelude Arrays BTreeMem.
#[local] Open Scope Z_scope.

(** ** Trees and zippers *)

(** A leaf is its address and its entries (key, record); an inner node is its
    address and its children with their lower bounds. *)
Fixpoint tree (n : nat) : Type :=
  match n with
  | O => (Z * list (Z * Z))%type
  | S n => (Z * list (Z * tree n))%type
  end.

Definition loc {n} : tree n -> Z :=
  match n return tree n -> Z with O => fst | S n => fst end.

Definition child_locs {n} (cs : list (Z * tree n)) : list Z := (fun kc => loc kc.2) <$> cs.

(** The concatenation of [f] over the leaves, from left to right. *)
Fixpoint flat {B} (f : tree 0 -> list B) (n : nat) : tree n -> list B :=
  match n return tree n -> list B with
  | O => f
  | S n => fun t => t.2 ≫= fun kc => flat f n kc.2
  end.

Definition flats {B} (f : tree 0 -> list B) {n} (cs : list (Z * tree n)) : list B :=
  cs ≫= fun kc => flat f n kc.2.

Definition entries (n : nat) : tree n -> list (Z * Z) := flat snd n.
Definition leaves (n : nat) : tree n -> list Z := flat (fun t => [t.1]) n.

(** All node addresses. *)
Fixpoint locs (n : nat) : tree n -> list Z :=
  match n return tree n -> list Z with
  | O => fun t => [t.1]
  | S n => fun t => t.1 :: (t.2 ≫= fun kc => locs n kc.2)
  end.

Definition all_locs {n} (cs : list (Z * tree n)) : list Z := cs ≫= fun kc => locs n kc.2.

(** The path from a node of height [n] up to the root. *)
Inductive ctx : nat -> Type :=
| Top n : ctx n
| Frame n (p : Z) (pre : list (Z * tree n)) (lo : Z) (post : list (Z * tree n))
    (up : ctx (S n)) : ctx n.
Arguments Top {n}. Arguments Frame {n}.

Fixpoint plug {n} (c : ctx n) : tree n -> {n & tree n} :=
  match c in ctx n return tree n -> {n & tree n} with
  | Top => fun t => existT _ t
  | Frame p pre lo post up => fun t => plug up (p, pre ++ (lo, t) :: post)
  end.

Definition ctx_parent {n} (c : ctx n) : Z := match c with Top => 0 | Frame p _ _ _ _ => p end.

Fixpoint ctx_locs {n} (c : ctx n) : list Z :=
  match c with
  | Top => []
  | Frame p pre _ post up => p :: all_locs pre ++ all_locs post ++ ctx_locs up
  end.

Fixpoint ctx_before {B} (f : tree 0 -> list B) {n} (c : ctx n) : list B :=
  match c with
  | Top => []
  | Frame _ pre _ _ up => ctx_before f up ++ flats f pre
  end.

Fixpoint ctx_after {B} (f : tree 0 -> list B) {n} (c : ctx n) : list B :=
  match c with
  | Top => []
  | Frame _ _ _ post up => flats f post ++ ctx_after f up
  end.

Fixpoint ctx_depth {n} (c : ctx n) : nat :=
  match c with Top => O | Frame _ _ _ _ up => S (ctx_depth up) end.

(** The root's address when the hole is filled with a node at [q]. *)
Fixpoint ctx_root {n} (c : ctx n) (q : Z) : Z :=
  match c with Top => q | Frame p _ _ _ up => ctx_root up p end.

(** ** The heap of a tree *)

Section Rep.
Context (order : Z).

Record leaf_ok (nd : node) (par : Z) (es : list (Z * Z)) : Prop := {
  lf_leaf : is_leaf nd = true;
  lf_parent : parent nd = par;
  lf_num : num_keys nd = alen es;
  lf_keys_len : alen (keys nd) = order - 1;
  lf_ptrs_len : alen (pointers nd) = order;
  lf_keys : holds (keys nd) es.*1;
  lf_ptrs : holds (pointers nd) es.*2;
}.

Record node_ok (nd : node) (par : Z) (ks ps : list Z) : Prop := {
  nd_inner : is_leaf nd = false;
  nd_parent : parent nd = par;
  nd_num : num_keys nd = alen ks;
  nd_keys_len : alen (keys nd) = order - 1;
  nd_ptrs_len : alen (pointers nd) = order;
  nd_keys : holds (keys nd) ks;
  nd_ptrs : holds (pointers nd) ps;
}.

(** The separators stored in a node: the lower bounds but the first. *)
Definition seps {n} (cs : list (Z * tree n)) : list Z := tail cs.*1.

Fixpoint rep (H : gmap Z node) (n : nat) (par : Z) : tree n -> Prop :=
  match n return tree n -> Prop with
  | O => fun t => exists nd, H !! t.1 = Some nd /\ leaf_ok nd par t.2
  | S n => fun t =>
      (exists nd, H !! t.1 = Some nd /\ node_ok nd par (seps t.2) (child_locs t.2)) /\
      Forall (fun kc => rep H n t.1 kc.2) t.2
  end.

Definition reps (H : gmap Z node) {n} (p : Z) (cs : list (Z * tree n)) : Prop :=
  Forall (fun kc => rep H n p kc.2) cs.

(** The stored path above a hole filled with a node at [q]. *)
Fixpoint rep_ctx (H : gmap Z node) {n} (c : ctx n) (q : Z) : Prop :=
  match c with
  | Top => True
  | Frame p pre lo post up =>
      (exists nd, H !! p = Some nd /\
         node_ok nd (ctx_parent up) (tail (pre.*1 ++ lo :: post.*1))
           (child_locs pre ++ q :: child_locs post)) /\
      reps H p pre /\ reps H p post /\ rep_ctx H up p
  end.

(** The leaves are linked from left to right through their last pointer. *)
Fixpoint linked (H : gmap Z node) (l : list Z) : Prop :=
  match l with
  | [] => True
  | x :: l =>
      (exists nd, H !! x = Some nd /\ (pointers nd).[order - 1] = Some (hd 0 l)) /\ linked H l
  end.

(** ** The search invariant *)

Definition bnd {A} (cs : list (Z * A)) (hi : Z) : Z :=
  match cs with [] => hi | (k, _) :: _ => k end.

(** Every child lies between its bound and the next one. *)
Fixpoint seg {A} (P : Z -> Z -> A -> Prop) (cs : list (Z * A)) (hi : Z) : Prop :=
  match cs with
  | [] => True
  | (k, c) :: cs => P k (bnd cs hi) c /\ seg P cs hi
  end.

(** [wf n lo hi t]: the keys of [t] are in [lo, hi), in order, and every node
    has an admissible number of them. *)
Fixpoint wf (n : nat) (lo hi : Z) : tree n -> Prop :=
  match n return tree n -> Prop with
  | O => fun t =>
      1 <= alen t.2 <= order - 1 /\ StronglySorted Z.lt t.2.*1 /\
      Forall (fun k => lo <= k < hi) t.2.*1
  | S n => fun t =>
      2 <= alen t.2 <= order /\ bnd t.2 hi = lo /\ seg (wf n) t.2 hi
  end.

Fixpoint wf_ctx {n} (c : ctx n) (lo hi : Z) : Prop :=
  match c with
  | Top => lo = 0 /\ hi = 2 ^ 64
  | @Frame n _ pre lo' post up => exists lo1 hi1,
      wf_ctx up lo1 hi1 /\ lo = lo' /\ hi = bnd post hi1 /\
      bnd pre lo = lo1 /\ seg (wf n) pre lo /\ seg (wf n) post hi1 /\
      2 <= alen pre + alen post + 1 <= order
  end.

(** A memory with a tree of entries [es] at [root] and no other node in use. *)
Definition tree_at (m : mem) (root : Z) (es : list (Z * Z)) : Prop :=
  root = 0 /\ es = [] /\ nodes_ok m [] \/
  exists n (t : tree n),
    root = loc t /\ rep (nodes m) n 0 t /\ wf n 0 (2 ^ 64) t /\ entries n t = es /\
    linked (nodes m) (leaves n t) /\ nodes_ok m (locs n t).

Lemma Forall_weaken {A} (P Q : A -> Prop) l :
  Forall P l -> (forall x, x ∈ l -> P x -> Q x) -> Forall Q l.
Proof.
  induction 1 as [|x l Hx Hl IH]; intros H; constructor; [apply H; [by left|done]|].
  apply IH. intros y Hy. apply H. by right.
Qed.

(** ** Trees *)

Lemma flats_app {B} (f : tree 0 -> list B) {n} (l k : list (Z * tree n)) :
  flats f (l ++ k) = flats f l ++ flats f k.
Proof. apply bind_app. Qed.

Lemma flats_cons {B} (f : tree 0 -> list B) {n} x (k : list (Z * tree n)) :
  flats f (x :: k) = flat f n x.2 ++ flats f k.
Proof. done. Qed.

Lemma all_locs_app {n} (l k : list (Z * tree n)) : all_locs (l ++ k) = all_locs l ++ all_locs k.
Proof. apply bind_app. Qed.

Lemma all_locs_cons {n} x (k : list (Z * tree n)) : all_locs (x :: k) = locs n x.2 ++ all_locs k.
Proof. done. Qed.

Lemma loc_in {n} (t : tree n) : loc t ∈ locs n t.
Proof. destruct n; by left. Qed.

Lemma child_loc_in {n} (cs : list (Z * tree n)) k c :
  (k, c) ∈ cs -> loc c ∈ all_locs cs.
Proof. intros Hin. apply list_elem_of_bind. exists (k, c). split; [apply loc_in|done]. Qed.

Lemma plug_flat {B} (f : tree 0 -> list B) {n} (c : ctx n) (t : tree n) :
  flat f (projT1 (plug c t)) (projT2 (plug c t))
  = ctx_before f c ++ flat f n t ++ ctx_after f c.
Proof.
  induction c as [n|n p pre lo post up IH]; [by rewrite app_nil_r|].
  simpl. rewrite IH. change (flat f (S n) ?t) with (flats f t.2). cbn [snd].
  rewrite flats_app, flats_cons. by rewrite !app_assoc.
Qed.

Lemma plug_locs {n} (c : ctx n) (t : tree n) :
  locs (projT1 (plug c t)) (projT2 (plug c t)) ≡ₚ ctx_locs c ++ locs n t.
Proof.
  induction c as [n|n p pre lo post up IH]; [done|]. simpl. rewrite IH.
  change (locs (S n) (?p, ?cs)) with (p :: all_locs cs).
  rewrite all_locs_app, all_locs_cons. cbn [snd]. solve_Permutation.
Qed.

Lemma plug_loc {n} (c : ctx n) (t : tree n) : loc (projT2 (plug c t)) = ctx_root c (loc t).
Proof. induction c as [n|n p pre lo post up IH]; [done|]. simpl. by rewrite IH. Qed.

(** The root is on the path. *)
Lemma ctx_root_in n (c : ctx n) q : ctx_root c q ∈ q :: ctx_locs c.
Proof.
  revert q. induction c as [n|n p pre lo post up IH]; intros q; cbn [ctx_root ctx_locs]; [by left|].
  right. specialize (IH p). rewrite elem_of_cons in IH. rewrite elem_of_cons, !elem_of_app. tauto.
Qed.

(** ** Framing: what a write elsewhere leaves alone *)

Definition agree (l : list Z) (H H' : gmap Z node) : Prop := forall q, q ∈ l -> H' !! q = H !! q.

Lemma rep_agree H H' n par (t : tree n) :
  agree (locs n t) H H' -> rep H n par t -> rep H' n par t.
Proof.
  revert par t. induction n as [|n IH]; intros par t Ha.
  - intros (nd & Hnd & Hok). exists nd. split; [|done]. rewrite Ha; [done|by left].
  - destruct t as [p cs]. intros [(nd & Hnd & Hok) Hcs]. split.
    + exists nd. split; [|done]. cbn [fst] in *. rewrite Ha; [done|by left].
    + eapply Forall_weaken; [exact Hcs|]. intros kc Hin Hrep. apply IH; [|done].
      intros q Hq. apply Ha. right. apply list_elem_of_bind. eauto.
Qed.

Lemma reps_agree H H' n p (cs : list (Z * tree n)) :
  agree (all_locs cs) H H' -> reps H p cs -> reps H' p cs.
Proof.
  intros Ha Hcs. eapply Forall_weaken; [exact Hcs|]. intros kc Hin Hrep.
  eapply rep_agree; [|exact Hrep]. intros q Hq. apply Ha. apply list_elem_of_bind. eauto.
Qed.

Lemma rep_ctx_agree H H' n (c : ctx n) q :
  agree (ctx_locs c) H H' -> rep_ctx H c q -> rep_ctx H' c q.
Proof.
  revert q. induction c as [n|n p pre lo post up IH]; intros q Ha; [done|].
  intros ((nd & Hnd & Hok) & Hpre & Hpost & Hup). cbn [rep_ctx ctx_locs] in *.
  split; [exists nd; split; [|done]; rewrite Ha; [done|by left]|].
  split; [eapply reps_agree; [|exact Hpre]|split; [eapply reps_agree; [|exact Hpost]|apply IH]];
    try done; intros x Hx; apply Ha; rewrite elem_of_cons, !elem_of_app; auto.
Qed.

Lemma agree_insert l H p nd : p ∉ l -> agree l H (<[p := nd]> H).
Proof. intros Hp q Hq. rewrite lookup_insert_ne; [done|]. by intros ->. Qed.

Lemma agree_mono l l' H H' : l' ⊆ l -> agree l H H' -> agree l' H H'.
Proof. intros Hs Ha q Hq. apply Ha. by apply Hs. Qed.

Lemma agree_trans l H1 H2 H3 : agree l H1 H2 -> agree l H2 H3 -> agree l H1 H3.
Proof. intros H12 H23 q Hq. by rewrite H23, H12. Qed.

(** The definitions at an inner node, with its two parts named. *)
Lemma wf_S n lo hi p (cs : list (Z * tree n)) :
  wf (S n) lo hi (p, cs) <-> 2 <= alen cs <= order /\ bnd cs hi = lo /\ seg (wf n) cs hi.
Proof. done. Qed.

Lemma wf_S_inv n lo hi p (cs : list (Z * tree n)) :
  wf (S n) lo hi (p, cs) -> 2 <= alen cs <= order /\ bnd cs hi = lo /\ seg (wf n) cs hi.
Proof. done. Qed.

Lemma wf_0 lo hi p (es : list (Z * Z)) :
  wf 0 lo hi (p, es) <-> 1 <= alen es <= order - 1 /\ StronglySorted Z.lt es.*1 /\
    Forall (fun k => lo <= k < hi) es.*1.
Proof. done. Qed.

Lemma wf_0_inv lo hi p (es : list (Z * Z)) :
  wf 0 lo hi (p, es) -> 1 <= alen es <= order - 1 /\ StronglySorted Z.lt es.*1 /\
    Forall (fun k => lo <= k < hi) es.*1.
Proof. done. Qed.

Lemma rep_S H n par p (cs : list (Z * tree n)) :
  rep H (S n) par (p, cs) <->
  (exists nd, H !! p = Some nd /\ node_ok nd par (seps cs) (child_locs cs)) /\ reps H p cs.
Proof. done. Qed.

Lemma rep_S_inv H n par p (cs : list (Z * tree n)) :
  rep H (S n) par (p, cs) ->
  (exists nd, H !! p = Some nd /\ node_ok nd par (seps cs) (child_locs cs)) /\ reps H p cs.
Proof. done. Qed.

Lemma rep_0 H par p (es : list (Z * Z)) :
  rep H 0 par (p, es) <-> exists nd, H !! p = Some nd /\ leaf_ok nd par es.
Proof. done. Qed.

Lemma rep_0_inv H par p (es : list (Z * Z)) :
  rep H 0 par (p, es) -> exists nd, H !! p = Some nd /\ leaf_ok nd par es.
Proof. done. Qed.

Lemma entries_S n p (cs : list (Z * tree n)) : entries (S n) (p, cs) = flats snd cs.
Proof. done. Qed.

Lemma locs_S n p (cs : list (Z * tree n)) : locs (S n) (p, cs) = p :: all_locs cs.
Proof. done. Qed.

(** ** Segments of children *)

Lemma bnd_app {A} (l k : list (Z * A)) hi : bnd (l ++ k) hi = bnd l (bnd k hi).
Proof. by destruct l as [|[]]. Qed.

Lemma seg_app {A} (P : Z -> Z -> A -> Prop) l k hi :
  seg P (l ++ k) hi <-> seg P l (bnd k hi) /\ seg P k hi.
Proof.
  induction l as [|[x c] l IH]; simpl; [tauto|]. rewrite IH, bnd_app. tauto.
Qed.

(** The child whose range holds [key]. *)
Lemma seg_split {A} (cs : list (Z * A)) hi key :
  bnd cs hi <= key < hi ->
  exists pre k c post, cs = pre ++ (k, c) :: post /\ k <= key < bnd post hi.
Proof.
  induction cs as [|[k c] cs IH]; intros Hkey; simpl in Hkey; [lia|].
  destruct (decide (key < bnd cs hi)).
  - exists [], k, c, cs. split; [done|lia].
  - destruct IH as (pre & k' & c' & post & -> & H); [lia|].
    by exists ((k, c) :: pre), k', c', post.
Qed.

Lemma seg_span {A} (P : Z -> Z -> A -> Prop) w cs hi :
  (forall lo hi c, P lo hi c -> w <= hi - lo) ->
  seg P cs hi -> alen cs * w <= hi - bnd cs hi.
Proof.
  intros HP. induction cs as [|[k c] cs IH]; simpl; [unfold alen; simpl; lia|].
  intros [Hc Hcs]. apply HP in Hc. specialize (IH Hcs). rewrite alen_cons. lia.
Qed.

(** A tree of height [n] spans [2^n] keys, so its height is at most 64. *)
Lemma wf_span n lo hi t : wf n lo hi t -> 2 ^ Z.of_nat n <= hi - lo.
Proof.
  revert lo hi t. induction n as [|n IH]; intros lo hi [p cs].
  - intros ([Hlen _] & _ & Hall)%wf_0_inv. destruct cs as [|[k r] cs];
      [unfold alen in Hlen; simpl in Hlen; lia|].
    apply list.Forall_cons in Hall as [Hk _]. simpl in *. lia.
  - intros (Hlen & Hlo & Hseg)%wf_S_inv. apply (seg_span _ (2 ^ Z.of_nat n)) in Hseg; [|exact IH].
    rewrite Hlo in Hseg. rewrite Nat2Z.inj_succ, Z.pow_succ_r by lia.
    assert (0 < 2 ^ Z.of_nat n) by lia. nia.
Qed.

Lemma wf_lt n lo hi t : wf n lo hi t -> lo < hi.
Proof. intros H%wf_span. assert (0 < 2 ^ Z.of_nat n) by lia. lia. Qed.

Lemma wf_height n t : wf n 0 (2 ^ 64) t -> (n <= 64)%nat.
Proof.
  intros H%wf_span. rewrite Z.sub_0_r in H. apply Z.pow_le_mono_r_iff in H; lia.
Qed.

Lemma seg_bounds n (cs : list (Z * tree n)) hi :
  seg (wf n) cs hi -> Forall (fun kc => bnd cs hi <= kc.1 < hi) cs /\ bnd cs hi <= hi.
Proof.
  induction cs as [|[k c] cs IH]; simpl; [split; [done|lia]|].
  intros [Hc Hcs]. apply wf_lt in Hc. destruct (IH Hcs) as [Hall Hb].
  split; [|lia]. constructor; [simpl; lia|]. eapply Forall_weaken; [exact Hall|].
  simpl. intros. lia.
Qed.

Lemma wf_node_lo n p (cs : list (Z * tree n)) lo hi :
  wf (S n) lo hi (p, cs) -> bnd cs hi = lo.
Proof. by intros (_ & ? & _)%wf_S_inv. Qed.

(** ** Filling a path *)

Lemma seps_app {n} (pre post : list (Z * tree n)) lo t :
  seps (pre ++ (lo, t) :: post) = tail (pre.*1 ++ lo :: post.*1).
Proof. unfold seps. by rewrite fmap_app. Qed.

Lemma plug_rep H n (c : ctx n) (t : tree n) :
  rep H n (ctx_parent c) t -> rep_ctx H c (loc t) ->
  rep H (projT1 (plug c t)) 0 (projT2 (plug c t)).
Proof.
  induction c as [n|n p pre lo post up IH]; intros Ht Hc; [done|].
  destruct Hc as ((nd & Hnd & Hok) & Hpre & Hpost & Hup). cbn [plug]. apply IH; [|done].
  apply rep_S. split.
  - exists nd. split; [done|]. rewrite seps_app. unfold child_locs in *.
    by rewrite fmap_app.
  - apply list.Forall_app. split; [done|]. by constructor.
Qed.

Lemma plug_wf n (c : ctx n) (t : tree n) lo hi :
  wf n lo hi t -> wf_ctx c lo hi -> wf (projT1 (plug c t)) 0 (2 ^ 64) (projT2 (plug c t)).
Proof.
  revert lo hi. induction c as [n|n p pre lo' post up IH]; intros lo hi Ht Hc.
  - by destruct Hc as [-> ->].
  - destruct Hc as (lo1 & hi1 & Hup & -> & -> & Hlo & Hpre & Hpost & Hlen).
    cbn [plug]. apply (IH _ lo1 hi1); [|done]. apply wf_S.
    rewrite alen_app, alen_cons, bnd_app, seg_app. cbn [bnd seg].
    split; [lia|]. done.
Qed.

(** Keys outside the hole of a path are outside its range. *)
Lemma wf_keys n lo hi t : wf n lo hi t -> Forall (fun e => lo <= e.1 < hi) (entries n t).
Proof.
  revert lo hi t. induction n as [|n IH]; intros lo hi [p cs].
  - intros (_ & _ & Hall)%wf_0_inv. change (entries 0 (p, cs)) with cs. by apply Forall_fmap in Hall.
  - intros (_ & Hlo & Hseg)%wf_S_inv. rewrite entries_S.
    revert lo Hlo Hseg. induction cs as [|[k c] cs IHcs]; intros lo Hlo Hseg; [done|].
    destruct Hseg as [Hc Hseg]. rewrite flats_cons. simpl in Hlo. subst lo.
    pose proof (wf_lt _ _ _ _ Hc). pose proof (proj2 (seg_bounds _ _ _ Hseg)).
    apply list.Forall_app. split.
    + eapply Forall_weaken; [exact (IH _ _ _ Hc)|]. simpl. intros. lia.
    + eapply Forall_weaken; [exact (IHcs _ eq_refl Hseg)|]. simpl. intros. lia.
Qed.

Lemma seg_keys n (cs : list (Z * tree n)) hi :
  seg (wf n) cs hi -> Forall (fun e => bnd cs hi <= e.1 < hi) (flats snd cs).
Proof.
  induction cs as [|[k c] cs IH]; [done|]. intros [Hc Hseg]. rewrite flats_cons.
  pose proof (wf_lt _ _ _ _ Hc). pose proof (proj2 (seg_bounds _ _ _ Hseg)).
  apply list.Forall_app. simpl. split.
  - eapply Forall_weaken; [exact (wf_keys _ _ _ _ Hc)|]. simpl. intros. lia.
  - eapply Forall_weaken; [exact (IH Hseg)|]. simpl. intros. lia.
Qed.

Lemma ctx_keys n (c : ctx n) lo hi :
  lo <= hi -> wf_ctx c lo hi ->
  Forall (fun e => 0 <= e.1 < lo) (ctx_before snd c) /\
  Forall (fun e => hi <= e.1 < 2 ^ 64) (ctx_after snd c) /\ 0 <= lo /\ hi <= 2 ^ 64.
Proof.
  revert lo hi. induction c as [n|n p pre lo' post up IH]; intros lo hi Hle Hc.
  - destruct Hc as [-> ->]. split; [done|]. split; [done|]. lia.
  - destruct Hc as (lo1 & hi1 & Hup & -> & -> & Hlo & Hpre & Hpost & Hlen).
    pose proof (proj2 (seg_bounds _ _ _ Hpre)). pose proof (proj2 (seg_bounds _ _ _ Hpost)).
    destruct (IH lo1 hi1 ltac:(lia) Hup) as (H1 & H2 & H3 & H4).
    apply seg_keys in Hpre, Hpost. cbn [ctx_before ctx_after].
    rewrite !list.Forall_app. repeat split; try lia; eapply Forall_weaken; try eassumption;
      simpl; intros; lia.
Qed.

Lemma Sorted_app_strict (l k : list Z) x :
  StronglySorted Z.lt l -> StronglySorted Z.lt k ->
  Forall (fun y => y < x) l -> Forall (fun y => x <= y) k -> StronglySorted Z.lt (l ++ k).
Proof.
  intros Hl Hk Hx Hy. induction Hl as [|y l Hl IH Hy']; [done|].
  apply list.Forall_cons in Hx as [Hx1 Hx2]. simpl. constructor; [by apply IH|].
  apply list.Forall_app. split; [done|]. eapply Forall_weaken; [exact Hy|]. simpl. intros. lia.
Qed.

Lemma seg_sorted n (cs : list (Z * tree n)) hi :
  (forall lo hi t, wf n lo hi t -> StronglySorted Z.lt (entries n t).*1) ->
  seg (wf n) cs hi -> StronglySorted Z.lt (flats snd cs).*1.
Proof.
  intros IH. induction cs as [|[k c] cs IHcs]; intros Hseg; [constructor|].
  destruct Hseg as [Hc Hseg]. rewrite flats_cons, fmap_app.
  apply (Sorted_app_strict _ _ (bnd cs hi)); [by eapply IH|by apply IHcs|..]; apply Forall_fmap.
  - eapply Forall_weaken; [exact (wf_keys _ _ _ _ Hc)|]. simpl. intros. lia.
  - eapply Forall_weaken; [exact (seg_keys _ _ _ Hseg)|]. simpl. intros. lia.
Qed.

(** The keys of a tree are in increasing order. *)
Lemma wf_sorted n lo hi t : wf n lo hi t -> StronglySorted Z.lt (entries n t).*1.
Proof.
  revert lo hi t. induction n as [|n IH]; intros lo hi [p cs].
  - by intros (_ & Hs & _)%wf_0_inv.
  - intros (_ & _ & Hseg)%wf_S_inv. by apply (seg_sorted n cs hi IH).
Qed.

End Rep.
