(* ===== verification/BTreeFind.v ===== *)
(** * The B+ tree benchmark: search

    [find_leaf] reaches the leaf whose range holds the key, with the path that
    leads to it; [find] returns the record stored under the key or [NULL]. *)

From Stdlib Require Import ZArith Lia Sorted.
From stdpp Require Import gmap list numbers.
From S2P Require Import Prelude Arrays BTreeMem BTree BTreeRep.
#[local] Open Scope Z_scope.

Section Find.
Context {os : OS} (order : Z).
#[local] Abbreviation rep := (rep order).
#[local] Abbreviation wf := (wf order).
#[local] Abbreviation rep_ctx := (rep_ctx order).
#[local] Abbreviation wf_ctx := (wf_ctx order).

(** A node of a tree with the path to it. *)
Record focus (H : gmap Z node) {n} (c : ctx n) (t : tree n) (lo hi : Z) : Prop := {
  fc_rep : rep H n (ctx_parent c) t;
  fc_wf : wf n lo hi t;
  fc_rep_ctx : rep_ctx H c (loc t);
  fc_wf_ctx : wf_ctx c lo hi;
}.

Lemma focus_root H n (t : tree n) : rep H n 0 t -> wf n 0 (2 ^ 64) t -> focus H Top t 0 (2 ^ 64).
Proof. by split. Qed.

(** Entering a child extends the path. *)
Lemma focus_child H n (c : ctx (S n)) p pre k (t : tree n) post lo hi :
  focus H c (p, pre ++ (k, t) :: post) lo hi ->
  focus H (Frame p pre k post c) t k (bnd post hi).
Proof.
  intros [[(nd & Hnd & Hok) Hcs]%rep_S_inv (Hlen & Hlo & Hseg)%wf_S_inv Hrc Hwc].
  rewrite alen_app, alen_cons in Hlen. rewrite bnd_app in Hlo. apply seg_app in Hseg as [H1 [H2 H3]].
  apply list.Forall_app in Hcs as [Hpre Hcs]. apply list.Forall_cons in Hcs as [Ht Hpost].
  split; [done|done| |].
  - split; [|done]. exists nd. split; [done|]. rewrite seps_app in Hok.
    unfold child_locs in *. by rewrite fmap_app in Hok.
  - exists lo, hi. cbn [bnd] in *. split; [done|]. repeat split; try done; lia.
Qed.

(** The scan of [find_leaf] finds the child whose range holds the key. *)
Lemma child_index_ok n (cs : list (Z * tree n)) nd par hi key :
  node_ok order nd par (seps cs) (child_locs cs) -> seg (wf n) cs hi -> bnd cs hi <= key < hi ->
  exists pre k c post, cs = pre ++ (k, c) :: post /\ k <= key < bnd post hi /\
    child_index nd key = Some (alen pre) /\ (pointers nd).[alen pre] = Some (loc c).
Proof.
  intros Hok Hseg Hkey. destruct (seg_split cs hi key Hkey) as (pre & k & c & post & -> & Hk).
  exists pre, k, c, post. split; [done|]. split; [done|].
  apply seg_app in Hseg as [Hpre [_ Hpost]]. cbn [bnd] in Hpre.
  apply seg_bounds in Hpre as [Hpre _].
  assert (Hseps : seps (pre ++ (k, c) :: post) = tail (pre.*1 ++ [k]) ++ post.*1).
  { rewrite seps_app. destruct pre; [done|]. simpl. by rewrite <- app_assoc. }
  assert (Hl : alen (tail (pre.*1 ++ [k])) = alen pre).
  { unfold alen. destruct pre; [done|]. simpl. rewrite length_app, length_fmap. simpl. lia. }
  assert (Hle : Forall (fun x => x <= key) (tail (pre.*1 ++ [k]))).
  { assert (Forall (fun x => x <= key) (pre.*1 ++ [k])) as Hall.
    { apply list.Forall_app. split; [|by repeat constructor; lia]. apply Forall_fmap.
      eapply Forall_weaken; [exact Hpre|]. simpl. intros. lia. }
    destruct pre; [constructor|]. simpl in *. by apply list.Forall_cons in Hall as [_ ?]. }
  split.
  - assert (Hget : forall i, 0 <= i < alen (seps (pre ++ (k, c) :: post)) ->
      (x ← (keys nd).[i]; Some (x <=? key)) = Some (i <? alen pre)).
    { intros i Hi. destruct (holds_get _ _ i (nd_keys _ _ _ _ _ Hok) Hi) as (x & -> & Hx).
      simpl. f_equal. rewrite Hseps in Hx, Hi. rewrite alen_app, Hl in Hi.
      destruct (Z.ltb_spec i (alen pre)).
      - rewrite aget_app_l in Hx by lia. apply Z.leb_le.
        unfold aget in Hx. destruct (i <? 0); [done|].
        by eapply Forall_lookup_1 in Hle; [|exact Hx].
      - rewrite aget_app_r in Hx by lia. rewrite Hl in Hx. apply Z.leb_gt.
        destruct post as [|[k' c'] post]; [exfalso; unfold alen in *; simpl in *; lia|].
        simpl in Hk. apply seg_bounds in Hpost as [Hb _]. simpl in Hb.
        assert (Forall (fun x => key < x) (((k', c') :: post).*1)) as Hall.
        { apply Forall_fmap. eapply Forall_weaken; [exact Hb|]. simpl. intros. lia. }
        unfold aget in Hx. destruct (_ <? 0); [done|].
        by eapply Forall_lookup_1 in Hall; [|exact Hx]. }
    unfold child_index. rewrite (nd_num _ _ _ _ _ Hok).
    apply (scan_unique _ (fun i => i <? alen pre)); [|exact Hget| |].
    + rewrite Hseps, alen_app, Hl. pose proof (alen_nonneg pre).
      pose proof (alen_nonneg post.*1). lia.
    + intros i Hi. apply Z.ltb_lt. lia.
    + intros _. apply Z.ltb_irrefl.
  - destruct (nd_ptrs _ _ _ _ _ Hok) as [Hlen Hptr]. unfold child_locs in *.
    rewrite fmap_app, fmap_cons in *. rewrite alen_app, alen_cons, !alen_fmap in *.
    pose proof (alen_nonneg pre). pose proof (alen_nonneg post).
    rewrite Hptr by lia. rewrite <- (alen_fmap (fun kc => loc kc.2) pre). apply aget_middle.
Qed.

Lemma wp_find_leaf_loop fuel m n (c : ctx n) (t : tree n) lo hi key :
  focus (nodes m) c t lo hi -> lo <= key < hi -> (n < fuel)%nat ->
  wp (find_leaf_loop fuel (loc t) key) m (fun p m' => m' = m /\
    exists (c' : ctx 0) (t' : tree 0) lo' hi', p = loc t' /\ plug c' t' = plug c t /\
      focus (nodes m) c' t' lo' hi' /\ lo' <= key < hi').
Proof.
  revert fuel c t lo hi. induction n as [|n IH]; intros fuel c [p cs] lo hi Hf Hkey Hfuel;
    (destruct fuel as [|fuel]; [lia|]); cbn [find_leaf_loop]; apply wp_bind.
  - pose proof (fc_rep _ _ _ _ _ Hf) as (nd & Hnd & Hok)%rep_0_inv.
    eapply wp_load; [done|]. rewrite (lf_leaf _ _ _ _ Hok). apply wp_ret. split; [done|].
    by exists c, (p, cs), lo, hi.
  - pose proof (fc_rep _ _ _ _ _ Hf) as [(nd & Hnd & Hok) _]%rep_S_inv.
    pose proof (fc_wf _ _ _ _ _ Hf) as (_ & Hlo & Hseg)%wf_S_inv.
    eapply wp_load; [done|]. rewrite (nd_inner _ _ _ _ _ Hok).
    destruct (child_index_ok n cs nd _ hi key Hok Hseg) as
      (pre & k & ct & post & -> & Hk & Hi & Hp); [by rewrite Hlo|].
    apply wp_bind. eapply wp_lift; [done|]. apply wp_bind. eapply wp_lift; [done|].
    eapply wp_mono; [apply (IH _ (Frame p pre k post c) ct k (bnd post hi))|done].
    + by eapply focus_child.
    + done.
    + lia.
Qed.

(** The leaf a non-empty tree keeps [key] in, if it has it. *)
Lemma wp_find_leaf m n (t : tree n) key :
  rep (nodes m) n 0 t -> wf n 0 (2 ^ 64) t -> nodes_ok m (locs n t) -> in_u64 key ->
  wp (find_leaf (loc t) key) m (fun p m' => m' = m /\
    exists (c : ctx 0) (t' : tree 0) lo hi, p = loc t' /\ plug c t' = existT n t /\
      focus (nodes m) c t' lo hi /\ lo <= key < hi).
Proof.
  intros Hrep Hwf Hok Hkey. unfold find_leaf.
  pose proof (nodes_ok_pos _ _ (loc t) Hok (loc_in t)).
  destruct (Z.eqb_spec (loc t) 0); [lia|].
  apply (wp_find_leaf_loop _ _ _ Top t 0 (2 ^ 64)); [by apply focus_root|done|].
  pose proof (wf_height _ _ _ Hwf). unfold FUEL. lia.
Qed.

(** Inside the range of a leaf the tree's entries are the leaf's. *)
Lemma focus_entries n (t : tree n) (c : ctx 0) (t' : tree 0) H lo hi key r :
  plug c t' = existT n t -> focus H c t' lo hi -> lo <= key < hi ->
  (key, r) ∈ entries n t <-> (key, r) ∈ t'.2.
Proof.
  intros Hplug Hf Hkey. pose proof (plug_flat snd c t') as Hflat. rewrite Hplug in Hflat.
  cbn [projT1 projT2] in Hflat. unfold entries. rewrite Hflat, !elem_of_app.
  destruct (ctx_keys order _ c lo hi) as (Hb & Ha & _); [lia|apply Hf|].
  rewrite list.Forall_forall in Hb, Ha. split; [|by auto].
  intros [Hin|[Hin|Hin]]; [|done|]; [apply Hb in Hin|apply Ha in Hin]; simpl in Hin; lia.
Qed.

Lemma scan_key nd par (es : list (Z * Z)) key :
  leaf_ok order nd par es -> StronglySorted Z.lt es.*1 ->
  exists i, scan (num_keys nd) (fun i => k ← (keys nd).[i]; Some (negb (k =? key))) = Some i /\
  (i = num_keys nd /\ key ∉ es.*1 \/
   i < num_keys nd /\ exists r, (key, r) ∈ es /\ (pointers nd).[i] = Some r).
Proof.
  intros Hok Hs. rewrite (lf_num _ _ _ _ Hok). set (f i := match (es.*1).[i] with
    Some k => negb (k =? key) | None => false end).
  assert (forall i, 0 <= i < alen es ->
    (k ← (keys nd).[i]; Some (negb (k =? key))) = Some (f i)) as Hf.
  { intros i Hi. rewrite <- (alen_fmap fst) in Hi.
    destruct (holds_get _ _ i (lf_keys _ _ _ _ Hok) Hi) as (k & -> & Hk).
    unfold f. by rewrite Hk. }
  destruct (scan_ok (alen es) f _ (alen_nonneg es) Hf) as (i & Hrun & Hi & Htrue & Hstop).
  exists i. split; [done|]. destruct (decide (i = alen es)) as [->|Hne]; [left|right].
  - split; [done|]. intros [j Hj]%list_elem_of_lookup. specialize (Htrue (Z.of_nat j)).
    unfold f in Htrue. rewrite aget_nat, Hj in Htrue. apply lookup_lt_Some in Hj.
    rewrite length_fmap in Hj. rewrite Z.eqb_refl in Htrue. simpl in Htrue.
    discriminate Htrue. unfold alen. lia.
  - split; [lia|]. specialize (Hstop ltac:(lia)). unfold f in Hstop.
    destruct (aget_in es i) as [[k r] He]; [lia|]. rewrite aget_fmap, He in Hstop. simpl in Hstop.
    destruct (Z.eqb_spec k key); [subst k|done]. exists r. split.
    + unfold aget in He. destruct (i <? 0); [done|]. by eapply list_elem_of_lookup_2.
    + destruct (lf_ptrs _ _ _ _ Hok) as [Hlen Hp]. rewrite alen_fmap in Hp.
      rewrite Hp by lia. by rewrite aget_fmap, He.
Qed.

(** What [find] returns, on a tree that may be empty. *)
Lemma wp_find m root es key :
  tree_at order m root es -> in_u64 key ->
  wp (find root key) m (fun '(r, _) m' => m' = m /\
    ((key, r) ∈ es \/ r = 0 /\ key ∉ es.*1)).
Proof.
  intros [(-> & -> & _)|(n & t & -> & Hrep & Hwf & <- & _ & Hok)] Hkey; unfold find.
  { apply wp_ret. split; [done|]. right. split; [done|]. apply not_elem_of_nil. }
  pose proof (nodes_ok_pos _ _ (loc t) Hok (loc_in t)).
  destruct (Z.eqb_spec (loc t) 0); [lia|]. apply wp_bind.
  eapply wp_mono; [by apply wp_find_leaf|]. clear H n0.
  intros p m' (-> & c & [q es] & lo & hi & -> & Hplug & Hf & Hr).
  pose proof (fc_rep _ _ _ _ _ Hf) as (nd & Hnd & Hleaf)%rep_0_inv.
  pose proof (fc_wf _ _ _ _ _ Hf) as (_ & Hs & _)%wf_0_inv.
  apply wp_bind. eapply wp_load; [done|].
  destruct (scan_key nd _ es key Hleaf Hs) as (i & Hrun & Hcase).
  apply wp_bind. eapply wp_lift; [done|].
  destruct Hcase as [[-> Hno]|(Hi & r & Hin & Hp)].
  - rewrite Z.eqb_refl. apply wp_ret. split; [done|]. right. split; [done|].
    intros ([k r] & -> & Hin)%list_elem_of_fmap. apply Hno, list_elem_of_fmap.
    exists (k, r). split; [done|]. by apply (focus_entries n t c (q, es) _ _ _ k r Hplug Hf).
  - destruct (Z.eqb_spec i (num_keys nd)); [lia|]. apply wp_bind. eapply wp_lift; [done|].
    apply wp_ret. split; [done|]. left.
    by apply (focus_entries n t c (q, es) _ _ _ key r Hplug Hf).
Qed.

End Find.
