(* ===== verification/BTreeInsert.v ===== *)
(** * The B+ tree benchmark: insertion

    Inserting a key that is not in the tree gives a tree with one more entry,
    in order, whatever splits the insertion causes on the way up; the new nodes
    are exactly the ones the tree gained. *)

From Stdlib Require Import ZArith Lia Sorted.
From stdpp Require Import gmap list numbers.
From S2P Require Import Prelude Arrays BTreeMem BTree BTreeRep BTreeFind.
#[local] Open Scope Z_scope.

Section Insert.
Context {os : OS} (order : Z) (order_min : 3 <= order).
#[local] Abbreviation rep := (rep order).
#[local] Abbreviation reps := (reps order).
#[local] Abbreviation wf := (wf order).
#[local] Abbreviation rep_ctx := (rep_ctx order).
#[local] Abbreviation wf_ctx := (wf_ctx order).
#[local] Abbreviation leaf_ok := (leaf_ok order).
#[local] Abbreviation node_ok := (node_ok order).
#[local] Abbreviation focus := (focus order).

(** ** Fresh nodes *)

Definition fresh_node (leaf : bool) : node :=
  MkNode (replicate (Z.to_nat order) 0) (replicate (Z.to_nat (order - 1)) 0) 0 leaf 0 0.

Lemma nodes_same_lookup m m' q : nodes_same m m' -> nodes m' !! q = nodes m !! q.
Proof. by intros (-> & _). Qed.

Lemma wp_make_node m live :
  nodes_ok m live ->
  wp (make_node order) m (fun p m' => nodes_ok m' (p :: live) /\
    nodes m' !! p = Some (fresh_node false) /\ agree live (nodes m) (nodes m') /\
    words_same m m').
Proof.
  intros Hok. unfold make_node. apply wp_bind.
  eapply wp_mono; [by apply wp_alloc_node|]. intros p m1 (Hok1 & Ha1 & Hw1).
  pose proof (nodes_ok_pos _ _ p Hok1 ltac:(by left)).
  destruct (Z.eqb_spec p 0); [lia|]. apply wp_bind, wp_ret, wp_bind.
  eapply wp_mono; [apply wp_allocate_align64|]. intros ks m2 (-> & Hn2 & Hw2).
  apply wp_bind. eapply wp_mono; [apply wp_allocate_align64|]. intros ps m3 (-> & Hn3 & Hw3).
  pose proof (nodes_ok_same _ _ _ Hn3 (nodes_ok_same _ _ _ Hn2 Hok1)) as Hok3.
  pose proof Hok3 as (free & _ & Hnd & Hl & _). destruct (Hl p ltac:(by left)) as [nd Hnd'].
  apply wp_bind. eapply wp_store; [done|]. apply wp_ret.
  split; [apply nodes_ok_store; [by left|done]|]. cbn [nodes with_nodes].
  rewrite lookup_insert_eq. split; [done|]. split.
  - intros q Hq. apply list.NoDup_cons in Hnd as [Hp _]. rewrite elem_of_app in Hp.
    rewrite lookup_insert_ne by (intros ->; auto).
    by rewrite (nodes_same_lookup _ _ _ Hn3), (nodes_same_lookup _ _ _ Hn2), Ha1.
  - etransitivity; [exact Hw1|]. etransitivity; [exact Hw2|].
    etransitivity; [exact Hw3|]. same_solve.
Qed.

Lemma wp_make_leaf m live :
  nodes_ok m live ->
  wp (make_leaf order) m (fun p m' => nodes_ok m' (p :: live) /\
    nodes m' !! p = Some (fresh_node true) /\ agree live (nodes m) (nodes m') /\
    words_same m m').
Proof.
  intros Hok. unfold make_leaf. apply wp_bind.
  eapply wp_mono; [by apply wp_make_node|]. intros p m1 (Hok1 & Hp & Ha & Hw).
  apply wp_bind. eapply wp_load; [done|]. apply wp_bind. eapply wp_store; [done|]. apply wp_ret.
  split; [apply nodes_ok_store; [by left|done]|]. cbn [nodes with_nodes].
  rewrite lookup_insert_eq. split; [done|]. split.
  - intros q Hq. apply nodes_ok_nodup, list.NoDup_cons in Hok1 as [Hpn _].
    rewrite lookup_insert_ne by (by intros ->). by apply Ha.
  - etransitivity; [exact Hw|same_solve].
Qed.

Lemma alen_replicate {A} n (x : A) : 0 <= n -> alen (replicate (Z.to_nat n) x) = n.
Proof. intros. unfold alen. rewrite length_replicate. lia. Qed.

(** ** One leaf *)

(** Where a key that is absent belongs in a sorted list. *)
Lemma sorted_split (es : list (Z * Z)) key :
  StronglySorted Z.lt es.*1 -> key ∉ es.*1 ->
  exists es1 es2, es = es1 ++ es2 /\ Forall (fun k => k < key) es1.*1 /\
    Forall (fun k => key < k) es2.*1.
Proof.
  induction es as [|[k r] es IH]; intros Hs Hno; [by exists [], []|].
  simpl in Hs, Hno. apply StronglySorted_inv in Hs as [Hs Hk].
  rewrite not_elem_of_cons in Hno. destruct Hno as [Hne Hno].
  destruct (decide (k < key)).
  - destruct (IH Hs Hno) as (es1 & es2 & -> & H1 & H2).
    exists ((k, r) :: es1), es2. split; [done|]. split; [by constructor|done].
  - exists [], ((k, r) :: es). split; [done|]. split; [done|]. simpl.
    constructor; [lia|]. eapply Forall_weaken; [exact Hk|]. simpl. intros. lia.
Qed.

(** The scan for the insertion point counts the smaller keys. *)
Lemma insertion_point_ok (ks : list Z) n es1 es2 key :
  holds ks (es1 ++ es2) -> n = alen (es1 ++ es2) ->
  Forall (fun k => k < key) es1 -> Forall (fun k => key < k) es2 ->
  scan n (fun i => k ← ks.[i]; Some (k <? key)) = Some (alen es1).
Proof.
  intros Hh -> H1 H2. pose proof (alen_nonneg es1). pose proof (alen_nonneg es2).
  apply (scan_unique _ (fun i => i <? alen es1)).
  - rewrite alen_app. lia.
  - intros i Hi. destruct (holds_get _ _ i Hh Hi) as (k & -> & Hk). cbn. f_equal.
    destruct (Z.ltb_spec i (alen es1)).
    + rewrite aget_app_l in Hk by lia. apply Z.ltb_lt. unfold aget in Hk.
      destruct (i <? 0); [done|]. by eapply Forall_lookup_1 in H1; [|exact Hk].
    + rewrite aget_app_r in Hk by lia. apply Z.ltb_ge. unfold aget in Hk.
      destruct (_ <? 0); [done|]. eapply Forall_lookup_1 in H2; [|exact Hk]. simpl in H2. lia.
  - intros i Hi. apply Z.ltb_lt. lia.
  - intros _. apply Z.ltb_irrefl.
Qed.

Lemma wp_insert_into_leaf m p nd par es1 es2 key r :
  nodes m !! p = Some nd -> leaf_ok nd par (es1 ++ es2) -> alen (es1 ++ es2) < order - 1 ->
  Forall (fun k => k < key) es1.*1 -> Forall (fun k => key < k) es2.*1 ->
  wp (insert_into_leaf p key r) m (fun p' m' => p' = p /\
    exists nd', m' = with_nodes m (<[p := nd']> (nodes m)) /\
      leaf_ok nd' par (es1 ++ (key, r) :: es2) /\
      (pointers nd').[order - 1] = (pointers nd).[order - 1]).
Proof.
  intros Hnd [Hlf Hpar Hnum Hkl Hpl Hks Hps] Hlen H1 H2. rewrite fmap_app in Hks, Hps.
  unfold insert_into_leaf. apply wp_bind. eapply wp_load; [done|].
  assert (alen (es1.*1 ++ es2.*1) = alen (es1 ++ es2)) as El1
    by (by rewrite <- fmap_app, alen_fmap).
  assert (alen (es1.*2 ++ es2.*2) = alen (es1 ++ es2)) as El2
    by (by rewrite <- fmap_app, alen_fmap).
  apply wp_bind. eapply wp_lift.
  { apply (insertion_point_ok (keys nd) _ es1.*1 es2.*1 key); [done|congruence|done|done]. }
  destruct (shift_insert (keys nd) es1.*1 es2.*1 key Hks) as (a1 & a & Ha & Ha1 & Hal & Hah & _);
    [lia|].
  destruct (shift_insert (pointers nd) es1.*2 es2.*2 r Hps) as (b1 & b & Hb & Hb1 & Hbl & Hbh & Hbo);
    [lia|].
  rewrite El1 in Ha. rewrite El2 in Hb. rewrite alen_fmap in *.
  apply wp_bind. eapply wp_lift; [rewrite Hnum; unfold for_down in *; by apply for_z_pair|].
  apply wp_bind. eapply wp_lift; [done|]. apply wp_bind. eapply wp_lift; [done|].
  apply wp_bind. eapply wp_store; [done|]. apply wp_ret. split; [done|].
  eexists. split; [done|]. split; [|cbn; apply Hbo; lia].
  split; cbn; try done; try congruence.
  - rewrite Hnum, !alen_app, alen_cons. lia.
  - by rewrite fmap_app.
  - by rewrite fmap_app.
Qed.

(** ** One inner node *)

Lemma get_left_index_ok m p nd par ks P1 q P2 :
  nodes m !! p = Some nd -> node_ok nd par ks (P1 ++ q :: P2) ->
  alen (P1 ++ q :: P2) = alen ks + 1 -> q ∉ P1 ->
  forall Q, Q (alen P1) m -> wp (get_left_index p q) m Q.
Proof.
  intros Hnd Hok Hlen Hq Q HQ. unfold get_left_index. apply wp_bind. eapply wp_load; [done|].
  rewrite (nd_num _ _ _ _ _ Hok), <- Hlen. eapply wp_lift; [|exact HQ].
  pose proof (alen_nonneg P1). pose proof (alen_nonneg P2).
  apply (scan_unique _ (fun i => match (P1 ++ q :: P2).[i] with
    Some x => negb (x =? q) | None => false end)).
  - rewrite alen_app, alen_cons. lia.
  - intros i Hi. destruct (holds_get _ _ i (nd_ptrs _ _ _ _ _ Hok) Hi) as (x & -> & Hx).
    by rewrite Hx.
  - intros i Hi. rewrite aget_app_l by lia. destruct (aget_in P1 i Hi) as [x Hx]. rewrite Hx.
    destruct (Z.eqb_spec x q); [|done]. subst x. exfalso. apply Hq. unfold aget in Hx.
    destruct (i <? 0); [done|]. by eapply list_elem_of_lookup_2.
  - intros _. rewrite aget_middle, Z.eqb_refl. done.
Qed.

(** The pointer loop runs one cell to the right of the key loop. *)
Lemma for_down_succ (a : list Z) hi lo :
  for_down hi lo (fun i a => copy a (i + 1) a i) a
  = for_down (hi + 1) (lo + 1) (fun i a => copy a i a (i - 1)) a.
Proof.
  unfold for_down. replace (hi + 1 - (lo + 1)) with (hi - lo) by lia.
  apply for_z_ext. intros i s. f_equal; lia.
Qed.

Lemma wp_insert_into_node m root p nd par K1 K2 P1 P2 k r :
  nodes m !! p = Some nd -> node_ok nd par (K1 ++ K2) (P1 ++ P2) ->
  alen P1 = alen K1 + 1 -> alen P2 = alen K2 -> alen (K1 ++ K2) < order - 1 ->
  wp (insert_into_node root p (alen K1) k r) m (fun root' m' => root' = root /\
    exists nd', m' = with_nodes m (<[p := nd']> (nodes m)) /\
      node_ok nd' par (K1 ++ k :: K2) (P1 ++ r :: P2)).
Proof.
  intros Hnd [Hin Hpar Hnum Hkl Hpl Hks Hps] HP1 HP2 Hlen.
  unfold insert_into_node. apply wp_bind. eapply wp_load; [done|].
  assert (alen (P1 ++ P2) = alen (K1 ++ K2) + 1) as HP by (rewrite !alen_app; lia).
  destruct (shift_insert (pointers nd) P1 P2 r Hps) as (b1 & b & Hb & Hb1 & Hbl & Hbh & _); [lia|].
  destruct (shift_insert (keys nd) K1 K2 k Hks) as (a1 & a & Ha & Ha1 & Hal & Hah & _); [lia|].
  rewrite HP, HP1, <- for_down_succ in Hb. rewrite HP1 in Hb1.
  apply wp_bind. eapply wp_lift; [rewrite Hnum; unfold for_down in *; by apply for_z_pair|].
  apply wp_bind. eapply wp_lift; [done|]. apply wp_bind. eapply wp_lift; [done|].
  apply wp_bind. eapply wp_store; [done|]. apply wp_ret. split; [done|].
  eexists. split; [done|]. split; cbn; try done; try congruence.
  rewrite Hnum, !alen_app, alen_cons. lia.
Qed.

(** Reparenting the first [n] children. *)
Definition reparent (L : list Z) (new : Z) (H : gmap Z node) (q : Z) : option node :=
  if decide (q ∈ L) then (fun nd => with_parent nd new) <$> H !! q else H !! q.

Lemma wp_set_parents ps L new m live :
  holds ps L -> (forall q, q ∈ L -> q ∈ live) -> nodes_ok m live ->
  wp (set_parents ps (alen L) new) m (fun _ m' => nodes_ok m' live /\ words_same m m' /\
    forall q, nodes m' !! q = reparent L new (nodes m) q).
Proof.
  intros Hh Hlive Hok. unfold set_parents.
  eapply wp_mono; [apply (wp_mfor (fun i _ m' => nodes_ok m' live /\ words_same m m' /\
    forall q, nodes m' !! q = reparent (take (Z.to_nat i) L) new (nodes m) q))|].
  - apply alen_nonneg.
  - split; [done|]. split; [done|]. intros q. unfold reparent.
    rewrite decide_False; [done|]. apply not_elem_of_nil.
  - intros i _ m1 Hi (Hok1 & Hw1 & Hm1). destruct (holds_get _ _ i Hh Hi) as (q & Hq & HqL).
    apply wp_bind. eapply wp_lift; [done|].
    assert (HL : L !! Z.to_nat i = Some q) by (unfold aget in HqL; destruct (i <? 0); done).
    assert (Hin : q ∈ L) by (by eapply list_elem_of_lookup_2).
    pose proof Hok1 as (free & _ & _ & Hl & _). destruct (Hl q (Hlive q Hin)) as [nd Hnd].
    apply wp_bind. eapply wp_load; [done|]. eapply wp_store; [done|].
    split; [apply nodes_ok_store; [by apply Hlive|done]|].
    split; [etransitivity; [exact Hw1|same_solve]|]. cbn [nodes with_nodes]. intros x.
    replace (Z.to_nat (i + 1)) with (S (Z.to_nat i)) by lia. rewrite (take_S_r _ _ q) by done.
    unfold reparent. destruct (decide (x = q)) as [->|Hne].
    + rewrite lookup_insert_eq, decide_True by (rewrite elem_of_app; right; by left).
      rewrite Hm1 in Hnd. unfold reparent in Hnd. destruct (decide (q ∈ take _ L)).
      * destruct (nodes m !! q) as [nd0|]; [|done]. simpl in *. injection Hnd as <-. done.
      * by rewrite Hnd.
    + rewrite lookup_insert_ne by done. rewrite Hm1. unfold reparent.
      destruct (decide (x ∈ take (Z.to_nat i) L)) as [Hx|Hx],
        (decide (x ∈ take (Z.to_nat i) L ++ [q])) as [Hx'|Hx']; try done; exfalso;
        rewrite elem_of_app, list_elem_of_singleton in Hx'; tauto.
  - intros _ m' (Hok' & Hw' & Hm'). split; [done|]. split; [done|]. intros q.
    rewrite Hm'. rewrite take_ge; [done|]. unfold alen. lia.
Qed.

Lemma cut_bounds n : 2 <= n -> 1 <= cut n /\ cut n < n /\ n <= 2 * cut n <= n + 1.
Proof. intros. unfold cut. destruct (Z.eqb_spec (n mod 2) 0); zdiv. Qed.

(** Cuts a list at an index. *)
Lemma list_cut {A} (l : list A) i :
  0 <= i <= alen l -> exists l1 l2, l = l1 ++ l2 /\ alen l1 = i.
Proof.
  intros Hi. exists (take (Z.to_nat i) l), (drop (Z.to_nat i) l).
  split; [by rewrite take_drop|]. unfold alen in *. rewrite length_take. lia.
Qed.

(** The two temporary arrays of a node split, filled around their holes. *)
Lemma temp_arrays (nd : node) par K1 K2 P1 P2 k r tp tk :
  node_ok nd par (K1 ++ K2) (P1 ++ P2) ->
  alen P1 = alen K1 + 1 -> alen P2 = alen K2 -> alen (K1 ++ K2) = order - 1 ->
  alen tp = order + 1 -> alen tk = order ->
  exists d tp1 tp2 d' tk1 tk2,
    for_z 0 (num_keys nd + 1) (fun i '(j, t) =>
      let j := if j =? alen K1 + 1 then j + 1 else j in
      t ← copy t j (pointers nd) i; Some (j + 1, t)) (0, tp) = Some (d, tp1) /\
    for_z 0 (num_keys nd) (fun i '(j, t) =>
      let j := if j =? alen K1 then j + 1 else j in
      t ← copy t j (keys nd) i; Some (j + 1, t)) (0, tk) = Some (d', tk1) /\
    tp1.[alen K1 + 1 <- r] = Some tp2 /\ tk1.[alen K1 <- k] = Some tk2 /\
    holds tp2 (P1 ++ r :: P2) /\ holds tk2 (K1 ++ k :: K2).
Proof.
  intros Hok HP1 HP2 Hlen Htp Htk. rewrite (nd_num _ _ _ _ _ Hok), <- HP1.
  assert (alen (P1 ++ P2) = alen (K1 ++ K2) + 1) as HP by (rewrite !alen_app; lia).
  destruct (hole_insert (pointers nd) tp P1 P2 r (nd_ptrs _ _ _ _ _ Hok))
    as (d & b1 & b & Hb & Hb1 & _ & Hbh); [lia|].
  destruct (hole_insert (keys nd) tk K1 K2 k (nd_keys _ _ _ _ _ Hok))
    as (d' & a1 & a & Ha & Ha1 & _ & Hah); [lia|].
  rewrite HP in Hb. by exists d, b1, b, d', a1, a.
Qed.

Lemma list_last {A} (l : list A) :
  1 <= alen l -> exists l' x, l = l' ++ [x] /\ alen l' = alen l - 1.
Proof.
  intros Hl. destruct l as [|x l _] using rev_ind; [rewrite alen_nil in Hl; lia|].
  exists l, x. rewrite alen_app. change (alen [x]) with 1. split; [done|lia].
Qed.

(** The halves of a node split: the first [split] pointers with the keys between
    them stay, the key in the middle goes up, the rest moves to the new node. *)
Lemma split_left (nd : node) par ks ps KA k' KB PA PB tp tk :
  node_ok nd par ks ps -> holds tp (PA ++ PB) -> holds tk (KA ++ k' :: KB) ->
  alen KA = cut order - 1 -> alen PA = cut order ->
  exists ps1 ks1 ps2,
    for_z 0 (cut order - 1) (fun i '(ps, ks, nk) =>
      ps ← copy ps i tp i; ks ← copy ks i tk i; Some (ps, ks, nk + 1))
      (pointers nd, keys nd, 0) = Some (ps1, ks1, cut order - 1) /\
    copy ps1 (cut order - 1) tp (cut order - 1) = Some ps2 /\
    tk.[cut order - 1] = Some k' /\
    node_ok (with_num_keys (with_pointers (with_keys nd ks1) ps2) (cut order - 1)) par KA PA.
Proof.
  intros [Hin Hpar Hnum Hkl Hpl Hks Hps] Htp Htk HKA HPA.
  destruct (cut_bounds order) as (Hc1 & Hc2 & Hc3); [lia|].
  destruct (list_last PA) as (PA' & x & EPA & HPA'); [lia|].
  assert (Htp1 : holds tp (PA' ++ ([x] ++ PB))) by (by rewrite EPA, <- app_assoc in Htp).
  destruct (copy_prefix (pointers nd) tp PA' ([x] ++ PB) Htp1) as (ps1 & Hps1 & Hps1l & Hps1h & _);
    [lia|].
  destruct (copy_prefix (keys nd) tk KA (k' :: KB) Htk) as (ks1 & Hks1 & Hks1l & Hks1h & _); [lia|].
  assert (Htpx : tp.[cut order - 1] = Some x).
  { destruct Htp1 as [Hl Hh]. rewrite !alen_app in Hl, Hh. change (alen [x]) with 1 in *.
    pose proof (alen_nonneg PB).
    rewrite Hh by lia. replace (cut order - 1) with (alen PA') by lia. apply aget_middle. }
  assert (exists ps2, ps1.[cut order - 1 <- x] = Some ps2) as [ps2 Hps2]
    by (eexists; apply aset_in; lia).
  exists ps1, ks1, ps2. split; [|split; [|split]].
  - replace (Some (ps1, ks1, cut order - 1)) with (Some (ps1, ks1, 0 + (cut order - 1 - 0)))
      by (do 2 f_equal; lia).
    apply for_z_pair_count; [lia| |]; [rewrite <- Hps1|rewrite <- Hks1]; f_equal; lia.
  - unfold copy. by rewrite Htpx.
  - destruct Htk as [Hl Hh]. rewrite alen_app, alen_cons in Hl, Hh.
    rewrite Hh by (pose proof (alen_nonneg KB); lia).
    rewrite <- HKA. apply aget_middle.
  - split; cbn; try done; try congruence.
    + rewrite (aset_alen _ _ _ _ Hps2). congruence.
    + rewrite EPA. apply (holds_snoc ps1 PA' x ps2); [done|]. rewrite <- Hps2. f_equal. lia.
Qed.

Lemma split_right par KA k' KB PA PB tp tk :
  holds tp (PA ++ PB) -> holds tk (KA ++ k' :: KB) ->
  alen KA = cut order - 1 -> alen PA = cut order -> alen (KA ++ k' :: KB) = order ->
  alen (PA ++ PB) = order + 1 ->
  exists ps3 ks3 ps4,
    for_z (cut order) order (fun i '(j, ps, ks, nk) =>
      ps ← copy ps j tp i; ks ← copy ks j tk i; Some (j + 1, ps, ks, nk + 1))
      (0, pointers (fresh_node false), keys (fresh_node false), num_keys (fresh_node false))
      = Some (order - cut order, ps3, ks3, order - cut order) /\
    copy ps3 (order - cut order) tp order = Some ps4 /\
    node_ok (with_parent (with_num_keys (with_pointers (with_keys (fresh_node false) ks3) ps4)
      (order - cut order)) par) par KB PB.
Proof.
  intros Htp Htk HKA HPA HK HP. destruct (cut_bounds order) as (Hc1 & Hc2 & Hc3); [lia|].
  rewrite alen_app, alen_cons in HK. rewrite alen_app in HP.
  destruct (list_last PB) as (PB' & y & EPB & HPB'); [lia|].
  assert (Htp2 : holds tp ((PA ++ PB') ++ [y])) by (by rewrite EPB, app_assoc in Htp).
  destruct (copy_suffix (pointers (fresh_node false)) tp PA PB' (holds_app_l _ _ _ Htp2))
    as (ps3 & Hps3 & Hps3l & Hps3h & _);
    [cbn [pointers fresh_node]; rewrite alen_replicate; lia|].
  assert (Htk2 : holds tk ((KA ++ [k']) ++ KB)) by (by rewrite <- app_assoc).
  destruct (copy_suffix (keys (fresh_node false)) tk (KA ++ [k']) KB Htk2)
    as (ks3 & Hks3 & Hks3l & Hks3h & _); [cbn [keys fresh_node]; rewrite alen_replicate; lia|].
  assert (Htpy : tp.[order] = Some y).
  { destruct Htp2 as [Hl Hh]. rewrite !alen_app in Hl, Hh. change (alen [y]) with 1 in *.
    rewrite Hh by (pose proof (alen_nonneg PA); lia).
    replace order with (alen (PA ++ PB')) by (rewrite alen_app; lia). apply aget_middle. }
  cbn [pointers keys fresh_node] in Hps3l, Hks3l. rewrite alen_replicate in Hps3l, Hks3l by lia.
  assert (exists ps4, ps3.[order - cut order <- y] = Some ps4) as [ps4 Hps4]
    by (eexists; apply aset_in; lia).
  rewrite !alen_app in Hps3. rewrite !alen_app in Hks3. change (alen [k']) with 1 in Hks3.
  exists ps3, ks3, ps4. split; [|split].
  - replace (Some (order - cut order, ps3, ks3, order - cut order)) with
      (Some (alen PB', ps3, ks3, num_keys (fresh_node false) + (order - cut order)))
      by (cbn [num_keys fresh_node]; repeat f_equal; lia).
    apply (for_z_share_count _ _ (fun i j ps => copy ps j tp i) (fun i j ks => copy ks j tk i)
      (fun j => j + 1)); [lia| |].
    + rewrite <- Hps3. f_equal; lia.
    + replace (alen PB') with (alen KB) by lia. rewrite <- Hks3. f_equal; lia.
  - unfold copy. by rewrite Htpy.
  - split; cbn; try done; try congruence.
    + lia.
    + rewrite (aset_alen _ _ _ _ Hps4). done.
    + rewrite EPB. apply (holds_snoc ps3 PB' y ps4); [done|]. rewrite <- Hps4. f_equal. lia.
Qed.

(** A whole node split, up to the call that inserts the new node above. *)
Lemma wp_split_node insert_into_parent m live root p nd par K1 K2 P1 P2 k r KA k' KB PA PB Q :
  nodes_ok m live -> p ∈ live -> nodes m !! p = Some nd ->
  node_ok nd par (K1 ++ K2) (P1 ++ P2) ->
  alen P1 = alen K1 + 1 -> alen P2 = alen K2 -> alen (K1 ++ K2) = order - 1 ->
  K1 ++ k :: K2 = KA ++ k' :: KB -> P1 ++ r :: P2 = PA ++ PB ->
  alen KA = cut order - 1 -> alen PA = cut order ->
  (forall q, q ∈ PB -> q ∈ live) -> p ∉ PB ->
  (forall q m' nd1 nd2, nodes_ok m' (q :: live) -> words_same m m' ->
     nodes m' !! p = Some nd1 -> node_ok nd1 par KA PA ->
     nodes m' !! q = Some nd2 -> node_ok nd2 par KB PB ->
     (forall x, x ∈ live -> x <> p -> nodes m' !! x = reparent PB q (nodes m) x) ->
     wp (insert_into_parent root p k' q) m' Q) ->
  wp (insert_into_node_after_splitting order insert_into_parent root p (alen K1) k r) m Q.
Proof.
  intros Hok Hp Hnd Hnode HP1 HP2 Hlen EK EP HKA HPA HPB Hpn Hcont.
  unfold insert_into_node_after_splitting.
  apply wp_bind. eapply wp_mono; [apply wp_allocate_align64|]. intros tp m1 (-> & Hn1 & Hw1).
  apply wp_bind. eapply wp_mono; [apply wp_allocate_align64|]. intros tk m2 (-> & Hn2 & Hw2).
  pose proof (nodes_ok_same _ _ _ Hn2 (nodes_ok_same _ _ _ Hn1 Hok)) as Hok2.
  assert (HS : forall x, nodes m2 !! x = nodes m !! x)
    by (intros x; by rewrite (nodes_same_lookup _ _ _ Hn2), (nodes_same_lookup _ _ _ Hn1)).
  apply wp_bind. eapply wp_load; [by rewrite HS|].
  destruct (temp_arrays nd par K1 K2 P1 P2 k r (replicate (Z.to_nat (order + 1)) 0)
    (replicate (Z.to_nat order) 0) Hnode HP1 HP2 Hlen) as (d & tp1 & tp2 & d' & tk1 & tk2 &
    Htp1 & Htk1 & Htp2 & Htk2 & Htp & Htk); [rewrite alen_replicate; lia..|].
  apply wp_bind. eapply wp_lift; [exact Htp1|]. apply wp_bind. eapply wp_lift; [exact Htk1|].
  apply wp_bind. eapply wp_lift; [exact Htp2|]. apply wp_bind. eapply wp_lift; [exact Htk2|].
  clear Htp1 Htk1 Htp2 Htk2. rewrite EP in Htp. rewrite EK in Htk.
  destruct (split_left nd par _ _ KA k' KB PA PB tp2 tk2 Hnode Htp Htk HKA HPA) as
    (ps1 & ks1 & ps2 & Hl1 & Hl2 & Hl3 & Hn_old).
  destruct (split_right par KA k' KB PA PB tp2 tk2 Htp Htk HKA HPA) as
    (ps3 & ks3 & ps4 & Hr1 & Hr2 & Hn_new);
    [rewrite <- EK, alen_app, alen_cons; rewrite alen_app in Hlen; lia|
     rewrite <- EP, alen_app, alen_cons; rewrite alen_app in Hlen; lia|].
  apply wp_bind. eapply wp_mono; [by apply (wp_make_node _ live)|].
  intros q m3 (Hok3 & Hq3 & Ha3 & Hw3).
  pose proof (nodes_ok_nodup _ _ Hok3) as Hnd3. apply list.NoDup_cons in Hnd3 as [Hq Hnd3].
  assert (Hpq : p <> q) by (by intros ->).
  apply wp_bind. eapply wp_lift; [exact Hl1|]. cbn beta iota. apply wp_bind.
  eapply wp_lift; [exact Hl2|]. apply wp_bind. eapply wp_store; [by rewrite Ha3, HS|].
  apply wp_bind. eapply wp_lift; [exact Hl3|]. apply wp_bind.
  eapply wp_load; [cbn [nodes with_nodes]; rewrite lookup_insert_ne by done; exact Hq3|].
  apply wp_bind. eapply wp_lift; [exact Hr1|]. cbn beta iota. apply wp_bind.
  eapply wp_lift; [exact Hr2|]. apply wp_bind.
  eapply wp_store; [cbn [nodes with_nodes]; rewrite lookup_insert_ne by done; exact Hq3|].
  rewrite (nd_parent _ _ _ _ _ Hnode).
  assert (HPBl : order - cut order + 1 = alen PB).
  { assert (alen (P1 ++ r :: P2) = alen (PA ++ PB)) as E by (by rewrite EP).
    rewrite !alen_app, alen_cons in E. rewrite alen_app in Hlen. lia. }
  rewrite HPBl. apply wp_bind.
  eapply wp_mono; [apply (wp_set_parents ps4 PB q _ (q :: live))|].
  - exact (nd_ptrs _ _ _ _ _ Hn_new).
  - intros x Hx. right. by apply HPB.
  - apply nodes_ok_store; [by left|]. apply nodes_ok_store; [by right|done].
  - intros _ m4 (Hok4 & Hw4 & Hm4). cbn [nodes with_nodes] in Hm4.
    assert (q ∉ PB) by (intros Hx; apply Hq; by apply HPB).
    eapply (Hcont q m4); [done| | |exact Hn_old| |exact Hn_new|].
    + etransitivity; [exact Hw1|]. etransitivity; [exact Hw2|]. etransitivity; [exact Hw3|].
      etransitivity; [|exact Hw4]. same_solve.
    + rewrite Hm4. unfold reparent. rewrite decide_False by done.
      rewrite lookup_insert_ne by done. apply lookup_insert_eq.
    + rewrite Hm4. unfold reparent. rewrite decide_False by done. apply lookup_insert_eq.
    + intros x Hx Hne. rewrite Hm4. unfold reparent.
      assert (x <> q) by (by intros ->).
      rewrite !lookup_insert_ne by done. by rewrite Ha3, HS.
Qed.

(** ** Whole trees *)

Lemma rep_reparent H H' n par new (t : tree n) :
  rep H n par t -> H' !! loc t = (fun nd => with_parent nd new) <$> H !! loc t ->
  agree (list.tail (locs n t)) H H' -> rep H' n new t.
Proof.
  destruct n as [|n], t as [p cs]; intros Hrep Hl Ha.
  - apply rep_0_inv in Hrep as (nd & Hnd & []). cbn [loc fst] in Hl. rewrite Hnd in Hl.
    apply rep_0. eexists. split; [exact Hl|]. by split.
  - apply rep_S_inv in Hrep as [(nd & Hnd & []) Hcs]. cbn [loc fst] in Hl. rewrite Hnd in Hl.
    apply rep_S. split; [eexists; split; [exact Hl|]; by split|].
    eapply reps_agree; [|exact Hcs]. done.
Qed.

(** The addresses of the nodes below the children of a list. *)
Lemma all_locs_below {n} (cs : list (Z * tree n)) :
  all_locs cs ≡ₚ child_locs cs ++ (cs ≫= fun kc => list.tail (locs n kc.2)).
Proof.
  assert (forall t : tree n, locs n t = loc t :: list.tail (locs n t)) as Hl
    by (intros t; by destruct n).
  unfold all_locs, child_locs. rewrite <- bind_cons_perm.
  match goal with |- ?a ≡ₚ ?b => enough (a = b) as -> by done end.
  induction cs as [|kc cs IH]; [done|]. cbn. rewrite <- IH. by rewrite (Hl kc.2) at 1.
Qed.

Lemma reps_reparent H H' n p new (cs : list (Z * tree n)) :
  reps H p cs -> NoDup (all_locs cs) ->
  (forall q, q ∈ all_locs cs -> H' !! q = reparent (child_locs cs) new H q) ->
  reps H' new cs.
Proof.
  intros Hcs Hnd Hq. rewrite all_locs_below in Hnd. apply list.NoDup_app in Hnd as (_ & Hd & _).
  eapply Forall_weaken; [exact Hcs|]. intros [k c] Hin Hrep.
  assert (loc c ∈ child_locs cs) as Hloc by (apply list_elem_of_fmap; by exists (k, c)).
  eapply rep_reparent; [exact Hrep| |].
  - rewrite Hq by (by eapply child_loc_in). unfold reparent. by rewrite decide_True.
  - intros x Hx. cbn [snd] in Hx.
    assert (x ∈ cs ≫= fun kc => list.tail (locs n kc.2)) as Hx'
      by (apply list_elem_of_bind; by exists (k, c)).
    rewrite Hq.
    + unfold reparent. rewrite decide_False; [done|]. intros Hc. by apply (Hd x).
    + rewrite all_locs_below, elem_of_app. by right.
Qed.

(** Leaves keep their pointers. *)
Definition leaf_same (l : list Z) (m m' : mem) : Prop :=
  forall q nd, q ∈ l -> nodes m !! q = Some nd -> is_leaf nd = true ->
  exists nd', nodes m' !! q = Some nd' /\ is_leaf nd' = true /\ pointers nd' = pointers nd.

Lemma leaf_same_trans l m1 m2 m3 : leaf_same l m1 m2 -> leaf_same l m2 m3 -> leaf_same l m1 m3.
Proof.
  intros H12 H23 q nd Hq Hnd Hl. destruct (H12 q nd Hq Hnd Hl) as (nd2 & Hnd2 & Hl2 & Hp2).
  destruct (H23 q nd2 Hq Hnd2 Hl2) as (nd3 & Hnd3 & Hl3 & Hp3). exists nd3. by rewrite Hp3.
Qed.

Lemma leaf_same_mono l l' m m' : (forall q, q ∈ l' -> q ∈ l) -> leaf_same l m m' -> leaf_same l' m m'.
Proof. intros Hs H q nd Hq. by apply H, Hs. Qed.

(** The outcome of inserting [r] behind [l] at the end of the path [c]. *)
Definition inserted {n} (c : ctx n) (l r : tree n) (m : mem) (root' : Z) (m' : mem) : Prop :=
  exists n' (t' : tree n'),
    root' = loc t' /\ rep (nodes m') n' 0 t' /\ wf n' 0 (2 ^ 64) t' /\
    (forall B (f : tree 0 -> list B),
       flat f n' t' = ctx_before f c ++ flat f n l ++ flat f n r ++ ctx_after f c) /\
    nodes_ok m' (locs n' t') /\ words_same m m' /\
    leaf_same (ctx_locs c ++ locs n l ++ locs n r) m m'.

Lemma wp_insert_into_new_root n (l r : tree n) k m :
  rep (nodes m) n 0 l -> rep (nodes m) n 0 r -> wf n 0 k l -> wf n k (2 ^ 64) r ->
  nodes_ok m (locs n l ++ locs n r) ->
  wp (insert_into_new_root order (loc l) k (loc r)) m (inserted Top l r m).
Proof.
  intros Hl Hr Hwl Hwr Hok. unfold insert_into_new_root. apply wp_bind.
  eapply wp_mono; [by apply wp_make_node|]. intros q m1 (Hok1 & Hq & Ha & Hw).
  pose proof (nodes_ok_nodup _ _ Hok1) as Hnd. apply list.NoDup_cons in Hnd as [Hqn Hnd].
  rewrite elem_of_app in Hqn. pose proof Hnd as (_ & Hd & _)%list.NoDup_app.
  assert (Hlq : loc l <> q) by (intros <-; apply Hqn; left; apply loc_in).
  assert (Hrq : loc r <> q) by (intros <-; apply Hqn; right; apply loc_in).
  assert (Hlr : loc l <> loc r)
    by (intros E; apply (Hd (loc l)); [apply loc_in|rewrite E; apply loc_in]).
  pose proof (nodes_ok_pos _ _ q Hok1 ltac:(by left)) as Hqpos.
  apply wp_bind. eapply wp_load; [done|]. cbn [keys pointers num_keys fresh_node].
  apply wp_bind. eapply wp_lift; [apply aset_in; rewrite alen_replicate; lia|].
  apply wp_bind. eapply wp_lift; [apply aset_in; rewrite alen_replicate; lia|].
  apply wp_bind. eapply wp_lift; [apply aset_in; rewrite alen_insert, alen_replicate; lia|].
  apply wp_bind. eapply wp_store; [done|].
  assert (exists ndl, nodes m1 !! loc l = Some ndl) as [ndl Hndl].
  { rewrite Ha by (rewrite elem_of_app; left; apply loc_in).
    destruct n, l; [apply rep_0_inv in Hl as (? & ? & ?)|
                    apply rep_S_inv in Hl as [(? & ? & ?) _]]; eauto. }
  assert (exists ndr, nodes m1 !! loc r = Some ndr) as [ndr Hndr].
  { rewrite Ha by (rewrite elem_of_app; right; apply loc_in).
    destruct n, r; [apply rep_0_inv in Hr as (? & ? & ?)|
                    apply rep_S_inv in Hr as [(? & ? & ?) _]]; eauto. }
  set (root := with_parent _ 0). set (H1 := nodes m1) in *.
  apply wp_bind. eapply wp_load; [cbn [nodes with_nodes]; by rewrite lookup_insert_ne|].
  apply wp_bind. eapply wp_store; [cbn [nodes with_nodes]; by rewrite lookup_insert_ne|].
  apply wp_bind. eapply wp_load; [cbn [nodes with_nodes]; by rewrite !lookup_insert_ne|].
  apply wp_bind. eapply wp_store; [cbn [nodes with_nodes]; by rewrite !lookup_insert_ne|].
  apply wp_ret. set (m4 := with_nodes _ _).
  assert (Hm4 : nodes m4 = <[loc r := with_parent ndr q]>
    (<[loc l := with_parent ndl q]> (<[q := root]> H1))) by done.
  assert (Hre : forall x, x ∈ locs n l ++ locs n r ->
    nodes m4 !! x = reparent [loc l; loc r] q (nodes m) x).
  { intros x Hx. rewrite Hm4. unfold reparent. rewrite <- (Ha x Hx). fold H1.
    assert (x <> q) by (intros ->; apply Hqn; by rewrite <- elem_of_app).
    destruct (decide (x = loc r)) as [->|]; [|destruct (decide (x = loc l)) as [->|]].
    - rewrite lookup_insert_eq, decide_True by (right; left). by rewrite Hndr.
    - rewrite lookup_insert_ne, lookup_insert_eq, decide_True by (done || left). by rewrite Hndl.
    - rewrite !lookup_insert_ne by done. rewrite decide_False; [done|].
      by rewrite !elem_of_cons, elem_of_nil; intuition. }
  exists (S n), (q, [(0, l); (k, r)]).
  assert (Hall : all_locs [(0, l); (k, r)] = locs n l ++ locs n r)
    by (unfold all_locs; cbn; by rewrite app_nil_r).
  split; [done|]. split; [|split; [|split; [|split; [|split]]]].
  - apply rep_S. split.
    + exists root. split; [rewrite Hm4, !lookup_insert_ne by done; apply lookup_insert_eq|].
      unfold root. split; cbn [is_leaf parent num_keys keys pointers with_parent with_num_keys
        with_pointers with_keys fresh_node]; try done;
        rewrite ?alen_insert, ?alen_replicate by lia; try lia.
      * split; [rewrite alen_insert, alen_replicate by lia; unfold alen; simpl; lia|].
        intros i Hi. change (alen _) with 1 in Hi. replace i with 0 by lia.
        rewrite (aget_insert _ 0) by (rewrite alen_replicate; lia). done.
      * split; [rewrite !alen_insert, alen_replicate by lia; unfold alen; simpl; lia|].
        intros i Hi. change (alen _) with 2 in Hi.
        rewrite (aget_insert _ 1) by (rewrite alen_insert, alen_replicate; lia).
        case_decide; [by subst|]. rewrite (aget_insert _ 0) by (rewrite alen_replicate; lia).
        case_decide; [by subst|lia].
    + apply (reps_reparent (nodes m) _ _ 0).
      * by repeat constructor.
      * by rewrite Hall.
      * rewrite Hall. exact Hre.
  - apply wf_S. change (alen [(0, l); (k, r)]) with 2. split; [lia|]. split; [done|].
    split; [exact Hwl|]. by split.
  - intros B f. cbn. by rewrite !app_nil_r.
  - rewrite locs_S, Hall. unfold m4. apply (nodes_ok_store (with_nodes _ _)).
    { right. rewrite elem_of_app. right. apply loc_in. }
    apply (nodes_ok_store (with_nodes _ _)).
    { right. rewrite elem_of_app. left. apply loc_in. }
    apply nodes_ok_store; [by left|done].
  - etransitivity; [exact Hw|same_solve].
  - intros x nd Hx Hnd' Hleaf. cbn [ctx_locs app] in Hx. rewrite Hre by done. unfold reparent.
    rewrite Hnd'. case_decide; eexists; (split; [done|]); by destruct nd.
Qed.

(** The keys and pointers of a node around one child. *)
Definition seps_to {n} (pre : list (Z * tree n)) (lo : Z) : list Z := list.tail (pre.*1 ++ [lo]).

Lemma alen_seps_to {n} (pre : list (Z * tree n)) lo : alen (seps_to pre lo) = alen pre.
Proof.
  unfold seps_to, alen. destruct pre; [done|]. simpl. rewrite length_app, length_fmap. simpl. lia.
Qed.

Lemma seps_around {n} (pre : list (Z * tree n)) lo (ks : list Z) :
  list.tail (pre.*1 ++ lo :: ks) = seps_to pre lo ++ ks.
Proof. unfold seps_to. destruct pre; [done|]. simpl. by rewrite <- app_assoc. Qed.

Lemma seps_cut {n} (cs1 cs2 : list (Z * tree n)) k c :
  cs1 <> [] -> seps (cs1 ++ (k, c) :: cs2) = seps cs1 ++ k :: seps ((k, c) :: cs2).
Proof. intros Hne. unfold seps. destruct cs1; [done|]. simpl. by rewrite fmap_app. Qed.

Lemma alen_seps {n} (cs : list (Z * tree n)) : 1 <= alen cs -> alen (seps cs) = alen cs - 1.
Proof.
  unfold seps, alen. destruct cs; simpl; [lia|]. rewrite length_fmap. lia.
Qed.

Lemma alen_child_locs {n} (cs : list (Z * tree n)) : alen (child_locs cs) = alen cs.
Proof. apply alen_fmap. Qed.

Lemma child_locs_app {n} (cs1 cs2 : list (Z * tree n)) :
  child_locs (cs1 ++ cs2) = child_locs cs1 ++ child_locs cs2.
Proof. apply fmap_app. Qed.

Lemma frame_locs {n} p (pre post : list (Z * tree n)) lo k (l r : tree n) (up : ctx (S n)) :
  ctx_locs (Frame p pre lo post up) ++ locs n l ++ locs n r
  ≡ₚ p :: all_locs (pre ++ (lo, l) :: (k, r) :: post) ++ ctx_locs up.
Proof.
  cbn [ctx_locs]. rewrite all_locs_app, !all_locs_cons. cbn [snd]. solve_Permutation.
Qed.

Lemma leaf_same_inner l m m' p nd :
  nodes m !! p = Some nd -> is_leaf nd = false ->
  (forall q, q ∈ l -> q <> p -> nodes m' !! q = nodes m !! q) -> leaf_same l m m'.
Proof.
  intros Hp Hin Hs q nd' Hq Hnd' Hleaf. exists nd'. rewrite Hs; [done|done|].
  intros ->. congruence.
Qed.

(** The children of the node a pair of subtrees is inserted into. *)
Lemma frame_seg n pre lo k hi hi1 (l r : tree n) post :
  seg (wf n) pre lo -> wf n lo k l -> wf n k hi r -> hi = bnd post hi1 -> seg (wf n) post hi1 ->
  seg (wf n) (pre ++ (lo, l) :: (k, r) :: post) hi1.
Proof. intros Hpre Hl Hr -> Hpost. apply seg_app. split; [done|]. by split; [|split]. Qed.

Lemma frame_room n p pre lo post (up : ctx (S n)) (l r : tree n) k hi m root :
  rep_ctx (nodes m) (Frame p pre lo post up) (loc l) -> wf_ctx (Frame p pre lo post up) lo hi ->
  rep (nodes m) n p l -> rep (nodes m) n p r -> wf n lo k l -> wf n k hi r ->
  nodes_ok m (ctx_locs (Frame p pre lo post up) ++ locs n l ++ locs n r) ->
  alen pre + alen post + 1 < order -> root = ctx_root up p ->
  wp (insert_into_node root p (alen pre) k (loc r)) m (inserted (Frame p pre lo post up) l r m).
Proof.
  intros ((nd & Hnd & Hok) & Hpre & Hpost & Hup) (lo1 & hi1 & Hwup & _ & Hhi & Hlo & Hspre & Hspost & Hlen)
    Hl Hr Hwl Hwr Halloc Hroom Hroot.
  set (cs := pre ++ (lo, l) :: (k, r) :: post). rewrite (frame_locs _ _ _ _ k) in Halloc. fold cs in Halloc.
  pose proof (nodes_ok_nodup _ _ Halloc) as Hdup. apply list.NoDup_cons in Hdup as [Hp Hdup].
  rewrite elem_of_app in Hp.
  rewrite seps_around in Hok.
  replace (child_locs pre ++ loc l :: child_locs post) with
    ((child_locs pre ++ [loc l]) ++ child_locs post) in Hok by (by rewrite <- app_assoc).
  rewrite <- (alen_seps_to pre lo).
  eapply wp_mono; [apply (wp_insert_into_node m root p nd _ _ _ _ _ k (loc r) Hnd Hok)|].
  - rewrite alen_app, alen_child_locs, alen_seps_to. done.
  - by rewrite alen_child_locs, alen_fmap.
  - rewrite alen_app, alen_seps_to, alen_fmap. lia.
  - intros root' m' (-> & nd' & -> & Hok').
    assert (Ha : agree (all_locs cs ++ ctx_locs up) (nodes m) (<[p := nd']> (nodes m))).
    { apply agree_insert. by rewrite elem_of_app. }
    assert (Hrep : rep (<[p := nd']> (nodes m)) (S n) (ctx_parent up) (p, cs)).
    { apply rep_S. split.
      - exists nd'. split; [apply lookup_insert_eq|]. unfold cs. rewrite seps_app, seps_around.
        rewrite child_locs_app. cbn [child_locs fmap list_fmap] in *. by rewrite <- app_assoc in Hok'.
      - eapply reps_agree; [intros x Hx; apply Ha, elem_of_app; by left|].
        apply list.Forall_app. split; [done|]. by do 2 (constructor; [done|]). }
    assert (Hwf : wf (S n) lo1 hi1 (p, cs)).
    { apply wf_S. split; [unfold cs; rewrite alen_app, !alen_cons; lia|].
      split; [unfold cs; by rewrite bnd_app|]. by apply (frame_seg n pre lo k hi). }
    exists (projT1 (plug up (p, cs))), (projT2 (plug up (p, cs))).
    split; [by rewrite plug_loc|]. split; [|split; [|split; [|split; [|split]]]].
    + apply plug_rep; [done|]. eapply rep_ctx_agree; [|exact Hup].
      intros x Hx. apply Ha, elem_of_app. by right.
    + by apply (plug_wf _ _ _ _ lo1 hi1).
    + intros B f. rewrite plug_flat. change (flat f (S n) (p, cs)) with (flats f cs).
      unfold cs. rewrite flats_app, !flats_cons. cbn [ctx_before ctx_after snd].
      by rewrite <- !app_assoc.
    + rewrite plug_locs, locs_S. apply nodes_ok_store.
      { rewrite elem_of_app. right. by left. }
      by rewrite (Permutation_app_comm (ctx_locs up)).
    + same_solve.
    + apply (leaf_same_inner _ _ _ p nd); [done|apply Hok|]. intros q Hq Hne.
      cbn [nodes with_nodes]. by rewrite lookup_insert_ne.
Qed.

(** The children of an overfull node, cut where the code cuts them. *)
Lemma overfull_cut n (cs : list (Z * tree n)) lo1 hi1 :
  alen cs = order + 1 -> bnd cs hi1 = lo1 -> seg (wf n) cs hi1 ->
  exists cs1 k' c' cs2, cs = cs1 ++ (k', c') :: cs2 /\ alen cs1 = cut order /\
    (forall p, wf (S n) lo1 k' (p, cs1)) /\ (forall q, wf (S n) k' hi1 (q, (k', c') :: cs2)) /\
    seps cs = seps cs1 ++ k' :: seps ((k', c') :: cs2) /\ alen (seps cs1) = cut order - 1.
Proof.
  intros Hlen Hlo Hseg. destruct (cut_bounds order) as (Hc1 & Hc2 & Hc3); [lia|].
  destruct (list_cut cs (cut order)) as (cs1 & cs2 & -> & Hcs1); [lia|].
  rewrite alen_app in Hlen. rewrite bnd_app in Hlo. apply seg_app in Hseg as [Hs1 Hs2].
  destruct cs2 as [|[k' c'] cs2]; [rewrite alen_nil in Hlen; lia|].
  exists cs1, k', c', cs2. split; [done|]. split; [done|].
  split; [intros p; apply wf_S; split; [lia|done]|].
  split; [intros q; apply wf_S; split; [lia|done]|].
  split; [apply seps_cut; by intros ->; rewrite alen_nil in Hcs1; lia|].
  rewrite alen_seps; lia.
Qed.

(** A full node splits and hands the pair of its halves to its own parent. *)
Lemma frame_full n p pre lo post (up : ctx (S n)) (l r : tree n) k hi m root ins :
  rep_ctx (nodes m) (Frame p pre lo post up) (loc l) -> wf_ctx (Frame p pre lo post up) lo hi ->
  rep (nodes m) n p l -> rep (nodes m) n p r -> wf n lo k l -> wf n k hi r ->
  nodes_ok m (ctx_locs (Frame p pre lo post up) ++ locs n l ++ locs n r) ->
  alen pre + alen post + 1 = order ->
  (forall (l' r' : tree (S n)) k' lo1 hi1 m1,
     loc l' = p -> rep_ctx (nodes m1) up p -> wf_ctx up lo1 hi1 ->
     rep (nodes m1) (S n) (ctx_parent up) l' -> rep (nodes m1) (S n) (ctx_parent up) r' ->
     wf (S n) lo1 k' l' -> wf (S n) k' hi1 r' ->
     nodes_ok m1 (ctx_locs up ++ locs (S n) l' ++ locs (S n) r') ->
     wp (ins root p k' (loc r')) m1 (inserted up l' r' m1)) ->
  wp (insert_into_node_after_splitting order ins root p (alen pre) k (loc r)) m
    (inserted (Frame p pre lo post up) l r m).
Proof.
  intros ((nd & Hnd & Hok) & Hpre & Hpost & Hup) (lo1 & hi1 & Hwup & _ & Hhi & Hlo & Hspre & Hspost & _)
    Hl Hr Hwl Hwr Halloc Hfull Hins.
  set (cs := pre ++ (lo, l) :: (k, r) :: post).
  assert (Hlive := frame_locs p pre post lo k l r up). fold cs in Hlive. rewrite Hlive in Halloc.
  pose proof (nodes_ok_nodup _ _ Halloc) as Hdup. apply list.NoDup_cons in Hdup as [Hp Hdup].
  rewrite elem_of_app in Hp. rewrite seps_around in Hok.
  replace (child_locs pre ++ loc l :: child_locs post) with
    ((child_locs pre ++ [loc l]) ++ child_locs post) in Hok by (by rewrite <- app_assoc).
  assert (Hcs : reps (nodes m) p cs)
    by (apply list.Forall_app; split; [done|]; by do 2 (constructor; [done|])).
  destruct (overfull_cut n cs lo1 hi1) as (cs1 & k' & c' & cs2 & Ecs & Hcs1 & Hw1 & Hw2 & Eseps & HKA).
  { unfold cs. rewrite alen_app, !alen_cons. lia. }
  { unfold cs. by rewrite bnd_app. }
  { by apply (frame_seg n pre lo k hi). }
  set (cr := (k', c') :: cs2) in *.
  assert (EP : (child_locs pre ++ [loc l]) ++ loc r :: child_locs post
    = child_locs cs1 ++ child_locs cr).
  { rewrite <- child_locs_app, <- Ecs. unfold cs. rewrite child_locs_app. by rewrite <- app_assoc. }
  assert (EK : seps_to pre lo ++ k :: post.*1 = seps cs1 ++ k' :: seps cr).
  { rewrite <- Eseps. unfold cs. by rewrite seps_app, seps_around. }
  assert (Hsub : forall x, x ∈ child_locs cr -> x ∈ all_locs cs).
  { intros x Hx. rewrite Ecs, all_locs_app, elem_of_app. right.
    rewrite all_locs_below, elem_of_app. by left. }
  rewrite <- (alen_seps_to pre lo).
  eapply (wp_split_node ins m (p :: all_locs cs ++ ctx_locs up) root p nd (ctx_parent up)
    _ _ _ _ k (loc r) (seps cs1) k' (seps cr) (child_locs cs1) (child_locs cr));
    [done|by left|done|exact Hok| | | |exact EK|exact EP|done| | | |].
  { rewrite alen_app, alen_child_locs, alen_seps_to. done. }
  { by rewrite alen_child_locs, alen_fmap. }
  { rewrite alen_app, alen_seps_to, alen_fmap. lia. }
  { by rewrite alen_child_locs. }
  { intros x Hx. right. rewrite elem_of_app. left. by apply Hsub. }
  { intros Hx. apply Hp. left. by apply Hsub. }
  intros q m1 nd1 nd2 Hok1 Hw Hnd1 Hn1 Hnd2 Hn2 Hframe.
  rewrite Ecs, all_locs_app in Hdup. rewrite <- app_assoc in Hdup.
  apply list.NoDup_app in Hdup as (_ & Hd1 & Hdup). apply list.NoDup_app in Hdup as (Hdr & Hd2 & _).
  assert (Hkeep : forall x, x ∈ all_locs cs ++ ctx_locs up -> x ∉ child_locs cr ->
    nodes m1 !! x = nodes m !! x).
  { intros x Hx Hn. rewrite Hframe; [unfold reparent; by rewrite decide_False|by right|].
    intros ->. apply Hp. by rewrite <- elem_of_app. }
  assert (Hcr : forall x, x ∈ child_locs cr -> x ∈ all_locs cr)
    by (intros x Hx; rewrite all_locs_below, elem_of_app; by left).
  rewrite Ecs, all_locs_app in Hkeep, Hframe. rewrite Ecs in Hcs.
  apply list.Forall_app in Hcs as [Hreps1 Hreps2].
  eapply wp_mono.
  - apply (Hins (p, cs1) (q, cr) k' lo1 hi1 m1); [done| |done| | |done|done|].
    + eapply rep_ctx_agree; [|exact Hup]. intros x Hx.
      apply Hkeep; [rewrite !elem_of_app; by right|]. intros Hc. by apply (Hd2 x); [apply Hcr|].
    + apply rep_S. split; [by exists nd1|]. eapply reps_agree; [|exact Hreps1]. intros x Hx.
      apply Hkeep; [rewrite !elem_of_app; by left; left|]. intros Hc. apply (Hd1 x Hx).
      rewrite elem_of_app. left. by apply Hcr.
    + apply rep_S. split; [by exists nd2|]. apply (reps_reparent (nodes m) _ _ p); [done|done|].
      intros x Hx. apply Hframe; [right; rewrite !elem_of_app; auto|]. intros ->.
      apply Hp. left. rewrite Ecs, all_locs_app, elem_of_app. by right.
    + rewrite !locs_S. rewrite Ecs, all_locs_app in Hok1. eapply nodes_ok_perm; [|exact Hok1].
      solve_Permutation.
  - intros root' m2 (n' & t' & Hroot' & Hrep' & Hwf' & Hflat & Hok2 & Hw2' & Hleaf).
    exists n', t'. do 3 (split; [done|]). split; [|split; [done|split; [by etransitivity|]]].
    + intros B f. rewrite Hflat. change (flat f (S n) (p, cs1)) with (flats f cs1).
      change (flat f (S n) (q, cr)) with (flats f cr).
      rewrite (app_assoc (flats f cs1)), <- flats_app, <- Ecs. unfold cs.
      rewrite flats_app, !flats_cons. cbn [ctx_before ctx_after snd]. by rewrite <- !app_assoc.
    + eapply leaf_same_trans.
      * intros x ndx Hx Hndx Hlf. rewrite Hlive, elem_of_cons, Ecs, all_locs_app in Hx.
        destruct (decide (x = p)) as [->|Hne].
        { assert (ndx = nd) as -> by congruence. by rewrite (nd_inner _ _ _ _ _ Hok) in Hlf. }
        destruct Hx as [?|Hx]; [done|]. rewrite Hframe by (done || by right).
        unfold reparent. rewrite Hndx. case_decide; eexists; (split; [done|]); by destruct ndx.
      * eapply leaf_same_mono; [|exact Hleaf]. intros x Hx. rewrite Hlive in Hx.
        rewrite !locs_S. rewrite Ecs, all_locs_app in Hx. rewrite !elem_of_app, !elem_of_cons.
        rewrite elem_of_cons, !elem_of_app in Hx. tauto.
Qed.

Lemma wp_insert_into_parent fuel n (c : ctx n) (l r : tree n) lo k hi m root :
  rep_ctx (nodes m) c (loc l) -> wf_ctx c lo hi ->
  rep (nodes m) n (ctx_parent c) l -> rep (nodes m) n (ctx_parent c) r ->
  wf n lo k l -> wf n k hi r ->
  nodes_ok m (ctx_locs c ++ locs n l ++ locs n r) ->
  root = ctx_root c (loc l) -> (ctx_depth c < fuel)%nat ->
  wp (insert_into_parent order fuel root (loc l) k (loc r)) m (inserted c l r m).
Proof.
  revert fuel l r lo k hi m root. induction c as [n|n p pre lo' post up IH];
    intros fuel l r lo k hi m root Hrc Hwc Hl Hr Hwl Hwr Hok Hroot Hfuel;
    (destruct fuel as [|fuel]; [lia|]); cbn [insert_into_parent].
  - assert (exists nd, nodes m !! loc l = Some nd /\ parent nd = 0) as (nd & Hnd & Hpar).
    { destruct n, l; [apply rep_0_inv in Hl as (? & ? & [])|
                      apply rep_S_inv in Hl as [(? & ? & []) _]]; eauto. }
    apply wp_bind. eapply wp_load; [done|]. rewrite Hpar. destruct Hwc as [-> ->].
    by apply wp_insert_into_new_root.
  - assert (exists nd, nodes m !! loc l = Some nd /\ parent nd = p) as (nd & Hnd & Hpar).
    { destruct n, l; [apply rep_0_inv in Hl as (? & ? & [])|
                      apply rep_S_inv in Hl as [(? & ? & []) _]]; eauto. }
    apply wp_bind. eapply wp_load; [done|]. rewrite Hpar.
    assert (lo' = lo) as -> by (by destruct Hwc as (? & ? & _ & -> & _)).
    pose proof Hrc as ((ndp & Hndp & Hokp) & _).
    pose proof (frame_locs p pre post lo k l r up) as Hlive.
    assert (Hlen := Hwc). destruct Hlen as (_ & _ & _ & _ & _ & _ & _ & _ & Hlen).
    assert (0 < p).
    { apply (nodes_ok_pos _ _ _ Hok). rewrite Hlive. by left. }
    destruct (Z.eqb_spec p 0); [lia|]. apply wp_bind.
    eapply get_left_index_ok; [done|exact Hokp| | |].
    { rewrite seps_around, !alen_app, alen_cons, !alen_child_locs, alen_seps_to, alen_fmap. lia. }
    { pose proof (nodes_ok_nodup _ _ Hok) as Hdup. cbn [ctx_locs] in Hdup.
      intros Hin. apply list.NoDup_app in Hdup as (_ & Hd & _). apply (Hd (loc l)).
      - rewrite elem_of_cons, elem_of_app. right. left. rewrite all_locs_below, elem_of_app. by left.
      - rewrite elem_of_app. left. apply loc_in. }
    rewrite alen_child_locs. apply wp_bind. eapply wp_load; [done|].
    rewrite (nd_num _ _ _ _ _ Hokp), seps_around, alen_app, alen_seps_to, alen_fmap.
    destruct (Z.ltb_spec (alen pre + alen post) (order - 1)).
    + apply (frame_room n p pre lo post up l r k hi); try done. lia.
    + apply (frame_full n p pre lo post up l r k hi); try done; [lia|].
      intros l' r' k' lo1 hi1 m1 Hloc Hrc1 Hwc1 Hl' Hr' Hwl' Hwr' Hok1.
      rewrite <- Hloc in Hrc1 |- *. apply (IH fuel l' r' lo1 k' hi1); try done.
      * by rewrite Hloc.
      * cbn [ctx_depth] in Hfuel. lia.
Qed.

(** ** Splitting a leaf *)

Lemma leaf_temps (nd : node) par es1 es2 key r tk tp :
  leaf_ok nd par (es1 ++ es2) -> alen (es1 ++ es2) = order - 1 ->
  alen tk = order + 1 -> alen tp = order + 1 ->
  exists d tk1 tp1 tk2 tp2,
    for_z 0 (num_keys nd) (fun i '(j, tk, tp) =>
      let j := if j =? alen es1 then j + 1 else j in
      tk ← copy tk j (keys nd) i; tp ← copy tp j (pointers nd) i; Some (j + 1, tk, tp))
      (0, tk, tp) = Some (d, tk1, tp1) /\
    tk1.[alen es1 <- key] = Some tk2 /\ tp1.[alen es1 <- r] = Some tp2 /\
    holds tk2 (es1 ++ (key, r) :: es2).*1 /\ holds tp2 (es1 ++ (key, r) :: es2).*2.
Proof.
  intros [_ _ Hnum _ _ Hks Hps] Hlen Htk Htp. rewrite !fmap_app in *. rewrite Hnum.
  assert (alen (es1.*1 ++ es2.*1) = alen (es1 ++ es2)) as El1
    by (by rewrite <- fmap_app, alen_fmap).
  assert (alen (es1.*2 ++ es2.*2) = alen (es1 ++ es2)) as El2
    by (by rewrite <- fmap_app, alen_fmap).
  destruct (hole_insert (keys nd) tk es1.*1 es2.*1 key Hks) as (d & a1 & a & Ha & Ha1 & _ & Hah);
    [lia|].
  destruct (hole_insert (pointers nd) tp es1.*2 es2.*2 r Hps) as (d' & b1 & b & Hb & Hb1 & _ & Hbh);
    [lia|].
  rewrite El1, alen_fmap in Ha. rewrite El2, alen_fmap in Hb. rewrite alen_fmap in Ha1, Hb1.
  (* both loops move the same running index *)
  assert (d = d') as <-.
  { assert (forall (T : list Z) (C : list Z) x (h : Z) dd TT,
      for_z 0 x (fun i '(j, t) => let j := if j =? h then j + 1 else j in
        t ← copy t j C i; Some (j + 1, t)) (0, T) = Some (dd, TT) -> 0 <= x -> 0 <= h ->
      dd = if x <=? h then x else x + 1) as Hd.
    { intros T C x h dd TT Hrun Hx Hh.
      apply (for_z_partial (fun i '(j, _) => j = if i <=? h then i else i + 1)) in Hrun; [done|done| |].
      - destruct (Z.leb_spec 0 h); lia.
      - intros i [j s] [j' s'] Hi -> Hs. cbv zeta in Hs.
        destruct (copy s _ C i); [|done]. cbn in Hs. injection Hs as <- _.
        destruct (Z.leb_spec i h), (Z.leb_spec (i + 1) h);
          repeat match goal with |- context [?a =? ?b] => destruct (Z.eqb_spec a b) end; lia. }
    rewrite (Hd _ _ _ _ _ _ Ha), (Hd _ _ _ _ _ _ Hb); auto using alen_nonneg. }
  exists d, a1, b1, a, b. split; [|by auto].
  exact (for_z_share 0 _ (fun i j s => copy s (if j =? alen es1 then j + 1 else j) (keys nd) i)
    (fun i j s => copy s (if j =? alen es1 then j + 1 else j) (pointers nd) i)
    (fun j => (if j =? alen es1 then j + 1 else j) + 1) _ _ _ _ _ _ Ha Hb).
Qed.

Lemma leaf_halves (nd : node) par es EA EB tk tp new nxt :
  leaf_ok nd par es -> (pointers nd).[order - 1] = Some nxt ->
  holds tk (EA ++ EB).*1 -> holds tp (EA ++ EB).*2 ->
  alen EA = cut (order - 1) -> alen (EA ++ EB) = order ->
  exists ps1 ks1 nps1 nks nps2 ps2 ps3 nps3,
    for_z 0 (cut (order - 1)) (fun i '(ps, ks, nk) =>
      ps ← copy ps i tp i; ks ← copy ks i tk i; Some (ps, ks, nk + 1))
      (pointers nd, keys nd, 0) = Some (ps1, ks1, alen EA) /\
    for_z (cut (order - 1)) order (fun i '(j, ps, ks, nk) =>
      ps ← copy ps j tp i; ks ← copy ks j tk i; Some (j + 1, ps, ks, nk + 1))
      (0, pointers (fresh_node true), keys (fresh_node true), num_keys (fresh_node true))
      = Some (alen EB, nps1, nks, alen EB) /\
    copy nps1 (order - 1) ps1 (order - 1) = Some nps2 /\
    ps1.[order - 1 <- new] = Some ps2 /\
    for_z (alen EA) (order - 1) (fun i ps => ps.[i <- 0]) ps2 = Some ps3 /\
    for_z (alen EB) (order - 1) (fun i ps => ps.[i <- 0]) nps2 = Some nps3 /\
    leaf_ok (with_num_keys (with_pointers (with_keys nd ks1) ps3) (alen EA)) par EA /\
    leaf_ok (with_parent (with_num_keys (with_pointers (with_keys (fresh_node true) nks) nps3)
      (alen EB)) par) par EB /\
    ps3.[order - 1] = Some new /\ nps3.[order - 1] = Some nxt.
Proof.
  intros [Hlf Hpar Hnum Hkl Hpl Hks Hps] Hnxt Htk Htp HEA Hlen.
  destruct (cut_bounds (order - 1)) as (Hc1 & Hc2 & Hc3); [lia|].
  rewrite fmap_app in Htk, Htp. rewrite alen_app in Hlen. pose proof (alen_nonneg EB).
  destruct (copy_prefix (pointers nd) tp EA.*2 EB.*2 Htp) as (ps1 & Hp1 & Hp1l & Hp1h & Hp1o);
    [rewrite alen_fmap; lia|].
  destruct (copy_prefix (keys nd) tk EA.*1 EB.*1 Htk) as (ks1 & Hk1 & Hk1l & Hk1h & _);
    [rewrite alen_fmap; lia|].
  destruct (copy_suffix (pointers (fresh_node true)) tp EA.*2 EB.*2 Htp)
    as (nps1 & Hq1 & Hq1l & Hq1h & _);
    [cbn [pointers fresh_node]; rewrite alen_replicate, alen_fmap; lia|].
  destruct (copy_suffix (keys (fresh_node true)) tk EA.*1 EB.*1 Htk)
    as (nks & Hq2 & Hq2l & Hq2h & _);
    [cbn [keys fresh_node]; rewrite alen_replicate, alen_fmap; lia|].
  cbn [pointers keys fresh_node] in Hq1l, Hq2l. rewrite alen_replicate in Hq1l, Hq2l by lia.
  rewrite !alen_app, !alen_fmap in *.
  assert (Hcopy : copy nps1 (order - 1) ps1 (order - 1)
    = Some (<[Z.to_nat (order - 1) := nxt]> nps1)).
  { apply copy_in; [lia|]. rewrite Hp1o by lia. done. }
  destruct (fill_range_ok (<[Z.to_nat (order - 1) := new]> ps1) (alen EA) (order - 1) 0)
    as (ps3 & Hf & Hfl & Hfo); [lia|rewrite alen_insert; lia|].
  destruct (fill_range_ok (<[Z.to_nat (order - 1) := nxt]> nps1) (alen EB) (order - 1) 0)
    as (nps3 & Hg & Hgl & Hgo); [lia|rewrite alen_insert; lia|].
  rewrite alen_insert in Hfl, Hgl.
  exists ps1, ks1, nps1, nks, (<[Z.to_nat (order - 1) := nxt]> nps1),
    (<[Z.to_nat (order - 1) := new]> ps1), ps3, nps3.
  split; [|split; [|split; [done|split; [apply aset_in; lia|split; [done|split; [done|]]]]]].
  - replace (alen EA) with (0 + (cut (order - 1) - 0)) by lia. rewrite <- HEA.
    by apply for_z_pair_count; [lia|..].
  - rewrite <- HEA. replace order with (alen EA + alen EB) at 1 by lia.
    replace (Some (alen EB, nps1, nks, alen EB)) with
      (Some (alen EB, nps1, nks, num_keys (fresh_node true) + (alen EA + alen EB - alen EA)))
      by (cbn [num_keys fresh_node]; repeat f_equal; lia).
    by apply (for_z_share_count _ _ (fun i j ps => copy ps j tp i) (fun i j ks => copy ks j tk i)
      (fun j => j + 1)); [lia|..].
  - assert (Hkeep : forall (a a' : list Z) l v n, 0 <= n -> alen a = order -> alen a' = alen a ->
      (forall j, 0 <= j -> a'.[j] = if (n <=? j) && (j <? order - 1) then Some 0
         else (<[Z.to_nat (order - 1) := v]> a).[j]) ->
      holds a l -> alen l = n -> n <= order - 1 -> holds a' l /\ a'.[order - 1] = Some v).
    { intros a a' l v n Hn Ha Ha' Ho Hh Hl Hle. split.
      - apply (holds_ext a); [done|done|]. intros j Hj. rewrite Ho by lia.
        destruct (Z.leb_spec n j); [lia|]. simpl. rewrite aget_insert by lia.
        case_decide; [lia|done].
      - rewrite Ho by lia. destruct (Z.ltb_spec (order - 1) (order - 1)); [lia|].
        rewrite andb_false_r, aget_insert by lia. by case_decide. }
    destruct (Hkeep ps1 ps3 EA.*2 new (alen EA)) as [Hh1 Hx1]; rewrite ?alen_fmap; try done; try lia.
    destruct (Hkeep nps1 nps3 EB.*2 nxt (alen EB)) as [Hh2 Hx2]; rewrite ?alen_fmap; try done; try lia.
    split; [|split; [|by split]]; split; cbn; try done; try congruence.
Qed.

End Insert.
