(* ===== verification/BTreeMap.v ===== *)
(** * The B+ tree benchmark: the tree is a finite map

    The specifications of [find], [insert] and [insert_unique] on whole trees,
    the empty tree included, first on the list of entries and then as the
    operations of a finite map from keys to values. *)

From Stdlib Require Import ZArith Lia Sorted.
From stdpp Require Import gmap list numbers.
From S2P Require Import Prelude Arrays BTreeMem BTree BTreeRep BTreeFind BTreeInsert.
#[local] Open Scope Z_scope.

Section Map.
Context {os : OS} (order : Z) (order_min : 3 <= order).
#[local] Abbreviation rep := (rep order).
#[local] Abbreviation wf := (wf order).
#[local] Abbreviation rep_ctx := (rep_ctx order).
#[local] Abbreviation wf_ctx := (wf_ctx order).
#[local] Abbreviation leaf_ok := (leaf_ok order).
#[local] Abbreviation focus := (focus order).
#[local] Abbreviation linked := (linked order).

Definition leaf_of : tree 0 -> list Z := fun t => [t.1].

(** ** The chain of leaves *)

Lemma linked_same H H' l :
  linked H l ->
  (forall x nd, x ∈ l -> H !! x = Some nd ->
     exists nd', H' !! x = Some nd' /\ (pointers nd').[order - 1] = (pointers nd).[order - 1]) ->
  linked H' l.
Proof.
  induction l as [|x l IH]; [done|]. intros [(nd & Hnd & Hx) Hl] Hs. split.
  - destruct (Hs x nd ltac:(by left) Hnd) as (nd' & Hnd' & E). exists nd'. by rewrite E.
  - apply IH; [done|]. intros y ndy Hy. apply Hs. by right.
Qed.

Lemma linked_split H H' L1 p q L2 nd nd1 nd2 :
  linked H (L1 ++ p :: L2) -> (forall x, x ∈ L1 ++ L2 -> H' !! x = H !! x) ->
  H !! p = Some nd ->
  H' !! p = Some nd1 -> (pointers nd1).[order - 1] = Some q ->
  H' !! q = Some nd2 -> (pointers nd2).[order - 1] = (pointers nd).[order - 1] ->
  linked H' (L1 ++ p :: q :: L2).
Proof.
  intros Hl Ha Hp Hp1 Hn1 Hq Hn2. induction L1 as [|x L1 IH]; cbn [app] in *.
  - destruct Hl as [(nd' & Hnd' & Hx) Hl]. assert (nd' = nd) as -> by congruence.
    split; [by exists nd1|]. split; [exists nd2; split; [done|congruence]|].
    eapply linked_same; [exact Hl|]. intros y ndy Hy Hndy. exists ndy. by rewrite Ha.
  - destruct Hl as [(nd' & Hnd' & Hx) Hl]. split.
    + exists nd'. rewrite Ha by (by left). split; [done|]. rewrite Hx. by destruct L1.
    + apply IH; [done|]. intros y Hy. apply Ha. by right.
Qed.

Lemma rep_leaves H n par (t : tree n) x :
  rep H n par t -> x ∈ flat leaf_of n t ->
  x ∈ locs n t /\ exists nd, H !! x = Some nd /\ is_leaf nd = true.
Proof.
  revert par t. induction n as [|n IH]; intros par [p cs] Hrep Hx.
  - apply list_elem_of_singleton in Hx as ->. split; [by left|].
    apply rep_0_inv in Hrep as (nd & Hnd & Hok). exists nd. split; [done|apply Hok].
  - apply rep_S_inv in Hrep as [_ Hcs]. apply list_elem_of_bind in Hx as (kc & Hx & Hkc).
    rewrite locs_S. eapply list.Forall_forall in Hcs; [|exact Hkc].
    destruct (IH _ _ Hcs Hx) as [Hin Hnd]. split; [|done].
    right. apply list_elem_of_bind. eauto.
Qed.

Lemma reps_leaves H n p (cs : list (Z * tree n)) x :
  reps order H p cs -> x ∈ flats leaf_of cs ->
  x ∈ all_locs cs /\ exists nd, H !! x = Some nd /\ is_leaf nd = true.
Proof.
  intros Hcs (kc & Hx & Hkc)%list_elem_of_bind. eapply list.Forall_forall in Hcs; [|exact Hkc].
  destruct (rep_leaves _ _ _ _ _ Hcs Hx) as [Hin Hnd]. split; [|done].
  apply list_elem_of_bind. eauto.
Qed.

Lemma ctx_leaves H n (c : ctx n) q x :
  rep_ctx H c q -> x ∈ ctx_before leaf_of c ++ ctx_after leaf_of c ->
  x ∈ ctx_locs c /\ exists nd, H !! x = Some nd /\ is_leaf nd = true.
Proof.
  revert q. induction c as [n|n p pre lo post up IH]; intros q Hrc Hx.
  { by apply not_elem_of_nil in Hx. }
  destruct Hrc as (_ & Hpre & Hpost & Hup). cbn [ctx_before ctx_after ctx_locs] in *.
  rewrite !elem_of_app in Hx. rewrite elem_of_cons, !elem_of_app.
  destruct Hx as [[Hx|Hx]|[Hx|Hx]].
  - destruct (IH p Hup) as [??]; [rewrite elem_of_app; auto|]. auto.
  - destruct (reps_leaves _ _ _ _ _ Hpre Hx) as [??]. auto.
  - destruct (reps_leaves _ _ _ _ _ Hpost Hx) as [??]. auto.
  - destruct (IH p Hup) as [??]; [rewrite elem_of_app; auto|]. auto.
Qed.

(** ** Sorted entries *)

Lemma sorted_insert (es1 es2 : list (Z * Z)) key r :
  StronglySorted Z.lt (es1 ++ es2).*1 ->
  Forall (fun k => k < key) es1.*1 -> Forall (fun k => key < k) es2.*1 ->
  StronglySorted Z.lt (es1 ++ (key, r) :: es2).*1.
Proof.
  induction es1 as [|[k v] es1 IH]; simpl; intros Hs H1 H2.
  - by constructor.
  - apply StronglySorted_inv in Hs as [Hs Hk]. apply list.Forall_cons in H1 as [Hkey H1].
    constructor; [by apply IH|]. rewrite fmap_app in *. apply list.Forall_app in Hk as [Hk1 Hk2].
    apply list.Forall_app. split; [done|]. simpl. by constructor.
Qed.

Lemma sorted_halves (l1 l2 : list Z) k :
  StronglySorted Z.lt (l1 ++ k :: l2) ->
  StronglySorted Z.lt l1 /\ StronglySorted Z.lt (k :: l2) /\
  Forall (fun x => x < k) l1 /\ Forall (fun x => k <= x) (k :: l2).
Proof.
  induction l1 as [|x l1 IH]; simpl; intros Hs.
  - split; [constructor|]. split; [done|]. split; [constructor|].
    apply StronglySorted_inv in Hs as [_ Hk]. constructor; [lia|].
    eapply Forall_weaken; [exact Hk|]. simpl. intros. lia.
  - apply StronglySorted_inv in Hs as [Hs Hx]. destruct (IH Hs) as (H1 & H2 & H3 & H4).
    apply list.Forall_app in Hx as [Hx1 Hx2]. apply list.Forall_cons in Hx2 as [Hxk _].
    split; [by constructor|]. split; [done|]. split; [by constructor|done].
Qed.

Lemma range_insert (es1 es2 : list (Z * Z)) key r lo hi :
  lo <= key < hi -> Forall (fun k => lo <= k < hi) (es1 ++ es2).*1 ->
  Forall (fun k => lo <= k < hi) (es1 ++ (key, r) :: es2).*1.
Proof.
  rewrite !fmap_app. intros Hk [H1 H2]%list.Forall_app. apply list.Forall_app.
  split; [done|]. by constructor.
Qed.

(** A full leaf with one more entry, cut in two. *)
Lemma leaf_cut (es : list (Z * Z)) lo hi :
  alen es = order -> StronglySorted Z.lt es.*1 -> Forall (fun k => lo <= k < hi) es.*1 ->
  exists EA kb rb EB, es = EA ++ (kb, rb) :: EB /\ alen EA = cut (order - 1) /\
    (forall p, wf 0 lo kb (p, EA)) /\ (forall q, wf 0 kb hi (q, (kb, rb) :: EB)).
Proof.
  intros Hlen Hs Hr. destruct (cut_bounds (order - 1)) as (Hc1 & Hc2 & Hc3); [lia|].
  destruct (list_cut es (cut (order - 1))) as (EA & EB & -> & HEA); [lia|].
  rewrite alen_app in Hlen. destruct EB as [|[kb rb] EB]; [rewrite alen_nil in Hlen; lia|].
  rewrite fmap_app in Hs, Hr. cbn [fmap list_fmap fst] in Hs.
  apply sorted_halves in Hs as (HsA & HsB & HA & HB). apply list.Forall_app in Hr as [HrA HrB].
  exists EA, kb, rb, EB. split; [done|]. split; [done|]. split.
  - intros p. apply wf_0. split; [lia|]. split; [done|].
    rewrite list.Forall_forall in *. intros x Hx. specialize (HrA x Hx). specialize (HA x Hx). lia.
  - intros q. apply wf_0. split; [lia|]. split; [done|]. cbn [fmap list_fmap fst] in *.
    rewrite list.Forall_forall in *. intros x Hx. specialize (HrB x Hx). specialize (HB x Hx). lia.
Qed.

(** ** Insertion at a leaf *)

(** What an insertion at the leaf [p] under the path [c] leaves behind. *)
Definition added (c : ctx 0) (es : list (Z * Z)) (m : mem) (root' : Z) (m' : mem) : Prop :=
  tree_at order m' root' (ctx_before snd c ++ es ++ ctx_after snd c) /\ words_same m m'.

Lemma leaf_room (c : ctx 0) p es1 es2 lo hi key r m nd' :
  focus (nodes m) c (p, es1 ++ es2) lo hi -> lo <= key < hi ->
  nodes_ok m (ctx_locs c ++ [p]) ->
  linked (nodes m) (ctx_before leaf_of c ++ p :: ctx_after leaf_of c) ->
  alen (es1 ++ es2) < order - 1 ->
  Forall (fun k => k < key) es1.*1 -> Forall (fun k => key < k) es2.*1 ->
  leaf_ok nd' (ctx_parent c) (es1 ++ (key, r) :: es2) ->
  (forall nd, nodes m !! p = Some nd -> (pointers nd').[order - 1] = (pointers nd).[order - 1]) ->
  added c (es1 ++ (key, r) :: es2) m (ctx_root c p) (with_nodes m (<[p := nd']> (nodes m))).
Proof.
  intros [Hrep Hwf Hrc Hwc] Hkey Hok Hlk Hlen H1 H2 Hnd' Hnext.
  pose proof (nodes_ok_nodup _ _ Hok) as (_ & Hd & _)%list.NoDup_app.
  apply wf_0_inv in Hwf as (Hl & Hs & Hr).
  set (t := (p, es1 ++ (key, r) :: es2) : tree 0).
  split; [right|same_solve].
  exists (projT1 (plug c t)), (projT2 (plug c t)). cbn [nodes with_nodes].
  split; [by rewrite plug_loc|]. split; [|split; [|split; [|split]]].
  - apply plug_rep; [apply rep_0; exists nd'; split; [apply lookup_insert_eq|done]|].
    eapply rep_ctx_agree; [|exact Hrc]. apply agree_insert. intros Hp. apply (Hd p Hp). by left.
  - apply (plug_wf _ _ _ _ lo hi); [|done]. apply wf_0.
    split; [rewrite alen_app, alen_cons; rewrite alen_app in Hlen; pose proof (alen_nonneg es1);
      pose proof (alen_nonneg es2); lia|].
    split; [by apply sorted_insert|by apply range_insert].
  - apply plug_flat.
  - unfold leaves. rewrite plug_flat. eapply linked_same; [exact Hlk|]. intros x nd Hx Hnd.
    destruct (decide (x = p)) as [->|]; [exists nd'; rewrite lookup_insert_eq; auto|].
    exists nd. by rewrite lookup_insert_ne.
  - rewrite plug_locs. apply nodes_ok_store; [|done]. rewrite elem_of_app. right. by left.
Qed.

Lemma wp_leaf_split (c : ctx 0) p es1 es2 lo hi key r m root :
  focus (nodes m) c (p, es1 ++ es2) lo hi -> lo <= key < hi ->
  nodes_ok m (ctx_locs c ++ [p]) ->
  linked (nodes m) (ctx_before leaf_of c ++ p :: ctx_after leaf_of c) ->
  alen (es1 ++ es2) = order - 1 ->
  Forall (fun k => k < key) es1.*1 -> Forall (fun k => key < k) es2.*1 ->
  root = ctx_root c p -> (ctx_depth c < FUEL)%nat ->
  wp (insert_into_leaf_after_splitting order root p key r) m
    (added c (es1 ++ (key, r) :: es2) m).
Proof.
  intros [Hrep Hwf Hrc Hwc] Hkey Hok Hlk Hlen H1 H2 Hroot Hdepth.
  apply wf_0_inv in Hwf as (_ & Hs & Hr). apply rep_0_inv in Hrep as (nd & Hnd & Hlf).
  unfold insert_into_leaf_after_splitting. apply wp_bind.
  eapply wp_mono; [by apply wp_make_leaf|]. intros q m1 (Hok1 & Hq1 & Ha1 & Hw1).
  apply wp_bind. eapply wp_mono; [apply wp_allocate_align64|]. intros tk m2 (-> & Hn2 & Hw2).
  apply wp_bind. eapply wp_mono; [apply wp_allocate_align64|]. intros tp m3 (-> & Hn3 & Hw3).
  pose proof (nodes_ok_same _ _ _ Hn3 (nodes_ok_same _ _ _ Hn2 Hok1)) as Hok3.
  assert (HS : forall x, nodes m3 !! x = nodes m1 !! x)
    by (intros x; by rewrite (nodes_same_lookup _ _ _ Hn3), (nodes_same_lookup _ _ _ Hn2)).
  assert (Hp3 : nodes m3 !! p = Some nd)
    by (rewrite HS, Ha1; [done|rewrite elem_of_app; right; by left]).
  assert (Hnd3 := nodes_ok_nodup _ _ Hok3). apply list.NoDup_cons in Hnd3 as [Hqn Hnd3].
  rewrite elem_of_app, list_elem_of_singleton in Hqn.
  pose proof Hnd3 as (_ & Hpn & _)%list.NoDup_app.
  apply wp_bind. eapply wp_load; [exact Hp3|]. apply wp_bind. eapply wp_lift.
  { apply (insertion_point_ok (keys nd) _ es1.*1 es2.*1 key); [|..|done|done].
    - rewrite <- fmap_app. apply Hlf.
    - by rewrite <- fmap_app, alen_fmap. }
  rewrite alen_fmap.
  destruct (leaf_temps order nd _ es1 es2 key r (replicate (Z.to_nat (order + 1)) 0)
    (replicate (Z.to_nat (order + 1)) 0) Hlf Hlen) as
    (d & tk1 & tp1 & tk2 & tp2 & Ht1 & Ht2 & Ht3 & Htk & Htp); [rewrite alen_replicate; lia..|].
  apply wp_bind. eapply wp_lift; [exact Ht1|]. cbn beta iota.
  apply wp_bind. eapply wp_lift; [exact Ht2|]. apply wp_bind. eapply wp_lift; [exact Ht3|].
  destruct (aget_in (pointers nd) (order - 1)) as [nxt Hnxt]; [rewrite (lf_ptrs_len _ _ _ _ Hlf); lia|].
  destruct (leaf_cut (es1 ++ (key, r) :: es2) lo hi) as (EA & kb & rb & EB & Ecut & HEA & HwA & HwB).
  { rewrite alen_app, alen_cons. rewrite alen_app in Hlen. lia. }
  { by apply sorted_insert. }
  { by apply range_insert. }
  rewrite Ecut in Htk, Htp |- *. set (ER := (kb, rb) :: EB) in *.
  destruct (leaf_halves order order_min nd _ _ EA ER tk2 tp2 q nxt Hlf Hnxt Htk Htp HEA) as
    (ps1 & ks1 & nps1 & nks & nps2 & ps2 & ps3 & nps3 & Hl1 & Hl2 & Hl3 & Hl4 & Hl5 & Hl6 &
     HlfA & HlfB & HnA & HnB).
  { rewrite <- Ecut, alen_app, alen_cons. rewrite alen_app in Hlen. lia. }
  apply wp_bind. eapply wp_lift; [exact Hl1|]. cbn beta iota.
  apply wp_bind. eapply wp_load; [rewrite HS; exact Hq1|].
  apply wp_bind. eapply wp_lift; [exact Hl2|]. cbn beta iota.
  apply wp_bind. eapply wp_lift; [exact Hl3|]. apply wp_bind. eapply wp_lift; [exact Hl4|].
  apply wp_bind. eapply wp_lift; [exact Hl5|]. apply wp_bind. eapply wp_lift; [exact Hl6|].
  apply wp_bind. eapply wp_store; [exact Hp3|]. apply wp_bind.
  eapply wp_store; [cbn [nodes with_nodes]; rewrite lookup_insert_ne by naive_solver;
    rewrite HS; exact Hq1|].
  apply wp_bind. eapply wp_lift.
  { destruct (lf_keys _ _ _ _ HlfB) as [_ Hh]. apply (Hh 0).
    cbn [fmap list_fmap ER]. rewrite alen_cons. pose proof (alen_nonneg EB.*1). lia. }
  rewrite (lf_parent _ _ _ _ Hlf).
  set (nd1 := with_num_keys _ (alen EA)) in *. set (nd2 := with_parent _ (ctx_parent c)) in *.
  set (m4 := with_nodes _ _).
  assert (Hm4 : nodes m4 = <[q := nd2]> (<[p := nd1]> (nodes m3))) by done.
  assert (Hp4 : nodes m4 !! p = Some nd1)
    by (rewrite Hm4, lookup_insert_ne by naive_solver; apply lookup_insert_eq).
  assert (Hq4 : nodes m4 !! q = Some nd2) by (rewrite Hm4; apply lookup_insert_eq).
  assert (Ha4 : agree (ctx_locs c) (nodes m) (nodes m4)).
  { intros x Hx. rewrite Hm4, !lookup_insert_ne, HS.
    - apply Ha1. rewrite elem_of_app. by left.
    - intros ->. apply (Hpn x Hx). by left.
    - intros ->. auto. }
  eapply wp_mono; [apply (wp_insert_into_parent order order_min FUEL 0 c (p, EA) (q, ER) lo kb hi)|].
  - eapply rep_ctx_agree; [exact Ha4|exact Hrc].
  - done.
  - apply rep_0. by exists nd1.
  - apply rep_0. by exists nd2.
  - apply HwA.
  - apply HwB.
  - unfold m4. apply (nodes_ok_store (with_nodes _ _)).
    { rewrite !elem_of_app. right. right. by left. }
    apply nodes_ok_store; [rewrite !elem_of_app; right; left; by left|].
    eapply nodes_ok_perm; [|exact Hok3]. cbn [locs fst]. solve_Permutation.
  - exact Hroot.
  - exact Hdepth.
  - intros root' m' (n' & t' & -> & Hrep' & Hwf' & Hflat & Hok' & Hw' & Hleaf).
    split; [right; exists n', t'; do 3 (split; [done|])|].
    + split; [unfold entries; rewrite Hflat; cbn [flat snd]; by rewrite <- app_assoc|].
      split; [|done]. unfold leaves. rewrite Hflat. cbn [flat fst app].
      assert (linked (nodes m4) (ctx_before leaf_of c ++ p :: q :: ctx_after leaf_of c)) as Hl.
      { apply (linked_split (nodes m) _ _ p q _ nd nd1 nd2); try done.
        - intros x Hx. apply Ha4. by eapply ctx_leaves.
        - by rewrite Hnxt. }
      eapply linked_same; [exact Hl|]. intros x ndx Hx Hndx.
      assert (x ∈ ctx_locs c ++ [p] ++ [q] /\ is_leaf ndx = true) as [Hin Hlx].
      { rewrite elem_of_app, !elem_of_cons in Hx. rewrite !elem_of_app, !list_elem_of_singleton.
        destruct Hx as [Hx|[->|[->|Hx]]].
        - destruct (ctx_leaves _ _ c p x Hrc) as (Hin & ndy & Hndy & Hly);
            [rewrite elem_of_app; by left|]. rewrite Ha4, Hndy in Hndx by done.
          injection Hndx as <-. auto.
        - assert (ndx = nd1) as -> by congruence. split; [auto|apply HlfA].
        - assert (ndx = nd2) as -> by congruence. split; [auto|apply HlfB].
        - destruct (ctx_leaves _ _ c p x Hrc) as (Hin & ndy & Hndy & Hly);
            [rewrite elem_of_app; by right|]. rewrite Ha4, Hndy in Hndx by done.
          injection Hndx as <-. auto. }
      destruct (Hleaf x ndx Hin Hndx Hlx) as (nd' & Hnd' & _ & E). exists nd'. by rewrite E.
    + etransitivity; [exact Hw1|]. etransitivity; [exact Hw2|]. etransitivity; [exact Hw3|].
      etransitivity; [|exact Hw']. same_solve.
Qed.

Lemma wp_start_new_tree m key r :
  in_u64 key -> nodes_ok m [] ->
  wp (start_new_tree order key r) m (fun root' m' =>
    tree_at order m' root' [(key, r)] /\ words_same m m').
Proof.
  intros Hkey Hok. unfold start_new_tree. apply wp_bind.
  eapply wp_mono; [by apply wp_make_leaf|]. intros q m1 (Hok1 & Hq & _ & Hw).
  apply wp_bind. eapply wp_load; [done|]. cbn [keys pointers num_keys fresh_node].
  apply wp_bind. eapply wp_lift; [apply aset_in; rewrite alen_replicate; lia|].
  apply wp_bind. eapply wp_lift; [apply aset_in; rewrite alen_replicate; lia|].
  apply wp_bind. eapply wp_lift; [apply aset_in; rewrite alen_insert, alen_replicate; lia|].
  apply wp_bind. eapply wp_store; [done|]. apply wp_ret.
  split; [|etransitivity; [exact Hw|same_solve]]. right.
  exists 0%nat, (q, [(key, r)]). set (nd := with_num_keys _ _). cbn [nodes with_nodes].
  split; [done|]. split; [|split; [|split; [done|split]]].
  - apply rep_0. exists nd. split; [apply lookup_insert_eq|].
    split; cbn [nd is_leaf parent num_keys keys pointers with_parent with_num_keys
      with_pointers with_keys fresh_node]; try done;
      rewrite ?alen_insert, ?alen_replicate by lia; try lia.
    + split; [rewrite alen_insert, alen_replicate by lia; unfold alen; simpl; lia|].
      intros i Hi. change (alen _) with 1 in Hi. replace i with 0 by lia.
      rewrite (aget_insert _ 0) by (rewrite alen_replicate; lia). done.
    + split; [rewrite !alen_insert, alen_replicate by lia; unfold alen; simpl; lia|].
      intros i Hi. change (alen _) with 1 in Hi. replace i with 0 by lia.
      rewrite aget_insert by (rewrite alen_insert, alen_replicate; lia).
      case_decide; [lia|]. rewrite (aget_insert _ 0) by (rewrite alen_replicate; lia). done.
  - apply wf_0. change (alen _) with 1. split; [lia|]. split; [by repeat constructor|].
    by repeat constructor; destruct Hkey.
  - split; [|done]. exists nd. split; [apply lookup_insert_eq|]. cbn [nd pointers with_parent
      with_num_keys with_pointers with_keys fresh_node].
    rewrite aget_insert by (rewrite alen_insert, alen_replicate; lia). by case_decide.
  - apply nodes_ok_store; [by left|done].
Qed.

Lemma plug_depth n (c : ctx n) (t : tree n) : projT1 (plug c t) = (ctx_depth c + n)%nat.
Proof.
  induction c as [n|n p pre lo post up IH]; [done|]. cbn [plug ctx_depth]. rewrite IH. lia.
Qed.

(** The search phase of an insertion: the leaf, its path, and where the key goes. *)
Lemma wp_locate m n (t : tree n) key :
  rep (nodes m) n 0 t -> wf n 0 (2 ^ 64) t -> linked (nodes m) (leaves n t) ->
  nodes_ok m (locs n t) -> in_u64 key -> key ∉ (entries n t).*1 ->
  wp (find_leaf (loc t) key) m (fun p m' => m' = m /\
    exists (c : ctx 0) es1 es2 lo hi nd,
      loc t = ctx_root c p /\ focus (nodes m) c (p, es1 ++ es2) lo hi /\ lo <= key < hi /\
      entries n t = ctx_before snd c ++ (es1 ++ es2) ++ ctx_after snd c /\
      nodes_ok m (ctx_locs c ++ [p]) /\
      linked (nodes m) (ctx_before leaf_of c ++ p :: ctx_after leaf_of c) /\
      Forall (fun k => k < key) es1.*1 /\ Forall (fun k => key < k) es2.*1 /\
      (ctx_depth c < FUEL)%nat /\
      nodes m !! p = Some nd /\ leaf_ok nd (ctx_parent c) (es1 ++ es2) /\
      1 <= alen (es1 ++ es2) <= order - 1).
Proof.
  intros Hrep Hwf Hlk Hok Hkey Hno.
  eapply wp_mono; [by apply (wp_find_leaf order)|].
  intros p m' (-> & c & [q es] & lo & hi & -> & Hplug & Hf & Hr). split; [done|].
  pose proof (fc_rep _ _ _ _ _ _ Hf) as (nd & Hnd & Hlf)%rep_0_inv.
  pose proof (fc_wf _ _ _ _ _ _ Hf) as (Hlen & Hs & Hrange)%wf_0_inv.
  pose proof (plug_flat snd c (q, es)) as He. pose proof (plug_flat leaf_of c (q, es)) as Hlv.
  pose proof (plug_locs c (q, es)) as Hlocs. pose proof (plug_depth _ c (q, es)) as Hdep.
  pose proof (plug_loc c (q, es)) as Hloc.
  rewrite Hplug in He, Hlv, Hlocs, Hdep, Hloc. cbn [projT1 projT2] in *.
  assert (key ∉ es.*1) as Hno'.
  { intros ([k r] & -> & Hin)%list_elem_of_fmap. apply Hno, list_elem_of_fmap.
    exists (k, r). split; [done|]. by apply (focus_entries order n t c (q, es) _ _ _ k r Hplug Hf). }
  destruct (sorted_split es key Hs Hno') as (es1 & es2 & -> & H1 & H2).
  exists c, es1, es2, lo, hi, nd. rewrite Hlocs in Hok.
  change (leaves n t) with (flat leaf_of n t) in Hlk.
  rewrite Hlv in Hlk. pose proof (wf_height _ _ _ Hwf). unfold FUEL.
  do 4 (split; [done|]). do 4 (split; [done|]). split; [lia|]. done.
Qed.

(** The tree with a new entry, in its place. *)
Definition gains (m : mem) (es : list (Z * Z)) (key r root' : Z) (m' : mem) : Prop :=
  (exists es1 es2, es = es1 ++ es2 /\ tree_at order m' root' (es1 ++ (key, r) :: es2)) /\
  words_same m m'.

Lemma added_gains c es1 es2 key r m root' m' :
  added c (es1 ++ (key, r) :: es2) m root' m' ->
  gains m (ctx_before snd c ++ (es1 ++ es2) ++ ctx_after snd c) key r root' m'.
Proof.
  intros [Ht Hw]. split; [|done].
  exists (ctx_before snd c ++ es1), (es2 ++ ctx_after snd c).
  split; [by rewrite <- !app_assoc|]. by rewrite <- !app_assoc in Ht |- *.
Qed.

Lemma wp_insert_absent m n (t : tree n) key r :
  rep (nodes m) n 0 t -> wf n 0 (2 ^ 64) t -> linked (nodes m) (leaves n t) ->
  nodes_ok m (locs n t) -> in_u64 key -> key ∉ (entries n t).*1 ->
  wp (leaf ← find_leaf (loc t) key; n ← load leaf;
      if num_keys n <? order - 1 then _ ← insert_into_leaf leaf key r; mret (loc t)
      else insert_into_leaf_after_splitting order (loc t) leaf key r) m
    (gains m (entries n t) key r).
Proof.
  intros Hrep Hwf Hlk Hok Hkey Hno. apply wp_bind.
  eapply wp_mono; [by apply wp_locate|].
  intros p m' (-> & c & es1 & es2 & lo & hi & nd & Hroot & Hf & Hr & He & Hok' & Hlk' & H1 & H2 &
    Hdep & Hnd & Hlf & Hlen). rewrite He.
  apply wp_bind. eapply wp_load; [done|]. rewrite (lf_num _ _ _ _ Hlf).
  destruct (Z.ltb_spec (alen (es1 ++ es2)) (order - 1)).
  - apply wp_bind. eapply wp_mono; [by apply (wp_insert_into_leaf order m p nd (ctx_parent c) es1 es2)|].
    intros _ m' (_ & nd' & -> & Hlf' & Hnext). apply wp_ret. apply added_gains. rewrite Hroot.
    apply (leaf_room c p es1 es2 lo hi); try done. intros nd0 Hnd0. congruence.
  - eapply wp_mono; [apply (wp_leaf_split c p es1 es2 lo hi key r); try done; lia|].
    intros root' m'. apply added_gains.
Qed.

Lemma wp_insert_unique m root es key r :
  tree_at order m root es -> in_u64 key -> key ∉ es.*1 ->
  wp (insert_unique order root key r) m (gains m es key r).
Proof.
  intros [(-> & -> & Hok)|(n & t & -> & Hrep & Hwf & <- & Hlk & Hok)] Hkey Hno;
    unfold insert_unique.
  { eapply wp_mono; [by apply wp_start_new_tree|]. intros root' m' [Ht Hw].
    split; [|done]. by exists [], []. }
  pose proof (nodes_ok_pos _ _ (loc t) Hok (loc_in t)).
  destruct (Z.eqb_spec (loc t) 0); [lia|]. apply wp_bind.
  eapply wp_mono; [by apply wp_locate|].
  intros p m' (-> & c & es1 & es2 & lo & hi & nd & Hroot & Hf & Hr & He & Hok' & Hlk' & H1 & H2 &
    Hdep & Hnd & Hlf & Hlen). rewrite He.
  apply wp_bind. eapply wp_load; [done|]. rewrite (lf_num _ _ _ _ Hlf).
  destruct (Z.ltb_spec (alen (es1 ++ es2)) (order - 1)).
  2:{ eapply wp_mono; [apply (wp_leaf_split c p es1 es2 lo hi key r); try done; lia|].
      intros root' m'. apply added_gains. }
  destruct (Z.eqb_spec (alen (es1 ++ es2)) 0); [lia|].
  destruct (list_last (es1 ++ es2)) as (es' & [k v] & E & Hes'); [lia|].
  assert (Hlast : (keys nd).[alen (es1 ++ es2) - 1] = Some k).
  { destruct (lf_keys _ _ _ _ Hlf) as [_ Hh]. rewrite alen_fmap in Hh. rewrite Hh by lia.
    rewrite aget_fmap, <- Hes', E. by rewrite aget_middle. }
  apply wp_bind, wp_bind. eapply wp_lift; [done|]. apply wp_ret.
  destruct (Z.ltb_spec k key).
  - assert (es2 = []) as ->.
    { destruct es2 as [|e es2 _] using rev_ind; [done|exfalso].
      rewrite app_assoc in E. apply app_inj_tail in E as [_ ->].
      rewrite fmap_app in H2. apply list.Forall_app in H2 as [_ H2].
      apply list.Forall_cons in H2 as [H2 _]. simpl in H2. lia. }
    rewrite app_nil_r in *. destruct Hlf as [Hlf Hpar Hnum Hkl Hpl Hks Hps].
    apply wp_bind. eapply wp_lift; [apply aset_in; lia|].
    apply wp_bind. eapply wp_lift; [apply aset_in; lia|].
    apply wp_bind. eapply wp_store; [done|]. apply wp_ret.
    rewrite <- (app_nil_r es1) at 1. apply added_gains. rewrite Hroot.
    apply (leaf_room c p es1 [] lo hi); rewrite ?app_nil_r; try done.
    + split; cbn; rewrite ?alen_insert, ?fmap_app; try done.
      * rewrite alen_app. done.
      * eapply holds_snoc; [done|]. rewrite alen_fmap. apply aset_in. lia.
      * eapply holds_snoc; [done|]. rewrite alen_fmap. apply aset_in. lia.
    + intros nd0 Hnd0. assert (nd0 = nd) as -> by congruence. cbn.
      rewrite aget_insert by lia. case_decide; [lia|done].
  - apply wp_bind. eapply wp_mono; [by apply (wp_insert_into_leaf order m p nd (ctx_parent c) es1 es2)|].
    intros _ m' (_ & nd' & -> & Hlf' & Hnext). apply wp_ret. apply added_gains. rewrite Hroot.
    apply (leaf_room c p es1 es2 lo hi); try done. intros nd0 Hnd0. congruence.
Qed.

(** ** The finite map *)

(** The tree at [root] stores [mp]: every key has its own live record with the
    value; [X] are the other live words (elements, records of callers). *)
Definition map_at (m : mem) (root : Z) (X : list Z) (mp : gmap Z Z) : Prop :=
  exists es, tree_at order m root es /\ words_ok m (es.*2 ++ X) /\
    forall k v, mp !! k = Some v <-> exists r, (k, r) ∈ es /\ words m !! r = Some v.

Lemma tree_at_same m m' root es : nodes_same m m' -> tree_at order m root es -> tree_at order m' root es.
Proof.
  intros Hs [(-> & -> & Hok)|(n & t & -> & Hrep & Hwf & He & Hlk & Hok)].
  - left. split; [done|]. split; [done|]. by eapply nodes_ok_same.
  - right. exists n, t. pose proof (nodes_ok_same _ _ _ Hs Hok).
    destruct Hs as (-> & _). done.
Qed.

Lemma tree_at_sorted m root es : tree_at order m root es -> StronglySorted Z.lt es.*1.
Proof.
  intros [(_ & -> & _)|(n & t & _ & _ & Hwf & <- & _)]; [constructor|]. by eapply wf_sorted.
Qed.

Lemma sorted_unique (es : list (Z * Z)) k r r' :
  StronglySorted Z.lt es.*1 -> (k, r) ∈ es -> (k, r') ∈ es -> r = r'.
Proof.
  induction es as [|[k0 r0] es IH]; simpl; intros Hs Hr Hr'; [by apply not_elem_of_nil in Hr|].
  apply StronglySorted_inv in Hs as [Hs Hk].
  assert (forall x, (k0, x) ∈ es -> False) as Hno.
  { intros x Hx. rewrite list.Forall_forall in Hk. specialize (Hk k0).
    assert (k0 ∈ es.*1) by (apply list_elem_of_fmap; by exists (k0, x)). specialize (Hk H). lia. }
  rewrite elem_of_cons in Hr, Hr'. destruct Hr as [Hr|Hr], Hr' as [Hr'|Hr']; simplify_eq; eauto;
    exfalso; eauto.
Qed.

Lemma nodup_snd (es : list (Z * Z)) X k k' r :
  NoDup (es.*2 ++ X) -> (k, r) ∈ es -> (k', r) ∈ es -> k = k'.
Proof.
  intros (Hnd & _)%list.NoDup_app. induction es as [|[k0 r0] es IH]; simpl in *;
    intros Hr Hr'; [by apply not_elem_of_nil in Hr|].
  apply list.NoDup_cons in Hnd as [Hn Hnd].
  assert (forall x, (x, r0) ∈ es -> False) as Hno.
  { intros x Hx. apply Hn, list_elem_of_fmap. by exists (x, r0). }
  rewrite elem_of_cons in Hr, Hr'. destruct Hr as [Hr|Hr], Hr' as [Hr'|Hr']; simplify_eq; eauto;
    exfalso; eauto.
Qed.

Lemma entry_word_pos m (es : list (Z * Z)) X k r : words_ok m (es.*2 ++ X) -> (k, r) ∈ es -> 0 < r.
Proof.
  intros Hw Hin. apply (words_ok_pos _ _ _ Hw). rewrite elem_of_app. left.
  apply list_elem_of_fmap. by exists (k, r).
Qed.

(** C3: [find] is lookup.  On a tree that stores the map [mp] it changes
    nothing, returns [NULL] for a key outside the map and otherwise a record
    that holds the key's value. *)
Theorem find_correct m root X mp key :
  map_at m root X mp -> in_u64 key ->
  wp (find root key) m (fun '(r, _) m' => m' = m /\
    match mp !! key with
    | Some v => r <> 0 /\ words m !! r = Some v
    | None => r = 0
    end).
Proof.
  intros (es & Ht & Hw & Hmp) Hkey.
  eapply wp_mono; [by apply (wp_find order)|]. intros [r leaf] m' [-> Hcase]. split; [done|].
  destruct Hcase as [Hin|[-> Hno]].
  - pose proof Hw as (free & _ & _ & Hl & _).
    destruct (Hl r) as [v Hv]; [rewrite elem_of_app; left; apply list_elem_of_fmap; by exists (key, r)|].
    rewrite (proj2 (Hmp key v)) by eauto. split; [|done].
    pose proof (entry_word_pos _ _ _ _ _ Hw Hin). lia.
  - destruct (mp !! key) as [v|] eqn:E; [|done]. apply Hmp in E as (r & Hin & _).
    exfalso. apply Hno, list_elem_of_fmap. by exists (key, r).
Qed.

(** A new entry with a fresh record is an insertion into the map. *)
Lemma map_gain m m' (es es1 es2 : list (Z * Z)) X (mp : gmap Z Z) key r v :
  es = es1 ++ es2 -> key ∉ es.*1 ->
  (forall k v, mp !! k = Some v <-> exists r, (k, r) ∈ es /\ words m !! r = Some v) ->
  words m' !! r = Some v -> (forall q, q ∈ es.*2 ++ X -> words m' !! q = words m !! q) ->
  forall k w, <[key := v]> mp !! k = Some w <->
    exists q, (k, q) ∈ es1 ++ (key, r) :: es2 /\ words m' !! q = Some w.
Proof.
  intros -> Hno Hmp Hr Hsame k w.
  assert (Hold : forall k q, (k, q) ∈ es1 ++ es2 -> words m' !! q = words m !! q).
  { intros k' q Hin. apply Hsame. rewrite elem_of_app. left. apply list_elem_of_fmap.
    by exists (k', q). }
  setoid_rewrite elem_of_app. setoid_rewrite elem_of_cons.
  destruct (decide (k = key)) as [->|Hne].
  - rewrite lookup_insert_eq. split.
    + intros [= <-]. exists r. auto.
    + intros (q & Hin & Hq). assert ((key, q) = (key, r)) as [= ->]; [|congruence].
      destruct Hin as [Hin|[Hin|Hin]]; [exfalso|done|exfalso]; apply Hno, list_elem_of_fmap;
        exists (key, q); rewrite elem_of_app; auto.
  - rewrite lookup_insert_ne by done. rewrite Hmp. split; intros (q & Hin & Hq).
    + exists q. rewrite (Hold k q Hin). rewrite elem_of_app in Hin. naive_solver.
    + assert ((k, q) ∈ es1 ++ es2) as Hin' by (rewrite elem_of_app; naive_solver).
      exists q. by rewrite <- (Hold k q Hin').
Qed.

(** Writing the record of a key that is there updates the map. *)
Lemma map_update m (es : list (Z * Z)) X (mp : gmap Z Z) key r value :
  StronglySorted Z.lt es.*1 -> NoDup (es.*2 ++ X) -> (key, r) ∈ es ->
  (forall k v, mp !! k = Some v <-> exists r, (k, r) ∈ es /\ words m !! r = Some v) ->
  forall k w, <[key := value]> mp !! k = Some w <->
    exists q, (k, q) ∈ es /\ <[r := value]> (words m) !! q = Some w.
Proof.
  intros Hs Hnd Hin Hmp k w. destruct (decide (k = key)) as [->|Hne].
  - rewrite lookup_insert_eq. split.
    + intros [= <-]. exists r. by rewrite lookup_insert_eq.
    + intros (q & Hq & Hw). rewrite (sorted_unique es key q r Hs Hq Hin) in Hw.
      rewrite lookup_insert_eq in Hw. congruence.
  - rewrite lookup_insert_ne by done. rewrite Hmp.
    split; intros (q & Hq & Hw); exists q; (split; [done|]);
      (rewrite lookup_insert_ne in * by (intros ->; apply Hne; by eapply nodup_snd)); done.
Qed.

Lemma wp_insert m root X mp key value :
  map_at m root X mp -> in_u64 key ->
  wp (insert order root key value) m (fun root' m' =>
    map_at m' root' X (<[key := value]> mp) /\
    forall x, x ∈ X -> words m' !! x = words m !! x).
Proof.
  intros (es & Ht & Hw & Hmp) Hkey. unfold insert. apply wp_bind.
  eapply wp_mono; [by apply (wp_find order)|]. intros [r leaf] m' [-> [Hin|[-> Hno]]].
  - pose proof (entry_word_pos _ _ _ _ _ Hw Hin). destruct (Z.eqb_spec r 0); [lia|]. cbn [negb].
    pose proof Hw as (free & _ & _ & Hl & _). pose proof (words_ok_nodup _ _ Hw) as Hnd.
    assert (r ∈ es.*2) as Hr by (apply list_elem_of_fmap; by exists (key, r)).
    destruct (Hl r) as [v Hv]; [rewrite elem_of_app; by left|].
    apply wp_bind. eapply wp_store_word; [done|]. apply wp_ret. split.
    + exists es. split; [eapply tree_at_same; [|exact Ht]; same_solve|].
      split; [apply words_ok_store; [rewrite elem_of_app; by left|done]|].
      apply (map_update m es X); try done. by eapply tree_at_sorted.
    + intros x Hx. cbn [words with_words]. rewrite lookup_insert_ne; [done|]. intros ->.
      apply list.NoDup_app in Hnd as (_ & Hd & _). by apply (Hd x).
  - cbn [Z.eqb negb]. apply wp_bind.
    eapply wp_mono; [by apply wp_make_record|]. intros r m1 (Hw1 & Hr1 & Hsame & Hn1).
    apply (tree_at_same _ _ _ _ Hn1) in Ht.
    assert (forall root' m2, gains m1 es key r root' m2 ->
      map_at m2 root' X (<[key := value]> mp) /\ forall x, x ∈ X -> words m2 !! x = words m !! x)
      as Hdone.
    { intros root' m2 [(es1 & es2 & E & Ht2) Hw2].
      pose proof (words_ok_same _ _ _ Hw2 Hw1) as Hok2. destruct Hw2 as (Hw2 & _).
      split; [|intros x Hx; rewrite Hw2; apply Hsame; rewrite elem_of_app; by right].
      exists (es1 ++ (key, r) :: es2). split; [done|]. split.
      - eapply words_ok_perm; [|exact Hok2]. rewrite E, !fmap_app, fmap_cons. cbn [snd].
        solve_Permutation.
      - apply (map_gain m m2 es es1 es2 X); try done; [by rewrite Hw2|].
        intros q Hq. rewrite Hw2. by apply Hsame. }
    destruct Ht as [(-> & -> & Hok)|(n & t & -> & Hrep & Hwf & <- & Hlk & Hok)].
    + cbn [Z.eqb]. eapply wp_mono; [by apply wp_start_new_tree|]. intros root' m2 [Ht2 Hw2].
      apply Hdone. split; [|done]. by exists [], [].
    + pose proof (nodes_ok_pos _ _ (loc t) Hok (loc_in t)).
      destruct (Z.eqb_spec (loc t) 0); [lia|].
      eapply wp_mono; [by apply (wp_insert_absent m1 n t key r)|exact Hdone].
Qed.

(** C2: [insert] is insertion into the map: the key gets the value whether it
    was there or not, every other key keeps its own, and nothing else that is
    live changes; splits and new roots included. *)
Theorem insert_correct m root X mp key value :
  map_at m root X mp -> in_u64 key ->
  wp (insert order root key value) m (fun root' m' =>
    map_at m' root' X (<[key := value]> mp) /\
    forall x, x ∈ X -> words m' !! x = words m !! x).
Proof. apply wp_insert. Qed.

Lemma map_at_boot : map_at boot 0 [] ∅.
Proof.
  exists []. split; [left; split; [done|]; split; [done|apply boot_nodes]|].
  split; [apply boot_words|]. intros k v. rewrite lookup_empty. split; [done|].
  intros (r & Hin & _). by apply not_elem_of_nil in Hin.
Qed.

End Map.

(** ** Witnesses: a tree of order 4 that has split *)

#[local] Existing Instance bump_os.

Definition insert_all {os : OS} (order : Z) (ks : list Z) : M Z :=
  foldr (fun k c => root ← c; insert order root k (10 * k)) (mret 0) ks.

Lemma insert_all_at ks :
  Forall in_u64 ks ->
  wp (insert_all (os := bump_os) 4 ks) boot (fun root m =>
    map_at 4 m root [] (foldr (fun k mp => <[k := 10 * k]> mp) ∅ ks)).
Proof.
  induction 1 as [|k ks Hk _ IH]; cbn [insert_all foldr].
  - apply wp_ret, map_at_boot.
  - apply wp_bind. eapply wp_mono; [exact IH|]. intros root m Hm.
    eapply wp_mono;
      [exact (wp_insert (os := bump_os) 4 ltac:(lia) m root [] _ k (10 * k) Hm Hk)|].
    by intros root' m' [? _].
Qed.

Definition ok {A} (r : result A) : bool := match r with Ok _ _ => true | _ => false end.

(** Nine keys in a tree of order 4: the root has split. *)
Definition sample_keys : list Z := [5; 1; 9; 3; 7; 2; 8; 4; 6].
Definition sample_map : gmap Z Z := foldr (fun k mp => <[k := 10 * k]> mp) ∅ sample_keys.

Lemma wp_ok {A} (c : M A) m Q :
  wp c m Q -> ok (c m) = true -> exists a m', c m = Ok a m' /\ Q a m'.
Proof. unfold wp. destruct (c m); [eauto|done|done]. Qed.

Lemma sample_ok : ok (insert_all (os := bump_os) 4 sample_keys boot) = true.
Proof. vm_compute. reflexivity. Qed.

Lemma sample_tree :
  exists root m, insert_all (os := bump_os) 4 sample_keys boot = Ok root m /\
    map_at 4 m root [] sample_map.
Proof. apply wp_ok; [apply insert_all_at; by repeat constructor|apply sample_ok]. Qed.

Lemma sample_map_7 : sample_map !! 7 = Some 70.
Proof. reflexivity. Qed.

Lemma find_correct_witness :
  exists root m, insert_all (os := bump_os) 4 sample_keys boot = Ok root m /\
    wp (find root 7) m (fun '(r, _) m' => m' = m /\ r <> 0 /\ words m !! r = Some 70).
Proof.
  destruct sample_tree as (root & m & Hrun & Hm). exists root, m. split; [exact Hrun|].
  assert (H7 : in_u64 7) by (unfold in_u64; lia).
  refine (wp_mono _ _ _ _ (find_correct 4 m root [] sample_map 7 Hm H7) _).
  intros [r leaf] m' [-> Hr]. rewrite sample_map_7 in Hr. exact (conj eq_refl Hr).
Defined.

Lemma insert_correct_witness :
  exists root m, insert_all (os := bump_os) 4 sample_keys boot = Ok root m /\
    wp (insert (os := bump_os) 4 root 0 11) m (fun root' m' =>
      map_at 4 m' root' [] (<[0 := 11]> sample_map) /\
      forall x, x ∈ [] -> words m' !! x = words m !! x).
Proof.
  destruct sample_tree as (root & m & Hrun & Hm). exists root, m. split; [exact Hrun|].
  assert (H0 : in_u64 0) by (unfold in_u64; lia).
  exact (insert_correct (os := bump_os) 4 ltac:(lia) m root [] sample_map 0 11 Hm H0).
Defined.
