(* ===== verification/BTreeDelete.v ===== *)
(** * The B+ tree benchmark: deletion, the code (sources/btree/btree.c)

    Removal of an entry with the repair of the tree on the way up (a node that
    is too small takes an entry from a sibling or is merged into it), and the
    destruction of a tree. *)

From Stdlib Require Import ZArith Lia.
From stdpp Require Import gmap list numbers.
From S2P Require Import Prelude Arrays BTreeMem BTree.
#[local] Open Scope Z_scope.

Section Code.
Context {os : OS} (order : Z).

(** The [-1] that marks a node without left sibling, in [uint64_t]. *)
Definition NONE : Z := 2 ^ 64 - 1.

Definition get_neighbor_index (n_ : Z) : M Z :=
  n ← load n_;
  p ← load (parent n);
  i ← lift (scan (num_keys p + 1) (fun i => q ← (pointers p).[i]; Some (negb (q =? n_))));
  if i <=? num_keys p then mret (u64 (i - 1)) else exit_with 1 Nonexistent_pointer.

(** [i = 0; while (a[i] != x) i++;] *)
Definition index_of (a : list Z) (x : Z) : option Z :=
  i ← scan (alen a) (fun i => y ← a.[i]; Some (negb (y =? x)));
  assert! i <? alen a;
  Some i.

Definition remove_entry_from_node (n_ key pointer : Z) : M Z :=
  n ← load n_;
  i ← lift (index_of (keys n) key);
  ks ← lift (for_z (i + 1) (num_keys n) (fun i ks => copy ks (i - 1) ks i) (keys n));
  let num_pointers := if is_leaf n then num_keys n else num_keys n + 1 in
  i ← lift (index_of (pointers n) pointer);
  ps ← lift (for_z (i + 1) num_pointers (fun i ps => copy ps (i - 1) ps i) (pointers n));
  let nk := u64 (num_keys n - 1) in
  ps ← lift (if is_leaf n then for_z nk (order - 1) (fun i ps => ps.[i <- 0]) ps
             else for_z (nk + 1) order (fun i ps => ps.[i <- 0]) ps);
  _ ← store n_ (with_num_keys (with_pointers (with_keys n ks) ps) nk);
  mret n_.

(** [free(p->keys)] and [free(p->pointers)], of arrays that are allocated. *)
Definition free_keys (p : Z) : M unit :=
  n ← load p;
  if alen (keys n) =? 0 then undef else store p (with_keys n []).
Definition free_pointers (p : Z) : M unit :=
  n ← load p;
  if alen (pointers n) =? 0 then undef else store p (with_pointers n []).

Definition adjust_root (root : Z) : M Z :=
  n ← load root;
  if 0 <? num_keys n then mret root
  else
    new_root ← (if negb (is_leaf n) then
                  new_root ← lift ((pointers n).[0]);
                  c ← load new_root;
                  _ ← store new_root (with_parent c 0);
                  mret new_root
                else mret 0);
    _ ← free_keys root;
    _ ← free_pointers root;
    _ ← free_node root;
    mret new_root.

(** The copying phase: [n] is appended to [neighbor], its left sibling. *)
Definition merge_into (neighbor n_ k_prime : Z) : M unit :=
  nb ← load neighbor;
  n ← load n_;
  let neighbor_insertion_index := num_keys nb in
  if negb (is_leaf n) then
    ks ← lift ((keys nb).[neighbor_insertion_index <- k_prime]);
    let n_end := num_keys n in
    '(i, ks, ps, nbk, nk) ← lift (for_z 0 n_end (fun j '(i, ks, ps, nbk, nk) =>
        ks ← copy ks i (keys n) j; ps ← copy ps i (pointers n) j;
        Some (i + 1, ks, ps, nbk + 1, nk - 1))
      (neighbor_insertion_index + 1, ks, pointers nb, num_keys nb + 1, num_keys n));
    ps ← lift (copy ps i (pointers n) n_end);
    _ ← store neighbor (with_num_keys (with_pointers (with_keys nb ks) ps) nbk);
    _ ← store n_ (with_num_keys n nk);
    set_parents ps (nbk + 1) neighbor
  else
    '(i, ks, ps, nbk) ← lift (for_z 0 (num_keys n) (fun j '(i, ks, ps, nbk) =>
        ks ← copy ks i (keys n) j; ps ← copy ps i (pointers n) j;
        Some (i + 1, ks, ps, nbk + 1))
      (neighbor_insertion_index, keys nb, pointers nb, num_keys nb));
    ps ← lift (copy ps (order - 1) (pointers n) (order - 1));
    store neighbor (with_num_keys (with_pointers (with_keys nb ks) ps) nbk).

(** [delete_entry] is passed in: the two call each other. *)
Definition coalesce_nodes (delete_entry : Z -> Z -> Z -> Z -> M Z)
    (root n_ neighbor neighbor_index k_prime : Z) : M Z :=
  let '(n_, neighbor) := if neighbor_index =? NONE then (neighbor, n_) else (n_, neighbor) in
  _ ← merge_into neighbor n_ k_prime;
  n ← load n_;
  root ← delete_entry root (parent n) k_prime n_;
  _ ← free_keys n_;
  _ ← free_pointers n_;
  _ ← free_node n_;
  mret root.

(** [n->parent->keys[i] = k] *)
Definition set_parent_key (n_ i k : Z) : M unit :=
  n ← load n_;
  p ← load (parent n);
  ks ← lift ((keys p).[i <- k]);
  store (parent n) (with_keys p ks).

(** [tmp->parent = n] *)
Definition adopt (tmp n_ : Z) : M unit :=
  c ← load tmp; store tmp (with_parent c n_).

Definition take_from_left (n_ neighbor k_prime_index k_prime : Z) : M unit :=
  n ← load n_;
  nb ← load neighbor;
  let leaf := is_leaf n in
  ps ← lift (if negb leaf then copy (pointers n) (num_keys n + 1) (pointers n) (num_keys n)
             else Some (pointers n));
  '(ks, ps) ← lift (for_down (num_keys n) 0 (fun i '(ks, ps) =>
      ks ← copy ks i ks (i - 1); ps ← copy ps i ps (i - 1); Some (ks, ps)) (keys n, ps));
  if negb leaf then
    x ← lift ((pointers nb).[num_keys nb]);
    ps ← lift (ps.[0 <- x]);
    nps ← lift ((pointers nb).[num_keys nb <- 0]);
    ks ← lift (ks.[0 <- k_prime]);
    k ← lift ((keys nb).[u64 (num_keys nb - 1)]);
    _ ← store n_ (with_num_keys (with_pointers (with_keys n ks) ps) (num_keys n + 1));
    _ ← store neighbor (with_num_keys (with_pointers nb nps) (u64 (num_keys nb - 1)));
    _ ← adopt x n_;
    set_parent_key n_ k_prime_index k
  else
    x ← lift ((pointers nb).[u64 (num_keys nb - 1)]);
    ps ← lift (ps.[0 <- x]);
    nps ← lift ((pointers nb).[u64 (num_keys nb - 1) <- 0]);
    k ← lift ((keys nb).[u64 (num_keys nb - 1)]);
    ks ← lift (ks.[0 <- k]);
    _ ← store n_ (with_num_keys (with_pointers (with_keys n ks) ps) (num_keys n + 1));
    _ ← store neighbor (with_num_keys (with_pointers nb nps) (u64 (num_keys nb - 1)));
    set_parent_key n_ k_prime_index k.

Definition take_from_right (n_ neighbor k_prime_index k_prime : Z) : M unit :=
  n ← load n_;
  nb ← load neighbor;
  let leaf := is_leaf n in
  x ← lift ((pointers nb).[0]);
  k0 ← lift ((keys nb).[0]);
  '(ks, ps, k) ← lift (if leaf then
      ks ← (keys n).[num_keys n <- k0];
      ps ← (pointers n).[num_keys n <- x];
      k ← (keys nb).[1];
      Some (ks, ps, k)
    else
      ks ← (keys n).[num_keys n <- k_prime];
      ps ← (pointers n).[num_keys n + 1 <- x];
      Some (ks, ps, k0));
  _ ← (if leaf then mret tt else adopt x n_);
  '(nks, nps) ← lift (for_z 0 (u64 (num_keys nb - 1)) (fun i '(nks, nps) =>
      nks ← copy nks i nks (i + 1); nps ← copy nps i nps (i + 1); Some (nks, nps))
    (keys nb, pointers nb));
  nps ← lift (if leaf then Some nps
              else copy nps (u64 (num_keys nb - 1)) nps (u64 (num_keys nb - 1) + 1));
  _ ← store n_ (with_num_keys (with_pointers (with_keys n ks) ps) (num_keys n + 1));
  _ ← store neighbor (with_num_keys (with_pointers (with_keys nb nks) nps) (u64 (num_keys nb - 1)));
  set_parent_key n_ k_prime_index k.

Definition redistribute_nodes (root n_ neighbor neighbor_index k_prime_index k_prime : Z) : M Z :=
  _ ← (if negb (neighbor_index =? NONE) then take_from_left n_ neighbor k_prime_index k_prime
       else take_from_right n_ neighbor k_prime_index k_prime);
  mret root.

(** [delete_entry] after the removal. *)
Definition fix_up (delete_entry : Z -> Z -> Z -> Z -> M Z) (root n_ : Z) : M Z :=
  if n_ =? root then adjust_root root
  else
    n ← load n_;
    let min_keys := if is_leaf n then cut (order - 1) else cut order - 1 in
    if min_keys <=? num_keys n then mret root
    else
      neighbor_index ← get_neighbor_index n_;
      let k_prime_index := if neighbor_index =? NONE then 0 else neighbor_index in
      p ← load (parent n);
      k_prime ← lift ((keys p).[k_prime_index]);
      neighbor ← lift ((pointers p).[if neighbor_index =? NONE then 1 else neighbor_index]);
      let capacity := if is_leaf n then order else order - 1 in
      nb ← load neighbor;
      if num_keys nb + num_keys n <? capacity then
        coalesce_nodes delete_entry root n_ neighbor neighbor_index k_prime
      else redistribute_nodes root n_ neighbor neighbor_index k_prime_index k_prime.

Fixpoint delete_entry (fuel : nat) (root n_ key pointer : Z) : M Z :=
  match fuel with
  | O => undef
  | S fuel =>
      n_ ← remove_entry_from_node n_ key pointer;
      fix_up (delete_entry fuel) root n_
  end.

Definition delete (root key : Z) : M Z :=
  '(key_record, key_leaf) ← find root key;
  if negb (key_record =? 0) && negb (key_leaf =? 0) then
    root ← delete_entry FUEL root key_leaf key key_record;
    _ ← free_record key_record;
    mret root
  else mret root.

(** [libc_free] is the C library's [free], which this routine calls on the
    data pointers of the leaves. *)
Fixpoint destroy_tree_nodes (libc_free : Z -> M unit) (fuel : nat) (root : Z) : M unit :=
  match fuel with
  | O => undef
  | S fuel =>
      n ← load root;
      _ ← (if is_leaf n then
             mfor 0 (num_keys n) (fun i _ => r ← lift ((pointers n).[i]); libc_free r) tt
           else
             mfor 0 (num_keys n + 1) (fun i _ =>
               c ← lift ((pointers n).[i]); destroy_tree_nodes libc_free fuel c) tt);
      _ ← free_pointers root;
      _ ← free_keys root;
      free_node root
  end.

Definition destroy_tree (libc_free : Z -> M unit) (root : Z) : M Z :=
  _ ← destroy_tree_nodes libc_free FUEL root; mret 0.

End Code.
