(* ===== verification/BTreeRemove.v ===== *)
(** * The B+ tree benchmark: deletion

    Removing an entry gives a tree without it, whatever merges and shifts of
    entries the removal causes on the way up; the nodes that the tree loses are
    freed.  Deletion allocates nothing, so its runs are shown to return, not
    only to do nothing undefined. *)

From Stdlib Require Import ZArith Lia Sorted.
From stdpp Require Import gmap list numbers.
From S2P Require Import Prelude Arrays BTreeMem BTree BTreeRep BTreeFind BTreeInsert BTreeMap BTreeDelete.
#[local] Open Scope Z_scope.

(** ** Runs that return *)

Definition run {A} (c : M A) (m : mem) (Q : A -> mem -> Prop) : Prop :=
  match c m with Ok a m' => Q a m' | _ => False end.

Section Run.
Context {os : OS} {A B : Type}.

Lemma run_ret (a : A) m Q : Q a m -> run (mret a) m Q.
Proof. done. Qed.

Lemma run_bind (c : M A) (f : A -> M B) m Q : run c m (fun a m' => run (f a) m' Q) -> run (c ≫= f) m Q.
Proof. unfold run. cbv [mbind M_bind]. by destruct (c m). Qed.

Lemma run_mono (c : M A) m (P Q : A -> mem -> Prop) :
  run c m P -> (forall a m', P a m' -> Q a m') -> run c m Q.
Proof. unfold run. destruct (c m); auto. Qed.

Lemma run_lift (o : option A) a m Q : o = Some a -> Q a m -> run (lift o) m Q.
Proof. by intros ->. Qed.

Lemma run_wp (c : M A) m Q : run c m Q -> wp c m Q.
Proof. unfold run, wp. by destruct (c m). Qed.

(** A run that does nothing undefined and does not exit returns. *)
Definition no_exit (c : M A) : Prop := forall m z why, c m <> Exit z why.

Lemma run_of_wp (c : M A) m Q : no_exit c -> wp c m Q -> run c m Q.
Proof. intros Hn. specialize (Hn m). unfold run, wp. destruct (c m); [done| |done]. intros _. by eapply Hn. Qed.
End Run.

Lemma run_load p n m Q : nodes m !! p = Some n -> Q n m -> run (load p) m Q.
Proof. unfold run, load. by intros ->. Qed.

Lemma run_store p n n' m Q :
  nodes m !! p = Some n' -> Q tt (with_nodes m (<[p := n]> (nodes m))) -> run (store p n) m Q.
Proof. unfold run, store. by intros ->. Qed.

Lemma no_exit_ret {A} (a : A) : no_exit (mret a).
Proof. done. Qed.
Lemma no_exit_bind {A B} (c : M A) (f : A -> M B) : no_exit c -> (forall a, no_exit (f a)) -> no_exit (c ≫= f).
Proof.
  intros Hc Hf m z why. cbv [mbind M_bind]. specialize (Hc m). destruct (c m) as [a m'|z' why'|]; [apply Hf| |done].
  intros _. by eapply Hc.
Qed.
Lemma no_exit_lift {A} (o : option A) : no_exit (lift o).
Proof. by destruct o. Qed.
Lemma no_exit_load p : no_exit (load p).
Proof. intros m z why. unfold load. by destruct (nodes m !! p). Qed.
Lemma no_exit_store p n : no_exit (store p n).
Proof. intros m z why. unfold store. by destruct (nodes m !! p). Qed.
Lemma no_exit_get : no_exit get.
Proof. done. Qed.
Lemma no_exit_put m : no_exit (put m).
Proof. done. Qed.
Lemma no_exit_store_word p v : no_exit (store_word p v).
Proof. intros m z why. unfold store_word. by destruct (words m !! p). Qed.
Lemma no_exit_undef {A} : no_exit (@undef A).
Proof. done. Qed.

#[local] Hint Resolve no_exit_ret no_exit_bind no_exit_lift no_exit_load no_exit_store no_exit_get
  no_exit_put no_exit_store_word no_exit_undef : noexit.

Lemma no_exit_mfor {S} lo hi (body : Z -> S -> M S) s :
  (forall i s, no_exit (body i s)) -> no_exit (mfor lo hi body s).
Proof.
  intros Hb. unfold mfor. generalize (Z.to_nat (hi - lo)). intros k. revert lo s.
  induction k as [|k IH]; intros lo s; cbn [mfor_nat]; auto with noexit.
Qed.

Lemma no_exit_free_node p : no_exit (free_node p).
Proof. unfold free_node. auto with noexit. Qed.
Lemma no_exit_free_record p : no_exit (free_record p).
Proof. unfold free_record. auto with noexit. Qed.
Lemma no_exit_set_parents ps n new : no_exit (set_parents ps n new).
Proof. apply no_exit_mfor. auto with noexit. Qed.
Lemma no_exit_find_leaf root key : no_exit (find_leaf root key).
Proof.
  unfold find_leaf. destruct (root =? 0); [auto with noexit|]. generalize FUEL. intros fuel. revert root.
  induction fuel as [|fuel IH]; intros root; cbn [find_leaf_loop]; [auto with noexit|].
  apply no_exit_bind; [auto with noexit|]. intros n. destruct (is_leaf n); auto with noexit.
Qed.
Lemma no_exit_find root key : no_exit (find root key).
Proof.
  unfold find. destruct (root =? 0); [auto with noexit|].
  apply no_exit_bind; [apply no_exit_find_leaf|]. intros leaf.
  apply no_exit_bind; [auto with noexit|]. intros n. apply no_exit_bind; [auto with noexit|]. intros i.
  destruct (i =? num_keys n); auto with noexit.
Qed.

(** ** Arrays *)

(** Shifting the cells above [l1 ++ [x]] down removes [x]. *)
Lemma shift_remove {A} (a l1 l2 : list A) x :
  holds a (l1 ++ x :: l2) ->
  exists a', for_z (alen l1 + 1) (alen (l1 ++ x :: l2)) (fun i a => copy a (i - 1) a i) a = Some a' /\
    alen a' = alen a /\ holds a' (l1 ++ l2) /\ forall j, alen (l1 ++ x :: l2) <= j -> a'.[j] = a.[j].
Proof.
  intros [Hle Hh]. pose proof (alen_nonneg l1). pose proof (alen_nonneg l2).
  rewrite alen_app, alen_cons in *.
  destruct (shift_left_ok a (alen l1 + 1) (alen l1 + (alen l2 + 1))) as (a' & Hrun & Hl & Ha); [lia..|].
  exists a'. split; [done|]. split; [done|]. split.
  - split; rewrite alen_app; [lia|]. intros i Hi. rewrite Ha by lia.
    destruct (Z.leb_spec (alen l1 + 1 - 1) i), (Z.ltb_spec i (alen l1 + (alen l2 + 1) - 1)); cbn [andb]; try lia.
    + rewrite Hh by lia. rewrite !aget_app_r, aget_cons by lia.
      destruct (Z.eqb_spec (i + 1 - alen l1) 0); [lia|]. f_equal. lia.
    + rewrite Hh by lia. by rewrite !aget_app_l by lia.
  - intros j Hj. rewrite Ha by lia. destruct (Z.ltb_spec j (alen l1 + (alen l2 + 1) - 1)); [lia|].
    by rewrite andb_false_r.
Qed.

(** The same with the loop written from the lower cell. *)
Lemma shift_remove_first {A} (a l : list A) x :
  holds a (x :: l) ->
  exists a', for_z 0 (alen l) (fun i a => copy a i a (i + 1)) a = Some a' /\
    alen a' = alen a /\ holds a' l /\ forall j, alen l < j -> a'.[j] = a.[j].
Proof.
  intros Hh. destruct (shift_remove a [] l x Hh) as (a' & Hrun & Hl & Hh' & Ho). cbn [app] in *.
  rewrite alen_nil, alen_cons in *. exists a'. split; [|split; [done|split; [done|intros j Hj; apply Ho; lia]]].
  rewrite <- Hrun. unfold for_z. replace (alen l + 1 - (0 + 1)) with (alen l - 0) by lia.
  generalize (Z.to_nat (alen l - 0)). intros k. replace 0 with (0 + 1 - 1) at 1 by lia.
  generalize (0 + 1). intros i. clear. revert i a. induction k as [|k IH]; intros i a; [done|].
  cbn [for_nat]. replace (i - 1 + 1) with i by lia. destruct (copy a (i - 1) a i) as [a1|]; [|done].
  cbn [mbind option_bind]. specialize (IH (i + 1) a1). by replace (i + 1 - 1) with i in IH by lia.
Qed.

(** Appending the cells of [b] behind [l1]. *)
Lemma append_copy {A} (a b l1 l2 : list A) :
  holds a l1 -> holds b l2 -> alen l1 + alen l2 <= alen a ->
  exists a', for_z 0 (alen l2) (fun j '(i, a) => a ← copy a i b j; Some (i + 1, a)) (alen l1, a)
      = Some (alen l1 + alen l2, a') /\
    alen a' = alen a /\ holds a' (l1 ++ l2) /\ forall j, alen l1 + alen l2 <= j -> a'.[j] = a.[j].
Proof.
  intros [Hl1 Ha] [Hl2 Hb] Hlen. pose proof (alen_nonneg l1). pose proof (alen_nonneg l2).
  destruct (copy_block_ok b a 0 (alen l2) (alen l1)) as (a' & Hrun & Hl & Hg); [lia..|].
  rewrite Z.sub_0_r in *. exists a'. split; [done|]. split; [done|]. split.
  - split; rewrite alen_app; [lia|]. intros i Hi. rewrite Hg by lia.
    destruct (Z.leb_spec (alen l1) i), (Z.ltb_spec i (alen l1 + alen l2)); cbn [andb]; try lia.
    + rewrite aget_app_r by lia. rewrite Hb by lia. f_equal. lia.
    + rewrite aget_app_l by lia. apply Ha. lia.
  - intros j Hj. rewrite Hg by lia. destruct (Z.ltb_spec j (alen l1 + alen l2)); [lia|].
    by rewrite andb_false_r.
Qed.

(** The scan for a value finds its first cell. *)
Lemma index_of_ok (a l1 l2 : list Z) x :
  holds a (l1 ++ x :: l2) -> x ∉ l1 -> index_of a x = Some (alen l1).
Proof.
  intros [Hle Hh] Hx. pose proof (alen_nonneg l1). pose proof (alen_nonneg l2).
  rewrite alen_app, alen_cons in *. unfold index_of.
  rewrite (scan_unique _ (fun i => match a.[i] with Some y => negb (y =? x) | None => false end) _ (alen l1)).
  - cbn [mbind option_bind]. by assert (alen l1 <? alen a = true) as -> by lia.
  - lia.
  - intros i Hi. by destruct (aget_in a i Hi) as [y ->].
  - intros i Hi. rewrite Hh by lia. rewrite aget_app_l by lia. destruct (aget_in l1 i Hi) as [y Hy].
    rewrite Hy. destruct (Z.eqb_spec y x) as [->|]; [|done]. exfalso. apply Hx.
    unfold aget in Hy. destruct (i <? 0); [done|]. by eapply list_elem_of_lookup_2.
  - intros _. rewrite Hh by lia. rewrite aget_middle. by rewrite Z.eqb_refl.
Qed.

(** A loop on two arrays with a shared index, a counter up and a counter down. *)
Lemma for_z_share_count2 {S T} lo hi (f : Z -> Z -> S -> option S) (f' : Z -> Z -> T -> option T)
    (g : Z -> Z) j s t n d j' s' t' :
  lo <= hi ->
  for_z lo hi (fun i '(j, s) => s ← f i j s; Some (g j, s)) (j, s) = Some (j', s') ->
  for_z lo hi (fun i '(j, t) => t ← f' i j t; Some (g j, t)) (j, t) = Some (j', t') ->
  for_z lo hi (fun i '(j, s, t, n, d) => s ← f i j s; t ← f' i j t; Some (g j, s, t, n + 1, d - 1))
    (j, s, t, n, d) = Some (j', s', t', n + (hi - lo), d - (hi - lo)).
Proof.
  intros Hle Hs Ht. pose proof (for_z_share_count lo hi f f' g j s t n j' s' t' Hle Hs Ht) as Hst.
  assert (for_z lo hi (fun _ d => Some (d - 1)) d = Some (d - (hi - lo))) as Hd.
  { destruct (for_z_inv (fun i x => x = d - (i - lo)) lo hi (fun _ d => Some (d - 1)) d) as (x & -> & ->);
      [done|lia| |done]. intros i x Hi ->. eexists. split; [done|]. lia. }
  rewrite <- (for_z_pair lo hi _ (fun _ d => Some (d - 1)) _ d _ _ Hst Hd).
  apply for_z_ext. intros i [[[[j1 s1] t1] n1] d1]. cbn [mbind option_bind].
  destruct (f i j1 s1); [|done]. cbn [mbind option_bind]. by destruct (f' i j1 t1).
Qed.

Lemma for_down_step {S} h lo (f : Z -> S -> option S) s :
  lo <= h -> for_down (h + 1) lo f s = (s1 ← f (h + 1) s; for_down h lo f s1).
Proof.
  intros Hle. unfold for_down. rewrite for_z_step by lia. rewrite Z.sub_0_r.
  destruct (f (h + 1) s) as [s1|]; [|done]. cbn [mbind option_bind]. unfold for_z.
  replace (h + 1 - lo - (0 + 1)) with (h - lo - 0) by lia. generalize (Z.to_nat (h - lo - 0)). intros k.
  generalize 0. intros i. revert i s1. induction k as [|k IH]; intros i s1; [done|]. cbn [for_nat].
  replace (h + 1 - (i + 1)) with (h - i) by lia. destruct (f (h - i) s1); [|done]. cbn [mbind option_bind]. apply IH.
Qed.

Lemma for_z_last {S} lo hi (f : Z -> S -> option S) s :
  lo <= hi -> for_z lo (hi + 1) f s = (s1 ← for_z lo hi f s; f hi s1).
Proof.
  intros Hle. unfold for_z. replace (Z.to_nat (hi + 1 - lo)) with (Datatypes.S (Z.to_nat (hi - lo))) by lia.
  assert (forall k lo s, for_nat (Datatypes.S k) lo f s
    = (s1 ← for_nat k lo f s; f (lo + Z.of_nat k) s1)) as Hn.
  { induction k as [|k IH]; intros lo' s'.
    - cbn [for_nat mbind option_bind]. replace (lo' + Z.of_nat 0) with lo' by lia. by destruct (f lo' s').
    - change (for_nat (Datatypes.S (Datatypes.S k)) lo' f s')
        with (s1 ← f lo' s'; for_nat (Datatypes.S k) (lo' + 1) f s1).
      change (for_nat (Datatypes.S k) lo' f s') with (s1 ← f lo' s'; for_nat k (lo' + 1) f s1).
      destruct (f lo' s') as [s1|]; [|done]. cbn [mbind option_bind]. rewrite IH.
      by replace (lo' + 1 + Z.of_nat k) with (lo' + Z.of_nat (Datatypes.S k)) by lia. }
  rewrite Hn. by replace (lo + Z.of_nat (Z.to_nat (hi - lo))) with hi by lia.
Qed.

Section Remove.
Context {os : OS} (order : Z) (order_min : 3 <= order).
#[local] Abbreviation rep := (rep order).
#[local] Abbreviation reps := (reps order).
#[local] Abbreviation wf := (wf order).
#[local] Abbreviation rep_ctx := (rep_ctx order).
#[local] Abbreviation wf_ctx := (wf_ctx order).
#[local] Abbreviation leaf_ok := (leaf_ok order).
#[local] Abbreviation node_ok := (node_ok order).

(** ** One node *)

Lemma fill_above (a l : list Z) lo hi :
  holds a l -> alen l <= lo -> hi <= alen a ->
  exists a', for_z lo hi (fun i ps => ps.[i <- 0]) a = Some a' /\ alen a' = alen a /\ holds a' l /\
    forall j, hi <= j -> 0 <= j -> a'.[j] = a.[j].
Proof.
  intros Hh Hlo Hhi. pose proof (alen_nonneg l).
  destruct (fill_range_ok a lo hi 0) as (a' & Hrun & Hl & Hg); [lia|done|].
  exists a'. split; [done|]. split; [done|]. split.
  - apply (holds_ext a); [done|done|]. intros j Hj. rewrite Hg by lia.
    by destruct (Z.leb_spec lo j); [lia|].
  - intros j Hj Hj0. rewrite Hg by lia. destruct (Z.ltb_spec j hi); [lia|]. by rewrite andb_false_r.
Qed.

Lemma run_remove_inner m p nd par K1 k K2 P1 q P2 :
  nodes m !! p = Some nd -> node_ok nd par (K1 ++ k :: K2) (P1 ++ q :: P2) ->
  k ∉ K1 -> q ∉ P1 -> alen P1 + alen P2 = alen K1 + alen K2 + 1 -> alen K1 + alen K2 + 1 < 2 ^ 64 ->
  run (remove_entry_from_node order p k q) m (fun p' m' => p' = p /\
    exists nd', m' = with_nodes m (<[p := nd']> (nodes m)) /\ node_ok nd' par (K1 ++ K2) (P1 ++ P2)).
Proof.
  intros Hnd [Hin Hpar Hnum Hkl Hpl Hks Hps] Hk Hq Hlen Hw.
  pose proof (alen_nonneg K1). pose proof (alen_nonneg K2).
  unfold remove_entry_from_node. apply run_bind. eapply run_load; [done|].
  apply run_bind. eapply run_lift; [by eapply index_of_ok|].
  destruct (shift_remove (keys nd) K1 K2 k Hks) as (ks & Hks1 & Hks2 & Hks3 & _).
  apply run_bind. eapply run_lift; [rewrite Hnum; exact Hks1|]. rewrite Hin.
  apply run_bind. eapply run_lift; [by eapply index_of_ok|].
  destruct (shift_remove (pointers nd) P1 P2 q Hps) as (ps & Hps1 & Hps2 & Hps3 & _).
  assert (num_keys nd + 1 = alen (P1 ++ q :: P2)) as ->
    by (rewrite Hnum, !alen_app, !alen_cons; lia).
  apply run_bind. eapply run_lift; [exact Hps1|].
  assert (u64 (num_keys nd - 1) = alen (K1 ++ K2)) as ->.
  { rewrite Hnum, !alen_app, alen_cons. rewrite u64_id by (unfold in_u64; lia). lia. }
  destruct (fill_above ps (P1 ++ P2) (alen (K1 ++ K2) + 1) order Hps3) as (ps' & Hf & Hfl & Hfh & _).
  { rewrite !alen_app. lia. }
  { lia. }
  apply run_bind. eapply run_lift; [exact Hf|]. apply run_bind. eapply run_store; [done|].
  apply run_ret. split; [done|]. eexists. split; [done|]. by split; cbn; try done; try congruence.
Qed.

Lemma run_remove_leaf m p nd par es1 k r es2 :
  nodes m !! p = Some nd -> leaf_ok nd par (es1 ++ (k, r) :: es2) ->
  k ∉ es1.*1 -> r ∉ es1.*2 -> alen (es1 ++ (k, r) :: es2) <= order - 1 -> alen es1 + alen es2 + 1 < 2 ^ 64 ->
  run (remove_entry_from_node order p k r) m (fun p' m' => p' = p /\
    exists nd', m' = with_nodes m (<[p := nd']> (nodes m)) /\ leaf_ok nd' par (es1 ++ es2) /\
      (pointers nd').[order - 1] = (pointers nd).[order - 1]).
Proof.
  intros Hnd [Hin Hpar Hnum Hkl Hpl Hks Hps] Hk Hq Hlen Hw.
  pose proof (alen_nonneg es1). pose proof (alen_nonneg es2).
  rewrite fmap_app, fmap_cons in Hks, Hps. cbn [fst snd] in *.
  unfold remove_entry_from_node. apply run_bind. eapply run_load; [done|].
  apply run_bind. eapply run_lift; [by eapply index_of_ok|].
  destruct (shift_remove (keys nd) es1.*1 es2.*1 k Hks) as (ks & Hks1 & Hks2 & Hks3 & _).
  assert (num_keys nd = alen (es1.*1 ++ k :: es2.*1)) as E1
    by (rewrite Hnum, !alen_app, !alen_cons, !alen_fmap; lia).
  apply run_bind. eapply run_lift; [rewrite E1; exact Hks1|]. rewrite Hin.
  apply run_bind. eapply run_lift; [by eapply index_of_ok|].
  destruct (shift_remove (pointers nd) es1.*2 es2.*2 r Hps) as (ps & Hps1 & Hps2 & Hps3 & Hps4).
  assert (num_keys nd = alen (es1.*2 ++ r :: es2.*2)) as E2
    by (rewrite Hnum, !alen_app, !alen_cons, !alen_fmap; lia).
  apply run_bind. eapply run_lift; [rewrite E2; exact Hps1|].
  assert (u64 (num_keys nd - 1) = alen (es1 ++ es2)) as ->.
  { rewrite Hnum, !alen_app, alen_cons. rewrite u64_id by (unfold in_u64; lia). lia. }
  rewrite alen_app, alen_cons in Hlen.
  destruct (fill_above ps (es1.*2 ++ es2.*2) (alen (es1 ++ es2)) (order - 1) Hps3) as (ps' & Hf & Hfl & Hfh & Hfo).
  { rewrite !alen_app, !alen_fmap. lia. }
  { lia. }
  apply run_bind. eapply run_lift; [exact Hf|]. apply run_bind. eapply run_store; [done|].
  apply run_ret. split; [done|]. eexists. split; [done|]. split.
  - split; cbn; rewrite ?fmap_app; try done; try congruence.
  - cbn. rewrite Hfo by lia. apply Hps4. rewrite alen_app, alen_cons, !alen_fmap. lia.
Qed.

(** Merging two siblings. *)
Lemma merge_inner_arrays ndl ndr par par' Kl Pl Kr Pr k :
  node_ok ndl par Kl Pl -> node_ok ndr par' Kr Pr ->
  alen Pl = alen Kl + 1 -> alen Pr = alen Kr + 1 -> alen Kl + alen Kr + 1 <= order - 1 ->
  exists ks0 ks ps ps',
    (keys ndl).[num_keys ndl <- k] = Some ks0 /\
    for_z 0 (num_keys ndr) (fun j '(i, ks, ps, nbk, nk) =>
        ks ← copy ks i (keys ndr) j; ps ← copy ps i (pointers ndr) j;
        Some (i + 1, ks, ps, nbk + 1, nk - 1))
      (num_keys ndl + 1, ks0, pointers ndl, num_keys ndl + 1, num_keys ndr)
      = Some (alen Kl + 1 + alen Kr, ks, ps, alen Kl + 1 + alen Kr, 0) /\
    copy ps (alen Kl + 1 + alen Kr) (pointers ndr) (num_keys ndr) = Some ps' /\
    node_ok (with_num_keys (with_pointers (with_keys ndl ks) ps') (alen Kl + 1 + alen Kr)) par
      (Kl ++ k :: Kr) (Pl ++ Pr).
Proof.
  intros [Hin Hpar Hnum Hkl Hpl Hks Hps] [Hin' Hpar' Hnum' Hkl' Hpl' Hks' Hps'] HPl HPr Hlen.
  pose proof (alen_nonneg Kl). pose proof (alen_nonneg Kr). rewrite Hnum, Hnum'.
  destruct (list_last Pr) as (Pr' & y & EPr & HPr'); [lia|].
  assert (exists ks0, (keys ndl).[alen Kl <- k] = Some ks0) as [ks0 Hks0] by (eexists; apply aset_in; lia).
  pose proof (holds_snoc _ _ _ _ Hks Hks0) as Hks0h. pose proof (aset_alen _ _ _ _ Hks0) as Hks0l.
  assert (alen (Kl ++ [k]) = alen Kl + 1) as EKl by (by rewrite alen_app).
  destruct (append_copy ks0 (keys ndr) (Kl ++ [k]) Kr Hks0h Hks') as (ks & Hrk & Hkl2 & Hkh & _); [lia|].
  assert (holds (pointers ndr) Pr') as HPr'h.
  { rewrite EPr in Hps'. by eapply holds_app_l. }
  destruct (append_copy (pointers ndl) (pointers ndr) Pl Pr' Hps HPr'h) as (ps & Hrp & Hpl2 & Hph & _); [lia|].
  assert ((pointers ndr).[alen Kr] = Some y) as Hy.
  { destruct Hps' as [_ Hg]. rewrite Hg by lia. rewrite EPr. replace (alen Kr) with (alen Pr') by lia.
    apply aget_middle. }
  assert (exists ps', ps.[alen (Pl ++ Pr') <- y] = Some ps') as [ps' Hps2].
  { eexists. apply aset_in. rewrite alen_app. pose proof (alen_nonneg Pl). pose proof (alen_nonneg Pr'). lia. }
  exists ks0, ks, ps, ps'. split; [done|]. split; [|split].
  - rewrite EKl in Hrk. rewrite HPl in Hrp. replace (alen Pr') with (alen Kr) in Hrp by lia.
    pose proof (for_z_share_count2 0 (alen Kr) (fun j i ks => copy ks i (keys ndr) j)
      (fun j i ps => copy ps i (pointers ndr) j) (fun i => i + 1) (alen Kl + 1) ks0 (pointers ndl)
      (alen Kl + 1) (alen Kr) _ _ _ (alen_nonneg Kr) Hrk Hrp) as Hloop.
    rewrite Hloop. do 2 f_equal; [f_equal|]; lia.
  - unfold copy. rewrite Hy. cbn [mbind option_bind]. rewrite <- Hps2. f_equal. rewrite alen_app. lia.
  - split; cbn; try done; try congruence.
    + rewrite alen_app, alen_cons. lia.
    + rewrite (aset_alen _ _ _ _ Hps2). congruence.
    + by rewrite <- app_assoc in Hkh.
    + rewrite EPr, app_assoc. by eapply holds_snoc.
Qed.

Lemma run_merge_inner m pl ndl pr ndr par Kl Pl Kr Pr k live :
  nodes m !! pl = Some ndl -> node_ok ndl par Kl Pl -> nodes m !! pr = Some ndr -> node_ok ndr par Kr Pr ->
  pl <> pr -> alen Pl = alen Kl + 1 -> alen Pr = alen Kr + 1 -> alen Kl + alen Kr + 1 <= order - 1 ->
  nodes_ok m live -> pl ∈ live -> pr ∈ live -> (forall q, q ∈ Pl ++ Pr -> q ∈ live) ->
  pl ∉ Pl ++ Pr -> pr ∉ Pl ++ Pr ->
  run (merge_into order pl pr k) m (fun _ m' => nodes_ok m' live /\ words_same m m' /\
    (exists nd, nodes m' !! pl = Some nd /\ node_ok nd par (Kl ++ k :: Kr) (Pl ++ Pr)) /\
    nodes m' !! pr = Some (with_num_keys ndr 0) /\
    forall q, q <> pl -> q <> pr -> nodes m' !! q = reparent (Pl ++ Pr) pl (nodes m) q).
Proof.
  intros Hl Hokl Hr Hokr Hne HPl HPr Hlen Hok Hpl Hpr Hlive Hnl Hnr.
  destruct (merge_inner_arrays ndl ndr par par Kl Pl Kr Pr k Hokl Hokr HPl HPr Hlen)
    as (ks0 & ks & ps & ps' & H1 & H2 & H3 & H4).
  unfold merge_into. apply run_bind. eapply run_load; [done|]. apply run_bind. eapply run_load; [done|].
  rewrite (nd_inner _ _ _ _ _ Hokr). cbn [negb]. apply run_bind. eapply run_lift; [exact H1|].
  apply run_bind. eapply run_lift; [exact H2|]. cbn beta iota. apply run_bind. eapply run_lift; [exact H3|].
  apply run_bind. eapply run_store; [done|]. apply run_bind.
  eapply run_store; [cbn [nodes with_nodes]; by rewrite lookup_insert_ne|].
  set (nd := with_num_keys (with_pointers _ _) _) in *. set (m1 := with_nodes _ _).
  assert (nodes m1 = <[pr := with_num_keys ndr 0]> (<[pl := nd]> (nodes m))) as Hm1 by done.
  assert (alen Kl + 1 + alen Kr + 1 = alen (Pl ++ Pr)) as -> by (rewrite alen_app; lia).
  apply run_of_wp; [apply no_exit_set_parents|].
  eapply wp_mono; [apply (wp_set_parents ps' (Pl ++ Pr) pl m1 live)|].
  - apply (nd_ptrs _ _ _ _ _ H4).
  - done.
  - unfold m1. apply (nodes_ok_store (with_nodes _ _)); [done|]. by apply nodes_ok_store.
  - intros _ m2 (Hok2 & Hw2 & Hm2). split; [done|]. split; [etransitivity; [|exact Hw2]; same_solve|].
    split; [|split].
    + exists nd. split; [|done]. rewrite Hm2, Hm1. unfold reparent. rewrite decide_False by done.
      rewrite lookup_insert_ne by done. apply lookup_insert_eq.
    + rewrite Hm2, Hm1. unfold reparent. rewrite decide_False by done. apply lookup_insert_eq.
    + intros q Hql Hqr. rewrite Hm2, Hm1. unfold reparent. by rewrite !lookup_insert_ne by done.
Qed.

Lemma run_merge_leaf m pl ndl pr ndr par esl esr k nxt :
  nodes m !! pl = Some ndl -> leaf_ok ndl par esl -> nodes m !! pr = Some ndr -> leaf_ok ndr par esr ->
  pl <> pr -> alen esl + alen esr <= order - 1 -> (pointers ndr).[order - 1] = Some nxt ->
  run (merge_into order pl pr k) m (fun _ m' => exists nd,
    m' = with_nodes m (<[pl := nd]> (nodes m)) /\ leaf_ok nd par (esl ++ esr) /\
    (pointers nd).[order - 1] = Some nxt).
Proof.
  intros Hl [Hin Hpar Hnum Hkl Hpl Hks Hps] Hr [Hin' Hpar' Hnum' Hkl' Hpl' Hks' Hps'] Hne Hlen Hnxt.
  pose proof (alen_nonneg esl). pose proof (alen_nonneg esr).
  unfold merge_into. apply run_bind. eapply run_load; [done|]. apply run_bind. eapply run_load; [done|].
  rewrite Hin'. cbn [negb]. rewrite Hnum, Hnum'.
  destruct (append_copy (keys ndl) (keys ndr) esl.*1 esr.*1 Hks Hks') as (ks & Hrk & Hkl2 & Hkh & _);
    [rewrite !alen_fmap; lia|].
  destruct (append_copy (pointers ndl) (pointers ndr) esl.*2 esr.*2 Hps Hps') as (ps & Hrp & Hpl2 & Hph & _);
    [rewrite !alen_fmap; lia|].
  rewrite !alen_fmap in *.
  pose proof (for_z_share_count 0 (alen esr) (fun j i ks => copy ks i (keys ndr) j)
    (fun j i ps => copy ps i (pointers ndr) j) (fun i => i + 1) (alen esl) (keys ndl) (pointers ndl)
    (alen esl) _ _ _ (alen_nonneg esr) Hrk Hrp) as Hloop.
  apply run_bind. eapply run_lift; [exact Hloop|]. cbn beta iota.
  apply run_bind. eapply run_lift; [apply copy_in; [lia|exact Hnxt]|].
  eapply run_store; [done|]. eexists. split; [done|]. split.
  - split; cbn; rewrite ?fmap_app, ?alen_insert; try done; try congruence.
    + rewrite alen_app. lia.
    + apply (holds_ext ps); [done|by rewrite alen_insert|]. intros j Hj. rewrite alen_app, !alen_fmap in Hj.
      rewrite aget_insert by lia. by rewrite decide_False by lia.
  - cbn. rewrite aget_insert by lia. by rewrite decide_True.
Qed.

(** ** Moving one entry between siblings *)

Lemma run_set_parent_key m n_ n p nd par K1 k0 K2 PS k :
  nodes m !! n_ = Some n -> parent n = p -> nodes m !! p = Some nd ->
  node_ok nd par (K1 ++ k0 :: K2) PS ->
  run (set_parent_key n_ (alen K1) k) m (fun _ m' => exists nd',
    m' = with_nodes m (<[p := nd']> (nodes m)) /\ node_ok nd' par (K1 ++ k :: K2) PS).
Proof.
  intros Hn Hp Hnd [Hin Hpar Hnum Hkl Hpl [Hkle Hks] Hps]. pose proof (alen_nonneg K1). pose proof (alen_nonneg K2).
  rewrite alen_app, alen_cons in *.
  unfold set_parent_key. apply run_bind. eapply run_load; [done|]. rewrite Hp.
  apply run_bind. eapply run_load; [done|]. apply run_bind. eapply run_lift; [apply aset_in; lia|].
  eapply run_store; [done|]. eexists. split; [done|].
  split; cbn; rewrite ?alen_insert; try done; try congruence.
  - rewrite Hnum, alen_app, alen_cons. lia.
  - split; rewrite ?alen_insert, alen_app, alen_cons; [lia|]. intros i Hi. rewrite aget_insert by lia.
    case_decide as E; [subst; by rewrite aget_middle|]. rewrite Hks by lia.
    by rewrite !aget_insert_mid by lia.
Qed.

(** One more entry in front. *)
Lemma push_front (a l : list Z) x :
  holds a l -> alen l < alen a ->
  exists a1 a', for_down (alen l) 0 (fun i a => copy a i a (i - 1)) a = Some a1 /\
    a1.[0 <- x] = Some a' /\ alen a' = alen a /\ holds a' (x :: l) /\ forall j, alen l < j -> a'.[j] = a.[j].
Proof. intros Hh Hl. apply (shift_insert a [] l x Hh Hl). Qed.

Lemma run_take_left_inner m pl ndl pr ndr P ndp gp Kl kx Pl x Kr Pr K1 kb K2 PS ndx :
  nodes m !! pl = Some ndl -> node_ok ndl P (Kl ++ [kx]) (Pl ++ [x]) ->
  nodes m !! pr = Some ndr -> node_ok ndr P Kr Pr ->
  nodes m !! P = Some ndp -> node_ok ndp gp (K1 ++ kb :: K2) PS -> nodes m !! x = Some ndx ->
  NoDup [pl; pr; P; x] -> alen Pl = alen Kl + 1 -> alen Pr = alen Kr + 1 -> alen Kr + 1 <= order - 1 ->
  alen Kl + 1 < 2 ^ 64 ->
  run (take_from_left pr pl (alen K1) kb) m (fun _ m' => exists ndl' ndr' ndp',
    m' = with_nodes m (<[P := ndp']> (<[x := with_parent ndx pr]> (<[pl := ndl']> (<[pr := ndr']> (nodes m))))) /\
    node_ok ndl' P Kl Pl /\ node_ok ndr' P (kb :: Kr) (x :: Pr) /\ node_ok ndp' gp (K1 ++ kx :: K2) PS).
Proof.
  intros Hl [Hin Hpar Hnum Hkl Hpl Hks Hps] Hr [Hin' Hpar' Hnum' Hkl' Hpl' Hks' Hps'] HP HokP Hx Hnd HPl HPr Hlen Hw.
  rewrite !list.NoDup_cons, !not_elem_of_cons in Hnd. destruct Hnd as ((N1 & N2 & N3 & _) & (N4 & N5 & _) & (N6 & _) & _).
  pose proof (alen_nonneg Kl). pose proof (alen_nonneg Kr). rewrite alen_app in Hnum. change (alen [kx]) with 1 in Hnum.
  assert (alen Kl + 2 <= order) as Hroom.
  { destruct Hps as [Hle _]. rewrite alen_app in Hle. change (alen [x]) with 1 in Hle. lia. }
  unfold take_from_left. apply run_bind. eapply run_load; [done|]. apply run_bind. eapply run_load; [done|].
  cbv zeta. rewrite Hin'. cbn [negb]. rewrite Hnum'.
  destruct (push_front (pointers ndr) Pr x Hps') as (ps1 & ps & Hp1 & Hp2 & Hp3 & Hp4 & _); [lia|].
  destruct (push_front (keys ndr) Kr kb Hks') as (ks1 & ks & Hk1 & Hk2 & Hk3 & Hk4 & _); [lia|].
  rewrite HPr, for_down_step in Hp1 by lia. replace (alen Kr + 1 - 1) with (alen Kr) in Hp1 by lia.
  destruct (copy (pointers ndr) (alen Kr + 1) (pointers ndr) (alen Kr)) as [ps0|] eqn:E0; [|done].
  cbn [mbind option_bind] in Hp1.
  apply run_bind. eapply run_lift; [reflexivity|]. apply run_bind.
  eapply run_lift; [unfold for_down in *; by apply for_z_pair|]. cbn beta iota.
  assert ((pointers ndl).[num_keys ndl] = Some x) as Hgx.
  { destruct Hps as [_ Hg]. rewrite alen_app in Hg. change (alen [x]) with 1 in Hg. rewrite Hg by lia.
    rewrite Hnum, <- HPl. apply aget_middle. }
  apply run_bind. eapply run_lift; [exact Hgx|]. apply run_bind. eapply run_lift; [exact Hp2|].
  apply run_bind. eapply run_lift; [apply aset_in; lia|]. apply run_bind. eapply run_lift; [exact Hk2|].
  assert (u64 (num_keys ndl - 1) = alen Kl) as Eu.
  { rewrite Hnum. rewrite u64_id by (unfold in_u64; lia). lia. }
  rewrite Eu. assert ((keys ndl).[alen Kl] = Some kx) as Hgk.
  { destruct Hks as [_ Hg]. rewrite alen_app in Hg. change (alen [kx]) with 1 in Hg. rewrite Hg by lia.
    apply aget_middle. }
  apply run_bind. eapply run_lift; [exact Hgk|].
  apply run_bind. eapply run_store; [done|]. apply run_bind.
  eapply run_store; [cbn [nodes with_nodes]; by rewrite lookup_insert_ne|].
  set (ndr' := with_num_keys (with_pointers (with_keys ndr _) _) _). set (ndl' := with_num_keys (with_pointers ndl _) _).
  unfold adopt. apply run_bind, run_bind.
  eapply run_load; [cbn [nodes with_nodes]; by rewrite !lookup_insert_ne|].
  eapply run_store; [cbn [nodes with_nodes]; by rewrite !lookup_insert_ne|].
  set (m1 := with_nodes _ _).
  eapply run_mono; [apply (run_set_parent_key m1 pr ndr' P ndp gp K1 kb K2 PS kx)|].
  - unfold m1. cbn [nodes with_nodes]. rewrite lookup_insert_ne, lookup_insert_ne by done. apply lookup_insert_eq.
  - done.
  - unfold m1. cbn [nodes with_nodes]. by rewrite !lookup_insert_ne by done.
  - done.
  - intros _ m2 (ndp' & -> & Hokp'). exists ndl', ndr', ndp'. split; [done|].
    split; [|split; [|done]]; unfold ndl', ndr'; split; cbn; rewrite ?alen_insert; try done; try congruence.
    + by eapply holds_app_l.
    + apply (holds_ext (pointers ndl)); [by eapply holds_app_l|by rewrite alen_insert|]. intros j Hj.
      rewrite aget_insert by lia. by rewrite decide_False by lia.
    + rewrite alen_cons. lia.
Qed.

Lemma run_take_left_leaf m pl ndl pr ndr P ndp gp esl kx x esr K1 kb K2 PS :
  nodes m !! pl = Some ndl -> leaf_ok ndl P (esl ++ [(kx, x)]) ->
  nodes m !! pr = Some ndr -> leaf_ok ndr P esr ->
  nodes m !! P = Some ndp -> node_ok ndp gp (K1 ++ kb :: K2) PS ->
  NoDup [pl; pr; P] -> alen esr + 1 <= order - 1 -> alen esl + 1 <= order - 1 -> alen esl + 1 < 2 ^ 64 ->
  run (take_from_left pr pl (alen K1) kb) m (fun _ m' => exists ndl' ndr' ndp',
    m' = with_nodes m (<[P := ndp']> (<[pl := ndl']> (<[pr := ndr']> (nodes m)))) /\
    leaf_ok ndl' P esl /\ leaf_ok ndr' P ((kx, x) :: esr) /\ node_ok ndp' gp (K1 ++ kx :: K2) PS /\
    (pointers ndl').[order - 1] = (pointers ndl).[order - 1] /\
    (pointers ndr').[order - 1] = (pointers ndr).[order - 1]).
Proof.
  intros Hl [Hin Hpar Hnum Hkl Hpl Hks Hps] Hr [Hin' Hpar' Hnum' Hkl' Hpl' Hks' Hps'] HP HokP Hnd Hlen Hlenl Hw.
  rewrite !list.NoDup_cons, !not_elem_of_cons in Hnd. destruct Hnd as ((N1 & N2 & _) & (N4 & _) & _).
  pose proof (alen_nonneg esl). pose proof (alen_nonneg esr). rewrite alen_app in Hnum. change (alen [(kx, x)]) with 1 in Hnum.
  rewrite fmap_app in Hks, Hps. cbn [fmap list_fmap fst snd] in Hks, Hps.
  unfold take_from_left. apply run_bind. eapply run_load; [done|]. apply run_bind. eapply run_load; [done|].
  cbv zeta. rewrite Hin'. cbn [negb]. rewrite Hnum'. apply run_bind. eapply run_lift; [done|].
  destruct (push_front (pointers ndr) esr.*2 x Hps') as (ps1 & ps & Hp1 & Hp2 & Hp3 & Hp4 & Hp5); [rewrite alen_fmap; lia|].
  destruct (push_front (keys ndr) esr.*1 kx Hks') as (ks1 & ks & Hk1 & Hk2 & Hk3 & Hk4 & _); [rewrite alen_fmap; lia|].
  rewrite alen_fmap in Hp1, Hk1, Hp5.
  apply run_bind. eapply run_lift; [unfold for_down in *; by apply for_z_pair|]. cbn beta iota.
  assert (u64 (num_keys ndl - 1) = alen esl) as Eu.
  { rewrite Hnum. rewrite u64_id by (unfold in_u64; lia). lia. }
  rewrite Eu. assert ((pointers ndl).[alen esl] = Some x) as Hgx.
  { destruct Hps as [_ Hg]. rewrite alen_app, alen_fmap in Hg. change (alen [x]) with 1 in Hg. rewrite Hg by lia.
    rewrite <- (alen_fmap snd esl). apply aget_middle. }
  assert ((keys ndl).[alen esl] = Some kx) as Hgk.
  { destruct Hks as [_ Hg]. rewrite alen_app, alen_fmap in Hg. change (alen [kx]) with 1 in Hg. rewrite Hg by lia.
    rewrite <- (alen_fmap fst esl). apply aget_middle. }
  apply run_bind. eapply run_lift; [exact Hgx|]. apply run_bind. eapply run_lift; [exact Hp2|].
  apply run_bind. eapply run_lift; [apply aset_in; lia|]. apply run_bind. eapply run_lift; [exact Hgk|].
  apply run_bind. eapply run_lift; [exact Hk2|].
  apply run_bind. eapply run_store; [done|]. apply run_bind.
  eapply run_store; [cbn [nodes with_nodes]; by rewrite lookup_insert_ne|].
  set (ndr' := with_num_keys (with_pointers (with_keys ndr _) _) _). set (ndl' := with_num_keys (with_pointers ndl _) _).
  set (m1 := with_nodes _ _).
  eapply run_mono; [apply (run_set_parent_key m1 pr ndr' P ndp gp K1 kb K2 PS kx)|].
  - unfold m1. cbn [nodes with_nodes]. rewrite lookup_insert_ne by done. apply lookup_insert_eq.
  - done.
  - unfold m1. cbn [nodes with_nodes]. by rewrite !lookup_insert_ne by done.
  - done.
  - intros _ m2 (ndp' & -> & Hokp'). exists ndl', ndr', ndp'. split; [done|].
    split; [|split; [|split; [done|split]]].
    + unfold ndl'. split; cbn; rewrite ?alen_insert; try done; try congruence.
      * by eapply holds_app_l.
      * apply (holds_ext (pointers ndl)); [by eapply holds_app_l|by rewrite alen_insert|]. intros j Hj.
        rewrite alen_fmap in Hj. rewrite aget_insert by lia. by rewrite decide_False by lia.
    + unfold ndr'. split; cbn; try done; try congruence. rewrite alen_cons. lia.
    + unfold ndl'. cbn. rewrite aget_insert by lia. by rewrite decide_False by lia.
    + unfold ndr'. cbn. apply Hp5. lia.
Qed.

Lemma run_take_right_inner m pl ndl pr ndr P ndp gp Kl Pl k2 Kr x Pr K1 kb K2 PS ndx :
  nodes m !! pl = Some ndl -> node_ok ndl P Kl Pl ->
  nodes m !! pr = Some ndr -> node_ok ndr P (k2 :: Kr) (x :: Pr) ->
  nodes m !! P = Some ndp -> node_ok ndp gp (K1 ++ kb :: K2) PS -> nodes m !! x = Some ndx ->
  NoDup [pl; pr; P; x] -> alen Pl = alen Kl + 1 -> alen Pr = alen Kr + 1 -> alen Kl + 1 <= order - 1 ->
  alen Kr + 1 < 2 ^ 64 ->
  run (take_from_right pl pr (alen K1) kb) m (fun _ m' => exists ndl' ndr' ndp',
    m' = with_nodes m (<[P := ndp']> (<[pr := ndr']> (<[pl := ndl']> (<[x := with_parent ndx pl]> (nodes m))))) /\
    node_ok ndl' P (Kl ++ [kb]) (Pl ++ [x]) /\ node_ok ndr' P Kr Pr /\ node_ok ndp' gp (K1 ++ k2 :: K2) PS).
Proof.
  intros Hl [Hin Hpar Hnum Hkl Hpl Hks Hps] Hr [Hin' Hpar' Hnum' Hkl' Hpl' Hks' Hps'] HP HokP Hx Hnd HPl HPr Hlen Hw.
  rewrite !list.NoDup_cons, !not_elem_of_cons in Hnd. destruct Hnd as ((N1 & N2 & N3 & _) & (N4 & N5 & _) & (N6 & _) & _).
  pose proof (alen_nonneg Kl). pose proof (alen_nonneg Kr). rewrite alen_cons in Hnum'.
  unfold take_from_right. apply run_bind. eapply run_load; [done|]. apply run_bind. eapply run_load; [done|].
  cbv zeta. rewrite Hin, Hnum.
  assert ((pointers ndr).[0] = Some x) as Hgx.
  { destruct Hps' as [_ Hg]. apply (Hg 0). rewrite alen_cons. pose proof (alen_nonneg Pr). lia. }
  assert ((keys ndr).[0] = Some k2) as Hgk.
  { destruct Hks' as [_ Hg]. apply (Hg 0). rewrite alen_cons. lia. }
  apply run_bind. eapply run_lift; [exact Hgx|]. apply run_bind. eapply run_lift; [exact Hgk|].
  assert (exists ks, (keys ndl).[alen Kl <- kb] = Some ks) as [ks Hks1] by (eexists; apply aset_in; lia).
  assert (exists ps, (pointers ndl).[alen Pl <- x] = Some ps) as [ps Hps1] by (eexists; apply aset_in; lia).
  apply run_bind. eapply run_lift; [rewrite Hks1; cbn [mbind option_bind]; rewrite <- HPl, Hps1; reflexivity|].
  cbn beta iota. unfold adopt at 1. apply run_bind, run_bind. eapply run_load; [done|]. eapply run_store; [done|].
  assert (u64 (num_keys ndr - 1) = alen Kr) as Eu.
  { rewrite Hnum'. rewrite u64_id by (unfold in_u64; lia). lia. }
  rewrite Eu.
  destruct (shift_remove_first (keys ndr) Kr k2 Hks') as (nks & Hrk & Hnkl & Hnkh & _).
  destruct (shift_remove_first (pointers ndr) Pr x Hps') as (nps & Hrp & Hnpl & Hnph & _).
  rewrite HPr, for_z_last in Hrp by lia.
  destruct (for_z 0 (alen Kr) (fun i a => copy a i a (i + 1)) (pointers ndr)) as [nps1|] eqn:E1; [|done].
  cbn [mbind option_bind] in Hrp.
  apply run_bind. eapply run_lift; [by apply for_z_pair|]. cbn beta iota.
  apply run_bind. eapply run_lift; [exact Hrp|].
  apply run_bind. eapply run_store; [cbn [nodes with_nodes]; by rewrite lookup_insert_ne|].
  apply run_bind. eapply run_store; [cbn [nodes with_nodes]; by rewrite !lookup_insert_ne|].
  set (ndl' := with_num_keys (with_pointers (with_keys ndl _) _) _).
  set (ndr' := with_num_keys (with_pointers (with_keys ndr _) _) _). set (m1 := with_nodes _ _).
  eapply run_mono; [apply (run_set_parent_key m1 pl ndl' P ndp gp K1 kb K2 PS k2)|].
  - unfold m1. cbn [nodes with_nodes]. rewrite lookup_insert_ne by done. apply lookup_insert_eq.
  - done.
  - unfold m1. cbn [nodes with_nodes]. by rewrite !lookup_insert_ne by done.
  - done.
  - intros _ m2 (ndp' & -> & Hokp'). exists ndl', ndr', ndp'. split; [done|].
    split; [|split; [|done]].
    + unfold ndl'. split; cbn; try done; try congruence.
      * rewrite alen_app. done.
      * by rewrite (aset_alen _ _ _ _ Hks1).
      * by rewrite (aset_alen _ _ _ _ Hps1).
      * by eapply holds_snoc.
      * by eapply holds_snoc.
    + unfold ndr'. split; cbn; try done; congruence.
Qed.

Lemma run_take_right_leaf m pl ndl pr ndr P ndp gp esl k0 x k2 y esr K1 kb K2 PS :
  nodes m !! pl = Some ndl -> leaf_ok ndl P esl ->
  nodes m !! pr = Some ndr -> leaf_ok ndr P ((k0, x) :: (k2, y) :: esr) ->
  nodes m !! P = Some ndp -> node_ok ndp gp (K1 ++ kb :: K2) PS ->
  NoDup [pl; pr; P] -> alen esl + 1 <= order - 1 -> alen esr + 2 <= order - 1 -> alen esr + 2 < 2 ^ 64 ->
  run (take_from_right pl pr (alen K1) kb) m (fun _ m' => exists ndl' ndr' ndp',
    m' = with_nodes m (<[P := ndp']> (<[pr := ndr']> (<[pl := ndl']> (nodes m)))) /\
    leaf_ok ndl' P (esl ++ [(k0, x)]) /\ leaf_ok ndr' P ((k2, y) :: esr) /\ node_ok ndp' gp (K1 ++ k2 :: K2) PS /\
    (pointers ndl').[order - 1] = (pointers ndl).[order - 1] /\
    (pointers ndr').[order - 1] = (pointers ndr).[order - 1]).
Proof.
  intros Hl [Hin Hpar Hnum Hkl Hpl Hks Hps] Hr [Hin' Hpar' Hnum' Hkl' Hpl' Hks' Hps'] HP HokP Hnd Hlen Hlenr Hw.
  rewrite !list.NoDup_cons, !not_elem_of_cons in Hnd. destruct Hnd as ((N1 & N2 & _) & (N4 & _) & _).
  pose proof (alen_nonneg esl). pose proof (alen_nonneg esr). rewrite !alen_cons in Hnum'.
  cbn [fmap list_fmap fst snd] in Hks', Hps'.
  unfold take_from_right. apply run_bind. eapply run_load; [done|]. apply run_bind. eapply run_load; [done|].
  cbv zeta. rewrite Hin, Hnum.
  assert ((pointers ndr).[0] = Some x) as Hgx.
  { destruct Hps' as [_ Hg]. apply (Hg 0). rewrite !alen_cons, alen_fmap. lia. }
  assert ((keys ndr).[0] = Some k0) as Hgk.
  { destruct Hks' as [_ Hg]. apply (Hg 0). rewrite !alen_cons, alen_fmap. lia. }
  assert ((keys ndr).[1] = Some k2) as Hgk2.
  { destruct Hks' as [_ Hg]. apply (Hg 1). rewrite !alen_cons, alen_fmap. lia. }
  apply run_bind. eapply run_lift; [exact Hgx|]. apply run_bind. eapply run_lift; [exact Hgk|].
  assert (exists ks, (keys ndl).[alen esl <- k0] = Some ks) as [ks Hks1] by (eexists; apply aset_in; lia).
  assert (exists ps, (pointers ndl).[alen esl <- x] = Some ps) as [ps Hps1] by (eexists; apply aset_in; lia).
  apply run_bind. eapply run_lift; [rewrite Hks1; cbn [mbind option_bind]; rewrite Hps1; cbn [mbind option_bind];
    rewrite Hgk2; reflexivity|].
  cbn beta iota. apply run_bind, run_ret.
  assert (u64 (num_keys ndr - 1) = alen esr + 1) as Eu.
  { rewrite Hnum'. rewrite u64_id by (unfold in_u64; lia). lia. }
  rewrite Eu.
  destruct (shift_remove_first (keys ndr) (k2 :: esr.*1) k0 Hks') as (nks & Hrk & Hnkl & Hnkh & _).
  destruct (shift_remove_first (pointers ndr) (y :: esr.*2) x Hps') as (nps & Hrp & Hnpl & Hnph & Hnpo).
  rewrite alen_cons, alen_fmap in Hrk, Hrp, Hnpo.
  apply run_bind. eapply run_lift; [by apply for_z_pair|]. cbn beta iota.
  apply run_bind. eapply run_lift; [done|].
  apply run_bind. eapply run_store; [done|].
  apply run_bind. eapply run_store; [cbn [nodes with_nodes]; by rewrite lookup_insert_ne|].
  set (ndl' := with_num_keys (with_pointers (with_keys ndl _) _) _).
  set (ndr' := with_num_keys (with_pointers (with_keys ndr _) _) _). set (m1 := with_nodes _ _).
  eapply run_mono; [apply (run_set_parent_key m1 pl ndl' P ndp gp K1 kb K2 PS k2)|].
  - unfold m1. cbn [nodes with_nodes]. rewrite lookup_insert_ne by done. apply lookup_insert_eq.
  - done.
  - unfold m1. cbn [nodes with_nodes]. by rewrite !lookup_insert_ne by done.
  - done.
  - intros _ m2 (ndp' & -> & Hokp'). exists ndl', ndr', ndp'. split; [done|].
    split; [|split; [|split; [done|split]]].
    + unfold ndl'. split; cbn; rewrite ?fmap_app; try done; try congruence.
      * rewrite alen_app. done.
      * by rewrite (aset_alen _ _ _ _ Hks1).
      * by rewrite (aset_alen _ _ _ _ Hps1).
      * apply (holds_snoc _ _ _ _ Hks). by rewrite alen_fmap.
      * apply (holds_snoc _ _ _ _ Hps). by rewrite alen_fmap.
    + unfold ndr'. split; cbn; try done; try congruence. rewrite alen_cons. lia.
    + unfold ndl'. cbn. apply aset_some in Hps1 as [_ ->]. rewrite aget_insert by lia. by rewrite decide_False by lia.
    + unfold ndr'. cbn. apply Hnpo. lia.
Qed.
End Remove.
