(* ===== verification/BTreeShrink.v ===== *)
(** * The B+ tree benchmark: deletion on whole trees

    A node that has lost an entry may be too small; the code merges it with a
    sibling, takes an entry from the sibling or leaves it.  Whatever it does on
    the way up, the tree that remains is the tree without the entry, and
    [delete] is deletion from the finite map. *)

From Stdlib Require Import ZArith Lia Sorted.
From stdpp Require Import gmap list numbers.
From S2P Require Import Prelude Arrays BTreeMem BTree BTreeRep BTreeFind BTreeInsert BTreeMap BTreeDelete BTreeRemove.
#[local] Open Scope Z_scope.

Section Shrink.
Context {os : OS} (order : Z) (order_min : 3 <= order) (order_max : order < 2 ^ 63).
#[local] Abbreviation rep := (rep order).
#[local] Abbreviation reps := (reps order).
#[local] Abbreviation wf := (wf order).
#[local] Abbreviation rep_ctx := (rep_ctx order).
#[local] Abbreviation wf_ctx := (wf_ctx order).
#[local] Abbreviation leaf_ok := (leaf_ok order).
#[local] Abbreviation node_ok := (node_ok order).
#[local] Abbreviation focus := (focus order).
#[local] Abbreviation linked := (linked order).

(** ** Trees whose root may be too small *)

Definition loose (n : nat) (lo hi : Z) : tree n -> Prop :=
  match n return tree n -> Prop with
  | O => fun t =>
      alen t.2 <= order - 1 /\ StronglySorted Z.lt t.2.*1 /\ Forall (fun k => lo <= k < hi) t.2.*1
  | S n => fun t => 1 <= alen t.2 <= order /\ bnd t.2 hi = lo /\ seg (wf n) t.2 hi
  end.

Definition leafy (n : nat) : bool := match n with O => true | S _ => false end.

(** The number of keys of the root. *)
Definition weight {n} : tree n -> Z :=
  match n return tree n -> Z with O => fun t => alen t.2 | S n => fun t => alen t.2 - 1 end.

Definition min_weight (n : nat) : Z := if leafy n then cut (order - 1) else cut order - 1.
Definition capacity (n : nat) : Z := if leafy n then order else order - 1.

Lemma loose_S n lo hi p (cs : list (Z * tree n)) :
  loose (S n) lo hi (p, cs) <-> 1 <= alen cs <= order /\ bnd cs hi = lo /\ seg (wf n) cs hi.
Proof. done. Qed.

Lemma loose_0 lo hi p (es : list (Z * Z)) :
  loose 0 lo hi (p, es) <-> alen es <= order - 1 /\ StronglySorted Z.lt es.*1 /\
    Forall (fun k => lo <= k < hi) es.*1.
Proof. done. Qed.

Lemma weight_S n p (cs : list (Z * tree n)) : weight (n := S n) (p, cs) = alen cs - 1.
Proof. done. Qed.

Lemma weight_0 p (es : list (Z * Z)) : weight (n := 0) (p, es) = alen es.
Proof. done. Qed.

Lemma wf_loose n lo hi t : wf n lo hi t -> loose n lo hi t.
Proof.
  destruct n as [|n], t as [p cs].
  - intros (? & ? & ?)%wf_0_inv. apply loose_0. split; [lia|done].
  - intros (? & ? & ?)%wf_S_inv. apply loose_S. split; [lia|done].
Qed.

Lemma loose_wf n lo hi t : loose n lo hi t -> 1 <= weight t -> wf n lo hi t.
Proof.
  destruct n as [|n], t as [p cs].
  - rewrite weight_0. intros (? & ? & ?)%loose_0 ?. apply wf_0. split; [lia|done].
  - rewrite weight_S. intros (? & ? & ?)%loose_S ?. apply wf_S. split; [lia|done].
Qed.

Lemma loose_weight n lo hi t : loose n lo hi t -> 0 <= weight t <= order - 1.
Proof.
  destruct n as [|n], t as [p cs].
  - rewrite weight_0. intros (? & _)%loose_0. pose proof (alen_nonneg cs). lia.
  - rewrite weight_S. intros (? & _)%loose_S. lia.
Qed.

Lemma wf_weight n lo hi t : wf n lo hi t -> 1 <= weight t.
Proof.
  destruct n as [|n], t as [p cs].
  - rewrite weight_0. intros (? & _)%wf_0_inv. lia.
  - rewrite weight_S. intros (? & _)%wf_S_inv. lia.
Qed.

Lemma min_weight_pos n : 1 <= min_weight n < order.
Proof.
  unfold min_weight. destruct (cut_bounds order) as (? & ? & ?); [lia|].
  destruct (cut_bounds (order - 1)) as (? & ? & ?); [lia|]. destruct (leafy n); lia.
Qed.

(** The node at the root of a stored tree. *)
Lemma rep_root H n par lo hi (t : tree n) :
  rep H n par t -> loose n lo hi t ->
  exists nd, H !! loc t = Some nd /\ is_leaf nd = leafy n /\ num_keys nd = weight t /\
    parent nd = par /\ alen (keys nd) = order - 1 /\ alen (pointers nd) = order.
Proof.
  destruct n as [|n], t as [p cs].
  - intros (nd & Hnd & [])%rep_0_inv _. by exists nd.
  - intros [(nd & Hnd & []) _]%rep_S_inv (Hlen & _)%loose_S. exists nd. rewrite weight_S.
    rewrite alen_seps in * by lia. done.
Qed.

(** ** Two siblings and the node above them *)

Record pair {n} (m : mem) (up : ctx (S n)) (P : Z) (pre : list (Z * tree n)) (ka : Z) (l : tree n)
    (kb : Z) (r : tree n) (post : list (Z * tree n)) (lo hi : Z) (extra : list Z) : Prop := {
  pr_node : exists nd, nodes m !! P = Some nd /\
    node_ok nd (ctx_parent up) (seps_to pre ka ++ kb :: post.*1)
      (child_locs pre ++ loc l :: loc r :: child_locs post);
  pr_pre : reps (nodes m) P pre;
  pr_post : reps (nodes m) P post;
  pr_l : rep (nodes m) n P l;
  pr_r : rep (nodes m) n P r;
  pr_up : rep_ctx (nodes m) up P;
  pr_wup : wf_ctx up lo hi;
  pr_lo : bnd pre ka = lo;
  pr_spre : seg (wf n) pre ka;
  pr_spost : seg (wf n) post hi;
  pr_wl : loose n ka kb l;
  pr_wr : loose n kb (bnd post hi) r;
  pr_lt : ka < kb < bnd post hi;
  pr_some : 1 <= weight l + weight r;
  pr_len : alen pre + alen post + 2 <= order;
  pr_ok : nodes_ok m (P :: all_locs pre ++ locs n l ++ locs n r ++ all_locs post ++ ctx_locs up ++ extra);
}.

(** A tree that may be too small, at the end of a path. *)
Record loose_at {n} (m : mem) (c : ctx n) (t : tree n) (lo hi : Z) (extra : list Z) : Prop := {
  la_rep : rep (nodes m) n (ctx_parent c) t;
  la_loose : loose n lo hi t;
  la_rep_ctx : rep_ctx (nodes m) c (loc t);
  la_wf_ctx : wf_ctx c lo hi;
  la_lt : lo < hi;
  la_ok : nodes_ok m (locs n t ++ ctx_locs c ++ extra);
}.

(** The sibling the code turns to: the left one if there is one. *)
Lemma frame_pair n m P (pre : list (Z * tree n)) lo post up t lo' hi' extra :
  loose_at m (Frame P pre lo post up) t lo' hi' extra ->
  exists lo1 hi1,
    (exists pre' ka l, pre = pre' ++ [(ka, l)] /\ pair m up P pre' ka l lo t post lo1 hi1 extra) \/
    (exists kb r post', pre = [] /\ post = (kb, r) :: post' /\ pair m up P [] lo t kb r post' lo1 hi1 extra).
Proof.
  intros [Hrep Hl Hrc Hwc Hlt Hok]. destruct Hrc as ((nd & Hnd & Hno) & Hpre & Hpost & Hup).
  destruct Hwc as (lo1 & hi1 & Hwup & -> & -> & Hlo & Hspre & Hspost & Hlen).
  exists lo1, hi1. cbn [ctx_locs] in Hok. destruct pre as [|[ka l] pre' _] using rev_ind; [right|left].
  - destruct post as [|[kb r] post']; [unfold alen in Hlen; cbn in Hlen; lia|].
    exists kb, r, post'. split; [done|]. split; [done|]. destruct Hspost as [Hr Hspost].
    apply list.Forall_cons in Hpost as [Hrr Hpost]. cbn [snd] in Hrr. rewrite alen_cons in Hlen.
    change (alen (@nil (Z * tree n))) with 0 in Hlen.
    cbn [bnd] in *. split; try done.
    + by exists nd.
    + by apply wf_loose.
    + apply wf_lt in Hr. lia.
    + apply wf_weight in Hr. apply loose_weight in Hl. lia.
    + change (alen (@nil (Z * tree n))) with 0. lia.
    + eapply nodes_ok_perm; [|exact Hok]. rewrite all_locs_cons. cbn [snd all_locs mbind list_bind app].
      solve_Permutation.
  - exists pre', ka, l. split; [done|]. rewrite alen_app in Hlen. change (alen [(ka, l)]) with 1 in Hlen.
    apply list.Forall_app in Hpre as [Hpre Hll]. apply list.Forall_cons in Hll as [Hll _]. cbn [snd] in Hll.
    apply seg_app in Hspre as [Hspre [Hwl _]]. rewrite bnd_app in Hlo. cbn [bnd] in *. split; try done.
    + exists nd. split; [done|]. rewrite fmap_app in Hno. cbn [fmap list_fmap fst] in Hno.
      rewrite <- app_assoc in Hno. cbn [app] in Hno. rewrite seps_around in Hno.
      rewrite child_locs_app, <- app_assoc in Hno. done.
    + by apply wf_loose.
    + apply wf_lt in Hwl. lia.
    + apply wf_weight in Hwl. apply loose_weight in Hl. lia.
    + lia.
    + eapply nodes_ok_perm; [|exact Hok]. rewrite all_locs_app, all_locs_cons. cbn [snd all_locs mbind list_bind app].
      rewrite app_nil_r. solve_Permutation.
Qed.

Lemma pair_nodup {n} m up P (pre : list (Z * tree n)) ka l kb r post lo hi extra :
  pair m up P pre ka l kb r post lo hi extra ->
  NoDup (P :: all_locs pre ++ locs n l ++ locs n r ++ all_locs post ++ ctx_locs up ++ extra).
Proof. intros Hp. eapply nodes_ok_nodup, Hp. Qed.

Lemma pair_locs {n} m up P (pre : list (Z * tree n)) ka l kb r post lo hi extra :
  pair m up P pre ka l kb r post lo hi extra ->
  loc l <> loc r /\ loc l <> P /\ loc r <> P /\ loc l ∉ child_locs pre /\ loc r ∉ child_locs pre.
Proof.
  intros Hd%pair_nodup. apply list.NoDup_cons in Hd as [HP Hd]. apply list.NoDup_app in Hd as (_ & Hpre & Hd).
  apply list.NoDup_app in Hd as (_ & Hl & _). pose proof (loc_in l). pose proof (loc_in r).
  assert (forall x, x ∈ child_locs pre -> x ∈ all_locs pre)
    by (intros x Hx; rewrite all_locs_below, elem_of_app; by left).
  rewrite !elem_of_app in HP. repeat split.
  - intros E. apply (Hl (loc l)); [done|]. rewrite elem_of_app, E. by left.
  - intros E. apply HP. rewrite <- E. auto.
  - intros E. apply HP. rewrite <- E. auto.
  - intros Hx. apply (Hpre (loc l)); [auto|]. rewrite !elem_of_app. auto.
  - intros Hx. apply (Hpre (loc r)); [auto|]. rewrite !elem_of_app. auto.
Qed.

(** ** What [fix_up] decides *)

Lemma run_get_neighbor_index m q n P nd par ks P1 P2 :
  nodes m !! q = Some n -> parent n = P -> nodes m !! P = Some nd -> node_ok nd par ks (P1 ++ q :: P2) ->
  alen (P1 ++ q :: P2) = alen ks + 1 -> q ∉ P1 ->
  run (get_neighbor_index q) m (fun i m' => i = u64 (alen P1 - 1) /\ m' = m).
Proof.
  intros Hq Hp HP Hok Hlen Hn. unfold get_neighbor_index.
  pose proof (alen_nonneg P1). pose proof (alen_nonneg P2). rewrite alen_app, alen_cons in Hlen.
  apply run_bind. eapply run_load; [done|]. rewrite Hp. apply run_bind. eapply run_load; [done|].
  rewrite (nd_num _ _ _ _ _ Hok). apply run_bind. eapply run_lift.
  - apply (scan_unique _ (fun i => match (P1 ++ q :: P2).[i] with
      Some x => negb (x =? q) | None => false end) _ (alen P1)); [lia| | |].
    + intros i Hi. destruct (holds_get _ _ i (nd_ptrs _ _ _ _ _ Hok)) as (x & -> & Hx);
        [rewrite alen_app, alen_cons; lia|]. by rewrite Hx.
    + intros i Hi. rewrite aget_app_l by lia. destruct (aget_in P1 i Hi) as [x Hx]. rewrite Hx.
      destruct (Z.eqb_spec x q); [|done]. subst x. exfalso. apply Hn. unfold aget in Hx.
      destruct (i <? 0); [done|]. by eapply list_elem_of_lookup_2.
    + intros _. rewrite aget_middle, Z.eqb_refl. done.
  - destruct (Z.leb_spec (alen P1) (alen ks)); [|lia]. by apply run_ret.
Qed.

Section Dispatch.
Context {n : nat} (m : mem) (up : ctx (S n)) (P : Z) (pre : list (Z * tree n)) (ka : Z) (l : tree n)
  (kb : Z) (r : tree n) (post : list (Z * tree n)) (lo hi : Z) (extra : list Z)
  (Hpair : pair m up P pre ka l kb r post lo hi extra).

(** [left]: the node that has lost an entry is the left one of the two. *)
Lemma run_fix_up_pair (del : Z -> Z -> Z -> Z -> M Z) root (left : bool) (Q : Z -> mem -> Prop) :
  (left = true -> pre = []) ->
  loc (if left then l else r) <> root ->
  (1 <= weight (if left then l else r) -> Q root m) ->
  (weight l + weight r < capacity n -> run (coalesce_nodes order del root (loc r) (loc l) 0 kb) m Q) ->
  (weight (if left then l else r) < min_weight n -> capacity n <= weight l + weight r ->
   run (if left then take_from_right (loc l) (loc r) (alen pre) kb
        else take_from_left (loc r) (loc l) (alen pre) kb) m (fun _ m' => Q root m')) ->
  run (fix_up order del root (loc (if left then l else r))) m Q.
Proof.
  intros Hpre Hroot Hkeep Hmerge Hmove. unfold fix_up.
  destruct (Z.eqb_spec (loc (if left then l else r)) root); [done|].
  destruct (rep_root _ _ _ _ _ _ (pr_l _ _ _ _ _ _ _ _ _ _ _ _ Hpair) (pr_wl _ _ _ _ _ _ _ _ _ _ _ _ Hpair))
    as (ndl & Hndl & Hlfl & Hnuml & Hparl & _).
  destruct (rep_root _ _ _ _ _ _ (pr_r _ _ _ _ _ _ _ _ _ _ _ _ Hpair) (pr_wr _ _ _ _ _ _ _ _ _ _ _ _ Hpair))
    as (ndr & Hndr & Hlfr & Hnumr & Hparr & _).
  set (nd := if left then ndl else ndr).
  assert (nodes m !! loc (if left then l else r) = Some nd /\ is_leaf nd = leafy n /\
    num_keys nd = weight (if left then l else r) /\ parent nd = P) as (Hnd & Hlf & Hnum & Hpar)
    by (unfold nd; by destruct left).
  pose proof (pr_node _ _ _ _ _ _ _ _ _ _ _ _ Hpair) as (ndp & Hndp & Hokp).
  pose proof (pr_len _ _ _ _ _ _ _ _ _ _ _ _ Hpair) as Hlen.
  destruct (pair_locs _ _ _ _ _ _ _ _ _ _ _ _ Hpair) as (Hlr & _ & _ & Hlp & Hrp).
  pose proof (alen_nonneg pre). pose proof (alen_nonneg post).
  apply run_bind. eapply run_load; [done|]. cbv zeta. rewrite Hlf, Hnum. fold (min_weight n).
  destruct (Z.leb_spec (min_weight n) (weight (if left then l else r))).
  { apply run_ret, Hkeep. pose proof (min_weight_pos n). lia. }
  set (idx := if left then NONE else alen pre).
  apply run_bind. eapply (run_mono _ _ (fun i m' => i = idx /\ m' = m)).
  { set (ps := child_locs pre ++ loc l :: loc r :: child_locs post) in *.
    assert (alen ps = alen (seps_to pre ka ++ kb :: post.*1) + 1) as El.
    { unfold ps. rewrite !alen_app, !alen_cons, !alen_child_locs, alen_seps_to, alen_fmap. lia. }
    destruct left.
    - eapply run_mono; [by eapply (run_get_neighbor_index m (loc l) nd P ndp _ _ (child_locs pre))|].
      intros i m' [-> ->]. rewrite (Hpre eq_refl). done.
    - eapply run_mono; [eapply (run_get_neighbor_index m (loc r) nd P ndp _ _ (child_locs pre ++ [loc l])
        (child_locs post)); try done|].
      + by rewrite <- app_assoc.
      + rewrite <- El. unfold ps. by rewrite <- app_assoc.
      + rewrite elem_of_app, list_elem_of_singleton. intros [?|?]; [done|by apply Hlr].
      + intros i m' [-> ->]. split; [|done]. rewrite alen_app, alen_child_locs. change (alen [loc l]) with 1.
        unfold idx. rewrite u64_id by (unfold in_u64; lia). lia. }
  intros i m' [-> ->]. rewrite Hpar. apply run_bind. eapply run_load; [done|].
  assert ((if idx =? NONE then 0 else idx) = alen pre) as ->.
  { unfold idx. destruct left; [by rewrite (Hpre eq_refl)|]. destruct (Z.eqb_spec (alen pre) NONE); [|done].
    unfold NONE in *. lia. }
  assert ((keys ndp).[alen pre] = Some kb) as Hkb.
  { destruct (nd_keys _ _ _ _ _ Hokp) as [_ Hg]. rewrite Hg.
    - rewrite <- (alen_seps_to pre ka). apply aget_middle.
    - rewrite alen_app, alen_cons, alen_seps_to, alen_fmap. lia. }
  apply run_bind. eapply run_lift; [exact Hkb|].
  assert ((pointers ndp).[if idx =? NONE then 1 else idx] = Some (loc (if left then r else l))) as Hnb.
  { destruct (nd_ptrs _ _ _ _ _ Hokp) as [_ Hg]. rewrite alen_app, !alen_cons, !alen_child_locs in Hg.
    unfold idx. destruct left.
    - rewrite Z.eqb_refl. rewrite Hg by lia. by rewrite (Hpre eq_refl).
    - destruct (Z.eqb_spec (alen pre) NONE); [unfold NONE in *; lia|]. rewrite Hg by lia.
      rewrite <- (alen_child_locs pre). apply aget_middle. }
  apply run_bind. eapply run_lift; [exact Hnb|]. fold (capacity n).
  set (nb := if left then ndr else ndl).
  assert (nodes m !! loc (if left then r else l) = Some nb /\
    num_keys nb = weight (if left then r else l)) as (Hndb & Hnumb) by (unfold nb; by destruct left).
  apply run_bind. eapply run_load; [done|]. rewrite Hnumb.
  assert (weight (if left then r else l) + weight (if left then l else r) = weight l + weight r) as ->
    by (destruct left; lia).
  destruct (Z.ltb_spec (weight l + weight r) (capacity n)).
  - specialize (Hmerge ltac:(done)). unfold coalesce_nodes in *. cbn [Z.eqb NONE] in Hmerge.
    unfold idx. destruct left; [done|]. destruct (Z.eqb_spec (alen pre) NONE); [unfold NONE in *; lia|done].
  - specialize (Hmove ltac:(done) ltac:(done)). unfold redistribute_nodes. apply run_bind.
    refine (run_mono _ _ (fun _ m' => Q root m') _ _ _); [|by intros [] m' HQ; apply run_ret].
    unfold idx. destruct left; [done|]. destruct (Z.eqb_spec (alen pre) NONE); [unfold NONE in *; lia|done].
Qed.
End Dispatch.

(** ** Outcomes *)

(** The leaves of a tree, as they are read by any function of a leaf. *)
Definition view : Type := forall B : Type, (tree 0 -> list B) -> list B.

(** A tree at [root'] with the leaves that [F] lists; [extra] are nodes outside
    the tree that the caller is going to free. *)
Definition outcome (F : view) (extra : list Z) (m : mem)
    (root' : Z) (m' : mem) : Prop :=
  exists n' (t' : tree n'),
    root' = loc t' /\ rep (nodes m') n' 0 t' /\ wf n' 0 (2 ^ 64) t' /\
    (forall B f, flat f n' t' = F B f) /\ nodes_ok m' (locs n' t' ++ extra) /\ words_same m m' /\
    leaf_same (F Z leaf_of) m m' /\ agree extra (nodes m) (nodes m').

(** The leaves of a tree in its place. *)
Definition spread {n} (c : ctx n) (t : tree n) : view :=
  fun B f => ctx_before f c ++ flat f n t ++ ctx_after f c.

Lemma leaf_same_refl l m : leaf_same l m m.
Proof. intros q nd _ Hnd Hl. by exists nd. Qed.

Lemma outcome_settled n m (c : ctx n) (t : tree n) lo hi extra :
  loose_at m c t lo hi extra -> 1 <= weight t -> outcome (spread c t) extra m (ctx_root c (loc t)) m.
Proof.
  intros [Hrep Hl Hrc Hwc _ Hok] Hw. exists (projT1 (plug c t)), (projT2 (plug c t)).
  split; [by rewrite plug_loc|]. split; [by apply plug_rep|].
  split; [apply (plug_wf _ _ _ _ lo hi); [by apply loose_wf|done]|].
  split; [intros B f; apply plug_flat|]. split; [|split; [done|split; [apply leaf_same_refl|done]]].
  rewrite plug_locs. eapply nodes_ok_perm; [|exact Hok]. solve_Permutation.
Qed.

Lemma outcome_trans (F : view) extra m m1 root' m' :
  words_same m m1 -> leaf_same (F Z leaf_of) m m1 -> agree extra (nodes m) (nodes m1) ->
  outcome F extra m1 root' m' -> outcome F extra m root' m'.
Proof.
  intros Hw Hl Ha (n' & t' & Hr & Hrep & Hwf & Hf & Hok & Hw' & Hl' & Ha').
  exists n', t'. do 5 (split; [done|]). split; [by etransitivity|].
  split; [by eapply leaf_same_trans|by eapply agree_trans].
Qed.

Lemma outcome_ext (F G : view) extra m root' m' :
  (forall B f, F B f = G B f) -> outcome F extra m root' m' -> outcome G extra m root' m'.
Proof.
  intros HF (n' & t' & Hr & Hrep & Hwf & Hf & Hok & Hw' & Hl' & Ha'). exists n', t'.
  do 3 (split; [done|]). split; [intros B f; by rewrite <- HF|]. rewrite <- HF. done.
Qed.

(** ** Freeing a node *)

Lemma run_free_dead m q nd live (root : Z) :
  nodes m !! q = Some nd -> alen (keys nd) <> 0 -> alen (pointers nd) <> 0 -> nodes_ok m (q :: live) ->
  run (_ ← free_keys q; _ ← free_pointers q; _ ← free_node q; mret root) m (fun root' m' =>
    root' = root /\ nodes_ok m' live /\ agree live (nodes m) (nodes m') /\ words_same m m').
Proof.
  intros Hq Hk Hp Hok. pose proof (nodes_ok_nodup _ _ Hok) as [Hn _]%list.NoDup_cons.
  unfold free_keys. apply run_bind, run_bind. eapply run_load; [done|].
  destruct (Z.eqb_spec (alen (keys nd)) 0); [done|]. eapply run_store; [done|].
  unfold free_pointers. apply run_bind, run_bind. eapply run_load; [apply lookup_insert_eq|].
  cbn [pointers with_keys]. destruct (Z.eqb_spec (alen (pointers nd)) 0); [done|].
  eapply run_store; [apply lookup_insert_eq|]. set (m1 := with_nodes _ _).
  apply run_bind. eapply run_mono; [apply run_of_wp; [apply no_exit_free_node|apply (wp_free_node m1 live)]|].
  - unfold m1. apply (nodes_ok_store (with_nodes _ _)); [by left|]. apply nodes_ok_store; [by left|done].
  - intros _ m2 (Hok2 & Ha & Hw). apply run_ret. split; [done|]. split; [done|]. split.
    + intros x Hx. rewrite Ha by done. assert (x <> q) by (by intros ->). unfold m1. cbn [nodes with_nodes].
      by rewrite !lookup_insert_ne.
    + etransitivity; [|exact Hw]. same_solve.
Qed.

(** After the entry of a merged node is gone from its parent, the node is freed. *)
Lemma run_coalesce_tail (F : view) m q nd extra (del : Z -> Z -> Z -> Z -> M Z) root k :
  nodes m !! q = Some nd -> alen (keys nd) <> 0 -> alen (pointers nd) <> 0 ->
  run (del root (parent nd) k q) m (outcome F (q :: extra) m) ->
  run (n ← load q; root ← del root (parent n) k q;
       _ ← free_keys q; _ ← free_pointers q; _ ← free_node q; mret root) m (outcome F extra m).
Proof.
  intros Hq Hk Hp Hdel. apply run_bind. eapply run_load; [done|]. apply run_bind.
  eapply run_mono; [exact Hdel|]. intros root' m1 (n' & t' & -> & Hrep & Hwf & Hf & Hok & Hw & Hl & Ha).
  rewrite <- Permutation_middle in Hok.
  eapply run_mono; [apply (run_free_dead m1 q nd (locs n' t' ++ extra)); try done|].
  { rewrite Ha; [done|by left]. }
  intros root2 m2 (-> & Hok2 & Ha2 & Hw2). exists n', t'. split; [done|].
  split; [eapply rep_agree; [|exact Hrep]; intros x Hx; apply Ha2, elem_of_app; by left|].
  do 3 (split; [done|]). split; [by etransitivity|]. split.
  - eapply leaf_same_trans; [exact Hl|]. intros x ndx Hx Hndx Hlx. rewrite <- Hf in Hx.
    destruct (rep_leaves order _ _ _ _ _ Hrep Hx) as [Hin _]. exists ndx.
    rewrite Ha2; [done|]. apply elem_of_app. by left.
  - intros x Hx. rewrite Ha2 by (apply elem_of_app; by right). apply Ha. by right.
Qed.

(** ** Removing the entry of a merged node from its parent *)

Record pending {n} (m : mem) (up : ctx (S n)) (P : Z) (pre : list (Z * tree n)) (ka : Z) (l : tree n)
    (kb q : Z) (post : list (Z * tree n)) (lo hi : Z) (extra : list Z) : Prop := {
  pd_node : exists nd, nodes m !! P = Some nd /\
    node_ok nd (ctx_parent up) (seps_to pre ka ++ kb :: post.*1)
      (child_locs pre ++ loc l :: q :: child_locs post);
  pd_cs : reps (nodes m) P (pre ++ (ka, l) :: post);
  pd_up : rep_ctx (nodes m) up P;
  pd_wup : wf_ctx up lo hi;
  pd_lo : bnd pre ka = lo;
  pd_seg : seg (wf n) (pre ++ (ka, l) :: post) hi;
  pd_lt : ka < kb;
  pd_len : alen pre + alen post + 2 <= order;
  pd_ok : nodes_ok m (P :: all_locs (pre ++ (ka, l) :: post) ++ ctx_locs up ++ extra);
  pd_q : q ∈ extra;
}.

Lemma seps_to_below n (pre : list (Z * tree n)) ka :
  seg (wf n) pre ka -> Forall (fun k => k <= ka) (seps_to pre ka).
Proof.
  intros [Hb _]%seg_bounds. assert (Forall (fun k => k <= ka) (pre.*1 ++ [ka])) as Hall.
  { apply list.Forall_app. split; [|by repeat constructor]. apply Forall_fmap.
    eapply Forall_weaken; [exact Hb|]. simpl. intros. lia. }
  unfold seps_to. destruct (pre.*1 ++ [ka]); [done|]. by apply list.Forall_cons in Hall as [_ ?].
Qed.

Lemma run_delete_entry_pending n fuel m up P (pre : list (Z * tree n)) ka l kb q post lo hi extra root :
  pending m up P pre ka l kb q post lo hi extra ->
  (forall m1, loose_at m1 up ((P, pre ++ (ka, l) :: post) : tree (S n)) lo hi extra ->
     run (fix_up order (delete_entry order fuel) root P) m1
       (outcome (spread up ((P, pre ++ (ka, l) :: post) : tree (S n))) extra m1)) ->
  run (delete_entry order (S fuel) root P kb q) m
    (outcome (spread up ((P, pre ++ (ka, l) :: post) : tree (S n))) extra m).
Proof.
  intros [(nd & Hnd & Hok) Hcs Hup Hwup Hlo Hseg Hlt Hlen Halloc Hq] Hfix. cbn [delete_entry].
  set (cs := pre ++ (ka, l) :: post) in *. pose proof (alen_nonneg pre). pose proof (alen_nonneg post).
  assert (Hdup := nodes_ok_nodup _ _ Halloc). apply list.NoDup_cons in Hdup as [HP Hdup].
  apply list.NoDup_app in Hdup as (_ & Hd & _).
  replace (child_locs pre ++ loc l :: q :: child_locs post)
    with ((child_locs pre ++ [loc l]) ++ q :: child_locs post) in Hok by (by rewrite <- app_assoc).
  apply run_bind. eapply run_mono; [apply (run_remove_inner order m P nd _ _ _ _ _ _ _ Hnd Hok)|].
  - intros Hin. unfold cs in Hseg. apply seg_app in Hseg as [Hs _]. apply seps_to_below in Hs.
    rewrite list.Forall_forall in Hs. apply Hs in Hin. cbn [bnd] in Hin. lia.
  - intros Hin. apply (Hd q); [|apply elem_of_app; by right]. unfold cs.
    rewrite all_locs_app, all_locs_cons, !elem_of_app. rewrite elem_of_app, list_elem_of_singleton in Hin.
    destruct Hin as [Hin| ->]; [left; rewrite all_locs_below, elem_of_app; by left|].
    right. left. apply loc_in.
  - rewrite alen_app, !alen_child_locs, alen_seps_to, alen_fmap. change (alen [loc l]) with 1. lia.
  - rewrite alen_seps_to, alen_fmap. lia.
  - intros p' m1 (-> & nd' & -> & Hok'). rewrite elem_of_app in HP.
    assert (agree (all_locs cs ++ ctx_locs up ++ extra) (nodes m) (<[P := nd']> (nodes m))) as Ha.
    { apply agree_insert. by rewrite elem_of_app. }
    eapply run_mono; [apply Hfix|].
    + split; cbn [nodes with_nodes]; try done.
      * apply rep_S. split.
        { exists nd'. split; [apply lookup_insert_eq|]. unfold cs.
          rewrite seps_app, seps_around, child_locs_app. by rewrite <- app_assoc in Hok'. }
        eapply reps_agree; [|exact Hcs]. eapply agree_mono; [|exact Ha]. intros x Hx. apply elem_of_app. by left.
      * apply loose_S. split; [unfold cs; rewrite alen_app, alen_cons; lia|].
        split; [unfold cs; by rewrite bnd_app|done].
      * eapply rep_ctx_agree; [|exact Hup]. eapply agree_mono; [|exact Ha]. intros x Hx. rewrite !elem_of_app. auto.
      * apply seg_bounds in Hseg as [Hb _]. unfold cs in Hb. rewrite bnd_app in Hb. cbn [bnd] in Hb.
        rewrite Hlo in Hb. apply list.Forall_app in Hb as [_ Hb]. apply list.Forall_cons in Hb as [Hb _].
        cbn [fst] in Hb. lia.
      * rewrite locs_S. apply nodes_ok_store; [by left|]. done.
    + intros root' m2. apply outcome_trans.
      * same_solve.
      * apply (leaf_same_inner _ _ _ P nd); [done|apply Hok|]. intros x _ Hne. cbn [nodes with_nodes].
        by rewrite lookup_insert_ne.
      * eapply agree_mono; [|exact Ha]. intros x Hx. rewrite !elem_of_app. auto.
Qed.

(** ** Siblings that exchange entries *)

Lemma rebalanced n m m1 up P (pre : list (Z * tree n)) ka l kb r post lo hi extra l' k' r' :
  pair m up P pre ka l kb r post lo hi extra -> loc l' = loc l -> loc r' = loc r ->
  locs n l' ++ locs n r' ≡ₚ locs n l ++ locs n r ->
  (exists nd, nodes m1 !! P = Some nd /\ node_ok nd (ctx_parent up) (seps_to pre ka ++ k' :: post.*1)
     (child_locs pre ++ loc l :: loc r :: child_locs post)) ->
  rep (nodes m1) n P l' -> rep (nodes m1) n P r' -> wf n ka k' l' -> wf n k' (bnd post hi) r' ->
  agree (all_locs pre ++ all_locs post ++ ctx_locs up ++ extra) (nodes m) (nodes m1) ->
  nodes_ok m1 (P :: all_locs pre ++ locs n l ++ locs n r ++ all_locs post ++ ctx_locs up ++ extra) ->
  loose_at m1 up ((P, pre ++ (ka, l') :: (k', r') :: post) : tree (S n)) lo hi extra.
Proof.
  intros [_ Hpre Hpost _ _ Hup Hwup Hlo Hspre Hspost _ _ _ _ Hlen _] El Er Hperm (nd & Hnd & Hok) Hl' Hr' Hwl Hwr Ha Halloc.
  pose proof (alen_nonneg pre). pose proof (alen_nonneg post).
  assert (forall l0, l0 ⊆ all_locs pre ++ all_locs post ++ ctx_locs up ++ extra -> agree l0 (nodes m) (nodes m1)) as Ha'
    by (intros l0 Hl0; by eapply agree_mono).
  assert (seg (wf n) (pre ++ (ka, l') :: (k', r') :: post) hi) as Hseg by (apply seg_app; by split; [|split; [|split]]).
  split; try done.
  - apply rep_S. split.
    + exists nd. split; [done|]. rewrite seps_app, seps_around, child_locs_app.
      cbn [fmap list_fmap fst child_locs snd]. by rewrite El, Er.
    + apply list.Forall_app. split; [|constructor; [done|constructor; [done|]]];
        (eapply reps_agree; [|eassumption]); apply Ha'; intros x Hx; rewrite !elem_of_app; auto.
  - apply loose_S. split; [rewrite alen_app, !alen_cons; lia|]. split; [by rewrite bnd_app|done].
  - eapply rep_ctx_agree; [|exact Hup]. apply Ha'. intros x Hx. rewrite !elem_of_app. auto.
  - apply wf_lt in Hwl, Hwr. apply seg_bounds in Hspost as [_ Hb].
    apply seg_bounds in Hspre as [_ Hb']. lia.
  - eapply nodes_ok_perm; [|exact Halloc]. rewrite locs_S, all_locs_app, !all_locs_cons. cbn [snd].
    cbn [app]. apply perm_skip. rewrite <- !app_assoc. apply Permutation_app_head.
    rewrite !(app_assoc (locs n _) (locs n _)). by rewrite Hperm.
Qed.

(** Leaves that at most change their parent. *)
Lemma leaf_same_parents l m m1 :
  (forall q nd, nodes m !! q = Some nd -> is_leaf nd = true ->
     nodes m1 !! q = Some nd \/ exists p, nodes m1 !! q = Some (with_parent nd p)) ->
  leaf_same l m m1.
Proof.
  intros Hs q nd _ Hnd Hl. destruct (Hs q nd Hnd Hl) as [H|[p H]]; eexists; (split; [exact H|]); by destruct nd.
Qed.

(** ** Inner nodes *)

Section Inner.
Context {n : nat} (m : mem) (up : ctx (S (S n))) (P : Z) (pre : list (Z * tree (S n))) (ka : Z) (pl : Z)
  (csl : list (Z * tree n)) (kb : Z) (pr : Z) (csr : list (Z * tree n)) (post : list (Z * tree (S n)))
  (lo hi : Z) (extra : list Z)
  (Hpair : pair m up P pre ka ((pl, csl) : tree (S n)) kb ((pr, csr) : tree (S n)) post lo hi extra).

#[local] Abbreviation rest := (all_locs pre ++ all_locs post ++ ctx_locs up ++ extra).

Lemma inner_ok : nodes_ok m (pl :: pr :: P :: all_locs csl ++ all_locs csr ++ rest).
Proof.
  eapply nodes_ok_perm; [|exact (pr_ok _ _ _ _ _ _ _ _ _ _ _ _ Hpair)]. rewrite !locs_S. solve_Permutation.
Qed.

Lemma inner_nodes :
  exists ndl ndr ndp, nodes m !! pl = Some ndl /\ node_ok ndl P (seps csl) (child_locs csl) /\
    nodes m !! pr = Some ndr /\ node_ok ndr P (seps csr) (child_locs csr) /\
    nodes m !! P = Some ndp /\ node_ok ndp (ctx_parent up) (seps_to pre ka ++ kb :: post.*1)
      (child_locs pre ++ pl :: pr :: child_locs post).
Proof.
  destruct Hpair as [(ndp & HP & HokP) _ _ [(ndl & Hl & Hokl) _]%rep_S_inv [(ndr & Hr & Hokr) _]%rep_S_inv].
  by exists ndl, ndr, ndp.
Qed.

(** The children of the right node start at the separator. *)
Lemma inner_right : exists c csr', csr = (kb, c) :: csr'.
Proof.
  destruct Hpair as [_ _ _ _ _ _ _ _ _ _ _ (Hlen & Hb & _)%loose_S _ _ _ _].
  destruct csr as [|[k c] csr']; [rewrite alen_nil in Hlen; lia|]. cbn [bnd] in Hb. subst k. by exists c, csr'.
Qed.

Lemma reparent_l L1 L2 new (H : gmap Z node) q : q ∉ L2 -> reparent (L1 ++ L2) new H q = reparent L1 new H q.
Proof.
  intros Hq. unfold reparent. destruct (decide (q ∈ L1 ++ L2)) as [Hin|Hin]; rewrite elem_of_app in Hin.
  - destruct Hin; [by rewrite decide_True|done].
  - by rewrite decide_False by auto.
Qed.

Lemma reparent_r L1 L2 new (H : gmap Z node) q : q ∉ L1 -> reparent (L1 ++ L2) new H q = reparent L2 new H q.
Proof.
  intros Hq. unfold reparent. destruct (decide (q ∈ L1 ++ L2)) as [Hin|Hin]; rewrite elem_of_app in Hin.
  - destruct Hin; [done|by rewrite decide_True].
  - by rewrite decide_False by auto.
Qed.

Lemma child_locs_all {k} (cs : list (Z * tree k)) x : x ∈ child_locs cs -> x ∈ all_locs cs.
Proof. intros Hx. rewrite all_locs_below, elem_of_app. by left. Qed.

(** What the merge of the two nodes leaves behind. *)
Lemma run_merge_pair_inner :
  alen csl + alen csr <= order ->
  run (merge_into order pl pr kb) m (fun _ m1 =>
    pending m1 up P pre ka ((pl, csl ++ csr) : tree (S n)) kb pr post lo hi (pr :: extra) /\
    (exists nd, nodes m1 !! pr = Some nd /\ parent nd = P /\ alen (keys nd) <> 0 /\ alen (pointers nd) <> 0) /\
    words_same m m1 /\ (forall l, leaf_same l m m1) /\ agree extra (nodes m) (nodes m1)).
Proof.
  intros Hlen. destruct inner_nodes as (ndl & ndr & ndp & Hl & Hokl & Hr & Hokr & HP & HokP).
  pose proof inner_ok as Hok. destruct inner_right as (cr & csr' & Ecsr).
  destruct Hpair as [_ Hpre Hpost [_ Hcl]%rep_S_inv [_ Hcr]%rep_S_inv Hup Hwup Hlo Hspre Hspost
    (Hll & Hbl & Hsl)%loose_S (Hlr & Hbr & Hsr)%loose_S Hlt _ Hplen _].
  pose proof (nodes_ok_nodup _ _ Hok) as Hd. rewrite !list.NoDup_cons, !not_elem_of_cons, !not_elem_of_app in Hd.
  destruct Hd as ((N1 & N2 & N3 & N4 & N5) & (N6 & N7 & N8 & N9) & (N10 & N11 & N12) & Hd).
  apply list.NoDup_app in Hd as (Dl & Dl' & Hd). apply list.NoDup_app in Hd as (Dr & Dr' & _).
  pose proof (@child_locs_all n) as Hc.
  eapply run_mono; [apply (run_merge_inner order m pl ndl pr ndr P _ _ _ _ kb
    (pl :: pr :: P :: all_locs csl ++ all_locs csr ++ rest) Hl Hokl Hr Hokr N1)|].
  - rewrite alen_seps, alen_child_locs by lia. lia.
  - rewrite alen_seps, alen_child_locs by lia. lia.
  - rewrite !alen_seps by lia. lia.
  - exact Hok.
  - by left.
  - right. by left.
  - intros q Hq. do 3 right. rewrite elem_of_app in Hq. rewrite !elem_of_app. destruct Hq; auto.
  - rewrite elem_of_app. intros [?|?]; auto.
  - rewrite elem_of_app. intros [?|?]; auto.
  - intros _ m1 (Hok1 & Hw & (nd & Hnd & Hnok) & Hnr & Hm1).
    assert (agree rest (nodes m) (nodes m1)) as Ha.
    { intros x Hx. rewrite Hm1 by (intros ->; rewrite !elem_of_app in *; tauto). unfold reparent.
      rewrite decide_False; [done|]. rewrite elem_of_app. intros [Hin|Hin]; apply Hc in Hin.
      - apply (Dl' x Hin). rewrite elem_of_app. by right.
      - by apply (Dr' x Hin). }
    assert (forall l0, l0 ⊆ rest -> agree l0 (nodes m) (nodes m1)) as Ha' by (intros l0 Hl0; by eapply agree_mono).
    assert (nodes m1 !! P = Some ndp) as HP1.
    { rewrite Hm1 by done. unfold reparent. rewrite decide_False; [done|].
      rewrite elem_of_app. intros [Hin|Hin]; apply Hc in Hin; auto. }
    split; [|split; [|split; [done|split]]].
    + split; try done.
      * by exists ndp.
      * apply list.Forall_app. split; [|constructor].
        { eapply reps_agree; [|exact Hpre]. apply Ha'. intros x Hx. rewrite !elem_of_app. auto. }
        { apply rep_S. split.
          - exists nd. split; [done|]. rewrite child_locs_app, Ecsr, seps_cut; [by rewrite Ecsr in Hnok|].
            intros ->. rewrite alen_nil in Hll. lia.
          - apply list.Forall_app. split.
            + apply (reps_reparent order (nodes m) _ _ pl); [done|done|]. intros x Hx.
              rewrite Hm1; [apply reparent_l|by intros ->|by intros ->].
              intros Hin%Hc. apply (Dl' x Hx). rewrite elem_of_app. by left.
            + apply (reps_reparent order (nodes m) _ _ pr); [done|done|]. intros x Hx.
              rewrite Hm1; [apply reparent_r|by intros ->|by intros ->].
              intros Hin%Hc. apply (Dl' x Hin). rewrite elem_of_app. by left. }
        { eapply reps_agree; [|exact Hpost]. apply Ha'. intros x Hx. rewrite !elem_of_app. auto. }
      * eapply rep_ctx_agree; [|exact Hup]. apply Ha'. intros x Hx. rewrite !elem_of_app. auto.
      * apply seg_app. split; [done|]. split; [|done]. apply wf_S. split; [rewrite alen_app; lia|].
        split; [by rewrite bnd_app, Hbr|]. apply seg_app. by rewrite Hbr.
      * lia.
      * eapply nodes_ok_perm; [|exact Hok1]. rewrite all_locs_app, all_locs_cons. cbn [snd].
        rewrite locs_S, all_locs_app. solve_Permutation.
      * by left.
    + eexists. split; [exact Hnr|]. cbn [parent keys pointers with_num_keys]. destruct Hokr. rewrite nd_keys_len, nd_ptrs_len.
      repeat split; [done|lia|lia].
    + intros l0. apply leaf_same_parents. intros q nq Hq Hlf.
      assert (q <> pl) by (intros ->; assert (nq = ndl) as -> by congruence; by rewrite (nd_inner _ _ _ _ _ Hokl) in Hlf).
      assert (q <> pr) by (intros ->; assert (nq = ndr) as -> by congruence; by rewrite (nd_inner _ _ _ _ _ Hokr) in Hlf).
      rewrite Hm1 by done. unfold reparent. rewrite Hq. case_decide; [right; by exists pl|by left].
    + apply Ha'. intros x Hx. rewrite !elem_of_app. auto.
Qed.

(** The outcome of moving a child from one node to the other. *)
Definition moved (m1 : mem) : Prop :=
  exists l' k' r', loose_at m1 up ((P, pre ++ (ka, l') :: (k', r') :: post) : tree (S (S n))) lo hi extra /\
    (forall B (f : tree 0 -> list B), flat f (S n) l' ++ flat f (S n) r' = flats f csl ++ flats f csr) /\
    words_same m m1 /\ (forall l, leaf_same l m m1) /\ agree extra (nodes m) (nodes m1).

Lemma inner_moved m1 csl' csr' ndl' ndr' ndp' x ndx px :
  csl ++ csr = csl' ++ csr' -> 2 <= alen csl' <= order -> 2 <= alen csr' <= order ->
  nodes m1 !! pl = Some ndl' -> node_ok ndl' P (seps csl') (child_locs csl') ->
  nodes m1 !! pr = Some ndr' -> node_ok ndr' P (seps csr') (child_locs csr') ->
  nodes m1 !! P = Some ndp' -> node_ok ndp' (ctx_parent up)
    (seps_to pre ka ++ bnd csr' (bnd post hi) :: post.*1) (child_locs pre ++ pl :: pr :: child_locs post) ->
  nodes m !! x = Some ndx -> nodes m1 !! x = Some (with_parent ndx px) -> x ∈ all_locs csl ++ all_locs csr ->
  (forall q, q <> pl -> q <> pr -> q <> P -> q <> x -> nodes m1 !! q = nodes m !! q) ->
  reps (nodes m1) pl csl' -> reps (nodes m1) pr csr' -> words_same m m1 ->
  nodes_ok m1 (pl :: pr :: P :: all_locs csl ++ all_locs csr ++ rest) -> moved m1.
Proof.
  intros E Hl' Hr' Hndl Hokl Hndr Hokr HndP HokP Hx Hx1 Hin Hm1 Hcl Hcr Hw Hok1.
  destruct inner_nodes as (ndl & ndr & ndp & Hl & Hokl0 & Hr & Hokr0 & HP & HokP0).
  pose proof (nodes_ok_nodup _ _ Hok1) as Hd. rewrite !list.NoDup_cons, !not_elem_of_cons in Hd.
  destruct Hd as ((_ & _ & N1) & (_ & N2) & N3 & Hd).
  rewrite app_assoc in Hd, N1, N2, N3. apply list.NoDup_app in Hd as (_ & Hd & _).
  rewrite not_elem_of_app in N1, N2, N3.
  assert (agree rest (nodes m) (nodes m1)) as Ha.
  { intros q Hq. apply Hm1; try (by intros ->; tauto). intros ->. by apply (Hd x). }
  pose proof Hpair as [_ _ _ _ _ _ _ _ _ _ (Hll & Hbl & Hsl)%loose_S (Hlr & Hbr & Hsr)%loose_S _ _ _ _].
  assert (seg (wf n) (csl' ++ csr') (bnd post hi)) as Hs
    by (rewrite <- E; apply seg_app; rewrite Hbr; by split).
  assert (bnd (csl' ++ csr') (bnd post hi) = ka) as Hb by (by rewrite <- E, bnd_app, Hbr).
  apply seg_app in Hs as [Hs1 Hs2]. rewrite bnd_app in Hb.
  exists (pl, csl'), (bnd csr' (bnd post hi)), (pr, csr'). split; [|split; [|split; [done|split]]].
  - eapply (rebalanced _ m m1 up P pre ka _ kb _ post lo hi extra (pl, csl') _ (pr, csr') Hpair); try done.
    + rewrite !locs_S. pose proof (all_locs_app csl csr) as A1. rewrite E, all_locs_app in A1.
      transitivity (pl :: pr :: all_locs csl' ++ all_locs csr'); [solve_Permutation|].
      rewrite A1. solve_Permutation.
    + by exists ndp'.
    + apply rep_S. split; [by exists ndl'|done].
    + apply rep_S. split; [by exists ndr'|done].
    + eapply nodes_ok_perm; [|exact Hok1]. rewrite !locs_S. solve_Permutation.
  - intros B f. change (flat f (S n) (?p, ?cs)) with (flats f cs). by rewrite <- !flats_app, E.
  - intros l0. apply leaf_same_parents. intros q nq Hq Hlf.
    assert (q <> pl) by (intros ->; assert (nq = ndl) as -> by congruence; by rewrite (nd_inner _ _ _ _ _ Hokl0) in Hlf).
    assert (q <> pr) by (intros ->; assert (nq = ndr) as -> by congruence; by rewrite (nd_inner _ _ _ _ _ Hokr0) in Hlf).
    assert (q <> P) by (intros ->; assert (nq = ndp) as -> by congruence; by rewrite (nd_inner _ _ _ _ _ HokP0) in Hlf).
    destruct (decide (q = x)) as [->|]; [right; exists px; congruence|left; by rewrite Hm1].
  - eapply agree_mono; [|exact Ha]. intros q Hq. rewrite !elem_of_app. auto.
Qed.

(** A child that gets a new parent, and the others of its list. *)
Lemma rep_moved (m1 : mem) k (c : tree n) p px ndx :
  (forall q, q ∈ list.tail (locs n c) -> nodes m1 !! q = nodes m !! q) ->
  nodes m !! loc c = Some ndx -> nodes m1 !! loc c = Some (with_parent ndx px) ->
  rep (nodes m) n p c -> reps (nodes m1) px [(k, c)].
Proof.
  intros Ha Hx Hx1 Hrep. constructor; [|done]. eapply rep_reparent; [exact Hrep| |done]. cbn [snd]. by rewrite Hx1, Hx.
Qed.

Lemma run_move_left_inner :
  3 <= alen csl -> alen csr + 1 <= order ->
  run (take_from_left pr pl (alen pre) kb) m (fun _ m1 => moved m1).
Proof.
  intros Hlenl Hlenr. destruct inner_nodes as (ndl & ndr & ndp & Hl & Hokl & Hr & Hokr & HP & HokP).
  pose proof inner_ok as Hok. destruct inner_right as (cr & csr' & Ecsr).
  pose proof Hpair as [_ _ _ [_ Hcl]%rep_S_inv [_ Hcr]%rep_S_inv _ _ _ _ _ (Hll & _)%loose_S (Hlr & _)%loose_S _ _ _ _].
  destruct (list_last csl) as (csl' & [kx c] & Ecsl & Hcsl'); [lia|].
  rewrite Ecsl, child_locs_app, seps_cut in Hokl by (intros ->; rewrite alen_nil in Hcsl'; lia).
  assert (Hd := nodes_ok_nodup _ _ Hok). rewrite Ecsl, all_locs_app in Hd.
  change (all_locs [(kx, c)]) with (locs n c ++ []) in Hd. rewrite app_nil_r in Hd.
  assert (loc c ∈ all_locs csl) as Hcin
    by (apply (child_loc_in _ kx); rewrite Ecsl, elem_of_app; right; by left).
  rewrite Ecsl in Hcl. apply list.Forall_app in Hcl as [Hcl Hc]. apply list.Forall_cons in Hc as [Hc _]. cbn [snd] in Hc.
  rewrite !list.NoDup_cons, !not_elem_of_cons, <- !app_assoc, !not_elem_of_app in Hd.
  destruct Hd as ((N1 & N2 & N3 & N4 & N5 & _) & (N6 & N7 & N8 & N9 & _) & (N10 & N11 & N12 & _) & Hd).
  apply list.NoDup_app in Hd as (_ & D1 & Hd). apply list.NoDup_app in Hd as (Dc & D2 & _).
  pose proof (loc_in c) as Hlc.
  pose proof Hok as (free & _ & _ & Hlive & _). destruct (Hlive (loc c)) as [ndx Hx];
    [do 3 right; rewrite !elem_of_app; by left|].
  rewrite <- (alen_seps_to pre ka).
  eapply run_mono; [apply (run_take_left_inner order order_min m pl ndl pr ndr P ndp _ (seps csl') kx (child_locs csl')
    (loc c) (seps csr) (child_locs csr) _ kb _ _ ndx Hl Hokl Hr Hokr HP HokP Hx)|].
  - rewrite !list.NoDup_cons, !not_elem_of_cons. repeat split; try done; try apply not_elem_of_nil; try (by intros ->).
    apply NoDup_nil_2.
  - rewrite alen_child_locs, alen_seps; lia.
  - rewrite alen_child_locs, alen_seps; lia.
  - rewrite alen_seps; lia.
  - rewrite alen_seps; lia.
  - intros _ m1 (ndl' & ndr' & ndp' & -> & Hokl' & Hokr' & Hokp').
    assert (loc c <> pl /\ loc c <> pr /\ loc c <> P) as (Nc1 & Nc2 & Nc3)
      by (repeat split; intros E; rewrite E in Hlc; tauto).
    set (m1 := with_nodes _ _). set (H1 := nodes m1).
    assert (H1 = <[P:=ndp']> (<[loc c:=with_parent ndx pr]> (<[pl:=ndl']> (<[pr:=ndr']> (nodes m))))) as EH1 by done.
    assert (Hm1 : forall q, q <> pl -> q <> pr -> q <> P -> q <> loc c -> H1 !! q = nodes m !! q)
      by (intros q ????; rewrite EH1; by rewrite !lookup_insert_ne).
    assert (Hxc : H1 !! loc c = Some (with_parent ndx pr))
      by (rewrite EH1, lookup_insert_ne by done; apply lookup_insert_eq).
    apply (inner_moved m1 csl' ((kx, c) :: csr) ndl' ndr' ndp' (loc c) ndx pr); try done.
    + by rewrite Ecsl, <- app_assoc.
    + lia.
    + rewrite alen_cons. lia.
    + fold H1. rewrite EH1, !lookup_insert_ne by done. apply lookup_insert_eq.
    + fold H1. rewrite EH1, !lookup_insert_ne by done. apply lookup_insert_eq.
    + rewrite Ecsr in Hokr' |- *. exact Hokr'.
    + fold H1. rewrite EH1. apply lookup_insert_eq.
    + rewrite elem_of_app. by left.
    + eapply reps_agree; [|exact Hcl]. intros q Hq. apply Hm1; try (by intros ->; tauto).
      intros ->. apply (D1 (loc c) Hq). rewrite elem_of_app. by left.
    + apply (list.Forall_app _ [(kx, c)] csr). split.
      * apply (rep_moved m1 kx c pl pr ndx); try done. intros q Hq.
        assert (q ∈ locs n c) by (destruct n; [by apply not_elem_of_nil in Hq|by right]).
        apply Hm1; try (by intros ->; tauto). intros ->. destruct n, c; [by apply not_elem_of_nil in Hq|].
        rewrite locs_S in Dc. by apply list.NoDup_cons in Dc as [? _].
      * eapply reps_agree; [|exact Hcr]. intros q Hq. apply Hm1; try (by intros ->; tauto).
        intros ->. apply (D2 (loc c)); [done|]. rewrite elem_of_app. by left.
    + same_solve.
    + unfold m1. apply (nodes_ok_store (with_nodes _ _)); [do 2 right; by left|].
      apply (nodes_ok_store (with_nodes _ _)); [do 3 right; rewrite elem_of_app; by left|].
      apply (nodes_ok_store (with_nodes _ _)); [by left|]. apply nodes_ok_store; [right; by left|done].
Qed.

Lemma run_move_right_inner :
  3 <= alen csr -> alen csl + 1 <= order ->
  run (take_from_right pl pr (alen pre) kb) m (fun _ m1 => moved m1).
Proof.
  intros Hlenr Hlenl. destruct inner_nodes as (ndl & ndr & ndp & Hl & Hokl & Hr & Hokr & HP & HokP).
  pose proof inner_ok as Hok. destruct inner_right as (c & csr1 & Ecsr).
  pose proof Hpair as [_ _ _ [_ Hcl]%rep_S_inv [_ Hcr]%rep_S_inv _ _ _ _ _ (Hll & _)%loose_S (Hlr & _)%loose_S _ _ _ _].
  assert (Hlen1 : alen csr = alen csr1 + 1) by (by rewrite Ecsr, alen_cons).
  destruct csr1 as [|[k2 d] csr2]; [rewrite alen_nil in Hlen1; lia|]. set (csr' := (k2, d) :: csr2) in *.
  rewrite Ecsr in Hokr. change (seps ((kb, c) :: csr')) with (k2 :: csr2.*1) in Hokr.
  change (child_locs ((kb, c) :: csr')) with (loc c :: child_locs csr') in Hokr.
  assert (Hd := nodes_ok_nodup _ _ Hok). rewrite Ecsr, all_locs_cons in Hd. cbn [snd] in Hd.
  assert (loc c ∈ all_locs csr) as Hcin by (apply (child_loc_in _ kb); rewrite Ecsr; by left).
  rewrite Ecsr in Hcr. apply list.Forall_cons in Hcr as [Hc Hcr]. cbn [snd] in Hc.
  rewrite !list.NoDup_cons, !not_elem_of_cons, <- !app_assoc, !not_elem_of_app in Hd.
  destruct Hd as ((N1 & N2 & N3 & N4 & N5 & _) & (N6 & N7 & N8 & N9 & _) & (N10 & N11 & N12 & _) & Hd).
  apply list.NoDup_app in Hd as (_ & D1 & Hd). apply list.NoDup_app in Hd as (Dc & D2 & _).
  pose proof (loc_in c) as Hlc. unfold csr' in Hlen1. rewrite alen_cons in Hlen1. pose proof (alen_nonneg csr2).
  pose proof Hok as (free & _ & _ & Hlive & _). destruct (Hlive (loc c)) as [ndx Hx];
    [do 3 right; rewrite !elem_of_app; right; by left|].
  rewrite <- (alen_seps_to pre ka).
  eapply run_mono; [apply (run_take_right_inner order order_min m pl ndl pr ndr P ndp _ (seps csl) (child_locs csl) k2
    csr2.*1 (loc c) (child_locs csr') _ kb _ _ ndx Hl Hokl Hr Hokr HP HokP Hx)|].
  - rewrite !list.NoDup_cons, !not_elem_of_cons. repeat split; try done; try apply not_elem_of_nil; try (by intros ->).
    apply NoDup_nil_2.
  - rewrite alen_child_locs, alen_seps; lia.
  - rewrite alen_child_locs, alen_fmap. unfold csr'. by rewrite alen_cons.
  - rewrite alen_seps; lia.
  - rewrite alen_fmap. lia.
  - intros _ m1 (ndl' & ndr' & ndp' & -> & Hokl' & Hokr' & Hokp').
    assert (loc c <> pl /\ loc c <> pr /\ loc c <> P) as (Nc1 & Nc2 & Nc3)
      by (repeat split; intros E; rewrite E in Hlc; tauto).
    set (m1 := with_nodes _ _). set (H1 := nodes m1).
    assert (H1 = <[P:=ndp']> (<[pr:=ndr']> (<[pl:=ndl']> (<[loc c:=with_parent ndx pl]> (nodes m))))) as EH1 by done.
    assert (Hm1 : forall q, q <> pl -> q <> pr -> q <> P -> q <> loc c -> H1 !! q = nodes m !! q)
      by (intros q ????; rewrite EH1; by rewrite !lookup_insert_ne).
    assert (Hxc : H1 !! loc c = Some (with_parent ndx pl))
      by (rewrite EH1, !lookup_insert_ne by done; apply lookup_insert_eq).
    apply (inner_moved m1 (csl ++ [(kb, c)]) csr' ndl' ndr' ndp' (loc c) ndx pl); try done.
    + by rewrite Ecsr, <- app_assoc.
    + rewrite alen_app. change (alen [(kb, c)]) with 1. lia.
    + unfold csr'. rewrite alen_cons. lia.
    + fold H1. rewrite EH1, !lookup_insert_ne by done. apply lookup_insert_eq.
    + rewrite seps_cut, child_locs_app; [done|]. intros ->. rewrite alen_nil in Hll. lia.
    + fold H1. rewrite EH1, !lookup_insert_ne by done. apply lookup_insert_eq.
    + fold H1. rewrite EH1. apply lookup_insert_eq.
    + rewrite elem_of_app. by right.
    + apply list.Forall_app. split.
      * eapply reps_agree; [|exact Hcl]. intros q Hq. apply Hm1; try (by intros ->; tauto).
        intros ->. apply (D1 (loc c) Hq). rewrite elem_of_app. by left.
      * apply (rep_moved m1 kb c pr pl ndx); try done. intros q Hq.
        assert (q ∈ locs n c) by (destruct n; [by apply not_elem_of_nil in Hq|by right]).
        apply Hm1; try (by intros ->; tauto). intros ->. destruct n, c; [by apply not_elem_of_nil in Hq|].
        rewrite locs_S in Dc. by apply list.NoDup_cons in Dc as [? _].
    + eapply reps_agree; [|exact Hcr]. intros q Hq. apply Hm1; try (by intros ->; tauto).
      intros ->. apply (D2 (loc c)); [done|]. rewrite elem_of_app. by left.
    + same_solve.
    + unfold m1. apply (nodes_ok_store (with_nodes _ _)); [do 2 right; by left|].
      apply (nodes_ok_store (with_nodes _ _)); [right; by left|].
      apply (nodes_ok_store (with_nodes _ _)); [by left|].
      apply nodes_ok_store; [do 3 right; rewrite !elem_of_app; right; by left|done].
Qed.
End Inner.

(** ** The root *)

Lemma run_adjust_root_inner n m p (cs : list (Z * tree n)) lo hi extra :
  loose_at m Top ((p, cs) : tree (S n)) lo hi extra ->
  run (adjust_root p) m (outcome (spread Top ((p, cs) : tree (S n))) extra m).
Proof.
  intros Hat. pose proof (outcome_settled _ _ _ _ _ _ _ Hat) as Hset.
  destruct Hat as [[(nd & Hnd & Hok) Hcs]%rep_S_inv (Hlen & Hb & Hs)%loose_S _ [-> ->] _ Halloc].
  rewrite weight_S in Hset. unfold adjust_root. apply run_bind. eapply run_load; [done|].
  rewrite (nd_num _ _ _ _ _ Hok), alen_seps by lia.
  destruct (Z.ltb_spec 0 (alen cs - 1)); [apply run_ret, Hset; lia|].
  rewrite (nd_inner _ _ _ _ _ Hok). cbn [negb].
  destruct cs as [|[k c] cs]; [rewrite alen_nil in Hlen; lia|]. rewrite alen_cons in *.
  destruct cs as [|? cs]; [|rewrite alen_cons in *; pose proof (alen_nonneg cs); lia].
  cbn [bnd] in Hb. subst k. destruct Hs as [Hwf _]. cbn [bnd] in Hwf.
  apply list.Forall_cons in Hcs as [Hc _]. cbn [snd] in Hc. rewrite locs_S in Halloc.
  change (all_locs [(0, c)]) with (locs n c ++ []) in Halloc. rewrite app_nil_r in Halloc. cbn [ctx_locs app] in Halloc.
  assert (Hptr : (pointers nd).[0] = Some (loc c)).
  { destruct (nd_ptrs _ _ _ _ _ Hok) as [_ Hg]. apply (Hg 0). change (alen (child_locs [(0, c)])) with 1. lia. }
  destruct (rep_root _ _ _ _ _ _ Hc (wf_loose _ _ _ _ Hwf)) as (ndc & Hndc & _).
  pose proof (nodes_ok_nodup _ _ Halloc) as Hd. apply list.NoDup_cons in Hd as [Hp Hd].
  rewrite elem_of_app in Hp. apply list.NoDup_app in Hd as (Dc & Dx & _).
  assert (loc c <> p) by (intros E; apply Hp; left; rewrite <- E; apply loc_in).
  apply run_bind, run_bind. eapply run_lift; [exact Hptr|]. apply run_bind. eapply run_load; [done|].
  apply run_bind. eapply run_store; [done|]. apply run_ret.
  set (m1 := with_nodes _ _).
  eapply run_mono; [apply (run_free_dead m1 p nd (locs n c ++ extra))|].
  - unfold m1. cbn [nodes with_nodes]. by rewrite lookup_insert_ne.
  - rewrite (nd_keys_len _ _ _ _ _ Hok). lia.
  - rewrite (nd_ptrs_len _ _ _ _ _ Hok). lia.
  - unfold m1. apply nodes_ok_store; [right; rewrite elem_of_app; left; apply loc_in|done].
  - intros root' m2 (-> & Hok2 & Ha & Hw).
    assert (Hre : forall q, q ∈ locs n c ++ extra -> nodes m2 !! q = <[loc c := with_parent ndc 0]> (nodes m) !! q)
      by (intros q Hq; by rewrite Ha).
    exists n, c. split; [done|]. split; [|split; [done|split; [|split; [done|split; [|split]]]]].
    + eapply rep_reparent; [exact Hc| |].
      * rewrite Hre by (rewrite elem_of_app; left; apply loc_in). by rewrite lookup_insert_eq, Hndc.
      * intros q Hq. rewrite Hre by (rewrite elem_of_app; left; destruct n; [by apply not_elem_of_nil in Hq|by right]).
        apply lookup_insert_ne. intros <-. destruct n, c; [by apply not_elem_of_nil in Hq|].
        rewrite locs_S in Dc. by apply list.NoDup_cons in Dc as [? _].
    + intros B f. unfold spread. cbn. by rewrite !app_nil_r.
    + etransitivity; [|exact Hw]. same_solve.
    + intros q nq Hq Hnq Hlf. unfold spread in Hq. cbn [ctx_before ctx_after app] in Hq. rewrite app_nil_r in Hq.
      change (flat leaf_of (S n) (p, [(0, c)])) with (flat leaf_of n c ++ []) in Hq. rewrite app_nil_r in Hq.
      destruct (rep_leaves order _ _ _ _ _ Hc Hq) as [Hin _]. rewrite Hre by (rewrite elem_of_app; by left).
      destruct (decide (q = loc c)) as [->|].
      * rewrite lookup_insert_eq. eexists. split; [done|]. assert (nq = ndc) as -> by congruence. by destruct ndc.
      * rewrite lookup_insert_ne by done. by exists nq.
    + intros q Hq. rewrite Hre by (rewrite elem_of_app; by right). apply lookup_insert_ne. intros <-.
      apply (Dx (loc c)); [apply loc_in|done].
Qed.

(** ** The way up *)

Lemma frame_not_root n m P (pre : list (Z * tree n)) lo post up t lo' hi' extra :
  loose_at m (Frame P pre lo post up) t lo' hi' extra -> loc t <> ctx_root up P.
Proof.
  intros Hat E. pose proof (nodes_ok_nodup _ _ (la_ok _ _ _ _ _ _ Hat)) as (_ & Hd & _)%list.NoDup_app.
  apply (Hd (loc t)); [apply loc_in|]. rewrite E. pose proof (ctx_root_in _ up P) as Hin.
  cbn [ctx_locs]. rewrite elem_of_cons in Hin. rewrite elem_of_app, elem_of_cons, !elem_of_app. tauto.
Qed.

(** What is under a pair of siblings, and the repair of the node above. *)
Section Step.
Context {n : nat} (fuel : nat) (m : mem) (up : ctx (S n)) (P : Z) (pre : list (Z * tree n)) (ka : Z)
  (l : tree n) (kb : Z) (r : tree n) (post : list (Z * tree n)) (lo hi : Z) (extra : list Z) (root : Z)
  (Hpair : pair m up P pre ka l kb r post lo hi extra) (Hroot : root = ctx_root up P)
  (IH : forall m1 (cs : list (Z * tree n)) extra,
     loose_at m1 up ((P, cs) : tree (S n)) lo hi extra ->
     run (fix_up order (delete_entry order fuel) root P) m1 (outcome (spread up ((P, cs) : tree (S n))) extra m1)).

Lemma run_coalesce (l' : tree n) (R : mem -> Prop) :
  run (merge_into order (loc l) (loc r) kb) m (fun _ m1 => R m1 /\
    pending m1 up P pre ka l' kb (loc r) post lo hi (loc r :: extra) /\
    exists nd, nodes m1 !! loc r = Some nd /\ parent nd = P /\ alen (keys nd) <> 0 /\ alen (pointers nd) <> 0) ->
  run (coalesce_nodes order (delete_entry order (S fuel)) root (loc r) (loc l) 0 kb) m (fun root' m' =>
    exists m1, R m1 /\ pending m1 up P pre ka l' kb (loc r) post lo hi (loc r :: extra) /\
      outcome (spread up ((P, pre ++ (ka, l') :: post) : tree (S n))) extra m1 root' m').
Proof.
  intros Hmerge. unfold coalesce_nodes. change (0 =? NONE) with false. cbv beta iota zeta.
  apply run_bind. eapply run_mono; [exact Hmerge|]. intros _ m1 (HR & Hpend & nd & Hnd & Hpar & Hk & Hp).
  eapply run_mono; [eapply (run_coalesce_tail _ m1 (loc r) nd extra); try done|].
  - rewrite Hpar. eapply run_delete_entry_pending; [exact Hpend|]. intros m2 Hat. by apply IH.
  - intros root' m' Hout. by exists m1.
Qed.
End Step.

Lemma run_step_inner n fuel m (up : ctx (S (S n))) P pre ka (l : tree (S n)) kb (r : tree (S n)) post lo hi extra root
    (left : bool) :
  pair m up P pre ka l kb r post lo hi extra -> root = ctx_root up P ->
  (forall m1 (cs : list (Z * tree (S n))) extra,
     loose_at m1 up ((P, cs) : tree (S (S n))) lo hi extra ->
     run (fix_up order (delete_entry order fuel) root P) m1
       (outcome (spread up ((P, cs) : tree (S (S n)))) extra m1)) ->
  (left = true -> pre = []) -> loc (if left then l else r) <> root ->
  (1 <= weight (if left then l else r) ->
     outcome (spread up ((P, pre ++ (ka, l) :: (kb, r) :: post) : tree (S (S n)))) extra m root m) ->
  run (fix_up order (delete_entry order (S fuel)) root (loc (if left then l else r))) m
    (outcome (spread up ((P, pre ++ (ka, l) :: (kb, r) :: post) : tree (S (S n)))) extra m).
Proof.
  intros Hpair Hroot IH Hleft Hne Hkeep. destruct (cut_bounds order) as (Hc1 & Hc2 & Hc3); [lia|].
  pose proof Hpair as Hp. destruct l as [pl csl], r as [pr csr].
  assert (Hpos : 1 <= alen csl <= order /\ 1 <= alen csr <= order).
  { destruct Hp as [_ _ _ _ _ _ _ _ _ _ (? & _)%loose_S (? & _)%loose_S _ _ _ _]. done. }
  apply (run_fix_up_pair _ _ _ _ _ _ _ _ _ _ _ _ Hpair); try done; rewrite !weight_S.
  - intros Hw. change (capacity (S n)) with (order - 1) in Hw.
    eapply run_mono.
    + eapply (run_coalesce fuel m up P pre ka _ kb _ post lo hi extra root IH ((pl, csl ++ csr) : tree (S n))
        (fun m1 => words_same m m1 /\ (forall l, leaf_same l m m1) /\ agree extra (nodes m) (nodes m1))).
      eapply run_mono; [apply (run_merge_pair_inner m up P pre ka pl csl kb pr csr post lo hi extra Hpair); lia|].
      intros _ m1 (? & ? & ? & ? & ?). done.
    + intros root' m' (m1 & (Hws & Hls & Ha) & _ & Hout).
      eapply outcome_ext; [|eapply outcome_trans; [exact Hws|apply Hls|exact Ha|exact Hout]].
      intros B f. unfold spread. change (flat f (S (S n)) (P, ?cs)) with (flats f cs).
      rewrite !flats_app, !flats_cons. cbn [snd]. change (flat f (S n) (?p, ?cs)) with (flats f cs).
      rewrite flats_app. by rewrite <- !app_assoc.
  - intros Hmin Hw. change (capacity (S n)) with (order - 1) in Hw. unfold min_weight in Hmin. cbn [leafy] in Hmin.
    eapply (run_mono _ _ (fun _ m1 => moved m up P pre ka csl csr post lo hi extra m1)).
    + destruct left; rewrite weight_S in Hmin.
      * apply (run_move_right_inner m up P pre ka pl csl kb pr csr post lo hi extra Hpair); lia.
      * apply (run_move_left_inner m up P pre ka pl csl kb pr csr post lo hi extra Hpair); lia.
    + intros [] m1 (l' & k' & r' & Hat & Hf & Hws & Hls & Ha).
      eapply outcome_ext; [|eapply outcome_trans; [exact Hws|apply Hls|exact Ha|]].
      2:{ rewrite Hroot. apply (outcome_settled _ _ _ _ _ _ _ Hat). rewrite weight_S, alen_app, !alen_cons.
          pose proof (alen_nonneg pre). pose proof (alen_nonneg post). lia. }
      intros B f. unfold spread. change (flat f (S (S n)) (P, ?cs)) with (flats f cs).
      rewrite !flats_app, !flats_cons. cbn [snd]. change (flat f (S n) (?p, ?cs)) with (flats f cs).
      rewrite (app_assoc (flat f (S n) l')), Hf. by rewrite <- !app_assoc.
Qed.

Lemma run_fix_up_inner k (c : ctx k) fuel (t : tree k) lo hi extra m root :
  leafy k = false -> loose_at m c t lo hi extra -> root = ctx_root c (loc t) -> (ctx_depth c <= fuel)%nat ->
  run (fix_up order (delete_entry order fuel) root (loc t)) m (outcome (spread c t) extra m).
Proof.
  revert fuel t lo hi extra m root. induction c as [k|k P pre lo' post up IH];
    intros fuel t lo hi extra m root Hk Hat Hroot Hfuel; (destruct k as [|n]; [done|]).
  - destruct t as [p cs]. unfold fix_up. rewrite Hroot. cbn [ctx_root]. rewrite Z.eqb_refl.
    by eapply run_adjust_root_inner.
  - cbn [ctx_depth ctx_root] in *. destruct fuel as [|fuel]; [lia|].
    pose proof (frame_not_root _ _ _ _ _ _ _ _ _ _ _ Hat) as Hne. rewrite <- Hroot in Hne.
    assert (1 <= weight t -> outcome (spread (Frame P pre lo' post up) t) extra m root m) as Hkeep
      by (rewrite Hroot; exact (outcome_settled _ _ _ _ _ _ _ Hat)).
    assert (forall B (f : tree 0 -> list B), spread up ((P, pre ++ (lo', t) :: post) : tree (S (S n))) B f
      = spread (Frame P pre lo' post up) t B f) as Hsp.
    { intros B f. unfold spread. change (flat f (S (S n)) (P, ?cs)) with (flats f cs).
      rewrite flats_app, flats_cons. cbn [snd ctx_before ctx_after]. by rewrite <- !app_assoc. }
    destruct (frame_pair _ _ _ _ _ _ _ _ _ _ _ Hat) as (lo1 & hi1 & Hcase).
    assert (forall m1 (cs : list (Z * tree (S n))) extra, loose_at m1 up ((P, cs) : tree (S (S n))) lo1 hi1 extra ->
      run (fix_up order (delete_entry order fuel) root P) m1
        (outcome (spread up ((P, cs) : tree (S (S n)))) extra m1)) as IH'.
    { intros m1 cs extra1 Hat1. apply (IH fuel ((P, cs) : tree (S (S n))) lo1 hi1); try done. lia. }
    destruct Hcase as [(pre' & ka & l & -> & Hpair)|(kb & r & post' & -> & -> & Hpair)].
    + eapply run_mono; [apply (run_step_inner n fuel m up P pre' ka l lo' t post lo1 hi1 extra root false); try done|].
      * intros Hw. eapply outcome_ext; [|by apply Hkeep]. intros B f. rewrite <- Hsp. by rewrite <- app_assoc.
      * intros root' m'. apply outcome_ext. intros B f. rewrite <- Hsp. by rewrite <- app_assoc.
    + eapply run_mono; [apply (run_step_inner n fuel m up P [] lo' t kb r post' lo1 hi1 extra root true); try done|].
      * intros Hw. eapply outcome_ext; [|by apply Hkeep]. intros B f. by rewrite <- Hsp.
      * intros root' m'. apply outcome_ext. intros B f. by rewrite <- Hsp.
Qed.
End Shrink.
