(* ===== verification/BTreeErase.v ===== *)
(** * The B+ tree benchmark: [delete] is deletion from the map

    The leaf level of a deletion (entries move between leaves and the chain of
    leaves is repaired), the whole operation on trees and on the finite map they
    store, and what goes wrong when a tree is destroyed. *)

From Stdlib Require Import ZArith Lia Sorted.
From stdpp Require Import gmap list numbers.
From S2P Require Import Prelude Arrays BTreeMem BTree BTreeRep BTreeFind BTreeInsert BTreeMap BTreeDelete BTreeRemove BTreeShrink.
#[local] Open Scope Z_scope.

Section Erase.
Context {os : OS} (order : Z) (order_min : 3 <= order) (order_max : order < 2 ^ 63).
#[local] Abbreviation rep := (rep order).
#[local] Abbreviation reps := (reps order).
#[local] Abbreviation wf := (wf order).
#[local] Abbreviation rep_ctx := (rep_ctx order).
#[local] Abbreviation wf_ctx := (wf_ctx order).
#[local] Abbreviation leaf_ok := (leaf_ok order).
#[local] Abbreviation node_ok := (node_ok order).
#[local] Abbreviation focus := (focus order).
#[local] Abbreviation linked := (linked order).
#[local] Abbreviation loose_at := (loose_at order).
#[local] Abbreviation pair := (pair order).
#[local] Abbreviation pending := (pending order).
#[local] Abbreviation outcome := (outcome order).

(** ** The chain of leaves *)





(** ** Two leaves *)


Section Leaves.
Context (m : mem) (up : ctx 1) (P : Z) (pre : list (Z * tree 0)) (ka : Z) (pl : Z)
  (esl : list (Z * Z)) (kb : Z) (pr : Z) (esr : list (Z * Z)) (post : list (Z * tree 0))
  (lo hi : Z) (extra : list Z)
  (Hpair : pair m up P pre ka ((pl, esl) : tree 0) kb ((pr, esr) : tree 0) post lo hi extra)
  (Hlinked : linked (nodes m)
     (spread up ((P, pre ++ (ka, (pl, esl)) :: (kb, (pr, esr)) :: post) : tree 1) Z leaf_of)).

#[local] Abbreviation rest := (all_locs pre ++ all_locs post ++ ctx_locs up ++ extra).








End Leaves.

(** ** The leaf that has lost an entry *)




(** ** Deletion *)





(** ** Destroying a tree *)

Lemma bind_of_bind {A B C} (c : M A) (f : A -> M B) (g : B -> M C) m :
  ((c ≫= f) ≫= g) m = (c ≫= fun a => f a ≫= g) m.
Proof. cbv [mbind M_bind]. by destruct (c m). Qed.

Lemma first_then {A B C} (c : M B) (x : M A) (k : A -> M B) (g : B -> M C) m :
  c m = (x ≫= k) m -> (c ≫= g) m = (x ≫= fun a => k a ≫= g) m.
Proof. cbv [mbind M_bind]. intros ->. by destruct (x m). Qed.

Lemma mfor_first {S} hi (body : Z -> S -> M S) s :
  0 < hi -> mfor 0 hi body s = (s1 ← body 0 s; mfor_nat (Z.to_nat (hi - 1)) 1 body s1).
Proof. intros Hi. unfold mfor. replace (Z.to_nat (hi - 0)) with (Datatypes.S (Z.to_nat (hi - 1))) by lia. done. Qed.

(** The first thing a walk over a tree frees is a record. *)
Lemma destroy_first_record n par lo hi (t : tree n) fuel m :
  rep (nodes m) n par t -> wf n lo hi t -> (n < fuel)%nat ->
  exists key r, (key, r) ∈ entries n t /\
    forall libc_free, exists k : unit -> M unit,
      destroy_tree_nodes libc_free fuel (loc t) m = (libc_free r ≫= k) m.
Proof.
  revert par lo hi t fuel. induction n as [|n IH]; intros par lo hi [p cs] fuel Hrep Hwf Hfuel;
    (destruct fuel as [|fuel]; [lia|]).
  - apply rep_0_inv in Hrep as (nd & Hnd & Hok). apply wf_0_inv in Hwf as (Hlen & _).
    destruct cs as [|[key r] es]; [rewrite alen_nil in Hlen; lia|]. exists key, r. split; [by left|].
    intros libc_free. eexists. cbn [destroy_tree_nodes loc fst].
    change ((load p ≫= ?f) m) with (match load p m with Ok n m' => f n m' | Exit z why => Exit z why | Undefined => Undefined end).
    assert (load p m = Ok nd m) as -> by (unfold load; by rewrite Hnd).
    rewrite (lf_leaf _ _ _ _ Hok), (lf_num _ _ _ _ Hok), mfor_first by lia.
    assert ((pointers nd).[0] = Some r) as ->.
    { destruct (lf_ptrs _ _ _ _ Hok) as [_ Hg]. apply (Hg 0). cbn [fmap list_fmap]. rewrite alen_cons.
      pose proof (alen_nonneg es.*2). lia. }
    rewrite bind_of_bind. change ((lift (Some r) ≫= ?f) ≫= ?g) with (f r ≫= g). reflexivity.
  - apply rep_S_inv in Hrep as [(nd & Hnd & Hok) Hcs]. apply wf_S_inv in Hwf as (Hlen & _ & Hs).
    destruct cs as [|[k1 c] cs]; [rewrite alen_nil in Hlen; lia|]. destruct Hs as [Hc _].
    apply list.Forall_cons in Hcs as [Hrc _]. cbn [snd] in Hrc.
    destruct (IH p _ _ c fuel Hrc Hc) as (key & r & Hin & Hk); [lia|].
    exists key, r. split; [rewrite entries_S, flats_cons, elem_of_app; by left|].
    intros libc_free. destruct (Hk libc_free) as [k Hk']. eexists. cbn [destroy_tree_nodes loc fst].
    change ((load p ≫= ?f) m) with (match load p m with Ok n m' => f n m' | Exit z why => Exit z why | Undefined => Undefined end).
    assert (load p m = Ok nd m) as -> by (unfold load; by rewrite Hnd).
    rewrite (nd_inner _ _ _ _ _ Hok), (nd_num _ _ _ _ _ Hok), alen_seps, mfor_first by lia.
    assert ((pointers nd).[0] = Some (loc c)) as ->.
    { destruct (nd_ptrs _ _ _ _ _ Hok) as [_ Hg]. apply (Hg 0). rewrite alen_child_locs. lia. }
    rewrite bind_of_bind. change ((lift (Some (loc c)) ≫= ?f) ≫= ?g) with (f (loc c) ≫= g). cbv beta.
    exact (first_then _ _ _ _ _ Hk').
Qed.

(** [destroy_tree] hands the C library's [free] pointers it does not own.
    On every tree that is not empty, the first thing it does is to call [free]
    on the record of an entry: a live cell inside a slab that [mmap] returned,
    not a block of the C heap.  This holds whatever [free] does with it. *)
Theorem destroy_tree_frees_record m root X mp :
  map_at order m root X mp -> mp <> ∅ ->
  exists r v, words m !! r = Some v /\ mapped (maps m) r sizeof_record /\
    forall libc_free, exists k : unit -> M Z, destroy_tree libc_free root m = (libc_free r ≫= k) m.
Proof.
  intros (es & Ht & Hw & Hmp) Hne.
  destruct Ht as [(-> & -> & _)|(n & t & -> & Hrep & Hwf & <- & _ & Hok)].
  { exfalso. apply Hne, map_eq. intros i. rewrite lookup_empty. destruct (mp !! i) as [v|] eqn:E; [|done].
    apply Hmp in E as (r & Hin & _). by apply not_elem_of_nil in Hin. }
  destruct (destroy_first_record n 0 _ _ t FUEL m Hrep Hwf) as (key & r & Hin & Hk).
  { pose proof (wf_height _ _ _ Hwf). unfold FUEL. lia. }
  pose proof Hw as (free & _ & _ & Hl & Hm).
  destruct (Hl r) as [v Hv]; [rewrite elem_of_app; left; apply list_elem_of_fmap; by exists (key, r)|].
  exists r, v. split; [done|]. split; [apply (Hm r v Hv)|]. intros libc_free. destruct (Hk libc_free) as [k Hk'].
  eexists. exact (first_then _ _ _ _ _ Hk').
Qed.
End Erase.

(** ** Witnesses: the tree of order 4 that has split *)

#[local] Existing Instance bump_os.


Lemma destroy_tree_frees_record_witness :
  exists root m, insert_all (os := bump_os) 4 sample_keys boot = Ok root m /\
    exists r v, words m !! r = Some v /\ mapped (maps m) r sizeof_record /\
      forall libc_free, exists k : unit -> M Z, destroy_tree libc_free root m = (libc_free r ≫= k) m.
Proof.
  destruct sample_tree as (root & m & Hrun & Hm). exists root, m. split; [exact Hrun|].
  assert (Hne : sample_map <> ∅) by (intros E; pose proof sample_map_7 as E7; rewrite E in E7; discriminate E7).
  exact (destroy_tree_frees_record 4 m root [] sample_map Hm Hne).
Defined.
