(* ===== verification/BTreePrint.v ===== *)
(** * The B+ tree benchmark: height, paths and printing (sources/btree/btree.c)

    The measurements of a tree and the two printing functions, which write
    tokens to a list.  [print_tree] walks the tree level by level with a queue
    that is threaded through the nodes' [next] fields. *)

From Stdlib Require Import ZArith Lia Sorted Ascii String.
From stdpp Require Import gmap list numbers.
From S2P Require Import Prelude Arrays BTreeMem BTree BTreeRep BTreeFind BTreeInsert BTreeMap BTreeRemove.
#[local] Open Scope Z_scope.

(** What is printed: a key, an address, some fixed text. *)
Inductive token := Key (k : Z) | Addr (p : Z) | Text (s : string).

Definition newline : token := Text (String "010" "").

Section Code.
Context (order : Z) (verbose_output : bool).

(** [if (verbose_output) printf("%p ", p);] *)
Definition addr (p : Z) : list token := if verbose_output then [Addr p] else [].

(** ** The queue: its head is the global [queue], the links are in the nodes. *)

Fixpoint queue_end (fuel : nat) (c : Z) : M Z :=
  match fuel with
  | O => undef
  | S fuel => n ← load c; if negb (next n =? 0) then queue_end fuel (next n) else mret c
  end.

Definition enqueue (queue new_node : Z) : M Z :=
  if queue =? 0 then
    n ← load new_node; _ ← store new_node (with_next n 0); mret new_node
  else
    m ← get;
    c ← queue_end (S (size (nodes m))) queue;
    n ← load c;
    _ ← store c (with_next n new_node);
    n ← load new_node;
    _ ← store new_node (with_next n 0);
    mret queue.

(** The node and the new [queue]. *)
Definition dequeue (queue : Z) : M (Z * Z) :=
  n ← load queue;
  let q := next n in
  _ ← store queue (with_next n 0);
  mret (queue, q).

(** ** Measurements *)

Fixpoint height_loop (fuel : nat) (c h : Z) : M Z :=
  match fuel with
  | O => undef
  | S fuel =>
      n ← load c;
      if negb (is_leaf n) then c ← lift ((pointers n).[0]); height_loop fuel c (u64 (h + 1))
      else mret h
  end.
Definition height (root : Z) : M Z := height_loop FUEL root 0.

Fixpoint path_loop (fuel : nat) (root c length : Z) : M Z :=
  match fuel with
  | O => undef
  | S fuel =>
      if negb (c =? root) then n ← load c; path_loop fuel root (parent n) (u64 (length + 1))
      else mret length
  end.
Definition path_to_root (root child : Z) : M Z := path_loop FUEL root child 0.

(** ** Printing *)

(** The entries of a node: [printf("%p ", n->pointers[i])], [printf("%ld ", n->keys[i])]. *)
Definition print_keys (n : node) : option (list token) :=
  for_z 0 (num_keys n) (fun i out =>
    a ← (if verbose_output then p ← (pointers n).[i]; Some [Addr p] else Some []);
    k ← (keys n).[i];
    Some (out ++ a ++ [Key k])) [].

Fixpoint leftmost (fuel : nat) (c : Z) : M Z :=
  match fuel with
  | O => undef
  | S fuel =>
      n ← load c;
      if negb (is_leaf n) then c ← lift ((pointers n).[0]); leftmost fuel c else mret c
  end.

Fixpoint print_chain (fuel : nat) (c : Z) (out : list token) : M (list token) :=
  match fuel with
  | O => undef
  | S fuel =>
      n ← load c;
      ks ← lift (print_keys n);
      nxt ← lift ((pointers n).[order - 1]);
      let out := out ++ ks ++ addr nxt in
      if negb (nxt =? 0) then print_chain fuel nxt (out ++ [Text " | "])
      else mret out
  end.

Definition print_leaves (root : Z) : M (list token) :=
  if root =? 0 then mret [Text "Empty tree."; newline]
  else
    c ← leftmost FUEL root;
    m ← get;
    out ← print_chain (S (size (nodes m))) c [];
    mret (out ++ [newline]).

(** The line break at the first node of a level; returns the new rank too. *)
Definition new_rank (root n_ rank : Z) : M (list token * Z) :=
  n ← load n_;
  first ← (if negb (parent n =? 0) then p ← load (parent n); q ← lift ((pointers p).[0]); mret (n_ =? q)
           else mret false);
  if (first : bool) then
    new_rank ← path_to_root root n_;
    if negb (new_rank =? rank) then mret ([newline], new_rank) else mret ([], rank)
  else mret ([], rank).

Fixpoint print_tree_loop (fuel : nat) (root queue rank : Z) (out : list token) : M (list token) :=
  match fuel with
  | O => undef
  | S fuel =>
      if negb (queue =? 0) then
        '(n_, queue) ← dequeue queue;
        '(br, rank) ← new_rank root n_ rank;
        n ← load n_;
        ks ← lift (print_keys n);
        queue ← (if negb (is_leaf n) then
                   mfor 0 (num_keys n + 1) (fun i queue =>
                     c ← lift ((pointers n).[i]); enqueue queue c) queue
                 else mret queue);
        a ← (if verbose_output then
               p ← lift ((pointers n).[if is_leaf n then order - 1 else num_keys n]); mret [Addr p]
             else mret []);
        print_tree_loop fuel root queue rank
          (out ++ br ++ addr n_ ++ ks ++ a ++ [Text "| "])
      else mret out
  end.

Definition print_tree (root : Z) : M (list token) :=
  if root =? 0 then mret [Text "Empty tree."; newline]
  else
    queue ← enqueue 0 root;
    m ← get;
    out ← print_tree_loop (S (size (nodes m))) root queue 0 [];
    mret (out ++ [newline]).

(** [find_and_print]; the record's address, its key and its value. *)
Definition find_and_print (root key : Z) : M (list token) :=
  '(r, _) ← find root key;
  if r =? 0 then mret [Text "Record not found under key "; Key key; newline]
  else
    v ← load_word r;
    mret [Text "Record at "; Addr r; Text " -- key "; Key key; Text ", value "; Key v; newline].

End Code.

Section Print.
Context {os : OS} (order : Z) (order_min : 3 <= order).
#[local] Abbreviation rep := (rep order).
#[local] Abbreviation reps := (reps order).
#[local] Abbreviation wf := (wf order).
#[local] Abbreviation rep_ctx := (rep_ctx order).
#[local] Abbreviation leaf_ok := (leaf_ok order).
#[local] Abbreviation node_ok := (node_ok order).
#[local] Abbreviation linked := (linked order).

(** ** The height *)

Lemma rep_first_child n H par lo hi p (cs : list (Z * tree n)) :
  rep H (S n) par (p, cs) -> wf (S n) lo hi (p, cs) ->
  exists nd k c hi', H !! p = Some nd /\ is_leaf nd = false /\ (pointers nd).[0] = Some (loc c) /\
    rep H n p c /\ wf n k hi' c /\ exists cs', cs = (k, c) :: cs'.
Proof.
  intros [(nd & Hnd & Hok) Hcs]%rep_S_inv (Hlen & _ & Hs)%wf_S_inv.
  destruct cs as [|[k c] cs]; [rewrite alen_nil in Hlen; lia|]. destruct Hs as [Hc _].
  apply list.Forall_cons in Hcs as [Hrc _]. exists nd, k, c, (bnd cs hi).
  split; [done|]. split; [apply Hok|]. split; [|by eauto].
  destruct (nd_ptrs _ _ _ _ _ Hok) as [_ Hg]. apply (Hg 0). rewrite alen_child_locs. lia.
Qed.

Lemma run_height_loop n (t : tree n) par lo hi fuel m h :
  rep (nodes m) n par t -> wf n lo hi t -> (n < fuel)%nat -> 0 <= h -> h + Z.of_nat n < 2 ^ 64 ->
  run (height_loop fuel (loc t) h) m (fun h' m' => h' = h + Z.of_nat n /\ m' = m).
Proof.
  revert par lo hi fuel h. induction n as [|n IH]; intros par lo hi fuel h Hrep Hwf Hfuel Hh Hmax;
    (destruct fuel as [|fuel]; [lia|]); destruct t as [p cs]; cbn [height_loop loc fst].
  - apply rep_0_inv in Hrep as (nd & Hnd & Hok). apply run_bind. eapply run_load; [done|].
    rewrite (lf_leaf _ _ _ _ Hok). apply run_ret. split; [lia|done].
  - destruct (rep_first_child _ _ _ _ _ _ _ Hrep Hwf) as (nd & k & c & hi' & Hnd & Hin & Hp & Hrc & Hwc & _).
    apply run_bind. eapply run_load; [done|]. rewrite Hin. cbn [negb].
    apply run_bind. eapply run_lift; [done|]. rewrite u64_id by (unfold in_u64; lia).
    eapply run_mono; [eapply (IH c p k hi' fuel (h + 1)); try done; lia|]. intros h' m' [-> ->]. split; [lia|done].
Qed.

Lemma run_height n (t : tree n) m :
  rep (nodes m) n 0 t -> wf n 0 (2 ^ 64) t -> run (height (loc t)) m (fun h m' => h = Z.of_nat n /\ m' = m).
Proof.
  intros Hrep Hwf. pose proof (wf_height _ _ _ Hwf).
  eapply run_mono; [eapply (run_height_loop n t 0 0 (2 ^ 64) FUEL m 0); try done; unfold FUEL; lia|].
  intros h' m' [-> ->]. split; [lia|done].
Qed.

(** The way up from a node of a tree takes one step per level. *)
Lemma run_path_loop n (c : ctx n) m q nd fuel len :
  rep_ctx (nodes m) c q -> nodes m !! q = Some nd -> parent nd = ctx_parent c -> NoDup (q :: ctx_locs c) ->
  (ctx_depth c < fuel)%nat -> 0 <= len -> len + Z.of_nat (ctx_depth c) < 2 ^ 64 ->
  run (path_loop fuel (ctx_root c q) q len) m (fun l m' => l = len + Z.of_nat (ctx_depth c) /\ m' = m).
Proof.
  revert q nd fuel len. induction c as [n|n p pre lo post up IH]; intros q nd fuel len Hrc Hq Hpar Hnd Hfuel Hl Hmax;
    (destruct fuel as [|fuel]; [lia|]); cbn [path_loop ctx_root ctx_depth] in *.
  - rewrite Z.eqb_refl. apply run_ret. split; [lia|done].
  - destruct Hrc as ((ndp & Hndp & Hokp) & _ & _ & Hup). cbn [ctx_locs ctx_parent] in *.
    apply list.NoDup_cons in Hnd as [Hn Hnd]. apply list.NoDup_cons in Hnd as [Hp Hnd].
    rewrite !app_assoc in Hp, Hnd. apply list.NoDup_app in Hnd as (_ & _ & Hnd).
    assert (q <> ctx_root up p) as Hne.
    { intros ->. apply Hn. pose proof (ctx_root_in _ up p) as Hin. rewrite elem_of_cons in Hin.
      rewrite elem_of_cons, !elem_of_app. tauto. }
    destruct (Z.eqb_spec q (ctx_root up p)); [done|]. cbn [negb]. apply run_bind. eapply run_load; [done|].
    rewrite Hpar, u64_id by (unfold in_u64; lia).
    eapply run_mono; [eapply (IH p ndp fuel (len + 1)); try done|]; try lia.
    + apply Hokp.
    + constructor; [|done]. intros Hin. apply Hp. rewrite elem_of_app. by right.
    + intros l m' [-> ->]. split; [lia|done].
Qed.

(** A tree of height [n] has at least [2 ^ n] entries. *)
Lemma wf_entries n lo hi (t : tree n) : wf n lo hi t -> 2 ^ Z.of_nat n <= alen (entries n t).
Proof.
  revert lo hi t. induction n as [|n IH]; intros lo hi [p cs].
  - intros ([Hlen _] & _)%wf_0_inv. exact Hlen.
  - intros (Hlen & _ & Hs)%wf_S_inv. rewrite entries_S.
    assert (alen cs * 2 ^ Z.of_nat n <= alen (flats snd cs)) as Hall.
    { clear Hlen. induction cs as [|[k c] cs IHcs]; [done|]. destruct Hs as [Hc Hs].
      rewrite flats_cons, alen_app, alen_cons. specialize (IHcs Hs). apply IH in Hc. cbn [snd]. unfold entries in Hc. lia. }
    rewrite Nat2Z.inj_succ, Z.pow_succ_r by lia. assert (0 < 2 ^ Z.of_nat n) by lia. nia.
Qed.

Lemma sorted_nodup (l : list Z) : StronglySorted Z.lt l -> NoDup l.
Proof.
  induction 1 as [|x l Hl IH Hx]; constructor; [|done]. rewrite list.Forall_forall in Hx.
  intros Hin%Hx. lia.
Qed.

(** The map has one key per entry. *)
Lemma entries_size m (es : list (Z * Z)) X (mp : gmap Z Z) :
  StronglySorted Z.lt es.*1 -> words_ok m (es.*2 ++ X) ->
  (forall k v, mp !! k = Some v <-> exists r, (k, r) ∈ es /\ words m !! r = Some v) ->
  Z.of_nat (size mp) = alen es.
Proof.
  intros Hs Hw Hmp. rewrite <- (size_dom (D := gset Z)).
  assert (dom mp = list_to_set es.*1 :> gset Z) as ->.
  { apply set_eq. intros k. rewrite elem_of_dom, elem_of_list_to_set. split.
    - intros [v (r & Hin & _)%Hmp]. apply list_elem_of_fmap. by exists (k, r).
    - intros ([k' r] & -> & Hin)%list_elem_of_fmap. destruct Hw as (free & _ & _ & Hl & _).
      destruct (Hl r) as [v Hv]; [rewrite elem_of_app; left; apply list_elem_of_fmap; by exists (k', r)|].
      exists v. apply Hmp. by exists r. }
  rewrite size_list_to_set by (by apply sorted_nodup). unfold alen. by rewrite length_fmap.
Qed.

(** The tree is balanced and its height logarithmic: [height] returns a
    number [h] with [2 ^ h] at most the number of keys, and for every 64-bit key
    the leaf that [find_leaf] reaches is [h] steps below the root as
    [path_to_root] counts them. *)
Theorem height_correct m root X mp :
  map_at order m root X mp -> mp <> ∅ ->
  exists h, 0 <= h /\ 2 ^ h <= Z.of_nat (size mp) /\
    run (height root) m (fun h' m' => h' = h /\ m' = m) /\
    forall key, in_u64 key ->
      run (leaf ← find_leaf root key; path_to_root root leaf) m (fun l m' => l = h /\ m' = m).
Proof.
  intros (es & Ht & Hw & Hmp) Hne. pose proof (tree_at_sorted order _ _ _ Ht) as Hs.
  pose proof (entries_size _ _ _ _ Hs Hw Hmp) as Hsize.
  destruct Ht as [(-> & -> & _)|(n & t & -> & Hrep & Hwf & <- & _ & Hok)].
  { exfalso. change (alen []) with 0 in Hsize. apply Hne, map_size_empty_inv. lia. }
  pose proof (wf_height _ _ _ Hwf) as Hh. exists (Z.of_nat n). split; [lia|].
  split; [rewrite Hsize; by eapply wf_entries|]. split.
  - by apply run_height.
  - intros key Hkey. apply run_bind. apply run_of_wp; [apply no_exit_find_leaf|].
    eapply wp_mono; [by apply (wp_find_leaf order)|].
    intros p m' (-> & c & [q es] & lo & hi & -> & Hplug & Hf & Hr).
    pose proof (fc_rep _ _ _ _ _ _ Hf) as (nd & Hnd & Hlf)%rep_0_inv.
    pose proof (plug_locs c (q, es)) as Hlocs. pose proof (plug_depth _ c (q, es)) as Hdep.
    pose proof (plug_loc c (q, es)) as Hloc. rewrite Hplug in Hlocs, Hdep, Hloc. cbn [projT1 projT2] in *.
    rewrite Hlocs in Hok. pose proof (nodes_ok_nodup _ _ Hok) as Hnd'. rewrite Permutation_app_comm in Hnd'.
    rewrite Hloc. unfold path_to_root.
    eapply run_mono; [eapply (run_path_loop 0 c m q nd FUEL 0); try done|]; try (unfold FUEL; lia).
    + apply Hf.
    + apply Hlf.
    + intros l m' [-> ->]. split; [lia|done].
Qed.

(** ** The chain of leaves, printed *)

(** The keys that were printed, in order. *)
Definition keys_of (out : list token) : list Z :=
  omap (fun tk => match tk with Key k => Some k | _ => None end) out.

Lemma keys_of_app a b : keys_of (a ++ b) = keys_of a ++ keys_of b.
Proof. apply omap_app. Qed.

Lemma keys_of_addr v p : keys_of (addr v p) = [].
Proof. by destruct v. Qed.

Lemma print_keys_ok v nd ks :
  holds (keys nd) ks -> num_keys nd = alen ks -> num_keys nd <= alen (pointers nd) ->
  exists out, print_keys v nd = Some out /\ keys_of out = ks.
Proof.
  intros Hk Hn Hp. unfold print_keys. rewrite Hn.
  destruct (for_z_inv (fun i out => keys_of out = take (Z.to_nat i) ks) 0 (alen ks) (fun i out =>
    a ← (if v then p ← (pointers nd).[i]; Some [Addr p] else Some []); k ← (keys nd).[i];
    Some (out ++ a ++ [Key k])) []) as (out & Hrun & Ho); [apply alen_nonneg|done| |].
  - intros i out Hi Ho. destruct (aget_in (pointers nd) i) as [p Hgp]; [lia|].
    destruct (holds_get _ _ i Hk Hi) as (k & -> & Hgk). rewrite Hgp.
    assert ((if v then p ← Some p; Some [Addr p] else Some []) = Some (addr v p)) as -> by (by destruct v).
    cbn [mbind option_bind]. eexists. split; [done|]. rewrite !keys_of_app, keys_of_addr, Ho.
    replace (Z.to_nat (i + 1)) with (S (Z.to_nat i)) by lia. unfold aget in Hgk. destruct (i <? 0); [done|].
    by rewrite (take_S_r _ _ _ Hgk).
  - exists out. split; [done|]. rewrite Ho. apply take_ge. unfold alen. lia.
Qed.

Lemma run_leftmost n (t : tree n) par lo hi fuel m :
  rep (nodes m) n par t -> wf n lo hi t -> (n < fuel)%nat ->
  run (leftmost fuel (loc t)) m (fun p m' => m' = m /\ exists l, flat leaf_of n t = p :: l).
Proof.
  revert par lo hi fuel. induction n as [|n IH]; intros par lo hi fuel Hrep Hwf Hfuel;
    (destruct fuel as [|fuel]; [lia|]); destruct t as [p cs]; cbn [leftmost loc fst].
  - apply rep_0_inv in Hrep as (nd & Hnd & Hok). apply run_bind. eapply run_load; [done|].
    rewrite (lf_leaf _ _ _ _ Hok). apply run_ret. split; [done|]. by exists [].
  - destruct (rep_first_child _ _ _ _ _ _ _ Hrep Hwf) as (nd & k & c & hi' & Hnd & Hin & Hp & Hrc & Hwc & cs' & ->).
    apply run_bind. eapply run_load; [done|]. rewrite Hin. cbn [negb].
    apply run_bind. eapply run_lift; [done|]. eapply run_mono; [eapply (IH c p k hi' fuel); try done; lia|].
    intros q m' (-> & l & E). split; [done|]. change (flat leaf_of (S n) (p, (k, c) :: cs')) with
      (flat leaf_of n c ++ flats leaf_of cs'). rewrite E. by eexists.
Qed.

(** The leaves of a tree with their entries. *)
Definition leaf_trees (n : nat) : tree n -> list (tree 0) := flat (fun t => [t]) n.

Lemma flat_leaf_trees {B} (f : tree 0 -> list B) n t : flat f n t = leaf_trees n t ≫= f.
Proof.
  revert t. induction n as [|n IH]; intros t; [unfold leaf_trees; cbn; by rewrite app_nil_r|].
  destruct t as [p cs]. unfold leaf_trees in *. cbn [flat snd]. induction cs as [|[k c] cs IHcs]; [done|].
  cbn [mbind list_bind snd] in *. rewrite bind_app, IHcs, IH. done.
Qed.

Lemma rep_leaf_trees H n par (t : tree n) :
  rep H n par t -> Forall (fun lt => exists nd par, H !! lt.1 = Some nd /\ leaf_ok nd par lt.2) (leaf_trees n t).
Proof.
  revert par t. induction n as [|n IH]; intros par [p cs].
  - intros (nd & Hnd & Hok)%rep_0_inv. constructor; [|done]. by exists nd, par.
  - intros [_ Hcs]%rep_S_inv. unfold leaf_trees. cbn [flat snd]. induction Hcs as [|[k c] cs Hc Hcs IHcs]; [done|].
    cbn [mbind list_bind snd] in *. apply list.Forall_app. split; [by eapply IH|done].
Qed.

Lemma run_print_chain v fuel m (lts : list (tree 0)) lt out :
  Forall (fun lt => exists nd par, nodes m !! lt.1 = Some nd /\ leaf_ok nd par lt.2) (lt :: lts) ->
  linked (nodes m) ((lt :: lts).*1) -> Forall (fun lt => lt.1 <> 0 /\ alen lt.2 <= order) (lt :: lts) ->
  (length lts < fuel)%nat ->
  run (print_chain order v fuel lt.1 out) m (fun out' m' => m' = m /\
    keys_of out' = keys_of out ++ ((lt :: lts) ≫= snd).*1).
Proof.
  revert fuel lt out. induction lts as [|lt2 lts IH]; intros fuel lt out Hok Hlk Hnz Hfuel;
    (destruct fuel as [|fuel]; [cbn in Hfuel; lia|]); cbn [print_chain];
    apply list.Forall_cons in Hok as [(nd & par & Hnd & Hlf) Hok]; destruct Hlk as [(nd' & Hnd' & Hnext) Hlk];
    assert (nd' = nd) as -> by congruence; apply list.Forall_cons in Hnz as [[_ Hlen] Hnz];
    (apply run_bind; eapply run_load; [done|]);
    (destruct (print_keys_ok v nd lt.2.*1) as (ks & Hks & Hk);
      [apply Hlf|rewrite alen_fmap; apply Hlf|rewrite (lf_num _ _ _ _ Hlf), (lf_ptrs_len _ _ _ _ Hlf); lia|]);
    (apply run_bind; eapply run_lift; [done|]); (apply run_bind; eapply run_lift; [done|]).
  - cbn [hd Z.eqb negb]. apply run_ret. split; [done|].
    rewrite !keys_of_app, keys_of_addr, Hk. cbn [mbind list_bind]. by rewrite !app_nil_r.
  - cbn [hd fmap list_fmap]. apply list.Forall_cons in Hnz as [[Hz Hl2] Hnz].
    destruct (Z.eqb_spec lt2.1 0); [done|]. cbn [negb].
    eapply run_mono; [apply (IH fuel lt2); [done|exact Hlk|by constructor|cbn [length] in Hfuel; lia]|].
    intros out' m' [-> Ho]. split; [done|]. rewrite Ho, !keys_of_app, keys_of_addr, Hk.
    change ((lt :: lt2 :: lts) ≫= snd) with (lt.2 ++ ((lt2 :: lts) ≫= snd)). rewrite fmap_app.
    cbn [keys_of omap list_omap]. by rewrite !app_nil_r, app_assoc.
Qed.

Lemma nodup_size {A} (l : list Z) (H : gmap Z A) :
  NoDup l -> (forall x, x ∈ l -> is_Some (H !! x)) -> (length l <= size H)%nat.
Proof.
  intros Hnd Hl. rewrite <- (size_dom (D := gset Z)), <- (size_list_to_set (C := gset Z) l Hnd).
  apply subseteq_size. intros x Hx. rewrite elem_of_list_to_set in Hx. apply elem_of_dom. by apply Hl.
Qed.

Lemma live_size m live : nodes_ok m live -> (length live <= size (nodes m))%nat.
Proof.
  intros Hok. pose proof (nodes_ok_nodup _ _ Hok). destruct Hok as (free & _ & _ & Hl & _). by apply nodup_size.
Qed.

Lemma leaves_sublist n (t : tree n) : flat leaf_of n t `sublist_of` locs n t.
Proof.
  induction n as [|n IH]; [done|]. destruct t as [p cs]. rewrite locs_S. apply sublist_cons.
  change (flat leaf_of (S n) (p, cs)) with (flats leaf_of cs). induction cs as [|[k c] cs IHcs]; [done|].
  rewrite flats_cons, all_locs_cons. by apply sublist_app.
Qed.

(** [print_leaves] prints the keys of the map, each once and in increasing
    order, walking the chain of leaves; it changes nothing. *)
Theorem print_leaves_sorted v m root X mp :
  map_at order m root X mp ->
  run (print_leaves order v root) m (fun out m' => m' = m /\
    StronglySorted Z.lt (keys_of out) /\ forall k, k ∈ keys_of out <-> is_Some (mp !! k)).
Proof.
  intros (es & Ht & Hw & Hmp). pose proof (tree_at_sorted order _ _ _ Ht) as Hs.
  assert (Hkeys : forall k, k ∈ es.*1 <-> is_Some (mp !! k)).
  { intros k. split.
    - intros ([k' r] & -> & Hin)%list_elem_of_fmap. destruct Hw as (free & _ & _ & Hl & _).
      destruct (Hl r) as [w Hv]; [rewrite elem_of_app; left; apply list_elem_of_fmap; by exists (k', r)|].
      exists w. apply Hmp. by exists r.
    - intros [w (r & Hin & _)%Hmp]. apply list_elem_of_fmap. by exists (k, r). }
  destruct Ht as [(-> & -> & _)|(n & t & -> & Hrep & Hwf & <- & Hlk & Hok)]; unfold print_leaves.
  { apply run_ret. split; [done|]. split; [constructor|exact Hkeys]. }
  pose proof (nodes_ok_pos _ _ (loc t) Hok (loc_in t)). destruct (Z.eqb_spec (loc t) 0); [lia|].
  pose proof (wf_height _ _ _ Hwf). apply run_bind.
  eapply run_mono; [eapply (run_leftmost n t 0); try done; unfold FUEL; lia|]. intros p m' (-> & l & Hl).
  apply run_bind. unfold run at 1, get. apply run_bind.
  assert (Hlt : (leaf_trees n t).*1 = flat leaf_of n t).
  { rewrite flat_leaf_trees. induction (leaf_trees n t) as [|lt lts IH]; [done|]. cbn. by rewrite IH. }
  pose proof (live_size _ _ Hok) as Hsize. pose proof (sublist_length _ _ (leaves_sublist n t)) as Hsub.
  pose proof (rep_leaf_trees _ _ _ _ Hrep) as Hlf. unfold entries in Hs, Hkeys. rewrite flat_leaf_trees in Hs, Hkeys.
  change (leaves n t) with (flat leaf_of n t) in Hlk. rewrite <- Hlt in Hlk, Hl, Hsub.
  destruct (leaf_trees n t) as [|lt lts] eqn:E; [done|]. cbn [fmap list_fmap] in Hl. injection Hl as <- <-.
  rewrite length_fmap in Hsub. cbn [length] in Hsub.
  eapply run_mono; [apply (run_print_chain v _ m lts lt []); [done|done| |exact (le_n_S _ _ (Nat.le_trans _ _ _ (Nat.lt_le_incl _ _ Hsub) Hsize))]|].
  - eapply Forall_weaken; [exact Hlf|]. intros lt' Hin (nd & par & Hnd & Hok'). split.
    + destruct Hok as (free & _ & _ & _ & Hm). specialize (Hm _ _ Hnd). lia.
    + destruct (lf_ptrs _ _ _ _ Hok') as [Hle _]. rewrite alen_fmap, (lf_ptrs_len _ _ _ _ Hok') in Hle. done.
  - intros out m' [-> Ho]. apply run_ret. split; [done|].
    rewrite keys_of_app, Ho. cbn [keys_of omap list_omap newline app]. by rewrite app_nil_r.
Qed.
End Print.

(** ** Witnesses: the tree of order 4 that has split *)

#[local] Existing Instance bump_os.

Lemma sample_map_full : sample_map <> ∅.
Proof. intros E. pose proof sample_map_7 as E7. rewrite E in E7. discriminate E7. Qed.

Lemma height_correct_witness :
  exists root m, insert_all (os := bump_os) 4 sample_keys boot = Ok root m /\
    exists h, 0 <= h /\ 2 ^ h <= Z.of_nat (size sample_map) /\
      run (height root) m (fun h' m' => h' = h /\ m' = m) /\
      forall key, in_u64 key ->
        run (leaf ← find_leaf root key; path_to_root root leaf) m (fun l m' => l = h /\ m' = m).
Proof.
  destruct sample_tree as (root & m & Hrun & Hm). exists root, m. split; [exact Hrun|].
  exact (height_correct 4 m root [] sample_map Hm sample_map_full).
Defined.

Lemma print_leaves_sorted_witness :
  exists root m, insert_all (os := bump_os) 4 sample_keys boot = Ok root m /\
    run (print_leaves 4 true root) m (fun out m' => m' = m /\
      StronglySorted Z.lt (keys_of out) /\ forall k, k ∈ keys_of out <-> is_Some (sample_map !! k)).
Proof.
  destruct sample_tree as (root & m & Hrun & Hm). exists root, m. split; [exact Hrun|].
  exact (print_leaves_sorted 4 true m root [] sample_map Hm).
Defined.
