(* ===== verification/BTreeBulk.v ===== *)
(** * The B+ tree benchmark: bulk loading (sources/btree/btree.c)

    [bulk_load] fills leaves from sorted arrays and builds the levels above
    them.  It makes a proper tree unless some level leaves a single child over
    for its last node; that node then has no key, and a deletion below it runs
    into a null pointer. *)

From Stdlib Require Import ZArith Lia Sorted.
From stdpp Require Import gmap list numbers.
From S2P Require Import Prelude Arrays BTreeMem BTree BTreeRep BTreeFind BTreeInsert BTreeMap BTreeDelete BTreeRemove BTreePrint.
#[local] Open Scope Z_scope.

Section Code.
Context {os : OS} (order : Z).

(** [p->pointers[order - 1] = q] *)
Definition set_next_leaf (p q : Z) : M unit :=
  nd ← load p;
  ps ← lift ((pointers nd).[order - 1 <- q]);
  store p (with_pointers nd ps).

(** [while (count < keys_per_leaf && key_idx < n)], on the arrays of a leaf. *)
Definition fill_leaf (ks rs : list Z) (n : Z) (nd : node) (key_idx : Z) : option (node * Z) :=
  '(lk, lp, count, key_idx) ← while_fuel (Z.to_nat order)
    (fun '(_, _, count, key_idx) => Some ((count <? order - 1) && (key_idx <? n)))
    (fun '(lk, lp, count, key_idx) =>
       lk ← copy lk count ks key_idx; lp ← copy lp count rs key_idx;
       Some (lk, lp, count + 1, key_idx + 1))
    (keys nd, pointers nd, 0, key_idx);
  Some (with_num_keys (with_pointers (with_keys nd lk) lp) count, key_idx).

Definition load_leaf (ks rs : list Z) (n i : Z) '((leaves, key_idx) : list Z * Z) : M (list Z * Z) :=
  leaf ← make_leaf order;
  leaves ← lift (leaves.[i <- leaf]);
  nd ← load leaf;
  '(nd, key_idx) ← lift (fill_leaf ks rs n nd key_idx);
  _ ← store leaf nd;
  _ ← (if 0 <? i then prev ← lift (leaves.[i - 1]); set_next_leaf prev leaf else mret tt);
  mret (leaves, key_idx).

Definition separator (child : Z) : M Z :=
  nd ← load child;
  if is_leaf nd then lift ((keys nd).[0])
  else temp ← leftmost FUEL child; t ← load temp; lift ((keys t).[0]).

(** [child->parent = p] *)
Definition set_parent (child p : Z) : M unit := c ← load child; store child (with_parent c p).

(** [while (key_count < order - 1 && child_idx < current_count)] *)
Fixpoint adopt_children (fuel : nat) (current_level : list Z) (current_count p key_count child_idx : Z)
    : M (Z * Z) :=
  match fuel with
  | O => undef
  | S fuel =>
      if (key_count <? order - 1) && (child_idx <? current_count) then
        child ← lift (current_level.[child_idx]);
        sep ← separator child;
        nd ← load p;
        ks ← lift ((keys nd).[key_count <- sep]);
        ps ← lift ((pointers nd).[key_count + 1 <- child]);
        _ ← store p (with_pointers (with_keys nd ks) ps);
        _ ← set_parent child p;
        adopt_children fuel current_level current_count p (key_count + 1) (child_idx + 1)
      else mret (key_count, child_idx)
  end.

Definition load_parent (current_level : list Z) (current_count i : Z)
    '((parent_level, child_idx) : list Z * Z) : M (list Z * Z) :=
  p ← make_node order;
  parent_level ← lift (parent_level.[i <- p]);
  nd ← load p;
  child ← lift (current_level.[child_idx]);
  ps ← lift ((pointers nd).[0 <- child]);
  _ ← store p (with_pointers (with_is_leaf nd false) ps);
  _ ← set_parent child p;
  '(key_count, child_idx) ← adopt_children (Z.to_nat order) current_level current_count p 0 (child_idx + 1);
  nd ← load p;
  _ ← store p (with_num_keys nd key_count);
  mret (parent_level, child_idx).

Fixpoint build_levels (fuel : nat) (current_level : list Z) (current_count : Z) : M Z :=
  match fuel with
  | O => undef
  | S fuel =>
      if 1 <? current_count then
        let num_parents := u64 (current_count + order - 1) / order in
        _ ← allocate (u64 (num_parents * 8));
        '(parent_level, _) ← mfor 0 num_parents (load_parent current_level current_count)
          (replicate (Z.to_nat num_parents) 0, 0);
        build_levels fuel parent_level num_parents
      else lift (current_level.[0])
  end.

Definition bulk_load (ks rs : list Z) (n : Z) : M Z :=
  if n =? 0 then mret 0
  else
    let keys_per_leaf := order - 1 in
    let num_leaves := u64 (n + keys_per_leaf - 1) / keys_per_leaf in
    _ ← allocate (u64 (num_leaves * 8));
    '(leaves, _) ← mfor 0 num_leaves (load_leaf ks rs n) (replicate (Z.to_nat num_leaves) 0, 0);
    last ← lift (leaves.[num_leaves - 1]);
    _ ← set_next_leaf last 0;
    if num_leaves =? 1 then lift (leaves.[0]) else build_levels FUEL leaves num_leaves.

End Code.

(** The size of level [i] above [count] nodes. *)
Definition level_size (order count : Z) (i : nat) : Z := Nat.iter i (fun c => (c + order - 1) / order) count.

(** No level has one child left over for its last node. *)
Fixpoint no_orphans (order : Z) (fuel : nat) (count : Z) : bool :=
  match fuel with
  | O => false
  | S fuel =>
      if 1 <? count then negb (count mod order =? 1) && no_orphans order fuel ((count + order - 1) / order)
      else true
  end.

Section Bulk.
Context {os : OS} (order : Z) (order_min : 3 <= order) (order_max : order < 2 ^ 32).
#[local] Abbreviation rep := (rep order).
#[local] Abbreviation reps := (reps order).
#[local] Abbreviation wf := (wf order).
#[local] Abbreviation leaf_ok := (leaf_ok order).
#[local] Abbreviation node_ok := (node_ok order).
#[local] Abbreviation linked := (linked order).

Lemma level_size_S count i : level_size order count (S i) = level_size order ((count + order - 1) / order) i.
Proof. unfold level_size. by rewrite Nat.iter_succ_r. Qed.

Lemma no_orphans_all fuel count :
  0 <= count < 2 ^ Z.of_nat fuel -> (forall i, level_size order count i mod order = 1 -> level_size order count i = 1) ->
  no_orphans order (S fuel) count = true.
Proof.
  revert count. induction fuel as [|fuel IH]; intros count Hc Hall;
    [by cbn [no_orphans]; destruct (Z.ltb_spec 1 count); [lia|]|].
  change (no_orphans order (S (S fuel)) count) with (if 1 <? count then
    negb (count mod order =? 1) && no_orphans order (S fuel) ((count + order - 1) / order) else true).
  destruct (Z.ltb_spec 1 count); [|done]. apply andb_true_intro. split.
  - destruct (Z.eqb_spec (count mod order) 1) as [E|]; [|done]. specialize (Hall O E). cbn in Hall. lia.
  - rewrite Nat2Z.inj_succ, Z.pow_succ_r in Hc by lia. apply IH.
    + split; [apply Z.div_pos; lia|]. apply Z.div_lt_upper_bound; [lia|]. nia.
    + intros i. rewrite <- level_size_S. apply Hall.
Qed.

(** ** Leaves *)

Lemma fill_leaf_ok (e1 e2 : list (Z * Z)) :
  exists nd e e3, fill_leaf order (e1 ++ e2).*1 (e1 ++ e2).*2 (alen (e1 ++ e2)) (fresh_node order true) (alen e1)
      = Some (nd, alen (e1 ++ e)) /\
    e2 = e ++ e3 /\ alen e <= order - 1 /\ (alen e = order - 1 \/ e3 = []) /\ leaf_ok nd 0 e /\
    (pointers nd).[order - 1] = Some 0.
Proof.
  unfold fill_leaf. set (I := fun '(lk, lp, count, idx) => exists e e3, e2 = e ++ e3 /\ count = alen e /\
    idx = alen (e1 ++ e) /\ alen e <= order - 1 /\ alen lk = order - 1 /\ alen lp = order /\
    holds lk e.*1 /\ holds lp e.*2 /\ lp.[order - 1] = Some 0).
  edestruct (while_fuel_inv I (fun '(_, _, count, _) => Z.to_nat (order - 1 - count)) (Z.to_nat order))
    as ([[[lk lp] count] idx] & -> & (e & e3 & E & -> & -> & Hle & Hlk & Hlp & Hk & Hp & Hn) & Hstop).
  - exists [], e2. cbn [keys pointers fresh_node fmap list_fmap]. rewrite app_nil_r, !alen_replicate by lia.
    split; [done|]. do 2 (split; [done|]). change (alen (@nil (Z * Z))) with 0. split; [lia|]. do 2 (split; [done|]).
    split; [apply holds_nil|]. split; [apply holds_nil|].
    rewrite tab_replicate, aget_tab; [done|lia].
  - cbn beta iota. lia.
  - intros [[[lk lp] count] idx] (e & e3 & -> & -> & -> & Hle & Hlk & Hlp & Hk & Hp & Hn).
    destruct (Z.ltb_spec (alen e) (order - 1)); [|by left].
    destruct (Z.ltb_spec (alen (e1 ++ e)) (alen (e1 ++ e ++ e3))); [right|by left].
    split; [done|]. destruct e3 as [|[k r] e3]; [exfalso; rewrite app_nil_r in *; lia|].
    pose proof (alen_nonneg e). rewrite (app_assoc e1 e).
    assert (forall f : Z * Z -> Z, (f <$> (e1 ++ e) ++ (k, r) :: e3).[alen (e1 ++ e)] = Some (f (k, r))) as Hg
      by (intros f; by rewrite aget_fmap, aget_middle).
    rewrite (copy_in lk (alen e) _ _ k) by (lia || apply (Hg fst)).
    cbn [mbind option_bind]. rewrite (copy_in lp (alen e) _ _ r) by (lia || apply (Hg snd)).
    cbn [mbind option_bind]. eexists. split; [done|]. split; [|lia].
    exists (e ++ [(k, r)]), e3. rewrite <- app_assoc, !fmap_app, !alen_insert.
    rewrite (app_assoc e1 e), (alen_app (e1 ++ e)), (alen_app e). change (alen [(k, r)]) with 1.
    split; [done|]. do 2 (split; [done|]). split; [lia|]. do 2 (split; [done|]).
    split; [eapply holds_snoc; [done|]; rewrite alen_fmap; apply aset_in; lia|].
    split; [eapply holds_snoc; [done|]; rewrite alen_fmap; apply aset_in; lia|].
    rewrite aget_insert by lia. by rewrite decide_False by lia.
  - cbn [mbind option_bind]. eexists _, e, e3. split; [done|]. do 2 (split; [done|]). split.
    + cbn beta iota in Hstop. injection Hstop as Hstop. apply andb_false_iff in Hstop as [Hs|Hs]; apply Z.ltb_ge in Hs; [left; lia|].
      right. subst e2. rewrite app_assoc, (alen_app (e1 ++ e)) in Hs. destruct e3; [done|].
      rewrite alen_cons in Hs. pose proof (alen_nonneg e3). lia.
    + split; [by split|done].
Qed.

Lemma linked_snoc H H' l p q nd nd' :
  linked H (l ++ [p]) -> H !! p = Some nd -> H' !! p = Some nd' -> (pointers nd').[order - 1] = Some q ->
  (exists ndq, H' !! q = Some ndq /\ (pointers ndq).[order - 1] = Some 0) ->
  (forall x, x ∈ l -> H' !! x = H !! x) -> linked H' ((l ++ [p]) ++ [q]).
Proof.
  intros Hl Hp Hp' Hn Hq Ha. induction l as [|x l IH]; cbn [app] in *.
  - split; [by exists nd'|]. by split.
  - destruct Hl as [(ndx & Hndx & Hx) Hl]. split; [|apply IH; [done|]; intros y Hy; apply Ha; by right].
    exists ndx. rewrite Ha by (by left). split; [done|]. rewrite Hx. by destruct l.
Qed.

(** The leaves made so far, and the entries they hold. *)
Record leaves_made (m : mem) (ts : list (Z * list (Z * Z))) : Prop := {
  lm_reps : Forall (rep (nodes m) 0 0) ts;
  lm_size : Forall (fun t => 1 <= alen t.2 <= order - 1) ts;
  lm_linked : linked (nodes m) ts.*1;
  lm_ok : nodes_ok m ts.*1;
}.

Lemma wp_load_leaf m (ts : list (Z * list (Z * Z))) (e2 : list (Z * Z)) leaves :
  leaves_made m ts -> e2 <> [] -> holds leaves ts.*1 -> alen ts < alen leaves ->
  wp (load_leaf order ((ts ≫= snd) ++ e2).*1 ((ts ≫= snd) ++ e2).*2 (alen ((ts ≫= snd) ++ e2)) (alen ts)
        (leaves, alen (ts ≫= snd))) m
    (fun '(leaves', idx) m' => exists t e3, e2 = t.2 ++ e3 /\ (alen t.2 = order - 1 \/ e3 = []) /\
      leaves_made m' (ts ++ [t]) /\ holds leaves' (ts ++ [t]).*1 /\ alen leaves' = alen leaves /\
      idx = alen ((ts ++ [t]) ≫= snd) /\ words_same m m').
Proof.
  intros [Hreps Hsize Hlk Hok] Hne Hh Hlen. unfold load_leaf. apply wp_bind.
  eapply wp_mono; [by apply wp_make_leaf|]. intros q m1 (Hok1 & Hq & Ha & Hw).
  pose proof (nodes_ok_nodup _ _ Hok1) as [Hqn _]%list.NoDup_cons.
  assert (exists leaves', leaves.[alen ts <- q] = Some leaves') as [leaves' Hset]
    by (eexists; apply aset_in; pose proof (alen_nonneg ts); lia).
  assert (leaves.[alen ts.*1 <- q] = Some leaves') as Hset' by (rewrite <- Hset; f_equal; apply alen_fmap).
  apply wp_bind. eapply wp_lift; [exact Hset|]. apply wp_bind. eapply wp_load; [done|].
  destruct (fill_leaf_ok (ts ≫= snd) e2) as (nd & e & e3 & Hrun & -> & Hle & Hfull & Hlf & Hn).
  apply wp_bind. eapply wp_lift; [exact Hrun|]. cbn beta iota. apply wp_bind. eapply wp_store; [done|].
  set (m2 := with_nodes _ _). set (t := (q, e)).
  assert (1 <= alen e) as Hpos.
  { destruct Hfull as [?|E3]; [lia|]. rewrite E3, app_nil_r in Hne. destruct e; [done|]. rewrite alen_cons.
    pose proof (alen_nonneg e). lia. }
  assert (nodes m2 !! q = Some nd) as Hq2 by apply lookup_insert_eq.
  assert (agree ts.*1 (nodes m) (nodes m2)) as Ha2.
  { intros x Hx. unfold m2. cbn [nodes with_nodes]. rewrite lookup_insert_ne by (by intros ->). by apply Ha. }
  assert (nodes_ok m2 (q :: ts.*1)) as Hok2 by (apply nodes_ok_store; [by left|done]).
  assert (words_same m m2) as Hw2 by (etransitivity; [exact Hw|same_solve]).
  assert (Hreps2 : Forall (rep (nodes m2) 0 0) ts).
  { eapply Forall_weaken; [exact Hreps|]. intros t' Hin Hrep. eapply rep_agree; [|exact Hrep].
    intros x Hx. apply list_elem_of_singleton in Hx as ->. apply Ha2, list_elem_of_fmap. by exists t'. }
  assert (Hend : forall m3, Forall (rep (nodes m3) 0 0) ts -> nodes m3 !! q = Some nd -> linked (nodes m3) (ts ++ [t]).*1 ->
    nodes_ok m3 (q :: ts.*1) -> words_same m2 m3 ->
    wp (mret (leaves', alen ((ts ≫= snd) ++ e))) m3 (fun '(leaves', idx) m' => exists t e3', e ++ e3 = t.2 ++ e3' /\
      (alen t.2 = order - 1 \/ e3' = []) /\ leaves_made m' (ts ++ [t]) /\ holds leaves' (ts ++ [t]).*1 /\
      alen leaves' = alen leaves /\ idx = alen ((ts ++ [t]) ≫= snd) /\ words_same m m')).
  { intros m3 Hr3 Hq3 Hl3 Ho3 Hw3. apply wp_ret. exists t, e3. split; [done|]. split; [done|]. split; [split|].
    - apply list.Forall_app. split; [done|]. constructor; [|done]. apply rep_0. by exists nd.
    - apply list.Forall_app. split; [done|]. constructor; [|done]. unfold t. cbn [snd]. lia.
    - done.
    - eapply nodes_ok_perm; [|exact Ho3]. rewrite fmap_app. cbn [fmap list_fmap fst t]. solve_Permutation.
    - rewrite fmap_app. cbn [fmap list_fmap fst t]. split; [by eapply holds_snoc|].
      split; [by eapply aset_alen|]. split; [|by etransitivity]. rewrite bind_app. cbn [mbind list_bind snd t]. by rewrite app_nil_r. }
  destruct ts as [|tl ts' _] using rev_ind.
  - change (0 <? alen (@nil (Z * list (Z * Z)))) with false. apply wp_bind, wp_ret, Hend; try done.
    split; [|done]. exists nd. done.
  - rewrite !fmap_app in *. cbn [fmap list_fmap] in *.
    assert (alen (ts' ++ [tl]) = alen ts' + 1) as Elen by (by rewrite alen_app). rewrite Elen in *.
    pose proof (alen_nonneg ts'). destruct (Z.ltb_spec 0 (alen ts' + 1)); [|lia].
    assert (leaves'.[alen ts' + 1 - 1] = Some tl.1) as Hprev.
    { rewrite (aget_set_ne _ _ _ _ _ Hset) by lia. destruct Hh as [_ Hg]. rewrite Hg.
      - replace (alen ts' + 1 - 1) with (alen ts'.*1) by (rewrite alen_fmap; lia). apply aget_middle.
      - rewrite alen_app, alen_fmap. change (alen [tl.1]) with 1. lia. }
    apply wp_bind, wp_bind. eapply wp_lift; [exact Hprev|].
    apply list.Forall_app in Hreps2 as [Hr' Hrl]. apply list.Forall_cons in Hrl as [Hrl _]. destruct tl as [pl el].
    apply rep_0_inv in Hrl as (ndl & Hndl & Hlfl). cbn [fst] in *. unfold set_next_leaf.
    apply wp_bind. eapply wp_load; [done|]. apply wp_bind.
    eapply wp_lift; [apply aset_in; rewrite (lf_ptrs_len _ _ _ _ Hlfl); lia|]. eapply wp_store; [done|].
    assert (pl <> q) as Hplq by (intros ->; apply Hqn; rewrite elem_of_app; right; by left).
    pose proof (nodes_ok_nodup _ _ Hok2) as [_ Hnd2]%list.NoDup_cons. apply list.NoDup_app in Hnd2 as (_ & Hd & _).
    apply list.Forall_app in Hsize as [_ Hsl]. apply list.Forall_cons in Hsl as [Hsl _]. cbn [snd] in Hsl.
    apply Hend.
    + cbn [nodes with_nodes]. apply list.Forall_app. split.
      * eapply Forall_weaken; [exact Hr'|]. intros t' Hin Hrep. eapply rep_agree; [|exact Hrep].
        intros x Hx. apply list_elem_of_singleton in Hx as ->. rewrite lookup_insert_ne; [done|].
        intros ->. apply (Hd t'.1); [apply list_elem_of_fmap; by exists t'|by left].
      * constructor; [|done]. apply rep_0. eexists. split; [apply lookup_insert_eq|]. destruct Hlfl.
        split; cbn; rewrite ?alen_insert; try done. apply (holds_ext (pointers ndl)); [done|by rewrite alen_insert|].
        intros j Hj. rewrite alen_fmap in Hj. rewrite aget_insert by lia. by rewrite decide_False by lia.
    + cbn [nodes with_nodes]. by rewrite lookup_insert_ne.
    + cbn [nodes with_nodes]. cbn [fmap list_fmap fst t].
      eapply (linked_snoc (nodes m2)); [|exact Hndl|apply lookup_insert_eq| | |].
      * eapply linked_same; [exact Hlk|]. intros x ndx Hx Hndx. exists ndx. by rewrite Ha2.
      * cbn. rewrite aget_insert by (rewrite (lf_ptrs_len _ _ _ _ Hlfl); lia). by rewrite decide_True.
      * exists nd. by rewrite lookup_insert_ne.
      * intros x Hx. rewrite lookup_insert_ne; [done|]. intros ->. apply (Hd x Hx). by left.
    + apply nodes_ok_store; [right; rewrite elem_of_app; right; by left|done].
    + same_solve.
Qed.

(** ** Separators *)

(** The bound of a child is its first key. *)
Definition lead {n} (kc : Z * tree n) : Prop := exists r es, entries n kc.2 = (kc.1, r) :: es.

Lemma wf_leaf_trees n lo hi (t : tree n) : wf n lo hi t -> Forall (fun lt => 1 <= alen lt.2) (leaf_trees n t).
Proof.
  revert lo hi t. induction n as [|n IH]; intros lo hi [p cs].
  - intros ([? _] & _)%wf_0_inv. by constructor.
  - intros (_ & _ & Hs)%wf_S_inv. unfold leaf_trees. cbn [flat snd]. induction cs as [|[k c] cs IHcs]; [done|].
    destruct Hs as [Hc Hs]. cbn [mbind list_bind snd]. apply list.Forall_app. split; [by eapply IH|by apply IHcs].
Qed.

Lemma wp_separator n (t : tree n) k par lo hi m :
  rep (nodes m) n par t -> wf n lo hi t -> hi - lo <= 2 ^ 64 -> lead (k, t) ->
  wp (separator (loc t)) m (fun s m' => s = k /\ m' = m).
Proof.
  intros Hrep Hwf Hspan (r & es & He). cbn [fst snd] in He. unfold separator. destruct n as [|n].
  - destruct t as [p cs]. apply rep_0_inv in Hrep as (nd & Hnd & Hok). cbn [loc fst].
    apply wp_bind. eapply wp_load; [done|]. rewrite (lf_leaf _ _ _ _ Hok). change (entries 0 (p, cs)) with cs in He.
    eapply (wp_lift _ k); [|done]. destruct (lf_keys _ _ _ _ Hok) as [_ Hg]. rewrite He in Hg. apply (Hg 0).
    cbn [fmap list_fmap]. rewrite alen_cons. pose proof (alen_nonneg es.*1). lia.
  - pose proof (wf_span _ _ _ _ _ Hwf) as Hsp. pose proof (wf_leaf_trees _ _ _ _ Hwf) as Hsz.
    pose proof (rep_leaf_trees order _ _ _ _ Hrep) as Hlf. pose proof Hrep as Hrep0.
    unfold entries in He. rewrite flat_leaf_trees in He.
    destruct t as [p cs]. apply rep_S_inv in Hrep as [(nd & Hnd & Hok) _]. apply wp_bind. eapply wp_load; [done|].
    rewrite (nd_inner _ _ _ _ _ Hok). apply wp_bind, run_wp.
    eapply run_mono; [eapply (run_leftmost order (S n) (p, cs)); [done|done|]|].
    { assert (2 ^ Z.of_nat (S n) <= 2 ^ 64) as Hpow by lia. apply Z.pow_le_mono_r_iff in Hpow; unfold FUEL; lia. }
    intros q m' (-> & l & Hq). rewrite flat_leaf_trees in Hq.
    destruct (leaf_trees (S n) (p, cs)) as [|[q' e] lts]; [done|]. injection Hq as -> _.
    apply list.Forall_cons in Hlf as [(ndl & par' & Hndl & Hlok) _]. apply list.Forall_cons in Hsz as [Hsz _].
    cbn [fst snd] in *. apply wp_bind. eapply wp_load; [done|]. eapply (wp_lift _ k); [|done].
    destruct e as [|[k' r'] e]; [rewrite alen_nil in Hsz; lia|]. cbn in He. injection He as -> -> _.
    destruct (lf_keys _ _ _ _ Hlok) as [_ Hg]. apply (Hg 0). cbn [fmap list_fmap]. rewrite alen_cons.
    pose proof (alen_nonneg e.*1). lia.
Qed.

(** ** One parent *)

(** The parent's arrays after some children. *)
Record wip {n} (nd : node) (g : list (Z * tree n)) : Prop := {
  wp_inner : is_leaf nd = false;
  wp_parent : parent nd = 0;
  wp_keys_len : alen (keys nd) = order - 1;
  wp_ptrs_len : alen (pointers nd) = order;
  wp_keys : holds (keys nd) (seps g);
  wp_ptrs : holds (pointers nd) (child_locs g);
}.

(** A parent [p] with children [g]; [done_] are the parents before it, [rest] the
    children that have none yet. *)
Record building {n} (m : mem) (p : Z) (g : list (Z * tree n)) (done_ : list (Z * tree (S n)))
    (rest : list (Z * tree n)) : Prop := {
  bd_node : exists nd, nodes m !! p = Some nd /\ wip nd g;
  bd_g : reps (nodes m) p g;
  bd_done : reps (nodes m) 0 done_;
  bd_rest : reps (nodes m) 0 rest;
  bd_ok : nodes_ok m (p :: all_locs g ++ all_locs done_ ++ all_locs rest);
}.

Lemma leaf_same_two l m m' p ndp q ndq par :
  nodes m !! p = Some ndp -> is_leaf ndp = false -> nodes m !! q = Some ndq ->
  nodes m' !! q = Some (with_parent ndq par) ->
  (forall x, x <> p -> x <> q -> nodes m' !! x = nodes m !! x) -> leaf_same l m m'.
Proof.
  intros Hp Hin Hq Hq' Ho x nd Hx Hnd Hl. destruct (decide (x = q)) as [->|].
  - eexists. split; [exact Hq'|]. assert (nd = ndq) as -> by congruence. by destruct ndq.
  - exists nd. rewrite Ho; [done|by intros ->; congruence|done].
Qed.

(** Adding the next child. *)
Lemma building_adopt n m m' p (g : list (Z * tree n)) done_ k t rest nd ndp ndt :
  building m p g done_ ((k, t) :: rest) -> nodes m !! p = Some nd ->
  nodes m !! loc t = Some ndt -> wip ndp (g ++ [(k, t)]) ->
  m' = with_nodes m (<[loc t := with_parent ndt p]> (<[p := ndp]> (nodes m))) ->
  building m' p (g ++ [(k, t)]) done_ rest /\ words_same m m' /\ (forall l, leaf_same l m m') /\ p <> loc t.
Proof.
  intros [(nd0 & Hnd0 & Hwip) Hg Hdone Hrest Hok] Hnd Ht Hwip' Em. assert (nd0 = nd) as -> by congruence.
  assert (Hd := nodes_ok_nodup _ _ Hok). rewrite all_locs_cons in Hd. cbn [snd] in Hd.
  apply list.NoDup_cons in Hd as [Hp Hd]. rewrite !elem_of_app in Hp. apply list.NoDup_app in Hd as (_ & Dg & Hd).
  apply list.NoDup_app in Hd as (_ & Dd & Hd). apply list.NoDup_app in Hd as (Dt & Dt' & _).
  setoid_rewrite elem_of_app in Dg. setoid_rewrite elem_of_app in Dg. setoid_rewrite elem_of_app in Dd.
  pose proof (loc_in t) as Hlt. assert (p <> loc t) as Hne by (intros E; apply Hp; rewrite E; auto).
  apply list.Forall_cons in Hrest as [Hrt Hrest]. cbn [snd] in Hrt.
  assert (Hm : nodes m' = <[loc t := with_parent ndt p]> (<[p := ndp]> (nodes m))) by (by rewrite Em).
  assert (Ho : forall x, x <> p -> x <> loc t -> nodes m' !! x = nodes m !! x)
    by (intros x ??; rewrite Hm; by rewrite !lookup_insert_ne).
  assert (Ha : forall L, p ∉ L -> loc t ∉ L -> agree L (nodes m) (nodes m'))
    by (intros L H1 H2 x Hx; apply Ho; by intros ->).
  split; [split|split; [rewrite Em; same_solve|split; [|done]]].
  - exists ndp. split; [rewrite Hm, lookup_insert_ne by done; apply lookup_insert_eq|done].
  - apply list.Forall_app. split; [|constructor; [|done]].
    + eapply reps_agree; [|exact Hg]. apply Ha; [tauto|]. intros Hx. apply (Dg _ Hx). auto.
    + eapply rep_reparent; [exact Hrt|cbn [snd]; rewrite Hm, lookup_insert_eq; by rewrite Ht|].
      cbn [snd]. intros x Hx. assert (x ∈ locs n t) by (destruct n; [by apply not_elem_of_nil in Hx|by right]).
      apply Ho; [intros ->; tauto|]. intros ->. destruct n, t; [by apply not_elem_of_nil in Hx|].
      rewrite locs_S in Dt. by apply list.NoDup_cons in Dt as [? _].
  - eapply reps_agree; [|exact Hdone]. apply Ha; [tauto|]. intros Hx. apply (Dd _ Hx). auto.
  - eapply reps_agree; [|exact Hrest]. apply Ha; [tauto|]. intros Hx. by apply (Dt' (loc t)).
  - rewrite Em. apply (nodes_ok_store (with_nodes _ _)).
    { right. rewrite all_locs_app, !elem_of_app. left. right. apply (child_loc_in _ k). by left. }
    apply nodes_ok_store; [by left|]. eapply nodes_ok_perm; [|exact Hok].
    rewrite all_locs_app, !all_locs_cons. cbn [snd all_locs mbind list_bind]. rewrite app_nil_r. solve_Permutation.
  - intros l. apply (leaf_same_two _ _ _ p nd (loc t) ndt p); try done.
    + apply Hwip.
    + rewrite Hm. apply lookup_insert_eq.
Qed.

Lemma wip_snoc n nd (g : list (Z * tree n)) k t ks ps :
  wip nd g -> g <> [] -> (keys nd).[alen g - 1 <- k] = Some ks -> (pointers nd).[alen g <- loc t] = Some ps ->
  wip (with_pointers (with_keys nd ks) ps) (g ++ [(k, t)]).
Proof.
  intros [] Hne Hk Hp.
  assert (1 <= alen g) by (destruct g; [done|]; rewrite alen_cons; pose proof (alen_nonneg g); lia).
  split; cbn; try done.
  - by rewrite (aset_alen _ _ _ _ Hk).
  - by rewrite (aset_alen _ _ _ _ Hp).
  - rewrite seps_cut by done. eapply holds_snoc; [done|]. by rewrite alen_seps.
  - rewrite child_locs_app. eapply holds_snoc; [done|]. by rewrite alen_child_locs.
Qed.

Lemma rep_exists n H par (t : tree n) : rep H n par t -> exists nd, H !! loc t = Some nd.
Proof. destruct n, t; [intros (nd & ? & _)%rep_0_inv|intros [(nd & ? & _) _]%rep_S_inv]; by exists nd. Qed.

(** A child that can be searched, with its first key as its bound. *)
Definition sound {n} (kc : Z * tree n) : Prop :=
  lead kc /\ exists hi, wf n kc.1 hi kc.2 /\ hi - kc.1 <= 2 ^ 64.

Lemma wp_adopt_children n fuel m p (g : list (Z * tree n)) done_ rest level pre count :
  building m p g done_ rest -> holds level (pre ++ child_locs g ++ child_locs rest) ->
  count = alen pre + alen g + alen rest -> Forall sound rest -> 1 <= alen g <= order ->
  (Z.to_nat (order - alen g) < fuel)%nat ->
  wp (adopt_children order fuel level count p (alen g - 1) (alen pre + alen g)) m (fun '(kc, ci) m' =>
    exists gs rest2, rest = gs ++ rest2 /\ building m' p (g ++ gs) done_ rest2 /\ alen (g ++ gs) <= order /\
      (alen (g ++ gs) = order \/ rest2 = []) /\ kc = alen (g ++ gs) - 1 /\ ci = alen pre + alen (g ++ gs) /\
      words_same m m' /\ forall l, leaf_same l m m').
Proof.
  revert m g rest. induction fuel as [|fuel IH]; intros m g rest Hb Hlv Hcount Hs Hg Hfuel; [lia|].
  cbn [adopt_children]. pose proof (alen_nonneg pre).
  assert (Hstop : (alen g = order \/ rest = []) -> wp (mret (alen g - 1, alen pre + alen g)) m (fun '(kc, ci) m' =>
    exists gs rest2, rest = gs ++ rest2 /\ building m' p (g ++ gs) done_ rest2 /\ alen (g ++ gs) <= order /\
      (alen (g ++ gs) = order \/ rest2 = []) /\ kc = alen (g ++ gs) - 1 /\ ci = alen pre + alen (g ++ gs) /\
      words_same m m' /\ forall l, leaf_same l m m')).
  { intros Hcase. apply wp_ret. exists [], rest. rewrite !app_nil_r. do 2 (split; [done|]). split; [lia|].
    do 4 (split; [done|]). intros l q nd _ Hnd Hl. by exists nd. }
  destruct (Z.ltb_spec (alen g - 1) (order - 1)); [|apply Hstop; left; lia].
  destruct rest as [|[k t] rest].
  { change (alen (@nil (Z * tree n))) with 0 in Hcount. destruct (Z.ltb_spec (alen pre + alen g) count); [lia|].
    cbn [andb]. apply Hstop. by right. }
  rewrite alen_cons in Hcount. pose proof (alen_nonneg rest). destruct (Z.ltb_spec (alen pre + alen g) count); [|lia].
  cbn [andb]. clear Hstop. apply list.Forall_cons in Hs as [(Hlead & hi & Hwf & Hspan) Hs]. cbn [fst snd] in Hwf, Hspan.
  pose proof Hb as [(nd & Hnd & Hwip) _ _ Hrest _]. apply list.Forall_cons in Hrest as [Hrt _]. cbn [snd] in Hrt.
  assert (level.[alen pre + alen g] = Some (loc t)) as Hchild.
  { destruct Hlv as [_ Hget]. rewrite Hget.
    - rewrite app_assoc. replace (alen pre + alen g) with (alen (pre ++ child_locs g)) by (by rewrite alen_app, alen_child_locs).
      apply aget_middle.
    - rewrite !alen_app, !alen_child_locs, alen_cons. lia. }
  apply wp_bind. eapply wp_lift; [exact Hchild|]. apply wp_bind.
  eapply wp_mono; [eapply (wp_separator n t k 0 k hi); try done|]. intros sep m' [-> ->].
  apply wp_bind. eapply wp_load; [done|].
  assert (exists ks, (keys nd).[alen g - 1 <- k] = Some ks) as [ks Hks]
    by (eexists; apply aset_in; rewrite (wp_keys_len _ _ Hwip); lia).
  assert (exists ps, (pointers nd).[alen g <- loc t] = Some ps) as [ps Hps]
    by (eexists; apply aset_in; rewrite (wp_ptrs_len _ _ Hwip); lia).
  replace (alen g - 1 + 1) with (alen g) by lia.
  apply wp_bind. eapply wp_lift; [exact Hks|]. apply wp_bind. eapply wp_lift; [exact Hps|].
  apply wp_bind. eapply wp_store; [done|].
  destruct (rep_exists n (nodes m) 0 t Hrt) as [ndt Hndt].
  destruct (building_adopt n m _ p g done_ k t rest nd (with_pointers (with_keys nd ks) ps) ndt Hb Hnd Hndt
    (wip_snoc n nd g k t ks ps Hwip ltac:(intros ->; change (alen (@nil (Z * tree n))) with 0 in Hg; lia) Hks Hps) eq_refl)
    as (Hb' & Hw & Hls & Hne).
  unfold set_parent. apply wp_bind, wp_bind. eapply wp_load; [cbn [nodes with_nodes]; by rewrite lookup_insert_ne|].
  eapply wp_store; [cbn [nodes with_nodes]; by rewrite lookup_insert_ne|]. cbn [nodes with_nodes] in *.
  set (m2 := with_nodes m _) in Hb', Hw, Hls. change (with_nodes (with_nodes m _) _) with m2.
  replace (alen pre + alen g + 1) with (alen pre + alen (g ++ [(k, t)])) by (rewrite alen_app; change (alen [(k, t)]) with 1; lia).
  replace (alen g) with (alen (g ++ [(k, t)]) - 1) at 1 by (rewrite alen_app; change (alen [(k, t)]) with 1; lia).
  eapply wp_mono; [apply (IH m2 (g ++ [(k, t)]) rest Hb')|].
  - rewrite child_locs_app, <- app_assoc. exact Hlv.
  - rewrite alen_app. change (alen [(k, t)]) with 1. lia.
  - done.
  - rewrite alen_app. change (alen [(k, t)]) with 1. lia.
  - rewrite alen_app. change (alen [(k, t)]) with 1. lia.
  - intros [kc ci] m3 (gs & rest2 & -> & Hb3 & Hle & Hcase & -> & -> & Hw3 & Hls3).
    exists ((k, t) :: gs), rest2. rewrite <- app_assoc in *. cbn [app] in *. split; [done|]. split; [done|].
    split; [done|]. split; [done|]. do 2 (split; [done|]). split; [by etransitivity|].
    intros l. by eapply leaf_same_trans.
Qed.

(** ** One level *)

(** Some parents made, the other children still without one. *)
Record midway {n} (m : mem) (done_ : list (Z * tree (S n))) (rest : list (Z * tree n)) : Prop := {
  mw_done : reps (nodes m) 0 done_;
  mw_rest : reps (nodes m) 0 rest;
  mw_ok : nodes_ok m (all_locs done_ ++ all_locs rest);
}.

Lemma wp_load_parent n m done_ k0 (t0 : tree n) rest level pre parents :
  midway m done_ ((k0, t0) :: rest) -> holds level (pre ++ child_locs ((k0, t0) :: rest)) -> Forall sound rest ->
  holds parents (child_locs done_) -> alen done_ < alen parents ->
  wp (load_parent order level (alen pre + alen rest + 1) (alen done_) (parents, alen pre)) m
    (fun '(parents', ci) m' => exists p gs rest2, let G := (k0, t0) :: gs in
      rest = gs ++ rest2 /\ midway m' (done_ ++ [(k0, (p, G))]) rest2 /\ alen G <= order /\
      (alen G = order \/ rest2 = []) /\ ci = alen pre + alen G /\
      holds parents' (child_locs (done_ ++ [(k0, (p, G))])) /\ alen parents' = alen parents /\
      words_same m m' /\ leaf_same (all_locs done_ ++ all_locs ((k0, t0) :: rest)) m m').
Proof.
  intros [Hdone Hrest Hok] Hlv Hs Hh Hlen. unfold load_parent. apply wp_bind.
  eapply wp_mono; [by apply wp_make_node|]. intros p m1 (Hok1 & Hp & Ha & Hw1).
  pose proof (nodes_ok_nodup _ _ Hok1) as [Hpn _]%list.NoDup_cons.
  assert (exists parents', parents.[alen done_ <- p] = Some parents') as [parents' Hset]
    by (eexists; apply aset_in; pose proof (alen_nonneg done_); lia).
  apply wp_bind. eapply wp_lift; [exact Hset|]. apply wp_bind. eapply wp_load; [done|].
  assert (level.[alen pre] = Some (loc t0)) as Hchild.
  { destruct Hlv as [_ Hget]. rewrite Hget; [apply aget_middle|]. rewrite alen_app, alen_child_locs, alen_cons.
    pose proof (alen_nonneg pre). pose proof (alen_nonneg rest). lia. }
  apply wp_bind. eapply wp_lift; [exact Hchild|].
  assert (exists ps, (pointers (fresh_node order false)).[0 <- loc t0] = Some ps) as [ps Hps]
    by (eexists; apply aset_in; cbn [pointers fresh_node]; rewrite alen_replicate; lia).
  apply wp_bind. eapply wp_lift; [exact Hps|]. apply wp_bind. eapply wp_store; [done|].
  assert (Hb0 : building m1 p [] done_ ((k0, t0) :: rest)).
  { split; [|constructor|..|exact Hok1].
    - exists (fresh_node order false). split; [done|]. split; cbn [is_leaf parent keys pointers fresh_node]; try done;
        rewrite ?alen_replicate by lia; try lia; apply holds_nil.
    - eapply reps_agree; [|exact Hdone]. eapply agree_mono; [|exact Ha]. intros x Hx. rewrite elem_of_app. by left.
    - eapply reps_agree; [|exact Hrest]. eapply agree_mono; [|exact Ha]. intros x Hx. rewrite elem_of_app. by right. }
  pose proof (bd_rest _ _ _ _ _ Hb0) as Hr1. apply list.Forall_cons in Hr1 as [Hrt _]. cbn [snd] in Hrt.
  destruct (rep_exists n (nodes m1) 0 t0 Hrt) as [ndt Hndt].
  assert (Hwip1 : wip (with_pointers (with_is_leaf (fresh_node order false) false) ps) ([] ++ [(k0, t0)])).
  { pose proof (holds_snoc (pointers (fresh_node order false)) [] (loc t0) ps (holds_nil _) Hps) as Hhp.
    apply aset_alen in Hps. cbn [pointers fresh_node] in Hps. rewrite alen_replicate in Hps by lia.
    split; cbn [is_leaf parent keys pointers fresh_node with_pointers with_is_leaf]; try done.
    - rewrite alen_replicate; lia.
    - apply holds_nil. }
  destruct (building_adopt n m1 _ p [] done_ k0 t0 rest _ _ ndt Hb0 Hp Hndt Hwip1 eq_refl) as (Hb2 & Hw2 & Hls2 & Hne).
  unfold set_parent. apply wp_bind, wp_bind. eapply wp_load; [cbn [nodes with_nodes]; by rewrite lookup_insert_ne|].
  eapply wp_store; [cbn [nodes with_nodes]; by rewrite lookup_insert_ne|]. cbn [nodes with_nodes] in *.
  set (m2 := with_nodes m1 _) in Hb2, Hw2, Hls2. change (with_nodes (with_nodes m1 _) _) with m2.
  apply wp_bind. change ([] ++ [(k0, t0)]) with [(k0, t0)] in Hb2.
  eapply wp_mono; [apply (wp_adopt_children n (Z.to_nat order) m2 p [(k0, t0)] done_ rest level pre _ Hb2); try done|].
  - change (alen [(k0, t0)]) with 1. lia.
  - change (alen [(k0, t0)]) with 1. lia.
  - change (alen [(k0, t0)]) with 1. lia.
  - intros [kc ci] m3 (gs & rest2 & -> & Hb3 & Hle & Hcase & -> & -> & Hw3 & Hls3).
    change ([(k0, t0)] ++ gs) with ((k0, t0) :: gs) in *. set (G := (k0, t0) :: gs) in *.
    destruct Hb3 as [(nd3 & Hnd3 & Hwip3) Hg3 Hd3 Hr3 Hok3]. apply wp_bind. eapply wp_load; [done|].
    apply wp_bind. eapply wp_store; [done|]. apply wp_ret. set (m4 := with_nodes m3 _).
    pose proof (nodes_ok_nodup _ _ Hok3) as [Hpn3 _]%list.NoDup_cons. rewrite !elem_of_app in Hpn3.
    assert (Ha4 : forall L, p ∉ L -> agree L (nodes m3) (nodes m4)) by (intros L HL; by apply agree_insert).
    exists p, gs, rest2. cbv zeta. fold G. split; [done|]. split; [split|].
    + apply list.Forall_app. split; [eapply reps_agree; [|exact Hd3]; apply Ha4; tauto|]. constructor; [|done].
      apply rep_S. split.
      * eexists. split; [apply lookup_insert_eq|]. destruct Hwip3. split; cbn [is_leaf parent num_keys keys pointers with_num_keys]; try done.
        rewrite alen_seps; [done|]. unfold G. rewrite alen_cons. pose proof (alen_nonneg gs). lia.
      * eapply reps_agree; [|exact Hg3]. apply Ha4. tauto.
    + eapply reps_agree; [|exact Hr3]. apply Ha4. tauto.
    + rewrite (all_locs_app done_ ([(k0, (p, G))] : list (Z * tree (S n)))).
      change (all_locs ([(k0, (p, G))] : list (Z * tree (S n)))) with ((p :: all_locs G) ++ []). rewrite app_nil_r.
      apply nodes_ok_store; [rewrite !elem_of_app; left; right; by left|].
      eapply nodes_ok_perm; [|exact Hok3]. solve_Permutation.
    + split; [done|]. split; [done|]. split; [done|]. split.
      { rewrite child_locs_app. eapply holds_snoc; [done|]. by rewrite alen_child_locs. }
      split; [by eapply aset_alen|]. split.
      { etransitivity; [exact Hw1|]. etransitivity; [exact Hw2|]. etransitivity; [exact Hw3|]. same_solve. }
      eapply leaf_same_trans; [|eapply leaf_same_trans; [apply Hls2|eapply leaf_same_trans; [apply Hls3|]]].
      * intros q nd Hq Hnd Hl. exists nd. by rewrite (Ha q Hq).
      * apply (leaf_same_inner _ _ _ p nd3); [done|apply Hwip3|]. intros x _ Hx. by apply lookup_insert_ne.
Qed.

(** The children of a list of parents. *)
Definition kids {n} (ps : list (Z * tree (S n))) : list (Z * tree n) :=
  ps ≫= fun kp => snd (kp.2 : (Z * list (Z * tree n))%type).

Lemma kids_snoc {n} (ps : list (Z * tree (S n))) k p (G : list (Z * tree n)) :
  kids (ps ++ [(k, (p, G))]) = kids ps ++ G.
Proof. unfold kids. rewrite bind_app. cbn. by rewrite app_nil_r. Qed.

Lemma flats_kids {B} (f : tree 0 -> list B) {n} (ps : list (Z * tree (S n))) : flats f ps = flats f (kids ps).
Proof.
  induction ps as [|[k [p G]] ps IH]; [done|].
  change (kids ((k, (p, G)) :: ps)) with (G ++ kids ps). rewrite flats_cons, flats_app, IH. done.
Qed.

(** A parent that starts with its first child's bound and has room for its keys. *)
Definition grouped {n} (kp : Z * tree (S n)) : Prop :=
  exists p k (t : tree n) g, kp = (k, (p, (k, t) :: g)) /\ 2 <= alen ((k, t) :: g) <= order.

Lemma level_up {n} (ps : list (Z * tree (S n))) hi :
  Forall grouped ps -> seg (wf n) (kids ps) hi -> seg (wf (S n)) ps hi /\ bnd ps hi = bnd (kids ps) hi.
Proof.
  induction 1 as [|kp ps (p & k & t & g & -> & Hlen) Hps IH]; [done|]. set (G := (k, t) :: g) in *.
  change (kids ((k, (p, G)) :: ps)) with (G ++ kids ps). intros [HG Hs]%seg_app.
  destruct (IH Hs) as [IHs IHb]. split; [|by rewrite bnd_app]. split; [|done].
  apply wf_S. rewrite IHb. split; [done|]. by split.
Qed.

Lemma lead_up {n} (ps : list (Z * tree (S n))) : Forall grouped ps -> Forall lead (kids ps) -> Forall lead ps.
Proof.
  induction 1 as [|kp ps (p & k & t & g & -> & Hlen) Hps IH]; [done|]. set (G := (k, t) :: g) in *.
  change (kids ((k, (p, G)) :: ps)) with (G ++ kids ps). intros [HG Hs]%list.Forall_app.
  apply list.Forall_cons in HG as [(r & es & He) _]. constructor; [|by apply IH].
  exists r, (es ++ flats snd g). cbn [fst snd] in *. rewrite entries_S. unfold G. rewrite flats_cons. cbn [snd].
  unfold entries in He. by rewrite He.
Qed.

Lemma lead_up_tail {n} (ps : list (Z * tree (S n))) :
  Forall grouped ps -> Forall lead (list.tail (kids ps)) -> Forall lead (list.tail ps).
Proof.
  intros Hg Hl. destruct Hg as [|kp ps (p & k & t & g & -> & Hlen) Hps]; [done|]. cbn [list.tail].
  change (kids ((k, (p, (k, t) :: g)) :: ps)) with ((k, t) :: g ++ kids ps) in Hl. cbn [list.tail] in Hl.
  apply list.Forall_app in Hl as [_ Hl]. by apply lead_up.
Qed.

Lemma seg_sound {n} (cs : list (Z * tree n)) :
  seg (wf n) cs (2 ^ 64) -> 0 <= bnd cs (2 ^ 64) -> Forall lead cs -> Forall sound cs.
Proof.
  intros Hs Hb Hl. induction Hl as [|[k c] cs Hk Hl IH]; [done|]. destruct Hs as [Hc Hs]. cbn [bnd] in Hb.
  pose proof (wf_lt _ _ _ _ _ Hc). pose proof (proj2 (seg_bounds _ _ _ _ Hs)).
  constructor; [|apply IH; [done|lia]]. split; [done|]. exists (bnd cs (2 ^ 64)). split; [done|]. cbn [fst]. lia.
Qed.

(** A complete level, its trees side by side. *)
Record level_at {n} (m : mem) (cs : list (Z * tree n)) : Prop := {
  la_reps : reps (nodes m) 0 cs;
  la_seg : seg (wf n) cs (2 ^ 64);
  la_bnd : bnd cs (2 ^ 64) = 0;
  la_lead : Forall lead (list.tail cs);
  la_alloc : nodes_ok m (all_locs cs);
  la_linked : linked (nodes m) (flats leaf_of cs);
}.

Lemma wp_build_level n m (cs : list (Z * tree n)) level np :
  level_at m cs -> holds level (child_locs cs) -> 1 < alen cs -> alen cs mod order <> 1 ->
  np = (alen cs + order - 1) / order ->
  wp (mfor 0 np (load_parent order level (alen cs)) (replicate (Z.to_nat np) 0, 0)) m (fun '(parents, _) m' =>
    exists ps : list (Z * tree (S n)), alen ps = np /\ kids ps = cs /\ level_at m' ps /\ holds parents (child_locs ps) /\
      words_same m m').
Proof.
  intros Hlv Hh Hlen Hmod Hnp. destruct Hlv as [Hreps Hseg Hbnd Hlead Hok Hlk].
  assert (Hnp' : (np - 1) * order < alen cs <= np * order) by (subst np; clear -order_min; zdiv).
  assert (0 <= np) by nia.
  eapply wp_mono; [apply (wp_mfor (fun i '(parents, ci) m' => exists done_ rest,
    cs = kids done_ ++ rest /\ alen done_ = i /\ alen (kids done_) = Z.min (i * order) (alen cs) /\
    Forall grouped done_ /\ midway m' done_ rest /\ holds parents (child_locs done_) /\ alen parents = np /\
    ci = alen (kids done_) /\ words_same m m' /\ leaf_same (flats leaf_of cs) m m'))|].
  - done.
  - exists [], cs. split; [done|]. split; [done|]. change (alen (kids (n := n) [])) with 0. split; [lia|].
    split; [done|]. split; [split; [constructor|done|done]|]. split; [apply holds_nil|].
    rewrite alen_replicate by lia. do 3 (split; [done|]). intros q nd _ Hnd Hl. by exists nd.
  - intros i [parents ci] m1 Hi (done_ & rest & Ecs & Hdone & Hkids & Hgr & Hmid & Hpar & Hplen & -> & Hw & Hls).
    assert (i * order < alen cs) as Hlt by nia. rewrite Z.min_l in Hkids by lia.
    assert (Hrest : alen rest = alen cs - i * order) by (rewrite Ecs, alen_app; lia).
    destruct rest as [|[k0 t0] rest]; [change (alen (@nil (Z * tree n))) with 0 in Hrest; lia|].
    assert (Hsound : Forall sound rest).
    { assert (Hs := Hseg). rewrite Ecs in Hs. apply seg_app in Hs as [_ [Hw0 Hs]].
      pose proof (proj2 (seg_bounds _ _ _ _ Hs)). pose proof (wf_lt _ _ _ _ _ Hw0).
      assert (0 <= k0). { destruct (seg_bounds _ _ _ _ Hseg) as [Hb _]. rewrite Ecs in Hb. apply list.Forall_app in Hb as [_ Hb].
        apply list.Forall_cons in Hb as [Hb _]. cbn [fst] in Hb. rewrite <- Ecs in Hb. lia. }
      apply seg_sound; [done|lia|]. rewrite Ecs in Hlead. destruct (kids done_); cbn [app list.tail] in Hlead; [done|].
      apply list.Forall_app in Hlead as [_ Hlead]. by apply list.Forall_cons in Hlead as [_ ?]. }
    rewrite alen_cons in Hrest.
    replace (alen cs) with (alen (child_locs (kids done_)) + alen rest + 1) by (rewrite alen_child_locs; lia).
    rewrite <- Hdone. replace (alen (kids done_)) with (alen (child_locs (kids done_))) by apply alen_child_locs.
    eapply wp_mono; [apply (wp_load_parent n m1 done_ k0 t0 rest level _ parents Hmid); try done|].
    + rewrite <- child_locs_app, <- Ecs. done.
    + lia.
    + intros [parents' ci] m2 (p & gs & rest2 & -> & Hmid2 & HG & Hcase & -> & Hpar2 & Hplen2 & Hw2 & Hls2).
      set (G := (k0, t0) :: gs) in *. rewrite alen_app in Hrest.
      assert (HGlen : alen G = alen gs + 1) by (by unfold G; rewrite alen_cons).
      assert (HG2 : alen G <> 1).
      { intros E. destruct Hcase as [?|E2]; [lia|]. assert (alen rest2 = 0) by (by rewrite E2).
        apply Hmod. replace (alen cs) with (1 + i * order) by lia. rewrite Z_mod_plus_full. apply Z.mod_small. lia. }
      pose proof (alen_nonneg gs). pose proof (alen_nonneg rest2).
      exists (done_ ++ [(k0, (p, G))]), rest2. rewrite kids_snoc, !alen_app, alen_child_locs.
      change (alen [(k0, (p, G))]) with 1. split; [rewrite Ecs, <- app_assoc; done|]. split; [lia|]. split.
      { destruct Hcase as [?|E2]; [lia|]. assert (alen rest2 = 0) by (by rewrite E2). lia. }
      split; [apply list.Forall_app; split; [done|]; constructor; [|done]; exists p, k0, t0, gs; split; [done|]; fold G; lia|].
      split; [done|]. split; [done|]. split; [lia|]. split; [done|]. split; [by etransitivity|].
      eapply leaf_same_trans; [exact Hls|]. eapply leaf_same_mono; [|exact Hls2].
      destruct Hmid as [Hmd Hmr _]. intros x Hx. rewrite Ecs, flats_app, <- flats_kids, elem_of_app in Hx. rewrite elem_of_app.
      destruct Hx as [Hx|Hx]; [left; exact (proj1 (reps_leaves order _ _ _ _ _ Hmd Hx))|right].
      exact (proj1 (reps_leaves order _ _ _ _ _ Hmr Hx)).
  - intros [parents ci] m1 (ps & rest & Ecs & Hps & Hkids & Hgr & [Hmd _ Hmo] & Hpar & _ & _ & Hw & Hls).
    rewrite Z.min_r in Hkids by lia.
    assert (rest = []) as ->. { destruct rest; [done|]. rewrite Ecs, alen_app, alen_cons in Hkids. pose proof (alen_nonneg rest). lia. }
    rewrite app_nil_r in Ecs. exists ps. split; [done|]. split; [done|]. split; [|done].
    destruct (level_up ps (2 ^ 64) Hgr) as [Hs Hb]; [by rewrite <- Ecs|]. split; try done.
    + by rewrite Hb, <- Ecs.
    + apply lead_up_tail; [done|]. by rewrite <- Ecs.
    + by rewrite app_nil_r in Hmo.
    + rewrite flats_kids, <- Ecs. eapply linked_same; [exact Hlk|]. intros x nd Hx Hnd.
      destruct (reps_leaves order _ _ _ _ _ Hreps Hx) as (_ & nd0 & Hnd0 & Hl). assert (nd0 = nd) as -> by congruence.
      destruct (Hls x nd Hx Hnd Hl) as (nd' & Hnd' & _ & E). exists nd'. by rewrite E.
Qed.

Lemma wp_build_levels fuel n m (cs : list (Z * tree n)) level :
  level_at m cs -> holds level (child_locs cs) -> 1 <= alen cs < 2 ^ 62 -> no_orphans order fuel (alen cs) = true ->
  wp (build_levels order fuel level (alen cs)) m (fun root m' =>
    tree_at order m' root (flats snd cs) /\ words_same m m').
Proof.
  revert n m cs level. induction fuel as [|fuel IH]; intros n m cs level Hlv Hh Hlen Hno; [done|].
  cbn [build_levels no_orphans] in *. destruct (Z.ltb_spec 1 (alen cs)).
  - apply andb_prop in Hno as [Hmod Hno]. destruct (Z.eqb_spec (alen cs mod order) 1) as [|Hmod']; [done|].
    rewrite u64_id by (unfold in_u64; lia). set (np := (alen cs + order - 1) / order) in *.
    assert (Hnp : 1 <= np < 2 ^ 62) by (unfold np; clear -order_min order_max Hlen H; zdiv).
    apply wp_bind. eapply wp_mono; [apply wp_allocate|]. intros base m1 (Hns & Hws & _).
    assert (level_at m1 cs) as Hlv1.
    { destruct Hlv. pose proof (nodes_ok_same _ _ _ Hns la_alloc0). destruct Hns as (En & _). by split; rewrite ?En. }
    apply wp_bind. eapply wp_mono; [by apply (wp_build_level n m1 cs level np)|].
    intros [parents ci] m2 (ps & Hps & Hk & Hlv2 & Hpar & Hw2). rewrite <- Hps.
    eapply wp_mono; [apply (IH (S n) m2 ps parents Hlv2 Hpar); rewrite Hps; done|].
    intros root m3 [Ht Hw3]. rewrite flats_kids, Hk in Ht. split; [done|]. etransitivity; [exact Hws|by etransitivity].
  - destruct cs as [|[k t] cs]; [change (alen (@nil (Z * tree n))) with 0 in Hlen; lia|]. rewrite alen_cons in *.
    destruct cs; [|rewrite alen_cons in *; pose proof (alen_nonneg cs); lia].
    destruct Hlv as [Hreps [Hwf _] Hb _ Hok Hlk]. cbn [bnd] in *. subst k. apply list.Forall_cons in Hreps as [Hrep _].
    eapply wp_lift; [destruct Hh as [_ Hg]; apply (Hg 0); change (alen (child_locs [(0, t)])) with 1; lia|].
    split; [|done]. right. exists n, t. change (all_locs [(0, t)]) with (locs n t ++ []) in Hok.
    change (flats leaf_of [(0, t)]) with (flat leaf_of n t ++ []) in Hlk. rewrite app_nil_r in Hok, Hlk.
    do 3 (split; [done|]). split; [|done]. rewrite flats_cons. cbn [snd]. by rewrite app_nil_r.
Qed.

(** ** The leaves as a level *)

Lemma wp_load_leaves m (es : list (Z * Z)) nl :
  nodes_ok m [] -> 1 <= alen es -> nl = (alen es + (order - 1) - 1) / (order - 1) ->
  wp (mfor 0 nl (load_leaf order es.*1 es.*2 (alen es)) (replicate (Z.to_nat nl) 0, 0)) m (fun '(leaves, _) m' =>
    exists ts, alen ts = nl /\ ts ≫= snd = es /\ leaves_made m' ts /\ holds leaves ts.*1 /\ words_same m m').
Proof.
  intros Hok Hes Hnl.
  assert (Hnl' : (nl - 1) * (order - 1) < alen es <= nl * (order - 1)) by (subst nl; clear -order_min; zdiv).
  assert (0 <= nl) by nia.
  eapply wp_mono; [apply (wp_mfor (fun i '(leaves, idx) m' => exists (ts : list (Z * list (Z * Z))) e2,
    es = (ts ≫= snd) ++ e2 /\ alen ts = i /\ alen (ts ≫= snd) = Z.min (i * (order - 1)) (alen es) /\
    leaves_made m' ts /\ holds leaves ts.*1 /\ alen leaves = nl /\ idx = alen (ts ≫= snd) /\ words_same m m'))|].
  - done.
  - exists [], es. split; [done|]. split; [done|]. change (alen ([] ≫= snd)) with 0. split; [lia|].
    split; [by split|]. split; [apply holds_nil|]. rewrite alen_replicate by lia. done.
  - intros i [leaves idx] m1 Hi (ts & e2 & Ees & Hts & Hk & Hmade & Hh & Hll & -> & Hw).
    assert (i * (order - 1) < alen es) by nia. rewrite Z.min_l in Hk by lia.
    assert (He2 : alen e2 = alen es - i * (order - 1)) by (rewrite Ees, alen_app; lia).
    rewrite Ees, <- Hts. eapply wp_mono; [apply (wp_load_leaf m1 ts e2 leaves Hmade); try done|].
    + intros ->. change (alen (@nil (Z * Z))) with 0 in He2. lia.
    + lia.
    + intros [leaves' idx] m2 ([q e] & e3 & -> & Hcase & Hmade2 & Hh2 & Hl2 & -> & Hw2). cbn [snd] in *.
      exists (ts ++ [(q, e)]), e3. rewrite alen_app in He2. pose proof (alen_nonneg e3).
      assert (Eb : (ts ++ [(q, e)]) ≫= snd = (ts ≫= snd) ++ e)
        by (rewrite bind_app; cbn [mbind list_bind snd]; by rewrite app_nil_r).
      rewrite <- Ees, Eb, !alen_app. change (alen [(q, e)]) with 1. split; [rewrite Ees; by rewrite <- app_assoc|].
      split; [done|]. split.
      { destruct Hcase as [?|E3]; [lia|]. assert (alen e3 = 0) by (by rewrite E3). pose proof (lm_size _ _ Hmade2) as Hsz.
        apply list.Forall_app in Hsz as [_ Hsz]. apply list.Forall_cons in Hsz as [Hsz _]. cbn [snd] in Hsz. lia. }
      split; [done|]. split; [done|]. split; [lia|]. split; [done|]. by etransitivity.
  - intros [leaves idx] m1 (ts & e2 & Ees & Hts & Hk & Hmade & Hh & _ & _ & Hw). rewrite Z.min_r in Hk by lia.
    assert (e2 = []) as ->. { destruct e2; [done|]. rewrite Ees, alen_app, alen_cons in Hk. pose proof (alen_nonneg e2). lia. }
    rewrite app_nil_r in Ees. by exists ts.
Qed.

Definition first_key (t : Z * list (Z * Z)) : Z := match t.2 with (k, _) :: _ => k | [] => 0 end.

(** The leaves with their first keys as bounds, the first one with 0. *)
Definition tagged (ts : list (Z * list (Z * Z))) : list (Z * tree 0) := (fun t => (first_key t, t)) <$> ts.
Definition bounds (ts : list (Z * list (Z * Z))) : list (Z * tree 0) :=
  match ts with [] => [] | t :: ts => (0, t) :: tagged ts end.

Lemma seg_tagged ts lo t :
  StronglySorted Z.lt ((t :: ts) ≫= snd).*1 -> Forall (fun k => lo <= k < 2 ^ 64) ((t :: ts) ≫= snd).*1 ->
  Forall (fun t : Z * list (Z * Z) => 1 <= alen t.2 <= order - 1) (t :: ts) ->
  seg (wf 0) (((lo, t) : Z * tree 0) :: tagged ts) (2 ^ 64).
Proof.
  revert lo t. induction ts as [|t2 ts IH]; intros lo [p e] Hs Hr Hsz; apply list.Forall_cons in Hsz as [Hsz Hsz'].
  - cbn in Hs, Hr. rewrite app_nil_r in Hs, Hr. split; [|done]. by apply wf_0.
  - change (((p, e) :: t2 :: ts) ≫= snd) with (e ++ ((t2 :: ts) ≫= snd)) in Hs, Hr. rewrite fmap_app in Hs, Hr.
    pose proof Hsz' as Hsz2. apply list.Forall_cons in Hsz2 as [Hsz2 _]. destruct t2 as [p2 [|[k2 r2] e2]];
      [cbn [snd] in Hsz2; rewrite alen_nil in Hsz2; lia|].
    set (tl := ((p2, (k2, r2) :: e2) :: ts) ≫= snd) in *.
    assert (tl.*1 = k2 :: (e2 ++ (ts ≫= snd)).*1) as Etl by done. rewrite Etl in Hs, Hr.
    apply sorted_halves in Hs as (Hs1 & Hs2 & Hlt & Hge). apply list.Forall_app in Hr as [Hr1 Hr2].
    rewrite <- Etl in Hs2, Hr2, Hge. split.
    + apply wf_0. split; [done|]. split; [done|]. cbn [tagged bnd fmap list_fmap first_key snd].
      rewrite list.Forall_forall in *. intros x Hx. specialize (Hr1 x Hx). specialize (Hlt x Hx). cbn beta in *. lia.
    + apply IH; [done| |done]. fold tl. rewrite list.Forall_forall in *. intros x Hx. specialize (Hr2 x Hx).
      specialize (Hge x Hx). cbn [first_key snd] in *. cbn beta in *. lia.
Qed.

Lemma level_of_leaves (cs : list (Z * tree 0)) :
  all_locs cs = (cs.*2).*1 /\ flats leaf_of cs = (cs.*2).*1 /\ child_locs cs = (cs.*2).*1 /\ flats snd cs = cs.*2 ≫= snd.
Proof.
  induction cs as [|[k [p e]] cs (H1 & H2 & H3 & H4)]; [done|]. rewrite all_locs_cons, !flats_cons.
  cbn [snd locs flat leaf_of fst app fmap list_fmap mbind list_bind child_locs loc]. rewrite H1, H2, H4.
  split; [done|]. split; [done|]. split; [|done]. f_equal. exact H3.
Qed.

Lemma bounds_snd ts : (bounds ts).*2 = ts.
Proof.
  destruct ts as [|t ts]; [done|]. cbn [bounds fmap list_fmap snd]. f_equal. unfold tagged.
  rewrite <- list_fmap_compose. apply list_fmap_id.
Qed.

Lemma leaves_level m ts :
  leaves_made m ts -> StronglySorted Z.lt (ts ≫= snd).*1 -> Forall in_u64 (ts ≫= snd).*1 -> ts <> [] ->
  level_at m (bounds ts).
Proof.
  intros [Hreps Hsz Hlk Hok] Hs Hr Hne. destruct (level_of_leaves (bounds ts)) as (E1 & E2 & _ & _).
  rewrite bounds_snd in E1, E2. split.
  - assert (Forall (fun t : tree 0 => rep (nodes m) 0 0 t) (bounds ts).*2) as H by (by rewrite bounds_snd).
    revert H. clear. induction (bounds ts) as [|[k t] cs IH]; intros H; [constructor|]. apply list.Forall_cons in H as [? ?].
    constructor; [done|by apply IH].
  - destruct ts as [|t ts]; [done|]. by apply seg_tagged.
  - by destruct ts.
  - destruct ts as [|t ts]; [done|]. cbn [bounds list.tail]. apply Forall_fmap. apply list.Forall_cons in Hsz as [_ Hsz].
    eapply Forall_weaken; [exact Hsz|]. intros [p [|[k r] e]] _ Hl; [cbn [snd] in Hl; rewrite alen_nil in Hl; lia|].
    by exists r, e.
  - by rewrite E1.
  - by rewrite E2.
Qed.

(** Writing the null pointer that is already there. *)
Lemma wp_set_next_last m ts t :
  leaves_made m (ts ++ [t]) -> wp (set_next_leaf order t.1 0) m (fun _ m' => m' = m).
Proof.
  intros [Hreps _ Hlk _]. apply list.Forall_app in Hreps as [_ Hr]. apply list.Forall_cons in Hr as [Hr _].
  destruct t as [p e]. apply rep_0_inv in Hr as (nd & Hnd & Hok). cbn [fst].
  assert ((pointers nd).[order - 1] = Some 0) as Hz.
  { rewrite fmap_app in Hlk. clear -Hlk Hnd. induction (ts.*1) as [|x l IH]; cbn [app fmap list_fmap linked] in Hlk.
    - destruct Hlk as [(nd' & Hnd' & Hx) _]. cbn [fst] in Hnd'. by simplify_eq.
    - exact (IH (proj2 Hlk)). }
  unfold set_next_leaf. apply wp_bind. eapply wp_load; [done|]. apply wp_bind.
  eapply wp_lift; [apply aset_in; rewrite (lf_ptrs_len _ _ _ _ Hok); lia|]. eapply wp_store; [done|].
  rewrite list_insert_id by (unfold aget in Hz; destruct (order - 1 <? 0); done).
  rewrite insert_id by (rewrite Hnd; by destruct nd). by destruct m.
Qed.

(** C36: [bulk_load] of sorted arrays makes a proper tree with exactly these
    entries, when no level leaves one child over for its last node; it does
    nothing undefined, and ends with [exit(1)] only when an allocation fails. *)
Theorem bulk_load_correct m (es : list (Z * Z)) :
  nodes_ok m [] -> StronglySorted Z.lt es.*1 -> Forall in_u64 es.*1 -> alen es < 2 ^ 60 ->
  (forall i, level_size order ((alen es + order - 2) / (order - 1)) i mod order = 1 ->
    level_size order ((alen es + order - 2) / (order - 1)) i = 1) ->
  wp (bulk_load order es.*1 es.*2 (alen es)) m (fun root m' =>
    tree_at order m' root es /\ words_same m m').
Proof.
  intros Hok Hs Hr Hmax Hno. unfold bulk_load. destruct (Z.eqb_spec (alen es) 0) as [E0|Hne].
  { apply wp_ret. split; [|done]. left. destruct es; [done|]. rewrite alen_cons in E0. pose proof (alen_nonneg es). lia. }
  pose proof (alen_nonneg es). rewrite u64_id by (unfold in_u64; lia).
  replace (alen es + order - 2) with (alen es + (order - 1) - 1) in Hno by lia.
  remember ((alen es + (order - 1) - 1) / (order - 1)) as nl eqn:Enl.
  assert (Hnl : 1 <= nl < 2 ^ 61).
  { subst nl. split; [apply Z.div_le_lower_bound; lia|]. apply Z.div_lt_upper_bound; [lia|].
    clear -order_min order_max Hmax. nia. }
  apply (no_orphans_all 65) in Hno; [|change (2 ^ Z.of_nat 65) with (2 ^ 65); lia].
  apply wp_bind. eapply wp_mono; [apply wp_allocate|]. intros base m1 (Hns & Hws & _).
  apply (nodes_ok_same _ _ _ Hns) in Hok. apply wp_bind.
  eapply wp_mono; [apply (wp_load_leaves m1 es nl Hok); [lia|done]|].
  intros [leaves idx] m2 (ts & Hts & Ets & Hmade & Hh & Hw2).
  destruct ts as [|t ts _] using rev_ind; [change (alen (@nil (Z * list (Z * Z)))) with 0 in Hts; lia|].
  assert (leaves.[nl - 1] = Some t.1) as Hlast.
  { destruct Hh as [_ Hg]. rewrite alen_fmap in Hg. rewrite Hg by lia. rewrite fmap_app. cbn [fmap list_fmap].
    rewrite alen_app in Hts. change (alen [t]) with 1 in Hts. replace (nl - 1) with (alen ts.*1) by (rewrite alen_fmap; lia).
    apply aget_middle. }
  apply wp_bind. eapply wp_lift; [exact Hlast|]. apply wp_bind.
  eapply wp_mono; [by eapply wp_set_next_last|]. intros _ m3 ->.
  assert (Hlv : level_at m2 (bounds (ts ++ [t]))).
  { apply leaves_level; [done|by rewrite Ets|by rewrite Ets|]. by destruct ts. }
  destruct (level_of_leaves (bounds (ts ++ [t]))) as (_ & _ & E3 & E4). rewrite bounds_snd in E3, E4.
  rewrite Ets in E4. rewrite <- E3 in Hh.
  assert (Hbl : alen (bounds (ts ++ [t])) = nl) by (rewrite <- Hts, <- (alen_fmap snd (bounds _)); by rewrite bounds_snd).
  assert (Hend : forall fuel, no_orphans order fuel nl = true ->
    wp (build_levels order fuel leaves nl) m2 (fun root m' => tree_at order m' root es /\ words_same m m')).
  { intros fuel Hf. rewrite <- Hbl, <- E4 in *. eapply wp_mono; [apply (wp_build_levels fuel 0 m2 _ leaves Hlv Hh); [lia|done]|].
    intros root m' [Ht Hw]. split; [done|]. etransitivity; [exact Hws|by etransitivity]. }
  destruct (Z.eqb_spec nl 1) as [E1|]; [|by apply Hend].
  specialize (Hend 1%nat). rewrite E1 in Hend. exact (Hend eq_refl).
Qed.
End Bulk.

(** ** A sample, and a level with a child left over *)

#[local] Existing Instance bump_os.

Definition sample_entries (n : Z) : list (Z * Z) := (fun k => (k, 8 * (k + 1))) <$> seqZ 0 n.

Lemma bulk_load_correct_witness :
  wp (bulk_load (os := bump_os) 4 (sample_entries 24).*1 (sample_entries 24).*2 24) boot (fun root m' =>
    tree_at 4 m' root (sample_entries 24) /\ words_same boot m') /\
  ok (bulk_load (os := bump_os) 4 (sample_entries 24).*1 (sample_entries 24).*2 24 boot) = true.
Proof.
  split; [|vm_compute; reflexivity].
  apply (bulk_load_correct (os := bump_os) 4 ltac:(lia) ltac:(lia) boot (sample_entries 24) boot_nodes).
  - repeat first [apply SSorted_nil | apply SSorted_cons | apply list.Forall_nil_2 | apply list.Forall_cons_2 | reflexivity].
  - repeat (apply list.Forall_cons_2; [split; [by vm_compute|reflexivity]|]). apply list.Forall_nil_2.
  - reflexivity.
  - change ((alen (sample_entries 24) + 4 - 2) / (4 - 1)) with 8. intros [|[|i]]; [by vm_compute|by vm_compute|].
    intros _. rewrite !level_size_S. change (((8 + 4 - 1) / 4 + 4 - 1) / 4) with 1.
    induction i as [|i IH]; [done|]. by rewrite level_size_S.
Defined.

(** Records for the keys [0], ..., [n - 1]. *)
Definition make_records {os : OS} (n : Z) : M (list Z) :=
  mfor 0 n (fun k rs => r ← make_record k; mret (rs ++ [r])) [].

(** A tree of [n] keys, loaded in bulk. *)
Definition loaded_tree {os : OS} (order n : Z) : M Z :=
  rs ← make_records n; bulk_load order (seqZ 0 n) rs n.

(** What a run of the program on the loaded tree returns. *)
Definition answer {A} (r : result A) : option A := match r with Ok a _ => Some a | _ => None end.

(** With a child left over the tree still answers lookups, but its last
    node has no key and no second child: when the leaf below it loses its last
    key, [delete] follows the null pointer it takes for a neighbour. *)
Theorem bulk_load_orphan_delete :
  answer ((root ← loaded_tree (os := bump_os) 4 13; '(r, _) ← find root 12; load_word r) boot) = Some 12 /\
  (root ← loaded_tree (os := bump_os) 4 13; delete 4 root 12) boot = Undefined.
Proof. split; vm_compute; reflexivity. Qed.
