(* ===== verification/BTreeMain.v ===== *)
(** * The B+ tree benchmark: generator and main program

    The 48-bit generator kept in 16-bit words, the insertion
    phase and the lookup phase of [real_main]. *)

From Stdlib Require Import ZArith Lia Sorted Ascii String.
From stdpp Require Import gmap list numbers.
From S2P Require Import Prelude Arrays BTreeMem BTree BTreeRep BTreeFind BTreeInsert BTreeMap BTreeRemove BTreePrint.
#[local] Open Scope Z_scope.

Module Prng.

Definition N : Z := 16.
Definition MASK : Z := Z.shiftl 1 (N - 1) + Z.shiftl 1 (N - 1) - 1.

(** The value of a 32-bit pattern read as [int32_t]. *)
Definition s32 (x : Z) : Z := let y := u32 x in if y <? 2 ^ 31 then y else y - 2 ^ 32.

Definition LOW (x : Z) : Z := Z.land (u32 x) MASK.
Definition HIGH (x : Z) : Z := LOW (Z.shiftr x N).

(** [MUL(x, y, z)]: the two halves of the product, kept in an [int32_t]. *)
Definition MUL (x y : Z) : Z * Z := let l := s32 (x * y) in (LOW l, HIGH l).

Definition CARRY (x y : Z) : Z := if MASK <? s32 x + s64 y then 1 else 0.

(** [ADDEQU(x, y, z)]: the new [x] and [z]. *)
Definition ADDEQU (x y : Z) : Z * Z := (LOW (u64 (x + y)), CARRY x y).

Definition X0 : Z := 0x330E.
Definition A0 : Z := 0xE66D.
Definition A1 : Z := 0xDEEC.
Definition A2 : Z := 0x5.
Definition C : Z := 0xB.

(** [x[3]]; [a] and [c] only ever hold [A0], [A1], [A2] and [C]. *)
Record xstate := MkX { x0 : Z; x1 : Z; x2 : Z }.

Definition next (x : xstate) : xstate :=
  let '(p0, p1) := MUL A0 (x0 x) in
  let '(p0, carry0) := ADDEQU p0 C in
  let '(p1, carry1) := ADDEQU p1 carry0 in
  let '(q0, q1) := MUL A0 (x1 x) in
  let '(p1, carry0) := ADDEQU p1 q0 in
  let '(r0, r1) := MUL A1 (x0 x) in
  MkX (LOW p0) (LOW (u64 (p1 + r0)))
    (LOW (u64 (carry0 + carry1 + CARRY p1 r0 + q1 + r1 +
               A0 * x2 x + A1 * x1 x + A2 * x0 x))).

Definition redisLrand48 (x : xstate) : Z * xstate :=
  let x := next x in
  (u64 (u64 (Z.shiftl (x2 x) (N - 1)) + Z.shiftr (x1 x) 1), x).

Definition redisSrand48 (seedval : Z) : xstate :=
  let seedval := s32 seedval in MkX X0 (LOW seedval) (HIGH seedval).

(** ** The generator is a 48-bit linear congruence *)

Definition words16 (x : xstate) : Prop :=
  0 <= x0 x < 2 ^ 16 /\ 0 <= x1 x < 2 ^ 16 /\ 0 <= x2 x < 2 ^ 16.

Definition value (x : xstate) : Z := x0 x + x1 x * 2 ^ 16 + x2 x * 2 ^ 32.

Lemma LOW_mod x : LOW x = x mod 2 ^ 16.
Proof.
  unfold LOW. change MASK with (Z.ones 16). rewrite Z.land_ones by lia. unfold u32.
  apply Z.mod_mod_divide. exists (2 ^ 16). done.
Qed.

Lemma MUL_ok x y :
  0 <= x < 2 ^ 16 -> 0 <= y < 2 ^ 16 -> MUL x y = ((x * y) mod 2 ^ 16, x * y / 2 ^ 16).
Proof.
  intros Hx Hy. assert (0 <= x * y < 2 ^ 32) as Hxy by nia. unfold MUL, HIGH, N.
  rewrite !LOW_mod, Z.shiftr_div_pow2 by lia. unfold s32, u32.
  generalize dependent (x * y). intros p Hp. rewrite (Z.mod_small p (2 ^ 32)) by done. destruct (Z.ltb_spec p (2 ^ 31)); f_equal; zdiv.
Qed.

Lemma CARRY_ok x y : 0 <= x < 2 ^ 16 -> 0 <= y < 2 ^ 16 -> CARRY x y = (x + y) / 2 ^ 16.
Proof.
  intros Hx Hy. unfold CARRY. change MASK with 65535. unfold s32, u32.
  rewrite s64_id by (unfold in_s64; lia). rewrite Z.mod_small by lia.
  destruct (Z.ltb_spec x (2 ^ 31)); [|lia]. destruct (Z.ltb_spec 65535 (x + y)); zdiv.
Qed.

Lemma ADDEQU_ok x y :
  0 <= x < 2 ^ 16 -> 0 <= y < 2 ^ 16 -> ADDEQU x y = ((x + y) mod 2 ^ 16, (x + y) / 2 ^ 16).
Proof.
  intros Hx Hy. unfold ADDEQU. rewrite LOW_mod, CARRY_ok, u64_id by (unfold in_u64; lia || lia).
  done.
Qed.

(** The schoolbook sum with its carries. *)
Lemma limbs (a q r s : Z) :
  0 <= a -> 0 <= q < 2 ^ 16 -> 0 <= r < 2 ^ 16 ->
  let p0 := a mod 2 ^ 16 + 11 in
  let p1 := a / 2 ^ 16 + p0 / 2 ^ 16 in
  let p2 := p1 mod 2 ^ 16 + q in
  let p3 := p2 mod 2 ^ 16 + r in
  let c := p2 / 2 ^ 16 + p1 / 2 ^ 16 + p3 / 2 ^ 16 in
  p0 mod 2 ^ 16 + p3 mod 2 ^ 16 * 2 ^ 16 + ((c + s) mod 2 ^ 16) * 2 ^ 32
  = (a + 11 + (q + r) * 2 ^ 16 + s * 2 ^ 32) mod 2 ^ 48.
Proof.
  intros Ha Hq Hr. cbv zeta.
  set (p0 := a mod 2 ^ 16 + 11). set (p1 := a / 2 ^ 16 + p0 / 2 ^ 16).
  set (p2 := p1 mod 2 ^ 16 + q). set (p3 := p2 mod 2 ^ 16 + r).
  apply Z.mod_unique with ((p2 / 2 ^ 16 + p1 / 2 ^ 16 + p3 / 2 ^ 16 + s) / 2 ^ 16);
    [left; zdiv|].
  pose proof (Z.div_mod a (2 ^ 16) ltac:(lia)). pose proof (Z.div_mod p0 (2 ^ 16) ltac:(lia)).
  pose proof (Z.div_mod p1 (2 ^ 16) ltac:(lia)). pose proof (Z.div_mod p2 (2 ^ 16) ltac:(lia)).
  pose proof (Z.div_mod p3 (2 ^ 16) ltac:(lia)).
  pose proof (Z.div_mod (p2 / 2 ^ 16 + p1 / 2 ^ 16 + p3 / 2 ^ 16 + s) (2 ^ 16) ltac:(lia)).
  lia.
Qed.

Lemma next_ok x : words16 x ->
  words16 (next x) /\ value (next x) = (0x5DEECE66D * value x + 0xB) mod 2 ^ 48.
Proof.
  intros (H0 & H1 & H2). unfold next.
  rewrite !MUL_ok by (unfold A0, A1; lia).
  assert (forall a b, 0 <= a < 2 ^ 16 -> 0 <= b < 2 ^ 16 -> 0 <= a * b / 2 ^ 16 < 2 ^ 16) as Hhi.
  { intros a b Ha Hb. split; [apply Z.div_pos; nia|]. apply Z.div_lt_upper_bound; nia. }
  assert (forall a, 0 <= a mod 2 ^ 16 < 2 ^ 16) as Hlo by (intros; apply Z.mod_pos_bound; lia).
  set (a := A0 * x0 x). set (q := A0 * x1 x). set (r := A1 * x0 x).
  assert (0 <= a / 2 ^ 16 < 2 ^ 16) as Ha by (apply Hhi; [unfold A0|]; lia).
  assert (0 <= q / 2 ^ 16 < 2 ^ 16) as Hq by (apply Hhi; [unfold A0|]; lia).
  assert (0 <= r / 2 ^ 16 < 2 ^ 16) as Hr by (apply Hhi; [unfold A1|]; lia).
  rewrite ADDEQU_ok by (try apply Hlo; unfold C; lia).
  set (p0 := a mod 2 ^ 16 + C). assert (0 <= p0 / 2 ^ 16 < 2) by
    (unfold p0, C; pose proof (Hlo a); zdiv).
  rewrite ADDEQU_ok by lia. set (p1 := a / 2 ^ 16 + p0 / 2 ^ 16).
  rewrite ADDEQU_ok by apply Hlo. set (p2 := p1 mod 2 ^ 16 + q mod 2 ^ 16).
  rewrite CARRY_ok by apply Hlo. rewrite !LOW_mod.
  assert (forall s, 0 <= s < 2 ^ 63 -> u64 s = s) as Hu
    by (intros; apply u64_id; unfold in_u64; lia).
  rewrite (Hu (p2 mod 2 ^ 16 + _)) by (pose proof (Hlo p2); pose proof (Hlo r); lia).
  set (p3 := p2 mod 2 ^ 16 + r mod 2 ^ 16).
  assert (0 <= p1 / 2 ^ 16 <= 1) by (unfold p1; zdiv).
  assert (0 <= p2 / 2 ^ 16 <= 1) by (unfold p2; pose proof (Hlo p1); pose proof (Hlo q); zdiv).
  assert (0 <= p3 / 2 ^ 16 <= 1) by (unfold p3; pose proof (Hlo p2); pose proof (Hlo r); zdiv).
  rewrite Hu by (unfold A0, A1, A2; lia).
  split; [by repeat split; cbn; try apply Hlo; apply Z.mod_pos_bound|].
  unfold value. cbn [x0 x1 x2]. rewrite Zmod_mod.
  replace (p2 / 2 ^ 16 + p1 / 2 ^ 16 + p3 / 2 ^ 16 + q / 2 ^ 16 + r / 2 ^ 16 +
    A0 * x2 x + A1 * x1 x + A2 * x0 x) with
    (p2 / 2 ^ 16 + p1 / 2 ^ 16 + p3 / 2 ^ 16 +
      (q / 2 ^ 16 + r / 2 ^ 16 + A0 * x2 x + A1 * x1 x + A2 * x0 x)) by lia.
  pose proof (limbs a (q mod 2 ^ 16) (r mod 2 ^ 16)
    (q / 2 ^ 16 + r / 2 ^ 16 + A0 * x2 x + A1 * x1 x + A2 * x0 x)) as Hl.
  cbv zeta in Hl. etransitivity; [apply Hl; try apply Hlo; unfold a, A0; lia|]. clear Hl.
  pose proof (Z.div_mod q (2 ^ 16) ltac:(lia)). pose proof (Z.div_mod r (2 ^ 16) ltac:(lia)).
  rewrite <- (Z_mod_plus_full _ (A1 * x2 x + A2 * x1 x + A2 * x2 x * 2 ^ 16) (2 ^ 48)).
  f_equal. unfold a, q, r, A0, A1, A2, C in *. lia.
Qed.

Lemma lrand_ok x : words16 x ->
  exists x', redisLrand48 x = (value x' / 2 ^ 17, x') /\ words16 x' /\
    value x' = (0x5DEECE66D * value x + 0xB) mod 2 ^ 48.
Proof.
  intros Hx. destruct (next_ok x Hx) as [Hw Hv]. exists (next x). split; [|done].
  unfold redisLrand48. f_equal. destruct Hw as (H0 & H1 & H2). unfold value, N.
  rewrite Z.shiftl_mul_pow2, Z.shiftr_div_pow2 by lia.
  rewrite (u64_id (_ * _)) by (unfold in_u64; lia).
  rewrite u64_id by (unfold in_u64; zdiv). zdiv.
Qed.

(** One step of the generator, computed with 16-bit words and explicit
    carries, is a step of the 48-bit congruence X' = 0x5DEECE66D * X + 0xB, keeps
    the words in range, and yields the top 31 bits of X'. *)
Theorem lrand48_correct x : words16 x ->
  exists x', redisLrand48 x = (value x' / 2 ^ 17, x') /\ words16 x' /\
    value x' = (0x5DEECE66D * value x + 0xB) mod 2 ^ 48 /\ 0 <= value x' / 2 ^ 17 < 2 ^ 31.
Proof.
  intros Hx. destruct (lrand_ok x Hx) as (x' & H1 & H2 & H3). exists x'.
  split; [done|]. split; [done|]. split; [done|]. rewrite H3.
  pose proof (Z.mod_pos_bound (0x5DEECE66D * value x + 0xB) (2 ^ 48) ltac:(lia)).
  split; [apply Z.div_pos; lia|]. apply Z.div_lt_upper_bound; lia.
Qed.

Lemma lrand48_correct_witness :
  exists x', redisLrand48 (redisSrand48 0xcafebabe) = (value x' / 2 ^ 17, x') /\ words16 x' /\
    value x' = (0x5DEECE66D * 0xcafebabe330E + 0xB) mod 2 ^ 48 /\ 0 <= value x' / 2 ^ 17 < 2 ^ 31.
Proof.
  apply (lrand48_correct (redisSrand48 0xcafebabe)).
  unfold words16. vm_compute. repeat split; congruence.
Defined.

End Prng.

Module BTreeMain.
Import Prng.

Section Main.
Context {os : OS}.

Definition ORDER : Z := 16.

(** [if (nelements % 2 != 0) nelements++;] *)
Definition even_up (nelements : Z) : Z :=
  if negb (nelements mod 2 =? 0) then u64 (nelements + 1) else nelements.

(** An array of [n] elements on fresh, zeroed pages; the size is a [size_t]. *)
Definition allocate_elements (n : Z) : M Z :=
  base ← allocate (u64 (n * 8));
  m ← get;
  _ ← put (with_words m (foldr (fun i w => <[base + 8 * i := 0]> w) (words m) (seqZ 0 n)));
  mret base.

(** The body of the insertion loop. *)
Definition insert_pair (nelements elms elms2 i root : Z) : M Z :=
  let e1 := elms + 8 * (i / 2) in
  let e2 := elms2 + 8 * (i / 2) in
  _ ← store_word e1 i;
  _ ← store_word e2 (u64 (u64 (nelements - i) - 1));
  rec1 ← make_record e1;
  rec2 ← make_record e2;
  root ← insert_unique ORDER root i rec1;
  insert_unique ORDER root (u64 (u64 (nelements - i) - 1)) rec2.

(** [for (i = 0; i < nelements; i += 2)] *)
Definition insertion_phase (nelements elms elms2 : Z) : M Z :=
  mfor 0 ((nelements + 1) / 2)
    (fun j root => insert_pair nelements elms elms2 (2 * j) root) 0.

(** [r = find(...); if (r) { e = r->value; if (e) sum += e->payload; }] *)
Definition lookup_one (root key sum : Z) : M Z :=
  '(r, _) ← find root key;
  if r =? 0 then mret sum
  else
    e ← load_word r;
    if e =? 0 then mret sum else p ← load_word e; mret (u64 (sum + p)).

(** The body of the lookup loop; a remainder by zero is undefined. *)
Definition lookup_step (root nelements : Z) (s : Z * xstate) : M (Z * xstate) :=
  let '(sum, x) := s in
  let '(rdn, x) := redisLrand48 x in
  if nelements =? 0 then undef else
  sum ← lookup_one root (rdn mod nelements) sum;
  sum ← lookup_one root (u64 (Z.shiftl (u64 (rdn + 1)) 2) mod nelements) sum;
  mret (sum, x).

Definition lookup_phase (root nelements nlookup : Z) : M (Z * xstate) :=
  mfor 0 nlookup (fun _ s => lookup_step root nelements s) (0, redisSrand48 0xcafebabe).

(** The file ".ready".  Whether ".pid" can be created, and whether the wait for
    ".flushed" is answered, changes nothing below. *)
Definition signal_ready : M unit := if fopen_ready then mret tt else exit_with (-1) No_ready_file.

(** The run of [real_main] without OpenMP, from the parsed options to [sum]. *)
Definition bench (nelements nlookup : Z) : M Z :=
  elms ← allocate_elements (nelements / 2);
  elms2 ← allocate_elements (nelements / 2);
  root ← insertion_phase nelements elms elms2;
  _ ← height root;
  _ ← signal_ready;
  s ← lookup_phase root nelements nlookup;
  mret (fst s).

(** ** What the run computes *)

(** The generator's value after [k] steps. *)
Definition lcg (v : Z) : Z := (0x5DEECE66D * v + 0xB) mod 2 ^ 48.
Definition seed : Z := 0x330E + 0xbabe * 2 ^ 16 + 0xcafe * 2 ^ 32.
Definition draw (k : Z) : Z := BinNat.N.iter (Z.to_N k) lcg seed / 2 ^ 17.

(** Every key is found and carries itself as its payload: what an iteration that
    draws [d] adds to the sum. *)
Definition payload (nelements d : Z) : Z := d mod nelements + (4 * (d + 1)) mod nelements.
Definition expected (nelements : Z) (i : Z) : Z := payload nelements (draw (i + 1)).

Fixpoint total (nelements : Z) (n : nat) : Z :=
  match n with
  | O => 0
  | S n => total nelements n + expected nelements (Z.of_nat n)
  end.

(** ** The elements *)

Definition cells (base n : Z) : list Z := (fun j => base + 8 * j) <$> seqZ 0 n.

Lemma elem_cells base n x : x ∈ cells base n <-> exists j, x = base + 8 * j /\ 0 <= j < n.
Proof.
  unfold cells. rewrite list_elem_of_fmap. split.
  - intros (j & -> & Hj%elem_of_seqZ). exists j. split; [done|lia].
  - intros (j & -> & Hj). exists j. split; [done|]. apply elem_of_seqZ. lia.
Qed.

Lemma cells_NoDup base n : NoDup (cells base n).
Proof. apply NoDup_fmap_2; [intros i j; lia|apply NoDup_seqZ]. Qed.

Lemma zero_cells_lookup base n (w : gmap Z Z) q :
  foldr (fun i w => <[base + 8 * i := 0]> w) w (seqZ 0 n) !! q
  = if decide (q ∈ cells base n) then Some 0 else w !! q.
Proof.
  unfold cells. induction (seqZ 0 n) as [|i l IH]; cbn [foldr fmap list_fmap].
  { rewrite decide_False; [done|apply not_elem_of_nil]. }
  destruct (decide (q = base + 8 * i)) as [->|Hne].
  - rewrite lookup_insert_eq, decide_True; [done|by left].
  - rewrite lookup_insert_ne, IH by done.
    destruct (decide (q ∈ _)) as [Hin|Hin], (decide (q ∈ _ :: _)) as [Hin'|Hin']; try done;
      rewrite elem_of_cons in Hin'; exfalso; [apply Hin'; by right|naive_solver].
Qed.

Lemma wp_allocate_elements n m live :
  0 <= n < 2 ^ 61 -> words_ok m live ->
  wp (allocate_elements n) m (fun base m' =>
    words_ok m' (cells base n ++ live) /\ nodes_same m m' /\
    forall q, q ∈ live -> words m' !! q = words m !! q).
Proof.
  intros Hn (free & Hc & Hnd & Hl & Hm). unfold allocate_elements. rewrite u64_id by (unfold in_u64; lia). apply wp_bind.
  eapply wp_mono; [apply wp_allocate|].
  intros base m1 (Hn1 & (Hw1 & Hf1 & _) & Hm1 & Hpos & _ & Hfresh).
  apply wp_bind, wp_get, wp_bind, wp_put, wp_ret.
  assert (Hout : forall p v, words m !! p = Some v -> p ∉ cells base n).
  { intros p v Hp (j & -> & Hj)%elem_cells. destruct (Hm _ _ Hp) as [_ Hmp].
    eapply fresh_unmapped; [exact Hfresh| | |exact Hmp]; [lia|done]. }
  assert (Hlive : forall q, q ∈ live ++ free -> q ∉ cells base n).
  { intros q Hq. rewrite elem_of_app in Hq. destruct Hq as [Hq|Hq].
    - destruct (Hl q Hq) as [v Hv]. eauto.
    - assert (exists v, words m !! q = Some v) as [v Hv]; [|eauto]. clear -Hc Hq.
      revert Hc. generalize (free_recs m). induction free as [|x free IH]; intros p Hc;
        [by apply not_elem_of_nil in Hq|]. destruct Hc as (-> & _ & y & Hy & Hc).
      rewrite elem_of_cons in Hq. destruct Hq as [->|Hq]; eauto. }
  split; [|split].
  - exists free. cbn [free_recs words maps with_words]. rewrite Hf1. split; [|split; [|split]].
    + eapply chain_ext; [|exact Hc]. intros x Hx. rewrite zero_cells_lookup, Hw1.
      rewrite decide_False; [done|]. apply Hlive. rewrite elem_of_app. by right.
    + rewrite <- app_assoc. apply list.NoDup_app. split; [apply cells_NoDup|]. split; [|done].
      intros x Hx Hx'. by apply (Hlive x).
    + intros p Hp. rewrite zero_cells_lookup, Hw1. case_decide; [by eexists|].
      rewrite elem_of_app in Hp. destruct Hp; [done|by apply Hl].
    + intros p v. rewrite zero_cells_lookup, Hw1, Hm1. case_decide as Hin.
      * intros _. apply elem_cells in Hin as (j & -> & Hj). split; [lia|].
        exists base, (n * 8). split; [by left|]. unfold sizeof_record. lia.
      * intros Hp. destruct (Hm p v Hp). split; [done|]. by apply mapped_weaken.
  - etransitivity; [exact Hn1|]. same_solve.
  - intros q Hq. cbn [words with_words]. rewrite zero_cells_lookup, Hw1, decide_False; [done|].
    apply Hlive. rewrite elem_of_app. by left.
Qed.

(** ** The insertion phase *)

Lemma wp_insert_unique_perm m root es key r :
  tree_at ORDER m root es -> in_u64 key -> key ∉ es.*1 ->
  wp (insert_unique ORDER root key r) m (fun root' m' =>
    words_same m m' /\ exists es', es' ≡ₚ (key, r) :: es /\ tree_at ORDER m' root' es').
Proof.
  intros Ht Hk Hno. eapply wp_mono; [apply wp_insert_unique; [unfold ORDER; lia|done..]|].
  intros root' m' [(es1 & es2 & -> & Ht') Hw]. split; [done|].
  exists (es1 ++ (key, r) :: es2). split; [|done]. solve_Permutation.
Qed.

(** Entry [(k, r)] was inserted in one of the first [j] rounds: its record
    points to its element, which holds the key. *)
Definition entry_ok (m : mem) (nelements elms elms2 j : Z) (e : Z * Z) : Prop :=
  exists i a, 0 <= i < j /\
    (e.1 = 2 * i /\ a = elms + 8 * i \/ e.1 = nelements - 2 * i - 1 /\ a = elms2 + 8 * i) /\
    words m !! e.2 = Some a /\ words m !! a = Some e.1.

Definition loaded (m : mem) (nelements elms elms2 j root : Z) : Prop :=
  exists es, tree_at ORDER m root es /\
    words_ok m (es.*2 ++ cells elms (nelements / 2) ++ cells elms2 (nelements / 2)) /\
    Forall (entry_ok m nelements elms elms2 j) es /\
    forall i, 0 <= i < j -> 2 * i ∈ es.*1 /\ nelements - 2 * i - 1 ∈ es.*1.

(** Writing the elements of round [j] and making records leaves entries alone. *)
Lemma entry_ok_frame m m' n elms elms2 j e :
  0 <= j -> entry_ok m n elms elms2 j e ->
  (words m' !! e.2 = words m !! e.2) ->
  (forall i, 0 <= i < j -> words m' !! (elms + 8 * i) = words m !! (elms + 8 * i) /\
     words m' !! (elms2 + 8 * i) = words m !! (elms2 + 8 * i)) ->
  entry_ok m' n elms elms2 (j + 1) e.
Proof.
  intros Hj (i & a & Hi & Ha & H1 & H2) Hr He. exists i, a. split; [lia|]. split; [done|].
  rewrite Hr. split; [done|]. destruct (He i Hi) as [E1 E2].
  destruct Ha as [[_ ->]|[_ ->]]; [by rewrite E1|by rewrite E2].
Qed.

(** A key of round [j] is not in a tree loaded with the rounds before. *)
Lemma fresh_key m n elms elms2 j es k :
  n mod 2 = 0 -> 0 <= j < n / 2 -> Forall (entry_ok m n elms elms2 j) es ->
  k = 2 * j \/ k = n - 2 * j - 1 -> k ∉ es.*1.
Proof.
  intros Hn Hj Hes Hk ([k' r] & -> & Hin)%list_elem_of_fmap.
  rewrite list.Forall_forall in Hes. destruct (Hes _ Hin) as (i & a & Hi & Ha & _).
  cbn [fst] in *. zdiv.
Qed.

Lemma wp_insert_pair m n elms elms2 j root :
  n mod 2 = 0 -> n < 2 ^ 64 -> 0 <= j < n / 2 -> loaded m n elms elms2 j root ->
  wp (insert_pair n elms elms2 (2 * j) root) m (fun root' m' => loaded m' n elms elms2 (j + 1) root').
Proof.
  intros Hn Hmax Hj (es & Ht & Hw & Hes & Hkeys).
  set (h := n / 2) in *. set (E := cells elms h ++ cells elms2 h) in *.
  assert (Hn2 : n = 2 * h) by (unfold h; zdiv).
  unfold insert_pair. replace (2 * j / 2) with j by zdiv.
  set (e1 := elms + 8 * j). set (e2 := elms2 + 8 * j).
  assert (He1 : e1 ∈ E) by (unfold E; rewrite elem_of_app; left; apply elem_cells; by exists j).
  assert (He2 : e2 ∈ E) by (unfold E; rewrite elem_of_app; right; apply elem_cells; by exists j).
  replace (u64 (u64 (n - 2 * j) - 1)) with (n - 2 * j - 1).
  2:{ rewrite (u64_id (n - 2 * j)), u64_id; unfold in_u64; lia. }
  pose proof Hw as (free & _ & _ & Hl & _).
  pose proof (words_ok_nodup _ _ Hw) as (_ & HdE & HndE)%list.NoDup_app.
  pose proof HndE as (_ & Hd12 & _)%list.NoDup_app.
  assert (forall i, 0 <= i < h -> elms + 8 * i ∈ cells elms h) as Hc1
    by (intros i Hi; apply elem_cells; by exists i).
  assert (forall i, 0 <= i < h -> elms2 + 8 * i ∈ cells elms2 h) as Hc2
    by (intros i Hi; apply elem_cells; by exists i).
  destruct (Hl e1) as [v1 Hv1]; [rewrite elem_of_app; by right|].
  apply wp_bind. eapply wp_store_word; [done|]. set (m1 := with_words _ _).
  assert (Hw1 : words_ok m1 (es.*2 ++ E))
    by (apply (words_ok_store m (es.*2 ++ E)); [rewrite elem_of_app; by right|done]).
  pose proof Hw1 as (free1 & _ & _ & Hl1 & _).
  destruct (Hl1 e2) as [v2 Hv2]; [rewrite elem_of_app; by right|].
  apply wp_bind. eapply wp_store_word; [done|]. set (m2 := with_words m1 _).
  assert (Hw2 : words_ok m2 (es.*2 ++ E))
    by (apply (words_ok_store m1 (es.*2 ++ E)); [rewrite elem_of_app; by right|done]).
  assert (e1 <> e2) as Hne by (intros E'; apply (Hd12 e1); [by apply Hc1|rewrite E'; by apply Hc2]).
  assert (Hwords : words m2 = <[e2 := n - 2 * j - 1]> (<[e1 := 2 * j]> (words m))) by done.
  apply wp_bind. eapply wp_mono; [by apply wp_make_record|]. intros r1 m3 (Hw3 & Hr1 & Hs3 & Hn3).
  apply wp_bind. eapply wp_mono; [by apply wp_make_record|]. intros r2 m4 (Hw4 & Hr2 & Hs4 & Hn4).
  assert (Hsame : forall q, q ∈ es.*2 ++ E -> words m4 !! q = words m2 !! q).
  { intros q Hq. rewrite Hs4 by (by right). by apply Hs3. }
  assert (Ht4 : tree_at ORDER m4 root es).
  { eapply tree_at_same; [exact Hn4|]. eapply tree_at_same; [exact Hn3|].
    eapply tree_at_same; [|exact Ht]. same_solve. }
  apply wp_bind. eapply wp_mono.
  { apply wp_insert_unique_perm; [exact Ht4|unfold in_u64; lia|].
    eapply (fresh_key m); [done|exact Hj|done|by left]. }
  intros root1 m5 (Hw5 & es1 & Hes1 & Ht5).
  eapply wp_mono.
  { apply wp_insert_unique_perm; [exact Ht5|unfold in_u64; lia|].
    rewrite Hes1, fmap_cons, not_elem_of_cons. cbn [fst]. split; [lia|].
    eapply (fresh_key m); [done|exact Hj|done|by right]. }
  intros root2 m6 (Hw6 & es2 & Hes2 & Ht6). rewrite Hes1 in Hes2. exists es2. split; [done|].
  assert (Hw56 : words_same m4 m6) by (by etransitivity). fold h E.
  split; [|split].
  - eapply words_ok_perm; [|exact (words_ok_same _ _ _ Hw56 Hw4)]. rewrite Hes2, !fmap_cons. done.
  - rewrite Hes2. destruct Hw56 as (Hw56 & _).
    assert (Hold : forall q, q ∈ es.*2 ++ E -> q <> e1 -> q <> e2 -> words m6 !! q = words m !! q).
    { intros q Hq H1 H2. rewrite Hw56, Hsame, Hwords by done. by rewrite !lookup_insert_ne. }
    assert (He1' : words m6 !! e1 = Some (2 * j)).
    { rewrite Hw56, Hsame, Hwords by (rewrite elem_of_app; by right).
      rewrite lookup_insert_ne by done. apply lookup_insert_eq. }
    assert (He2' : words m6 !! e2 = Some (n - 2 * j - 1)).
    { rewrite Hw56, Hsame, Hwords by (rewrite elem_of_app; by right). apply lookup_insert_eq. }
    constructor; [|constructor].
    + exists j, e2. split; [lia|]. split; [by right|]. cbn [fst snd].
      split; [by rewrite Hw56|done].
    + exists j, e1. split; [lia|]. split; [by left|]. cbn [fst snd]. split; [|done].
      rewrite Hw56, Hs4; [done|]. by left.
    + eapply Forall_weaken; [exact Hes|]. intros [k r] Hin He.
      apply (entry_ok_frame m m6 n elms elms2 j (k, r)); [lia|done| |].
      * assert (r ∈ es.*2) by (apply list_elem_of_fmap; by exists (k, r)).
        cbn [snd]. apply Hold; [rewrite elem_of_app; by left|..];
          intros Er; (apply (HdE r); [done|by rewrite Er]).
      * intros i Hi. pose proof (Hc1 i ltac:(lia)) as H1i. pose proof (Hc2 i ltac:(lia)) as H2i.
        split; apply Hold; rewrite ?elem_of_app; auto; try (unfold e1, e2; lia); unfold E;
          rewrite ?elem_of_app; auto.
        -- intros E'. apply (Hd12 (elms + 8 * i)); [done|]. rewrite E'. by apply Hc2.
        -- intros E'. apply (Hd12 e1); [by apply Hc1|]. by rewrite <- E'.
  - intros i Hi. setoid_rewrite Hes2. rewrite !fmap_cons, !elem_of_cons. cbn [fst].
    destruct (decide (i = j)) as [->|]; [auto|]. destruct (Hkeys i) as [? ?]; [lia|]. auto.
Qed.

Lemma wp_insertion_phase m n elms elms2 :
  n mod 2 = 0 -> 0 <= n < 2 ^ 64 -> loaded m n elms elms2 0 0 ->
  wp (insertion_phase n elms elms2) m (fun root m' => loaded m' n elms elms2 (n / 2) root).
Proof.
  intros Hn Hmax H0. unfold insertion_phase. replace ((n + 1) / 2) with (n / 2) by zdiv.
  apply (wp_mfor (fun j root m' => loaded m' n elms elms2 j root)); [zdiv|done|].
  intros j root m' Hj Hl. by apply wp_insert_pair; [|lia|..].
Qed.

(** ** The lookup phase *)

Lemma wp_lookup_one m n elms elms2 root key sum :
  n mod 2 = 0 -> n < 2 ^ 64 -> loaded m n elms elms2 (n / 2) root -> 0 <= key < n ->
  wp (lookup_one root key sum) m (fun s m' => m' = m /\ s = u64 (sum + key)).
Proof.
  intros Hn Hmax (es & Ht & Hw & Hes & Hkeys) Hkey. unfold lookup_one. apply wp_bind.
  eapply wp_mono; [apply (wp_find ORDER); [exact Ht|unfold in_u64; lia]|].
  intros [r leaf] m' [-> Hcase].
  assert (Hin : key ∈ es.*1).
  { destruct (decide (key mod 2 = 0)).
    - destruct (Hkeys (key / 2)) as [H _]; [zdiv|]. by replace (2 * (key / 2)) with key in H by zdiv.
    - destruct (Hkeys ((n - 1 - key) / 2)) as [_ H]; [zdiv|].
      by replace (n - 2 * ((n - 1 - key) / 2) - 1) with key in H by zdiv. }
  destruct Hcase as [Hr|[_ Hno]]; [|done].
  pose proof (entry_word_pos _ _ _ _ _ Hw Hr). destruct (Z.eqb_spec r 0); [lia|].
  rewrite list.Forall_forall in Hes. destruct (Hes _ Hr) as (i & a & Hi & Ha & H1 & H2).
  cbn [fst snd] in *. apply wp_bind. eapply wp_load_word; [done|].
  assert (0 < a).
  { apply (words_ok_pos _ _ _ Hw). rewrite !elem_of_app.
    destruct Ha as [[_ ->]|[_ ->]]; right; [left|right]; apply elem_cells; eauto. }
  destruct (Z.eqb_spec a 0); [lia|]. apply wp_bind. eapply wp_load_word; [done|]. by apply wp_ret.
Qed.

Lemma wp_lookup_step m n elms elms2 root x sum :
  n mod 2 = 0 -> 0 < n < 2 ^ 64 -> loaded m n elms elms2 (n / 2) root -> words16 x ->
  wp (lookup_step root n (sum, x)) m (fun '(s, x') m' => m' = m /\
    s = u64 (sum + payload n (lcg (value x) / 2 ^ 17)) /\ words16 x' /\ value x' = lcg (value x)).
Proof.
  intros Hn Hmax Hl Hx. unfold lookup_step.
  destruct (lrand_ok x Hx) as (x' & -> & Hw' & Hv'). fold (lcg (value x)) in Hv'. rewrite <- Hv'.
  remember (value x' / 2 ^ 17) as d eqn:Hd.
  assert (0 <= d < 2 ^ 31) by (subst d; destruct Hw' as (?&?&?); unfold value; zdiv).
  destruct (Z.eqb_spec n 0); [lia|]. rewrite (u64_id (d + 1)) by (unfold in_u64; lia).
  rewrite Z.shiftl_mul_pow2, u64_id by (unfold in_u64; lia).
  replace ((d + 1) * 2 ^ 2) with (4 * (d + 1)) by lia.
  apply wp_bind. eapply wp_mono; [eapply wp_lookup_one; [done|lia|done|apply Z.mod_pos_bound; lia]|].
  intros s1 m1 [-> ->]. apply wp_bind.
  eapply wp_mono; [eapply wp_lookup_one; [done|lia|done|apply Z.mod_pos_bound; lia]|].
  intros s2 m2 [-> ->]. apply wp_ret. split; [done|]. split; [|done].
  unfold payload, u64. rewrite Zplus_mod_idemp_l. f_equal. lia.
Qed.

Lemma draw_succ k : 0 <= k -> lcg (BinNat.N.iter (Z.to_N k) lcg seed) = BinNat.N.iter (Z.to_N (k + 1)) lcg seed.
Proof. intros Hk. replace (Z.to_N (k + 1)) with (N.succ (Z.to_N k)) by lia. by rewrite N.iter_succ. Qed.

(** The printed height. *)
Lemma run_height_loaded m n elms elms2 root :
  0 < n / 2 -> loaded m n elms elms2 (n / 2) root -> run (height root) m (fun _ m' => m' = m).
Proof.
  intros Hn (es & Ht & _ & _ & Hkeys). destruct (Hkeys 0 ltac:(lia)) as [Hin _].
  destruct Ht as [(_ & -> & _)|(k & t & -> & Hrep & Hwf & _)]; [by apply not_elem_of_nil in Hin|].
  eapply run_mono; [by eapply (run_height ORDER)|]. by intros h m' [_ ->].
Qed.

Lemma wp_signal_ready m (Q : unit -> mem -> Prop) : Q tt m -> wp signal_ready m Q.
Proof. intros HQ. unfold signal_ready, wp. destruct fopen_ready eqn:E; [done|by split]. Qed.

(** Up to the lookups: the tree is loaded. *)
Lemma wp_loaded n m (run : Z -> M Z) Q :
  n mod 2 = 0 -> 0 < n < 2 ^ 62 -> nodes_ok m [] -> words_ok m [] ->
  (forall m elms elms2 root, loaded m n elms elms2 (n / 2) root -> wp (run root) m Q) ->
  wp (elms ← allocate_elements (n / 2); elms2 ← allocate_elements (n / 2);
      root ← insertion_phase n elms elms2; _ ← height root; _ ← signal_ready; run root) m Q.
Proof.
  intros Hn Hmax Hnodes Hwords Hrun. apply wp_bind.
  eapply wp_mono; [apply (wp_allocate_elements (n / 2) _ []); [zdiv|done]|].
  intros elms m1 (Hw1 & Hn1 & _). apply wp_bind.
  eapply wp_mono; [apply wp_allocate_elements; [zdiv|exact Hw1]|].
  intros elms2 m2 (Hw2 & Hn2 & _). rewrite app_nil_r, Permutation_app_comm in Hw2.
  apply wp_bind.
  eapply wp_mono; [apply wp_insertion_phase; [done|lia|]|].
  { exists []. split; [left; split; [done|]; split; [done|]|].
    - eapply nodes_ok_same; [exact Hn2|]. by eapply nodes_ok_same.
    - split; [done|]. split; [done|]. intros. lia. }
  intros root m3 Hl. apply wp_bind. eapply wp_mono; [apply run_wp, (run_height_loaded m3 n elms elms2); [clear -Hn Hmax; zdiv|done]|].
  intros h m4 ->. apply wp_bind, wp_signal_ready. exact (Hrun _ _ _ _ Hl).
Qed.

Lemma wp_bench n nlookup m :
  n mod 2 = 0 -> 0 < n < 2 ^ 62 -> 0 <= nlookup ->
  nodes_ok m [] -> words_ok m [] ->
  wp (bench n nlookup) m (fun sum _ => sum = u64 (total n (Z.to_nat nlookup))).
Proof.
  intros Hn Hmax Hlk Hnodes Hwords. apply wp_loaded; try done. intros m3 elms elms2 root Hl.
  apply wp_bind. unfold lookup_phase.
  eapply wp_mono; [apply (wp_mfor (fun k '(s, x) m' => m' = m3 /\
    s = u64 (total n (Z.to_nat k)) /\ words16 x /\
    value x = BinNat.N.iter (Z.to_N k) lcg seed))|].
  - done.
  - split; [done|]. split; [done|]. split; [unfold words16; vm_compute; repeat split; congruence|].
    vm_compute. reflexivity.
  - intros k [s x] m' Hk (-> & -> & Hx & Hv).
    eapply wp_mono; [exact (wp_lookup_step m3 n elms elms2 root x _ Hn ltac:(lia) Hl Hx)|].
    intros [s' x'] m' (-> & -> & Hx' & Hv'). rewrite Hv, draw_succ in * by lia. split; [done|]. split; [|done].
    replace (Z.to_nat (k + 1)) with (S (Z.to_nat k)) by lia. cbn [total].
    unfold u64, expected, draw. rewrite Zplus_mod_idemp_l. by rewrite Z2Nat.id by lia.
  - intros [s x] m' (-> & -> & _). apply wp_ret. done.
Qed.

(** C1: the whole benchmark without OpenMP.  From the initial memory, with an
    even number of elements below 2^62 (beyond which the size of an array wraps
    around), the run does nothing undefined (no bad access, no model loop out of
    fuel) and ends with a checksum that a two-line program predicts: every lookup
    finds its key, and the element it leads to holds the key itself.  It can only
    stop short of that in an [exit] after [mmap] or [posix_memalign] has refused
    the very request that the exit names, or after the file ".ready" could not be
    created; the other [exit]s of the code are not reached. *)
Theorem bench_correct n nlookup :
  n mod 2 = 0 -> 0 < n < 2 ^ 62 -> 0 <= nlookup ->
  wp (bench n nlookup) boot (fun sum _ => sum = u64 (total n (Z.to_nat nlookup))).
Proof. intros. apply wp_bench; auto using boot_nodes, boot_words. Qed.

End Main.

(** The value returned, if the run returns. *)
Definition returned {A} (r : result A) : option A := match r with Ok a _ => Some a | _ => None end.

Lemma bench_correct_witness :
  wp (os := bump_os) (bench (os := bump_os) 100 50) boot (fun sum _ => sum = u64 (total 100 50)) /\
  returned (bench (os := bump_os) 100 50 boot) = Some 4400 /\ u64 (total 100 50) = 4400.
Proof.
  split; [|split; vm_compute; reflexivity].
  apply (bench_correct (os := bump_os) 100 50); [reflexivity|lia|lia].
Defined.

End BTreeMain.
