(* ===== verification/BTreeRun.v ===== *)
(** * The B+ tree benchmark: options and the parallel run (sources/btree/btree.c)

    The size arguments, the option loop of [real_main], and its lookup phase
    with OpenMP: every thread keeps a generator of its own and a partial sum.
    Lookups only read the tree, so an iteration is a step of its thread, and
    the steps of the threads may come in any order. *)

From Stdlib Require Import ZArith Lia.
From stdpp Require Import gmap list numbers.
From S2P Require Import Prelude Arrays CLib BTreeMem BTree BTreeRep BTreeMap BTreePrint BTreeMain.
#[local] Open Scope Z_scope.

Import Prng BTreeMain.

(** ** Size arguments *)

Definition parse_size (str : list Z) : Z :=
  let '(val, endptr) := strtoull str in
  match endptr with
  | [] => val
  | c :: _ =>
      if (c =? 107) || (c =? 75) then u64 (val * 1000)
      else if (c =? 109) || (c =? 77) then u64 (val * 1000000)
      else if (c =? 103) || (c =? 71) then u64 (val * 1000000000)
      else val
  end.

(** ** Options

    What [getopt_long] returns, one by one. *)
Inductive opt := opt_n (optarg : list Z) | opt_l (optarg : list Z) | opt_h | opt_other.

(** The defaults with and without OpenMP. *)
Definition DEFAULT_NELEMENTS (openmp : bool) : Z := if openmp then Z.shiftl 2900 20 else Z.shiftl 200 20.
Definition DEFAULT_NLOOKUP (openmp : bool) : Z := if openmp then 2000000000 else 20000000.

Definition EXIT_SUCCESS : Z := 0.
Definition EXIT_FAILURE : Z := 1.

(** The sizes of the run, or the status after the usage message. *)
Fixpoint parse_options (opts : list opt) (nelements nlookup : Z) : (Z * Z) + Z :=
  match opts with
  | [] => inl (nelements, nlookup)
  | opt_n optarg :: opts => parse_options opts (even_up (parse_size optarg)) nlookup
  | opt_l optarg :: opts => parse_options opts nelements (parse_size optarg)
  | opt_h :: _ => inr EXIT_SUCCESS
  | opt_other :: _ => inr EXIT_FAILURE
  end.

(** ** The parallel region

    The runtime gives each of the [nlookup] iterations to one of its threads;
    [schedule] lists the threads in the order in which they do an iteration. *)
Class OMP := {
  nthreads : nat;
  schedule : Z -> list nat;
  schedule_length n : 0 <= n -> alen (schedule n) = n;
  schedule_threads n : Forall (fun tid => (tid < nthreads)%nat) (schedule n);
}.

(** The product of two [int]s, [None] when it leaves the type. *)
Definition int_mul (a b : Z) : option Z :=
  let p := a * b in if (- 2 ^ 31 <=? p) && (p <? 2 ^ 31) then Some p else None.

(** [local_x] at the start of thread [tid]; [0xcafebabe] is unsigned. *)
Definition local_x (tid : nat) : option xstate :=
  p ← int_mul (Z.of_nat tid) 12345;
  let s := u32 (0xcafebabe + p) in Some (MkX X0 (LOW s) (HIGH s)).

Section Run.
Context {os : OS} {omp : OMP}.

(** An iteration by thread [tid]: the generator's step is spelled out in the
    source with [local_x] in the place of [x]. *)
Definition omp_iteration (root nelements : Z) (ths : list (Z * xstate)) (tid : nat) : M (list (Z * xstate)) :=
  th ← lift (ths !! tid);
  th ← lookup_step root nelements th;
  mret (<[tid := th]> ths).

Fixpoint omp_iterations (root nelements : Z) (ths : list (Z * xstate)) (sched : list nat) : M (list (Z * xstate)) :=
  match sched with
  | [] => mret ths
  | tid :: sched => ths ← omp_iteration root nelements ths tid; omp_iterations root nelements ths sched
  end.

(** [reduction(+:sum)] *)
Definition reduce (ths : list (Z * xstate)) : Z := foldr (fun '(s, _) sum => u64 (s + sum)) 0 ths.

Definition omp_lookup_phase (root nelements nlookup : Z) : M Z :=
  xs ← lift (mapM local_x (seq 0 nthreads));
  ths ← omp_iterations root nelements ((fun x => (0, x)) <$> xs) (schedule nlookup);
  mret (reduce ths).

Definition omp_bench (nelements nlookup : Z) : M Z :=
  elms ← allocate_elements (nelements / 2);
  elms2 ← allocate_elements (nelements / 2);
  root ← insertion_phase nelements elms elms2;
  _ ← height root;
  _ ← signal_ready;
  omp_lookup_phase root nelements nlookup.

(** The file ".done", after the sum has been printed. *)
Definition signal_done : M unit := if fopen_done then mret tt else exit_with (-1) No_done_file.

(** [real_main], with or without OpenMP: the sum it prints, or its status after
    the usage message. *)
Definition real_main (openmp : bool) (opts : list opt) : M (Z + Z) :=
  match parse_options opts (DEFAULT_NELEMENTS openmp) (DEFAULT_NLOOKUP openmp) with
  | inl (nelements, nlookup) =>
      sum ← (if openmp then omp_bench nelements nlookup else bench nelements nlookup);
      _ ← signal_done;
      mret (inl sum)
  | inr status => mret (inr status)
  end.

(** ** What the run computes *)

(** The sum of [c] iterations from generator value [v]. *)
Fixpoint stream_sum (nelements v : Z) (c : nat) : Z :=
  match c with
  | O => 0
  | S c => payload nelements (lcg v / 2 ^ 17) + stream_sum nelements (lcg v) c
  end.

Definition iterations_of (tid : nat) (sched : list nat) : nat := length (filter (eq tid) sched).

(** The 48-bit value with which thread [tid] starts. *)
Definition thread_seed (tid : nat) : Z := 0x330E + u32 (0xcafebabe + Z.of_nat tid * 12345) * 2 ^ 16.

(** The sums of the threads, each with its own stream. *)
Definition omp_total (nelements nlookup : Z) : Z :=
  foldr (fun tid sum => stream_sum nelements (thread_seed tid) (iterations_of tid (schedule nlookup)) + sum) 0
    (seq 0 nthreads).

Definition thread_ok (th : Z * xstate) : Prop := in_u64 th.1 /\ words16 th.2.

Lemma wp_omp_iterations m n elms elms2 root sched ths :
  n mod 2 = 0 -> 0 < n < 2 ^ 64 -> loaded m n elms elms2 (n / 2) root ->
  Forall thread_ok ths -> Forall (fun tid => (tid < length ths)%nat) sched ->
  wp (omp_iterations root n ths sched) m (fun ths' m' => m' = m /\
    ths'.*1 = imap (fun i th => u64 (th.1 + stream_sum n (value th.2) (iterations_of i sched))) ths).
Proof.
  intros Hn Hmax Hl. revert ths. induction sched as [|tid sched IH]; intros ths Hths Hs; cbn [omp_iterations].
  - apply wp_ret. split; [done|]. apply list_eq. intros i. rewrite list_lookup_fmap, list_lookup_imap.
    destruct (ths !! i) as [[s x]|] eqn:E; [|done]. cbn. destruct (Forall_lookup_1 _ _ _ _ Hths E) as [Hu _].
    cbn [fst] in Hu. by rewrite Z.add_0_r, u64_id.
  - apply list.Forall_cons in Hs as [Ht Hs]. destruct (lookup_lt_is_Some_2 _ _ Ht) as [[s x] E].
    destruct (Forall_lookup_1 _ _ _ _ Hths E) as [Hu Hx]. cbn [fst snd] in *.
    unfold omp_iteration. apply wp_bind, wp_bind. eapply wp_lift; [exact E|]. apply wp_bind.
    eapply wp_mono; [exact (wp_lookup_step m n elms elms2 root x s Hn Hmax Hl Hx)|].
    intros [s' x'] m' (-> & -> & Hx' & Hv'). apply wp_ret.
    eapply wp_mono; [apply IH|].
    + apply Forall_insert; [done|]. split; [apply u64_range|done].
    + by rewrite length_insert.
    + intros ths' m' [-> ->]. split; [done|]. apply list_eq. intros i. rewrite !list_lookup_imap.
      unfold iterations_of. rewrite filter_cons. destruct (decide (tid = i)) as [<-|Hne].
      * rewrite list_lookup_insert_eq by done. rewrite E, decide_True by done. cbn [fmap option_fmap option_map fst snd length stream_sum].
        f_equal. rewrite Hv'. unfold u64. rewrite Zplus_mod_idemp_l. f_equal. lia.
      * rewrite list_lookup_insert_ne by done. rewrite decide_False by done. done.
Qed.

Lemma reduce_sum ths : reduce ths = u64 (foldr Z.add 0 ths.*1).
Proof.
  induction ths as [|[s x] ths IH]; [done|]. cbn [reduce foldr fmap list_fmap fst] in *. fold (reduce ths). rewrite IH.
  unfold u64. by rewrite Zplus_mod_idemp_r.
Qed.

(** The threads whose number times 12345 is still an [int]. *)
Definition MAX_THREADS : nat := Z.to_nat 173956.

Lemma local_x_ok tid :
  (tid < MAX_THREADS)%nat -> exists x, local_x tid = Some x /\ words16 x /\ value x = thread_seed tid.
Proof.
  unfold MAX_THREADS. intros Ht. unfold local_x, int_mul.
  assert ((- 2 ^ 31 <=? Z.of_nat tid * 12345) && (Z.of_nat tid * 12345 <? 2 ^ 31) = true) as -> by lia.
  cbn [mbind option_bind]. eexists. split; [done|]. unfold words16, value, thread_seed, HIGH. cbn [x0 x1 x2]. rewrite !LOW_mod.
  set (s := u32 _). assert (in_u32 s) as Hs by apply u32_range. unfold in_u32, X0, N in *.
  rewrite Z.shiftr_div_pow2 by lia. split_and!; zdiv.
Qed.

Lemma local_xs n :
  (n <= MAX_THREADS)%nat ->
  exists xs, mapM local_x (seq 0 n) = Some xs /\ Forall words16 xs /\ value <$> xs = thread_seed <$> seq 0 n.
Proof.
  intros Hn. assert (Forall (fun tid => (tid < MAX_THREADS)%nat) (seq 0 n)) as Hs
    by (apply list.Forall_forall; intros tid [_ ?]%elem_of_seq; lia).
  clear Hn. induction Hs as [|tid l Ht _ (xs & Em & Hw & Hv)]; [by exists []|].
  destruct (local_x_ok tid Ht) as (x & Ex & Hx & Hvx). exists (x :: xs). cbn [mapM]. rewrite Ex. cbn [mbind option_bind].
  rewrite Em. split; [done|]. split; [by constructor|]. rewrite !fmap_cons. by f_equal.
Qed.

Lemma sum_fmap (f : nat -> Z) l : u64 (foldr Z.add 0 ((fun i => u64 (f i)) <$> l)) = u64 (foldr (fun i sum => f i + sum) 0 l).
Proof.
  induction l as [|i l IH]; [done|]. cbn [fmap list_fmap foldr]. unfold u64 in *.
  by rewrite Zplus_mod_idemp_l, <- Zplus_mod_idemp_r, IH, Zplus_mod_idemp_r.
Qed.

Lemma wp_omp_lookup_phase m n elms elms2 root nlookup :
  (nthreads <= MAX_THREADS)%nat -> n mod 2 = 0 -> 0 < n < 2 ^ 64 -> loaded m n elms elms2 (n / 2) root ->
  wp (omp_lookup_phase root n nlookup) m (fun sum _ => sum = u64 (omp_total n nlookup)).
Proof.
  intros Hnt Hn Hmax Hl. unfold omp_lookup_phase. destruct (local_xs nthreads Hnt) as (xs & Em & Hw & Hv).
  assert (length xs = nthreads) as Hlen by (apply (f_equal length) in Hv; by rewrite !length_fmap, length_seq in Hv).
  apply wp_bind. eapply wp_lift; [exact Em|]. apply wp_bind.
  eapply wp_mono; [apply (wp_omp_iterations m n elms elms2); try done|].
  - apply Forall_fmap. eapply list.Forall_impl; [exact Hw|]. intros x Hx. split; [by vm_compute|done].
  - rewrite length_fmap, Hlen. apply schedule_threads.
  - intros ths m' [-> E]. apply wp_ret. rewrite reduce_sum, E. unfold omp_total. rewrite <- sum_fmap. do 2 f_equal.
    apply list_eq. intros i. rewrite list_lookup_imap, !list_lookup_fmap. apply (f_equal (lookup i)) in Hv.
    rewrite !list_lookup_fmap in Hv. destruct (xs !! i) as [x|], (seq 0 nthreads !! i) as [tid|] eqn:Es; try done.
    apply lookup_seq in Es as [-> _]. injection Hv as Hv. cbn. by rewrite Hv.
Qed.

Lemma wp_omp_bench n nlookup m :
  (nthreads <= MAX_THREADS)%nat -> n mod 2 = 0 -> 0 < n < 2 ^ 62 -> nodes_ok m [] -> words_ok m [] ->
  wp (omp_bench n nlookup) m (fun sum _ => sum = u64 (omp_total n nlookup)).
Proof.
  intros Hnt Hn Hmax Hnodes Hwords. apply wp_loaded; try done. intros m' elms elms2 root Hl.
  eapply wp_omp_lookup_phase; [done|done|lia|done].
Qed.

Lemma wp_signal_done m (Q : unit -> mem -> Prop) : Q tt m -> wp signal_done m Q.
Proof. intros HQ. unfold signal_done, wp. destruct fopen_done eqn:E; [done|by split]. Qed.

(** ** The sizes *)

Lemma digits_nonneg s acc : 0 <= acc -> 0 <= (digits acc s).1.
Proof.
  revert acc. induction s as [|c s IH]; intros acc Hacc; cbn [digits]; [done|].
  destruct (isdigit c) eqn:E; [|done]. apply IH. unfold isdigit in E. apply andb_prop in E as [? ?]. lia.
Qed.

Lemma strtoull_range s : in_u64 (strtoull s).1.
Proof.
  unfold strtoull. destruct (match skip_space s with [] => _ | _ => _ end) as [neg [|c s']]; [by vm_compute|].
  destruct (isdigit c); [|by vm_compute]. pose proof (digits_nonneg (c :: s') 0 ltac:(lia)) as Hd.
  destruct (digits 0 (c :: s')) as [v e]. cbn [fst] in Hd.
  destruct (Z.ltb_spec ULLONG_MAX v); [by vm_compute|]. destruct neg; [apply u64_range|].
  unfold ULLONG_MAX, in_u64 in *. cbn [fst]. lia.
Qed.

Lemma parse_size_range s : in_u64 (parse_size s).
Proof.
  unfold parse_size. pose proof (strtoull_range s) as H. destruct (strtoull s) as [v [|c e]]; [done|].
  repeat case_match; auto using u64_range.
Qed.

Lemma even_up_range n : in_u64 n -> in_u64 (even_up n) /\ even_up n mod 2 = 0.
Proof.
  unfold even_up, in_u64. intros Hn. destruct (Z.eqb_spec (n mod 2) 0); cbn [negb]; [done|].
  split; [apply u64_range|]. unfold u64. zdiv.
Qed.

Lemma parse_options_range opts nelements nlookup n l :
  in_u64 nelements -> nelements mod 2 = 0 -> in_u64 nlookup ->
  parse_options opts nelements nlookup = inl (n, l) -> in_u64 n /\ n mod 2 = 0 /\ in_u64 l.
Proof.
  revert nelements nlookup. induction opts as [|[s|s| |] opts IH]; intros ne nl He Hm Hl E; cbn in E; try done.
  - by injection E as <- <-.
  - destruct (even_up_range _ (parse_size_range s)). by apply IH in E.
  - apply IH in E; auto using parse_size_range.
Qed.

Lemma no_elements run m : wp (elms ← allocate_elements (0 / 2); run elms) m (fun (_ : Z) _ => False).
Proof. unfold wp, allocate_elements, allocate, mbind, M_bind. cbn. rewrite mmap_empty. split; [done|apply mmap_empty]. Qed.

(** C5: the whole program, with or without OpenMP, for options that ask for fewer
    than 2^62 elements (beyond which the size of an array wraps around), any
    number of threads up to 173956 (beyond which [tid * 12345] leaves [int]) and
    any order in which they do their iterations.  It does nothing undefined.
    When the options ask for the usage message it returns; when there are
    elements it ends with the sum of what the generators' streams draw; a size of
    zero, which is also what a size that is not a number means, ends in a failed
    allocation.  Every [exit] on the way is one after the system has refused the
    request for memory, or the creation of the file, that the exit names. *)
Theorem real_main_correct openmp opts :
  (nthreads <= MAX_THREADS)%nat ->
  (forall n l, parse_options opts (DEFAULT_NELEMENTS openmp) (DEFAULT_NLOOKUP openmp) = inl (n, l) -> n < 2 ^ 62) ->
  wp (real_main openmp opts) boot (fun out _ =>
    match parse_options opts (DEFAULT_NELEMENTS openmp) (DEFAULT_NLOOKUP openmp) with
    | inl (n, l) => 0 < n /\ n mod 2 = 0 /\
        out = inl (u64 (if openmp then omp_total n l else total n (Z.to_nat l)))
    | inr status => out = inr status
    end).
Proof.
  intros Hnt Hmax. unfold real_main. destruct (parse_options _ _ _) as [[n l]|status] eqn:E; [|by apply wp_ret].
  specialize (Hmax n l eq_refl).
  apply parse_options_range in E as (Hn & Hm & Hl); [|by destruct openmp; vm_compute..]. unfold in_u64 in *.
  destruct (Z.eqb_spec n 0) as [->|].
  - apply wp_bind. eapply wp_mono; [destruct openmp; apply no_elements|]. done.
  - apply wp_bind. eapply wp_mono; [|intros sum m' Hs; apply wp_bind, wp_signal_done, wp_ret; split; [lia|]; split; [done|]; f_equal; exact Hs].
    destruct openmp; [apply wp_omp_bench|apply wp_bench]; auto using boot_nodes, boot_words; lia.
Qed.

End Run.

(** ** Reading a size back *)

Definition unit_of (c : Z) : Z :=
  if bool_decide (c ∈ [107; 75]) then 1000
  else if bool_decide (c ∈ [109; 77]) then 1000000
  else if bool_decide (c ∈ [103; 71]) then 1000000000
  else 1.

(** The decimal digits of a 64-bit number are read back as that number, and
    with a suffix as the number times the unit, modulo 2^64; a suffix that is
    not known leaves the number as it is. *)
Theorem parse_size_decimal n c rest :
  in_u64 n -> isdigit c = false ->
  parse_size (decimal n) = n /\ parse_size (decimal n ++ c :: rest) = u64 (n * unit_of c).
Proof.
  intros Hn Hc. unfold parse_size. split.
  - rewrite <- (app_nil_r (decimal n)). by rewrite strtoull_decimal.
  - rewrite strtoull_decimal by (done || cbn [digits]; by rewrite Hc).
    assert (forall a b, (c =? a) || (c =? b) = bool_decide (c ∈ [a; b])) as Hm.
    { intros a b. rewrite bool_decide_decide. case_decide as Hin;
        rewrite !elem_of_cons, elem_of_nil in Hin; lia. }
    unfold unit_of. rewrite !Hm. repeat case_match; try done. by rewrite Z.mul_1_r, u64_id.
Qed.

Lemma parse_size_decimal_witness :
  parse_size (decimal 250) = 250 /\ parse_size (decimal 250 ++ 77 :: []) = u64 (250 * unit_of 77).
Proof. apply (parse_size_decimal 250 77 []); [unfold in_u64; lia|reflexivity]. Defined.

(** ** A sample run: two threads that take turns *)

Definition turns (n : Z) : list nat := (fun i => Z.to_nat (i mod 2)) <$> seqZ 0 n.

Lemma turns_length n : 0 <= n -> alen (turns n) = n.
Proof. intros Hn. unfold turns. rewrite alen_fmap. unfold alen. rewrite length_seqZ. lia. Qed.

Lemma turns_threads n : Forall (fun tid => (tid < 2)%nat) (turns n).
Proof.
  apply Forall_fmap, list.Forall_forall. intros i _. cbn. pose proof (Z.mod_pos_bound i 2 ltac:(lia)). lia.
Qed.

Definition two_threads : OMP :=
  {| nthreads := 2; schedule := turns; schedule_length := turns_length; schedule_threads := turns_threads |}.

Lemma real_main_correct_witness :
  let opts := [opt_n (decimal 99); opt_l (decimal 50)] in
  wp (os := bump_os) (real_main (os := bump_os) (omp := two_threads) true opts) boot
    (fun out _ => 0 < 100 /\ 100 mod 2 = 0 /\ out = inl (u64 (omp_total (omp := two_threads) 100 50))) /\
  returned (real_main (os := bump_os) (omp := two_threads) true opts boot) =
    Some (inl (u64 (omp_total (omp := two_threads) 100 50))) /\
  real_main (os := bump_os) (omp := two_threads) true [opt_n [97; 98; 99]] boot = Exit 1 (No_mmap [] 0).
Proof.
  cbv zeta. split; [|split; vm_compute; reflexivity].
  apply (real_main_correct (os := bump_os) (omp := two_threads) true [opt_n (decimal 99); opt_l (decimal 50)]).
  - apply Nat.leb_le. vm_compute. reflexivity.
  - intros n l E. vm_compute in E. injection E as <- <-. reflexivity.
Defined.
