(* ===== verification/Gups.v ===== *)
(** * GUPS: the RandomAccess benchmark (sources/gups/gups.c)

    The 64-bit shift-register stream, its jump-ahead [HPCC_starts], the sizing
    of the run from the command line, the sequential update loop and the OpenMP
    one, whose atomic exclusive-or updates may interleave in any order. *)

From stdpp Require Import gmap list numbers.
From Stdlib Require Import ZArith Lia.
From S2P Require Import Prelude.
#[local] Open Scope Z_scope.

Module Gups.

(** ** The generator *)

Definition POLY : Z := 7.
Definition PERIOD : Z := 1317624576693539401.

(** [(r << 1) ^ ((int64_t) r < 0 ? POLY : 0)], the step every loop repeats. *)
Definition lfsr (r : Z) : Z :=
  Z.lxor (u64 (Z.shiftl r 1)) (if s64 r <? 0 then POLY else 0).

(** [for (i = 62; i >= 0; i--) if ((n >> i) & 1) break;] from [i = k - 1]. *)
Fixpoint top_bit (n : Z) (k : nat) : Z :=
  match k with
  | O => -1
  | S k => if bit_at n (Z.of_nat k) then Z.of_nat k else top_bit n k
  end.

(** The table [m2]: [m2[i]] is the stream at [2 * i]. *)
Definition build_m2 : option (list Z) :=
  s ← for_z 0 64 (fun i '(temp, m2) =>
        m2 ← m2.[i <- temp]; Some (lfsr (lfsr temp), m2))
      (1, replicate 64 0);
  Some (snd s).

(** The squaring loop [for (j...) if ((ran >> j) & 1) temp ^= m2[j];]. *)
Definition square (m2 : list Z) (ran : Z) : option Z :=
  for_z 0 64 (fun j temp =>
    if bit_at ran j then m ← m2.[j]; Some (Z.lxor temp m) else Some temp) 0.

Definition HPCC_starts (n : Z) : option Z :=
  n ← while_fuel 9 (fun n => Some (n <? 0)) (fun n => Some (n + PERIOD)) n;
  n ← while_fuel 9 (fun n => Some (PERIOD <? n)) (fun n => Some (n - PERIOD)) n;
  if n =? 0 then Some 1 else
  m2 ← build_m2;
  s ← while_fuel 64 (fun '(i, _) => Some (0 <? i))
        (fun '(i, ran) =>
           temp ← square m2 ran;
           let i := i - 1 in
           Some (i, if bit_at n i then lfsr temp else temp))
        (top_bit n 63, 2);
  Some (snd s).

(** Reference: the [k]-th element of the stream, by [k] single steps. *)
Definition stream (k : Z) : Z := N.iter (Z.to_N k) lfsr 1.

(** ** Sizing the run *)

(** [nupdate] rounded to a multiple of 128. *)
Definition round_nupdate (nupdate : Z) : Z :=
  if nupdate mod 128 =? 0 then nupdate
  else let n := nupdate / 128 * 128 in if n =? 0 then 128 else n.

(** The loop that rounds [mem] down to a power of two.  [1ULL << (i - 1)] is
    undefined at [i = 0]. *)
Fixpoint round_mem_from (fuel : nat) (i mem : Z) : option Z :=
  match fuel with
  | O => Some mem
  | S fuel =>
      if mem <? Z.shiftl 1 i then
        if i =? 0 then None else Some (Z.shiftl 1 (i - 1))
      else round_mem_from fuel (i + 1) mem
  end.
Definition round_mem (mem : Z) : option Z := round_mem_from 64 0 mem.

(** [malloc(mem + 16)] gives [mem / 8 + 2] words of unknown content. *)
Definition alloc_words (mem : Z) : Z := (mem + 16) / 8.

Definition init_table (sz : Z) (tbl : list Z) : option (list Z) :=
  for_z 0 sz (fun i t => t.[i <- i]) tbl.

(** ** The sequential run *)

(** [Table[k] ^= r]. *)
Definition xor_at (tbl : list Z) (k r : Z) : option (list Z) :=
  t ← tbl.[k]; tbl.[k <- Z.lxor t r].

(** The body of the two nested loops, for lane [j]. *)
Definition seq_update (sz j : Z) (s : list Z * list Z) : option (list Z * list Z) :=
  let '(tbl, ran) := s in
  r ← ran.[j];
  let r := lfsr r in
  ran ← ran.[j <- r];
  let elm := r mod sz in
  tbl ← xor_at tbl elm r;
  tbl ← xor_at tbl (sz - elm) r;
  Some (tbl, ran).

Definition seq_run (sz nupdate : Z) (tbl : list Z) : option (list Z) :=
  ran ← for_z 0 128 (fun j ran =>
          r ← HPCC_starts (s64 (u64 (nupdate / 128 * j))); ran.[j <- r])
        (replicate 128 0);
  s ← for_z 0 (nupdate / 128) (fun _ s => for_z 0 128 (seq_update sz) s) (tbl, ran);
  Some (fst s).

(** [real_main] without OpenMP, from the sizes on the command line ([mem] in
    bytes) to the final table; [heap] is the content of the fresh allocation. *)
Definition seq_main (mem nupdate : Z) (heap : list Z) : option (list Z) :=
  let nupdate := round_nupdate nupdate in
  mem ← round_mem mem;
  let sz := mem / 8 in
  tbl ← init_table sz heap;
  seq_run sz nupdate tbl.

(** ** The OpenMP run

    Every thread owns its lanes; the only shared state is the table, touched by
    two [omp atomic] updates per step.  A thread is the list of atomic updates
    [(index, value)] it performs, computed by its private loops. *)

Definition thread_update (sz j : Z) (s : list (Z * Z) * list Z)
    : option (list (Z * Z) * list Z) :=
  let '(ops, ran) := s in
  r ← ran.[j];
  let r := lfsr r in
  ran ← ran.[j <- r];
  let elm := r mod sz in
  Some (ops ++ [(elm, r); (sz - 1 - elm, r)], ran).

Definition thread_ops (sz nupdate nth tid : Z) : option (list (Z * Z)) :=
  let updates_per_thread := nupdate / nth in
  let start_update := u64 (tid * updates_per_thread) in
  ran ← for_z 0 128 (fun j ran =>
          r ← HPCC_starts (s64 (u64 (start_update + updates_per_thread / 128 * j)));
          ran.[j <- r])
        (replicate 128 0);
  s ← for_z 0 (updates_per_thread / 128)
        (fun _ s => for_z 0 128 (thread_update sz) s) ([], ran);
  Some (fst s).

Definition threads (sz nupdate nth : Z) : option (list (list (Z * Z))) :=
  mapM (thread_ops sz nupdate nth) (seqZ 0 nth).

(** One atomic update of some thread that has not finished. *)
Inductive omp_step : list Z * list (list (Z * Z)) -> list Z * list (list (Z * Z)) -> Prop :=
| omp_atomic tbl tbl' threads (i : nat) k r rest :
    threads !! i = Some ((k, r) :: rest) ->
    xor_at tbl k r = Some tbl' ->
    omp_step (tbl, threads) (tbl', <[i := rest]> threads).

(** ** The jump-ahead is exponentiation *)

Lemma lfsr_alt r :
  in_u64 r ->
  lfsr r = Z.lxor (Z.shiftl r 1 mod 2 ^ 64) (if Z.testbit r 63 then POLY else 0).
Proof.
  intros Hr. unfold lfsr, u64. f_equal.
  assert ((s64 r <? 0) = Z.testbit r 63) as ->; [|done].
  unfold s64. rewrite u64_id by done. unfold in_u64 in Hr.
  destruct (Z.ltb_spec r (2 ^ 63)).
  - rewrite (testbit_high 63) by lia. apply Z.ltb_ge. lia.
  - transitivity true; [apply Z.ltb_lt; lia|]. symmetry. apply Z.testbit_true; [lia|].
    assert (r / 2 ^ 63 = 1) as ->; [|done].
    symmetry. apply Z.div_unique with (r - 2 ^ 63); lia.
Qed.

Lemma lfsr_u64 r : in_u64 (lfsr r).
Proof.
  unfold lfsr. apply lxor_u64; [apply u64_range|].
  unfold in_u64, POLY. destruct (s64 r <? 0); lia.
Qed.
#[local] Hint Resolve lfsr_u64 : cint.

Lemma lfsr_linear x y :
  in_u64 x -> in_u64 y -> lfsr (Z.lxor x y) = Z.lxor (lfsr x) (lfsr y).
Proof.
  intros Hx Hy. rewrite !lfsr_alt by auto with cint.
  rewrite Z.shiftl_lxor, lxor_mod_pow2, Z.lxor_spec by lia.
  destruct (Z.testbit x 63), (Z.testbit y 63); simpl; xor_solve.
Qed.

(** Two maps that are additive on 64-bit words and agree on the powers of two
    agree everywhere. *)
Definition additive (f : Z -> Z) : Prop :=
  forall x y, in_u64 x -> in_u64 y -> f (Z.lxor x y) = Z.lxor (f x) (f y).

Lemma additive_0 f : additive f -> f 0 = 0.
Proof.
  intros Hf. specialize (Hf 0 0). rewrite Z.lxor_nilpotent in Hf.
  rewrite Hf, Z.lxor_nilpotent by (unfold in_u64; lia). done.
Qed.

Lemma additive_ext f g :
  additive f -> additive g ->
  (forall j, 0 <= j < 64 -> f (2 ^ j) = g (2 ^ j)) ->
  forall r, in_u64 r -> f r = g r.
Proof.
  intros Hf Hg Hb.
  assert (forall n : nat, (n <= 64)%nat -> forall r, 0 <= r < 2 ^ Z.of_nat n -> f r = g r) as H.
  { induction n as [|n IH]; intros Hn r Hr.
    - replace r with 0 by (simpl in Hr; lia). by rewrite !additive_0.
    - assert (2 ^ Z.of_nat n < 2 ^ 64) by (apply Z.pow_lt_mono_r; lia).
      rewrite (low_bits_split n r) by lia.
      assert (0 <= r mod 2 ^ Z.of_nat n < 2 ^ Z.of_nat n)
        by (apply Z.mod_pos_bound; lia).
      assert (in_u64 (r mod 2 ^ Z.of_nat n)) by (unfold in_u64; lia).
      assert (in_u64 (if Z.testbit r (Z.of_nat n) then 2 ^ Z.of_nat n else 0))
        by (unfold in_u64; destruct (Z.testbit _ _); lia).
      rewrite Hf, Hg, IH by (done || lia).
      f_equal. destruct (Z.testbit r (Z.of_nat n)); [apply Hb; lia|].
      by rewrite !additive_0. }
  intros r Hr. apply (H 64%nat); done.
Qed.

Lemma stream_0 : stream 0 = 1.
Proof. done. Qed.

Lemma stream_succ k : 0 <= k -> stream (k + 1) = lfsr (stream k).
Proof.
  intros Hk. unfold stream.
  replace (Z.to_N (k + 1)) with (N.succ (Z.to_N k)) by lia. apply N.iter_succ.
Qed.

Lemma stream_add j k : 0 <= j -> 0 <= k -> stream (j + k) = N.iter (Z.to_N j) lfsr (stream k).
Proof. intros. unfold stream. by rewrite Z2N.inj_add, N.iter_add by done. Qed.

Lemma stream_u64 k : in_u64 (stream k).
Proof.
  unfold stream. apply (N.iter_invariant _ _ lfsr in_u64); [intros; apply lfsr_u64|].
  unfold in_u64. lia.
Qed.

(** Squaring in the field, as the code computes it: bit [j] contributes the
    stream at [2 * j]. *)
Fixpoint square_ref (n : nat) (r : Z) : Z :=
  match n with
  | O => 0
  | S k => Z.lxor (square_ref k r)
             (if Z.testbit r (Z.of_nat k) then stream (2 * Z.of_nat k) else 0)
  end.

Lemma square_ref_u64 n r : in_u64 (square_ref n r).
Proof.
  induction n as [|n IH]; simpl; [unfold in_u64; lia|].
  apply lxor_u64; [done|]. destruct (Z.testbit _ _); [apply stream_u64|unfold in_u64; lia].
Qed.

Lemma square_ref_additive n : additive (square_ref n).
Proof.
  intros x y _ _. induction n as [|n IH]; simpl; [done|].
  rewrite IH, Z.lxor_spec.
  destruct (Z.testbit x _), (Z.testbit y _); simpl; xor_solve.
Qed.

Lemma square_step_basis :
  forallb (fun j => square_ref 64 (lfsr (2 ^ j)) =? lfsr (lfsr (square_ref 64 (2 ^ j))))
    (seqZ 0 64) = true.
Proof. vm_compute. reflexivity. Qed.

Lemma square_step r :
  in_u64 r -> square_ref 64 (lfsr r) = lfsr (lfsr (square_ref 64 r)).
Proof.
  apply (additive_ext (fun r => square_ref 64 (lfsr r))
                      (fun r => lfsr (lfsr (square_ref 64 r)))).
  - intros x y Hx Hy. rewrite lfsr_linear by done. apply square_ref_additive; auto with cint.
  - intros x y Hx Hy. rewrite square_ref_additive by done.
    rewrite !lfsr_linear by auto using square_ref_u64 with cint. done.
  - intros j Hj. pose proof square_step_basis as H. rewrite forallb_forall in H.
    apply Z.eqb_eq, H, list_elem_of_In, elem_of_seqZ. lia.
Qed.

Lemma square_ref_stream k : 0 <= k -> square_ref 64 (stream k) = stream (2 * k).
Proof.
  intros Hk. pattern k. apply natlike_ind; [vm_compute; done| |done].
  clear k Hk. intros k Hk IH. rewrite <- Z.add_1_r, stream_succ by done.
  rewrite square_step, IH by apply stream_u64.
  replace (2 * (k + 1)) with (2 * k + 1 + 1) by lia. by rewrite !stream_succ by lia.
Qed.

Definition m2_ref : list Z := tab 64 (fun i => stream (2 * i)).

Lemma build_m2_ok : build_m2 = Some m2_ref.
Proof. vm_compute. reflexivity. Qed.

Lemma m2_ref_get j : 0 <= j < 64 -> m2_ref.[j] = Some (stream (2 * j)).
Proof.
  apply (aget_tab 64 (fun i => stream (2 * i))).
Qed.

Lemma square_ok r : square m2_ref r = Some (square_ref 64 r).
Proof.
  destruct (for_z_inv (fun j t => t = square_ref (Z.to_nat j) r) 0 64
    (fun j temp => if bit_at r j then m ← m2_ref.[j]; Some (Z.lxor temp m) else Some temp) 0)
    as (t & Hrun & ->); [lia|done| |exact Hrun].
  intros j t Hj ->. rewrite bit_at_testbit, m2_ref_get by lia. simpl.
  replace (Z.to_nat (j + 1)) with (S (Z.to_nat j)) by lia. simpl.
  rewrite Z2Nat.id by lia.
  destruct (Z.testbit r j); eexists; (split; [done|]); by rewrite ?Z.lxor_0_r.
Qed.

#[local] Arguments square_ref : simpl never.

Lemma top_bit_log2 n k : 0 < n < 2 ^ Z.of_nat k -> top_bit n k = Z.log2 n.
Proof.
  induction k as [|k IH]; intros Hn; [simpl in Hn; lia|]. simpl.
  rewrite bit_at_testbit by lia. destruct (Z.testbit n (Z.of_nat k)) eqn:Hb.
  - symmetry. apply Z.log2_unique'  with (n - 2 ^ Z.of_nat k); [lia|..]; [|lia].
    destruct (decide (2 ^ Z.of_nat k <= n)); [|rewrite (testbit_high (Z.of_nat k)) in Hb; [done|lia|lia]].
    rewrite Nat2Z.inj_succ, Z.pow_succ_r in Hn by lia. lia.
  - apply IH. split; [lia|]. apply bits_bound; [lia..|]. intros i Hi.
    destruct (decide (i = Z.of_nat k)) as [->|]; [done|].
    apply (testbit_high (Z.of_nat (S k))); lia.
Qed.

Lemma shiftr_bit n i :
  0 <= i -> Z.shiftr n i = 2 * Z.shiftr n (i + 1) + (if Z.testbit n i then 1 else 0).
Proof.
  intros Hi. rewrite Z.testbit_odd, <- Z.shiftr_shiftr by lia.
  rewrite (Z.shiftr_div_pow2 _ 1) by lia. change (2 ^ 1) with 2.
  pose proof (Z.div_mod (Z.shiftr n i) 2). rewrite Zmod_odd in *.
  destruct (Z.odd (Z.shiftr n i)); lia.
Qed.

(** The square-and-multiply loop computes the stream at [n]. *)
Lemma power_loop_ok n :
  0 < n < 2 ^ 63 ->
  while_fuel 64 (fun '(i, _) => Some (0 <? i))
    (fun '(i, ran) => temp ← square m2_ref ran;
       let i := i - 1 in Some (i, if bit_at n i then lfsr temp else temp))
    (top_bit n 63, 2) = Some (0, stream n).
Proof.
  intros Hn. assert (Hlog : 0 <= Z.log2 n < 63).
  { split; [apply Z.log2_nonneg|]. apply Z.log2_lt_pow2; lia. }
  rewrite (top_bit_log2 n 63) by done.
  destruct (while_fuel_inv
    (fun '(i, ran) => 0 <= i < 63 /\ ran = stream (Z.shiftr n i))
    (fun '(i, _) => Z.to_nat i) 64
    (fun '(i, _) => Some (0 <? i))
    (fun '(i, ran) => temp ← square m2_ref ran;
       let i := i - 1 in Some (i, if bit_at n i then lfsr temp else temp))
    (Z.log2 n, 2)) as ([i ran] & Hrun & [Hi ->] & Hc).
  - split; [done|]. rewrite Z.shiftr_div_pow2 by lia.
    assert (n / 2 ^ Z.log2 n = 1) as ->; [|done].
    pose proof (Z.log2_spec n) as Hs. rewrite Z.pow_succ_r in Hs by lia.
    symmetry. apply Z.div_unique with (n - 2 ^ Z.log2 n); lia.
  - lia.
  - intros [i ran] [Hi ->]. destruct (Z.ltb_spec 0 i); [right|by left].
    split; [done|]. rewrite square_ok. simpl. eexists. split; [done|]. split; [|lia].
    split; [lia|]. rewrite bit_at_testbit by lia.
    rewrite (shiftr_bit n (i - 1)) by lia. replace (i - 1 + 1) with i by lia.
    assert (0 <= Z.shiftr n i) by (apply Z.shiftr_nonneg; lia).
    rewrite square_ref_stream by done.
    destruct (Z.testbit n (i - 1)); [by rewrite stream_succ by lia|by rewrite Z.add_0_r].
  - rewrite Hrun. injection Hc as Hc. apply Z.ltb_ge in Hc.
    replace i with 0 by lia. by rewrite Z.shiftr_0_r.
Qed.

(** The two normalising loops leave [n] congruent to the input, in [0, PERIOD]. *)
Lemma normalise_ok n :
  in_s64 n -> exists n0 n1,
  while_fuel 9 (fun n => Some (n <? 0)) (fun n => Some (n + PERIOD)) n = Some n0 /\
  while_fuel 9 (fun n => Some (PERIOD <? n)) (fun n => Some (n - PERIOD)) n0 = Some n1 /\
  0 <= n1 <= PERIOD /\ n1 mod PERIOD = n mod PERIOD.
Proof.
  unfold in_s64. intros Hn.
  destruct (while_fuel_inv
    (fun x => - 2 ^ 63 <= x < 2 ^ 63 /\ x mod PERIOD = n mod PERIOD)
    (fun x => Z.to_nat ((- x + PERIOD - 1) / PERIOD)) 9
    (fun n => Some (n <? 0)) (fun n => Some (n + PERIOD)) n)
    as (n0 & Hn0 & [Hr0 Hm0] & Hc0).
  { done. }
  { unfold PERIOD in *. zdiv. }
  { intros x [Hx Hm]. destruct (Z.ltb_spec x 0); [right|by left]. split; [done|].
    eexists. split; [done|]. split.
    - split; [unfold PERIOD in *; lia|]. rewrite <- Hm. 
      rewrite <- (Z_mod_plus_full x 1 PERIOD). done.
    - unfold PERIOD in *. zdiv. }
  injection Hc0 as Hc0. apply Z.ltb_ge in Hc0.
  destruct (while_fuel_inv
    (fun x => 0 <= x < 2 ^ 63 /\ x mod PERIOD = n mod PERIOD)
    (fun x => Z.to_nat (x / PERIOD)) 9
    (fun n => Some (PERIOD <? n)) (fun n => Some (n - PERIOD)) n0)
    as (n1 & Hn1 & [Hr1 Hm1] & Hc1).
  { split; [lia|done]. }
  { unfold PERIOD in *. zdiv. }
  { intros x [Hx Hm]. destruct (Z.ltb_spec PERIOD x); [right|by left]. split; [done|].
    eexists. split; [done|]. split.
    - split; [unfold PERIOD in *; lia|]. rewrite <- Hm.
      rewrite <- (Z_mod_plus_full x (-1) PERIOD). done.
    - unfold PERIOD in *. zdiv. }
  injection Hc1 as Hc1. apply Z.ltb_ge in Hc1. exists n0, n1.
  repeat split; try done; lia.
Qed.

Lemma HPCC_starts_power n :
  in_s64 n -> exists n1,
  HPCC_starts n = Some (stream n1) /\ 0 <= n1 <= PERIOD /\ n1 mod PERIOD = n mod PERIOD.
Proof.
  intros Hn. destruct (normalise_ok n Hn) as (n0 & n1 & H0 & H1 & Hr & Hm).
  exists n1. split; [|done]. unfold HPCC_starts.
  rewrite H0. cbn [mbind option_bind]. rewrite H1. cbn [mbind option_bind].
  destruct (Z.eqb_spec n1 0) as [->|]; [done|].
  rewrite build_m2_ok. cbn [mbind option_bind].
  rewrite power_loop_ok; [reflexivity|]. unfold PERIOD in Hr. lia.
Qed.

Lemma HPCC_starts_small n :
  0 <= n <= PERIOD -> HPCC_starts n = Some (stream n).
Proof.
  intros Hn. unfold HPCC_starts.
  rewrite while_fuel_done by (f_equal; lia). cbn [mbind option_bind].
  rewrite while_fuel_done by (f_equal; lia). cbn [mbind option_bind].
  destruct (Z.eqb_spec n 0) as [->|]; [done|].
  rewrite build_m2_ok. cbn [mbind option_bind].
  rewrite power_loop_ok; [reflexivity|]. unfold PERIOD in Hn. lia.
Qed.

Lemma stream_period : stream PERIOD = 1.
Proof.
  assert (HPCC_starts PERIOD = Some 1) as Hv by (vm_compute; reflexivity).
  rewrite HPCC_starts_small in Hv by (unfold PERIOD; lia). congruence.
Qed.

Lemma stream_plus_periods (q : nat) k :
  0 <= k -> stream (Z.of_nat q * PERIOD + k) = stream k.
Proof.
  intros Hk. induction q as [|q IH]; [done|]. rewrite <- IH.
  replace (Z.of_nat (S q) * PERIOD + k) with ((Z.of_nat q * PERIOD + k) + PERIOD) by lia.
  rewrite stream_add, stream_period by (unfold PERIOD; lia). done.
Qed.

Lemma stream_mod k : 0 <= k -> stream (k mod PERIOD) = stream k.
Proof.
  intros Hk. rewrite (Z.div_mod k PERIOD) at 2 by done.
  assert (0 <= k / PERIOD) by (apply Z.div_pos; [done|unfold PERIOD; lia]).
  rewrite (Z.mul_comm PERIOD), <- (Z2Nat.id (k / PERIOD)) by done.
  symmetry. apply stream_plus_periods. apply Z.mod_pos_bound. unfold PERIOD; lia.
Qed.

Lemma HPCC_starts_correct_aux n : in_s64 n -> 0 <= n -> HPCC_starts n = Some (stream n).
Proof.
  intros Hn Hp. destruct (HPCC_starts_power n Hn) as (n1 & Hrun & Hr & Hm).
  by rewrite Hrun, <- (stream_mod n1), Hm, stream_mod by lia.
Qed.

(** C28: for every 64-bit [n], [HPCC_starts(n)] returns the element of the
    shift-register stream at position [n] modulo the period, so at every
    non-negative [n] it equals [n] single steps of the generator, and stepping
    the result of a negative position forward reaches the stream's origin. *)
Theorem HPCC_starts_correct n :
  in_s64 n ->
  HPCC_starts n = Some (stream (n mod PERIOD)) /\
  (0 <= n -> HPCC_starts n = Some (stream n)) /\
  (n < 0 -> exists r, HPCC_starts n = Some r /\ N.iter (Z.to_N (- n)) lfsr r = 1).
Proof.
  intros Hn. destruct (HPCC_starts_power n Hn) as (n1 & Hrun & Hr & Hm).
  rewrite Hrun, <- (stream_mod n1), Hm by lia. split; [done|]. split.
  - intros. by rewrite stream_mod by done.
  - intros Hneg. eexists. split; [done|].
    rewrite <- stream_add by (try apply Z.mod_pos_bound; unfold PERIOD; lia).
    rewrite <- stream_mod by (pose proof (Z.mod_pos_bound n PERIOD); unfold PERIOD in *; lia).
    rewrite Zplus_mod_idemp_r, Z.add_opp_diag_l. done.
Qed.

Lemma HPCC_starts_correct_witness :
  HPCC_starts (-1) = Some (stream (-1 mod PERIOD)) /\ HPCC_starts 1000 = Some (stream 1000).
Proof.
  assert (in_s64 (-1) /\ in_s64 1000) as [Hm Hp] by (unfold in_s64; lia).
  split; [exact (proj1 (HPCC_starts_correct (-1) Hm))|].
  exact (proj1 (proj2 (HPCC_starts_correct 1000 Hp)) (proj1 (Z.leb_le 0 1000) eq_refl)).
Defined.

(** ** The update loops *)

(** [Table[k] ^= r] on an index in range. *)
Definition apply_op (tbl : list Z) (op : Z * Z) : list Z :=
  alter (fun t => Z.lxor t (snd op)) (Z.to_nat (fst op)) tbl.

Definition apply_ops (tbl : list Z) (ops : list (Z * Z)) : list Z :=
  fold_left apply_op ops tbl.

Lemma alen_apply_op tbl op : alen (apply_op tbl op) = alen tbl.
Proof. unfold alen, apply_op. by rewrite length_alter. Qed.

Lemma xor_at_ok tbl k r :
  0 <= k < alen tbl -> xor_at tbl k r = Some (apply_op tbl (k, r)).
Proof.
  intros Hk. unfold xor_at, apply_op. destruct (aget_in tbl k Hk) as [t Ht].
  rewrite Ht. simpl. rewrite aset_in by done. f_equal. simpl.
  unfold aget in Ht. destruct (Z.ltb_spec k 0); [lia|].
  apply list_eq. intros i. destruct (decide (i = Z.to_nat k)) as [->|].
  - rewrite list_lookup_insert_eq, list_lookup_alter_eq, Ht; [done|].
    by apply lookup_lt_Some in Ht.
  - by rewrite list_lookup_insert_ne, list_lookup_alter_ne by done.
Qed.

Lemma apply_op_comm tbl o1 o2 :
  apply_op (apply_op tbl o1) o2 = apply_op (apply_op tbl o2) o1.
Proof.
  destruct o1 as [k1 r1], o2 as [k2 r2]. unfold apply_op. simpl.
  apply list_eq. intros i. rewrite !list_lookup_alter.
  repeat case_decide; try congruence.
  replace (Z.to_nat k2) with (Z.to_nat k1) by done.
  destruct (tbl !! Z.to_nat k1); [|done]. simpl. by rewrite lxor_swap.
Qed.

Lemma apply_op_invol tbl op : apply_op (apply_op tbl op) op = tbl.
Proof.
  unfold apply_op. apply list_eq. intros i. rewrite !list_lookup_alter.
  repeat case_decide; try congruence. subst i.
  destruct (tbl !! _); [|done]. simpl. by rewrite lxor_cancel.
Qed.

Lemma apply_ops_perm tbl ops ops' :
  ops ≡ₚ ops' -> apply_ops tbl ops = apply_ops tbl ops'.
Proof.
  intros Hp. revert tbl.
  induction Hp as [|o l l' _ IH|o1 o2 l|l l' l'' _ IH1 _ IH2]; intros tbl; simpl.
  - done.
  - apply IH.
  - unfold apply_ops. simpl. by rewrite apply_op_comm.
  - by rewrite IH1.
Qed.

Lemma apply_ops_app tbl l l' : apply_ops tbl (l ++ l') = apply_ops (apply_ops tbl l) l'.
Proof. apply fold_left_app. Qed.

Lemma alen_apply_ops tbl ops : alen (apply_ops tbl ops) = alen tbl.
Proof.
  revert tbl. induction ops as [|o ops IH]; intros tbl; simpl; [done|].
  rewrite IH. apply alen_apply_op.
Qed.

Lemma apply_ops_invol tbl ops : apply_ops (apply_ops tbl ops) ops = tbl.
Proof.
  revert tbl. induction ops as [|o ops IH]; intros tbl; [done|].
  rewrite <- (apply_ops_perm _ (ops ++ [o])) by (by rewrite Permutation_app_comm).
  rewrite apply_ops_app. simpl.
  change (apply_ops tbl (o :: ops)) with (apply_ops (apply_op tbl o) ops).
  rewrite IH. unfold apply_ops. simpl. apply apply_op_invol.
Qed.

(** The lanes of one thread: lane [j] starts at [b j] and every round steps each
    lane once and hands its value to [act].  Both update loops have this form. *)
Section Lanes.
Context {T : Type} (act : T -> Z -> option T) (f : T -> Z -> T) (P : T -> Prop).
Hypothesis act_ok : forall t r, P t -> in_u64 r -> act t r = Some (f t r) /\ P (f t r).
Variable b : Z -> Z.
Hypothesis b_pos : forall j, 0 <= j < 128 -> 0 <= b j.

Definition lane_update (j : Z) (s : T * list Z) : option (T * list Z) :=
  let '(t, ran) := s in
  r ← ran.[j];
  let r := lfsr r in
  ran ← ran.[j <- r];
  t ← act t r;
  Some (t, ran).

(** The lanes after [i] rounds and [j] lanes of the next. *)
Definition lanes (i j : Z) : list Z :=
  tab 128 (fun j' => stream (b j' + (if j' <? j then i + 1 else i))).

Definition round_values (i j : Z) : list Z :=
  (fun j' => stream (b j' + i + 1)) <$> seqZ 0 j.

Definition values (n : Z) : list Z := seqZ 0 n ≫= fun i => round_values i 128.

Lemma lanes_next i : lanes i 128 = lanes (i + 1) 0.
Proof.
  apply tab_ext. intros j Hj.
  destruct (Z.ltb_spec j 128), (Z.ltb_spec j 0); done || lia.
Qed.

Lemma lane_round i t :
  0 <= i -> P t ->
  for_z 0 128 lane_update (t, lanes i 0)
  = Some (fold_left f (round_values i 128) t, lanes (i + 1) 0) /\
  P (fold_left f (round_values i 128) t).
Proof.
  intros Hi Ht. rewrite <- lanes_next.
  destruct (for_z_inv
    (fun j s => s = (fold_left f (round_values i j) t, lanes i j) /\ P (fst s))
    0 128 lane_update (t, lanes i 0)) as (s & Hrun & -> & HP); [lia|done| |done].
  intros j s Hj [-> HP]. simpl in HP. unfold lane_update, lanes.
  rewrite aget_tab by lia. simpl.
  destruct (Z.ltb_spec j j); [lia|]. rewrite <- stream_succ by (specialize (b_pos j); lia).
  rewrite aset_tab by lia. simpl.
  destruct (act_ok (fold_left f (round_values i j) t) (stream (b j + i + 1)) HP
    (stream_u64 _)) as [Hact HP'].
  assert (round_values i (j + 1) = round_values i j ++ [stream (b j + i + 1)]) as Hrv.
  { unfold round_values. rewrite seqZ_app, fmap_app by lia. done. }
  rewrite Hact. simpl. eexists. split; [done|]. rewrite Hrv, fold_left_app. simpl.
  split; [|done]. f_equal. apply tab_ext. intros k Hk.
  destruct (Z.eqb_spec k j) as [->|].
  - destruct (Z.ltb_spec j (j + 1)); [f_equal; lia|lia].
  - destruct (Z.ltb_spec k j), (Z.ltb_spec k (j + 1)); done || lia.
Qed.

Lemma lanes_run n t :
  0 <= n -> P t ->
  for_z 0 n (fun _ s => for_z 0 128 lane_update s) (t, lanes 0 0)
  = Some (fold_left f (values n) t, lanes n 0).
Proof.
  intros Hn Ht.
  destruct (for_z_inv
    (fun i s => s = (fold_left f (values i) t, lanes i 0) /\ P (fst s))
    0 n (fun _ s => for_z 0 128 lane_update s) (t, lanes 0 0))
    as (s & Hrun & -> & HP); [lia|done| |done].
  intros i s Hi [-> HP]. destruct (lane_round i (fold_left f (values i) t)) as [Hr HP'];
    [lia|done|]. eexists. split; [exact Hr|].
  assert (values (i + 1) = values i ++ round_values i 128) as ->.
  { unfold values. rewrite seqZ_snoc, bind_app by lia.
    cbn [mbind list_bind]. by rewrite app_nil_r. }
  by rewrite fold_left_app.
Qed.
End Lanes.

(** A lane block of length [n] starting after [m] covers the stream from [m + 1]. *)
Lemma values_cover m n :
  0 <= n ->
  values (fun j => m + n * j) n ≡ₚ stream <$> seqZ (m + 1) (n * 128).
Proof.
  intros Hn. unfold values, round_values.
  rewrite (bind_swap (fun i j => stream (m + n * j + i + 1))).
  rewrite <- seqZ_blocks, fmap_list_bind by lia.
  generalize (seqZ 0 128). intros l. apply reflexive_eq.
  apply list_bind_ext; [|done]. intros j. unfold seqZ.
  rewrite <- !list_fmap_compose. apply list_fmap_ext. intros _ i _. simpl. f_equal. lia.
Qed.

(** What one step of the sequential and of the OpenMP loop does to the table. *)
Definition seq_ops (sz r : Z) : list (Z * Z) := [(r mod sz, r); (sz - r mod sz, r)].
Definition omp_ops (sz r : Z) : list (Z * Z) := [(r mod sz, r); (sz - 1 - r mod sz, r)].

(** The lanes both loops start from. *)
Lemma init_lanes m n :
  0 <= m -> 0 <= n -> m + n * 128 < 2 ^ 63 ->
  for_z 0 128 (fun j ran => r ← HPCC_starts (s64 (u64 (m + n * j))); ran.[j <- r])
    (replicate 128 0) = Some (lanes (fun j => m + n * j) 0 0).
Proof.
  intros Hm Hn Hb. rewrite (tab_replicate 128).
  destruct (for_z_fill 128 (fun j => stream (m + n * j)) (tab (Z.of_nat 128) (fun _ => 0))
    (fun j => HPCC_starts (s64 (u64 (m + n * j))))) as (a & Hrun & Hl & Ha).
  - rewrite alen_tab; lia.
  - intros j Hj. rewrite u64_id, s64_id by (unfold in_u64, in_s64; nia).
    apply HPCC_starts_correct_aux; unfold in_s64; nia.
  - rewrite Hrun. f_equal. rewrite alen_tab in Hl by lia.
    apply array_ext; rewrite Hl; [by unfold lanes; rewrite alen_tab by lia|].
    intros j Hj. rewrite Ha by lia. destruct (Z.ltb_spec j 128); [|lia].
    unfold lanes. rewrite aget_tab by lia.
    destruct (Z.ltb_spec j 0); [lia|]. by rewrite Z.add_0_r.
Qed.

Lemma seq_update_lane sz j s :
  seq_update sz j s
  = lane_update (fun t r => t ← xor_at t (r mod sz) r; xor_at t (sz - r mod sz) r) j s.
Proof.
  destruct s as [t ran]. unfold seq_update, lane_update. simpl.
  destruct (ran.[j]) as [r|]; [|done]. simpl.
  destruct (ran.[j <- lfsr r]); [|done]. simpl.
  destruct (xor_at t (lfsr r mod sz) (lfsr r)); [|done]. simpl. done.
Qed.

Lemma thread_update_lane sz j s :
  thread_update sz j s = lane_update (fun ops r => Some (ops ++ omp_ops sz r)) j s.
Proof. by destruct s. Qed.

Lemma seq_run_stream sz nupdate tbl :
  0 < sz < alen tbl -> 0 <= nupdate < 2 ^ 63 -> nupdate mod 128 = 0 ->
  seq_run sz nupdate tbl
  = Some (apply_ops tbl ((stream <$> seqZ 1 nupdate) ≫= seq_ops sz)).
Proof.
  intros Hsz Hn Hmod. pose proof (Z.div_mod nupdate 128 ltac:(lia)) as Hdm.
  set (n := nupdate / 128) in *. assert (0 <= n) by lia.
  unfold seq_run. fold n.
  pose proof (init_lanes 0 n ltac:(lia) ltac:(lia) ltac:(lia)) as Hinit.
  simpl in Hinit. setoid_rewrite Hinit. cbn [mbind option_bind].
  rewrite (for_z_ext (fun _ s => for_z 0 128 (lane_update
    (fun t r => t ← xor_at t (r mod sz) r; xor_at t (sz - r mod sz) r)) s))
    by (intros; apply for_z_ext; intros; apply seq_update_lane).
  rewrite (lanes_run _ (fun t r => apply_ops t (seq_ops sz r)) (fun t => alen t = alen tbl));
    [|intros t r Ht Hr|intros; nia|done|done].
  - cbn [mbind option_bind fst]. f_equal. unfold apply_ops. rewrite fold_left_bind.
    apply (apply_ops_perm tbl). rewrite (values_cover 0 n) by done. simpl.
    by replace (n * 128) with nupdate by lia.
  - pose proof (Z.mod_pos_bound r sz ltac:(lia)).
    rewrite xor_at_ok by lia. cbn [mbind option_bind].
    rewrite xor_at_ok by (rewrite alen_apply_op; lia).
    split; [done|]. by rewrite alen_apply_ops.
Qed.

Lemma init_table_ok sz heap :
  0 <= sz <= alen heap -> exists tbl, init_table sz heap = Some tbl /\
  alen tbl = alen heap /\
  forall i, 0 <= i -> tbl.[i] = if i <? sz then Some i else heap.[i].
Proof.
  intros Hsz. apply (for_z_fill sz (fun i => i) heap (fun i => Some i)); [done|].
  by intros.
Qed.

(** A second run restores the table, the property HPCC's verification
    phase relies on. *)
Theorem seq_run_involutive sz nupdate tbl tbl' :
  0 < sz -> alen tbl = sz + 2 -> 0 <= nupdate < 2 ^ 63 -> nupdate mod 128 = 0 ->
  seq_run sz nupdate tbl = Some tbl' -> seq_run sz nupdate tbl' = Some tbl.
Proof.
  intros Hsz Hl Hn Hm. rewrite seq_run_stream by lia. intros [= <-].
  rewrite seq_run_stream by (rewrite ?alen_apply_ops; lia). by rewrite apply_ops_invol.
Qed.

Lemma thread_ops_ok sz nupdate nth tid :
  0 < sz -> 0 <= tid < nth -> 0 <= nupdate < 2 ^ 63 ->
  let upt := nupdate / nth in
  thread_ops sz nupdate nth tid
  = Some (values (fun j => tid * upt + upt / 128 * j) (upt / 128) ≫= omp_ops sz).
Proof.
  intros Hsz Htid Hn upt. unfold thread_ops. fold upt.
  assert (0 <= upt) by (apply Z.div_pos; lia).
  assert (nth * upt <= nupdate) by (apply Z.mul_div_le; lia).
  assert (tid * upt + upt <= nupdate) by nia.
  assert (upt / 128 * 128 <= upt) by (rewrite Z.mul_comm; apply Z.mul_div_le; lia).
  assert (0 <= upt / 128) by (apply Z.div_pos; lia).
  rewrite (u64_id (tid * upt)) by (unfold in_u64; nia).
  rewrite init_lanes by nia. cbn [mbind option_bind].
  rewrite (for_z_ext (fun _ s => for_z 0 128 (lane_update
    (fun ops r => Some (ops ++ omp_ops sz r))) s))
    by (intros; apply for_z_ext; intros; apply thread_update_lane).
  rewrite (lanes_run _ (fun ops r => ops ++ omp_ops sz r) (fun _ => True));
    [|done|intros; nia|done|done].
  cbn [mbind option_bind fst]. f_equal. rewrite fold_left_snoc. done.
Qed.

Lemma threads_ok sz nupdate nth :
  0 < sz -> 0 < nth -> 0 <= nupdate < 2 ^ 63 ->
  let upt := nupdate / nth in
  threads sz nupdate nth
  = Some ((fun tid => values (fun j => tid * upt + upt / 128 * j) (upt / 128)
             ≫= omp_ops sz) <$> seqZ 0 nth).
Proof.
  intros Hsz Hnth Hn upt. unfold threads. apply mapM_Some_2, Forall2_fmap_r, Forall_Forall2_diag.
  apply Forall_seqZ. intros tid Htid. by apply thread_ops_ok; [|lia|].
Qed.

(** A step does one pending operation; the pending ones stay the same multiset. *)
Lemma concat_insert_perm {A} (ths : list (list A)) i x rest :
  ths !! i = Some (x :: rest) -> mjoin ths ≡ₚ x :: mjoin (<[i := rest]> ths).
Proof.
  revert i. induction ths as [|th ths IH]; intros [|i] Hi; simplify_eq/=; [done|].
  rewrite (IH i) by done. symmetry. apply Permutation_middle.
Qed.

Lemma omp_step_apply tbl ths tbl' ths' :
  omp_step (tbl, ths) (tbl', ths') ->
  alen tbl' = alen tbl /\
  apply_ops tbl (mjoin ths) = apply_ops tbl' (mjoin ths') /\
  exists op, mjoin ths ≡ₚ op :: mjoin ths'.
Proof.
  intros H. inversion H as [? ? ? i k r rest Hi Hx]; subst.
  assert (0 <= k < alen tbl) as Hk.
  { unfold xor_at in Hx. destruct (tbl.[k]) eqn:E; [|done]. by eapply aget_some_range. }
  rewrite xor_at_ok in Hx by done. injection Hx as <-.
  split; [apply alen_apply_op|]. pose proof (concat_insert_perm _ _ _ _ Hi) as Hp.
  split; [|eauto]. by rewrite (apply_ops_perm _ _ _ Hp).
Qed.

Lemma omp_steps_apply s s' :
  rtc omp_step s s' ->
  alen (fst s') = alen (fst s) /\
  apply_ops (fst s) (mjoin (snd s)) = apply_ops (fst s') (mjoin (snd s')) /\
  mjoin (snd s') ⊆+ mjoin (snd s).
Proof.
  induction 1 as [s|[t1 h1] [t2 h2] s3 Hstep _ (IHl & IHa & IHs)]; [done|].
  apply omp_step_apply in Hstep as (Hl & Ha & op & Hp). simpl in *.
  split; [congruence|]. split; [congruence|].
  rewrite IHs, Hp. by apply submseteq_cons.
Qed.

Definition finished (ths : list (list (Z * Z))) : Prop := Forall (fun th => th = []) ths.

Lemma finished_join ths : finished ths -> mjoin ths = [].
Proof. induction 1 as [|th ths -> _ IH]; [done|]. simpl. exact IH. Qed.

Lemma omp_progress tbl ths :
  Forall (fun op => 0 <= fst op < alen tbl) (mjoin ths) ->
  finished ths \/ exists s, omp_step (tbl, ths) s.
Proof.
  intros Hr. destruct (decide (Forall (fun th => th = []) ths)) as [|Hn]; [by left|right].
  apply not_Forall_Exists in Hn; [|apply _].
  apply Exists_exists in Hn as (th & Hin & Hne). destruct th as [|[k r] rest]; [by destruct Hne|].
  apply list_elem_of_In, list_elem_of_lookup in Hin as [i Hi].
  exists (apply_op tbl (k, r), <[i := rest]> ths). econstructor; [done|].
  apply xor_at_ok. rewrite (concat_insert_perm _ _ _ _ Hi) in Hr.
  by inversion Hr.
Qed.

Lemma omp_ops_range sz (tbl l : list Z) :
  0 < sz <= alen tbl -> Forall (fun op => 0 <= fst op < alen tbl) (l ≫= omp_ops sz).
Proof.
  intros Hsz. apply Forall_bind, Forall_forall. intros r _.
  pose proof (Z.mod_pos_bound r sz ltac:(lia)). repeat constructor; simpl; lia.
Qed.

(** The operations of all threads together, up to order. *)
Lemma threads_cover sz nupdate nth ths :
  0 < sz -> 0 < nth -> 0 <= nupdate < 2 ^ 63 -> threads sz nupdate nth = Some ths ->
  let upt := nupdate / nth in
  mjoin ths ≡ₚ
    (seqZ 0 nth ≫= fun tid => stream <$> seqZ (tid * upt + 1) (upt / 128 * 128)) ≫= omp_ops sz.
Proof.
  intros Hsz Hnth Hn Hths upt. rewrite threads_ok in Hths by done. injection Hths as <-.
  fold upt. rewrite list_join_bind, list_fmap_bind.
  assert (0 <= upt / 128) by (repeat apply Z.div_pos; lia).
  induction (seqZ 0 nth) as [|tid l IH]; [done|]. cbn. rewrite bind_app.
  f_equiv; [|exact IH]. unfold compose. simpl. by rewrite values_cover by done.
Qed.

(** C31: when the threads' shares are whole blocks, every complete interleaving
    of their atomic updates leaves the same table, the one a sequential pass
    over the stream elements 1..[nupdate] leaves, and no interleaving gets
    stuck: as long as updates are pending, one of them can run in bounds. *)
Theorem omp_run_correct sz nupdate nth tbl :
  0 < sz -> alen tbl = sz + 2 -> 0 < nth -> 0 <= nupdate < 2 ^ 63 ->
  nupdate mod (128 * nth) = 0 ->
  exists ths, threads sz nupdate nth = Some ths /\
  forall tbl' ths', rtc omp_step (tbl, ths) (tbl', ths') ->
    (finished ths' ->
       tbl' = apply_ops tbl ((stream <$> seqZ 1 nupdate) ≫= omp_ops sz)) /\
    (~ finished ths' -> exists s, omp_step (tbl', ths') s).
Proof.
  intros Hsz Hl Hnth Hn Hmod. destruct (threads sz nupdate nth) as [ths|] eqn:Hths;
    [|rewrite threads_ok in Hths by done; done].
  exists ths. split; [done|]. intros tbl' ths' Hrun.
  apply omp_steps_apply in Hrun as (Hl' & Ha & Hs). simpl in *.
  pose proof (threads_cover sz nupdate nth ths Hsz Hnth Hn Hths) as Hp.
  split.
  - intros Hf. rewrite (finished_join _ Hf) in Ha. simpl in Ha. rewrite <- Ha.
    apply apply_ops_perm. rewrite Hp. apply reflexive_eq. f_equal.
    apply Z.div_exact in Hmod; [|lia]. set (q := nupdate / (128 * nth)) in *.
    assert (nupdate / nth = 128 * q) as ->.
    { rewrite Hmod. replace (128 * nth * q) with (128 * q * nth) by lia.
      apply Z.div_mul. lia. }
    rewrite (Z.mul_comm 128 q), Z.div_mul by lia.
    rewrite <- fmap_list_bind. f_equal.
    replace nupdate with (q * 128 * nth) by lia. rewrite <- seqZ_blocks by nia.
    apply list_bind_ext; [|done]. intros tid. f_equal. lia.
  - intros Hf. destruct (omp_progress tbl' ths') as [|]; [|done|done].
    assert (Forall (fun op => 0 <= fst op < alen tbl) (mjoin ths)) as Hr
      by (rewrite Hp; apply omp_ops_range; lia).
    rewrite Forall_forall in Hr. rewrite Hl', Forall_forall. intros op Hop. apply Hr. revert Hop.
    rewrite <- !list_elem_of_In. intros Hop. by eapply elem_of_submseteq.
Qed.

(** How many of the [nupdate] updates the OpenMP loops carry out: each
    thread does whole blocks of 128 out of its share, so updates are lost when
    the share is not a multiple of 128, although [nupdate] itself is one. *)
Theorem omp_updates_executed sz nupdate nth ths :
  0 < sz -> 0 < nth -> 0 <= nupdate < 2 ^ 63 -> threads sz nupdate nth = Some ths ->
  alen (mjoin ths) = 2 * (nth * (nupdate / nth / 128 * 128)).
Proof.
  intros Hsz Hnth Hn Hths. unfold alen.
  rewrite (Permutation_length (threads_cover sz nupdate nth ths Hsz Hnth Hn Hths)).
  assert (0 <= nupdate / nth / 128) by (repeat apply Z.div_pos; lia).
  set (m := nupdate / nth / 128 * 128) in *.
  rewrite (length_bind_const 2) by done.
  rewrite (length_bind_const (Z.to_nat m)) by (intros; by rewrite length_fmap, length_seqZ).
  rewrite length_seqZ. nia.
Qed.

Lemma round_nupdate_correct nupdate :
  0 <= nupdate ->
  round_nupdate nupdate mod 128 = 0 /\
  (round_nupdate nupdate <= nupdate \/ 0 < nupdate < 128 /\ round_nupdate nupdate = 128).
Proof.
  intros Hn. unfold round_nupdate. destruct (Z.eqb_spec (nupdate mod 128) 0); [split; [done|lia]|].
  destruct (Z.eqb_spec (nupdate / 128 * 128) 0); (split; [|zdiv]).
  - done.
  - apply Z.mod_mul. done.
Qed.

(** [mem] becomes the largest power of two not above it; the loop never
    reaches the undefined shift when [mem] is positive. *)
Lemma round_mem_correct mem :
  0 < mem < 2 ^ 64 ->
  exists k, 0 <= k < 64 /\ 2 ^ k <= mem < 2 ^ (k + 1) /\
  round_mem mem = Some (if k =? 63 then mem else 2 ^ k).
Proof.
  intros Hm. exists (Z.log2 mem). pose proof (Z.log2_spec mem ltac:(lia)) as Hs.
  assert (Hk : 0 <= Z.log2 mem < 64).
  { split; [apply Z.log2_nonneg|apply Z.log2_lt_pow2; lia]. }
  split; [done|]. split; [by rewrite Z.add_1_r|]. set (k := Z.log2 mem) in *.
  assert (forall fuel i, 0 <= i -> i <= k + 1 -> i + Z.of_nat fuel = 64 ->
    round_mem_from fuel i mem = Some (if k =? 63 then mem else 2 ^ k)) as H;
    [|apply H; lia].
  induction fuel as [|fuel IH]; intros i Hi Hle Hf; simpl.
  - destruct (Z.eqb_spec k 63); [done|lia].
  - rewrite Z.shiftl_1_l. destruct (Z.ltb_spec mem (2 ^ i)).
    + assert (i = k + 1) as ->.
      { destruct (decide (i = k + 1)); [done|].
        assert (2 ^ i <= 2 ^ k) by (apply Z.pow_le_mono_r; lia). lia. }
      destruct (Z.eqb_spec (k + 1) 0), (Z.eqb_spec k 63); try lia.
      rewrite Z.shiftl_1_l. do 2 f_equal. lia.
    + apply IH; [lia| |lia]. destruct (decide (i = k + 1)) as [->|]; [|lia].
      rewrite <- Z.add_1_r in Hs. lia.
Qed.

(** C30: for every table size from one word up and every update count, the
    sequential program rounds the sizes, stays inside the [mem + 16] bytes it
    allocates, and leaves exactly the table that starts as [Table[i] = i] and
    takes the stream elements 1..[nupdate] in order, although the code steps 128
    lanes in lock step; the table size is the largest power of two that fits. *)
Theorem seq_main_correct mem nupdate heap :
  8 <= mem < 2 ^ 63 -> 0 <= nupdate < 2 ^ 63 -> alen heap = alloc_words (2 ^ Z.log2 mem) ->
  exists sz n tbl,
    sz = 2 ^ (Z.log2 mem - 3) /\ n = round_nupdate nupdate /\
    alen tbl = sz + 2 /\ (forall i, 0 <= i < sz -> tbl.[i] = Some i) /\
    seq_main mem nupdate heap
    = Some (apply_ops tbl ((stream <$> seqZ 1 n) ≫= seq_ops sz)).
Proof.
  intros Hm Hn Hheap. unfold seq_main.
  destruct (round_mem_correct mem ltac:(lia)) as (k & Hk & Hp & ->).
  assert (Z.log2 mem = k) as Hlog by (apply Z.log2_unique; [lia|by rewrite <- Z.add_1_r]).
  assert (3 <= k < 63) as Hk'.
  { split; [apply (Z.pow_le_mono_r_iff 2); [lia|lia|]|].
    - change (2 ^ 3) with 8. destruct (decide (k < 3)); [|apply (Z.pow_le_mono_r 2 3); lia].
      assert (2 ^ (k + 1) <= 2 ^ 3) by (apply Z.pow_le_mono_r; lia). lia.
    - apply (Z.pow_lt_mono_r_iff 2); lia. }
  destruct (Z.eqb_spec k 63); [lia|]. cbn [mbind option_bind].
  assert (2 ^ k = 2 ^ (k - 3) * 8) as Hpow.
  { change 8 with (2 ^ 3). rewrite <- Z.pow_add_r by lia. f_equal. lia. }
  assert (0 < 2 ^ (k - 3)) by (apply Z.pow_pos_nonneg; lia).
  rewrite Hlog in Hheap. unfold alloc_words in Hheap.
  replace (2 ^ k / 8) with (2 ^ (k - 3)) by (rewrite Hpow, Z.div_mul; lia).
  assert ((2 ^ k + 16) / 8 = 2 ^ (k - 3) + 2) as Hw.
  { replace (2 ^ k + 16) with ((2 ^ (k - 3) + 2) * 8) by lia. apply Z.div_mul. lia. }
  destruct (init_table_ok (2 ^ (k - 3)) heap) as (tbl & Hinit & Hl & Ht); [lia|].
  rewrite Hinit. cbn [mbind option_bind].
  destruct (round_nupdate_correct nupdate ltac:(lia)) as [Hr1 Hr2].
  exists (2 ^ (k - 3)), (round_nupdate nupdate), tbl.
  rewrite Hlog. do 2 (split; [done|]). split; [lia|]. split.
  - intros i Hi. rewrite Ht by lia. by destruct (Z.ltb_spec i (2 ^ (k - 3))); [|lia].
  - apply seq_run_stream; [lia| |done]. split; [|lia].
    unfold round_nupdate. repeat case_match; zdiv.
Qed.

Lemma seq_main_correct_witness :
  exists sz n tbl,
    sz = 2 ^ (Z.log2 40 - 3) /\ n = round_nupdate 200 /\
    alen tbl = sz + 2 /\ (forall i, 0 <= i < sz -> tbl.[i] = Some i) /\
    seq_main 40 200 [9; 9; 9; 9; 7; 7]
    = Some (apply_ops tbl ((stream <$> seqZ 1 n) ≫= seq_ops sz)).
Proof.
  apply (seq_main_correct 40 200 [9; 9; 9; 9; 7; 7]); [lia|lia|reflexivity].
Defined.

Lemma seq_run_involutive_witness :
  match seq_run 4 128 [0; 1; 2; 3; 7; 7] with
  | Some t => seq_run 4 128 t = Some [0; 1; 2; 3; 7; 7]
  | None => False
  end.
Proof.
  destruct (seq_run 4 128 [0; 1; 2; 3; 7; 7]) as [t|] eqn:E;
    [|vm_compute in E; discriminate].
  apply (seq_run_involutive 4 128 [0; 1; 2; 3; 7; 7] t);
    [lia|reflexivity|lia|reflexivity|exact E].
Defined.

Lemma omp_run_correct_witness :
  exists ths, threads 4 256 2 = Some ths /\
  forall tbl' ths', rtc omp_step ([0; 1; 2; 3; 7; 7], ths) (tbl', ths') ->
    (finished ths' -> tbl' = apply_ops [0; 1; 2; 3; 7; 7]
                               ((stream <$> seqZ 1 256) ≫= omp_ops 4)) /\
    (~ finished ths' -> exists s, omp_step (tbl', ths') s).
Proof.
  apply (omp_run_correct 4 256 2 [0; 1; 2; 3; 7; 7]); [lia|reflexivity|lia|lia|reflexivity].
Defined.

(** With three threads a run of 384 updates does them all; with two it does 256. *)
Lemma omp_updates_executed_witness :
  match threads 4 384 2 with
  | Some ths => alen (mjoin ths) = 2 * 256
  | None => False
  end.
Proof.
  destruct (threads 4 384 2) as [ths|] eqn:E; [|vm_compute in E; discriminate].
  apply (omp_updates_executed 4 384 2 ths); [lia|lia|lia|exact E].
Defined.

End Gups.
