(* ===== verification/GupsToy.v ===== *)
(** * The smaller GUPS (sources/gups/gupstoy.c)

    The same generator and the same update loop as in gups.c, built without
    OpenMP, with a table of 2^27 words that is allocated without room to spare:
    where gups.c asks for two more words than the table has, gupstoy.c does not,
    and the second update of a step is one word off. *)

From stdpp Require Import list numbers.
From Stdlib Require Import ZArith Lia.
From S2P Require Import Prelude Arrays Gups.
#[local] Open Scope Z_scope.

Module GupsToy.
Import Gups.

Definition NUPDATE : Z := 2 ^ 29.
Definition toy_mem : Z := 2 ^ 30.
Definition TableSize : Z := toy_mem / 8.

(** [real_main] without OpenMP; [heap] is what [malloc(mem)] returns.  The loops
    are those of [seq_run]: the starts of the 128 streams, then the updates of
    [Table[elm]] and [Table[TableSize - elm]]. *)
Definition toy_main (heap : list Z) : option (list Z) :=
  tbl ← init_table TableSize heap;
  seq_run TableSize NUPDATE tbl.

(** The first stream starts at 1 and is a power of two for 62 steps. *)
Lemma lfsr_power i : 0 <= i < 62 -> lfsr (2 ^ i) = 2 ^ (i + 1).
Proof.
  intros Hi. assert (0 < 2 ^ i) by (apply Z.pow_pos_nonneg; lia). assert (2 ^ i < 2 ^ 62) by (apply Z.pow_lt_mono_r; lia).
  unfold lfsr. rewrite s64_id by (unfold in_s64; lia). destruct (Z.ltb_spec (2 ^ i) 0); [lia|]. rewrite Z.lxor_0_r, Z.shiftl_mul_pow2 by lia.
  rewrite u64_id by (unfold in_u64; lia). rewrite Z.pow_add_r by lia. done.
Qed.

(** One step of lane [j] keeps the other lanes and the sizes. *)
Lemma seq_update_partial sz j tbl ran tbl' ran' :
  seq_update sz j (tbl, ran) = Some (tbl', ran') ->
  alen tbl' = alen tbl /\ alen ran' = alen ran /\ (forall k, k <> j -> ran'.[k] = ran.[k]) /\
  exists r, ran.[j] = Some r /\ ran'.[j] = Some (lfsr r) /\ sz - lfsr r mod sz < alen tbl.
Proof.
  unfold seq_update. destruct (ran.[j]) as [r|] eqn:Er; [|done]. cbn [mbind option_bind]. pose proof (aget_some_range _ _ _ Er) as Hj.
  rewrite aset_in by done. cbn [mbind option_bind]. unfold xor_at. set (elm := lfsr r mod sz).
  destruct (tbl.[elm]) as [t|] eqn:E1; [|done]. cbn [mbind option_bind]. pose proof (aget_some_range _ _ _ E1) as H1. rewrite aset_in by done. cbn [mbind option_bind].
  destruct (aget (<[Z.to_nat elm := _]> tbl) (sz - elm)) as [u|] eqn:E2; [|done]. cbn [mbind option_bind]. pose proof (aget_some_range _ _ _ E2) as H2.
  rewrite aset_in by done. cbn [mbind option_bind]. intros [= <- <-]. rewrite alen_insert in H2. rewrite !alen_insert. split; [done|]. split; [done|]. split.
  - intros k Hk. rewrite aget_insert by done. by rewrite decide_False.
  - exists r. rewrite aget_insert by done. rewrite decide_True by done. split; [done|]. split; [done|]. lia.
Qed.

(** A round multiplies the first lane by two; it cannot be carried out when that
    makes the lane the size of the table. *)
Lemma toy_round sz d i tbl ran tbl' ran' :
  sz = 2 ^ (d + 1) -> 0 <= i <= d -> d < 62 -> alen tbl = sz -> ran.[0] = Some (2 ^ i) ->
  for_z 0 128 (seq_update sz) (tbl, ran) = Some (tbl', ran') ->
  alen tbl' = sz /\ ran'.[0] = Some (2 ^ (i + 1)) /\ i <> d.
Proof.
  intros Hsz Hi Hd Ht Hr Hrun. assert (0 < sz) by (subst sz; apply Z.pow_pos_nonneg; lia).
  destruct (for_z_partial (fun j '(t, r) => alen t = sz /\ r.[0] = Some (if j =? 0 then 2 ^ i else 2 ^ (i + 1)) /\ (0 < j -> i <> d))
    0 128 (seq_update sz) (tbl, ran) (tbl', ran')) as (H1 & H2 & H3); [lia|cbn; by split; [|split; [|lia]]| |done|by split; [|split; [|apply H3; lia]]].
  intros j [t r] [t' r'] Hj (Hl & H0 & Hne) Hstep. destruct (seq_update_partial _ _ _ _ _ _ Hstep) as (Hl' & _ & Hother & w & Hw & Hw' & Hin).
  destruct (Z.eqb_spec (j + 1) 0); [lia|]. split; [congruence|]. destruct (Z.eqb_spec j 0) as [->|].
  - rewrite H0 in Hw. injection Hw as <-. rewrite lfsr_power in Hw', Hin by lia. split; [done|]. intros _ ->.
    rewrite <- Hsz, Z.mod_same in Hin by lia. lia.
  - split; [by rewrite Hother by lia|]. intros _. apply Hne. lia.
Qed.

(** The start of the first stream. *)
Lemma toy_first n ran :
  for_z 0 128 (fun j ran => r ← HPCC_starts (s64 (u64 (n / 128 * j))); ran.[j <- r]) (replicate 128 0) = Some ran -> ran.[0] = Some 1.
Proof.
  intros Einit. refine (for_z_partial (fun j r => 0 < j -> r.[0] = Some 1) 0 128 _ _ ran _ _ _ Einit _); [lia|lia| |lia]. intros j r r' Hj H0.
  destruct (HPCC_starts _) as [w|] eqn:Ew; [|done]. cbn [mbind option_bind]. intros [Hr ->]%aset_some _. rewrite aget_insert by done.
  case_decide as Hd; [|apply H0; lia]. subst j. rewrite Z.mul_0_r in Ew. vm_compute in Ew. congruence.
Qed.

Lemma toy_run_fails sz n d tbl : sz = 2 ^ (d + 1) -> 0 <= d < 62 -> d < n / 128 -> alen tbl = sz -> seq_run sz n tbl = None.
Proof.
  intros Hsz Hd Hn Hl. unfold seq_run. match goal with |- (?o ≫= _) = None => destruct o as [ran|] eqn:Einit end; [|done]. cbn [mbind option_bind].
  apply toy_first in Einit as Hr0. match goal with |- (?o ≫= _) = None => destruct o as [[t r]|] eqn:Erun end; [|done]. exfalso.
  enough (n / 128 <= d) by lia.
  destruct (for_z_partial (fun i '(t, r) => alen t = sz /\ r.[0] = Some (2 ^ i) /\ i <= d) 0 (n / 128)
    (fun _ s => for_z 0 128 (seq_update sz) s) (tbl, ran) (t, r)) as (_ & _ & ?); [lia|by split; [|split; [|lia]]| |done|done].
  intros i [t1 r1] [t2 r2] Hi (Ht1 & Hr1 & Hid) Hround. destruct (toy_round sz d i t1 r1 t2 r2 Hsz ltac:(lia) ltac:(lia) Ht1 Hr1 Hround) as (Ht2 & Hr2 & Hne).
  split; [done|]. split; [done|lia].
Qed.

(** Gupstoy writes behind its table.  Whatever the memory holds, in the 27th
    round the first stream is 2^27, the size of the table, and the second update
    of the step goes to [Table[TableSize]]: the run never ends regularly. *)
Theorem toy_out_of_bounds heap : alen heap = TableSize -> toy_main heap = None.
Proof.
  intros Hh. unfold toy_main. destruct (init_table_ok TableSize heap) as (tbl & -> & Hl & _); [rewrite Hh; done|]. cbn [mbind option_bind].
  apply (toy_run_fails _ _ 26); [done|lia|done|]. by rewrite Hl.
Qed.

Lemma toy_out_of_bounds_witness : toy_main (replicate (Z.to_nat TableSize) 0) = None.
Proof.
  apply toy_out_of_bounds. unfold alen. rewrite length_replicate, Z2Nat.id; [reflexivity|]. unfold TableSize, toy_mem. apply Z.div_pos; lia.
Defined.

End GupsToy.
