(* ===== verification/Murmur.v ===== *)
(** * MurmurHash3 (sources/hashjoin/src/murmurhash.c)

    The three variants of the hash over a buffer of bytes, the finalizers as
    bijections, and the inversion of the 128-bit hash on 8-byte keys, the only
    keys the hash join feeds it. *)

From Stdlib Require Import ZArith Lia.
From stdpp Require Import list numbers.
From S2P Require Import Prelude Arrays.
#[local] Open Scope Z_scope.

Module Murmur.

Definition rotl32 (x r : Z) : Z := Z.lor (u32 (Z.shiftl x r)) (Z.shiftr x (32 - r)).
Definition rotl64 (x r : Z) : Z := Z.lor (u64 (Z.shiftl x r)) (Z.shiftr x (64 - r)).

(** [getblock(p, i)]: little-endian words of a byte buffer. *)
Fixpoint le_word (bytes : list Z) : Z :=
  match bytes with [] => 0 | b :: bytes => b + 256 * le_word bytes end.

Definition getblock (w : nat) (data : list Z) (i : Z) : option Z :=
  bytes ← mapM (fun j => data.[Z.of_nat w * i + j]) (seqZ 0 (Z.of_nat w));
  Some (le_word bytes).

Definition fmix32 (h : Z) : Z :=
  let h := Z.lxor h (Z.shiftr h 16) in
  let h := u32 (h * 0x85ebca6b) in
  let h := Z.lxor h (Z.shiftr h 13) in
  let h := u32 (h * 0xc2b2ae35) in
  Z.lxor h (Z.shiftr h 16).

Definition fmix64 (k : Z) : Z :=
  let k := Z.lxor k (Z.shiftr k 33) in
  let k := u64 (k * 0xff51afd7ed558ccd) in
  let k := Z.lxor k (Z.shiftr k 33) in
  let k := u64 (k * 0xc4ceb9fe1a85ec53) in
  Z.lxor k (Z.shiftr k 33).

(** [case n: k ^= tail[n - 1] << sh;] of a switch on [r] that falls through from
    the higher cases. *)
Definition tail_byte (r n : Z) (tail : list Z) (sh k : Z) : option Z :=
  if n <=? r then b ← tail.[n - 1]; Some (Z.lxor k (Z.shiftl b sh)) else Some k.

(** [k *= a; k = ROTL(k, r); k *= b;] *)
Definition mix32 (a r b k : Z) : Z := u32 (rotl32 (u32 (k * a)) r * b).
Definition mix64 (a r b k : Z) : Z := u64 (rotl64 (u64 (k * a)) r * b).

(** ** MurmurHash3_x86_32 *)

Definition x86_32_c1 : Z := 0xcc9e2d51.
Definition x86_32_c2 : Z := 0x1b873593.

Definition MurmurHash3_x86_32 (key : list Z) (len seed : Z) : option Z :=
  let nblocks := len / 4 in
  h1 ← for_z (- nblocks) 0 (fun i h1 =>
         k1 ← getblock 4 key (nblocks + i);
         let h1 := Z.lxor h1 (mix32 x86_32_c1 15 x86_32_c2 k1) in
         Some (u32 (u32 (rotl32 h1 13 * 5) + 0xe6546b64))) seed;
  let tail := drop (Z.to_nat (nblocks * 4)) key in
  let r := Z.land len 3 in
  k1 ← tail_byte r 3 tail 16 0;
  k1 ← tail_byte r 2 tail 8 k1;
  h1 ← (if 1 <=? r then
          k1 ← tail_byte r 1 tail 0 k1;
          Some (Z.lxor h1 (mix32 x86_32_c1 15 x86_32_c2 k1))
        else Some h1);
  Some (fmix32 (Z.lxor h1 len)).

(** ** MurmurHash3_x86_128 *)

Definition x86_128_c1 : Z := 0x239b961b.
Definition x86_128_c2 : Z := 0xab0e9789.
Definition x86_128_c3 : Z := 0x38b34ae5.
Definition x86_128_c4 : Z := 0xa1e38b93.

Definition x86_128_block (key : list Z) (nblocks i : Z) (h : Z * Z * Z * Z)
    : option (Z * Z * Z * Z) :=
  let '(h1, h2, h3, h4) := h in
  k1 ← getblock 4 key ((nblocks + i) * 4 + 0);
  k2 ← getblock 4 key ((nblocks + i) * 4 + 1);
  k3 ← getblock 4 key ((nblocks + i) * 4 + 2);
  k4 ← getblock 4 key ((nblocks + i) * 4 + 3);
  let h1 := rotl32 (Z.lxor h1 (mix32 x86_128_c1 15 x86_128_c2 k1)) 19 in
  let h1 := u32 (u32 (u32 (h1 + h2) * 5) + 0x561ccd1b) in
  let h2 := rotl32 (Z.lxor h2 (mix32 x86_128_c2 16 x86_128_c3 k2)) 17 in
  let h2 := u32 (u32 (u32 (h2 + h3) * 5) + 0x0bcaa747) in
  let h3 := rotl32 (Z.lxor h3 (mix32 x86_128_c3 17 x86_128_c4 k3)) 15 in
  let h3 := u32 (u32 (u32 (h3 + h4) * 5) + 0x96cd1c35) in
  let h4 := rotl32 (Z.lxor h4 (mix32 x86_128_c4 18 x86_128_c1 k4)) 13 in
  let h4 := u32 (u32 (u32 (h4 + h1) * 5) + 0x32ac3b17) in
  Some (h1, h2, h3, h4).

Definition x86_128_tail (tail : list Z) (r : Z) (h : Z * Z * Z * Z)
    : option (Z * Z * Z * Z) :=
  let '(h1, h2, h3, h4) := h in
  k4 ← tail_byte r 15 tail 16 0;
  k4 ← tail_byte r 14 tail 8 k4;
  h4 ← (if 13 <=? r then
          k4 ← tail_byte r 13 tail 0 k4;
          Some (Z.lxor h4 (mix32 x86_128_c4 18 x86_128_c1 k4))
        else Some h4);
  k3 ← tail_byte r 12 tail 24 0;
  k3 ← tail_byte r 11 tail 16 k3;
  k3 ← tail_byte r 10 tail 8 k3;
  h3 ← (if 9 <=? r then
          k3 ← tail_byte r 9 tail 0 k3;
          Some (Z.lxor h3 (mix32 x86_128_c3 17 x86_128_c4 k3))
        else Some h3);
  k2 ← tail_byte r 8 tail 24 0;
  k2 ← tail_byte r 7 tail 16 k2;
  k2 ← tail_byte r 6 tail 8 k2;
  h2 ← (if 5 <=? r then
          k2 ← tail_byte r 5 tail 0 k2;
          Some (Z.lxor h2 (mix32 x86_128_c2 16 x86_128_c3 k2))
        else Some h2);
  k1 ← tail_byte r 4 tail 24 0;
  k1 ← tail_byte r 3 tail 16 k1;
  k1 ← tail_byte r 2 tail 8 k1;
  h1 ← (if 1 <=? r then
          k1 ← tail_byte r 1 tail 0 k1;
          Some (Z.lxor h1 (mix32 x86_128_c1 15 x86_128_c2 k1))
        else Some h1);
  Some (h1, h2, h3, h4).

(** [h1 += h2; h1 += h3; h1 += h4; h2 += h1; h3 += h1; h4 += h1;] *)
Definition x86_128_add (h : Z * Z * Z * Z) : Z * Z * Z * Z :=
  let '(h1, h2, h3, h4) := h in
  let h1 := u32 (u32 (u32 (h1 + h2) + h3) + h4) in
  (h1, u32 (h2 + h1), u32 (h3 + h1), u32 (h4 + h1)).

Definition MurmurHash3_x86_128 (key : list Z) (len seed : Z) : option (Z * Z * Z * Z) :=
  let nblocks := len / 16 in
  h ← for_z (- nblocks) 0 (x86_128_block key nblocks) (seed, seed, seed, seed);
  '(h1, h2, h3, h4) ← x86_128_tail (drop (Z.to_nat (nblocks * 16)) key) (Z.land len 15) h;
  let '(h1, h2, h3, h4) :=
    x86_128_add (Z.lxor h1 len, Z.lxor h2 len, Z.lxor h3 len, Z.lxor h4 len) in
  Some (x86_128_add (fmix32 h1, fmix32 h2, fmix32 h3, fmix32 h4)).

(** ** MurmurHash3_x64_128 *)

Definition x64_c1 : Z := 0x87c37b91114253d5.
Definition x64_c2 : Z := 0x4cf5ad432745937f.

Definition x64_128_block (key : list Z) (i : Z) (h : Z * Z) : option (Z * Z) :=
  let '(h1, h2) := h in
  k1 ← getblock 8 key (i * 2 + 0);
  k2 ← getblock 8 key (i * 2 + 1);
  let h1 := rotl64 (Z.lxor h1 (mix64 x64_c1 31 x64_c2 k1)) 27 in
  let h1 := u64 (u64 (u64 (h1 + h2) * 5) + 0x52dce729) in
  let h2 := rotl64 (Z.lxor h2 (mix64 x64_c2 33 x64_c1 k2)) 31 in
  let h2 := u64 (u64 (u64 (h2 + h1) * 5) + 0x38495ab5) in
  Some (h1, h2).

Definition x64_128_tail (tail : list Z) (r : Z) (h : Z * Z) : option (Z * Z) :=
  let '(h1, h2) := h in
  k2 ← tail_byte r 15 tail 48 0;
  k2 ← tail_byte r 14 tail 40 k2;
  k2 ← tail_byte r 13 tail 32 k2;
  k2 ← tail_byte r 12 tail 24 k2;
  k2 ← tail_byte r 11 tail 16 k2;
  k2 ← tail_byte r 10 tail 8 k2;
  h2 ← (if 9 <=? r then
          k2 ← tail_byte r 9 tail 0 k2;
          Some (Z.lxor h2 (mix64 x64_c2 33 x64_c1 k2))
        else Some h2);
  k1 ← tail_byte r 8 tail 56 0;
  k1 ← tail_byte r 7 tail 48 k1;
  k1 ← tail_byte r 6 tail 40 k1;
  k1 ← tail_byte r 5 tail 32 k1;
  k1 ← tail_byte r 4 tail 24 k1;
  k1 ← tail_byte r 3 tail 16 k1;
  k1 ← tail_byte r 2 tail 8 k1;
  h1 ← (if 1 <=? r then
          k1 ← tail_byte r 1 tail 0 k1;
          Some (Z.lxor h1 (mix64 x64_c1 31 x64_c2 k1))
        else Some h1);
  Some (h1, h2).

(** [h1 += h2; h2 += h1;] *)
Definition x64_128_add (h : Z * Z) : Z * Z :=
  let '(h1, h2) := h in let h1 := u64 (h1 + h2) in (h1, u64 (h2 + h1)).

Definition MurmurHash3_x64_128 (key : list Z) (len seed : Z) : option (Z * Z) :=
  let nblocks := len / 16 in
  h ← for_z 0 nblocks (x64_128_block key) (seed, seed);
  '(h1, h2) ← x64_128_tail (drop (Z.to_nat (nblocks * 16)) key) (Z.land len 15) h;
  let '(h1, h2) := x64_128_add (Z.lxor h1 len, Z.lxor h2 len) in
  Some (x64_128_add (fmix64 h1, fmix64 h2)).

(** ** Inverses *)

Definition unfmix32 (h : Z) : Z :=
  let h := Z.lxor h (Z.shiftr h 16) in
  let h := u32 (h * 0x7ed1b41d) in
  let h := Z.lxor h (Z.lxor (Z.shiftr h 13) (Z.shiftr h 26)) in
  let h := u32 (h * 0xa5cb9243) in
  Z.lxor h (Z.shiftr h 16).

Definition unfmix64 (k : Z) : Z :=
  let k := Z.lxor k (Z.shiftr k 33) in
  let k := u64 (k * 0x9cb4b2f8129337db) in
  let k := Z.lxor k (Z.shiftr k 33) in
  let k := u64 (k * 0x4f74430c22a54005) in
  Z.lxor k (Z.shiftr k 33).

(** Undoes [mix64 x64_c1 31 x64_c2]. *)
Definition unmix64 (k : Z) : Z :=
  u64 (rotl64 (u64 (k * 0xa81e14edd9de2c7f)) 33 * 0xa98409e882ce4d7d).

(** The key from the two words of its hash. *)
Definition unhash (seed : Z) (out : Z * Z) : Z :=
  let '(o1, o2) := out in
  let f2 := u64 (o2 - o1) in
  let f1 := u64 (o1 - f2) in
  let h1 := unfmix64 f1 in
  let h1 := u64 (h1 - Z.lxor seed 8) in
  unmix64 (Z.lxor (Z.lxor h1 8) seed).

Lemma shiftr_range w x s : 0 <= s -> 0 <= x < 2 ^ w -> 0 <= Z.shiftr x s < 2 ^ w.
Proof.
  intros Hs Hx. rewrite Z.shiftr_div_pow2 by done. split; [apply Z.div_pos; lia|].
  apply Z.le_lt_trans with x; [|lia]. apply Z.div_le_upper_bound; [lia|]. nia.
Qed.

Lemma xorshift_range w x s : 0 <= w -> 0 <= s -> 0 <= x < 2 ^ w -> 0 <= Z.lxor x (Z.shiftr x s) < 2 ^ w.
Proof. intros. apply lxor_range; auto using shiftr_range. Qed.

(** A shift by at least half of the width is undone by itself. *)
Lemma xorshift_invol w x s :
  0 <= w -> w <= 2 * s -> 0 <= x < 2 ^ w ->
  Z.lxor (Z.lxor x (Z.shiftr x s)) (Z.shiftr (Z.lxor x (Z.shiftr x s)) s) = x.
Proof.
  intros Hw Hs Hx. rewrite Z.shiftr_lxor, Z.shiftr_shiftr by lia.
  assert (Z.shiftr x (s + s) = 0) as ->.
  { rewrite Z.shiftr_div_pow2 by lia. apply Z.div_small. split; [lia|].
    apply Z.lt_le_trans with (2 ^ w); [lia|]. apply Z.pow_le_mono_r; lia. }
  rewrite Z.lxor_0_r. by rewrite Z.lxor_assoc, Z.lxor_nilpotent, Z.lxor_0_r.
Qed.

(** Thirteen bits of thirty-two need two terms. *)
Lemma xorshift13_l x :
  0 <= x < 2 ^ 32 ->
  let y := Z.lxor x (Z.shiftr x 13) in
  Z.lxor y (Z.lxor (Z.shiftr y 13) (Z.shiftr y 26)) = x.
Proof.
  intros Hx y. unfold y. rewrite !Z.shiftr_lxor, !Z.shiftr_shiftr by lia. change (13 + 13) with 26.
  assert (Z.shiftr x (13 + 26) = 0) as ->.
  { rewrite Z.shiftr_div_pow2 by lia. apply Z.div_small. lia. }
  xor_solve.
Qed.

Lemma xorshift13_r y :
  0 <= y < 2 ^ 32 ->
  let x := Z.lxor y (Z.lxor (Z.shiftr y 13) (Z.shiftr y 26)) in
  Z.lxor x (Z.shiftr x 13) = y.
Proof.
  intros Hy x. unfold x. rewrite !Z.shiftr_lxor, !Z.shiftr_shiftr by lia. change (13 + 13) with 26.
  assert (Z.shiftr y (26 + 13) = 0) as ->.
  { rewrite Z.shiftr_div_pow2 by lia. apply Z.div_small. lia. }
  xor_solve.
Qed.

Lemma mul_inv w a b x :
  0 <= x < 2 ^ w -> (a * b) mod 2 ^ w = 1 mod 2 ^ w -> ((x * a) mod 2 ^ w * b) mod 2 ^ w = x.
Proof.
  intros Hx Hab. rewrite Z.mul_mod_idemp_l by lia. rewrite <- Z.mul_assoc.
  rewrite <- Z.mul_mod_idemp_r, Hab, Z.mul_mod_idemp_r, Z.mul_1_r by lia.
  by apply Z.mod_small.
Qed.

Lemma fmix64_inv k : in_u64 k -> unfmix64 (fmix64 k) = k.
Proof.
  intros Hk. unfold unfmix64, fmix64. cbv zeta. unfold u64, in_u64 in *.
  set (k1 := Z.lxor k (Z.shiftr k 33)). assert (0 <= k1 < 2 ^ 64) by (by apply xorshift_range).
  set (k2 := (k1 * _) mod _). assert (0 <= k2 < 2 ^ 64) by (by apply Z.mod_pos_bound).
  set (k3 := Z.lxor k2 (Z.shiftr k2 33)). assert (0 <= k3 < 2 ^ 64) by (by apply xorshift_range).
  set (k4 := (k3 * _) mod _). assert (0 <= k4 < 2 ^ 64) by (by apply Z.mod_pos_bound).
  rewrite (xorshift_invol 64 k4) by (done || lia). unfold k4. rewrite mul_inv by done.
  unfold k3. rewrite (xorshift_invol 64 k2) by (done || lia). unfold k2. rewrite mul_inv by done.
  unfold k1. by rewrite (xorshift_invol 64 k) by (done || lia).
Qed.

Lemma unfmix64_inv k : in_u64 k -> fmix64 (unfmix64 k) = k.
Proof.
  intros Hk. unfold unfmix64, fmix64. cbv zeta. unfold u64, in_u64 in *.
  set (k1 := Z.lxor k (Z.shiftr k 33)). assert (0 <= k1 < 2 ^ 64) by (by apply xorshift_range).
  set (k2 := (k1 * _) mod _). assert (0 <= k2 < 2 ^ 64) by (by apply Z.mod_pos_bound).
  set (k3 := Z.lxor k2 (Z.shiftr k2 33)). assert (0 <= k3 < 2 ^ 64) by (by apply xorshift_range).
  set (k4 := (k3 * _) mod _). assert (0 <= k4 < 2 ^ 64) by (by apply Z.mod_pos_bound).
  rewrite (xorshift_invol 64 k4) by (done || lia). unfold k4. rewrite mul_inv by done.
  unfold k3. rewrite (xorshift_invol 64 k2) by (done || lia). unfold k2. rewrite mul_inv by done.
  unfold k1. by rewrite (xorshift_invol 64 k) by (done || lia).
Qed.

Lemma fmix32_inv h : in_u32 h -> unfmix32 (fmix32 h) = h.
Proof.
  intros Hh. unfold unfmix32, fmix32. cbv zeta. unfold u32, in_u32 in *.
  set (k1 := Z.lxor h (Z.shiftr h 16)). assert (0 <= k1 < 2 ^ 32) by (by apply xorshift_range).
  set (k2 := (k1 * _) mod _). assert (0 <= k2 < 2 ^ 32) by (by apply Z.mod_pos_bound).
  set (k3 := Z.lxor k2 (Z.shiftr k2 13)). assert (0 <= k3 < 2 ^ 32) by (by apply xorshift_range).
  set (k4 := (k3 * _) mod _). assert (0 <= k4 < 2 ^ 32) by (by apply Z.mod_pos_bound).
  rewrite (xorshift_invol 32 k4) by (done || lia). unfold k4. rewrite mul_inv by done.
  unfold k3. rewrite xorshift13_l by done. unfold k2. rewrite mul_inv by done.
  unfold k1. by rewrite (xorshift_invol 32 h) by (done || lia).
Qed.

Lemma unfmix32_inv h : in_u32 h -> fmix32 (unfmix32 h) = h.
Proof.
  intros Hh. unfold unfmix32, fmix32. cbv zeta. unfold u32, in_u32 in *.
  set (k1 := Z.lxor h (Z.shiftr h 16)). assert (0 <= k1 < 2 ^ 32) by (by apply xorshift_range).
  set (k2 := (k1 * _) mod _). assert (0 <= k2 < 2 ^ 32) by (by apply Z.mod_pos_bound).
  set (k3 := Z.lxor k2 (Z.lxor _ _)). assert (0 <= k3 < 2 ^ 32)
    by (apply lxor_range; [lia|done|]; apply lxor_range; [lia|apply shiftr_range; [lia|done]..]).
  set (k4 := (k3 * _) mod _). assert (0 <= k4 < 2 ^ 32) by (by apply Z.mod_pos_bound).
  rewrite (xorshift_invol 32 k4) by (done || lia). unfold k4. rewrite mul_inv by done.
  unfold k3. rewrite xorshift13_r by done. unfold k2. rewrite mul_inv by done.
  unfold k1. by rewrite (xorshift_invol 32 h) by (done || lia).
Qed.

(** Both finalizers are bijections of their word, with the inverses
    [unfmix32] and [unfmix64]: no two hash states are confused by them. *)
Theorem fmix_bijective :
  (forall h, in_u32 h -> in_u32 (fmix32 h) /\ unfmix32 (fmix32 h) = h /\ fmix32 (unfmix32 h) = h) /\
  (forall k, in_u64 k -> in_u64 (fmix64 k) /\ unfmix64 (fmix64 k) = k /\ fmix64 (unfmix64 k) = k).
Proof.
  split; intros x Hx; (split; [|auto using fmix32_inv, unfmix32_inv, fmix64_inv, unfmix64_inv]).
  - apply xorshift_range; [lia..|]. apply u32_range.
  - apply xorshift_range; [lia..|]. apply u64_range.
Qed.

(** ** Rotations *)

Definition rotl (w x r : Z) : Z := Z.lor (Z.shiftl x r mod 2 ^ w) (Z.shiftr x (w - r)).

Lemma rotl_bit w x r i :
  0 < r < w -> 0 <= x < 2 ^ w -> 0 <= i ->
  Z.testbit (rotl w x r) i = (i <? w) && Z.testbit x ((i - r) mod w).
Proof.
  intros Hr Hx Hi. unfold rotl. rewrite Z.lor_spec, Z.shiftr_spec by lia.
  destruct (Z.ltb_spec i w); simpl.
  - rewrite Z.mod_pow2_bits_low, Z.shiftl_spec by lia. destruct (decide (i < r)).
    + rewrite Z.testbit_neg_r by lia. simpl. f_equal.
      apply Z.mod_unique with (-1); lia.
    + rewrite (testbit_high w x (i + (w - r))) by lia.
      rewrite orb_false_r. f_equal. symmetry. apply Z.mod_small. lia.
  - rewrite Z.mod_pow2_bits_high, (testbit_high w x) by lia. done.
Qed.

Lemma rotl_range w x r : 0 < r < w -> 0 <= x < 2 ^ w -> 0 <= rotl w x r < 2 ^ w.
Proof.
  intros Hr Hx. apply lor_range; [lia|apply Z.mod_pos_bound; lia|].
  apply shiftr_range; [lia|done].
Qed.

Lemma rotl_inv w x r : 0 < r < w -> 0 <= x < 2 ^ w -> rotl w (rotl w x r) (w - r) = x.
Proof.
  intros Hr Hx. apply Z.bits_inj'. intros i Hi.
  rewrite rotl_bit by (lia || done || by apply rotl_range).
  destruct (Z.ltb_spec i w); simpl; [|symmetry; apply (testbit_high w); lia].
  rewrite rotl_bit by (lia || apply Z.mod_pos_bound; lia).
  pose proof (Z.mod_pos_bound (i - (w - r)) w ltac:(lia)).
  destruct (Z.ltb_spec ((i - (w - r)) mod w) w); [|lia]. simpl. f_equal.
  rewrite Zminus_mod_idemp_l. replace (i - (w - r) - r) with (i + (-1) * w) by lia.
  rewrite Z_mod_plus_full. apply Z.mod_small. lia.
Qed.

Lemma mix64_inv k : in_u64 k -> unmix64 (mix64 x64_c1 31 x64_c2 k) = k.
Proof.
  intros Hk. unfold unmix64, mix64, u64, in_u64 in *.
  change (rotl64 ?x ?r) with (rotl 64 x r).
  set (k1 := (k * _) mod _). assert (0 <= k1 < 2 ^ 64) by (by apply Z.mod_pos_bound).
  rewrite (mul_inv 64 x64_c2 0xa81e14edd9de2c7f) by (done || by apply rotl_range; lia).
  change 33 with (64 - 31). rewrite rotl_inv by (done || lia).
  unfold k1. by apply mul_inv.
Qed.

(** ** Keys of eight bytes *)

(** The bytes of a [uint64_t] in memory. *)
Definition key_byte (k j : Z) : Z := (k / 2 ^ (8 * j)) mod 2 ^ 8.
Definition key_bytes (k : Z) : list Z := tab 8 (key_byte k).

Lemma key_byte_bit k j i :
  0 <= j -> 0 <= i ->
  Z.testbit (Z.shiftl (key_byte k j) (8 * j)) i
  = (i / 8 =? j) && Z.testbit k i.
Proof.
  intros Hj Hi. unfold key_byte. rewrite Z.shiftl_spec by lia.
  destruct (Z.eqb_spec (i / 8) j); simpl.
  - rewrite Z.mod_pow2_bits_low, Z.div_pow2_bits by zdiv. f_equal. lia.
  - destruct (decide (i < 8 * j)); [apply Z.testbit_neg_r; lia|].
    apply Z.mod_pow2_bits_high. zdiv.
Qed.

(** The bytes, shifted to their places, make up the word. *)
Lemma key_bytes_word k :
  in_u64 k ->
  Z.lxor (Z.lxor (Z.lxor (Z.lxor (Z.lxor (Z.lxor (Z.lxor (Z.lxor 0
    (Z.shiftl (key_byte k 7) 56)) (Z.shiftl (key_byte k 6) 48)) (Z.shiftl (key_byte k 5) 40))
    (Z.shiftl (key_byte k 4) 32)) (Z.shiftl (key_byte k 3) 24)) (Z.shiftl (key_byte k 2) 16))
    (Z.shiftl (key_byte k 1) 8)) (Z.shiftl (key_byte k 0) 0) = k.
Proof.
  intros Hk. apply Z.bits_inj'. intros i Hi. rewrite !Z.lxor_spec, Z.bits_0.
  change (Z.shiftl (key_byte k 7) 56) with (Z.shiftl (key_byte k 7) (8 * 7)).
  change (Z.shiftl (key_byte k 6) 48) with (Z.shiftl (key_byte k 6) (8 * 6)).
  change (Z.shiftl (key_byte k 5) 40) with (Z.shiftl (key_byte k 5) (8 * 5)).
  change (Z.shiftl (key_byte k 4) 32) with (Z.shiftl (key_byte k 4) (8 * 4)).
  change (Z.shiftl (key_byte k 3) 24) with (Z.shiftl (key_byte k 3) (8 * 3)).
  change (Z.shiftl (key_byte k 2) 16) with (Z.shiftl (key_byte k 2) (8 * 2)).
  change (Z.shiftl (key_byte k 1) 8) with (Z.shiftl (key_byte k 1) (8 * 1)).
  change (Z.shiftl (key_byte k 0) 0) with (Z.shiftl (key_byte k 0) (8 * 0)).
  rewrite !key_byte_bit by lia.
  destruct (decide (i < 64)).
  - assert (0 <= i / 8 < 8) as Hq by zdiv. generalize dependent (i / 8). intros q Hq.
    assert (q = 0 \/ q = 1 \/ q = 2 \/ q = 3 \/ q = 4 \/ q = 5 \/ q = 6 \/ q = 7) as Hcase by lia.
    destruct Hcase as [->|[->|[->|[->|[->|[->|[->| ->]]]]]]]; by destruct (Z.testbit k i).
  - rewrite (testbit_high 64 k i) by (unfold in_u64 in Hk; lia). by rewrite !andb_false_r.
Qed.

(** The hash of an 8-byte key, with its loop and switch resolved. *)
Definition hash8 (seed k : Z) : Z * Z :=
  let '(h1, h2) := x64_128_add
    (Z.lxor (Z.lxor seed (mix64 x64_c1 31 x64_c2 k)) 8, Z.lxor seed 8) in
  x64_128_add (fmix64 h1, fmix64 h2).

Lemma hash_key seed k :
  in_u64 k -> MurmurHash3_x64_128 (key_bytes k) 8 seed = Some (hash8 seed k).
Proof.
  intros Hk. unfold MurmurHash3_x64_128, hash8. change (8 / 16) with 0.
  rewrite for_z_empty by lia. cbn [mbind option_bind].
  change (drop (Z.to_nat (0 * 16)) (key_bytes k)) with (key_bytes k).
  change (Z.land 8 15) with 8. unfold x64_128_tail, tail_byte.
  cbn [Z.leb Z.compare Pos.compare Pos.compare_cont mbind option_bind].
  rewrite !(aget_tab 8 (key_byte k)) by lia. cbn [mbind option_bind].
  change (8 - 1) with 7. change (7 - 1) with 6. change (6 - 1) with 5. change (5 - 1) with 4.
  change (4 - 1) with 3. change (3 - 1) with 2. change (2 - 1) with 1. change (1 - 1) with 0.
  by rewrite key_bytes_word.
Qed.

Lemma u64_sub_add x y : in_u64 x -> u64 (u64 (x + y) - y) = x.
Proof.
  intros Hx. unfold u64. rewrite Zminus_mod_idemp_l.
  replace (x + y - y) with x by lia. by apply Z.mod_small.
Qed.

Lemma u32_u64 x : in_u32 x -> in_u64 x.
Proof. unfold in_u32, in_u64. lia. Qed.

Lemma fmix64_range k : in_u64 (fmix64 k).
Proof. apply xorshift_range; [lia..|]. apply u64_range. Qed.

Lemma unhash_hash seed k : in_u32 seed -> in_u64 k -> unhash seed (hash8 seed k) = k.
Proof.
  intros Hs%u32_u64 Hk. assert (in_u64 8) as H8 by (unfold in_u64; lia).
  assert (in_u64 (mix64 x64_c1 31 x64_c2 k)) as Hm by apply u64_range.
  unfold hash8, unhash, x64_128_add.
  set (a := Z.lxor (Z.lxor seed _) 8). set (b := Z.lxor seed 8).
  assert (in_u64 a) by (repeat apply lxor_u64; done).
  set (f1 := fmix64 (u64 (a + b))). set (f2 := fmix64 (u64 (b + _))).
  assert (in_u64 f1 /\ in_u64 f2) as [Hf1 Hf2] by (split; apply fmix64_range).
  rewrite (u64_sub_add f2) by done. rewrite (u64_sub_add f1) by done.
  unfold f1. rewrite fmix64_inv by apply u64_range. rewrite u64_sub_add by done.
  unfold a. rewrite lxor_cancel, Z.lxor_comm, <- Z.lxor_assoc, Z.lxor_nilpotent, Z.lxor_0_l.
  by apply mix64_inv.
Qed.

(** C27: on 8-byte keys [MurmurHash3_x64_128] stays inside the buffer and its
    128-bit result determines the key, for every seed: [unhash] recovers it. *)
Theorem murmur_key_invertible seed k :
  in_u32 seed -> in_u64 k ->
  exists out, MurmurHash3_x64_128 (key_bytes k) 8 seed = Some out /\ unhash seed out = k.
Proof.
  intros Hs Hk. exists (hash8 seed k). split; [by apply hash_key|by apply unhash_hash].
Qed.

Lemma murmur_key_invertible_witness :
  exists out, MurmurHash3_x64_128 (key_bytes 0xdeadbeef12345678) 8 42 = Some out /\
    unhash 42 out = 0xdeadbeef12345678.
Proof. apply (murmur_key_invertible 42 0xdeadbeef12345678); unfold in_u32, in_u64; lia. Defined.

End Murmur.
