(* ===== verification/HashJoin.v ===== *)
(** * The hash join benchmark (sources/hashjoin/src/hashjoin.c)

    A chained hash table over the inner relation and the loop that probes it
    with the outer relation, whose rows OpenMP may take in any order. *)

From Stdlib Require Import ZArith Lia.
From stdpp Require Import list numbers.
From S2P Require Import Prelude Arrays Murmur.
#[local] Open Scope Z_scope.

Module HashJoin.
Import Murmur.

Definition CONFIG_RAND_SEED : Z := 42.
Definition CONFIG_INNER_KEY_STRIDE : Z := 4.

Definition hash (key : Z) : option Z :=
  out ← MurmurHash3_x64_128 (key_bytes key) 8 CONFIG_RAND_SEED; Some (fst out).

(** [hashtable], [htelms[].key], [htelms[].next] and [nconflicts]; a pointer to
    [htelms[i]] is [i + 1] and [NULL] is 0. *)
Record tables := MkTables {
  hashtable : list Z;
  ht_key : list Z;
  ht_next : list Z;
  nconflicts : Z;
}.

(** The body of the loop that fills the table. *)
Definition build_step (hashsize i : Z) (t : tables) : option tables :=
  ks ← (ht_key t).[i <- u64 (u64 (i + 1) * CONFIG_INNER_KEY_STRIDE)];
  k ← ks.[i];
  h ← hash k;
  assert! negb (hashsize =? 0);
  let idx := h mod hashsize in
  old ← (hashtable t).[idx];
  let nc := u64 (nconflicts t + if negb (old =? 0) then 1 else 0) in
  nx ← (ht_next t).[i <- old];
  ht ← (hashtable t).[idx <- i + 1];
  Some (MkTables ht ks nx nc).

(** [allocate(p, n * sizeof(elem), align)]: the elements that fit in a zeroed
    block of that many bytes, the product taken in [size_t]. *)
Definition allocate (n sizeof_elem : Z) : list Z :=
  replicate (Z.to_nat (u64 (n * sizeof_elem) / sizeof_elem)) 0.

Definition sizeof_ptr : Z := 8.
Definition sizeof_htelm : Z := 16.
Definition sizeof_element : Z := 8 + 15 * 8.

Definition build (hashsize innersize : Z) : option tables :=
  for_z 0 innersize (build_step hashsize)
    (MkTables (allocate hashsize sizeof_ptr) (allocate innersize sizeof_htelm)
       (allocate innersize sizeof_htelm) 0).

(** The outer relation: [table[i].key = i]. *)
Definition build_outer (outersize : Z) : option (list Z) :=
  for_z 0 outersize (fun i t => t.[i <- i]) (allocate outersize sizeof_element).

(** [while (e) { if (e->key == key) { matches++; break; } e = e->next; }] *)
Fixpoint walk (fuel : nat) (t : tables) (e key matches : Z) : option Z :=
  match fuel with
  | O => None
  | S fuel =>
      if e =? 0 then Some matches
      else
        k ← (ht_key t).[e - 1];
        if k =? key then Some (u64 (matches + 1))
        else e ← (ht_next t).[e - 1]; walk fuel t e key matches
  end.

(** The body of the probe loop: both words of the hash are looked up. *)
Definition probe (hashsize : Z) (t : tables) (table : list Z) (matches i : Z) : option Z :=
  key ← table.[i];
  out ← MurmurHash3_x64_128 (key_bytes key) 8 CONFIG_RAND_SEED;
  assert! negb (hashsize =? 0);
  e ← (hashtable t).[fst out mod hashsize];
  matches ← walk (S (length (ht_key t))) t e key matches;
  e ← (hashtable t).[snd out mod hashsize];
  walk (S (length (ht_key t))) t e key matches.

(** The rows of one thread, from the private copy of [matches]. *)
Fixpoint probe_rows (hashsize : Z) (t : tables) (table : list Z) (rows : list Z) (matches : Z)
    : option Z :=
  match rows with
  | [] => Some matches
  | i :: rows => matches ← probe hashsize t table matches i;
                 probe_rows hashsize t table rows matches
  end.

(** [parallel for reduction(+ : matches)]: [shares] lists the rows each thread
    takes; every private copy starts at 0 and is added at the end. *)
Definition probe_pass (hashsize : Z) (t : tables) (table : list Z) (shares : list (list Z))
    (matches : Z) : option Z :=
  locals ← mapM (fun rows => probe_rows hashsize t table rows 0) shares;
  Some (fold_left (fun m l => u64 (m + l)) locals matches).

(** [real_main] from the option values: the three numbers it prints, matches,
    matches per iteration and conflicts. [shares j] is the split of pass [j] between the threads. *)
Definition join (hashsize nlookups outersize innersize : Z) (shares : Z -> list (list Z))
    : option (Z * Z * Z) :=
  t ← build hashsize innersize;
  table ← build_outer outersize;
  matches ← for_z 0 nlookups (fun j => probe_pass hashsize t table (shares j)) 0;
  assert! negb (nlookups =? 0);
  Some (matches, matches / nlookups, nconflicts t).

(** ** The table's buckets *)

Definition inner_key (i : Z) : Z := u64 (u64 (i + 1) * CONFIG_INNER_KEY_STRIDE).
Definition hash0 (k : Z) : Z := fst (hash8 CONFIG_RAND_SEED k).
Definition hash1 (k : Z) : Z := snd (hash8 CONFIG_RAND_SEED k).

#[local] Opaque hash8 MurmurHash3_x64_128.

(** The elements of bucket [b] among the first [n], newest first. *)
Fixpoint bucket (hashsize : Z) (n : nat) (b : Z) : list Z :=
  match n with
  | O => []
  | S n =>
      if hash0 (inner_key (Z.of_nat n)) mod hashsize =? b
      then Z.of_nat n :: bucket hashsize n b else bucket hashsize n b
  end.

(** The chain of elements that starts at pointer [p]. *)
Fixpoint chained (nx : list Z) (p : Z) (l : list Z) : Prop :=
  match l with
  | [] => p = 0
  | i :: l => p = i + 1 /\ 0 <= i /\ exists q, nx.[i] = Some q /\ chained nx q l
  end.

Lemma bucket_in hashsize n b i :
  i ∈ bucket hashsize n b <->
  0 <= i < Z.of_nat n /\ hash0 (inner_key i) mod hashsize = b.
Proof.
  induction n as [|n IH]; cbn [bucket].
  - split; [by intros ?%not_elem_of_nil|lia].
  - destruct (Z.eqb_spec (hash0 (inner_key (Z.of_nat n)) mod hashsize) b) as [E|E].
    + rewrite elem_of_cons, IH. split; [intros [->|[? ?]]; (split; [lia|done])|].
      intros [Hi Hb]. destruct (decide (i = Z.of_nat n)); [by left|right]. split; [lia|done].
    + rewrite IH. split; [intros [? ?]; (split; [lia|done])|].
      intros [Hi Hb]. destruct (decide (i = Z.of_nat n)); [by subst|]. split; [lia|done].
Qed.

Lemma length_bucket hashsize n b : (length (bucket hashsize n b) <= n)%nat.
Proof. induction n as [|n IH]; cbn [bucket]; [done|]. destruct (_ =? b); cbn [length]; lia. Qed.

(** Writing a cell outside the chain keeps it. *)
Lemma chained_insert nx p l i v :
  0 <= i < alen nx -> i ∉ l -> chained nx p l -> chained (<[Z.to_nat i := v]> nx) p l.
Proof.
  revert p. induction l as [|j l IH]; intros p Hi Hn; [done|].
  rewrite not_elem_of_cons in Hn. destruct Hn as [Hne Hn].
  intros (-> & Hj & q & Hq & Hc). split; [done|]. split; [done|]. exists q.
  rewrite aget_insert by done. rewrite decide_False by done. split; [done|]. by apply IH.
Qed.

(** ** Building *)

(** The table with the first [n] elements in it; [used] buckets are not empty. *)
Definition nonempty (hashsize : Z) (n : nat) : Z :=
  Z.of_nat (length (filter (fun b => bucket hashsize n b <> []) (seqZ 0 hashsize))).

Record built (hashsize innersize : Z) (n : nat) (t : tables) : Prop := {
  bt_ht_len : alen (hashtable t) = hashsize;
  bt_key_len : alen (ht_key t) = innersize;
  bt_next_len : alen (ht_next t) = innersize;
  bt_keys : forall i, 0 <= i < Z.of_nat n -> (ht_key t).[i] = Some (inner_key i);
  bt_chains : forall b, 0 <= b < hashsize ->
    exists p, (hashtable t).[b] = Some p /\ chained (ht_next t) p (bucket hashsize n b);
  bt_conflicts : 0 <= nconflicts t /\ nconflicts t + nonempty hashsize n = Z.of_nat n;
}.

Lemma hash_ok k : in_u64 k -> hash k = Some (hash0 k).
Proof.
  intros Hk. unfold hash, hash0. rewrite (hash_key CONFIG_RAND_SEED k Hk). reflexivity.
Qed.

Lemma inner_key_u64 i : in_u64 (inner_key i).
Proof. apply u64_range. Qed.

Lemma nonempty_step hashsize n b :
  b = hash0 (inner_key (Z.of_nat n)) mod hashsize -> 0 < hashsize ->
  nonempty hashsize (S n)
  = nonempty hashsize n + (if decide (bucket hashsize n b = []) then 1 else 0).
Proof.
  intros Eb Hh. assert (Hb : 0 <= b < hashsize) by (subst b; by apply Z.mod_pos_bound).
  unfold nonempty. cbn [bucket]. rewrite <- Eb.
  assert (forall l, NoDup l ->
    Z.of_nat (length (filter (fun c => (if b =? c then Z.of_nat n :: bucket hashsize n c
       else bucket hashsize n c) <> []) l))
    = Z.of_nat (length (filter (fun c => bucket hashsize n c <> []) l)) +
      (if decide (b ∈ l) then if decide (bucket hashsize n b = []) then 1 else 0 else 0)) as H.
  { induction l as [|c l IH]; intros Hnd; [by rewrite decide_False by apply not_elem_of_nil|].
    apply list.NoDup_cons in Hnd as [Hc Hnd]. specialize (IH Hnd).
    rewrite !filter_cons. destruct (Z.eqb_spec b c) as [E|E].
    - subst c. rewrite (decide_True (P := Z.of_nat n :: bucket hashsize n b <> [])) by done.
      rewrite (decide_True (P := b ∈ b :: l)) by (by left).
      rewrite (decide_False (P := b ∈ l)) in IH by done. cbn [length].
      destruct (decide (bucket hashsize n b = [])) as [E|E].
      + rewrite decide_False by (by intros ?). lia.
      + rewrite decide_True by done. cbn [length]. lia.
    - destruct (decide (bucket hashsize n c <> [])); cbn [length];
        (destruct (decide (b ∈ l)) as [Hin|Hin];
          [rewrite (decide_True (P := b ∈ c :: l)) by (by right)|
           rewrite (decide_False (P := b ∈ c :: l)) by (rewrite elem_of_cons; naive_solver)]); lia. }
  rewrite H by apply NoDup_seqZ. by rewrite (decide_True (P := b ∈ _)) by (apply elem_of_seqZ; lia).
Qed.

Lemma bucket_app hashsize n b :
  bucket hashsize (S n) b =
    (if hash0 (inner_key (Z.of_nat n)) mod hashsize =? b
     then Z.of_nat n :: bucket hashsize n b else bucket hashsize n b).
Proof. reflexivity. Qed.

Lemma chained_nil_iff nx p l : chained nx p l -> p = 0 <-> l = [].
Proof. destruct l as [|i l]; [done|]. intros (-> & ? & _). split; [lia|done]. Qed.

Lemma nonempty_bounds hashsize n : 0 <= nonempty hashsize n.
Proof. unfold nonempty. lia. Qed.

Lemma bind_some {A B} (f : A -> option B) a : mbind f (Some a) = f a.
Proof. reflexivity. Qed.

(** What a step computes, from the facts it depends on. *)
Lemma build_step_eq hashsize i t b p :
  0 < hashsize -> 0 <= i < alen (ht_key t) -> i < alen (ht_next t) ->
  b = hash0 (inner_key i) mod hashsize -> b < alen (hashtable t) ->
  (hashtable t).[b] = Some p ->
  build_step hashsize i t =
    Some (MkTables (<[Z.to_nat b := i + 1]> (hashtable t))
            (<[Z.to_nat i := inner_key i]> (ht_key t)) (<[Z.to_nat i := p]> (ht_next t))
            (u64 (nconflicts t + if negb (p =? 0) then 1 else 0))).
Proof.
  intros Hh Hi Hin Eb Hb Hp. unfold build_step. fold (inner_key i).
  assert (0 <= b) by (subst b; by apply Z.mod_pos_bound).
  rewrite aset_in, bind_some by lia. rewrite aget_insert, decide_True by lia.
  rewrite bind_some.
  rewrite hash_ok, bind_some by apply inner_key_u64. rewrite <- Eb.
  assert (hashsize =? 0 = false) as -> by lia. unfold check. cbn [negb]. rewrite bind_some.
  rewrite Hp, bind_some. rewrite (aset_in (ht_next t)), bind_some by lia.
  rewrite aset_in, bind_some by lia.
  reflexivity.
Qed.

Lemma build_step_ok hashsize innersize n t :
  0 < hashsize -> 0 <= Z.of_nat n < innersize -> innersize < 2 ^ 62 ->
  built hashsize innersize n t ->
  exists t', build_step hashsize (Z.of_nat n) t = Some t' /\ built hashsize innersize (S n) t'.
Proof.
  intros Hh Hn Hin.
  remember (hash0 (inner_key (Z.of_nat n)) mod hashsize) as b eqn:Eb.
  intros [Hlh Hlk Hln Hk Hc [Hc0 Hcf]].
  assert (0 <= b < hashsize) as Hb by (subst b; by apply Z.mod_pos_bound).
  destruct (Hc b Hb) as (p & Hp & Hch).
  rewrite (build_step_eq hashsize (Z.of_nat n) t b p) by (done || lia).
  eexists. split; [reflexivity|]. constructor; cbn [hashtable ht_key ht_next nconflicts].
  - by rewrite alen_insert.
  - by rewrite alen_insert.
  - by rewrite alen_insert.
  - intros i Hi. rewrite aget_insert by lia. case_decide; [by subst|]. apply Hk. lia.
  - intros c Hcb. rewrite aget_insert by lia. rewrite bucket_app, <- Eb.
    assert (forall q l, (forall i, i ∈ l -> 0 <= i < Z.of_nat n) -> chained (ht_next t) q l ->
      chained (<[Z.to_nat (Z.of_nat n) := p]> (ht_next t)) q l) as Hkeep.
    { intros q l Hl. apply chained_insert; [lia|]. intros ?%Hl. lia. }
    destruct (Hc c Hcb) as (q & Hq & Hchq).
    assert (forall i, i ∈ bucket hashsize n c -> 0 <= i < Z.of_nat n) as Hbk
      by (intros i [? _]%bucket_in; done).
    case_decide as E.
    + subst c. rewrite Z.eqb_refl. eexists. split; [reflexivity|]. cbn [chained].
      split; [done|]. split; [lia|]. exists p. rewrite aget_insert by lia.
      rewrite decide_True by done. split; [done|]. by apply Hkeep.
    + assert (b =? c = false) as -> by lia. exists q. split; [done|]. by apply Hkeep.
  - rewrite (nonempty_step hashsize n b Eb Hh). pose proof (chained_nil_iff _ _ _ Hch) as Hnil.
    pose proof (nonempty_bounds hashsize n).
    rewrite u64_id; [|destruct (p =? 0); cbn [negb]; unfold in_u64; lia].
    case_decide as E; destruct (Z.eqb_spec p 0) as [E'|E']; cbn [negb]; try lia; naive_solver.
Qed.

Lemma chained_empty hashsize b : bucket hashsize 0 b = [].
Proof. reflexivity. Qed.

Lemma allocate_ok n size :
  0 < size -> 0 <= n -> n * size < 2 ^ 64 -> allocate n size = replicate (Z.to_nat n) 0.
Proof.
  intros Hs Hn Hsz. unfold allocate. rewrite u64_id by (unfold in_u64; nia).
  by rewrite Z.div_mul by lia.
Qed.

Lemma build_ok hashsize innersize :
  0 < hashsize < 2 ^ 61 -> 0 <= innersize < 2 ^ 60 ->
  exists t, build hashsize innersize = Some t /\ built hashsize innersize (Z.to_nat innersize) t.
Proof.
  intros Hh Hin. unfold build.
  rewrite !allocate_ok by (unfold sizeof_ptr, sizeof_htelm; lia).
  eapply (for_z_inv (fun i => built hashsize innersize (Z.to_nat i))); [lia| |].
  - constructor; cbn [hashtable ht_key ht_next nconflicts].
    + unfold alen. rewrite length_replicate. lia.
    + unfold alen. rewrite length_replicate. lia.
    + unfold alen. rewrite length_replicate. lia.
    + lia.
    + intros b Hb. exists 0. split; [|done]. unfold aget. destruct (Z.ltb_spec b 0); [lia|].
      apply lookup_replicate. split; [done|lia].
    + split; [done|]. unfold nonempty. cbn [bucket].
      induction (seqZ 0 hashsize) as [|c l IH]; [done|].
      rewrite filter_cons, decide_False by (intros H; by apply H). done.
  - intros i t Hi Hb. replace (Z.to_nat (i + 1)) with (S (Z.to_nat i)) by lia.
    destruct (build_step_ok hashsize innersize (Z.to_nat i) t) as (t' & E & Ht');
      [lia|lia|lia|done|]. rewrite Z2Nat.id in E by lia. by exists t'.
Qed.

Lemma build_outer_ok outersize :
  0 <= outersize < 2 ^ 57 -> exists table, build_outer outersize = Some table /\
    forall i, 0 <= i < outersize -> table.[i] = Some i.
Proof.
  intros Ho. unfold build_outer. rewrite allocate_ok by (unfold sizeof_element; lia).
  destruct (for_z_fill outersize id (replicate (Z.to_nat outersize) 0) (fun i => Some i))
    as (a & Ha & _ & Hget); [unfold alen; rewrite length_replicate; lia|done|].
  exists a. split; [exact Ha|]. intros i Hi. rewrite Hget by lia.
  by assert (i <? outersize = true) as -> by lia.
Qed.

(** ** Probing *)

(** The keys of the inner relation: 4, 8, ..., 4 [innersize]. *)
Definition inner (innersize k : Z) : bool :=
  (k mod CONFIG_INNER_KEY_STRIDE =? 0) && (CONFIG_INNER_KEY_STRIDE <=? k)
  && (k <=? CONFIG_INNER_KEY_STRIDE * innersize).

(** What a row with key [k] adds to [matches]. *)
Definition hits (hashsize innersize k : Z) : Z :=
  if inner innersize k
  then 1 + Z.b2z (hash1 k mod hashsize =? hash0 k mod hashsize) else 0.

Lemma inner_key_spec innersize i :
  0 <= i < innersize -> innersize < 2 ^ 62 -> inner_key i = 4 * (i + 1).
Proof.
  intros Hi Hn. unfold inner_key, CONFIG_INNER_KEY_STRIDE.
  rewrite (u64_id (i + 1)) by (unfold in_u64; lia). rewrite u64_id by (unfold in_u64; lia). lia.
Qed.

(** A key is in its own bucket or nowhere. *)
Lemma bucket_key hashsize innersize b k :
  0 <= innersize < 2 ^ 62 ->
  existsb (fun i => inner_key i =? k) (bucket hashsize (Z.to_nat innersize) b)
  = inner innersize k && (hash0 k mod hashsize =? b).
Proof.
  intros Hn. apply eq_iff_eq_true. rewrite existsb_exists, andb_true_iff. unfold inner.
  unfold CONFIG_INNER_KEY_STRIDE. rewrite !andb_true_iff, !Z.eqb_eq, !Z.leb_le. split.
  - intros (i & Hi%list_elem_of_In%bucket_in & E%Z.eqb_eq). destruct Hi as [Hi Hb]. subst k.
    rewrite (inner_key_spec innersize i) in * by lia. split; [|done].
    rewrite (Z.mul_comm 4), Z.mod_mul by lia. lia.
  - intros [[[Hm H4] Hle] Hb]. exists (k / 4 - 1).
    assert (inner_key (k / 4 - 1) = k) as E by (rewrite (inner_key_spec innersize); zdiv).
    split; [|by apply Z.eqb_eq]. apply list_elem_of_In, bucket_in. rewrite E. split; [zdiv|done].
Qed.

Lemma walk_ok t n key :
  (forall i, 0 <= i < Z.of_nat n -> (ht_key t).[i] = Some (inner_key i)) ->
  forall l p fuel m,
  (forall i, i ∈ l -> 0 <= i < Z.of_nat n) -> chained (ht_next t) p l ->
  (length l < fuel)%nat -> in_u64 m ->
  walk fuel t p key m = Some (u64 (m + Z.b2z (existsb (fun i => inner_key i =? key) l))).
Proof.
  intros Hk. induction l as [|i l IH]; intros p fuel m Hl Hc Hf Hm;
    (destruct fuel as [|fuel]; [cbn [length] in Hf; lia|]); cbn [walk existsb].
  - cbn [chained] in Hc. subst p. cbn [Z.eqb Z.b2z]. by rewrite Z.add_0_r, u64_id.
  - destruct Hc as (-> & Hi & q & Hq & Hc). assert (i + 1 =? 0 = false) as -> by lia.
    replace (i + 1 - 1) with i by lia. rewrite Hk by (apply Hl; by left). cbn [mbind option_bind].
    destruct (inner_key i =? key); [done|]. rewrite Hq. cbn [mbind option_bind orb].
    apply IH; [|done|cbn [length] in Hf; lia|done]. intros j Hj. apply Hl. by right.
Qed.

Lemma probe_ok hashsize innersize outersize t table m k :
  0 < hashsize -> 0 <= innersize < 2 ^ 62 -> 0 <= k < outersize -> outersize <= 2 ^ 64 ->
  built hashsize innersize (Z.to_nat innersize) t ->
  (forall i, 0 <= i < outersize -> table.[i] = Some i) -> in_u64 m ->
  probe hashsize t table m k = Some (u64 (m + hits hashsize innersize k)).
Proof.
  intros Hh Hi Hk Ho [_ Hlk _ Hkeys Hc _] Ht Hm. unfold probe.
  rewrite Ht, bind_some by lia. rewrite hash_key, bind_some by (unfold in_u64; lia).
  assert (hashsize =? 0 = false) as -> by lia. unfold check. cbn [negb]. rewrite bind_some.
  assert (forall b m, 0 <= b < hashsize -> in_u64 m ->
    exists p, (hashtable t).[b] = Some p /\
      walk (S (length (ht_key t))) t p k m
      = Some (u64 (m + Z.b2z (inner innersize k && (hash0 k mod hashsize =? b))))) as Hw.
  { intros b m' Hb Hm'. destruct (Hc b Hb) as (p & Hp & Hch). exists p. split; [done|].
    rewrite <- (bucket_key hashsize innersize b k) by done.
    eapply walk_ok; [exact Hkeys| |exact Hch| |done].
    - by intros i [? _]%bucket_in.
    - pose proof (length_bucket hashsize (Z.to_nat innersize) b). unfold alen in Hlk. lia. }
  destruct (Hw (hash0 k mod hashsize) m) as (p & Hp & Hwp); [by apply Z.mod_pos_bound|done|].
  fold (hash0 k). rewrite Hp, bind_some, Hwp, bind_some.
  destruct (Hw (hash1 k mod hashsize) (u64 (m + Z.b2z (inner innersize k &&
    (hash0 k mod hashsize =? hash0 k mod hashsize))))) as (q & Hq & Hwq);
    [by apply Z.mod_pos_bound|apply u64_range|].
  fold (hash1 k). rewrite Hq, bind_some, Hwq. f_equal. rewrite Z.eqb_refl, andb_true_r.
  rewrite (Z.eqb_sym (hash0 k mod hashsize)). unfold hits, u64.
  rewrite Zplus_mod_idemp_l. f_equal. destruct (inner innersize k); cbn [andb Z.b2z]; lia.
Qed.

(** The matches of a list of rows. *)
Definition total (hashsize innersize : Z) (rows : list Z) : Z :=
  foldr (fun k s => hits hashsize innersize k + s) 0 rows.

Lemma total_app hashsize innersize l1 l2 :
  total hashsize innersize (l1 ++ l2)
  = total hashsize innersize l1 + total hashsize innersize l2.
Proof. unfold total. induction l1 as [|k l1 IH]; cbn [app foldr]; lia. Qed.

Lemma total_perm hashsize innersize l1 l2 :
  l1 ≡ₚ l2 -> total hashsize innersize l1 = total hashsize innersize l2.
Proof. unfold total. induction 1; cbn [foldr]; lia. Qed.

Lemma u64_add_l a b : u64 (u64 a + b) = u64 (a + b).
Proof. apply Zplus_mod_idemp_l. Qed.

Lemma u64_add_r a b : u64 (a + u64 b) = u64 (a + b).
Proof. apply Zplus_mod_idemp_r. Qed.

Section Pass.
Context (hashsize innersize outersize : Z) (t : tables) (table : list Z).
Context (Hh : 0 < hashsize) (Hi : 0 <= innersize < 2 ^ 62) (Ho : outersize <= 2 ^ 64).
Context (Hb : built hashsize innersize (Z.to_nat innersize) t).
Context (Ht : forall i, 0 <= i < outersize -> table.[i] = Some i).

Lemma probe_rows_ok rows m :
  (forall k, k ∈ rows -> 0 <= k < outersize) -> in_u64 m ->
  probe_rows hashsize t table rows m = Some (u64 (m + total hashsize innersize rows)).
Proof.
  revert m. induction rows as [|k rows IH]; intros m Hr Hm; cbn [probe_rows].
  - unfold total. cbn [foldr]. by rewrite Z.add_0_r, u64_id.
  - rewrite (probe_ok hashsize innersize outersize), bind_some by (done || apply Hr; by left).
    rewrite IH; [|intros; apply Hr; by right|apply u64_range].
    rewrite u64_add_l. unfold total. cbn [foldr]. do 2 f_equal. lia.
Qed.

Lemma probe_pass_ok shares m :
  concat shares ≡ₚ seqZ 0 outersize -> in_u64 m ->
  probe_pass hashsize t table shares m
  = Some (u64 (m + total hashsize innersize (seqZ 0 outersize))).
Proof.
  intros Hp Hm. unfold probe_pass. rewrite <- (total_perm _ _ _ _ Hp).
  assert (forall k, k ∈ concat shares -> 0 <= k < outersize) as Hr.
  { intros k. rewrite Hp, elem_of_seqZ. lia. }
  clear Hp. revert m Hm. induction shares as [|rows shares IH]; intros m Hm; cbn [concat] in *.
  - cbn. by rewrite Z.add_0_r, u64_id.
  - rewrite total_app. cbn [mapM]. rewrite probe_rows_ok;
      [|intros; apply Hr, elem_of_app; by left|unfold in_u64; lia].
    rewrite bind_some. specialize (IH (fun k Hk => Hr k (proj2 (elem_of_app _ _ _) (or_intror Hk)))).
    destruct (mapM _ shares) as [locals|]; [|by specialize (IH m Hm)].
    rewrite !bind_some. cbn [fold_left].
    specialize (IH (u64 (m + u64 (0 + total hashsize innersize rows))) (u64_range _)).
    rewrite bind_some in IH. rewrite IH. rewrite u64_add_r, u64_add_l. do 2 f_equal. lia.
Qed.

End Pass.

Lemma join_ok hashsize nlookups outersize innersize shares :
  0 < hashsize < 2 ^ 61 -> 0 < nlookups -> 0 <= outersize < 2 ^ 57 -> 0 <= innersize < 2 ^ 60 ->
  (forall j, 0 <= j < nlookups -> concat (shares j) ≡ₚ seqZ 0 outersize) ->
  join hashsize nlookups outersize innersize shares
  = Some (u64 (nlookups * total hashsize innersize (seqZ 0 outersize)),
          u64 (nlookups * total hashsize innersize (seqZ 0 outersize)) / nlookups,
          innersize - nonempty hashsize (Z.to_nat innersize)).
Proof.
  intros Hh Hl Ho Hi Hs. unfold join.
  destruct (build_ok hashsize innersize) as (t & Et & Hb); [done|done|].
  destruct (build_outer_ok outersize) as (table & Etb & Ht); [lia|].
  rewrite Et, bind_some, Etb, bind_some.
  destruct (for_z_inv (fun j m => m = u64 (j * total hashsize innersize (seqZ 0 outersize)))
    0 nlookups (fun j => probe_pass hashsize t table (shares j)) 0) as (m & Em & ->).
  - lia.
  - reflexivity.
  - intros j m Hj ->. eexists. split.
    + apply (probe_pass_ok hashsize innersize outersize); try done; [lia..|by apply Hs|apply u64_range].
    + rewrite u64_add_l. f_equal. lia.
  - rewrite Em, bind_some. assert (nlookups =? 0 = false) as -> by lia.
    unfold check. cbn [negb]. rewrite bind_some. destruct Hb as [_ _ _ _ _ [_ Hc]]. do 2 f_equal. lia.
Qed.

(** C6: the join ends without touching memory outside its tables and counts, for
    every split of every pass over the outer relation between threads, one match
    for each outer key the inner relation has, and one more when both words of
    its hash select the same bucket; the reported conflicts are the elements
    minus the buckets in use. *)
Theorem join_correct hashsize nlookups outersize innersize shares :
  0 < hashsize < 2 ^ 61 -> 0 < nlookups -> 0 <= outersize < 2 ^ 57 -> 0 <= innersize < 2 ^ 60 ->
  (forall j, 0 <= j < nlookups -> concat (shares j) ≡ₚ seqZ 0 outersize) ->
  join hashsize nlookups outersize innersize shares
  = Some (u64 (nlookups * total hashsize innersize (seqZ 0 outersize)),
          u64 (nlookups * total hashsize innersize (seqZ 0 outersize)) / nlookups,
          innersize - nonempty hashsize (Z.to_nat innersize)).
Proof. apply join_ok. Qed.

Lemma join_correct_witness :
  join 7 3 20 6 (fun _ => [seqZ 10 10; seqZ 0 10]) = Some (12, 12 / 3, 6 - nonempty 7 6).
Proof.
  assert (12 = u64 (3 * total 7 6 (seqZ 0 20))) as -> by (vm_compute; reflexivity).
  apply (join_correct 7 3 20 6); [lia|lia|lia|lia|].
  intros j _. cbn [concat]. rewrite app_nil_r, Permutation_app_comm. reflexivity.
Defined.

(** With no iterations asked for, the report divides by zero. *)
Lemma join_no_lookups hashsize outersize innersize shares :
  join hashsize 0 outersize innersize shares = None.
Proof.
  unfold join. destruct (build hashsize innersize); [|reflexivity].
  destruct (build_outer outersize); reflexivity.
Qed.

End HashJoin.
