(* ===== verification/HashJoinMain.v ===== *)
(** * The hash join from its command line (src/sources/hashjoin/src/main.c, hashjoin.c)

    [main] hands what follows ["--"] to [real_main], which reads the sizes, builds
    the tables, talks to the measuring script and prints the numbers of the
    join. *)

From Stdlib Require Import ZArith Lia String.
From stdpp Require Import list numbers.
From S2P Require Import Prelude Arrays CLib Murmur HashJoin Getopt Harness.
Import Getopt.
#[local] Open Scope Z_scope.

Module HashJoinMain.
Import Harness.

(** ** The benchmark *)

Record sizes := MkSizes { hashsize : Z; nlookups : Z; outersize : Z; innersize : Z }.

(** config.h *)
Definition default_sizes : sizes := MkSizes 100000 50 1000000 100000.

Definition set_hashsize n s := MkSizes n (nlookups s) (outersize s) (innersize s).
Definition set_nlookups n s := MkSizes (hashsize s) n (outersize s) (innersize s).
Definition set_outersize n s := MkSizes (hashsize s) (nlookups s) n (innersize s).
Definition set_innersize n s := MkSizes (hashsize s) (nlookups s) (outersize s) n.

Definition optstring : list Z := chars "s:n:o:i:".

(** [strtol(optarg, NULL, 10)] stored as [size_t] *)
Definition size_arg (optarg : list Z) : Z := u64 (atol optarg).

(** The sizes, or [None] after an option that is not known. *)
Fixpoint read_sizes (rs : list result) (s : sizes) : option sizes :=
  match rs with
  | [] => Some s
  | Found c (Some optarg) :: rs =>
      if is_char c "s" then read_sizes rs (set_hashsize (size_arg optarg) s)
      else if is_char c "n" then read_sizes rs (set_nlookups (size_arg optarg) s)
      else if is_char c "o" then read_sizes rs (set_outersize (size_arg optarg) s)
      else if is_char c "i" then read_sizes rs (set_innersize (size_arg optarg) s)
      else None
  | _ => None
  end.

Definition flushed_file : list Z := CONFIG_SHM_FILE_NAME ++ chars ".flushed".
Definition pid_file : list Z := CONFIG_SHM_FILE_NAME ++ chars ".pid".

Definition megabytes (n : Z) : list Z := decimal (Z.shiftr n 20).

Section Code.
Context {sys : System} {build : Build}.
(** Which blocks [posix_memalign] can give, whether ".flushed" is there at
    question [k], the times around the lookups, and the rows of each thread in
    every pass. *)
Context (memalign : Z -> bool) (flushed : nat -> bool) (lookup_start lookup_end : timeval).
Context (shares : Z -> list (list Z)).

Definition print_sizes (s : sizes) : M unit :=
  let table := u64 (hashsize s * HashJoin.sizeof_ptr) in
  let elements := u64 (hashsize s * HashJoin.sizeof_htelm) in
  _ ← fprintf Stdout (chars "Hashtable Size: " ++ megabytes table ++ chars "MB" ++ newline);
  _ ← fprintf Stdout (chars "Datatable Size Size: " ++ megabytes (u64 (outersize s * HashJoin.sizeof_element)) ++
                      chars "MB" ++ newline);
  _ ← fprintf Stdout (chars "Element Size: " ++ megabytes elements ++ chars " MB" ++ newline);
  fprintf Stdout (chars "Total: " ++
    megabytes (u64 (u64 (table + u64 (u64 (outersize s + innersize s) * HashJoin.sizeof_element)) + elements)) ++
    chars " MB" ++ newline).

Definition allocate (n sizeof_elem align : Z) : M unit :=
  let size := u64 (n * sizeof_elem) in
  _ ← fprintf Stdout (chars "allocating " ++ megabytes size ++ chars " MB memory with alignment " ++ decimal align ++
                      chars " " ++ newline);
  if memalign size then mret ()
  else
    _ ← fprintf Stdout (chars "ENOMEM" ++ newline);
    exit 1.

(** The tables are set up. *)
Definition signal_setup : M unit :=
  _ ← fprintf Stderr (chars "signalling readyness to " ++ ready_file ++ newline);
  _ ← (if fopen_w ready_file then emit (Creat ready_file)
       else
         _ ← emit (Failed ready_file);
         _ ← fprintf Stderr (chars "ERROR: could not create the ready file descriptor" ++ newline);
         exit (-1));
  emit (if fopen_w pid_file then Creat pid_file else Failed pid_file).

(** [for (int i = 0; i < 600; i++)], [n] rounds left *)
Fixpoint wait_flushed (n : nat) (i : nat) : M unit :=
  match n with
  | O => mret ()
  | S n =>
      if flushed i then
        _ ← emit (Poll flushed_file true);
        emit (Unlink flushed_file)
      else
        _ ← emit (Poll flushed_file false);
        _ ← emit (Usleep 50000);
        wait_flushed n (S i)
  end.

Definition lookup_time : list Z :=
  chars "Lookup time: " ++ decimal (u64 (tv_sec lookup_end - tv_sec lookup_start)) ++ chars "." ++
  pad3 (decimal (u64 (Z.quot (tv_usec lookup_end - tv_usec lookup_start) 1000))) ++ newline.

Definition matches_line (matches per_iteration rows : Z) : list Z :=
  chars "got " ++ decimal matches ++ chars " matches / " ++ decimal per_iteration ++
  chars " matches per iteration of " ++ decimal (u64 (2 * rows)) ++ chars " " ++ newline.
Definition conflicts_line (nconflicts : Z) : list Z :=
  chars "hashtable conflicts = " ++ decimal nconflicts ++ newline.

(** A computation without calls that must be defined for the run to go on. *)
Definition defined {A} (o : option A) : M unit := match o with Some _ => mret () | None => ([], Undefined) end.

(** The hash table is built before the last block is allocated; [HashJoin.join]
    builds it again. *)
Definition hj_real_main (argv : list (list Z)) : M unit :=
  match read_sizes (results (scan optstring (tail argv))) default_sizes with
  | None =>
      (* the option printed is what [getopt] returned *)
      fprintf Stdout (chars "unknown option '?'" ++ newline)
  | Some s =>
      _ ← print_sizes s;
      _ ← allocate (hashsize s) HashJoin.sizeof_ptr 64;
      _ ← allocate (innersize s) HashJoin.sizeof_htelm (2 ^ 21);
      _ ← defined (HashJoin.build (hashsize s) (innersize s));
      _ ← allocate (outersize s) HashJoin.sizeof_element (2 ^ 21);
      _ ← signal_setup;
      _ ← wait_flushed 600 0;
      match HashJoin.join (hashsize s) (nlookups s) (outersize s) (innersize s) shares with
      | None => ([], Undefined)
      | Some (matches, per_iteration, nconflicts) =>
          _ ← fprintf Stderr (chars "signalling done to " ++ done_file ++ newline);
          _ ← create_file done_file;
          _ ← fprintf Stdout (matches_line matches per_iteration (outersize s));
          _ ← fprintf Stdout (conflicts_line nconflicts);
          fprintf Stdout lookup_time
      end
  end.

(** ** The process *)

(** The options of main.c: the output, or the end of the process. *)
Definition hj_option (argv0 : list Z) (out : file) (r : result) : M file :=
  match r with
  | Found c (Some optarg) =>
      if is_char c "o" then
        if fopen_a optarg then _ ← emit (Append optarg); mret (Opened optarg)
        else
          _ ← emit (Failed optarg);
          _ ← fprintf Stderr (chars "Could not open the file '" ++ optarg ++ chars "' switching to stdout" ++ newline);
          mret Stdout
      else mret out
  | Found c None =>
      if is_char c "h" then _ ← fprintf Stdout (chars "usage: " ++ argv0 ++ chars " [-o FILE]" ++ newline); exit 0
      else mret out
  | Unknown optopt =>
      _ ← (if is_char optopt "o" then fprintf Stderr (chars "Option -" ++ [optopt] ++ chars " requires an argument." ++ newline)
           else fprintf Stderr (chars "Unknown option `-" ++ [optopt] ++ chars "'." ++ newline));
      exit (-1)
  end.

Fixpoint hj_options (argv0 : list Z) (rs : list result) (out : file) : M file :=
  match rs with
  | [] => mret out
  | r :: rs => out ← hj_option argv0 out r; hj_options argv0 rs out
  end.

Definition hj_optstring : list Z := chars "o:h".

Definition hj_main (argv0 : list Z) (args : list (list Z)) : M unit :=
  _ ← print_argv (argv0 :: args);
  _ ← fprintf Stdout newline;
  _ ← when (numa_available =? -1)
        (_ ← fprintf Stderr (chars "ERROR: Numa not available on this machine." ++ newline); exit (-1));
  let sc := scan hj_optstring args in
  out ← hj_options argv0 (results sc) Stdout;
  let argv := prog_argv argv0 (argv0 :: sorted_args sc) in
  _ ← fprintf out (chars "<benchmark exec=" ++ [34] ++ argv0 ++ [34] ++ chars ">" ++ newline);
  _ ← fprintf out (chars "<config>" ++ newline);
  _ ← fprintf out (if openmp then chars "  <openmp>on</openmp>" else chars "  <openmp>off</openmp>");
  _ ← fprintf out (chars "</config>" ++ newline);
  _ ← emit Policy;
  _ ← emit Handler;
  _ ← fprintf out (chars "<run>" ++ newline);
  _ ← emit (Run argv);
  _ ← hj_real_main argv;
  _ ← fprintf out (chars "</run>" ++ newline);
  _ ← fprintf Stdout (chars "Total time: " ++ decimal (u64 (tv_sec tend - tv_sec tstart)) ++ chars "." ++
                      pad3 (decimal (u64 (Z.quot (tv_usec tend - tv_usec tstart) 1000))) ++ newline);
  _ ← fprintf out (chars "</benchmark>" ++ newline);
  exit 0.
End Code.

(** ** Proofs *)

(** [m] returns a value with [P]. *)
Definition returns {A} (m : M A) (P : A -> Prop) : Prop := exists t a, m = (t, Ret a) /\ P a.

Lemma prepares_returns {A} (m : M A) P : prepares m P -> returns m P.
Proof. intros (t & a & ? & _ & ?). by exists t, a. Qed.

Lemma returns_ret {A} (a : A) (P : A -> Prop) : P a -> returns (mret a) P.
Proof. intros. by exists [], a. Qed.

Lemma returns_emit e : returns (emit e) (fun _ => True).
Proof. by exists [e], (). Qed.

Lemma returns_bind {A B} (m : M A) (f : A -> M B) P Q :
  returns m P -> (forall a, P a -> returns (f a) Q) -> returns (m ≫= f) Q.
Proof.
  intros (t & a & -> & Ha) Hf. destruct (Hf a Ha) as (t' & b & E & Hb). exists (t ++ t'), b. by rewrite M_bind_ret, E.
Qed.

(** [m] makes the calls [L] in a row and ends as [r]. *)
Definition prints {A} (L : list event) (m : M A) (r : ending A) : Prop := exists pre post, m = (pre ++ L ++ post, r).

Lemma prints_after {A B} L (m : M A) (f : A -> M B) P r :
  returns m P -> (forall a, P a -> prints L (f a) r) -> prints L (m ≫= f) r.
Proof.
  intros (t & a & -> & Ha) Hf. destruct (Hf a Ha) as (pre & post & E). exists (t ++ pre), post.
  by rewrite M_bind_ret, E, <- app_assoc.
Qed.

Lemma prints_before {A B} L (m : M A) (f : A -> M B) a t r : prints L m (Ret a) -> f a = (t, r) -> prints L (m ≫= f) r.
Proof.
  intros (pre & post & ->) E. exists pre, (post ++ t). rewrite M_bind_ret, E. cbn [fst snd]. by rewrite <- !app_assoc.
Qed.

#[local] Hint Resolve returns_emit : core.

Section Proofs.
Context {sys : System} {build : Build} (memalign : Z -> bool) (flushed : nat -> bool) (lookup_start lookup_end : timeval).
Context (shares : Z -> list (list Z)).

(** What a run needs: memory, and files that can be created. *)
Definition resources (s : sizes) : Prop :=
  memalign (u64 (hashsize s * HashJoin.sizeof_ptr)) = true /\
  memalign (u64 (innersize s * HashJoin.sizeof_htelm)) = true /\
  memalign (u64 (outersize s * HashJoin.sizeof_element)) = true /\
  fopen_w ready_file = true /\ fopen_w done_file = true.

Definition sizes_ok (s : sizes) : Prop :=
  0 < hashsize s < 2 ^ 61 /\ 0 < nlookups s /\ 0 <= outersize s < 2 ^ 57 /\ 0 <= innersize s < 2 ^ 60.

(** The numbers of the join. *)
Definition matches_of (s : sizes) : Z :=
  u64 (nlookups s * HashJoin.total (hashsize s) (innersize s) (seqZ 0 (outersize s))).
Definition conflicts_of (s : sizes) : Z :=
  innersize s - HashJoin.nonempty (hashsize s) (Z.to_nat (innersize s)).
Definition results_of (s : sizes) : list event :=
  [Out Stdout (matches_line (matches_of s) (matches_of s / nlookups s) (outersize s));
   Out Stdout (conflicts_line (conflicts_of s))].

Lemma returns_allocate n sz align : memalign (u64 (n * sz)) = true -> returns (allocate memalign n sz align) (fun _ => True).
Proof. intros Hm. unfold allocate. rewrite Hm. eapply returns_bind; [apply returns_emit|]. intros. by apply returns_ret. Qed.

Lemma returns_wait n i : returns (wait_flushed flushed n i) (fun _ => True).
Proof.
  revert i. induction n as [|n IH]; intros i; cbn [wait_flushed]; [by apply returns_ret|].
  destruct (flushed i); repeat (eapply returns_bind; [apply returns_emit|intros _ _]); [apply returns_emit|apply IH].
Qed.

Lemma returns_print_sizes s : returns (print_sizes s) (fun _ => True).
Proof. unfold print_sizes. repeat (eapply returns_bind; [apply returns_emit|intros _ _]). apply returns_emit. Qed.

Lemma returns_signal_setup : fopen_w ready_file = true -> returns signal_setup (fun _ => True).
Proof.
  intros Hf. unfold signal_setup. rewrite Hf. repeat (eapply returns_bind; [apply returns_emit|intros _ _]). apply returns_emit.
Qed.

Lemma returns_defined {A} (o : option A) : is_Some o -> returns (defined o) (fun _ => True).
Proof. intros [a ->]. by apply (returns_ret _ (fun _ => True)). Qed.

Lemma join_builds h n o i r : HashJoin.join h n o i shares = Some r -> is_Some (HashJoin.build h i).
Proof. unfold HashJoin.join. destruct (HashJoin.build h i); [by eexists|discriminate]. Qed.

Lemma real_main_prints argv s :
  read_sizes (results (scan optstring (tail argv))) default_sizes = Some s -> sizes_ok s -> resources s ->
  (forall j, 0 <= j < nlookups s -> concat (shares j) ≡ₚ seqZ 0 (outersize s)) ->
  prints (results_of s) (hj_real_main memalign flushed lookup_start lookup_end shares argv) (Ret ()).
Proof.
  intros Hs (Hh & Hl & Ho & Hi) (M1 & M2 & M3 & F1 & F2) Hsh. unfold hj_real_main. rewrite Hs.
  eapply prints_after; [apply returns_print_sizes|intros _ _].
  pose proof (HashJoin.join_ok (hashsize s) (nlookups s) (outersize s) (innersize s) shares) as Hj.
  do 2 (eapply prints_after; [by apply returns_allocate|intros _ _]).
  eapply prints_after; [by eapply returns_defined, join_builds, Hj|intros _ _].
  eapply prints_after; [by apply returns_allocate|intros _ _].
  eapply prints_after; [by apply returns_signal_setup|intros _ _].
  eapply prints_after; [apply returns_wait|intros _ _].
  rewrite Hj by done. unfold create_file. rewrite F2.
  do 2 (eapply prints_after; [apply returns_emit|intros _ _]).
  exists [], [Out Stdout (lookup_time lookup_start lookup_end)]. done.
Qed.

Lemma returns_options argv0 rs out : Forall no_help rs -> returns (hj_options argv0 rs out) (fun _ => True).
Proof.
  intros Hrs. revert out. induction Hrs as [|r rs Hr Hrs IH]; intros out; cbn [hj_options]; [by apply returns_ret|].
  eapply returns_bind; [|intros a _; apply IH]. destruct r as [c [optarg|]|]; cbn [no_help] in Hr; unfold hj_option; [|rewrite Hr|done].
  - destruct (is_char c "o"); [|by apply (returns_ret _ (fun _ => True))].
    destruct (fopen_a optarg); repeat (eapply returns_bind; [apply returns_emit|intros _ _]); by apply (returns_ret _ (fun _ => True)).
  - by apply (returns_ret _ (fun _ => True)).
Qed.

(** C19: the hash join from its command line to its output.  With options of the
    process before ["--"] and sizes behind it, memory and files that can be
    created, for every split of every pass between threads and whatever the
    measuring script does, the process ends with status 0 and prints the number
    of matches, of matches per pass and of conflicts that the keys and the hash
    function determine. *)
Theorem hashjoin_prints argv0 own args s :
  numa_available <> -1 -> dash_dash ∉ argv0 :: own -> accepted hj_optstring own ->
  (forall o, Found 104 o ∉ results (scan hj_optstring own)) ->
  read_sizes (results (scan optstring (operands (scan hj_optstring own) ++ args))) default_sizes = Some s ->
  sizes_ok s -> resources s ->
  (forall j, 0 <= j < nlookups s -> concat (shares j) ≡ₚ seqZ 0 (outersize s)) ->
  prints (results_of s) (hj_main memalign flushed lookup_start lookup_end shares argv0 (own ++ dash_dash :: args)) (Exit 0).
Proof.
  intros Hnuma Hd Ha Hh Hs Hok Hres Hsh. unfold hj_main. assert (numa_available =? -1 = false) as -> by lia.
  eapply prints_after; [apply prepares_returns, prepares_print_argv|intros _ _].
  eapply prints_after; [apply returns_emit|intros _ _].
  eapply prints_after; [by apply (returns_ret () (fun _ => True))|intros _ _].
  rewrite prog_argv_dashes by done. apply not_elem_of_cons in Hd as [_ Hd]. rewrite scan_app by done. cbn [results].
  eapply prints_after; [by apply returns_options, Forall_no_help|intros out _].
  do 8 (eapply prints_after; [apply returns_emit|intros _ _]).
  eapply prints_before; [by apply real_main_prints|reflexivity].
Qed.

(** A table of size 0, which "-s 0" or a size that is no number gives: the hash
    is divided by it. *)
Lemma build_step_zero k t : HashJoin.build_step 0 k t = None.
Proof.
  unfold HashJoin.build_step. change (0 =? 0) with true. cbn [negb]. unfold check.
  destruct (aset (HashJoin.ht_key t) _ _) as [ks|]; [|reflexivity]. rewrite HashJoin.bind_some.
  destruct (ks.[k]) as [x|]; [|reflexivity]. rewrite HashJoin.bind_some. generalize (HashJoin.hash x). intros []; reflexivity.
Qed.

Lemma join_size_zero n o i : 0 < i -> HashJoin.join 0 n o i shares = None.
Proof.
  intros Hi. unfold HashJoin.join, HashJoin.build. rewrite for_z_step by done. rewrite build_step_zero. reflexivity.
Qed.
End Proofs.

(** ** Example *)

#[local] Instance example_system : System := {
  numa_available := 0; nodemask_allocated := true; numa_num_configured_nodes := 2;
  fopen_w _ := true; fopen_a _ := true; device := true; access _ := false;
  tstart := MkTimeval 10 0; tend := MkTimeval 12 500000; real_main _ := ([], None);
}.
#[local] Instance example_build : Build := { openmp := false; DISABLE_SIGNAL_IN_MAIN := true }.

Lemma hashjoin_prints_witness :
  let s := MkSizes 8 1 4 2 in
  prints (results_of s)
    (hj_main (fun _ => true) (fun _ => true) (MkTimeval 11 0) (MkTimeval 12 0) (fun _ => [seqZ 0 4]) (chars "hashjoin")
       ([chars "-ofile"] ++ dash_dash :: [chars "-s8"; chars "-n"; chars "1"; chars "-o4"; chars "-i2"])) (Exit 0).
Proof.
  apply hashjoin_prints.
  - cbn. lia.
  - intros H. apply list_elem_of_In in H. vm_compute in H. destruct H as [[=]|[[=]|[]]].
  - intros c H. apply list_elem_of_In in H. vm_compute in H. destruct H as [[=]|[]].
  - intros o H. apply list_elem_of_In in H. vm_compute in H. destruct H as [[=]|[]].
  - vm_compute. reflexivity.
  - unfold sizes_ok. cbn. lia.
  - repeat split.
  - intros j Hj. cbn. rewrite app_nil_r. reflexivity.
Defined.
End HashJoinMain.
