(* ===== verification/ModArith.v ===== *)
(** * Arithmetic modulo 2^31 - 1 (sources/graph500/generator/mod_arith*.h)

    [mod_arith.h] includes one of two headers that implement the same
    operations.  The class [ModArith] states what the generator relies on; the
    64-bit and the 32-bit header are its two instances. *)

From stdpp Require Import list numbers.
From Stdlib Require Import ZArith Lia Zdiv.
From S2P Require Import Prelude.
#[local] Open Scope Z_scope.

(** The modulus 0x7FFFFFFF and its residues. *)
Definition P31 : Z := 2147483647.
Definition fe (x : Z) : Prop := 0 <= x < P31.
Definition in_range (x : Z) : bool := x <=? 2147483646.

Definition X_MUL : Z := 107374182.
Definition Y_MUL : Z := 104480.

Lemma fe_mod x : fe (x mod P31).
Proof. apply Z.mod_pos_bound. done. Qed.

Lemma fe_check x : fe x -> check (in_range x) = Some tt.
Proof. intros Hx. apply check_true, Z.leb_le. unfold fe, P31 in Hx. lia. Qed.

(** Congruence modulo [P31], a ring congruence that ignores reductions. *)
Definition cong (a b : Z) : Prop := a mod P31 = b mod P31.

#[export] Instance cong_equiv : Equivalence cong.
Proof. split; unfold cong; repeat intro; congruence. Qed.
#[export] Instance cong_add : Proper (cong ==> cong ==> cong) Z.add.
Proof. intros a a' Ha b b' Hb. unfold cong in *. rewrite Zplus_mod, Ha, Hb. symmetry. apply Zplus_mod. Qed.
#[export] Instance cong_mul : Proper (cong ==> cong ==> cong) Z.mul.
Proof. intros a a' Ha b b' Hb. unfold cong in *. rewrite Zmult_mod, Ha, Hb. symmetry. apply Zmult_mod. Qed.
Lemma mod_cong a : cong (a mod P31) a.
Proof. unfold cong. apply Zmod_mod. Qed.

Create HintDb fe.
Create Rewrite HintDb fe.
#[export] Hint Resolve fe_mod : fe.
#[export] Hint Rewrite fe_check using (solve [auto with fe]) : fe.

Class ModArith := {
  mod_add : Z -> Z -> option Z;
  mod_mul : Z -> Z -> option Z;
  mod_mac : Z -> Z -> Z -> option Z;
  mod_mac2 : Z -> Z -> Z -> Z -> Z -> option Z;
  mod_mac3 : Z -> Z -> Z -> Z -> Z -> Z -> Z -> option Z;
  mod_mac4 : Z -> Z -> Z -> Z -> Z -> Z -> Z -> Z -> Z -> option Z;
  mod_mul_x : Z -> option Z;
  mod_mul_y : Z -> option Z;
  mod_mac_y : Z -> Z -> option Z;
  mod_add_ok a b : fe a -> fe b -> mod_add a b = Some ((a + b) mod P31);
  mod_mul_ok a b : fe a -> fe b -> mod_mul a b = Some ((a * b) mod P31);
  mod_mac_ok s a b : fe s -> fe a -> fe b -> mod_mac s a b = Some ((a * b + s) mod P31);
  mod_mac2_ok s a b c d : fe s -> fe a -> fe b -> fe c -> fe d ->
    mod_mac2 s a b c d = Some ((a * b + c * d + s) mod P31);
  mod_mac3_ok s a b c d e f : fe s -> fe a -> fe b -> fe c -> fe d -> fe e -> fe f ->
    mod_mac3 s a b c d e f = Some ((a * b + c * d + e * f + s) mod P31);
  mod_mac4_ok s a b c d e f g h :
    fe s -> fe a -> fe b -> fe c -> fe d -> fe e -> fe f -> fe g -> fe h ->
    mod_mac4 s a b c d e f g h = Some ((a * b + c * d + e * f + g * h + s) mod P31);
  mod_mul_x_ok a : fe a -> mod_mul_x a = Some ((a * X_MUL) mod P31);
  mod_mul_y_ok a : fe a -> mod_mul_y a = Some ((a * Y_MUL) mod P31);
  mod_mac_y_ok s a : fe s -> fe a -> mod_mac_y s a = Some ((a * Y_MUL + s) mod P31);
}.

#[export] Hint Rewrite @mod_add_ok @mod_mul_ok @mod_mac_ok @mod_mac2_ok @mod_mac3_ok
  @mod_mac4_ok @mod_mul_x_ok @mod_mul_y_ok @mod_mac_y_ok using (solve [auto with fe]) : fe.

(** ** The 64-bit header

    [uint_fast32_t] and [uint_fast64_t] are 64 bits wide here. *)
Module M64.

Definition mod_add (a b : Z) : option Z :=
  assert! in_range a; assert! in_range b;
  Some (u64 (a + b) mod P31).

Definition mod_mul (a b : Z) : option Z :=
  assert! in_range a; assert! in_range b;
  Some (u64 (a * b) mod P31).

Definition mod_mac (sum a b : Z) : option Z :=
  assert! in_range sum; assert! in_range a; assert! in_range b;
  Some (u64 (u64 (a * b) + sum) mod P31).

Definition mod_mac2 (sum a b c d : Z) : option Z :=
  assert! in_range sum; assert! in_range a; assert! in_range b;
  assert! in_range c; assert! in_range d;
  Some (u64 (u64 (u64 (a * b) + u64 (c * d)) + sum) mod P31).

Definition mod_mac3 (sum a b c d e f : Z) : option Z :=
  assert! in_range sum; assert! in_range a; assert! in_range b;
  assert! in_range c; assert! in_range d; assert! in_range e; assert! in_range f;
  Some (u64 (u64 (u64 (u64 (a * b) + u64 (c * d)) + u64 (e * f)) + sum) mod P31).

Definition mod_mac4 (sum a b c d e f g h : Z) : option Z :=
  assert! in_range sum; assert! in_range a; assert! in_range b;
  assert! in_range c; assert! in_range d; assert! in_range e; assert! in_range f;
  assert! in_range g; assert! in_range h;
  Some (u64 (u64 (u64 (u64 (u64 (a * b) + u64 (c * d)) + u64 (e * f)) + u64 (g * h)) + sum)
          mod P31).

Definition mod_mul_x (a : Z) : option Z := mod_mul a X_MUL.
Definition mod_mul_y (a : Z) : option Z := mod_mul a Y_MUL.
Definition mod_mac_y (sum a : Z) : option Z := mod_mac sum a Y_MUL.

End M64.

(** ** The 32-bit header

    [uint_fast32_t] and [int_fast32_t] are 32 bits wide, [uint_fast64_t] is 64. *)
Module M32.

(** [(x >= 0x7FFFFFFF) ? (x - 0x7FFFFFFF) : x] *)
Definition reduce (x : Z) : Z := if P31 <=? x then u32 (x - P31) else x.

Definition mod_add (a b : Z) : option Z :=
  assert! in_range a; assert! in_range b;
  Some (reduce (u32 (a + b))).

(** The two halves of the product, folded at bit 31. *)
Definition fold31 (temp : Z) : Z :=
  u32 (u32 (Z.land temp P31) + u32 (Z.shiftr temp 31)).

Definition mod_mul (a b : Z) : option Z :=
  assert! in_range a; assert! in_range b;
  Some (reduce (fold31 (u64 (a * b)))).

Definition mod_mac (sum a b : Z) : option Z :=
  assert! in_range sum; assert! in_range a; assert! in_range b;
  Some (reduce (fold31 (u64 (u64 (a * b) + sum)))).

Definition mod_mac2 (sum a b c d : Z) : option Z :=
  assert! in_range sum; assert! in_range a; assert! in_range b;
  assert! in_range c; assert! in_range d;
  s ← mod_mac sum a b; mod_mac s c d.

Definition mod_mac3 (sum a b c d e f : Z) : option Z :=
  assert! in_range sum; assert! in_range a; assert! in_range b;
  assert! in_range c; assert! in_range d; assert! in_range e; assert! in_range f;
  s ← mod_mac sum a b; mod_mac2 s c d e f.

Definition mod_mac4 (sum a b c d e f g h : Z) : option Z :=
  assert! in_range sum; assert! in_range a; assert! in_range b;
  assert! in_range c; assert! in_range d; assert! in_range e; assert! in_range f;
  assert! in_range g; assert! in_range h;
  s ← mod_mac2 sum a b c d; mod_mac2 s e f g h.

(** Multiplication by a constant [k] with [q = P / k] and [r = P % k]: the
    approximate factoring that keeps every intermediate in 32 signed bits. *)
Definition mul_const (k q r a : Z) : option Z :=
  a ← sint32 a;
  let result := Z.quot a q in
  t1 ← sint32 (result * q); t2 ← sint32 (a - t1); t3 ← sint32 (k * t2);
  t4 ← sint32 (result * r); result ← sint32 (t3 - t4);
  result ← sint32 (result + (if result <? 0 then P31 else 0));
  Some (u32 result).

Definition mod_mul_x (a : Z) : option Z :=
  result ← mul_const X_MUL 20 7 a;
  m ← mod_mul a X_MUL;
  assert! result =? m; Some result.

Definition mod_mul_y (a : Z) : option Z :=
  result ← mul_const Y_MUL 20554 1727 a;
  m ← mod_mul a Y_MUL;
  assert! result =? m; Some result.

Definition mod_mac_y (sum a : Z) : option Z :=
  y ← mod_mul_y a;
  result ← mod_add sum y;
  m ← mod_mac sum a Y_MUL;
  assert! result =? m; Some result.

End M32.

(** ** Both headers compute residues *)

Lemma fe_mul_bound a b : fe a -> fe b -> 0 <= a * b <= 4611686009837453316.
Proof. unfold fe, P31. nia. Qed.

Lemma fe_X : fe X_MUL. Proof. done. Qed.
Lemma fe_Y : fe Y_MUL. Proof. done. Qed.
#[export] Hint Resolve fe_X fe_Y : fe.

(** Records the bounds of every product of two residues in the context. *)
Ltac fe_bounds :=
  repeat match goal with
  | H1 : fe ?a, H2 : fe ?b |- context [?a * ?b] =>
      lazymatch goal with
      | _ : 0 <= a * b <= _ |- _ => fail
      | _ => pose proof (fe_mul_bound a b H1 H2)
      end
  end.

(** An implementation is a [ModArith] when each operation returns the residue. *)
Ltac m64_solve :=
  intros; pose proof fe_X; pose proof fe_Y; autorewrite with fe;
  cbn [mbind option_bind]; f_equal; fe_bounds; unfold fe, P31 in *;
  repeat match goal with
  | |- context [u64 ?x] =>
      lazymatch x with context [u64 _] => fail | _ => rewrite (u64_id x) by (unfold in_u64; lia) end
  end; reflexivity.

Module M64_laws.
Import M64.

Lemma add_ok a b : fe a -> fe b -> mod_add a b = Some ((a + b) mod P31).
Proof. unfold mod_add. m64_solve. Qed.
Lemma mul_ok a b : fe a -> fe b -> mod_mul a b = Some ((a * b) mod P31).
Proof. unfold mod_mul. m64_solve. Qed.
Lemma mac_ok s a b : fe s -> fe a -> fe b -> mod_mac s a b = Some ((a * b + s) mod P31).
Proof. unfold mod_mac. m64_solve. Qed.
Lemma mac2_ok s a b c d : fe s -> fe a -> fe b -> fe c -> fe d ->
  mod_mac2 s a b c d = Some ((a * b + c * d + s) mod P31).
Proof. unfold mod_mac2. m64_solve. Qed.
Lemma mac3_ok s a b c d e f : fe s -> fe a -> fe b -> fe c -> fe d -> fe e -> fe f ->
  mod_mac3 s a b c d e f = Some ((a * b + c * d + e * f + s) mod P31).
Proof. unfold mod_mac3. m64_solve. Qed.
Lemma mac4_ok s a b c d e f g h :
  fe s -> fe a -> fe b -> fe c -> fe d -> fe e -> fe f -> fe g -> fe h ->
  mod_mac4 s a b c d e f g h = Some ((a * b + c * d + e * f + g * h + s) mod P31).
Proof. unfold mod_mac4. m64_solve. Qed.
End M64_laws.

#[export] Instance mod_arith_64 : ModArith := {|
  mod_add := M64.mod_add; mod_mul := M64.mod_mul; mod_mac := M64.mod_mac;
  mod_mac2 := M64.mod_mac2; mod_mac3 := M64.mod_mac3; mod_mac4 := M64.mod_mac4;
  mod_mul_x := M64.mod_mul_x; mod_mul_y := M64.mod_mul_y; mod_mac_y := M64.mod_mac_y;
  mod_add_ok := M64_laws.add_ok; mod_mul_ok := M64_laws.mul_ok;
  mod_mac_ok := M64_laws.mac_ok; mod_mac2_ok := M64_laws.mac2_ok;
  mod_mac3_ok := M64_laws.mac3_ok; mod_mac4_ok := M64_laws.mac4_ok;
  mod_mul_x_ok a Ha := M64_laws.mul_ok a X_MUL Ha fe_X;
  mod_mul_y_ok a Ha := M64_laws.mul_ok a Y_MUL Ha fe_Y;
  mod_mac_y_ok s a Hs Ha := M64_laws.mac_ok s a Y_MUL Hs Ha fe_Y |}.

Module M32_laws.
Import M32.

Lemma reduce_ok x : 0 <= x < 2 * P31 -> reduce x = x mod P31.
Proof.
  unfold reduce, P31. intros Hx. destruct (Z.leb_spec 2147483647 x).
  - rewrite u32_id by (unfold in_u32; lia).
    apply Z.mod_unique with 1; lia.
  - symmetry. apply Z.mod_small. lia.
Qed.

Lemma fold31_ok t :
  0 <= t <= 4611686011984936962 -> reduce (fold31 t) = t mod P31.
Proof.
  intros Ht. unfold fold31. change P31 with (Z.ones 31) at 1.
  rewrite Z.land_ones, Z.shiftr_div_pow2 by lia.
  pose proof (Z.div_mod t (2 ^ 31) ltac:(lia)) as Hdm.
  pose proof (Z.mod_pos_bound t (2 ^ 31) ltac:(lia)) as Hm.
  assert (0 <= t / 2 ^ 31 <= 2147483645) as Hd by zdiv.
  set (lo := t mod 2 ^ 31) in *. set (hi := t / 2 ^ 31) in *.
  rewrite !u32_id by (unfold in_u32; rewrite ?u32_id by (unfold in_u32; lia); lia).
  rewrite reduce_ok by (unfold P31; lia).
  rewrite <- (Z_mod_plus_full (lo + hi) hi P31). f_equal. unfold P31. lia.
Qed.

Lemma m32_add_ok a b : fe a -> fe b -> mod_add a b = Some ((a + b) mod P31).
Proof.
  intros. unfold mod_add. autorewrite with fe. cbn [mbind option_bind]. f_equal.
  unfold fe, P31 in *. rewrite u32_id by (unfold in_u32; lia).
  apply reduce_ok. unfold P31. lia.
Qed.
Lemma m32_mul_ok a b : fe a -> fe b -> mod_mul a b = Some ((a * b) mod P31).
Proof.
  intros. unfold mod_mul. autorewrite with fe. cbn [mbind option_bind]. f_equal.
  fe_bounds. rewrite u64_id by (unfold in_u64; lia). apply fold31_ok. lia.
Qed.
Lemma m32_mac_ok s a b : fe s -> fe a -> fe b -> mod_mac s a b = Some ((a * b + s) mod P31).
Proof.
  intros Hs ? ?. unfold mod_mac. autorewrite with fe. cbn [mbind option_bind]. f_equal.
  fe_bounds. unfold fe, P31 in Hs.
  rewrite !u64_id by (unfold in_u64; rewrite ?u64_id by (unfold in_u64; lia); lia).
  apply fold31_ok. lia.
Qed.

#[local] Hint Rewrite m32_mac_ok using (solve [auto with fe]) : fe.
Lemma m32_mac2_ok s a b c d : fe s -> fe a -> fe b -> fe c -> fe d ->
  mod_mac2 s a b c d = Some ((a * b + c * d + s) mod P31).
Proof.
  intros. unfold mod_mac2. do 6 (autorewrite with fe; cbn [mbind option_bind]).
  f_equal. rewrite Zplus_mod_idemp_r. f_equal. lia.
Qed.
#[local] Hint Rewrite m32_mac2_ok using (solve [auto with fe]) : fe.
Lemma m32_mac3_ok s a b c d e f : fe s -> fe a -> fe b -> fe c -> fe d -> fe e -> fe f ->
  mod_mac3 s a b c d e f = Some ((a * b + c * d + e * f + s) mod P31).
Proof.
  intros. unfold mod_mac3. do 8 (autorewrite with fe; cbn [mbind option_bind]).
  f_equal. rewrite Zplus_mod_idemp_r. f_equal. lia.
Qed.
Lemma m32_mac4_ok s a b c d e f g h :
  fe s -> fe a -> fe b -> fe c -> fe d -> fe e -> fe f -> fe g -> fe h ->
  mod_mac4 s a b c d e f g h = Some ((a * b + c * d + e * f + g * h + s) mod P31).
Proof.
  intros. unfold mod_mac4. do 10 (autorewrite with fe; cbn [mbind option_bind]).
  f_equal. rewrite Zplus_mod_idemp_r. f_equal. lia.
Qed.

(** Schrage's decomposition: [k * q + r = P], so [k * a] is congruent to
    [k * (a mod q) - r * (a / q)], and [r < q] keeps that above [-P]. *)
Lemma mul_const_ok k q r a :
  0 < k -> 0 < q -> 0 <= r < q -> k * q + r = P31 -> fe a ->
  mul_const k q r a = Some ((a * k) mod P31).
Proof.
  intros Hk Hq Hr HP Ha. unfold fe in Ha. unfold mul_const.
  assert (P31 = 2147483647) as HPv by done.
  rewrite sint32_id by lia. cbn [mbind option_bind]. rewrite Z.quot_div_nonneg by lia.
  pose proof (Z.div_mod a q ltac:(lia)) as Hdm.
  pose proof (Z.mod_pos_bound a q ltac:(lia)) as Hm.
  assert (0 <= a / q) by (apply Z.div_pos; lia).
  set (h := a / q) in *. set (l := a mod q) in *.
  assert (0 <= k * l < P31) by nia. assert (0 <= h * r <= a) by nia.
  rewrite (sint32_id (h * q)) by nia. cbn [mbind option_bind].
  replace (a - h * q) with l by lia.
  rewrite (sint32_id l) by lia. cbn [mbind option_bind].
  rewrite (sint32_id (k * l)) by lia. cbn [mbind option_bind].
  rewrite (sint32_id (h * r)) by lia. cbn [mbind option_bind].
  rewrite (sint32_id (k * l - h * r)) by lia. cbn [mbind option_bind].
  assert (a * k = k * l - h * r + h * P31) as -> by nia.
  rewrite Z_mod_plus_full. destruct (Z.ltb_spec (k * l - h * r) 0).
  - rewrite sint32_id by lia. cbn [mbind option_bind].
    rewrite u32_id by (unfold in_u32; lia). f_equal.
    apply Z.mod_unique with (-1); lia.
  - rewrite Z.add_0_r, sint32_id by lia. cbn [mbind option_bind].
    rewrite u32_id by (unfold in_u32; lia). f_equal.
    symmetry. apply Z.mod_small. lia.
Qed.

Lemma mul_x_ok a : fe a -> mod_mul_x a = Some ((a * X_MUL) mod P31).
Proof.
  intros. unfold mod_mul_x. rewrite mul_const_ok by (unfold P31, X_MUL; lia || done).
  cbn [mbind option_bind]. rewrite m32_mul_ok by auto with fe. cbn [mbind option_bind].
  by rewrite Z.eqb_refl.
Qed.
Lemma mul_y_ok a : fe a -> mod_mul_y a = Some ((a * Y_MUL) mod P31).
Proof.
  intros. unfold mod_mul_y. rewrite mul_const_ok by (unfold P31, Y_MUL; lia || done).
  cbn [mbind option_bind]. rewrite m32_mul_ok by auto with fe. cbn [mbind option_bind].
  by rewrite Z.eqb_refl.
Qed.
Lemma mac_y_ok s a : fe s -> fe a -> mod_mac_y s a = Some ((a * Y_MUL + s) mod P31).
Proof.
  intros. unfold mod_mac_y. rewrite mul_y_ok by done. cbn [mbind option_bind].
  rewrite m32_add_ok, Zplus_mod_idemp_r by auto with fe. cbn [mbind option_bind].
  rewrite m32_mac_ok by auto with fe. cbn [mbind option_bind].
  by rewrite (Z.add_comm s), Z.eqb_refl.
Qed.
End M32_laws.

Definition mod_arith_32 : ModArith := {|
  mod_add := M32.mod_add; mod_mul := M32.mod_mul; mod_mac := M32.mod_mac;
  mod_mac2 := M32.mod_mac2; mod_mac3 := M32.mod_mac3; mod_mac4 := M32.mod_mac4;
  mod_mul_x := M32.mod_mul_x; mod_mul_y := M32.mod_mul_y; mod_mac_y := M32.mod_mac_y;
  mod_add_ok := M32_laws.m32_add_ok; mod_mul_ok := M32_laws.m32_mul_ok;
  mod_mac_ok := M32_laws.m32_mac_ok; mod_mac2_ok := M32_laws.m32_mac2_ok;
  mod_mac3_ok := M32_laws.m32_mac3_ok; mod_mac4_ok := M32_laws.m32_mac4_ok;
  mod_mul_x_ok := M32_laws.mul_x_ok; mod_mul_y_ok := M32_laws.mul_y_ok;
  mod_mac_y_ok := M32_laws.mac_y_ok |}.

(** C35: on residues the 32-bit header, with its folded products and Schrage
    multiplications, computes the same value as the 64-bit header for every
    operation; in particular no assertion of either fires and no signed
    intermediate overflows. *)
Theorem headers_agree a b c d e f g h s :
  fe a -> fe b -> fe c -> fe d -> fe e -> fe f -> fe g -> fe h -> fe s ->
  M32.mod_add a b = M64.mod_add a b /\ M32.mod_mul a b = M64.mod_mul a b /\
  M32.mod_mac s a b = M64.mod_mac s a b /\
  M32.mod_mac2 s a b c d = M64.mod_mac2 s a b c d /\
  M32.mod_mac3 s a b c d e f = M64.mod_mac3 s a b c d e f /\
  M32.mod_mac4 s a b c d e f g h = M64.mod_mac4 s a b c d e f g h /\
  M32.mod_mul_x a = M64.mod_mul_x a /\ M32.mod_mul_y a = M64.mod_mul_y a /\
  M32.mod_mac_y s a = M64.mod_mac_y s a /\
  M64.mod_mac4 s a b c d e f g h = Some ((a * b + c * d + e * f + g * h + s) mod P31).
Proof.
  intros. unfold M64.mod_mul_x, M64.mod_mul_y, M64.mod_mac_y.
  rewrite M32_laws.m32_add_ok, M32_laws.m32_mul_ok, M32_laws.m32_mac_ok, M32_laws.m32_mac2_ok,
    M32_laws.m32_mac3_ok, M32_laws.m32_mac4_ok, M32_laws.mul_x_ok, M32_laws.mul_y_ok,
    M32_laws.mac_y_ok by done.
  rewrite M64_laws.add_ok, !M64_laws.mul_ok, !M64_laws.mac_ok, M64_laws.mac2_ok,
    M64_laws.mac3_ok, M64_laws.mac4_ok by auto with fe.
  done.
Qed.

Lemma headers_agree_witness :
  M32.mod_mac4 5 2147483646 2147483645 3 4 5 6 2147483646 2147483646
  = M64.mod_mac4 5 2147483646 2147483645 3 4 5 6 2147483646 2147483646.
Proof.
  apply (headers_agree 2147483646 2147483645 3 4 5 6 2147483646 2147483646 5);
    unfold fe, P31; lia.
Defined.
