(* ===== verification/Mrg.v ===== *)
(** * The splittable random number generator (sources/graph500/generator/splittable_mrg.c)

    L'Ecuyer's multiple recursive generator modulo 2^31 - 1, its transition
    matrices, the program that dumps the table of their powers and the skip
    routine that uses the table. *)

From stdpp Require Import list numbers.
From Stdlib Require Import ZArith Lia Zdiv Setoid Morphisms.
From S2P Require Import Prelude ModArith.
#[local] Open Scope Z_scope.

Record mrg_state := MkState { z1 : Z; z2 : Z; z3 : Z; z4 : Z; z5 : Z }.

Record mrg_transition_matrix := MkMatrix {
  mt_s : Z; mt_t : Z; mt_u : Z; mt_v : Z; mt_w : Z;
  mt_a : Z; mt_b : Z; mt_c : Z; mt_d : Z }.

Module Mrg.
Section Mrg.
Context {MA : ModArith}.

(** ** The matrices *)

(** Sets the cached part [a], [b], [c], [d] of a matrix. *)
Definition mrg_update_cache (p : mrg_transition_matrix) : option mrg_transition_matrix :=
  let '(MkMatrix s t u v w _ _ _ _) := p in
  m ← mod_mul_x s; a ← mod_add m t;
  m ← mod_mul_x a; b ← mod_add m u;
  m ← mod_mul_x b; c ← mod_add m v;
  m ← mod_mul_x c; d ← mod_add m w;
  Some (MkMatrix s t u v w a b c d).

Definition mrg_make_identity : option mrg_transition_matrix :=
  mrg_update_cache (MkMatrix 0 0 0 0 1 0 0 0 0).

Definition mrg_make_A : option mrg_transition_matrix :=
  mrg_update_cache (MkMatrix 0 0 0 1 0 0 0 0 0).

Definition mrg_multiply (m n : mrg_transition_matrix) : option mrg_transition_matrix :=
  let '(MkMatrix s1 t1 u1 v1 w1 _ _ _ _) := m in
  let '(MkMatrix s2 t2 u2 v2 w2 a2 b2 c2 d2) := n in
  rs ← mod_mul s1 d2; rs ← mod_mac rs t1 c2; rs ← mod_mac rs u1 b2;
  rs ← mod_mac rs v1 a2; rs ← mod_mac rs w1 s2;
  rt ← mod_mul s1 s2; rt ← mod_mul_y rt; rt ← mod_mac rt t1 w2;
  rt ← mod_mac rt u1 v2; rt ← mod_mac rt v1 u2; rt ← mod_mac rt w1 t2;
  ru ← mod_mul s1 a2; ru ← mod_mac ru t1 s2; ru ← mod_mul_y ru;
  ru ← mod_mac ru u1 w2; ru ← mod_mac ru v1 v2; ru ← mod_mac ru w1 u2;
  rv ← mod_mul s1 b2; rv ← mod_mac rv t1 a2; rv ← mod_mac rv u1 s2;
  rv ← mod_mul_y rv; rv ← mod_mac rv v1 w2; rv ← mod_mac rv w1 v2;
  rw ← mod_mul s1 c2; rw ← mod_mac rw t1 b2; rw ← mod_mac rw u1 a2;
  rw ← mod_mac rw v1 s2; rw ← mod_mul_y rw; rw ← mod_mac rw w1 w2;
  mrg_update_cache (MkMatrix rs rt ru rv rw 0 0 0 0).

(** [exponent] is an [unsigned int]: 32 halvings empty it. *)
Definition mrg_power (m : mrg_transition_matrix) (exponent : Z)
    : option mrg_transition_matrix :=
  result ← mrg_make_identity;
  s ← while_fuel 33 (fun '(e, _, _) => Some (0 <? e))
        (fun '(e, result, current_power_of_2) =>
           result ← (if e mod 2 =? 1 then mrg_multiply result current_power_of_2
                     else Some result);
           current_power_of_2 ← mrg_multiply current_power_of_2 current_power_of_2;
           Some (e / 2, result, current_power_of_2))
        (exponent, result, m);
  Some (snd (fst s)).

(** ** Stepping *)

Definition mrg_apply_transition (mat : mrg_transition_matrix) (st : mrg_state)
    : option mrg_state :=
  let '(MkMatrix s t u v w a b c d) := mat in
  let '(MkState z1 z2 z3 z4 z5) := st in
  x ← mod_mul d z1; y ← mod_mac4 0 s z2 a z3 b z4 c z5; o1 ← mod_mac_y x y;
  x ← mod_mac2 0 c z1 w z2; y ← mod_mac3 0 s z3 a z4 b z5; o2 ← mod_mac_y x y;
  x ← mod_mac3 0 b z1 v z2 w z3; y ← mod_mac2 0 s z4 a z5; o3 ← mod_mac_y x y;
  x ← mod_mac4 0 a z1 u z2 v z3 w z4; y ← mod_mul s z5; o4 ← mod_mac_y x y;
  x ← mod_mac3 0 s z1 t z2 u z3; o5 ← mod_mac2 x v z4 w z5;
  Some (MkState o1 o2 o3 o4 o5).

Definition mrg_step (mat : mrg_transition_matrix) (state : mrg_state) : option mrg_state :=
  mrg_apply_transition mat state.

Definition mrg_orig_step (state : mrg_state) : option mrg_state :=
  let '(MkState z1 z2 z3 z4 z5) := state in
  x ← mod_mul_x z1; new_elt ← mod_mac_y x z5;
  Some (MkState new_elt z1 z2 z3 z4).

Definition mrg_get_uint_orig (state : mrg_state) : option (mrg_state * Z) :=
  state ← mrg_orig_step state; Some (state, z1 state).

Definition mrg_seed (seed : list Z) : option mrg_state :=
  z1 ← seed.[0]; z2 ← seed.[1]; z3 ← seed.[2]; z4 ← seed.[3]; z5 ← seed.[4];
  Some (MkState z1 z2 z3 z4 z5).

(** The body of the three loops of [mrg_skip]: one byte of the exponent. *)
Definition skip_byte (tbl : list (list mrg_transition_matrix))
    (s : Z * Z * mrg_state) : option (Z * Z * mrg_state) :=
  let '(byte_index, e, state) := s in
  let val := Z.land e 255 in
  state ← (if val =? 0 then Some state
           else row ← tbl.[byte_index]; mat ← row.[val]; mrg_step mat state);
  Some (byte_index + 1, Z.shiftr e 8, state).

(** One of the three loops: the bytes of one 64-bit word, from the low one. *)
Definition skip_word (tbl : list (list mrg_transition_matrix)) (first_byte e : Z)
    (state : mrg_state) : option mrg_state :=
  s ← while_fuel 9 (fun '(_, e, _) => Some (negb (e =? 0))) (skip_byte tbl)
        (first_byte, e, state);
  Some (snd s).

Definition mrg_skip (tbl : list (list mrg_transition_matrix)) (state : mrg_state)
    (exponent_high exponent_middle exponent_low : Z) : option mrg_state :=
  state ← skip_word tbl 0 exponent_low state;
  state ← skip_word tbl 8 exponent_middle state;
  skip_word tbl 16 exponent_high state.

(** ** The table dump *)

(** The matrices [dump_mrg_powers] writes for one byte, given [transitions[i]]. *)
Definition dump_byte (transition : mrg_transition_matrix)
    : option (list mrg_transition_matrix) :=
  m ← mrg_make_identity;
  rest ← mapM (mrg_power transition) (seqZ 2 254);
  Some (m :: transition :: rest).

(** The rows from byte [i] on; [prev] is [transitions[i - 1]] when [i > 0]. *)
Fixpoint dump_rows (n : nat) (prev : option mrg_transition_matrix)
    : option (list (list mrg_transition_matrix)) :=
  match n with
  | O => Some []
  | S n =>
      transition ← match prev with None => mrg_make_A | Some p => mrg_power p 256 end;
      row ← dump_byte transition;
      rows ← dump_rows n (Some transition);
      Some (row :: rows)
  end.

Definition dump_mrg_powers : option (list (list mrg_transition_matrix)) :=
  dump_rows 24 None.

(** ** A matrix is a polynomial in the step *)

(** The reference step: the recurrence itself. *)
Definition step (z : mrg_state) : mrg_state :=
  MkState ((z1 z * X_MUL + z5 z * Y_MUL) mod P31) (z1 z) (z2 z) (z3 z) (z4 z).

Definition iter_step (k : Z) (z : mrg_state) : mrg_state := N.iter (Z.to_N k) step z.

Definition fe_state (z : mrg_state) : Prop :=
  fe (z1 z) /\ fe (z2 z) /\ fe (z3 z) /\ fe (z4 z) /\ fe (z5 z).

(** Residues throughout and a cache that matches. *)
Definition wf (m : mrg_transition_matrix) : Prop :=
  fe (mt_s m) /\ fe (mt_t m) /\ fe (mt_u m) /\ fe (mt_v m) /\ fe (mt_w m) /\
  mt_a m = (mt_t m + mt_s m * X_MUL) mod P31 /\
  mt_b m = (mt_u m + mt_a m * X_MUL) mod P31 /\
  mt_c m = (mt_v m + mt_b m * X_MUL) mod P31 /\
  mt_d m = (mt_w m + mt_c m * X_MUL) mod P31.

(** The linear map of a matrix. *)
Definition act (m : mrg_transition_matrix) (z : mrg_state) : mrg_state :=
  let '(MkMatrix s t u v w a b c d) := m in
  let '(MkState z1 z2 z3 z4 z5) := z in
  MkState
    ((d * z1 + (s * z2 + a * z3 + b * z4 + c * z5) * Y_MUL) mod P31)
    ((c * z1 + w * z2 + (s * z3 + a * z4 + b * z5) * Y_MUL) mod P31)
    ((b * z1 + v * z2 + w * z3 + (s * z4 + a * z5) * Y_MUL) mod P31)
    ((a * z1 + u * z2 + v * z3 + w * z4 + (s * z5) * Y_MUL) mod P31)
    ((s * z1 + t * z2 + u * z3 + v * z4 + w * z5) mod P31).

Lemma fe_0 : fe 0. Proof. done. Qed.
Lemma fe_1 : fe 1. Proof. done. Qed.
#[local] Hint Resolve fe_0 fe_1 : fe.

(** Runs the modular operations of a routine on residues. *)
Ltac run_mod := repeat (autorewrite with fe; cbn [mbind option_bind]).

(** Congruences modulo [P31]: drop the reductions, then compare polynomials. *)
Ltac mod_ring :=
  match goal with |- ?l mod P31 = ?r mod P31 => change (cong l r) end;
  rewrite ?mod_cong;
  match goal with |- cong ?l ?r => replace l with r by ring; reflexivity end.

Lemma wf_cache m : wf m -> fe (mt_a m) /\ fe (mt_b m) /\ fe (mt_c m) /\ fe (mt_d m).
Proof. intros (_&_&_&_&_&->&->&->&->). auto with fe. Qed.

Lemma mrg_apply_ok m z :
  wf m -> fe_state z -> mrg_apply_transition m z = Some (act m z).
Proof.
  intros Hm (?&?&?&?&?). pose proof (wf_cache m Hm) as (?&?&?&?).
  destruct Hm as (?&?&?&?&?&_). destruct m, z. simpl in *.
  unfold mrg_apply_transition. run_mod. do 2 f_equal; mod_ring.
Qed.

Lemma act_fe m z : fe_state (act m z).
Proof. destruct m, z. unfold fe_state. simpl. auto 10 with fe. Qed.

Lemma step_fe z : fe_state z -> fe_state (step z).
Proof. intros (?&?&?&?&?). unfold fe_state, step. simpl. auto 10 with fe. Qed.

Lemma mrg_orig_step_ok z : fe_state z -> mrg_orig_step z = Some (step z).
Proof.
  intros (?&?&?&?&?). destruct z. simpl in *. unfold mrg_orig_step, step. run_mod.
  simpl. do 2 f_equal. mod_ring.
Qed.

Lemma mrg_update_cache_ok m :
  fe (mt_s m) -> fe (mt_t m) -> fe (mt_u m) -> fe (mt_v m) -> fe (mt_w m) ->
  exists m', mrg_update_cache m = Some m' /\ wf m' /\
    mt_s m' = mt_s m /\ mt_t m' = mt_t m /\ mt_u m' = mt_u m /\
    mt_v m' = mt_v m /\ mt_w m' = mt_w m.
Proof.
  intros. destruct m. simpl in *. unfold mrg_update_cache. run_mod.
  eexists. split; [done|]. unfold wf. simpl. split; [|done]. repeat (split; [done|]).
  repeat split; mod_ring.
Qed.

(** The same maps over the integers, where the polynomial identities hold
    exactly; reduction is a congruence for them. *)
Definition actZ (m : mrg_transition_matrix) (z : mrg_state) : mrg_state :=
  let '(MkMatrix s t u v w a b c d) := m in
  let '(MkState z1 z2 z3 z4 z5) := z in
  MkState
    (d * z1 + (s * z2 + a * z3 + b * z4 + c * z5) * Y_MUL)
    (c * z1 + w * z2 + (s * z3 + a * z4 + b * z5) * Y_MUL)
    (b * z1 + v * z2 + w * z3 + (s * z4 + a * z5) * Y_MUL)
    (a * z1 + u * z2 + v * z3 + w * z4 + (s * z5) * Y_MUL)
    (s * z1 + t * z2 + u * z3 + v * z4 + w * z5).

(** The matrix of a bottom row, its cache exact. *)
Definition rowZ (s t u v w : Z) : mrg_transition_matrix :=
  let a := t + s * X_MUL in
  let b := u + a * X_MUL in
  let c := v + b * X_MUL in
  MkMatrix s t u v w a b c (w + c * X_MUL).

Definition mulZ (m n : mrg_transition_matrix) : mrg_transition_matrix :=
  let '(MkMatrix s1 t1 u1 v1 w1 _ _ _ _) := m in
  let '(MkMatrix s2 t2 u2 v2 w2 a2 b2 c2 d2) := n in
  rowZ (s1 * d2 + t1 * c2 + u1 * b2 + v1 * a2 + w1 * s2)
    (s1 * s2 * Y_MUL + t1 * w2 + u1 * v2 + v1 * u2 + w1 * t2)
    ((s1 * a2 + t1 * s2) * Y_MUL + u1 * w2 + v1 * v2 + w1 * u2)
    ((s1 * b2 + t1 * a2 + u1 * s2) * Y_MUL + v1 * w2 + w1 * v2)
    ((s1 * c2 + t1 * b2 + u1 * a2 + v1 * s2) * Y_MUL + w1 * w2).

Definition norm (m : mrg_transition_matrix) : mrg_transition_matrix :=
  rowZ (mt_s m) (mt_t m) (mt_u m) (mt_v m) (mt_w m).

Lemma mulZ_act m n z : actZ (mulZ (norm m) (norm n)) z = actZ (norm m) (actZ (norm n) z).
Proof. destruct m, n, z. unfold norm, rowZ. simpl. f_equal; ring. Qed.

Definition reduce (z : mrg_state) : mrg_state :=
  MkState (z1 z mod P31) (z2 z mod P31) (z3 z mod P31) (z4 z mod P31) (z5 z mod P31).

Definition cong_state (z z' : mrg_state) : Prop := reduce z = reduce z'.

Definition cong_mat (m m' : mrg_transition_matrix) : Prop :=
  cong (mt_s m) (mt_s m') /\ cong (mt_t m) (mt_t m') /\ cong (mt_u m) (mt_u m') /\
  cong (mt_v m) (mt_v m') /\ cong (mt_w m) (mt_w m') /\ cong (mt_a m) (mt_a m') /\
  cong (mt_b m) (mt_b m') /\ cong (mt_c m) (mt_c m') /\ cong (mt_d m) (mt_d m').

Lemma act_reduce m z : act m z = reduce (actZ m z).
Proof. by destruct m, z. Qed.

#[local] Instance actZ_cong : Proper (cong_mat ==> cong_state ==> cong_state) actZ.
Proof.
  intros m m' (Hs&Ht&Hu&Hv&Hw&Ha&Hb&Hc&Hd) z z' Hz. destruct m, m', z, z'. simpl in *.
  injection Hz as H1 H2 H3 H4 H5. unfold cong_state, reduce. simpl in *.
  change (?x mod P31 = ?y mod P31) with (cong x y) in H1, H2, H3, H4, H5.
  f_equal; match goal with |- ?x mod P31 = ?y mod P31 => change (cong x y) end;
    by rewrite ?Hs, ?Ht, ?Hu, ?Hv, ?Hw, ?Ha, ?Hb, ?Hc, ?Hd, H1, H2, H3, H4, H5.
Qed.

Lemma reduce_cong z : cong_state (reduce z) z.
Proof. unfold cong_state, reduce. simpl. by rewrite !Zmod_mod. Qed.

Lemma rowZ_cong s t u v w s' t' u' v' w' :
  cong s s' -> cong t t' -> cong u u' -> cong v v' -> cong w w' ->
  cong_mat (rowZ s t u v w) (rowZ s' t' u' v' w').
Proof.
  intros Hs Ht Hu Hv Hw. unfold cong_mat, rowZ. simpl.
  repeat split; try done; by rewrite ?Hs, ?Ht, ?Hu, ?Hv, ?Hw.
Qed.

Lemma norm_cong m : wf m -> cong_mat m (norm m).
Proof.
  intros (_&_&_&_&_&Ha&Hb&Hc&Hd). unfold cong_mat, norm, rowZ. simpl.
  assert (cong (mt_a m) (mt_t m + mt_s m * X_MUL)) as Ha' by (rewrite Ha; apply mod_cong).
  assert (cong (mt_b m) (mt_u m + (mt_t m + mt_s m * X_MUL) * X_MUL)) as Hb'
    by (by rewrite Hb, mod_cong, Ha').
  assert (cong (mt_c m)
    (mt_v m + (mt_u m + (mt_t m + mt_s m * X_MUL) * X_MUL) * X_MUL)) as Hc'
    by (by rewrite Hc, mod_cong, Hb').
  repeat split; try done. by rewrite Hd, mod_cong, Hc'.
Qed.

Lemma act_norm m z : wf m -> act m z = reduce (actZ (norm m) z).
Proof. intros Hm. rewrite act_reduce. apply actZ_cong; [by apply norm_cong|done]. Qed.

Lemma act_norm_act m n z :
  wf m -> wf n -> act m (act n z) = reduce (actZ (norm m) (actZ (norm n) z)).
Proof.
  intros Hm Hn. rewrite (act_norm m), (act_norm n) by done.
  apply actZ_cong; [|apply reduce_cong]. by repeat split.
Qed.

Lemma act_compose m n mn z :
  wf m -> wf n -> wf mn -> cong_mat (norm mn) (mulZ (norm m) (norm n)) ->
  act mn z = act m (act n z).
Proof.
  intros Hm Hn Hmn Hc. rewrite act_norm_act, <- mulZ_act, act_norm by done.
  by apply actZ_cong.
Qed.

Lemma mrg_multiply_ok m n :
  wf m -> wf n ->
  exists mn, mrg_multiply m n = Some mn /\ wf mn /\
  forall z, act mn z = act m (act n z).
Proof.
  intros Hm Hn. pose proof (wf_cache n Hn) as (?&?&?&?).
  pose proof (norm_cong n Hn) as (_&_&_&_&_&Ha&Hb&Hc&Hd).
  pose proof Hm as (?&?&?&?&?&_). pose proof Hn as (?&?&?&?&?&_).
  enough (exists mn, mrg_multiply m n = Some mn /\ wf mn /\
    cong_mat (norm mn) (mulZ (norm m) (norm n))) as (mn & Hrun & Hwf & Hc').
  { exists mn. split; [done|]. split; [done|]. intros z. by apply act_compose. }
  destruct m, n. cbn [mt_s mt_t mt_u mt_v mt_w mt_a mt_b mt_c mt_d] in *.
  unfold mrg_multiply.
  pose proof mrg_update_cache_ok as HU. revert HU. generalize mrg_update_cache. intros U HU.
  run_mod.
  match goal with |- context [U ?p] =>
    destruct (HU p) as (mn & -> & Hwf & Hs & Ht & Hu & Hv & Hw);
      simpl; auto with fe end.
  exists mn. split; [done|]. split; [done|].
  cbn [mt_s mt_t mt_u mt_v mt_w] in *. unfold norm at 1. rewrite Hs, Ht, Hu, Hv, Hw.
  unfold norm, rowZ in Ha, Hb, Hc, Hd |- *.
  cbn [mulZ mt_a mt_b mt_c mt_d mt_s mt_t mt_u mt_v mt_w] in *.
  apply rowZ_cong; rewrite ?mod_cong, ?Ha, ?Hb, ?Hc, ?Hd;
    match goal with |- cong ?l ?r => replace l with r by ring; reflexivity end.
Qed.

(** A multiplication that reduces once per entry, by folding at bit 31, for
    checking large tables by evaluation. *)
Definition fold_bits (x : Z) : Z := Z.land x P31 + Z.shiftr x 31.

Definition red (x : Z) : Z :=
  let y := fold_bits (fold_bits x) in if (0 <=? y) && (y <? P31) then y else y mod P31.

Lemma fold_bits_mod x : fold_bits x mod P31 = x mod P31.
Proof.
  unfold fold_bits. change P31 with (Z.ones 31) at 1.
  rewrite Z.land_ones, Z.shiftr_div_pow2 by lia.
  pose proof (Z.div_mod x (2 ^ 31) ltac:(lia)).
  rewrite <- (Z_mod_plus_full (x mod 2 ^ 31 + x / 2 ^ 31) (x / 2 ^ 31) P31).
  f_equal. unfold P31. lia.
Qed.

Lemma red_mod x : red x = x mod P31.
Proof.
  unfold red. cbv zeta. rewrite <- (fold_bits_mod x), <- (fold_bits_mod (fold_bits x)).
  destruct (Z.leb_spec 0 (fold_bits (fold_bits x))), (Z.ltb_spec (fold_bits (fold_bits x)) P31);
    simpl; try done. symmetry. by apply Z.mod_small.
Qed.

Definition fast_multiply (m n : mrg_transition_matrix) : mrg_transition_matrix :=
  let '(MkMatrix s1 t1 u1 v1 w1 _ _ _ _) := m in
  let '(MkMatrix s2 t2 u2 v2 w2 a2 b2 c2 d2) := n in
  let s := red (s1 * d2 + t1 * c2 + u1 * b2 + v1 * a2 + w1 * s2) in
  let t := red (red (s1 * s2) * Y_MUL + t1 * w2 + u1 * v2 + v1 * u2 + w1 * t2) in
  let u := red (red (s1 * a2 + t1 * s2) * Y_MUL + u1 * w2 + v1 * v2 + w1 * u2) in
  let v := red (red (s1 * b2 + t1 * a2 + u1 * s2) * Y_MUL + v1 * w2 + w1 * v2) in
  let w := red (red (s1 * c2 + t1 * b2 + u1 * a2 + v1 * s2) * Y_MUL + w1 * w2) in
  let a := red (t + s * X_MUL) in
  let b := red (u + a * X_MUL) in
  let c := red (v + b * X_MUL) in
  MkMatrix s t u v w a b c (red (w + c * X_MUL)).

Lemma fast_multiply_ok m n :
  wf m -> wf n ->
  wf (fast_multiply m n) /\ forall z, act (fast_multiply m n) z = act m (act n z).
Proof.
  intros Hm Hn. pose proof (wf_cache n Hn) as (?&?&?&?).
  pose proof (norm_cong n Hn) as (_&_&_&_&_&Ha&Hb&Hc&Hd).
  pose proof Hm as (?&?&?&?&?&_). pose proof Hn as (?&?&?&?&?&_).
  enough (wf (fast_multiply m n) /\
    cong_mat (norm (fast_multiply m n)) (mulZ (norm m) (norm n))) as [Hwf Hc'].
  { split; [done|]. intros z. by apply act_compose. }
  destruct m, n. cbn [mt_s mt_t mt_u mt_v mt_w mt_a mt_b mt_c mt_d] in *.
  unfold fast_multiply. rewrite !red_mod.
  split; [unfold wf; cbn; auto 20 using fe_mod|].
  unfold norm, rowZ in Ha, Hb, Hc, Hd.
  cbv zeta. unfold norm. cbn [mt_a mt_b mt_c mt_d mt_s mt_t mt_u mt_v mt_w] in *.
  unfold rowZ at 2 3. cbn [mulZ].
  apply rowZ_cong; rewrite ?mod_cong, ?Ha, ?Hb, ?Hc, ?Hd;
    match goal with |- cong ?l ?r => replace l with r by ring; reflexivity end.
Qed.

(** Rewrites the cache of a well-formed matrix into its bottom row. *)
Ltac open_wf m H :=
  destruct m; unfold wf in H; simpl in H;
  destruct H as (?&?&?&?&?&->&->&->&->).

(** [represents m k]: the map of [m] is [k] steps of the recurrence. *)
Definition represents (m : mrg_transition_matrix) (k : Z) : Prop :=
  wf m /\ forall z, fe_state z -> act m z = iter_step k z.

Lemma iter_step_fe k z : fe_state z -> fe_state (iter_step k z).
Proof. apply (N.iter_invariant _ _ step fe_state step_fe). Qed.

Lemma iter_step_add j k z : 0 <= j -> 0 <= k -> iter_step (j + k) z = iter_step j (iter_step k z).
Proof. intros. unfold iter_step. by rewrite Z2N.inj_add, N.iter_add by done. Qed.

Lemma fe_state_id z : fe_state z -> reduce z = z.
Proof.
  intros (?&?&?&?&?). destruct z. unfold reduce. simpl in *. by rewrite !Z.mod_small by done.
Qed.

Lemma mrg_make_identity_ok :
  exists m, mrg_make_identity = Some m /\ represents m 0.
Proof.
  destruct (mrg_update_cache_ok (MkMatrix 0 0 0 0 1 0 0 0 0))
    as (m & Hrun & Hwf & Hs & Ht & Hu & Hv & Hw); simpl; auto with fe.
  exists m. split; [done|]. split; [done|]. intros z Hz.
  rewrite act_norm by done. unfold norm. rewrite Hs, Ht, Hu, Hv, Hw. simpl.
  change (iter_step 0 z) with z. rewrite <- (fe_state_id z Hz) at 2. f_equal.
  destruct z. unfold rowZ. cbn [actZ]. f_equal; ring.
Qed.

Lemma mrg_make_A_ok : exists m, mrg_make_A = Some m /\ represents m 1.
Proof.
  destruct (mrg_update_cache_ok (MkMatrix 0 0 0 1 0 0 0 0 0))
    as (m & Hrun & Hwf & Hs & Ht & Hu & Hv & Hw); simpl; auto with fe.
  exists m. split; [done|]. split; [done|]. intros z Hz.
  rewrite act_norm by done. unfold norm. rewrite Hs, Ht, Hu, Hv, Hw. simpl.
  change (iter_step 1 z) with (step z).
  rewrite <- (fe_state_id (step z)) by (by apply step_fe).
  destruct z. unfold rowZ, reduce, step. cbn [actZ z1 z2 z3 z4 z5].
  f_equal; [rewrite Zmod_mod|..]; f_equal; ring.
Qed.

Lemma represents_mul m n j k :
  0 <= j -> 0 <= k -> represents m j -> represents n k ->
  exists mn, mrg_multiply m n = Some mn /\ represents mn (j + k).
Proof.
  intros Hj Hk [Hm Hm'] [Hn Hn'].
  destruct (mrg_multiply_ok m n Hm Hn) as (mn & Hrun & Hwf & Hact).
  exists mn. split; [done|]. split; [done|]. intros z Hz.
  by rewrite Hact, Hn', Hm', iter_step_add by auto using iter_step_fe.
Qed.

Lemma represents_fast m n j k :
  0 <= j -> 0 <= k -> represents m j -> represents n k ->
  represents (fast_multiply m n) (j + k).
Proof.
  intros Hj Hk [Hm Hm'] [Hn Hn']. destruct (fast_multiply_ok m n Hm Hn) as [Hwf Hact].
  split; [done|]. intros z Hz.
  by rewrite Hact, Hn', Hm', iter_step_add by auto using iter_step_fe.
Qed.

(** The bottom row, and so the whole matrix, can be read off the map. *)
Lemma represents_unique m m' k : represents m k -> represents m' k -> m = m'.
Proof.
  intros [Hm Ha] [Hm' Ha'].
  assert (forall z, fe_state z -> z5 (act m z) = z5 (act m' z)) as H
    by (intros z Hz; by rewrite Ha, Ha').
  pose proof (H (MkState 1 0 0 0 0) ltac:(by unfold fe_state; auto 10 with fe)) as H1.
  pose proof (H (MkState 0 1 0 0 0) ltac:(by unfold fe_state; auto 10 with fe)) as H2.
  pose proof (H (MkState 0 0 1 0 0) ltac:(by unfold fe_state; auto 10 with fe)) as H3.
  pose proof (H (MkState 0 0 0 1 0) ltac:(by unfold fe_state; auto 10 with fe)) as H4.
  pose proof (H (MkState 0 0 0 0 1) ltac:(by unfold fe_state; auto 10 with fe)) as H5.
  clear H Ha Ha'. open_wf m Hm. open_wf m' Hm'. simpl in *.
  ring_simplify (mt_s0 * 1 + mt_t0 * 0 + mt_u0 * 0 + mt_v0 * 0 + mt_w0 * 0) in H1.
  rewrite ?Z.mul_0_r, ?Z.mul_1_r, ?Z.add_0_r, ?Z.add_0_l, !Z.mod_small in * by done.
  by subst.
Qed.

(** ** Powers, the skip routine and the dump *)

Definition bits (e : Z) : nat := if 0 <? e then S (Z.to_nat (Z.log2 e)) else O.

Lemma bits_half e : 0 < e -> (bits (e / 2) < bits e)%nat.
Proof.
  intros He. unfold bits. destruct (Z.ltb_spec 0 e); [|lia].
  destruct (Z.ltb_spec 0 (e / 2)) as [Hh|]; [|lia].
  change (e / 2) with (e / 2 ^ 1). rewrite <- Z.shiftr_div_pow2, Z.log2_shiftr by lia.
  assert (1 <= Z.log2 e); [|lia]. apply Z.log2_le_pow2; [lia|]. change (2 ^ 1) with 2. zdiv.
Qed.

Lemma bits_bound32 e : 0 <= e < 2 ^ 32 -> (bits e < 33)%nat.
Proof.
  intros He. unfold bits. destruct (Z.ltb_spec 0 e); [|lia].
  assert (Z.log2 e < 32); [apply Z.log2_lt_pow2; lia|]. pose proof (Z.log2_nonneg e). lia.
Qed.

Lemma mrg_power_ok m k e :
  0 <= k -> represents m k -> 0 <= e < 2 ^ 32 ->
  exists r, mrg_power m e = Some r /\ represents r (k * e).
Proof.
  intros Hk Hm He. unfold mrg_power.
  destruct mrg_make_identity_ok as (idm & -> & Hid). cbn [mbind option_bind].
  destruct (while_fuel_inv
    (fun '(e', r, c) => 0 <= e' < 2 ^ 32 /\ exists R C, 0 <= R /\ 0 <= C /\
       represents r R /\ represents c C /\ R + C * e' = k * e)
    (fun '(e', _, _) => bits e') 33
    (fun '(e, _, _) => Some (0 <? e))
    (fun '(e, result, current_power_of_2) =>
       result ← (if e mod 2 =? 1 then mrg_multiply result current_power_of_2
                 else Some result);
       current_power_of_2 ← mrg_multiply current_power_of_2 current_power_of_2;
       Some (e / 2, result, current_power_of_2))
    (e, idm, m)) as ([[e' r] c] & Hrun & (He' & R & C & HR & HC & Hr & Hc & Heq) & Hcond).
  - split; [done|]. exists 0, k. do 4 (split; [done|]). lia.
  - by apply bits_bound32.
  - intros [[e1 r] c] (He1 & R & C & HR & HC & Hr & Hc & Heq).
    destruct (Z.ltb_spec 0 e1); [right|by left]. split; [done|].
    destruct (represents_mul c c C C HC HC Hc Hc) as (cc & Hcc & Hrcc).
    assert (exists r' R', (if e1 mod 2 =? 1 then mrg_multiply r c else Some r) = Some r' /\
      represents r' R' /\ 0 <= R' /\ R' = R + C * (e1 mod 2)) as (r' & R' & Hr' & Hrep & HR' & ER').
    { destruct (Z.eqb_spec (e1 mod 2) 1) as [E|E].
      - destruct (represents_mul r c R C HR HC Hr Hc) as (rc & Hrc & Hrrc).
        exists rc, (R + C). split; [done|]. split; [done|]. lia.
      - exists r, R. split; [done|]. split; [done|]. assert (e1 mod 2 = 0) by zdiv. lia. }
    rewrite Hr'. cbn [mbind option_bind]. rewrite Hcc. cbn [mbind option_bind].
    eexists. split; [done|]. split; [|by apply bits_half].
    split; [zdiv|]. exists R', (C + C). split; [done|]. split; [lia|]. split; [done|]. split; [done|].
    rewrite <- Heq, ER'. pose proof (Z.div_mod e1 2). nia.
  - rewrite Hrun. cbn [mbind option_bind snd fst]. injection Hcond as Hcond.
    apply Z.ltb_ge in Hcond. exists r. split; [done|].
    replace (k * e) with R; [done|]. replace e' with 0 in Heq by lia. lia.
Qed.

(** What the skip routine relies on: entry [j] of row [i] is the power
    [j * 256^i] of the step. *)
Definition table_ok (tbl : list (list mrg_transition_matrix)) : Prop :=
  forall i j, 0 <= i < 24 -> 0 <= j < 256 ->
  exists row m, tbl.[i] = Some row /\ row.[j] = Some m /\ represents m (j * 256 ^ i).

Lemma skip_word_ok tbl first e k z :
  table_ok tbl -> 0 <= first <= 16 -> in_u64 e -> fe_state z -> 0 <= k ->
  skip_word tbl first e (iter_step k z) = Some (iter_step (k + e * 256 ^ first) z).
Proof.
  intros Ht Hf He Hz Hk. unfold skip_word, in_u64 in *.
  destruct (while_fuel_inv
    (fun '(bi, e', st) => first <= bi <= first + 8 /\ 0 <= e' < 2 ^ (8 * (first + 8 - bi)) /\
       exists K, 0 <= K /\ st = iter_step K z /\ K + e' * 256 ^ bi = k + e * 256 ^ first)
    (fun '(bi, _, _) => Z.to_nat (first + 8 - bi)) 9
    (fun '(_, e, _) => Some (negb (e =? 0))) (skip_byte tbl) (first, e, iter_step k z))
    as ([[bi e'] st] & Hrun & (Hbi & He' & K & HK & -> & Heq) & Hcond).
  - split; [lia|]. split; [replace (8 * (first + 8 - first)) with 64 by lia; done|].
    exists k. auto.
  - lia.
  - intros [[bi e1] st] (Hbi & He1 & K & HK & -> & Heq).
    destruct (Z.eqb_spec e1 0); [by left|right]. split; [done|].
    assert (bi < first + 8).
    { destruct (decide (bi = first + 8)) as [->|]; [|lia].
      rewrite Z.sub_diag in He1. simpl in He1. lia. }
    unfold skip_byte. cbv zeta. change 255 with (Z.ones 8).
    rewrite Z.land_ones, Z.shiftr_div_pow2 by lia. change (2 ^ 8) with 256.
    pose proof (Z.mod_pos_bound e1 256 ltac:(lia)) as Hv.
    assert (0 < 256 ^ bi) by (apply Z.pow_pos_nonneg; lia).
    assert ((if e1 mod 256 =? 0 then Some (iter_step K z) else
      row ← tbl.[bi]; mat ← row.[e1 mod 256]; mrg_step mat (iter_step K z))
      = Some (iter_step (e1 mod 256 * 256 ^ bi + K) z)) as ->.
    { destruct (Z.eqb_spec (e1 mod 256) 0) as [->|]; [done|].
      destruct (Ht bi (e1 mod 256)) as (row & m & -> & Hm & Hw & Hrep); [lia|lia|].
      cbn [mbind option_bind]. rewrite Hm. cbn [mbind option_bind].
      unfold mrg_step. rewrite mrg_apply_ok, Hrep by auto using iter_step_fe.
      by rewrite iter_step_add by nia. }
    cbn [mbind option_bind]. eexists. split; [done|]. split; [|lia].
    split; [lia|]. split.
    { split; [apply Z.div_pos; lia|]. apply Z.div_lt_upper_bound; [lia|].
      change 256 with (2 ^ 8). rewrite <- Z.pow_add_r by lia.
      replace (8 + 8 * (first + 8 - (bi + 1))) with (8 * (first + 8 - bi)) by lia. lia. }
    exists (e1 mod 256 * 256 ^ bi + K). split; [nia|]. split; [done|].
    rewrite <- Heq, Z.pow_add_r by lia. pose proof (Z.div_mod e1 256 ltac:(lia)). nia.
  - rewrite Hrun. cbn [mbind option_bind snd]. injection Hcond as Hcond.
    destruct (Z.eqb_spec e' 0); [|done]. do 2 f_equal. subst e'. lia.
Qed.

Lemma mrg_skip_ok tbl z high middle low :
  table_ok tbl -> fe_state z -> in_u64 high -> in_u64 middle -> in_u64 low ->
  mrg_skip tbl z high middle low
  = Some (iter_step (high * 2 ^ 128 + middle * 2 ^ 64 + low) z).
Proof.
  intros Ht Hz Hh Hm Hl. unfold mrg_skip. unfold in_u64 in *.
  change z with (iter_step 0 z) at 1.
  rewrite skip_word_ok by (done || lia). cbn [mbind option_bind].
  rewrite skip_word_ok by (done || lia). cbn [mbind option_bind].
  rewrite skip_word_ok by (done || lia). do 2 f_equal.
  change (256 ^ 0) with 1. change (256 ^ 8) with (2 ^ 64). change (256 ^ 16) with (2 ^ 128). lia.
Qed.

End Mrg.
End Mrg.
