(* ===== verification/MrgTable0.v ===== *)
(** * The transition table, bytes 0 to 7 (sources/graph500/generator/mrg_transitions.c)

    The initialiser of [mrg_skip_matrices], row by row, as the file has it. *)

From Stdlib Require Import List.
From Stdlib Require Import ZArith.
From S2P Require Import Mrg.
Import ListNotations.
#[local] Open Scope Z_scope.

Definition mrg_skip_matrices_0 : list mrg_transition_matrix :=
  [ MkMatrix 0 0 0 0 1 0 0 0 1
  ; MkMatrix 0 0 0 1 0 0 0 1 107374182
  ; MkMatrix 0 0 1 0 0 0 1 107374182 177167401
  ; MkMatrix 0 1 0 0 0 1 107374182 177167401 45365592
  ; MkMatrix 1 0 0 0 0 107374182 177167401 45365592 1272612231
  ; MkMatrix 107374182 0 0 0 104480 177167401 45365592 1272612231 735806205
  ; MkMatrix 177167401 0 0 104480 2147447079 45365592 1272612231 735806205 279302172
  ; MkMatrix 45365592 0 104480 2147447079 1288502987 1272612231 735806205 279302172 331753768
  ; MkMatrix 1272612231 104480 2147447079 1288502987 300643231 735806205 279302172 331753768 1043522871
  ; MkMatrix 735806205 2147447079 1288502987 300643231 1075890875 279302172 331753768 1043522871 1891773876
  ; MkMatrix 279302172 1288502987 300643231 1075890875 1412703094 331753768 1043522871 1891773876 321085508
  ; MkMatrix 331753768 300643231 1075890875 1412703094 1483135124 1043522871 1891773876 321085508 82265008
  ; MkMatrix 1043522871 1075890875 1412703094 1483135124 1247618060 1891773876 321085508 82265008 2077818766
  ; MkMatrix 1891773876 1412703094 1483135124 1247618060 1672287537 321085508 82265008 2077818766 1589296063
  ; MkMatrix 321085508 1483135124 1247618060 1672287537 287178247 82265008 2077818766 1589296063 53047172
  ; MkMatrix 82265008 1247618060 1672287537 287178247 1171826053 2077818766 1589296063 53047172 294266084
  ; MkMatrix 2077818766 1672287537 287178247 1171826053 818480546 1589296063 53047172 294266084 1144984146
  ; MkMatrix 1589296063 287178247 1171826053 818480546 1382796450 53047172 294266084 1144984146 1626297093
  ; MkMatrix 53047172 1171826053 818480546 1382796450 1922108906 294266084 1144984146 1626297093 601285647
  ; MkMatrix 294266084 818480546 1382796450 1922108906 1860721300 1144984146 1626297093 601285647 254406953
  ; MkMatrix 1144984146 1382796450 1922108906 1860721300 1544565868 1626297093 601285647 254406953 703904158
  ; MkMatrix 1626297093 1922108906 1860721300 1544565868 219534298 601285647 254406953 703904158 1905903125
  ; MkMatrix 601285647 1860721300 1544565868 219534298 171675059 254406953 703904158 1905903125 41479877
  ; MkMatrix 254406953 1544565868 219534298 171675059 1985272869 703904158 1905903125 41479877 1648632365
  ; MkMatrix 703904158 219534298 171675059 1985272869 1033350521 1905903125 41479877 1648632365 993200105
  ; MkMatrix 1905903125 171675059 1985272869 1033350521 1181452678 41479877 1648632365 993200105 1370703553
  ; MkMatrix 41479877 1985272869 1033350521 1181452678 1189848278 1648632365 993200105 1370703553 2105966405
  ; MkMatrix 1648632365 1033350521 1181452678 1189848278 195549314 993200105 1370703553 2105966405 2142815631
  ; MkMatrix 993200105 1181452678 1189848278 195549314 1593652977 1370703553 2105966405 2142815631 2024783512
  ; MkMatrix 1370703553 1189848278 195549314 1593652977 989663713 2105966405 2142815631 2024783512 1569479672
  ; MkMatrix 2105966405 195549314 1593652977 989663713 1865249951 2142815631 2024783512 1569479672 456938607
  ; MkMatrix 2142815631 1593652977 989663713 1865249951 195522780 2024783512 1569479672 456938607 787213544
  ; MkMatrix 2024783512 989663713 1865249951 195522780 1911959836 1569479672 456938607 787213544 2065931825
  ; MkMatrix 1569479672 1865249951 195522780 1911959836 767267790 456938607 787213544 2065931825 581062563
  ; MkMatrix 456938607 195522780 1911959836 767267790 1679812934 787213544 2065931825 581062563 1798563584
  ; MkMatrix 787213544 1911959836 767267790 1679812934 236702903 2065931825 581062563 1798563584 36702378
  ; MkMatrix 2065931825 767267790 1679812934 236702903 1594880667 581062563 1798563584 36702378 1367286470
  ; MkMatrix 581062563 1679812934 236702903 1594880667 680748736 1798563584 36702378 1367286470 1275940295
  ; MkMatrix 1798563584 236702903 1594880667 680748736 53881550 36702378 1367286470 1275940295 1217915182
  ; MkMatrix 36702378 1594880667 680748736 53881550 514209232 1367286470 1275940295 1217915182 302687283
  ; MkMatrix 1367286470 680748736 53881550 514209232 1406143545 1275940295 1217915182 302687283 1622325543
  ; MkMatrix 1275940295 53881550 514209232 1406143545 1330703513 1217915182 302687283 1622325543 1085012120
  ; MkMatrix 1217915182 514209232 1406143545 1330703513 899666781 302687283 1622325543 1085012120 519912539
  ; MkMatrix 302687283 1406143545 1330703513 899666781 782196022 1622325543 1085012120 519912539 492852451
  ; MkMatrix 1622325543 1330703513 899666781 782196022 923142118 1085012120 519912539 492852451 1931759766
  ; MkMatrix 1085012120 899666781 782196022 923142118 1835958577 519912539 492852451 1931759766 1804087753
  ; MkMatrix 519912539 782196022 923142118 1835958577 699539764 492852451 1931759766 1804087753 1463973421
  ; MkMatrix 492852451 923142118 1835958577 699539764 2010707502 1931759766 1804087753 1463973421 1605690987
  ; MkMatrix 1931759766 1835958577 699539764 2010707502 861192714 1804087753 1463973421 1605690987 1050820145
  ; MkMatrix 1804087753 699539764 2010707502 861192714 1157272032 1463973421 1605690987 1050820145 1326355893
  ; MkMatrix 1463973421 2010707502 861192714 1157272032 6285309 1605690987 1050820145 1326355893 937925117
  ; MkMatrix 1605690987 861192714 1157272032 6285309 1420268505 1050820145 1326355893 937925117 769872167
  ; MkMatrix 1050820145 1157272032 6285309 1420268505 1171818120 1326355893 937925117 769872167 1653982138
  ; MkMatrix 1326355893 6285309 1420268505 1171818120 1734780372 937925117 769872167 1653982138 941138259
  ; MkMatrix 937925117 1420268505 1171818120 1734780372 543959730 769872167 1653982138 941138259 107187157
  ; MkMatrix 769872167 1171818120 1734780372 543959730 442444256 1653982138 941138259 107187157 82806204
  ; MkMatrix 1653982138 1734780372 543959730 442444256 96526128 941138259 107187157 82806204 497040686
  ; MkMatrix 941138259 543959730 442444256 96526128 44704150 107187157 82806204 497040686 514985004
  ; MkMatrix 107187157 442444256 96526128 44704150 1144071484 82806204 497040686 514985004 1393323462
  ; MkMatrix 82806204 96526128 44704150 1144071484 1934427902 497040686 514985004 1393323462 1661513055
  ; MkMatrix 497040686 44704150 1144071484 1934427902 1528063804 514985004 1393323462 1661513055 409663323
  ; MkMatrix 514985004 1144071484 1934427902 1528063804 361321526 1393323462 1661513055 409663323 540061910
  ; MkMatrix 1393323462 1934427902 1528063804 361321526 430442335 1661513055 409663323 540061910 1315162490
  ; MkMatrix 1661513055 1528063804 361321526 430442335 813846924 409663323 540061910 1315162490 1427281876
  ; MkMatrix 409663323 361321526 430442335 813846924 895897508 540061910 1315162490 1427281876 2114335769
  ; MkMatrix 540061910 430442335 813846924 895897508 127418683 1315162490 1427281876 2114335769 353768805
  ; MkMatrix 1315162490 813846924 895897508 127418683 535531875 1427281876 2114335769 353768805 948583705
  ; MkMatrix 1427281876 895897508 127418683 535531875 1435801905 2114335769 353768805 948583705 1640668520
  ; MkMatrix 2114335769 127418683 535531875 1435801905 1145956800 353768805 948583705 1640668520 571722818
  ; MkMatrix 353768805 535531875 1435801905 1145956800 600829171 948583705 1640668520 571722818 185977820
  ; MkMatrix 948583705 1435801905 1145956800 600829171 1423697883 1640668520 571722818 185977820 1358605646
  ; MkMatrix 1640668520 1145956800 600829171 1423697883 1655189350 571722818 185977820 1358605646 1823922468
  ; MkMatrix 571722818 600829171 1423697883 1655189350 607298766 185977820 1358605646 1823922468 827919361
  ; MkMatrix 185977820 1423697883 1655189350 607298766 1342383335 1358605646 1823922468 827919361 1159985741
  ; MkMatrix 1358605646 1655189350 607298766 1342383335 530595544 1823922468 827919361 1159985741 231974717
  ; MkMatrix 1823922468 607298766 1342383335 530595544 596311027 827919361 1159985741 231974717 192997329
  ; MkMatrix 827919361 1342383335 530595544 596311027 15589154 1159985741 231974717 192997329 914407730
  ; MkMatrix 1159985741 530595544 596311027 15589154 373536120 231974717 192997329 914407730 1127235238
  ; MkMatrix 231974717 596311027 15589154 373536120 2070601235 192997329 914407730 1127235238 1461320537
  ; MkMatrix 192997329 15589154 373536120 2070601235 217992118 914407730 1127235238 1461320537 1531891030
  ; MkMatrix 914407730 373536120 2070601235 217992118 1636972237 1127235238 1461320537 1531891030 27068553
  ; MkMatrix 1127235238 2070601235 217992118 1636972237 67142664 1461320537 1531891030 27068553 1453533041
  ; MkMatrix 1461320537 217992118 1636972237 67142664 1239497466 1531891030 27068553 1453533041 838135084
  ; MkMatrix 1531891030 1636972237 67142664 1239497466 1272338648 27068553 1453533041 838135084 1408488098
  ; MkMatrix 27068553 67142664 1239497466 1272338648 18603490 1453533041 838135084 1408488098 1458367938
  ; MkMatrix 1453533041 1239497466 1272338648 18603490 2033937988 838135084 1408488098 1458367938 1308760845
  ; MkMatrix 838135084 1272338648 18603490 2033937988 1531058781 1408488098 1458367938 1308760845 1609863397
  ; MkMatrix 1408488098 18603490 2033937988 1531058781 412902601 1458367938 1308760845 1609863397 1674811512
  ; MkMatrix 1458367938 2033937988 1531058781 412902601 372084718 1308760845 1609863397 1674811512 1074390877
  ; MkMatrix 1308760845 1531058781 412902601 372084718 2022440296 1609863397 1674811512 1074390877 1324280942
  ; MkMatrix 1609863397 412902601 372084718 2022440296 459346522 1674811512 1074390877 1324280942 210596557
  ; MkMatrix 1674811512 372084718 2022440296 459346522 1166034579 1074390877 1324280942 210596557 770203237
  ; MkMatrix 1074390877 2022440296 459346522 1166034579 896765259 1324280942 210596557 770203237 305071579
  ; MkMatrix 1324280942 459346522 1166034579 896765259 1241116623 210596557 770203237 305071579 1026967388
  ; MkMatrix 210596557 1166034579 896765259 1241116623 648927597 770203237 305071579 1026967388 1148482470
  ; MkMatrix 770203237 896765259 1241116623 648927597 10828198 305071579 1026967388 1148482470 682601157
  ; MkMatrix 305071579 1241116623 648927597 10828198 326981376 1026967388 1148482470 682601157 1913432071
  ; MkMatrix 1026967388 648927597 10828198 326981376 926285146 1148482470 682601157 1913432071 1437699927
  ; MkMatrix 1148482470 10828198 326981376 926285146 679759532 682601157 1913432071 1437699927 928183834
  ; MkMatrix 682601157 326981376 926285146 679759532 652205828 1913432071 1437699927 928183834 1830580039
  ; MkMatrix 1913432071 926285146 679759532 652205828 236966490 1437699927 928183834 1830580039 1636372941
  ; MkMatrix 1437699927 679759532 652205828 236966490 1835111556 928183834 1830580039 1636372941 1369755209
  ; MkMatrix 928183834 652205828 236966490 1835111556 849716251 1830580039 1636372941 1369755209 1336669569
  ; MkMatrix 1830580039 236966490 1835111556 849716251 580445094 1636372941 1369755209 1336669569 1078978386
  ; MkMatrix 1636372941 1835111556 849716251 580445094 1961389253 1369755209 1336669569 1078978386 80508265
  ; MkMatrix 1369755209 849716251 580445094 1961389253 629287069 1336669569 1078978386 80508265 1137980088
  ; MkMatrix 1336669569 580445094 1961389253 629287069 1566516593 1078978386 80508265 1137980088 2027217021
  ; MkMatrix 1078978386 1961389253 629287069 1566516593 80037416 80508265 1137980088 2027217021 1625369288
  ; MkMatrix 80508265 629287069 1566516593 80037416 1655203662 1137980088 2027217021 1625369288 1945317870
  ; MkMatrix 1137980088 1566516593 80037416 1655203662 1957565548 2027217021 1625369288 1945317870 202962470
  ; MkMatrix 2027217021 80037416 1655203662 1957565548 727478085 1625369288 1945317870 202962470 1730183044
  ; MkMatrix 1625369288 1655203662 1957565548 727478085 1617217764 1945317870 202962470 1730183044 1441150428
  ; MkMatrix 1945317870 1957565548 727478085 1617217764 2018856421 202962470 1730183044 1441150428 225963583
  ; MkMatrix 202962470 727478085 1617217764 2018856421 368770932 1730183044 1441150428 225963583 611806225
  ; MkMatrix 1730183044 1617217764 2018856421 368770932 1265335122 1441150428 225963583 611806225 1588073855
  ; MkMatrix 1441150428 2018856421 368770932 1265335122 793483601 225963583 611806225 1588073855 1848270487
  ; MkMatrix 225963583 368770932 1265335122 793483601 580808035 611806225 1588073855 1848270487 685532641
  ; MkMatrix 611806225 1265335122 793483601 580808035 1387420369 1588073855 1848270487 685532641 1254858127
  ; MkMatrix 1588073855 793483601 580808035 1387420369 1663635045 1848270487 685532641 1254858127 1976053977
  ; MkMatrix 1848270487 580808035 1387420369 1663635045 927352239 685532641 1254858127 1976053977 2061094447
  ; MkMatrix 685532641 1387420369 1663635045 927352239 1275976226 1254858127 1976053977 2061094447 1306212446
  ; MkMatrix 1254858127 1663635045 927352239 1275976226 1575736936 1976053977 2061094447 1306212446 1762807674
  ; MkMatrix 1976053977 927352239 1275976226 1575736936 1552975963 2061094447 1306212446 1762807674 291748183
  ; MkMatrix 2061094447 1275976226 1575736936 1552975963 1189178027 1306212446 1762807674 291748183 1409188710
  ; MkMatrix 1306212446 1575736936 1552975963 1189178027 2077635988 1762807674 291748183 1409188710 510678116
  ; MkMatrix 1762807674 1552975963 1189178027 2077635988 490591230 291748183 1409188710 510678116 2029840807
  ; MkMatrix 291748183 1189178027 2077635988 490591230 1358278212 1409188710 510678116 2029840807 1399453206
  ; MkMatrix 1409188710 2077635988 490591230 1358278212 467274322 510678116 2029840807 1399453206 621710794
  ; MkMatrix 510678116 490591230 1358278212 467274322 557582480 2029840807 1399453206 621710794 1843222255
  ; MkMatrix 2029840807 1358278212 467274322 557582480 1418349965 1399453206 621710794 1843222255 236351264
  ; MkMatrix 1399453206 467274322 557582480 1418349965 872472228 621710794 1843222255 236351264 1219246015
  ; MkMatrix 621710794 557582480 1418349965 872472228 1299373238 1843222255 236351264 1219246015 335766221
  ; MkMatrix 1843222255 1418349965 872472228 1299373238 1405886311 236351264 1219246015 335766221 1395742316
  ; MkMatrix 236351264 872472228 1299373238 1405886311 2117674028 1219246015 335766221 1395742316 1199667488
  ; MkMatrix 1219246015 1299373238 1405886311 2117674028 65605867 335766221 1395742316 1199667488 504715705
  ; MkMatrix 335766221 1405886311 2117674028 65605867 241190807 1395742316 1199667488 504715705 601411222
  ; MkMatrix 1395742316 2117674028 65605867 241190807 1709396335 1199667488 504715705 601411222 1713650772
  ; MkMatrix 1199667488 65605867 241190807 1709396335 132642498 504715705 601411222 1713650772 821354916
  ; MkMatrix 504715705 241190807 1709396335 132642498 1228605438 601411222 1713650772 821354916 511634488
  ; MkMatrix 601411222 1709396335 132642498 1228605438 1235906315 1713650772 821354916 511634488 1915827703
  ; MkMatrix 1713650772 132642498 1228605438 1235906315 72963340 821354916 511634488 1915827703 1872029838
  ; MkMatrix 821354916 1228605438 1235906315 72963340 78557229 511634488 1915827703 1872029838 1356082068
  ; MkMatrix 511634488 1235906315 72963340 78557229 1715089560 1915827703 1872029838 1356082068 2099454295
  ; MkMatrix 1915827703 72963340 78557229 1715089560 408365116 1872029838 1356082068 2099454295 1284168848
  ; MkMatrix 1872029838 78557229 1715089560 408365116 875156217 1356082068 2099454295 1284168848 1284690579
  ; MkMatrix 1356082068 1715089560 408365116 875156217 1161872774 2099454295 1284168848 1284690579 604856889
  ; MkMatrix 2099454295 408365116 875156217 1161872774 1073370168 1284168848 1284690579 604856889 1828037898
  ; MkMatrix 1284168848 875156217 1161872774 1073370168 562586079 1284690579 604856889 1828037898 1855508097
  ; MkMatrix 1284690579 1161872774 1073370168 562586079 1625425421 604856889 1828037898 1855508097 653875040
  ; MkMatrix 604856889 1073370168 562586079 1625425421 301305479 1828037898 1855508097 653875040 72449215
  ; MkMatrix 1828037898 562586079 1625425421 301305479 1446482451 1855508097 653875040 72449215 884254314
  ; MkMatrix 1855508097 1625425421 301305479 1446482451 498986154 653875040 72449215 884254314 1692735697
  ; MkMatrix 653875040 301305479 1446482451 498986154 1547225282 72449215 884254314 1692735697 632645241
  ; MkMatrix 72449215 1446482451 498986154 1547225282 1114400836 884254314 1692735697 632645241 1000349184
  ; MkMatrix 884254314 498986154 1547225282 1114400836 1761611172 1692735697 632645241 1000349184 1840985687
  ; MkMatrix 1692735697 1547225282 1114400836 1761611172 2144232780 632645241 1000349184 1840985687 104023419
  ; MkMatrix 632645241 1114400836 1761611172 2144232780 1009873875 1000349184 1840985687 104023419 866091496
  ; MkMatrix 1000349184 1761611172 2144232780 1009873875 1375608667 1840985687 104023419 866091496 642979914
  ; MkMatrix 1840985687 2144232780 1009873875 1375608667 601128477 104023419 866091496 642979914 1879324060
  ; MkMatrix 104023419 1009873875 1375608667 601128477 369283264 866091496 642979914 1879324060 1859003490
  ; MkMatrix 866091496 1375608667 601128477 369283264 2099563300 642979914 1879324060 1859003490 375170255
  ; MkMatrix 642979914 601128477 369283264 2099563300 721068441 1879324060 1859003490 375170255 52887940
  ; MkMatrix 1879324060 369283264 2099563300 721068441 957969266 1859003490 375170255 52887940 939458487
  ; MkMatrix 1859003490 2099563300 721068441 957969266 905492649 375170255 52887940 939458487 1328301455
  ; MkMatrix 375170255 721068441 957969266 905492649 1673665932 52887940 939458487 1328301455 671889511
  ; MkMatrix 52887940 957969266 905492649 1673665932 1916717356 939458487 1328301455 671889511 715188386
  ; MkMatrix 939458487 905492649 1673665932 1916717356 256547469 1328301455 671889511 715188386 650476628
  ; MkMatrix 1328301455 1673665932 1916717356 256547469 1735151978 671889511 715188386 650476628 218994970
  ; MkMatrix 671889511 1916717356 256547469 1735151978 1952814672 715188386 650476628 218994970 802424609
  ; MkMatrix 715188386 256547469 1735151978 1952814672 2070656144 650476628 218994970 802424609 608691525
  ; MkMatrix 650476628 1735151978 1952814672 2070656144 1189071915 218994970 802424609 608691525 1512900793
  ; MkMatrix 218994970 1952814672 2070656144 1189071915 383116831 802424609 608691525 1512900793 1249465924
  ; MkMatrix 802424609 2070656144 1189071915 383116831 1303690462 608691525 1512900793 1249465924 1295874118
  ; MkMatrix 608691525 1189071915 383116831 1303690462 1709053087 1512900793 1249465924 1295874118 1040748781
  ; MkMatrix 1512900793 383116831 1303690462 1709053087 509809742 1249465924 1295874118 1040748781 252921851
  ; MkMatrix 1249465924 1303690462 1709053087 509809742 193531558 1295874118 1040748781 252921851 1286124916
  ; MkMatrix 1295874118 1709053087 509809742 193531558 816322037 1040748781 252921851 1286124916 2084165234
  ; MkMatrix 1040748781 509809742 193531558 816322037 526356231 252921851 1286124916 2084165234 1300136952
  ; MkMatrix 252921851 193531558 816322037 526356231 1745656682 1286124916 2084165234 1300136952 431615290
  ; MkMatrix 1286124916 816322037 526356231 1745656682 488716145 2084165234 1300136952 431615290 1411392617
  ; MkMatrix 2084165234 526356231 1745656682 488716145 1984463596 1300136952 431615290 1411392617 1168353633
  ; MkMatrix 1300136952 1745656682 488716145 1984463596 889326167 431615290 1411392617 1168353633 1876266766
  ; MkMatrix 431615290 488716145 1984463596 889326167 1378137622 1411392617 1168353633 1876266766 1365689348
  ; MkMatrix 1411392617 1984463596 889326167 1378137622 156395847 1168353633 1876266766 1365689348 537398034
  ; MkMatrix 1168353633 889326167 1378137622 156395847 1041035611 1876266766 1365689348 537398034 208701205
  ; MkMatrix 1876266766 1378137622 156395847 1041035611 174629419 1365689348 537398034 208701205 638454909
  ; MkMatrix 1365689348 156395847 1041035611 174629419 1454478932 537398034 208701205 638454909 49903708
  ; MkMatrix 537398034 1041035611 174629419 1454478932 1967121419 208701205 638454909 49903708 661164933
  ; MkMatrix 208701205 174629419 1454478932 1967121419 1386641505 638454909 49903708 661164933 403614502
  ; MkMatrix 638454909 1454478932 1967121419 1386641505 1700430409 49903708 661164933 403614502 1773913698
  ; MkMatrix 49903708 1967121419 1386641505 1700430409 631849206 661164933 403614502 1773913698 1943714694
  ; MkMatrix 661164933 1386641505 1700430409 631849206 1996600571 403614502 1773913698 1943714694 672055334
  ; MkMatrix 403614502 1700430409 631849206 1996600571 405726791 1773913698 1943714694 672055334 1673745977
  ; MkMatrix 1773913698 631849206 1996600571 405726791 1654276468 1943714694 672055334 1673745977 746342829
  ; MkMatrix 1943714694 1996600571 405726791 1654276468 2074496352 672055334 1673745977 746342829 632160356
  ; MkMatrix 672055334 405726791 1654276468 2074496352 372666918 1673745977 746342829 632160356 1869397711
  ; MkMatrix 1673745977 1654276468 2074496352 372666918 68490361 746342829 632160356 1869397711 595317168
  ; MkMatrix 746342829 2074496352 372666918 68490361 1238818103 632160356 1869397711 595317168 1889450553
  ; MkMatrix 632160356 372666918 68490361 1238818103 620067703 1869397711 595317168 1889450553 1354624380
  ; MkMatrix 1869397711 68490361 1238818103 620067703 106947748 595317168 1889450553 1354624380 1780312862
  ; MkMatrix 595317168 1238818103 620067703 106947748 1035150630 1889450553 1354624380 1780312862 626789493
  ; MkMatrix 1889450553 620067703 106947748 1035150630 1168844579 1354624380 1780312862 626789493 197848980
  ; MkMatrix 1354624380 106947748 1035150630 1168844579 212043318 1780312862 626789493 197848980 142796175
  ; MkMatrix 1780312862 1035150630 1168844579 212043318 1245466865 626789493 197848980 142796175 658617292
  ; MkMatrix 626789493 1168844579 212043318 1245466865 644253208 197848980 142796175 658617292 1702227344
  ; MkMatrix 197848980 212043318 1245466865 644253208 1599897022 142796175 658617292 1702227344 1433614181
  ; MkMatrix 142796175 1245466865 644253208 1599897022 1731328025 658617292 1702227344 1433614181 1336937244
  ; MkMatrix 658617292 644253208 1599897022 1731328025 775468291 1702227344 1433614181 1336937244 737036985
  ; MkMatrix 1702227344 1599897022 1731328025 775468291 516167339 1433614181 1336937244 737036985 795075306
  ; MkMatrix 1433614181 1731328025 775468291 516167339 559707521 1336937244 737036985 795075306 925676258
  ; MkMatrix 1336937244 775468291 516167339 559707521 1320219924 737036985 795075306 925676258 781484869
  ; MkMatrix 737036985 516167339 559707521 1320219924 129434005 795075306 925676258 781484869 822281942
  ; MkMatrix 795075306 559707521 1320219924 129434005 1155578674 925676258 781484869 822281942 1082528359
  ; MkMatrix 925676258 1320219924 129434005 1155578674 505537626 781484869 822281942 1082528359 19278518
  ; MkMatrix 781484869 129434005 1155578674 505537626 581909548 822281942 1082528359 19278518 360413702
  ; MkMatrix 822281942 1155578674 505537626 581909548 63370533 1082528359 19278518 360413702 151974102
  ; MkMatrix 1082528359 505537626 581909548 63370533 1934001925 19278518 360413702 151974102 2095559354
  ; MkMatrix 19278518 581909548 63370533 1934001925 1041711771 360413702 151974102 2095559354 1811504550
  ; MkMatrix 360413702 63370533 1934001925 1041711771 2027383401 151974102 2095559354 1811504550 319614985
  ; MkMatrix 151974102 1934001925 1041711771 2027383401 2045318462 2095559354 1811504550 319614985 322840482
  ; MkMatrix 2095559354 1041711771 2027383401 2045318462 1907574689 1811504550 319614985 322840482 2009328885
  ; MkMatrix 1811504550 2027383401 2045318462 1907574689 1641043329 319614985 322840482 2009328885 1474649131
  ; MkMatrix 319614985 2045318462 1907574689 1641043329 1819122949 322840482 2009328885 1474649131 336628112
  ; MkMatrix 322840482 1907574689 1641043329 1819122949 2921950 2009328885 1474649131 336628112 1173592299
  ; MkMatrix 2009328885 1641043329 1819122949 2921950 1995399578 1474649131 336628112 1173592299 1477268091
  ; MkMatrix 1474649131 1819122949 2921950 1995399578 975541374 336628112 1173592299 1477268091 1639613548
  ; MkMatrix 336628112 2921950 1995399578 975541374 126952865 1173592299 1477268091 1639613548 412081582
  ; MkMatrix 1173592299 1995399578 975541374 126952865 1565454841 1477268091 1639613548 412081582 1635974652
  ; MkMatrix 1477268091 975541374 126952865 1565454841 2049606761 1639613548 412081582 1635974652 618022174
  ; MkMatrix 1639613548 126952865 1565454841 2049606761 1025470496 412081582 1635974652 618022174 164917641
  ; MkMatrix 412081582 1565454841 2049606761 1025470496 2052973850 1635974652 618022174 164917641 2102626858
  ; MkMatrix 1635974652 2049606761 1025470496 2052973850 1531532304 618022174 164917641 2102626858 580864539
  ; MkMatrix 618022174 1025470496 2052973850 1531532304 1965725289 164917641 2102626858 580864539 1655048518
  ; MkMatrix 164917641 2052973850 1531532304 1965725289 418441524 2102626858 580864539 1655048518 1771909825
  ; MkMatrix 2102626858 1531532304 1965725289 418441524 1333831799 580864539 1655048518 1771909825 1250534272
  ; MkMatrix 580864539 1965725289 418441524 1333831799 1319486681 1655048518 1771909825 1250534272 22806227
  ; MkMatrix 1655048518 418441524 1333831799 1319486681 839170500 1771909825 1250534272 22806227 1582807597
  ; MkMatrix 1771909825 1333831799 1319486681 839170500 1938420553 1250534272 22806227 1582807597 1062315347
  ; MkMatrix 1250534272 1319486681 839170500 1938420553 1015759071 22806227 1582807597 1062315347 1395567976
  ; MkMatrix 22806227 839170500 1938420553 1015759071 768171433 1582807597 1062315347 1395567976 1997709559
  ; MkMatrix 1582807597 1938420553 1015759071 768171433 1235232437 1062315347 1395567976 1997709559 428659909
  ; MkMatrix 1062315347 1015759071 768171433 1235232437 464530031 1395567976 1997709559 428659909 1280866704
  ; MkMatrix 1395567976 768171433 1235232437 464530031 162643012 1997709559 428659909 1280866704 143836395
  ; MkMatrix 1997709559 1235232437 464530031 162643012 1244952121 428659909 1280866704 143836395 657738471
  ; MkMatrix 428659909 464530031 162643012 1244952121 316621449 1280866704 143836395 657738471 1267528990
  ; MkMatrix 1280866704 162643012 1244952121 316621449 615834135 143836395 657738471 1267528990 1245940812
  ; MkMatrix 143836395 1244952121 316621449 615834135 214803821 657738471 1267528990 1245940812 1067214725
  ; MkMatrix 657738471 316621449 615834135 214803821 2083471541 1267528990 1245940812 1067214725 99333652
  ; MkMatrix 1267528990 615834135 214803821 2083471541 1038746080 1245940812 1067214725 99333652 144985843
  ; MkMatrix 1245940812 214803821 2083471541 1038746080 407332004 1067214725 99333652 144985843 678709506
  ; MkMatrix 1067214725 2083471541 1038746080 407332004 1879807561 99333652 144985843 678709506 139020681
  ; MkMatrix 99333652 1038746080 407332004 1879807561 948548466 144985843 678709506 139020681 1007265410
  ; MkMatrix 144985843 407332004 1879807561 948548466 1738978656 678709506 139020681 1007265410 312693939
  ; MkMatrix 678709506 1879807561 948548466 1738978656 1918714349 139020681 1007265410 312693939 1701897288
  ; MkMatrix 139020681 948548466 1738978656 1918714349 1659162940 1007265410 312693939 1701897288 1922492348
  ; MkMatrix 1007265410 1738978656 1918714349 1659162940 1448846219 312693939 1701897288 1922492348 1634967356 ].

Definition mrg_skip_matrices_1 : list mrg_transition_matrix :=
  [ MkMatrix 0 0 0 0 1 0 0 0 1
  ; MkMatrix 312693939 1918714349 1659162940 1448846219 1653915565 1701897288 1922492348 1634967356 652180261
  ; MkMatrix 1490540692 1016212937 1288169097 1445404775 1735087838 1783013883 986236785 1637092812 303111895
  ; MkMatrix 2000977377 1001943231 1311130587 2040446836 1344782180 2126962249 1533061441 1611249514 136599756
  ; MkMatrix 351698113 1701095545 1429876927 176189899 972386072 826381929 2107010893 834600457 358153365
  ; MkMatrix 858255002 1164423131 2047535417 789854044 1911175580 1078782245 59348896 339585201 1899694942
  ; MkMatrix 1108948050 1703136668 1797164158 423624305 751050497 241263027 316857728 1171717559 233575169
  ; MkMatrix 78744670 595706641 1402720996 1244172727 179208595 1641887830 1901802079 471167817 1839660959
  ; MkMatrix 1921475429 1682175673 511721276 803426084 843045387 1976026914 1323350409 1306621082 600476373
  ; MkMatrix 1560719607 555888348 1089888607 2105962025 953112022 761255762 1038197455 1205722004 960606050
  ; MkMatrix 2066909054 1409919306 256485846 68185987 315761891 42256043 563818778 1803584697 1509868347
  ; MkMatrix 1667955123 548863247 928966273 1854233440 109245176 287201501 935819930 452954641 58085234
  ; MkMatrix 1958192493 28265551 1102144206 653596019 669122304 738762549 1809944955 1630728020 98367497
  ; MkMatrix 928248412 335515911 467999208 844704075 1943855929 1299119155 1623920239 168957809 703604690
  ; MkMatrix 1612892272 114555911 1021719716 160242693 1438155293 838533804 1157729614 1258275881 1105132917
  ; MkMatrix 719229692 163875986 1599070253 1413505520 103522844 1200635782 1393596094 281501793 1400861587
  ; MkMatrix 1893946831 905799957 1645941880 823563257 1128134089 1424034572 288536321 829949727 1589270961
  ; MkMatrix 1427756481 1952124018 1604365958 422382890 360730196 1559783432 199448298 137827621 419864711
  ; MkMatrix 580930584 1072420559 1312381756 775303010 1936734135 1298591584 1287371431 1505839015 872819568
  ; MkMatrix 1629722972 419909105 1238524829 319314954 2048002667 1137996253 88606864 717799281 1904147101
  ; MkMatrix 2048441213 2091969478 332303260 332789117 1254585379 623395777 1939475838 1586707856 269740900
  ; MkMatrix 1395265528 1952533090 1358904250 1329497098 1668725802 175699967 2049028538 397588745 2066440653
  ; MkMatrix 1255606735 525291061 394601392 685447314 2015074721 1696441439 1840956353 1436976961 1619506967
  ; MkMatrix 88380627 460711077 1534451506 967994117 1590409373 1181397134 476717415 264272110 424172311
  ; MkMatrix 1775365434 645037836 1252994209 1040286208 139759725 1526898487 1470199015 2136329288 251037933
  ; MkMatrix 1996081361 1750819522 532901925 60937824 324274482 1159565228 986047554 1219059733 1293467946
  ; MkMatrix 2075639444 1985456167 64413007 258351591 929109183 1688479091 654561331 1210371131 1686595293
  ; MkMatrix 1123798223 654091347 409721012 63880789 1216396668 582884516 1923698349 356954008 1950456224
  ; MkMatrix 609643813 1681257991 1218560561 551973857 375742993 716263380 967868378 2145955207 376277947
  ; MkMatrix 696675109 1400346484 897755710 1265413298 934000773 2122877837 1980109567 1323994226 1114847888
  ; MkMatrix 1908138516 1131042087 380074813 1268850074 63179262 33696877 46158359 1145320466 306562193
  ; MkMatrix 1832630869 2139557784 1820227562 104868816 555670797 317020974 1065025127 483729298 171617178
  ; MkMatrix 262388536 1964109240 223560501 1326432190 1952044537 1442776523 40711265 1849054159 1197501399
  ; MkMatrix 940308882 482531245 474202125 864968428 611251194 368171501 452716282 921266094 1792046614
  ; MkMatrix 2145065540 1312128493 823648467 2062051006 152779774 561355554 2130412576 886909875 1452974053
  ; MkMatrix 876997513 570144107 1948465114 1735738748 1928390330 1659059348 79304154 1063737200 1556082310
  ; MkMatrix 377290071 110400282 786541597 165730193 1723845622 1159464763 702851477 1745093276 683566246
  ; MkMatrix 1130632317 1219481583 1675052276 2107846701 1651725478 501637725 2036349984 1824620936 583611421
  ; MkMatrix 1709270644 382607852 1551576329 291562165 119540335 213859856 1047228650 998773961 2024827278
  ; MkMatrix 1130276897 1006505571 53045463 1736217076 1744205243 288786110 1025712148 88727636 1283653841
  ; MkMatrix 1074854969 191545506 482976500 1945051261 98799751 781713908 1068370091 604754088 746129279
  ; MkMatrix 836262229 1979075486 1534821121 1945119835 1462621252 505267700 1357977426 2114072830 1796437585
  ; MkMatrix 1152236488 2079349374 1912330975 1029956825 489893955 387576415 1239808318 381275549 1322815154
  ; MkMatrix 337360508 1950200542 770376895 137163297 939274159 543634176 150608204 513947155 222521743
  ; MkMatrix 742258146 59680736 1001366041 211054277 1526669618 444135479 738544441 59937905 2042562263
  ; MkMatrix 1387290610 1204378697 11633966 43137784 1159618202 1792568807 135854160 2143072475 2020155571
  ; MkMatrix 992527729 1683269963 65914427 336589020 1585349762 154769252 1300235377 1706867738 773197689
  ; MkMatrix 1886133274 982075485 948582810 148074131 470024557 1825167392 1598264411 769797593 1596459770
  ; MkMatrix 95964553 1769517349 2070677133 527208819 33250257 984310479 1618794283 282753367 685905855
  ; MkMatrix 773199615 412138333 2066066849 566385851 1735919232 1752131203 1774943475 1555768370 117658479
  ; MkMatrix 495003552 1014813534 413248271 1911261048 467113202 2130052479 1707839368 25027081 565727906
  ; MkMatrix 1647541329 1039630555 1434824947 1039660811 308504423 1429358731 2115665397 2124539022 1927147777
  ; MkMatrix 1028824985 1562152217 225932211 686320315 455672065 1738934384 46801906 1314184742 210455770
  ; MkMatrix 239583419 1584543509 2124006269 1248258715 694111164 1393315130 562604150 2125089086 594575078
  ; MkMatrix 1699479898 1410386868 1248673807 108412326 1026309001 600820539 931012436 1500544891 1682234295
  ; MkMatrix 403880611 2059238209 983142497 177958951 1976423837 951512354 5868079 68530941 2059812190
  ; MkMatrix 550989945 881637524 858449133 936020052 1817611943 1225661955 2040080184 651488717 1267468345
  ; MkMatrix 221354924 1575546824 1924999433 1140317556 1917207470 1927569330 176608344 1508001365 1926277904
  ; MkMatrix 1458300975 1265387810 701351464 1110984424 1620711167 218111557 302889872 145979510 495876515
  ; MkMatrix 1358077121 1742041707 1426391412 666380672 1402386436 1374088897 623337751 1629328465 1368992385
  ; MkMatrix 1460983968 1664050967 769570418 2056801789 1153237441 2011700037 1890836505 1931879924 906576197
  ; MkMatrix 1672876350 109035968 1588955367 177076390 776105674 597271069 198794487 859117596 45917786
  ; MkMatrix 1356943266 1937936793 1537774779 247805435 1440145299 2107251744 1229733398 1750134028 1686591848
  ; MkMatrix 1134213795 608214076 1266884020 398654246 1487400489 1821851983 951358373 1461543186 1620105468
  ; MkMatrix 671147444 401027466 946034606 803370771 1119823610 595622590 1811308523 491535335 410915331
  ; MkMatrix 930148275 183165135 1657257514 1608004959 1387771271 1468225974 499133329 252192288 11013782
  ; MkMatrix 1030641991 948983858 881949496 1514386093 673478871 1769375167 1014287464 1588882210 1191111921
  ; MkMatrix 514493809 1787307606 1617857528 1491228406 695722998 426118767 72851589 284614344 1025604707
  ; MkMatrix 711580541 194844871 1707225951 2143421818 1116141830 53165864 2118114628 113591510 2642978
  ; MkMatrix 1532855080 369863741 1388369654 53615650 1214673023 1980848110 1768814639 1474639991 1879665032
  ; MkMatrix 274025079 795098418 989471546 1025787262 1582267737 591815458 567587771 2008247548 1738374554
  ; MkMatrix 2060526370 513281218 2101533691 220146973 928428082 865838812 939496648 750316605 1202688182
  ; MkMatrix 1898947129 712745136 1975109045 155874042 2041089309 1014481282 1834788961 1768555735 885223890
  ; MkMatrix 196702740 740332729 1840726461 402625160 80771333 671486770 531964268 1075431125 241241351
  ; MkMatrix 661533327 294154760 2020570571 1917719932 1460759763 814237372 876594032 751918562 1412336631
  ; MkMatrix 524499350 945062465 227464427 788307628 546698725 1835229516 1303121014 1835453826 548534980
  ; MkMatrix 1629598130 854082649 1145040055 707546695 2084133060 1357465127 1421546537 2035366507 2123374059
  ; MkMatrix 1343279220 1284929790 28931231 2142686446 860497593 814782063 65880056 1690131697 2094312599
  ; MkMatrix 402484807 1456581759 260990005 586582470 1190833971 2067331353 933288402 474679894 380450914
  ; MkMatrix 253355173 1383273585 791411776 1926284647 1293151823 542979998 386620412 931974044 1396457637
  ; MkMatrix 51001 1178578801 2056838356 1989641596 1157710648 1285935133 855141783 2012464519 345973884
  ; MkMatrix 1535005288 588271937 552939128 1327371100 1951201118 910013545 771305299 950040063 1940809643
  ; MkMatrix 1537483069 1252260005 23376490 189891780 2011698199 1680508572 723688678 1869336025 1894301502
  ; MkMatrix 1419818886 354791592 1647360014 371273744 184451241 502100076 1042128258 1939264136 1223695711
  ; MkMatrix 1878618447 786553337 1837327085 41866207 1960723521 880656157 1206974883 2089031192 370569145
  ; MkMatrix 905292614 1342542487 482661775 456292632 1685042686 381444978 134407668 1268243407 1992776770
  ; MkMatrix 2002254530 145802132 269592759 1924641782 1997304700 518754870 1161770378 1303273785 2078029787
  ; MkMatrix 2057315234 1162041245 1845101087 248790476 1537739959 1945219466 1808519368 474802156 942062475
  ; MkMatrix 1316832064 1464112652 153525729 696472602 30271024 1432718159 1692183838 2036943541 1572198614
  ; MkMatrix 1499678535 678863065 84125397 1157675314 1434710829 1764588313 862383858 641092599 1102954237
  ; MkMatrix 1576355733 1677528850 1303851517 41342994 594716829 374185067 1924506020 1515249534 1567618045
  ; MkMatrix 500361084 2115928600 710623780 1407182306 1002645185 222815303 954760971 106648325 1502189183
  ; MkMatrix 554574380 689477521 511862719 1370811853 369812270 495376488 1197474407 1703315087 525271266
  ; MkMatrix 680058010 77427193 1170398184 1553378582 28387068 913148713 99176858 1303918317 1397376757
  ; MkMatrix 1578801438 418136807 1363796831 743530455 1421904699 1798291586 1378639870 1334748324 1384239515
  ; MkMatrix 1548711230 1763191646 1134013060 273912643 611728566 147400892 223429289 1162080033 1600864925
  ; MkMatrix 595469324 568551835 1702363589 1665919013 1324923467 789634301 1533365766 1773486089 1670570977
  ; MkMatrix 459293309 1216962610 1567386836 818805576 710131202 2022577593 107865402 995801050 1435342658
  ; MkMatrix 1050467969 2037323329 1559251236 1919458385 1015680602 488543534 744015905 48440083 1320849120
  ; MkMatrix 1582697253 1296792921 1582631153 387873051 2017661340 2138713253 82462238 144262903 141808224
  ; MkMatrix 608975647 1818941310 84291694 1296133838 471909377 209935463 332936829 2145973589 687186262
  ; MkMatrix 454141115 822279448 1068794301 1206867695 126907893 126459146 1668778694 2126033705 2067150655
  ; MkMatrix 2102660197 1189202215 825451022 1809039965 703859457 131148599 672174830 500036951 1709962530
  ; MkMatrix 2076085680 159946747 1975622410 2124517694 703790261 1580800406 2066587362 1615960482 352952457
  ; MkMatrix 515733287 1811911077 1896465084 324617601 218344167 235540056 1384529335 1450645069 676986034
  ; MkMatrix 524792024 1054724607 986662722 1378014102 1269288891 1300544128 1390465736 461854365 1644510775
  ; MkMatrix 1613844544 706989387 1498082765 608483708 622885217 571640526 1942253675 1539307657 1909488637
  ; MkMatrix 1932716273 1100765401 420745730 195054538 1280416522 1820179076 1501669971 850586054 338466309
  ; MkMatrix 1420232715 1950849869 1599004806 2047259074 756754638 916897507 2029709955 799989678 262009886
  ; MkMatrix 1625813766 48122134 727136944 1744869703 2066738031 123332410 1757712424 1559167084 1950526281
  ; MkMatrix 1408965261 72427661 571859098 750199078 1279463630 1834147649 896275062 651251171 85158079
  ; MkMatrix 1953890346 1534325413 1068284177 506014694 1110077440 1494708886 1189381161 197105470 2114832349
  ; MkMatrix 1556580339 1394178781 1318846118 1802699011 643114279 742001480 1059145600 1431998051 1323030967
  ; MkMatrix 95065998 1864271677 1885954880 31378801 983624314 1616250213 568648029 798719632 1992562631
  ; MkMatrix 1767511345 256457456 516406163 647955004 1183609041 174699397 133138827 1352975691 1891183555
  ; MkMatrix 1826282846 1226882812 1932562034 715452833 608997079 1231928910 427645092 1854267239 2000113010
  ; MkMatrix 715094734 51250840 998921628 442889990 933231540 1304206236 112952716 2121343457 2016122430
  ; MkMatrix 1583281283 2004290796 2030968974 594139231 1316110854 1772264894 766431167 1077507599 831609012
  ; MkMatrix 186242185 831489454 231180584 511507729 463569452 1303175601 2029926953 1196897666 688900363
  ; MkMatrix 232910 481244912 1843531872 637374459 1000842954 1554905217 977192499 187982902 1149797303
  ; MkMatrix 1209135230 1378555283 1310829061 19637814 356256120 2029099776 171147410 1033478044 424035534
  ; MkMatrix 425066314 1223944921 1467767169 1207640135 551217215 430926617 994820306 1503698122 239671237
  ; MkMatrix 1894745532 98514332 1921950691 1378411817 615508098 723843584 2098102166 1288321153 1560460065
  ; MkMatrix 1314430366 1499301458 1583808938 845519359 84181640 1683495924 1424082094 1850329179 1476675892
  ; MkMatrix 855469330 1539515635 548355650 2046577385 2112615144 166359546 1134374903 1971668716 993034364
  ; MkMatrix 1052507536 920441642 2084309885 1640687860 842274460 122567275 1504540427 1865717987 940892441
  ; MkMatrix 876242430 1790705070 683693034 918507775 1438495216 410278396 110598866 1524043266 1549325167
  ; MkMatrix 425734971 653635638 885650677 196956304 2111915301 1685744404 725136865 480029313 1192285765
  ; MkMatrix 941446626 764417580 1019861092 2146303402 1389650141 1079156355 105285456 1679956763 1123787821
  ; MkMatrix 546655753 439701231 1473411677 1115002163 185129032 1644236088 1756922505 1036950198 1754931745
  ; MkMatrix 1682345727 1323396471 1617331350 267434695 311281296 1486194743 1419285737 1596045787 504284547
  ; MkMatrix 1130103543 265348005 995097999 233924448 1183085432 191934312 68927531 1390915818 481516531
  ; MkMatrix 309784146 218738568 1544255781 1427870415 1485918726 754559211 313792416 888546340 1174927507
  ; MkMatrix 1251963111 1993608809 1776088951 1658927159 149566068 589054079 1462545841 1254410297 1535883564
  ; MkMatrix 601203539 1501932956 460692137 385485330 1271649986 1184137535 1656856735 1416198208 1634974072
  ; MkMatrix 560138621 195180069 1712480444 599611846 1783373799 106505734 1030958343 560898973 835439882
  ; MkMatrix 146904381 419009549 1533394219 1433749044 1550350457 474967198 1152407335 493535565 1914483921
  ; MkMatrix 356823776 2000967606 1127239285 981359937 1248634026 1446582555 84064479 844563187 1704656187
  ; MkMatrix 754131443 1067756091 513495673 894325019 1279393566 1125932633 1515283622 578724116 647343396
  ; MkMatrix 1161349442 1036686413 1828673623 519768625 1778710959 844962473 781317481 353681689 473806362
  ; MkMatrix 1683923445 1612788585 834083809 440791568 1621558475 1560286291 1469099613 1322471074 514448505
  ; MkMatrix 187785570 346018255 623763138 1807869008 527129693 1354035129 1116218484 1846689268 739781908
  ; MkMatrix 641463442 635644009 1122554399 1639705172 1664775554 625880169 1869863981 1092626961 1389730300
  ; MkMatrix 1633581327 187930031 998165356 1277772739 743430462 367795843 1191559358 645978599 409963770
  ; MkMatrix 2072649482 795917967 911185786 1301307402 1146766782 285239013 59732855 743529991 2067647291
  ; MkMatrix 1097221525 1821517360 1277987257 1568995859 882661632 1974360738 372212634 794476343 926717459
  ; MkMatrix 2019448501 1976646003 1226972522 1002303269 2009983317 1377213210 1818689722 580510231 840437095
  ; MkMatrix 248579610 1413415727 1259661761 836492051 1378898473 252671040 1171226897 104440090 268602618
  ; MkMatrix 897030869 131747595 1774308605 399094650 1392137342 784154432 640861095 1785406002 981993606
  ; MkMatrix 2075679591 2099014574 955975504 213688007 1677343613 406159076 384323098 2011910205 1510045953
  ; MkMatrix 1961225979 576569876 1835862313 1868983862 489441017 1930250248 2019268185 1699110909 861119840
  ; MkMatrix 1780107625 1309894392 1394507387 1499975875 1538805884 1223727635 429331803 1671832291 2134780588
  ; MkMatrix 1879022346 1529028241 2078045806 1859823492 1552505234 1515615514 903335282 1758404508 1796057115
  ; MkMatrix 1009274784 1460222641 1647151780 1891766649 1685509748 1536473196 679889432 794811889 226209581
  ; MkMatrix 671807548 748677521 1840864770 1987535397 277205192 1372538338 1145727987 190666231 1391588017
  ; MkMatrix 1026373216 1076206496 1866237363 1658481065 1565537885 287479141 1872993846 1647178313 237406199
  ; MkMatrix 1797514595 924373710 1320281115 151630056 1618131451 1905856337 331108850 1109483782 1444560492
  ; MkMatrix 926093270 724775786 823507753 805406870 1976194267 1474384965 844343927 1261505772 675673788
  ; MkMatrix 1712489973 369543503 841112737 537437655 1624232950 1166036383 755122550 1346886586 1797067739
  ; MkMatrix 2123168138 1753706609 1293216114 1403149197 320859278 795849396 585172096 768842234 1555003049
  ; MkMatrix 469019000 1583455415 1013248623 732358762 1098297022 1419298765 1053364967 1115300300 707941917
  ; MkMatrix 1724988571 259295416 982366943 821766987 1209960647 836665422 904282410 1579009967 1408926435
  ; MkMatrix 491768362 708122139 2096995799 168385697 1604313766 750751577 1512110200 1786630774 334747901
  ; MkMatrix 2138102227 1820669156 577427028 1060752054 80825747 1823952653 1334907970 1667276088 356272575
  ; MkMatrix 18434956 1412510318 353355676 1765115143 1474389860 976561354 1514797755 698065017 907944557
  ; MkMatrix 1485500093 65198820 900551025 1232190274 216988986 941138158 356404305 1644319679 1681586563
  ; MkMatrix 749933075 64453639 2142497891 827621988 233271894 1412589798 1433343097 3829357 2057292719
  ; MkMatrix 938425462 811326751 513002227 2107102498 598766701 697626204 698329785 252074338 295792318
  ; MkMatrix 881643107 1927684630 1276852272 1556357086 1377025659 223245172 339723003 1759576582 975922220
  ; MkMatrix 350397182 1305663945 1793073041 1809483488 1139835994 1397773296 874355658 1288710643 1010909816
  ; MkMatrix 1903658225 29395794 1090036730 126092634 727206787 2047469974 1876660792 757751545 998864658
  ; MkMatrix 285913622 778839807 1754459990 1675849889 1205894621 893518404 1871225278 806172677 601611637
  ; MkMatrix 119380511 1197452534 1522035490 549969138 871131852 189301714 811534796 1983918877 2002121345
  ; MkMatrix 1578345651 678077965 2044622844 2057412934 1552072462 1306772993 835633020 1764941377 612220433
  ; MkMatrix 2114030128 2014596192 918274653 655730609 306183418 2133679106 815732060 370224388 1035598341
  ; MkMatrix 77780503 836624126 832731568 1899868393 175889748 1131523497 114575797 1537644317 1463075337
  ; MkMatrix 250411113 836919135 1198769713 763446614 1258347275 2145139616 18474118 542232308 1927559426
  ; MkMatrix 1145481733 671629055 1555928102 1393609174 1954510991 1666574819 865252733 339151441 1943182169
  ; MkMatrix 2078909763 896220392 663807074 590782226 1773867169 490724522 706801856 2061388494 408136102
  ; MkMatrix 1280515433 936032095 726726163 348546661 627054786 1883716064 496922270 1248365690 1263868618
  ; MkMatrix 1219392870 1874529349 80965756 194569366 653540568 374000021 57439931 1355581396 1897073997
  ; MkMatrix 556387109 1489964626 936034307 582542358 136535128 114113132 37101252 1858047108 345212099
  ; MkMatrix 1278475410 73197859 892784666 931195654 8963113 699473289 1614336656 2084164742 1641737465
  ; MkMatrix 252991860 579282841 547847420 1190294297 701813306 490735690 1449831752 1971343372 1300333314
  ; MkMatrix 237806756 119127330 1022559994 538266023 1750701242 1753881883 730823882 497226029 395556126
  ; MkMatrix 1541032249 2005375005 340450955 1723664456 233670443 284897712 1529226944 1617931755 1278007064
  ; MkMatrix 491127597 247645527 742399393 1472127805 898667456 1901111968 936003663 1466649070 1459082105
  ; MkMatrix 1895153230 576925191 790708849 724986580 1936658671 987363384 874628394 1922105195 727050941
  ; MkMatrix 1942588252 801624442 1417476499 108173759 1116379769 1410208742 1138651804 139142357 745557397
  ; MkMatrix 1148007632 2055170127 1996286251 1924574048 1226775713 794373997 1396132805 1972798478 321547881
  ; MkMatrix 798508685 655449803 1407449460 124540662 263368978 912842675 551083612 1220151586 480561017
  ; MkMatrix 1323189424 718135641 1999363857 2066595110 1865058350 684516072 900789773 999699413 763544279
  ; MkMatrix 936024010 136387117 370706377 1799190012 517899554 882520537 1887185289 2105042802 2143366585
  ; MkMatrix 128363447 933155033 423047013 1664212100 1090798439 1639847103 171223074 960038930 1828526637
  ; MkMatrix 823172988 1957447619 1434223383 936694720 343410092 380846885 1837797885 830336372 1341282550
  ; MkMatrix 2131161113 310921412 458949405 1310640153 1944983135 960879393 1518505988 1638156516 942131625
  ; MkMatrix 1946817707 634516752 1445408899 1231151996 1250640067 704749831 232378817 827696863 1283068712
  ; MkMatrix 681052549 171433214 2075742841 1506844588 1728501639 899432463 2083064026 1422017273 479176317
  ; MkMatrix 2078895116 484684663 2007287530 1019892736 1610259715 1475058290 417275305 1410717291 150141022
  ; MkMatrix 574885214 556213525 1912194687 62731099 1082849632 1858242253 510190622 98912746 1692475265
  ; MkMatrix 715817941 302550299 2063742387 770317850 2095644482 159388202 75221234 99745324 342746701
  ; MkMatrix 1147089970 2021495608 282770556 292446768 2022577141 546272295 1702187988 555674431 861723449
  ; MkMatrix 371161603 1496973592 128162583 411153437 1816326751 1689189578 1469681513 1292629278 1149158139
  ; MkMatrix 863880651 1408342094 589239118 684025361 1530641413 139616225 1077244351 1488105844 1439301097
  ; MkMatrix 374705027 261365181 56783564 1856991354 177649954 881837698 1680875652 409691417 1859619058
  ; MkMatrix 564060272 1004771536 1536280075 945393681 2002371182 2095840629 1769103496 2044194375 750032239
  ; MkMatrix 2023412844 1701548188 292764532 118919087 2064141960 1422850422 9515249 1081956391 719089582
  ; MkMatrix 1005033287 1697265731 1234585841 985613245 135240568 2097123357 178470119 815774521 2104577315
  ; MkMatrix 508350056 146311113 530707854 903832735 1190217424 1686375511 1121592431 1692391390 1671622261
  ; MkMatrix 201837623 2019367897 759691813 354740523 630753048 123363629 1682882184 195228488 1421416536
  ; MkMatrix 53466201 1379537234 149404493 1277445041 1463518148 1468198246 279780201 1286896153 261485218
  ; MkMatrix 1797388533 459057386 953803746 1024238778 413936309 1225835770 1598503050 1538504534 1378698275
  ; MkMatrix 977653318 1981021395 1864225647 27906252 133500217 1424094369 184676612 1251759626 339629442
  ; MkMatrix 1021605017 1563269396 381073616 42617072 1399306170 883585093 1467683204 2105908327 1413857532
  ; MkMatrix 803705661 1715574018 936307134 970836790 200375145 1541651219 289355025 1406433443 30245987
  ; MkMatrix 1988271820 67429518 1761493527 254648368 1417499769 1519018028 2088830676 1241544549 1949326818
  ; MkMatrix 2078190531 1087139080 1753973826 473345296 836702915 1540888400 1214662886 692458380 594342482
  ; MkMatrix 1614617948 1717692804 548535033 1986727678 1452851408 2011569981 2099343369 70841493 676437609
  ; MkMatrix 913143544 1186365326 13891550 63623220 1651854358 1296261815 1170812650 727580616 967704413
  ; MkMatrix 1608321929 1998927234 1877629788 1669121864 1383925143 254898553 1036796018 1091494893 250282654
  ; MkMatrix 972687533 328316780 836940557 427329099 1522900111 1383740514 1855869930 851516447 1976488631
  ; MkMatrix 1656558384 1655938582 957516312 730320389 1464840090 1505639877 108419808 1551366915 384990758
  ; MkMatrix 729946080 1117553488 59998674 213171452 1327385012 862072360 1905756995 1156769239 815141596
  ; MkMatrix 472746710 39987169 1936201832 1608853023 805829423 948267644 2033804886 1541266407 1018005457
  ; MkMatrix 1367733300 441772064 500040521 884817994 203157290 2110549056 1479335269 1333418291 917576894
  ; MkMatrix 555674102 458054739 1876728100 436052410 1138713024 478317168 420826903 610885541 1032277267
  ; MkMatrix 1106270735 1957197264 1013382828 327385743 1726145331 1033131595 114915858 72416828 412309253
  ; MkMatrix 205426304 1802551393 295611946 1643158357 29907339 12665269 1257546743 1525139544 2073088875
  ; MkMatrix 86118563 1756613235 1163077075 1853126634 489161415 2048594285 982939987 113233268 1308523230
  ; MkMatrix 1525217444 1799277390 115668246 1200982500 835873731 1694948014 1025674994 197751158 551912461
  ; MkMatrix 400787236 231066659 1474385013 1315185431 2048800950 1808778044 1270809427 1622021408 192603269
  ; MkMatrix 1656018907 20444189 1014974017 2004538483 701880557 192456848 1806607579 1264851648 1118175939
  ; MkMatrix 47740694 2131914178 1671343220 1316423662 395631557 1470959841 1263881458 659316787 916489958
  ; MkMatrix 203274205 1873604315 2117222029 1901592453 1056376261 191845608 761585878 1420289031 1740391106
  ; MkMatrix 446223657 70145202 1346143033 145889738 1469473743 1739328022 952126590 886387255 622367292
  ; MkMatrix 985915762 1477948858 2043544189 1742194409 1698482616 1347626706 68636289 537055702 1725261485
  ; MkMatrix 1884351556 301644298 1108428368 1499186247 1300626254 1360108171 1813506514 220213873 471932122
  ; MkMatrix 1691079806 84974232 804378893 28985994 2141454419 137341394 112064311 1170879491 765278956
  ; MkMatrix 833970317 1656414714 1881788398 276657115 869798074 1042402556 1087450774 1399287897 57924763
  ; MkMatrix 1681702018 1501192648 1894979791 232693144 644838785 697848577 1328610242 2129911571 1080485741
  ; MkMatrix 627698545 1283607364 1733685630 1911855924 637920446 1600783785 1710282217 991134601 398397518
  ; MkMatrix 2121356651 1398674318 619321425 467452537 489160863 1837315496 1694247919 1914575230 892801356
  ; MkMatrix 969943396 1830370542 583573841 1517182490 666663683 1061393624 641582802 1507376874 1642320330
  ; MkMatrix 1620932285 1332573943 396595440 932059820 1687446792 1302118555 1551466681 496420664 1943196289
  ; MkMatrix 1209613320 1044387226 1984468763 171547595 152552431 621022564 49123948 1013347672 1086370934
  ; MkMatrix 1157843205 1388739227 1203597480 1199989920 1898031004 1520365017 349347177 755595861 1740946635
  ; MkMatrix 2098111121 1466863394 1871036769 338004646 1431877302 839898684 2006568959 1675814975 308471149
  ; MkMatrix 1098612978 995897770 118213194 1321261782 6748148 396634863 301513539 1108357861 1873680726
  ; MkMatrix 1918039191 1042136620 1004623393 1362332275 1486958283 1551938909 1427812416 433101200 1335372863
  ; MkMatrix 1706736313 606834521 576157191 1683375779 135133728 1405341182 299036142 1793461494 1010660758
  ; MkMatrix 1115429275 1709702319 1056158010 950153845 1956033284 782431161 889681286 1283010489 325863607
  ; MkMatrix 1416716424 1546822756 676541530 1890273073 90931706 1480468737 1983738572 336971114 1476230369
  ; MkMatrix 775757276 962600597 1886998271 104997002 1457665031 261588821 1902816366 83256368 140035114
  ; MkMatrix 314253602 1953163559 1879073620 692225200 2022506351 2057923163 1480923060 173902129 780524600
  ; MkMatrix 971452087 2119529524 479718582 628383116 1402372015 383656923 667561206 1038981788 1897721848
  ; MkMatrix 833832024 961803108 754816731 1597341125 412031720 1099458629 1336373852 270616818 102567469 ].

Definition mrg_skip_matrices_2 : list mrg_transition_matrix :=
  [ MkMatrix 0 0 0 0 1 0 0 0 1
  ; MkMatrix 1841195089 1488605044 70958207 42299766 358764160 1810554404 2014244542 1699546188 622916453
  ; MkMatrix 1492876117 632513910 622638443 758371028 1744353458 1935368369 911627155 2049914259 919509285
  ; MkMatrix 746814505 1549606791 367684326 417383095 1855988473 1825092626 373147001 394155827 322169563
  ; MkMatrix 324543768 349086733 1476201052 991873218 2059583029 1094489873 341510320 872344606 251023864
  ; MkMatrix 1442047988 1610722385 529817400 1118058889 911667037 1964999048 701061192 13694013 155254856
  ; MkMatrix 645176773 1438037227 1569378510 1588035248 1915118326 460606080 1408166382 1309925379 1349270261
  ; MkMatrix 539845751 1636173371 1659721947 474005036 1213620331 480859717 1169298499 2104860026 1121164416
  ; MkMatrix 1305529819 874978240 592466250 2026365239 1890475564 310668621 591106415 1282607082 1656311450
  ; MkMatrix 1834769364 995490617 1272115049 1805509723 458070657 782818069 1964496366 1762181089 807674917
  ; MkMatrix 1073525991 439750824 339986086 1769424051 1506475496 1245132733 1300054000 1314405151 80066052
  ; MkMatrix 485553444 638335632 76219088 1842662032 1618638231 897888656 1479944976 895184561 1412697817
  ; MkMatrix 740858403 224058730 415653557 847981676 395051016 286880836 2033232182 351098777 2097527544
  ; MkMatrix 632040916 359858413 1117674985 573608425 240752102 1856631010 1541595955 1644662576 1383107118
  ; MkMatrix 1975673105 798581198 1558633908 859185964 607092008 643966523 1655368172 1568297292 1346678144
  ; MkMatrix 525760283 353253881 454151010 233517642 369269384 491360329 1248542536 1514514672 1127679437
  ; MkMatrix 1389695502 563722919 488978747 186097697 1446458569 292077858 172003132 1414386789 1917790834
  ; MkMatrix 1903581582 1143657322 194107071 961839963 558339732 692152133 1347718195 2100751330 896818590
  ; MkMatrix 451363390 1446595021 1891400395 1566938630 199138278 214876011 849826150 195757654 1633861652
  ; MkMatrix 1977696358 1939041108 2008019528 166446940 1832229020 1032099018 1432036507 416853439 1578956134
  ; MkMatrix 1879262282 151808584 73624403 174928238 368627535 1856298797 1249280924 167176644 739612439
  ; MkMatrix 1563781965 168922865 1976224973 1324664547 1626193075 158470089 739644436 636292265 1940361694
  ; MkMatrix 1424280874 142479859 959931056 304178388 837158781 1147220106 1202649113 1279115569 1355835973
  ; MkMatrix 1562538882 693321316 513353543 1514756137 1406313158 361181072 1675430356 498858783 1553835131
  ; MkMatrix 582076310 1065498298 525362734 1883042636 1169812722 1935513413 1243797410 373971719 931548438
  ; MkMatrix 751733178 1101374736 365007970 79098941 1280219555 623519759 39401872 1353798474 162144995
  ; MkMatrix 877785889 1823359403 1431882674 222696380 2030557112 335018336 885129527 664520322 2012723364
  ; MkMatrix 455199638 977719931 172415300 671505125 1099944846 603651693 1357001578 2129289855 1965306132
  ; MkMatrix 392538003 877479765 445581704 846465215 314338622 1062214011 1254922806 1051487327 697937334
  ; MkMatrix 500317088 2144337988 110031159 777954021 1045498034 680736819 1911882737 1934156163 690665924
  ; MkMatrix 549414891 1670622007 2027850200 1021293350 1291119561 511959154 1204419402 814494924 1435543067
  ; MkMatrix 1605693737 1006417876 1738651896 79390692 1262596208 122302521 1803220196 1166250541 961782701
  ; MkMatrix 1812517847 754062902 2135988828 331784467 1737239903 871300932 972040043 313692999 1520073171
  ; MkMatrix 1448007831 1131261544 133175049 1524734127 1632517556 1805574809 467591507 2112696376 463577095
  ; MkMatrix 782524778 812448509 285448085 1557059652 304216489 323816472 1460602508 1904842233 1033386078
  ; MkMatrix 1588441027 923462523 1631113353 819228749 2012617470 1119127440 1239418749 1351799828 250997342
  ; MkMatrix 342480107 1634867284 531893750 1631111684 1292843532 119134876 60699814 965621655 418005041
  ; MkMatrix 1220821423 1590211822 452934149 1486950818 1104703395 1485046871 1114283750 23209682 1311328371
  ; MkMatrix 1740471691 1221993589 568939489 1577707101 424060623 1793944503 263181460 1485593590 977844690
  ; MkMatrix 293866215 1117248586 179366407 1584662553 1832817430 477524499 2052342297 544220202 1857088724
  ; MkMatrix 1284138581 1667559303 876329549 22190656 1554370381 1325484982 627158170 876427120 1247620889
  ; MkMatrix 1686630382 1873988732 1110640557 1175496248 774470078 1498416463 908317342 1072333543 721275885
  ; MkMatrix 2076042331 990839792 1249625533 1426217254 480932128 1445340982 958504554 446495566 968903774
  ; MkMatrix 1686878895 1110833275 656168947 151618172 754837880 2131038397 1735666608 403128318 398994604
  ; MkMatrix 1320790320 2003025039 1921313831 922170587 481985270 1540748427 2133671158 2108120964 173639662
  ; MkMatrix 805783706 729520412 116351572 621287264 322156780 1091741209 700609790 1449815661 2069579128
  ; MkMatrix 93285413 1128783683 259506273 1080900733 706702247 344514512 1427416382 796053364 857580299
  ; MkMatrix 979303749 126874296 773222332 1348489216 1602833254 750485625 1047423275 445020158 1232327834
  ; MkMatrix 1739892849 1799552983 2128356499 1463078657 594453625 9474480 2125040431 1900430512 1217793134
  ; MkMatrix 1872599771 236021484 337679156 568258554 464769298 761727570 1144816330 1241314662 245057531
  ; MkMatrix 1476987404 1721461484 652234785 228105294 1297130961 1634012622 295078732 1413317926 1446714781
  ; MkMatrix 342858906 284881741 1365430574 1211297317 1375247513 809126218 867488033 156057229 139511477
  ; MkMatrix 1240025165 1245287783 1897423078 1197289782 139102074 1348149887 29706247 1938511872 749113107
  ; MkMatrix 1179435316 355217794 1627640064 1755202373 1853625195 1660402351 80131600 1727156313 497501209
  ; MkMatrix 983197421 249953478 1660132631 313299437 1962637872 13208563 1977632181 1875986003 1628165318
  ; MkMatrix 906865151 604062766 112919691 220615884 422856470 1467775969 565565743 344790421 409554005
  ; MkMatrix 266060520 394834030 1624867746 532800402 1290474441 301712848 230778061 559402263 1416806196
  ; MkMatrix 557963095 2136316551 1952273170 764093179 1476578086 1404158556 1031320946 1047375942 1324744871
  ; MkMatrix 1216951903 2082575172 1560974073 656296158 1264168173 1978764553 116787203 937543184 1365524788
  ; MkMatrix 1719177888 1076011395 747260717 776444301 307920850 1333292593 1676472680 189678863 563655795
  ; MkMatrix 1887247074 1650133450 1424944414 1876460642 1115786199 345351880 1304071256 990538973 17478282
  ; MkMatrix 1730135031 1980738826 1944901245 656702812 414750729 408823924 83825954 2130602281 1923897760
  ; MkMatrix 668916699 478536060 1258895922 1489660770 2139620432 137041033 459312284 1758398200 1524181062
  ; MkMatrix 1011527388 1895678486 1389246755 1960133989 1746955757 253153712 441649497 1483434118 1013005451
  ; MkMatrix 867081930 1775641679 824132775 1432974174 743051653 398421180 684685362 1408082662 464971086
  ; MkMatrix 147733520 1973160383 362923842 1234315349 1583098090 1921453651 871531070 2003021298 667292271
  ; MkMatrix 1203921189 147835735 1899496731 1364878550 1746348857 692830960 1657005895 248055575 1122658494
  ; MkMatrix 2082649937 1972830532 1348580990 52169871 1117985211 921780507 1777577089 396385531 12882634
  ; MkMatrix 751905443 36484442 817135492 927447636 1164455887 95440084 1213228192 1791307957 215375555
  ; MkMatrix 1178878744 1818062452 151784350 1012998094 515964936 1834951621 1764409112 1683945093 1322448524
  ; MkMatrix 1322183253 243744077 1338085685 2133527251 42601299 1176844309 1892557818 1256383650 676608845
  ; MkMatrix 138632274 1956766080 1594663912 1979238278 2037499459 1263999690 78522197 1629632962 1681876287
  ; MkMatrix 556870760 638893680 1655244131 933184387 1969439507 443988914 855602917 311600819 1753005038
  ; MkMatrix 1468461893 711632964 929757561 833768594 41945989 1593535672 1660510264 682086731 984331639
  ; MkMatrix 1581852863 803431249 1339746509 1678641562 1606383197 571905294 495334562 1720022830 2078117030
  ; MkMatrix 676175681 1081948722 2047283343 1970041717 1786268618 952661416 1284355118 1305769061 1436623629
  ; MkMatrix 152029652 1827655445 1364390301 2005111179 1789037635 915451608 1902975697 1016947138 1218357772
  ; MkMatrix 856345469 1805764693 1779780645 860782167 1861920983 324927773 914436648 1399722799 1264643821
  ; MkMatrix 1927279076 1929341655 137735671 691365220 2021585694 825297249 815249275 2016640709 134645440
  ; MkMatrix 30716072 1007026531 1810865950 482474258 999861455 137282447 366952723 676163352 2051694470
  ; MkMatrix 454239280 1481001298 251909000 763795810 1304138521 1322017550 862944681 569139354 460694653
  ; MkMatrix 914712528 1688824623 2122622574 1021216209 603355638 80185050 1020815983 986053162 472985396
  ; MkMatrix 37970339 1314625165 978362774 489821368 26775807 1193961364 989973026 787575903 73246788
  ; MkMatrix 970461646 1595274922 701361307 1875634658 603242810 1899858440 36410853 1111271583 536420303
  ; MkMatrix 135401189 1718820340 2000965898 279971586 1930979424 490313918 1614607662 2077090916 774500874
  ; MkMatrix 160801739 197390763 155435185 993584385 1417856956 33735972 1432117783 814465708 1991787417
  ; MkMatrix 1461338992 1194482472 134276916 1932435944 1459571335 1971504013 840114882 1853144100 810970900
  ; MkMatrix 2069130977 904710628 605018748 1335019134 1957906491 2005875886 547207282 1358244950 408778935
  ; MkMatrix 1268432390 1567439653 253608082 986690816 142140895 49746493 1632061180 415469403 318849151
  ; MkMatrix 1509332824 996726384 76881964 355427235 1460638433 897956625 299468057 2075974515 197176441
  ; MkMatrix 917188435 265008294 20518140 1704710779 407835830 1554605077 1301767463 1571214714 1361149233
  ; MkMatrix 1511846443 1826918069 2102036298 1954709944 559966670 1619894361 1642447454 735608241 409877968
  ; MkMatrix 23807830 1142103193 953440212 49207096 335209239 60028629 1898797833 780492225 598907872
  ; MkMatrix 940931994 1579924795 1734939035 1453985671 216452538 606353503 1844837856 378795692 1372364234
  ; MkMatrix 787049764 533949095 253356031 296070825 361375779 687978407 764182865 565477734 1666697125
  ; MkMatrix 306179896 250555060 2145215424 2087832416 2097398993 1861379014 849487675 1253640818 1443876342
  ; MkMatrix 1328518626 552285828 2067258785 1460331229 1306741140 731549403 2133339041 821036747 1770997555
  ; MkMatrix 1823247615 496645825 387909514 2000323671 1056023761 1469121895 1484329586 2125053410 1385996891
  ; MkMatrix 876359590 174350937 1161546871 1074198513 125747627 941366904 1261565184 1062147428 612989486
  ; MkMatrix 1635961441 1670355854 985019829 507510802 2103853521 1205143532 1851709781 2114270208 75368760
  ; MkMatrix 1519270373 1836270955 1399997774 514951442 128948400 552907048 2065473766 436280718 1908985431
  ; MkMatrix 1993338614 800033158 518941063 1388978512 1340116023 1605603196 1674966862 1017488475 447124145
  ; MkMatrix 828521457 668951900 561730311 713378444 2004660142 56846843 863956463 733116229 566953456
  ; MkMatrix 2103148147 1424471835 875243471 1083834052 2130587624 1439989260 371247230 2027639345 1957784765
  ; MkMatrix 1162401808 107935631 449283122 1026979813 1910153835 560088457 2078613262 514213536 1300682368
  ; MkMatrix 980153351 203399679 258102351 1648075689 1363984 1041462012 1182080835 697476485 294118126
  ; MkMatrix 1711888320 1476282766 2102565422 217541558 2077835353 877121854 1151327679 1854686335 891824224
  ; MkMatrix 853743333 866374259 1929662594 1268668187 1788171707 1963428463 1564585179 613689192 714387031
  ; MkMatrix 446589943 1410431868 1817633832 1798024153 1312877773 1576247935 729076143 1864970050 1733880079
  ; MkMatrix 2060169803 1309161064 1123339029 694960459 1776409314 910224180 804760566 1057539355 869399628
  ; MkMatrix 529820140 1986814834 868211731 364376587 2077256966 1801377785 774600418 2026001723 1690278910
  ; MkMatrix 1930207021 1137894750 1850583184 1376020870 105358096 569696475 1114318506 1630254487 286388302
  ; MkMatrix 1473503410 1383491993 1533168560 382468184 2093436240 1941507623 1175763439 2011060445 1926435996
  ; MkMatrix 718332808 1413880585 1751143915 1606998801 539115183 2021457561 1151007951 237778377 133770204
  ; MkMatrix 751978999 208233834 1707126069 84335917 1964603588 1985150649 1978690983 1861400267 2064732771
  ; MkMatrix 1495236380 359595642 1859802499 185954440 164732207 1983746556 735994475 1538969109 592460660
  ; MkMatrix 158370092 525727336 1203485279 1192554958 2133256718 1758787992 1876399670 1609556897 1247789257
  ; MkMatrix 1560865692 1405699866 545478900 1560629947 904417784 403415 8466793 806047293 2018165602
  ; MkMatrix 563789743 338837688 659793634 2036661662 908748424 463633825 1034392707 278759844 1240679208
  ; MkMatrix 2008495944 330036915 196883614 226661074 1523010446 56560064 606584321 121730744 1909901415
  ; MkMatrix 1510754894 1202744135 585447182 1491239263 350224335 29734828 1434033451 22959914 1845426918
  ; MkMatrix 1884689066 297271460 476874964 1547143234 1981804740 281875381 485592763 1699308314 742801736
  ; MkMatrix 238589965 265350022 1852171214 1794589718 329267702 718714446 97382605 149893071 1457921133
  ; MkMatrix 1776894547 755091066 908562437 683060349 91502324 884797251 1779999405 596931469 848943951
  ; MkMatrix 739282285 452032584 122625147 15610449 1911753770 730154696 1585057921 1715698006 1955504562
  ; MkMatrix 1546322520 1141225323 1962092997 292375657 1780237179 600012441 1859462825 178434580 1717785076
  ; MkMatrix 2100580412 984283576 1302446131 699204888 1894328464 1537570620 764296414 1934939696 787602841
  ; MkMatrix 153447303 1986647467 247535385 954426617 1339513336 107579811 1390998457 145454610 214862399
  ; MkMatrix 563065758 759975544 611258691 1741373803 429994382 348154164 918901463 1741880838 1753071371
  ; MkMatrix 502349238 1098612146 305115496 731843443 121641219 708041548 916294413 1807004769 455557191
  ; MkMatrix 1062437260 1380696098 884917196 121968139 1159455889 1008843057 209699579 2088682751 1609532932
  ; MkMatrix 1534052441 221620131 1189554162 1529267231 1476887031 1939559606 1154953394 480788449 127495068
  ; MkMatrix 1779532773 381764752 1727837803 1925537472 134916088 1154792652 464666916 1333407322 2030455537
  ; MkMatrix 161396139 25249205 615995692 2124728390 1320591329 2008870021 20265367 721771141 1175345612
  ; MkMatrix 1442292008 1650580482 644020039 1530496257 386999483 2004771738 1875085213 122597156 2062077396
  ; MkMatrix 703880074 931390865 1145843531 1473918377 2001388672 40787745 1668438732 30971362 57813413
  ; MkMatrix 1429580271 1820947110 1168518302 792026407 1019543206 354226374 400293977 329800968 1763106326
  ; MkMatrix 924318276 783007922 1100352505 1349364251 1109844353 29999796 660355847 1869858981 562767892
  ; MkMatrix 56986627 191193126 443172431 634627920 11215130 922867083 442291499 372451713 1276721401
  ; MkMatrix 839623712 1572782749 1483623098 2024557832 1305865176 419920991 370283110 821216920 1018439254
  ; MkMatrix 772746857 2004699612 1619471940 1918460883 1342091509 1412115665 1662102369 155609048 2146621801
  ; MkMatrix 478534481 1065797931 33433980 535970305 322925324 1005685045 218315126 1103805105 473464449
  ; MkMatrix 553400443 1389710483 1881928365 2000229417 503131984 1518142875 813707447 319567440 391283380
  ; MkMatrix 1026385271 827347753 1909917345 1796988189 747006415 1649228914 688442131 589665802 755371749
  ; MkMatrix 1635453806 1845266000 1354112253 72016742 640580788 1917102262 897874826 402005647 1251498088
  ; MkMatrix 495379617 2100398979 697518525 1046208605 282288728 1604893566 780050871 1954306806 242526440
  ; MkMatrix 1847866473 715464133 1780210397 871638771 1195188203 1464575238 1052860699 395763344 1486167762
  ; MkMatrix 221160328 1578636281 7111192 730176523 1179389498 212739978 1865387482 292039269 2043543395
  ; MkMatrix 2054880983 1223236109 1665795018 234123767 1463750824 826150312 517648950 1126688458 854661499
  ; MkMatrix 799159333 1189019838 534771341 2141246748 917029486 157694795 2090190898 1194931569 1465171078
  ; MkMatrix 804290582 51904006 1138156647 694072575 1816224782 2132634314 1894973190 1104573782 1644372323
  ; MkMatrix 777581920 1906992840 622861937 808530898 1698549172 1634839168 909661687 1241768584 1693426897
  ; MkMatrix 534547955 743116108 121498013 1218370981 643050580 19153412 1403284507 1478840680 125456342
  ; MkMatrix 2126250901 881058343 145579477 718078036 709066802 244244710 1133835652 1609725746 789907885
  ; MkMatrix 660960487 1733744867 1455664722 1451993915 1601249940 106544326 2062619302 944825524 1700057736
  ; MkMatrix 238804718 1092810976 94446494 135322235 2119351350 794480960 1963861805 2132325162 1587785908
  ; MkMatrix 587542815 1884460516 941310619 311645860 1939387927 1141949619 434254070 1233398759 1400324179
  ; MkMatrix 170942760 1250046262 465600353 778353873 1302694058 1190216296 1767011567 911519101 1091036555
  ; MkMatrix 1446526800 748704866 1211121267 1918792343 269471641 242420486 1770519191 332742985 689882508
  ; MkMatrix 1856195390 904397949 268446889 894450941 593834102 1328471386 447726998 522998127 1162404034
  ; MkMatrix 1053705993 374811456 122108528 744484116 2080862601 1401878729 597818614 2038486154 723147353
  ; MkMatrix 1779319604 1933882239 524952913 1900084851 1837803166 1740617107 667356202 1881258545 1716233587
  ; MkMatrix 166846334 495011515 2035263688 2074589765 849524506 1939853851 389947199 1830734063 530890131
  ; MkMatrix 957381893 307330183 1911492522 1643575850 1260600266 1368110891 466286069 299259720 1155859364
  ; MkMatrix 237933605 1532327678 1454353559 2085223733 480560506 1985921828 1618274378 1304079336 1742119656
  ; MkMatrix 1622939996 970136319 491075762 1447528308 941997311 2120094238 1681778061 966280169 1570166893
  ; MkMatrix 1091937897 1962544578 1076663563 1756819218 54767773 1258243767 1387897521 1378429268 431310988
  ; MkMatrix 1285142711 894764556 9189720 797384461 960511603 1626080613 835925876 75313675 397280905
  ; MkMatrix 1509225026 338174255 294150781 2040369534 2126673574 454190590 1208925898 1402497105 25186852
  ; MkMatrix 170689542 115472479 1076745825 264629872 560075346 270479504 1411574728 629572176 2057712002
  ; MkMatrix 1319175593 173782795 1976747188 1555151851 106001477 1107935708 300479502 1664732390 597086964
  ; MkMatrix 983674610 1836797113 1067661676 1983569788 1951388645 418769176 491595735 1274640369 324148510
  ; MkMatrix 1685327376 1024196651 736006173 754083683 844266509 4835340 734313804 926570581 627340988
  ; MkMatrix 1567023633 1922188627 1458449358 292171537 300543453 622111079 1133336298 1828239115 1271272498
  ; MkMatrix 1775617307 280890643 2088229886 252405253 9068178 411043862 11629252 1536825203 1940785551
  ; MkMatrix 1032954543 1542764846 1986907277 2097922718 282400785 1503353303 1782856168 185432871 1398615286
  ; MkMatrix 1505670470 2136946339 1681275606 1421604988 511446568 536219851 527231017 914951585 728084425
  ; MkMatrix 1194766024 703550080 174584973 41035303 117080296 714878701 31751610 1103664063 52920421
  ; MkMatrix 1338677424 1816126915 766169402 866572872 1406421157 1777086546 788434205 1127491812 152805564
  ; MkMatrix 1582417159 1221168182 391271617 722842207 2115615974 559947994 1698528372 1416847465 9106626
  ; MkMatrix 1062220436 145155895 113613836 2136392059 1074402763 1491365660 1739119502 1742448598 249797389
  ; MkMatrix 1144232945 66935242 2122366861 1125317187 1919769631 203324623 225842143 1368394984 1870328116
  ; MkMatrix 980675056 1589488519 155502110 475170953 1530179907 816755520 2017121325 306049401 1530436799
  ; MkMatrix 1889184277 1305008335 286581012 285517757 326920054 321671291 1355112066 455473628 1026497743
  ; MkMatrix 1935279877 1084973944 1619212658 1514992165 1301576301 85503440 1589286454 314496812 332508958
  ; MkMatrix 74167153 82830705 1171666650 1152308050 1956634626 1452736572 1951699038 254465022 2082320233
  ; MkMatrix 1142498431 155945186 2090109209 2099606270 2116360213 937186741 1869468032 586299000 1911155563
  ; MkMatrix 1022273152 432678325 1077313921 1424920362 47944993 1363372910 1673875226 1483309127 280406075
  ; MkMatrix 355021005 2030254560 1834387765 1678289267 1832880130 295384473 979383923 1657627441 1360084708
  ; MkMatrix 347408671 621218114 1745996542 2064460428 1567014174 1680741085 1694608074 827102508 2136521755
  ; MkMatrix 1257016779 1854245595 2107220657 1904312837 1195712187 1306915540 1649800218 1112134396 376968419
  ; MkMatrix 1768785775 1092532705 1769087158 112964778 1556421611 2084070419 932288329 753031504 1722357314
  ; MkMatrix 658161389 1503837147 2050509639 1317970985 1633643402 92364655 1481311098 584763736 999479365
  ; MkMatrix 1269434329 1711869176 1858920728 1271355682 677201235 86451155 1291791912 2107718701 46873872
  ; MkMatrix 1704274889 568991656 1308684190 274966581 1016683436 938863086 1624327204 135948789 1935469001
  ; MkMatrix 1277875188 534012130 1689848462 286022244 891309647 945749273 607216940 73496315 328715025
  ; MkMatrix 2011874447 207409355 2060574340 498795029 1088366910 254872575 1434498027 748339996 396951182
  ; MkMatrix 1643050204 2124664152 570342723 1760418584 2019141619 1979093310 951401888 138937735 1433642500
  ; MkMatrix 548422770 1138816154 1893239673 1436416811 763631205 2020610008 2045019629 1687027582 387919916
  ; MkMatrix 153105827 1449639829 2069872333 1729124786 954526160 188419 1962432204 1471770244 868903304
  ; MkMatrix 591577190 1779678838 557937569 862595645 227417900 498884998 168579455 266721924 563561956
  ; MkMatrix 132021276 2069726937 1181282741 1663346862 57590357 1594022761 730748957 1085462180 1825162241
  ; MkMatrix 549795487 122242455 209279321 1281499185 1267365894 681433311 1151893668 1737329860 659300443
  ; MkMatrix 292769924 373995874 951810436 1169424274 664303011 701023130 1780194164 975853046 966999539
  ; MkMatrix 2035757612 1547413162 1826121020 1806236848 288627897 2123388186 1727180249 20607755 1892027918
  ; MkMatrix 268524954 523829708 972400910 1955056584 960788122 1933084527 1047440602 1803200738 114919499
  ; MkMatrix 1745464768 816395960 1236767844 1258291356 1982354365 1064476750 1937942805 1116882286 88207012
  ; MkMatrix 426146367 2112614410 1137255932 1818453051 536403522 567598811 2119712354 432308633 1780959871
  ; MkMatrix 130439740 352375589 354446776 393878257 586466118 306721680 247094188 1166388750 1251971879
  ; MkMatrix 1513710315 1207655689 68166486 1274847043 1308761000 140986167 770440604 1434689561 913993836
  ; MkMatrix 1184303845 1205126870 1352385373 1683783166 1740111402 1327491436 458266641 1630764024 1598840723
  ; MkMatrix 2115094671 729585700 2030832568 1350103189 1097449856 1170418571 654818427 1872536016 12565521
  ; MkMatrix 1991654077 607155134 913119183 1805809782 90501714 1735437307 1057335402 1650490756 1230816867
  ; MkMatrix 636645626 203895418 1429610531 539084314 1787396119 625314543 1532872988 861572227 89981469
  ; MkMatrix 656406810 1301096965 1859175605 612034218 1544223338 2145096405 1645262775 1646804982 1182589959
  ; MkMatrix 1074062055 68558680 484813967 1932330853 1698689305 1303249696 1746663491 354630990 500826635
  ; MkMatrix 67704871 1866851541 1731958483 1221308147 356789052 876787195 888212053 158814652 1589694112
  ; MkMatrix 2089975909 70686675 322053773 1963312759 1684049776 305562748 1074100270 513635841 1611651414
  ; MkMatrix 586413818 669005964 274737799 1902235547 1702160706 249012763 509705879 1616464307 1888017475
  ; MkMatrix 815845038 1669050013 284356522 835328645 1118304782 1168755885 412162874 46826545 1638786403
  ; MkMatrix 1081047557 1185722470 122018601 1004005526 1997469531 485233278 1884922236 2062269661 1383049332
  ; MkMatrix 752924987 1456426753 1320500395 64674997 1479535882 1944522284 1069414325 227250895 863127157
  ; MkMatrix 1947995851 1482658762 313304726 1564051543 1936521888 1981976220 1767096696 516070970 682155225
  ; MkMatrix 1656478333 938367637 963468552 579355364 1545939228 1754464591 1530521951 1224788687 1868882464
  ; MkMatrix 854309253 1016981493 1397679075 1860509229 1709149955 2113837625 1194706818 1227613478 1064736873
  ; MkMatrix 403502657 571592508 1660265130 916773041 781964530 108244031 656012078 472420449 1582985014
  ; MkMatrix 1786587529 1969262123 76232485 411195143 743324637 162840482 233986681 436673987 1342108018
  ; MkMatrix 257593948 296358305 2138313523 47167270 1067411648 1065193882 1980244029 320449501 1062628505
  ; MkMatrix 1162619597 1392769274 1685134533 1210180229 736897977 663729868 164338891 186293976 242198356
  ; MkMatrix 1242943523 1643322426 2126792827 781892554 1095945640 1530414740 1591147668 1083984329 1682918766
  ; MkMatrix 1984571918 965085189 1052495235 436208962 41632156 55736653 281368130 1411471940 1695100624
  ; MkMatrix 1644349700 766931040 475492806 884232419 1083784872 191408645 945370692 1841842865 976010781
  ; MkMatrix 206936455 2140092514 1539024672 1358156901 498646637 1530793843 1325369374 250032526 1055380347
  ; MkMatrix 980875179 814382915 1450045674 822743461 1703689877 363702420 1322749827 1111400298 1099951408
  ; MkMatrix 1808601811 974357842 2132812671 839229540 1202809978 1522463214 955705452 1793222820 575181991
  ; MkMatrix 1923396953 2015177087 1726477436 872091206 2103387400 590368877 1197725782 667635547 473850588
  ; MkMatrix 1424122035 1738656968 1694703567 565424182 129617386 703343344 1878030126 552358732 1224782018
  ; MkMatrix 1208788459 1634298789 1366067376 1139729807 635332550 1103848646 1623965444 1000838631 1466155035
  ; MkMatrix 2142176669 1730570839 24090258 68783503 1409144156 1947176646 2134307173 717640363 1480092576
  ; MkMatrix 1272516130 265166903 1548004215 1821210346 1577465430 893528081 1342643569 170169091 551538607
  ; MkMatrix 962730392 532463400 605113504 1679747543 241821752 1483997951 1266830227 1987976240 1693513715
  ; MkMatrix 273527163 1333082763 1388888427 1142494874 962255772 1559470803 1165196193 2130540577 2041927670
  ; MkMatrix 606954392 136640759 1813320939 1842501640 1581437742 1212696910 315135197 1410081774 443664027
  ; MkMatrix 1351910748 1838322085 1261381362 448513022 447944140 76663135 697678353 1600189969 854245292
  ; MkMatrix 806008417 842939634 1134622161 334753166 217837324 238714141 1158446394 1432535481 1971307735
  ; MkMatrix 1124641897 1423632689 1276669320 449118283 258274760 707885478 814161038 2096897202 1886592751
  ; MkMatrix 1500808344 57401737 483002986 1061671257 273799836 2109099193 1140682639 555058151 1260645489
  ; MkMatrix 1233251419 1859138784 987402314 2124395307 974583289 1320126605 1062228914 1108370093 1982518127
  ; MkMatrix 2085761726 298150413 500689843 1583578945 335253507 212378903 748479774 677365930 1171917255
  ; MkMatrix 1520101139 128925241 1285468319 1138507044 1764629093 1636999307 1464137838 411310436 1191173711
  ; MkMatrix 1181727236 320402870 1998412667 901930693 851105791 1624785255 892866916 159930543 1117252648
  ; MkMatrix 612437270 813852641 1674160834 607340654 106179468 1673241420 1088526337 2051717536 1106065248
  ; MkMatrix 259299661 396225387 1383674226 431194328 1660563502 412844688 2098172044 126330842 1831096072
  ; MkMatrix 140667663 1981982315 411913397 1198119490 502805728 107387533 1770192131 1759668250 960663664
  ; MkMatrix 1914060477 2079098059 1046429582 1868127660 1328382868 1087054345 1202831473 695517368 1943945248
  ; MkMatrix 1878991998 1289747012 216805625 2094455703 1271904144 417351448 929726077 1446929029 1731846625 ].

Definition mrg_skip_matrices_3 : list mrg_transition_matrix :=
  [ MkMatrix 0 0 0 0 1 0 0 0 1
  ; MkMatrix 1508012513 2017431394 364496407 468402026 1594355142 738007738 2038928981 2009634712 31989534
  ; MkMatrix 598133793 1796514457 1581669433 335560125 1089786967 835548353 537608233 1543261614 2052883955
  ; MkMatrix 553642099 555313442 1833568133 2030403321 365626859 254164525 133997814 1339258992 1185376400
  ; MkMatrix 1186955238 719854390 2131409688 206683826 178478510 89671692 1241031137 1597684028 478282559
  ; MkMatrix 1929548276 1508588234 1917917787 949267285 1522736265 403749608 488115236 348930223 1722733234
  ; MkMatrix 2040820581 306610133 248429574 1885326886 1801077327 1847180759 1642025773 558998589 424311815
  ; MkMatrix 1104561090 1302420874 1876321703 1951393463 935145465 1989566316 750476763 2010849143 553470812
  ; MkMatrix 1799823648 126849880 580491968 1825467117 362792278 355905062 670673561 1698105553 1164319705
  ; MkMatrix 1623871533 1010078678 1228793193 613051372 281165259 1837588012 1874127577 1782467820 1804785169
  ; MkMatrix 834976593 596587738 1398503430 1136946059 101805234 1700210301 910804007 1569783933 948245228
  ; MkMatrix 296465561 458030599 994586473 303722641 916851446 461641835 296140919 92699137 562284201
  ; MkMatrix 140393748 255646822 25850420 1683382737 1456409330 1065502469 619292197 1144507921 1163205740
  ; MkMatrix 732729554 1012892054 735339772 490003985 1092976204 112191616 266575977 74579846 1711118352
  ; MkMatrix 1410834007 278969045 1587020442 542501577 1355323411 536796419 1291767513 1486247318 620388485
  ; MkMatrix 1889406890 652996057 1118800996 2051195787 370301760 1065445469 1712262723 1774026381 2004250356
  ; MkMatrix 423681515 206237420 28633995 670066325 1317505971 1668561625 2128991985 461790042 1370627821
  ; MkMatrix 1126603873 1677269140 1162425614 656931474 1776025067 531338508 1835450595 1625136501 1314601474
  ; MkMatrix 284857799 1206025074 1055398737 716918519 712087226 998950662 920514370 1468480313 1593983487
  ; MkMatrix 293748584 1683693168 1215223307 111163627 49661888 2010377893 1907455415 1054166967 432322726
  ; MkMatrix 338789418 288746733 1774405266 964196526 425994225 2102905719 931014082 853089962 342161103
  ; MkMatrix 42615987 1469476379 21554181 357747255 767108514 58696413 1396874807 620460349 1516315033
  ; MkMatrix 2006543520 544758069 773887134 326882602 2053622741 1989951484 506900844 578964036 1421488599
  ; MkMatrix 953216565 129440452 1933276544 289819843 1872965183 332685566 313598043 502183075 1160330195
  ; MkMatrix 770498223 1605057535 518964655 2046355876 940264637 1657505704 368334388 628948652 2008622797
  ; MkMatrix 1026052687 1032660109 967854055 585582437 433338563 1425160945 1005918636 1951497832 1038804510
  ; MkMatrix 445121449 53504038 144389967 775421534 1725205494 864079172 1130452445 916634090 330641739
  ; MkMatrix 1959964493 1062537791 230587153 14141235 2135732873 1772414589 576609688 671321303 75409317
  ; MkMatrix 471161438 1078191166 1569848781 1944042241 1519822739 698536298 1110612712 696334333 524486446
  ; MkMatrix 1557262229 1239288581 509619013 1169055489 190546694 1660614442 143152323 1441074723 8293088
  ; MkMatrix 733522654 563940157 1586180799 1421658749 1248294110 1810445781 1059898958 835945749 1922080739
  ; MkMatrix 2042333112 1121522760 894104384 475607264 825377670 1695196359 193411476 2125900165 618183524
  ; MkMatrix 857461129 1288056933 347872062 1253270629 922086808 1954313179 1703971914 12635365 1454535342
  ; MkMatrix 187131489 192762230 712390497 1755556693 715080663 1093633850 1403360473 512761251 1716730231
  ; MkMatrix 2123850889 1072400251 1241410826 1603037952 2037432735 1295420081 895387980 1289652159 1478680297
  ; MkMatrix 880126030 252146281 143165443 218194251 1073273876 1017843994 1290158598 1699374024 907989697
  ; MkMatrix 625313978 1095727766 1358507687 1824663138 1189571897 662119509 2093133500 1092066413 55729376
  ; MkMatrix 982415943 1020675533 512606198 1157974139 606064527 998952500 162972823 1423056198 2040730140
  ; MkMatrix 2116377503 1497129330 1759107941 636700496 1978619864 1078519751 415258387 1242979337 1221454549
  ; MkMatrix 1355380784 538107060 29344912 1746714846 384865425 493220515 1467330467 1984768459 1730305929
  ; MkMatrix 488728680 1297885483 69444926 1025843808 819610319 1126830445 211925182 1166418359 303989711
  ; MkMatrix 708725502 2068823443 490137380 25260631 989634317 2035517882 2139938133 672146655 217512076
  ; MkMatrix 1179181232 643541765 1503711004 191429836 1880157623 1519318522 1186697886 420330670 659300065
  ; MkMatrix 1653445860 1322409571 1458865960 1084703557 875413955 743703520 1198569728 1524197611 1523060797
  ; MkMatrix 1186818631 54990040 236855204 1640277521 1350249017 820719525 486474282 1684759887 1512202333
  ; MkMatrix 68413368 1208000715 1926315293 1267171806 2130513509 2043049495 674377058 816391471 878408853
  ; MkMatrix 1763045311 208106143 480288451 61747738 1740861350 772156290 1283775573 1008290658 1173211255
  ; MkMatrix 1167081324 821033012 1273588105 2005698546 497788225 842051278 764121793 986636642 367213765
  ; MkMatrix 1050916699 979722033 923946137 1581220652 829510151 504527006 1391606779 986784097 162013170
  ; MkMatrix 2047357415 484062844 1603755456 467008733 520192708 1378100484 1550917016 1642174695 1556044300
  ; MkMatrix 669855080 1012699297 644309784 1680920569 1472886925 778250019 264548095 1051457824 1534373416
  ; MkMatrix 2073246366 733742807 1028224097 1803878572 540698844 652351673 48281735 1250109053 1499025046
  ; MkMatrix 1241215680 877973808 1249644245 1442885226 438250115 443548320 1094402333 308225133 1726235689
  ; MkMatrix 1279784079 877861792 713246437 517791822 706467772 322563182 815097688 1091501090 1398184214
  ; MkMatrix 1305695356 987385976 1925127739 685388205 461672137 100895872 1030820725 861471863 482279532
  ; MkMatrix 1854936624 696131437 1282781060 247960455 655027726 476400348 1975034397 1382059516 1889293813
  ; MkMatrix 1949393078 2042737963 1347705107 1365396267 1256182872 1145702021 1054083582 1211215378 617509125
  ; MkMatrix 1816941325 225062648 487759523 379977651 1453637747 126004096 14161360 375021175 785509424
  ; MkMatrix 1501956370 1989708259 1964408679 1815047216 310004659 390281706 324571529 520331175 1738501483
  ; MkMatrix 1396612712 152893057 461862991 1159606488 565285496 952568796 1846450830 1587090521 117177996
  ; MkMatrix 1386200424 124770259 436744253 381616129 936554301 69096840 412560359 129845821 998482446
  ; MkMatrix 1084989172 1950179577 1828723708 107219927 93702804 711439908 291229552 1293779772 929370072
  ; MkMatrix 40833562 1597957745 1034472750 673816629 893202668 1798414363 727150270 1493055858 155884753
  ; MkMatrix 995938568 870294468 1292320087 760302943 308571874 1380709428 1668065246 820725201 128692236
  ; MkMatrix 1556417358 1130429024 958921915 1080036356 1516479239 370934584 1258591540 639529317 970521431
  ; MkMatrix 1901767270 439334930 382902460 576154466 1914928151 847458209 1052659728 1066717020 1541577194
  ; MkMatrix 222741713 1774704466 1719611005 1936684748 1647477707 945125590 315075225 215795684 2001445947
  ; MkMatrix 238503438 582970284 319062699 1737262353 1940428241 284745716 1937388616 629679608 431550190
  ; MkMatrix 909904009 654478934 2098781166 1213981788 1948069550 1302380172 783954647 1691216938 1141395257
  ; MkMatrix 79652426 742918734 2066714035 2097665234 1055475194 1359285479 1483589935 1041537845 1227807860
  ; MkMatrix 250877579 1242999246 44825127 1610612474 711356473 1047817911 859204864 1739387501 209945030
  ; MkMatrix 818860503 578086143 837394010 1751274560 1970648634 613607514 2125869933 255600807 485323981
  ; MkMatrix 2014339809 514736920 1309116625 1055197657 1244419 776085628 1896480114 1894668170 411852383
  ; MkMatrix 1553791375 1765313574 588546148 735827793 859680417 684615681 456304842 790869463 904998652
  ; MkMatrix 1764814146 1091596015 2013889650 1429743861 1734788119 1118156158 1407786630 2010760364 1460518721
  ; MkMatrix 1974064705 1788625484 186719417 230191784 1769905321 1634573749 580986246 671091692 676029770
  ; MkMatrix 832022621 367164518 2054894210 2016759397 1478704765 183330783 165367336 1529384100 943420330
  ; MkMatrix 69893121 1163842894 39048632 1832964604 1902137207 1246754484 32181292 962707693 813570238
  ; MkMatrix 1403482538 432458233 1629249677 1467035925 1528164584 1873974627 1724977834 219048589 270381572
  ; MkMatrix 1031637859 1419504601 373786862 133506481 146429337 951057168 899910312 1107028060 1906453163
  ; MkMatrix 983613807 1296758057 1595794782 1209644490 609506090 1704112501 1106729589 1788656775 1594088954
  ; MkMatrix 1465832961 543606247 1781973916 166629437 3225815 137938893 982076027 574522104 231639808
  ; MkMatrix 1504201775 101379373 733884340 2076386514 1505474502 1185521487 1070571096 1272189901 1167582219
  ; MkMatrix 1528987338 1956501387 329312909 1023066267 1743790892 1206607454 1410238853 1925347039 962545246
  ; MkMatrix 1116563350 1249104498 1596278866 1699929146 721323881 1932049149 1886429305 1576549801 276905633
  ; MkMatrix 555104553 578897528 1266695731 2072297537 690157276 1780475305 1180400286 155918884 1065082396
  ; MkMatrix 245088049 402967616 1889416457 746097022 113859496 1283554440 1440172403 564159228 775397225
  ; MkMatrix 452378721 1011967142 1178694102 8165194 748931462 961008772 2130831220 1409857914 1758719745
  ; MkMatrix 1360189021 155847922 1250088436 1527391930 323563952 1934639594 2076203131 1981836840 1777404705
  ; MkMatrix 1121244026 1658173336 1304812492 567959803 1303875490 1909983021 743692617 2133028487 1308934796
  ; MkMatrix 1257748109 493422611 309341189 1122451738 1632948835 1019578414 1455727297 290824637 1209037665
  ; MkMatrix 959440536 1247234430 1772923732 1870040742 1122614486 481933513 852627726 68382485 1635551528
  ; MkMatrix 2019193531 647333922 1510267480 350411833 231263990 1121732192 258667754 1763116672 902663343
  ; MkMatrix 1985231014 47449135 1290457419 966300248 1999953508 855856833 239288251 2063665366 1921915724
  ; MkMatrix 49104666 925933005 1267853788 1079223113 1860454490 1552991466 1368551869 1566597600 1312145330
  ; MkMatrix 679677099 1923206612 1803112678 2004128986 1907407075 1577945445 1787702684 1807929776 845134924
  ; MkMatrix 2035713883 1193330332 2035387356 261707423 14051361 802953020 1754353799 1687793058 1356059073
  ; MkMatrix 2146009395 2003639128 1938516805 1437818919 760793052 715664928 399543892 438985098 392399903
  ; MkMatrix 1982879095 295436112 1416465543 691522414 648583599 1212041164 1421747865 730781573 1788674419
  ; MkMatrix 2023584684 1781976636 2000158466 852281829 1991601011 1503218726 2118277006 755129971 760937880
  ; MkMatrix 447623595 1487319019 2140118521 762066851 115664450 793779849 681179568 1382647461 1886595668
  ; MkMatrix 363297372 1746875824 327716568 1317092179 450430765 760728285 598332580 1107675776 1780731161
  ; MkMatrix 925922418 332422227 867108032 256939825 322905963 1941084663 509850947 830111270 1106108842
  ; MkMatrix 1042988326 1163168642 16979591 1635335579 704726315 1442367822 1874382865 1516172488 1033059403
  ; MkMatrix 1555504378 908892372 1626468383 1562995765 2076178296 149717475 1037196355 663106129 662975145
  ; MkMatrix 1586277845 597074179 677537342 505339596 583827478 578747845 1011846508 1010186777 2055623206
  ; MkMatrix 1724680834 71071699 925007399 101425960 580328257 970671960 585272213 1292445056 1845959405
  ; MkMatrix 1390907991 1437730933 287398809 1609319939 2038028953 2132029142 1903420621 1050496904 2099851766
  ; MkMatrix 1771630422 1335178929 1272985708 970594903 2089031380 929856646 1591780976 2131458479 1235646730
  ; MkMatrix 843790178 1131243261 144918539 1385157973 1321348024 621168334 1430748175 347525200 1199714204
  ; MkMatrix 1043855188 1909513271 1194603947 1125567580 1192335098 255673767 1856737405 1012580400 837931958
  ; MkMatrix 646125729 2077101035 146314571 120562807 2067429992 669841024 341366942 215832742 59153250
  ; MkMatrix 1785246708 1293241268 1410735885 620468351 690803651 1527398379 768772270 1425139880 192004693
  ; MkMatrix 729848103 1247646684 1745437355 555285595 2119221916 1314322395 748553605 830162745 218052220
  ; MkMatrix 961931046 1607355355 1724297609 591724895 1162507213 1914924583 1376196552 1398546290 1746757835
  ; MkMatrix 2074055904 1920866919 1138328161 971590554 1413228586 1624444082 784521097 374885623 1604141165
  ; MkMatrix 149739801 1169816725 1671855956 556765055 1097553080 1224781977 921059717 2059755254 1879877294
  ; MkMatrix 1406847028 894226509 1033879055 137096324 1556147953 1260823508 1451584286 273286918 1245749167
  ; MkMatrix 1001818526 1019599561 1117515580 1928786223 57657777 1313208171 1839008726 1929378263 1851981579
  ; MkMatrix 154643227 1715826200 1409752642 1976055500 88369956 265836700 1316709797 1193084524 100287102
  ; MkMatrix 757852454 183894370 152773190 483234222 778526005 1421884564 84610322 668368974 2047835417
  ; MkMatrix 1060647298 816110676 347441401 140510155 2078319833 230135757 2092254986 52466004 341969814
  ; MkMatrix 1530765360 1885553672 1829135438 1610463062 1059960714 1349785796 927213680 1285938274 2113120871
  ; MkMatrix 1507285736 1103221203 1299517768 1827098779 990862420 146174466 1892601799 1057313967 1372421808
  ; MkMatrix 1213138218 451695445 1065285334 1616255466 1746553260 1959832351 1560460017 747971913 733143814
  ; MkMatrix 69580334 1976930360 1115754973 663980085 797783505 1308332149 1624206362 310256223 1011316374
  ; MkMatrix 1977975585 1577416503 300618796 113300864 1392294261 1421995960 1950403857 1256020614 308441952
  ; MkMatrix 2083764402 70131269 855991557 1100692926 656140236 1703045740 259925548 1868712443 324213428
  ; MkMatrix 243069951 1507484579 534513639 1556325013 1290522170 456042455 1985511515 324525071 210570754
  ; MkMatrix 1063773589 1067112412 763717142 1958476290 667838647 1661159297 2007672488 2114784378 1860399397
  ; MkMatrix 1371471461 1921613555 754433536 712396962 1098430008 1548972726 856538176 2130595518 137973212
  ; MkMatrix 1854740785 1098596671 1776140662 46741987 941711622 986308308 142442566 641132183 1039437905
  ; MkMatrix 784949080 1948252595 1233191459 1245437642 974009985 1673520417 325336766 1775814868 1211468240
  ; MkMatrix 959286487 2101239328 2113680692 210447972 548059106 369624687 588447681 111865466 1153151287
  ; MkMatrix 1701831810 2068166090 967654836 379643417 316543144 398783133 76461463 675004452 1368781774
  ; MkMatrix 1662604856 1711707640 108817062 1233011079 1860174652 700299211 1044828344 1296817888 117798203
  ; MkMatrix 871273720 1414224741 258744138 1172054008 631763561 1109278939 1910605974 2006580470 1003202220
  ; MkMatrix 1776623249 672925278 1241909462 2133223200 1169941474 1017474782 1100541653 996414345 1358067365
  ; MkMatrix 840964405 1209694558 100376239 1842880845 1281500384 1452227928 451089923 2007121919 471633530
  ; MkMatrix 863799992 255302404 1771084823 1857640009 1474434473 1241462595 799702003 1899866855 272610162
  ; MkMatrix 1599751277 950849911 78883161 391483457 2034250646 68814417 1880159215 1344040467 167972112
  ; MkMatrix 458887656 1260682967 1994358033 1712748741 402741008 670575558 1544908223 1494153410 953529138
  ; MkMatrix 1131225800 1637311845 1414176653 1687556353 478483194 1241382815 442821756 1103072009 1058775632
  ; MkMatrix 2050496240 1874603642 727957592 1960634440 562992515 1156929958 108283742 2137483495 1425486027
  ; MkMatrix 1577990908 930164774 1627588075 1956603540 1539519426 1236861415 657815668 437877868 97771984
  ; MkMatrix 1760913265 512133529 1772205630 1755647298 521464007 432684798 1406017586 1907786237 1679099924
  ; MkMatrix 2079469003 254514925 998480411 573373244 1739638420 1996306968 1158766431 1348920999 1160141888
  ; MkMatrix 628574269 49582278 230905030 1508193114 1290009079 795948925 489193818 1122226913 145610383
  ; MkMatrix 486037026 1385548144 232676547 1681290107 1986698868 1859680279 1621897914 469380743 2144538155
  ; MkMatrix 1090448160 1856526419 1612748693 211214348 1121420386 1474869563 1418666893 1110545306 1376974623
  ; MkMatrix 1478306805 1597739196 595926766 2103010338 853658283 1617202726 674150906 363818968 1585315103
  ; MkMatrix 1120219166 129122958 1833006106 1587642712 305520143 381291344 2129050865 1379345821 2077606935
  ; MkMatrix 871111006 503215372 2006585089 1955119213 346792528 842571614 1067439930 507773414 1672310386
  ; MkMatrix 664438365 168675054 348077682 627928691 1164436829 472992538 2115265576 1605572657 280363852
  ; MkMatrix 849854585 758856712 738250221 1526046963 625951454 998278519 281478557 1105406921 346433214
  ; MkMatrix 936259196 2065620391 1779733659 1524064583 48358768 1308432943 1643904676 519201217 1691999442
  ; MkMatrix 1200956416 16093358 1117318033 2046692097 729195383 1313745530 1731248921 1548129157 2012711278
  ; MkMatrix 603786854 1660946243 591744902 1253208034 277599055 805375750 1383605213 17326933 1667398999
  ; MkMatrix 1543180169 1138158466 730462859 528245946 1438333190 1564413048 1041911751 1344692839 860316514
  ; MkMatrix 1277147832 1267922964 1927321833 2091280456 2035348593 2109411411 222660198 1798601022 1620586600
  ; MkMatrix 599785944 1399731896 1703883698 2011385173 643159873 1619303545 1673998369 244369738 342882100
  ; MkMatrix 1537603832 2008510733 161391348 1163219270 1960985641 611355933 1343281142 907819235 1106377997
  ; MkMatrix 133162806 126783223 556187282 1238681006 245756348 724421335 1913252550 1642784437 1496142895
  ; MkMatrix 184282810 2120227687 1221316859 745299887 1557653755 981986880 877621451 1619248385 1527787732
  ; MkMatrix 1908901370 1100214634 1052314665 1353164819 256619194 1505840978 310521958 1029733769 862580016
  ; MkMatrix 1573139274 1026327941 1821528216 254982509 700497258 1978967748 1987882963 2028829666 634651969
  ; MkMatrix 966177875 24718251 1958456261 1888496204 1292059383 1297168730 430705382 1952497685 1145556105
  ; MkMatrix 89254944 1713499512 202149886 1221104079 1449950897 2111757011 644150938 780902886 1820879981
  ; MkMatrix 286690905 2072548395 1248347559 791657663 1717385570 361593843 1443912261 393662554 935358582
  ; MkMatrix 1595826258 2054081925 1770210233 513253344 2052277171 1280794370 248190380 426386711 936674181
  ; MkMatrix 901394767 218582191 126030575 1203304657 505548618 654713299 1936990385 1062228934 1637007044
  ; MkMatrix 1215983659 1515307232 1924176392 622105340 247919290 982338769 399241817 160248157 2017193535
  ; MkMatrix 369998399 810485751 1497823693 1540074916 439993534 573612129 115943442 1714243076 1557995375
  ; MkMatrix 3341087 1123127777 1034669052 503682976 1354883694 1873577673 1774781237 1707870643 1079251516
  ; MkMatrix 192464878 1105641041 219912432 1755392505 877057202 823529969 898044584 1870573630 1296098255
  ; MkMatrix 1704657370 502331548 5876156 697619803 1160016497 979443292 951561192 1653063574 2084682799
  ; MkMatrix 1655302196 1526668562 513873720 414717180 1235521042 517816064 762134827 899589267 1672284075
  ; MkMatrix 344439600 1629785064 2143114628 622255617 2024650726 1509231204 2044380436 1624709382 1670750807
  ; MkMatrix 2116685005 689087100 1304433295 2061368175 1523910070 485118260 1134641904 2093740238 576352622
  ; MkMatrix 1965967044 1764805926 1085518421 1898311603 1100852171 1506214190 1632085278 1112333391 1892651490
  ; MkMatrix 1665523749 714261032 1885002820 1660858254 1052104144 1097695361 1608183626 1742239079 334946284
  ; MkMatrix 1307680765 300213111 231071281 48978340 1196410600 379395755 1708895502 1813096926 1206071770
  ; MkMatrix 2125811071 1309588810 923891322 1302258369 2115149043 1746670941 419930675 618411721 2006079123
  ; MkMatrix 273270858 1863533602 1863367840 879224307 349978969 1553140437 997646140 530048158 2097197396
  ; MkMatrix 451276764 1203825115 427396988 488257918 1387202146 1475374977 1736376846 524771116 774035526
  ; MkMatrix 556080046 1853164386 2073277328 590875040 836331545 155297817 1696800545 533865761 756852711
  ; MkMatrix 529616136 496690091 1732850368 1770273995 206184545 2029311361 1129965574 730540950 1024237036
  ; MkMatrix 1691561466 271540482 1024851371 1408453126 888116902 323739063 1233665246 1620915384 750293247
  ; MkMatrix 2020035689 647066965 2056303706 125411428 1412853678 906422115 1202185054 1207885212 131100395
  ; MkMatrix 1474275320 1136871715 1165400596 775282527 1608939273 620875353 196474946 1350761390 62430963
  ; MkMatrix 2090409561 2013491889 1589742963 191812888 1778873135 1389222725 1640385921 1872535645 1660356571
  ; MkMatrix 1213516651 189842843 847811218 1739155025 263443419 946228021 624005593 769133791 1175362598
  ; MkMatrix 1746284579 906872655 441127152 35116706 1610510454 188298870 1448964371 709095182 1577075505
  ; MkMatrix 887654762 1807658057 282052655 367403652 48453469 1711727255 1293560851 1095773360 1812416440
  ; MkMatrix 1269400835 1507783276 775511620 1592473923 3146370 526622072 1879684083 1256707041 1818156735
  ; MkMatrix 1366425196 1423718275 1991268559 1100649815 2093850412 515972727 414813734 311219914 1340678348
  ; MkMatrix 1349236011 1587405511 1941183801 2002695801 1908716473 148805266 385863405 257030874 1174510573
  ; MkMatrix 678855630 1306412544 1404973248 2126119767 827324224 2142554897 332956487 613720626 1256767099
  ; MkMatrix 105961956 1790077187 1783828282 513654377 1731022264 1323493773 568986185 851380124 1862535950
  ; MkMatrix 1156494375 149195865 411302678 1337352234 1058721303 1355035569 903407870 2094901303 647628394
  ; MkMatrix 1940096492 1895638126 2011389157 1498578134 379086120 357610895 1349354432 167310624 750024131
  ; MkMatrix 1569088760 622764809 1070182384 2109613759 1510620885 73583743 1366550621 1738695224 1331574286
  ; MkMatrix 1988052620 121670433 957250362 454697897 2102146410 1573335663 728705427 951270274 1124956720
  ; MkMatrix 1659136074 789453639 1156241047 1749928394 1159887375 1711994566 1201288043 1651600126 1226072425
  ; MkMatrix 1679926512 765368708 1242717033 322562451 1928735036 1465884617 407534870 1253667070 416209738
  ; MkMatrix 1975205727 637902831 143536581 1845765078 1124436491 698200103 221289092 909320437 484051791
  ; MkMatrix 2119787075 1174005348 277459124 407729102 1734185630 2042692607 314135988 1156774965 1866185304
  ; MkMatrix 129807727 1459285211 1917995149 1324433446 363285745 17988136 1482202572 2094152734 1133570841
  ; MkMatrix 1378382226 941370906 1344885063 1879556449 363236628 1103182221 1066145468 217915347 1038585533
  ; MkMatrix 668080986 232448554 521607540 736353556 1376548352 642865303 618727231 1700915031 1962344097
  ; MkMatrix 84209338 1959343104 75342863 2016852873 2015052669 1715121471 656166354 1142949555 1078149413
  ; MkMatrix 1871221330 288557878 2078839980 1817066839 595028856 707372236 1401762968 37959612 1870233180
  ; MkMatrix 1931059499 1003828083 1005505696 808089770 963798221 220583076 498804890 1707249882 581009127
  ; MkMatrix 561446413 1251028442 273961443 1310347855 1928308350 302902921 275319603 1536108541 1498044543
  ; MkMatrix 1543164597 2065148331 821152089 1502395982 1469299448 1202918175 2010743463 1120758317 754911490
  ; MkMatrix 237193077 2061482860 972214705 153694266 658300022 1656342736 2110481665 2099380242 138265302
  ; MkMatrix 2054404431 136682643 1006726387 1813256337 996111722 598757098 582413038 1394663409 1474347170
  ; MkMatrix 1921617460 1284274852 1964160301 1899597819 98722628 611708741 1857436424 1678991800 1658559145
  ; MkMatrix 2085453120 1835073069 971971959 1430634802 915403745 1105164477 263041845 1875441068 1117992830
  ; MkMatrix 1102000079 2052472050 852130887 1841972927 11395122 1559397840 306341643 2056875899 1331598022
  ; MkMatrix 56172055 1237408468 1433225114 69319009 649180259 680877337 872795499 1803950049 984165383
  ; MkMatrix 311328604 1452428348 1346660675 1914318707 1691488713 1772960066 1370369746 2078934390 2037603500
  ; MkMatrix 2145152017 1918093050 1590203816 1426722499 1292600963 845167297 972272715 549556137 778133768
  ; MkMatrix 1334020641 1330490167 415074363 825884872 143218189 970957125 612110281 719020456 1609547947
  ; MkMatrix 1658115575 1134592835 880102981 450637620 195855087 17381472 15026007 1196997794 1280144412
  ; MkMatrix 663174881 265833856 1680935819 2130190184 610642085 141096830 557810105 324343912 1785611904
  ; MkMatrix 2018279184 207692704 644976104 1180445315 1566570653 2078275366 561824820 983806628 2081231792
  ; MkMatrix 1087173406 1399083458 1966874287 1328315327 134597087 1662817860 1384888036 414107785 526530274
  ; MkMatrix 1209453076 201187741 1996479007 1114271947 1559148513 1495866082 1687674243 845708509 82034529
  ; MkMatrix 876273439 1836493496 1214217259 2057159457 1852710599 1422423610 1790110819 1323246488 101084140
  ; MkMatrix 1741002523 556150740 379603784 1564895738 1745211096 268922404 714977672 455660094 941484969
  ; MkMatrix 1610151946 678934752 108564166 1297239682 659178430 759626665 379565745 1701262583 385859073
  ; MkMatrix 474314203 151699629 940081728 1346442429 37284057 307812205 1369218368 1726209459 1473220211
  ; MkMatrix 700164003 2051690675 1442752759 1656387584 1804566337 2128755821 805062404 1804112472 314133513
  ; MkMatrix 1122439277 1923881463 2051624782 1945566603 1363456642 1208905169 447391967 393115044 1655363106
  ; MkMatrix 555441368 511948529 596367128 544057753 925481081 1176537509 1150946641 248600611 2019586873
  ; MkMatrix 929728346 854958682 1053751746 301342747 297658467 1173798855 106051235 1874837550 715207148
  ; MkMatrix 237582742 197913325 1624811193 966273430 501509356 329507730 435741664 1243260577 1891729254
  ; MkMatrix 1441495293 1384307839 650484464 671189984 1970858864 128165210 1679368464 512907751 824973510
  ; MkMatrix 1338603333 929700192 2012865622 1587786631 2084408982 1857053396 933400204 1690593289 311585325
  ; MkMatrix 1517334878 385836630 1917138419 661284533 557301042 1787504705 1828382684 450847323 721627026
  ; MkMatrix 390814732 1232627239 1059164892 1296139599 56305491 236848624 1405764603 1126244535 1272732639
  ; MkMatrix 573587485 1218772158 428119056 2077251222 602254042 1554887450 957650272 883080168 1152169442
  ; MkMatrix 620705002 1252810540 1940374418 1072867472 838560314 1250312154 858520070 1846127271 1373531775
  ; MkMatrix 1805857878 1181420116 1521954774 346314702 376169742 334621494 760592157 1905468547 460875027
  ; MkMatrix 873268978 1571389378 1572710893 564957283 1914884672 1050996871 238494347 1233103538 1268550069
  ; MkMatrix 1270076131 2100831169 718515931 1797301714 11496774 689936882 691786387 159312108 814730995
  ; MkMatrix 609744906 1449304161 1222895585 413672386 1484574608 1880138538 350098732 1579628018 716956437
  ; MkMatrix 1723013584 1848126772 1759816143 1616430190 1587957625 1674568747 1925336358 727814100 1333222690
  ; MkMatrix 1498995164 298821597 1495333560 306176852 77415961 203670019 1316674871 1026456653 1114020503
  ; MkMatrix 300609700 1237688330 1588082200 2049695466 2023302541 1132474935 654845061 1927873877 1026424137
  ; MkMatrix 1666388662 1155697745 1110173717 1968591836 799390960 787210078 619901825 141013462 964784613
  ; MkMatrix 390754859 523132428 1633013679 711798044 558506716 278994045 2072236675 1597127943 321634483
  ; MkMatrix 815424507 123147612 1489253669 1543092371 1411638139 589368311 316607119 1324905697 625798598
  ; MkMatrix 2100725480 1328906949 1841550107 839164007 861880831 593653031 667403905 1142443552 1750515776
  ; MkMatrix 882937771 2142829562 100914816 1273535120 556372921 867433701 2052170850 1629017146 630462014 ].

Definition mrg_skip_matrices_4 : list mrg_transition_matrix :=
  [ MkMatrix 0 0 0 0 1 0 0 0 1
  ; MkMatrix 2061690300 280993994 670311578 1353395404 775658222 1706886036 1790888383 1048707017 86488219
  ; MkMatrix 1235905778 1040255579 242126504 1619428425 400690665 392940192 1393087625 1668718668 675632590
  ; MkMatrix 975027115 336106362 1978250608 2097875933 2014765134 1605459607 20475375 1553838640 1470921610
  ; MkMatrix 640840791 644193035 1718519095 153740126 1105836682 1601014764 1587660657 1423419996 178142954
  ; MkMatrix 1579174447 1112724687 1137961733 1398396852 405143173 1311632907 1430509492 38725071 1572705404
  ; MkMatrix 1594998117 1997359956 1942605217 727257602 252532250 1116988068 263169205 1172019292 1130815686
  ; MkMatrix 1627139614 1601167746 1628398942 2070007943 205276521 387423787 96936246 532841704 448278654
  ; MkMatrix 645596785 836970474 148251583 565594342 300207973 1147882511 927608710 1314673117 1665433482
  ; MkMatrix 366822546 82226669 320165737 1828912066 1683698853 598083872 1399326570 265405943 1912929320
  ; MkMatrix 1183118387 2032522878 1725052555 982926438 717138309 222567072 788160621 814444403 754205315
  ; MkMatrix 1544488323 1967270047 1399656563 812362074 252797269 1748821681 894943157 177009422 405592336
  ; MkMatrix 1713467194 740840201 1366021790 403154430 591914699 1644365236 360997228 1135798859 87010916
  ; MkMatrix 1884560141 556522894 1885895938 1314525354 206036040 4301027 488526208 2002534640 1652632563
  ; MkMatrix 1508096767 2040870844 1468445250 592385397 1070854878 117172605 1964305750 978620208 1587331264
  ; MkMatrix 1278812801 490494666 1713299585 96825831 1290998836 150284368 372209868 825545836 572561064
  ; MkMatrix 2024261390 2142663074 1483349074 359724509 279394285 360429764 1786695386 378626218 2079610391
  ; MkMatrix 459714067 790773344 934551019 1293589595 817247398 1381492697 128906028 2107465944 509131047
  ; MkMatrix 1016976246 467770521 79676065 2101069837 1694515293 756073929 781417831 861205955 856222297
  ; MkMatrix 1320489300 1296871414 1834648994 1486985809 809301263 834700159 1435129756 555193665 1151854392
  ; MkMatrix 1843481507 1888843195 1985798490 156825006 1820267619 1995243944 1716959839 1595998527 2013287411
  ; MkMatrix 1488776010 979244079 1458673238 560045478 209882153 1531914299 815129051 1455866316 1418315860
  ; MkMatrix 1313136200 678345836 461082824 17559613 371562032 218748166 1028766060 1804975139 1779930198
  ; MkMatrix 1347264513 2102767812 1339656398 958408081 257673335 879605956 602297584 1177100656 1563675023
  ; MkMatrix 1131074689 1940998864 79627382 916728999 2072029077 364006717 1777586131 1475689859 1448163444
  ; MkMatrix 28698099 1990498204 1558148218 109490938 1471740917 1873079687 1654189604 2107504953 2129978554
  ; MkMatrix 1180032600 1817121533 769605394 1865564006 596478276 1404110123 600289398 1440714352 1380718441
  ; MkMatrix 184784247 393920919 931737212 1321796828 1851917312 1080865709 1519801855 252995267 367504598
  ; MkMatrix 212155313 889311085 1126496771 313685358 1254522856 63437449 2070661305 125824813 458864895
  ; MkMatrix 1155171517 1259183249 1711322342 1368953554 604579048 532750671 558491966 1817726460 2115858434
  ; MkMatrix 1155135017 855449260 1122526881 1602074447 78633805 129029457 755244024 1767235768 319094745
  ; MkMatrix 487172741 129503444 1202928190 1808805572 820697784 66367167 1931318958 918095572 1787854522
  ; MkMatrix 2049214683 414535663 1454731976 296213515 1398123474 19433071 481562760 127666549 172324176
  ; MkMatrix 1612995154 784060240 1751870334 1792311206 950323973 1722750489 2115275304 1481461579 324438238
  ; MkMatrix 156920605 110806737 1769427884 147227969 32907640 592755437 1239840934 1216522195 1217737607
  ; MkMatrix 605652804 455120060 1958689268 1643719438 2051508090 672638308 434775672 632554494 1185868923
  ; MkMatrix 1548574457 646334283 1656917554 2105058580 603425119 1929694323 1303647088 360291911 1658438956
  ; MkMatrix 1842771022 148391234 22668844 955476198 1564867304 1865653388 228683617 553314385 1908078181
  ; MkMatrix 521643094 430774797 1865378146 1059231350 870853454 1751438267 2003994029 1324201081 514757258
  ; MkMatrix 213528470 1466568156 259184982 463902254 1874789101 318091368 1006846462 326254357 1438477529
  ; MkMatrix 396323802 540178107 122745173 1003464217 634220937 616213141 14444756 568911823 757224346
  ; MkMatrix 185974220 1682473366 67684966 944547051 781253676 1617382389 467968771 1961873987 846217057
  ; MkMatrix 1297425995 1896232027 917574866 384577405 324452809 905262017 278610613 1682928061 1990285817
  ; MkMatrix 867472432 62390819 1862429337 1587578643 1782264244 1047265656 1066389628 2073335732 197603279
  ; MkMatrix 1024464944 1983831435 588502204 1182126472 1625143802 2054765434 1372572855 164855061 1674818713
  ; MkMatrix 1473507435 1252480237 453907400 1751690694 1425908263 199881723 706071344 1934062453 2144850775
  ; MkMatrix 220702332 1969266411 1944664178 769366245 1300006268 1033027136 1153607951 1546719468 1617647913
  ; MkMatrix 1257509405 233086725 1506710854 705126839 587500376 329829345 1928141495 1640890051 1194304864
  ; MkMatrix 1401754326 1207973950 1208116912 867586474 599186118 1361605030 1805296975 1846345268 811958733
  ; MkMatrix 5988062 342857813 1235838394 1404990389 2090953597 555510356 611913040 1190820825 63553573
  ; MkMatrix 639421261 1457399762 147483181 231201964 907778976 1340976503 263952 1519599769 1342286698
  ; MkMatrix 1020789843 820388082 844674179 744074467 1802037787 785234184 999338944 823802566 10468336
  ; MkMatrix 981579068 1595176336 287790840 1463865472 426674735 2110617121 1803932677 510366488 1107039923
  ; MkMatrix 722868043 632586491 1947571353 1791969219 1717118309 701705223 2024097072 224541785 27915949
  ; MkMatrix 1409628975 2075637494 746423628 674855423 1367113118 1045396441 487909056 74590524 1770503164
  ; MkMatrix 1550373143 1625866570 55650567 1920589897 1888755448 1405358517 1389136186 2078637326 1805477478
  ; MkMatrix 1892449238 448139364 1113275502 1651820997 1214645833 1718517413 1907658778 769392060 945358612
  ; MkMatrix 290398284 1127835 1266419457 1879352938 13284784 328985165 1688145561 1395876174 1027966676
  ; MkMatrix 1528796395 174842846 1723217717 1098721516 383167836 1250376843 1607708369 1502391228 716324365
  ; MkMatrix 70987099 1799809506 272441177 184843076 2086948208 1667589839 1728894198 1512465389 376469316
  ; MkMatrix 1555381260 940133819 2111542308 850697218 847410717 395750378 1758281311 1416414765 888536461
  ; MkMatrix 2101132684 776887113 266902660 1570112674 217370230 470987403 424179616 992153079 1910226117
  ; MkMatrix 1103834175 1677190638 931920150 1013519088 1019828431 753977765 1204898844 1021301222 877121368
  ; MkMatrix 1426481987 1637410412 1090599832 1203075555 545902807 1889760993 1825047855 27437894 2039538097
  ; MkMatrix 531442429 658403735 53388633 13882852 1437364271 1438766526 194065443 268082494 699290304
  ; MkMatrix 693644520 1711037799 84955968 1734725574 898088098 1468262217 1396425292 386983263 1084766503
  ; MkMatrix 1872555447 1333189674 1754046934 700581142 1547643545 1429414544 1683248573 1507308512 161092107
  ; MkMatrix 1525430335 1022211943 1768485046 238476604 61989714 2098924061 1141235807 590663348 714251001
  ; MkMatrix 2062233841 1382792228 357771100 450822459 515599029 768384566 733081596 1912230818 1779053525
  ; MkMatrix 2015071407 185311598 166627066 140273984 1182733716 231655882 300295872 1323660617 397329953
  ; MkMatrix 1445216150 1083894088 1356003939 495873418 578873394 1651810259 670496166 905444854 1765206248
  ; MkMatrix 928226387 971274830 34201928 285424722 650401600 1398014871 726012729 997687908 1160204291
  ; MkMatrix 1227892263 1483522768 461587055 2115020532 1349367546 1375883023 302150544 291280924 1676915952
  ; MkMatrix 1490156810 775721408 1437361508 1041457343 1508296422 1327908348 1831587045 937272789 2146618587
  ; MkMatrix 647027700 1021780673 191999265 4026252 1727339256 795320978 1846372205 2042150539 905212385
  ; MkMatrix 373142969 1142239024 2076392222 1061586736 519159519 1978006626 2028334997 29546940 508818090
  ; MkMatrix 1237792726 792767360 2108893608 1587998284 37748953 1003785000 1757568858 758100819 1812523131
  ; MkMatrix 1185480689 24952725 1038946971 224263878 1325046172 576402125 1374077139 1783446344 1130336681
  ; MkMatrix 1756866049 1023470384 339364724 824658491 377355184 1374934908 717130965 1110533565 525539348
  ; MkMatrix 1540027315 1378169068 1312030283 1540398694 2102665944 302288596 776732545 1805413215 933900407
  ; MkMatrix 422976194 1283669508 1192381232 913897898 1797210094 491382746 1664642365 868143982 1708108065
  ; MkMatrix 2142051263 1755999889 808804712 945311133 564609774 1328404494 1847101692 1587315729 975416910
  ; MkMatrix 1563012016 683607648 29560783 1333485697 2112298932 1854540360 1527955304 1228198070 608687784
  ; MkMatrix 1189677889 1827203011 326655487 1130648628 1785601530 229699744 675757306 1538378665 1784039909
  ; MkMatrix 663586606 1290699694 62711311 1543656645 2094989336 1702689476 1184756912 269998267 604625572
  ; MkMatrix 615333616 703546175 260915428 529831076 2121459057 58682680 240376490 1519441128 301164474
  ; MkMatrix 1985975850 1416334086 2054251613 69496461 450403117 1794984362 1640755451 676348059 106307114
  ; MkMatrix 192207518 1543954104 47395354 1937695306 1309893884 1261933108 464712225 164433292 393348773
  ; MkMatrix 199704471 242288073 281858547 1195914638 663479612 1353507514 1311369470 1810677147 781361887
  ; MkMatrix 1990851256 813796171 360724711 1612521497 2093338315 1834985149 684847550 299083031 1022291613
  ; MkMatrix 83669455 994725875 1308407170 1641688699 1611446088 428570654 514162347 65867507 192528090
  ; MkMatrix 906822817 1451550805 1390422734 2043755777 1931593941 812040272 247215180 1957230464 1676060008
  ; MkMatrix 1087834299 412464835 1007975900 655676231 1919467821 2071832295 1893447332 1281459853 719337596
  ; MkMatrix 1947569347 2109015573 26788886 342114230 1971582543 31501931 1196879216 1641193422 1611913210
  ; MkMatrix 624788443 480232609 102333143 293178401 726081866 583679201 5419605 828152451 1617344514
  ; MkMatrix 2020009836 536787749 131924718 1111548123 1546310610 1547771224 19701519 997278409 16147161
  ; MkMatrix 246617937 517213068 784302764 1716680405 1404780253 108774243 1068354326 1987001485 1246200645
  ; MkMatrix 375068471 1290481129 1918863582 182621304 656998662 192839523 26008649 1139885918 43290226
  ; MkMatrix 283451116 2138578625 1107810505 610839367 177162264 1609874005 1081225515 1843023172 820594342
  ; MkMatrix 130434103 1780060614 818378623 33833798 1419400397 2056531225 635463606 455666630 186175253
  ; MkMatrix 2031320447 1492515620 508748592 1115206383 851412591 1533172740 2119621780 373338760 720744025
  ; MkMatrix 168646215 1723763804 517120047 507306039 806489709 1127866717 1947727796 1543588228 1125227288
  ; MkMatrix 1416334216 130112976 154171998 1980571024 1994082170 1352382918 1613573259 1308446201 1643500182
  ; MkMatrix 1035834924 545369028 1491878594 869830798 82629208 612323534 633320263 970291253 1138891640
  ; MkMatrix 1046477687 2113823843 1172308176 1468679894 207320561 351692282 1263964242 1241040774 1276194843
  ; MkMatrix 532828784 2057911955 421355086 1667572574 525336297 153434963 689775396 996654456 1894494155
  ; MkMatrix 1891701712 1453762808 829602151 1915754170 698610378 2080157397 1926908162 1456084678 2121716023
  ; MkMatrix 56888719 1353686615 1637013251 112684669 2132824940 1226401381 1315146950 726125060 1878681169
  ; MkMatrix 412323128 753823342 1028288029 649641162 607818356 1468503706 1158556826 888391367 1048500654
  ; MkMatrix 1903978426 1689284343 716820529 1364010446 1936541948 1667136988 992316042 1231448196 1076038350
  ; MkMatrix 1753735781 1443826417 217194941 372577781 1711306579 937393076 1607094282 24843147 306747107
  ; MkMatrix 104065759 1127076274 49795597 1815906775 1230225952 983279076 1423634838 1102886217 522093229
  ; MkMatrix 659010867 300224996 1764841841 261713377 1333996801 821190469 296309171 1339121173 113685114
  ; MkMatrix 174924460 937651655 1808321746 384985936 1188044719 876428094 857326819 2125031014 1947522417
  ; MkMatrix 1750024654 1367652089 426280387 1676008496 210516656 110898366 1031711053 563290351 1194481039
  ; MkMatrix 330722267 139658060 1053490284 410753733 1572706027 775524543 1104179241 131665181 1633997396
  ; MkMatrix 1665773641 1887041722 1810373680 1989135783 364274549 1411395130 242643561 2011584719 1700329362
  ; MkMatrix 333893580 920965973 1384314129 2107397818 96095849 804103220 1102878002 1936138882 1780679252
  ; MkMatrix 734963434 1289115770 1912846454 150864956 1793827755 387633474 1132929644 183836310 655743223
  ; MkMatrix 1107266839 596159112 698315035 572747669 247992157 101241536 233383768 1350056809 741839915
  ; MkMatrix 1049385420 395292491 1887234754 1577167290 1706034131 28007594 1233187002 1360300204 1659425789
  ; MkMatrix 491922951 721234370 1553444405 41128608 944755034 1730177343 1270004882 1958858911 1440270421
  ; MkMatrix 123363626 1220514461 699746011 1981790825 1938895615 1821582286 706437305 123925033 1143902577
  ; MkMatrix 1162393950 511196425 554672623 105679782 638825267 1178100366 786582589 796743517 37842489
  ; MkMatrix 1856458044 1307917390 1863904889 1255426271 547809507 1087653804 1912722787 1337592572 1368142295
  ; MkMatrix 1557317545 1379062586 1126819808 2038817671 698136058 1370872357 324891936 1495608764 604169720
  ; MkMatrix 664388853 716225139 1075321830 1908295670 1299070502 1879553411 1598594142 1563536085 1288703784
  ; MkMatrix 2370101 1642019685 1297654633 638951009 1419043024 1748564332 1974147305 484870364 1678835126
  ; MkMatrix 1545934198 627492844 1784671994 1428716086 780902175 2019151157 755846542 1378918161 405655001
  ; MkMatrix 369724374 700918065 1726759097 1143091679 1985189377 2074753087 1752214793 1925680872 452207613
  ; MkMatrix 8421513 1195173687 312027615 2098769957 1735617782 440606881 265189389 824837665 1983795511
  ; MkMatrix 1135498696 157267825 712985332 58467755 1490118966 1477830199 88370580 27538052 621487189
  ; MkMatrix 1172543222 71344201 1880544671 351642226 1515020678 2023186085 1709300453 1149251438 898034310
  ; MkMatrix 1820895720 1721295491 150768989 1291865727 2138259437 1083981989 737742934 389410606 498727172
  ; MkMatrix 1981556797 364161094 499157633 276276918 657627259 1495977315 1586178308 580107969 1420957111
  ; MkMatrix 1678295688 154385693 1140072110 907887562 1058682100 425975661 1098354811 1704579384 891576045
  ; MkMatrix 560861067 886974568 380259744 1729390439 436288804 1442292471 1056573385 1896460666 416772665
  ; MkMatrix 1241217315 774036353 1151706421 1644852436 646384814 1950223028 1328121820 1180009799 126007202
  ; MkMatrix 270971825 1261170296 316997104 2041753739 836167969 1703201069 687244371 834850568 1402963729
  ; MkMatrix 1506355785 1746296001 610161575 1347271099 1039792595 1755942388 854575198 833421415 211224188
  ; MkMatrix 1551166562 1912242621 1886197392 307472554 2071094723 1584082689 150652445 791615110 720287611
  ; MkMatrix 978577797 798567906 606361976 669241221 1739058019 133943130 1633223704 527109654 910324546
  ; MkMatrix 1494896111 467436488 1561525181 1204829814 1740556960 1125338855 630785670 2057796653 268708855
  ; MkMatrix 1690494290 1321037958 1261743293 601178102 765972612 1803106780 630655920 380448530 1706557450
  ; MkMatrix 12913515 1488999640 677681125 317020476 595983873 947608998 131269611 1452192118 2020451914
  ; MkMatrix 702746958 600570617 602426591 1655783903 1503842631 139860817 231352758 1360062073 276201629
  ; MkMatrix 1934186028 727745499 973112665 1862193022 2007388927 909773848 1513685277 1010280628 365300519
  ; MkMatrix 501189508 830982887 439411383 182856027 1436118571 1514560018 1842050659 1578247761 991106037
  ; MkMatrix 1006249666 521429696 836072416 1359363613 712332653 813487407 1302971100 903323728 1255162807
  ; MkMatrix 1052639393 926494244 1048303243 1079680735 165652953 1953934827 1116045330 1762806693 944534981
  ; MkMatrix 98877687 1444708663 625277929 775459851 151635414 14237102 835043308 1342188152 970359749
  ; MkMatrix 2067333498 586359672 291246366 285262126 509684503 1795528230 736553309 993836109 1128209506
  ; MkMatrix 1615516334 1429262163 2010916135 679676108 825986099 219586352 1075067453 1699266870 1304984518
  ; MkMatrix 1266805735 1320101410 1908804145 114885181 998348294 339848491 823489532 1115154033 2003908753
  ; MkMatrix 1553325072 1219938383 2059761544 1531000854 177923653 1964764796 942597136 771595127 659484635
  ; MkMatrix 712380347 1818472282 1901958305 1211494815 922317240 173274790 767570305 1479716120 404416598
  ; MkMatrix 1936674824 133839966 848457955 1803140234 865372009 2032984154 1640152054 584841921 768051519
  ; MkMatrix 1933798956 155852471 1683848271 676802130 345136426 1197009754 620649763 781697260 71542385
  ; MkMatrix 1175428503 1762397548 223283090 1020184713 236483384 1673120119 1677800513 1828818904 25893497
  ; MkMatrix 492741100 2059294479 1413652415 1792376281 1070369257 1886835094 109015038 1539472653 1927418199
  ; MkMatrix 1604721976 1014192009 572442527 1325926075 142450315 23042588 1423371080 827746197 1678100246
  ; MkMatrix 1619098046 643038361 1833147233 1816140309 967412485 720599139 1473563352 441399677 490800051
  ; MkMatrix 1699394601 1735990164 911767864 1863484996 228158300 1248576236 45269452 988647229 848499411
  ; MkMatrix 1740064762 1944836297 1719883533 1318761011 1550515031 1550561995 640315923 1416772985 1591515398
  ; MkMatrix 2095628741 1853574760 1206966031 1969587057 828144634 1227478883 1099470969 403656212 1975355148
  ; MkMatrix 1208534203 1048821278 1488600083 1320600781 1212240610 947956854 512570090 67459426 1832874905
  ; MkMatrix 1217590947 1761611381 1510599648 2003246978 1795505632 2087073826 1424368903 1826840409 2122479130
  ; MkMatrix 659880907 1526310252 1799206344 2123986603 1589811980 2046971211 116398779 1975872848 1757249942
  ; MkMatrix 1316015039 1450125448 1225815274 114705330 1303960902 882146002 1131812538 1651306224 1155500453
  ; MkMatrix 696272615 1729816472 323720957 629937770 1968766430 949250145 528354318 230265394 1243928448
  ; MkMatrix 879028985 1937235529 995728156 1202633148 474492273 18962649 1955458870 1591964367 668924021
  ; MkMatrix 1199713736 1178519216 393956197 810359599 808264310 329122679 171389077 428250875 121505592
  ; MkMatrix 615058128 19424265 809727416 283903587 1121671204 663147379 470251651 1300431515 129649262
  ; MkMatrix 404403477 1570900726 1028927607 33770086 1940713383 1107236962 856143035 1344732759 1362682735
  ; MkMatrix 2120084216 2003529189 739417198 824884343 623066474 832002984 877712883 839807381 436508073
  ; MkMatrix 712600355 608829645 60434287 1715777697 1299092922 1970032256 1088909915 797788315 482996100
  ; MkMatrix 1959443963 133854588 1915637931 1744429013 2066915272 1917655395 707587631 530405701 1988647459
  ; MkMatrix 1984450809 339689518 1540716585 950861364 1769900968 611499376 897195074 2140081641 1128246576
  ; MkMatrix 1117045222 1036778207 1565771821 944736320 496278852 860560744 1694072290 1425552842 212083722
  ; MkMatrix 561332331 799406715 1233003407 1012140902 1445422665 1784056405 1145454577 289109253 592615150
  ; MkMatrix 1258674914 1377903475 1694622609 2055873321 230524029 293122161 1699404035 924210997 1732411280
  ; MkMatrix 2003133657 1063930855 1921472566 900291749 1246681805 40711528 618733343 1005857626 1538876730
  ; MkMatrix 81299760 2114064618 1254192325 1985021040 368027012 2085609702 738977294 1082133893 1385144520
  ; MkMatrix 1590885911 440460876 1727593452 1792190481 692662914 1064766813 603305791 614665813 1873394250
  ; MkMatrix 1666703626 1915632985 219237626 1638534252 1955755830 1976531810 601193316 998619862 1820987243
  ; MkMatrix 1835019487 938332979 774367200 732644141 172785047 1047695435 2018286533 1422108225 211918080
  ; MkMatrix 457798036 702889476 2006959071 1545894606 1115126219 113163434 1323106775 545936323 1246171053
  ; MkMatrix 1325940988 1351343595 1485410691 1922139281 482165630 1746257708 1733213952 456520939 215009119
  ; MkMatrix 265388844 285220947 308733896 970086531 1368034053 621831581 198467025 1437493984 1294407888
  ; MkMatrix 1669441967 1647953414 549738042 1414510970 509063991 1815268002 129142606 2013556152 1092809526
  ; MkMatrix 1264941278 494541898 621151921 1895019655 682562588 1984547733 1322424585 1969041962 208146266
  ; MkMatrix 1238212219 654818421 2018681568 544458446 530911647 114069962 46021799 420976634 1886808378
  ; MkMatrix 1450485845 1271042374 1395492015 144344964 899254326 1300243240 940406881 2070060385 711604103
  ; MkMatrix 478040554 1583501697 1638976475 386309866 1368338130 771942409 187680626 964866741 1138008953
  ; MkMatrix 1942752968 1672385861 1354881855 456494068 1745824244 1851415781 814260514 1674741441 1267038922
  ; MkMatrix 1317099136 1795097815 1834161789 1527229937 279178345 904616388 229055865 1983931296 1302789309
  ; MkMatrix 760201411 1768207467 453768846 996566607 752061222 535769332 1554739768 1311401147 1044690097
  ; MkMatrix 1834127769 1533410582 320777307 124610754 1909586200 1857833504 100032310 1163341269 321300750
  ; MkMatrix 2109871860 1185639874 2048710830 1189484069 2142003409 447184723 66835077 843969245 236001438
  ; MkMatrix 1911528981 484188239 794970143 1697497884 1427176444 2070010925 607337231 518562212 386686211
  ; MkMatrix 1615097785 527174324 1386056910 1362347727 36609625 498761011 245122915 739683795 1388333032
  ; MkMatrix 296218728 1369944029 491418052 84752666 527979213 2125260933 1143441096 1402535200 37091893
  ; MkMatrix 104925333 743813826 1020044014 1347161526 1032326358 2102954330 1357751822 1086696753 2047846865
  ; MkMatrix 767907268 1337477903 1593049761 703475774 1860907777 1927703818 703605060 457214003 2023005423
  ; MkMatrix 5462413 246901888 1926530552 516490675 1068196234 1640854414 707986413 1664559801 592974486
  ; MkMatrix 1916717137 825286288 180974819 64340968 137934292 1979796390 561787906 511960295 1569360924
  ; MkMatrix 445540132 955415994 1210890916 785347291 1332250164 2087967136 50605689 1734002941 832723317
  ; MkMatrix 996587498 1720596685 1982058486 1825195560 159731384 1157042696 1147596813 671917399 1964669759
  ; MkMatrix 1844369318 348163946 1842535315 444076729 1823620815 1635369967 2021775103 58577990 729376695
  ; MkMatrix 1080327704 1337076529 742705159 194225647 507776238 1388458562 471493027 780822364 663985140
  ; MkMatrix 23854824 162709277 1644042517 780558957 208143141 583856818 1224944266 996073558 1792252678
  ; MkMatrix 1337631426 2126633736 557403136 1393376232 139535475 155224184 932571401 1174350424 158009556
  ; MkMatrix 1946116410 1397525486 1948248032 1767117994 125968566 1790126566 1965948828 1938029363 1917264483
  ; MkMatrix 961713903 2103861859 1236039130 1862654981 777299735 2089384540 504754541 1793365074 1652860512
  ; MkMatrix 1864361266 1064599595 1765940124 954622877 2108496233 1056318246 2040473832 1528947224 2002861434
  ; MkMatrix 1318865856 1287700224 477210780 1811464139 738377573 396600445 875271536 1075622372 1650399931
  ; MkMatrix 561312488 1872678682 1146454844 1281621445 1368743140 387729123 1332872198 600367811 192246765
  ; MkMatrix 1955758014 1980527414 788387521 1322376397 1803529754 651767015 23398154 669941949 387934066
  ; MkMatrix 1536125114 1576083642 893225462 342138472 1595128196 394194758 540508932 1441450534 446375415
  ; MkMatrix 75282883 536444993 368352262 321896687 979307461 832218531 1258191782 96277928 1804603645
  ; MkMatrix 866602872 313331818 296460635 1977806542 1103943272 1298511001 2096839614 599667583 1216182165
  ; MkMatrix 1028561425 394428740 1296174163 400023434 957707758 571303153 344598783 601536407 1498789292
  ; MkMatrix 1297835604 761749126 1830969583 982066839 582597738 737003394 928773301 764370366 959313204
  ; MkMatrix 553194747 1882698301 224480277 1966126293 390078957 293215769 1088222399 1477874271 1053938968
  ; MkMatrix 1404000864 1758041069 2066476716 628063417 1060918593 1696137496 1043331863 585019812 2144651847
  ; MkMatrix 2120435410 559746162 1096429410 836907001 818538899 891335592 2072952141 218747934 97732028
  ; MkMatrix 1183517321 1374688487 338990865 1710417870 635359184 1067831607 716869079 1352139510 1235852179
  ; MkMatrix 1428198108 1677996514 271536524 1993039114 1339308101 2037120635 1169157037 1261711604 1327205769
  ; MkMatrix 227663486 1672785867 2020201558 1053697068 392046373 89865094 1344503681 690494962 365121501
  ; MkMatrix 61088030 355555224 597349370 1308656904 683728318 1407916237 1929939787 1384797255 1809662014
  ; MkMatrix 991853711 2008770887 1321492014 282295880 1263546194 695254447 1829772234 1145114151 2043872247
  ; MkMatrix 1659913490 1555937290 164832896 394375352 749163717 2048709392 736274797 1962040273 1458313992
  ; MkMatrix 828919616 768967248 1737718414 1219429107 774886537 49348653 968827109 1846707260 128538996
  ; MkMatrix 783474287 1140774341 577775628 1605718086 966614447 1618177617 1836774562 1177595354 2057694626
  ; MkMatrix 2070633564 1580709027 928385020 51640565 1694929569 1285484009 1444833258 1478684207 1929009373
  ; MkMatrix 575185968 1237438262 620667743 2006453720 1628395629 1895116632 1245867110 496658408 166074998
  ; MkMatrix 1021878582 1387679490 15559515 1251430066 1965663954 1244770351 761005898 770329637 1373926034
  ; MkMatrix 296045799 219369643 1577736849 972138091 2138222186 8379431 608436407 1510804625 2146311479
  ; MkMatrix 1407334337 1010666319 1418521156 703819533 140235551 195976754 705684198 242081699 2095616421
  ; MkMatrix 49857864 958003674 1760692703 1384711819 283360211 1370050151 314807509 93413185 787536508
  ; MkMatrix 1426981770 503179940 1651029287 2064821974 43411605 1077478144 1703408666 2112874035 914518428
  ; MkMatrix 802974180 2142642804 313363830 873499284 9156469 1861601841 1916661015 1813280664 1951488613
  ; MkMatrix 1338537954 30581606 1459349875 861066722 1906395533 1065331875 549612807 1420321516 979786273
  ; MkMatrix 1035621127 1988572912 489250410 1702335350 744313135 230241147 1160285285 1833106412 1391216079
  ; MkMatrix 1498162797 875686788 2006685910 374550473 1692368019 29207262 63728086 996490737 1021473714
  ; MkMatrix 1421918064 1934277676 1527009493 1048181773 446301533 1866103083 1195995961 736957369 1154734095
  ; MkMatrix 307468311 506688445 2123653038 1844940258 755058939 1580190542 1785334713 468453832 1879590286
  ; MkMatrix 705429712 839826987 309982071 1253030431 1811464028 1881416776 1369473117 451592293 901787449
  ; MkMatrix 334837132 506708772 1833608729 482869485 376354013 1678005964 1675803371 1077454311 1180361010
  ; MkMatrix 1059923350 1992166580 439721350 244591221 1459292437 547451584 677610025 544298624 1698284648
  ; MkMatrix 240908944 2039763651 644910036 701721810 712634113 237458603 883922072 1680839273 1520204738
  ; MkMatrix 1406973489 643495749 209312283 1494081167 1608998194 1117422669 784581990 145735647 162126347
  ; MkMatrix 1642148701 661872590 508419059 105563962 1809511949 194494727 1191965181 1943233978 914631692
  ; MkMatrix 2137123750 1443441634 125370197 994751645 1347486606 1769190145 43024558 764944685 1616626878
  ; MkMatrix 1388490883 231279612 1610287747 201162236 711572161 67430350 512945301 129005563 988542761
  ; MkMatrix 1375992771 1819284599 651280309 1485838607 625092018 371319488 1380311947 1754348702 225818337 ].

Definition mrg_skip_matrices_5 : list mrg_transition_matrix :=
  [ MkMatrix 0 0 0 0 1 0 0 0 1
  ; MkMatrix 515769131 142138076 1097629934 1998204213 98420724 1142734886 1341917818 1313784612 927086298
  ; MkMatrix 1958301840 1774108231 889807719 744516909 1800418879 1088702587 1260381090 1377125351 352057365
  ; MkMatrix 1823070941 786550849 1774542449 1723220314 222914731 255850202 1899743243 1380432726 384008371
  ; MkMatrix 702516624 606136791 1035328649 75277229 26957848 789752702 973663568 593488439 1859346359
  ; MkMatrix 593686007 31441429 1037101635 6393153 944834055 575270603 1157879471 782251344 1100542814
  ; MkMatrix 1974179051 393568237 526206447 1410242438 1987879418 883721575 1827516631 1951727623 1626897297
  ; MkMatrix 807390973 890620431 1062264610 1476725278 257885154 2003897961 468274506 1957074295 1183521886
  ; MkMatrix 519245959 1354305672 634244421 193274965 1625138757 1065195404 690922759 1991561464 1357588974
  ; MkMatrix 97470679 1403797279 865828124 335889734 726655531 1262308359 316646016 1943050546 690832934
  ; MkMatrix 1610369097 585726307 1024400316 2006532441 1100238104 1847458223 699912485 150950336 617908757
  ; MkMatrix 640380450 1195812513 875471832 1939926379 1270791219 2045421179 52200237 1599533749 1677322048
  ; MkMatrix 827241867 74436339 1171428768 1089377876 2019763623 536520962 1198394796 240442968 647118396
  ; MkMatrix 213791281 1045195015 231492018 644505827 1439212060 1077742249 820649872 1645768560 863193064
  ; MkMatrix 712403641 1875204994 1231093484 1096398631 1236945238 1733237902 839208583 1124798174 199020783
  ; MkMatrix 596898797 888493813 342236256 227840601 112850916 357456687 968745692 1177269797 1526167587
  ; MkMatrix 1802857540 1545633839 326696530 1821029747 2078088446 914633700 6574735 1281857678 1414689894
  ; MkMatrix 216145493 739258127 1338160559 331417122 2009523977 2059471575 80474596 2021237931 335723060
  ; MkMatrix 1964494 723713228 1374735601 795607489 893978852 78780561 1454536587 1038138960 530630216
  ; MkMatrix 531588279 1864729830 378141817 764789525 689604753 1571299750 901928728 1308107929 1198134619
  ; MkMatrix 494943097 2005802782 557397232 935902171 1338754797 1510450151 1209855685 1049323593 219872263
  ; MkMatrix 1257174950 167328308 307602352 754255562 15211504 801058899 2067341202 245434506 573554521
  ; MkMatrix 1883374863 832895091 619298778 1067185076 1323425999 495836436 16259296 631997593 350607565
  ; MkMatrix 1118041314 797421585 879983969 725416048 911225170 1909345678 2144448264 404355885 1306571522
  ; MkMatrix 378241905 1651014496 711466803 648031186 12446920 2055500741 99415726 1257480776 1290315566
  ; MkMatrix 864301876 743947483 463766285 847705514 1854059251 11945097 137462954 155348386 296448763
  ; MkMatrix 761113936 621793647 1087517816 352369901 2088245136 2073390687 1113450352 1251152466 147103220
  ; MkMatrix 1656957112 1458020452 827812922 610459623 1971897350 19092004 1250627450 1246481839 1428254524
  ; MkMatrix 1178301318 472012953 916790028 1139893279 1037189665 1992342774 1722708610 1610687089 1439816825
  ; MkMatrix 412796679 1590825075 790175784 1048270033 2131874570 1338972055 1932148300 372018128 713178037
  ; MkMatrix 1238162541 1247773808 1387172776 829089813 265863321 921791101 1171920073 1814782158 1563424848
  ; MkMatrix 375839348 196958610 1386764955 1970933752 242412215 924408297 741099504 2141045655 1103658971
  ; MkMatrix 920069559 22484092 446044854 896692077 1765200063 1740569211 1017961636 110908775 1189511080
  ; MkMatrix 225116938 1175239772 265318250 27559398 1357798878 881700479 1996832547 80287283 1651820876
  ; MkMatrix 946575309 1295952742 1344826749 1488845474 1405362944 1931019025 1205841002 1281549488 1815814082
  ; MkMatrix 584256994 1446270005 316379209 1228515342 911409134 597534963 429364519 970863578 356858517
  ; MkMatrix 1627061835 1743576030 1086558276 553465887 916064229 637233476 434029830 1475297270 1473452008
  ; MkMatrix 1769799548 1477432748 126674369 2094790385 1233451671 1716996365 62596553 1321262315 234138949
  ; MkMatrix 1452751343 101456389 1548925694 1750352914 800069644 2062599613 75396553 972344844 889245678
  ; MkMatrix 41288870 1814869251 1176544839 376323424 733880520 726676323 1244330673 1336672059 158671117
  ; MkMatrix 242602203 691203944 659415329 244392405 1932364913 928415720 334469827 878947242 1839481743
  ; MkMatrix 1530867026 1606971730 821023646 586972799 1988119487 1715413365 757499880 321847841 1982846925
  ; MkMatrix 338302162 47643598 1278014333 520266418 829264611 143986206 1871864255 1475726664 742257008
  ; MkMatrix 822914522 137754382 122873188 743761397 179344319 64482664 529800985 1095201964 225520361
  ; MkMatrix 1737507222 2122576617 1741446454 211621639 119010374 1729197454 491982251 1220543857 1517181124
  ; MkMatrix 984740139 346487933 87974107 1254042002 382521492 2041938349 339663326 1779404932 1048219954
  ; MkMatrix 1798217298 46475621 1645608055 695929364 243191806 1349834849 2139533499 1987202104 2124651446
  ; MkMatrix 1188180731 726697795 195607013 256884162 1889102901 1491950545 210295234 1686519383 1620943664
  ; MkMatrix 278862120 215713201 874960371 846119506 2076483696 118111459 726247178 377184629 763353070
  ; MkMatrix 1009636359 747852160 759666060 1857688546 876452674 287105252 1947669410 102262429 1807028465
  ; MkMatrix 1904810952 1700743253 1055982819 1354869209 1397218670 175065961 1102083915 432268927 1997543822
  ; MkMatrix 546745406 758281161 2084218699 719479370 259109418 1211165363 1982433369 991995332 1200401240
  ; MkMatrix 404668322 1408961536 376469857 78378137 2060569284 1482075988 716736720 1975003932 510324449
  ; MkMatrix 1950019430 391011286 1119675077 193894832 656174189 782246309 1812256510 633346877 112380235
  ; MkMatrix 1044576417 192319852 1662027516 1432939780 1324847420 1652079206 1728044888 1687117528 1593349744
  ; MkMatrix 1918407926 667389315 32649833 1654963442 533290201 640191635 1419195496 728748289 1244595941
  ; MkMatrix 275703173 1637452625 1686746888 1037998544 168838366 789337238 1195730490 1693234696 1294193140
  ; MkMatrix 1016855007 847384026 24485870 603014919 565774630 1243104050 663141276 2088902390 908400617
  ; MkMatrix 642774878 1168784672 60726582 230824238 2063053243 729065100 1953037444 2124241509 138452709
  ; MkMatrix 2121245 1710782947 1763633072 1644994108 1817878140 99427776 1299336621 1297600473 612098698
  ; MkMatrix 40512603 1938027419 545076562 1908452280 774305418 98486908 1369599603 1751214966 805625274
  ; MkMatrix 1510642849 2135735685 2111563020 1174158290 45942450 425894682 29764599 1056366498 1608949458
  ; MkMatrix 2073791654 977301168 1337462367 2009348477 1736545412 1754712642 938061307 285162649 455622479
  ; MkMatrix 797073400 975784015 1604621280 1822308587 1721476333 696808325 1897609278 943396975 854416480
  ; MkMatrix 1527019952 818851597 1733670399 2018382919 52917387 1572884802 1397909083 1851237287 156603613
  ; MkMatrix 929642414 85833114 1033356699 1094563235 1343623769 1263696822 805811176 383032594 565317267
  ; MkMatrix 888215836 439742985 1384865599 1385791276 327436147 1846854360 738466573 375708699 88563920
  ; MkMatrix 137027262 871498931 332321553 828983832 253138612 1038287754 1472159392 1602218233 1088226601
  ; MkMatrix 985655190 275194479 1835442891 2121559317 791017394 1003956986 2128303040 1376653253 1705053126
  ; MkMatrix 129963494 1328227957 481610153 1852352578 226802179 638495640 258136679 1654630558 1580416766
  ; MkMatrix 1281815691 1441348019 350224880 1141749918 1322742180 26344886 985249264 1226409405 1430369800
  ; MkMatrix 825652127 734464994 596786811 307817971 1853329029 1197106026 822044796 1738089210 171255982
  ; MkMatrix 2015246779 1861137250 1878382694 1443996805 524431449 1048426695 974562439 995525769 1142365071
  ; MkMatrix 998216866 1665058287 998921918 406699795 1131346544 1959927478 98198936 2090317085 936606476
  ; MkMatrix 2038056788 2094672319 93263297 1659498008 297688812 92862255 1671374243 1396639570 882606786
  ; MkMatrix 602055180 1739773242 738925458 2025587000 962186980 1529053929 1170124224 2045540251 1427363898
  ; MkMatrix 1673437224 223638208 1556107233 1480412948 571914072 67431909 351390059 1250052245 671266698
  ; MkMatrix 161902983 1272870607 1764726019 717886458 1286697009 1538327110 152569707 1416106337 468937244
  ; MkMatrix 756625944 742239012 677823511 988850250 1984297806 906916661 467776862 1039876713 868721680
  ; MkMatrix 648620439 599840271 841284404 543528129 1237493868 265448935 211506365 1006371813 133644457
  ; MkMatrix 1754073974 1334933764 502600037 1253997242 251972055 76762779 368358882 1339819998 1715770338
  ; MkMatrix 1241712275 703177851 1054459011 1827615807 2124936837 1879191290 1470483883 1635068995 1015791777
  ; MkMatrix 1116340789 1554772269 1201988928 1530564022 2080058113 2130420634 1959580259 737336749 640874245
  ; MkMatrix 1486726862 1824691088 1958370388 703591436 1428037722 1519085051 460322979 435104211 309383607
  ; MkMatrix 754724552 2045662252 2090439347 298466512 607772801 922515200 1767559027 431440129 1423136397
  ; MkMatrix 1121604336 851315076 834995891 1352658421 1086564989 29256829 1791123642 940513511 1938501266
  ; MkMatrix 602969847 839248073 1578927883 331047369 79103849 1379827903 1418110664 264205366 630877065
  ; MkMatrix 368192427 783861679 899596833 1623735551 125600974 1406613606 1051527165 1792571955 1108813525
  ; MkMatrix 624768090 1917443175 655095013 74862595 1835705879 625032520 436333631 1103261830 375822415
  ; MkMatrix 932538123 420435898 4858408 1424765388 302319143 416170102 73947237 1076761308 784446144
  ; MkMatrix 1477989521 1060497984 107824065 46030912 1718769240 650575834 1383361076 1279841453 519205455
  ; MkMatrix 418017327 347587950 1428602953 97276771 1210086294 952901162 1309835911 819950208 1782097180
  ; MkMatrix 1793180031 1766001809 1448139659 313299535 1869941810 172021157 1065809707 691885414 983536821
  ; MkMatrix 2013330655 1905562204 1654841975 373596080 46212625 664025563 1744555575 1373614364 2142427974
  ; MkMatrix 47670911 490436915 1751481182 1021192055 388598290 1654868102 1387025711 1716849062 2449483
  ; MkMatrix 529609421 2143759483 621077523 809611534 130470346 2065770368 757051353 1940507931 632408576
  ; MkMatrix 651806519 50112340 684080285 669351082 1491313411 1862089523 354471499 437911875 801173343
  ; MkMatrix 164527585 1772972135 841249754 369792140 1825265240 104774745 1341449505 437155725 61648001
  ; MkMatrix 906530855 1174171624 1981550144 991391269 1833486700 320014913 1117925648 1459110751 356430296
  ; MkMatrix 1218402099 510051808 429402473 2143281846 1820987207 2123720538 1618835567 180825027 361834077
  ; MkMatrix 1923130579 1321713301 220917713 1556882244 1631630126 541243416 1749469435 407697030 415194342
  ; MkMatrix 2179469 609690059 69613436 1894342395 1710512254 1575294886 162505320 1837465533 315780041
  ; MkMatrix 36270692 1037825391 1998032402 1282226484 717757443 166137190 866142562 1193824952 1588408898
  ; MkMatrix 562225255 88570766 532698182 525047005 337338268 1502404662 221604915 2058098020 1764487608
  ; MkMatrix 1798244763 1437971598 414223605 1134803490 1320552903 1130708478 1951210920 451879668 2021388478
  ; MkMatrix 222276152 1457147625 271947355 907167255 1298931937 520357513 1485686596 2105163864 991621314
  ; MkMatrix 319302235 1718070221 1553134545 1018198166 1955750847 1069443527 1930448587 1094160437 1250672147
  ; MkMatrix 1192924806 941963917 332010011 1245045417 1570862580 1168685329 889337787 1685396468 1839967275
  ; MkMatrix 851973517 1191615839 387111526 2115184860 601276423 571302561 294529812 1153105967 949308611
  ; MkMatrix 1669472740 965059136 2041734579 60632687 1989659026 380743677 1586351745 42280488 686370667
  ; MkMatrix 670012590 1832332715 1806010137 465862148 508807690 524086485 11967132 1750163840 2043733993
  ; MkMatrix 1476719120 1433951589 63057995 230857336 1731979729 917099897 1567434131 863371396 1000303011
  ; MkMatrix 671598677 1941461362 1872136957 553030040 1661746848 1384279278 1172890845 679389156 994463914
  ; MkMatrix 770152526 2037751099 667539323 1014659458 1053203541 264959162 789551981 845690447 1508831161
  ; MkMatrix 427390684 1796540086 932014214 330366587 270478044 2076450076 1923243605 194102237 2027903361
  ; MkMatrix 1565358186 421767127 1312094073 1768148393 1990248514 518136856 701249444 1952207817 984853231
  ; MkMatrix 135366806 88497843 72143218 1047379946 2009851574 685364555 1442878359 434998338 1642853791
  ; MkMatrix 960195480 1196445698 1888948915 444947348 1615317736 860377280 1587816867 640830721 1498401166
  ; MkMatrix 1400518169 201495279 1162478420 1953380864 1647989457 677681561 1032664056 1162451715 704260445
  ; MkMatrix 605608716 1505051866 1671156369 400822662 201344857 863592086 2013144233 1092086551 1000230570
  ; MkMatrix 1257221066 888818719 667661742 444173846 1634252662 1093036440 285098988 1203382659 1105694549
  ; MkMatrix 1357906605 1696829774 1847292277 1987419851 941700662 1758433374 587595502 1996509790 1316664059
  ; MkMatrix 48081825 1221953328 424623000 1391781279 442994757 1741995601 2069782369 1633725091 1052306981
  ; MkMatrix 220922475 1417844445 769180329 577266683 556813079 803650667 1239521872 1431924216 1773626521
  ; MkMatrix 669596266 1145306788 602023746 896717528 550011199 1555193189 1024073771 1719407714 1451457052
  ; MkMatrix 92541201 819608346 1611048619 588473291 994787443 894593108 9450843 907288043 999359175
  ; MkMatrix 938426202 1959734835 618295775 1591017949 2034940986 1846034029 938551506 1906770016 938074751
  ; MkMatrix 1651825671 233662946 247207981 735797840 338169322 836639967 706003269 1455064337 1654257904
  ; MkMatrix 847775871 1030920856 686139737 54648433 1850192628 1915315307 767398656 1504045821 1431150773
  ; MkMatrix 547236211 570430078 1554439201 1015892524 51280102 1560013410 2082176331 1468246814 1040632270
  ; MkMatrix 215819797 1939999512 1678246799 402647228 1485227031 1542340036 708931057 1979882458 577519806
  ; MkMatrix 754684385 999858413 1950733658 1432981083 420999622 1272589790 431585408 2140919649 638045386
  ; MkMatrix 279810211 917279069 326356540 1625329142 1008283354 2000461501 1881052844 1396457376 90026543
  ; MkMatrix 202074414 568939790 845926137 449327186 1011893245 2001452298 2078153115 1332586331 1726604035
  ; MkMatrix 1566443720 1695942895 1028698528 2097635216 994963914 1147687593 2022872241 1497004114 1974251027
  ; MkMatrix 1588999718 1452361367 264411434 118648413 1076121796 681463101 133273531 1253118683 959652804
  ; MkMatrix 615974733 390122875 685406961 222156034 721608183 1570396089 1102135971 1017524450 1439216449
  ; MkMatrix 1309501738 1103269163 460857759 1707921716 885867181 430195190 1384031266 1867755867 983771904
  ; MkMatrix 1578659 1664947586 1152142551 1225624941 1852377629 1557020873 2003049616 95060846 315867780
  ; MkMatrix 1627251316 2115532838 1122376130 1496622099 1377217405 1116498148 1590595237 617791219 1053616296
  ; MkMatrix 798330724 812623105 107154245 152375121 1186075883 962704081 2025065646 87847239 1047955167
  ; MkMatrix 1755962128 2112648150 2110676572 1932455462 912077876 209571217 1715204099 1224759845 1020282842
  ; MkMatrix 218768794 1171670608 2032643776 263018288 1462457205 450856436 1445347294 1260385288 1880315813
  ; MkMatrix 1877036859 532393091 1317793050 1833696551 1134825567 1915539655 110483259 1687653228 1403140396
  ; MkMatrix 820513614 1579150613 684892224 1881719163 2145812802 647725754 1961426763 1517342343 1936865529
  ; MkMatrix 1269119670 1383370508 1943328022 1758099144 897768486 2012920447 1990425142 1276198709 1417466579
  ; MkMatrix 1934402521 1817405860 194644103 496382229 1617505244 1247739160 1905419044 258982293 775242165
  ; MkMatrix 497062536 90190940 1975250654 1815743134 295780172 1634205970 329536741 1807779457 1488418462
  ; MkMatrix 1126445422 677982322 1446581135 614215882 652537801 498474789 90998953 1978230619 2000266549
  ; MkMatrix 125637385 1636981303 616565604 623353262 1420606666 2129879130 944849732 1581146044 1296702280
  ; MkMatrix 1520390064 206438961 2050997595 1907667719 561802469 103799168 726177698 1438757160 58237463
  ; MkMatrix 1884953913 1481306577 1952003472 860374289 1949900895 69953431 961152130 1597712867 2142320668
  ; MkMatrix 229221580 1663906507 2086654832 811876776 1519542770 1583678954 888122104 930530769 12740995
  ; MkMatrix 260556374 1806427120 791068281 824428445 1777109270 1070987295 2026835463 437158580 1624103767
  ; MkMatrix 403499910 1654853844 1396814783 502676618 1952799022 439887052 383860856 2086312236 793093010
  ; MkMatrix 47476392 1906511950 568831918 2064654628 838716573 1030901754 1711254857 1143592881 545833247
  ; MkMatrix 1919072165 873968822 818085471 1983958792 290043311 739164476 129881175 1401629469 765840638
  ; MkMatrix 1008589249 306709215 1707972791 1427541697 1333727566 920070619 1278573892 121047376 861864255
  ; MkMatrix 361325413 1434882317 949229505 331957589 1820362412 556799146 1398594898 1775184657 876925235
  ; MkMatrix 1852503122 809151165 808966323 743560131 1971219295 375523437 355410573 2015030801 1373332697
  ; MkMatrix 223661742 1407103163 1928218616 783983459 358017460 1543569918 1173220780 373356186 871587889
  ; MkMatrix 1978961952 1201446014 1815366200 1449678741 1812129998 1797299519 1078937186 1716295820 1211426461
  ; MkMatrix 894572329 224333821 623717064 1307033516 1578036467 877601147 1068175939 825797755 752136341
  ; MkMatrix 1562670898 977610152 1130139584 1381535310 947426100 215926973 302945867 2027123533 1633797234
  ; MkMatrix 1421313228 1104975564 829653995 1349782146 1544332043 1466509393 1712240078 535749754 712574535
  ; MkMatrix 2141844514 1879543531 250335425 482607034 356371656 485652857 1905718025 352476637 2058365933
  ; MkMatrix 1289651815 92445594 647563420 962527084 1816285061 1251680194 1712713905 899948129 320187210
  ; MkMatrix 729927277 257945213 1697347149 976353862 757543929 1827831766 1701851125 917576880 436392021
  ; MkMatrix 361515370 170239125 1157617617 1905706591 723702366 1117450569 1732877559 1191825263 628686071
  ; MkMatrix 1216076034 606476712 2023799909 463847822 1351160113 1684088653 682749604 654382190 48384523
  ; MkMatrix 1291128721 776585929 1689292607 376588777 2029726806 432065059 1430695654 1379083851 580679817
  ; MkMatrix 1828207737 1553960567 1305274399 1247902618 681898033 591965312 239093081 1271594222 451588420
  ; MkMatrix 1062908771 1301120901 1571606454 289573198 1008916616 2110218837 510907314 1613994191 1625134655
  ; MkMatrix 495808174 1198673789 1902638495 507209953 1453416488 380895834 1125079859 6057820 1451296251
  ; MkMatrix 926775469 1694930691 1481235642 378696744 1573269498 189443271 448562856 1939686662 1109127531
  ; MkMatrix 1110218712 530117828 1695158391 1658154479 273288823 1430031467 1946266654 332716056 1874825121
  ; MkMatrix 967757115 1273718139 1843110943 585744765 733394918 398132237 1381642113 1498034396 1927069797
  ; MkMatrix 1995530754 1280260673 974062690 729049423 1146305118 2085063462 459038843 890508375 297756275
  ; MkMatrix 319350350 1077192240 1910327595 1806517105 1479036444 2039161441 1303995273 598499483 1591684172
  ; MkMatrix 1892014568 621834484 1439725775 81690329 1356014130 818622844 1582704509 494111392 324081684
  ; MkMatrix 413492036 1884057184 209696323 568346019 662284859 1309838242 2113484950 902368110 1420197844
  ; MkMatrix 1753917772 2059139364 1964501144 1206692879 77676971 586274685 148692269 2121018226 2127049333
  ; MkMatrix 33938924 138818548 1345698759 1772136659 221403911 556436654 506700836 1165294637 1638911888
  ; MkMatrix 385409272 125992990 1945512779 63528797 1315115114 1279589933 746037026 446660932 299790329
  ; MkMatrix 841342651 1000089353 2072016732 2023681888 2064917843 1886735431 445291690 794087973 1035367776
  ; MkMatrix 141045629 1581050638 1162352612 1237861732 140611341 350568662 1254401945 1335691963 2142725348
  ; MkMatrix 450278960 1456614801 309105943 1667973816 1649590473 1299017165 391320847 135147149 421172965
  ; MkMatrix 1165316584 1750897556 2055628944 1808267138 1740921876 1772533481 1542616408 2127344854 352106083
  ; MkMatrix 394543716 1862152511 1787270994 1274896022 790812510 1294565481 1441547258 555606117 274227822
  ; MkMatrix 982982717 1889520909 1179966927 333641025 311788664 1223354411 1932908889 623490555 1704179705
  ; MkMatrix 1516248862 403211973 453694848 474468131 14028452 87273236 2141136133 1120934855 1232313988
  ; MkMatrix 924178515 202592853 1202277513 848451657 204373390 1489743108 1539860884 738997077 1771085513
  ; MkMatrix 182337220 195429464 509950967 1073876731 471922239 131611437 141764417 702136638 11426051
  ; MkMatrix 1023801411 1832325720 1273670033 2060851617 1894422702 507627585 1632871290 415604842 1963709372
  ; MkMatrix 226034514 850325955 1545680774 971129977 1625285548 126968781 1608615883 730236965 1906573522
  ; MkMatrix 747155155 570488806 1821436846 1996064636 144020266 1919597237 827455266 203216740 72894407
  ; MkMatrix 1975350561 876678435 249400763 383923575 926675840 292679921 254336973 1690770005 871777250
  ; MkMatrix 917905313 929893082 516017221 1759864350 1655623308 2004490593 1210309884 1765752620 1037609891
  ; MkMatrix 543993721 2001775432 322279260 717620696 1783225709 1918751812 939206314 1892137039 1013603563
  ; MkMatrix 186436467 671457816 1693225740 1166392421 737923596 1357824329 36871219 1046113312 1660274125
  ; MkMatrix 1488529632 477941971 335281994 665823556 2031411124 1245446788 758369077 78271832 1145022524
  ; MkMatrix 662064504 1002313423 705626374 2060483791 607064717 1200087576 2003582640 1359229867 882953540
  ; MkMatrix 1160475030 1307547777 1554940538 1318758211 414607606 1975123340 863647369 1982849273 1116474731
  ; MkMatrix 1569356090 50348008 938418331 630542835 1234165364 574815200 737233011 1553627287 1442015090
  ; MkMatrix 177222733 1466718577 2030522915 1369297038 1751436145 653071344 83961027 2091529955 482529749
  ; MkMatrix 1331412249 574263205 1284069591 365232225 1270557298 1074636559 800572613 1480896181 859617817
  ; MkMatrix 1013758102 331582107 129436902 1036033196 2106683595 191515136 1780393522 627643828 598518067
  ; MkMatrix 217726531 1018298656 793316383 1812503834 1262328712 2123210376 1768179669 12524944 1687441711
  ; MkMatrix 1205301124 609750432 1082254582 1402457235 1073415867 617391768 1725160922 1013399277 396603573
  ; MkMatrix 1308716800 406267518 23878212 41101612 788618463 2095700285 1974737671 531059433 1998612032
  ; MkMatrix 1154016204 1952633736 750715555 232798290 2126262548 1978224794 1561575430 759988713 1108647222
  ; MkMatrix 1291225007 1008966579 1981430894 961702379 1644001580 1308657103 1845523455 1926381905 1506638825
  ; MkMatrix 148396952 783917433 182306651 1664631949 57467914 2020468688 334136069 366568319 1969278467
  ; MkMatrix 657018952 1447289791 740583510 1556801876 1183668090 358339699 507790433 627455948 1823051967
  ; MkMatrix 86983103 162680032 776516423 265704861 57321662 454358493 2013355321 1815888328 280754206
  ; MkMatrix 775425532 605704380 1617239729 167980740 1419199813 1622795632 190267799 2141496475 132805135
  ; MkMatrix 773257834 1715846509 1928506754 1558448517 1561198091 800961173 896551067 1996274920 862501869
  ; MkMatrix 998616948 248102626 129012380 2064178262 1598704363 757580153 1259723697 1301152421 1250675198
  ; MkMatrix 880343655 1863373321 2105035384 1857159911 1368714148 1018382130 674859815 1084088064 1418780055
  ; MkMatrix 112602122 1037404637 74294504 782928852 142802223 1212742259 1689944178 2124183672 687828126
  ; MkMatrix 1091210826 34030865 276601208 1625099308 760824267 296352170 1246619772 329788929 1611765783
  ; MkMatrix 1856055020 878072724 1687970149 645657301 987344413 228453467 212147065 1108276740 599447554
  ; MkMatrix 1176760179 689306696 1903526300 106656819 1929453400 170066451 877635401 2054342258 995685245
  ; MkMatrix 1175550145 1891557468 621756590 1461166639 887764311 2016985829 882179191 186036281 930025795
  ; MkMatrix 909540393 1060708465 98402807 102147449 501965717 2138233698 1282756295 1263795481 167011481
  ; MkMatrix 1632029803 1540865281 1390654591 543623286 529437793 1291777397 616409955 1938492537 1676326505
  ; MkMatrix 1563854753 437277942 142170779 78785716 410035650 1285793149 658510818 1781042212 1075161064
  ; MkMatrix 718562211 1268698251 1424219845 721223157 916061315 50833836 976931273 1775161582 509503126
  ; MkMatrix 21223153 773505485 1105855199 812834413 1717330029 14458105 1637665774 1742889945 1644189460
  ; MkMatrix 1541459338 1540433296 2119300515 878919434 816910857 786174163 18778458 657598609 1553118985
  ; MkMatrix 578040008 366442929 1761954929 910551342 1047324287 1023122385 1940733006 875539884 1170382057
  ; MkMatrix 1908336557 417357461 633982328 326626346 1109520819 1574800766 727047154 1575398395 21260469
  ; MkMatrix 1987084434 51467765 1667938435 524159680 664697122 859226766 2011454161 2075008553 1334308499
  ; MkMatrix 2046164982 648932190 630398854 37034695 2076494092 147522811 1759881876 1139062956 1248325328
  ; MkMatrix 289792054 1407924991 1580157097 667929756 842876142 662252678 1133620295 1881775388 1043248215
  ; MkMatrix 1227599214 492406667 1361043840 442534881 374253430 1565985495 276078005 882778491 1246396964
  ; MkMatrix 1569635301 1967918803 324362964 487138452 1831637403 1525920630 864032567 936346330 430174364
  ; MkMatrix 551099401 2009569442 1985914516 1502298049 478785362 1924058834 668248830 194669135 2021263900
  ; MkMatrix 1621901692 146999733 281750777 574100780 95682345 867824329 944379903 565690361 5064901
  ; MkMatrix 1408739784 950044490 364786612 2126350301 31845545 886482295 1665130544 1973051340 1488761223
  ; MkMatrix 1337200839 1575285233 70363330 1540331222 1862042888 999890757 1545762665 1536185201 1431752250
  ; MkMatrix 865129884 413898425 1698251676 1907289030 2095282054 540599695 972170871 600661584 167063582
  ; MkMatrix 1845812061 1171622091 946728208 1652686902 348778754 632962052 2013681678 733149950 1165918095
  ; MkMatrix 1733777947 2124763533 465682686 1313979999 1286144105 122076881 530329960 1128364513 139597249
  ; MkMatrix 1690063729 862021189 524051942 1049212532 1146452025 1236866525 628019570 1903147506 1124595492
  ; MkMatrix 907069566 1008625243 114070191 737040565 1458969473 1335395989 613049236 92976603 1748550209
  ; MkMatrix 2135124612 1062079847 1500528407 1086191315 822573535 1603276421 1046755842 934575135 2106084973
  ; MkMatrix 1047627501 257365979 1973509842 1292968809 773996951 2145554183 1544688425 1289198772 1611267569
  ; MkMatrix 164822113 1672625393 98994658 1013619941 1619336593 863318377 1622194326 1090097021 1345176818
  ; MkMatrix 1974079094 662816549 901315725 1404954277 1273194618 1475127419 277646946 1952022940 589986589
  ; MkMatrix 1221928966 2053067688 1348774124 1015662022 1895743936 122153997 983897678 456549470 662209798
  ; MkMatrix 395887936 1449987956 755598791 66651997 123059575 881930449 1413290775 1182612961 1964002868
  ; MkMatrix 754765805 1074999961 270866990 233463125 2081150829 1347702841 2054028825 51423948 774662259
  ; MkMatrix 478040520 1770281840 1860050135 1342039192 222363887 1602967658 1084263090 2036288934 1012901313
  ; MkMatrix 1985398838 669804933 1690551760 1296620093 420788029 1907650622 1237622407 1615071527 607132271
  ; MkMatrix 1084921550 722343758 778045294 2028913134 741134510 1416363039 174944048 679192529 1469784766 ].

Definition mrg_skip_matrices_6 : list mrg_transition_matrix :=
  [ MkMatrix 0 0 0 0 1 0 0 0 1
  ; MkMatrix 1010845446 1185423608 974952887 195798204 965458505 1475872796 28900679 78308784 1367547160
  ; MkMatrix 828093520 1013625014 896623716 1597555669 1511507719 723792282 858044782 1511988360 982311793
  ; MkMatrix 606719862 1575050371 1434853565 75277686 1646024060 1577446784 1312243920 1763475961 1136181656
  ; MkMatrix 1950229895 722176570 409670134 864750680 875145109 1650208842 46845404 1277851518 213148713
  ; MkMatrix 1710662475 777357780 478529824 416549721 833494699 1789238649 818663938 2062752625 648402192
  ; MkMatrix 55502294 461865017 1430680971 901367456 807489348 1945677767 1501313029 1342275537 15570363
  ; MkMatrix 1717803522 882607222 1121757679 1449874744 1508206323 496124354 303869061 1450894755 463522247
  ; MkMatrix 361689396 783372337 534639621 855889947 1416274984 227284319 347715927 1485808649 1862609598
  ; MkMatrix 2044039206 211339401 1659135387 2038311486 1101016176 140170773 858456340 1737851767 1244387334
  ; MkMatrix 526563173 325237807 1120876135 272741475 791298515 1536805067 1334613638 1738361984 612368550
  ; MkMatrix 1159281593 277260141 1956808148 1606202289 145864340 1267375954 868981470 228316951 1247069413
  ; MkMatrix 2094176893 1943935479 450852161 1956585935 625506981 459354290 1363819983 1801371488 854020419
  ; MkMatrix 1165308637 1184546107 1354767667 710810987 1504234539 454565537 873547182 619817838 1072549931
  ; MkMatrix 719472700 1974265941 803529679 342444041 402662035 1722450496 1918658923 2140519612 941970359
  ; MkMatrix 470528619 1294051152 956937760 56193556 1218572465 1021991953 1995104947 109526101 1287612512
  ; MkMatrix 52477752 1549883615 1746505134 359921126 1131246672 672522943 1833244651 899401504 1245952875
  ; MkMatrix 525376659 49874804 277863398 1570446196 2022440287 1906102438 1543462827 1781853483 1720914115
  ; MkMatrix 1724729931 854099051 1462999730 737555328 1270392188 1431559581 1069328059 255916325 1717692386
  ; MkMatrix 614853198 637782648 1019750612 101090320 560987930 207835664 1376504859 1659423084 409686580
  ; MkMatrix 575374891 1329809298 955397260 1529414017 571881912 162060445 1435547016 597475832 1651255559
  ; MkMatrix 2004278544 1166179260 348435514 1090688254 1295265830 894178499 2075582504 793731107 1769079219
  ; MkMatrix 368310082 1380266357 1565439336 934082844 281763984 1466106193 300682892 2117334020 1688180724
  ; MkMatrix 1993165711 116954790 587647901 346894244 249534534 600462797 55363375 1938129798 1503924387
  ; MkMatrix 1152693577 1858223392 1790528771 353006094 1538981208 1132658093 642479162 342886752 559977386
  ; MkMatrix 532509331 1417902496 1385748873 577583374 409658593 265156589 111828061 645817735 1794235121
  ; MkMatrix 106203131 293680559 1932393013 2041452929 1188479665 1437625469 248108093 1202995820 767431128
  ; MkMatrix 1094414788 1376456798 1870212587 1785475904 1316671204 1852405081 1329244991 353872516 763319094
  ; MkMatrix 1746992353 1924720836 1875978055 844470466 1600615262 561654236 1249902343 729127193 593801468
  ; MkMatrix 918093300 1541539892 1546694822 1806315871 1552718003 1220207237 797499742 1741939326 1587284333
  ; MkMatrix 1194747700 493036158 14781403 379304211 1628098847 74874463 310697888 1129553409 51639148
  ; MkMatrix 908180984 246197903 280984950 377923822 1480322790 357831288 1014737458 1955500994 151652348
  ; MkMatrix 860790103 1419580720 575506682 776247381 652000714 1440426731 1252473332 1626371903 404893095
  ; MkMatrix 1095997185 410359166 1692924060 1276460712 402897431 563631063 1817775735 103368293 1762582899
  ; MkMatrix 700788643 373695532 270740455 216351396 1671787384 450542054 1616289289 617017786 2100076253
  ; MkMatrix 295209045 144860673 793138207 970948928 1291134404 578408419 483321078 587038186 1729916133
  ; MkMatrix 160721774 558865370 34735709 347523080 1067829521 2005851302 1694919765 291172074 321674201
  ; MkMatrix 987286429 334815601 585053518 1384535913 397784349 955632992 1539072159 738486475 1749926818
  ; MkMatrix 433989762 1826566807 864164120 1995303451 708363326 1889418755 1813480291 394217708 1429380587
  ; MkMatrix 495658462 440182804 1136235181 819702880 1863058362 481450707 1719346710 1291673355 874101776
  ; MkMatrix 1523336587 92797828 1127202006 706923666 178724560 311249299 910890569 1354479608 563650156
  ; MkMatrix 116840234 1861664299 465940088 1666216813 487147898 1176525123 376278842 1749267583 197026791
  ; MkMatrix 934192639 1676945721 634487788 468984439 1356119833 1242604115 1810189083 157540807 2052599827
  ; MkMatrix 1032313233 1187764914 478906207 1464469376 1049064497 74836006 1096958699 973159649 1674826261
  ; MkMatrix 383880664 384255930 614654692 728784140 524624967 679394427 1128485919 226439886 1089616101
  ; MkMatrix 1013951152 978141347 631255539 1505843583 731232498 1911748632 1250633706 1712366880 131904090
  ; MkMatrix 1326859209 953030753 856638458 1262237166 2072207490 1454997671 1528505279 619886136 1425750613
  ; MkMatrix 952621074 39719954 304987824 1269739364 1760181396 1209541131 1062764434 253526718 1456698680
  ; MkMatrix 155845806 1881411401 1891472622 1505591519 1989851787 323626816 1348706507 1785163518 1150296191
  ; MkMatrix 976412265 888267828 25044846 1954418857 2129542266 1083394447 397476066 312063681 2127694160
  ; MkMatrix 1969368663 1422688259 1975063752 1394555613 758537854 1055531774 961382537 735949178 286207277
  ; MkMatrix 165338260 353685534 1993994414 908647905 478817096 295817143 65097314 241618751 1575366539
  ; MkMatrix 1055590865 1636192854 2055075841 1889480820 566744125 1803606963 1745935951 312035596 28034937
  ; MkMatrix 1654678319 720050555 97658948 1485260551 1600209313 33538961 193294494 773362384 1759029208
  ; MkMatrix 1377364732 1972978827 1567042576 967841335 935732769 631907712 486881418 582684474 87548109
  ; MkMatrix 1190991179 63425356 1922068486 1194518606 135393121 1686687908 43237530 105643647 850037121
  ; MkMatrix 358186177 1567743821 1072977755 965443735 1366375392 1120256112 1969378304 705658058 904646707
  ; MkMatrix 830857982 2022444985 1682604904 1753794190 39995287 1946393056 571870605 2090510390 382058474
  ; MkMatrix 2090688986 772760841 296024782 1479792825 1503637810 685264790 1129923929 2050687091 1967013334
  ; MkMatrix 1965362624 900668696 1469804182 1494934601 1560439068 642288507 1996622481 903490915 707346336
  ; MkMatrix 597301364 925705327 1952190270 579191448 1255044571 1146146579 1443664785 610779685 1578142593
  ; MkMatrix 2004805839 1940194343 295537613 1485421396 988765874 1131138117 1725000372 22677807 1732447918
  ; MkMatrix 1682179737 1174549864 1975962520 566532675 522782980 263664409 702563971 1501751291 1178286034
  ; MkMatrix 1760275605 600942796 656286365 2027028135 1363349910 521717246 1117930423 1957875034 33848554
  ; MkMatrix 394152262 1033695231 1526975574 1730773736 1926374746 1110490304 1567800697 859920945 14789680
  ; MkMatrix 674887435 447722514 1637932825 1668104124 617943494 1822124647 1751808475 518100246 1080853502
  ; MkMatrix 1275180795 1521726288 579655008 490405482 1006731037 538542098 176416909 1395027205 1055342427
  ; MkMatrix 528017271 1263741913 1116718073 1547155479 462645228 112568227 1828938470 1980768838 1702111417
  ; MkMatrix 2146131034 1006033138 1745886263 1284508627 577428485 1758125829 2096909864 980086904 663894798
  ; MkMatrix 1327300304 691852480 1731280405 1603820906 446452113 656794103 1823525016 536090421 366194648
  ; MkMatrix 185624074 1421804447 114947535 697837090 1873211202 712590927 617159987 1233450371 475135931
  ; MkMatrix 1886262113 2090975260 229139864 469123268 484951768 679164244 420929108 1180791539 2111784194
  ; MkMatrix 666314209 2031249400 1608192009 1430195362 1956791285 616923421 1499642994 261075220 1865414958
  ; MkMatrix 446720126 652938829 244877894 1898982593 811012452 1140831879 1885696201 1346363105 876656277
  ; MkMatrix 197388827 1560289682 1440707254 1896293631 918982494 95339222 1622086891 362195578 577465677
  ; MkMatrix 1431327477 570026073 1861019631 1121525940 531898347 1894422556 768475007 1604178964 399932439
  ; MkMatrix 1537642109 294115567 1786261383 241706527 1811459693 722308470 459711595 1691420204 1648959351
  ; MkMatrix 879869690 1483433393 1242245767 1540715016 1369398001 101737178 991889390 119811906 1971708928
  ; MkMatrix 951995167 1113918890 1448773123 83424507 1157047979 1532339858 697705808 698220933 161051376
  ; MkMatrix 1265192764 964797552 235909758 98891367 2120873526 951476814 1406131426 250990462 100291582
  ; MkMatrix 807388021 1176912172 612357473 644080045 797375845 1001700547 1013381558 74648135 234378086
  ; MkMatrix 1704083175 743851036 1929369502 595467590 187789086 1758034660 1314057371 1316663516 1444943773
  ; MkMatrix 637282926 984196669 2072191940 1622017991 1948649752 1405392739 1472930299 999118204 2028455110
  ; MkMatrix 1438729674 2057176357 650544771 173748494 1006983618 909375877 10140667 921818537 362224583
  ; MkMatrix 1223335986 13454721 1950141114 1227290268 1108684251 229532220 1869804837 250736028 1879920100
  ; MkMatrix 20678459 1961419548 959974339 595228733 577450390 1846807905 850462484 727063593 1718842503
  ; MkMatrix 1471171607 923702165 1867738696 370599106 772471217 1160411379 1354220531 1077737926 1039508037
  ; MkMatrix 341034651 1365402302 964874569 596705068 1038814725 279672533 115369906 1200570695 81744070
  ; MkMatrix 767929018 178105345 213994769 354693950 2076771569 1842065471 750387860 92058199 1937177017
  ; MkMatrix 1869471583 740620837 1741872220 1864535522 673778026 408428330 525180481 1788096536 1765931156
  ; MkMatrix 2010363455 516804780 1939951973 2061420823 527713027 1423790306 2085870460 1331366162 276483235
  ; MkMatrix 18710932 797409125 535553951 2067035857 1202354299 2079350487 559400557 1549123115 123290297
  ; MkMatrix 1549170331 1118081741 1319124961 1388243350 14562507 1756988131 1885295121 835764240 1869528670
  ; MkMatrix 208131581 669703155 1384192103 1123970426 1984726690 704231284 1567207883 897570214 1026332021
  ; MkMatrix 557649935 1947454842 885745216 1962098832 259401207 1215406453 1856217328 23932579 143650622
  ; MkMatrix 437088638 2032397051 1138071816 1739523969 145066102 1664667663 877560681 1539751913 1002017303
  ; MkMatrix 1714860078 185379908 1018700536 1606935508 891255932 1517914163 809553126 1967837008 1061506438
  ; MkMatrix 221982098 976419092 46159185 972685256 765860331 683976993 1202631608 1410757652 1560585341
  ; MkMatrix 642022817 880466959 2117288053 596480403 1533485489 333636426 497276751 1603549546 1616488242
  ; MkMatrix 775370766 65398679 2033003269 523119767 1779188765 438264005 268998132 1717460609 2144445193
  ; MkMatrix 1518809974 834229170 77683172 67483959 1902386099 1805884232 734113879 1850653566 1898902445
  ; MkMatrix 133723487 500539717 1707467560 2044892668 1825367778 1205355773 533973763 32640751 847575874
  ; MkMatrix 2092542799 1779245601 452253966 1076101823 1886229719 939481439 16061280 1070480375 974690676
  ; MkMatrix 1216422181 1164500429 129975712 1534551617 1681264021 846126848 692824774 647817852 595534314
  ; MkMatrix 513942070 1918596498 436206463 819641979 1191256727 664974950 1277207054 1875858063 856828952
  ; MkMatrix 1945568126 1235149504 739787128 1816496219 1053282634 1198445754 1823569667 1929866112 1666319683
  ; MkMatrix 1503507739 1080982572 1142653727 1081092992 466037640 447380681 1093444671 1879503363 130334010
  ; MkMatrix 15623656 957656189 1272094645 2145774783 1185860528 522691180 1089152732 905577868 1727901733
  ; MkMatrix 1233210498 571730394 914360178 247809634 975190414 2072842002 403613842 321293154 218492716
  ; MkMatrix 1190979421 501863013 242806040 1413351682 1545822076 192394398 2108203283 997603080 1196660998
  ; MkMatrix 901151912 937927887 1845292475 136158271 282712870 1911014906 1820682352 787409636 1725106415
  ; MkMatrix 1469868505 1160745141 444196245 1029213162 1758989177 1183162076 1748076436 2135373327 1763227789
  ; MkMatrix 1849756642 1101130617 723499187 1868021180 1516163668 668464157 167414185 198813480 1446578950
  ; MkMatrix 1423402603 2103058676 556619033 1712799159 519814337 1926990312 1170662612 444073786 1008633606
  ; MkMatrix 1203060718 1788231823 1631196970 1503707168 1175972270 1152412207 1979471974 166646883 1439768408
  ; MkMatrix 505505566 1840858588 447371272 1727928219 928483086 160693087 1142747968 39476242 1129414766
  ; MkMatrix 1060171767 1994218857 715422151 806386480 1696381076 227294368 1494862581 390558759 1452311328
  ; MkMatrix 359544634 637557112 306131092 523536355 1935734286 2014955043 2070503021 2053718127 1968552218
  ; MkMatrix 1813369212 1560688442 1450456514 2026906495 1387818294 67015759 1319626816 1135540380 990379161
  ; MkMatrix 1838539962 394368814 2037599288 1781561788 1960359044 2113111839 1190635962 1579587566 2051748490
  ; MkMatrix 489950253 417652337 738560623 2098031883 1174823902 1642034119 56474499 1970891626 1129256927
  ; MkMatrix 2024409181 49281830 1550541871 2031251228 168300050 1595596446 1636328209 277420349 1037570569
  ; MkMatrix 524454163 1224624913 1528144952 897756704 453230916 1363188503 1373151523 739276218 2127219522
  ; MkMatrix 16928798 1730108553 151068350 1524958826 1780625884 1509435109 589133703 1640884577 884193735
  ; MkMatrix 515563831 113683729 192273427 1870013995 1156226813 1114352394 1305488642 1627841335 49611434
  ; MkMatrix 1666587842 1269013217 895168829 333754400 1298488173 900455837 257886739 136119859 1143472040
  ; MkMatrix 153913395 1182360144 1938762806 1611071696 544951898 591619544 13709048 317783341 541101911
  ; MkMatrix 135872676 6531323 365419477 1434299482 1980913177 1676962804 207979225 1898377665 1853351906
  ; MkMatrix 292247445 760282231 1697539989 1620593212 1589010583 1194866537 957214154 641323164 1794044205
  ; MkMatrix 1192713369 714058468 993841424 924806375 1266380047 1262976430 1625541497 33744304 1684066270
  ; MkMatrix 227215546 3982018 99019110 1555163464 412004042 568701671 1081089531 210414487 1089978248
  ; MkMatrix 1658185801 168776531 1567522392 464603135 91815065 1843269330 1996119950 839702976 1515905941
  ; MkMatrix 2074595067 1716105794 1427141797 71890982 283545152 1741616797 495453371 1079598308 764679203
  ; MkMatrix 1089372847 2055094822 901775051 1810018705 915668182 277949955 267621655 1179480214 2006088660
  ; MkMatrix 187307701 6814060 719892900 399039918 138435376 48630547 1454491485 426838810 1062783616
  ; MkMatrix 1973276954 2098716011 219461837 264859058 1801763605 763823983 274245990 1242614785 1903719342
  ; MkMatrix 1719201297 1871797522 601993606 309069010 1783404395 947954521 377583706 821159807 100134092
  ; MkMatrix 250761804 1472462855 234232391 1788008917 778666221 1814192953 995129228 151223499 618363814
  ; MkMatrix 1145860259 992413067 176779537 1666064051 554948081 483987794 1510622362 1352094589 1048082616
  ; MkMatrix 1779656535 2145736294 594667502 315635018 592112017 985985595 1860185279 1704679635 1606086880
  ; MkMatrix 1472091638 1672825750 868945278 1153865862 798184853 942845312 1827439607 1265881276 2073113324
  ; MkMatrix 1831226355 96460974 38265473 2029198463 1038994939 1066144485 201985815 1421632516 111926829
  ; MkMatrix 1484413106 877750416 18690160 283305159 1403516219 1002450923 2137438531 716317679 1045430849
  ; MkMatrix 199531952 1325510499 280562207 788167776 1364709130 396680857 1967085007 851307300 1066751575
  ; MkMatrix 1699009518 2053245018 1340802145 1986009214 263092834 1243843322 1120205347 198072972 1482257482
  ; MkMatrix 951993205 703213814 78898933 401800135 1024508440 906887104 190985176 2052942241 413352838
  ; MkMatrix 1864468185 617518341 1649854390 867597031 520637674 501825388 185725316 373096441 497428102
  ; MkMatrix 1351412907 786315894 1796398470 1575336614 265035492 1064940653 672049965 1876990038 1540824261
  ; MkMatrix 1308134179 2099888993 376689495 1556853536 478511498 1534667848 698549207 2063980590 829860115
  ; MkMatrix 847949649 1932160971 1800848372 1458030065 1849671803 454262588 353366278 1119603503 1779933124
  ; MkMatrix 1517876731 966179126 31597992 1384667406 2106266160 1616038276 1183971513 218658100 2029735825
  ; MkMatrix 1218161151 1593427372 82697157 593702576 1893319750 200703328 871444451 1469813024 1808381921
  ; MkMatrix 2078870898 1037924789 1911997961 1245739058 205110430 95571610 804806074 319811838 2025911569
  ; MkMatrix 965606428 1992018918 805966094 781619926 1866295335 365566480 678017826 1188558781 1557673944
  ; MkMatrix 563692835 841613112 447210399 1476113984 230081497 107449708 1268596460 1032105223 190967216
  ; MkMatrix 1692050376 2103857078 229057603 1449771261 858565626 1082142717 1675668752 4293739 749688635
  ; MkMatrix 363040556 1267496355 869053167 735837050 1566618318 710935431 1801341772 1393857618 864019787
  ; MkMatrix 1279896421 1715966533 2099755248 291470816 1192825488 1375376968 329883121 283385906 1737885515
  ; MkMatrix 1672293953 996982005 2123851963 1617038268 1491008512 1807543492 632218282 1610510234 283084836
  ; MkMatrix 1524551684 1174059667 351951849 1541360882 153862258 1069963307 729083968 2145174952 691541213
  ; MkMatrix 1131618044 189976460 1054910698 1265288868 230024170 223406874 332473198 934174884 332559690
  ; MkMatrix 1534702716 1779253658 641828153 1559158331 1235499978 812610978 142665946 5986697 911282087
  ; MkMatrix 830446513 586179402 1790480180 1653349894 928387598 1691387493 446875281 1604317728 1225869852
  ; MkMatrix 1226284093 1144531320 1604771978 91250203 601011083 2111196258 651104923 185486027 1287710250
  ; MkMatrix 733008632 831962616 2028627776 207088981 1082231389 1863899783 1698385399 1652763556 74267415
  ; MkMatrix 718589286 157768537 764748732 368890814 1239501057 550507381 679445331 1312200954 135985629
  ; MkMatrix 1850837269 336063224 1482091126 1162879153 665354075 654637821 1360342071 1867875434 1514836226
  ; MkMatrix 1235104549 1807386172 68790908 434259384 975275445 193983574 1504135210 981553884 1061228315
  ; MkMatrix 314680622 2089164201 809852909 1222808411 1570565000 46290701 901025346 1551694634 383226784
  ; MkMatrix 647403625 1914316497 1891670322 1818706052 716943720 77112493 1113061673 677515190 1553555227
  ; MkMatrix 1728251894 1572230442 540569141 1383311386 1204201265 323097185 964356038 831038408 1772331281
  ; MkMatrix 1181495294 2048079723 80646134 439671274 1329480148 990311276 1452024105 468333749 2131930977
  ; MkMatrix 443550534 18561496 988670910 1852465969 99589213 1366557362 725124198 1383924135 1225828501
  ; MkMatrix 651157109 1166605760 1075620610 1640617495 585405304 1905068413 1804711036 579471903 704712685
  ; MkMatrix 1235958473 251825312 2085045576 1475020588 1171110748 1215104217 1337636553 255228518 867032402
  ; MkMatrix 1981430227 1089229747 1975112651 1190752420 155160904 1147348444 2003037425 1026560233 1191729193
  ; MkMatrix 431221025 800454120 1251775514 1577814661 595004276 1186397673 84917052 689100234 1857057747
  ; MkMatrix 1436353394 38819173 1409652767 1592278556 611342388 1039334038 831137489 120264429 1535617479
  ; MkMatrix 1224417350 1266215705 1270573229 333129666 1196758208 1911411456 172082490 1346642618 510684927
  ; MkMatrix 1915837864 488774328 1456331758 931445061 797530669 247727805 1906497938 49422418 565484458
  ; MkMatrix 157042262 305805368 885147765 571124343 136621128 465588941 829565818 66027942 328259713
  ; MkMatrix 447844894 2108887356 635963100 194225258 1189269498 1307896549 1144566949 759994467 1674890711
  ; MkMatrix 235921430 217073732 1975847267 674388414 733171080 1208243055 1016091286 963001558 181372170
  ; MkMatrix 1618858950 952088189 2015255392 409012218 718158412 1459229380 1504525109 848796071 1602195793
  ; MkMatrix 855134801 403232160 124414343 982607281 1536141395 211309162 265204501 997159888 2046128893
  ; MkMatrix 594613820 229903003 1299331526 1127040798 610053584 21788166 1935950762 664206396 2095568263
  ; MkMatrix 220087134 1855874516 2018547371 124912172 1800157864 1134598925 10825012 1409613606 1951038196
  ; MkMatrix 1817722740 203775416 1553712757 409854119 742467003 1715056104 1382939850 999566995 2003231290
  ; MkMatrix 970153623 371226168 547091829 1342675502 763886749 353794947 1174882874 287221402 878107623
  ; MkMatrix 1697812109 99921527 755864798 959261293 477780636 472054930 1664387396 2094712622 2106863230
  ; MkMatrix 1402959742 1197151372 1609212108 227064894 621993330 920863827 2038529045 50450640 604335606
  ; MkMatrix 1387406191 751516967 1493786423 579807091 925269663 1447040806 1631567235 1619371294 1861728263
  ; MkMatrix 1985472893 2121652471 1693982143 2134702283 666536199 675117682 1672439319 1441974339 54470998
  ; MkMatrix 1476035136 113235308 328289661 979114124 1701948096 1314609928 727169645 1261475660 1260431615
  ; MkMatrix 706485061 799248330 1405811264 676178922 769388347 659352741 1282411987 978954003 748876993
  ; MkMatrix 2124546010 756291060 453283426 653194229 1898517096 1086441780 73028803 949756695 1029231341
  ; MkMatrix 712379820 1988809669 2022765582 522852556 2098181671 1739476732 554955267 1080237489 538982544
  ; MkMatrix 1320395105 1581326962 150040327 3505938 867895321 1656059587 322038748 749785835 68599367
  ; MkMatrix 1360295476 1493619893 589269453 172649957 239771678 588019747 1135081818 1708106603 2111540561
  ; MkMatrix 462812243 978145801 61650069 1594699991 52341322 1138284063 2132856841 955574279 1757999789
  ; MkMatrix 1382732896 319464357 1424345265 921495102 1887618662 1553494761 987996281 683070586 145305404
  ; MkMatrix 1368067642 167164317 1477778839 1233709611 435730739 2050572654 115833316 763671221 275819994
  ; MkMatrix 134349804 1498862611 1879177119 631145665 1542693692 1881336909 39593195 80417135 977676783
  ; MkMatrix 661069036 1302979431 369735587 1346776540 549222091 642108539 37623416 904111615 1843395761
  ; MkMatrix 147750189 1045429758 1682017745 839744234 1098758052 1960084833 244368777 432092615 410654725
  ; MkMatrix 1767102877 1170715631 74783703 532235913 1959539218 230107077 1819607326 539618443 2092795310
  ; MkMatrix 1680377928 696191098 1989714369 712178422 1191914775 967052282 1865994435 1669693105 1144393100
  ; MkMatrix 1454217230 1686779397 1388321145 305229996 137889119 104061543 1674022152 1007812431 966270774
  ; MkMatrix 389270859 1413430316 700124209 194339174 1763344432 1169811333 1686554613 999909430 339634308
  ; MkMatrix 861758454 770349644 320860354 126875728 868870218 1971972738 1563405178 1512419198 124775134
  ; MkMatrix 333108050 1681124953 2070611986 1253979125 1127551672 490795312 1039840168 1749028525 1052262600
  ; MkMatrix 1412535219 356999255 1831275468 635521716 1062536982 1902721393 413703704 920222149 1706826871
  ; MkMatrix 1419813009 1324372170 1293393077 327074140 617747368 1793805258 450812872 1457779823 429646977
  ; MkMatrix 914873828 1069956859 87051997 753649970 539450382 1608744478 1456726712 1532285809 969517990
  ; MkMatrix 1352814085 1738101383 1158010126 1532000311 2044785652 1801487365 1064360460 1159474150 565227876
  ; MkMatrix 414126159 1352825814 419485056 1493384831 876534663 1100507476 1752294357 557959259 573874740
  ; MkMatrix 817331101 521188922 1985185985 1541348736 2066038716 342497219 1757937776 496573785 281625156
  ; MkMatrix 1465038212 1375477334 1426233888 1273061535 1213063515 3720501 1532305895 199883560 1143104269
  ; MkMatrix 640629292 1746851030 324715836 727850830 1384158595 663637319 2132552239 2021567011 1857726147
  ; MkMatrix 1006240350 2092955691 175348654 246783985 2120763656 667029745 478759155 1689831016 1099826071
  ; MkMatrix 735547620 1052371432 293551558 1984674999 1540412286 794929765 552197052 932412572 355074427
  ; MkMatrix 1569238996 1080514366 1157852736 1528964891 1107658914 101783988 1981221799 728163079 745427654
  ; MkMatrix 1569905993 508688512 524479433 743317116 538878721 1355085785 587070320 537842504 780130574
  ; MkMatrix 459189544 941577011 1944266543 1050304180 1182200761 1210357400 1520641453 1913944042 727068711
  ; MkMatrix 358573535 1742250773 1328282583 1456948849 317621401 1079879124 1379821619 866637100 14298416
  ; MkMatrix 1692281929 443545632 1542969037 1712807743 81617219 817614598 1042055563 1670210843 1966649618
  ; MkMatrix 1159563979 1346689841 207402004 1354375916 1799747049 833468266 559933205 1695270206 1850647571
  ; MkMatrix 77583628 1410634957 1550810274 1576293861 1692175586 94990499 1410189417 760605018 1211215465
  ; MkMatrix 1081712333 691647348 1836557614 211872894 183880968 1708912402 1453186638 1635992853 1007147840
  ; MkMatrix 42985943 1473289322 398595697 852100772 1682339335 1780366789 741834962 807206900 1399816920
  ; MkMatrix 545752163 805272411 502464095 638009632 2102420325 936381701 282104682 754021358 1623764485
  ; MkMatrix 90000082 2081493328 979976239 628640820 118181986 117258017 616813386 1057001229 714599197
  ; MkMatrix 53654646 915260015 863679821 1688144697 1179918901 1540725983 646548274 817607707 1645375480
  ; MkMatrix 601945656 1895990800 2005381556 599549580 1907843711 1255813091 599479333 1785596184 1712381776
  ; MkMatrix 84177897 1532216229 524197958 1726488769 1600831470 1180631418 2043712244 1440686213 344972019
  ; MkMatrix 725116824 1988964952 553537649 945408061 1918507708 17187146 1191767242 743037891 692076805
  ; MkMatrix 2099513153 898978318 1728976928 2002894257 2039558964 1560013085 1719843260 1400949116 1119730044
  ; MkMatrix 814698344 1094584584 410622880 1990273374 1139331086 1238936893 1372859338 1295024241 793446784
  ; MkMatrix 1325173476 1254408483 1076854655 563665107 53368546 361101037 628346745 880614658 1677888698
  ; MkMatrix 1893726577 1740341913 547765510 2124011856 501205878 755415064 712866967 478644047 1085299738
  ; MkMatrix 396063144 801833287 536987950 1671298939 55624080 1092707916 1872527097 693791908 671790371
  ; MkMatrix 232882802 421555040 1902771075 2074665671 1850593817 554794424 2138089756 896837527 140836312
  ; MkMatrix 2069131491 1835264649 1876893688 152435881 2009740700 144700986 323009790 1113124278 1405398838
  ; MkMatrix 2052675473 312136643 1425632334 330183317 81986941 989564598 864536360 27595591 1253444490
  ; MkMatrix 1321432901 589325433 2071807871 847307776 1417233122 234198100 1989838536 1868851206 1407380294
  ; MkMatrix 1275284619 1104066245 1062072368 253477458 114707620 550342446 1513697606 367928390 1059674507
  ; MkMatrix 1025267939 835876814 1906456079 1512682204 985675854 369658853 1025456204 1583269262 646279977
  ; MkMatrix 210087529 757150429 1035237871 964267497 1613355547 1649987435 2068355004 669839975 842040644
  ; MkMatrix 525567614 2024050845 623372761 2133979232 998849717 1195857086 849067875 1299934564 973369349
  ; MkMatrix 1996671228 35347112 1425075323 179965782 2075848024 195505641 1464022531 848673902 1993560523
  ; MkMatrix 1029272821 742788717 1647480326 2128398998 1351030436 489917412 617015773 1160824201 1052116148
  ; MkMatrix 226233016 1666440786 1118066567 2060000179 1193699960 1157762501 820223874 1128676729 1765030746
  ; MkMatrix 164012664 136322314 2044043022 615148455 1466870401 508414611 899730267 1051862138 883970288
  ; MkMatrix 1427074205 1298389145 1630221688 890255115 435322111 1335784085 1699568170 1369148079 1996229748
  ; MkMatrix 1885655985 285217693 933012032 1961377935 530210647 162109010 1950015702 1493620804 436940095
  ; MkMatrix 999543306 729294811 700230177 1976303071 343604427 1023699748 1200928724 1985474747 400307542 ].

Definition mrg_skip_matrices_7 : list mrg_transition_matrix :=
  [ MkMatrix 0 0 0 0 1 0 0 0 1
  ; MkMatrix 123134746 357661612 104256492 1229661191 1116680535 958809545 305544063 1444843316 181488645
  ; MkMatrix 396136447 1687430198 748674123 1484021485 717422 152918071 1876268804 1256824133 956693346
  ; MkMatrix 154523851 419495223 827453217 549929154 1566708865 1546527881 393542641 519563412 525868212
  ; MkMatrix 1169955142 367211989 338284947 449836392 1277278137 172476054 1781156881 2081289313 1944691248
  ; MkMatrix 1002152021 1015271219 2125823378 1401121081 1928802436 771892194 1211416016 547628746 233893822
  ; MkMatrix 1510960642 519025684 955990378 1599515246 17870639 204937824 1313758869 2106067283 1750353284
  ; MkMatrix 43477722 648488344 305585371 2079516671 714179246 848019506 653023638 1636210033 1537370105
  ; MkMatrix 1955197330 809764655 31651894 1874633754 1514230371 1199187413 1007800670 448161696 927877048
  ; MkMatrix 267445455 1035225757 1608763456 943679023 23373955 404748936 1037604599 473143231 1038889830
  ; MkMatrix 178320416 1487081255 1530185881 1474067942 722750938 995172380 1181875548 1919404959 2091068667
  ; MkMatrix 1079149199 107629429 1047615057 394548648 1815054404 1770036674 1931340774 1221817930 313676305
  ; MkMatrix 1787481863 1327168105 519699733 586585656 789698988 1023672000 161414533 1925954940 115614759
  ; MkMatrix 558447235 1567665171 626980659 1928454829 22596000 835337727 1086231731 581906082 33677236
  ; MkMatrix 1987519732 1333468186 772294508 1235628653 1028062522 1926326468 957073703 1222775404 1029587860
  ; MkMatrix 1485289135 676513693 650039679 2012721656 1501415537 1767275231 1212609354 944063288 2029986845
  ; MkMatrix 1757528319 2123349701 1516538111 1399043737 2079081112 1400840607 1777863175 239920714 1350863768
  ; MkMatrix 819998593 1638441127 212773985 1129804444 210736184 599822343 324958712 157075436 1873746699
  ; MkMatrix 103362981 757523307 49138205 1894481598 1293240942 828720446 403331143 2075438245 1103708468
  ; MkMatrix 216707348 1862116660 2049932366 657733570 338824767 497778900 1875709751 1182351163 247124407
  ; MkMatrix 1317946100 2098850140 357562854 802614329 50741583 1637569005 321284614 45919620 34669716
  ; MkMatrix 593530710 952801018 1719059649 727401232 2118065055 1818807093 330857890 1685342794 883949983
  ; MkMatrix 1194618149 1297022630 1616552053 1289189142 205441071 1845273919 863331999 879648760 2045047652
  ; MkMatrix 217374305 1709626221 1950758475 454630320 1184721817 22932479 1835357925 349125958 847779367
  ; MkMatrix 1029482705 1843267316 927900013 244399144 1924214964 2019819281 328337447 881100314 971584760
  ; MkMatrix 1933172375 534634968 221159979 62461391 291658017 1468637372 995627087 465611187 880313378
  ; MkMatrix 458867925 1768609119 1927693457 1640085685 1260336071 2144876257 854864220 1340883208 1650020407
  ; MkMatrix 1257464469 1334507532 910242415 435285966 1938172564 1860762609 1225343143 328538413 1071564843
  ; MkMatrix 944344329 445820188 876346820 2139741678 745611109 1081667314 2001001813 687771767 1256510267
  ; MkMatrix 909742161 991489917 946917446 624982845 1816586512 780454343 995880973 1672288875 694414494
  ; MkMatrix 1638654592 38392454 290288079 2138029754 972984468 753353535 1637227077 1242877730 1611719086
  ; MkMatrix 649505098 1503823967 1769665279 840350357 617397356 1061748818 1183304828 1285187126 811826956
  ; MkMatrix 365975818 1100112637 178870811 1006959507 1107187687 757272736 1631812271 1616941218 326509896
  ; MkMatrix 835461178 1529712136 1071701251 420241968 696719054 1022552359 606433743 530112705 1048050519
  ; MkMatrix 859342526 2083997480 1509895055 255081811 1925761030 279989043 1734021437 1473535408 121533449
  ; MkMatrix 1684291005 1076150484 1319813325 282677286 486233308 1023519544 1391078214 1299038464 461066575
  ; MkMatrix 479148728 20191624 1738039251 1605678091 998092391 711483028 200530003 1857615137 25804546
  ; MkMatrix 1955745423 1342681585 200839647 183529143 1704460602 980293234 1360975568 566181153 754677922
  ; MkMatrix 1929398051 1500307579 568397962 722035651 818242665 2006134267 617870245 1042651977 131191926
  ; MkMatrix 1132056049 1033461125 1598046432 734894765 113016256 1603609149 2003150871 1214907966 332043562
  ; MkMatrix 1122716082 844309105 471629067 1711793203 1606520227 666106841 345865855 1053869242 1452414357
  ; MkMatrix 1380319497 1303238881 376628073 1037858515 1537936653 498004510 1276068318 376486239 1298792287
  ; MkMatrix 645053139 419604338 1205927636 1351452207 641964721 86461557 853543544 1482208696 1841178595
  ; MkMatrix 1773102801 1347411361 448860392 1350316826 1694429841 834199563 479013092 323668785 2118016678
  ; MkMatrix 493611063 1242524537 811937553 321221767 1196674846 1391883212 1613268617 1581938851 1824112254
  ; MkMatrix 1776077069 161162207 575359695 173959434 1190549670 505902874 1901532242 1870655161 643194546
  ; MkMatrix 752523824 1852226620 901805717 1656680817 438854656 2018340011 1376502719 1067530683 387341464
  ; MkMatrix 610109021 1340189714 1535247701 1177371906 802013885 1234025739 995964510 1902526151 1317245738
  ; MkMatrix 231337308 1768528506 1971206979 927585015 2076395669 399070260 1831532388 1145542138 1460707556
  ; MkMatrix 1934301123 521769116 2102348847 1878197934 218459429 166886270 970196829 357513038 2026065148
  ; MkMatrix 691443805 35091355 581482149 98352104 275996119 329956935 2076609957 1196899719 1897190682
  ; MkMatrix 1950441314 1624110634 1978505919 637428475 932290083 297211080 1874482041 88733943 1223355750
  ; MkMatrix 604246333 1800024561 1314380476 655253889 16171487 836919068 1880452261 104469780 2127090711
  ; MkMatrix 693453318 1665601489 1082256815 1630104304 846528218 1208144463 981528800 1286569224 825725719
  ; MkMatrix 1122078057 533842925 717613666 157780433 1270514852 1966476705 566217731 1140720233 119643494
  ; MkMatrix 940969191 859636130 2054240760 1183057747 1250592019 1711412919 1347872056 281805798 937211625
  ; MkMatrix 1304989420 260931082 2089357219 1473551039 121439495 1951668432 547279809 100887100 86129010
  ; MkMatrix 817032242 968882242 1417430239 158449770 573157175 897669322 1317994341 1952009580 2037437469
  ; MkMatrix 495787503 1531979357 526578849 986091431 1576038241 1680576278 1871112434 1834440632 74990561
  ; MkMatrix 2030173550 1823828103 718730298 907530048 1481671682 39525537 382773813 21939937 1151870157
  ; MkMatrix 804145889 1986813482 365393209 2107777028 670136273 524246415 1792519699 1373020951 1370694946
  ; MkMatrix 114116205 390256109 327726188 1632011914 998945310 887186349 983578607 2039378678 70414408
  ; MkMatrix 1929517813 1193096158 754543938 1956577998 1822326094 1913629294 1588012238 1186025350 333475398
  ; MkMatrix 1403902969 1046173105 923226369 783700865 814678490 1521174707 1142434498 169100426 1399738435
  ; MkMatrix 2002562923 631740123 1657669595 1651095749 23188448 252965647 173267248 301962024 346998469
  ; MkMatrix 1779071840 1712321011 35389996 871382132 323274507 1089645867 405633219 622036323 427684341
  ; MkMatrix 759770986 628853263 1649119937 27237910 1868282764 1007178512 437613999 1914182475 661447986
  ; MkMatrix 1493664113 2129087710 1589601093 1351757055 1645288278 854685994 646215901 1232955672 354760334
  ; MkMatrix 1656655012 343558513 920556065 666868010 632059893 1052219447 1303898535 1821116258 1927404485
  ; MkMatrix 1317059597 71798954 1091813165 1075147026 804367135 1436189195 52276035 519979502 837122674
  ; MkMatrix 409071251 1726720190 1998798300 1202035050 1408285204 617177611 816418495 379417665 1812359933
  ; MkMatrix 1050602744 1161995021 1295671741 347700798 455831377 1223780790 1941090288 527312656 1989258865
  ; MkMatrix 2051952214 748096979 469039155 604853365 567580534 1533152257 1757796965 526495339 275932983
  ; MkMatrix 1880707453 772702515 2055513506 1867908902 886073699 1510319277 1204779212 587242719 573164565
  ; MkMatrix 1553511729 777033341 1247316133 1762832694 1217669029 1199671877 505308429 404858738 861220106
  ; MkMatrix 332196869 1881029640 1963531674 785714231 1889932985 583644730 685514195 8913351 920445671
  ; MkMatrix 1537111571 1198629333 522311975 674948217 1028924418 1841756289 844064915 1990138232 1620866225
  ; MkMatrix 1691351454 1329512344 192125752 1713168834 634471733 93294241 266846950 546030578 228612666
  ; MkMatrix 178708143 411134228 1434547076 1205479772 1204360462 670708925 1736669864 1027142049 1811228386
  ; MkMatrix 988047804 57134554 2143507112 1674361385 469439577 140814552 1235228560 1242031389 1001096232
  ; MkMatrix 577071902 154408480 1971573581 2105557368 2043767443 167181679 1805685811 507199693 1114628274
  ; MkMatrix 661869431 366751650 1941249141 295777014 1020007702 1316213355 943703555 1576093505 1005245887
  ; MkMatrix 1024775032 325769993 112634957 65488660 107781310 1255588920 1820662482 1790488803 1950716423
  ; MkMatrix 95552488 11076767 752912906 1502592946 712124365 836626855 2070706242 992594126 1008961515
  ; MkMatrix 1733831738 1626943 1857558877 84614427 398175990 1327521117 1070803939 1749942513 1181560481
  ; MkMatrix 1510109028 1709884404 1947975832 281944970 1077398845 2040339703 1555979483 59474698 841834336
  ; MkMatrix 816353512 1931931372 435983369 2098719274 1035665361 787214184 589955134 1247989883 920991449
  ; MkMatrix 1357326146 750147160 1795789312 1636816166 952014113 919328103 1796147023 1330287255 2097026309
  ; MkMatrix 699457710 384881319 1474981216 74678464 971872898 1213812944 1479643415 1167416004 992774026
  ; MkMatrix 630775737 30839447 939486355 1379800231 939021574 1635429039 259712009 107785022 1116045181
  ; MkMatrix 1667420549 376431534 732886380 1459005163 974079481 759201983 789288233 431135005 1360053141
  ; MkMatrix 2026629903 769576791 174822861 727950213 306341689 382378872 1329480444 692128787 815715890
  ; MkMatrix 819828940 1311923591 1082926478 432080517 528007191 1024983462 938930631 1284570802 293155775
  ; MkMatrix 323261864 646436355 1408563606 181772233 894950685 962791432 212593146 751609726 1276132375
  ; MkMatrix 937221796 1887701596 339903937 1717912592 939441620 1130177238 1877077186 1705180671 1523744391
  ; MkMatrix 1041966618 740543037 548069840 1016252284 200468253 161106356 62185886 1638732318 1559647224
  ; MkMatrix 121360316 475954507 433816074 1438038775 796866572 3981667 1184041767 1775243433 1571395741
  ; MkMatrix 634487867 77226572 2089955548 57867695 2042270417 606775095 1340713353 984482392 838708121
  ; MkMatrix 2036759659 771936113 870520753 1359252287 537835482 2099179697 1961168959 565468969 1306288984
  ; MkMatrix 692086715 1476506908 1349448544 739224196 522039413 697405646 1749601662 341611979 295101038
  ; MkMatrix 1260596640 164417415 76138139 1383714992 807514810 1870692238 1354131138 695020729 1530625196
  ; MkMatrix 563665301 1210692238 1641390259 639054915 1611449251 1120783565 1785986923 336082039 1386446355
  ; MkMatrix 1081329544 1903523976 70561138 59844272 1429776581 1954555365 2070821319 1375166275 411597473
  ; MkMatrix 1405482938 224805511 1731065530 445715423 605125223 1665621765 1684968824 285473064 934706380
  ; MkMatrix 635845828 1488439816 1943954105 863892961 1950542096 2124887235 663372661 739086712 832868288
  ; MkMatrix 1043733062 2130346874 1647693633 1640839919 613941008 1979788667 1706386876 614107783 721125831
  ; MkMatrix 1135953436 1598547089 1641911001 1193420635 121448708 771466657 1049775124 1255496071 863141089
  ; MkMatrix 1271817329 2017624995 2120898483 1337599982 1631733733 391372924 265931042 1459272482 1335736729
  ; MkMatrix 303909679 782026594 1067049764 1935697426 114719847 568284024 1297647085 2018391858 1341017979
  ; MkMatrix 631921674 1344870702 629039269 1189947616 1699609196 479453022 675979076 523858210 442516999
  ; MkMatrix 671899298 1041163702 2029076586 286469869 1688989452 591250583 2144261429 502346010 439426525
  ; MkMatrix 389947344 1322600064 1185426437 1135741891 1544485958 1615615223 942083656 376515882 1627453764
  ; MkMatrix 1493241911 1131065694 1497541459 925671571 2098520627 1789547031 2052316004 636857699 1768246250
  ; MkMatrix 502019142 2006891164 924514382 1720664081 1097861091 2045932829 1174805533 557862868 1761602546
  ; MkMatrix 392410312 1071061492 596170142 1670806910 525511786 74724424 999513323 1643099794 1453665411
  ; MkMatrix 200378196 1814881671 1225770751 877908432 663664934 1315252573 13813074 228828762 798323232
  ; MkMatrix 697800751 283121484 1422963239 1062614850 859986881 1220007227 1747579986 1095206949 1443032090
  ; MkMatrix 2134742808 917467863 1773156848 338528244 112009984 1029301339 1305527197 1706954825 51446707
  ; MkMatrix 1564363505 86233387 1789560606 921988010 760483746 75577072 904115172 1894037888 956563944
  ; MkMatrix 605191584 371341586 648008069 1231375969 1726555430 589021261 549224810 2112889109 1953411883
  ; MkMatrix 23563888 621743753 764645338 1007236932 2117680029 1472489851 1430389896 77103739 1983319538
  ; MkMatrix 2139775670 489301961 867602896 52274494 324723115 814122300 582660091 1029459468 823405760
  ; MkMatrix 34279338 1176889038 1532384765 493992006 1298232698 950142905 1736705660 2033628672 1874952851
  ; MkMatrix 650635776 1191802153 203687531 1832619713 1924312855 534582902 231331880 1751653555 774363199
  ; MkMatrix 27312923 132021286 592782563 335793474 530411242 444584310 1510919878 1739706799 1961623327
  ; MkMatrix 586931563 1684006599 926827683 1082371839 223001368 1800703099 189207416 586652514 1520911541
  ; MkMatrix 1706074879 1749266577 1329270427 2023005645 1774060637 1044766187 1715221538 1207929742 1566033592
  ; MkMatrix 1589280989 1161574129 370099529 1228118057 295810105 1571693424 249503560 1140791811 1077648977
  ; MkMatrix 416683779 2037897807 327145726 1674706772 112599622 1784684302 2064738232 93054932 1368520584
  ; MkMatrix 707110167 1592584761 492081654 350209577 1051147310 2096715479 1798340701 1975648161 467044636
  ; MkMatrix 975680033 1303900372 1227215093 1657470587 291551410 210793084 1582934243 1425566149 758970899
  ; MkMatrix 1044706751 1692367477 1215413767 1012336701 1259099765 360352473 337671125 1431022719 650867631
  ; MkMatrix 1626642685 118459609 1400881852 1921294095 1260875235 86005581 1478154081 1511314349 1698282854
  ; MkMatrix 522113737 1610806790 301386820 764188161 1063479382 1105944435 1524919003 552589057 547950665
  ; MkMatrix 1528118171 394722147 699099607 1832333535 273460244 1040996793 1730615100 1226618250 917885680
  ; MkMatrix 666529869 533233538 554114830 1459377997 1514433941 1266315725 647775238 1017908299 1050791854
  ; MkMatrix 1617098627 1067131130 850098477 1475935864 906629179 1252765887 1163249693 317179195 258745549
  ; MkMatrix 1287416163 1610557058 467539778 274827082 808761689 1482083948 807803855 1602708468 1106807184
  ; MkMatrix 2106658785 468992784 898152617 643563985 561066476 268533121 911540207 1076144189 1150783651
  ; MkMatrix 1981415293 107023716 1255663417 1715047036 2017553133 809392734 328130866 96962680 1983616195
  ; MkMatrix 825165805 416799555 1679242008 1788251545 1972124848 664862435 909669244 1899364039 1199973252
  ; MkMatrix 570235118 1940872107 1490323632 638337803 1905403432 1526541451 2137150130 964077081 1675350636
  ; MkMatrix 1826477593 509382515 1983219945 985940997 1018265977 1265979728 251636852 38874640 1004659853
  ; MkMatrix 952832179 1185683709 1416599613 1088319909 1282664564 744818264 1585409950 1607168250 1793897500
  ; MkMatrix 508100929 213299825 777921460 1038831226 518244818 1001832141 534654393 100082912 1771705987
  ; MkMatrix 1804776856 573627549 1278475606 966620189 305811934 1659942567 1449114984 888926674 1497926151
  ; MkMatrix 986033980 21959762 1381272619 1892648977 334562413 1824331516 313259859 1675633844 177587297
  ; MkMatrix 2138161540 857395021 2014270199 1822395140 304176638 109038482 43371448 518724945 659493819
  ; MkMatrix 347166499 470293046 404946407 1213677482 422482546 241410589 1286820342 978038727 831788268
  ; MkMatrix 1454416945 634675858 180057489 1754449243 1786315817 662500839 1988291660 1058547162 1630572675
  ; MkMatrix 1023084990 1743817964 1482367706 891485539 901081232 311996394 728923874 2139600736 1870207892
  ; MkMatrix 80830690 1887569385 1345174175 440203870 1485866436 785536820 1070236288 924614628 2021244775
  ; MkMatrix 2002566453 1272864159 2042774670 79859483 1354525580 1967830271 387666434 1447414784 1277427135
  ; MkMatrix 126793264 1909304344 1111167498 448588251 1996250095 146939784 1489235303 249478442 2123681005
  ; MkMatrix 1779187615 1265743709 1966094990 1245005098 2026429008 106157132 1069946535 333652899 1802276311
  ; MkMatrix 482229776 2046191179 1459987118 553726434 625477061 1447914028 1812210667 671071977 68479322
  ; MkMatrix 1400152298 1915950803 89676141 1092538758 1234429687 1211149134 1169012497 361261837 785865497
  ; MkMatrix 1705822023 1041238721 763467420 1279788270 1200460927 766323560 495254174 462204215 501818540
  ; MkMatrix 657548185 337639282 465603425 1521379574 591019205 644368329 1206442151 132757180 544554192
  ; MkMatrix 631722502 152799278 240926631 1488912181 900495960 146444767 941290239 1052086415 2142878450
  ; MkMatrix 1081524237 868454550 1694173090 123993174 1282005108 167798520 1635443608 410581370 64559805
  ; MkMatrix 1958540286 1778152416 1639615404 2136836413 1947979151 1736908410 2105439284 1829429393 556059587
  ; MkMatrix 419228093 530290295 426996526 604783678 991482555 1779424833 1200062205 721632818 524162704
  ; MkMatrix 547972303 33302796 1020792009 656756445 1108483354 163635037 641397199 324893243 1316893266
  ; MkMatrix 1360034525 209449447 121216774 2010374057 1293637621 270308275 1637221613 685727216 624136366
  ; MkMatrix 421007573 263630173 247666046 577379037 1742084999 1512141893 1114280754 1690619326 1794613329
  ; MkMatrix 1971153196 1287829474 607394838 1404328298 1241189860 168429126 1192689738 772138525 1507812288
  ; MkMatrix 159323736 561809003 52385519 549888458 2135337747 76548966 669838475 1926057727 65353172
  ; MkMatrix 375580376 997372137 1654625350 194395592 381798504 436422276 1072380824 248559033 1690667213
  ; MkMatrix 408657643 993084734 1173508354 682277175 1029573958 1172177106 1407491461 297029346 1569858781
  ; MkMatrix 1435421825 1806233662 1361475589 1431319397 116856681 1840706935 180357250 294452536 1731785211
  ; MkMatrix 1460272808 192375858 799804066 503774577 217039805 540273834 2113946777 1589254305 197671710
  ; MkMatrix 1299561582 1311919316 1068882818 930079977 241652930 1071821127 1445364700 424202332 1381672302
  ; MkMatrix 167975528 1586375271 736763443 1649013098 1369337536 239093648 1512074125 1656658066 1433752307
  ; MkMatrix 1547403888 1316377072 595246299 1604747524 1839991505 1633779170 1097165413 469120353 924180105
  ; MkMatrix 954010695 499771938 1393140576 622280482 327283122 1776480930 1845114074 1479729109 775745575
  ; MkMatrix 710705746 863410918 1107113286 559271581 925452623 1258909001 773869318 73668955 362797577
  ; MkMatrix 1919506287 542113216 1183098460 1949229541 516764831 621905292 106438149 730860183 583086314
  ; MkMatrix 794666577 1314023302 755512100 306455518 1305496179 713767453 1901557862 2003142278 389648017
  ; MkMatrix 1370649598 490196192 1461078878 527145439 1672195730 1943204115 244086526 1085960249 110993637
  ; MkMatrix 1251669300 2049999685 1808711693 1484101042 156002329 1611915430 170799469 243205222 285628866
  ; MkMatrix 546103090 22343531 1700606925 2036508542 1938652515 904949273 632255403 2137341698 975834556
  ; MkMatrix 432642854 74930292 1437508945 566739640 1557011946 1426743846 1582393693 1408766218 849195405
  ; MkMatrix 1117003444 1126718264 39920988 301777603 956309094 1165263788 491072121 237276543 1195384851
  ; MkMatrix 829848438 424230249 1249312539 477771150 140624154 2066518578 311282672 1657312403 2030171007
  ; MkMatrix 1252391119 1467440502 1689705601 514002627 296287326 921729428 78610113 1882353458 1570198898
  ; MkMatrix 600241506 1551919600 2146407760 1357350347 300553923 1986080167 55415331 371587340 170498354
  ; MkMatrix 491947227 1537432000 1953627465 727747509 1329433839 2116869747 1964342330 1113969517 617421961
  ; MkMatrix 426625672 153135678 1803281235 766329205 1309771571 1292306881 1458348009 1222275043 1204097853
  ; MkMatrix 401823302 1744444954 517990039 1485277314 1252561419 1818555163 203618279 1306636734 150993468
  ; MkMatrix 1228959857 1743209716 1948773068 1792254917 1944199093 990951219 1494565959 1161782649 356459160
  ; MkMatrix 1515519086 382614115 583389502 1649026398 1353709817 496427529 1376007508 2026417229 1610831428
  ; MkMatrix 1105873820 960161994 1955873397 39549277 533690949 573106157 1433163695 1148554719 24322615
  ; MkMatrix 975552536 1926664193 1370127013 1867356970 919716210 1155724076 536126857 1357590023 766682249
  ; MkMatrix 870720384 10257571 1363847051 1582406984 1754364131 135002166 1960841387 1647731775 640787098
  ; MkMatrix 1868029546 848473623 1309532558 198063721 305315076 838908376 586417897 1818178557 1494313681
  ; MkMatrix 1240823908 1215153967 557370092 1042641414 1008677279 1639859058 1916154704 801483997 406035333
  ; MkMatrix 1853487671 1812708103 987298390 1322920810 96104876 197619777 596008921 1221691870 742254545
  ; MkMatrix 703001678 337460094 1387139305 197727397 1682640344 2024144789 1645056270 695699526 2083390604
  ; MkMatrix 1649204552 1934835339 998658715 1574959228 2007701836 498620287 1575760891 57075275 1450854578
  ; MkMatrix 171044680 921346714 1379276801 1159898289 1651790843 861481076 648261695 396135784 1942640048
  ; MkMatrix 509896901 220474739 128852592 1563042098 524158439 149385006 720812934 666512477 2116240172
  ; MkMatrix 1300746182 243491147 1764039695 1021673822 276679002 2978348 474507085 1392467254 1292554016
  ; MkMatrix 718563359 1800794504 218206276 7028600 1653282223 1441923146 357778269 848173847 2108040653
  ; MkMatrix 198650791 982191848 520051063 947094626 1962369317 2093780077 1612589136 2100675346 1871378040
  ; MkMatrix 436060618 434390753 796442150 1570972297 1972390201 67021172 2061474928 1708449531 408065224
  ; MkMatrix 936984831 311955462 1775964356 1213524479 1143398689 1165126777 1046047437 525285329 1925916465
  ; MkMatrix 1843726429 1277456401 214992177 2087319888 702553828 1598519792 944000438 1542171370 1236535672
  ; MkMatrix 1521162238 31208061 1281370113 1357450632 676036525 1431536560 780332317 762211774 1912500957
  ; MkMatrix 1888683805 375453125 952886477 2077923630 1242188126 251284705 1401807742 1802039285 1148345288
  ; MkMatrix 779676629 1332920956 489429353 761613459 1218205787 2026401777 1605549831 1380787024 1164427058
  ; MkMatrix 1231186529 1565023901 1875535355 1512820274 1607619257 2100476257 818246118 1011685768 2112522697
  ; MkMatrix 811628379 1705610307 16874460 1798372723 2147340465 1314166192 845406481 1609854637 1261768795
  ; MkMatrix 1810342776 1552035946 687657744 1990194976 700723248 488919245 1053406920 1621502554 1636435907
  ; MkMatrix 1504258710 134977415 833102749 778784557 1219879966 682228690 1668064531 1376077977 416130127
  ; MkMatrix 839100178 1749243200 1701101882 271969123 210687910 1240809773 515199185 628520320 2138189445
  ; MkMatrix 1470366633 2141011593 1266203254 666286714 1842064823 874763995 423164944 947675713 758759047
  ; MkMatrix 1678015270 116859260 1247010065 215287851 1591300239 603295739 928482374 1393557573 351935812
  ; MkMatrix 411315658 1064405443 949149267 1917473011 36221335 705696598 487407093 995261252 976370085
  ; MkMatrix 2081921739 559198170 1300558149 1961823939 1609758527 1870635026 1290080984 1939792324 1360327943
  ; MkMatrix 915831794 1142556041 1144918594 1044745561 813535973 177769819 975324975 166510908 1614250614
  ; MkMatrix 1077798838 1494331585 1385766398 713737839 1154290893 902353627 1821561905 613062084 1369215893
  ; MkMatrix 789990038 1601012174 1776491438 264167406 787146142 1109767296 958576155 1539278487 1000017948
  ; MkMatrix 498987354 230568280 1758899452 588999776 1550898805 1559161259 1105818829 1168330827 1893602292
  ; MkMatrix 1668335203 109656423 1994170127 1970675775 575726905 1995345296 866302544 2096966614 1345027143
  ; MkMatrix 2008871224 170627974 548657407 1678084000 954578382 2044503422 47829574 1017098555 61722976
  ; MkMatrix 1559053548 1158156737 185813084 1269770054 238481041 1471481454 1174033128 1717851918 1569968152
  ; MkMatrix 90603665 2146146157 1960137669 2110273685 418479584 503822139 1676425738 1308776312 1248898063
  ; MkMatrix 1126644690 1854586881 431787306 1594060896 1048001961 386519416 2014492428 1747982005 973079171
  ; MkMatrix 1073202696 376374321 1792228590 1552289949 197978067 1718740295 653798575 786589536 1640658647
  ; MkMatrix 550632988 1626443699 1456830509 1050914362 484698716 145231965 1942870233 1766774151 1047443769
  ; MkMatrix 867845328 382011243 1081917251 1395520813 1495998871 937258837 431754111 278039233 647065863
  ; MkMatrix 42576710 797838980 1429053173 1968287534 495024721 1856678955 242344627 487602544 753860560
  ; MkMatrix 1886852976 1609614086 1078478039 699036233 477365725 519718815 359705542 787887658 2134340327
  ; MkMatrix 645308600 619586273 1140884945 308241351 1090448024 393728263 1325202600 1991904088 1252275052
  ; MkMatrix 1705545768 1340633113 146667783 233111376 1835938049 1602685553 981592210 963295926 2143029569
  ; MkMatrix 2049570472 345754663 1721819552 1917163652 1348046060 916895186 2045151331 234993045 1802669406
  ; MkMatrix 387841506 1893940453 834168143 1765397009 948747989 254957373 2140797433 264498631 2037289474
  ; MkMatrix 633709227 911024675 1332942235 536113350 1947923889 1440845722 1043394597 1996286341 1356597852
  ; MkMatrix 1360410282 1984049154 84043418 2056371927 1337268247 1722653920 1628598193 734743283 1402230645
  ; MkMatrix 1861581132 1138995265 113032201 1163089445 433497632 1775932057 1316817081 809577649 1116513096
  ; MkMatrix 192647327 999506358 14160254 1822981100 896958741 1683699070 498607403 1970591056 1925238789
  ; MkMatrix 552338480 762004938 714912894 447600555 212530724 568686470 1589614453 1287099867 513665047
  ; MkMatrix 103408329 1686018862 1832062621 1739962585 111901374 468709941 1775388324 1548073401 1824933513
  ; MkMatrix 956301795 1275507926 5541941 58465823 1877820004 403931386 508411050 954263779 1436453499
  ; MkMatrix 829228985 523673283 1189093 927624862 888061490 770314050 805320999 538388330 1773367398
  ; MkMatrix 188032623 49926186 2131902940 2072065411 675689834 306237315 1487848968 262828084 1013196734
  ; MkMatrix 1603184062 1995888420 1626879601 1495278515 117147775 1649522363 1371669321 1122568435 1334861558
  ; MkMatrix 2012239862 1972575343 300838702 960303325 1605688593 1483039756 1499761705 972257640 1265398419
  ; MkMatrix 1044625126 1792101421 631212518 816950621 290303225 2070727721 13831998 597361057 1906587955
  ; MkMatrix 2119676837 1023493679 1760373509 908642252 477091563 2106967886 1667179843 647251854 1753791967
  ; MkMatrix 30867481 1326301794 2114042830 962582583 505982928 1422872358 1401289140 472131384 770233673
  ; MkMatrix 1599030147 541256280 1003418393 574008529 1588276517 733215005 1283664053 1520590481 1163444031
  ; MkMatrix 346690764 533096000 1618628798 439565889 1133375816 841250962 1538939326 545182219 835187857
  ; MkMatrix 418800739 178967331 592929537 517342289 1050804147 2072496537 1692916849 891189033 2134752356
  ; MkMatrix 734435472 672358097 1890019402 1995473104 493825606 1703795870 219949024 200504028 1282642655 ].
