(* ===== verification/MrgTable1.v ===== *)
(** * The transition table, bytes 8 to 15 (sources/graph500/generator/mrg_transitions.c)

    The initialiser of [mrg_skip_matrices], row by row, as the file has it. *)

From Stdlib Require Import List.
From Stdlib Require Import ZArith.
From S2P Require Import Mrg.
Import ListNotations.
#[local] Open Scope Z_scope.

Definition mrg_skip_matrices_8 : list mrg_transition_matrix :=
  [ MkMatrix 0 0 0 0 1 0 0 0 1
  ; MkMatrix 76622690 1262953926 691591548 1420879705 677234486 162394161 742127774 516889890 1570064848
  ; MkMatrix 1257138893 1010943131 1220316968 1008098602 122134259 1966808889 1498301498 268944713 1423867980
  ; MkMatrix 1947600612 1041288870 1738585834 608105213 1406191251 1648118844 1591240968 910164333 336014458
  ; MkMatrix 813149256 1165547001 1660636699 478433473 1231168130 451448032 643636429 1219528364 1233829932
  ; MkMatrix 427442644 1358489726 31693233 1491214197 1661919698 1638381530 532001521 1412387847 1919203228
  ; MkMatrix 1163746257 1132790788 2053379590 175913168 1403171617 403357051 945836981 2099728054 24021704
  ; MkMatrix 574253195 391526437 382595941 989715773 1066814412 1801150554 1255431800 550314643 1196326834
  ; MkMatrix 1197325563 1936861601 359364252 1558261395 56435017 1839920201 1970250011 2049789897 1164369653
  ; MkMatrix 2056689770 163475901 2132214923 1183217709 1185731435 517376305 340520481 1171409723 1097860579
  ; MkMatrix 1493122068 1961058629 262062212 1351600809 275021794 149975717 2034931811 1820490681 1892707885
  ; MkMatrix 2080765645 1908139595 1822918331 599078489 2068537662 1716742531 255690804 939083437 1417735912
  ; MkMatrix 621206210 2028496068 729225541 1705293592 129144965 737332071 1652275322 1341745594 1162772560
  ; MkMatrix 979563241 1207442495 1752960832 1754692403 949854765 971969543 1734894039 1040105307 1337437184
  ; MkMatrix 89730113 28766505 1544434888 966869319 1076742123 1393225336 627309291 1928427073 1797657018
  ; MkMatrix 716446997 1910834844 1876012270 1501750750 879660094 1337955848 119237535 923146701 663932931
  ; MkMatrix 678464481 2031647132 401431770 1900286467 1174960925 1901558746 380131303 2089363058 228935490
  ; MkMatrix 645674026 180105544 1098940951 415401971 121048253 598364729 1855880937 1591204743 2033732787
  ; MkMatrix 475187477 1945199003 435833310 873673585 1591154940 1456760839 1966076481 292920999 1381258408
  ; MkMatrix 1189883719 1011070741 2121478862 696398371 1926739222 487237257 1628823275 1736922960 1318816186
  ; MkMatrix 1703463820 837794420 747918282 46128496 44731188 241582083 985487100 1848691658 1330424390
  ; MkMatrix 1808483547 368341134 1748503884 1497101198 910036106 486991169 396940969 177055853 96447281
  ; MkMatrix 14564532 583490611 128180657 384270063 1897990052 1866883213 870635903 401670044 39418619
  ; MkMatrix 1500472772 1471888659 1046258346 635156539 832705137 87729730 2089294764 333400101 823389284
  ; MkMatrix 1965748022 2100525572 279807828 1936935320 314329830 1627262129 676633724 2129610246 213211338
  ; MkMatrix 2091338394 2006973819 1457183804 945375171 1041497112 630760287 1988036980 249562228 1813143791
  ; MkMatrix 715722623 1623512518 942303185 399591742 1831674063 1695132147 1100626210 1088114392 591840567
  ; MkMatrix 1162880479 1269408864 637918569 2097406683 1609898517 755026514 1876897842 1655240803 1352686783
  ; MkMatrix 1413049094 1580755517 572641518 377441342 53165472 441943240 417961384 660651587 573556693
  ; MkMatrix 986060811 1811426223 1448247938 546195151 1363421232 499937298 1058521519 68338437 1017380232
  ; MkMatrix 1570670963 647253849 1530207798 941943291 1991313601 419641559 1275959070 1569099440 1442128797
  ; MkMatrix 1986756839 2114635029 494098906 2137919979 1792079974 1311895953 1430799693 885520810 408405867
  ; MkMatrix 2038070407 1028939678 375880731 1942535494 1552485169 1067234312 1290838910 417000052 547541692
  ; MkMatrix 1113380133 16079759 127071570 860443876 469982324 1022261083 91402738 613704553 1651050101
  ; MkMatrix 1762361769 895098348 598978188 217240839 305754146 1244639370 1237096232 1072747346 574537669
  ; MkMatrix 1891469025 977657187 562824439 121341251 224995080 852513940 264444560 28785655 1825532836
  ; MkMatrix 654084285 691063054 1674600029 1939279051 1117940662 999004466 1969193560 1250061305 1217290117
  ; MkMatrix 1387131850 1703047808 1505530887 849829612 1701330401 143809837 1133074897 131130851 689066962
  ; MkMatrix 909561441 1249312750 1347883518 1059848733 629862792 1038340428 1843457827 1166257770 1295414396
  ; MkMatrix 1157970020 1432871617 954756221 103525986 802188179 1027582110 1668844306 163675573 2140766099
  ; MkMatrix 1685591041 415121478 1608126475 1255221690 1744804928 2080022443 1202241167 1586056558 974936768
  ; MkMatrix 1103280009 491074650 13717077 2087822327 1362230110 1071294288 497757535 1376736278 665624048
  ; MkMatrix 76009830 321484326 1224712704 1390050165 1126127369 1368622709 1712062397 468705779 854706164
  ; MkMatrix 1693002609 540731630 1038608133 1514516719 682011332 914548358 503767843 1660320521 208273332
  ; MkMatrix 1422310183 1306692390 394131953 1725590381 1278907386 1131006373 1394144093 486020672 249806692
  ; MkMatrix 854667557 1918759853 563281889 1590420603 1327422264 1297503661 216529790 440893353 421490314
  ; MkMatrix 2131004642 755546158 906029187 684318008 556797013 224442898 612725808 1328857434 1594935464
  ; MkMatrix 1287557758 497776306 1665647943 1348088376 1543915337 1979866373 221075436 841215244 1678986731
  ; MkMatrix 2008254558 551297217 250613028 506148742 2065939892 1781143404 56709566 1130545488 381758783
  ; MkMatrix 877399111 1364796933 938733822 1578427605 478444459 91339603 1228887508 2007310436 1493872724
  ; MkMatrix 1467339773 1637848991 1059214289 1018989716 1485901581 372660794 284537917 597278898 1062105602
  ; MkMatrix 1027766325 1389499643 1025134613 1061576237 2025315149 1566652341 584180476 427616341 1983023612
  ; MkMatrix 334831320 998745135 2106171212 1657230965 1557186988 881554173 1046007975 754257262 1507945311
  ; MkMatrix 1353036720 801630760 590527646 1362650625 72198842 328067908 1334697337 573384010 945256262
  ; MkMatrix 1509329766 791448999 625284690 1465382211 1108839132 907428675 1918297389 1760345766 1136963208
  ; MkMatrix 797885489 351082445 1524897010 183563858 1815482816 1038190165 1698401364 18620110 735223954
  ; MkMatrix 1779042405 2123711584 176502105 985246364 342530778 2037917654 966469479 539607864 583164755
  ; MkMatrix 1542413066 899242265 142853818 502692345 1240208000 1003642786 435823937 28031420 1230397003
  ; MkMatrix 2053245527 1814360540 90714760 356166217 1149464752 1847343882 1806376413 1119798843 1079657704
  ; MkMatrix 1167764503 1169346327 384920818 16550880 262965154 1082751298 1938693146 2129737020 1665040844
  ; MkMatrix 267014935 1168545153 2011752009 1489353788 1880555270 538219014 1179130260 1076658197 1181602354
  ; MkMatrix 653425090 567076855 1565470095 766282773 407019736 1412119897 749105584 933592548 939255803
  ; MkMatrix 1567102436 1951062138 672879107 518637563 47276468 973079556 2050288180 1948520347 116913623
  ; MkMatrix 1871955034 408411623 1093466043 1372178599 1428574208 1256465914 9457879 1261494159 879677070
  ; MkMatrix 364777060 738090725 138117353 1050215045 1219762192 610418754 1427709342 765265140 951919393
  ; MkMatrix 787976571 188759461 1991471290 540823390 1440696140 1094083667 212677636 36889488 139294631
  ; MkMatrix 142862968 2117002626 1367181895 963505358 1590870375 778510399 987329073 2013804553 134419505
  ; MkMatrix 1799816503 860356369 2144690669 389401004 1548767606 552543140 1951300570 780187628 2134695395
  ; MkMatrix 477361174 364590810 831133347 839226119 1087314929 1700752952 1524360002 520448483 1227280507
  ; MkMatrix 437179178 1031102247 1678475747 35554807 1884060921 663341170 372564514 1408395780 1391122398
  ; MkMatrix 1746486361 502612195 629728558 852077070 1943695453 2146199798 1811293911 1399240207 58097010
  ; MkMatrix 2035505335 671150566 1142291810 217584534 787988775 1569336434 2096262611 665008626 1199480850
  ; MkMatrix 650325563 936508716 843235054 1434503120 1132320060 1031017316 52882264 1845491057 164275643
  ; MkMatrix 197795555 1851576518 1327292195 1922313655 1194817669 1245477162 1106123553 783551135 383703860
  ; MkMatrix 2008346843 1004350694 639156616 483580544 115595160 623551846 1065158564 540271776 1644486956
  ; MkMatrix 192172067 1542314238 878032154 1426232400 766411126 79189644 1279812508 1837291481 230733290
  ; MkMatrix 708687977 187069245 2088334681 1992506442 1485597575 1764389553 719179061 1848167953 87119515
  ; MkMatrix 1482919068 802476107 1112201519 340109734 1270225255 1142447892 2000834945 176688415 671513398
  ; MkMatrix 366743957 1870688754 632061393 708736410 606032499 1420205822 349737720 586328208 1259811085
  ; MkMatrix 1514589758 394019090 1824553642 57842068 2065705255 1796647957 873604310 825822383 2098789968
  ; MkMatrix 348923018 164006386 148293217 1097201928 40052803 1974618612 745666891 2017334522 1696217732
  ; MkMatrix 1377026540 350265539 810774812 2023225621 148932849 2015789897 1930609448 59022126 772520199
  ; MkMatrix 1919023920 573371149 434282342 1926994982 1170916982 2049196424 146560323 50337769 2119666404
  ; MkMatrix 752582528 1078431089 1724222442 2024232693 9602876 1674020663 1460437757 1190956931 773883956
  ; MkMatrix 1498708907 2011383693 1619995664 6073662 1505439642 90971205 2125026654 765552886 1881741226
  ; MkMatrix 1697362287 1181738133 1843440199 16445477 168687820 1339280609 193575980 2096177531 616141690
  ; MkMatrix 1377406477 1869719511 248894690 724339349 1335957702 1065504697 1701329146 773119242 1280114332
  ; MkMatrix 659025791 1423813806 631385842 1166857595 816463961 226787138 337261979 941441720 486959359
  ; MkMatrix 1651918891 1314019757 1205225684 630538717 300123628 1916964151 1715404237 1855508334 1153934264
  ; MkMatrix 2104395145 980344374 530997496 1344684534 154983898 780676985 794631463 1388686069 635311415
  ; MkMatrix 729823239 1127673457 746887363 648689552 838331803 764861141 586560146 1087638595 2068271030
  ; MkMatrix 156742361 642857268 1920541390 1724202320 1083897654 695371624 2106658051 20504361 1184095310
  ; MkMatrix 1312733772 986567525 693137512 237556632 961643492 1815600893 1453541570 802558906 1324992969
  ; MkMatrix 720395646 39264999 1087631797 2026545086 35092485 431371617 614529184 93472954 1505615504
  ; MkMatrix 2143574953 1511966714 1194201662 609847937 1150986034 10096204 1620164720 42790285 1672880346
  ; MkMatrix 1056896006 1291764852 2051099216 1555197607 451313423 1566096344 1932462225 1415706740 2103299711
  ; MkMatrix 175599240 510462923 634527425 725173209 502851158 449003189 1443743950 1293604650 1123831354
  ; MkMatrix 1407804906 1154113091 847671257 1727842106 1229036245 1305626468 1249695452 431455239 970652729
  ; MkMatrix 215572271 751692117 1289358161 2014746603 1250085940 1857357828 1498276380 1490349870 1802205309
  ; MkMatrix 1236212959 1537457145 650123605 1203995736 1698713151 997408427 1052649932 2124058448 1814286153
  ; MkMatrix 1210363915 1266097501 990370558 1104748946 1049290724 305599219 776036649 1799503760 419464408
  ; MkMatrix 1774609902 1454986272 216085727 59122713 177727448 1048621171 1030184323 20680747 922108463
  ; MkMatrix 395394116 1032670363 1433756084 1613557095 398315265 464785693 519461815 894874548 944102632
  ; MkMatrix 563544074 220456072 1807064453 824065534 1504023351 1526454199 1165431301 523538761 1428158967
  ; MkMatrix 1512601276 164759392 1444473589 1158444432 585070223 1353335863 1292928584 1135416157 2013035668
  ; MkMatrix 550896338 171330187 1794661369 1947689592 656039038 1911251751 159355615 1355044215 1792386298
  ; MkMatrix 1144509162 2061849034 1084276375 921275270 1839361447 1876019192 1716159846 964864418 1286910536
  ; MkMatrix 260035459 1768641377 95702419 602287064 545522111 1570254784 2123093621 2114062126 449845461
  ; MkMatrix 680361991 235126955 1588773805 419209116 1580896409 1178116264 1605929842 71882036 1126240967
  ; MkMatrix 1588533012 1996079322 2035880127 1447059634 457875808 581099309 651379363 1541199404 347952746
  ; MkMatrix 1838651461 1820274846 1591845261 1038123452 1872164872 1284121017 820280358 536276962 1899216300
  ; MkMatrix 343665224 1091335493 701048704 1282811599 640212553 1400549394 1714094969 1649246001 170350635
  ; MkMatrix 1467553402 371792987 1243202082 1414139671 1176239882 72897661 1325062083 1272490489 1697235852
  ; MkMatrix 414570402 139779557 1697344058 510093324 986700768 209428281 1731418342 118845269 1911472565
  ; MkMatrix 1768747022 953547813 8700415 2142883260 133404610 549234720 1963951910 381758268 858782675
  ; MkMatrix 530917265 888943867 1295573302 1065619695 744472631 1239993736 432078765 1451263039 129156385
  ; MkMatrix 885246945 694838988 502242470 572927460 750190704 921873469 1145954397 1997204521 158543304
  ; MkMatrix 1624850116 907322948 332044423 1091497064 1290242743 2056612325 149101021 1146685889 1855270323
  ; MkMatrix 614868838 271888387 2022838106 1657005186 1514636273 1989419576 897044525 1879910514 212422499
  ; MkMatrix 1264872439 1543900995 634817235 1488893100 400125529 993821459 179605542 1640779525 362723607
  ; MkMatrix 1519741919 2061686307 828346472 1265988049 1404625513 1422402453 1726369984 1091255284 1452182893
  ; MkMatrix 1069500052 482075726 585402511 190050655 1615378034 1396240896 1814705115 1165516600 1207447224
  ; MkMatrix 1247169724 2017869777 1065461747 1177956684 2085051005 2010857103 683784308 1797625635 919011121
  ; MkMatrix 905228797 1698877070 1157753191 226594385 539958548 1059924444 1216276365 337768569 1388107190
  ; MkMatrix 721186231 1016782857 2008726936 861739302 180238390 1945483682 1542556012 1610334886 260866274
  ; MkMatrix 916983402 222413436 66540691 504440587 2129129703 116217610 1099606351 1300694370 600144850
  ; MkMatrix 1888751317 1524694410 1350614352 743407049 2002718784 541508902 1375834601 369239121 1980859274
  ; MkMatrix 904836252 563107399 696338202 1939166045 9619299 1534904899 51747305 310441753 1296829056
  ; MkMatrix 573968466 475684055 861645203 1103492599 426249193 919040186 1184226232 1977503606 378368025
  ; MkMatrix 2131879849 1731971207 840060391 1209390921 211779408 1952180901 264171258 902182616 1614002410
  ; MkMatrix 769119323 122432434 360007654 159554515 500338214 175363218 83882163 452318305 878897719
  ; MkMatrix 1074914909 341531336 4980063 836221399 1335741444 931678759 1719001962 449319077 856357220
  ; MkMatrix 854798137 2142645505 564425890 1825052627 819136669 1521343610 1105697450 364316696 262129096
  ; MkMatrix 387926344 2058165008 785961897 1071909447 116726172 204403870 1788162366 1090297713 1130986343
  ; MkMatrix 2004682437 823863587 1560143180 283283465 859354830 1947585834 234243044 630795129 1604944176
  ; MkMatrix 756445727 1162582200 2038285584 875617336 1985188478 1649445472 601986210 1738663986 2020901177
  ; MkMatrix 1184023761 1207928575 1647296032 1658452862 1336978353 900894441 1439357160 1154677856 503344374
  ; MkMatrix 805482877 1228253740 235157337 471340878 169258403 624212186 660928166 884261114 1363005566
  ; MkMatrix 396969836 709364036 877065720 851734490 1428728058 140927864 1257237697 89578749 216259490
  ; MkMatrix 1012511944 807057442 461913695 1447340927 1089918427 882174991 1334268454 336101874 328037677
  ; MkMatrix 1634214520 679744277 280583742 1660467541 1328258552 107769195 1853477259 904376318 796978476
  ; MkMatrix 931340262 339262378 1745756429 222084070 1360311669 228041651 699574210 1050974920 992470447
  ; MkMatrix 632218414 540313674 1732554837 1167278053 872862473 1822275782 1309506678 494202351 1881007656
  ; MkMatrix 802168940 1037385437 1909841389 830796228 1682969135 756626308 356531993 2101874401 1054687277
  ; MkMatrix 1582808524 1147926766 1465190782 741343677 1466203711 1023440512 247993144 1084042806 1731033823
  ; MkMatrix 1943364045 1261270946 621881715 1384450670 135359718 1117964442 445342525 1765451698 1450186906
  ; MkMatrix 1012431234 1735181310 1173228553 243386076 1799788841 736585284 1344920433 1168528295 853933026
  ; MkMatrix 1541890707 1567814651 505417621 534032953 1621307421 1779772180 2029981005 360410513 743544465
  ; MkMatrix 1593779600 23070247 147658197 553240314 471126225 1612731034 1086440888 1031979462 324681778
  ; MkMatrix 1235978710 1132892313 698445613 657947630 79629679 1774041588 936524516 2048150967 114396117
  ; MkMatrix 2037599088 2077057749 842471915 1920656333 1226252596 75407880 816079157 1312906081 874109650
  ; MkMatrix 1293060814 36626528 481479626 990568455 2015732453 1087293796 1818913715 1964561390 254394143
  ; MkMatrix 33498745 1765531133 1416715888 1387108602 1084857880 143193837 1044475498 806793813 50860769
  ; MkMatrix 1071162689 1890489523 1398531315 1738344809 1118813031 334466576 851971284 1869651589 1430802616
  ; MkMatrix 1090751444 1977427728 374750646 573993547 2129387263 2025161452 954434326 884186627 424057573
  ; MkMatrix 235047904 939083508 933606250 1180807098 1335791362 1286313471 1664512541 705601891 122463059
  ; MkMatrix 677385223 1753791217 472166664 2041947872 1200464059 1838828936 1546563454 856405569 1867089751
  ; MkMatrix 1911417413 2008827129 64376264 138205143 1207704233 588211758 1791237431 692388048 1824361875
  ; MkMatrix 1808051153 706475871 338398083 2108129905 1127000384 1469522338 1756800547 97385343 1415038061
  ; MkMatrix 25039702 1123887658 490251548 879000575 1817434551 1329872127 776415580 607255122 1819643623
  ; MkMatrix 1644067016 1738850054 1164711686 1369425656 1407476585 733929869 1874203873 2109318671 1850331056
  ; MkMatrix 644817122 2093400822 1583883978 718725935 1832292357 2082463194 210776766 1289199161 1488446833
  ; MkMatrix 1639123879 1303062005 662956178 737739192 1047565658 621994465 982129027 1145613309 1612968641
  ; MkMatrix 396050851 2084485094 1155936110 1350713767 1179135276 979499655 276240319 1146655473 26186584
  ; MkMatrix 1531507068 204293137 1896592370 1131696804 1418596466 527259122 1926800042 672065154 539128568
  ; MkMatrix 1614412765 1723831398 773220625 991963142 1483839855 1695657842 394488745 1390762993 245453531
  ; MkMatrix 1918053851 1367641519 502362525 1204796354 977914133 1877438677 1670620088 1479072782 674987024
  ; MkMatrix 1802059851 565675178 1110610202 728701659 872868375 1116070236 290488890 1700772371 1458714051
  ; MkMatrix 1983574300 1604224142 1200637877 1429262930 469046515 909973137 560024732 374260815 1948667965
  ; MkMatrix 446196927 1461964750 1804496164 1780785396 127261834 2057415102 1299149243 1648205708 409383295
  ; MkMatrix 1024705237 866058754 2012999889 1308847138 1775589388 185289374 1303903514 208235814 1058461759
  ; MkMatrix 201069683 2071189364 357252992 1051847452 489469441 175453875 1906456871 1565703553 1337337568
  ; MkMatrix 1927513207 54842564 2011192543 1898121088 15154534 131832218 1750302902 1500263437 1315423431
  ; MkMatrix 52029874 564327192 2113726104 531817667 733453102 2049355289 215335747 1208069432 1599118989
  ; MkMatrix 270725124 1802722816 358115325 1203312587 2076653487 2137465752 898492500 888840212 906565954
  ; MkMatrix 608506474 1417904998 376586948 93458120 1623664036 560682638 2113083307 105498239 1479365470
  ; MkMatrix 1965898957 699426219 1093758275 1868652118 711891305 1836722684 880402065 2097382307 729426774
  ; MkMatrix 1197261809 1331589893 1236685621 947176858 884050337 1878915901 686439238 492174760 711789171
  ; MkMatrix 1549011024 1451677727 257568526 1622859760 470880993 1339020598 1721646599 912909268 1010356208
  ; MkMatrix 1394787119 1123674924 762238967 285744223 1238395632 528125250 1651136953 1103710660 852096901
  ; MkMatrix 617088316 1261533699 2019814535 1049821454 2127501273 616056059 1696820732 1744424386 13714185
  ; MkMatrix 1229814399 464992500 457275784 703159643 1247124630 2074666925 268013272 1897845186 1227123909
  ; MkMatrix 244856929 2012257089 690212598 1704390369 1409568697 745441158 214559828 340804241 1397661395
  ; MkMatrix 801210459 23497828 47638656 991743481 1578209794 1783183632 712014573 2138402751 2010884837
  ; MkMatrix 1910386415 1639338897 844655844 1883763804 172886006 433832740 692814385 30666034 1665391447
  ; MkMatrix 2015828548 1493264004 2062462853 1629713792 1009344130 1646717471 519744097 1125680811 1796471852
  ; MkMatrix 1835501664 1999987315 1298877304 1262956799 995381157 1787058462 888155207 1703721753 1794942914
  ; MkMatrix 928471896 1786303435 739441163 1888245603 1350376693 1031841542 593044988 392189669 31994303
  ; MkMatrix 215153529 1360422757 1314678234 1781806305 2028357744 104003016 848780449 303617142 2136840109
  ; MkMatrix 1686905425 1856136307 1636165546 458937486 2008354159 1802590320 1005258934 1610335412 585743306
  ; MkMatrix 53836281 433162304 1550303847 1177981514 1177118676 521693788 79220833 398634946 1681841539
  ; MkMatrix 1636598258 776854993 715220357 1483834825 11402748 2136780885 504217959 1199984357 1416769323
  ; MkMatrix 571125825 736194084 1551573831 1727471185 679811713 1073170957 853841449 247510672 1881673166
  ; MkMatrix 694808063 1345663596 2008714432 1861381481 1853926713 1424603321 1617477452 436270914 1056986799
  ; MkMatrix 588188738 782925145 918504070 1544068016 386109458 362310722 1006443682 1406561092 1182303264
  ; MkMatrix 1043196944 1028615001 1797263598 1623567452 467628146 1092992800 1414716118 913668446 792089284
  ; MkMatrix 1372262391 277285817 2052757405 1416532854 7020127 978109986 207180357 1021897182 2011588125
  ; MkMatrix 614999392 1542665441 1154299651 620655532 1993114045 468422195 453480971 1643053198 1203297061
  ; MkMatrix 558214976 1221144205 633775227 562178849 1655590538 596272234 1928318498 1820002657 696467061
  ; MkMatrix 1121078507 2094285302 743547366 341201636 1340852240 306043454 2139670710 666058711 141364050
  ; MkMatrix 2017116964 103178154 888849439 1886052392 2008893210 1974167593 1593755152 469244630 770915766
  ; MkMatrix 316586562 1704556691 40721257 1245016998 714550901 1808499759 1447855806 1382512560 230671505
  ; MkMatrix 883209699 824121272 629643645 999462239 1553698092 407623695 2097588087 1016925685 1734645014
  ; MkMatrix 1512741604 1512842949 1404484163 1365256393 744131015 1412880117 587853575 622636730 1599949983
  ; MkMatrix 435846361 1036163119 1899301616 1043124403 1762919260 990991075 1015583828 1546663522 1436335392
  ; MkMatrix 1528768065 857235054 1949998735 1523557410 741230885 859037143 1971458282 1048295376 2092314421
  ; MkMatrix 364968367 530845146 1683933107 1859028684 1760789583 1154725494 635534090 562849929 382676102
  ; MkMatrix 1341685924 1770587180 1899993552 2023366919 893915110 1730493836 864823980 1720678526 935922720
  ; MkMatrix 1430119060 823481242 658408711 700985412 1979004497 322939571 1726495867 848331135 1145217688
  ; MkMatrix 878909366 433368474 1210967251 781760528 1280202402 769995290 2015210723 398559322 1355455004
  ; MkMatrix 2145405193 451131243 252625853 1880454465 951581873 1096103796 1586976442 1539761075 2023278232
  ; MkMatrix 417539093 1989662889 1512864108 40395813 660031914 1091904930 56955559 2060570832 1227322311
  ; MkMatrix 299134768 1026768403 1095597217 445792330 1077509777 1781064693 1868088945 328832111 2143534544
  ; MkMatrix 2087337103 892235551 972778733 1124765233 2009571003 483790112 2091942382 607333764 79017268
  ; MkMatrix 1502160616 1289580144 481978745 5234339 1265809165 334327199 257590043 237200371 216421394
  ; MkMatrix 1962095531 1522013735 842419499 1238031348 1080954013 2016396305 673551704 1431784981 687203452
  ; MkMatrix 37009199 1891568535 1330787177 1231066769 1662220422 1771241133 2106717151 1674831772 217035843
  ; MkMatrix 1886041860 1805586674 1872553089 141960585 1662769191 1145472023 1793760428 373137894 887925834
  ; MkMatrix 589810594 1277907571 2140501088 1540007896 1731753430 427228769 809855013 504939365 2091895564
  ; MkMatrix 1499163126 1586770542 379703924 945232235 1412536799 1706308542 2144727946 838822548 1977942366
  ; MkMatrix 1637912452 2088818089 360037143 81243363 1174608112 656555272 1418732986 228931912 235488484
  ; MkMatrix 974469497 1699601358 1652401203 90424132 1910758610 1036414487 2041275409 342345380 1790937727
  ; MkMatrix 1962390262 2102192646 1386167105 617926013 1945893959 1630104419 708256376 2088023199 1107711657
  ; MkMatrix 818014600 313950028 277787949 1254979295 2145333972 27644918 53363863 1558424490 526143577
  ; MkMatrix 285150557 589339836 2082702549 1763176836 1212435689 167414594 1379862347 2031844291 1682406193
  ; MkMatrix 92533581 2120317487 1634222377 466163232 1603000602 47821269 436368927 1065053384 1659728647
  ; MkMatrix 609391999 842388673 1118641564 520713858 312764066 521727291 2117153018 1712445584 142904841
  ; MkMatrix 1087658662 287766399 545667014 2061796934 1509625936 121834232 1791515221 1542140789 1936244301
  ; MkMatrix 1455725792 24130898 903326540 394186216 345857338 803117059 514861387 965604007 759515212
  ; MkMatrix 510301073 1877725462 468132402 1856922743 960992364 947500810 1210248942 1648083978 169414607
  ; MkMatrix 971143029 1364552559 1524652922 72829406 311117465 1991020140 827795873 1178965221 5853820
  ; MkMatrix 465547966 609118875 1584320989 1296827725 1859954601 1090422181 1310047408 1697304591 299530353
  ; MkMatrix 287548021 125969087 227144787 1562477472 859324093 132701462 395447640 1424070798 146150949
  ; MkMatrix 1760678542 2038931003 1958188044 1569455282 1970021227 1637441878 1170335022 1374586389 307799985
  ; MkMatrix 1775296214 1424461092 1020391546 1105476547 186640389 158862323 1286912280 655057249 923737993
  ; MkMatrix 235084588 1218433973 1259894274 2144733371 751102764 1995147826 1205837629 541574195 24680884
  ; MkMatrix 1117275594 1883224087 2121531192 1539479964 362313695 847932535 1287883893 337101325 781199143
  ; MkMatrix 494124716 1124071275 1855910221 408214753 2006746944 521630895 1136468496 1728437697 1079671203
  ; MkMatrix 1659640455 493320848 2067674484 647013421 928353718 1523059424 1964100415 1570191011 1559902870
  ; MkMatrix 192631179 1678231275 986428868 255779710 1186868151 1503436180 460226205 631571450 2039559967
  ; MkMatrix 497332128 1840254579 964092223 233590012 1589018354 377698146 1476142966 361185068 174113392
  ; MkMatrix 1685059342 1618611735 381289364 1324947485 1703892832 1243589330 1019774922 1182774627 2041540989
  ; MkMatrix 2051240620 399175179 69434493 1721567317 1917312866 1828724609 395748521 1690429517 1003539988
  ; MkMatrix 435644048 2093024491 97686384 1094732879 517107310 652058886 513710868 1773927534 1399471226
  ; MkMatrix 731352777 1939752627 435051989 1686496879 309064953 1361656608 817465635 863512995 1617448140
  ; MkMatrix 1607632578 2083517797 779586430 542353915 404599709 1306098030 1396193943 375808582 487815070
  ; MkMatrix 2012468723 1769359693 2095941966 166022319 1075511277 1387118187 214586230 1164658962 882629005
  ; MkMatrix 1968383356 1217792162 1335522000 119324315 1044806267 99361258 1085997195 1349838032 1860853144
  ; MkMatrix 108710118 775000491 1794522139 1494630124 1854758839 522203585 1138149 313115766 241929768
  ; MkMatrix 2143733020 634849364 354331799 728758894 1468512080 2032026454 1146361093 1723396882 1080071536
  ; MkMatrix 305276790 1776002992 1342485250 522733922 401869566 595414292 275096789 1392817687 666002652
  ; MkMatrix 57975234 1959146628 1994647938 2072652597 991380182 1294610202 1756282732 598960182 996492483
  ; MkMatrix 887998331 119496924 357856902 1547597297 1251531885 989813514 1514660725 1554336955 170643039
  ; MkMatrix 1855889478 1565314082 445574055 2143232286 1145935616 701004400 200222515 1536283494 2111474946
  ; MkMatrix 364207608 1838082137 213036909 385389658 1135561827 422119286 709540253 1532914940 599041598
  ; MkMatrix 56798945 1529571902 1815351490 1330486399 1171312503 2046563183 1421176923 1155197023 1089116092 ].

Definition mrg_skip_matrices_9 : list mrg_transition_matrix :=
  [ MkMatrix 0 0 0 0 1 0 0 0 1
  ; MkMatrix 619049912 1079722514 1354807971 149667838 1552977993 4061586 1997631510 524238633 617875195
  ; MkMatrix 535516095 218819892 1803453533 806567535 733030258 1642001994 584507741 709364008 1343746314
  ; MkMatrix 1974506565 1271326081 1095774688 1443001672 1382192579 1117119695 167911883 1706355060 784968308
  ; MkMatrix 1904573868 644902499 48552544 965945966 611689662 837295104 184995987 1652816647 784823112
  ; MkMatrix 1863020615 217684939 1250054277 949936848 2137033600 1176240459 730995934 49843177 1797465941
  ; MkMatrix 142994373 801421864 157686382 812649715 1268776227 2147238204 1983133387 870172306 1608461014
  ; MkMatrix 2072136048 2096251095 1897143067 878046842 655472403 82513290 794521592 1888454473 1390377708
  ; MkMatrix 6461960 699114421 1874375723 1020466481 489501780 696852735 1093606354 2140942810 813913620
  ; MkMatrix 1635608418 1558581574 1377684977 1734235561 332236814 771370263 1429827932 374802326 845301094
  ; MkMatrix 357748305 2095175263 1762713580 1778264428 1695858347 359350621 1744315045 1704625074 454994477
  ; MkMatrix 151399900 1590309679 2058517990 1559390799 185298695 1537319714 876210996 823220221 4545800
  ; MkMatrix 1394832398 546484721 2060952283 898294513 1124410352 1991028664 1793588980 270538370 2103463746
  ; MkMatrix 90931320 927287731 625526632 334578869 399623455 895461769 1278482654 1390348493 1308865853
  ; MkMatrix 38279199 1423388043 498137195 849770688 1258220986 1302616141 149595728 1656405642 893227376
  ; MkMatrix 451391601 52549319 1765710159 972021851 2106230937 1936441 1872406587 1068298822 1947074714
  ; MkMatrix 1062547187 1665870345 1375864241 429355074 1027307948 2045598106 1304149998 1905637857 38212151
  ; MkMatrix 1001576382 772256397 875033500 2000436370 1915668879 636453028 1511268399 1364118248 149737304
  ; MkMatrix 1644015529 595404386 400422380 448997642 455803349 986366592 1343684261 86082333 1821538903
  ; MkMatrix 1350136621 57403831 1543436134 1856879695 314740216 1839713843 1221658836 999802373 1360673756
  ; MkMatrix 2105336211 1807611667 1234099556 2070925050 403287763 104376352 338574374 1308178925 482296051
  ; MkMatrix 393316110 1360338099 977026399 1465102986 133869482 148935637 602776379 1146757071 913620513
  ; MkMatrix 1230497636 1562221818 1384021246 1191407244 1250908662 702050916 708806696 513828171 104701161
  ; MkMatrix 88277466 709143456 1724818603 1475288839 459370051 1322491437 939824053 394731144 750710880
  ; MkMatrix 677935013 140364546 483812281 252444054 1710605949 1298951662 243927564 596566136 1072311072
  ; MkMatrix 78939106 1186136771 602572284 817467367 1770008375 1802753178 1904343954 1654185536 761546708
  ; MkMatrix 429434322 1205705214 1007057269 1554608428 791363309 1270151566 1206749315 595375256 153485240
  ; MkMatrix 978931300 1320254265 540214532 1665202339 755305851 977628310 1271786447 1971696359 2105321590
  ; MkMatrix 1864548026 743097659 1339066245 700723693 330573693 734750944 1511400144 601230372 1408633251
  ; MkMatrix 287651679 1237537606 499631393 1113542764 111451801 1029485336 1857298443 785610856 1554474919
  ; MkMatrix 2093636885 1349622704 69079890 839870784 1382173384 1153720706 309522737 409415279 1131503854
  ; MkMatrix 2104734668 317095917 1114941443 1054662176 93930203 439432242 1175888523 965223740 1903585541
  ; MkMatrix 628554766 1630151487 1507185511 930631393 1013163798 2054402413 36525390 1991589330 1389849356
  ; MkMatrix 758762081 1600760383 581144288 522917653 1478955063 1442567837 1901606645 394226239 1233601697
  ; MkMatrix 523260636 2105403486 745814256 1502381784 1868292349 1492765534 1726584872 39083620 1854613082
  ; MkMatrix 1488887086 1129030464 2075424761 1088604653 1839205978 1252165078 1422418619 483383954 1025776500
  ; MkMatrix 1667428830 61481922 3488054 1995749386 790395665 551623655 1421032510 424646184 1071266230
  ; MkMatrix 2138168344 980713428 1237089983 1093686229 684462007 661851237 683319503 1176646950 1346377398
  ; MkMatrix 1792554299 772948721 781982845 1254311261 447767026 38180534 124374564 1640276893 1269534484
  ; MkMatrix 1080038599 2132773768 1051228472 2126522347 1867664802 1647386076 45146616 1681224302 1493984661
  ; MkMatrix 1173059173 1290929837 241328073 254507121 612986054 128739850 1270010949 776370930 1414998052
  ; MkMatrix 416331673 1466644764 1530598417 1108629674 976898083 569309402 1546088491 1748614708 1223876394
  ; MkMatrix 1158093271 2135212453 1800640037 1132091666 1740986325 763512167 137546408 1942943882 1275704331
  ; MkMatrix 964198910 796077917 154965414 689787887 1958502200 1532350122 1980874883 318604225 236377986
  ; MkMatrix 1356589332 831882403 2127838631 1591000185 1406147889 1645566325 2088761329 1826301361 874316595
  ; MkMatrix 1089372067 422654497 1022472868 427155708 1540381111 792993550 1818666949 756989917 953312093
  ; MkMatrix 1639559898 1339547579 2094179613 1767564509 498235731 550953250 827604152 618909597 2106978472
  ; MkMatrix 167503462 38951599 1900173882 1958753685 449394992 195073752 972904610 544495248 1117815114
  ; MkMatrix 524746468 1920573749 1153626273 651059922 854377130 448422297 674555922 629713714 2137215883
  ; MkMatrix 416965971 918319397 1756114414 245637043 343430591 1953497313 320771078 2066102448 479288193
  ; MkMatrix 263390522 1671110345 1988347723 314212821 1420378877 1793672027 2112181790 648691018 978588656
  ; MkMatrix 998893422 2056054170 660163555 2088618751 702155549 1921189837 1813108212 595037418 279144088
  ; MkMatrix 1539346154 816228068 1615584931 103930926 684541693 1780695467 1743960794 996783201 443041755
  ; MkMatrix 150510525 1452172420 1576996487 2024976832 1270920475 1936364648 1758262319 1302210838 600398317
  ; MkMatrix 1585750596 2123791680 1244579270 1151556803 1488518691 1139282242 1060578850 1854096029 1805952722
  ; MkMatrix 2041753275 1166253998 1892270849 1226528131 1682466410 2062253087 1922101545 1090663502 1515482549
  ; MkMatrix 2047844705 1751937589 1814392436 196114955 1589587318 1572062854 619925343 301263632 625151588
  ; MkMatrix 651472542 1006945562 425812063 1602240689 1730929540 993678537 1903385675 399184791 624847222
  ; MkMatrix 2133292870 1571485875 1407349081 861463532 1579821175 1898575194 98602669 1793320239 844784909
  ; MkMatrix 730789890 2023683424 1870038081 460077793 106912621 694165139 1519706100 2075664305 2064784673
  ; MkMatrix 1366682236 1115529983 395571054 1721054062 500723368 207694471 1503993995 657785252 1558988718
  ; MkMatrix 1076362069 1798837596 1942883948 961910767 559288357 240994866 355297192 2126046938 1747907211
  ; MkMatrix 628299032 1568637984 1727002228 467992943 582594107 489739864 1985090005 310082353 1869929654
  ; MkMatrix 94760650 583305894 2074673943 1991469711 304647757 1623881490 432573598 1625320587 487404828
  ; MkMatrix 2066465019 2090178646 1594328122 2078969693 1154649322 1259541707 1905107801 1519556145 1159675583
  ; MkMatrix 895085680 1963782608 2104952676 1808317680 529158016 1650502620 1527276759 1166396632 1409409383
  ; MkMatrix 1729345243 1306402272 482577818 737116431 1447421425 1023253984 553935653 1939103323 1090857809
  ; MkMatrix 2016037859 1545143026 1172767164 613561883 1457402766 732155593 164893430 1629591006 1531291008
  ; MkMatrix 283847497 1801444704 1293134334 691826450 1193627701 1379975533 58523621 778717365 1457947535
  ; MkMatrix 821183652 902587135 1879027841 1028735675 1676122846 1903663045 1749616687 1167989111 300959016
  ; MkMatrix 1472129492 841121110 908649993 970421216 1208938670 1614365976 2061608819 141483947 1911038565
  ; MkMatrix 269452246 686772962 1902901736 1213480377 1771316637 1236709770 396311493 323152078 1443465045
  ; MkMatrix 1029485271 731203554 953219060 273126457 751845459 1551999715 2020631895 1176518029 1306431790
  ; MkMatrix 1419965073 643245435 1779965963 1636982683 184609028 1542122030 166481429 397598177 1870810766
  ; MkMatrix 1247861429 1806275313 308074826 619986808 924882933 188407807 993751370 1345915652 1742302643
  ; MkMatrix 599647232 2000369910 2083347069 1213240746 562505679 931499920 1757322097 276055465 1002757178
  ; MkMatrix 1932636252 2099931020 125537017 501738785 1697895693 564514873 1323821182 253149736 1179796556
  ; MkMatrix 260075885 2040349319 811858437 729147395 1551280132 338710024 1122806658 121416700 1508784287
  ; MkMatrix 1305552928 1598771188 1037722356 62473197 1046699198 2000821122 552183328 728202491 1972944332
  ; MkMatrix 509201895 1408587283 1134964849 2041640515 582300407 693495708 1751234810 354966508 1317055588
  ; MkMatrix 1303147228 961406249 1173247523 1737978189 1314254776 1364298178 480994796 1140133281 1022582310
  ; MkMatrix 1214726185 1937767947 2118578232 1961567074 1717423596 2049484694 757013495 1159741439 1204139910
  ; MkMatrix 510264271 1827402698 1413529477 1918018869 1932026946 682442562 1389422945 1968591750 169278010
  ; MkMatrix 1056171287 24138713 572456414 2132999492 1764613686 406098039 322947918 1805219356 703290182
  ; MkMatrix 1837245566 1821568270 1642711518 1504952911 154329757 1822777416 575242693 551998692 1249620403
  ; MkMatrix 1436769833 529861437 169192894 1676740967 1968499337 1422856366 315438260 1566337576 990784456
  ; MkMatrix 496330537 1677185697 774381754 1384679993 1421260484 1181347462 575658507 1934818792 2032564095
  ; MkMatrix 1150609023 1645537618 1476042798 1556290112 183406315 1564947007 1679930622 1183062759 1809443814
  ; MkMatrix 107679818 935328944 305182780 297007152 1316894110 682892643 388292902 375853001 1292719742
  ; MkMatrix 1159525526 1777607226 823155609 1622622319 2016975448 2016018386 761794268 67504137 1671226453
  ; MkMatrix 2055981591 1509963515 1409020949 1963490739 1586675444 1971485964 1148497591 595148941 1485747497
  ; MkMatrix 1352231775 59852365 2116842465 1381470563 594880555 1197183979 1590453890 1898553525 467257733
  ; MkMatrix 1981981690 892044988 1600409512 1864608602 1960436332 1272093220 1155176885 1997167604 1690924400
  ; MkMatrix 1343019630 2042352255 104541280 1865154188 365899493 498553561 37421716 1422559858 1800738825
  ; MkMatrix 556658466 1618255052 1868683177 627613784 439658035 2067669683 1467121335 1724734052 1124491305
  ; MkMatrix 593813029 61437219 959676791 1595779669 428073552 819970300 672687186 2004584248 585462524
  ; MkMatrix 589506868 715770711 217679424 1269352674 534561062 1368436766 382971650 61570773 1908875662
  ; MkMatrix 1140812398 1681209913 1901036319 367970173 91591647 1067177209 346408290 1320469095 1240040199
  ; MkMatrix 1418471223 1857089000 1475679116 582520281 205799578 1682746619 779343617 2135111115 1069123423
  ; MkMatrix 630870701 327211068 380522142 11063386 1446026407 213780505 842569877 1541525029 1872860288
  ; MkMatrix 569073780 656699519 1694230899 782947865 580892177 457523696 1104600876 2114324476 1558865528
  ; MkMatrix 554799857 521632850 680652494 300995519 2009144614 5330353 2074651241 1829725414 724495625
  ; MkMatrix 942219264 1648722318 1457570136 2076132118 138652350 1748442305 1382486241 1699636116 1261766627
  ; MkMatrix 815365015 1988084037 1877673235 615075910 590534597 1165835370 395889032 1765004937 1798143969
  ; MkMatrix 1648265420 953347173 1114567507 862843432 56829526 376454276 553311781 776558491 966150060
  ; MkMatrix 2082576863 930072806 621825541 1594753343 176492615 523293451 1619788839 920453067 605953318
  ; MkMatrix 701034094 2030074050 1462994527 1058216445 122407161 1140467023 1385953616 143635950 1145876402
  ; MkMatrix 538222559 1923577402 2110569094 674110487 477628269 1627825324 1970326960 2131979698 1664170657
  ; MkMatrix 1700725382 119647178 1550892453 1366958948 2084566890 1886625306 1534818690 1903514230 344595086
  ; MkMatrix 1385797973 60433709 1650118736 33384039 957644357 971268789 129058654 1491452063 757758682
  ; MkMatrix 2102416586 65112053 2083551662 1470724268 235001699 2120994989 160087410 340951851 1296784557
  ; MkMatrix 300760221 1014582586 1026821242 1553025580 2121475489 1016690691 1852095506 1549037247 183448082
  ; MkMatrix 1111421159 2126681308 472687233 741417662 1222517844 1630309720 2049562478 1956806077 215513170
  ; MkMatrix 1170523436 1457723623 1578689433 8472112 573522605 618543691 395831500 2017414734 1370666001
  ; MkMatrix 1280461345 1067618791 350478701 2144875656 1156159905 1156328232 1234254008 424396565 1544492019
  ; MkMatrix 1519498198 1599946245 1591842551 1989044134 729476589 853373511 326794181 1982040353 1431626836
  ; MkMatrix 95586490 157854048 460248005 1475852801 2017151587 1198140600 40898795 924667311 727150387
  ; MkMatrix 253475368 303741073 61520603 1827914903 717658381 1074018153 1081478620 1449397386 854614390
  ; MkMatrix 412799901 1587050682 434458848 1317586860 510189272 1549944899 1932087598 426607836 2078863447
  ; MkMatrix 1277521508 468262381 1831512806 959838628 1570309460 880123312 664476188 1586265421 1122490745
  ; MkMatrix 252496774 1705995803 2100008057 1781210528 610186719 973376838 1544577799 1133234116 1931541696
  ; MkMatrix 1893321191 1305644235 502385748 1392237567 298069941 1824097824 293448239 1182156501 2139172995
  ; MkMatrix 399740898 239063798 643445332 1503214092 284010284 2031889766 576529008 12938751 1460597727
  ; MkMatrix 1033545183 822700471 1192169599 1578513548 491506220 783082204 1347587557 784735356 1934835763
  ; MkMatrix 603668926 1443927199 1790770295 2021240672 1085889182 1876888169 2100227077 964038648 1607469114
  ; MkMatrix 589816837 1216622654 790477698 303154437 1366019987 688064214 2052893776 1302628533 158480724
  ; MkMatrix 71258286 652521893 391939259 687778500 1103228172 1271826587 698419230 1517073593 1968116785
  ; MkMatrix 1763273811 134511335 2024715531 1733513426 1489570240 698481507 384382633 847360228 2051987619
  ; MkMatrix 1373627429 2098903205 483600411 483141867 1310375215 437017599 223270069 1371364984 1259894200
  ; MkMatrix 1188913832 1687990983 1564595371 56912222 839757312 412877683 1742210729 413506108 1554023633
  ; MkMatrix 333878157 1591161215 367113531 352351632 443942553 1152181313 1359714442 91199942 626770938
  ; MkMatrix 1536434973 901681514 1751302415 1924063993 694754263 1759793644 1564871369 195243008 1485412669
  ; MkMatrix 1548219053 1979062825 1843053559 566075770 2119350760 685566880 1603105151 1186104973 952594743
  ; MkMatrix 1998628166 884895768 436444206 605134758 1808086276 829621004 575573584 833180733 764853743
  ; MkMatrix 1905107722 1909116090 1953400399 915112734 1003466302 1457076752 584430077 388439660 867512421
  ; MkMatrix 429258245 1844867947 1685159135 455922488 1193860205 84014826 152515393 1798406471 1745533946
  ; MkMatrix 1459586820 1798056886 1603326090 661070764 1439992998 1287201499 1045431383 617292327 1975559960
  ; MkMatrix 413675905 1966037892 1425614349 510384558 152332911 210638590 278149019 305658219 2085461999
  ; MkMatrix 1535470393 1383000287 588219292 488046713 153228518 93966373 1951195432 1093618500 1917945690
  ; MkMatrix 1644068647 31251009 1456867641 1956305524 164175860 207446259 1276887268 220904792 1375349371
  ; MkMatrix 958856143 369867509 1047392691 1986103047 864586796 356390406 1566901143 1759810194 1751891781
  ; MkMatrix 234276797 640047063 1915085077 654355000 1464907629 235927637 1510387857 1951080350 1855771330
  ; MkMatrix 211780435 2021921089 647892463 1384322200 1354523515 1410927025 690938916 712996850 31232794
  ; MkMatrix 1751944637 1272104129 910106382 1488801641 1816271898 336800959 684851864 1678600218 1014013457
  ; MkMatrix 284336500 283655605 1591997379 478004065 1083146124 184137830 453807315 1929784240 407721640
  ; MkMatrix 2048520758 368041967 1495191520 235287456 101384086 1583794984 1370360005 292532366 643242852
  ; MkMatrix 2103342379 1312753710 689930560 841299291 773033125 469209695 2136319902 308335690 1738857457
  ; MkMatrix 413655679 882020609 1764721498 1173126636 1280407774 629866939 1436893887 1421833052 2071256394
  ; MkMatrix 845286788 551250710 1578652747 1739753299 1493217213 1114393793 436995643 1908927371 2006208639
  ; MkMatrix 1662892811 1356084002 1676740334 84173488 1411820974 1955187524 1421921430 660242811 214368349
  ; MkMatrix 576287284 1354478177 1478181193 1031549141 1920320303 1582274357 602262621 928131406 92235758
  ; MkMatrix 45571754 1627089989 1233442969 497888031 1969599846 966894781 1002403978 2079781921 1349050356
  ; MkMatrix 1164043895 1714916448 245886657 1608124340 1709150384 770630173 1372030467 1879532953 299694574
  ; MkMatrix 1912549594 1821178164 1143210541 166648689 1308214400 507540712 106577833 1525210818 559642249
  ; MkMatrix 2096016015 163735636 842455649 1934104581 1611709380 1040742766 1122440775 1004379398 1045428226
  ; MkMatrix 365864355 1492174029 1844601305 1558897888 679198928 827250593 803444321 1385066558 2127160915
  ; MkMatrix 1175408101 524942709 1622803019 264034504 87649688 220924056 1115982870 947182323 78258422
  ; MkMatrix 792746515 1426721958 1710512169 638254992 1633081624 612389766 2140420845 425978608 195498923
  ; MkMatrix 1547722614 1120841582 621268885 1976123762 469534678 2082377220 2039920505 1799022497 1665237904
  ; MkMatrix 383526381 80209027 1813798528 1098959813 1165956383 53348976 1365629657 298866886 1705598067
  ; MkMatrix 1559500958 1566104373 783540322 1313667560 292816618 805530673 1897468957 327430878 2110951093
  ; MkMatrix 164244733 1323463668 303532759 1228414524 1101007457 514358735 1734119937 299349999 888860775
  ; MkMatrix 1761764813 791895146 425206129 1362894226 843541425 1571141832 1163796676 526068660 659417394
  ; MkMatrix 955424070 1203069699 1622331422 949671905 1584693230 1942413098 727738473 2090827810 1926645320
  ; MkMatrix 289176373 414080424 82525580 144887340 1299169713 1708733064 2061449384 2000360432 1887533750
  ; MkMatrix 35495351 627100120 803600014 2101626142 1948597897 1795792753 1570936921 1659172402 1582635921
  ; MkMatrix 195766052 213219612 1290935459 356961276 1966225506 1433191682 1004066735 1616150654 756327683
  ; MkMatrix 795705912 1209933896 702626070 1334234787 1322414671 72443368 1536264350 1870284088 1526808699
  ; MkMatrix 1766563988 1850259116 1792822364 2020343494 366957525 2090955179 953613869 505462634 1693284156
  ; MkMatrix 1110848268 530073383 1571657865 977003158 1988568670 1000269948 2080556842 463556628 537833662
  ; MkMatrix 1185022118 1844987974 399206135 659549632 1567107440 1215481868 832780940 368076303 1760403281
  ; MkMatrix 474820529 506402005 352844971 246477497 1941876447 1306582461 2915292 1533947333 653375604
  ; MkMatrix 1813957660 1826862239 930142102 1889004368 35102199 1191977058 298201767 388769379 1939142381
  ; MkMatrix 2109216097 1110283343 541158351 1556960907 1944022368 49935162 738429409 117394608 614444067
  ; MkMatrix 28341930 1635381459 1756412386 782302569 372994497 551719960 1563310400 235143929 1257061763
  ; MkMatrix 2074424817 396887096 1751919495 1289902099 2073972760 1496199510 154507843 1557946901 1636065527
  ; MkMatrix 1622156049 509394218 122150654 661615637 1571900394 908007242 19096484 1084428597 870227838
  ; MkMatrix 1733312990 1715006435 373870324 1758647678 2070691479 34605065 898629463 1766249913 700884733
  ; MkMatrix 562052802 570688881 532211183 328368052 2039555316 588718765 863030527 777926644 49294073
  ; MkMatrix 2044553845 198926504 1089919052 27148878 605670658 20203570 9105979 2064071250 956987544
  ; MkMatrix 1102189186 1216791771 658820823 486962387 1026949328 1475270650 1216217919 2101395580 291460875
  ; MkMatrix 1516059967 413984823 628524249 492886937 1768151242 634983111 1587396166 581543373 812991785
  ; MkMatrix 1995710601 184975226 379537105 1039855070 846863493 1741334345 306940996 502928992 1959328534
  ; MkMatrix 1449022295 370510123 145221576 1907226171 1853072678 1473965055 1239946542 1687993246 1906520136
  ; MkMatrix 962612479 1023219462 1706029418 983866383 395009028 578930912 644410140 758322834 1632834589
  ; MkMatrix 1863394742 1018259219 548238544 1255559579 1270488087 580819424 774448475 447631701 1221191174
  ; MkMatrix 979361776 1461834244 1275511934 1408726113 1662106378 689560893 282546345 1846705804 1445256076
  ; MkMatrix 1445700481 341867744 1634790720 1632186225 870177569 2090730405 1439905990 54477305 1387981424
  ; MkMatrix 987170439 498299959 1814006099 1310969200 886680585 45416123 2120233003 891010196 145330287
  ; MkMatrix 1020411739 1988871904 1460860449 1841334321 1138980170 1524353613 175717408 491343040 967010106
  ; MkMatrix 656248936 1279890651 99237757 1655926002 769584756 620706794 1385228932 312102417 338226363
  ; MkMatrix 874185807 1764756575 74015647 188244065 1495459754 62927172 1340481325 255946513 654259198
  ; MkMatrix 1893940156 1251292355 369904389 2016432059 102055195 158916571 1495399595 956171289 733762885
  ; MkMatrix 272129840 1089479965 116580089 1204425718 387846216 994234521 2023455836 66719446 1008739504
  ; MkMatrix 326683314 752645832 109538896 1982985350 1756675287 2141545225 2044352626 1911707025 1624448740
  ; MkMatrix 2018835270 784821895 1039957470 390317070 1248581246 1151971374 2140006042 2003546967 1298959084
  ; MkMatrix 834613073 1798380942 892742648 2005701017 1631003476 754647090 1702357990 336133897 1191234065
  ; MkMatrix 920381808 200184647 2106499752 1883650044 322691943 737044473 1096914910 425988002 388344507
  ; MkMatrix 1529620847 2120428000 359488086 796557186 1000989815 189196333 1689133740 205360377 606991136
  ; MkMatrix 1337539041 512884878 1727530062 286305870 80686088 152120396 1244791194 1353867505 143703373
  ; MkMatrix 1060861514 1948054679 1473471678 1263155918 1244198757 932508055 610222947 1801197163 935902297
  ; MkMatrix 1832056837 1494275533 607741975 1855117362 1306832105 530933093 1817779763 1541016992 2055966346
  ; MkMatrix 1527891094 1351181283 1739978358 1669880929 1913381948 172174306 176478798 1393364985 1962575115
  ; MkMatrix 301897737 874063706 868577897 2133183136 144578053 446276951 1893496970 396717373 1401591343
  ; MkMatrix 470327144 1016249492 1599630548 1411539783 509370854 1281131721 1258608628 1830020222 83612141
  ; MkMatrix 445488022 1403373031 2004209575 331216254 849610401 1462200588 203949181 367208223 1043210070
  ; MkMatrix 738749595 507307114 1077645325 1798206599 474449 1859357491 1607986209 54295420 2128954699
  ; MkMatrix 823700950 1979499476 605037409 1988642335 1814909088 617462320 388925597 1530395829 98154542
  ; MkMatrix 2131729581 1913763198 1623776273 1851993761 929432605 1275032027 1929134340 1176796742 732302110
  ; MkMatrix 1685905000 250438788 1303558336 604323397 812123545 1807855685 1207679758 2114370764 501590507
  ; MkMatrix 750628464 410716948 152562100 602884605 784698536 577493715 1561052035 1667129128 1060196800
  ; MkMatrix 1774769935 1982770514 1945095517 1494603464 1379281507 824730125 45827238 1263815566 1581191153
  ; MkMatrix 806365178 1694371318 497803947 1715093281 1635552374 1197395141 186089830 576220017 1111752821
  ; MkMatrix 1611155275 122493254 704568411 2126053535 1788180551 1169201643 617470383 84577801 1865952503
  ; MkMatrix 580435932 1942471493 445889325 1742946007 11564829 880325458 2070510697 696144716 1485901096
  ; MkMatrix 1412326130 1330154838 736700667 325763702 1293602454 1909582516 1786333704 130043635 711216270
  ; MkMatrix 1908919849 1858318850 987386879 1252264394 2038716858 9080897 662086018 805785923 2078814332
  ; MkMatrix 1280995392 31082115 1147166018 1562791995 1188745831 871223916 412740918 1203584309 1733858964
  ; MkMatrix 1426433499 872397622 1275080167 110231023 2080732618 265771715 645189155 1495027554 913227880
  ; MkMatrix 1976094693 709216796 982171127 697979231 155169301 1413448024 916961048 1236036323 44679135
  ; MkMatrix 1131649220 183951913 2121524699 277982179 693785924 1935358333 692530006 679841771 1636957310
  ; MkMatrix 759893394 935272515 97269181 984753698 1998312192 25064733 1484360895 2075840120 1271768150
  ; MkMatrix 352583401 2133494686 1458740482 596074212 2084921840 2117464678 502879480 420066394 1293653508
  ; MkMatrix 180914388 1834029436 743159419 34010776 1307056237 482219212 1862872883 1851611461 766366408
  ; MkMatrix 1857289423 747301768 180767786 963886375 922967276 419373017 1859348330 1386856283 759690124
  ; MkMatrix 1986036610 1771092373 487089987 635018477 1964886837 2237736 56810050 1688876783 1695902510
  ; MkMatrix 953434726 603009946 2053142980 583090698 1972079152 913552886 230160917 180411830 835193188
  ; MkMatrix 1779941981 1531086100 2107592763 2127905544 1111734829 1015480589 571058551 961667410 1848893059
  ; MkMatrix 1196004493 824695397 1910962071 1204802994 218759982 1801958195 743405791 2125726973 870619912
  ; MkMatrix 1561792146 1146560213 1116979035 1023401749 1752798107 1244178056 252019986 1579439848 2058987619
  ; MkMatrix 955619211 1850138070 1388524789 1941952926 1625159278 549303705 1733139404 1764850864 1436958205
  ; MkMatrix 1917545445 1964647516 1628862150 1267102734 170252932 1830377522 1202978382 1060808665 335840811
  ; MkMatrix 526640473 1697108947 1999356295 1148566770 693813567 761165505 122335633 354130022 784616424
  ; MkMatrix 102166420 1834993073 1888459495 2128345819 1762631008 1799234826 1902972400 1462305479 1143449908
  ; MkMatrix 1702327287 134798764 390784740 576756936 310436941 290603490 1362815342 314519931 1381470971
  ; MkMatrix 1492764118 264896999 1671654000 64427508 192586244 1675164840 1085346306 328801395 1688118491
  ; MkMatrix 647443981 1518164365 1259358753 446476736 1787311236 1398933154 125487055 2013169002 1297450450
  ; MkMatrix 532400382 425012594 517904683 687478723 157724634 453420825 896078306 1018096410 875132714
  ; MkMatrix 198125759 1940244571 1529796604 451127533 1491976925 1763526373 160943097 72674902 1681289074
  ; MkMatrix 286009394 305564506 2098970265 201449614 582720674 1708699771 534557704 443851147 1178992049
  ; MkMatrix 736531850 426457222 1733024379 1570021293 4323121 1242412898 1083431500 1190820268 446529486
  ; MkMatrix 1166868620 728564399 1749331893 1138025718 1397648936 320160382 1852024124 919314004 1505385764
  ; MkMatrix 2069885317 378906045 1431778579 1116677941 451732501 1479807284 1343342759 539133793 1658900044
  ; MkMatrix 526011906 1539188071 841387578 1968831814 854980508 1999328998 2074357711 276438974 113981773
  ; MkMatrix 824114253 674132339 1285552937 356106614 339747230 1781556721 769382267 838442097 1871653596
  ; MkMatrix 733771500 570433661 1306910156 1084171615 284114145 313613636 767648654 171249492 1512667011
  ; MkMatrix 825953456 281563589 40392852 742891150 1191502364 1710466797 1267090573 1695273820 598156527
  ; MkMatrix 626120451 1537610885 1412538906 901936978 1680679897 352101086 1933548620 225194961 1709235843
  ; MkMatrix 915236941 178535964 1157856922 1515820876 681277227 2113060864 847782349 37981048 1526977319
  ; MkMatrix 1062081674 1882876453 1838360455 2127291908 1008597142 866902773 783325208 564637897 488851331
  ; MkMatrix 646974196 593993124 1761675798 1386867461 1497836451 2085539073 280117846 1933071309 1787629134
  ; MkMatrix 1822701570 903957294 1518607466 1027977426 1643609851 1339753568 1908687176 2077923832 57343051
  ; MkMatrix 493126885 1085523956 1072175602 1055697808 179105744 1449800458 349997077 611076284 394725774
  ; MkMatrix 1908853474 1753577499 241786756 1818028627 261180613 441233689 1053722606 2093470809 494833471
  ; MkMatrix 1100098615 927200885 1195301905 1257810136 1445970666 5295458 978700130 1989006914 105573152
  ; MkMatrix 2060783462 806547530 1801018024 878834595 680972 300021683 2018132982 387236416 1583135144 ].

Definition mrg_skip_matrices_10 : list mrg_transition_matrix :=
  [ MkMatrix 0 0 0 0 1 0 0 0 1
  ; MkMatrix 1115622606 1978542745 616051321 579961529 1895225671 84836280 586358623 696858558 1436576811
  ; MkMatrix 151580019 1112607596 161884554 1192504207 2062974756 952180407 580240688 1848413425 1952900969
  ; MkMatrix 1620981068 710698754 761463283 75099060 1551062641 1002348839 303267007 720574884 1728358161
  ; MkMatrix 759678910 436202962 1201666798 788357464 784936449 1244057167 1517866066 901349435 2080076882
  ; MkMatrix 1079977865 7266769 231822328 1079894138 370046019 166145428 1032664887 1470080704 285014502
  ; MkMatrix 1476440166 210889257 854172855 1859687511 388006817 338380293 2131604123 1435748615 1496107537
  ; MkMatrix 1369850342 1421392223 896662151 1224468068 620331437 1156692968 1350813071 1932799499 1983961077
  ; MkMatrix 357567338 1171360660 747095363 756290193 763937574 831463727 1207702335 1944207111 1264581091
  ; MkMatrix 775390255 1462871463 187811404 362836467 332651994 654613962 173444882 516879123 473866848
  ; MkMatrix 1014898841 615827470 776759122 502574339 1128557394 367987058 433215287 1102568265 1279529413
  ; MkMatrix 1605231064 1971282747 638537751 444802507 1553980007 1838948604 424402469 1262629284 1541556487
  ; MkMatrix 820532047 1866156818 1512537023 870797251 361428266 183106231 482082201 809442663 400245881
  ; MkMatrix 1670234377 1960237195 150043193 679559468 1209434186 1053532616 1499293695 1765419410 1665279216
  ; MkMatrix 1463440276 1164497131 1910620188 1230917488 1098058750 222796305 222028746 1797452521 576324550
  ; MkMatrix 1743945991 2008458073 45172850 1637040466 890187606 431709335 1504687318 895651540 576709567
  ; MkMatrix 1442124680 1297067824 2081839850 1113800896 1404161966 792324186 301287832 149356696 922390393
  ; MkMatrix 922143195 431308486 887840701 247253854 480015806 1719171103 608253362 249113542 607574431
  ; MkMatrix 1798558963 1527741054 126698358 225473714 673858118 1220367964 129066300 180300509 1577120581
  ; MkMatrix 1833184250 1022997499 2117212902 1598928832 782931696 1455124835 1071048298 1009313563 751794496
  ; MkMatrix 1141106355 690628417 1738585224 1119724273 1476549344 1901853928 1931929808 1302542299 913285357
  ; MkMatrix 68068751 1722379127 503281758 841913047 87929490 732187423 569138707 1394333776 1317899586
  ; MkMatrix 926924138 1220159558 1553643087 1990791985 1399824047 680987745 1852168288 54042896 951412304
  ; MkMatrix 139149177 923584350 152589370 1604734634 1520728123 552759591 1140239519 1098276620 1136331306
  ; MkMatrix 2094062270 147290024 1366306450 317865143 1315249260 488110053 443848655 1773130849 1661021104
  ; MkMatrix 540054927 166366321 89240199 1356217744 2016505093 728966373 1229966339 818355343 2052203270
  ; MkMatrix 1946791858 1864716342 471624000 1277700420 1910410683 968590827 884236487 1719836926 1952712853
  ; MkMatrix 1693622788 548835355 1550093041 510324829 1702172004 815060838 1050073383 464921692 680455953
  ; MkMatrix 934627241 1542026898 115061964 401290651 395706439 1322281546 296508517 2122873770 726442443
  ; MkMatrix 1786447349 1567925915 1519690400 923879158 534170806 1909036984 1281024185 1012391605 716704656
  ; MkMatrix 271111811 1452427271 617792436 11759060 62001389 391170496 51386033 1389638319 1615737442
  ; MkMatrix 1701121303 644444149 2089287962 1927993610 1450595070 371174240 1959376978 1027463303 1413105461
  ; MkMatrix 259303102 148719470 570626178 1132840679 1187597410 272711749 1441544707 1379919308 1563619111
  ; MkMatrix 356506464 931294393 742299243 1048969583 1881254075 1236013860 309694392 81583087 456835624
  ; MkMatrix 1347823559 1863520331 1431495774 38911188 826007633 1284407903 1304075555 1193097479 301049333
  ; MkMatrix 1337230614 1161496431 657115545 518576901 788688954 49220622 854636692 1507944247 1012527744
  ; MkMatrix 267743091 1348974753 1736413143 592293023 1364780740 288897030 561557359 288373765 1800720834
  ; MkMatrix 322016920 1607196099 1771338872 257482990 1116990137 1494490177 926144763 255454870 2101322756
  ; MkMatrix 1836871675 1221501374 44717493 154234530 1700240015 41725376 1748100529 508766986 18933017
  ; MkMatrix 1170432103 342562255 1330435463 434077055 1279830178 255033566 1885418809 740548113 269019062
  ; MkMatrix 1719509046 1755965282 143368536 1787221104 1666678645 1798382210 587676586 78295746 136036581
  ; MkMatrix 941305224 1228415013 2124631486 1547583459 69042372 1328454914 1015427172 333190490 1026167524
  ; MkMatrix 1896084146 1155364248 1947410895 317451070 2065560473 1135979891 583450292 1401733656 1145456964
  ; MkMatrix 493028548 1032464922 1969102309 330481130 882307419 1718898389 186371867 1016870253 1922267201
  ; MkMatrix 1404908039 722535249 1673142511 1215768056 1885919498 123443253 878318096 478859993 966699224
  ; MkMatrix 1038377815 2084957036 1864229854 10899898 1044460445 1184653889 268484987 668549429 1776835786
  ; MkMatrix 1170964318 1154316418 1644908794 1803788788 1249324437 529730542 1674251469 36684768 2095478227
  ; MkMatrix 31978486 1853236218 1259669161 1392374329 714262439 338805195 604216431 214530937 317054064
  ; MkMatrix 939530890 1098686485 1117009624 502172982 995480783 1843592497 149629703 771925133 2121171357
  ; MkMatrix 1885130272 1099133364 1848250487 1157526288 1169795275 1727827957 921388155 298169522 1280184307
  ; MkMatrix 1639683347 1258366451 233282562 847451396 661152176 1436096556 1448635685 877299818 139348875
  ; MkMatrix 801770721 228110820 735873004 459852815 6907620 54865250 1790411990 906950442 2051706977
  ; MkMatrix 1772493477 904471684 328248334 689099203 1543011679 2109460067 341556587 1321173674 436355799
  ; MkMatrix 163152531 1145316536 800315970 2081716764 1435717936 121845509 1724037683 1800426122 1020317158
  ; MkMatrix 2145876543 1437485487 1296670655 48803041 1843046276 1008551244 1373174449 534559625 45337672
  ; MkMatrix 1944054762 858547569 1568783102 1537815491 8687636 392876767 35411863 1847543886 6292370
  ; MkMatrix 1381420593 1216991173 2038363999 1156839376 1370698993 2129358336 863591852 2143072416 191126918
  ; MkMatrix 94923200 84410579 2135551948 166564759 1875593550 51187459 2010262155 1073585740 1499838541
  ; MkMatrix 1285850109 1901214835 611699982 622013180 1919164431 270051291 1698298036 1745595785 1845076818
  ; MkMatrix 757102377 102552614 547033968 1398725636 581749169 1662927882 179757574 691565391 1520817288
  ; MkMatrix 1914379236 487869687 824079150 1820250725 760262296 1535823872 1575030983 1591112428 1062366405
  ; MkMatrix 873936607 1958734364 97915700 1589009979 1886188420 256992181 115342619 1441265880 1381745362
  ; MkMatrix 224167644 42349563 2144266732 1328140664 1572609565 393387617 1684458519 631206000 1351687465
  ; MkMatrix 811091423 568118368 358364107 2001124696 1682431668 606358917 1971499586 1955344935 461190029
  ; MkMatrix 1579449245 909182853 55690973 1295612330 754803084 893246529 709422329 2013682156 1768001247
  ; MkMatrix 1720706009 31910836 1698656272 1488822599 1900928727 396031374 915800197 846169983 1926891780
  ; MkMatrix 499372402 443494014 2135628790 746840415 1882639121 483462038 1751668712 1422246554 740607733
  ; MkMatrix 206974589 1635974734 526100768 665580402 1116294369 382417622 607002965 990000276 340297543
  ; MkMatrix 1821623027 503982490 217533762 2129977979 741838856 618033707 752841241 1973857727 802607928
  ; MkMatrix 151678199 433214405 737279372 590734579 1744919991 272752853 2037680244 307043223 1959577410
  ; MkMatrix 851393118 311728004 630907460 1503488830 431537331 1946475695 1560253702 1172148399 2061394856
  ; MkMatrix 1318341960 942085324 1162452016 686792609 1887121036 480665638 779470678 199229507 421526338
  ; MkMatrix 1420886710 71052633 1423511525 223674986 433289308 647484108 2055885546 148360139 273989077
  ; MkMatrix 1479603325 1532955918 483955395 2090315129 1701096945 1551965666 585012506 382322199 1459909993
  ; MkMatrix 1545397516 1981875536 1321626107 561807443 603287603 1011489676 538107991 1554585652 1347672813
  ; MkMatrix 828345582 821303793 705899285 197874007 1480800678 746131204 874250093 1287750845 1566958794
  ; MkMatrix 257490169 7528585 1327669283 1904387460 521639513 883774667 1769967426 1929143955 1457051864
  ; MkMatrix 530906104 1456387897 2095374903 1344303514 1204089606 1700067490 426609458 980241839 753630780
  ; MkMatrix 1470976507 389154296 225620009 1724092466 64988395 625931795 1617156616 728590921 2064839402
  ; MkMatrix 1619669481 2120634051 1833929716 2103378281 184980004 1661123915 715665434 1208650285 298823316
  ; MkMatrix 419884952 1251264873 1243347151 431881814 1866990599 245311681 1264862245 526050940 1682872770
  ; MkMatrix 1546619983 2097527949 2120341569 1937005333 309345790 1878333502 1677673208 61329522 502628822
  ; MkMatrix 655277273 1913578384 173238620 1861626965 1968286726 932612062 61572763 14715398 1748387972
  ; MkMatrix 1332829807 690370390 393250083 819302645 1068681583 975499234 1555063904 704527008 1681090589
  ; MkMatrix 1723649555 1276322140 438922991 13621944 2037152468 136173884 820758861 1981214172 484734049
  ; MkMatrix 933672374 1197794196 367777674 1319769356 1629087696 226763771 1469526360 805435130 273443577
  ; MkMatrix 841806566 626653036 334756486 1040379614 1237549554 976265832 1281553633 1987700213 1937718850
  ; MkMatrix 145820932 1661852351 2147354183 890605719 181120360 751821566 380978082 972011755 1451528981
  ; MkMatrix 22852396 2046145685 1323576237 718173636 2019711520 1608650617 438425974 2067963098 1081176071
  ; MkMatrix 2026113239 2139232759 941003531 1443168292 1882315761 1322718943 800174448 2022100694 530335424
  ; MkMatrix 784538248 1628961006 2064986390 1705595734 1170706704 65882431 1075559898 1114401405 1317537124
  ; MkMatrix 604522103 1097586923 905644032 826649928 1732418514 1208126734 1986038228 990530007 2137352288
  ; MkMatrix 163621726 923783438 470854386 1515245106 140405941 1510760928 801081520 1234866574 1211441193
  ; MkMatrix 521711829 1937339834 101883479 139815728 867078539 573624688 760108297 1699138924 701876645
  ; MkMatrix 638767152 114259548 652702180 1245229484 1146907247 1179181233 1635853119 565306710 2022791722
  ; MkMatrix 204606349 34480233 1058164842 1315934289 405772822 929235652 2021422552 1896926584 171345247
  ; MkMatrix 495868311 2104107863 550085901 1353660799 1527567548 964186313 1608485062 1005439392 316670302
  ; MkMatrix 1057728103 1545122164 259093828 983831014 1874374280 1497039875 1345742607 1264440378 1217071783
  ; MkMatrix 2016450557 737658419 2070728720 967976405 2046325155 1857261824 1850183811 1501528077 1198667781
  ; MkMatrix 1770377353 1709151423 978199447 625822938 1928514846 337900073 108315145 1124783549 353724598
  ; MkMatrix 2014417356 1816594190 73728109 1207850845 1254859381 682051386 479255218 825363154 321737183
  ; MkMatrix 1909114387 424987994 1669197738 698302689 956397302 508417235 954380794 1867507964 732266244
  ; MkMatrix 576412311 219927542 1425640154 940154247 692914386 1199299239 898511238 410926949 1515457595
  ; MkMatrix 255981135 656245923 774817965 267641124 836962697 29781614 120149306 869833961 639894993
  ; MkMatrix 1442626197 63076665 548350804 1161216354 861055426 1383518596 1782106213 1933343550 1258127007
  ; MkMatrix 144116608 1814871471 600673525 1164167562 484642972 475940470 1507836184 1065921627 863189679
  ; MkMatrix 54510256 1122912860 628920450 1337322685 1574147549 674337541 500276493 410606636 1000938497
  ; MkMatrix 646138325 356472363 1397813097 1029213772 79774947 667194861 1271669078 369381230 1024233340
  ; MkMatrix 547167270 534905118 195847366 1979663669 1571517745 1417138397 1525210027 49975789 372910213
  ; MkMatrix 206733469 1835873626 771974421 322961460 1631785153 582400906 1212379198 1831364023 1312930292
  ; MkMatrix 1147595243 249991232 826741450 436190674 1432493013 170455444 1196578774 1520626656 470776954
  ; MkMatrix 963334165 39029485 94137689 1258405370 1656552290 238733439 2050690450 1614405536 662013623
  ; MkMatrix 1140643742 1218403391 963574537 1480914423 919450747 1033926446 1245945375 507962630 1815405650
  ; MkMatrix 48770020 1629787889 362971306 1931310393 106269455 1612718382 13268237 1604543963 2014285262
  ; MkMatrix 1464228294 2039300166 128038599 1900722177 420136034 882575169 785504931 659427810 1263078124
  ; MkMatrix 344057837 1000409157 460169725 510643480 260048328 557866367 1016535773 1550720330 791038036
  ; MkMatrix 707913174 155718270 1411410570 1898341444 980954978 1411187212 58501587 482001518 597506082
  ; MkMatrix 1620130347 1863626128 905681255 874598209 157032335 2048199783 510933878 481022987 740293566
  ; MkMatrix 820242424 2068478811 1028999721 1920457775 1791727640 63407045 1543678167 2131789693 293981971
  ; MkMatrix 460566619 1789059341 1484333766 1740617200 318386908 1520486842 1166911736 902701363 324563978
  ; MkMatrix 1864355730 2096773990 1979940075 536386802 2007045721 370507661 1957636576 1569200918 1243077035
  ; MkMatrix 987367181 5509380 1825434016 1011229761 1418315637 1914788696 725761243 1079335873 288928805
  ; MkMatrix 1647327177 1797098175 275691252 1856571431 730565470 898411116 1679234279 1161465251 1505168638
  ; MkMatrix 1159376498 979490874 1793167982 148361637 1446749437 358960735 1130660813 1148494723 1366898831
  ; MkMatrix 422518277 505732092 1419804573 6424712 904451782 35728148 118809533 1360705746 1072449865
  ; MkMatrix 1959029835 2061956739 1943385840 1564149752 1026756846 839425385 38974220 1550508775 2094691510
  ; MkMatrix 1666165114 146030278 226542697 772997895 45694936 1066111041 2108261662 249854678 1890981081
  ; MkMatrix 327764024 55035392 667944601 2011073768 1468520511 369814713 1934373822 1548791295 389572646
  ; MkMatrix 889601868 1614838066 1194056782 416114758 10879375 14987224 1618307983 171829511 1131855052
  ; MkMatrix 1176735665 1821681407 811979138 984519051 792506286 1946694836 1848622863 659623596 132141298
  ; MkMatrix 1364542423 1842094370 2045288075 1129011506 2073951336 1686627069 273852595 496292186 397010518
  ; MkMatrix 243156371 126697123 1351247443 1756031478 115103809 1222708399 815925321 1577831798 1495597962
  ; MkMatrix 190942247 1362461681 1584499177 358633101 1852525757 2047251171 2049077273 1037320426 2133708702
  ; MkMatrix 276627501 1234694793 1542649613 725113501 446496957 1245249350 33070517 391416273 1705365632
  ; MkMatrix 160043193 2071572972 243239920 531138586 891398727 1263938578 1733596700 2071863388 1025240000
  ; MkMatrix 1248745368 489670002 335412578 1666988852 1149620277 911602582 231100039 1478729656 202568168
  ; MkMatrix 80714118 142616504 707060412 386642566 999827812 2047101845 527445678 2134771861 360031843
  ; MkMatrix 163551188 1238355367 761362153 960197483 541124498 2040105910 1121066908 1426817524 471235094
  ; MkMatrix 981239367 1165002384 461579209 1484657965 1570732762 1573187882 125711815 903787918 1039658626
  ; MkMatrix 89733954 123299567 1969796909 1905741619 1270193991 1595131236 982004247 166175762 1426780839
  ; MkMatrix 987729496 1013948018 1997181327 1116787215 586344194 238745965 303007504 1440231318 2014998515
  ; MkMatrix 1802940439 1660652007 1905320836 1520515011 1238077279 922248671 616166160 1304856855 244506468
  ; MkMatrix 32535900 1953538696 1203837758 507397744 898721185 1942151131 1705200868 769570899 521997188
  ; MkMatrix 44767772 1136562942 1107145374 125786588 267806233 261900763 1337602654 1160864212 1149993947
  ; MkMatrix 82864898 1028141737 1987569020 1056123595 930521038 784390658 1498283925 1068595133 1952377112
  ; MkMatrix 1522662843 341850962 1013339296 259524274 1197886144 131041514 323229672 1434884077 373554170
  ; MkMatrix 546268464 997632984 398233311 802567360 2127244423 1235935751 1146771804 830693958 1621753173
  ; MkMatrix 1657791963 2010198565 630315656 1837999933 358909430 1752093925 553953694 999871046 653199658
  ; MkMatrix 340392989 1419581027 1167007387 448017688 2062595132 119327475 588371859 134713355 1478574546
  ; MkMatrix 138636791 962533551 284109243 337608659 2111756342 2095126680 1698298552 1031694354 1106418224
  ; MkMatrix 12184784 488517983 570127615 289486866 1679382424 913750038 35566737 2102399608 1802536020
  ; MkMatrix 771767823 925025364 554603625 1500344637 1639428642 977029173 1608507785 1474237824 1552942133
  ; MkMatrix 549959742 92139596 2028115079 286871444 1139656501 114402051 1021706720 2076757739 305417110
  ; MkMatrix 1550537829 1298226421 1614974388 1106517541 1251138718 1721905822 1227055715 140177129 20960717
  ; MkMatrix 733561477 1712181235 1800865954 2030136277 338121864 1133312171 437839053 1125273332 1232766386
  ; MkMatrix 1905256815 1724677537 821807800 776141243 1912253717 520966740 639469441 659701121 1788732507
  ; MkMatrix 282438130 951347118 591828844 1463923887 2037241234 1926235596 1635633303 1213574778 1397741697
  ; MkMatrix 1816104121 1075397972 1839187854 466720346 1559775044 547135712 788696896 1908663350 1965484695
  ; MkMatrix 840083507 96315009 1522105073 891540178 2040138114 553905058 1113489938 287070335 1402792585
  ; MkMatrix 1444904840 1512757937 2140010749 337647430 1001788013 1007041243 2109668861 1854121158 138097243
  ; MkMatrix 218069171 1421594957 1854906254 1056714891 604052252 378903106 219051614 335801732 1775011834
  ; MkMatrix 1832938990 109712779 1770032502 342347 1607139057 541925956 1150861688 456534215 910481170
  ; MkMatrix 1077201134 2024128056 1413104182 1466617554 1347564167 1002862565 1598973196 477480206 1824691189
  ; MkMatrix 348053798 224796151 293615104 1163481009 184385846 2035712604 10612422 1374515026 347550681
  ; MkMatrix 1896210715 1326842730 1781559021 892399537 1760890739 126298068 448864509 1701664600 1165308129
  ; MkMatrix 1939846194 416407866 530262278 335025240 814375482 1240700251 1277133196 1606015539 144895861
  ; MkMatrix 260342029 379665630 784727972 803788969 1590773297 1254913561 452882408 1504273585 1601148454
  ; MkMatrix 1278569570 1046463331 992378703 559895436 499040251 1672705805 943802583 551687079 198575591
  ; MkMatrix 712106462 1900153302 1599340648 1387554985 1758385230 1865664405 1483229018 653676464 1959095197
  ; MkMatrix 412027077 1998140932 2038733800 701963515 693693843 1531808908 214110494 2130263395 1558714390
  ; MkMatrix 341277336 1773546478 674738364 2061390153 736423839 1224602681 353501608 649174402 723961163
  ; MkMatrix 1122983961 1980662834 817757868 1013688345 880122508 1694992630 1298252271 1740416056 1988963806
  ; MkMatrix 1114367025 1240747636 492352899 2093198960 2091879489 1387590089 973064009 571510551 925483155
  ; MkMatrix 1175322773 1035702455 197160247 1827652401 268784348 2020203855 1100701633 690787553 1422873075
  ; MkMatrix 766351858 1541521018 865540375 72750882 1139039545 1058549503 817170596 1504728091 1793500719
  ; MkMatrix 1804813249 1911265205 917515280 313159939 1462398200 98464562 1097801048 787923031 220257498
  ; MkMatrix 185377792 946649973 1737587161 2024943741 1299711694 22774287 333751790 834388791 41307976
  ; MkMatrix 397189658 1819657163 75928634 2121949548 793305578 1465892418 1495601570 524747175 72773155
  ; MkMatrix 1997064142 900588397 762018234 1250579723 373656114 416364312 1904780913 1979770774 1183974896
  ; MkMatrix 593388561 880910186 740006676 523712564 61404018 780598372 1755287434 1412600515 1177606573
  ; MkMatrix 1243076446 879185585 1605017025 92164323 1258980101 1088353923 1546215699 1591098293 2097960069
  ; MkMatrix 232131122 1807371954 1934503388 252613919 871882912 1940874426 1899442433 983673438 312848844
  ; MkMatrix 203817725 1698115598 1295651812 404733665 1939295853 16166659 1182619299 2030926375 691600710
  ; MkMatrix 1095723731 1556463305 819889564 1113967557 1166010755 206592358 532833874 283230607 1818499319
  ; MkMatrix 1278292636 13971865 173584524 1725982835 1926283157 1284556360 1871473445 1607838041 1470914025
  ; MkMatrix 102518441 178309629 79677151 1477607793 1395290506 249802357 1817607426 1485690288 1734292364
  ; MkMatrix 2009330786 138469177 340759465 428422718 255216940 79448496 2030939409 683961566 660075486
  ; MkMatrix 1678009980 1279506472 2091190058 293086069 1340909336 692202979 1741544833 1079409748 1822109383
  ; MkMatrix 571931886 790111488 1052389013 1154224424 1742408664 1234180422 835174230 1935655267 1816548597
  ; MkMatrix 177544502 1851228128 1017892680 1379299315 1151714330 2003835917 2141911209 1595998033 1988979389
  ; MkMatrix 1533537005 1167814356 222344053 1588915770 1963691803 1167947316 1531549410 2126615300 1219376448
  ; MkMatrix 1859170717 1989166438 1939412972 1947651433 2112657142 1016334140 1583696023 1715480372 653245553
  ; MkMatrix 1511765931 1776302319 545218278 669446942 981922422 280816602 661680832 1726348839 270326146
  ; MkMatrix 1272929122 329005756 464952629 1052393446 82204533 98228928 1289565963 923167906 403340860
  ; MkMatrix 2062939520 1516647048 1123858748 651247204 151812040 794618216 416245643 827683776 1580109636
  ; MkMatrix 1884658517 632506609 1795105702 818437073 493213182 1798237228 2024716131 1290902433 1437261701
  ; MkMatrix 286490285 1760518919 787651810 1786953163 2026458494 49634584 1199776435 830160499 1628528137
  ; MkMatrix 749746560 1909788773 174421604 190538826 1425486508 1647377477 1423200587 444037897 947950697
  ; MkMatrix 517463045 831530797 2110074057 1308071601 1229441494 1187289643 2016645229 1568613412 1968916988
  ; MkMatrix 1024534555 824116955 2095459470 1550207614 1204834010 2076142596 939312832 362454664 1507471607
  ; MkMatrix 1487520632 362149663 2102321907 1246823760 1063334418 1130007630 633077413 273627389 1933932473
  ; MkMatrix 1115777766 448041557 626849556 2110915188 1287059109 701764433 1777096375 952060545 1490708830
  ; MkMatrix 1900271690 1445799995 848827235 1255733047 1058469493 1854446727 951390157 600623945 1385122024
  ; MkMatrix 760466954 2055913628 646385187 582100360 1914142333 1145505100 245458402 710938284 2094810663
  ; MkMatrix 274165849 1605200162 1231750586 1030348217 1651725097 328126109 2083274089 1267569927 1959694899
  ; MkMatrix 100610353 298086438 1792260128 1214829524 1515861137 1658737185 1748573025 1139699877 794843633
  ; MkMatrix 2121638824 709721394 1133760478 1241043347 1935472060 396644535 458063979 973346772 735807231
  ; MkMatrix 1992824777 50443952 785277964 491045862 678347562 1178316380 372867231 1541658337 1964128244
  ; MkMatrix 549465528 1324182423 1445285205 1388439814 1462869755 1990862947 1500102450 1937145780 784868732
  ; MkMatrix 1499967310 1013885506 1846492900 374330608 1136447204 1562638771 333201689 1224077658 493271659
  ; MkMatrix 88446787 654635818 399880228 479202066 483446946 1375298719 1958635141 2048537596 1484445705
  ; MkMatrix 1921820872 1313369631 1643340652 714157672 645510970 1929222514 323867678 386055620 510391503
  ; MkMatrix 1569025389 1209073784 352359465 1160442175 1321371561 1626282539 1823270041 629671843 1423108963
  ; MkMatrix 2026158758 772226556 1377419250 1228708449 1813098425 1995806273 2074751425 1039416362 1664051063
  ; MkMatrix 511227281 1514809527 651192479 621884217 1817153263 1443254161 253427705 1070055432 583640403
  ; MkMatrix 1012398261 1755309848 1153189349 1976258963 536815837 1508344639 517894543 2117118420 1943308037
  ; MkMatrix 596893637 1756165695 1903977777 703804397 1332035405 1225130375 938311234 1878634018 459765134
  ; MkMatrix 1109012173 143558188 1906449633 2063248404 1057028171 1151268298 1288757364 2041680056 2060427069
  ; MkMatrix 595916967 1312497388 1674516186 1031290583 354010913 1855545726 1669320276 17531757 25752251
  ; MkMatrix 395474375 49247700 1263985950 1339891414 1252456359 1521444404 1160977138 718801051 34508350
  ; MkMatrix 429426897 1107807577 1357011262 1150929879 51420477 635385616 705129567 1655753807 223525921
  ; MkMatrix 1870965032 250209369 2012137451 548395232 1677337746 883861796 1273289093 1498608420 1152824799
  ; MkMatrix 1910740483 803378452 812273707 1424306854 1497669463 456741830 1726155890 1893894116 405309793
  ; MkMatrix 481948419 1735822947 806739071 2037132684 847865682 1459766818 81072320 2008757372 1433290790
  ; MkMatrix 731834790 2039299469 1238364359 1191836254 1708180278 709415469 1956436586 1151328543 1627337835
  ; MkMatrix 984168298 980319853 978650835 1482919141 442245949 421112584 1260758160 1041653785 614538036
  ; MkMatrix 1821332254 493176687 280171187 1601561433 152927328 1358948951 985655060 1256582162 2075355583
  ; MkMatrix 1731879317 993796697 1217534272 308475081 1321182924 65516389 13487530 1377496269 1805426871
  ; MkMatrix 1867049024 517604640 14989477 2012253021 575975896 293634211 1093333509 448470287 1170630572
  ; MkMatrix 338146380 811031324 1188910006 452879004 329458479 692680091 2127587980 1855706858 1612696361
  ; MkMatrix 2012760707 1220935057 2050221669 345764409 799131253 1268088086 103152286 953906203 787386629
  ; MkMatrix 1623267747 1700808888 449869672 1344993217 397806278 1884284453 1186234484 1359307877 1747409621
  ; MkMatrix 1077262645 1866842312 1026954680 110303154 343667633 2026671298 102871361 181672360 280082307
  ; MkMatrix 414759672 556049480 293498540 127015232 1712454395 1699373783 20840263 441843687 161944734
  ; MkMatrix 2075251923 1705470122 2142749719 685776374 1032619188 1301254496 1257813916 1963528421 452758423
  ; MkMatrix 1882414248 686704358 1547797076 1531423983 1346027543 886852830 163656762 1688892481 862289357
  ; MkMatrix 160900642 155255099 1603455380 1608172054 678449739 313688239 1386290314 478725350 1584637690
  ; MkMatrix 1487360936 440482681 1629717709 1817886501 308811788 1637893271 90087423 2108478450 644586154
  ; MkMatrix 424528339 813759685 663284638 2006452686 1491509356 557800584 897551163 2014432326 1430703136
  ; MkMatrix 1179883528 964094313 111044685 2133899138 1366877270 1410128537 1442860797 1306775312 50512452
  ; MkMatrix 1424975290 1603981378 936424296 1567927018 1262794435 31498203 1247522472 272300694 523244098
  ; MkMatrix 841341110 756553751 442857375 309667938 1700110625 1535826186 549563304 546817511 542356855
  ; MkMatrix 707200829 1770424361 12036385 2036326168 1002028686 341788065 429281474 1241832558 352638926
  ; MkMatrix 737115088 1512608027 1706194688 157513316 780307142 2113611205 1503301678 1564093011 1413990594
  ; MkMatrix 691967740 1108243686 1318766332 1825679850 1400048168 866054977 693524543 1905068807 1484893362
  ; MkMatrix 439434699 981714438 1123343454 48924456 1762163573 720538111 2052271121 1585487393 455623709
  ; MkMatrix 1719340601 394216615 396759482 1262421452 1758001182 2047305234 1183441203 1170339578 1133633965
  ; MkMatrix 1657704297 1519841087 447956352 555279071 2031569708 617522036 1949810557 1698206476 1007700712
  ; MkMatrix 1394654741 190454398 1543081188 2034809177 1568716114 1957183068 1717060573 682218700 1329939569
  ; MkMatrix 377633373 1358004561 16805736 374110707 1345739906 474213604 280327704 705492740 1098817447
  ; MkMatrix 1775703557 1677381430 1576185713 135246499 1926398768 733762638 1104620425 285500262 2041222041
  ; MkMatrix 1505165824 167884955 1871268983 771124469 1346205699 70573646 343329654 6713996 914359071
  ; MkMatrix 721468982 1782869723 2081255132 132193438 2100069381 1745103944 1899965481 1722063349 316231203
  ; MkMatrix 650154027 529909041 1576487469 1682198877 1505900929 1053974408 2066589885 1495763329 1948751405
  ; MkMatrix 456448660 2113339297 1642483726 589032793 212298879 1953582266 1602975027 779610810 1013176919
  ; MkMatrix 431312435 667011605 413934499 1260379269 613117992 2126664988 528595212 216377486 1181630966 ].

Definition mrg_skip_matrices_11 : list mrg_transition_matrix :=
  [ MkMatrix 0 0 0 0 1 0 0 0 1
  ; MkMatrix 1398966622 1157247437 916238461 182928118 1809268605 882357484 1036910071 1001125599 1351500463
  ; MkMatrix 525501314 1126053257 1649640023 538705899 497139502 297882703 1867503624 314576360 387037776
  ; MkMatrix 493227047 1039551408 1976422311 2101408042 1633135117 1618541218 1195184520 1683093460 1044052406
  ; MkMatrix 2053804527 415076613 1989231709 622589464 1635041103 447864305 221866467 1296555477 859124139
  ; MkMatrix 1226114955 1879448501 1827132510 90592997 599958262 913437355 970558524 180394243 858942824
  ; MkMatrix 650681148 1038466928 1545372726 1872646231 1254857590 1669721985 1497840943 1670524448 1529167492
  ; MkMatrix 2063004186 336500128 1084298421 1932134653 217347117 258693757 671633059 1589688900 1808439649
  ; MkMatrix 1895731585 1867327307 2069915815 1512868696 1404866392 1740692164 1890170287 1602928372 2132331650
  ; MkMatrix 353702917 1636569458 1999775804 1236663178 589528637 1190650890 509306169 2024773660 2028341503
  ; MkMatrix 300551735 1362211986 1235079945 1826801450 1232815891 720147967 1734647433 468055572 210002982
  ; MkMatrix 1766323542 1703660757 714693843 2055191616 855316045 1300195882 474373649 708044833 2003364724
  ; MkMatrix 803448149 927508544 49655274 1783395331 1998593708 1612669333 881085378 1260267084 1986996958
  ; MkMatrix 1776753597 1244028694 457382947 1196935646 363579328 300042388 1211361570 1846700920 1864717653
  ; MkMatrix 1512392443 1110028809 43216871 1945417866 1013642605 902814001 1982089800 1251686436 146055623
  ; MkMatrix 1445629082 1700361515 1289428643 2102772721 484607451 1409139701 903603930 712769522 449886483
  ; MkMatrix 1103145403 876725196 1237695176 1764973820 590485398 812746852 94240319 1624615526 666115058
  ; MkMatrix 935174504 693368170 322338346 1752551188 1611662084 795553823 366017055 1087574307 1982630353
  ; MkMatrix 1220464825 763320766 732784283 1896441275 1415687376 873028989 1393591778 1193935788 1856803309
  ; MkMatrix 1086212718 525164634 1058970802 1134627238 1214114044 2077725465 868637801 937978190 1959563501
  ; MkMatrix 350010232 1344503653 1122547667 724702066 317915906 363006613 243876076 209848710 1318210681
  ; MkMatrix 1633007739 1552358037 364535782 1880176872 1791760903 873431146 703079975 1097227969 226615108
  ; MkMatrix 1572168048 591933441 1126961958 1965234018 1929670103 900668083 1133850676 1138889552 672065301
  ; MkMatrix 604237682 796882047 606251523 1508551869 467589029 800147223 648322542 1496387344 373350188
  ; MkMatrix 710593110 409721883 209617143 1799717565 620470793 1234756118 1710187784 1630648570 1123485617
  ; MkMatrix 1023684369 1405643873 875128499 1540151227 1456382037 2013721985 707196716 863135647 1905903837
  ; MkMatrix 934200240 1254957147 352087696 1375644216 579195974 927987063 349414771 286981405 1015623394
  ; MkMatrix 1316860033 1462526538 479005768 1742784992 1375278607 250006250 1465245404 1659445830 1868214390
  ; MkMatrix 1654454245 1943344786 828449314 765684550 2004057438 1901156712 1451534653 1653511792 566334852
  ; MkMatrix 1880166422 1979612943 1781322291 1501424526 568938724 1536303060 1243616220 1066158849 1162150768
  ; MkMatrix 553817157 1728223845 1591118988 1685103103 618489551 1212265293 415206859 1432406520 117147269
  ; MkMatrix 1945326466 533146905 1791765405 1517300882 378356281 496527736 1188483968 1960324952 980732736
  ; MkMatrix 881265815 574418292 1592380547 1089008700 475651698 1876587992 76581291 95837607 1193727812
  ; MkMatrix 1211260224 1769730150 987136614 2060036996 743654488 1775285801 473160766 391192175 69866315
  ; MkMatrix 1797616851 318387576 155609251 199975957 789739457 870337684 280487791 1282921236 2058703942
  ; MkMatrix 2046050227 2093091409 648507465 1305788038 298935178 2128593106 547744972 255083839 102281652
  ; MkMatrix 150514484 933027114 508943220 1808840634 1963306924 1309843774 1553736452 406039417 1499070581
  ; MkMatrix 80611167 1215338990 1899410516 1638862879 202454882 1938744358 1006101626 1930972404 2103594917
  ; MkMatrix 2073933312 830946976 701551158 1353273841 1532352338 1393560505 750675893 338918002 1628479402
  ; MkMatrix 1590221295 1128987600 884564734 1273403442 278139764 35539235 335255090 82322337 2074688046
  ; MkMatrix 1646297184 3170881 677273052 285901470 1285241028 2003947243 298014064 611093277 749235834
  ; MkMatrix 2061876278 397752882 994261848 1442725166 1870965041 1608831467 1182790111 62380986 345893143
  ; MkMatrix 1144631239 1410710179 586451439 820401755 1741051621 902715063 592623714 2116222008 1859367377
  ; MkMatrix 1314894197 150650687 875768148 1222620245 1354377182 1515798818 130490197 854826129 2021555678
  ; MkMatrix 249954181 1961716985 346432504 1493174693 6468776 1981607204 82366712 605352885 331466178
  ; MkMatrix 1178215816 1442452572 470358948 404027829 919930000 600580307 1011775117 1875267638 48837962
  ; MkMatrix 923457391 1748741401 208473305 1457119565 337368406 459163673 1443630390 2025590752 916901831
  ; MkMatrix 238956149 1067870626 2110891226 539956745 422368628 1950603615 891309049 1194366219 2044449916
  ; MkMatrix 237321276 51718718 716493265 1775987367 521878257 1686643189 1092535790 319858017 87805404
  ; MkMatrix 1898798259 1835481426 1577814431 439796891 801798149 1063527853 453960406 925155843 800116151
  ; MkMatrix 1033770189 232965581 1036827019 951526395 786405488 837513656 314200510 1915298040 116051174
  ; MkMatrix 1351516112 1834227575 307253181 1258920240 612003897 502203477 1956843064 1003521897 2086132333
  ; MkMatrix 1316584083 1096099166 107645669 385932763 717963673 957417284 202046349 1281584182 484157574
  ; MkMatrix 1527381230 1885301061 2021681525 2036597986 1770456602 276975807 528875622 2066239883 1369395190
  ; MkMatrix 779288329 171399346 805403216 1257123997 392992180 865016072 1791137779 522851592 1498484311
  ; MkMatrix 931873234 1644821283 1418500644 600622377 196700765 674420557 860330902 514254926 660956635
  ; MkMatrix 1826899106 326344627 481403760 1089419963 609544591 331175034 1868731051 1616480101 151150738
  ; MkMatrix 315308470 952397108 2014400664 1990710692 671880614 1915780967 2095496602 1472035246 800913372
  ; MkMatrix 620046641 1737302677 1984312927 986410687 2132131390 1627660535 877760828 1538187856 1164268911
  ; MkMatrix 366175867 951040144 874255873 588101475 1267246635 1574497867 1074800896 1929908079 484404625
  ; MkMatrix 1977908008 1014461719 1686246067 2064669103 1688443171 1181187375 735959574 1162838158 1066701451
  ; MkMatrix 1479746864 789710107 1421892090 513457306 1437483384 701295434 532193594 1830428101 904207731
  ; MkMatrix 5646606 1161699467 1961355606 256464513 1460009999 1803968249 148850713 1600231134 255684008
  ; MkMatrix 872026952 2059839395 1350474237 1622004364 889421903 895636503 1359124008 2005304420 187565356
  ; MkMatrix 1290710085 746644977 476082424 226668047 229293297 831767359 77589666 843756758 1866713714
  ; MkMatrix 191936953 637490372 1037147976 483966510 1616649924 1966176809 1315353734 1526831256 652762255
  ; MkMatrix 784768 887625370 391938724 561722228 1339358989 1746344160 1928201915 1497464293 63627210
  ; MkMatrix 1385007571 104960698 2045726066 380149916 1890864345 801324054 1121017553 1383658143 1728706542
  ; MkMatrix 1135397719 2042057729 2001441130 737968413 35965892 1537294345 2000259021 145251938 1917862996
  ; MkMatrix 722286047 1517234701 1655010889 435499663 27148972 2016053861 1056766220 65631486 648423046
  ; MkMatrix 800593399 1704628110 486994437 1646677009 588243494 1317046238 1958763536 531613042 616927294
  ; MkMatrix 279126711 808701803 232647509 831823426 1533243993 1892123460 1717887945 767433557 942519701
  ; MkMatrix 389056541 1655211056 1618029676 1947512444 518572996 1626415449 2015151910 168467452 1748099576
  ; MkMatrix 826234399 389486318 1677112894 2038078681 1605912724 2140413743 1250090631 634179319 1276575780
  ; MkMatrix 1632698028 4179484 269352576 2055000285 881121608 291728633 1563111925 2044782023 487570447
  ; MkMatrix 388083739 1429933510 1732831862 851772701 258816472 1186730019 1210102173 1824101311 801497019
  ; MkMatrix 369934423 1383781045 1880965013 225583381 1592311702 1576426544 1758712452 898524211 311460587
  ; MkMatrix 207907950 795734125 1441877758 465209994 181098168 1796708166 1457274994 1458402299 1710766828
  ; MkMatrix 849543287 1215429045 1860029455 687438150 73868729 1669708171 309263954 2082434319 1385126182
  ; MkMatrix 380393887 278358008 1436743469 1801092715 804332240 896839424 1552346400 1257771475 1974724959
  ; MkMatrix 302626196 382875442 1095874096 1573891303 220339406 1994943191 1578759985 1558196220 1822454376
  ; MkMatrix 1646446487 692924404 701688456 1100965572 1195125918 868287410 1471529686 1230175276 335067842
  ; MkMatrix 978640786 981542559 1508789559 749214057 1491109287 1283263378 844899012 1741989591 2062528936
  ; MkMatrix 487521159 287171863 1906893312 1194735938 1500061430 9165275 1366814554 72105750 401082594
  ; MkMatrix 1073474840 1927559542 2030890439 264122121 1577205144 1551843348 199255079 87008661 1654126295
  ; MkMatrix 1341867453 1189322900 2060320144 2044937683 272617850 2115533662 1534631727 111952208 1092428036
  ; MkMatrix 1515649155 1195600715 1655659861 586405996 407386576 128252599 1503397269 1026584593 1443946339
  ; MkMatrix 1531393699 1965827206 903716797 1713503832 1531433103 1322465229 1407221608 2079969728 1662437157
  ; MkMatrix 1100482959 953180950 846621591 1259118780 1764673701 460637732 1973888573 1964122150 3489125
  ; MkMatrix 644452889 1835123183 245411025 602321527 45951756 428448666 739699086 987671941 1955124406
  ; MkMatrix 20871227 1799550471 1656573689 199586595 53582163 396381171 551472638 1939306454 878063457
  ; MkMatrix 1284088338 1696296376 412212447 1775819728 463617907 1032117093 1446835835 732556274 1710461764
  ; MkMatrix 2097983531 1520590171 1530168582 2144810923 1582558553 1967411941 948948585 202066183 1833957936
  ; MkMatrix 739783402 671048317 534006165 7800097 185436254 626872491 1495716799 1524408682 2014125227
  ; MkMatrix 533644009 467947796 149860343 1995241936 786508843 1247540034 1216459884 1998977706 731111740
  ; MkMatrix 390827225 1331639005 1325705763 836074675 806283665 1731720388 1578597086 927810789 1447917530
  ; MkMatrix 1578191690 367895804 438901722 233173001 1531747770 889270536 1845643952 875687806 1869502132
  ; MkMatrix 838185586 2009141490 982334759 949263284 1806552469 212537982 1122694830 1630061917 913908251
  ; MkMatrix 1303712982 1642705585 1125284460 734189632 770643948 1401154406 1279125512 1574985891 1400514892
  ; MkMatrix 283142805 1938140395 759461633 45607138 1995849163 228427678 464763581 2137797714 603374869
  ; MkMatrix 1548874425 1081375161 1781755827 337231233 1729271761 1076140024 1834603548 554113450 461590230
  ; MkMatrix 965561883 1921023010 629865647 1520721480 816437220 1905198898 1895781315 320327108 1563316191
  ; MkMatrix 28935517 974071289 37707730 2029279155 233041268 641821311 994186277 1359191411 938440280
  ; MkMatrix 1400257877 386690611 1408185414 478546333 145230459 1721961454 161253811 1603223505 120973144
  ; MkMatrix 9613938 444958614 648131738 780206330 1325516704 226845371 1749851864 597254907 1868096763
  ; MkMatrix 1558768028 510958594 170049698 1889666137 943273394 824383243 203638110 744650975 145774641
  ; MkMatrix 749949171 1413440725 1478648567 1753106910 1239698577 184590874 769796667 87813706 1853208874
  ; MkMatrix 873361886 1634629031 1052409966 293082117 2117670097 1973197465 898661765 515421411 970904962
  ; MkMatrix 383537470 2130801820 1209917876 1808721534 1320668354 922821882 1101678582 1637882395 210538604
  ; MkMatrix 1039273898 1053143454 114250876 1433875592 1805917767 474649225 484994559 1156753314 756809013
  ; MkMatrix 1351134457 896570522 2077348590 1405656529 352326440 101550915 1504934858 664180964 549359832
  ; MkMatrix 396451192 2078577712 673268637 744730663 1875155134 1080826336 2012966337 1865553545 1759082305
  ; MkMatrix 1051263218 1235079520 597513880 9430000 423100072 652389029 1335545361 1796846953 1190068009
  ; MkMatrix 958843346 1289040609 1350757214 1083521370 687083312 1597690532 2080055716 2073488787 712981513
  ; MkMatrix 1964651803 1561787912 398144876 557420958 1297921561 1196282328 838439520 263967126 1849778161
  ; MkMatrix 88744084 1710781196 215280907 739504014 864450253 2109217496 1195041701 428613601 821809675
  ; MkMatrix 107532094 1892664662 1462597834 567911525 1219636678 1210783335 501952755 2002840796 89145670
  ; MkMatrix 1326033436 1246307966 411367957 667641698 2068940898 352699534 1791161673 1436599483 1888253626
  ; MkMatrix 1987819942 2088045840 808033482 1723578164 10099047 1607057225 782434365 1986597048 173783539
  ; MkMatrix 992685984 983487522 1607004178 2080761883 2009171717 1065544157 911941176 1332085742 1757690072
  ; MkMatrix 1788385200 752472939 749461243 2107730903 934659263 126538119 597798719 1791127169 1274132395
  ; MkMatrix 1202770716 314792571 66214205 1386639545 2093858130 1611809738 1434816079 777079735 1285009311
  ; MkMatrix 236235983 69868183 1483971075 220770660 261389106 309308136 946216498 1822330168 482567006
  ; MkMatrix 1252037449 2039225569 2013386770 1160797436 1652502349 419896456 1436926281 765247420 1384665752
  ; MkMatrix 559071297 1264820636 1645922792 743623316 2103325467 747023135 847593783 769088039 1726770471
  ; MkMatrix 676878856 511842652 2139518390 645365874 2053603049 1992921970 368253877 194354470 911837161
  ; MkMatrix 932328291 326508576 881653155 1596653325 520587264 1181309680 468194767 36920786 1151910083
  ; MkMatrix 24457320 446371652 89173169 950930200 1771783645 437811590 1009680936 168045143 2035090392
  ; MkMatrix 164039459 783183683 1532654219 1119463022 622229906 618395690 242473904 1464093885 646667958
  ; MkMatrix 412713245 1210139988 238439355 1061814555 1847752582 1602561264 107039642 1239099045 1950938828
  ; MkMatrix 1368313186 1723698050 172475083 1378365823 1055339874 1889033529 477680989 30061471 78450718
  ; MkMatrix 1407761424 1351323152 1986641438 2132546091 1956780743 1288103383 1857927801 1589645543 1722527350
  ; MkMatrix 1978818034 1013793500 64243355 354544229 629073325 1824445741 1680545175 1376966153 1542999542
  ; MkMatrix 536280389 1101586710 2080902842 1808305416 293175122 1880256215 885942255 961354715 1567313707
  ; MkMatrix 1375226062 887637307 833013759 996299239 117669533 621056550 1689385790 1478756036 1318091838
  ; MkMatrix 27072304 1271849690 1429860353 1172723656 1204757870 1691871113 86086187 1894212767 1293402678
  ; MkMatrix 468976026 1394270241 2143359724 945849613 936572377 1874373726 2131574014 1703037261 447883518
  ; MkMatrix 172520270 855491355 1189813652 1964428641 1413578986 1868851084 965212502 1841352630 1842847389
  ; MkMatrix 1181644909 825392281 2093980163 750596481 319354269 1378184204 2041112421 143581316 1987087726
  ; MkMatrix 2085350436 1595044029 8912517 1185191263 1557174120 435674647 608045667 1723994556 524279296
  ; MkMatrix 271061812 232983259 806857674 1758694132 1144695020 1426601813 1703411410 88758315 576758698
  ; MkMatrix 1247512532 2021692240 999832613 252416836 1881593123 726069395 208837413 1575188112 471283825
  ; MkMatrix 942301406 296686383 25721265 686521775 2120949355 611125985 348698082 779225811 881852680
  ; MkMatrix 1356583800 445029220 1113476523 400142121 681049849 2117708537 50155988 1241580984 675993234
  ; MkMatrix 42812365 142013956 2060362139 405074473 577042943 663900540 1827996950 839017364 712883595
  ; MkMatrix 617926067 1155725249 1861714877 360111199 101719588 1691070402 1484588601 2095363018 1301077814
  ; MkMatrix 199340948 1557572766 1595724788 1446086899 91043777 199313246 22726599 1330758407 376897611
  ; MkMatrix 2105779642 309295565 982619772 1693347530 499631027 1934504702 520291491 544877867 1060543050
  ; MkMatrix 329738186 547447549 312672196 917060948 173820334 1076284278 1868707981 370387337 1869545866
  ; MkMatrix 22370610 924919242 1305035442 1383698402 594754831 1990831352 1896734657 397718725 992424189
  ; MkMatrix 606965924 947586090 1589130488 1943099727 1595611000 1164644746 1825749921 1411461437 779476950
  ; MkMatrix 343975177 1961593522 748711625 178738513 860246367 1519079663 539156290 1063775635 2098537630
  ; MkMatrix 1167172959 1049708067 2063374046 209866104 1394181480 533823349 695419868 825462609 2071637208
  ; MkMatrix 2019269694 2014322171 1285689615 1043783283 2138205362 663332684 1483019905 1061597228 478156144
  ; MkMatrix 696263274 283716399 151531196 942468966 1001006519 1543262806 255634308 1711990417 79687326
  ; MkMatrix 181774090 1215071315 467692519 1054104184 2000343845 77708560 440494523 1222053648 284134880
  ; MkMatrix 1969335059 906078307 427856956 475264194 1774737732 109436854 1892792610 886528604 1893949450
  ; MkMatrix 1335450325 372635843 1978600630 1907224879 1556408677 442099141 1931240113 479671563 1710646177
  ; MkMatrix 498702562 1828991973 284107074 698720885 1612941585 1869194441 1884746849 1005427129 79926084
  ; MkMatrix 1826563951 466642607 1346552446 2036510613 828939995 1008461230 2067332839 1205569937 84867970
  ; MkMatrix 2026585161 1176102193 624589227 2106443992 1556761331 574171569 1389996819 1512570923 1349484055
  ; MkMatrix 1972038738 2128004701 212679751 568902647 1753254486 1223042778 1717350061 75204308 438442790
  ; MkMatrix 1530442143 725590996 1155006135 8364550 2055643168 512058793 224166281 37280534 1398349887
  ; MkMatrix 909771006 144337620 1257163396 1744714766 1942383312 470162862 1307354759 1179766418 1314716701
  ; MkMatrix 550010533 1898560929 468179505 136472692 1350791268 954437966 778371311 1045158739 877611527
  ; MkMatrix 433837868 1540684921 1118499370 1300284149 996411380 100351479 976002170 2032425213 1680926926
  ; MkMatrix 914651626 1989015580 1624695372 863230255 2092264129 165648958 1351969872 1678530988 216288095
  ; MkMatrix 1996222421 498854076 1675863870 1891136863 213147483 2055034058 741853585 20875373 1601705473
  ; MkMatrix 1240883427 1387902716 127081727 438101018 1087626032 1705212793 926121620 113958451 81372933
  ; MkMatrix 781859265 949103203 424632019 658555113 192884729 1212323372 1288809027 959091230 930944622
  ; MkMatrix 2026970611 2016988139 2011477135 855045868 1095487378 341180784 174076943 1116241485 1241673770
  ; MkMatrix 591055610 1060335675 1258734546 1028330541 993560331 1927208035 47340822 1226509618 349533600
  ; MkMatrix 474397193 2077815902 580698020 851149327 553539540 1160157608 1033636316 59879887 1284200856
  ; MkMatrix 656792993 1614920546 891958362 684540967 1223128806 633423722 885008424 804284748 1800622603
  ; MkMatrix 1374046595 1159092038 183426431 816904277 1149755410 141304818 2066705027 845176794 209698438
  ; MkMatrix 208935577 1964287894 1290689124 1668862826 1236660903 1569037895 204654949 416117588 1950013206
  ; MkMatrix 1951400851 191927669 620759198 2016849123 1199643056 690053377 57117969 815741828 1773126875
  ; MkMatrix 567580201 1947398309 750034191 1466814569 172879173 1856119421 207766576 964599538 1768004617
  ; MkMatrix 1703976435 403956971 1674973120 1495867951 567581048 1418177954 534365742 1523588306 678570235
  ; MkMatrix 240430468 909861065 449399312 838193191 1902401191 1684703860 2007236608 994653837 1232149801
  ; MkMatrix 382429979 971253008 2015881252 841613755 670171029 730028333 1008752059 381176352 1825249494
  ; MkMatrix 5638970 236071928 1175674997 869835242 1256331244 1307840112 2006421146 811832935 435318805
  ; MkMatrix 600110568 1732388788 7845031 1917843508 1325839414 233859901 33368248 617674433 358034086
  ; MkMatrix 860899387 446173476 448040869 1357735675 892521554 896477967 885892857 725550628 1497572293
  ; MkMatrix 599091214 1896833313 1659528594 1844763470 1062881770 1042906294 650266297 1295047719 502240886
  ; MkMatrix 107988928 513683492 2035721322 1121627813 71157390 1334880826 65274480 1098781745 223454691
  ; MkMatrix 1168435403 2046536723 494623867 297125515 651292397 1959706879 1848835924 79529671 1804573018
  ; MkMatrix 1272983110 1535603581 635133898 1798850220 1451389407 16317669 1595790355 703452684 1634677697
  ; MkMatrix 149233730 1549813033 118155068 237659065 993994568 423839404 399308006 742146357 412120796
  ; MkMatrix 1726725868 676415651 1436326095 2051165787 744152047 931055056 680960096 1383333024 689482218
  ; MkMatrix 320786719 964875123 1867230531 1858909197 97983634 745225589 425285569 528943242 127601864
  ; MkMatrix 639205105 1112842691 2126553470 1267867502 207233447 1425991816 1197959605 1385452552 1010815242
  ; MkMatrix 646490098 378658310 1277695546 1048970500 33685061 2085122058 333154461 1039740621 1924633673
  ; MkMatrix 547927038 868128903 663679640 1263476106 768368143 461606075 2112730249 1490388160 246732287
  ; MkMatrix 982469487 1505254108 2115476551 950566098 2024339439 1913009064 1875420108 1153162519 1513358375
  ; MkMatrix 1351072732 891651361 1847742183 1188223826 1336315121 1707266093 498579774 369475811 240630946
  ; MkMatrix 560158578 1555620771 413374959 57754366 1326328035 1144816904 442185772 1191479534 265065104
  ; MkMatrix 320431665 1604740872 448628547 1371355354 1580880504 2029460701 1993175131 1854860064 1361176211
  ; MkMatrix 89955220 1090682105 468820915 1285301718 489822174 1059197778 2030836975 37637865 1013519833
  ; MkMatrix 888474915 787136394 389533682 778617186 589750374 2086782909 625527305 1096553541 313330817
  ; MkMatrix 257128385 261988351 387317728 1058215602 902906418 708864328 998208672 1997332755 1814452689
  ; MkMatrix 2128119878 1335660855 430886682 1243796524 1464148395 376070533 1695126366 1294747390 2084728632
  ; MkMatrix 814846573 1234664956 371824798 119779890 1742632266 197849379 195203333 1447323094 591824089
  ; MkMatrix 1614146356 518076024 1975373331 335230768 929980564 1671111717 1068361683 283426726 1475026304
  ; MkMatrix 1689759980 352732307 2042418416 22966012 1153147927 1908799961 1481712612 792856786 1519893146
  ; MkMatrix 1409537474 80163292 1758867761 2081118454 1667104871 1090063729 196229450 938696323 1660683705
  ; MkMatrix 334429515 223267306 1645985444 1695618668 612152182 1716829711 78727404 2097560806 522250994
  ; MkMatrix 224487197 1738359031 158296853 1266353104 1329775676 1337665965 226984677 864785920 1027100604
  ; MkMatrix 956259928 1640031682 580272501 1964931942 1914966694 16850519 467000637 1479359172 538197525
  ; MkMatrix 1860278891 1967541887 1280421864 911263141 1939278279 350076634 513649948 1590479118 1167862223
  ; MkMatrix 2095115804 1150870013 800823993 819668689 1865239155 847076211 1685463325 766627437 1274797005
  ; MkMatrix 1112133265 1999045760 1714571576 385917284 806116174 2146670029 1929604707 462174913 2040219325
  ; MkMatrix 810986818 92710449 1417597035 779109582 223079664 1741600345 1344907826 952636937 1715017836
  ; MkMatrix 2042480124 1834870321 651277110 1906639661 480414167 1549499007 860571734 961194460 143996106
  ; MkMatrix 1917657618 730596839 293272443 193642663 718609911 1992151955 1206631994 1274560018 57765540
  ; MkMatrix 1798026075 802657864 1223836436 1492411252 125048294 1783961473 1995314291 1975167256 1151726672
  ; MkMatrix 358328779 647096695 266970721 2049334699 1211082137 414307440 121963117 1684525061 728872548
  ; MkMatrix 1067232274 1301740398 773861151 2094757157 1497082220 283964008 1533467207 162179264 1869816207
  ; MkMatrix 1070834770 778777015 685967291 986206148 1543454294 1477726669 1135130598 374162074 768252474
  ; MkMatrix 106398292 1771627323 2110428034 1756025633 1540235722 875394462 2018788337 727327168 2144664672
  ; MkMatrix 93216548 1256027787 1476298383 142821831 1697849176 2082395454 103214880 106696623 1982627905
  ; MkMatrix 1181027311 1308050654 1614194062 1792717619 558910731 2075807101 995035759 1337080921 198306591
  ; MkMatrix 1173854424 61555314 1158174443 1006179413 703728358 80202995 593232483 1120670591 1492609657
  ; MkMatrix 765608620 423640093 106108863 337555623 971541500 155677076 1769608804 147689271 2100966261
  ; MkMatrix 713128857 1353942237 312140353 396517172 796750658 782224590 1112103570 1081022746 1062637791
  ; MkMatrix 844268523 765060988 1685438868 1687945123 888179633 791689552 549354066 2139916294 1642447483
  ; MkMatrix 1029225728 719684707 1046914110 1519526926 1966185603 1218449161 727831086 1909031140 1298024704
  ; MkMatrix 1617530560 1172242034 1624600017 858581666 147156156 606106338 1197714434 1942620167 218858374
  ; MkMatrix 1921287956 1478627779 441763051 434085192 438011450 376680265 846795870 1211448461 121378671
  ; MkMatrix 1676868090 307766929 1047594428 848503335 1779377811 794604921 876856888 1400596883 1611291449
  ; MkMatrix 1372264271 556373014 984181270 1312389175 1839585931 1257196525 1081033398 719279121 1695212421
  ; MkMatrix 279142459 1559972279 1323839805 188997188 1202453217 1354898236 420128693 1437816516 269720707
  ; MkMatrix 779465324 716247735 1858343928 1487792903 830128981 872931601 1660192050 1980467509 1103332994
  ; MkMatrix 159413008 954437726 421019494 624473512 291046085 1757636632 1094336861 348829793 1564820028
  ; MkMatrix 800535499 152520527 975091273 134052032 2009114448 1912442567 1057355651 945093560 1678331702
  ; MkMatrix 1582927517 699328408 1378228817 475685979 1465378021 1970664877 366373563 669577779 1123651616
  ; MkMatrix 1026272972 1802623481 1489725074 583103450 669163628 584434482 1499921370 1131872794 1776246703
  ; MkMatrix 370583497 1029652728 399576315 1458497119 1787454212 577825957 2022698330 1824294527 1900570404
  ; MkMatrix 1938524356 929860676 356133569 2100482268 1781439055 1969364069 633223786 375615390 576231845
  ; MkMatrix 1088336740 1136563399 896595337 847576010 507219524 755645540 632119398 411585856 2081151392
  ; MkMatrix 61937080 311891788 1564106624 1101631185 1847738402 290213810 388789967 1717173973 495108235
  ; MkMatrix 827690718 871075368 1488528461 2123454305 229458949 366635252 501212664 230042955 1759556650
  ; MkMatrix 1270433679 568296364 237201804 658485673 194782623 16270394 1734745719 2091434136 1180767593
  ; MkMatrix 197143922 706242083 331429217 174590238 276032628 851990075 1643845426 243489433 1586675697
  ; MkMatrix 1292245194 1686278886 810038937 543010209 73702457 589747974 2106865699 1845716679 1467811084
  ; MkMatrix 2044645147 1567449295 782276006 1678964530 242250023 1603442770 1294812860 1225780029 779594654
  ; MkMatrix 1105082783 2033988813 1394157411 1775411816 848429025 1969332386 1349136170 229472333 16494432
  ; MkMatrix 561411245 79344421 503289950 710521079 680979672 419721397 34264914 54283265 1198851441
  ; MkMatrix 926528978 1081022522 1177205209 1321610334 1364585233 541989015 450638142 1378635349 1848430502
  ; MkMatrix 1216030079 1081540767 1213112952 1281660405 748553241 548556057 698995785 1573882792 1486184452
  ; MkMatrix 768179062 803429057 88395736 1593946551 2096157017 749314750 899877397 956866915 1224382685
  ; MkMatrix 370094193 1476057517 332802090 303682957 1225542588 594905273 1520449615 1382138327 1493413450
  ; MkMatrix 1567015798 1286863034 935299387 149706418 1617173205 523659140 752018688 745493336 926753808
  ; MkMatrix 674221735 27315207 1412953567 766416766 1551752809 1401950335 385400038 416778388 117390185
  ; MkMatrix 1844080660 112143243 8230936 1034352967 1442392337 1614198659 1483370870 1588914986 1530517186
  ; MkMatrix 1344821152 1900718879 603842137 102519437 1899842950 571038017 81856284 503366467 327800316 ].

Definition mrg_skip_matrices_12 : list mrg_transition_matrix :=
  [ MkMatrix 0 0 0 0 1 0 0 0 1
  ; MkMatrix 696788222 1812096040 882428843 1609134457 1078616037 1782968527 1010009135 718760348 1686043374
  ; MkMatrix 1202180744 42874873 2062234348 161658249 1423167426 51608342 111436146 766900692 295758725
  ; MkMatrix 1146186515 58536875 446231569 913842564 417848192 1267984330 1076178877 215057410 1416319922
  ; MkMatrix 783395902 1549319768 1597739531 285561366 321855346 1489879567 1827900959 1685905495 1342401158
  ; MkMatrix 1644664828 1464835735 497174019 2048306693 1557558248 1748196504 314801972 1079132544 1609358587
  ; MkMatrix 1395101234 1195914052 1021136119 317029561 184672441 63383526 1643196979 1782020083 2030571606
  ; MkMatrix 419946285 942800688 1228070151 1387434373 2104593841 1332690400 761628511 154496753 1298900701
  ; MkMatrix 2132263651 1018867167 1178466566 1734643453 647703741 1453690895 132803841 1795536291 1200382045
  ; MkMatrix 1395839771 1427915431 1505127076 1938604544 1485266408 2120487517 440833898 1569564315 399047986
  ; MkMatrix 398926468 1783326693 1500398855 104821855 987238773 355212241 1483448753 981479162 858469431
  ; MkMatrix 1350872487 117981453 681553802 616542729 1803328278 396795359 435301244 893684023 1812661417
  ; MkMatrix 2090571687 147935214 1391667443 188701832 1127409435 167854400 1332918403 44302938 897155042
  ; MkMatrix 574690785 2117237780 1100582759 207233149 1933138402 305483270 2067405438 1416376528 148916429
  ; MkMatrix 2147169391 1075960581 738666450 2031938273 652590330 1505567300 211717895 1420966098 2087987478
  ; MkMatrix 1998335582 902731590 868146862 1879195961 1570165653 418062501 829199169 407860246 2071659661
  ; MkMatrix 522007123 279919223 83499994 762310327 1561280008 419339277 1762092347 897197282 1462009324
  ; MkMatrix 881585730 31318601 1893457268 121783159 347579961 796505419 1507306189 560593634 1654610742
  ; MkMatrix 1270474204 1403419848 2069160783 990287640 1987433222 1388250606 80034518 747527194 1081553610
  ; MkMatrix 1054055266 1886420203 901325693 2144257583 811873509 14262307 1647953162 1782222341 295469872
  ; MkMatrix 2135127386 748167985 1342423435 667705086 1210803764 645118494 472386868 1361363141 841700847
  ; MkMatrix 1037626816 1344010387 15086114 1921074444 929462577 551344272 1110605807 136498041 989062445
  ; MkMatrix 214283764 657559181 141797254 476941659 1202755375 1012056593 1183441817 1888098123 864043579
  ; MkMatrix 1779056755 506495601 1840527005 1413621132 1217834657 1494438472 458480081 1360527286 1385895201
  ; MkMatrix 1258907145 779470512 1718159072 1927446600 1631923073 875723923 1733778246 1964869308 1803212274
  ; MkMatrix 2030189366 316269033 1324350818 328555118 803802916 249947849 55753065 845912457 185611009
  ; MkMatrix 2009180327 368501835 143500705 1018775192 1410557240 416907997 1822944006 1024989884 1481307510
  ; MkMatrix 365378227 1405712768 1831417885 1610168826 877064681 2029449665 1657981414 385630237 419971551
  ; MkMatrix 1939603071 443822591 361014742 347336555 909018255 946077522 244635974 1764952517 2116645974
  ; MkMatrix 1226368805 1558231512 1947516869 185668397 1142679143 1665873342 1579209564 62441779 1013450338
  ; MkMatrix 28079442 1376073886 1132410012 1835086761 701163152 1580994446 1223307050 333187470 1658289361
  ; MkMatrix 127887597 865542840 2070864585 1666319089 1853316403 498659634 1252088619 1120713890 387324718
  ; MkMatrix 30077069 1599850421 1571211200 1538362238 398560681 408207441 1535712778 786114401 230794823
  ; MkMatrix 351427891 132700222 542526223 2112293290 1313491376 1190816466 769985554 1198553252 35004279
  ; MkMatrix 1948300955 1359108464 1738305054 834245276 439352440 140332218 1474440413 1714055502 54181379
  ; MkMatrix 48522004 764918241 1944784217 1441792898 1658103647 1177432269 351566917 996621930 235544148
  ; MkMatrix 1681474937 872028403 589307132 516653903 1747866657 2108873275 1461814221 112393108 420038881
  ; MkMatrix 1336550160 1276029054 194713084 692560261 60979972 808236498 1844565592 1335452492 882061788
  ; MkMatrix 1659330136 592482791 278939816 432317971 1123046790 1729704161 1928401189 723745196 440239242
  ; MkMatrix 1002421666 982984946 1046480286 710863573 723785617 1276382457 277623879 506321033 1942437626
  ; MkMatrix 1037444329 786435165 1473943156 2045064968 1684881956 1389697291 21181463 212290356 1181083602
  ; MkMatrix 1452982732 770828505 1827540207 1152149652 486079777 1550774737 962646502 1029971741 232963850
  ; MkMatrix 1564004223 1143247447 1686414711 1165190918 319861074 917968516 935629001 945094950 1062819665
  ; MkMatrix 1265122571 945025972 1806109020 1352435549 228708949 1683349078 1002188478 786921217 1778647623
  ; MkMatrix 1542028138 300215744 1085348765 1985513885 1025744370 1693241178 277965988 599735601 923211092
  ; MkMatrix 415459310 1729088186 2142495310 1931560600 1166869954 509935604 246030931 879082133 107571931
  ; MkMatrix 931816679 1482769272 2081017449 2708358 724310367 1049259252 854783252 992024408 1236095283
  ; MkMatrix 51393308 126475116 1091805853 1030810527 2049416357 967480917 431064985 1416808694 909288220
  ; MkMatrix 1953142785 1223314758 1198217253 1924082724 1500891632 1076585695 284541348 536003064 1742787289
  ; MkMatrix 49606365 273298902 1032584285 1024310220 559323094 792807586 1399346724 964035596 1939897553
  ; MkMatrix 2054617134 896076399 476983398 190302648 376867992 1680198955 1499526499 1705577838 1712651031
  ; MkMatrix 1838162657 1648090226 185078703 614717173 1606849275 682610749 912532582 510079134 784076484
  ; MkMatrix 546857375 2077720603 944407365 732612671 995884328 1349449610 1545841825 728438944 1170427427
  ; MkMatrix 31300942 745346390 1387708508 1727091326 1592783484 949139425 1592380621 1277132291 179419541
  ; MkMatrix 1552595670 1278629417 32396315 810091727 495786371 1808962756 1117246268 1278048992 1336959412
  ; MkMatrix 2104184015 816620296 1292947428 922786918 463393421 1690768626 1345423503 774011239 85115305
  ; MkMatrix 1450852587 701336827 2040315511 1847273555 56231133 945157698 1494761952 465113413 1289305809
  ; MkMatrix 2037115888 1906993108 2010734827 1499184005 53512755 2052996006 1936431319 714058861 2058449983
  ; MkMatrix 1048861364 879958584 1289388345 876951673 846522117 942353836 530067773 2087292323 438092351
  ; MkMatrix 1014365917 607803662 1894664988 1985546610 1181586190 2078136691 200949505 304601548 1933969107
  ; MkMatrix 1786591549 749684577 439846277 1146768873 676843154 1090745176 1776072383 847266086 1024545118
  ; MkMatrix 415302310 2009236305 1298126179 945621240 1537145333 790138673 269958367 1602755088 1835174511
  ; MkMatrix 762461665 1122392429 737913527 1759694907 315417675 1392401758 35824547 351291945 729336406
  ; MkMatrix 291166125 1084528304 1678341182 1865772381 1493781319 1519491072 287525848 476648146 1971199562
  ; MkMatrix 587493162 435182392 737577629 780611083 1550649134 444308150 1655811600 201077023 1802394723
  ; MkMatrix 1389300081 685661134 2093686594 624189349 2145957161 306780288 697823305 916822104 107082507
  ; MkMatrix 1500724170 1071042272 438693193 324778690 1420572696 1619530636 1589844388 627326613 449389105
  ; MkMatrix 120301961 979833722 983911173 2016199557 1279754511 1045102218 403377032 1016024137 602023516
  ; MkMatrix 1804585813 2146457583 1369617381 1529147241 1042512084 763233272 243492277 1121802397 327758698
  ; MkMatrix 1434626505 388673847 2018368120 2133513954 1932461723 423425482 2084917566 2048037900 1215648458
  ; MkMatrix 1414594852 403253272 1315959015 758448768 996107119 1196635262 1111885038 154540640 942017895
  ; MkMatrix 1666701570 1409601197 456044066 1350163658 1488657786 1899997471 972160957 687784776 818436385
  ; MkMatrix 1892325122 746885764 1025488056 416686884 1543381686 299320336 491229209 1211124302 1334236545
  ; MkMatrix 1046689848 1052727161 1905338108 302710278 1325250656 1545379173 612836121 195591818 1042045155
  ; MkMatrix 1544894979 1421822564 1538791798 222963445 733724705 773735139 1160610317 1642110934 1662224431
  ; MkMatrix 247204486 1106757602 1785062233 479203957 295937421 1664481126 1846738933 1228709701 2120746855
  ; MkMatrix 1820458569 110287386 225358918 492358696 195124016 439494528 930529292 1455163632 974306933
  ; MkMatrix 1901830698 1221666851 1720971757 281460102 1953786761 341277742 1816272912 934254771 660429950
  ; MkMatrix 1441123476 18547493 1356114318 1664337095 1924168244 1232141194 280619806 62881610 828417857
  ; MkMatrix 925085040 482021842 269799975 151514061 1442498876 158242078 2147150530 473753199 1169311074
  ; MkMatrix 853610942 68340728 383862005 1986891527 527064322 2131808910 711470710 664134955 1905229823
  ; MkMatrix 638050382 1007591661 593817482 1538963983 2027026200 999022392 1532649833 250917265 328592422
  ; MkMatrix 2021784628 1618178822 972471659 218022355 1171553244 1769547661 460504160 56845899 1044282997
  ; MkMatrix 836882401 144379572 1828573148 759581331 293387515 2106328561 1198732334 1843263567 399864543
  ; MkMatrix 731505939 554733719 1433139095 26827131 1299504536 191332458 1151424370 697570425 1592225799
  ; MkMatrix 448792000 1647205168 1835685795 1783293045 1449645019 1490127968 25650818 1559566894 259551512
  ; MkMatrix 449890930 706985545 2016134869 761481833 409013262 1623265543 1770114476 1859928684 187534952
  ; MkMatrix 555128875 1812492930 331660447 519087781 475596323 1081326912 1241686216 1802484523 166849287
  ; MkMatrix 75741010 517573344 963073667 949879509 2003888055 1564805814 1918630185 815229856 1289060876
  ; MkMatrix 1786005116 121217745 454428508 228074382 1791720059 1214102872 1317982691 947896446 2104201397
  ; MkMatrix 2102458707 1467845711 2125122627 1977273521 255816182 1483604440 1605861073 663602869 989922819
  ; MkMatrix 205920560 1551603012 485867102 1067071525 1957876812 1479530816 1686018234 1980203696 835308789
  ; MkMatrix 2044908115 1006954080 256571765 524684772 1632046441 1901848975 1201537359 2144256161 988930967
  ; MkMatrix 1840636971 395990234 116702147 1231394391 209194094 932883300 1937676639 445833385 590023321
  ; MkMatrix 1069347642 399186329 363828558 1149069710 2034857074 239663019 172572319 981295216 1261907019
  ; MkMatrix 958606121 1396423171 1528354469 12270032 73550778 1168285211 153087004 388186310 1011427393
  ; MkMatrix 395509781 646543780 713701261 1092693123 1600818053 615489539 390905740 955876114 622016319
  ; MkMatrix 1944295328 629222673 1668045255 113291825 577523319 807712767 2136965063 1834960247 686906509
  ; MkMatrix 1972699124 218060274 2035282067 415271547 1687466260 2104595957 976550935 1684091455 561163339
  ; MkMatrix 340538948 2026629881 183755191 1023474272 797374276 618951061 74496502 1212148861 480496357
  ; MkMatrix 2105203046 1752112332 649657783 1310173700 487338346 1659536360 68820057 963964133 1545815270
  ; MkMatrix 968299374 1338555242 425783176 436699059 1155789547 355405367 1053010574 1571383911 1786921184
  ; MkMatrix 671888013 95571442 788652228 706822491 461065524 1256275008 1207949434 1787278742 50266329
  ; MkMatrix 253642787 730384959 325337830 127775180 253606110 1393229260 1985191236 1150945165 387646214
  ; MkMatrix 573100363 73794066 839188301 1836971337 146654513 195331486 1415067375 804826844 294461847
  ; MkMatrix 1281143408 916743304 213924520 27997364 315504262 1327336570 823098544 169409603 578333448
  ; MkMatrix 482152762 1671922619 324240683 1640564451 989228669 1717917517 1548330652 239655264 1334846056
  ; MkMatrix 1523922440 335809492 1025971443 894102921 828255639 1949920285 880370255 49102420 811069792
  ; MkMatrix 1392298759 2050121255 830746957 630925269 1393934553 1455442507 1072961356 1973375712 1991743242
  ; MkMatrix 546028185 1963482915 1564828127 1792921819 1231602611 161760315 971341105 1989823344 964661170
  ; MkMatrix 1182180557 961156366 2107103538 620948757 603423133 225270624 310271902 727101956 2066924366
  ; MkMatrix 553119176 1069448143 806964722 1366047384 285566068 446359702 865487191 96759226 895945433
  ; MkMatrix 627049804 449241608 1862282327 1005046689 1312018061 659270906 128298957 638019507 1840330510
  ; MkMatrix 728114793 1732350219 299746032 283623426 1008315513 725890765 582555176 1797716032 1667605090
  ; MkMatrix 1550224238 1436927234 662334548 203451952 1790341883 679600386 1068719507 581019401 1694359275
  ; MkMatrix 2108463850 1105836020 913243453 1836682248 955701007 1441615496 2126664947 1843968793 1706176300
  ; MkMatrix 2053051036 1012355475 1646918120 1745995758 1796301755 2011774530 2016538858 825458793 755771901
  ; MkMatrix 929777915 366920783 723042476 535694139 341131414 1652111248 1003796998 2117100472 888636437
  ; MkMatrix 13354760 27598147 1781244068 1015080648 2068444336 22923981 1880594857 34749901 16172406
  ; MkMatrix 1229428993 723828729 1298165108 1743379978 1717119021 1689392952 1995367763 1367123808 2097619147
  ; MkMatrix 1691212527 1539433081 1018411804 1745496835 1735214882 1699127973 1819581384 1538140080 1196865854
  ; MkMatrix 1001857750 151587285 1192588884 902674961 1182850483 874678896 456954541 850115054 241065120
  ; MkMatrix 287013602 1477604294 1560168054 408500365 684022791 1591897898 788255425 669481878 234955769
  ; MkMatrix 2047790000 1430362833 418729393 289858902 53780468 713636333 1564821047 493790812 1169443872
  ; MkMatrix 905708307 1827109157 2026175826 416559650 733216574 114246879 1878815236 1476961235 1826892877
  ; MkMatrix 1043177264 1741638820 824182052 2033778361 1804576145 1806023507 943693101 1810859958 956026795
  ; MkMatrix 1132337194 1086281928 1138322978 129085198 626141548 45718816 692824663 208719113 1948954229
  ; MkMatrix 558899408 61835412 1662035134 809229155 588245303 725214078 1193461842 606265875 1986664982
  ; MkMatrix 1845660459 1258918258 1108130310 3685475 961772168 505562915 394312378 1798411425 869199081
  ; MkMatrix 8771549 1235129498 1308240580 1005606907 1371747760 50943450 216668549 1896140556 278601836
  ; MkMatrix 1110412500 522246569 1969562154 1130297090 930540277 133602194 1278556292 1971292576 1958574793
  ; MkMatrix 1651977991 1146069666 420222023 1982647481 1021390414 1748993375 1418687077 1163984457 291873307
  ; MkMatrix 729579956 631524691 755842124 1513530044 1262140470 2094158624 452383335 818324965 1512597644
  ; MkMatrix 155997300 4047260 1476717626 206028942 1119876262 2096931852 2031281666 139325453 319493077
  ; MkMatrix 324522066 74496233 1161095448 1374777760 1690989543 605158604 1378786666 1536447521 1260607093
  ; MkMatrix 1846555793 410977853 734181595 1066811449 611025804 1160547696 2045976819 243345380 525854921
  ; MkMatrix 2064823991 1101176654 465628525 1857472460 38379719 1559604263 241889580 1772811107 169515108
  ; MkMatrix 1278198678 967648382 1338594563 601596619 1880622149 305530480 1231658895 1781128741 1364601272
  ; MkMatrix 1622863454 1884557007 1889705453 1711805492 151994631 672309704 2083893786 1626687761 1837511744
  ; MkMatrix 975323767 726579709 1865176392 336502747 1619504058 1136835667 71419538 96757544 2015135647
  ; MkMatrix 1798693059 1387560779 469871958 596973526 584989782 650644026 886391643 608858998 157140768
  ; MkMatrix 1387517840 524792 917152549 1322161764 1740339215 1662377195 1945933266 1285330215 753602728
  ; MkMatrix 1073040623 1872186690 1498627978 1796943597 587348573 1818745019 754693039 1425426851 1269565181
  ; MkMatrix 221610131 276969024 914982218 1982617779 842130865 1380521484 861296428 392673841 812069203
  ; MkMatrix 147052064 130382886 272096342 241929617 1173659237 508411393 1490016725 257294675 546735189
  ; MkMatrix 1598627007 1268653679 1019793701 1210204436 717214709 1460753503 830652522 1134224418 105487798
  ; MkMatrix 1175257192 1350496773 1602943181 275343708 120535901 80163297 1252763480 1984360137 1251370953
  ; MkMatrix 6597741 1249166044 378512865 1404637827 1647341250 1354231017 1729893109 1765542880 1029401242
  ; MkMatrix 1013526118 1141594131 150475186 630143300 1520341387 572111625 487107029 1426023481 1128607351
  ; MkMatrix 501598278 144746945 1251041669 409645552 1228371958 1901922830 1659110502 43705241 1320449306
  ; MkMatrix 1435765802 392422697 261168661 1835173071 2091789298 104653031 1405656106 1987438528 107695625
  ; MkMatrix 2129917877 476344252 1906443348 184387879 168038009 1556234095 824890503 217798750 1165550270
  ; MkMatrix 2061439204 657050468 184072254 1234299438 1806304528 365043476 1774293955 76425642 1994303918
  ; MkMatrix 1838262640 2006866746 761911230 1957642998 314142049 1363474822 499443407 386973435 1789314082
  ; MkMatrix 2134484684 69066333 684517797 1123470945 1328198284 1898977070 1093617646 1384949863 1165588379
  ; MkMatrix 1847910306 350190757 1288825907 111403543 1336869928 347667244 1596639101 1807437687 1455886014
  ; MkMatrix 585534035 1197353841 12595098 2038436052 1479739686 455546017 1678515092 591962311 306185236
  ; MkMatrix 2140676101 982955376 1251591459 1956120095 1422954564 341092923 1454331483 1769226623 1125847793
  ; MkMatrix 65293872 478535934 1253610918 821602263 719404596 1744173267 1394769551 1514548926 833557566
  ; MkMatrix 1326606507 171294718 1191756737 308502311 19912814 458601717 709123589 1026676696 1378562888
  ; MkMatrix 222816397 1344741635 191193932 1471751179 1580572134 944633349 826939901 1289696396 699681666
  ; MkMatrix 1095103315 247200989 650343019 238798154 1744595689 1474527564 563755101 148858051 726127730
  ; MkMatrix 1124712629 1620973619 1670348416 1202065686 1402995443 46208193 902556272 27177532 534489848
  ; MkMatrix 1835869542 1115078988 1424389501 623854089 1460256078 687273013 432224670 1546317278 704296666
  ; MkMatrix 871365504 1841720215 756160302 338844457 1119787051 1966239018 2000711928 497588741 1053005174
  ; MkMatrix 918206403 744425403 1560489118 318639901 1476822892 745175709 118561614 1780381889 1820056872
  ; MkMatrix 1483520887 425718214 1379410810 83188852 1548857702 658105180 1149073997 1506374053 270007507
  ; MkMatrix 1874646608 1555830941 1649965936 1845479994 1980014333 1758698087 1786040882 1435114050 403982592
  ; MkMatrix 1208650843 947245001 1011165527 2101693009 679989620 846339753 2110810984 1792405894 1555886110
  ; MkMatrix 1361675884 352609680 2063732929 1047114553 1245371311 305519850 883059158 523295483 1384340439
  ; MkMatrix 157719104 493633815 1223946279 1370764522 265302211 867928858 705422814 479621443 419557253
  ; MkMatrix 147638000 1229817733 886843234 829375599 1902133389 1178144433 1870357053 1570615001 1459792321
  ; MkMatrix 339217759 591460430 239168744 702608318 1073604734 365360032 1399782921 320058478 746835902
  ; MkMatrix 2052469638 1528591651 103934190 295477979 410454757 595478913 1291380941 2098352479 1716140854
  ; MkMatrix 948747824 1729495846 1729509126 1339145436 626921507 1826930837 767960786 1714604255 1637422753
  ; MkMatrix 1298276400 1304918110 680860584 31921917 505241966 850521370 1456919928 380993401 479268458
  ; MkMatrix 1230974009 2091543540 160511127 1949759252 1942889836 479586631 1173771812 679945659 1597534673
  ; MkMatrix 506135064 1223410262 1013317395 1169662475 653920677 1475759719 389427311 66995275 93601419
  ; MkMatrix 318194125 407558162 1161285772 410518563 1105733729 833061130 1943456200 1877792540 448506340
  ; MkMatrix 591097016 1175855096 1648642051 275070646 120374848 539474411 493458366 746605312 1147553177
  ; MkMatrix 661237332 1527139150 1341806185 837083850 1847621303 436712625 1725827678 18295798 1626469409
  ; MkMatrix 972099054 240476436 1043137113 1496481321 2018796444 1403480320 551919001 1410683853 773437819
  ; MkMatrix 1998055339 1140953050 505877128 405598481 1003285403 334259499 281512121 414443421 965604388
  ; MkMatrix 1260407927 1074793653 108461932 447796430 1668659135 1385270155 1234230113 1411680261 1281945226
  ; MkMatrix 995817444 1198267350 1581071724 752105905 1492189802 1279227974 489096839 473547829 145332056
  ; MkMatrix 90702157 21869220 1019967850 1126792586 2074769133 1815484565 921419164 1233792608 354451532
  ; MkMatrix 61278289 631049944 587298053 1550312929 359062690 1575970184 465205218 1172742738 1881338014
  ; MkMatrix 888865347 402034957 1791626081 767171606 1700589769 842551362 1711481469 1134520733 551888236
  ; MkMatrix 801841760 1523290685 1635886633 1947481072 1973991604 1242646069 19844503 115174396 1504183836
  ; MkMatrix 1721704680 1512647346 2100282548 1110260145 1265759801 910050708 493274612 78620572 379249142
  ; MkMatrix 164332003 946379600 284263445 425200547 1951180690 1210985946 504663458 33819972 1080350241
  ; MkMatrix 1150352555 1255134892 681186957 495525640 171084746 315640586 1214957846 714535488 779990784
  ; MkMatrix 954760160 919613551 203209638 1027385423 739870926 585447495 1608915750 1538006734 1704807122
  ; MkMatrix 1785569161 455467717 18294489 1505086501 1382968614 2085376340 1435896417 680400208 2003822000
  ; MkMatrix 386647044 212133711 2000150346 1914587750 1229602846 506303975 1286073043 1786584732 1892788378
  ; MkMatrix 1282674225 1732342480 244199426 163717237 862670482 1820277413 1002966702 27427256 423574213
  ; MkMatrix 755302978 1686730540 39211503 453005932 2101506579 1207626133 1012406727 850282854 1159662486
  ; MkMatrix 964890346 2062039726 24603183 1993669660 1325755486 221089552 1235712028 272680262 1445065759
  ; MkMatrix 474626455 303001875 822116707 591310811 1320745734 1747495351 1391609340 104247542 1499007459
  ; MkMatrix 2022541955 1829030478 552467041 1077636989 1515635702 584269882 562720947 1632303934 300084231
  ; MkMatrix 1337493503 1875387439 900862910 474980592 300077288 1729387260 295577369 1337896154 1335052187
  ; MkMatrix 2131795839 2044863927 582905584 901459040 278299712 1191361201 273303346 1450047963 92905472
  ; MkMatrix 844194869 2145563853 1163097478 844934303 168125103 668979643 1251077150 1480799124 79342139
  ; MkMatrix 25086849 1091341245 1093923717 645461960 1811007336 2048928489 1343166387 926973001 1593940968
  ; MkMatrix 590062510 1283385293 266595916 1519456159 1131257506 3121591 1446619365 1550010293 1984618274
  ; MkMatrix 2033076038 875977001 884708989 795393142 1752559997 2097135670 1224453328 1225827936 894023490
  ; MkMatrix 945867825 1888941826 299111810 650601352 38845642 2094758999 1606055625 625352795 1430584899
  ; MkMatrix 2027781802 137997246 996080096 172599027 1348766502 1790505627 1121022403 102363733 561319919
  ; MkMatrix 715089489 1843597359 92465245 592478453 819287880 412200032 1236685422 374386920 688252458
  ; MkMatrix 1410186106 179038791 678757759 1450206307 2014253721 329718748 1422349656 522887198 1616494837
  ; MkMatrix 1054226190 1290839992 280661107 1811857784 330458628 1995602649 548567821 1727233229 692294639
  ; MkMatrix 713996323 1775050425 281559288 706705728 848198573 1847274259 1675122762 335161126 1375137273
  ; MkMatrix 1115753396 1491370958 1407286590 1441257675 1571935353 671360540 1172310401 1138323217 851399680
  ; MkMatrix 1557152208 391297455 872811925 2010817287 1272198611 705287641 733335433 1002530609 1887680539
  ; MkMatrix 2106991708 1693183140 480396029 1612359890 844691734 1814729501 2100098533 125706127 1552313866
  ; MkMatrix 470800543 431955346 2025966244 1096486387 873066888 589297703 2141834595 1957457014 1691195486
  ; MkMatrix 1666812569 1027442270 1155964587 838067873 967175614 1410425512 1950805846 799530921 794713974
  ; MkMatrix 1049910717 376133398 2103659341 571757418 731895055 1834025747 65885959 441323150 1651173776
  ; MkMatrix 810003034 992054280 1060501291 1853578111 655339090 64308124 1467490177 1017834002 513845554
  ; MkMatrix 50606696 1926166554 1999980735 399160995 1068332047 1478957481 1589719799 1882868530 1483069885
  ; MkMatrix 454779155 618794267 1910106057 1899736819 1062802157 2070234298 970775688 271475140 967785858
  ; MkMatrix 1181557543 805411811 699222251 578339288 641222993 713989218 234577660 496237107 1219159282
  ; MkMatrix 1351271487 1840832311 2121545276 2144526868 1225524613 2119506567 2131337254 754313735 424643894
  ; MkMatrix 348926897 394945610 847207322 1897277336 2033903429 2098182296 1830830436 826989954 1100211851
  ; MkMatrix 422080834 1641202589 746947925 279659322 1054397794 849229203 771840251 1190631240 637676860
  ; MkMatrix 40564282 1142391286 808418635 1242464057 1570058475 1342942152 1626879070 1746798206 1602924197
  ; MkMatrix 1832840882 487595002 613929801 1158955058 932421459 60849058 377884266 1670940659 240218046
  ; MkMatrix 2095961889 1205962770 514462773 1312767920 1756222256 1438743750 1084644284 1362639150 205556730
  ; MkMatrix 896879037 1791419263 1745660397 582966730 2070744500 1155389053 589654952 1665077685 2024838222
  ; MkMatrix 97417345 1331143602 377090146 1517507080 1137102178 1833918443 57341238 1282689282 902909294
  ; MkMatrix 1246498967 306674295 1720575362 56019314 1790673416 622018933 751249459 1833191468 2008049861
  ; MkMatrix 1269681750 1942391216 1259494508 1295189125 1664774633 424260780 1111003235 369467081 1642835337
  ; MkMatrix 639503488 1601559848 1475459179 1068091003 2139228362 89243439 1336849793 1996057946 2084853175
  ; MkMatrix 26786134 1015572041 951585019 2038451442 370266984 361951800 824901889 568619775 1781862798
  ; MkMatrix 119245792 983160623 2130957913 1745595182 1188765594 82431137 1779984468 1981594077 173085120
  ; MkMatrix 154051916 2023996191 1158140547 1049709232 852286912 1540581291 1800053101 527064829 1634181863
  ; MkMatrix 196355780 1730671057 1212414231 519451105 1962100068 1661946534 2133971497 1597922181 1510201487
  ; MkMatrix 141716305 525652719 1581716406 1488458455 2044627377 1012922924 1656690112 49623457 1705136620
  ; MkMatrix 582982868 1425825983 749998085 2073338064 99785523 2080775438 1954461964 1818773106 107460030
  ; MkMatrix 1338040740 1365076832 39837600 304989506 1217643191 896762573 1121835070 986089055 335641110
  ; MkMatrix 105856795 839872147 1313614731 1987982521 429418702 265951357 898409209 492423292 1545560738
  ; MkMatrix 719480449 313367490 1198928905 2054398259 1035020113 1027916974 194912870 912436931 1896783193
  ; MkMatrix 1307280814 1784129172 2059963529 1969371804 774958541 682335793 1069526725 2131908362 243538979
  ; MkMatrix 50921912 904369314 2060320511 175142102 1615173400 27553186 547438343 305661229 327075964
  ; MkMatrix 1092697968 1356931547 5820246 1475102913 1588793475 1833480717 1189463095 521919918 1191373139
  ; MkMatrix 155905087 654430674 1384657821 595711584 697754532 1351483170 1985380535 1511441132 1457240324
  ; MkMatrix 1654744217 1516413902 1955999751 200713582 688074354 615130879 1633329761 1883905995 1639319991
  ; MkMatrix 1624234051 1703024017 699219579 1301476070 1508611249 168174458 425610154 508267422 1545466016
  ; MkMatrix 909347348 629879329 599710544 341116305 2046540478 1170601216 1907987036 1391307760 1559582762
  ; MkMatrix 640258876 2013518187 679318538 75620875 1493165809 1359930851 1384458746 235305408 122318728
  ; MkMatrix 1339470322 1610477270 279914798 373082650 245358128 1356411022 19919305 902981805 466185408
  ; MkMatrix 542390786 1970258377 152863795 307464004 1557275013 277183049 1022217369 916055566 1880900659
  ; MkMatrix 1606188939 941453451 247939228 24445220 1628746418 271913140 152769629 937343491 334308555
  ; MkMatrix 1782413523 631688668 419933223 1642650535 535179529 329966482 519193319 1353558691 1242549993
  ; MkMatrix 595660046 1285986882 560670748 1711395904 664321949 1721750960 2105541559 867082176 2078830105
  ; MkMatrix 237907513 1777881138 527614332 53612964 411334818 942994232 1486056539 1573602640 2008057541 ].

Definition mrg_skip_matrices_13 : list mrg_transition_matrix :=
  [ MkMatrix 0 0 0 0 1 0 0 0 1
  ; MkMatrix 1200494274 584421010 351652233 1469897113 258880152 1667486567 519651211 321651548 1005295569
  ; MkMatrix 1452300503 1157177839 1656547621 1864207766 2086696265 970995210 242957474 1134927556 1259974891
  ; MkMatrix 2036333187 1555969027 2138663719 1149597802 1589030574 1594871688 291968440 1047408848 2081430936
  ; MkMatrix 162727274 1933884626 1696899220 467782205 2144814259 1232684986 1909704569 765753247 480936252
  ; MkMatrix 1876780995 113689996 1903460192 1193644695 427896150 1067429383 1851982455 8579924 854389906
  ; MkMatrix 1407835166 354794369 582146892 1258825201 2115578683 506297155 2015555623 875503280 1809152535
  ; MkMatrix 1595419120 580493018 1569116788 1645864550 824667339 22096326 58144521 1732888150 1291898310
  ; MkMatrix 11958790 1659228481 1607975730 1088902327 1693602900 581301081 1511894534 2062977793 219941396
  ; MkMatrix 1137652916 637995172 593005591 1014191434 1507428597 1957803569 874141983 1030364287 1898420373
  ; MkMatrix 121167505 895140703 612350149 420552509 948733743 1389602988 984982562 290556977 524916254
  ; MkMatrix 791382383 1010140098 250415111 1402476991 730892226 1055278811 1062183533 279093478 418461144
  ; MkMatrix 640301865 71864221 1052355564 794069724 779163518 384629480 917735246 1117107482 602924264
  ; MkMatrix 1912234702 1899077200 478108629 1356548823 376308284 1444543419 2012627897 330006512 1549296193
  ; MkMatrix 915856699 1810768752 1686747602 2051177748 1302770816 1382844725 1739622860 1442309747 1549581681
  ; MkMatrix 1000642938 222347121 775485927 687486704 1106042705 1804857375 1754398581 180821383 1364877768
  ; MkMatrix 907756212 829359942 8841376 1332931810 1224856455 1800135456 1096780884 1378555230 1816103948
  ; MkMatrix 1974102172 294001533 1275659882 260776002 825639729 891555961 1070989478 1818664967 940726267
  ; MkMatrix 1232438541 1982444825 1890406577 1934587829 178480266 1658465518 1095195281 1658643663 2067561178
  ; MkMatrix 1834843919 1137834400 1049171168 1550235167 220443556 388264846 1557523566 1649347013 1039036472
  ; MkMatrix 1708546348 68898157 72568204 869262894 1784898117 329900394 1460341619 250769145 86516181
  ; MkMatrix 1462135747 11168930 625895018 157543601 1957423934 251040695 1159863 479260196 1360186136
  ; MkMatrix 691830099 1882869025 33674931 1958049368 794101346 1533354308 355994382 2048199699 2117340916
  ; MkMatrix 1720834166 265775616 1892615248 2054739403 156670480 307728752 925916726 227429996 1795056899
  ; MkMatrix 118810361 478656871 1676579977 301018929 2023058228 544447427 90159007 1021082553 914060058
  ; MkMatrix 573120729 1531355523 1338313851 1465338957 927832885 149647262 1500685674 295853877 502161481
  ; MkMatrix 464392355 1081702777 1695494985 904158953 1645413246 382294541 1669066078 105237461 1715954317
  ; MkMatrix 987504448 1820864800 1445630546 102778493 1414140801 186748055 843397815 1418201993 166150827
  ; MkMatrix 1696508696 1790634655 1912982232 292504807 355623276 767359882 1859154638 1574535966 448780782
  ; MkMatrix 1695269387 1599618531 1657026275 838040402 1511154470 1757893522 1256511907 1149880511 142328650
  ; MkMatrix 48898484 1796742323 1312667075 726022516 252810161 61640936 861596018 209715545 716280632
  ; MkMatrix 1374990074 1635714663 2124972452 1384508164 1646945838 510223043 121033287 2093765790 1987869635
  ; MkMatrix 317677507 71040132 618226405 1930116180 781950428 711472281 476585289 582195323 900304612
  ; MkMatrix 474500859 791580949 236865644 300374879 1950066877 518131466 699764725 592328137 1420629482
  ; MkMatrix 1688936591 1234458625 1826486521 1825124938 1393637579 1824446824 1617426862 1473773901 985190896
  ; MkMatrix 732001600 2114978186 1391967087 223807374 1937017299 1858777626 1385640012 1027323558 1362705689
  ; MkMatrix 7600868 693687101 810654566 1990596644 928460628 1550020256 1986134394 651204512 1989029237
  ; MkMatrix 925341374 2140012711 676782354 1759242745 660563269 1171898136 1984604924 1494127751 1318734562
  ; MkMatrix 209132607 1460850620 1378264697 134621787 2115550249 2139273484 1059015707 515585566 431856748
  ; MkMatrix 110803827 796317077 1116693089 216954595 240183008 1509155014 2091727387 236469286 801663852
  ; MkMatrix 472366446 1625453231 1818878664 1173419623 1459895220 2104370069 2048716781 563742932 403591735
  ; MkMatrix 448315370 857178361 2063284167 864242963 1511023992 1774009805 1979251647 923124163 1510053082
  ; MkMatrix 938780830 2092062240 1500001142 1672239473 1594084689 689747126 1902834742 1220995678 951987837
  ; MkMatrix 1024857673 623966526 641823724 288163179 121007498 1661130711 1241543981 2108480615 993652018
  ; MkMatrix 1089452805 1002046777 2139871705 333278476 991150785 1157609207 338844112 1503173225 1001911068
  ; MkMatrix 1308190825 513349361 433974216 1722990879 1089267282 592353484 656147226 2137584444 770609456
  ; MkMatrix 1654538505 1414230627 940180136 760004853 24702934 1372013062 674723929 1490219119 1543235707
  ; MkMatrix 650358862 1990393496 2028633661 644459009 1996464630 1977516259 1229128788 1073257392 761831084
  ; MkMatrix 1248224952 1040376609 2143393643 580021059 1662762940 1891988064 1910694550 985019790 244264190
  ; MkMatrix 221671450 250171952 1325273923 1905395637 1199253726 1246328768 1748052313 541958051 43200767
  ; MkMatrix 908063864 1619895175 2112396371 137029226 1604071170 1731569552 647353569 876823118 1082434714
  ; MkMatrix 1001486752 343177192 437026514 269473034 438762955 1281147017 1813986158 1567313161 2145061178
  ; MkMatrix 1830147107 1826818466 17456864 1369164595 1700518786 1937886255 949809410 2110473125 1498724104
  ; MkMatrix 647704853 1301023230 1928055109 509894531 442951309 322707255 1278236658 1995246983 66737412
  ; MkMatrix 324162503 2071327110 608882779 2083303183 867053541 132509134 2065743135 823422174 2082094333
  ; MkMatrix 1640726872 1820273650 2093684357 1952261733 1046329030 387025786 454986779 1685642178 241605903
  ; MkMatrix 325248946 1918784352 1065476766 316793311 1545675190 301708668 1818872191 861304050 170476949
  ; MkMatrix 186896682 1151731331 348251395 337035571 1288140870 1301065857 1718239445 272522677 870635386
  ; MkMatrix 2104930510 1028790172 1804050307 399568373 62251819 1365806317 1003895549 1014572572 995641607
  ; MkMatrix 2111293976 1304422003 580232915 961427815 585773700 135972382 747390946 1344086078 2048078855
  ; MkMatrix 1425605820 1224611448 904151474 1323673809 1715189198 725649411 1831290186 1326967338 1036002265
  ; MkMatrix 147296806 1841789989 1932746956 1531124273 1772609220 286997554 1188052718 900557457 1135291563
  ; MkMatrix 614561967 1218474299 602544551 1812188713 1046756516 1754996887 739914917 1231095945 1152743847
  ; MkMatrix 76377570 1724942483 1636035681 1923642990 1713059420 624468510 343729879 1695963350 45730424
  ; MkMatrix 3164555 883386484 1826015954 407977612 1216164586 345407978 1490374797 1711707533 2012931320
  ; MkMatrix 1034586332 971437532 921530063 1103291172 1326384485 1897822504 686788916 433418322 1389436437
  ; MkMatrix 1235378859 1784172866 1395033493 1972008975 1020011041 1244416083 1281610411 557077690 1898775673
  ; MkMatrix 564883773 1434093793 727012553 955112533 1938534465 484765196 127848005 1447236643 1754124187
  ; MkMatrix 81375460 31013236 128091603 837055295 214793850 2531825 664076376 175131834 1656736261
  ; MkMatrix 1564804695 721180271 1246579115 734282484 1050836318 1784111363 944262685 940661456 292108079
  ; MkMatrix 2076781938 1886505374 750697716 2065428676 1973523206 944883331 1601104556 1075545352 738088874
  ; MkMatrix 542862404 597028730 472205043 2008178648 1447909665 836523618 2112157059 1161549495 504496430
  ; MkMatrix 737937627 351445703 1009269148 639082858 231416201 844786810 1787335588 872508861 33412282
  ; MkMatrix 805391007 817860759 976636865 1828191616 365118652 1287593183 848101798 1316607622 119054349
  ; MkMatrix 224545504 1465146886 2008849001 1202086218 386063323 1816052689 192114554 490601030 1288094786
  ; MkMatrix 824174561 1677828162 1653634301 1391072658 847053217 1496741248 1988768323 1017126292 1779549203
  ; MkMatrix 1317135571 384039166 294045266 766193355 1401819286 1104157722 122338428 1582368364 1277487088
  ; MkMatrix 80121714 1094865988 1273024180 334886048 240153872 422578294 480876683 488701756 1787095175
  ; MkMatrix 2015343785 1257580839 1011165184 1237914717 1620889781 1089081426 1274231779 684559412 522300528
  ; MkMatrix 695169473 249612695 1013033859 434319635 311367592 1402167750 1596016970 949455519 2019167625
  ; MkMatrix 563381876 1239170627 1167565156 1028534176 1972933685 612490241 1060567754 13090368 679861868
  ; MkMatrix 1829854279 182315647 2145875145 293628564 540457237 1581976114 947938411 1142966126 784664187
  ; MkMatrix 134650171 1022864782 545037104 300201094 1047240479 9369581 649131933 1468869288 1392129687
  ; MkMatrix 1182936102 1588466972 769906060 1981453063 1887547697 1389187701 391064547 448716101 1837871244
  ; MkMatrix 426351620 1075909628 265138673 2144153228 1617646006 926686561 48172559 2019918650 1984416302
  ; MkMatrix 1007668196 2025847644 780528298 528284926 607395720 1243667046 989489926 826208546 962467823
  ; MkMatrix 1708817194 533707443 512948818 729457272 871369580 1438859978 1942083108 908721643 875439552
  ; MkMatrix 1819234782 200649439 481304264 264195914 1498159687 1926149277 1632513117 1518177423 1288920136
  ; MkMatrix 624220070 1408477337 864139770 788973798 79082705 116258489 1789816940 162537869 988562092
  ; MkMatrix 867717464 399293359 283781653 256021362 105272681 525088976 1817987429 586093403 222262537
  ; MkMatrix 1703332020 1362963858 1451761534 943351727 432602273 766797651 217014715 330525665 853789202
  ; MkMatrix 1042743455 1697449801 733671017 1704770469 1363809729 795618680 455204479 1438074719 753109395
  ; MkMatrix 705444771 114994483 1971839240 738887714 174258528 1049204819 1497243371 1395968540 1833153186
  ; MkMatrix 1602901149 535136375 1233754750 20950491 1861575424 940488614 260338641 37206149 667437266
  ; MkMatrix 958994636 1188616463 923636105 1469083805 478272988 423471611 1956537047 1535915115 1551315433
  ; MkMatrix 1555431675 1244695555 996760214 1340251857 518946514 163423557 617439422 1338896424 479829495
  ; MkMatrix 1942909900 133819194 621503058 244665776 1372645489 1601284376 1779040444 51498350 280879243
  ; MkMatrix 224088992 393718777 510191561 1756863715 105931503 1603777818 1881604607 1849921379 1498568485
  ; MkMatrix 1275265795 1546768077 363923722 1583372023 1806530027 563554137 1992040874 241912623 2043983156
  ; MkMatrix 1822584124 1125421266 851493463 986058820 1480995581 917013552 1819028908 1208392161 1165432507
  ; MkMatrix 669114605 968251757 1574160834 1906731497 57733674 1270932557 807211892 765213876 1507895735
  ; MkMatrix 227115046 1938638496 1290747115 1516386213 1522490737 355909677 844056181 1328340732 198578022
  ; MkMatrix 1516327729 945995907 824319577 1694338054 1508709567 1381648843 662865029 281219288 121792628
  ; MkMatrix 1875605087 677191876 771831838 516067486 1858165119 772349372 1789999746 533812669 490214679
  ; MkMatrix 1189120274 616745123 303673130 311175491 1933133656 1703791580 1854829724 91481817 1578992473
  ; MkMatrix 1501544567 325294428 777860994 391424392 957540053 551373106 1229125501 68604649 1899896067
  ; MkMatrix 1760289922 185135011 835860730 1009354337 1224489565 1931265550 1233659611 1758689479 501574065
  ; MkMatrix 119614813 789936648 2016227543 8160414 246038497 2143935834 621604907 542217973 1452126577
  ; MkMatrix 1111975228 1774817775 1360097125 1350172274 875077303 97136257 1003976888 1857773822 439604830
  ; MkMatrix 56665870 469740501 942654306 1031288411 1849606303 1523649270 1483118885 1049067713 730813327
  ; MkMatrix 1887938580 1549243545 275743427 849889990 861523536 888465042 179529027 1538674107 1074606875
  ; MkMatrix 750893736 1485453079 2073285298 824761601 2072883695 793143542 2010433423 443232450 844010514
  ; MkMatrix 127106376 1408548307 175071296 700081482 1115300727 934564346 492218869 1494172519 484966163
  ; MkMatrix 1714231590 1180803941 802424223 2080996754 42101827 1654564708 1082320034 1057939648 530816409
  ; MkMatrix 1171014509 809302302 173967712 2101229908 514735004 1365814865 232803421 2127122893 1166106362
  ; MkMatrix 1448897630 1367128067 1165946482 159422716 1390723364 1933755720 489131980 2135710170 1716966628
  ; MkMatrix 84099639 2120610189 673707980 1385062115 1615399153 1983801133 1375241954 259482337 1202457788
  ; MkMatrix 1308704688 1813758068 1541697491 497981314 1827039119 67221239 1410795875 1614815493 510234420
  ; MkMatrix 741319574 918589616 1898765629 736495973 1166974280 14882671 927189053 1807844175 2144841554
  ; MkMatrix 1031647804 2050931653 367550742 1235310834 890087916 2119351651 806893670 2026639873 1576628331
  ; MkMatrix 684549161 903542497 547862163 69720171 1707395434 771324473 1673762968 342896591 621013986
  ; MkMatrix 1406501108 695813338 715702768 556914216 1826527015 1062531409 1310184416 1816336588 2049802668
  ; MkMatrix 1472282218 1872700236 1599342467 439667971 119664141 1142653095 662542972 1496268119 1636079764
  ; MkMatrix 90687164 1182743333 1237197461 904903357 605936407 1580499555 147151705 1390271172 1407831685
  ; MkMatrix 1504011173 311973073 729740456 549698044 1728091602 1181433533 1712103090 1024203786 2013865371
  ; MkMatrix 789656121 1532489500 1985201651 334381427 2039853264 1363484040 1507982237 1631948744 1898167933
  ; MkMatrix 1020659653 992332641 1392926910 201528127 1002485876 2030966133 2077953134 977483083 982489344
  ; MkMatrix 884748458 1954692058 1143105253 797041199 1570621621 1430281733 2038371017 1908972443 1224603813
  ; MkMatrix 302551675 1210275820 597585105 749881289 162375867 567511822 613704332 1823574961 1778982460
  ; MkMatrix 488636826 115805701 1834992293 1879616792 1248014043 589027906 125593973 1084039625 1405471086
  ; MkMatrix 1857251720 581788166 265693550 1914299648 2008867304 2079233711 719077757 1340499886 36453791
  ; MkMatrix 2035243529 135711369 595565872 98096583 1120263474 389743775 2069768286 17922777 791867955
  ; MkMatrix 880247878 1144191909 2101315523 677909956 1666547319 621356787 487976277 184995712 742805361
  ; MkMatrix 693297400 1353155473 321620458 1722890184 1334430293 1110501383 255067521 1740990734 80838442
  ; MkMatrix 649369396 771303660 544534580 1410948744 922831317 114527642 719198270 85487526 1537155777
  ; MkMatrix 1060638312 1941310016 1413489040 1024728074 1442871675 711093148 2023599897 2141829210 1766973275
  ; MkMatrix 1515412932 817730869 1356492600 787952879 1768482575 1575826531 1986069320 92828617 1413870012
  ; MkMatrix 1215593759 450756585 476932560 2077312622 1614685945 2065408234 1257278231 670897600 1379871785
  ; MkMatrix 1494331310 1177786922 943086307 234263971 1385474020 1728512787 1089726108 711853292 277331909
  ; MkMatrix 1392205185 1624793300 1685045080 626682316 1313818785 1674392397 776885194 1858011051 1844630923
  ; MkMatrix 1241683810 1956443584 1158289587 1839293468 1607528848 448112427 1753069514 581474044 1833509662
  ; MkMatrix 806644288 1199003036 1051312530 1936765235 712705913 1775670994 1933066235 723321141 566917696
  ; MkMatrix 1366890918 1891202667 1337256391 1157838442 975392537 1198042481 1025315705 1335848857 185722890
  ; MkMatrix 890570477 1019621018 68516289 2004706227 1914933621 385798804 362983437 1555539477 1048372257
  ; MkMatrix 2020588 148218098 234085709 1616933050 957195228 1006504351 1062925192 385915774 177879613
  ; MkMatrix 1426044866 307469715 1274765643 528005453 1999255551 452599106 1760601050 985536909 473201627
  ; MkMatrix 571996431 1694539803 1219289987 253153080 141564953 527973411 68131652 1517797190 684077760
  ; MkMatrix 4089460 1267704778 1927469727 669078896 336744600 1266273467 88409643 960258068 859647735
  ; MkMatrix 1454189573 1765053021 111440316 438445857 1841651344 504467394 1438115281 42479691 860415811
  ; MkMatrix 1385530160 1554119095 411682048 221777406 1619979578 1069183539 2077577274 997863913 519107932
  ; MkMatrix 1699153120 1469330044 787228978 192118935 436622732 874626452 1769599908 431752426 929754477
  ; MkMatrix 580915735 1168639926 653627232 1676352531 17606875 428448507 1255289531 270633554 1426123684
  ; MkMatrix 572406283 451301028 1532324219 1318647501 889329945 573081376 902249008 1861853807 989300389
  ; MkMatrix 1366928713 65071747 445113631 2081389428 860189095 982511068 960228216 1315812823 721777154
  ; MkMatrix 855282597 1008980416 1693424271 1974833570 1053856959 387508960 1557796135 892734011 1922516061
  ; MkMatrix 1627687897 1249432136 859726281 2041354672 1811546610 357618825 1271430604 2025850690 28757045
  ; MkMatrix 1609750685 505040316 1526203397 2009947720 354614667 478498488 70238738 1770615797 1560260238
  ; MkMatrix 607490313 1517498315 2144639518 676331277 1612567047 553257429 769883412 1695362271 52822611
  ; MkMatrix 1633370849 1864363319 319651983 167280003 596597101 111567516 1998590270 541515232 1695556958
  ; MkMatrix 781466856 930350097 1247815388 262684162 996365691 227339968 2027239858 1485885494 1979544321
  ; MkMatrix 1597537431 560420790 703230222 1162973169 1623799131 1182398695 1900003414 2001210527 1674994723
  ; MkMatrix 809432062 1911558605 598499478 1203053715 761913121 1843005748 812440925 1455570303 574586062
  ; MkMatrix 2003083993 839052212 1768621741 2119027772 2077319190 1533837185 1768649638 1285252034 983235884
  ; MkMatrix 1733668289 1733479570 785512611 545664515 579632051 2093063310 1126682276 1869312636 1643359546
  ; MkMatrix 550073486 1020940328 326276729 956344007 1641686044 1472659702 25594198 732637673 633643582
  ; MkMatrix 1737058099 832381906 1839209338 410862950 1168589983 117037389 617130246 839112458 660152258
  ; MkMatrix 763143038 197069718 978883137 744390083 1452490745 1862704937 4813862 957453596 687885257
  ; MkMatrix 1107999863 1526608667 1136319420 38738390 739734379 1460931262 839741843 66951292 2004791615
  ; MkMatrix 24306653 233963182 1869265992 1797086234 592452074 1621320224 1731300643 1513253556 1780800247
  ; MkMatrix 1399149137 1209802428 491743351 2137492327 1296843790 397977683 674573709 720275523 1366869904
  ; MkMatrix 1960404809 1212262556 92497241 2095493679 1644742015 1492488514 1073364814 1075570900 1268292200
  ; MkMatrix 205106255 84902564 1825663685 1917828095 1216865686 1623728110 183617023 28201037 884872776
  ; MkMatrix 1355750050 125342824 580556021 2081387029 1364708640 724572130 1400697599 1483768687 1597008876
  ; MkMatrix 566126314 1983364089 844609962 528140663 874175064 1140974785 982139699 77017586 1491464003
  ; MkMatrix 491779761 1788740584 1750761753 1341750767 1902316506 1723991850 73622782 1530731158 1151812236
  ; MkMatrix 1933379580 906078824 1289097735 304753684 1237845910 229395971 242441504 649395887 1762176626
  ; MkMatrix 2017687826 1332558434 184545932 1729718437 1329519341 1270612789 706199097 1160426206 1567615263
  ; MkMatrix 1141465822 1071498298 779828262 1310503589 2051893245 886733625 1006342405 1495154659 1421214932
  ; MkMatrix 2040524274 473487262 47917015 1959535919 1506315769 1262542319 1646136668 94897897 1150978958
  ; MkMatrix 152574817 432164437 1836856849 1290899048 848147554 56640704 99045685 1793103970 1294302988
  ; MkMatrix 338152651 1714101842 852076758 1486240212 1467837863 629380773 2027657858 561811597 949081257
  ; MkMatrix 1555148403 1581313352 965981525 1052945995 215304072 1359133958 275536275 419637387 820050263
  ; MkMatrix 1695543744 747178567 614333712 1425451715 1256208416 583234986 1054446561 1163769601 956263238
  ; MkMatrix 564007739 627436674 129081978 1535714391 667500713 322659783 338273601 1524692813 1529722599
  ; MkMatrix 1249949260 1177577887 1308045218 873474632 1092145621 740095646 1693256836 1998821657 70435494
  ; MkMatrix 1176144847 1480021604 1657854416 1160942176 382682068 1819990184 1450354581 760692255 1727052514
  ; MkMatrix 630659393 1755069452 1744102163 25888156 876513365 782719388 181660189 928674731 1732593215
  ; MkMatrix 538989767 1591992414 1728076692 591056637 1453674867 7481625 114845388 1409854210 2033967717
  ; MkMatrix 898948673 1509282426 346379934 1878823035 829168507 443031114 1694557597 963605329 1458274283
  ; MkMatrix 180604162 1145420961 1221631393 1837014566 1236820011 1296957869 1734063780 1230092243 1128410273
  ; MkMatrix 371783242 186487574 751764346 566606963 898290441 271111804 1086371944 615873512 1971224900
  ; MkMatrix 1651207110 1002815378 695388996 1926366286 1310490902 1498634713 1566731217 1055887813 189310891
  ; MkMatrix 65591999 1626100372 1538992347 586281105 1121457004 1495768990 2089215024 284552576 592366873
  ; MkMatrix 1452008625 1742746599 386325086 795055151 981908199 1771414492 1054820202 640616445 1294563355
  ; MkMatrix 1395648846 1331719094 337451308 1438873994 412754592 1487487092 1105321014 407766545 806907213
  ; MkMatrix 890576393 257808890 1464386445 242721044 2035891216 1341971523 1316818959 1821943873 646591584
  ; MkMatrix 1860228638 297451314 451804933 1988386832 1404892172 1579106573 1294982003 1857265678 540100820
  ; MkMatrix 1569432360 1995157523 378402504 182662787 1086570997 1445856197 1697713935 1199075645 1203765433
  ; MkMatrix 1375257496 709498455 787922130 2091665799 184178031 1946145249 1073138934 1071822078 1741775586
  ; MkMatrix 71998578 1846098692 460798388 1710095048 1236778289 1606150825 435516511 591296628 1888817928
  ; MkMatrix 864249650 159357303 1538417668 497993832 1287916962 930611749 31587550 1560680013 2137543328
  ; MkMatrix 226979604 185518397 986172090 1951202289 628386628 535572265 1335592709 302628835 2133079271
  ; MkMatrix 2035646982 328700600 1035287026 1727927912 421390127 1978456168 1201820826 1951535717 1563713726
  ; MkMatrix 118520498 306187848 1205467161 980708163 1698061499 49957309 6866097 656182482 1683145995
  ; MkMatrix 737426782 697983945 1349516951 1493720637 2016841640 654632936 690898694 607661000 1804160290
  ; MkMatrix 1569249813 1743836086 1322687688 2006330418 1985828068 442979375 630773995 1248688608 260296867
  ; MkMatrix 112789397 379037483 431231167 914325130 1243635451 17438647 1176746917 180341162 1395264409
  ; MkMatrix 557219963 1327973817 1067038003 924643499 33637077 1455069377 235641174 197923994 1467602232
  ; MkMatrix 390318551 36955168 29154131 622214316 567017270 1081459681 1905501072 1243779129 1098062216
  ; MkMatrix 1763420152 1921459938 1043940644 601534021 1118356122 445269426 1532341439 2105323982 596241093
  ; MkMatrix 19534197 331316872 315221016 519240802 1405111101 2357356 2032382859 1848016266 1402550502
  ; MkMatrix 728499354 975793248 1931831282 174867479 1241751571 76573380 1905030599 1548216234 55630795
  ; MkMatrix 1026544882 1466461003 338415224 1277894676 665869890 1321918659 1915853158 392597706 1172705787
  ; MkMatrix 1419809276 184750538 623976327 1485990276 1958296602 1405804209 1098312495 564709991 794280464
  ; MkMatrix 24677126 1132929577 1959865013 156892604 336568774 1768537677 1018754279 1840438071 873531455
  ; MkMatrix 1731923676 1012776137 629151427 149141968 547214809 2124589768 744538467 640172781 430528518
  ; MkMatrix 2136415121 1698711388 861317833 230544824 241953998 1058340278 276150371 1315008200 1929184775
  ; MkMatrix 316102222 1395077279 262250682 1841882836 1672503168 1499189866 381779323 2030382620 961869251
  ; MkMatrix 1383857382 1956502665 455404718 871424074 1223196027 1686900946 509234481 800566188 1801991320
  ; MkMatrix 792784484 356053313 684956279 1122199497 1632604420 508075473 1902994234 1959390068 1805811355
  ; MkMatrix 701224791 500555698 781621049 923639142 634438473 1436243027 1030555266 1207189893 1607786381
  ; MkMatrix 1428130620 675308854 710803313 746640754 81062387 175463137 327268668 1491090179 1599290289
  ; MkMatrix 1759153113 1323637604 534563244 757110797 958362747 2103798385 335104721 747198327 1448462609
  ; MkMatrix 467839354 1859641396 52174687 641502644 266763354 1051652528 543089761 558795410 1144926784
  ; MkMatrix 1855063272 578905768 1130891034 1868674055 1618489654 1218123811 1885663706 1852936852 110968297
  ; MkMatrix 1149161932 1192820641 282892703 17298209 1398164005 2079104153 951070620 1831907139 649622324
  ; MkMatrix 557962833 262213297 1419386018 1083200236 701805104 1462790676 477912552 56937384 1111373749
  ; MkMatrix 352101689 394661457 1473359864 1900622860 924763324 1237793507 1791751413 521890589 1708469259
  ; MkMatrix 1838068504 1651037690 916337184 391937133 1909585076 1437210443 735436076 1852521424 1690699307
  ; MkMatrix 194374089 1205128519 1297143464 880572513 523952397 2103465229 1527298275 1956630852 1127621787
  ; MkMatrix 1394062762 1329184628 502078330 1312610413 1970842339 1056011026 776719565 1577629477 1096549475
  ; MkMatrix 1646693765 1836011884 455269114 1613234647 33897579 1796539978 1759215404 1427005985 71316396
  ; MkMatrix 1837205461 933183040 1453244271 192356302 1492045580 397535311 347739271 1251763563 1376050880
  ; MkMatrix 386308051 1874776915 47147179 1512550109 1877273082 773201456 1494513587 1741089630 194149888
  ; MkMatrix 1110768505 1017581281 821786921 798841270 458451084 1165683216 2131784713 1448580991 1132563743
  ; MkMatrix 879793454 724645654 165929573 1561344742 517003146 1919956498 1426680081 1169380896 1825706750
  ; MkMatrix 456107292 64343412 490668837 247118768 1789635425 1193196048 932043679 1961012945 1640151806
  ; MkMatrix 1260088601 1104909141 1471812133 911714227 941843690 771252313 450254547 1505744412 1703323334
  ; MkMatrix 1614871920 1323174442 515135863 1939484356 2077093552 757969270 1323588442 1690976766 2129496778
  ; MkMatrix 1191619289 1879076389 1101303957 912322501 57427428 280893632 143997727 1613542573 888551898
  ; MkMatrix 1886786406 1259722451 520647209 1500105856 912908291 1243592303 407512450 283734675 276730243
  ; MkMatrix 950935619 1672930809 543155018 1888854465 1854435446 1232729160 111699812 990766072 648673862
  ; MkMatrix 571671526 13769862 1321616932 361020681 143490108 457929922 1376089824 308885972 1323870206
  ; MkMatrix 1262657593 46632423 470589183 251624283 1044085499 1000566636 1838377778 1540927343 826883476
  ; MkMatrix 632643530 365112619 1908201135 394699464 1307483759 1217429207 86236542 579265039 997366813
  ; MkMatrix 1100756143 549154416 1621128238 71980241 1620541401 486012313 699404652 1115678801 1337428003
  ; MkMatrix 1639661790 1380769514 1470337468 724670183 1792126207 1880629711 1993233075 1637651342 1433696602
  ; MkMatrix 2102597298 1756320037 1466233611 5230675 1704941746 805662618 969503330 739646333 694446253
  ; MkMatrix 2010416569 2121030964 1676841892 377653063 217040210 236269159 1486773504 286779066 760912631
  ; MkMatrix 1900535152 646003116 1542553876 422783616 189257842 1269306001 1205670958 1933534063 1982127114
  ; MkMatrix 1282428388 5301415 1269907315 159543298 1633765417 415444938 909753222 55878035 1077337193
  ; MkMatrix 1246478006 1728719196 1812701560 754808794 1604149461 1936696988 1993851073 1452825289 2062028251
  ; MkMatrix 665456592 190005672 262300956 666487720 1199427434 1245586053 1222210208 1097707606 1459474866
  ; MkMatrix 761045263 1155289911 1679447053 1858860483 939601513 1211046616 826084008 281240892 2129657389
  ; MkMatrix 65350539 1079361835 1088380714 1781820556 1495505477 949114964 1185687206 2011075128 1650622641
  ; MkMatrix 236045694 908347007 468017637 1366238845 607762885 181485920 404497565 1761535609 957593063 ].

Definition mrg_skip_matrices_14 : list mrg_transition_matrix :=
  [ MkMatrix 0 0 0 0 1 0 0 0 1
  ; MkMatrix 2053962982 47231560 707464806 1440754982 854145785 1690576528 974756480 1099590214 1972527763
  ; MkMatrix 1179156304 147214654 243690464 1901695259 893655729 164006677 2011649227 1949237306 855667766
  ; MkMatrix 1255063327 1720074542 1806961978 2147294975 1610713514 2032421654 451369305 378702983 1800290017
  ; MkMatrix 2100697439 2016875562 1254057470 491610572 168265475 1174257276 413570694 1850099382 1882962703
  ; MkMatrix 70159011 730088128 275408840 1143481649 1531102209 1886648480 1762565519 419209535 847507960
  ; MkMatrix 1354067547 1435854617 628331216 1029804677 603223758 1713550252 1317078816 139330362 769206496
  ; MkMatrix 1969244327 2026108905 82377259 1374504282 1202213741 2088492667 103024102 1553194211 1839711773
  ; MkMatrix 960872402 1923446900 134351781 1697209305 1259751052 1801889924 2080670684 1398471295 233415187
  ; MkMatrix 16773300 2056522622 206440911 880601510 637682863 2050651967 240331999 689111128 1255487427
  ; MkMatrix 763697278 1094098520 1644884877 1656699063 765656513 612056108 142175051 640570154 2044695512
  ; MkMatrix 1647255860 558641235 1630791303 473895512 147903142 2129585331 2066552443 72724704 551946225
  ; MkMatrix 678244729 1056441603 1875956983 613326796 95619232 1785423589 69942721 696221026 496186967
  ; MkMatrix 1344526200 2075166010 2101154545 338441266 1893050456 1604581840 1539550901 2054456280 1173990758
  ; MkMatrix 116582286 177050982 1259972790 1975282617 887122679 780492276 557303764 62239382 1080087260
  ; MkMatrix 10618569 294382313 832193609 2098762597 594695482 1257033455 2002844635 860896063 615504407
  ; MkMatrix 1733355497 190746464 1477953713 1543481307 944675114 1409433140 984652114 554607973 2146426694
  ; MkMatrix 1803249737 1500651968 787752920 1575602530 1956968669 547392013 1992030086 1522637094 779800592
  ; MkMatrix 23981132 2076811417 770109739 2087770426 1651591451 1209424562 561559507 495360228 189725183
  ; MkMatrix 1269851545 785292728 1938414361 457619226 73505434 877715599 1523839719 1964384789 352338399
  ; MkMatrix 803725389 1204819141 1851856953 895837372 907139270 1889882896 760901210 1703263772 1599487138
  ; MkMatrix 1104044250 532249156 302990234 805422237 1618715523 1219575492 1164629000 397802087 83620422
  ; MkMatrix 1206171845 1885013276 1688755417 656088384 2139364122 1999724042 1203600367 986447532 935114027
  ; MkMatrix 2024629155 1325772702 1534725763 1360938044 389325471 80281586 3388655 822881103 423439632
  ; MkMatrix 1846892746 1841079335 1964554457 2093440367 1694104168 1838911968 32445080 2082084589 1931742203
  ; MkMatrix 1023304719 2026278445 1538664881 662236340 1694058784 1560747611 26035576 223627159 1508415096
  ; MkMatrix 1146960703 67556472 303904361 647506336 1486122491 2135726420 1703883761 158521202 1645388435
  ; MkMatrix 1295669297 863231105 279930498 2052048054 2022627408 87624304 678758721 1921856684 1779474298
  ; MkMatrix 1034735955 749312963 1005599667 49348964 1026850309 1997768114 1809619380 1563465828 1338630728
  ; MkMatrix 393236449 354728221 1551392376 535156303 1782658956 1183463105 1674051201 56612565 152231823
  ; MkMatrix 577577340 1951084268 675457477 1350773566 1118050002 1748932199 2103440672 1903059519 344604988
  ; MkMatrix 64074528 1695399172 2115211589 730360282 51324078 384482899 1873268392 1363206533 970066162
  ; MkMatrix 762801865 1294636212 541424563 1125567460 1340256317 1564526471 1174956304 1143829483 1262038545
  ; MkMatrix 187634498 1819467708 918863567 1205635013 1593474755 1539047269 1346564664 1163834110 112390993
  ; MkMatrix 990137207 484497018 1779204908 733830636 1022839298 889568272 608862554 2023967295 1925063480
  ; MkMatrix 1621145066 1608087901 974280980 1215342784 209138751 1684932222 599303067 1757205987 345735932
  ; MkMatrix 2073778764 825086918 1803323788 1076149936 181632759 528761080 1618257410 1583501666 271652270
  ; MkMatrix 1242102071 1419113446 1534957299 1756120101 1350056261 18010080 1528653771 254723640 1260902987
  ; MkMatrix 1632090499 787890744 847094156 1513556932 1176334278 109284887 1560463722 1182142994 118339136
  ; MkMatrix 296988503 1749809655 1297440506 1701465398 2086245339 1967986226 1252890421 1370327933 855011286
  ; MkMatrix 1931547604 1979228928 693150619 877838332 996131164 1732683996 1804698138 31445619 877751015
  ; MkMatrix 316999311 721290776 1738133105 1192503018 1334218136 1791457023 1433245694 46621931 351532819
  ; MkMatrix 514998457 671528123 1386155042 467510913 1251380063 169156116 897453672 1441892316 317221023
  ; MkMatrix 1080628233 1742181684 1228924846 789265377 2085271149 612342526 1658850056 1926654775 874071066
  ; MkMatrix 1373507477 1478056851 66622206 1160813405 429083361 675206687 581919142 1171890070 1092663660
  ; MkMatrix 783056016 2110269458 1652209881 352014249 147024343 1406703123 1481986335 1443931767 393267501
  ; MkMatrix 227138689 1549368527 1919461341 272921185 2078269363 288753980 1818397448 495475537 1582730378
  ; MkMatrix 424607961 1072233732 1574593684 1814615482 498169810 1030995128 2072738848 1948150344 245813919
  ; MkMatrix 2003783763 1476288665 602578333 1650598641 1094836546 1097086895 1829210655 473504000 929110146
  ; MkMatrix 1209509021 193411236 1012020328 1588181357 1549717702 2024940908 1162284469 265787 153760306
  ; MkMatrix 1976299175 88910908 37578481 97866037 716031764 1007818932 973332043 79322369 1654636576
  ; MkMatrix 2096960117 67448134 2025415660 754078890 2043642750 1158873193 868190766 1094457216 1231085995
  ; MkMatrix 679071207 248804495 1341031214 2130783147 1500020896 762748849 2040436758 1201881917 757239678
  ; MkMatrix 1345971879 2065655255 536299142 1244569367 1505729467 1487190915 1626395057 353208550 308364651
  ; MkMatrix 1675254622 913896104 1402048842 1669975685 2038696102 542305351 245874328 295429482 2560501
  ; MkMatrix 147384171 2047446480 536068378 1581952338 243907531 1029494379 68371163 1880144978 1518592071
  ; MkMatrix 1794571694 1940008555 492448905 177242462 1125618718 667663368 1117760185 322897309 1978972301
  ; MkMatrix 1393242441 1674287857 768358135 1645877545 737573797 1294027185 852319532 488572250 1640315333
  ; MkMatrix 553353823 1765931429 11660846 836604860 1729478866 1894380138 1281363080 388127782 1808382507
  ; MkMatrix 1852327139 2013908301 615110662 1998706563 657971592 1258219620 174733795 1400678823 489856551
  ; MkMatrix 539908872 54908812 2050312360 645546279 522457763 1154430895 1109390635 1867872292 1157192649
  ; MkMatrix 758343900 1273195830 83663248 1453129385 63425343 1007775465 267812747 2111014200 1472054020
  ; MkMatrix 41597918 1199131232 1790983531 1368197654 1305029859 969823596 1022048543 1332603211 2019734741
  ; MkMatrix 193412841 1527534113 1009593424 2054620765 736011031 1567213801 568442776 1426169064 666348588
  ; MkMatrix 370901673 1798109349 4090233 1550685228 1882873788 916674487 434873439 1291105342 1645735283
  ; MkMatrix 1620341197 1565765830 394062849 1345980504 383884462 676523864 586776226 1784853919 1799295055
  ; MkMatrix 1541093000 1020222426 189542826 1940018468 301937866 480839876 1739235787 2082905219 1613030504
  ; MkMatrix 1409300456 315462455 1905047590 913825439 1662176735 1540194213 614360339 591425138 1240429572
  ; MkMatrix 206375885 1846776778 1666913767 1348824321 1505481593 163932483 1931659945 1209614252 223123146
  ; MkMatrix 540689428 2042964742 1742668719 1198152380 66988343 565233254 900591986 1527190279 1572581210
  ; MkMatrix 204547661 481573607 1502631699 1539172915 1051813196 517356108 33066873 775980233 28600838
  ; MkMatrix 1525513632 1525899195 966420744 669382040 1311631070 132975965 1456750068 1018512975 418280617
  ; MkMatrix 44144578 1759815490 2083589271 1639554073 1334236932 1529616523 1870346035 448062049 2143782856
  ; MkMatrix 174886359 176004020 624114494 2045407846 1667490599 7419612 1910007818 1162156745 1797606650
  ; MkMatrix 772177357 1304954740 2108908922 742985966 1403367613 712570118 1644761016 1885306528 1602503787
  ; MkMatrix 1278435762 2026910501 453771861 137234245 758024723 1794206349 792167280 2007459344 484910682
  ; MkMatrix 1518441948 1236478619 1777238989 1275143525 523542038 1564017396 800336171 28658224 943008389
  ; MkMatrix 173213194 1223586929 1190987018 1563114710 983782451 518717217 687313445 1859425916 2050970298
  ; MkMatrix 1801057250 384846761 1156162738 2050321637 1342494747 828218547 1617905523 1806177251 1891448715
  ; MkMatrix 1135927065 762374911 955135935 141992480 498197048 901671350 1713292786 186585099 325518081
  ; MkMatrix 1480501201 843969448 198605596 62650911 1361623774 433168210 1120738546 314637514 607255550
  ; MkMatrix 1002628957 1433862149 2125385750 306494024 1657745422 760819467 463234566 788607020 1381732965
  ; MkMatrix 173370981 628167527 1886245597 1369158713 1592100140 674861866 146805391 351409185 2005977837
  ; MkMatrix 1699185666 1652452602 962900537 1610142186 979414033 1701982713 1763070958 778318986 1351247482
  ; MkMatrix 1474805014 351826325 1033940113 1383213730 1262699790 1338883123 887453567 1824224258 409472935
  ; MkMatrix 1322593431 925396895 686486841 1248129027 1335998258 1643605200 111225021 1316574452 16203741
  ; MkMatrix 1904513346 916842785 179558724 861887735 1124200955 894508208 725474310 1681713550 1609343036
  ; MkMatrix 1163472308 251507358 1839790535 16860893 748919994 703285509 412524601 2127335112 1292842893
  ; MkMatrix 853241817 1275840731 731259575 839602516 1487629538 655083548 1360973792 1651751877 587393834
  ; MkMatrix 164035084 1920136810 1071892179 715750135 1226850776 144737613 269614738 406636612 225534503
  ; MkMatrix 1883267612 2062811221 242074410 1320073353 2017900 544674098 1984173758 410864173 1254079810
  ; MkMatrix 1195818278 1617007866 788822309 1860156588 1907915364 983723104 874015952 695257546 161336670
  ; MkMatrix 1186597515 232078677 482591246 580445430 1704253714 1427382282 197755812 1799721084 1503848064
  ; MkMatrix 712651504 2069718651 1917464945 1980594557 2025492889 102303707 485794277 1488444013 752918208
  ; MkMatrix 502774330 1413166149 1242510631 705926431 1718505148 163453310 111560149 1633248020 1146868341
  ; MkMatrix 1714685004 1646232591 1930545537 1866046705 117173232 1475589569 232973182 1999254456 1135421090
  ; MkMatrix 93889833 1793414129 1629066329 999854615 291215224 1008933411 309571994 247259323 526797008
  ; MkMatrix 1274372295 1461504131 1929829141 205028245 916049561 478602916 1332821391 919656764 1023666423
  ; MkMatrix 317907617 874911214 636011034 699860429 1875117485 441521001 588852866 1138007020 1476815028
  ; MkMatrix 1896183732 688382083 793890418 1676877227 1570228588 1313207965 871138542 1586727102 1229622467
  ; MkMatrix 643697366 2107258225 1751403144 1884346345 451315460 378725594 974604092 684241454 1715069504
  ; MkMatrix 1331697883 1027851559 755696240 912476097 662105655 883879847 1197957570 1566932771 1294795191
  ; MkMatrix 331944797 276104181 712259863 1162144654 397907939 1985284602 232158617 758766591 1313455638
  ; MkMatrix 1645549468 436199825 1737234898 888225126 575582367 719250970 411755235 207239882 717796773
  ; MkMatrix 724409989 1620785348 952459641 822882010 1419405607 186125846 1531560689 1253203410 2054526237
  ; MkMatrix 1515111844 1827931010 2079624515 475198572 930193718 1727138594 830880913 1580254623 699227147
  ; MkMatrix 50256343 327729207 120603863 1426198848 1343700040 632262034 1402550704 1364802831 2047135055
  ; MkMatrix 1784689130 117851013 709744244 867639156 538943155 566951641 618685352 1939589471 1041202846
  ; MkMatrix 1543397211 2066224407 504954488 1999028493 1183389141 559667742 523819143 2137814340 435154122
  ; MkMatrix 977423096 1951358311 2038231140 766350131 1021499048 1179763498 1410565551 1453768194 2015918733
  ; MkMatrix 1524432275 920771873 2146994600 1930453782 1988146503 1997833312 588759482 1939136328 20958600
  ; MkMatrix 1002867165 23627334 1653215375 1785438808 1070366154 209494738 1365143852 448645001 1020714586
  ; MkMatrix 127933872 1041232888 1382619324 480668424 458989687 137462574 690262329 1205444250 1110826023
  ; MkMatrix 411888676 568421462 334159125 2066138632 434685047 2142247343 2053978749 166130064 806036254
  ; MkMatrix 182999526 1119107450 240983699 1324457052 548221311 1699302710 719969574 428222607 1149962675
  ; MkMatrix 615902057 140912590 12947946 1084295214 665886702 1750707970 473941980 918415521 451815452
  ; MkMatrix 974491791 860025408 568748980 787176138 426239412 1700069287 725344006 1177550830 1087838445
  ; MkMatrix 2082172198 2000232735 262961619 1376726232 1019424918 1056724101 482366 2020802498 97395679
  ; MkMatrix 759900403 391138937 427166286 1495485084 34507089 447296343 592735113 536408518 1779499390
  ; MkMatrix 1827684050 834036989 1408757823 911420542 702145735 1268089395 428055623 1083723621 430216650
  ; MkMatrix 347096371 434248406 292701482 527367301 1182602995 1493880682 2132075255 1391753697 373366654
  ; MkMatrix 1199678507 985819999 1543755749 1914968654 981516280 1317551798 867864255 1074345253 2001359812
  ; MkMatrix 324563158 1856089768 5889067 1165536483 1374122986 1527744298 1403913845 1211037549 1916627485
  ; MkMatrix 1197931554 135632113 541241387 1382839516 63330846 1219594622 329131634 623398350 918883247
  ; MkMatrix 21470942 292413785 1603032893 121631405 1301675547 499647320 1428156331 802892695 483792192
  ; MkMatrix 2073718055 811074407 45733368 841495064 1950335923 1695885823 1921779524 598368960 1740906787
  ; MkMatrix 731734551 386140465 244933680 719226902 2048195633 1311149378 1718766680 117658564 289028218
  ; MkMatrix 738140197 304312790 1227693512 840438257 1714602129 1871324821 680104007 1354021131 274327092
  ; MkMatrix 272455637 1778044437 1566533755 205760325 670017394 1360562417 768214362 151633663 939068159
  ; MkMatrix 2105332978 1226467401 1206346184 708014941 932702676 274852494 465902717 222826443 1176835968
  ; MkMatrix 1394253901 862266812 371359483 1268698458 1822766561 481652129 1169148879 752122168 271033614
  ; MkMatrix 1654012533 804185515 450012890 200283445 1699700409 1621145499 1922721430 601072768 200834752
  ; MkMatrix 2045072895 2088150306 1829854283 1457177283 1283050836 835503881 1644802107 1633115822 926208663
  ; MkMatrix 2041441355 1550073679 1268852756 1149799326 1926296205 298698293 412689077 683235602 1901912109
  ; MkMatrix 1452795726 975977424 1961887853 1408655806 1441894132 1111744014 928532354 439424388 2147089055
  ; MkMatrix 1089255335 544818158 139780044 575464238 75534701 1774191526 163058104 947890631 924888986
  ; MkMatrix 1480336749 451080760 1031947259 1980702730 723911996 899330539 609807388 478779956 126842282
  ; MkMatrix 748102470 1964678939 744556120 464901026 1187823792 629101251 1705486688 726974144 1362879571
  ; MkMatrix 1678533972 1777881271 562222158 1482406230 587542275 331400922 660980200 1251063160 149670169
  ; MkMatrix 756659785 1185288134 548923710 72087863 1531091786 1457328121 146233050 1094648119 1040590762
  ; MkMatrix 1158503120 360897282 1713137246 1803834985 1673922528 2102904837 654998006 71347130 575209209
  ; MkMatrix 1295975507 1384588003 1889567694 371894565 588233791 1682615852 441658687 968933301 356481318
  ; MkMatrix 1231002761 1496493816 162354650 729443386 586031580 1173017032 1040288877 43219732 1859394862
  ; MkMatrix 1980980152 926185984 1743302126 1541082007 1122901127 1521333119 1103461352 295877075 482473239
  ; MkMatrix 955657538 1236882971 1149680474 1974550531 497063309 687654468 1767994869 174636321 543314779
  ; MkMatrix 917850063 1059715872 422485280 1103126911 354554697 1060590897 1876639566 1090548157 1798223942
  ; MkMatrix 631089550 1116952054 1301914029 407206436 940769337 1969812535 75608730 1454485204 861196245
  ; MkMatrix 1452851818 706523931 204613424 372461346 869614162 2130761077 1284208147 674607771 1814617448
  ; MkMatrix 5121397 643636981 1709453638 711226051 2042194654 319721945 2134421869 930546038 1501755176
  ; MkMatrix 672867283 329050863 1951952345 276234979 1326910189 415669861 1913842076 1324377170 1937120003
  ; MkMatrix 202169609 1330720298 1094231 1187523411 1591549745 78844929 939866147 1610189536 598486678
  ; MkMatrix 1593726013 1617766748 600526138 890382912 556957455 308343367 1244225236 25407350 1621806706
  ; MkMatrix 2115294126 1851168725 363913634 1537784180 946784021 1755060875 1360255063 1383817455 2073060647
  ; MkMatrix 1769611580 1850095943 981822255 32981891 1406391866 1230731890 1624807917 1289660220 955010789
  ; MkMatrix 62898996 1633809737 656103315 259534016 1785160612 1182298359 134924707 963929645 1984656148
  ; MkMatrix 206550281 1971307393 1410582401 306335212 510902435 2006388977 386223712 1459647101 107400132
  ; MkMatrix 305444016 1876260827 1495609619 1301552183 724693976 1339858692 167665618 1028120852 1653341866
  ; MkMatrix 810633683 917250261 1945021737 630955948 203075248 955651019 1503169698 2037581836 1207908523
  ; MkMatrix 848134437 1721581625 619500381 1948205273 1465663662 1102612025 770457084 2108042023 1049971501
  ; MkMatrix 767855270 1389225082 1639779228 936272154 873418163 46733914 979177264 1023056841 622722451
  ; MkMatrix 1622360503 1644301157 2077329058 1001269010 52537008 1398597528 299329735 359632691 1107781572
  ; MkMatrix 1963692884 1014682289 287247515 628119621 938670009 756886509 988704878 67324549 1881474058
  ; MkMatrix 1409012777 2016019416 809783005 1062103395 1467222056 1200742397 67400619 931138996 711826678
  ; MkMatrix 346587872 1535175520 1469900206 1187467399 1357156973 554876306 1919938593 1911353262 902931696
  ; MkMatrix 860246050 659257649 238795460 470993290 1098142732 1431913355 1348238521 106483990 2134615159
  ; MkMatrix 1977408905 2043615476 2083688656 421980098 833284872 1888393271 456383370 1335987742 580437527
  ; MkMatrix 274903284 10887014 461664905 385416229 1888603403 344167594 1844444800 1887344196 798536205
  ; MkMatrix 1952642234 5378665 1351520103 360596346 570098842 825192436 633206021 246348421 591251077
  ; MkMatrix 794869814 1147801987 1587300784 702076496 1639526185 225352458 1293679059 141914643 1911978607
  ; MkMatrix 1350526391 1464170213 1864030456 291714648 1466921687 25118335 1318368127 581905080 1263254909
  ; MkMatrix 1204439269 850764449 260633949 654937715 621304619 1395578346 416426622 723936762 582675117
  ; MkMatrix 682606075 573529377 1766038076 48008562 1403860906 1945229986 1729452675 1053312861 1142575587
  ; MkMatrix 1207125239 2107972314 728892976 1410108311 27863092 1578104298 2109291754 27611103 340321753
  ; MkMatrix 418311786 2128783487 2009061830 40545021 1275298114 479135809 660248291 990574125 1465468082
  ; MkMatrix 1032465875 854079965 268590853 1638310829 254447478 2103329644 2109405854 255773686 809171782
  ; MkMatrix 295434558 1001525797 390042397 1442272585 1186160207 683375337 1976222129 1716962481 692597521
  ; MkMatrix 2116990624 220636372 772681306 506388011 1979073578 2056670030 1126588619 4707812 1118432385
  ; MkMatrix 2001649166 1440728422 2144235211 1704970640 423139100 1384396308 371206315 1038177518 1992512251
  ; MkMatrix 1840466677 1117302074 1317254032 2044195761 214964464 151016190 190656542 44730689 1165676364
  ; MkMatrix 765760357 300200860 1331775680 262103690 140428866 1857545835 144763726 855681480 1988423995
  ; MkMatrix 1680990669 693340820 1595922263 1884922248 1592607987 1071361727 1972564935 657653609 181313218
  ; MkMatrix 329608727 1149953213 1750761275 1236305918 863386662 1786209435 588717061 1137629129 1431584108
  ; MkMatrix 1166615418 1443474655 873561715 1436555000 1758669297 820410894 2089656455 168304329 518646776
  ; MkMatrix 1570747727 775552314 2020790317 1108447973 133220041 977409886 175458304 1476534296 1334419955
  ; MkMatrix 2028973475 1794501025 1528099569 1958623357 764311526 547489397 1014355733 851979574 1969357228
  ; MkMatrix 1120618770 1115181062 1452765926 206436673 2090280905 1796706316 394421986 712634072 981865521
  ; MkMatrix 58230883 1130348426 1023631904 179215536 668817531 1432090164 951897076 1564038477 1946765164
  ; MkMatrix 530312954 1102621701 1550286273 298706408 1804039486 272767073 703198521 159961108 459562910
  ; MkMatrix 1469504198 74272864 625140379 1701467465 1768133695 1492681677 1928062892 167651994 1065210403
  ; MkMatrix 448263481 125174331 273797479 575459719 332625564 75656295 1857930511 1106300046 589665642
  ; MkMatrix 1894279021 1114166693 1814724031 915074715 1515067755 558543218 1404485540 423504776 937344354
  ; MkMatrix 1820522170 672348563 837717573 1848709318 424687459 1108907627 1201219180 1428282605 461659459
  ; MkMatrix 579165384 1466474521 1843306625 1932325856 467864101 1693263366 1894909541 1376481699 2026204971
  ; MkMatrix 1782410963 388002121 534383198 1194473317 513615808 86280831 1685300913 2000482368 672440438
  ; MkMatrix 334476456 1865211550 1287162453 1092357929 904897657 1318648061 933009814 121559400 862351867
  ; MkMatrix 1771703003 350254825 178556227 110115503 1815243588 52281321 267631947 768063598 1331672964
  ; MkMatrix 1444350308 1842029817 1189430526 1975525242 1420101200 48017021 1279998751 561158038 1008947522
  ; MkMatrix 1617086588 1915681855 871122525 1153726133 1097803897 61211361 957072731 1999866683 719973105
  ; MkMatrix 1556003280 1723646726 1991565772 419272068 549987515 1179045578 1364151455 1552431794 1509874940
  ; MkMatrix 1737009974 769676279 1496537280 743916317 952176121 1664961341 1021174993 1782369440 328346817
  ; MkMatrix 1369848304 988076129 761232346 447512952 280215449 938125952 1721378451 1026146500 2068547821
  ; MkMatrix 1828564067 881821386 3029176 1275301980 175024641 993443239 1695433507 1433519529 639660447
  ; MkMatrix 641784965 1956076027 1380512917 1429559172 184419607 120838554 693974329 5552151 1363592360
  ; MkMatrix 308559391 1626044904 1125128759 698266105 914409732 551681476 502543513 1918240246 887270740
  ; MkMatrix 211183725 1800565239 2063129591 50758846 1913060701 116038200 2022516221 1597735998 1139104737
  ; MkMatrix 1758159517 1687469901 757006122 100148532 164309250 749991523 816631636 1532314377 1453360318
  ; MkMatrix 747001327 741183270 1901756588 465252769 498483987 1231352082 1685531724 304813395 2002412034
  ; MkMatrix 99769295 1297203233 1548359217 1679837562 1113363122 725413068 5974455 1140875591 1895172671
  ; MkMatrix 1990136511 1717110409 495778638 937102266 1420415484 54194989 1443178033 1827854325 1317537382
  ; MkMatrix 424562320 2064502358 1104441300 1296496008 1487348586 1915905546 1078119453 167534923 1750833910
  ; MkMatrix 2062210997 1030408348 1609149743 1542593231 813130404 2133995599 754877101 1385760428 1187107713
  ; MkMatrix 628121683 1994223382 1233513778 1933074867 509576109 2096503340 499737609 577050698 92860000
  ; MkMatrix 180145037 447698391 442069751 1547098357 34442940 62525081 527560155 825581391 926605459
  ; MkMatrix 651133337 1453302019 1014954777 1092878397 96719959 903282804 1128302525 1234843425 201395672
  ; MkMatrix 1490707205 1417063090 1592453271 75478142 1913874827 1432186480 1091188003 15684888 619894928
  ; MkMatrix 1610987700 843204504 245855872 1027136709 1895907014 279358809 1114447930 1710821757 974996852
  ; MkMatrix 2059598006 1613595137 500524940 1442129920 1090934327 1536980929 928949256 687500951 2031425000
  ; MkMatrix 225678989 487952917 258741365 548153521 1025544487 1375332912 1065865034 1678339312 1726615916
  ; MkMatrix 1985137678 1678015370 136109382 256291874 1718259389 768468818 1799880578 1559068954 528340161
  ; MkMatrix 803104767 296881645 226385969 922413585 237434617 767414253 1353655351 1629750218 1599757323
  ; MkMatrix 1678380485 798709815 360507423 1598775357 224888524 748147557 1924016878 710621085 513042056
  ; MkMatrix 1244456524 295916957 822522224 1992594854 1016404843 289853903 1043195905 16863552 151509141
  ; MkMatrix 937730913 385537740 592131110 128471720 1221382458 1453196291 1264628414 1189090328 1664194302
  ; MkMatrix 807554425 619400901 2077667200 1290996382 2144960111 873627764 53910565 1808998596 1082313873
  ; MkMatrix 235980159 1434784671 1672127774 1309763106 1640099074 1244817433 484822396 710578538 1176648221
  ; MkMatrix 683361108 1490336408 115035162 838513426 1915160486 2110153479 1416590909 1309074249 275868493
  ; MkMatrix 1192661407 616207365 1579588792 747564412 109871519 950395149 65834484 1154019072 994455032
  ; MkMatrix 782054332 2100872555 978964205 430912003 2140713785 968160080 640108177 2032235241 1536805633
  ; MkMatrix 123714077 779431896 1691324302 1705851722 662272038 414009422 1761169369 2055810084 372235238
  ; MkMatrix 1686163241 523111513 780980341 1167021634 465702985 40328561 874239527 1612657076 1619259926
  ; MkMatrix 1198350249 1531721854 1875088304 957646898 1398512749 2078666908 2006548345 792225889 2087601329
  ; MkMatrix 316257426 1737561844 57415450 1734154006 141261752 123633192 1302634021 1385606281 1911157383
  ; MkMatrix 361118689 906947544 184401460 1466909259 2015926416 1746923644 2474914 821797945 117684400
  ; MkMatrix 1011777680 1760542666 1788080876 57969949 864222070 1406420478 1081085344 109086808 1685035146
  ; MkMatrix 1721734165 2137139572 1625609137 1869693478 631706532 2071403526 1544862997 1006868882 494050788
  ; MkMatrix 945235555 1734637715 137292771 700483455 115457915 866934359 1873975210 1118333955 1334653766
  ; MkMatrix 521253252 1511611501 779068480 1587597131 500945708 470179404 1044002418 1007447920 148338936
  ; MkMatrix 1671347839 1406149181 655520399 1336530389 1298708811 713803255 2016301995 93953779 1158450806
  ; MkMatrix 150414666 1329681896 1647557492 72089669 574618202 1921281857 652986295 1454157201 173037364
  ; MkMatrix 920908054 700615417 780210003 1101875050 40843099 1881536151 1302788356 216402396 1683089178
  ; MkMatrix 1434695892 584295967 418949303 1341766752 1709091913 1370642593 1335088766 1518730778 962787776
  ; MkMatrix 1859812862 826352051 646580549 1698903957 685280194 390165914 2013261032 135269137 315813449
  ; MkMatrix 563211148 875255502 1335762272 156607178 2117393224 1537125059 690394319 1955078631 466748062
  ; MkMatrix 1798541855 539435905 1083932192 727956427 1527006743 1520558991 1732852551 1302574040 1071105829
  ; MkMatrix 1867600906 1998289056 203777605 1725645795 1252900131 1988873833 903536134 765163054 340847968
  ; MkMatrix 1000609970 1008277394 1610684162 899418403 443956723 1731805728 1863545616 1965164355 1366761934
  ; MkMatrix 1365641618 6549635 1964924299 840389589 1582087757 1461310351 487098035 133034365 2072396641
  ; MkMatrix 507344798 591024749 827600300 746635559 1097154116 198705705 1294924215 1904024819 323371247
  ; MkMatrix 1913842535 307402358 763822257 1905889131 1867038948 1248170206 971207779 1458592226 2000776763
  ; MkMatrix 908109660 518900668 840649297 1040662779 928290197 201062287 1521896773 1903863279 154563867
  ; MkMatrix 978414468 186242967 1808048982 207830591 820204003 702791362 1776820370 659685285 1126185065
  ; MkMatrix 981155418 1464092875 817721753 1960139916 1149274963 905940114 2003881266 1903026567 1234834941
  ; MkMatrix 1691452101 1594580609 574009314 1858646584 858114974 1109946556 1903514937 870293809 1519879782
  ; MkMatrix 1793772743 1923780212 1923025301 1825531957 1761015005 1618082299 1249322314 744024053 748987310
  ; MkMatrix 1955478094 1144695945 914943165 1248257415 452348481 1963517165 764583069 1947020982 2133123149
  ; MkMatrix 576329442 639032506 738589900 197921141 212494508 652065566 1154612046 438052019 2099285766 ].

Definition mrg_skip_matrices_15 : list mrg_transition_matrix :=
  [ MkMatrix 0 0 0 0 1 0 0 0 1
  ; MkMatrix 623694405 1576373966 1333266485 556951101 1726684937 1894951836 240536613 1868627657 750542710
  ; MkMatrix 932365212 1941826503 210053829 679449911 444705015 756505220 2092760649 913351325 661902963
  ; MkMatrix 1929178848 88070402 1629527298 1008803811 545007285 271851264 1963876085 858318093 1640460323
  ; MkMatrix 745646681 678084980 1593850193 801007321 368953126 524482824 1839777934 1660323597 1613200967
  ; MkMatrix 998261774 1717761052 273040053 202919778 2009234144 724124337 1844957635 1167797341 1707879257
  ; MkMatrix 539830140 993919068 424095015 1421312114 808836672 804978519 34978351 442702050 1727632778
  ; MkMatrix 1148563976 173677147 931575638 343124253 1763757545 1489666673 1806056673 1106868788 87863281
  ; MkMatrix 1952692826 2119693665 397427817 1267453831 975050416 2080496270 742995946 1651650344 826469525
  ; MkMatrix 1180947376 472776723 716540193 1070696145 2141884209 1777432059 2134548437 1481645 530752898
  ; MkMatrix 2090866867 1416369259 1562271221 1734971150 1991419255 1436185132 200612966 161518059 1827513752
  ; MkMatrix 1356721310 489809203 1120922108 868606867 2130992480 1088698568 1598871068 1167995452 863200613
  ; MkMatrix 1217540477 1847827289 1054621814 1459019899 2035035504 1099565575 132902951 446136225 268275090
  ; MkMatrix 1267475706 1780905869 750049432 692474695 530953143 1981534466 700757463 769332130 1335428721
  ; MkMatrix 111318032 738100576 1398464447 461688115 238454066 1987629453 2098658509 693525278 1928455501
  ; MkMatrix 2023828708 1242811753 803293610 807992545 2079435593 1393465164 745077532 1835705597 1114816087
  ; MkMatrix 1625876192 1273875864 587847281 2038002420 963024328 1993309385 427059908 600041264 1182506615
  ; MkMatrix 609697238 261744904 573434050 2017386349 1558372740 1981086153 1275918267 174950585 2034010947
  ; MkMatrix 1256455938 694562660 617843347 852912486 1007199265 40054717 281701649 1720684550 1478701496
  ; MkMatrix 818354493 695840909 1219808972 1886965492 2027334647 1805281207 1339579826 2062357647 2057128747
  ; MkMatrix 655922590 795408217 1227883230 1284627045 610268199 1639577134 9786139 1173827714 1702667052
  ; MkMatrix 935957010 77850882 1804597321 1134911600 713885212 824007752 657201149 1871258839 2099054083
  ; MkMatrix 462135060 729185802 922878382 842377736 1085186960 567438531 1905390902 390239285 1485474122
  ; MkMatrix 1873838146 1127654877 1606786168 248941252 613026521 1116056620 1216166351 1004399035 1872099594
  ; MkMatrix 1160306136 1524105440 560926123 971643977 116837155 688501563 642073123 1069040931 923788835
  ; MkMatrix 832611462 1764365391 1132150603 1197177532 490307881 1687699744 970952422 1072092549 1081443130
  ; MkMatrix 32356163 949858572 536991104 1964869656 640991935 1260656462 310509707 460326888 1338870983
  ; MkMatrix 683850429 1637220381 1224629461 472049729 208216590 216756725 1685635519 1922186762 1897683235
  ; MkMatrix 348844362 2017954787 1710395809 1440179156 377281966 2110607625 1508554052 53191779 251290661
  ; MkMatrix 1883668674 534425835 253038320 382633723 1373461623 1378380352 1059095385 548821250 107632362
  ; MkMatrix 285579840 1661979019 1495663715 2019225327 1115843880 1562026075 412083677 1552873493 1968202528
  ; MkMatrix 1770536234 419721996 1296154629 1220908083 1461850575 1303272867 1591628402 878586507 1905964574
  ; MkMatrix 1970777095 162253888 871468365 1218856069 472510520 1083094640 492385241 1153895417 1894008224
  ; MkMatrix 197674996 1521006880 1306614002 1944672497 338774254 1022323902 1163549001 1644804529 729460310
  ; MkMatrix 1240608732 1777704116 1859972532 1144205192 2019648099 484497601 1797772554 2018223351 346902285
  ; MkMatrix 164843902 1521309788 806246401 367716618 472861404 1678362787 970438702 242811437 65754854
  ; MkMatrix 1836454440 398441208 188238862 1161318694 100738657 1903165801 1776988661 646746845 411248173
  ; MkMatrix 1911133039 315895767 571452649 339498607 1041098698 1687108668 839958074 1548751834 2002274109
  ; MkMatrix 1549925069 474050656 1225158911 66477488 1135456567 897944523 1233000875 1245539917 377395049
  ; MkMatrix 549090279 188267360 1208508391 350302210 1453498746 2036195227 1247459338 1846426724 1236746122
  ; MkMatrix 698519150 2012648994 373163725 1386365610 2063854565 694425468 989108270 2113919539 1216608544
  ; MkMatrix 349638450 1559632922 1204006550 905087157 269453240 363517641 1184149558 275886447 924512260
  ; MkMatrix 1454425180 235306075 1528881164 1242984821 374628587 1873740909 1839439487 1350800277 1727209590
  ; MkMatrix 1645454635 844036361 771523782 2114642386 1862025304 1878739974 1617203344 1978117945 1706554935
  ; MkMatrix 1281262495 1083839792 1519819117 67703478 958019931 98527007 89470294 1539627428 1278143790
  ; MkMatrix 488814054 629005870 1659054576 1716051073 1480736089 1961159504 1402145479 1117925973 337842722
  ; MkMatrix 129452215 1221114015 1053649477 452452082 2042872755 638934828 1689015746 505541665 255320437
  ; MkMatrix 2125640473 227831340 1330505958 455781282 2003118149 879721545 1559474329 876332908 407911443
  ; MkMatrix 2093544668 932191912 483514845 594079889 476762545 1058444737 1938420287 667252065 780095234
  ; MkMatrix 1619033686 26876258 1322889829 1887749761 1147307076 104459562 1501077347 2113991966 1051654982
  ; MkMatrix 651596215 1218477215 138444696 165906641 1479590873 453547628 838696485 409233783 1658481596
  ; MkMatrix 1957139408 6820540 1285371791 1610426559 1067084882 180815206 1866331563 1279333059 511944129
  ; MkMatrix 728040149 415816584 1098115823 1666199827 627772545 1127370173 2099400633 179790329 1531213571
  ; MkMatrix 516698880 1357728997 1246064564 146702961 1612462082 1176884389 1800522669 482887668 154961210
  ; MkMatrix 189055551 2045336815 1401775793 646333416 1773336617 1012799731 80928246 1262253624 1761044578
  ; MkMatrix 468078052 1451385679 1248266258 182115252 2077418927 428564902 1313016907 474178611 945088772
  ; MkMatrix 2011210692 1326989915 639889324 427921474 531316562 1911556361 78218780 400544901 498500029
  ; MkMatrix 1442592104 1304632483 1006579034 998122390 1953100449 1229221976 146854613 195103999 1777439867
  ; MkMatrix 1043419359 1972952867 104808278 1249010864 180676689 1500381909 546042251 91528435 1759254472
  ; MkMatrix 2086720893 1542710676 1542027557 101100800 73246755 60739087 124904506 701629317 1653037594
  ; MkMatrix 2059384794 1421233364 984074729 1280773371 1839235874 56203592 105410013 492260590 593202844
  ; MkMatrix 2064769331 1374313871 1692141445 425941322 1815621091 1832760611 84307590 1470175489 119943664
  ; MkMatrix 1758258613 1187334475 1002396145 1288533007 540322311 1967808331 1494779235 228489363 782473581
  ; MkMatrix 1870222769 482265175 246971803 1692548824 2063900854 794054847 720671883 1762436212 588054721
  ; MkMatrix 749855844 462345846 1452798263 111055432 1081039412 629393030 158768879 2095595789 1313948527
  ; MkMatrix 1688205188 2115892338 1740220991 155126005 390123985 236530334 1013190280 1947993054 1211564969
  ; MkMatrix 265286467 1990204023 1444550849 26694449 507495903 501489389 87913557 1821285804 299542601
  ; MkMatrix 140787320 1832805588 698573489 1072132313 1430962973 1783530026 718583074 176383143 1691351420
  ; MkMatrix 1073186198 1123839274 1557814366 349626413 114502448 533475740 1371097857 1695103263 1990822500
  ; MkMatrix 115204669 544761534 1754266567 953176599 755650111 1470807541 1346858110 1555518084 640715511
  ; MkMatrix 1359813466 2012524319 1134801535 905129095 494129328 33351053 371509390 1848842632 1135524595
  ; MkMatrix 465300593 1562256642 376501981 483020328 463989419 647782158 2082513508 613134059 142018316
  ; MkMatrix 1903528651 164271783 720810015 1300733133 1697699815 679152761 590480731 127697236 1223509053
  ; MkMatrix 1312144878 1026190564 569029338 1428478695 777138676 352191492 1734252504 1250987048 1198286668
  ; MkMatrix 892427493 278282995 1727241769 2072274239 1449830756 1361797743 1572735106 18578399 1335954134
  ; MkMatrix 440615119 328962504 1321536103 885534010 362377937 67373030 224213719 699685026 761733272
  ; MkMatrix 1567339104 2111349449 602851150 729326034 158727986 1992277492 1194044216 2029397476 1166425787
  ; MkMatrix 1498886532 672892576 860904337 1531362629 196475867 1436772478 143285605 2018083579 1530256079
  ; MkMatrix 772816716 669601055 1435788407 386924668 1675607051 2117102122 909551029 1034949449 132258738
  ; MkMatrix 1742707174 1304184770 2017809202 752033573 731439768 49992165 389699209 1582006491 1358853502
  ; MkMatrix 564539503 1503947770 888792639 144001874 854856607 1628481491 1499940123 2088629025 660707360
  ; MkMatrix 751450407 511040999 1501792396 1851751331 1204409729 999652633 400294698 1496899822 895243156
  ; MkMatrix 1123671418 1764230137 1452143120 223580702 1064101988 1156196776 617977519 2047398035 1958125411
  ; MkMatrix 1732891133 834739840 72860791 105178465 1476709530 1624092314 1007667034 1255733556 607706056
  ; MkMatrix 572054193 417661196 341899698 1624462613 1434681302 1613306599 1817351853 236770188 63321548
  ; MkMatrix 1485962385 494574183 2023271468 186403683 1937922796 511358260 1844296077 1366261156 1030234662
  ; MkMatrix 1048176683 1233443342 592709344 1939416325 1464683559 1188704050 1250404750 428032839 1207497883
  ; MkMatrix 1496175721 1267876031 1670830365 244204076 1435563283 851588711 406406675 1712574475 299291305
  ; MkMatrix 2137209481 1655701787 2048640147 417050503 1935463294 1015052651 727004078 2095334358 987347904
  ; MkMatrix 1034287027 103559609 740851574 1964456416 351021320 493178426 1212484219 1432712757 1674932955
  ; MkMatrix 471862088 655214154 1855716137 960112916 282999493 1349055882 1598294943 722832233 1425872582
  ; MkMatrix 1532916026 481591190 1889341417 1041774901 180412427 589315675 1146210019 533227212 1282273091
  ; MkMatrix 1200855927 1230128190 678747224 1703865082 1045841412 1561447892 1420730650 132867531 32970135
  ; MkMatrix 1096523282 900544424 1202994655 1941296386 981965211 731509640 946966281 1717232370 1454675705
  ; MkMatrix 696552467 1316795580 730931831 461556851 199490213 1824621493 1488178679 1980803778 1438944173
  ; MkMatrix 1656938245 949686795 1841179400 65013682 510269102 906629321 1631233320 1641565667 687340395
  ; MkMatrix 1616179419 57857682 1356787093 981564358 1808352652 1532304350 1894222394 1821825073 419094600
  ; MkMatrix 1337961661 194187324 2144678125 2068227097 930461166 1980758572 592419166 357641836 375789794
  ; MkMatrix 999781854 2005997300 2071118448 1503237388 1462209106 1011828557 1394855906 1659282915 344589174
  ; MkMatrix 1367194909 1770735920 2114444232 2069263141 1212322531 111101696 1646061909 312025467 1854732894
  ; MkMatrix 1480760338 1384028653 102910806 1990540710 831986114 651014170 948797670 584719702 842082583
  ; MkMatrix 1215634535 1380875055 616436881 1611408938 147375600 418532056 40453932 738256603 211108336
  ; MkMatrix 714928015 725007283 339265806 255364029 570851106 2085395213 1005241852 1192019569 1120011898
  ; MkMatrix 463082219 220803371 1795647808 1014383338 377358783 2098834059 953681705 1217465653 1347110175
  ; MkMatrix 258635001 1213319305 1569834515 1903644329 1176629448 1230171237 817152035 1080770205 1335230788
  ; MkMatrix 712681856 301957019 2062890200 2132725152 602896255 1770505287 47348979 2008778827 651442942
  ; MkMatrix 2099268612 798357706 371687376 1064454809 744633594 1352103880 2045934665 885248588 1293790047
  ; MkMatrix 1248353038 900384495 1571931285 826524522 257271361 248712567 89017516 365871662 343964644
  ; MkMatrix 1596504514 440252985 1757927432 757384175 496282068 1384714958 1058528832 1675389272 1198386011
  ; MkMatrix 734379844 1590410957 1473809171 401511282 149256487 1762874741 964177194 1567287817 1426066851
  ; MkMatrix 1209426549 1724147252 717374954 1272975570 113491033 119731954 31223676 832550554 1325336892
  ; MkMatrix 226519560 584000264 419012978 267505657 1951906006 504718418 27613167 1009460325 2135465804
  ; MkMatrix 1669002361 632587710 270350337 393034161 1442624405 155811066 860061558 2024747898 519214276
  ; MkMatrix 2006614560 429030435 1390412528 820281603 711947406 1874198986 1378687977 15618264 1135977743
  ; MkMatrix 1666047384 1976342206 1828165825 2000321746 1819032721 1822722351 223845361 2029350052 249766744
  ; MkMatrix 563544522 181379154 1610342986 624897122 444239408 198886936 1111235829 1202332223 345545677
  ; MkMatrix 2114803350 1914228686 453276007 1617646398 2056283039 100305690 1491910839 988103422 1925195206
  ; MkMatrix 887137523 29715229 1156928470 2100847625 230233641 41339643 1464582142 1802992240 1746670004
  ; MkMatrix 446841453 2131229253 464739903 201612804 2103207278 1223215468 895607948 747143481 1949081242
  ; MkMatrix 993626994 392984121 1957366046 759130662 1304553858 1548453226 2059652511 1219368289 1844142598
  ; MkMatrix 1520270743 157628288 1143800224 1378414201 676027572 2095139722 625249686 1803821905 581560817
  ; MkMatrix 1895154779 768137462 1696798866 1646646804 1765567261 2144942754 301823808 252518283 1999308409
  ; MkMatrix 763637327 36766227 1889514945 459141058 1514547313 521112439 1599751409 865595706 1855833910
  ; MkMatrix 901837104 144765444 1996667026 959216315 1962773433 258619187 510285940 780616236 1260061021
  ; MkMatrix 1452523776 479104145 795757155 395460956 1354565931 1688707741 312083628 1145225145 1490608042
  ; MkMatrix 151941225 678183193 1504205024 785169909 593851764 1161874676 668052158 336603289 1442408254
  ; MkMatrix 943686876 591044590 216421918 297492301 1134287813 1978741101 1778720362 2037172186 1065522642
  ; MkMatrix 400203457 2115921421 1846545327 862912470 1317604620 1653727664 1697237374 1772117942 912111705
  ; MkMatrix 1881116928 588328209 821817512 233134312 945688464 788930743 867814299 1969508772 1544850582
  ; MkMatrix 375394715 1932445068 2052145845 754884286 2111249226 1264186006 106442190 1791371343 1806391803
  ; MkMatrix 2082158485 74355558 1408257582 1491243827 12795157 2029954647 1449392732 124962912 1257548326
  ; MkMatrix 310958507 2105715759 1149082880 2118174233 905547884 601015911 2119843317 1054106525 1073481512
  ; MkMatrix 980285810 306296941 1183566074 1524792948 178571440 1036938731 2001753524 1253675944 169281589
  ; MkMatrix 1295569796 446231718 460558309 50369727 875414555 1710769207 613408363 157799347 1571804060
  ; MkMatrix 372054694 1708810177 677222408 1552355259 703818572 934345940 350201329 248668788 1475777955
  ; MkMatrix 1623619186 163068185 215683664 1077797697 1521450416 239046564 561514096 451771034 719085460
  ; MkMatrix 455534502 739894668 846841248 1514111265 613202136 795205957 246396616 998375720 263770634
  ; MkMatrix 201458568 958949131 1818146048 927941975 1042087222 1747432091 240177175 307009052 75640595
  ; MkMatrix 1463122238 688361860 1632933011 1420921818 171339668 2109004359 787407303 1467451809 624099176
  ; MkMatrix 1087440718 516545516 170815648 721259762 172151895 2068676547 198398133 2047684786 99707314
  ; MkMatrix 8447147 1657097165 1733312898 1104155119 560024497 258276293 891296919 684827015 1930947777
  ; MkMatrix 108335497 996860340 2065276253 185390124 1764866075 636820369 661273118 1886679815 567657228
  ; MkMatrix 1297689457 1279956830 1364876095 1212102391 198740737 503642973 436981778 844410404 332693825
  ; MkMatrix 2038986513 1577838319 1056158530 754988416 896406238 112573763 1338880260 286380325 1333044036
  ; MkMatrix 285797031 1657771797 576845867 1069650196 151508775 591375195 1980477284 805979876 1587402736
  ; MkMatrix 1721668291 1291030566 689604422 1509928817 1541850104 1869562670 1108999311 155411417 1165333561
  ; MkMatrix 2092222430 1027521356 1523136282 1041185155 745865101 1368985329 2010359058 122811120 702881209
  ; MkMatrix 1794166491 1755726397 2105731655 1382697939 574499062 161400484 331254568 2125752299 1870595222
  ; MkMatrix 515562622 2146368842 970677627 1770759807 8451017 33186642 1173810667 2111545350 343151968
  ; MkMatrix 561052955 1672080195 867236304 1236341911 104463623 938840749 1505009683 1031711069 709732390
  ; MkMatrix 1782501796 828174977 426721676 132622590 1538205487 1922286266 398166577 1818625388 1760680060
  ; MkMatrix 2010735114 1060842892 814585764 233381596 703067536 1860324155 1774085045 149322742 865552941
  ; MkMatrix 1892409542 1288499043 1445910755 1892168289 450506037 840904068 2010587790 114720739 302979596
  ; MkMatrix 1045551010 2043137520 1784283225 116548157 1397019516 603452843 1895197277 1278590210 2023254766
  ; MkMatrix 205283867 299376678 623301715 1505951998 1513705178 979146601 387974587 2121780169 1737449760
  ; MkMatrix 1677906907 1262978848 710060693 1640768789 2062106662 1427330707 962114222 1518777176 1101037921
  ; MkMatrix 752618347 333140253 1778477211 1294241475 1465656208 821343108 202516935 686489636 795888106
  ; MkMatrix 1897955693 2025872766 712717465 54335998 175687155 609968997 177105769 958716620 1987619985
  ; MkMatrix 999884088 185799845 908412653 155693240 61431720 694833873 2061085168 293306890 1032516132
  ; MkMatrix 980438216 1237306951 1433348619 165509002 558681924 464656846 1914963817 1320632766 740705550
  ; MkMatrix 2121921807 2081744488 155512665 1286432194 1899565744 2090691132 712260957 715018312 790315876
  ; MkMatrix 1826151921 1801923097 1240517123 1079309268 1635602897 1270144107 1547585962 752402546 2016507100
  ; MkMatrix 2096352584 1935550214 471618738 398823795 2036662031 1631323539 1940764964 149052787 588629185
  ; MkMatrix 957741628 50347253 935693039 2041333822 452026898 574131142 949495504 2138507125 240420316
  ; MkMatrix 471997395 1444926501 169258861 211424487 864627036 742856501 16633268 1064596302 706766695
  ; MkMatrix 1631614011 1820456318 817070747 506000147 225876955 283023773 2113876797 1591504368 527843885
  ; MkMatrix 384976635 1632450706 64163192 1169498074 857955675 960837972 1016360090 1887513866 841570916
  ; MkMatrix 782219909 2071220844 1729437791 1218836398 924099653 616327870 439981213 313223697 492348812
  ; MkMatrix 592319342 51832262 1160038315 1413952052 1101577479 59268857 817171668 1986935427 1157769356
  ; MkMatrix 490783086 1642905791 1238254441 1959363485 1029948330 2115376805 1034743471 630835629 1775523501
  ; MkMatrix 2073376685 1427427467 1224448751 316655656 957597649 1238616539 683558780 77410083 1252626667
  ; MkMatrix 942772140 1299768876 379797251 1476627980 986489099 969798627 791987008 2058425986 910285098
  ; MkMatrix 1467190183 2022650563 1263668680 2022895381 2072987240 1831256546 1266973983 1901577034 763190184
  ; MkMatrix 2085525969 2113967701 1887632250 1283817443 1970911839 202917606 313372535 637266144 29881771
  ; MkMatrix 965899345 1083664079 1643177913 1870512294 1796306769 1282470220 1194313336 1023005897 1116132158
  ; MkMatrix 116307337 1811931850 2021051542 1202609345 862388364 1449101735 976995023 1182783634 1951652645
  ; MkMatrix 1056635722 782140306 663436797 1890750346 1165310023 627066168 1302957097 1112592815 239031626
  ; MkMatrix 927486746 425758963 33306712 502072567 576918086 745383696 1490409336 1698416217 1807833510
  ; MkMatrix 398617024 1555078179 316780458 1701316316 780626992 1845058950 744751649 259537233 2085653331
  ; MkMatrix 1995646847 1499352462 814104952 988428003 1104059416 1552495342 485479947 1570129298 339765797
  ; MkMatrix 169408965 219447517 1261649893 761719166 578073278 697025291 51323400 743755976 2035745604
  ; MkMatrix 1206829295 1263714485 1398599955 1096974643 1712746268 304453320 1292041293 2040624561 1105901854
  ; MkMatrix 260127816 863858753 1439974113 508834300 747485050 343317288 31322874 2001109847 798715880
  ; MkMatrix 625788342 994331601 1028708285 223131862 1865217440 990054046 1326434463 81002347 441002248
  ; MkMatrix 100320105 548529987 447657409 922449328 481881197 1050288862 294804672 2107757881 1999023768
  ; MkMatrix 262471644 2109604964 1268946977 2090081055 712503475 299752971 197665796 1591401297 1980874121
  ; MkMatrix 473030559 1069794348 1804789417 352264191 1764357903 796859470 452146779 86638636 1304537651
  ; MkMatrix 1291407033 1062867432 108584141 1432594572 416560577 2006739341 1661083201 958589634 1584292758
  ; MkMatrix 1959447057 1366388017 1942199371 696109580 1605246997 358459000 1816738721 167625210 472836350
  ; MkMatrix 1970493014 58270117 1898184328 197948401 1762182949 871836115 1056170776 1546275547 1972605784
  ; MkMatrix 1892065422 139830892 1390170557 425996306 31108323 1839840006 1390471649 905698870 787855542
  ; MkMatrix 1589381342 1535423760 87337534 107742090 461111008 1193888655 1280089240 1807194503 150715479
  ; MkMatrix 124663394 1563172829 2070485926 2052600204 1823369784 875295547 368268114 1279461270 301816516
  ; MkMatrix 1782006211 1886627679 1787574850 1202992854 1295868003 296557864 2113276327 1214965416 441133378
  ; MkMatrix 2001293427 1061206822 911878992 5510510 1047789364 1112373399 415174120 2007683215 1955712974
  ; MkMatrix 938823309 1819118066 2029134605 962353112 2013860923 309413902 2135588104 644394005 177710286
  ; MkMatrix 1651022085 69923026 1396641336 851585293 992508841 28936208 98023475 280406165 1431237595
  ; MkMatrix 502654990 615503300 1333015030 635865683 1736051536 1513315877 481231926 1111679603 1669086222
  ; MkMatrix 582509907 1769050334 783955896 316380310 1235747923 169307496 295201543 535182317 726311565
  ; MkMatrix 940780193 2138753706 424940590 1636359917 23562583 1057861362 269437478 1327308435 1169617366
  ; MkMatrix 510582115 520838766 570657754 206954713 1495509458 1952747761 2142053867 208855136 992913431
  ; MkMatrix 1694410629 585352737 1493516613 766938794 559854941 958676658 943231418 222059433 1877998510
  ; MkMatrix 1636017296 474515734 260775329 1405981214 876029068 1619896598 1626546802 1051438198 293277334
  ; MkMatrix 1583505222 1764709193 833781425 1855136552 2131168941 1425230730 1408692493 610474903 92141625
  ; MkMatrix 1431435716 1786191101 1409676558 1259757277 476861409 855691871 143816762 1424169775 1589014723
  ; MkMatrix 131795085 115284268 867215619 955043597 668504420 606026900 655106204 1155253155 1874778551
  ; MkMatrix 1981052478 888978468 972445438 1714585678 70507251 2128345383 549647101 1629583375 1110765805
  ; MkMatrix 990453199 402920411 814519100 30853137 2006880438 2096371256 1798776078 1334016792 680981102
  ; MkMatrix 1411651856 773685347 1421618125 1641811615 1286027969 1997594115 185589273 825236093 245576060
  ; MkMatrix 2125313879 1878366537 329464400 1728041440 1364302836 1027132497 1795329126 1743921340 753930367
  ; MkMatrix 1781183159 1244334198 511741551 1206453918 527572841 513545910 1405742306 1358689205 588902531
  ; MkMatrix 1945764614 60317990 2142549890 1277741415 1637614065 882538928 545171077 764808991 403563277
  ; MkMatrix 1822894843 1360788894 722599342 1554645983 1619603685 1044898246 1001130050 130508642 1788674025
  ; MkMatrix 1630373533 658152627 484220365 1880540622 726980820 1483386261 72409356 1425700618 13237239
  ; MkMatrix 1194395866 823295297 2072419418 1191616146 1610714324 1049501838 1490345410 1743737076 570909618
  ; MkMatrix 1771274861 397903512 1402093714 1439231385 1944346073 2032815140 690608415 660647528 424629250
  ; MkMatrix 2001509132 1986486920 129970454 392289961 479712397 426965265 517403523 533321275 1903662686
  ; MkMatrix 1146922543 1841081493 1253332767 389793808 1558050359 1761781150 1710451188 650129351 364137445
  ; MkMatrix 1143249891 1448175865 1310090100 1497480194 41687787 81670762 1496253698 759043035 1386635460
  ; MkMatrix 1077265125 1428134126 951912109 655156828 1031841324 1587962244 825622053 1762053480 415122606
  ; MkMatrix 1475209992 1151813171 1483573570 1397711492 2002127754 1923979862 1024928983 1361108895 988868729
  ; MkMatrix 1233250265 1318750971 1977449552 1123415536 539520591 1423984290 405313227 1733175183 255031824
  ; MkMatrix 254030986 283326089 1354067701 1829580760 724587941 838660338 845788218 1318806519 155631477
  ; MkMatrix 1518339302 1697908896 1980789963 1767122131 305133842 1381238505 2034227398 840394177 1836356980
  ; MkMatrix 1781826181 444946336 1177179160 2095404854 514641931 2076165002 665269774 1218315339 2128341027
  ; MkMatrix 1081266923 97834323 1437063053 271002834 1290845103 41513447 26668976 1979655610 1671707463
  ; MkMatrix 2035472916 2007175649 750466860 1389727011 1659756532 865263399 340250488 2129632799 807010870
  ; MkMatrix 566571562 2105639074 1207481038 1678096413 1451077935 2122087392 1753240639 957088007 1867716409
  ; MkMatrix 2135371574 419539827 1184492645 419925426 439862289 1175398329 1739470871 992226627 844202246
  ; MkMatrix 1342942528 147593141 999593078 1003166333 97803499 536556715 274927316 477445043 252820281
  ; MkMatrix 868033536 791168657 1787906707 1492173736 941136618 57860190 693913817 927181353 2012487515
  ; MkMatrix 1275923140 1125912544 721415145 1349295854 1260381799 679339445 1020517251 25747175 714499376
  ; MkMatrix 1413330743 1848671324 1658017672 1912630636 532811559 1676128111 105005192 1016885360 176901683
  ; MkMatrix 622389139 740432098 820219608 991002146 643425508 415221717 352769460 867532835 1950401751
  ; MkMatrix 113629885 521476107 60051008 486126745 1181321155 1018576559 1743658677 1701207308 1444892056
  ; MkMatrix 376891819 293369610 2099432044 1992329508 232518157 54083291 1114135251 636014529 976280713
  ; MkMatrix 285587548 1934297529 1051726845 13475228 654912532 545851699 753304568 608812088 1300821760
  ; MkMatrix 2002817761 1899840931 1411171970 751131711 262067025 1306228897 631869309 1496345094 1241584795
  ; MkMatrix 194262557 1117782148 123549240 907246274 700714331 727667706 513110637 405535004 988273809
  ; MkMatrix 1964666209 1240603296 1300180199 1502508592 1324560031 1519337764 1197908711 116872902 1498402880
  ; MkMatrix 620439676 40723407 2120842670 1089137923 2006576929 1541556438 1366549552 1899335768 53319222
  ; MkMatrix 1883336775 416420765 1326194359 832231417 2137703310 1367865629 1813809030 1271140080 1692804282
  ; MkMatrix 1235778087 336095651 1719843897 2041324615 404416544 655192597 1168403941 1739757418 1728236730
  ; MkMatrix 1971823342 916230683 563763017 66313774 400014474 440840878 194720345 535032565 749623988
  ; MkMatrix 1666464056 1298083838 89582648 431015868 1222872615 285324689 956086648 955379000 888489965
  ; MkMatrix 1095061960 633904426 1470825111 1446386706 567235129 250632740 1383103652 103306969 1497445331
  ; MkMatrix 1725568829 813428019 1364145848 627001606 1731515557 1175846570 2026341372 1206272314 665075153
  ; MkMatrix 1744276977 1458308952 626727917 1138983728 1383551647 525689463 764859152 12289566 2023495393
  ; MkMatrix 22936752 1430548439 1363077388 1971846698 226833052 563527117 843720350 602802752 1304342277
  ; MkMatrix 871805714 426157923 841176579 451348723 514891717 1624264476 1990670930 828355721 332341397
  ; MkMatrix 1180617979 635801876 1676295397 989697280 183714357 115211401 1743345589 1345893965 249522381
  ; MkMatrix 263067008 1331066833 285396031 1268352935 1282246891 2097986839 1591210102 926177764 1387581403
  ; MkMatrix 506059315 1986443466 1326003536 867512728 502189538 1272451794 236400314 140527524 882501634
  ; MkMatrix 1167134528 1195788996 1011183380 1959794859 713414716 1646285370 1508725324 1861237725 598852424
  ; MkMatrix 1196835563 96278310 135062745 1142110828 618344014 2146992057 1208976625 1255839921 286174224
  ; MkMatrix 443913490 501589407 591048117 999655871 1125770220 1419961509 1060429230 1702247464 959480337 ].
