(* ===== verification/MrgTable2.v ===== *)
(** * The transition table, bytes 16 to 23 (sources/graph500/generator/mrg_transitions.c)

    The initialiser of [mrg_skip_matrices], row by row, as the file has it. *)

From Stdlib Require Import List.
From Stdlib Require Import ZArith.
From S2P Require Import Mrg.
Import ListNotations.
#[local] Open Scope Z_scope.

Definition mrg_skip_matrices_16 : list mrg_transition_matrix :=
  [ MkMatrix 0 0 0 0 1 0 0 0 1
  ; MkMatrix 223523295 1025489125 1401138388 1931651083 397527729 410385060 1257503617 1169402270 1061978758
  ; MkMatrix 853985131 1580046827 1667963498 399395201 1806173930 314784390 484047138 15230338 1586094947
  ; MkMatrix 1775135080 1726821872 445741792 1403845606 988874153 1105524594 1562046737 535006701 908995990
  ; MkMatrix 849940231 1742252521 922835159 570951374 110121404 478405799 648018947 1095764019 1766713462
  ; MkMatrix 255906636 1326048753 1272245768 619359662 487957782 806984701 1097175305 772219217 2043042156
  ; MkMatrix 1511139589 1842257344 1157944880 613794144 586330687 132242482 1326408376 1867538130 1006434165
  ; MkMatrix 1771715722 293277776 1114254981 2352789 1472481703 2035409285 938732643 2143402558 507542443
  ; MkMatrix 1626323495 2071236246 1593478516 1497027233 547391819 965152111 289307636 966272831 1390312334
  ; MkMatrix 1469218138 436474883 1661517479 1420804030 640121693 1854983817 690150596 749754592 1666197774
  ; MkMatrix 2105557366 1241871219 335127301 1026308207 916508955 1149171235 1543530104 915569400 596059665
  ; MkMatrix 95581071 818662481 1759851386 558725781 161757618 1966325112 212644138 269551968 926407888
  ; MkMatrix 2134033597 907519465 1123188558 1928738071 1487383156 1985968806 1072344570 479675648 31006491
  ; MkMatrix 1066786875 1152175584 1618127045 1127274289 1557339695 241929266 30213249 2083067293 76646866
  ; MkMatrix 331278639 611387685 1791243267 1795098470 2012913826 388065979 1548045992 394288914 1230667612
  ; MkMatrix 2017238759 1505421010 747976240 828271084 1077265212 692013262 720519963 898211644 1192387866
  ; MkMatrix 919641396 1622821963 842588455 370355330 1434920135 871450745 1074451606 638542362 1426178673
  ; MkMatrix 470630360 1208696598 1761540347 670177055 1654102874 1043975972 537155298 267424336 1131007627
  ; MkMatrix 1189942405 631224685 524459457 336963563 109004615 751615755 1872006678 1614496508 402924296
  ; MkMatrix 1412329321 433509458 464771671 664351785 866077447 46568378 233724374 2085786807 887671341
  ; MkMatrix 318607616 2145276252 2005794679 1230450067 1528855217 1604266857 1122178732 2126177699 677318840
  ; MkMatrix 24826754 1185534070 643189535 917054647 909073401 532599612 1745269859 198836014 195235702
  ; MkMatrix 1677458109 647466595 472949102 542838531 398863306 1026723898 2046331020 1974106321 1962783923
  ; MkMatrix 1927406602 2015085482 1419545307 393280857 1226437326 1555241536 445714040 237280943 1465511543
  ; MkMatrix 1658788917 1919890496 942058705 1423687991 1737126604 1017191828 1445035024 1347422462 1480277107
  ; MkMatrix 453637159 991779731 2088517407 2060655727 597446066 725632543 9184917 1735318459 2030194070
  ; MkMatrix 273768605 2110117454 1931204766 566642058 791728196 403685707 394050398 213976054 72591483
  ; MkMatrix 2087133086 87512000 1226777445 1413237485 1049673967 1260514 582091171 243137934 320330596
  ; MkMatrix 1322618066 494697427 1327873259 199226955 2001716844 676026198 876515725 429317363 26094667
  ; MkMatrix 682474668 1403027955 1591219724 1251819674 2135800873 2023155280 883115376 513232563 130808376
  ; MkMatrix 1062368858 1293190485 892879353 505636402 861660399 706613020 645564796 1997675641 269848107
  ; MkMatrix 440663373 260353135 419535188 102444378 1634538519 1501985325 430711236 1669682363 1372272239
  ; MkMatrix 1086793760 1390142628 2006248685 203085511 447618653 1009764812 793837542 139990736 2116608813
  ; MkMatrix 1432210272 1979585317 1486034647 1437044629 1171224716 619318263 1591395802 1094804463 1110165701
  ; MkMatrix 827669020 1462960421 1895910083 422425510 1878044592 1173276264 1914760120 1899743115 676263590
  ; MkMatrix 925995387 433053743 2025316556 1312518322 1747947929 860574634 1079870340 934563703 1742973180
  ; MkMatrix 77686912 1464025476 1343792219 724142573 1478595663 577841598 926799295 2010375555 238093307
  ; MkMatrix 1348909193 722357583 527877578 250689815 120973060 1646103736 1669728188 525278408 796119076
  ; MkMatrix 113463842 1389151526 1950883251 1396266240 32191395 1564187546 2047662704 1109081023 2113619231
  ; MkMatrix 1571509129 1602097237 1991085272 1229505224 468365530 2018436683 1606754980 667140981 342240369
  ; MkMatrix 1826555841 1852188682 1714016753 547728833 1845065164 1320268320 1251922841 216930021 1876513839
  ; MkMatrix 297155847 1233436431 767115786 275963981 213454614 1881051161 216122062 415069624 497676975
  ; MkMatrix 1294247312 311385881 1421041612 1860941747 1045978356 1146889510 2093372107 1879880786 1032265175
  ; MkMatrix 1775943990 842042943 833453079 29859824 1257920880 1294204370 1454223373 916746014 292814681
  ; MkMatrix 267693917 2139648731 797010463 2053567896 539903106 1723833313 1589533174 852986191 1422473945
  ; MkMatrix 1007694134 410133695 1536574901 756186168 532855232 1560679301 1097711328 1230980662 316760365
  ; MkMatrix 310236447 1991956740 862533285 697713592 436294701 487509613 2087769291 1148110346 678701174
  ; MkMatrix 1739936348 1334746171 2012421120 1118464739 540298335 1584761908 169264264 1488718976 1737233611
  ; MkMatrix 829499274 1222320748 409207839 1928094907 1251035516 287750908 1167488480 1519473939 611845455
  ; MkMatrix 1209913158 959324959 532479039 1888831052 1951950396 321106989 1386459234 759325226 182948014
  ; MkMatrix 524446385 395582072 474308670 1184969278 1424905550 748896749 1178562449 1738840062 1031059893
  ; MkMatrix 1273118309 1803058488 1565530751 1979930910 1135055850 176351074 859562781 1786458119 402421326
  ; MkMatrix 462022989 71595233 333130640 290063693 541239228 876254828 885434909 946529116 1927940955
  ; MkMatrix 1381887582 1480278183 870549195 88171713 1742016131 1211365894 1949809685 2090092882 1225231987
  ; MkMatrix 1269980690 1569376531 1277539104 1294872387 541543676 51141466 1903884685 1165383659 26285213
  ; MkMatrix 547726552 2020750541 978527582 327966382 676688549 970052789 1605376747 517703797 173369673
  ; MkMatrix 1044604040 1018486168 641300807 695798835 186712931 652874754 1916033196 1743174134 1079840537
  ; MkMatrix 1292775150 1843815935 1647601444 1865564024 910683780 317602809 355324455 1204329553 1885032807
  ; MkMatrix 363602495 828172787 497356448 583418635 219334876 164041002 654690462 569025338 1952911290
  ; MkMatrix 1752583277 2041023059 1261381357 2028682971 2142406754 1105496365 1411328541 1642092164 1997171226
  ; MkMatrix 779268821 1700814130 1085687826 2139998914 234046291 1535444225 1085153259 1652821091 836674915
  ; MkMatrix 219525926 922035042 507452738 1296923199 957318675 1489446062 200894981 1333984138 275675862
  ; MkMatrix 1641936840 635039627 1690529194 1578844886 436254410 60361733 917783311 291253086 978560924
  ; MkMatrix 378118163 1584767117 1223893827 942946486 1508552338 1774548307 1354421196 39402338 1280013155
  ; MkMatrix 2049211379 968276961 526764154 1929214317 389523122 143678796 46979846 409532818 31438271
  ; MkMatrix 337264956 572686488 1597144666 1119086360 846475351 25147024 2017839937 90719835 277852497
  ; MkMatrix 60010375 1173990792 1486959435 1185435018 565867568 616116249 90202742 1368612423 408975767
  ; MkMatrix 696301172 484717305 112701850 909227582 104696212 1529502083 2046982315 1803396507 225126711
  ; MkMatrix 1097563001 485716605 1491431895 394703865 1000906112 208943737 1096179040 11041201 1104415874
  ; MkMatrix 837822360 1592728607 490919115 881013571 1544987599 1299490781 143471524 1260295267 1855503532
  ; MkMatrix 1810594670 1129719408 1898184786 397895612 841814798 1569753097 1026648655 1649181318 49852972
  ; MkMatrix 1148065692 1399087275 403842138 504449579 349704456 138270824 784944079 122344969 1273251358
  ; MkMatrix 1534233413 1322862237 1042355207 1904877994 1932118809 34261266 1674608858 1104016529 364597018
  ; MkMatrix 146439224 80144672 408071237 1095235860 1004094135 458387673 1643499922 734759252 2035418585
  ; MkMatrix 365242051 1127806849 1553111822 1504395508 831751654 33604490 467608427 2092351835 1710041247
  ; MkMatrix 134200336 499861679 782099148 1656298692 71821612 23394832 2062401145 1471329203 2026462585
  ; MkMatrix 477926562 1750652618 457537578 1660216645 1905441001 1798126686 472438332 635869770 609144758
  ; MkMatrix 445539178 67716279 1378360629 402396655 594792020 1844512849 1699148773 1203558955 1784159121
  ; MkMatrix 519731379 120928463 1659286309 370142272 361318030 1979131945 1503461040 1991414555 1274935671
  ; MkMatrix 558202640 810549876 39125478 1142785324 1669255805 615178952 1112303033 1859986 165366257
  ; MkMatrix 577067822 1653776495 1868803133 490297932 1571845365 1666551122 1500258605 502078332 537124490
  ; MkMatrix 1325285395 1866146196 1661241371 11481549 112608175 865425396 928845753 1082249906 378065802
  ; MkMatrix 459588744 949708177 909646427 1099137979 1323168579 1218348846 1127469425 1241394592 29687013
  ; MkMatrix 401971259 649471418 1665589777 322160381 41001445 401407295 988226312 1264771360 1745815116
  ; MkMatrix 967027595 502779802 1445801340 1224436016 588057672 1774932879 717200650 2047157612 1160042696
  ; MkMatrix 1481560948 739364078 1620632552 1819198037 707048498 1079811205 1779569542 1411097062 427912891
  ; MkMatrix 1207550056 1098410139 709782626 204999653 1778047425 246270890 1697329638 1543669562 1452511443
  ; MkMatrix 642969438 1575001814 1554538832 1849529612 830399684 1135214146 1801458975 682148059 484273681
  ; MkMatrix 1236753582 1062730775 1760956479 793806717 802160764 844615386 2109586188 914445010 1555846834
  ; MkMatrix 166547920 422013447 1431970870 1548092177 1265831018 363721675 767797372 420369638 903953280
  ; MkMatrix 425464415 1457152098 128663169 1333156753 1503451654 771368641 2113541974 2096655615 232751277
  ; MkMatrix 1062490814 695388628 2012720170 151630697 326004380 1826755396 943859052 1109770217 1762945904
  ; MkMatrix 2135563997 709300399 659452132 873671779 556245077 1787214100 33927197 539674713 1763223298
  ; MkMatrix 80787050 802729382 1184356895 2115722390 196314828 1848195738 322740022 70028100 171804993
  ; MkMatrix 236697177 109863136 412056265 63614693 597772784 1852380224 193219916 1713974640 2145365307
  ; MkMatrix 1398791973 1019171607 1650290676 310006283 358382039 1925458787 1727999377 1530567601 2077541208
  ; MkMatrix 416015238 1815539106 575510147 1794310113 2143451005 1455185408 925188713 718874787 495980459
  ; MkMatrix 932153929 1525500991 1560165771 146442693 1552419555 18131110 480078059 2018524837 523813315
  ; MkMatrix 936688562 1799520590 1107357327 846356525 1042453794 1686427958 302359177 418408266 1540255995
  ; MkMatrix 171557034 410683462 1907207375 219381586 376204941 1853877053 506731130 1115767514 1488924864
  ; MkMatrix 78001352 633322192 1037081321 2031692799 1147245299 1894511907 1125621430 563983475 412980171
  ; MkMatrix 1355960228 2102076481 1207482718 844346939 339310211 339000213 337213367 1477941537 1647391773
  ; MkMatrix 299509334 728979327 73453302 1827113258 409158556 2127389613 724731308 284967112 1597910255
  ; MkMatrix 1748228553 449350868 1647701692 1621495881 302778226 1233335245 1752905268 1866972496 1367324770
  ; MkMatrix 2145031417 1988395726 584368490 95473289 396557445 915512183 586061773 1286216039 1986491296
  ; MkMatrix 2048128873 135238167 463244662 481727264 1616502189 814257432 1466744749 934734243 1611467751
  ; MkMatrix 1672025356 1552431560 1269866221 819830565 1219462304 537725956 652165407 1343191949 1715712763
  ; MkMatrix 396713163 2117808252 1425759638 1151027638 1464864027 153597545 1908871409 1449290286 1601857521
  ; MkMatrix 226001914 1412172121 342032278 753566173 1841880084 688826357 1926304153 1475224090 251809829
  ; MkMatrix 30212810 617459054 860804773 1040392410 1890581446 1680626394 1775824088 1277847438 1228586478
  ; MkMatrix 652875686 1241101472 1815768248 181502961 522402409 1656840076 806377492 1187761027 858305326
  ; MkMatrix 853558208 258737431 1821966692 1021694689 1271528064 818985517 1213199214 2100313517 214295786
  ; MkMatrix 924476164 1948539335 1461324675 573349687 232478488 2054469407 1493879659 2090601271 681884049
  ; MkMatrix 1065927734 69066928 2017552858 52391754 1402121196 1199230774 953576993 1114504177 689922187
  ; MkMatrix 2080468886 525162191 1708911861 487478353 919211453 441243175 1017605838 2064051592 1485283584
  ; MkMatrix 2118800469 1971178528 1042559909 703594553 1958730154 48482358 810842719 312425419 1742007075
  ; MkMatrix 1481566343 732137456 1676176488 1979597632 1908453975 535711783 1810799911 379450022 1990394832
  ; MkMatrix 2084346891 1197829255 1868594919 1321214235 1001788473 1649423849 110180566 1926896131 1508490833
  ; MkMatrix 1469457653 758145398 2095248141 1566705031 1115450901 1639699590 447611461 1517415202 799103945
  ; MkMatrix 868081575 1130812981 1160496838 201504703 106820467 290113518 844208742 120780008 923540923
  ; MkMatrix 899218883 1728795737 1688519828 770700100 1888283309 1736191675 543981830 1654048283 1631488957
  ; MkMatrix 533833139 572633620 1492278787 809612847 1421109344 278417839 1287458361 466376603 1580000080
  ; MkMatrix 545570547 231035737 556853125 1946432295 66817305 791705322 494504627 377491305 471566260
  ; MkMatrix 1749451652 1012373070 217170871 817474552 1271746647 1688555180 1773660205 733564392 156005651
  ; MkMatrix 1221827446 1485350762 1546978682 1611539162 425465498 1701956250 2025035818 688028261 292029789
  ; MkMatrix 1354255778 601725722 171970271 1946712708 586109677 2060471482 1813037264 1741646395 1587146174
  ; MkMatrix 138488776 1007443591 1553028013 411031345 1566033713 529475790 293969663 630264510 271699311
  ; MkMatrix 408421952 599280178 321591128 1257791427 1326733186 1744822683 33025736 816735690 2114617518
  ; MkMatrix 334766756 87274498 1212215085 291530924 125057531 1688093051 1802498523 2130262635 990078344
  ; MkMatrix 294897963 1491888644 272139730 660751090 1072597790 1710796904 102857543 946873497 419069519
  ; MkMatrix 105842703 2006660239 1249426153 1307288776 848024680 144254193 447317909 2117095149 1073409019
  ; MkMatrix 1726804295 1802106356 558991994 758931625 332327964 660853941 435067297 284535524 662237260
  ; MkMatrix 487399339 2050522543 1407174245 1895572680 835492554 1772558592 2075268926 1813473650 1274518600
  ; MkMatrix 1219515172 638640061 2073658948 1343370500 177224780 1500299939 1441179787 1590576851 801638888
  ; MkMatrix 1751825004 1990375726 1990869541 945208254 376578560 1806733704 1788009474 1822643491 919769344
  ; MkMatrix 213136811 1590258726 163448994 151190755 553633534 549293201 78570556 1841677978 1841781524
  ; MkMatrix 1338055127 1461876497 2050277175 37898263 1997423171 1745176479 1332091225 108537246 456196582
  ; MkMatrix 409291015 153960984 1143162188 1818063991 1338194019 1621321864 1005196265 2003116210 1710845169
  ; MkMatrix 1914239813 1193361616 158438786 1892909212 903956322 1919242052 775194256 1192094493 1882587620
  ; MkMatrix 425368906 1839156397 891179040 557166877 1521492134 187038727 1577334762 219848075 907674396
  ; MkMatrix 206150651 1057538916 1689475159 1289838812 472196022 19018547 286954297 867282261 276021413
  ; MkMatrix 1342036273 1129207523 199329127 916884194 1531082643 2055359198 1412688690 1496184976 577921172
  ; MkMatrix 1908049327 62051406 2090741658 1086935780 813230892 145853418 1824944597 126082624 1198598703
  ; MkMatrix 1038536063 1779889323 1761043209 1504575564 1439022374 1738524248 2011553181 907906133 369635951
  ; MkMatrix 2114446120 759803948 905372158 245011845 1618358019 19747806 1542705520 1852548560 969966023
  ; MkMatrix 732329926 757937125 2066936269 1018598386 844743928 1145866745 55270173 247634549 1724439477
  ; MkMatrix 1482972484 1535724968 2052042137 426321187 1419128503 1446181328 257388484 765731947 1902741598
  ; MkMatrix 1398330699 1076966975 942750550 1781806978 490492792 480177048 1633682042 1424766628 850817931
  ; MkMatrix 1763550760 2062033935 1099851829 407801075 2136125816 1444791169 1560542561 2116469008 106871475
  ; MkMatrix 838417096 1391594188 1192657137 491578305 1869837505 668651475 421758209 1310330573 659602528
  ; MkMatrix 1085411 2053027096 910334900 971119977 799074360 1086279561 637511236 318494315 150730438
  ; MkMatrix 1018057676 155091718 838459032 1917911213 2079584278 1516758449 1273961216 1042528058 1499951093
  ; MkMatrix 1632179241 214999102 1643501908 1935241004 1353861866 1898594197 656871392 846342558 842893606
  ; MkMatrix 657395709 1158522828 61205592 1090322203 1541619216 1894801971 579140908 1746616344 1359800225
  ; MkMatrix 657647475 633022745 1064980167 279621675 736434330 2013458864 789766294 1506442025 746050533
  ; MkMatrix 2063664129 981616406 853745909 792182560 1921440959 1225701602 639498713 1964222381 1341337308
  ; MkMatrix 161035245 828825708 667015830 5962827 810379649 1309334284 638245560 1930060528 993851923
  ; MkMatrix 170050672 1773183209 1775036452 1210728658 1798932405 854672015 939030335 345197129 496997404
  ; MkMatrix 824211981 1528722463 479124871 1043819297 1592724428 1347622452 1295947201 697611959 1241186060
  ; MkMatrix 1638192236 1581777915 1877899994 1890088154 716715288 578913903 1997402675 654126306 1132016175
  ; MkMatrix 184748183 44983240 774478493 439281541 1798226246 302443923 990745667 844139834 858532210
  ; MkMatrix 1619224420 1846165262 762302013 1127059166 2111796024 1279436715 1925111898 238521637 1706190904
  ; MkMatrix 684016305 1016936260 293253039 1568656614 691614780 1314401465 370083438 1224379046 907327208
  ; MkMatrix 2008735816 1274823826 398198586 2102893573 2084227966 142269561 455778422 10635843 255144321
  ; MkMatrix 896512862 1371130006 1075683462 161347179 1056490306 1272098869 1596816499 1642570869 1447958143
  ; MkMatrix 358700755 193244922 882501382 259791622 431131737 1678312393 1690956415 1278569612 1272122561
  ; MkMatrix 983877854 1105564924 1811547721 458482734 1240709155 116962581 1877985000 1948671631 1739790090
  ; MkMatrix 1515247795 1547987137 1171584556 1140774859 1353659514 480779497 681189185 1439229556 420432440
  ; MkMatrix 389407623 216755886 1577014842 304945845 287187374 402585765 1972980736 1332389505 357721959
  ; MkMatrix 1457993497 711595233 1137138925 234616447 319581644 2026658609 1394176053 1142519199 1959809389
  ; MkMatrix 1832412452 1970859433 214819669 307013693 199714796 470521616 1768124021 1943028115 1130267691
  ; MkMatrix 1159423080 1700155673 854435725 1202436499 465251655 1294357595 2012023302 712976708 1074703266
  ; MkMatrix 1503971342 1729005776 260437798 230124223 1612951800 1417364171 945476344 328704232 638911860
  ; MkMatrix 1689707333 1293019396 763484704 1822417118 2137882100 2097486200 29364534 1167894437 1406996500
  ; MkMatrix 1384409974 624568535 351122954 1572323597 767942707 1643263597 1601341795 474983057 279576090
  ; MkMatrix 1942336268 1039971834 817394467 1169552181 106908209 1219147599 283318625 1607261574 1047605211
  ; MkMatrix 1253964126 1841612748 1433876001 2028651582 880944227 2046970398 502687997 1530588236 2063225262
  ; MkMatrix 1214647686 846997726 825471574 82841715 711375817 1066116130 1526072752 837206440 418353563
  ; MkMatrix 2013648589 1460326455 1971405043 1379074360 1332164537 1721917090 294992238 1061078712 101793529
  ; MkMatrix 1908256449 668460584 2136150745 1789902572 881722849 966938468 509232093 860052063 902827174
  ; MkMatrix 552121189 1787938648 1172837317 1724581555 1398350261 413580226 1672329332 280272830 226512947
  ; MkMatrix 1479969071 2139725635 942440704 1718049489 1683153637 655368819 605687435 969187975 807066934
  ; MkMatrix 1557268610 1832320981 539761321 1575334369 1538468572 213535144 894520750 188510283 1794612520
  ; MkMatrix 2079844769 554450196 1609608275 1959189682 541579934 792872168 43612828 655435004 741674412
  ; MkMatrix 1121795453 1849720166 583260021 959752358 1571202418 705472481 443718835 267579854 833304375
  ; MkMatrix 1485547472 1805916081 1459194222 446363093 2090540124 426981007 2061370146 369128636 1531848372
  ; MkMatrix 1944776229 994631589 788946773 299719373 1007607257 1280327550 1414573954 1307857042 764605657
  ; MkMatrix 1427140809 1426854223 1144428634 257784898 402902332 1893722581 588999913 1447499299 1936387042
  ; MkMatrix 764494856 1984477791 1017864413 267572526 833534348 1287407862 782020026 638110611 1791311640
  ; MkMatrix 1664456003 866916741 414783290 1547034914 1442051899 606479687 954134676 783591048 2026788491
  ; MkMatrix 1516657960 693142882 582422663 1604504620 1452789002 162312596 96116525 2107734748 1574075299
  ; MkMatrix 141618298 279199877 51456606 1400615672 170278318 14885108 905240277 761659028 762691117
  ; MkMatrix 1038327399 371996024 1143116903 757628447 1962344271 2048690899 318700906 1290328224 1940226122
  ; MkMatrix 905773289 1202637985 1697430101 1041859240 2103783480 1851984975 512364448 1721525142 1715998045
  ; MkMatrix 1989132506 1446747261 1171070210 393388575 1596299869 1394795978 468143253 1625402807 1779028163
  ; MkMatrix 790891442 1243478696 1347652009 939158092 1971277425 1181415056 504660010 1836268912 469589847
  ; MkMatrix 478207456 1242668667 354946953 1957562925 1317227760 645799328 987910647 215929828 2100645779
  ; MkMatrix 1783701298 1786946163 1928418690 1622375577 1403131170 947902344 2026149599 805849035 584213096
  ; MkMatrix 2090722057 807742894 2033434971 1017507251 1968961982 1901351274 723716931 1945322331 321731525
  ; MkMatrix 1156255403 697066471 957657724 986046062 1604025970 614499627 1494202131 1644191322 1243307372
  ; MkMatrix 24415550 1912515670 1620318675 1947389834 1293133985 830228404 1759235463 1653779969 1680678637
  ; MkMatrix 873916901 367105889 661706073 1483261173 1215768936 168609156 173196139 1315268342 970173381
  ; MkMatrix 799313445 982562897 1107613956 2013836073 776449124 1239674103 995850567 269424004 1111647452
  ; MkMatrix 566204686 1447551346 1237270386 756092603 1052436672 1893624800 574501706 1199262100 632694937
  ; MkMatrix 887136480 898139704 38629669 1519532409 331980814 587641936 1550941909 1943070382 2014138192
  ; MkMatrix 1170627715 1840914862 743413046 301653047 427860334 894324250 1504141382 2137435575 1290370618
  ; MkMatrix 1463320829 2009463259 1697123918 1175228484 103225561 316184963 1908581728 1366218338 1557784425
  ; MkMatrix 672241311 779415481 2030824335 2048250718 702053575 1725247028 138497687 603912157 168561773
  ; MkMatrix 1812147094 584285553 1595476825 2009589887 1978581843 1453272623 1408953954 872210909 492192019
  ; MkMatrix 451449159 2046327920 584844818 1371323150 1943205526 1780946532 1250003720 933821848 327877691
  ; MkMatrix 1667883701 1132066908 1794068152 2019057017 2118364838 655681795 1027708612 800365544 120249980
  ; MkMatrix 134397566 1321796762 1884440796 1613555205 1018071272 1919002708 2071783307 1640050324 873550388
  ; MkMatrix 2098873413 560425954 437918978 1376032210 963457437 1221684630 1084071181 1103981479 469689737
  ; MkMatrix 862309383 1725273372 852043221 1808081428 596923494 1745587635 1851700284 1589483058 1973339706
  ; MkMatrix 1070983352 1066048083 1772158549 1971909992 1369969081 1979694098 864517250 595587131 195145944
  ; MkMatrix 1916371590 385962573 994066771 1291943977 835352104 788974340 717925752 181676505 1308636239
  ; MkMatrix 1622322282 676367482 248750426 1877105722 757724400 323303048 994587818 1314251621 405110515
  ; MkMatrix 628637869 1359462453 1054824880 627240855 2035435458 2105806840 317792486 1160258579 1521970773
  ; MkMatrix 158720130 692411897 1689856749 1578616607 1392567356 1710601675 554275251 418252628 2105172395
  ; MkMatrix 101055087 2089239259 728172972 789309869 186978161 658005608 1356864468 1173400764 205784623
  ; MkMatrix 1259610744 1351152006 332828347 366828892 223779042 1339784975 1474516341 2105606002 1849048953
  ; MkMatrix 396193657 1807696619 561265769 1533694003 1150980119 1346906292 1378338755 514404527 1722557811
  ; MkMatrix 1306285891 1019257088 989688090 790037912 330762267 1743173032 1668067717 2031575311 800826914
  ; MkMatrix 2022402336 1354132757 1559971733 85386999 1055434838 216795210 410351586 586009038 635583310
  ; MkMatrix 1419768867 435785735 579421408 450529151 1127492244 690485908 1196744799 2071777936 2120356884
  ; MkMatrix 677942381 1924491943 655384088 1805035377 2016393591 1794586292 1315769074 700271107 375434333
  ; MkMatrix 535020863 1636247256 1588887059 284050765 922902605 1771112501 1076371866 551565706 1374099702
  ; MkMatrix 1407616408 344623617 1697625483 449354057 2086433182 710951333 697173240 205343423 189201884
  ; MkMatrix 1462371999 1703222327 1207326708 248655720 1586526919 1084017945 1364791339 1811088216 523149314
  ; MkMatrix 1827760757 1279126920 827596300 2058016199 1801688977 317288108 1575538921 1613951759 1129431679
  ; MkMatrix 982619232 601624326 1378535521 695121907 681801971 1546197783 1159488844 718797541 537597014
  ; MkMatrix 1414595979 510639857 531712470 1524698519 1871705712 2055640729 778605856 822689740 1583764303
  ; MkMatrix 64063490 2064213911 66811450 30070950 287786723 968049866 372239091 1080903274 1412709130
  ; MkMatrix 125223970 1657114878 1635862367 304507517 723300102 539544665 1983892646 254390185 1171134449
  ; MkMatrix 1704424368 113535336 2016220467 1125208064 603828228 375980266 381388821 1099096159 111770390
  ; MkMatrix 1119913715 1163455458 744347299 263922829 832135240 234614746 1306477232 1095145986 1093079239
  ; MkMatrix 229933607 134375554 739598441 1701798316 360896614 805518068 1316660576 811470385 613752891
  ; MkMatrix 884007041 1328596665 357672085 489932172 1763818813 1126568383 285495698 175260313 950858427
  ; MkMatrix 1937763234 1833986293 42663906 1036060660 800887878 511524067 615249759 713349062 765964071
  ; MkMatrix 493923492 155671779 515202321 508065838 167612663 1271288745 607122172 1584063266 257435614
  ; MkMatrix 1453850820 810776756 1198911285 1937619653 1674840926 301928969 2059603787 1968377604 1415405494
  ; MkMatrix 603550263 1826190330 853437143 1343273899 1092607449 1937070285 712333455 557086278 682878887
  ; MkMatrix 874285960 561817353 1545132470 1735573306 392999075 255817267 59732056 1285170357 1768550550
  ; MkMatrix 1817466758 762739157 757549889 13947675 1613102658 2059361074 1540012066 119188546 68148114
  ; MkMatrix 49441206 1783893261 1641237503 562523782 1922219888 263350286 45826350 1620226383 1677263201
  ; MkMatrix 2066876865 1937439456 467425335 219110253 1879416819 1750903465 391480034 1585330794 680305947
  ; MkMatrix 1138462770 330892636 954607752 233301757 688767833 1006172490 1676189204 76132265 1198992452
  ; MkMatrix 2025665991 1183210953 792794777 1094332631 658846763 1655343862 428172790 2018213978 1885207153
  ; MkMatrix 447836956 1522015072 1284168586 1036521322 1982074594 935775408 1815640652 1689537282 1605484910
  ; MkMatrix 955762518 1946791041 789709610 690502262 2002908196 1397525795 1911188317 1846947451 390108947
  ; MkMatrix 540438691 917726590 1635603487 1254819961 1195619626 1909689054 322967224 1571278162 860420634
  ; MkMatrix 1875936266 364129035 1642238430 1798313845 1639714489 351796436 1089612948 128459125 2131624707
  ; MkMatrix 1156178060 286247000 1642538317 285409002 1315947704 2029068326 1576609497 1558956778 555564467
  ; MkMatrix 2129155606 923456181 43356433 508705578 1324319964 822496813 1151346919 2145843621 680648879
  ; MkMatrix 1708174815 1614356757 526948438 1360638710 1377494285 479624660 359079807 1986580054 37946172
  ; MkMatrix 469966405 367657238 665578393 1219104812 299246280 740039908 1265557884 1205656282 92014946 ].

Definition mrg_skip_matrices_17 : list mrg_transition_matrix :=
  [ MkMatrix 0 0 0 0 1 0 0 0 1
  ; MkMatrix 455019054 1550225934 132415801 1617396107 1976346353 746724171 1052178347 2000752962 1490831181
  ; MkMatrix 1082808950 713628854 1281218388 235656116 464816746 1408387545 1325153659 1811961800 1978113763
  ; MkMatrix 1396268210 1406025640 1794948036 1961802270 1196856078 1991073590 24330456 1523789881 770903802
  ; MkMatrix 690608210 1366648766 739659085 1902422778 1283772595 51194069 1688108802 1526333062 964304388
  ; MkMatrix 143554826 1865044570 1858738681 1354692319 1047214589 311561828 461201853 441652394 248391157
  ; MkMatrix 1842439355 75490519 1398351733 2133264321 1803112379 1041249480 1033914415 1234523364 1800525931
  ; MkMatrix 1598076393 1013673947 611129001 1617921713 1703235924 1850211580 2111038595 342187293 831851095
  ; MkMatrix 1344467875 568830291 700025871 1740909111 1236425344 1708879270 1175659950 255686305 1683806049
  ; MkMatrix 1178440401 344159862 498881820 988717601 1167576492 39079904 914700583 990694944 1250329991
  ; MkMatrix 1744531456 2052535526 16156272 112810127 471327566 1012452787 413417073 1363978522 208683448
  ; MkMatrix 870687656 1722705725 1420898305 2017226429 737270655 988468316 645437665 180710511 1855137982
  ; MkMatrix 966483491 2062934711 1704269053 79770930 1334977196 758297848 150374618 1959875096 219524183
  ; MkMatrix 2104059284 1729244554 1300994771 1457265318 2050803807 1422320534 158937490 327895373 1184421150
  ; MkMatrix 897318534 1313551760 1092141947 2040649989 1127066701 355245179 860431952 880505347 1570509106
  ; MkMatrix 46115545 1013871755 1113573323 1244408497 737780464 1534602226 1220707638 602412459 419561921
  ; MkMatrix 646648513 33299793 1492269104 1838463661 1194902393 1202837184 1500772819 1205818992 2061355934
  ; MkMatrix 1803832403 1353531983 2047876518 1533488645 2097674012 1044313189 501250896 928554102 1987428441
  ; MkMatrix 2026473095 2120007090 1361173108 1427448184 85248009 873870595 518447488 2104985022 1710735263
  ; MkMatrix 1607062800 1214092048 945222454 972592529 155577077 651620068 1576148889 1387308059 1710128721
  ; MkMatrix 132931117 942880140 1438053719 350723947 1683693642 574231702 1451820988 701580060 1438140621
  ; MkMatrix 1643531356 860338899 378788589 438206729 1097086871 2003089842 2039939156 1442214942 807060006
  ; MkMatrix 648334242 956713716 733261650 1493248999 1820227431 944545096 2120657784 1180515504 1836543734
  ; MkMatrix 745021447 1047892810 1578617517 1472318866 460158763 1538754580 1040053414 464055077 2123100586
  ; MkMatrix 605888800 1033515578 1460597707 1970313397 667708529 821454498 958340268 346404115 9596177
  ; MkMatrix 483882242 1834695558 822681119 1886527752 1773421849 1880085138 2097386603 1474564988 2116317562
  ; MkMatrix 1194446144 551690294 1560025700 2125754307 145231743 563130873 611310618 1697047226 195510308
  ; MkMatrix 861905665 2019903392 161982712 671909913 194760360 107623674 1627552979 2142375835 1055541553
  ; MkMatrix 733870656 1841414684 88913700 923246892 1478356352 1155063225 221512483 1167840070 2143354151
  ; MkMatrix 516706376 472722695 10530779 1794277853 287218646 2009862381 1561936775 710729070 1112205295
  ; MkMatrix 166714962 850425392 778159155 409379473 137057811 1006823520 425770923 582482197 1758550142
  ; MkMatrix 1678269028 977145221 1635965833 1260509466 770256933 1248744520 1198905251 2022008634 1565792464
  ; MkMatrix 845990576 270987682 42915810 1216492589 1984441636 1692877898 1383143828 1591385708 138966450
  ; MkMatrix 485873409 1929244822 509648955 1367693233 2064835539 578073123 629445909 2113754806 1969266451
  ; MkMatrix 1772327659 361667446 1556520471 1994068909 1675974447 1781462230 2006750514 647461135 912492138
  ; MkMatrix 1984621422 1786932034 272489576 1603157324 23979877 1307062901 2069875390 1952442761 1595482740
  ; MkMatrix 962502760 655500371 563007920 396188213 232123468 318624405 988360290 1124003935 1449334826
  ; MkMatrix 1737131451 682766741 1341308899 1743836139 1030783200 1255886739 794374358 1251056749 1559280979
  ; MkMatrix 1089499105 2032157061 139918424 984439543 1462176078 40219639 18467368 1836969423 1141359327
  ; MkMatrix 818802518 102501801 2104717305 1409163981 119606608 1748656202 1707435999 704187199 1913250553
  ; MkMatrix 177365790 1845081806 1570857513 1759652630 1006579141 709261956 893119099 1339686763 859811321
  ; MkMatrix 1964806367 2125742743 1353222502 2003621744 1019981742 42196144 1767950581 1492213223 819829661
  ; MkMatrix 781826106 1604458390 134841192 1861222482 669856812 1975064347 195187947 397042330 1604633820
  ; MkMatrix 1461174872 96383350 213651492 886370250 793623344 873462333 1303804046 1074283928 1276617428
  ; MkMatrix 1445495600 368681784 645024505 2074001294 166032313 2010241971 1122555821 1788480939 1580173449
  ; MkMatrix 589216705 1390296076 2030663648 220307377 1075317131 1720941141 1535708431 863925432 2061433418
  ; MkMatrix 283147884 392989471 1651711808 1721617197 1537061622 723384441 1505901436 765054965 1806163296
  ; MkMatrix 126437613 1194727961 1214016442 921089 1643487743 398855520 1074417010 698616959 1291597625
  ; MkMatrix 1331773919 446623959 425468067 1374691945 542732605 2020612552 1006743862 1237079958 2042489902
  ; MkMatrix 1870605352 40728126 1050498832 1302850231 560808009 674506441 921795760 980221715 1828343144
  ; MkMatrix 309583315 484228290 255663038 944081024 1336090052 1986486865 97263547 1661658059 647135549
  ; MkMatrix 1504027387 1722223816 1344396267 379745345 304573756 1947433507 1414413816 1602687427 495252433
  ; MkMatrix 513860254 1445078800 1891885344 1374383715 22461234 620982617 1352418881 1008411289 635884924
  ; MkMatrix 162036363 1519745494 59707100 1887944797 572871529 1785155314 938141293 807976068 1149073364
  ; MkMatrix 1854768505 1703687840 50927162 587003598 1785513626 1591389775 1104553476 1918396799 1006700564
  ; MkMatrix 1375436327 1027454009 1151881733 1313663428 1495101553 1297670571 1878813039 548704682 1517803279
  ; MkMatrix 241985100 2027144224 1901142041 903368388 173092981 1942449439 1113910555 2124112429 396021272
  ; MkMatrix 1926676787 373665149 1511979394 255391382 1429220972 450947550 280405928 1016242766 1717781098
  ; MkMatrix 2004292277 1589976465 2027192470 1031908472 1847211815 566351621 1936343585 891059129 354225114
  ; MkMatrix 1067920304 427745124 1627177880 527865749 1095656609 483469747 62099098 291382700 993672664
  ; MkMatrix 458854315 33992238 1020932692 1950211654 1376545688 1484005963 823653152 802939592 236523372
  ; MkMatrix 1630439267 96883147 1694400781 419700071 1483065302 277848680 1597153743 182818808 130588531
  ; MkMatrix 1406937700 572188395 1129254942 2115223808 1994156880 79760200 1101338872 870761744 2118886999
  ; MkMatrix 791352707 92096718 356706501 1196418124 992978901 566742547 909965886 1522175158 245469231
  ; MkMatrix 81880653 499254819 1410225263 20844280 1099698171 1866460961 864338109 684693583 1182177964
  ; MkMatrix 1125891749 1534186165 460449506 43096372 448442090 2106491694 1226415966 258095878 143360168
  ; MkMatrix 881685480 1468395237 2090603072 486183956 2123362325 1159805319 1577297028 793123455 1308898204
  ; MkMatrix 1290302516 970102874 1755047236 2116266120 1842968226 89000264 5910226 610958988 340642392
  ; MkMatrix 1040915829 2130146201 1099342462 1539052872 1660905819 584709655 357823171 447447121 1611673509
  ; MkMatrix 435379506 788987806 109735859 98602886 760550315 1280850073 1057302704 158043669 1671602672
  ; MkMatrix 953476682 1250439407 849079070 1270558835 1881760111 1131470933 1848928614 2126672373 385805504
  ; MkMatrix 934361875 1453406880 95235266 561690873 691618659 589509312 1177397195 1760214590 1149285376
  ; MkMatrix 2017210424 1945999386 927208557 1464296555 1565340234 1669472467 1094512470 7475367 166859485
  ; MkMatrix 968528997 596257840 103174453 1500520340 236281082 2082633791 555368632 447147860 79779331
  ; MkMatrix 1271844547 1806661056 1120091294 1020165374 1800815282 2113134741 487868317 527288916 1186767432
  ; MkMatrix 1678257484 807670991 436524463 113573980 451064551 649777601 316476485 539678122 476925573
  ; MkMatrix 262644175 294912828 1167381289 686180404 510024298 1813600102 747369618 209852673 1832440233
  ; MkMatrix 1666613310 1780966513 908017565 527425294 1034168918 123910031 2045765060 1958891170 1422298832
  ; MkMatrix 765029539 499443402 548444132 1663153546 1789789496 124308881 612310206 2093090068 1916201431
  ; MkMatrix 1529639084 1890054744 403278512 458197755 1761271763 1784177794 1282054837 1834839662 1333826246
  ; MkMatrix 1191859918 621985017 1480665512 1050151020 1320625124 2137569328 1591509706 1137367717 600423876
  ; MkMatrix 1505072291 2026893458 2075384689 1954150016 19669540 533750515 1351701097 1158932085 150914222
  ; MkMatrix 693259703 1263873427 1247698486 691868552 1731101020 1343355078 562775844 924393736 978066483
  ; MkMatrix 1816757012 948184676 1851303609 482011106 1210525086 1600809910 217278317 83841148 2040174143
  ; MkMatrix 1645047632 2046753956 122634913 269841355 407475943 611993826 552682168 935396055 1690700059
  ; MkMatrix 725354916 630528082 1441968408 695745993 1917319421 2094640779 601469953 1881095880 1258935863
  ; MkMatrix 2088216714 573810266 270687423 1120362802 1913596916 1346172969 765894525 1389170630 353645372
  ; MkMatrix 912332880 1512376067 1213073635 2001023973 292946116 1193059559 688128607 364314590 1239177833
  ; MkMatrix 820281085 522347982 1929295712 1984947603 1111727443 772120514 1014808438 1415016285 1153342655
  ; MkMatrix 1102415492 1711016402 1905130465 967903662 1998776202 466177521 1849342515 1931246517 1000717374
  ; MkMatrix 1425535659 751413869 1530117135 393205393 1088223971 145102206 2123576457 1475314733 1967728185
  ; MkMatrix 2144191257 595382973 375145827 295096860 1206728066 1670277133 1186413201 2134710069 1425947183
  ; MkMatrix 1656416688 453418931 1333822203 1469230017 2023978926 732666549 2043756552 2042405412 450143573
  ; MkMatrix 815409934 2131042943 1606261854 1475473347 686675466 1201404372 326776865 1897972356 1740372059
  ; MkMatrix 4999581 482807215 187487100 474862493 1891007852 588431544 411032789 1297368658 1222180457
  ; MkMatrix 854375266 1524449813 625918261 954317526 1728996114 1869663564 401032743 1136078613 579749323
  ; MkMatrix 1122446409 2054491729 936921850 1338650206 671389925 480519480 768740032 210597736 168183988
  ; MkMatrix 760077205 202097296 1523747143 419426682 1183504607 472941186 2002462822 2080796706 1099470854
  ; MkMatrix 789887366 2012294615 1931853364 1543360078 575488264 232595484 132458027 101135398 325342510
  ; MkMatrix 1284679545 1031326895 816644861 130141487 1083338748 1118559966 1069393967 507472875 368852330
  ; MkMatrix 1227689013 513022572 1982708923 1531707017 292645402 1479195788 176500209 288815938 2124295106
  ; MkMatrix 1164655994 734138350 817976809 2026880190 203430739 1829747305 714436164 58840615 1793449259
  ; MkMatrix 1139411138 1556376142 674236251 155587362 722356695 942833879 236870211 1253798794 1786765670
  ; MkMatrix 1876217809 1904631906 416183386 222096417 166052722 66839667 1144408779 1861662809 480838380
  ; MkMatrix 919846125 288778934 469736415 669960992 1463848020 503703702 508188484 921591752 282297448
  ; MkMatrix 1775459149 231076394 227598253 1685223038 32672934 576033333 1421850957 865452656 1447751422
  ; MkMatrix 166083160 646683605 1503646502 226004307 1171144459 588554499 1190278245 346277833 298327941
  ; MkMatrix 1700770044 1150530321 171345205 552422098 400042385 984757535 1437292803 371492164 699516857
  ; MkMatrix 2133824528 1219292745 1179131236 1458123482 634623717 1331447619 605750387 1997730123 257540721
  ; MkMatrix 929387190 1358507774 743745052 1480089788 1292267649 2106964081 113681806 2084546250 1636418285
  ; MkMatrix 1079968138 774203378 1808237101 1379093465 801480502 181466165 134111208 43664354 141952884
  ; MkMatrix 1948338563 933225331 452008393 514200289 1568530464 573429381 358682292 1677151675 444656466
  ; MkMatrix 1452741606 1554738967 2058372446 1738300480 331949773 1690524499 1359314689 81424333 1699315627
  ; MkMatrix 1188439451 2119882686 347220175 681295900 1380744218 737561237 1914434842 225992070 227905170
  ; MkMatrix 1812311073 587117151 1307926284 496661376 752316256 1348672646 1480135952 1267103981 416204045
  ; MkMatrix 1548127543 1147121081 691475661 1045331519 1153406860 927398988 1225879474 2119512256 2129564488
  ; MkMatrix 1832440634 473371977 21668977 1610226426 830148651 1335256308 413322728 177073283 1090295549
  ; MkMatrix 1831190577 337963444 1376151405 1252599157 2033599897 1522407842 1058057025 1419150110 463155535
  ; MkMatrix 1700477244 319748854 1948230388 1555208008 1533629383 154078548 605812708 54683372 655496744
  ; MkMatrix 1047591322 1897213648 1109130620 531520655 785676904 1745305050 1572015676 1699302086 835166268
  ; MkMatrix 610832282 1526829436 1121876232 243275984 373883716 1527786502 801899321 69985404 778885554
  ; MkMatrix 1595201545 796148177 1961202947 696601310 1996491873 774698548 401568267 1307671693 787187504
  ; MkMatrix 111638491 1891858793 593080923 1424076927 293303774 886417680 282834735 788213858 1950164206
  ; MkMatrix 1354675604 711341975 708263905 1067188837 105559620 666702243 797040667 1539843880 1714097909
  ; MkMatrix 159571586 2073823440 629129170 1717233859 691087873 514734832 1737462167 1860741377 1865189491
  ; MkMatrix 1197639407 930741056 1340727751 854221253 1092443755 1263186540 898612462 754455256 398887686
  ; MkMatrix 2100710244 1877904796 463992368 520793128 98912985 1572152940 2061222486 443610352 1232139550
  ; MkMatrix 274203357 1720901803 342197995 161220553 1885925704 1302808081 2141072996 1129831922 1705232896
  ; MkMatrix 1478452635 495549876 1836602187 330268632 122357989 1588704189 99439715 1906077467 206850152
  ; MkMatrix 541095524 51594486 1719338381 400788586 1753550412 291707782 1831989022 2121824440 1010911858
  ; MkMatrix 148200136 1435245873 914298010 541536161 1111674880 953879096 150943597 166583355 516499794
  ; MkMatrix 713735343 557043401 363698625 814584918 554850779 629358578 2076158405 624800388 1195164102
  ; MkMatrix 1378989887 901985411 635377771 387313430 901272477 1170958227 977161668 904300305 1121638282
  ; MkMatrix 1677226629 1907894925 1309491142 2093964069 2078842925 139749599 1153204600 1690342459 1379848882
  ; MkMatrix 1693553067 927649606 1637215561 786967198 811694213 1086525309 75815697 438309157 336163461
  ; MkMatrix 1474140775 875431688 1213183560 137564676 1795049360 1970095152 1812140445 40186432 921990650
  ; MkMatrix 168498856 1494280123 110590120 1444635801 1989997273 1005808794 1261795595 466136431 860481881
  ; MkMatrix 2127395594 1022425557 267547083 669128888 1466217583 1781075652 932660793 1738561981 965095072
  ; MkMatrix 960563546 1201875630 298775168 941811940 1790140999 1509923483 92424496 479966637 1300030129
  ; MkMatrix 2103400601 580614767 1306864966 1253206914 636351683 2099282386 1216361225 1364351397 1984189794
  ; MkMatrix 1336741240 1237624979 90871617 1430792502 828632619 769765545 358324588 16888708 1681715030
  ; MkMatrix 1470816993 1586050848 24069577 924832922 715167851 319645624 341690338 590492939 401121140
  ; MkMatrix 1526053920 2080062954 1442814557 1919001453 718288194 1545944082 1116482493 776613304 875970267
  ; MkMatrix 2029864062 486953310 1112545692 1446288170 1862235788 2138732900 363989177 996769411 546998853
  ; MkMatrix 1125522384 1626289394 989273223 1212183979 1278298763 1661853289 1373992213 2127151075 2144408622
  ; MkMatrix 135605959 466457951 1961885214 943253591 1171237933 311621683 27456525 1470514719 549183599
  ; MkMatrix 238569845 648109808 1471460680 452097022 938266087 1101481274 441697140 297503023 1156262576
  ; MkMatrix 1650346294 943541288 2000135813 1108708441 891864793 1869158638 1131181925 1249665679 347107623
  ; MkMatrix 1216392419 1480293304 930042839 1036120115 56776113 947181775 61658306 1658784802 1838433444
  ; MkMatrix 1518281379 1290466821 246587912 1034689893 1699116179 651694156 1736481875 2037533972 126985830
  ; MkMatrix 434030463 37605211 1859562721 1477058467 407820228 207817096 1357330008 1860986423 78597527
  ; MkMatrix 2063098309 1622990425 16075399 941410856 1414412370 1867273658 1295264901 595442323 1528130104
  ; MkMatrix 1820346898 1861083307 556707219 873349886 1274001768 1009213528 1062475943 823605853 234120443
  ; MkMatrix 1907321536 1344515488 383250684 738082123 596724361 247456221 404015189 1563044448 908652263
  ; MkMatrix 132333785 758250454 2040214114 1060510255 1949918511 1248804541 1710506707 1213452184 1954706976
  ; MkMatrix 736957332 632801945 52274138 75566328 117535002 1663357067 221718441 105339056 1798653250
  ; MkMatrix 1235405022 581164043 1523742143 104122870 659920833 363520650 322768092 1279644226 856290448
  ; MkMatrix 550810506 1407915444 884775631 892459133 1129443824 1859376861 341367912 2061470552 1696419319
  ; MkMatrix 895150316 1333164521 142480115 330572160 1136504564 590365181 43226484 744939620 875775697
  ; MkMatrix 537215950 1029417973 1780216713 2106304622 1997729153 1915134214 465674644 225331579 1811488918
  ; MkMatrix 97811947 1268414865 397260784 1559076028 1765488733 1985799960 1849714445 1448546884 1687994053
  ; MkMatrix 487408230 246543501 2113065871 1560845768 1842664969 1149692444 2140170245 1348657094 726389892
  ; MkMatrix 1754518217 1797288875 758951964 368439755 1639593043 861084952 1746062419 1797427373 258874186
  ; MkMatrix 1805123059 1924867342 1674774440 1857729698 2084378634 1185700089 78663403 4836407 686821521
  ; MkMatrix 696110563 1453648999 1299290326 1979553720 1309134697 1532132849 1729411470 300517882 1418701803
  ; MkMatrix 635183300 1797907543 1254754509 1171311760 203885877 1575593388 1562290282 839258526 554390487
  ; MkMatrix 1449833143 510798627 1549188418 46168978 478309757 325479574 791025473 1165174433 1466363076
  ; MkMatrix 1251363620 746444116 29018775 1853971792 2040512109 308466849 887423019 1435999553 786292989
  ; MkMatrix 25011648 1824584871 830292627 1028263794 910636691 527340606 1289968509 1543142457 48414284
  ; MkMatrix 669951086 1646488566 464806405 1968772052 1940829468 2056250780 1892602279 1198987072 662190534
  ; MkMatrix 973774752 1072402006 606820925 805929175 1609048493 2020071031 1080912070 1501351774 439330278
  ; MkMatrix 1803475324 1531521329 134018229 321215915 646323775 1329801695 1279200371 1054611791 1458325654
  ; MkMatrix 198026815 5259024 2007218638 1895796324 687040846 1546562374 821676713 856590198 172485912
  ; MkMatrix 808167690 715064347 2095086494 791827315 1696886265 1505947479 1460630694 1783845125 1609411383
  ; MkMatrix 962899958 1671961540 371173022 1773574411 1312064111 1120198190 1052845479 1297704311 2038983608
  ; MkMatrix 985267819 964527032 2111625143 1321411270 363563541 512309113 1180697677 586044536 1876434871
  ; MkMatrix 1042746176 394789794 2019032508 1939343349 587466193 1747815550 333555242 2037347379 1914504075
  ; MkMatrix 591399592 161561473 1343200634 1556466177 614240970 1243061804 1337625732 229303712 1822474859
  ; MkMatrix 381605808 1784911299 1260743297 203478944 653455785 362859078 918994255 1492443690 1204842317
  ; MkMatrix 1399834854 1627255836 658462493 819277093 830633857 493068543 808011050 1610215049 1233426231
  ; MkMatrix 1568531169 411897839 904625069 1561032348 925896023 829279571 1795493225 1469480631 1592693808
  ; MkMatrix 1944347271 1889379996 873964594 1135749687 477037862 242490810 1862834634 1986996118 1714324503
  ; MkMatrix 334000181 853771883 1787226818 159970699 1231176182 844246002 1706489082 1924931532 1845940334
  ; MkMatrix 869048805 1154054050 1609699721 1807235094 1092053976 1386757880 1124334463 1735840579 377135591
  ; MkMatrix 1043812189 1945872313 146758514 417660095 1314839594 399422041 114334982 592391216 678005939
  ; MkMatrix 938206637 1795274716 2100345445 1453958225 1348110638 1144779846 196433946 2029451438 423054270
  ; MkMatrix 1734875971 1888800351 867404862 767645962 1414913763 315226120 757075720 502669460 1238979452
  ; MkMatrix 2071813165 730938669 208653793 288814710 1141960803 542674973 1414581923 115833584 1530915778
  ; MkMatrix 1198231836 607370941 379501726 1012274310 633329469 1905976716 1430396793 1907499803 287827085
  ; MkMatrix 1242687709 897472054 1937022714 887147459 2098097719 1428898997 1114785518 282224163 173958162
  ; MkMatrix 1620056983 486056991 1790488433 1697590218 1943609752 241159594 1061837481 1433321282 1656695668
  ; MkMatrix 174586388 1655348984 1184370198 717634027 1181694676 305753560 1077356452 1629049457 289404819
  ; MkMatrix 1009015472 1312430815 1868281143 1425896281 1027359044 100281941 1940556646 1390946549 1506895393
  ; MkMatrix 1709143011 682104333 1007552461 1878428229 1970184381 1265020285 1101666273 741225757 1388632819
  ; MkMatrix 1525107794 608021222 1240427623 1647055363 1883821058 1577472047 1439931683 1465201821 1478374603
  ; MkMatrix 596703976 540452550 1111289739 407124249 216277398 2049593076 2111919080 1815436218 1513610004
  ; MkMatrix 841414369 550154699 1499140204 2020636195 955663676 1222027311 105063004 265877226 1506851741
  ; MkMatrix 236723991 1625312913 1126984735 931259831 1020652857 576091875 388481667 1546910524 908730903
  ; MkMatrix 1001919838 60275013 612504944 328881702 1747713617 1642338352 1326176709 831087495 919962082
  ; MkMatrix 17515213 422838074 69265712 1142616168 1241921074 1812572120 1582349117 266671430 74844250
  ; MkMatrix 1429539879 988017477 355796574 2110095018 716246163 380304337 2048051156 963780384 808419758
  ; MkMatrix 2122589891 449701947 754427624 892851404 540770152 887911491 1624774608 1183173750 1200401163
  ; MkMatrix 399127208 1092988461 579985049 2113457630 725368176 1812287397 1771045560 1493591684 632107816
  ; MkMatrix 1680546656 1726148208 1382565887 850090082 708256489 708460149 2100972476 1832736633 1462663038
  ; MkMatrix 5922570 1505574308 2107815 266490098 1750513681 429759585 388562872 1418983281 1361243715
  ; MkMatrix 1797891968 346333621 1159992796 2015277404 473907355 576064891 2139486090 192715449 1372824589
  ; MkMatrix 906922679 1281834 464731868 1513975692 1876731540 1723968361 2116200771 1954421428 2051677499
  ; MkMatrix 239846480 1269880014 1333282880 1862523938 126307625 1185933746 1562451163 1637788578 1485816905
  ; MkMatrix 252463858 2112937600 1701686170 526934851 806771531 1809826885 1605117672 1253633854 1871238235
  ; MkMatrix 1014419097 1816908969 1991389619 1068281593 142999685 1139739738 1377732346 1230320366 356632651
  ; MkMatrix 1879180594 1373620707 249074870 1194680652 1163352411 71662405 760863940 928378273 86800739
  ; MkMatrix 1606650274 683278714 545004564 640792429 994108840 1624189671 1157654185 772484376 294242579
  ; MkMatrix 1222397828 1556293343 585694207 500145579 40667624 1987447562 104835925 1000323917 1515915353
  ; MkMatrix 982917335 1445324331 1002861103 1955520248 1739277283 564432352 2093799968 2081683718 795939617
  ; MkMatrix 1628789111 251356061 2129104914 1074239070 972553208 862395878 1612517992 1798347961 450505604
  ; MkMatrix 1100562795 1166394798 1535107641 1148587265 1129586607 244326908 161103035 555330291 2116337011
  ; MkMatrix 2037210034 712769297 816044005 1844321030 1491324786 1502984338 75251122 2032731502 994617125
  ; MkMatrix 441803471 1203603604 1852182679 821245384 256093899 82604748 534780829 1600439735 1306552727
  ; MkMatrix 327968970 677629272 387979721 664059401 1145537290 1636581956 1533162954 1630690920 574795468
  ; MkMatrix 2146641032 667972048 1481285509 271723866 1564576298 1205137875 522616341 196182329 314796477
  ; MkMatrix 529784385 497341898 28267636 1258447301 565100001 848788275 1341804475 251944823 799041860
  ; MkMatrix 901304267 814951740 676712376 823479715 523378227 1251114523 560944840 627149021 411250252
  ; MkMatrix 318025619 854371230 1566014656 562373992 876940091 635688081 1450898010 1128301512 1770524750
  ; MkMatrix 877054362 340422831 26759663 305412431 1086994971 248202169 906256545 525093552 44218769
  ; MkMatrix 364773408 1228275134 987631528 1578808327 2046977139 1959597900 301772263 1795310582 1633366800
  ; MkMatrix 1844353860 1407063574 454573134 389743269 1017584817 761539723 510156778 2143923679 159837347
  ; MkMatrix 151005266 40030963 287262370 1262028671 727072134 631424214 1569502448 1571696273 1572842809
  ; MkMatrix 2053756184 33865073 1539574757 2076119070 76346249 1892030785 1414234894 936891763 70556679
  ; MkMatrix 326190601 65675367 295319651 1456208804 947088172 58882839 167336475 860770126 1290063722
  ; MkMatrix 1198598768 90261271 279710849 47351371 2116343219 529745161 201674225 513636304 218583595
  ; MkMatrix 141808684 537218884 784640970 1957710455 716642647 917082574 1966900622 1484043602 411975751
  ; MkMatrix 263758467 667046205 1297477154 1131952785 187143743 1326350018 618506283 1237598133 1149848767
  ; MkMatrix 1271921149 344277931 1612272674 2109377717 1804792980 865473170 235615241 2134286565 1594663594
  ; MkMatrix 1568317571 1144969552 1578867066 135153470 1787102228 1777174408 1815849482 1861838163 1457581418
  ; MkMatrix 1288455820 856082873 1320193479 554813522 1704794986 405123336 748903582 507445633 775569738
  ; MkMatrix 758238951 285208328 1050743863 425504871 337979782 1200940701 737788800 167278791 1460548211
  ; MkMatrix 1837876889 1060036568 922741856 841158161 1701730645 1383147298 223891937 440673436 1117998213
  ; MkMatrix 594726370 1013883797 1341007149 1262260860 552465288 1879471391 1864308168 1468746460 38404027
  ; MkMatrix 471766285 1643881974 1220571740 1403617870 304231006 2015634686 1159344694 353602133 1576334630
  ; MkMatrix 406988149 613910698 1195762344 1991526327 2003710364 1437832487 1444140250 412335416 1429896239
  ; MkMatrix 491868557 1186467803 1953445705 1146180222 744777951 692191261 1818552946 1153931785 877772738
  ; MkMatrix 922597176 108612594 264354500 1048876262 1942269253 1503690500 1885546472 1677425185 1892041350
  ; MkMatrix 1593247654 382603336 1240881788 1552043258 295931234 1328205210 1849751788 1763623591 859778983
  ; MkMatrix 1609343321 262208205 126589786 663523067 1177341346 1953795872 731251419 300210888 1931260994
  ; MkMatrix 1520598520 665228507 761019462 333647365 422685473 133019025 1251333715 1506293300 2042966465
  ; MkMatrix 1097016528 1623904342 572864075 1479807508 664844565 2098942016 1556221287 1686749334 1577720851
  ; MkMatrix 1269015458 311202331 941305246 1529191619 1983395326 1799782203 633504022 1522213576 1021123845
  ; MkMatrix 1135535316 2104985281 2088047406 536170909 989928051 1278051191 674361848 1159137721 691604031
  ; MkMatrix 356887695 400562126 1033935278 1811052431 1667525575 1886264168 1232736278 1164846369 78713340
  ; MkMatrix 1409901248 708972449 943412118 733485921 1319677152 1074500471 1748452959 14153203 1636846078
  ; MkMatrix 360301483 274593691 698099699 852056241 1985043186 470610719 426011765 1239823035 1014234212
  ; MkMatrix 729032433 375501753 2079126435 1161910273 1416383542 1516204772 689461306 1564843910 1942429997
  ; MkMatrix 147443586 323604944 270500844 1638667279 777560814 916244783 271937717 1221366531 1531198534
  ; MkMatrix 132134403 1515727784 28341638 1282863331 1196460773 1791603290 475022310 42863699 1074084296
  ; MkMatrix 1931547208 1834286149 1886066663 1206940598 1709375143 2017238085 1716904245 1142895024 1738858614
  ; MkMatrix 1231401610 1165608281 225535545 911252005 1475396422 1808359541 1847467535 1875251103 1141181083 ].

Definition mrg_skip_matrices_18 : list mrg_transition_matrix :=
  [ MkMatrix 0 0 0 0 1 0 0 0 1
  ; MkMatrix 1753405884 1769995508 1751487212 587978929 268979410 1585800178 981708785 781251766 639786386
  ; MkMatrix 2044682940 1925017135 1167540168 242764772 1195986832 1209378106 1388502925 293659660 1093205951
  ; MkMatrix 90174143 49121981 1308219488 590873747 1198967477 339683578 974581871 1430886098 483408978
  ; MkMatrix 464443298 109588475 1270927330 731151190 755270269 1879768603 935130866 1048100481 495809283
  ; MkMatrix 1608982539 1376684911 870095503 318512698 1170221375 706166840 622937109 1066852351 1977939058
  ; MkMatrix 1852660140 81357140 863997760 794207386 2080494457 1580409738 96105987 1512189567 155363738
  ; MkMatrix 1606806871 1285548667 1764575808 56721127 1338621801 1904282268 1957070473 767610832 210964551
  ; MkMatrix 457668442 2089043212 947195759 1901595471 191881782 2143607622 411681456 1328010232 1015568389
  ; MkMatrix 1433955147 1685894823 1599250514 1130008689 1363112442 1935629798 707031720 882547587 1805840063
  ; MkMatrix 1067937213 618209737 1344518697 409308012 1688638990 1640296083 1092537615 1637532582 1330250951
  ; MkMatrix 164703860 147086445 1596297040 1933021531 896854398 89440094 920747913 859140485 1133026140
  ; MkMatrix 1291345133 1831607270 920665965 1866347688 185108035 628017197 378737399 1626415416 1333849557
  ; MkMatrix 484459995 1215201814 1413090899 1265559751 136534953 508769904 1664518162 897726759 1862440052
  ; MkMatrix 750831838 56105442 117633728 345487278 340714242 1726049581 1768374204 156053036 2004082597
  ; MkMatrix 277944505 768383713 1993056902 2103970385 1313572034 1207974048 281775797 1683226309 1690810467
  ; MkMatrix 531587774 1671831140 392208509 2078044769 212459430 841530325 634543807 460090066 695673001
  ; MkMatrix 636044649 495206447 267171055 1026884893 765192511 1238958461 2088393423 618069742 763616466
  ; MkMatrix 382052543 276947441 541473254 1840032781 1539008437 465351598 163851830 708942817 968755904
  ; MkMatrix 1517176482 535968028 975764284 1639521728 1062080369 219704624 1328364395 637723278 624128857
  ; MkMatrix 1233585529 1423255503 445077056 101462396 666254403 1957868209 726190824 276792337 247254538
  ; MkMatrix 1659334594 1592570870 1227653720 183118528 1722135184 367558668 1958001645 34688864 2139490811
  ; MkMatrix 1857324397 940642945 1679506079 524148561 183617249 2115940506 1583171996 1688025280 1740292048
  ; MkMatrix 1405601631 1156848757 692403527 977589477 1550305516 1846004192 1334792248 1369405649 2037381180
  ; MkMatrix 637541051 1914472393 2038650752 391575069 2036312406 724965384 66925950 1441892810 457908099
  ; MkMatrix 83264522 1297911687 597538937 1855410074 981647163 1483517469 1044675464 1919270391 1491018532
  ; MkMatrix 1278029851 1153372097 156234847 68468547 599830840 1887177655 1106335403 3373703 920772591
  ; MkMatrix 1239777941 413831440 1712531127 114303244 458992927 87283343 2004104504 1989847044 192043191
  ; MkMatrix 1029774917 1555476109 194240364 2007966507 31415665 872932341 2143571874 613471257 1642061825
  ; MkMatrix 1957027266 1007092817 1857775737 1568047372 1024287236 966378368 231053120 1487178780 503774663
  ; MkMatrix 847767066 1270395251 1934370630 1982987730 2045300905 1617921872 509104516 1375304420 1563944358
  ; MkMatrix 626507006 260574830 279289282 951533488 824232784 685542472 1327839605 1023660538 251203231
  ; MkMatrix 1602810846 1647703761 563472650 73985347 72773775 1730965059 1997744344 1951755203 1859265648
  ; MkMatrix 2122410562 2131838485 216708364 1437419916 1271125407 1603743153 1051262631 103110354 590791689
  ; MkMatrix 897490748 1056766174 320740086 1686283694 1593477934 1601637871 941282837 1034712154 587083586
  ; MkMatrix 927311022 1155656641 879939955 1995673876 1628337985 1045846148 1372887262 1729911699 915494708
  ; MkMatrix 2058520682 2014803609 2098046911 242233817 1522311464 1509069735 1033001592 1169173448 1972094216
  ; MkMatrix 1714219000 1687683951 1006852688 319461976 556687945 1087707301 733529315 1673339451 1152135143
  ; MkMatrix 2129535743 101004771 558136913 531196592 1514101252 1825273455 1529903939 2035839678 586809000
  ; MkMatrix 1214829751 2096074784 1944426662 1727421090 342931452 704516730 624103983 1831107243 24166464
  ; MkMatrix 1778587597 520987524 1656653721 2133026491 989561702 1723842965 1590179595 1039592721 733078432
  ; MkMatrix 806633354 430084343 389932910 407859347 1357068248 1651001222 26830847 1150087827 1706156785
  ; MkMatrix 345086190 937224198 1290285867 249322220 81290853 1890185855 91849906 861419847 531413183
  ; MkMatrix 653771688 1372099649 461439901 1065283409 243725297 2002273017 1586005445 1047052415 1487869687
  ; MkMatrix 100665786 1622701627 732314954 1587851258 432890606 84230049 1669202078 788882166 801026942
  ; MkMatrix 1318493959 1913814356 1762366808 1715119442 786282447 1344967288 3138069 532905112 1888255846
  ; MkMatrix 736310788 2102620438 1588698673 1634368997 2136096799 556421474 749706063 1694094422 1757912116
  ; MkMatrix 1599127011 46577473 1048770751 978710010 1370020551 667999025 1351842004 935062038 828000473
  ; MkMatrix 807670171 1094142179 1608008550 991990412 198434374 1992573625 1447478693 1881237240 1687484987
  ; MkMatrix 265464773 566894555 1182529601 421324757 1979928987 1869846255 2138696147 424400382 2046137218
  ; MkMatrix 79233778 737326225 268618117 1773273213 1631571786 494846038 2028157286 1707663257 711767099
  ; MkMatrix 404199915 2059281779 2081824292 1341799973 1811304001 1380940897 1276372431 2076185628 1943632490
  ; MkMatrix 1456215895 1031054119 1030118313 323348484 238965148 2131991291 1465037367 562204682 256941874
  ; MkMatrix 125600335 1857101505 353296118 1616860542 562859847 1276270476 1624588369 2014622254 1360980611
  ; MkMatrix 2013080266 308718285 1735213640 879847232 1118210911 248385286 145040237 506960602 1155523065
  ; MkMatrix 2043468827 626148519 1268740648 687423790 302865008 662553706 1681091945 635912521 187669808
  ; MkMatrix 1062819161 1513813348 106496566 567683021 1489807225 1249200824 98773007 1284731745 1577022026
  ; MkMatrix 1709479091 1074093687 353796926 252736033 511903574 1656892011 955000728 777479237 2065146941
  ; MkMatrix 450445629 1580422675 1186512315 1533752850 101018809 241650699 994560388 2044650173 781255619
  ; MkMatrix 217364360 1544027822 1049323016 1354192882 286674213 1467950296 106043683 1639200140 1860437811
  ; MkMatrix 331764363 814135352 281829312 1842620346 74898550 1020140372 1213270370 344233893 1350281058
  ; MkMatrix 891260147 1518756119 1679590822 1583964072 1406201744 1958434344 1423635531 119323995 827567434
  ; MkMatrix 332717109 1828007153 202550184 1855816772 1026388795 530440159 2057005593 384245538 677154492
  ; MkMatrix 1411266440 1402779861 372352181 1299332238 714993960 908836607 805878645 1554145624 600539721
  ; MkMatrix 810800389 1719915188 780376533 36861089 1149436640 255019046 1335364961 1824341182 725665591
  ; MkMatrix 1292843760 635263803 1797284436 1387114617 671079100 182768487 337451095 732135822 629579927
  ; MkMatrix 1839825053 46782759 1667676507 954094846 257168483 798708361 1495502763 752791426 637936578
  ; MkMatrix 328394033 1885252162 765297046 1032782370 792397607 1018694974 1911992358 148836680 740304769
  ; MkMatrix 1163416241 1742410785 1439526530 1047124015 1631672393 1442589283 1256742828 1466257484 1547979003
  ; MkMatrix 738407437 491790506 850386453 776293565 1929404548 2058709003 451960849 1584474909 193722324
  ; MkMatrix 2060587073 766875857 601602823 1555527104 897956725 1441534752 1385555848 1929576016 1940592037
  ; MkMatrix 1643546180 2006713140 2133290079 144324825 1499737465 1431471977 1310152340 1833255153 106478885
  ; MkMatrix 2074763817 1790344201 773264172 641740783 679621493 742054318 298796796 107665175 105067770
  ; MkMatrix 901365789 1628630459 389819717 1713085921 512904226 132036427 1095226244 1759253465 434036425
  ; MkMatrix 173041388 139211702 479519508 1950328798 1445322607 937640675 1761958007 2085262772 2003970825
  ; MkMatrix 1600444188 1990629013 17508298 1550052211 575493160 141983359 2007923587 1598898232 1304368967
  ; MkMatrix 70430698 129487528 1753763480 1572093111 886133023 2037572066 1684858351 16025047 1632143533
  ; MkMatrix 805469680 760770495 1674988839 1511661887 711592772 478856107 111524831 506260555 2145014313
  ; MkMatrix 1730719692 1689332384 1913307014 1223216846 1699790622 224587033 1083082276 414641320 1554666160
  ; MkMatrix 486985839 1113958997 1540178251 569356404 1983308391 836139771 281161690 1544691636 1013169589
  ; MkMatrix 2029787859 690751443 563140957 1576744897 945129625 2020435157 1681349752 129279025 1436752878
  ; MkMatrix 1575460876 1113356932 1315858019 634677551 698744569 132448896 840004176 2058663007 729831793
  ; MkMatrix 611809301 27893866 1384039724 2140490186 1014329296 2068618440 660023270 835740218 507071855
  ; MkMatrix 1766877320 823542173 1988651737 932731464 2126862703 205135111 950486807 1351680358 1439026213
  ; MkMatrix 1837134490 660637864 708571879 1750721362 1581458742 1091382616 2044574881 1142494336 752088995
  ; MkMatrix 326236199 436508074 2144917591 690878884 863094585 214951222 136949381 750320783 922604858
  ; MkMatrix 370800030 1982757427 1176271055 864510792 2030730288 779235593 151919321 918713212 850187205
  ; MkMatrix 1261133616 564904069 61509129 1554133119 2069294162 1841494221 1671843981 1076361908 404077306
  ; MkMatrix 2074382005 1583202064 393743342 1120629885 1636169904 1394039274 1409068149 1593823674 434086524
  ; MkMatrix 506143672 1211782675 461244034 222153447 484578579 175638931 1580886414 1172081755 1684962700
  ; MkMatrix 1148497677 601540323 818184713 341905762 751127746 2024927236 1827447098 1635034560 178865650
  ; MkMatrix 1096357131 959996576 1297673757 1210549640 1937530758 1757387586 1326833196 316661292 967705847
  ; MkMatrix 378497362 1677394894 1076445271 568026627 1663847155 1759669182 675309422 546416694 828356218
  ; MkMatrix 629152162 2093411549 1429945971 1506487220 1091014080 2087956657 377038594 730278618 620668199
  ; MkMatrix 474840910 1022916065 113843446 1939502976 692595978 1930463570 511923020 1760329919 2116589971
  ; MkMatrix 975598288 145289375 1109777004 1754127867 1381488587 662823433 126169526 206729980 1309133094
  ; MkMatrix 744620263 1063040426 824291071 729265736 2002757533 1124545881 538074195 4068856 1571836704
  ; MkMatrix 2027084896 503856682 1567277508 947866019 1202971471 1512363886 1682195242 573846049 1968492995
  ; MkMatrix 1616250442 1185815638 1333416251 462479640 1729003775 834876348 1900202988 656402053 747643780
  ; MkMatrix 661310878 325390820 1957939639 1157043123 224352768 2026667295 711735174 263690718 2064796299
  ; MkMatrix 939930037 185908257 204032938 842590057 969318369 1682293844 44726822 1041684034 2107967510
  ; MkMatrix 249227816 1131389066 1094558885 1636454669 1415300682 614662601 986801157 968951717 754045034
  ; MkMatrix 97914932 1037128838 1824564969 935767272 33685082 143865153 1022592889 1544227402 1855437503
  ; MkMatrix 1074975749 290572089 1438734652 1132201277 547083717 880698218 915741911 1992807614 1352839605
  ; MkMatrix 250362038 1381599928 347404038 1760420280 1457434435 1079224850 1043417164 1824721002 1033530449
  ; MkMatrix 1548929720 1341348958 1269963648 1974608844 42255324 799223556 560738674 1134105214 1148557052
  ; MkMatrix 1171457408 268102129 377246356 1709284230 1038372491 717085495 1736879168 1960369980 352242998
  ; MkMatrix 386050500 626503280 1365971188 5133365 368826076 491385605 1730857138 1332068649 868969690
  ; MkMatrix 332719310 1869428023 386800100 1377044646 6747529 679234441 256442228 2146283325 1939902924
  ; MkMatrix 614007450 149410958 2035349108 504683433 466694393 1008250174 1038216453 1537172045 465555089
  ; MkMatrix 1653764691 1768747111 866044310 664423155 1747549850 223561828 1646791129 1054413901 1485879167
  ; MkMatrix 1347642948 1601333279 1618886919 814104041 17539847 1988651706 1567103916 1983604588 182271700
  ; MkMatrix 608801499 1375994953 611142325 1515745863 2141556097 1055540246 885948333 454044670 908898639
  ; MkMatrix 502252022 1081289833 572924726 1119033478 232877938 1120249990 1254579053 2075795180 1653833272
  ; MkMatrix 1000378956 1036040998 1709923213 3070674 780594122 256411634 975934047 413113034 2139243113
  ; MkMatrix 1231126399 987997749 1152476231 1947707674 1643976254 449729327 1746690243 1658488636 634008502
  ; MkMatrix 1939971967 1015677977 435519316 655489574 899983765 1088307065 591482755 2059083345 716175506
  ; MkMatrix 2114113204 329358989 2077255715 296275380 1062927488 18916097 1748512534 1187534546 1291535491
  ; MkMatrix 1204040145 231343630 370028692 1931495457 366496335 346800491 1429764526 2075322967 391752573
  ; MkMatrix 572913749 272333798 1480076138 923365800 1116904318 1038181627 1868331845 806320566 1478937214
  ; MkMatrix 515599240 699295032 1866172858 2010349623 531071864 518835298 1469832139 1388534192 1333575085
  ; MkMatrix 1414951818 1119432163 280254861 830050185 337083195 409450662 351695494 62711668 1174127570
  ; MkMatrix 1896916370 2078540156 1494437473 1224011188 1516768430 340877603 1697252859 522598505 1870729865
  ; MkMatrix 1280881998 1772476208 1093296541 1910030294 944487479 1109419144 1134496570 439214671 1971878350
  ; MkMatrix 505666293 493793530 718637096 1328602835 1753941362 1712674698 2051936234 2113663706 1658404159
  ; MkMatrix 2143963153 1722368743 388411820 1833517377 171522777 220362363 633407540 1611824738 1540119401
  ; MkMatrix 841368718 1826356568 1381227046 2077013793 845579160 1317129152 61238384 337593441 834795638
  ; MkMatrix 1958176111 1362066357 2007883405 1532329326 1051664298 1857820724 1787142881 1014203500 696693073
  ; MkMatrix 327485071 1752504138 1750876093 1648594465 494684725 671516722 1730593605 1579757615 1552382295
  ; MkMatrix 2108223303 270373764 1234479717 996178777 1340309645 2002101802 748492451 1915322425 1206817708
  ; MkMatrix 746482448 2077034009 1763426695 1487108773 507844300 527274964 2008377187 1535796034 1473554241
  ; MkMatrix 488472089 1941862098 1417024028 1244183253 1037634427 589780861 1317974909 1749259676 2143380458
  ; MkMatrix 406765810 2071701225 803903500 1422935879 97721901 855591368 1363439980 945731886 410960835
  ; MkMatrix 1212220581 396925483 491312421 1837839334 813570300 80022462 678052924 2030017540 103064161
  ; MkMatrix 919189322 1919974499 1500261053 901379807 1335737752 1813006601 973082925 1097671695 414681747
  ; MkMatrix 1473056810 1303681806 1552317804 1244544795 35234342 1861853746 1544914087 1455444141 1780686722
  ; MkMatrix 486674752 2099521702 828358042 1962862416 2044725826 1070192080 453790814 1159790537 1316676591
  ; MkMatrix 1001264394 465769113 191439495 276516820 912494321 1618565128 483935159 2147248979 53582996
  ; MkMatrix 1296893596 1853165565 1710364022 1648285648 1984652717 969756077 1048826848 2140189710 161844495
  ; MkMatrix 1259382698 196153504 789701677 1417093047 1410484018 1688104842 413613347 2023947652 1990592528
  ; MkMatrix 114523193 92395130 734181548 935198428 1797074484 1448176383 549442361 850267784 1928977489
  ; MkMatrix 542857381 124625111 444023154 750773438 885672672 41999210 1503065254 1727939152 1569384157
  ; MkMatrix 1319806064 51984722 1272432375 1692046166 1337759610 19549329 84474104 2091976959 498193492
  ; MkMatrix 1662729394 1954877312 896117083 1799680802 1242801733 728676930 1714821981 1306867291 1966514187
  ; MkMatrix 1639247113 369454356 1960386258 1563192577 174822087 1191582237 1221209928 1994762561 1731513020
  ; MkMatrix 1920646753 1962194403 1786427868 849801926 639252726 538348763 1920128348 1036750463 598512611
  ; MkMatrix 1042063854 710509891 1257134092 1195775763 411825246 1849026095 73104047 1921808623 61314775
  ; MkMatrix 1163706368 569383794 1107663301 1300766957 298797601 1021080024 1179782022 1102591614 1416129089
  ; MkMatrix 1664025949 1699040400 1605851209 180953605 2053870503 2082998959 769427391 1092770024 2100897724
  ; MkMatrix 278256194 700762957 630170880 884695403 1687552755 2106611842 107605100 847033618 1176342624
  ; MkMatrix 861751986 965680951 1941715713 193129131 1264519660 1308312850 410064392 1338096782 1010934151
  ; MkMatrix 51267305 2006102034 998516084 1149542172 492793834 377545742 1081123439 663774786 904717753
  ; MkMatrix 1172138283 472684534 2084483272 747213655 1661796494 384558682 17152451 1922326303 1311104835
  ; MkMatrix 1095490839 1025857426 1634489002 2101933518 615521323 535061450 373475671 1004849392 1552314224
  ; MkMatrix 68014517 1168109190 400426938 603522928 2042652431 822181562 327411756 59432084 303864284
  ; MkMatrix 1898685754 298052896 1062528567 2125282109 544817969 1136751435 127794653 1328934704 509187552
  ; MkMatrix 852270820 95962237 1724428165 1236523939 752970970 1945151097 721502734 339752888 1493050918
  ; MkMatrix 28476022 10636551 2115109178 416332136 1264181727 215418308 751222582 368152597 813205771
  ; MkMatrix 839676798 793980418 1815056195 1506215502 1980200197 285345174 1070940290 57644577 1637902048
  ; MkMatrix 1198792905 1989118555 51276092 1878511014 97205667 2106411950 387773733 991170931 931411847
  ; MkMatrix 850187531 140069448 1384165096 521771042 1068278298 1023619818 811149795 1848481349 1387677467
  ; MkMatrix 1636003768 645902786 1876830052 1873334687 560788500 932294926 47288275 1319912879 2138928457
  ; MkMatrix 1389402584 1850595603 1169522231 781724372 1865030230 1793801428 1400685190 1365226379 1279826815
  ; MkMatrix 1594879766 1468907571 726176036 805918607 1215530003 1554944747 933564651 1660286985 1171300470
  ; MkMatrix 192584802 1949043919 1593951598 1547251604 1439915602 2096387603 1182338484 1562929864 1322386879
  ; MkMatrix 571947755 359847083 1312681763 862880463 482386975 1770278104 1122581156 40480329 1434586501
  ; MkMatrix 221219697 736399884 196439139 664457906 62562530 336850443 400664031 1705341501 1720550834
  ; MkMatrix 835876257 1165507444 541721440 828237654 1449535079 550828207 1100550844 872541588 2003138982
  ; MkMatrix 1682825439 1846584434 2113322218 2085558455 528949803 1150221348 422254558 1723020995 1536505190
  ; MkMatrix 470878312 759880669 663851205 1434886468 2134746201 1883563448 863597457 810504811 884701876
  ; MkMatrix 1915746184 204749535 2053084661 346712453 732003819 2111218747 2065777376 1341677289 1228784409
  ; MkMatrix 198618425 281145144 1874533762 577329005 1764594191 748499607 216694529 1467853561 1358219627
  ; MkMatrix 1074688741 652063001 574999352 1519928420 1541359476 383296124 870342438 1000560202 1405911770
  ; MkMatrix 1673185752 1577335814 761250701 2063876977 1054053528 132727342 929544496 1309039674 2099128195
  ; MkMatrix 255959462 1770564243 333664229 592001419 709162929 1895726796 1388146768 965143509 1337730342
  ; MkMatrix 1798450381 1707124006 1750607295 2022109959 1525326641 1185040555 798972189 561353687 2080472127
  ; MkMatrix 2063354890 602445287 808259773 1931593566 1345639140 954012899 366981076 1373653460 864860429
  ; MkMatrix 939950489 128089993 1826844900 292863019 1535260207 765474963 1881051210 708236919 1180003103
  ; MkMatrix 1307730048 1227511927 1811558968 703767570 605175387 1628799869 60363008 1541633976 1783590413
  ; MkMatrix 1970235810 1001879748 80970160 1163419557 1772646543 1386039038 1528591779 521038252 731289696
  ; MkMatrix 1131168901 1504125507 1144184599 164920781 1516276491 1215590574 74482804 568348529 136238500
  ; MkMatrix 1492002979 1057755255 1936900000 326384279 1737251926 428180030 713295166 720976065 2021781215
  ; MkMatrix 359949084 560723925 261089093 1420845913 2093522714 864238475 1569218362 1086367851 746926325
  ; MkMatrix 178620966 2112523540 1685681019 617625631 922052442 546767649 313196336 78510184 1324070607
  ; MkMatrix 997662180 881827819 2047764294 1729486786 1534658897 532646056 1431841445 1765213192 57840821
  ; MkMatrix 639669337 162369276 1845688860 1583595909 1897033393 1763846108 2087336181 960402428 272402355
  ; MkMatrix 1216284354 1356102994 515488120 1569747819 104083624 286158376 2133319606 1467331051 771633762
  ; MkMatrix 1060373286 2118538359 1147949396 1443642278 657898668 244169156 632993462 1436842931 1336119648
  ; MkMatrix 1942773372 668983248 253129061 1891385429 1058055895 1277502756 1523990014 713743830 1881987378
  ; MkMatrix 1872779044 1720463451 627255923 330483987 578705786 1494487515 1714798028 589298136 2090438356
  ; MkMatrix 1319255264 1188941230 1364483006 1988281180 990820277 1156698617 637515943 2087273147 1011893952
  ; MkMatrix 2145320968 10520887 1585526616 1728008632 2125157160 118652007 148134043 1998284264 1855254397
  ; MkMatrix 315279014 1428364007 660131680 1363643729 1933425604 673771258 209563375 753425636 1240229902
  ; MkMatrix 284485148 989205550 1931675388 1895016022 838987663 1748629207 2071274442 1384818332 1642791435
  ; MkMatrix 1435251266 1323143812 759018009 559129503 1979625847 1465050963 568372719 252824869 710021137
  ; MkMatrix 665679823 1983670992 342885111 753898094 2123937391 2072805601 1872260980 98606751 1123057387
  ; MkMatrix 867446351 593403812 1468556035 609169679 2008848259 1470913595 416865365 1000137713 907180783
  ; MkMatrix 223253621 1348970463 1637429505 613854348 354642186 1378205878 940309083 606868716 1860225053
  ; MkMatrix 1740959866 1457108073 1756995992 182483012 1002440536 1492017214 590544873 1371656677 200238152
  ; MkMatrix 1305927276 758336455 440687916 569384987 695226577 2019248826 378195921 544390597 182567321
  ; MkMatrix 385506294 1916800977 1628385909 19132242 1618460360 1137628680 1230215871 769672693 597455641
  ; MkMatrix 762344379 340650251 1671937891 668414077 1979369034 2113939183 1254181724 658947203 2070860060
  ; MkMatrix 826834439 574625490 1368475816 843023754 223531709 177859254 661979983 933453307 648442328
  ; MkMatrix 1763892279 698310533 1031072396 424171116 1628072207 2121057700 288702201 430499528 188907184
  ; MkMatrix 1343448910 1317856871 1020736345 709961332 5679526 1921391576 2066236211 1167894664 26413123
  ; MkMatrix 1195594260 1626778990 698080527 1976089702 1019389317 1208320999 167793995 1380490892 1824707693
  ; MkMatrix 1735514033 176556155 2003383295 1851376908 1372294781 964990614 1021391486 2138134982 838695902
  ; MkMatrix 335049882 410295943 1271019837 2093631489 1441864301 507776849 2059665581 1480122718 709072985
  ; MkMatrix 617983549 827143772 1171800325 1077177590 1190573109 1577217171 1800890321 554240160 996589053
  ; MkMatrix 1708592011 2043325341 457660647 1825884934 37913942 478950496 2008014891 156712081 90438896
  ; MkMatrix 1527956587 603604210 1151194418 602897841 913489133 820438681 971415062 477650934 102066212
  ; MkMatrix 1815961807 1058724759 2015810963 1160487444 1209469129 1174757403 1926768419 378744315 540037707
  ; MkMatrix 999811959 403262317 301974079 202899860 649319450 2093437596 1287257838 1685094899 2099645700
  ; MkMatrix 1394178014 931494868 1780765883 706839024 691227860 1946771116 669899263 794496829 1379521611
  ; MkMatrix 1557539345 918159551 1234959904 792432347 2038313538 909891692 57504353 20686547 635208876
  ; MkMatrix 829153233 2012390922 800730700 1119747596 2096954506 970568014 1964270448 1291246398 1430269902
  ; MkMatrix 1632705714 1114369226 1773962493 1092075732 2018750592 2046160779 950432038 544676154 1183868844
  ; MkMatrix 893526567 1115145836 1737300617 2002168648 2041512493 1554030814 549144738 1595219625 2020056536
  ; MkMatrix 588257836 856640117 505597191 772171983 1854094074 221253145 965029502 649160022 1841636431
  ; MkMatrix 1294405911 1239476154 1524767408 1288692731 1662269593 1967550091 2017240882 797406787 2134796494
  ; MkMatrix 2109314548 2006692866 873391425 1431558046 408825329 2127426233 1524656614 253683137 2145397331
  ; MkMatrix 1526774927 718897603 1024634012 1892507245 640240568 936145655 160112121 1943842185 496766715
  ; MkMatrix 1117735840 1767263501 806750619 852118579 1495990295 1376055957 3008487 1602684885 1471921497
  ; MkMatrix 2018329443 1613177125 1052895039 241786167 1542708512 1228884367 1374404787 512363768 74891005
  ; MkMatrix 1090587196 1769836808 269337534 316450007 1348847261 958634560 2081299085 124866239 1197769895
  ; MkMatrix 1741101978 111561175 1168656972 240083116 1936494521 1434910765 1203309116 1536911843 1720697923
  ; MkMatrix 2079513246 1379661789 2066472203 2125574517 1043469669 1296077247 216980796 1620134509 1442790232
  ; MkMatrix 1748258923 43373580 375223862 1661785543 1678554676 1901089151 890958665 1886820922 1232915718
  ; MkMatrix 612102430 1444107624 1013236673 1789836195 624177347 156129950 2032333014 434274546 1116426350
  ; MkMatrix 1248311709 452406052 1312079225 762448458 417385542 981864595 431555705 1148274873 1411353707
  ; MkMatrix 658199818 1887449895 645766590 879477987 267071788 1442331594 1644189085 840882719 2012872301
  ; MkMatrix 1188144361 1480052455 1944963495 1771714952 224700047 1171576111 568544215 1035853565 399022211
  ; MkMatrix 1860794749 1013901033 369906048 1380579908 561596491 1328990512 1193249557 640820016 2055296403
  ; MkMatrix 509555163 1524210269 39151243 266935549 2033612612 1667988509 421722906 763577626 263121890
  ; MkMatrix 986181541 1109702647 1896964684 891853196 834656188 871913290 518053209 1676902214 1750978966
  ; MkMatrix 397395638 724524678 811460998 740432820 160293368 370687840 681720254 2005069284 2035499495
  ; MkMatrix 2026415083 569947385 795390814 176782719 697603319 182824653 2127266556 1150226342 509772464
  ; MkMatrix 1390524040 1999543890 853452483 688661341 1932206410 1512860476 2041938234 1477221512 556185422
  ; MkMatrix 943571039 1660924794 1493233529 576872650 1375324404 1223300748 1924071726 547692640 1183631980
  ; MkMatrix 1518897251 1467441261 1305807262 903230612 621468653 2116943229 1531244773 1763159312 1292853082
  ; MkMatrix 1517754389 2038845972 255477464 473403636 344756459 326515930 1214938712 1336665275 1487536348
  ; MkMatrix 163523837 1238876949 1459952181 1073812193 1258673800 859521059 1051745628 1564694682 925779026
  ; MkMatrix 1265576315 1950609457 2083218582 1273392951 1143185166 970786835 1206572278 636344289 1886832306
  ; MkMatrix 1924187863 651419096 527850389 520471711 135425547 300075891 1603939833 1354957140 1808674195
  ; MkMatrix 387896912 1075805166 1858713150 1226353070 313329847 81047788 541856236 607206658 2033542799
  ; MkMatrix 913574281 1650495991 2077388179 1733091804 821265780 1438119175 1037175556 940583630 1565803333
  ; MkMatrix 953410960 1643848175 1846607840 595745872 1463147358 1310154339 1280679639 40133816 1019603793
  ; MkMatrix 457644923 865430521 1489415609 1545215641 582174112 1027377345 1666704450 2035610907 621329571
  ; MkMatrix 1061847360 1614447597 441289755 429178553 2082226095 1242801021 113683580 389389300 1945939840
  ; MkMatrix 1549924761 1701629981 1243375820 1111785892 24183902 1266530497 477967599 837123050 804932658
  ; MkMatrix 1369318169 524402505 2095274523 1735230598 1113888714 1011508787 345382077 1292224324 1091106930
  ; MkMatrix 1723003553 1455654405 959797375 1167799649 1659559597 100983885 1461323927 1407955551 200407513
  ; MkMatrix 136963636 1661367368 119729455 528578519 134925923 1183933366 349597871 1587335270 653100402
  ; MkMatrix 462289241 1969005912 4552981 1596912064 389707894 1914578860 1481934027 1829854431 930374849
  ; MkMatrix 639565797 88467471 891234721 5469723 1817215961 1689980542 514489896 1543385177 954908602
  ; MkMatrix 1853462410 953432986 910788562 909440150 1961064185 1378462966 1072571618 319291719 1741937901 ].

Definition mrg_skip_matrices_19 : list mrg_transition_matrix :=
  [ MkMatrix 0 0 0 0 1 0 0 0 1
  ; MkMatrix 224069202 940167678 1265804454 187150741 625651655 1076491822 1103780681 2055685332 1194651977
  ; MkMatrix 895554552 717275268 396264426 2113216803 486029730 1692321363 126074496 1639594000 2059655477
  ; MkMatrix 869441263 2005641267 1911187837 572980734 332280544 2023459372 343983598 237838110 1322779029
  ; MkMatrix 1259175009 1755939251 165881407 1785139761 155369278 134111992 1407432398 1077790057 1603503858
  ; MkMatrix 755207726 2061872424 1362416010 1660538798 1641169488 294311167 2011026378 741931201 1488867750
  ; MkMatrix 1020733683 1871644402 1573902582 1571837473 706027430 1836510160 931124026 1890189158 1977196507
  ; MkMatrix 824281435 1663202092 38276168 920271310 471406236 837832678 1677770013 1728916176 1584272492
  ; MkMatrix 1577095969 1036947225 369643279 1800149053 431349669 1451331277 1687038432 350692143 630729966
  ; MkMatrix 1494347735 6449902 1870820201 1871356634 1503052259 1094040930 414164052 867405757 877337697
  ; MkMatrix 2120574983 989546032 1119791626 1549670970 1397510158 569467335 383607147 19544098 1175921359
  ; MkMatrix 1204394378 1026989262 496189994 122178885 1097256354 390702865 896314903 130591216 622052699
  ; MkMatrix 34550696 681518768 6976002 983175239 960341858 239929295 1533613484 875907249 1620141962
  ; MkMatrix 356174000 1946292312 933107752 1135990737 1123872970 1821631412 1584026946 1225826400 694833730
  ; MkMatrix 545391482 1451705608 723601227 1069642231 878672069 1475566954 1710391346 1115250354 1991572998
  ; MkMatrix 1534973459 196589047 1991102685 1165446365 1340258020 1699457801 1503666637 317040495 692422935
  ; MkMatrix 1494923393 488224762 203390741 1934278450 1013737600 1360865945 263958572 982899491 1850838784
  ; MkMatrix 1943446761 538835895 2127113894 371680804 1251575156 2113487358 1172644954 1464493623 1061124935
  ; MkMatrix 330291731 1391155759 365837374 812478357 928551173 309186012 1546112458 56590632 49750993
  ; MkMatrix 1190660530 1986365736 1493979198 2038010546 1357862874 495892727 2072036020 1312797939 791009413
  ; MkMatrix 1460237431 607080324 1451762638 616971299 322144625 1277113229 1971140649 893439713 1405305096
  ; MkMatrix 1667581109 1636110437 1230251455 1175450993 1757214439 2018824690 1597404637 294236823 1976354098
  ; MkMatrix 786673529 492453878 1970523761 894710268 349976285 1183485784 1985800466 843925199 2094711930
  ; MkMatrix 118828726 5104755 1854130366 1811051998 611591885 607759795 1104543526 2068706858 1820279767
  ; MkMatrix 2029920267 237077554 1585421196 1128394448 1718486641 278224737 1165919991 1901438457 730860634
  ; MkMatrix 1363409318 1721710592 2127095214 1366134806 692027662 1029768966 263437523 1596054220 133408685
  ; MkMatrix 2010258762 1566503832 1867212842 1408241287 1664659508 1077661630 416289448 2121533439 814748622
  ; MkMatrix 181870805 1338077783 1696867803 966527488 1650821445 1811293913 311295657 535451461 1570787616
  ; MkMatrix 2079694704 1712706616 135350303 49526641 1497915380 1414310199 1680451198 1394104004 1439475708
  ; MkMatrix 198738539 1074966301 660431440 807400713 1169340878 898033630 1419861493 1706313561 679505314
  ; MkMatrix 876791217 1518665562 2049966360 1063517031 1476150578 889666089 557467223 1190526050 2133208284
  ; MkMatrix 1195722961 1263691161 1430521190 1300058655 2068963536 952562307 1848743659 545624192 1019001610
  ; MkMatrix 714406650 1472939049 2080385818 178250362 2075461961 149154898 1813433239 1583658193 769562317
  ; MkMatrix 1530532545 796307435 432548006 1561636717 1491551147 797491956 1871412739 799268076 782310591
  ; MkMatrix 292545182 638856542 225273344 227763756 2061683409 751214093 1358212782 2114621294 677320862
  ; MkMatrix 355768090 391304215 1136046257 1933548441 1228445455 1340527207 1418481011 470712446 1707941193
  ; MkMatrix 1961957318 228822903 2019833410 638430239 1853486747 1474873124 1933124546 606081742 1856106502
  ; MkMatrix 1811202200 543755968 382087234 582369678 526239243 2057318845 198896550 1586497709 937332686
  ; MkMatrix 1433217028 1447812746 818498558 246554672 1368563658 1805180245 723556384 422806667 1972200601
  ; MkMatrix 1164078400 636810452 183226118 518813840 868356638 229383012 1391432252 1320302740 406250679
  ; MkMatrix 1833301356 1800143190 738073471 65177407 1291194840 728990986 1127171720 1818150952 1943332195
  ; MkMatrix 669180920 1182664238 1588411346 1912886069 377062673 948450916 826956796 1193954461 66552794
  ; MkMatrix 1685316804 493102090 1922324412 65645707 1878089272 332737938 1591117769 475122129 530680521
  ; MkMatrix 1054619267 410314736 1898841497 1017505021 2081439923 792817269 440239447 1615040491 549808110
  ; MkMatrix 422266869 1646891955 698937896 1078561488 870217302 317982545 1124514917 362858720 743216750
  ; MkMatrix 205704044 1502580408 1101573537 1805446118 782083244 1860080722 665293649 391477335 108195265
  ; MkMatrix 2122161833 4000972 2101579122 1411641860 1559404706 657108701 1978965259 611629837 1023211716
  ; MkMatrix 136356341 2054110452 860250712 790878436 1683634460 2113759915 1731047477 2010372919 872629756
  ; MkMatrix 767232435 1704724234 980047257 838640953 1254408822 899321970 1739026391 1411097722 975272984
  ; MkMatrix 85002857 480595359 1549700533 1513682629 1799038694 128721812 645654440 1287703575 811471531
  ; MkMatrix 1160401096 1918594049 1808717587 236691048 729218309 1082956936 1000185930 960367796 2111076498
  ; MkMatrix 1471587058 884800600 1679321723 785928316 262809455 154996765 14460120 780867274 1492744462
  ; MkMatrix 154965831 2048621478 466687441 1264215266 1722328900 1028015796 1824868830 1699252999 1020216168
  ; MkMatrix 1691962701 413921713 1141820085 79914720 1345223090 2076592597 92890129 1013770816 560906575
  ; MkMatrix 112593413 684871370 849777808 1675655277 1046987083 2041328046 779558086 2047055041 437892001
  ; MkMatrix 1078196359 869364087 1095885261 559672765 1270515271 384621179 853893666 905055076 524249265
  ; MkMatrix 2003239846 1961498268 2139473128 1415953133 867408308 1904609416 1043363103 1372898594 1890132353
  ; MkMatrix 258679922 664779814 427715572 1215238184 725164223 788990206 795814094 292458157 300681321
  ; MkMatrix 1888268386 1576466037 2030140778 1021957144 643702240 1559817196 1054708030 1726551157 1864770435
  ; MkMatrix 718616949 1250957074 1895924748 938734615 1267543975 1965808783 1530014221 510603820 1088832638
  ; MkMatrix 1383098212 10357757 461132440 113241699 1706953814 814763571 1357081196 1356250198 1017517880
  ; MkMatrix 1739156827 823376654 909124806 1643283191 1130611229 966291041 678297124 1835375927 1239848931
  ; MkMatrix 261956829 1734954674 1700032864 1706120301 1937830290 462153778 1323530677 920762017 1293441037
  ; MkMatrix 2040317225 2043060651 1072159458 6119115 2043218294 1865820534 1922360824 1910273203 1696745220
  ; MkMatrix 2003215337 1479730651 2139001281 605100140 661738824 456482736 1549735594 1565931235 1724275627
  ; MkMatrix 437829660 838862814 1275796922 2091311471 1618822658 685622433 284209794 1347592949 2113532767
  ; MkMatrix 1428996710 1680976556 91386649 295833663 1923167957 107085884 483403319 19268319 1809049863
  ; MkMatrix 1934223985 1920828091 1307141542 166844889 1858546978 1780720608 1542882788 485829372 829513239
  ; MkMatrix 1367295213 291674595 766281848 2128003995 673612112 1208985641 450511056 1540828396 1852309091
  ; MkMatrix 1465670918 79259836 1725766070 564500849 648054236 1499010297 878989919 149480195 58865256
  ; MkMatrix 945857338 1337251472 1258319967 1650928553 2094928199 791453039 873937221 1452424708 298089363
  ; MkMatrix 1151260501 1625315757 2089642980 1870034788 1694388956 1329748764 2053727642 1365978478 1001548124
  ; MkMatrix 967674494 673279798 904823587 1355648412 643039396 1837832278 46833925 1876127450 1060136612
  ; MkMatrix 2136579396 1958919846 953002606 776781771 243123485 781620328 1538428950 1312073462 2146129785
  ; MkMatrix 1530865123 358288590 169254006 532895396 1116384132 144608344 548137815 1951659896 3806439
  ; MkMatrix 698391991 426024407 1880745204 2063215938 91564276 1362703216 974302349 541094110 975923161
  ; MkMatrix 1911100755 160694465 1819476798 1331920299 939331374 1102421936 1004132391 14106321 1041768344
  ; MkMatrix 42247411 190521427 973765708 83623927 768531850 1356850839 391493732 1235091309 1302617533
  ; MkMatrix 522216350 950458756 1399747187 1299914167 2129978285 1841424857 433125940 1148320088 439576066
  ; MkMatrix 1448926471 612224558 702599138 168964326 1759063161 1286216299 145049251 1299313094 660058484
  ; MkMatrix 699869573 1010191551 1917788136 65132973 393542369 13617924 195034945 533741654 1709971343
  ; MkMatrix 2116601939 182935938 2022133029 1515146831 2033840076 1482234724 1932847605 1375521081 1659781880
  ; MkMatrix 2024651567 1059030374 1473682171 1866097430 1606063365 1102021602 1302722975 873273477 978295101
  ; MkMatrix 565179629 1268420338 234676979 932564538 704807156 2036975109 488103332 2050218560 2134714307
  ; MkMatrix 2105282016 1303663453 795778395 1047362632 485647794 137318018 532968724 1290320308 893029145
  ; MkMatrix 1804424069 1656970582 1844785587 1685562660 1079214547 1991789799 1040284975 784592007 1556226621
  ; MkMatrix 325684045 213928578 771527952 147727341 1475617772 636810074 2051882979 1469677763 1283353102
  ; MkMatrix 281638492 368465257 2090553191 1731423302 1247632460 1558381973 793500224 1883194953 1984378597
  ; MkMatrix 1390461553 1295580455 1284998274 1844686867 465430865 57299635 728072490 516119672 1573279168
  ; MkMatrix 461514990 310664595 1907328334 473097619 1872561763 1222876172 620328215 1866595479 1111879163
  ; MkMatrix 321129994 436475861 1706690107 1136883231 1431200373 1827318916 637631757 591589569 43028018
  ; MkMatrix 196210911 646036091 1161754518 970314824 1998971588 1758478278 331538756 424779530 776556929
  ; MkMatrix 1952775001 1703538743 719294109 1763876487 923009283 1127441675 1935302258 871772332 1906379155
  ; MkMatrix 718708436 2084968322 2087092838 1970839350 97599228 1403923640 1595719564 1841834232 741447435
  ; MkMatrix 1783675173 1201249070 1254498502 834766100 475348695 1972827130 1637750830 1335295133 1403859769
  ; MkMatrix 922216225 462233075 1598893042 257115280 1993242784 676328308 73687946 875569593 935174150
  ; MkMatrix 1799932392 1753322193 803527788 685467344 1799927719 264352397 388881902 764107043 1854612801
  ; MkMatrix 567267242 1502859610 1248844848 1301053775 2041137295 1519064440 717172294 405798378 1684359498
  ; MkMatrix 1813761182 1629745619 1162619783 1269349184 933748927 1209677570 1812974457 312685577 502186428
  ; MkMatrix 1703837190 390337458 1956697438 1633844683 755171395 867736265 42377010 545270906 1208571672
  ; MkMatrix 1542574244 259721997 1952043256 53631255 807059082 149317741 2007156229 317494216 266439377
  ; MkMatrix 2076515046 1085008249 1471574251 1967530313 1648855487 1002473077 798586127 292160798 1331850843
  ; MkMatrix 255514418 1683364953 642296202 1349566250 1679216691 1379186542 374329277 896428456 935970002
  ; MkMatrix 2116173759 1671839322 1640011816 1117013603 897717569 823804324 1781177032 1782091830 1347727252
  ; MkMatrix 620805464 87208436 918942942 467991399 531083590 299423253 62525527 1197726741 219253413
  ; MkMatrix 249898659 1102217864 789520220 1967421481 443335617 907379151 1653053523 1710975295 1455106999
  ; MkMatrix 1147075214 1823217421 1491933134 1374600863 1601299999 777496002 1434557898 657757234 726839873
  ; MkMatrix 1881449971 762851540 516077206 613584613 1441721430 1285460056 1784153104 418627756 865704986
  ; MkMatrix 907748144 251641790 1598143069 1063518104 173533849 363426669 289827729 1928446040 1646061382
  ; MkMatrix 388331993 1639240494 1911804992 228631846 1422143913 751705020 1648708235 1262196699 873000886
  ; MkMatrix 1718510837 1057716932 919165695 926122479 1001843754 134115592 13231779 814117174 72657649
  ; MkMatrix 1771327975 149120133 1984872286 1165129023 1019766659 1139768077 1263830912 2011278392 1604309410
  ; MkMatrix 1960107747 343975357 1787519761 231148885 846036017 409556922 1858923203 2050131958 2061225114
  ; MkMatrix 274853686 1271303463 1044706786 1378452102 724150696 1819349767 1159553644 1402105056 1951400844
  ; MkMatrix 1874051005 273751227 2002892693 1643554723 1483789954 154704287 552881822 1664794450 1974853720
  ; MkMatrix 194805762 324804174 2068832536 1996854627 954562650 471370522 2118601218 1040595836 160857378
  ; MkMatrix 426738284 978071147 68781324 2126520391 731761853 1258209477 1453769107 221836833 2049983332
  ; MkMatrix 1442621441 369008482 1064737958 569544519 1524187590 2118948807 1074725152 1481880904 1435026003
  ; MkMatrix 1710129767 118260425 572123782 2130450862 551824850 271334283 799279330 776961273 1675752775
  ; MkMatrix 788589366 653316318 1705514043 2014775479 1452102801 1021555134 703724652 909478392 274791905
  ; MkMatrix 1708456168 1014686439 1983998882 1829291280 139603726 1275720239 1430122616 899251635 1435478389
  ; MkMatrix 1938290648 279957179 1241831685 1876220335 1851846129 460548911 114271925 225612426 269643227
  ; MkMatrix 455803066 871225532 1933091128 762981448 882933226 1355939553 706893008 1374562354 1905074955
  ; MkMatrix 2012536233 136273847 1302655484 1823683135 1083963142 827750536 583446067 223612641 1113072900
  ; MkMatrix 1035668578 2117722644 2087451978 1492754485 813450335 1540490277 1226157834 419354149 1633044024
  ; MkMatrix 1944595159 849642627 531507040 1264233518 811575622 61660139 402551809 2089708026 724422907
  ; MkMatrix 684538509 799531575 1431451633 1164129117 1224226057 1526310738 682494510 1998997862 739325170
  ; MkMatrix 696055681 1428980888 1949635000 292860134 1477553838 1292735582 1711925911 874802071 205005472
  ; MkMatrix 1348636741 121254949 1906454706 568330512 739654254 1904089919 1132649052 1460393532 1517006706
  ; MkMatrix 1027691990 65333986 1704174552 197474590 1420199758 779383613 679771011 1140670742 1235713363
  ; MkMatrix 854671999 773524070 108305487 1378291784 32163761 367014688 838843805 1621567364 2041595560
  ; MkMatrix 2054526705 162954288 406335259 377586337 168924576 2128224500 1808940331 925573227 596593223
  ; MkMatrix 1793023969 801851271 1519484383 1877574050 1719865451 1140660523 1442375747 2124361815 439467904
  ; MkMatrix 181352823 1421818942 1431348695 1004459355 753745420 1680468001 950559077 349641131 1812487030
  ; MkMatrix 638490271 2101182796 1808273566 625038432 1799638493 911343560 1489303320 103782270 689572875
  ; MkMatrix 184826010 848430075 1974634600 1245620356 1518944791 1857482795 787644710 2043686531 1984770511
  ; MkMatrix 1363805241 1808507829 612623155 1365940592 1889817326 1438550177 1934491693 2084732870 86418998
  ; MkMatrix 2085482567 190670189 1117407734 1380343196 678178128 212370567 1794697312 2040689325 500807776
  ; MkMatrix 1266034815 431432424 2100013709 1335283161 533962614 1598932974 896142074 377388341 509250877
  ; MkMatrix 629139355 2138652814 488551924 780208230 883493986 1381583128 863991288 1336804738 200863963
  ; MkMatrix 2146257871 681189602 1022698355 1255157152 451428377 1111115353 2029672352 1833262017 1635147771
  ; MkMatrix 439703485 1558020871 646503317 585500426 680162595 1940995563 289277417 162130783 945539368
  ; MkMatrix 2114359551 1042288381 1452366489 211884544 939801900 1483378544 1362680728 593939748 1590916447
  ; MkMatrix 1763451938 330189596 639819329 1264464861 2067954854 1645716700 63818484 1671625121 1590260244
  ; MkMatrix 1731012370 1825727116 1919650867 627006079 1295676644 146130963 43143930 1685647527 1457319286
  ; MkMatrix 1147640766 2067200818 1600731719 58771332 2116495830 162287997 1221808373 1027002772 898051401
  ; MkMatrix 816737525 781445571 90707392 107847628 476454642 1032458349 695714611 1045463520 110542410
  ; MkMatrix 1584126686 1829183198 1515354242 1057176252 2145736620 1918983952 2132200047 1062525512 914859232
  ; MkMatrix 1946609531 1012071555 2120900562 611709295 404738355 1511874225 2128615495 1477306607 639300319
  ; MkMatrix 605734822 679755647 1096573276 1444380858 1996346680 682496824 1287196117 671739670 687495972
  ; MkMatrix 1697233631 81679193 1851588950 280737346 1809993422 668763428 329031562 380324664 2106376519
  ; MkMatrix 1115151700 1442507147 1640551129 1828619277 1247246418 1052204052 413286252 824975630 2032246771
  ; MkMatrix 1288422081 41074026 2054061158 1462160066 1435069051 1844984127 12452343 1779924293 60476272
  ; MkMatrix 902755993 138814887 1195260442 970171525 1423319562 1218714660 768710311 1882238922 979284304
  ; MkMatrix 503182265 217056555 1630076982 612518450 75002783 577813674 783597102 553007829 847817684
  ; MkMatrix 1022257753 1915985941 136752577 174980491 1785046173 806576451 1035566825 349403014 1018510024
  ; MkMatrix 54277785 92754583 661433769 1649561797 760724308 610628270 1521455698 902303938 230169565
  ; MkMatrix 805838011 559709560 830244895 478940590 1560157802 1458782262 534419468 1150887235 620476358
  ; MkMatrix 2147110783 121073358 133413541 1518683691 1841875166 1839190778 1422432051 54464832 963819016
  ; MkMatrix 1279158324 1390067517 527138231 709743744 2104925655 1371858833 1442852010 1278487364 2086951807
  ; MkMatrix 592015050 685518994 696010883 780892235 711452671 1552055550 1226533264 781102322 652815223
  ; MkMatrix 2062663866 849502134 1210777140 1609503427 902216545 771814875 403771022 1682931934 1816428921
  ; MkMatrix 1075002654 1991923761 791028277 820450688 119785824 971427738 236280204 1167249346 355493647
  ; MkMatrix 1683316526 1663912948 2062690873 603317258 857998882 1718997258 1246293468 1026108003 820983628
  ; MkMatrix 1403960889 779341290 21969634 1002597846 2001771230 1254322620 1730440364 826440448 424026885
  ; MkMatrix 629935001 449124645 1007189913 793562173 1801529074 336021577 567459814 2098189791 100795006
  ; MkMatrix 1812263361 1639185726 1909848476 1045417262 571046673 1112267732 661561311 1994986809 839168931
  ; MkMatrix 1859038612 848079573 1555833214 1643376059 887304527 1485906247 1787385304 1447287932 1669243939
  ; MkMatrix 2099192700 172518049 55754573 1632348355 1462884724 1585284251 682021091 427273332 454345599
  ; MkMatrix 1951917886 1798191840 1196783936 1215872756 1811797413 1759265674 2084279503 808497477 1206700749
  ; MkMatrix 254873674 2064319586 264169534 412900814 1984949021 1330868706 442610581 365361293 1105453292
  ; MkMatrix 770008860 1137850787 350529158 43145319 2119903447 868347686 690852562 16095287 718405726
  ; MkMatrix 2108059419 1195558340 335137915 1764727478 213279863 350363361 319884921 1760141938 1529965467
  ; MkMatrix 1721050611 1755481036 1638109591 1179372387 52368464 186745681 1680122785 1128200324 86995080
  ; MkMatrix 1108838960 1554146624 1603854779 221736959 1800157958 1166052988 2054729692 791071755 986411932
  ; MkMatrix 1540582626 490989857 1659084141 1089168907 2076703574 596031032 591479821 989525152 871376312
  ; MkMatrix 656922648 1846257828 1876226202 884262323 1411553895 327844713 1009861276 101314147 2127713220
  ; MkMatrix 1738331222 435662726 1782517160 133324626 301108797 41995163 2089941400 1549328783 80966270
  ; MkMatrix 1188464265 1173112258 1529870171 53260481 1966876409 1294020677 754840387 540685622 1992384806
  ; MkMatrix 1746129753 56866372 1370117130 173269596 1865517877 841585329 2041929906 102839223 4163049
  ; MkMatrix 403844792 759681119 348071666 190052854 97082485 1906825630 754424519 1966113737 1234303777
  ; MkMatrix 878877166 2026237240 150657395 260631675 1108624424 215391679 2115379772 808738943 1147688341
  ; MkMatrix 1934323763 2014192616 1470812648 925577446 2004382320 1659301846 1534302096 2106558630 193344976
  ; MkMatrix 2137054764 2138560395 1239832814 886887333 1294862063 1820087957 280679482 1003397879 836298623
  ; MkMatrix 2086536103 1960420303 905164518 1613730951 1827887863 1552255214 1865113746 1605186234 621827587
  ; MkMatrix 1899248451 55235570 1001979255 514842378 1867627358 571614618 587165774 1812572910 159485016
  ; MkMatrix 1900194377 950459652 1271111842 850267831 793212722 2110752720 532348390 1737687718 2117757303
  ; MkMatrix 177142920 465064078 1686352619 1597975491 440418453 403064056 1115783470 133709453 1789484515
  ; MkMatrix 266461828 276406817 1667525216 634968984 296419933 1042138636 873279964 758817726 675078823
  ; MkMatrix 1234560660 1642089858 502764970 99198734 1067992241 1209993627 830886477 1633749567 1247799169
  ; MkMatrix 1988595382 2524269 75854653 888456184 1927117775 1668747897 1317153989 1393819929 258164794
  ; MkMatrix 806233933 104605955 280043086 1503944961 1753128410 1218288449 820009770 143199718 1488260144
  ; MkMatrix 1519623756 661079024 1062641559 1135701936 147788696 1847197627 1167741666 1371237447 419474866
  ; MkMatrix 1862051480 1128218083 744876945 750958361 2120558873 476500065 1114972834 1863956422 1682922490
  ; MkMatrix 255594434 160066322 1008759389 1704510493 1253154834 1573846823 780035548 143007863 1525224629
  ; MkMatrix 722144647 342517302 1692949352 319170105 34614019 841385952 539470810 1204097145 150050930
  ; MkMatrix 707678599 2006882559 545325147 40748199 742682443 1651820867 718807120 1936649354 1568093722
  ; MkMatrix 2058430684 1843046874 1743277071 1387383374 1243961460 1552092864 1629541298 602295555 496287104
  ; MkMatrix 1141897953 1538803612 657343709 1358478414 1451293759 387520052 1810201879 617533574 590911914
  ; MkMatrix 2073028486 1707750318 1648156762 1975880136 3829591 1626435442 1293652722 1737850048 254575533
  ; MkMatrix 757970798 330952186 999508078 1495992228 291684203 1998397689 1266436528 1911732902 1984809699
  ; MkMatrix 1715739345 1352865252 1258406525 683923787 1319398970 1289227393 55557661 771852788 1908243953
  ; MkMatrix 1000661620 1682247519 458572934 528134842 87947364 1332015952 1280857539 2119944168 204960364
  ; MkMatrix 736217460 1395826950 1372692173 2001593474 2011552687 1138150839 866965197 1376033108 241450911
  ; MkMatrix 2101230035 1960032920 502470924 966276483 1024327206 687731496 1979751818 58614982 1218560327
  ; MkMatrix 614559327 214620668 522082565 1050396628 1004768593 751144180 259182102 1174431257 271595106
  ; MkMatrix 125278026 1036667609 1917348145 1247457709 1764861016 1637065394 700130163 1324534699 1193899689
  ; MkMatrix 673858257 2026131203 1028939427 2027900591 346750891 1468158266 1159329128 333645208 1088968527
  ; MkMatrix 1382291676 1717144864 639238488 1812324097 2092711566 803846048 1216885830 312672233 1231657008
  ; MkMatrix 1087003426 1992620714 123661247 526758917 624918221 108930962 300283775 2032272331 1094738911
  ; MkMatrix 800762247 1130237249 1211718942 1264369540 1214783325 1601589739 543788351 107675976 747600004
  ; MkMatrix 210366924 849074977 699635082 1215797972 1014941671 1204943283 600027480 1005788354 18670653
  ; MkMatrix 1467365579 1268414241 661913986 1850477808 553295278 647462106 1079547343 1794758785 462000615
  ; MkMatrix 83239785 1128118033 1768481842 1132910099 1033893516 1635855020 1195932585 1251204606 1240216998
  ; MkMatrix 1583473088 1426305959 522000824 643675676 1952270898 1731083837 1741482581 141530955 1365864152
  ; MkMatrix 1273029620 338299903 2115772360 1817936998 1536223139 2040223183 1723816793 462981844 1803676223
  ; MkMatrix 266641722 278708955 968982543 398710068 1169311100 400132717 506813545 758196239 796568234
  ; MkMatrix 489403740 387472058 2043891459 1250937394 1871465795 216180749 787112191 9080486 365049072
  ; MkMatrix 1218438816 1182445150 582509383 1697784885 1910037976 326494835 2078848926 1614432855 808115565
  ; MkMatrix 2141438715 877107049 724114978 1508004380 275837403 1738216234 1618977849 1907729774 1111370535
  ; MkMatrix 1461854384 635158806 1822479404 1732768371 886065765 553006501 1736301311 158695271 2011638426
  ; MkMatrix 480610959 923473919 2126113416 579326734 945017929 647885901 2006727533 1272836468 1358518624
  ; MkMatrix 647693355 1392071757 969230320 1600066751 1708617414 628508171 1930368466 1568682882 1374326770
  ; MkMatrix 103419126 1903864243 1927593512 1762191222 1899789387 364428996 1370546634 638254806 173161652
  ; MkMatrix 1846176344 1238907708 36852983 461040286 1145863001 1022242717 1504429132 1222980278 503071539
  ; MkMatrix 648546288 1839258631 1210759661 64019053 911636655 323777242 1312185991 785869962 851330533
  ; MkMatrix 1770031485 1021748250 1765923389 958549231 2079614051 939108142 1651983904 809851594 1151920899
  ; MkMatrix 857694519 755971488 18664023 1154017072 1095630392 348404224 326219274 395595232 98178602
  ; MkMatrix 618518704 2034880871 941340281 1540470474 2021189741 100412407 1657815215 423364237 1550889711
  ; MkMatrix 234341828 1776143788 2087945730 332141440 1138043713 405633960 1945973844 80547324 1539348879
  ; MkMatrix 53742823 495088528 1750071345 1266312088 392766969 798401087 74766594 595898686 828447523
  ; MkMatrix 1800388266 2128687854 674394947 1448156380 257969743 2142797055 1535028713 159277054 1705461327
  ; MkMatrix 629348521 766844628 14873287 1446649637 1580871502 653946828 644985356 791408033 552259414
  ; MkMatrix 551035313 1977956196 637937513 339428318 1289282683 1033474560 276221417 2068111922 780191875
  ; MkMatrix 922519739 1250255857 1117829134 2060918877 1032293149 819999766 1475074310 470901045 1404348695
  ; MkMatrix 15447422 239907709 992272540 700841405 571670874 449249476 405538494 2062141485 386792266
  ; MkMatrix 236708849 863912481 1641506348 362289303 1658364631 1747432025 1566776051 995033691 343735198
  ; MkMatrix 970093161 595062049 225855619 1323903212 2092363776 362903625 635710262 1316152985 21097496
  ; MkMatrix 662134054 2058295933 1320053301 1356955682 517245962 1182303920 906246929 2006136898 1747833330
  ; MkMatrix 827536188 2016108696 1813986196 9880910 1629226286 437980842 1875441266 2145205208 1737397922
  ; MkMatrix 920214924 673207292 1026441789 1697577249 1702801160 780628798 538473345 2045982490 2060449112
  ; MkMatrix 631743781 2065752937 2053170836 84794889 1739485277 1952016796 940468228 614624468 235876525
  ; MkMatrix 1025177208 1039388646 2114696014 2092693698 268905792 1539570082 1790594850 392243677 1956981605
  ; MkMatrix 1030276901 82038243 46058912 1276262702 345997962 1976299157 1179715307 1614981621 2035612224
  ; MkMatrix 285239666 1292710535 1718728606 1288066722 787269268 1837121746 1719981089 1652440982 423663289
  ; MkMatrix 1503962926 16337520 567916968 1215059225 1014207967 134195590 1594690335 120046696 542694894
  ; MkMatrix 997610914 732889404 689558067 1697098256 582527870 1886964137 1854481719 940655472 1541788643
  ; MkMatrix 937918483 664116158 1865346423 424452223 1590029988 657967236 1205561161 109879999 1444197806
  ; MkMatrix 871215631 1375953232 520604750 1524267767 2126697116 104660120 483973708 66386781 63352278
  ; MkMatrix 764508237 876995658 590207498 1262634354 1113985855 287295228 1348647627 1542226961 681580601
  ; MkMatrix 955487631 477620811 36668487 271326909 1822489881 1324316146 217402930 1268977707 2129966960
  ; MkMatrix 1385861199 1884536017 1234729716 296691035 1766615667 1292110415 245620159 103349797 1408320691
  ; MkMatrix 509303627 2032766214 1382156396 661894582 690011421 458645574 577385351 1640925715 1726300156
  ; MkMatrix 1333648783 1705462589 758323473 1366569260 744105674 1560808062 426789016 787696375 2079024678
  ; MkMatrix 806830011 1064875755 180417669 1799663562 734380071 1963601257 1318518329 157066141 786781104
  ; MkMatrix 1370351540 420766473 1924365831 1859038734 74293307 2088627081 1300720535 866915635 1381485570 ].

Definition mrg_skip_matrices_20 : list mrg_transition_matrix :=
  [ MkMatrix 0 0 0 0 1 0 0 0 1
  ; MkMatrix 2057004684 1493057145 1403435589 293942661 1174538212 1202602235 445653895 1748576533 1958400796
  ; MkMatrix 326008212 689616539 1998408437 63370352 1029484943 1864003853 594387812 1143824806 1273391355
  ; MkMatrix 1991460307 845822920 1698463356 12530034 708098079 900431089 202196469 908128911 1571368966
  ; MkMatrix 480611564 698258957 58642830 1110046136 889827382 959541639 1762912721 600400866 1323932173
  ; MkMatrix 712899949 1065416683 305072726 1390372915 1311110036 1782269342 2043510468 1534137710 1847903661
  ; MkMatrix 1706688237 1256055868 1106147095 1142001677 1797420356 336592438 773591377 549122148 316737416
  ; MkMatrix 766703538 719114066 1921605263 481446117 2126558390 236019463 13637351 1657789050 472590399
  ; MkMatrix 1367753254 359163413 725928939 990141691 490259944 1383688327 993257301 749875818 13055043
  ; MkMatrix 1175102122 934858792 1322929596 1359031153 1119796165 738321414 420272007 1963555227 1184171112
  ; MkMatrix 969205947 1083680420 2055462417 1276984209 994006866 1496077615 994964340 928746690 1742687348
  ; MkMatrix 664321318 1988110833 627277680 176994333 803361452 1540850007 839599454 1386373077 2143491975
  ; MkMatrix 347138697 1886700805 1233995738 1488854386 1139037303 1443079714 84672744 1888715655 2088599559
  ; MkMatrix 480553805 583484032 1293153906 1188439078 2013920560 952161112 100904058 938374293 933870281
  ; MkMatrix 575473114 1841922782 279698223 530344551 1325314017 996262098 1863741771 1059150937 632488642
  ; MkMatrix 1940277118 1727655663 1975174645 1208221905 507608333 833810307 287476667 1859224348 715873270
  ; MkMatrix 616793459 1893772612 537768115 1979763980 2095739426 1570520719 2028195328 2128889074 706383156
  ; MkMatrix 1738409816 1876319505 2117553733 394433677 576334867 838379340 1824120964 185488069 1477781684
  ; MkMatrix 1349385451 1747691947 863519181 1884406015 1465093658 309039398 540607027 299329185 1897199355
  ; MkMatrix 301386811 1357166917 1216558054 605534421 1291569734 285313892 257704733 1911202135 85778075
  ; MkMatrix 1288693491 1926031733 948855490 269038594 350253807 508621370 1844579834 1126674205 492788747
  ; MkMatrix 75150727 1373002184 132913261 131710748 951732606 2098318706 42746808 975742824 1039719347
  ; MkMatrix 1453280185 2123445014 2027741438 33663365 1294110971 4184214 1382031869 516319852 254405564
  ; MkMatrix 1284250444 1969851 1326290493 265308663 170056795 2129462572 1869468781 1865852419 1557117913
  ; MkMatrix 1827860233 417096538 817753285 556481419 172468690 1173209827 1158749122 365667591 1225601039
  ; MkMatrix 1382175323 1601853364 211445990 1954752359 446050799 1440214548 566364357 1434402287 695629275
  ; MkMatrix 728921357 1299124112 1636783535 1310232837 1498764388 721879090 310384030 127856603 1776137124
  ; MkMatrix 1722027948 2022404006 769842024 1242438766 1918816568 131204036 294423882 1354138772 585874539
  ; MkMatrix 56523793 1178202244 1279801811 1629999487 87069940 406799640 1137421937 909779262 2130879210
  ; MkMatrix 1646469568 1813726467 1768631429 1763016005 1626690277 2096455577 712749430 439811881 1580130301
  ; MkMatrix 2043143516 594289127 1763183781 427509242 784244863 1597175814 559927152 1520024927 1003855415
  ; MkMatrix 1641396282 833612367 752114710 1014522539 1094253068 473872033 1982123869 1287146826 1287996773
  ; MkMatrix 2083010532 1501616673 1403337849 341625420 1443048607 2061053175 145098326 935086100 1115768472
  ; MkMatrix 430929789 1480829660 631763621 390019347 1472726769 148888228 1438646200 2033976824 1190331610
  ; MkMatrix 644268113 1321725811 1977221359 1132143998 53405643 344612695 1319736004 1099733126 312744143
  ; MkMatrix 547255956 359183077 144275905 602785390 1920908123 1885630410 558047085 944339822 1805137550
  ; MkMatrix 206043346 2036960365 1479390315 2143271149 1339806661 461606641 1425202173 892831112 168322313
  ; MkMatrix 712465269 1543059027 572680534 1148363014 1176116939 112580177 211154925 1611329702 826899908
  ; MkMatrix 1465614201 1471082812 1805884848 156731835 271574675 1065492024 1862459369 471238697 1932002231
  ; MkMatrix 1270709803 100955866 1015156851 863327247 1096923192 2125813629 1237489722 644954209 1837556860
  ; MkMatrix 727929514 1948106865 572209447 1745743603 1275198458 1049086441 312403375 1099531510 1964104253
  ; MkMatrix 2142818190 2108077654 1507385127 760826643 739671474 284349464 1837359544 547247532 1836625026
  ; MkMatrix 1186819277 1129947851 1227986454 1570016853 1088063414 392438557 768510412 442044750 2007089575
  ; MkMatrix 249335502 1514656136 1389742207 867186605 279194099 1642137075 278123319 662469261 154704040
  ; MkMatrix 1138412749 1623600618 205913796 1517990223 1877993034 44040150 1264241567 1827124951 272131660
  ; MkMatrix 663890081 1764683428 806037818 294096034 1837711895 1639696082 446892554 1640922193 511769851
  ; MkMatrix 1008526460 230454402 170022707 1675639553 1052959513 2024953788 320282340 1563540734 2008958809
  ; MkMatrix 1660855320 941987691 1060879003 249241510 1813690913 360688329 1901005729 550257146 117862359
  ; MkMatrix 1899564477 1832171501 1400234077 1547516366 817894989 845201387 1856032868 1756898321 310354759
  ; MkMatrix 880456370 619896595 57205613 1617732026 376485306 1385478689 538655713 677583250 1213072992
  ; MkMatrix 2026697930 1844882896 579423998 1782140172 1006044093 61796797 235672572 840661313 2107677004
  ; MkMatrix 1943018722 238557294 1278424050 2082227745 689203945 1920732753 2002031957 1059394013 1714280411
  ; MkMatrix 1013094480 1680723598 569448587 1467290270 1465319305 1326140530 1179041225 1591496753 156676165
  ; MkMatrix 1309927476 338633984 118072147 339059229 1661193861 1598146285 95591859 198227896 1162317368
  ; MkMatrix 1278685986 644455209 1499911703 2004241805 1890989696 841160208 2064499089 100551118 1641048440
  ; MkMatrix 138254466 1649990131 776736739 1031896897 666806794 98362515 205438947 1711612542 282490769
  ; MkMatrix 65609183 931570160 2120906090 1078114125 176304470 1230729493 938531491 1930744109 466911673
  ; MkMatrix 418439914 1231832626 812676509 955359417 1920465287 441133562 873028127 1401418849 248852684
  ; MkMatrix 84918408 575069803 2074988856 1605708142 1705896001 1404341819 1476095037 766952332 578469226
  ; MkMatrix 724412980 1681762713 1081799755 1234150971 1002177208 1428218170 1655665219 547293962 1025372686
  ; MkMatrix 660596556 1680691597 1677014213 270065565 2059534794 1019986073 568399811 1252241637 1299127674
  ; MkMatrix 130737665 2032055621 1450509013 1894913407 218662900 375684703 1641141914 676268643 304091422
  ; MkMatrix 894783980 1407582811 355752025 182139961 318954145 1094408418 1905444361 1770092264 128918582
  ; MkMatrix 1277048915 1369428435 2037345251 23945992 2071363564 385590403 77027510 1070728187 300744328
  ; MkMatrix 137115395 1628275660 1784018621 2007697726 1809746453 1043414360 1418823595 974238556 1039266229
  ; MkMatrix 1087815444 801813743 801901824 1449960409 1266550873 850575067 1255819827 1762042746 1294081006
  ; MkMatrix 2021558774 2083202094 1610611287 1883727423 404570486 731411429 173501281 1930376157 1554299931
  ; MkMatrix 634366808 544704234 1098709761 1413488902 1102900700 1181669310 1758867326 1442130432 1886645237
  ; MkMatrix 190265193 107584443 521623222 1711714456 1403142458 1436855996 1736710541 1211239949 1945576117
  ; MkMatrix 1818602194 2092037187 374865297 1547772754 448454786 811281325 627787745 1864917955 1406346237
  ; MkMatrix 2044115671 2139609086 115072713 923540241 1709597056 457800960 2102326024 617222862 1708317419
  ; MkMatrix 1707750326 1358883296 1652818483 1919943202 1520306675 1405415776 731426232 804950562 1453322343
  ; MkMatrix 82321616 1570670509 1225734244 1921722893 740737498 1112361214 192162725 243853204 1084885606
  ; MkMatrix 1800522813 1681801037 1600138858 1955892059 822737553 299998776 1065642557 1260794617 59336890
  ; MkMatrix 1269136998 1706926680 297452019 1468904992 552494670 1047980366 574903985 1804559509 887266483
  ; MkMatrix 2028352630 2122245347 2137521670 1929120995 119527489 338580103 193657534 1217095764 123040701
  ; MkMatrix 36704471 70787896 1962599131 1064489833 1908465246 1239057337 1206806516 212610823 8690358
  ; MkMatrix 764347042 1919468321 478508774 1189573328 886333285 1866695221 2080023276 32068452 16115868
  ; MkMatrix 536230677 1868841066 852130758 1663627798 670337787 1359037782 591215899 1349328051 1379188975
  ; MkMatrix 922671861 819429522 1679590862 515660101 1658781112 603868553 716617592 1553334132 256120707
  ; MkMatrix 608759690 1062201155 195757463 1169110146 438667547 1922877087 274369759 965706548 959663714
  ; MkMatrix 1996138415 88135852 2080271182 542415663 1854431987 1000100142 1944984497 1687032189 82854715
  ; MkMatrix 69289307 832953555 41165152 1421502474 1196042622 1560321574 998291154 427855476 616796476
  ; MkMatrix 907022725 1589082094 929655828 360232601 682413225 1808495052 1585172748 664415598 235119401
  ; MkMatrix 922332699 1955670008 526617204 1670254808 1417796156 1525479381 100073603 1957351594 88478004
  ; MkMatrix 461288356 48510635 1275216754 654297052 839612329 1605046628 1572443893 1499806060 314680208
  ; MkMatrix 62059565 1637224251 1821988584 845595377 1238601031 4890668 531786662 874218410 2006366411
  ; MkMatrix 272261086 10810502 1405339653 1663090291 1536265991 559764216 779925448 101626196 1071200093
  ; MkMatrix 1548002523 2068820898 926794170 69199758 778258472 1849142562 494342638 1828915117 1963499281
  ; MkMatrix 943944450 1442100177 1408001706 1670660799 1925505101 37977796 965212748 44346149 728867943
  ; MkMatrix 1833705841 141856507 1415403399 1212071752 1867933203 1754917292 2089672535 2091299100 1135978518
  ; MkMatrix 1263987074 170853200 1902360234 939073390 465439292 1231696277 1149143990 1610614817 1727085206
  ; MkMatrix 1349961093 117282506 716266506 1662890979 2109454225 1040660494 1855273886 1657790213 777608374
  ; MkMatrix 15692750 914064985 40220112 99885715 593440015 1982314346 2138138832 640027312 1657920644
  ; MkMatrix 2117397139 1250953331 686411107 722256296 1481257655 402490150 1619281378 2088243096 320875842
  ; MkMatrix 1701834681 221640701 712242194 1276667654 998202161 1880856392 1342432645 1343687140 527911662
  ; MkMatrix 41024946 680714362 2097045829 1166150095 685898560 1310600725 27722840 1156447101 388516257
  ; MkMatrix 1353838906 256739459 1441465660 1378538060 1830574470 427140936 862469603 1398796246 1985240878
  ; MkMatrix 455496733 778366753 107886443 1086551098 869025462 2014807267 154323176 603041257 335838475
  ; MkMatrix 995779296 1145738914 1212548768 1581579267 2126078561 367719431 117479326 37222950 1039308705
  ; MkMatrix 1345113064 1543772084 1420996703 598883302 1700800231 1502479241 1002503151 1429123205 1737478021
  ; MkMatrix 339392649 1766615626 928972046 1862233809 757469527 466712193 14003502 2072080948 891234654
  ; MkMatrix 2048161926 752903797 198118197 138006366 1998702660 680292217 1785377021 1767982238 1165160512
  ; MkMatrix 221898995 1969379135 1712731882 727264407 604208883 1354843575 701665719 374307223 795323902
  ; MkMatrix 1866254603 403834476 477538122 486215991 1248544165 72767912 1740559541 2131877981 609761054
  ; MkMatrix 211286536 2089234005 1090547832 629559641 1027457124 1585786988 1394515845 678350007 1541653898
  ; MkMatrix 1369032307 1889264390 755153950 1599554749 2090824723 14238712 2038660589 1852391184 1871984538
  ; MkMatrix 1893020416 968868136 1705921458 1096561632 896971375 2024297908 1856410649 1413185546 1046601528
  ; MkMatrix 1828409107 842565863 1414626544 102984408 282760759 954241952 221648402 240155832 1487196406
  ; MkMatrix 1875937515 159673286 1090617554 404009963 280719950 1113707891 1881935798 1678067716 1411383167
  ; MkMatrix 1428513094 1165653877 1024233153 50531304 1892690499 21429200 1016732933 1090539148 222511609
  ; MkMatrix 328608006 615802672 994110260 1977223467 1102791125 1145034964 1022844752 760234345 1373580016
  ; MkMatrix 1697025031 907102920 1860392660 2038778295 736675553 1494260165 1874272514 738537821 585561498
  ; MkMatrix 256823182 1071325612 1154862252 1785816641 1148349916 1196185863 1058319747 19540359 1034136608
  ; MkMatrix 166066923 1330794871 469892707 1167297925 440177505 1594793995 1522327544 1063980014 1571023053
  ; MkMatrix 2048005445 120104848 156657157 1908445946 1986298278 2087657501 1680834861 1427527927 90799133
  ; MkMatrix 2046833158 251671288 507811883 937916346 1369093037 1468014965 530877557 429986654 574352614
  ; MkMatrix 1319348657 1870795646 1137486658 587553504 275966951 1086901069 1723438925 521220792 1382029862
  ; MkMatrix 1569545426 1734275187 138525607 1137563859 586585611 1829179382 1860544835 2096985902 67388910
  ; MkMatrix 1629127555 627987180 1972450653 1322654405 171544828 1668405271 422141167 1926524273 893125703
  ; MkMatrix 457137643 1692642621 1602085667 408254420 899354357 1854766993 201297943 659922687 1420000693
  ; MkMatrix 166889960 1215824772 820848592 1287191136 1390483878 1157413286 1059999036 486694744 1649637447
  ; MkMatrix 1454276444 84012725 1363748340 439618185 40935553 4512699 1254794713 1396304406 196474105
  ; MkMatrix 453585048 887879589 2070186427 842738028 2103148370 1588118281 1621719211 1456252310 519718238
  ; MkMatrix 980330825 1147448985 216597502 535811394 573353957 1341204108 606169523 645774608 1206326303
  ; MkMatrix 1862778847 1677915241 505799207 1697118042 1640898196 1777561921 2138510364 1378136144 1588047275
  ; MkMatrix 966382062 371634878 601138122 120979948 2073397983 248149521 621659972 1191889146 152998229
  ; MkMatrix 879465693 1892922280 1534689256 53270682 462938373 833490011 276600111 1137576649 1031154187
  ; MkMatrix 822720115 1665783426 1399979741 1621236283 535910657 840960474 461398481 1567120997 1812779408
  ; MkMatrix 1407085920 817122760 1903203561 1280041918 460431220 324642688 501088432 245667508 1233441051
  ; MkMatrix 1021412468 591689948 1399765765 1185604133 1376125921 1093189043 1339272147 1468478158 647410201
  ; MkMatrix 2077666017 1019122209 48528326 1659407681 1872532762 2117300203 1777079449 2003797515 634332720
  ; MkMatrix 176928420 1524874174 1261972413 1905304288 1022970798 1462949227 1501559460 1379758477 217932784
  ; MkMatrix 2144043126 905849904 1769953057 1164530457 2009019497 799679904 1919561820 492683820 1836580160
  ; MkMatrix 1914967213 1333759079 1647977708 1631439162 1286323842 2059384925 1464063896 689520069 2011359459
  ; MkMatrix 939108538 147309699 39945260 108571273 1917978409 1751356993 822834683 142701681 1975407003
  ; MkMatrix 104049758 1273874899 228435507 340873588 933298442 1022709119 1910596780 1819648362 511169880
  ; MkMatrix 1053544681 1758026420 1079175538 778007214 2047496311 1496659964 984841280 433312766 392598290
  ; MkMatrix 62607493 2139471811 116654020 243923686 108388892 1365939912 927065239 1959560317 1247903881
  ; MkMatrix 1985354821 1225099286 909071388 1111633495 751716544 637599281 793285822 1048731822 599408771
  ; MkMatrix 1820374917 1451011354 589710026 373076879 1562250613 491757586 1061839965 538303803 1695966829
  ; MkMatrix 657562169 1313634731 309894095 1988969894 6146398 2049855613 988309001 1750435926 37738918
  ; MkMatrix 258158906 561494664 1300685037 1768149191 1736924180 1115384141 1017674770 338221198 1403798396
  ; MkMatrix 678289878 481867072 570225486 1717976783 6196551 29717250 1633566272 287235129 872031897
  ; MkMatrix 1815994883 202012536 1907654835 302965204 489818965 2036020521 1302421835 1457730297 1804974461
  ; MkMatrix 1276619775 2124812907 1631780063 1411248032 1850068663 1141125074 588141193 453779338 1476497530
  ; MkMatrix 1210256512 642345096 1228226870 917624692 1156188033 1507245505 1237561855 2095090778 208157896
  ; MkMatrix 1300275027 470417926 1028321440 477598224 714822590 766940943 1082014657 1924254194 1544572175
  ; MkMatrix 1770774274 1152570880 248933009 1088003609 1638136842 2036038437 1361680656 181918650 500723491
  ; MkMatrix 400266524 1835766434 1679488049 289205855 104772934 2125169880 935678591 1142834354 1208019463
  ; MkMatrix 786315665 1806420325 928372064 2060320050 1445046500 2068080754 1707782353 710976950 122462744
  ; MkMatrix 696936287 733295196 991656552 1293886922 907757460 1240986772 1845801370 1721598266 949443161
  ; MkMatrix 1939197430 27106071 116953023 104332173 1878773052 422128794 1472446498 1521711181 1453548321
  ; MkMatrix 1480896784 578266830 1832465514 1351427601 1063096624 489449685 50545389 152620709 1976047017
  ; MkMatrix 637654235 1915246905 1567480458 1934386520 824679151 1155197011 196793863 40147568 1669620961
  ; MkMatrix 1917376833 126329144 374249217 1312083260 784543139 851111623 398482696 743117587 1276071260
  ; MkMatrix 1465807910 747783709 1294202988 154731936 1145730119 1308492764 1265727250 785469222 1085564256
  ; MkMatrix 1420930961 371692148 892808574 349525768 1773394468 2129224141 254954307 1011911037 1097103058
  ; MkMatrix 216188009 1086480272 1758022831 306894384 1643090979 1977182110 2139750916 1275968481 1303876193
  ; MkMatrix 745338691 1473530219 1444931315 374922516 950655526 246294036 929231673 1445555801 552085178
  ; MkMatrix 553241649 971522886 936634687 735873458 529654142 1744255950 1399886928 1104906492 1431427058
  ; MkMatrix 232750703 785695828 1513146475 525212045 342501429 1026355629 2120289646 427355763 515049459
  ; MkMatrix 616795467 1880743007 1382888497 1649372664 1530166237 269000223 1610860966 1729816420 924730490
  ; MkMatrix 256900901 1223521154 220994492 2079035778 1543759636 1240980021 2041509314 720262424 1721164517
  ; MkMatrix 189298541 781379966 1758904165 571206238 2117094881 822499659 1363655102 308675317 1686935973
  ; MkMatrix 1695002579 992932681 1507391678 311920161 1323658181 292307596 975587290 1044206433 206566653
  ; MkMatrix 1184378926 693043162 2026947558 1005291478 1125616763 922755632 844989628 1568538567 1328247541
  ; MkMatrix 1301840932 1320359322 1320734712 561306263 1387352864 5721537 996609627 964112170 2123655428
  ; MkMatrix 1594327070 908866805 158672950 1726867196 1998576114 1424594154 1163303549 138594948 661577694
  ; MkMatrix 1309810234 1939905820 563090219 1062726250 1804311021 837227144 699557448 1676874602 1432153275
  ; MkMatrix 1849006473 1647753069 1570474047 1980062720 879395550 248981527 87466142 16714288 1732539008
  ; MkMatrix 1835889368 1062451910 730358081 2086389517 1326886100 1278884090 1356490473 859998575 489015687
  ; MkMatrix 1966340073 703036270 334905369 1273778385 1543245316 1410681615 1451779539 658281364 1742343568
  ; MkMatrix 1876012182 400832747 1991322179 965684671 1706706417 2106460495 717190094 70423044 2111555081
  ; MkMatrix 1614736880 942625395 382915403 1810347324 1855709780 377467487 1002421059 1352125771 416098119
  ; MkMatrix 75595196 630726092 1399993586 1976793080 327521453 174771044 1768320450 284139099 120698586
  ; MkMatrix 1330439058 353524112 44891079 1836690278 126625535 1820605724 1984659452 283066011 1208668437
  ; MkMatrix 1361723932 1378969322 1054237058 1169185815 101736841 43372487 1790675964 971945957 1586916856
  ; MkMatrix 1757542592 1682923440 309370064 1620553368 1045385908 208790074 1739532091 45349495 492642673
  ; MkMatrix 1734754686 867989865 1635404065 1589545818 1814478574 905070819 1211255096 736109805 2093711054
  ; MkMatrix 143299662 1790454966 1513728122 1541843050 1770203935 1955048449 1795828806 1557548062 1439810478
  ; MkMatrix 165232477 2127677345 1768771369 2000361179 1185536690 1747723431 190700527 537751624 1426820351
  ; MkMatrix 1979567700 2089075067 2140009702 212440451 469408332 1396226372 792337013 1330986867 755182205
  ; MkMatrix 2104116209 393809822 476670078 132420882 426046696 623736790 1332104025 203055385 891848223
  ; MkMatrix 555103591 1294126210 1216991812 1114694245 1295042758 133472312 311283044 1435241909 1759075731
  ; MkMatrix 439125168 1359154129 576971756 755079807 1601662257 2064453779 1894522398 2024732250 1966747793
  ; MkMatrix 855510106 1455253641 728595301 549991771 1396043187 1800070198 2031306014 1342273219 818873378
  ; MkMatrix 1859442239 1673880699 568807490 986201072 1078843585 915701733 1644176254 1913977936 2126938225
  ; MkMatrix 1064891660 1361192847 817178800 2135744164 2145733028 988480766 1115455626 242096142 128264096
  ; MkMatrix 106883270 673468143 528116108 1451087769 743011848 1709800822 144434185 1937406716 1782906415
  ; MkMatrix 2145318509 1491682535 298272092 1618831722 722747330 1707188698 1633491330 2120851580 2127932924
  ; MkMatrix 1374195960 1562017539 1445590134 1074363836 1704007235 1081048953 315603724 1393399262 1431065858
  ; MkMatrix 403528979 1098957500 17742788 761309221 420623310 850348175 1330733662 510300804 671514758
  ; MkMatrix 1702409222 137507493 2032688955 100485412 1325508694 1903896277 1044202711 916130469 1971230671
  ; MkMatrix 216940987 1305251850 937626368 1675424382 834697759 1980941781 351670927 156475187 1531550720
  ; MkMatrix 122689033 432005165 1590026522 300515980 467829269 1784928374 321056497 2013507306 407346806
  ; MkMatrix 1377003669 1406788686 559015045 1331447348 1099051468 1891205043 219215827 2006341085 933703000
  ; MkMatrix 768040764 2022685739 1790799745 1821639325 118092335 35884554 1133995057 1102618508 591169316
  ; MkMatrix 93739404 1152657056 1635761003 502799350 2129159844 1549344994 449245161 452937726 467393087
  ; MkMatrix 387320065 700647489 534510455 1870904535 1345759746 1101956378 2081561005 1679229095 221158651
  ; MkMatrix 301606822 334271278 794480381 493045350 789587880 443457255 102399430 1530947373 1649620670
  ; MkMatrix 402124027 1678645082 2147322363 277277928 2040466554 142037302 164874025 756442931 809343887
  ; MkMatrix 1076424509 259126313 658987844 843769049 1786876319 848745376 2079913880 115799191 779978961
  ; MkMatrix 1553979347 1976050397 154181223 458355687 280603977 36293255 1752091319 1885233190 694514184
  ; MkMatrix 1708493109 722745426 1342252957 692787191 1271090363 1091140479 852979607 1145863605 1406909013
  ; MkMatrix 1536272169 1088816042 181007615 784162184 583789790 1517488424 79383396 326881266 1113626441
  ; MkMatrix 1596019616 1238944601 645425291 407935606 415769623 250841006 1201876033 1383143365 468540357
  ; MkMatrix 332041095 1106519810 1835612312 1613550299 1699162283 453434515 1140039320 1214536537 951951948
  ; MkMatrix 1663956313 1752131066 1069677304 2049118868 473399760 418127080 923332826 222713826 1039695015
  ; MkMatrix 284070660 1182755765 1802462338 1821128803 2106406221 1083331034 779051382 1763209184 1918779736
  ; MkMatrix 770437803 1464517849 1187088010 453302910 1147799773 1516987165 1193013414 1538986768 1468147863
  ; MkMatrix 851640141 571395732 726520172 2010787717 2001315731 380695865 1130147531 648868440 1774211777
  ; MkMatrix 251862914 1795373475 1108090510 1899793922 133920035 1062976361 843422966 101357331 1279560975
  ; MkMatrix 338872660 1680889385 888922396 1148830503 1175873298 1562283954 1845361565 1039824867 1563553871
  ; MkMatrix 757373824 1192954155 1511139082 312473714 923514060 1357370046 1680304660 1871850730 1342108128
  ; MkMatrix 491147954 1124606586 203645330 2012634112 1335685733 308459708 954677891 712129209 2052808151
  ; MkMatrix 2097126388 543175164 1806049620 1394377251 1924606110 668174387 176324214 688418682 1898407936
  ; MkMatrix 731556925 1777499416 1971218854 432667385 1743990349 2058325404 1680301692 1133051981 1454796338
  ; MkMatrix 510998238 1506451534 1471876853 1274060635 609270729 1112853786 1726623122 884490907 1051318188
  ; MkMatrix 758242898 1680957232 1617953001 1244363555 611457824 1200823853 446045376 658750944 810391723
  ; MkMatrix 1351434703 1599723675 1181382983 1702810649 1334196431 1448844076 244790827 221269489 75636104
  ; MkMatrix 1590290128 1266378229 96487915 1405717653 2135027022 1568770143 2017024559 592384875 1390821404
  ; MkMatrix 233593815 1224371145 1698914018 1836089362 1640312575 605742398 1272155814 746589733 627386892
  ; MkMatrix 495315470 43744453 1057313119 1366214093 1024019037 944125862 941617432 177654533 210220674
  ; MkMatrix 609090859 710632614 197114081 1629480982 799315607 390076631 1241703266 1839129933 1551484501
  ; MkMatrix 1622569665 958854843 946811184 1942694351 1852918747 927826372 1910562142 1488745966 1976102753
  ; MkMatrix 1487733798 935442081 1821552070 745161312 1887755466 199986887 355692289 1587036652 473299179
  ; MkMatrix 1020642836 1686992151 591932964 251945569 1679924084 900270429 1243205955 1427436220 1180321407
  ; MkMatrix 1487199256 201258517 1718648221 1900618663 329805695 1398725695 692223316 1228843773 1295574745
  ; MkMatrix 274864149 1807517757 1122168880 403968046 686387110 530199299 829224943 435861863 855958005
  ; MkMatrix 923878429 1399729361 1200494271 1573038502 2019897952 2042739552 1774025616 522632807 441112099
  ; MkMatrix 600553436 1924218002 393842986 704712586 1908942896 1284527570 1018000160 348412530 713256687
  ; MkMatrix 447337056 210195996 1065144760 2082025386 1405207892 1771614944 874576259 1668549513 69596286
  ; MkMatrix 2111671870 712033947 365449845 1827104293 565368111 1046690616 1717095047 1977740303 195281552
  ; MkMatrix 548617277 225748296 485507770 1446059785 370283907 1859093349 801192739 1058268144 429386786
  ; MkMatrix 622405982 53924596 1431529503 1006642557 2106160934 50830867 17874329 1966754183 1739919517
  ; MkMatrix 864877770 1112549513 172520829 670727837 153335563 1883584117 1338627488 1061201675 1392527712
  ; MkMatrix 1527898985 68410947 192325308 662764602 975915045 70517214 1670882836 1795942527 1098954437
  ; MkMatrix 1732988893 613793825 74809453 1704851143 101267460 1403112083 2053326418 771438532 1119754162
  ; MkMatrix 34962299 1289233833 315059498 1746830584 1368441953 1169622846 549936596 1124856046 1618987431
  ; MkMatrix 1179028329 1432636593 721726717 1272378365 1727895735 1986344319 2066615670 1622804704 1589410818
  ; MkMatrix 1392043069 580830734 1467673564 1277876437 784104027 1059983301 1204053591 2037573686 715198331
  ; MkMatrix 1974445695 640445217 430296961 1517930168 1598396618 1560001959 1924405740 844388159 1195486580
  ; MkMatrix 675628427 512994496 1809470881 753650488 529292449 1028143823 1771743090 1207282230 1180485492
  ; MkMatrix 258496357 392026500 731946532 1729316455 1200057515 2126913875 1598139411 203600020 1128797508
  ; MkMatrix 1494736128 1699206280 1623494288 369053223 430736496 2035042094 266984461 382982844 726189230
  ; MkMatrix 505282018 1373061092 1382019723 1270854314 1590570459 981464021 1145881498 655047425 1898174772
  ; MkMatrix 1653513238 1212251443 1003380939 515893316 1250721280 418773445 1393681145 564975827 1804599017
  ; MkMatrix 1669243476 93272440 1438109968 604569456 277528467 1227024141 1116025701 321334643 487183889
  ; MkMatrix 2046113607 1738022177 394593398 151104319 2045346901 1773501691 954983812 1105350173 906855064
  ; MkMatrix 1443231914 2086427426 1416081885 1168959682 251711124 937051162 1302862343 1035080409 855800622
  ; MkMatrix 2025540788 787744990 1861918659 543361818 1776916410 937799173 782069672 1558127621 1338945925
  ; MkMatrix 1449115513 849978619 1490078638 1222368236 1932836404 1738652560 881550242 1128574016 1108338769
  ; MkMatrix 1659697305 1030692677 657979399 975464585 146284724 986669532 1601135251 1596183253 983484956
  ; MkMatrix 365352603 1445465349 1969021034 1110812350 207575146 1639714485 1931991876 5118464 635280413
  ; MkMatrix 961171775 1476726629 1116797452 246470163 1357572234 603445596 476094764 509333725 1716176342 ].

Definition mrg_skip_matrices_21 : list mrg_transition_matrix :=
  [ MkMatrix 0 0 0 0 1 0 0 0 1
  ; MkMatrix 210997660 1557582898 1719011835 1944147003 409192291 1483733717 877582487 241128762 539545589
  ; MkMatrix 1398635851 1233273130 1516291190 1096519297 1637945024 1924866588 1701581343 823088374 705618999
  ; MkMatrix 334475908 893158909 381493814 2143924386 624145901 1635085800 1956697431 492712644 881193205
  ; MkMatrix 1824557261 1121769354 241704164 1443974509 604523276 590548495 1645624926 1512250879 2115344933
  ; MkMatrix 2104203008 1988675383 952426612 1437121763 1928972774 2111197789 1179875027 1775784780 1307448101
  ; MkMatrix 702697761 1550683677 1641878892 1424779876 76914261 1412113643 1469761664 1339860023 2077569447
  ; MkMatrix 858109643 416471811 474010628 1530306080 1682439836 438255983 642743581 1412720009 6871827
  ; MkMatrix 1342583156 2141317189 287858349 1460527303 1985477685 1241916355 1463800360 948197177 1331486126
  ; MkMatrix 793884928 300382619 1015049017 1857755295 1886625305 881516353 2102382664 1551418092 484635514
  ; MkMatrix 904544725 1645258227 1157206246 845060312 1293352642 1865538485 1041138688 1339655230 1898215135
  ; MkMatrix 1002366471 1443423510 1450863893 525391138 1583756296 126227604 1836180961 2137585631 2016717331
  ; MkMatrix 1880428105 1612168162 994734279 1185999225 2058672891 1490889237 150800499 1025844868 411136999
  ; MkMatrix 260740416 840354793 1812657414 1975117321 2107250941 319598918 1486049428 166509833 1297353223
  ; MkMatrix 1553393401 2144836428 1550178122 882388266 1422190950 1708522920 952195100 549119981 1337373139
  ; MkMatrix 380959521 177824475 2110602948 547260371 688857759 151862825 446838224 820363722 616478821
  ; MkMatrix 1628180416 1204115781 1774850471 1919257556 891496279 204755906 199947351 882908342 797226724
  ; MkMatrix 1757551073 537597402 1568984535 257364020 961410805 1318318897 785450374 1485694942 656165940
  ; MkMatrix 1447401152 1725027655 1780325003 592877022 921678356 359443793 902900399 169487700 862357661
  ; MkMatrix 1625244687 807105989 209844789 1024549869 408149175 989889625 400254332 25467394 1902474140
  ; MkMatrix 1423620752 1813057048 1802899441 482898325 1116321068 455796326 140132174 1937090617 116216805
  ; MkMatrix 1837831319 1107964093 392886813 196448471 1920566840 357348949 1234182322 2126716670 102474182
  ; MkMatrix 532800938 1814228771 789136266 252007229 437760117 1413000078 79837874 1727302526 477449327
  ; MkMatrix 1403437605 1281356209 247670274 374837583 1652318677 1327023959 1823321353 1132539480 1255929859
  ; MkMatrix 1578482247 753076267 1749938687 1318749904 1138454152 952226757 1094536775 398791121 1106251442
  ; MkMatrix 445893919 472356689 648608555 2043046116 1228698044 208919635 38615771 1063162955 319720098
  ; MkMatrix 2141973913 64398422 1394024392 1741603911 963189299 710571923 1467446766 1872242637 2133265476
  ; MkMatrix 1821408808 1160946169 2050114523 1597038748 1464790138 1382446545 2103129144 1290440277 691013494
  ; MkMatrix 1256595685 539855061 752424525 819619439 464742621 636917483 851625953 1917414726 437892561
  ; MkMatrix 1249445131 1171414028 1219701891 1776795727 525648957 1915224238 334625043 1981799509 798386770
  ; MkMatrix 615203729 372665610 74435857 1993601975 2102447749 1123711946 325381770 805976532 961362504
  ; MkMatrix 282052697 2062593966 411765713 199370949 517935070 1641752975 1447764907 444272508 1221433151
  ; MkMatrix 1408532066 1810372542 1770892434 566400572 158431763 1961631413 332702163 772077362 102953051
  ; MkMatrix 328101964 412187182 190161073 1030108533 153139458 726848224 365260924 1331763939 1727131544
  ; MkMatrix 1930887892 806076054 1247676639 1896582300 276912786 1418755480 751112221 1741067205 204410176
  ; MkMatrix 1206074979 212980922 1487601372 1668525234 143647379 1830964144 1276260651 255466365 591105063
  ; MkMatrix 420093790 649728261 1515387150 506638012 1342364435 1576437258 748885745 781398913 317255539
  ; MkMatrix 1393906548 1954995897 42556172 808766760 1603802171 178638417 1805393826 821124015 779537854
  ; MkMatrix 1157598304 1412243475 1749154711 1354676945 628113512 1436580798 1031603067 1745235148 876274669
  ; MkMatrix 594217230 1937648894 751601090 75877500 1720305325 655931040 522025226 537413765 2069081419
  ; MkMatrix 189858672 923273354 1920399363 1703136678 1946930032 2145313007 1921159087 1782350274 678862342
  ; MkMatrix 881848031 1208062555 1854685909 321623030 1382338284 2080531750 52757973 1699022110 1861422369
  ; MkMatrix 1910134281 861785629 1481216727 194183193 1694608165 300612813 624382966 619894249 296529172
  ; MkMatrix 721366117 1564848920 9209032 171474064 173048055 990248232 951112339 1878694210 589246905
  ; MkMatrix 1568588272 1206635953 1904004807 311536730 1313677793 1946120246 1867107815 1268661730 1943388011
  ; MkMatrix 908437422 1779937401 2000587072 1077223391 896354426 1676732668 125240450 2107131057 1984219656
  ; MkMatrix 846234951 1692785478 1006348240 347840493 714003376 430235604 1285262508 756992074 1952294703
  ; MkMatrix 501273529 1201499268 1019754623 197417871 1937281622 1992421174 1825645765 95312765 293309419
  ; MkMatrix 986684420 1159875987 208122617 1680899520 338634680 814536440 2070518510 2029959865 165019639
  ; MkMatrix 1722842074 2099637322 180001785 57915308 87493384 852397502 96411024 453668179 1968818986
  ; MkMatrix 132542035 215431719 2044410825 670166546 857554540 1779654742 1636280030 1171210359 340256732
  ; MkMatrix 1474287898 1490400818 1905123028 1709888679 56562069 759651689 458128931 583175912 1140940688
  ; MkMatrix 615948042 946196426 1983074291 1536881655 919788479 945362976 1222700520 1108936473 1927525084
  ; MkMatrix 405321570 1525144409 1888771598 1601263032 591013788 309540036 1350935856 698938753 1742249595
  ; MkMatrix 1577309626 1729900611 885052451 463349167 1626432833 1822087336 1965308801 2030348916 486313983
  ; MkMatrix 1352563301 679384343 1334127186 92521802 1917643980 313361370 150708883 361896240 1790980296
  ; MkMatrix 1899852190 1060434910 1150427336 451695246 1817548998 1469228467 1387816649 932327060 1491234527
  ; MkMatrix 495323042 610197167 1747174926 1711249138 1345078840 651582467 123256692 809115837 739765750
  ; MkMatrix 1357546386 1162046573 907671694 2129309545 1944036706 1331150432 1730259231 557351173 997344519
  ; MkMatrix 1766268736 624863522 1349055709 268096242 597782181 1724656382 960174340 2079518870 943692400
  ; MkMatrix 479830461 1887126981 334025055 1243971227 192112758 1826560502 2056960891 1705150921 1850167765
  ; MkMatrix 17955374 765731852 2100283941 1181167454 611540981 115202377 1737840562 787671622 550604278
  ; MkMatrix 1330469933 2008959102 569049385 343593369 522858145 791675349 1258330654 1406416193 1426476848
  ; MkMatrix 1977140793 1882096587 168078474 186377428 1447846935 438478033 1410475533 1088575362 1281593923
  ; MkMatrix 925416498 1511402149 458227598 791566554 22979407 972758010 1191504118 159791748 826045754
  ; MkMatrix 2058801684 50488107 1481226397 1726227871 335194579 1906887894 169570540 1666878182 2114019227
  ; MkMatrix 526383150 1979518552 982153409 1366952802 921786160 721542626 1373858584 1315599027 1212945777
  ; MkMatrix 1774043700 399406944 1500109697 1756229863 1104169367 1925975296 396521614 973202204 1193045325
  ; MkMatrix 1791403815 1595318686 526240355 1974432843 1586788711 431456439 267856419 1773308914 321885497
  ; MkMatrix 778815353 269522906 1165328397 593687504 1092234629 1392801903 999970278 28949542 1296850654
  ; MkMatrix 19374049 1925796710 1675016265 59614254 847763241 737899787 20886969 1018671456 61731502
  ; MkMatrix 1671158254 807455199 1059615401 1002463047 433200328 1725788363 777712021 837638022 354775385
  ; MkMatrix 117370444 912934941 1039378723 1514573891 120401927 1301352015 47034606 2142356873 766441392
  ; MkMatrix 672447086 1535687894 128983578 723109473 1838535629 1944576508 307375259 508153950 586939923
  ; MkMatrix 1068722429 1649112385 1797233911 1301933918 82600534 93943529 583237670 24058910 1147921739
  ; MkMatrix 776063734 212216088 335742243 1693093170 1928004155 1443832334 1333639479 1118945170 462631522
  ; MkMatrix 298613660 1369189622 1990587159 1161415970 191327119 1264674841 1655325147 1333671445 261413025
  ; MkMatrix 82367028 1100457507 355540998 1688569278 54067248 1930622506 324068215 1038274491 871787182
  ; MkMatrix 595111659 120795042 603117432 2083238131 508149579 1952615426 563947127 489992266 980897380
  ; MkMatrix 1255582371 266154997 1356466304 2037748152 72325468 1007817173 252111017 1627386749 469107747
  ; MkMatrix 570764003 1001799993 173223297 1313750134 1664411928 1124155139 1819878463 998915219 1207417419
  ; MkMatrix 295729869 1741590789 962448446 2064042142 1753498093 456969329 1768876822 1659683619 1065234644
  ; MkMatrix 1378319774 961753644 1709957193 108760917 1578603667 1982580276 586557367 655085115 812452965
  ; MkMatrix 75869675 1887690947 1200068824 1278245823 346051186 1324265649 1702943488 1541209061 2061485844
  ; MkMatrix 1550769241 510524775 1515614093 218884463 532002926 75129723 1811441237 1410241130 1112160354
  ; MkMatrix 210919391 1469252680 198807974 858014697 1599359608 429063252 1337126024 819517318 1097780182
  ; MkMatrix 238313740 1634038046 117216558 36697102 1770699708 1550628237 1399857775 1157359616 936127113
  ; MkMatrix 1784960213 1715289263 1330130974 1408805404 431365435 338933912 352510646 1929671772 1044470503
  ; MkMatrix 1323776252 902965601 1077542519 553630570 480768161 1728134101 580069766 994851246 776815319
  ; MkMatrix 164907106 1054903580 1202416077 155074847 243232777 1641431187 1379534438 1604973076 1399479118
  ; MkMatrix 1840507038 873363526 1362897687 1486312807 890956630 14437698 1143096128 1945222621 317502895
  ; MkMatrix 1410828922 1291913041 1298885665 1970898546 215152468 1012871283 1266503263 1849744951 748857741
  ; MkMatrix 58537349 1994926011 1860029135 1897586103 1590500113 793321933 830747182 1821572954 308704485
  ; MkMatrix 744498641 1673198832 2073917089 36334383 859519648 1519998490 468175794 1375711408 1237014114
  ; MkMatrix 580460862 1810103150 516011387 1832612255 1409336815 1821690213 1274284183 1708735338 596531082
  ; MkMatrix 3515954 976629809 419299284 977417884 2021426265 331154131 1484511344 887335643 2032981337
  ; MkMatrix 1848357512 1132396330 94527352 1408903871 1942274614 1773961389 440008507 2006520170 166250731
  ; MkMatrix 972631984 1573128395 225579030 729472834 1177847549 1662203930 717549478 263582152 226600337
  ; MkMatrix 2112370750 1648865392 1187708692 451527245 1690620755 1983277453 1889425954 1293466714 593662311
  ; MkMatrix 853363435 2128713642 874745857 1496616583 1782311965 1293165528 1281131381 1155594782 1592602156
  ; MkMatrix 439195034 633584272 1004889640 332846781 157754771 1983104563 632925590 1185064648 601975603
  ; MkMatrix 116661648 1749077311 342837153 2139622971 519630879 419755546 840167806 342325686 1044061983
  ; MkMatrix 1988330181 950234246 301914116 1919503007 568301287 361692865 712192525 59622888 1406426735
  ; MkMatrix 278809932 957385774 1791302887 1815409768 78524626 808839 1683645611 259766163 309729016
  ; MkMatrix 1408096968 850865283 1749425351 191671124 376218691 1217024803 1645589217 1441075998 1804577374
  ; MkMatrix 1900981529 561325072 716222830 271690689 1562318510 862349178 199652253 1597676771 36763999
  ; MkMatrix 998491852 670869177 1632096619 1146486805 1142908165 1609887217 746513546 1529452158 392851545
  ; MkMatrix 431358143 2082392598 1763762999 294259020 1754887240 106056148 438153159 33531232 884157850
  ; MkMatrix 655826326 347656814 711080464 1812699854 425459271 762362694 1947492074 486832534 1758306437
  ; MkMatrix 1886844009 1954801863 1721027657 41483945 1147293787 113290454 1037130904 107984858 894750722
  ; MkMatrix 306707958 148296918 38486497 1574126439 915308700 1973684415 958309687 1990337325 755561548
  ; MkMatrix 926142560 630992084 1008482085 2069450272 403511135 306842188 1760080778 1238673635 1580588098
  ; MkMatrix 603065048 338904226 1557255459 848775905 192830344 986824918 997118373 1895648845 66224160
  ; MkMatrix 314760962 622418851 661477319 1893709542 1152227534 727000879 299652829 607715046 1583772362
  ; MkMatrix 1305411726 2134583786 73776439 1696105772 742309579 174451129 979086185 1890296519 2120815262
  ; MkMatrix 831232162 1087551186 1093938148 1552498498 300855213 1011368294 95714151 552630904 536931126
  ; MkMatrix 938236172 303862892 481920272 1862533360 1329324232 1263970420 39530625 238084906 1890239609
  ; MkMatrix 683621578 113936821 2054287896 1235223781 1032734038 1807404551 455328662 1290607114 2084260101
  ; MkMatrix 1876097738 876615826 187229324 1399460119 1047691751 5233253 1581262056 416521670 1975650990
  ; MkMatrix 1995469003 98021091 660297570 1722237324 1870222239 1869213134 1509311526 1838223384 1656340784
  ; MkMatrix 967088273 2040613891 1381303519 2019078387 2023246789 950513719 941249535 1152770138 1405028876
  ; MkMatrix 1664769830 591075767 1139926915 1740709484 447232264 1082148150 1834916886 1742733668 696268939
  ; MkMatrix 706257206 773154472 548159078 135784622 337278541 1170209544 568082467 688575035 1706890014
  ; MkMatrix 42702924 1236324577 769196410 1624756658 19847423 1650875283 513512608 156537057 1790420553
  ; MkMatrix 1426600741 941477046 2107948387 1863633032 555282405 549540969 734493042 1821308832 1206314502
  ; MkMatrix 1695283043 916373015 654303053 1969781746 1777319200 645146497 106379232 1073555556 972078026
  ; MkMatrix 14181901 2022087383 5209773 1629777289 838882843 2124497900 1409119155 599714673 2024847078
  ; MkMatrix 1122177603 870086878 281929448 2094528601 532842019 799447264 431619635 1406590817 1865896333
  ; MkMatrix 591802549 1702774888 1021205910 1480398903 692707898 314527990 1984862937 463574328 1389450342
  ; MkMatrix 1222376730 1249350243 1889985175 1823241736 439164912 1895260211 260276460 1732144975 1443526906
  ; MkMatrix 592299173 1988284106 737200206 646555147 2125013537 1029360119 269549982 766961018 1641828816
  ; MkMatrix 1027883877 1786211297 1870312000 2112057651 413274810 1104329393 732177436 1426298819 1954179688
  ; MkMatrix 312460720 17655692 994122018 1508320027 1172943541 2055778087 1026218964 1578640119 513045317
  ; MkMatrix 410262048 2064886617 1475184731 610987369 1776850423 632804712 394709623 794961548 210123693
  ; MkMatrix 533619983 1750627057 927836449 777315717 1543127285 1885982610 1341484359 200422009 291863576
  ; MkMatrix 1351605108 1737597431 1692387228 46112467 614055860 2123529102 1163900407 390366601 584801732
  ; MkMatrix 2095014343 496751055 1723087941 618610520 1049612627 85618582 1907869802 165604454 347405974
  ; MkMatrix 1909674430 1387214188 1181202352 1338962644 1469058623 1792569961 661177048 1966544136 351271446
  ; MkMatrix 2080311393 1487025744 440582554 1070744790 1526068456 7297480 438028436 487938108 66799930
  ; MkMatrix 1640367415 2016830100 1120440373 459034553 1752991361 905830593 51780389 1407279058 1045695326
  ; MkMatrix 418778612 828708250 1600267404 294597015 1601542925 1970625924 1340045060 1973064891 2092086219
  ; MkMatrix 1825292716 733936359 1896104310 208652418 1248928907 1813070826 1905774615 1152244038 630895129
  ; MkMatrix 1383368756 78255562 765896230 1948641230 603677737 1312063415 1917286770 203849037 210208027
  ; MkMatrix 754175911 1719147112 19466458 102829279 932828185 488817902 63128557 1906095384 695191530
  ; MkMatrix 284561158 632025897 637228848 375671231 197032432 317681127 1277659730 1002232149 812618821
  ; MkMatrix 1523135988 780395666 235438018 1257357815 2060668737 1106291529 814603624 1401743276 1140561861
  ; MkMatrix 1534299235 593192429 1570377687 104981017 800033672 1666800432 128004077 1885540690 1213836254
  ; MkMatrix 227695286 1175373744 1593077250 1057255968 1168992404 1739925488 1843096788 1271165551 1905200467
  ; MkMatrix 1070351438 2142138932 1243628788 338367478 1520169520 1552767564 1129656870 1016729397 842191684
  ; MkMatrix 2138533734 1987217277 528443480 644031186 1964199923 594485376 2038360516 1648591923 1709315297
  ; MkMatrix 1878944746 764933665 1312693170 1471159530 1790833304 751548098 834902971 212575849 535315751
  ; MkMatrix 451556731 743743310 1528341250 625726365 1207027837 1766814460 909956189 1273609340 761264568
  ; MkMatrix 1637333611 140199413 818352951 1057208213 2004557817 748248655 19595010 2124091783 1583248240
  ; MkMatrix 1134938492 130189750 190635208 2057632469 1251704321 1021451466 477372289 709436162 1218150029
  ; MkMatrix 656727302 543641357 2013957669 1748468997 115715938 528535166 325731808 345972676 1712612419
  ; MkMatrix 1004915674 1406931403 203020545 1107023677 1644563918 410965823 381305054 329321814 885056189
  ; MkMatrix 2100092036 818571575 447546948 349049466 2062967719 1801526280 1964496397 1486836827 146710459
  ; MkMatrix 491574884 1217925302 1230015548 1081610411 968858488 1475370822 928384125 1293546879 408742898
  ; MkMatrix 1172817999 1559109304 907083830 592795155 540740006 1041248822 757395107 1079326144 592472585
  ; MkMatrix 569663201 737998692 2139763696 1747288378 729528645 645990754 1269421838 1088242370 1422385639
  ; MkMatrix 790164150 900693636 325473658 855690701 1024134774 1697878007 482835632 1975188418 118070463
  ; MkMatrix 490203362 1846822748 1426528383 1997450150 385128480 1889999936 335531676 1450517334 1380685966
  ; MkMatrix 829887857 1966653468 1674128126 744711593 754947408 1354070171 233835925 1199739931 1516154438
  ; MkMatrix 1531547513 542162739 784353031 1926161286 1340494860 1401985480 293658113 1071761670 2039120099
  ; MkMatrix 1738478093 594404261 1593890729 951004226 1707411345 1381801299 1002886092 1888484282 1261190211
  ; MkMatrix 1555684468 513462646 1375526423 1407832914 1877433224 827966541 1193112316 560746874 1036926724
  ; MkMatrix 869425811 596604722 26097264 465830201 1065718565 1473421694 1013638224 540553552 17531363
  ; MkMatrix 1252363497 240906065 584050870 1034082861 129603097 1627939941 121646073 239887459 2085751951
  ; MkMatrix 722097334 236143771 568649022 1795194896 13554007 1486648257 1873683232 280412306 559654794
  ; MkMatrix 2030687460 447262003 2144684984 733449912 1019475249 1884005039 1377909038 36433384 1436220294
  ; MkMatrix 1387685949 1603175816 318434280 396085640 748552276 2083853375 1199698334 1479429776 1948738772
  ; MkMatrix 1682442199 290984934 278386337 1912859630 1941354040 1742239629 634970108 402129904 82621656
  ; MkMatrix 2068442 1412375413 1321600245 1058312275 430753217 1626399823 1074482854 37998182 632202218
  ; MkMatrix 386288915 1008602777 991218576 1057305110 481005634 336530745 1410303727 1315318082 235392670
  ; MkMatrix 1235085781 26137904 1585271307 1299494164 834995648 1848715710 2011962632 1883797431 1356782553
  ; MkMatrix 30282270 180255790 1804188160 1572562886 111511747 1243398819 1261624391 164626708 912885858
  ; MkMatrix 2141346344 1180430663 1740098668 136211115 1016854141 860456172 579945549 899597814 57749812
  ; MkMatrix 1754603513 1144525465 1285833696 2126643303 1312250992 1926278606 1255881278 1472336491 1978049226
  ; MkMatrix 418370077 517537276 2138093699 252116279 1553601472 48985202 188213596 1904228438 672373154
  ; MkMatrix 1285053250 754699600 1322313818 393122329 962132486 1378672786 1484023437 1699075226 1011701251
  ; MkMatrix 497119785 1359637256 795694129 359376777 211876702 1722516243 514935991 1360265186 380028981
  ; MkMatrix 780878375 474899254 1313766992 530799002 876522960 1812204558 464747032 1656627729 1263070896
  ; MkMatrix 167474124 1243191137 319789473 1262301708 992240162 1614071923 76986847 1986975588 1155792165
  ; MkMatrix 986104285 851822290 1123881359 1440779004 1546165334 1043556702 973384878 885345932 377300799
  ; MkMatrix 1252342863 1007360516 790194401 1782228300 620927658 891163061 585661512 718253312 1658029187
  ; MkMatrix 531323688 434129869 1486302957 1326032864 941152736 1107160037 776674397 732074278 470178374
  ; MkMatrix 1316163257 424072873 1795062523 1829427607 1284252252 1788776833 417371355 1146476721 990359582
  ; MkMatrix 807218705 943508188 1401342637 1772685739 1001152660 1197852553 230474967 296155130 1971240188
  ; MkMatrix 1982861102 1872226202 40037765 1924611085 953008995 1392973181 1807354981 1399411024 892711866
  ; MkMatrix 1424073665 458071724 1563953364 177419560 549503852 496516853 638553189 920293585 764272009
  ; MkMatrix 933117098 1958868094 1512511174 1185048037 832599301 1417528745 1553247025 1178282490 1493942253
  ; MkMatrix 2013028260 482507281 975283648 1306089580 321934210 1925431037 2126743885 1098600132 1225914352
  ; MkMatrix 1624078303 1231311499 336835077 1372461148 1115372058 985006640 2139566400 623612908 1756100999
  ; MkMatrix 375458744 1460391468 452606986 1391314657 462980024 1758477637 1662500913 57820061 550117185
  ; MkMatrix 974899209 645704940 1323834023 826738602 1823039817 1270857858 664285408 1453232168 25918370
  ; MkMatrix 44936232 2019645694 2109357712 2075799552 1617185129 1144924554 1064389024 2132760123 1192841633
  ; MkMatrix 1482136533 2104974295 1641826359 1237715577 2116373231 834607232 490720369 2032331089 223941344
  ; MkMatrix 865496928 1379185122 679089244 610124547 783365612 1935254656 1719737032 1296706774 1832756794
  ; MkMatrix 878457627 1399099243 1457548233 1016398808 1377483558 1843258350 1886149634 1859484989 1693031453
  ; MkMatrix 1424410828 1492976000 1751990749 2036494489 1362738702 1853425669 2069659406 1956358791 1859129131
  ; MkMatrix 1655929366 2013211950 1653519642 80563324 67931716 2077881766 1570506118 1463621465 92535115
  ; MkMatrix 679826767 1598814398 912289011 1124453312 1485967496 2112494306 817161098 623698563 1589795546
  ; MkMatrix 95683842 986363499 1408896983 76627890 1132427136 1167622519 892854919 1804238133 1896808160
  ; MkMatrix 1500766562 1413334479 1386018830 1188504376 2107350080 1102814547 1751653015 38554909 912739856
  ; MkMatrix 634650384 1459447000 363259374 550759044 1573490051 1666816095 1390486476 1782075695 412892646
  ; MkMatrix 1349362761 1056547762 849031039 1010315949 1574244779 691644978 392206932 14050064 1998823986
  ; MkMatrix 1938246536 1039405288 1110174106 216881308 2064497847 2079005918 167773670 1231902347 237467655
  ; MkMatrix 1975929887 391901366 269641404 694303564 1578182836 451945182 326208955 43259518 1348293640
  ; MkMatrix 1146890982 1067668693 860587194 909887140 1916941916 881005214 2055473922 405219632 916121586
  ; MkMatrix 1728493464 675501693 715103321 51144113 1305907736 500025710 1613836146 130546556 830719712
  ; MkMatrix 1902584066 1444402561 1248531986 1821518320 1528074668 1422743232 2039062043 1429969152 168592006
  ; MkMatrix 1612348857 123157282 1865393370 505691183 687379734 1384196282 1595673036 1665192538 2037297628
  ; MkMatrix 1621753310 941494368 34243631 2038693443 38985979 1447622533 923440115 1178618491 807585513
  ; MkMatrix 1500273564 1629184799 1614001086 2044495337 59076075 1533585781 1184620245 19265516 1770320062
  ; MkMatrix 785705290 1163224718 1155791328 479784791 1828166623 1961969690 1542843760 2087273122 1312369395
  ; MkMatrix 1840477248 1472784549 951851026 1455194333 723178149 1687610971 1542303192 56394757 381317437
  ; MkMatrix 438762515 683893563 152113363 1348151863 86089222 2140939418 1335519849 1847087557 1264969677
  ; MkMatrix 1157663106 1774838122 1412425749 145924544 1471929561 2013901129 1673927995 1170662481 1169571875
  ; MkMatrix 799713976 255515666 165430761 651555562 1416534893 1693602692 861160007 1101768836 601419071
  ; MkMatrix 1773003692 178361050 1780249129 1980663964 969094418 846299946 2128289242 1450511094 1964654088
  ; MkMatrix 2031480822 1626856687 981386796 895437040 678441515 1130586764 1015178158 325376320 564559803
  ; MkMatrix 2099988055 531242415 1076848431 1717373957 1241508917 1406859331 1765563671 133059031 228570615
  ; MkMatrix 1766548823 2135509351 223852433 816812207 1191917316 1839339810 653825323 910095891 2054499760
  ; MkMatrix 1561145827 1866481927 536796646 1055885545 1576908026 2071700164 241198318 756717769 130940801
  ; MkMatrix 1915527009 157974833 455903331 396695582 1040866708 453908021 404409706 899397279 618703478
  ; MkMatrix 116748050 1681313444 1842888348 366685398 1573762805 566709803 1966662464 107850265 2072886124
  ; MkMatrix 236858992 1757542742 2106078684 655007348 1200363599 815648636 1391104932 1456610810 1764291639
  ; MkMatrix 207824018 185053237 766903978 335889893 1895817367 2045050113 1447000809 795807251 650917188
  ; MkMatrix 1219914349 2105948856 736784257 494849438 1616691577 497862828 1421525726 641560528 103655204
  ; MkMatrix 1142084744 54620956 601089684 103397527 2145023230 84388025 1108424787 467068128 693059197
  ; MkMatrix 1188032267 886832692 1465072885 1661600884 1411451547 1222640675 500277737 1164381129 1970285793
  ; MkMatrix 1140172947 1090754644 1666430898 288232629 1513200846 1443313389 2127638853 939423401 1291776838
  ; MkMatrix 1604373154 1106112956 761791418 1501956747 1706466831 2047820905 581925013 546663716 1085637801
  ; MkMatrix 1853782078 1192851194 2063954885 520865268 2135142182 329279102 15971917 193152550 993796966
  ; MkMatrix 571527497 735828936 339819937 1902193038 713925628 213671765 801905731 655158391 1665736197
  ; MkMatrix 107984311 1436288300 236409412 938601339 2130000344 432126150 1158907083 855106407 434848731
  ; MkMatrix 849594010 70026723 1465812277 41451631 1229255616 846410643 1491691099 1559469211 1864557398
  ; MkMatrix 476601236 435150740 527392280 768776246 197274718 1986327225 369048663 961731761 2115526431
  ; MkMatrix 459109589 1695901038 157999622 536609232 551936406 354096676 1752052703 245513333 1861871110
  ; MkMatrix 539337691 618999768 1892050151 918459819 1598937272 1611347582 1542826862 593218782 1606059063
  ; MkMatrix 1182075734 1304994973 264493927 855695580 196689728 247023372 1466525935 1953024238 1445866527
  ; MkMatrix 1752619196 367964629 282534689 1048153728 1983685178 1472534828 626140958 614256028 480205380
  ; MkMatrix 1114619587 945653598 1435784 842563625 904316852 1307156019 1584040642 502897765 1265173546
  ; MkMatrix 1599483851 617912038 1434649377 1369293689 447911053 1239208696 571429604 1598790057 1713695633
  ; MkMatrix 185088603 1978003265 11282593 197066674 445244378 87861154 1483769742 2039979276 1449238549
  ; MkMatrix 534965257 1317235924 1012469654 880529159 813860933 807875537 407590669 1704240066 861622004
  ; MkMatrix 1803385746 1606850956 664186598 1716771587 993212991 1619911039 2137327199 861332885 1228617393
  ; MkMatrix 823241476 1507551028 1844346897 2042776322 196584131 789919782 1782623338 1204109789 741513346
  ; MkMatrix 2037765786 1932755841 196958814 1422573998 1764113388 1863782910 618376619 1098767999 1272170406
  ; MkMatrix 811175941 1056848704 2057388612 273125696 957170543 880311307 353415284 578927076 325049337
  ; MkMatrix 1477467625 446725857 1042479301 711868445 179722401 466483100 879210216 2122131787 188595552
  ; MkMatrix 1276769037 1306150225 592356810 1968222601 111518872 537158515 2014964065 1799856090 555311064
  ; MkMatrix 1662677927 2003078838 1497946111 908744809 936099677 25277193 737479817 328504326 1465368257
  ; MkMatrix 944313267 183443236 1067084131 1647776311 1951040634 604552869 1821858268 1869119376 867352123
  ; MkMatrix 1987657701 1825000652 934543979 1412438502 1763624317 1236694639 394326673 522804890 506900782
  ; MkMatrix 1280547324 2145349823 1122795051 1315318750 1726585498 2126654989 1344833446 1488872138 990731885 ].

Definition mrg_skip_matrices_22 : list mrg_transition_matrix :=
  [ MkMatrix 0 0 0 0 1 0 0 0 1
  ; MkMatrix 830479910 1794659137 289793637 1628702739 1294382859 430249345 676077278 1177327327 1633937571
  ; MkMatrix 540083923 527919552 1119740234 1719527232 1989259573 661012726 1532630874 538861332 941664648
  ; MkMatrix 1471566037 390282643 1881089938 1531882762 474769918 1700595630 212139644 1887130616 1532261120
  ; MkMatrix 951243526 934367116 944980615 118049640 222315535 1245676976 79496944 519722439 2080522146
  ; MkMatrix 830107389 713601975 83741652 1948337523 1198914653 1389432030 671182265 102810995 626059893
  ; MkMatrix 549213751 2048939614 1849102329 412342094 741529438 890347160 1537480823 196346353 2068672585
  ; MkMatrix 1872133274 1267515442 1319100510 811837676 2051997894 2115507349 1545040579 163699291 1028335501
  ; MkMatrix 688238414 469254966 853653465 555686741 1935881502 1731610074 1750828492 1231386957 1182773520
  ; MkMatrix 2093115007 862460879 732908368 701585765 1246735135 881489903 746509449 1406675099 647024668
  ; MkMatrix 355789465 1883703385 2138479202 1073227722 415876197 148564337 1764359137 133579477 47000833
  ; MkMatrix 1254222562 971285188 306363865 2003146107 827088961 747055656 1762881303 1708260198 14449527
  ; MkMatrix 1806893704 1722011289 1454296078 278460709 159580419 1519095222 1137361115 1490997054 1140970003
  ; MkMatrix 394286648 160240476 120641989 838061518 1997496153 881233608 671203685 1140011140 1598492254
  ; MkMatrix 533807328 760261689 1702564310 1179569014 1739296838 1432422583 1523338953 2042264751 58136534
  ; MkMatrix 234601043 937402147 1990664135 184045859 984300354 1177414329 397453114 1548175822 657187181
  ; MkMatrix 926698163 519333020 28578128 1228303993 144500496 517111210 921331028 1764831592 815299627
  ; MkMatrix 1246052069 1970776477 1584607011 1751792780 977333426 353542247 65002854 1084796687 1349273862
  ; MkMatrix 2067846377 1558753257 400174012 1177918721 1373094423 512884478 5916080 1175848093 209928314
  ; MkMatrix 1728576597 2027104741 1763426137 2074717360 1196214783 1099980385 1915303914 760115896 500677490
  ; MkMatrix 203598501 1143511129 22492132 1435953811 1599678251 1179625836 1327610007 1722909585 1533530808
  ; MkMatrix 473893174 818335314 240208293 957228643 1862867769 8227609 1203696271 1717050954 617654841
  ; MkMatrix 1675649207 67315705 1990020985 1283666075 155606393 232457759 1801286587 1404835046 308159221
  ; MkMatrix 423614230 182423525 222519908 112730058 14536198 1107900368 693748238 1802653457 1208968588
  ; MkMatrix 433311750 985226303 630809646 1856831059 2101697261 1907309014 1466490044 1773056273 729508289
  ; MkMatrix 146795205 1603285531 494055434 196836926 1038842035 2088778121 2017840921 1745450433 1823798754
  ; MkMatrix 1892649493 1984277645 1742296585 2139912558 1563060490 570231046 39477166 622856997 1022937994
  ; MkMatrix 1272725399 471178143 1687882299 1871022779 260590717 2065833718 750092133 856871256 1678672695
  ; MkMatrix 97172064 763608884 1065046172 197250769 2050635722 1159095391 1840478791 734199198 1578917638
  ; MkMatrix 151334233 1998617687 843899651 1114139732 1457385697 1194031429 1392356292 1915305218 572280506
  ; MkMatrix 609206370 1669554855 1255737995 2081496231 1701193204 382590802 1336579579 1506319196 744484756
  ; MkMatrix 2008840430 1341323772 1800338829 1906808627 201649625 1711971445 1738019735 761630808 794072301
  ; MkMatrix 119364410 1352476599 696531199 1047088305 908002355 236957232 1902086356 2099344998 2105966888
  ; MkMatrix 127564715 109412361 1051721303 2016589246 591884813 1675377446 1109584291 661867103 682353874
  ; MkMatrix 954468869 744984898 54778966 890308668 1882341890 1377288435 1183340749 1442507047 2129083700
  ; MkMatrix 1625499109 647515480 1589668309 1848461757 579753435 1044958433 472313581 1790526186 597314364
  ; MkMatrix 413688924 710609570 1081533800 1124465942 1590839706 995315176 303676759 910804894 627812899
  ; MkMatrix 2739715 1174115769 1725025111 1713449178 46729170 636285957 1180202479 1193004128 488171184
  ; MkMatrix 1886905752 1678999199 1829477097 841281027 1793257772 159588727 377756672 1997556380 1094113039
  ; MkMatrix 658477306 249866384 899029767 1325173001 997735747 663644421 774128402 1268976425 1090464910
  ; MkMatrix 1395827617 1083091364 1611222277 1314534429 257680263 272429151 549504433 370588601 235348435
  ; MkMatrix 151298207 1593011344 685520671 1050961967 1292696313 144192601 742427443 1113234909 1869431736
  ; MkMatrix 1991205298 87751359 1614597222 1372891529 416534837 1323564787 1902968823 1028974988 915387050
  ; MkMatrix 174775029 2063181017 636579845 678628944 1913950820 820893751 1530383038 2075730163 1509567810
  ; MkMatrix 1559974870 1133280966 460734300 1571996614 95838675 1661031585 416244157 1104188612 997862849
  ; MkMatrix 1626315773 1575052584 592625487 735628179 543341018 254222787 1255266788 1155278262 353741991
  ; MkMatrix 1202275217 1924221716 1713508067 1506701724 1571148157 1181302843 1622174619 831566425 1816970820
  ; MkMatrix 653308745 1899336963 302113335 1214238862 438502544 60066167 1032709453 101171277 80970050
  ; MkMatrix 1603157337 419743205 1130002512 1235035434 1126762454 1683999237 218480232 299573894 377666497
  ; MkMatrix 1795423893 337065636 538590492 2077125000 17135380 1104531644 581501146 370361046 531754108
  ; MkMatrix 912136132 1616262699 1396547787 1646958236 561336963 438021594 598995135 900439027 997802580
  ; MkMatrix 502739012 590557541 550756926 1795627020 189158920 1703089075 1565288485 1784646962 1926764495
  ; MkMatrix 1694903237 495449421 940319988 266835384 673202244 1727594388 1194655411 1029821996 2030751463
  ; MkMatrix 348483118 1714285561 543182328 1586920940 399863752 1377568105 597904403 1699776946 449186915
  ; MkMatrix 1592566977 1735774939 608732883 267587144 111554345 856253950 1382785824 213108835 1647578988
  ; MkMatrix 665440179 942202384 741614749 675692183 681869792 601924139 423567118 312695327 1324045704
  ; MkMatrix 844191310 1609227659 1712198879 283303099 843689550 240018877 1306069725 363049607 1468241464
  ; MkMatrix 108420809 117126116 1432508087 800522866 1879745252 1045546474 422321727 1404329538 1173481549
  ; MkMatrix 927071622 1577656080 665938096 612141990 610131262 1467929377 1977523914 1423247173 1507859122
  ; MkMatrix 1164144893 98758678 573563279 1812933770 579949690 1087172336 1911039879 1036695630 1290848043
  ; MkMatrix 1419689520 1278832722 138628911 1018732223 1129559471 781941390 938691248 1549183745 1124216072
  ; MkMatrix 384031924 1953628520 1242047610 729279779 2032759976 101230429 25500954 76109351 1039754062
  ; MkMatrix 178897876 583290460 1663940582 1948192131 1965137330 91179474 987782672 743474737 1382798625
  ; MkMatrix 1415503536 1413709086 1265646137 819967411 791233566 488786119 987196813 1870312897 1961985152
  ; MkMatrix 1105367358 1433790011 354681563 509628073 377031513 832163071 1244540494 1577277453 1220848775
  ; MkMatrix 1666027017 606571375 61747344 46326611 84096564 1848823019 1454768752 825647736 1513106774
  ; MkMatrix 1786876702 774198831 1588353698 148071126 532193202 363540350 387372752 1300980851 1257965910
  ; MkMatrix 2123304298 1569421683 769537194 658339521 2110402934 611516814 2058744862 152527184 339031502
  ; MkMatrix 1533994889 663195024 579098314 618659957 1973960116 1092664454 1699904308 882686908 376529510
  ; MkMatrix 1184888108 1167878240 872398056 1065754656 355592174 1612160861 415515937 598201531 1327337644
  ; MkMatrix 610120446 1343851308 1447107842 1776569873 1162956082 1774554246 1470258950 188237417 774950439
  ; MkMatrix 858926677 1868470831 995432248 1762797691 914742031 1245723947 1311048143 1626053388 1204616804
  ; MkMatrix 1751325573 726727920 389258292 1860118361 1828348140 1509628340 2008372020 1157188154 779087192
  ; MkMatrix 1415585880 1969655639 1503645471 1989936937 1918959186 1474200581 1095049450 532927806 229195901
  ; MkMatrix 92258237 929544120 2111514120 1422055004 185565996 575131190 836476380 1129288271 971431107
  ; MkMatrix 14493679 1008319722 274475989 356879077 1265070500 895872752 1249410714 1422823880 767082142
  ; MkMatrix 1123184068 1969274095 649956655 768333694 1879793998 287669483 871394883 785468032 745886728
  ; MkMatrix 457047983 1429263824 769437512 631273986 1473188251 1591419577 2037801760 2065527017 428131248
  ; MkMatrix 1267615435 163145016 1834984144 124260122 1236845007 1330092349 188335816 1776329504 1044626410
  ; MkMatrix 851591291 1224218367 1092723974 1299628051 395935534 2107277421 462551059 1030360998 1968044467
  ; MkMatrix 682822368 855225039 355446847 1296647157 1297434638 1475230669 805483754 370482749 2134133317
  ; MkMatrix 948448201 151050427 2142455967 137865529 1349753076 2073951386 2060818076 1134566120 952654934
  ; MkMatrix 1507091096 69138514 1312072972 134118789 1587353492 1259643548 1730191189 494919514 769886568
  ; MkMatrix 2050992938 1942722164 55675332 539082626 274934457 1010126271 883247143 552068673 1477574792
  ; MkMatrix 1785521297 539837085 1043287252 810107827 485111751 1740265731 1615310252 1533239427 700097228
  ; MkMatrix 1403278000 1322797936 2110888885 1396977682 1107954009 831650636 1390314433 158748354 408146991
  ; MkMatrix 1038993429 611702005 952251962 860615678 914354468 1214421946 1171449375 2061221132 1481417260
  ; MkMatrix 1861402283 576671087 1271644758 1877481974 1382549769 247302835 648217854 1006360631 63955907
  ; MkMatrix 1711373545 13555846 310515214 2001084780 1699571227 2098929664 5386561 2106573666 1606515538
  ; MkMatrix 92010044 1175282307 339245895 1473761777 929241556 1572575521 2043702292 2046956163 534929446
  ; MkMatrix 1034985785 1101727169 858547236 456714252 1869253829 1276353056 2129810584 140777277 1497859235
  ; MkMatrix 921082648 278635969 1113905648 70280158 103774094 815250501 935942155 1353313139 1670223960
  ; MkMatrix 1703198245 1654789240 1612628120 1067887378 2116410673 1595540766 1698433946 1117680591 758854825
  ; MkMatrix 1561777283 822737917 307754131 861905292 2095799122 598238415 1708983421 371135277 1643779228
  ; MkMatrix 1150819634 1360935809 191926246 181126879 1272549820 313903843 404182448 898656481 1065394234
  ; MkMatrix 614711053 1143460231 546263694 1320991662 1479497290 176692086 1128666558 711210002 1445322154
  ; MkMatrix 1885127262 2033016511 640400269 1998366560 512060373 1587970334 1587849205 1979490250 892980609
  ; MkMatrix 1002960973 1090973987 1426730446 359951904 1899563709 2135802017 357077193 1630839257 1006647422
  ; MkMatrix 207627164 300717896 1129594457 1514215034 855064609 657545118 684705301 1381942361 478758965
  ; MkMatrix 1877837215 526209521 1561673863 1785981862 1044933148 1479579231 77453491 792505499 660182041
  ; MkMatrix 2006663059 2115507187 1094225165 583146452 1825561555 1305800934 2140433391 1015110771 503905144
  ; MkMatrix 1421531561 2064631581 1620317295 1420277965 2033495095 1674469717 712130347 1922651620 1360567028
  ; MkMatrix 1412904878 530787894 607248398 406381994 1156803080 1969006469 884463775 1707432408 1418195196
  ; MkMatrix 1007407696 1148326583 1161196814 2142717923 526781056 366237160 1033013808 492672902 569093905
  ; MkMatrix 2006825592 311438556 1440727151 1640426474 1657355540 897539787 1878207502 1197802213 486505489
  ; MkMatrix 830530912 1204425871 1221824687 83468612 1692119594 54746593 451044103 247725723 1927538138
  ; MkMatrix 778201839 1902572069 1093876763 1400971458 1001721613 1522827243 883009775 555047125 1344326031
  ; MkMatrix 103161635 1688004465 162374807 1500536189 217462495 1115026981 2026973193 39476295 1814258527
  ; MkMatrix 865436769 1850559756 883415135 1125126024 252289238 366540881 862500009 1789618662 1988154718
  ; MkMatrix 1177514251 101701883 284201607 358641573 230124138 870687901 86835024 757746044 394409752
  ; MkMatrix 407701908 689730612 1913171901 1926112295 1683773487 1406028403 1743184507 2067616994 315862445
  ; MkMatrix 323378752 360887981 1225572632 151571104 1410193449 1536195606 1332149264 114815591 403640351
  ; MkMatrix 171996772 365209489 1739215546 316634754 2103579737 1593500807 1933109540 1787530062 1692692580
  ; MkMatrix 1631268827 52146631 80504886 1509665161 300447645 232821818 1931752532 2122041963 2027339152
  ; MkMatrix 955236179 1755354551 563438769 1827894597 1846135829 1313647706 747907166 62888536 1394628112
  ; MkMatrix 291520790 582791811 1659533092 2122295055 1308578444 1554501358 900709252 948053358 762011404
  ; MkMatrix 1131153277 597485562 1787466697 54449831 1553914431 2026943015 541165730 938783649 44224148
  ; MkMatrix 1007373967 1394549788 1185339310 69888589 1328463343 1793588176 128086719 2065167702 820403012
  ; MkMatrix 935812399 1563916446 1820244427 1382858184 704943540 1129007924 1854588383 1055874797 13264814
  ; MkMatrix 2124070025 1868545868 663950994 1149141341 1159361613 1661992271 1263369705 1243832856 294523384
  ; MkMatrix 1847344083 583684034 601511842 1529258120 1664220857 259236152 1799269377 577391291 495766264
  ; MkMatrix 1117857865 1456059434 901611712 873310541 2037099180 1601680093 1736888050 1339141547 172535268
  ; MkMatrix 188286737 431354712 1777559097 2140104720 1711336224 43331807 366528594 1367574618 1017936743
  ; MkMatrix 591636248 1456948453 387589203 1614347911 416967271 2108869225 186355886 45884798 186159227
  ; MkMatrix 406071277 1794976176 899271194 1047509939 1178479706 1330728682 648264520 820617357 569141084
  ; MkMatrix 136437532 1074099337 1257204668 1725917362 982464671 167352742 1413379573 479615235 277728427
  ; MkMatrix 1235649003 2117584289 18674078 896495507 1258798064 2007229685 2000498247 947940397 604896378
  ; MkMatrix 1720327279 1421196901 1069349816 598038703 953353738 711708171 2001367962 112308281 1021420022
  ; MkMatrix 334441850 1422582910 777315810 645645681 684640942 231786439 588816374 1942798503 326784013
  ; MkMatrix 338733442 1488985052 1254329816 811989752 263634393 1585176712 1988008155 1726799633 1055118892
  ; MkMatrix 146070469 1944209267 1817877663 1291733162 1169191002 711968597 1246566107 1607054301 714096179
  ; MkMatrix 1493978590 2140142484 1856200646 637179326 794860502 543508154 1021727698 64826267 1523790585
  ; MkMatrix 4543481 1736493404 1246711802 1368190953 635413685 1842277368 1460908182 1071621454 1763584729
  ; MkMatrix 219623360 220663945 1184234835 148962359 620270765 143795769 2100273957 1239227574 1689779667
  ; MkMatrix 1388286736 459572982 204387885 500496776 602813831 1691659542 1974539057 1634769206 674889703
  ; MkMatrix 2061048776 1395128411 1209239070 523951643 991078564 244264610 50004633 1902314392 1613758715
  ; MkMatrix 2096500461 1508763888 1118869898 2031893725 1274128692 882362909 1776410521 1517524225 1279866125
  ; MkMatrix 1531882368 9788234 283266980 581389271 1243296876 332622864 596345707 1124287550 1923538057
  ; MkMatrix 848700317 323296748 2005544336 254519431 1363663004 1851612737 1035357331 1073260371 21654233
  ; MkMatrix 114892097 141467705 1919133423 1511742930 1495359595 1926616571 278449982 1629033801 1032571947
  ; MkMatrix 2027071249 972643663 615609688 1149164757 437087921 1229536367 936891236 391756095 1910586023
  ; MkMatrix 775059396 1371226372 1354472501 1020103322 2116029743 670458854 475566808 1712648398 1301854439
  ; MkMatrix 661609872 697035997 1008333910 1186219616 974973492 1753962730 1468188778 457605179 707437497
  ; MkMatrix 1615443382 762533388 1826460516 512778746 735188590 411876569 501187711 1518479053 1599585292
  ; MkMatrix 625938588 1365575644 1859907694 2020929969 545264277 2005490597 835863438 1513629401 122868169
  ; MkMatrix 366521516 983789778 755811413 25548785 58498973 426010518 391959367 639982283 156627721
  ; MkMatrix 866463066 555254796 1836752149 968575157 1765089604 896237817 1200946366 1192489023 1669840993
  ; MkMatrix 667359018 1433907689 492208916 599829683 1614142506 985583668 1006248091 1428758857 791954359
  ; MkMatrix 1946611151 1168053657 1611509800 178538300 1304275065 1667855760 1027760284 248318930 143621616
  ; MkMatrix 1803066941 396888298 124768763 958612159 317978988 2020672698 1350268601 593392331 1291407678
  ; MkMatrix 1431970428 1960118937 286945424 46508697 1193937006 170439099 119917557 1829898652 1841962666
  ; MkMatrix 1534160090 459482943 1208941327 448859428 1625406261 996268735 323376358 120929338 1368332628
  ; MkMatrix 987184589 2068378457 1361446311 1144394185 343609366 541747845 1708705477 224224721 372504896
  ; MkMatrix 1021333437 949815666 940732137 1008635773 380658423 270226416 416656162 1077554481 110888537
  ; MkMatrix 2048439308 2123294626 1732841234 839165398 1631270631 117850680 1691593496 1965094592 84494065
  ; MkMatrix 689087958 799963119 1435019032 604385516 731958113 344033969 133491137 235541071 1830634744
  ; MkMatrix 1196425110 1667090323 1414617056 449063799 429028662 174599711 387139516 2031551886 362230596
  ; MkMatrix 116178628 1550148079 1049149684 1190388150 744035059 220995371 5433663 1510608915 1825934674
  ; MkMatrix 729239467 1203142640 667405974 1157295213 991137239 1699528103 394693685 1556023335 2057141807
  ; MkMatrix 338666116 1889459843 1616135438 13518278 1826633619 1341429973 395015671 1056378799 1349526857
  ; MkMatrix 1367986244 1211852374 1693169944 253203791 583771287 1162553918 1071527708 737162552 1614254582
  ; MkMatrix 376844919 1105747048 1195358271 323134243 619648152 866477144 1321588000 2008062090 990568244
  ; MkMatrix 825575175 341752316 447597726 284009899 381386935 1663413740 2012886564 8996331 1559354225
  ; MkMatrix 1267786832 930849023 1685917751 1870674690 652023321 1775613820 1064452914 853871076 2071155362
  ; MkMatrix 1966413479 561792163 615149423 1014364710 242575016 1913656910 1019111328 1516669204 141237524
  ; MkMatrix 1407755186 1870961708 1664288276 1635685429 1225447518 2022492487 1708035182 1252621480 787030000
  ; MkMatrix 1943664148 1102949034 689226279 922822800 999920217 1281660041 348019447 1552635270 1530239696
  ; MkMatrix 1202072895 171965954 1616285377 1723293528 1216360695 1361853176 710140036 1045247786 1494769064
  ; MkMatrix 1601760195 1698923897 1812104757 199895564 1877820805 601436917 1279479289 718445454 982119802
  ; MkMatrix 1080689250 159990439 346456087 1174234879 1029692080 855491025 583905140 969868080 690238252
  ; MkMatrix 569646490 1436551375 1542491571 1341486187 529483043 163433280 1485289923 1143757261 236542184
  ; MkMatrix 1012087154 366784632 1299450994 1233835714 1289163429 1515792681 876297738 712383141 1147203512
  ; MkMatrix 1430867445 1320989701 992386445 467337283 1910851804 1357057007 1269035769 989542405 2101382874
  ; MkMatrix 84492138 1638430421 1094479344 1066781652 196642452 1394109808 1465534370 1627586446 271232290
  ; MkMatrix 1158613679 438080924 456753764 1147557183 333914710 2072675601 1986175133 1848260257 1512384720
  ; MkMatrix 410649521 1767867111 2065987416 1345643887 1571011079 1731513961 1567331712 2085567976 411565558
  ; MkMatrix 1625450648 609198079 1004434185 980950739 2129520162 899283811 1870800857 4047892 1269109941
  ; MkMatrix 978611523 2040130666 1005500302 774327012 775896910 2019739180 298591589 1636187597 2028592351
  ; MkMatrix 602938933 1240954846 1532935432 1460509605 711757975 278306943 1757650549 1811699554 1580901684
  ; MkMatrix 1450230319 2113584776 994388662 743920844 592298277 1498629982 684616533 1900169428 786232436
  ; MkMatrix 529456683 1520308682 559847032 1353083583 854088030 1657121390 1053596369 1950692495 1781958392
  ; MkMatrix 1036471653 1761679983 1439039400 332557107 973248084 647295628 2071479389 573906962 987129012
  ; MkMatrix 2111219964 581071661 338558280 1415371499 1528402998 271641403 565606336 787912552 393640146
  ; MkMatrix 411680946 70445163 1992855299 1527716500 820879940 570601926 289906072 567255916 192843640
  ; MkMatrix 1688968240 1266419701 1882478328 759186754 1031195358 675280817 1324007495 1906396866 1008201549
  ; MkMatrix 1535908222 1882589086 2021181854 1458964278 1012901858 1559769573 723643227 1957308425 864714821
  ; MkMatrix 236739784 896782404 903205511 1331600710 361973117 1243420209 1434376079 722194900 109204902
  ; MkMatrix 1739721671 410018027 147076909 1248235822 219490246 982231448 662289361 1123808728 685150650
  ; MkMatrix 85764848 299562260 364340767 986755585 1384087083 1128538022 184100824 1351817026 1555196218
  ; MkMatrix 164113992 2019512638 1391528984 484936490 138309881 1103079282 1220199600 57866630 1191798384
  ; MkMatrix 1825461910 1014851002 1325432199 492004062 466153470 1449681157 495921247 1070050902 306384019
  ; MkMatrix 1937485265 1231518939 1687670637 104298812 1692795134 1090270008 17585946 742388825 1969829957
  ; MkMatrix 372894604 377119619 1592143637 186653414 1166221341 676103237 1033384957 1650329779 481231736
  ; MkMatrix 853274347 2119911166 1293473317 1555040403 1828403164 425400774 500337952 520928661 1753452315
  ; MkMatrix 1724077601 1856770486 2098897721 1843324 577992776 1360717508 334156405 421759494 1933615506
  ; MkMatrix 7982797 1229780803 2124003976 335663937 1568901979 904864277 1485178932 1104341499 1075008272
  ; MkMatrix 592424435 1187401829 927269505 1947405388 430141622 443182365 1309026589 308130076 2040283013
  ; MkMatrix 1045174844 344260368 356323779 1378487667 879268837 407945902 428291078 1013837425 1061296650
  ; MkMatrix 1329624230 1097596352 762976016 1064529491 935869885 1705969695 1776499358 228006351 2037183668
  ; MkMatrix 1559721133 621413895 1390823575 423961225 937415881 1471375869 1842209662 2141419855 1798531667
  ; MkMatrix 958679605 1022533784 90386964 94099148 2068306837 1223866834 1165272125 223124816 1560716422
  ; MkMatrix 1126945847 1601215724 1080865381 1141636527 596699167 1958403954 1898662550 1550846458 1986638189
  ; MkMatrix 355839794 59860888 317615418 581206083 1967756661 1438555513 1209985359 50337025 339525967
  ; MkMatrix 2104547316 622052528 886124417 1499384650 903512531 1603447885 861788569 16642645 1434558517
  ; MkMatrix 508635576 920672475 840119608 1524002635 1513994801 313153294 86270861 1601182016 524084366
  ; MkMatrix 1481645114 482914367 901899466 1703276169 1492301707 1467577130 1461989294 547334822 1515482884
  ; MkMatrix 534973085 1345667760 1323465382 965860477 1312897079 1695298092 2018601238 44601679 1189912309
  ; MkMatrix 1400173070 1735939325 1105259136 877852332 4584412 172136927 1796630488 1108025120 1764259267
  ; MkMatrix 1665639677 2042064294 223934287 91664479 1519985383 1136967860 1973479183 1870552959 757917665
  ; MkMatrix 126715201 250367910 47831693 800350204 2004534812 313391772 1226634761 478402220 1837094035
  ; MkMatrix 1302977872 1317907557 1951517368 1903679930 796093997 2871843 125151123 34515937 461890872
  ; MkMatrix 1464537992 1979444687 1447341521 2113186487 1355682163 607862931 268221854 1375063744 1303906582
  ; MkMatrix 1485840193 1475890408 1173702353 904234729 1105983041 204227064 1531719610 1441874689 1567694541
  ; MkMatrix 1974965931 1156870300 1136643490 1957566738 853658558 1646748230 1634023433 634039260 631744817
  ; MkMatrix 1180179895 1993179254 1380725500 33820388 6708911 1043245379 908215435 1326557721 1797271538
  ; MkMatrix 861765981 1185478730 1790843923 1406998294 1565844369 991234819 1336537554 294965056 1033109870
  ; MkMatrix 981282970 1467603974 537952221 625097406 1442251013 50413111 1701423638 1962334415 218563056
  ; MkMatrix 2089015022 1269298916 1108004601 331524876 1665535774 752892023 1166614940 2070693294 296548027
  ; MkMatrix 1776120468 1086775605 175375179 761119834 1821851424 1324126900 1859414411 1291440796 940350416
  ; MkMatrix 373886771 107155443 702293514 627324680 22400152 1157411079 189825454 2064124324 1876937015
  ; MkMatrix 2017966742 2110893402 2059568504 1325318973 445777158 1619353407 96930441 1398767501 63582715
  ; MkMatrix 698468373 1047798652 1580668213 1263205341 1832881092 51715445 2099438719 421027607 289657059
  ; MkMatrix 1347576704 338861215 551489723 1809912034 1951451442 296706098 232894224 10412138 1733058829
  ; MkMatrix 90484426 911378429 879139009 761852382 1288206979 1523953974 1848993671 1295820603 1156792315
  ; MkMatrix 611530620 1589477392 1311482304 144782464 632887921 1375441675 293206806 686405176 2110633027
  ; MkMatrix 1962297046 1877546621 1290826117 238259988 2002598116 1834987749 1614948046 317273266 388313920
  ; MkMatrix 1215471404 246141506 1094101248 246051632 1294589770 250223244 1436019842 2105676699 450228743
  ; MkMatrix 1842165803 1859429123 688847115 1622599279 1842304862 1536793639 43595159 1499966791 350948844
  ; MkMatrix 529983345 1520035700 2008171575 1638555726 78831510 1871412441 1460551403 1449485282 1933743673
  ; MkMatrix 1654436478 1715019868 1823466128 1597511773 1572237529 921218736 1071542841 1329845961 1214165625
  ; MkMatrix 1732046604 457339394 1671127494 1527116715 1556033723 280619812 713917101 1384619912 212423295
  ; MkMatrix 1943370323 1321452720 402708920 29080080 1750031760 963395654 1568758994 983252985 1942764127
  ; MkMatrix 474131943 53148639 203211655 2090539731 1153452664 209325006 774192997 1497449635 92474380
  ; MkMatrix 367478457 924867797 527222464 1610723125 376089466 474127790 1435019561 1215840461 57919487
  ; MkMatrix 162788913 1714548435 962281087 267421818 820671693 905953039 537823341 186557831 1936492458
  ; MkMatrix 1343801416 1970730414 1700717717 1933090570 1957651046 1070903189 144785595 1345544700 1486710401
  ; MkMatrix 1526316849 445796063 475198985 67281223 214852626 877952807 919534779 1785553515 1200521631
  ; MkMatrix 2026884378 2128665958 1590432330 1340596187 2109302952 1204508061 1276228691 2075032151 416674058
  ; MkMatrix 328043878 293485072 1709411464 1853979371 1664392685 2111404997 648297168 338585174 901642780
  ; MkMatrix 1128678366 510216607 1869453990 1864635551 1980238505 759424273 852036218 1351674510 433410603
  ; MkMatrix 434119110 472176415 1901775936 1247282641 1731355489 1393976550 340142320 1128232829 155357993
  ; MkMatrix 516735143 618396371 1112354534 1583323462 1847013542 759661618 631724603 1684342398 1042745338
  ; MkMatrix 1411170895 1732775980 306884712 724216300 1271508797 701995255 1671799108 998080071 2103296778
  ; MkMatrix 317758836 1497425249 360899174 193096637 517600830 956712927 777668926 565157607 1071414944
  ; MkMatrix 681309257 775246349 2110814126 555233250 674139162 214665562 102945897 197079639 497787106
  ; MkMatrix 960497128 436742629 198883878 1511075894 1510298322 959562093 1258901516 640963634 641715956
  ; MkMatrix 1006042321 549151852 219555950 726102885 870890388 304411222 327760387 1363006026 1038083373
  ; MkMatrix 402331789 1182189242 1140202379 1758581032 290680438 2007740757 115370567 322336963 499985048
  ; MkMatrix 996793298 1415403507 214717054 579238471 1504214356 851777488 775588392 1596272722 1160267268
  ; MkMatrix 1342569667 1480339500 699908198 1107694609 493121935 1762059393 1479051781 697400668 1108025160
  ; MkMatrix 1879927132 251242985 1864168841 856314330 1676369704 881758677 1233430757 102491018 1425749483
  ; MkMatrix 1511087953 535460625 836818987 1771539554 827163641 1402444212 1634453701 1306854941 477138594
  ; MkMatrix 1838799398 297249360 1580537134 1804756305 1737920113 1586404853 273676159 1601595467 1928980976
  ; MkMatrix 339897586 1731634858 1839951536 1122613228 943591825 109432150 727908460 867845267 1391465258
  ; MkMatrix 996573669 868678533 222252578 465445913 1717762051 1486245390 775808515 1804525668 1945171526
  ; MkMatrix 290341348 1829182561 207777404 1814595121 116013322 439072901 161476071 791710855 1449527258 ].

Definition mrg_skip_matrices_23 : list mrg_transition_matrix :=
  [ MkMatrix 0 0 0 0 1 0 0 0 1
  ; MkMatrix 888704518 1662553068 513723693 942116488 754406834 1136758122 330606715 289533226 1297315299
  ; MkMatrix 99251579 1760376624 1213006780 807232700 1644350103 1618264389 1612981885 779559952 512510661
  ; MkMatrix 1179407538 1335155435 2145337203 51213872 690716235 707614432 1038678693 1083540700 311476990
  ; MkMatrix 1019164940 2326200 1799892028 1316680099 1510448879 1793102118 957557922 1196283191 125382121
  ; MkMatrix 68056367 1260493245 339132442 1545960707 2132509156 1988292793 1039094335 645406778 1691868419
  ; MkMatrix 727710984 719764431 1610762372 929537600 819203442 894562316 868168832 1914168697 1974605498
  ; MkMatrix 681433799 1807083028 1889912342 2069867223 2103156131 1461207016 948993157 1415597071 641329515
  ; MkMatrix 795084912 677868040 1509515536 616860870 1435789420 1688078509 1885055699 1997200840 736769126
  ; MkMatrix 507196177 550578213 1906346346 80136086 1280020212 50937004 170531477 1845811169 1600353944
  ; MkMatrix 1545257346 227785103 171063641 2115159265 775498923 331190126 699392191 904004357 136974851
  ; MkMatrix 1501639035 1631166679 1819408562 73426789 1161607070 568722105 9743090 1143758531 1942407590
  ; MkMatrix 1531916142 990258340 435599067 1340798907 1997907459 668836055 1812119183 1028679740 1637869550
  ; MkMatrix 1955620485 725695530 1129185115 1872130726 1096168655 578099272 67856911 882013166 1431709141
  ; MkMatrix 658871130 369295673 1629307280 1694660455 1062242656 1212432601 1312330052 376351478 715771274
  ; MkMatrix 2021438529 724198535 556699324 1737525862 1521239760 983062691 1393743388 2108709135 246320651
  ; MkMatrix 862518949 683738620 1428753937 558042005 1674904386 1348224629 1923242958 1817642252 179736139
  ; MkMatrix 1373590688 1198029740 647758785 1710180622 1134930592 1576266458 2028800807 1751719616 92331997
  ; MkMatrix 2070278674 576438408 2107021660 1820566444 1998135625 1355079425 22131126 309581997 1567659379
  ; MkMatrix 800584669 411967974 318860284 437301930 159893627 1098130981 41888623 744763459 1939335881
  ; MkMatrix 1004711627 1788865944 1945913686 1661886119 1319546103 41352504 213453392 728183973 313062436
  ; MkMatrix 1137760069 1177255120 621144254 1663744059 1482973137 1745406737 1835612996 591782781 1383223346
  ; MkMatrix 1433046643 1773183568 1519403731 1834997415 1432432827 1593739790 2035336628 1981623054 94619664
  ; MkMatrix 1380032275 490239285 112948071 2074534975 391473350 1617840724 2123684194 687000413 1546887576
  ; MkMatrix 1837425764 1688530854 452945670 332746049 918463587 1474928566 580965766 773653125 1184555905
  ; MkMatrix 1337571166 298967127 1095290084 1892314303 1649156486 475062313 177398998 1615476289 2050107426
  ; MkMatrix 1758614940 888983177 820074147 2123827483 1625296055 273467948 1583353824 1999150374 281348330
  ; MkMatrix 872399666 573851934 39869569 1638730917 1447716844 912757145 257275480 1548684499 798303087
  ; MkMatrix 1101156310 1219151290 2019601037 2144131301 395661129 1907488405 1888851007 87169078 150403587
  ; MkMatrix 589084380 239656158 987437161 1401922395 1113709747 33476625 1512591254 228270362 1248563485
  ; MkMatrix 1901677851 548026240 1263078896 785101920 1209842352 1063554998 676086282 763220086 1586960416
  ; MkMatrix 685527763 629702361 49517760 18670305 185181791 711890191 981472199 1715264500 1732322863
  ; MkMatrix 61252081 1782605775 747086108 78534797 2118619971 1868541729 1059464144 137219076 1641096565
  ; MkMatrix 727622793 364309418 373434631 1724287432 64005849 1505505811 1027623603 1686741718 1406381530
  ; MkMatrix 1217840915 1959313803 1784911662 739034313 85590296 996198571 469874521 681952413 1242771322
  ; MkMatrix 935037669 175740507 843766586 1182447044 179281963 814844964 988067578 621875027 713244980
  ; MkMatrix 1186899423 830749021 493118664 948840567 2104666862 737456770 1308750618 276029486 504817989
  ; MkMatrix 323608743 1771773550 1872263378 2140636126 742251007 1980633037 856919268 552224194 2052211092
  ; MkMatrix 1042420836 859927383 1544676094 1954804862 1643291274 65583361 1629096100 1384621227 1910293121
  ; MkMatrix 341817606 1743525133 1731121515 1417257616 1067339544 120650418 1474145504 1330803419 494184165
  ; MkMatrix 1604092269 1164415005 908038262 1134280904 1941543002 1569350352 1647255827 1309360641 1590640960
  ; MkMatrix 10114346 1044206374 1294574029 1057267870 1212214345 1684911447 1456474299 440127683 1380292203
  ; MkMatrix 672745273 1725476651 846916208 652605907 649003803 738396529 1554845064 537906864 890233130
  ; MkMatrix 1544788813 157593431 299889416 2117510797 990033014 1012781717 1770776915 960867965 1190600138
  ; MkMatrix 1241329891 732538749 1521573556 342067072 358987965 1479189293 252238027 1005403039 2047206366
  ; MkMatrix 1937729278 1697275304 1455019122 441564199 196877847 804321692 314513071 1512600630 741209450
  ; MkMatrix 39813409 118344595 2008381535 1638518941 182010274 1070777543 1955731942 1168761126 417188974
  ; MkMatrix 443727908 981304811 1344343814 1372501325 314011796 1684993502 969344453 281611490 1289189598
  ; MkMatrix 1498321159 1889361365 1830085196 1588493995 1641130000 1257574777 1067811477 892637431 362339258
  ; MkMatrix 537953253 671514760 1238073044 1093423376 409478492 1879095492 1868879810 1513057266 524153543
  ; MkMatrix 65475981 60818738 333872960 482139416 584482953 145276327 1034645522 334761848 1326309765
  ; MkMatrix 287485731 52589998 857858073 311110122 2029249128 1133085998 246529609 1191192400 1612331788
  ; MkMatrix 2038972584 1588554475 1518998257 625430056 1721060791 1304410800 1062454477 2078932089 1959802201
  ; MkMatrix 1919568766 435253085 514289875 2008018775 1062621891 407649111 1552728692 605570274 206427201
  ; MkMatrix 885517218 883254522 132884505 932260800 566099635 358575131 1188499215 2126898810 895426875
  ; MkMatrix 425717066 1046532688 1464113345 930131237 1526495938 1541776809 1890859103 590453098 1105088989
  ; MkMatrix 1884818974 3887221 913111630 869905800 476394749 847439133 2012372304 595072223 590242018
  ; MkMatrix 1587850379 178076963 1815638392 2029566478 1736513992 1662438795 696913902 2000394977 714253203
  ; MkMatrix 778719155 57533722 1548078888 1782676692 1553449117 1395594753 308001448 386385997 1096091471
  ; MkMatrix 1804045245 814288996 1916570413 822415151 1271274781 719744072 805666529 1506799507 1495514230
  ; MkMatrix 379543066 1215645511 958639764 419767216 1194237004 1727050532 1642662266 489080517 700936276
  ; MkMatrix 1838771631 241764181 190086080 2017860485 151008849 779310116 1635314457 1123377878 1690561874
  ; MkMatrix 699022414 175910571 2140959505 1186143906 2117447795 1434491279 1531513375 113243313 1326193359
  ; MkMatrix 1241954280 1040291278 2081952245 808230752 416621597 605607280 1869989697 1979095458 1656673469
  ; MkMatrix 483314018 1345391885 1445610917 339144201 1440538434 961483614 464846558 2109183188 1561317777
  ; MkMatrix 1777290606 808336043 837020496 1526802907 2028695092 830529425 1083206109 2114048410 215036325
  ; MkMatrix 46838832 1877532407 752313272 657330189 1185748914 1002145357 79439850 1703268065 1126476003
  ; MkMatrix 1146108145 1268458186 1131752120 193290655 1522371847 1404191247 1391904460 1853607741 980983320
  ; MkMatrix 532886526 1541988453 1144989174 669899430 226983020 1999723263 767208579 294002245 660953146
  ; MkMatrix 867648320 1173252112 1336060949 1810279440 133074272 869575200 1031709629 268065064 468748229
  ; MkMatrix 1930051930 685857021 1920527792 364196139 2116568249 1084080669 359983552 1526692084 2011722749
  ; MkMatrix 1672777416 1339034204 1209486918 873072853 1140473540 324065379 988689853 1922895775 2078072754
  ; MkMatrix 50251230 810590416 327403468 561564090 2044466530 1866744309 640410601 444794562 2103536798
  ; MkMatrix 987978441 1127091705 6888177 752984718 1562529700 888673433 1091716846 1015128916 777737850
  ; MkMatrix 1853388008 632422193 1544149753 180835269 197299700 842729849 68078300 157007864 571843677
  ; MkMatrix 1967903351 847180231 1228426920 722201818 1077875910 1339530064 1189088127 1057640250 1781443646
  ; MkMatrix 1708902509 606578314 1214329340 1200019704 307971548 974830077 551016266 1651409105 266849273
  ; MkMatrix 1301392699 1375280350 1409206245 500364225 997878489 812418723 1446982239 2034029906 930213116
  ; MkMatrix 666952657 1581000734 985236509 353807397 1398732830 1025444757 304208297 2072695593 2069153743
  ; MkMatrix 422945563 1143252035 228728317 749846767 380050659 1317343635 1378270780 267451994 1789681014
  ; MkMatrix 1708915195 1069935285 1375736390 1626509552 2046412075 2082427702 861635059 1217563099 1512890808
  ; MkMatrix 1648843464 337040439 2028585282 298126986 799728736 189441956 1532783868 620646091 1763618610
  ; MkMatrix 595144079 1848891437 222546242 1808121777 1245869441 1533216827 437539629 473866901 1187390208
  ; MkMatrix 1517760567 1455142420 702340332 1423755239 1181915015 1675545498 2048634690 1780474921 666122975
  ; MkMatrix 1058349463 146727653 1413188677 1077956939 1020933484 98427888 90248728 1905363343 676178861
  ; MkMatrix 880993135 907681384 374681005 496723222 26896808 62462875 1963431734 1312760668 426424033
  ; MkMatrix 2092905987 1573506072 991051186 180819699 268183277 1592608253 1829502668 399487224 557859478
  ; MkMatrix 76393674 1141282790 1068115541 285095624 2038502350 470299910 1977252396 1311044203 1901759426
  ; MkMatrix 732398430 2041488792 131307101 385159733 1504905663 711407518 1815049752 1038382508 2000465244
  ; MkMatrix 1118698071 354493713 1551111275 1375467369 193548894 1144065394 506443293 446592940 37241365
  ; MkMatrix 128000008 905871116 580544675 714500527 1072866910 1720064572 1267012263 593168782 1080006201
  ; MkMatrix 1772787718 312490087 113369939 2110097082 1343416291 1624749668 403701014 1324556633 128202193
  ; MkMatrix 743891320 1043447795 70890599 294827184 715449535 783085833 1192674928 736384418 242966624
  ; MkMatrix 899158099 2054533513 1057049438 842531983 433361979 1632453996 56193810 1896605973 1165414259
  ; MkMatrix 345121506 1546237762 1374818642 2016336311 1519275276 2069690329 1616794668 161967989 281470474
  ; MkMatrix 1005306205 422340836 1937287842 55168588 1189763229 607354576 1295217011 782958640 915727705
  ; MkMatrix 1684350207 1422469912 1477788124 1453344409 1501059142 1584566616 493693079 1173177649 2056814606
  ; MkMatrix 806992707 230487941 153041518 1462221625 1958026265 699659770 981902422 1333304142 1706118180
  ; MkMatrix 1293118667 329694629 272544543 1313633561 1648876455 628722372 1340981901 951664078 1101045663
  ; MkMatrix 858813508 2109305595 128799819 1384610517 8852852 520230679 1986828546 1333465620 1689623532
  ; MkMatrix 1808874614 1557598351 1324190156 542249655 1731229644 280247142 1440852021 145325630 606623850
  ; MkMatrix 711743270 1491113328 1647852939 1152238279 1424200532 168261360 1588961463 918224314 458576928
  ; MkMatrix 1910797016 1369896835 1939668721 336199437 1042287103 271621150 770859495 1677011349 1421700772
  ; MkMatrix 247406034 2060668687 687107420 1200016941 302283770 1329831481 329040584 1514349466 416506551
  ; MkMatrix 338850640 21900952 2017287196 501962232 1344975446 2050786875 762640878 20289560 1337874100
  ; MkMatrix 628208965 131465200 126538273 1033536284 2120785453 448462974 1472814785 1054922021 1858936928
  ; MkMatrix 78444217 1357128848 1530972465 1094503779 172289190 1007550825 1715200588 1353177032 987167417
  ; MkMatrix 331450875 1329099548 1564322941 1343604297 1632335489 676220830 253903827 2006357234 285865363
  ; MkMatrix 1007803743 1020309324 802359679 967660714 498342648 989700561 563338665 1307363093 1436629936
  ; MkMatrix 943403092 1541112137 1910423602 36173705 881768083 351927596 1357752214 1064198983 831420986
  ; MkMatrix 1649586584 1547878719 1605005330 321596696 1359900240 1400020144 1544495009 747391084 1527810090
  ; MkMatrix 1875829741 1167149339 756532042 1972712882 17583753 617983112 1828728141 1440032215 1124185213
  ; MkMatrix 2082111831 1088646291 356832754 850130324 101979689 1541023156 1535461567 1064338052 1017951559
  ; MkMatrix 729136700 2086654468 2043248230 1039041014 1506135822 1831456623 1724360959 328140496 961789919
  ; MkMatrix 452970582 561631939 1429548534 2072545721 1865254223 617840600 1213304324 2077385937 816046598
  ; MkMatrix 105652976 511684712 1005027955 1747229813 1020634981 45209441 1096578833 611807945 1343373112
  ; MkMatrix 576209740 1214898698 562746863 1718305491 212717810 1013225289 1174485653 555616236 1736239045
  ; MkMatrix 265449968 1698826258 1655467372 732288424 1840525450 317428581 1651741551 1335294887 2124791516
  ; MkMatrix 1253216642 606285883 1007015386 151405406 996191674 382408423 1195294985 269923073 150099322
  ; MkMatrix 113914044 714453173 1856291403 1224065829 1959756021 1104079987 73999037 876043619 1545766572
  ; MkMatrix 180089365 31150886 257171305 262340553 1933668258 504990520 80424623 556314482 1953706554
  ; MkMatrix 653314729 750776501 2145900897 1929106169 1037783521 1488483987 229067131 882565032 2017375948
  ; MkMatrix 552071542 926979477 2065543706 1693569457 917728958 948502802 1948316090 2085400649 1154206372
  ; MkMatrix 230357708 256606225 600760190 175401219 1523550118 1034974486 882764214 1369672297 722042267
  ; MkMatrix 1353698821 1443641354 1191653066 98268669 52696472 1077220949 1780993375 1085533723 2142365863
  ; MkMatrix 1688246430 167623444 503700173 59603534 1834766095 650479017 2101393617 1149476868 143959003
  ; MkMatrix 788776745 1149923265 1744530297 347134845 635003041 1410722316 821280757 1885047680 2122720000
  ; MkMatrix 747179417 1751689709 93826211 763454072 1533240210 1168054366 329252277 326093228 130617392
  ; MkMatrix 902778833 639315084 1084168759 1283804631 1204490120 1719206863 804568904 1431702244 1132891064
  ; MkMatrix 867801247 1741150822 534317634 1055758761 214850586 41556015 2130385764 739620473 1351847791
  ; MkMatrix 980782314 35251984 1491852334 1785449067 1941708822 1195216727 1825145756 717151323 2012828406
  ; MkMatrix 766946307 1374309895 1436863565 1927147077 1884120600 1857497964 1216236007 105600104 129173646
  ; MkMatrix 1885402416 739019030 545283684 128607592 94277565 1797115102 131041763 404865522 167322997
  ; MkMatrix 1671865956 1055655027 1871588815 655396639 2122626080 41005213 1105617714 1771668992 643548474
  ; MkMatrix 506230229 1109438022 1085383502 101609263 1497751185 1898625083 742987270 915305542 1392142610
  ; MkMatrix 1772250407 1464366450 1819931800 81714976 1912639850 1595698084 1690934200 1637371653 587940495
  ; MkMatrix 1813957398 1493627555 504109943 118260845 1578796450 643994101 386086190 1056872502 1423639439
  ; MkMatrix 1485158271 469861517 757644866 1072228752 121103165 1131172128 1220728080 644973924 324859021
  ; MkMatrix 156486153 911534875 169363832 883054057 2105728739 105145445 669433838 434003849 772711386
  ; MkMatrix 140441843 125788989 953646098 525110200 1392662388 398756891 1995197192 1115281371 35946267
  ; MkMatrix 1001501032 777806188 2113289614 1587409798 1830372311 1715771015 975898847 1997464478 916511379
  ; MkMatrix 1420638284 47671442 116720674 1581673734 458778533 2127428419 1412230192 228399708 1237832094
  ; MkMatrix 830392375 400157242 1308325582 1074108730 737803280 1720132646 1350524250 1675167066 795739901
  ; MkMatrix 1636308395 2115845661 2103610042 1854259082 508865792 1006266811 785049017 1257369379 2108895974
  ; MkMatrix 972869632 1962435832 1557825517 1468103014 700180905 762938002 1505545581 1048536243 655315767
  ; MkMatrix 17838325 32750089 1613963745 685357051 824971126 563377587 20917219 570661842 839987846
  ; MkMatrix 2080224261 1970840956 11641567 1603176824 578710454 1350136647 290713017 1179304721 273327984
  ; MkMatrix 1850522389 1185539240 89347544 1800247218 288407290 1504224045 99740040 1765338204 100035648
  ; MkMatrix 2027454713 112299962 448640290 359412624 945774278 798555183 491268523 509591188 1626410821
  ; MkMatrix 370226007 534903305 760095605 1904604692 1994646390 1156943479 247791205 207265035 1385232716
  ; MkMatrix 10753570 1180594183 129261327 13395651 1135533406 103088610 1166922137 1430334003 957039052
  ; MkMatrix 283577490 1019177979 616320933 1534437219 2008372207 1993667681 25911427 129503849 781929854
  ; MkMatrix 1337354204 876869541 504990890 1944353286 441675107 838292299 104214403 82517145 949665018
  ; MkMatrix 1525301549 2034983521 1232179781 1611560139 1766337087 320011973 368556314 838320335 936054058
  ; MkMatrix 281066592 1046052726 888057209 1004726110 281660621 88685960 857017123 1026892664 351744918
  ; MkMatrix 517787712 2115090911 1866809182 1619863442 255124759 1074871753 738984792 502225306 723590996
  ; MkMatrix 358375818 499079648 1614401240 901262808 1969979871 158899747 162921958 629491758 1534909391
  ; MkMatrix 1523414038 146419940 790959535 1313912192 1016832670 1545960309 1216241068 1747221277 83182676
  ; MkMatrix 1506352153 377898691 344920568 1735644633 384225065 1246539808 767625094 822730756 1814256218
  ; MkMatrix 441190918 1528363576 56950817 1757696656 33256910 1159198390 724973204 1933452764 1933528819
  ; MkMatrix 718527959 798951260 1341042777 1590884155 553501097 440092292 328017016 1046581470 1260939406
  ; MkMatrix 1019207266 1299711548 1104948162 1365506296 243281662 1587234099 442042045 1747662492 920089978
  ; MkMatrix 723760222 75366178 1655075156 1896460446 40630693 36798465 31582958 1670658046 100145471
  ; MkMatrix 611090211 955827667 971137646 1947383044 1286234092 1923062099 190691729 699524933 289781089
  ; MkMatrix 1442015672 1580578427 62395413 2091976789 906647955 216879483 308610141 2091337422 389428222
  ; MkMatrix 1879968236 1709567395 840108216 456780363 1905188049 622081783 944502139 18830432 1039603939
  ; MkMatrix 1531181384 1427852057 360213478 2020777831 1977336860 1321435302 112459487 585552640 1772393436
  ; MkMatrix 1672567953 1130046518 1866045104 984902556 1295977366 1940512105 1723736779 274220501 1307374373
  ; MkMatrix 995818253 1616337384 134186405 970571907 724381916 516181719 1993632268 1131794072 1616744179
  ; MkMatrix 1986405829 801342666 1791849757 320239713 129995312 1072468267 20621493 1708886561 1786742845
  ; MkMatrix 1904272510 1271468622 1172846292 413744305 909021527 1678715067 1336915295 1556436687 1115887963
  ; MkMatrix 1155700101 1777429807 1733744535 2094491132 958714493 1480308954 571391307 498639804 1213687291
  ; MkMatrix 653774252 622971674 16832206 1878498621 199520724 1682640874 931146453 800978086 563423488
  ; MkMatrix 834875140 526993975 2069754407 1634085691 1452773610 234787676 1558081991 122389353 658318060
  ; MkMatrix 808236483 1955505896 539850467 1782825094 766894245 1994745674 1344928034 667855188 1392138388
  ; MkMatrix 251796301 832660781 1547291704 1835766639 1129652128 851906258 1034376149 292618981 1134609667
  ; MkMatrix 650189050 534103921 1772194399 1766241714 1496072957 1380279577 966974000 1427800814 352097578
  ; MkMatrix 1539268390 1802099038 1732828711 2117843991 1386879090 189613278 1451715699 1502369314 216804736
  ; MkMatrix 128830494 810912144 134539106 261796872 1130859305 121576377 1917348474 1093963459 640597912
  ; MkMatrix 1800300769 1418583782 1014988938 2104190004 208339634 1754846154 1904031337 1115656489 784227504
  ; MkMatrix 1601429117 972023510 1080594817 1485110258 849173338 89400772 190311088 130011189 1770037063
  ; MkMatrix 801989306 2122670670 1511343969 1446823603 1070945406 338735860 1392786418 744599992 2098825597
  ; MkMatrix 1474121652 1284090416 1615559898 879699354 402401755 2056638026 1539981683 662828312 1458902034
  ; MkMatrix 920447909 907256367 814053439 471578464 1979591770 1551467240 271039905 913585409 478720871
  ; MkMatrix 1424961031 751705093 1253778648 1194474639 870202748 1434084738 537100625 1543360332 1618516820
  ; MkMatrix 1674292368 1772461085 306432515 1165387284 1920771405 2045452215 1201136975 208118431 881562313
  ; MkMatrix 2021457172 234151611 1755542051 1781486147 1189764241 815131789 289129919 1572916493 2035107839
  ; MkMatrix 1861107207 1045793432 2094992904 280408762 1185593830 1146025186 190645536 1931669742 724257785
  ; MkMatrix 667548678 1215815684 671044902 977529525 1108325336 767425282 617194418 546763114 272713152
  ; MkMatrix 787728674 712665123 959902336 1345679085 458863280 1940198640 280832812 388394142 537673695
  ; MkMatrix 106121270 1421349656 800376057 192623482 891789488 310465388 1550706630 723617985 1175394105
  ; MkMatrix 1276552452 1752754258 396329688 1742914497 911900851 446967441 347265266 118133101 977928448
  ; MkMatrix 674671788 923257324 1573499495 271223647 633016363 1546115657 710236468 881634342 539192708
  ; MkMatrix 1862905487 404812794 2127599282 269272703 320036172 504415150 877312156 1680200366 376211138
  ; MkMatrix 2066753331 136408375 247833380 144016533 1097781771 594160715 1650489865 103215992 202662715
  ; MkMatrix 561664989 1320123821 20547721 1085990622 265434474 2089908716 1007066588 1592510775 1318668438
  ; MkMatrix 2014571333 371033380 1948551601 501093964 246771683 1061797784 2006419106 443092371 1272805359
  ; MkMatrix 1379525157 1131689368 471342666 1061919500 996436135 326733016 2074973028 1194672399 470926613
  ; MkMatrix 126825737 502347018 61979871 2110816565 1976514458 135835463 336560006 489782010 731348931
  ; MkMatrix 945623733 2073217663 2099287976 1939632323 1613364417 990630080 1752567448 37743528 311663994
  ; MkMatrix 14818725 538679347 635867174 37583454 1003661699 1070363705 798110789 724612319 642673205
  ; MkMatrix 1145044236 977172434 1812507188 871669422 349742333 146910222 1975836975 1790739216 1440970525
  ; MkMatrix 2107161609 2146525662 1811386826 338062963 997668309 227903093 980001467 746681726 1380574799
  ; MkMatrix 486202949 1684798545 1161244629 218281322 1461153196 333511507 1796134878 1522369397 606201360
  ; MkMatrix 1770699527 678996876 664230875 346930560 1662234515 810871318 165677549 1255311059 1115501462
  ; MkMatrix 1883003536 1252399137 1559563186 1466043470 766217871 163851170 428473453 564458485 1105528313
  ; MkMatrix 1682255259 958348699 1772317063 263258874 202317483 262185176 1251055522 40137806 832514345
  ; MkMatrix 166234425 1519004393 1525141877 1836294417 1470918674 1997693256 396452508 409045851 361384985
  ; MkMatrix 1736502975 1603387171 873545358 1005386490 1584270069 458740218 498237917 508880672 547168375
  ; MkMatrix 408694021 1464134103 1630453440 210964587 981865791 1428465378 915742193 1286319190 1605395898
  ; MkMatrix 1423250515 2035496656 678150920 1540911197 1189370216 1000488064 757476827 2027413584 909272191
  ; MkMatrix 618049052 821853822 2099383110 210810420 1785114773 1894026842 1651222080 1780366339 1054612372
  ; MkMatrix 276659015 1171381207 758177633 145721993 574568418 537679640 569989759 1986335042 94099518
  ; MkMatrix 1480435469 1694297772 454654773 1360025867 908035892 2142512999 1744884688 1608309685 881998414
  ; MkMatrix 1968615079 1656755375 1993366622 998344367 28937154 860365915 1155367640 593965693 1216913532
  ; MkMatrix 1140906854 237792652 906433879 1591468549 949033143 1341713806 1081079141 1320465032 1775360570
  ; MkMatrix 613364720 1724206024 883134537 252612976 2132670796 1509528372 1643289795 1288074283 2003967344
  ; MkMatrix 440308260 950464619 1286381340 11837465 1635313787 796356728 1866649944 1935490361 1065266343
  ; MkMatrix 48434322 1947443176 286025632 898329135 2055921025 2145239528 394185256 330867566 436878824
  ; MkMatrix 2094553555 1576281646 555214550 880884357 138298721 306316990 1521745427 1099892734 1256574817
  ; MkMatrix 488778025 1397109876 680230558 898172365 39413646 1762908479 2103322055 1772622381 1673853642
  ; MkMatrix 1293451821 59094087 2005768020 168479994 751187423 1861243779 1246958515 1342657249 1247625027
  ; MkMatrix 197676655 1054970504 1253670760 1861827422 1176633591 448912763 1418673840 1365291578 484033174
  ; MkMatrix 1170201996 162623306 1849560204 151071672 442546301 1471039525 1871567282 1858255135 1402769739
  ; MkMatrix 306394847 1954003877 199684492 487159794 2018661236 450901310 1115610857 1922057094 701696159
  ; MkMatrix 417828677 778092456 1418686854 1140367019 602882650 309729872 451287940 982416240 259036966
  ; MkMatrix 197931806 1888412940 1503994486 518266328 1571294798 315898255 856559185 755341525 1843796176
  ; MkMatrix 1963027320 1388958721 303016177 1022801991 1322230057 701899159 2097460936 2006677581 727267086
  ; MkMatrix 2087663868 368351760 1789847648 481900297 305547629 496662865 5402910 1553751102 2123966755
  ; MkMatrix 1072138688 1676849683 218557230 1256822838 880034729 13110954 1717206949 1622168047 1063895189
  ; MkMatrix 582332959 954073947 730393917 1329494272 1362173142 642883229 1471752428 1673374381 883866291
  ; MkMatrix 812516952 1169885791 1236462108 1907745011 2141412313 26511399 1119808936 1086315154 1116956915
  ; MkMatrix 203051139 2075086320 248931142 1036905681 1470459045 1896644239 1625215123 790202935 657017106
  ; MkMatrix 391526948 1166894491 888493202 909554027 192286649 1888853518 12646106 1549372984 79502834
  ; MkMatrix 338210054 1042552550 1724435100 326327395 1505840460 279933937 1304335675 1480422644 1417189264
  ; MkMatrix 1625241944 142114324 374886669 663196355 1328351252 2776373 1769779309 1010141238 760053454
  ; MkMatrix 1303473866 1270914567 825253458 1325476945 31003778 1458943808 1173616584 1344207870 634272847
  ; MkMatrix 1704532647 781317474 678900205 1922726371 862814454 936350324 780674321 1756864541 355286047
  ; MkMatrix 691828202 1345625827 854220906 1600789169 1666051590 1318234321 500213076 996217863 1639497885
  ; MkMatrix 1343132366 808188170 877696809 668030531 213052010 982336936 104382152 1919986966 185301666
  ; MkMatrix 1840737732 1990316468 1668774220 78646902 931008248 487064803 1820424086 85743566 1545243094
  ; MkMatrix 126865257 729339235 1177600601 1350999620 255056574 362813848 1909609213 2078500766 171826400
  ; MkMatrix 2086263230 1437545402 1173875958 1316635030 1615749964 1781095095 13621763 1633989960 1043853478
  ; MkMatrix 460635857 734408275 1764807375 1898333329 1292536636 251063178 1462186898 1171819550 1956141617
  ; MkMatrix 1431162880 490029232 1262503105 1329807571 751264109 2136605871 1695807056 306778372 1932381867
  ; MkMatrix 1988937863 2027480699 1535004989 214807941 2139126656 1653474994 312043647 857211941 1946476659
  ; MkMatrix 818958097 1388277664 1397334511 1660691557 2048007464 779519783 1446625134 510127666 366224228
  ; MkMatrix 280969743 1174250323 2079217420 951676236 261379682 1398033460 1589905709 1361576879 1824937239
  ; MkMatrix 1951571268 271837383 1355560478 684631178 1435288185 447780898 984088799 232825916 924302385
  ; MkMatrix 2046214895 44243714 300323637 765919960 206501312 938681236 1689772122 389248082 285012848
  ; MkMatrix 1830236273 1288660329 1970837636 1933369000 460566881 2043942004 1684954664 1773131597 1665331922
  ; MkMatrix 201676699 1998072415 533742967 2134059984 1557115276 1820111388 755697440 1869565880 902767218
  ; MkMatrix 1723567772 32608884 1354576639 1369109799 1284454825 717850352 244335557 961469807 1699559669
  ; MkMatrix 1018127524 506279999 199983247 153825334 104450790 579432095 1607794749 557464813 1305202476
  ; MkMatrix 974706551 1778115591 121543928 420407332 175662788 470600657 1782194798 1729374435 1180994471
  ; MkMatrix 2126178131 1227265672 1799394210 1089246034 482572629 1664219332 357923985 1500843551 1138393392 ].
