(* ===== verification/MrgTable.v ===== *)
(** * The transition table is the table of powers

    Collects the 24 rows of [mrg_skip_matrices], checks each entry against its
    neighbour by one multiplication, and concludes that the table is what
    [dump_mrg_powers] writes and what [mrg_skip] needs. *)

From stdpp Require Import list numbers.
From Stdlib Require Import ZArith Lia.
From S2P Require Import Prelude ModArith Mrg MrgTable0 MrgTable1 MrgTable2.
#[local] Open Scope Z_scope.

Module Table.
Import Mrg.

Definition mrg_skip_matrices : list (list mrg_transition_matrix) :=
  [ mrg_skip_matrices_0; mrg_skip_matrices_1; mrg_skip_matrices_2; mrg_skip_matrices_3;
    mrg_skip_matrices_4; mrg_skip_matrices_5; mrg_skip_matrices_6; mrg_skip_matrices_7;
    mrg_skip_matrices_8; mrg_skip_matrices_9; mrg_skip_matrices_10; mrg_skip_matrices_11;
    mrg_skip_matrices_12; mrg_skip_matrices_13; mrg_skip_matrices_14; mrg_skip_matrices_15;
    mrg_skip_matrices_16; mrg_skip_matrices_17; mrg_skip_matrices_18; mrg_skip_matrices_19;
    mrg_skip_matrices_20; mrg_skip_matrices_21; mrg_skip_matrices_22; mrg_skip_matrices_23 ].

Definition mat_eqb (m n : mrg_transition_matrix) : bool :=
  (mt_s m =? mt_s n) && (mt_t m =? mt_t n) && (mt_u m =? mt_u n) && (mt_v m =? mt_v n) &&
  (mt_w m =? mt_w n) && (mt_a m =? mt_a n) && (mt_b m =? mt_b n) && (mt_c m =? mt_c n) &&
  (mt_d m =? mt_d n).

Lemma mat_eqb_eq m n : mat_eqb m n = true -> m = n.
Proof.
  unfold mat_eqb. rewrite !andb_true_iff, !Z.eqb_eq.
  intros ((((((((?&?)&?)&?)&?)&?)&?)&?)&?). destruct m, n. simpl in *. congruence.
Qed.

Definition opt_eqb (o : option mrg_transition_matrix) (n : mrg_transition_matrix) : bool :=
  match o with Some m => mat_eqb m n | None => false end.

(** Each entry is the one before it times [base]; returns the product after
    the last one. *)
Fixpoint check_chain (base prev : mrg_transition_matrix) (l : list mrg_transition_matrix)
    : option mrg_transition_matrix :=
  let p := fast_multiply prev base in
  match l with
  | [] => Some p
  | m :: l => if mat_eqb p m then check_chain base m l else None
  end.

(** A row is the identity, then [base], then the chain; the product after the
    last entry is the base of the next row. *)
Fixpoint check_rows (base : mrg_transition_matrix)
    (rows : list (list mrg_transition_matrix)) : bool :=
  match rows with
  | [] => true
  | (i :: b :: rest) :: rows =>
      opt_eqb mrg_make_identity i && mat_eqb base b && (length rest =? 254)%nat &&
      match check_chain base b rest with
      | Some next => check_rows next rows
      | None => false
      end
  | _ => false
  end.

Lemma table_checked :
  match mrg_make_A with Some A => check_rows A mrg_skip_matrices | None => false end = true.
Proof. vm_compute. reflexivity. Qed.

Lemma check_chain_ok base prev l k q next :
  0 <= k -> 0 <= q -> represents base k -> represents prev q ->
  check_chain base prev l = Some next ->
  (forall j m, l !! j = Some m -> represents m (q + (Z.of_nat j + 1) * k)) /\
  represents next (q + (Z.of_nat (length l) + 1) * k).
Proof.
  intros Hk. revert prev q. induction l as [|m l IH]; intros prev q Hq Hb Hp Hc;
    pose proof (represents_fast prev base q k Hq Hk Hp Hb) as Hrep; simpl in Hc.
  - injection Hc as <-. split; [done|].
    by replace (q + (Z.of_nat (length (@nil mrg_transition_matrix)) + 1) * k)
      with (q + k) by (simpl length; lia).
  - destruct (mat_eqb _ m) eqn:E; [|done]. apply mat_eqb_eq in E. rewrite E in Hrep.
    destruct (IH m (q + k) ltac:(lia) Hb Hrep Hc) as [H1 H2]. split.
    + intros [|j] m' Hj.
      * injection Hj as <-. by replace (q + (Z.of_nat 0 + 1) * k) with (q + k) by lia.
      * specialize (H1 j m' Hj).
        by replace (q + (Z.of_nat (S j) + 1) * k) with (q + k + (Z.of_nat j + 1) * k) by lia.
    + by replace (q + (Z.of_nat (length (m :: l)) + 1) * k)
        with (q + k + (Z.of_nat (length l) + 1) * k) by (simpl length; lia).
Qed.

Lemma check_rows_ok base rows k :
  0 <= k -> represents base k -> check_rows base rows = true ->
  forall i row, rows !! i = Some row -> length row = 256%nat /\
  forall j m, row !! j = Some m -> represents m (Z.of_nat j * (k * 256 ^ Z.of_nat i)).
Proof.
  revert base k. induction rows as [|row rows IH]; intros base k Hk Hb Hc i r Hi; [done|].
  destruct row as [|idm [|b rest]]; cbn [check_rows] in Hc; [done|done|].
  rewrite !andb_true_iff in Hc. destruct Hc as [[[Hid Hbb] Hlen] Hchain].
  destruct mrg_make_identity_ok as (idm' & Hrun & Hrep). rewrite Hrun in Hid.
  apply mat_eqb_eq in Hid as ->. apply mat_eqb_eq in Hbb as <-. apply Nat.eqb_eq in Hlen.
  destruct (check_chain base base rest) as [next|] eqn:Hch; [|done].
  destruct (check_chain_ok base base rest k k next Hk Hk Hb Hb Hch) as [H1 H2].
  rewrite Hlen in H2.
  replace (k + (Z.of_nat 254 + 1) * k) with (k * 256) in H2 by lia.
  destruct i as [|i].
  - injection Hi as <-. split; [simpl; lia|]. rewrite Z.pow_0_r, Z.mul_1_r.
    intros [|[|j]] m Hj.
    + injection Hj as <-. by replace (Z.of_nat 0 * k) with 0 by lia.
    + injection Hj as <-. by replace (Z.of_nat 1 * k) with k by lia.
    + specialize (H1 j m Hj).
      by replace (Z.of_nat (S (S j)) * k) with (k + (Z.of_nat j + 1) * k) by lia.
  - destruct (IH next (k * 256) ltac:(lia) H2 Hchain i r Hi) as [Hl Hr].
    split; [done|]. intros j m Hj. specialize (Hr j m Hj).
    by replace (k * 256 ^ Z.of_nat (S i)) with (k * 256 * 256 ^ Z.of_nat i)
      by (rewrite Nat2Z.inj_succ, Z.pow_succ_r by lia; lia).
Qed.

Lemma table_rows i row :
  mrg_skip_matrices !! i = Some row -> length row = 256%nat /\
  forall j m, row !! j = Some m -> represents m (Z.of_nat j * 256 ^ Z.of_nat i).
Proof.
  intros Hi. destruct mrg_make_A_ok as (A & HA & HrA). pose proof table_checked as Hc.
  rewrite HA in Hc. destruct (check_rows_ok A _ 1 ltac:(lia) HrA Hc i row Hi) as [Hl Hr].
  split; [done|]. intros j m Hj. specialize (Hr j m Hj). by rewrite Z.mul_1_l in Hr.
Qed.

Lemma table_length : length mrg_skip_matrices = 24%nat.
Proof. reflexivity. Qed.

Lemma mrg_skip_matrices_ok : table_ok mrg_skip_matrices.
Proof.
  intros i j Hi Hj. destruct (lookup_lt_is_Some_2 mrg_skip_matrices (Z.to_nat i)) as [row Hrow].
  { rewrite table_length. lia. }
  destruct (table_rows _ _ Hrow) as [Hl Hr].
  destruct (lookup_lt_is_Some_2 row (Z.to_nat j)) as [m Hm]; [lia|].
  exists row, m. specialize (Hr _ _ Hm). rewrite !Z2Nat.id in Hr by lia.
  unfold aget. destruct (Z.ltb_spec i 0), (Z.ltb_spec j 0); try lia. done.
Qed.

(** ** The dump program writes this table *)

Definition row_rep (row : list mrg_transition_matrix) (k : Z) : Prop :=
  length row = 256%nat /\ forall j m, row !! j = Some m -> represents m (Z.of_nat j * k).

Lemma row_unique r r' k : row_rep r k -> row_rep r' k -> r = r'.
Proof.
  intros [Hl Hr] [Hl' Hr']. apply list_eq_same_length with 256%nat; [done|congruence|].
  intros j x y _ Hx Hy. eapply represents_unique; [by apply Hr|by apply Hr'].
Qed.

Section Dump.
Context {MA : ModArith}.

Lemma dump_byte_ok t k :
  0 <= k -> represents t k -> exists row, dump_byte t = Some row /\ row_rep row k.
Proof.
  intros Hk Ht. unfold dump_byte.
  destruct mrg_make_identity_ok as (idm & -> & Hid). cbn [mbind option_bind].
  assert (exists rest, mapM (mrg_power t) (seqZ 2 254) = Some rest /\
    Forall2 (fun e m => represents m (k * e)) (seqZ 2 254) rest) as (rest & Hrun & Hrest).
  { assert (Forall (fun e => 0 <= e < 2 ^ 32) (seqZ 2 254)) as Hall
      by (apply Forall_seqZ; lia).
    induction Hall as [|e l He _ (rest & Hrun & IH)]; [by exists []; repeat constructor|].
    destruct (mrg_power_ok t k e Hk Ht He) as (m & Hm & Hrep).
    exists (m :: rest). split; [|by constructor].
    cbn [mapM]. rewrite Hm. cbn [mbind option_bind]. by rewrite Hrun. }
  rewrite Hrun. cbn [mbind option_bind]. eexists. split; [done|]. split.
  - apply Forall2_length in Hrest. simpl. by rewrite <- Hrest.
  - intros [|[|j]] m Hj.
    + injection Hj as <-. by replace (Z.of_nat 0 * k) with 0 by lia.
    + injection Hj as <-. by replace (Z.of_nat 1 * k) with k by lia.
    + change (rest !! j = Some m) in Hj.
      eapply Forall2_lookup_r in Hj as (e & He & Hrep); [|exact Hrest].
      apply lookup_seqZ in He as [-> _].
      by replace (Z.of_nat (S (S j)) * k) with (k * (2 + Z.of_nat j)) by lia.
Qed.

Lemma dump_rows_ok n prev k :
  0 <= k ->
  match prev with
  | None => k = 0
  | Some t => 0 < k /\ represents t (256 ^ (k - 1))
  end ->
  exists rows, dump_rows n prev = Some rows /\ length rows = n /\
  forall i row, rows !! i = Some row -> row_rep row (256 ^ (k + Z.of_nat i)).
Proof.
  revert prev k. induction n as [|n IH]; intros prev k Hk Hprev; cbn [dump_rows].
  { exists []. done. }
  assert (exists t, match prev with None => mrg_make_A | Some p => mrg_power p 256 end = Some t
    /\ represents t (256 ^ k)) as (t & -> & Ht).
  { destruct prev as [p|].
    - destruct Hprev as [Hpos Hp]. destruct (mrg_power_ok p (256 ^ (k - 1)) 256) as (t & Ht & Hr);
        [apply Z.pow_nonneg; lia|done|lia|]. exists t. split; [done|].
      replace (256 ^ k) with (256 ^ (k - 1) * 256); [done|].
      rewrite Z.mul_comm, <- Z.pow_succ_r by lia. f_equal. lia.
    - subst k. destruct mrg_make_A_ok as (A & -> & HA). by exists A. }
  cbn [mbind option_bind].
  destruct (dump_byte_ok t (256 ^ k)) as (row & -> & Hrow); [apply Z.pow_nonneg; lia|done|].
  cbn [mbind option_bind].
  destruct (IH (Some t) (k + 1)) as (rows & -> & Hlen & Hrows); [lia| |].
  { split; [lia|]. by replace (k + 1 - 1) with k by lia. }
  cbn [mbind option_bind]. exists (row :: rows). split; [done|]. split; [simpl; lia|].
  intros [|i] r Hr; simpl in Hr.
  - injection Hr as <-. by replace (k + Z.of_nat 0) with k by lia.
  - specialize (Hrows i r Hr). by replace (k + Z.of_nat (S i)) with (k + 1 + Z.of_nat i) by lia.
Qed.

(** Running the dump program yields exactly the 24 x 256 matrices stored in
    mrg_transitions.c. *)
Theorem dump_is_the_table : dump_mrg_powers = Some mrg_skip_matrices.
Proof.
  unfold dump_mrg_powers. destruct (dump_rows_ok 24 None 0) as (rows & -> & Hlen & Hrows);
    [done|done|]. f_equal.
  apply list_eq_same_length with 24%nat; [apply table_length|done|].
  intros i r r' _ Hr Hr'. eapply row_unique; [by apply Hrows|].
  rewrite Z.add_0_l. by apply table_rows.
Qed.

(** C29: with the table as stored, [mrg_skip] advances the generator by the
    192-bit count [exponent_high:exponent_middle:exponent_low]: it equals that
    many single steps of the recurrence, for every state of residues. *)
Theorem mrg_skip_correct z high middle low :
  fe_state z -> in_u64 high -> in_u64 middle -> in_u64 low ->
  mrg_skip mrg_skip_matrices z high middle low
  = Some (iter_step (high * 2 ^ 128 + middle * 2 ^ 64 + low) z).
Proof. intros. apply mrg_skip_ok; try done. apply mrg_skip_matrices_ok. Qed.

End Dump.

Lemma mrg_skip_correct_witness :
  mrg_skip mrg_skip_matrices (MkState 1 2 3 4 5) 50 7 0
  = Some (iter_step (50 * 2 ^ 128 + 7 * 2 ^ 64 + 0) (MkState 1 2 3 4 5)).
Proof.
  apply (mrg_skip_correct (MkState 1 2 3 4 5) 50 7 0);
    [unfold fe_state, fe, P31; simpl; lia|unfold in_u64; lia..].
Defined.

End Table.
