(* ===== verification/Scramble.v ===== *)
(** * Scrambling of vertex numbers (sources/graph500/generator/graph_generator.c)

    [bitreverse] in its four configurations and [scramble], the permutation of
    the vertex numbers that the edge generator applies to both ends of an edge. *)

From Stdlib Require Import ZArith Lia Znumtheory Zpow_facts.
From stdpp Require Import list numbers.
From S2P Require Import Prelude Arrays.
#[local] Open Scope Z_scope.

Module Scramble.

(** ** The code *)

(** [__builtin_bswap64] and [__builtin_bswap32]: the bytes in reverse order. *)
Definition bswap (n : Z) (x : Z) : Z :=
  foldr (fun j acc => Z.lor (Z.shiftl (Z.land (Z.shiftr x (8 * j)) 255) (8 * (n - 1 - j))) acc)
    0 (seqZ 0 n).

(** [((x >> k) & mask) | ((x & mask) << k)] on a 64-bit and on a 32-bit word. *)
Definition swap64 (k mask x : Z) : Z :=
  Z.lor (Z.land (Z.shiftr x k) mask) (u64 (Z.shiftl (Z.land x mask) k)).
Definition swap32 (k mask x : Z) : Z :=
  Z.lor (Z.land (Z.shiftr x k) mask) (u32 (Z.shiftl (Z.land x mask) k)).

(** Swapping bytes without the builtin. *)
Definition byteswap64 (x : Z) : Z :=
  let x := Z.lor (Z.shiftr x 32) (u64 (Z.shiftl x 32)) in
  let x := swap64 16 0x0000FFFF0000FFFF x in
  swap64 8 0x00FF00FF00FF00FF x.

Definition byteswap32 (x : Z) : Z :=
  let x := Z.lor (Z.shiftr x 16) (u32 (Z.shiftl x 16)) in
  swap32 8 0x00FF00FF x.

(** The 64-bit code, with either way of swapping bytes. *)
Definition bitreverse64 (swap : Z -> Z) (x : Z) : Z :=
  let x := swap x in
  let x := swap64 4 0x0F0F0F0F0F0F0F0F x in
  let x := swap64 2 0x3333333333333333 x in
  swap64 1 0x5555555555555555 x.

(** The 32-bit code; the same is done to both halves. *)
Definition reverse32 (swap : Z -> Z) (h : Z) : Z :=
  let h := swap h in
  let h := swap32 4 0x0F0F0F0F h in
  let h := swap32 2 0x33333333 h in
  swap32 1 0x55555555 h.

Definition bitreverse32 (swap : Z -> Z) (x : Z) : Z :=
  let h := u32 (Z.shiftr x 32) in
  let l := u32 (Z.land x (2 ^ 32 - 1)) in
  let h := reverse32 swap h in
  let l := reverse32 swap l in
  Z.lor (Z.shiftl l 32) h.

(** The configuration of user_settings.h with a current compiler. *)
Definition bitreverse (x : Z) : Z := bitreverse64 (bswap 8) x.

(** A shift by [n], undefined when the count is not below the width. *)
Definition shr64 (x n : Z) : option Z :=
  assert! (0 <=? n) && (n <? 64); Some (Z.shiftr x n).

Definition scramble (v0 lgN val0 val1 : Z) : option Z :=
  let v := u64 v0 in
  let v := u64 (v + u64 (val0 + val1)) in
  let v := u64 (v * Z.lor val0 0x4519840211493211) in
  v ← shr64 (bitreverse v) (64 - lgN);
  top ← shr64 v lgN; assert! top =? 0;
  let v := u64 (v * Z.lor val1 0x3050852102C843A5) in
  v ← shr64 (bitreverse v) (64 - lgN);
  top ← shr64 v lgN; assert! top =? 0;
  Some (s64 v).

(** ** Bit reversal *)

(** The reference: bit [i] is bit [n - 1 - i] of the argument. *)
Definition reversed (n x y : Z) : Prop :=
  0 <= y < 2 ^ n /\ forall i, 0 <= i < n -> Z.testbit y i = Z.testbit x (n - 1 - i).

Lemma reversed_unique n x y y' : reversed n x y -> reversed n x y' -> y = y'.
Proof.
  intros [Hy Hb] [Hy' Hb']. apply Z.bits_inj'. intros i Hi.
  destruct (decide (i < n)).
  - by rewrite Hb, Hb' by lia.
  - destruct (decide (0 <= n)).
    + by rewrite !(testbit_high n) by lia.
    + rewrite Z.pow_neg_r in Hy by lia. lia.
Qed.

(** A layer exchanges bit [i] with bit [i xor k]. *)
Definition exchanges (n k x y : Z) : Prop :=
  0 <= y < 2 ^ n /\ forall i, 0 <= i < n -> Z.testbit y i = Z.testbit x (Z.lxor i k).

(** What a mask has to satisfy, decided bit by bit. *)
Definition mask_ok (n k mask : Z) : bool :=
  (0 <=? mask) && (mask <? 2 ^ n) &&
  forallb (fun i =>
    if Z.lxor i k =? i + k
    then Z.testbit mask i && ((i <? k) || negb (Z.testbit mask (i - k)))
    else (Z.lxor i k =? i - k) && (k <=? i) && negb (Z.testbit mask i) && Z.testbit mask (i - k))
    (seqZ 0 n).

(** A property of the bit positions, checked for each of them. *)
Lemma all_bits n (f : Z -> bool) :
  forallb f (seqZ 0 n) = true -> forall i, 0 <= i < n -> f i = true.
Proof.
  intros H i Hi. rewrite forallb_forall in H. apply H.
  rewrite <- list_elem_of_In, elem_of_seqZ. lia.
Qed.

Lemma testbit_trunc n x i : 0 <= i < n -> Z.testbit (x mod 2 ^ n) i = Z.testbit x i.
Proof. intros. apply Z.mod_pow2_bits_low. lia. Qed.

Lemma land_range n x m : 0 <= n -> 0 <= m < 2 ^ n -> 0 <= Z.land x m < 2 ^ n.
Proof.
  intros Hn Hm. assert (0 <= Z.land x m) by (apply Z.land_nonneg; lia). split; [done|].
  apply bits_bound; [done|done|]. intros i Hi.
  rewrite Z.land_spec, (testbit_high n m), andb_false_r by lia. done.
Qed.

Lemma swap_layer n k mask x :
  0 <= n -> 0 <= k -> mask_ok n k mask = true ->
  exchanges n k x (Z.lor (Z.land (Z.shiftr x k) mask) (Z.shiftl (Z.land x mask) k mod 2 ^ n)).
Proof.
  intros Hn Hk Hm. unfold mask_ok in Hm. rewrite !andb_true_iff, Z.leb_le, Z.ltb_lt in Hm.
  destruct Hm as [Hr Hm]. split.
  { apply lor_range; [done|by apply land_range|].
    apply Z.mod_pos_bound. by apply Z.pow_pos_nonneg. }
  intros i Hi. apply (all_bits n) with (i := i) in Hm; [|done].
  rewrite Z.lor_spec, testbit_trunc, Z.land_spec, Z.shiftr_spec, Z.shiftl_spec by lia.
  destruct (Z.eqb_spec (Z.lxor i k) (i + k)) as [->|_].
  - apply andb_true_iff in Hm as [-> Hm]. rewrite andb_true_r.
    destruct (decide (i < k)).
    + rewrite (Z.testbit_neg_r _ (i - k)) by lia. apply orb_false_r.
    + destruct (Z.ltb_spec i k); [lia|]. cbn [orb] in Hm. apply negb_true_iff in Hm.
      by rewrite Z.land_spec, Hm, andb_false_r, orb_false_r.
  - rewrite !andb_true_iff, Z.eqb_eq, Z.leb_le, negb_true_iff in Hm.
    destruct Hm as [[[-> ?] Hi'] Hik]. by rewrite Z.land_spec, Hi', Hik, andb_false_r, andb_true_r.
Qed.

Lemma swap64_layer k mask x :
  0 <= k -> mask_ok 64 k mask = true -> exchanges 64 k x (swap64 k mask x).
Proof. apply swap_layer. lia. Qed.

Lemma swap32_layer k mask x :
  0 <= k -> mask_ok 32 k mask = true -> exchanges 32 k x (swap32 k mask x).
Proof. apply swap_layer. lia. Qed.

(** Exchanging the halves of a word. *)
Lemma halves_layer n k x :
  0 <= k -> n = 2 * k -> 0 <= x < 2 ^ n ->
  (forall i, 0 <= i < n -> Z.lxor i k = if i <? k then i + k else i - k) ->
  exchanges n k x (Z.lor (Z.shiftr x k) (Z.shiftl x k mod 2 ^ n)).
Proof.
  intros Hk -> Hx Hl. split.
  - apply lor_range; [lia| |apply Z.mod_pos_bound; by apply Z.pow_pos_nonneg; lia].
    rewrite Z.shiftr_div_pow2 by lia. split; [apply Z.div_pos; [lia|by apply Z.pow_pos_nonneg]|].
    apply Z.div_lt_upper_bound; [by apply Z.pow_pos_nonneg|].
    pose proof (Z.pow_pos_nonneg 2 k). nia.
  - intros i Hi. rewrite Z.lor_spec, testbit_trunc, Z.shiftr_spec, Z.shiftl_spec, Hl by lia.
    destruct (Z.ltb_spec i k).
    + rewrite (Z.testbit_neg_r _ (i - k)) by lia. apply orb_false_r.
    + by rewrite (testbit_high (2 * k) x (i + k)) by lia.
Qed.

(** Exchanges compose, and the full set of them is a reversal. *)
Lemma exchanges_trans n m k x y z :
  exchanges n m x y -> exchanges n k y z ->
  (forall i, 0 <= i < n -> 0 <= Z.lxor i k < n) -> exchanges n (Z.lxor k m) x z.
Proof.
  intros [_ Hy] [Hz Hb] Hr. split; [done|]. intros i Hi. rewrite Hb, Hy by auto.
  by rewrite Z.lxor_assoc.
Qed.

Lemma reversed_exchanges n x y :
  (forall i, 0 <= i < n -> Z.lxor i (n - 1) = n - 1 - i) ->
  exchanges n (n - 1) x y -> reversed n x y.
Proof. intros Hl [Hy Hb]. split; [done|]. intros i Hi. by rewrite Hb, Hl. Qed.

Lemma lxor_in n k :
  forallb (fun i => (0 <=? Z.lxor i k) && (Z.lxor i k <? n)) (seqZ 0 n) = true ->
  forall i, 0 <= i < n -> 0 <= Z.lxor i k < n.
Proof.
  intros H i Hi. apply (all_bits n) with (i := i) in H; [|done].
  rewrite andb_true_iff, Z.leb_le, Z.ltb_lt in H. done.
Qed.

(** One byte of a word moved to bit [s]. *)
Lemma byte_bit x j s i :
  0 <= j -> 0 <= s -> 0 <= i ->
  Z.testbit (Z.shiftl (Z.land (Z.shiftr x (8 * j)) 255) s) i
  = (s <=? i) && (i <? s + 8) && Z.testbit x (i - s + 8 * j).
Proof.
  intros Hj Hs Hi. rewrite Z.shiftl_spec by lia. destruct (Z.leb_spec s i); cbn [andb].
  - change 255 with (Z.ones 8). rewrite Z.land_spec, Z.shiftr_spec by lia.
    rewrite Z.testbit_ones_nonneg by lia.
    replace (i - s <? 8) with (i <? s + 8) by (destruct (Z.ltb_spec i (s + 8)), (Z.ltb_spec (i - s) 8); lia).
    apply andb_comm.
  - apply Z.testbit_neg_r. lia.
Qed.

Lemma bswap_range n x : 0 <= n -> 0 <= bswap n x < 2 ^ (8 * n).
Proof.
  intros Hn. unfold bswap.
  assert (forall l, Forall (fun j => 0 <= j < n) l ->
    0 <= foldr (fun j acc => Z.lor (Z.shiftl (Z.land (Z.shiftr x (8 * j)) 255) (8 * (n - 1 - j))) acc)
      0 l < 2 ^ (8 * n)) as H.
  { induction 1 as [|j l Hj Hl IH]; cbn [foldr]; [split; [done|by apply Z.pow_pos_nonneg; lia]|].
    apply lor_range; [lia| |done]. rewrite Z.shiftl_mul_pow2 by lia.
    assert (0 <= Z.land (Z.shiftr x (8 * j)) 255 < 2 ^ 8) by (by apply land_range).
    replace (8 * n) with (8 * (n - 1 - j) + 8 * (j + 1)) by lia.
    rewrite Z.pow_add_r by lia. pose proof (Z.pow_pos_nonneg 2 (8 * (n - 1 - j))).
    assert (2 ^ 8 <= 2 ^ (8 * (j + 1))) by (apply Z.pow_le_mono_r; lia). nia. }
  apply H, list.Forall_forall. intros j Hj%elem_of_seqZ. lia.
Qed.

(** Decides the comparisons of a bit position with the bounds of the bytes. *)
Ltac decide_bits :=
  repeat match goal with
  | |- context [?a <=? ?b] => destruct (Z.leb_spec a b); try lia
  | |- context [?a <? ?b] => destruct (Z.ltb_spec a b); try lia
  end;
  cbn [andb orb]; rewrite ?orb_false_r; f_equal; lia.

Lemma bswap64_layer x : exchanges 64 56 x (bswap 8 x).
Proof.
  split; [by apply (bswap_range 8)|]. intros i Hi. unfold bswap.
  change (seqZ 0 8) with [0; 1; 2; 3; 4; 5; 6; 7]. cbn [foldr].
  rewrite !Z.lor_spec, !byte_bit, Z.bits_0 by lia.
  assert (Z.lxor i 56 = i mod 8 + 8 * (7 - i / 8)) as ->.
  { apply Z.eqb_eq. revert i Hi. apply all_bits. reflexivity. }
  assert (0 <= i mod 8 < 8 /\ i = 8 * (i / 8) + i mod 8) as [Hm Hi'] by zdiv.
  assert (0 <= i / 8 < 8) as Hq by zdiv.
  revert Hi' Hm Hq. generalize (i mod 8), (i / 8). intros r q -> Hm Hq. clear Hi.
  assert (q ∈ seqZ 0 8) as Hs by (apply elem_of_seqZ; lia). clear Hq. cbn in Hs.
  repeat (apply elem_of_cons in Hs as [->|Hs]); [decide_bits..|by apply not_elem_of_nil in Hs].
Qed.

Lemma bswap32_layer x : exchanges 32 24 x (bswap 4 x).
Proof.
  split; [by apply (bswap_range 4)|]. intros i Hi. unfold bswap.
  change (seqZ 0 4) with [0; 1; 2; 3]. cbn [foldr].
  rewrite !Z.lor_spec, !byte_bit, Z.bits_0 by lia.
  assert (Z.lxor i 24 = i mod 8 + 8 * (3 - i / 8)) as ->.
  { apply Z.eqb_eq. revert i Hi. apply all_bits. reflexivity. }
  assert (0 <= i mod 8 < 8 /\ i = 8 * (i / 8) + i mod 8) as [Hm Hi'] by zdiv.
  assert (0 <= i / 8 < 4) as Hq by zdiv.
  revert Hi' Hm Hq. generalize (i mod 8), (i / 8). intros r q -> Hm Hq. clear Hi.
  assert (q ∈ seqZ 0 4) as Hs by (apply elem_of_seqZ; lia). clear Hq. cbn in Hs.
  repeat (apply elem_of_cons in Hs as [->|Hs]); [decide_bits..|by apply not_elem_of_nil in Hs].
Qed.

(** Chains two layers: the masks and positions are checked by evaluation. *)
Ltac chain H1 H2 :=
  let H := fresh "L" in
  pose proof (exchanges_trans _ _ _ _ _ _ H1 H2) as H; specialize (H ltac:(apply lxor_in; reflexivity)).

Lemma byteswap64_layer x : in_u64 x -> exchanges 64 56 x (byteswap64 x).
Proof.
  intros Hx. unfold byteswap64.
  assert (exchanges 64 32 x (Z.lor (Z.shiftr x 32) (u64 (Z.shiftl x 32)))) as H1.
  { apply halves_layer; [lia|lia|done|]. intros i Hi. apply Z.eqb_eq.
    revert i Hi. apply all_bits. reflexivity. }
  pose proof (swap64_layer 16 0x0000FFFF0000FFFF _ ltac:(lia) eq_refl :
    exchanges 64 16 (Z.lor (Z.shiftr x 32) (u64 (Z.shiftl x 32))) _) as H2.
  chain H1 H2. eapply (exchanges_trans 64 48 8); [exact L|by apply swap64_layer|].
  by apply lxor_in.
Qed.

Lemma byteswap32_layer x : in_u32 x -> exchanges 32 24 x (byteswap32 x).
Proof.
  intros Hx. unfold byteswap32.
  assert (exchanges 32 16 x (Z.lor (Z.shiftr x 16) (u32 (Z.shiftl x 16)))) as H1.
  { apply halves_layer; [lia|lia|done|]. intros i Hi. apply Z.eqb_eq.
    revert i Hi. apply all_bits. reflexivity. }
  eapply (exchanges_trans 32 16 8); [exact H1|by apply swap32_layer|by apply lxor_in].
Qed.

Lemma bitreverse64_ok swap x : exchanges 64 56 x (swap x) -> reversed 64 x (bitreverse64 swap x).
Proof.
  intros H0. unfold bitreverse64.
  set (x1 := swap x) in *. set (x2 := swap64 4 _ x1). set (x3 := swap64 2 _ x2).
  pose proof (swap64_layer 4 0x0F0F0F0F0F0F0F0F x1 ltac:(lia) eq_refl) as H1. fold x2 in H1.
  pose proof (swap64_layer 2 0x3333333333333333 x2 ltac:(lia) eq_refl) as H2. fold x3 in H2.
  pose proof (swap64_layer 1 0x5555555555555555 x3 ltac:(lia) eq_refl) as H3.
  chain H0 H1. chain L H2. chain L0 H3.
  apply reversed_exchanges; [|exact L1]. intros i Hi. apply Z.eqb_eq.
  revert i Hi. apply all_bits. reflexivity.
Qed.

Lemma reverse32_ok swap x : exchanges 32 24 x (swap x) -> reversed 32 x (reverse32 swap x).
Proof.
  intros H0. unfold reverse32.
  set (x1 := swap x) in *. set (x2 := swap32 4 _ x1). set (x3 := swap32 2 _ x2).
  pose proof (swap32_layer 4 0x0F0F0F0F x1 ltac:(lia) eq_refl) as H1. fold x2 in H1.
  pose proof (swap32_layer 2 0x33333333 x2 ltac:(lia) eq_refl) as H2. fold x3 in H2.
  pose proof (swap32_layer 1 0x55555555 x3 ltac:(lia) eq_refl) as H3.
  chain H0 H1. chain L H2. chain L0 H3.
  apply reversed_exchanges; [|exact L1]. intros i Hi. apply Z.eqb_eq.
  revert i Hi. apply all_bits. reflexivity.
Qed.

Lemma bitreverse32_ok swap x :
  (forall y, in_u32 y -> exchanges 32 24 y (swap y)) -> in_u64 x ->
  reversed 64 x (bitreverse32 swap x).
Proof.
  intros Hs Hx. unfold bitreverse32.
  replace (u32 (Z.land x (2 ^ 32 - 1))) with (u32 x).
  2:{ change (2 ^ 32 - 1) with (Z.ones 32). rewrite Z.land_ones by lia.
      symmetry. apply u32_id, u32_range. }
  destruct (reverse32_ok swap (u32 (Z.shiftr x 32)) (Hs _ (u32_range _))) as [Hh Hhb].
  destruct (reverse32_ok swap (u32 x) (Hs _ (u32_range _))) as [Hl Hlb].
  split.
  - apply lor_range; [lia|rewrite Z.shiftl_mul_pow2 by lia; lia|lia].
  - intros i Hi. rewrite Z.lor_spec, Z.shiftl_spec by lia. destruct (decide (i < 32)).
    + rewrite (Z.testbit_neg_r _ (i - 32)), Hhb by lia. unfold u32. cbn [orb].
      rewrite testbit_trunc, Z.shiftr_spec by lia. f_equal. lia.
    + rewrite (testbit_high 32 (reverse32 swap (u32 (Z.shiftr x 32)))), Hlb, orb_false_r by lia.
      unfold u32. rewrite testbit_trunc by lia. f_equal. lia.
Qed.

(** The four configurations of [bitreverse], 64-bit or 32-bit arithmetic with
    or without the compiler's byte swap, all reverse the bits of a 64-bit word. *)
Theorem bitreverse_variants x :
  in_u64 x ->
  reversed 64 x (bitreverse x) /\
  bitreverse64 byteswap64 x = bitreverse x /\
  bitreverse32 (bswap 4) x = bitreverse x /\
  bitreverse32 byteswap32 x = bitreverse x.
Proof.
  intros Hx. pose proof (bitreverse64_ok (bswap 8) x (bswap64_layer x)) as H0. fold (bitreverse x) in H0.
  split; [done|].
  repeat split; eapply reversed_unique; try exact H0;
    auto using bitreverse64_ok, bitreverse32_ok, byteswap64_layer, bswap32_layer, byteswap32_layer.
Qed.

Lemma bitreverse_variants_witness :
  reversed 64 0x123456789abcdef (bitreverse 0x123456789abcdef) /\
  bitreverse64 byteswap64 0x123456789abcdef = bitreverse 0x123456789abcdef /\
  bitreverse32 (bswap 4) 0x123456789abcdef = bitreverse 0x123456789abcdef /\
  bitreverse32 byteswap32 0x123456789abcdef = bitreverse 0x123456789abcdef.
Proof. apply (bitreverse_variants 0x123456789abcdef). unfold in_u64. lia. Defined.

(** ** Scrambling *)

(** The low [n] bits of [x], reversed. *)
Definition rev_low (n x : Z) : Z := Z.shiftr (bitreverse x) (64 - n).

Lemma rev_low_bits n x i :
  0 <= n <= 64 -> 0 <= i ->
  Z.testbit (rev_low n x) i = (i <? n) && Z.testbit x (n - 1 - i).
Proof.
  intros Hn Hi. unfold rev_low. rewrite Z.shiftr_spec by lia.
  destruct (bitreverse64_ok (bswap 8) x (bswap64_layer x)) as [Hr Hb]. fold (bitreverse x) in Hr, Hb.
  destruct (Z.ltb_spec i n); cbn [andb].
  - rewrite Hb by lia. f_equal. lia.
  - apply (testbit_high 64); [done|lia].
Qed.

Lemma rev_low_range n x : 0 <= n <= 64 -> 0 <= rev_low n x < 2 ^ n.
Proof.
  intros Hn. assert (0 <= rev_low n x).
  { apply Z.shiftr_nonneg. destruct (bitreverse64_ok (bswap 8) x (bswap64_layer x)) as [Hr _].
    unfold bitreverse. lia. }
  split; [done|]. apply bits_bound; [lia|done|]. intros i Hi. rewrite rev_low_bits by lia.
  by destruct (Z.ltb_spec i n); [lia|].
Qed.

Lemma rev_low_inj n x y : 0 <= n <= 64 -> rev_low n x = rev_low n y -> x mod 2 ^ n = y mod 2 ^ n.
Proof.
  intros Hn E. apply Z.bits_inj'. intros i Hi. destruct (decide (i < n)).
  - rewrite !testbit_trunc by lia.
    pose proof (f_equal (fun z => Z.testbit z (n - 1 - i)) E) as Hb. cbn beta in Hb.
    rewrite !rev_low_bits in Hb by lia. destruct (Z.ltb_spec (n - 1 - i) n); [|lia].
    cbn [andb] in Hb. by replace (n - 1 - (n - 1 - i)) with i in Hb by lia.
  - by rewrite !Z.mod_pow2_bits_high by lia.
Qed.

(** Multiplying by an odd number is injective modulo a power of two. *)
Lemma odd_mul_inj n m x y :
  0 <= n -> Z.odd m = true -> (x * m) mod 2 ^ n = (y * m) mod 2 ^ n -> x mod 2 ^ n = y mod 2 ^ n.
Proof.
  intros Hn Hm E. pose proof (Z.pow_pos_nonneg 2 n ltac:(lia) Hn) as Hp.
  apply Z.cong_iff_0 in E. replace (x * m - y * m) with (m * (x - y)) in E by ring.
  apply Z.cong_iff_0. apply Z.mod_divide in E; [|lia]. apply Z.mod_divide; [lia|].
  eapply Gauss; [exact E|]. apply rel_prime_sym. apply rel_prime_Zpower_r; [lia|].
  apply rel_prime_sym. apply prime_rel_prime; [apply prime_2|].
  intros [k Hk]. subst m. rewrite Z.odd_mul, andb_false_r in Hm. done.
Qed.

Lemma lor_odd x c : Z.odd c = true -> Z.odd (Z.lor x c) = true.
Proof. intros Hc. rewrite <- !Z.bit0_odd in *. by rewrite Z.lor_spec, Hc, orb_true_r. Qed.

Lemma mod_mod_pow2 a n : 0 <= n <= 64 -> u64 a mod 2 ^ n = a mod 2 ^ n.
Proof.
  intros Hn. unfold u64. apply Z.bits_inj'. intros i Hi. destruct (decide (i < n)).
  - rewrite !testbit_trunc by lia. done.
  - by rewrite !Z.mod_pow2_bits_high by lia.
Qed.

(** One round: a number modulo [2^n] is sent to another by an injective map. *)
Lemma round_inj n c m x y :
  0 <= n <= 64 -> Z.odd m = true ->
  rev_low n (u64 (u64 (x + c) * m)) = rev_low n (u64 (u64 (y + c) * m)) ->
  x mod 2 ^ n = y mod 2 ^ n.
Proof.
  intros Hn Hm E%rev_low_inj; [|done]. rewrite !mod_mod_pow2 in E by done.
  apply odd_mul_inj in E; [|lia|done]. rewrite !mod_mod_pow2 in E by done.
  apply Z.cong_iff_0 in E. apply Z.cong_iff_0. by replace (x + c - (y + c)) with (x - y) in E by ring.
Qed.

Definition scramble_pure (lgN val0 val1 v : Z) : Z :=
  let v := rev_low lgN (u64 (u64 (u64 v + u64 (val0 + val1)) * Z.lor val0 0x4519840211493211)) in
  rev_low lgN (u64 (v * Z.lor val1 0x3050852102C843A5)).

Lemma scramble_eq v lgN val0 val1 :
  1 <= lgN <= 63 -> scramble v lgN val0 val1 = Some (scramble_pure lgN val0 val1 v).
Proof.
  intros Hn. unfold scramble, scramble_pure, shr64.
  assert ((0 <=? 64 - lgN) && (64 - lgN <? 64) = true) as -> by lia.
  assert ((0 <=? lgN) && (lgN <? 64) = true) as -> by lia. cbn [check mbind option_bind].
  change (Z.shiftr (bitreverse ?x) (64 - lgN)) with (rev_low lgN x).
  assert (forall x, Z.shiftr (rev_low lgN x) lgN = 0) as Htop.
  { intros x. pose proof (rev_low_range lgN x ltac:(lia)).
    rewrite Z.shiftr_div_pow2 by lia. by apply Z.div_small. }
  rewrite !Htop. cbn [Z.eqb check mbind option_bind]. f_equal. apply s64_id.
  pose proof (fun x => rev_low_range lgN x ltac:(lia)) as Hr.
  assert (2 ^ lgN <= 2 ^ 63) by (apply Z.pow_le_mono_r; lia).
  unfold in_s64. split; [|eapply Z.lt_le_trans; [apply Hr|done]].
  eapply Z.le_trans; [|apply Hr]. lia.
Qed.

Lemma scramble_range lgN val0 val1 v :
  1 <= lgN <= 63 -> 0 <= scramble_pure lgN val0 val1 v < 2 ^ lgN.
Proof. intros. apply rev_low_range. lia. Qed.

Lemma scramble_inj lgN val0 val1 v w :
  1 <= lgN <= 63 -> 0 <= v < 2 ^ lgN -> 0 <= w < 2 ^ lgN ->
  scramble_pure lgN val0 val1 v = scramble_pure lgN val0 val1 w -> v = w.
Proof.
  intros Hn Hv Hw E. unfold scramble_pure in E.
  set (a := rev_low lgN (u64 (u64 (u64 v + _) * _))) in E.
  set (b := rev_low lgN (u64 (u64 (u64 w + _) * _))) in E.
  assert (0 <= a < 2 ^ lgN) as Ha by (apply rev_low_range; lia).
  assert (0 <= b < 2 ^ lgN) as Hb by (apply rev_low_range; lia).
  apply rev_low_inj in E; [|lia]. rewrite !mod_mod_pow2 in E by lia.
  apply odd_mul_inj in E; [|lia|by apply lor_odd]. rewrite !Z.mod_small in E by done.
  apply round_inj in E; [|lia|by apply lor_odd].
  rewrite !mod_mod_pow2, !Z.mod_small in E by (done || lia). done.
Qed.

(** An injective map of a finite interval permutes it. *)
Lemma inj_permutes n (f : Z -> Z) :
  (forall v, 0 <= v < n -> 0 <= f v < n) ->
  (forall v w, 0 <= v < n -> 0 <= w < n -> f v = f w -> v = w) ->
  f <$> seqZ 0 n ≡ₚ seqZ 0 n.
Proof.
  intros Hr Hinj. apply submseteq_length_Permutation; [|by rewrite length_fmap].
  apply NoDup_submseteq.
  - apply NoDup_fmap_2_strong; [|apply NoDup_seqZ].
    intros v w Hv%elem_of_seqZ Hw%elem_of_seqZ. apply Hinj; lia.
  - intros x (v & -> & Hv%elem_of_seqZ)%list_elem_of_fmap. apply elem_of_seqZ.
    pose proof (Hr v). lia.
Qed.

(** C26: [scramble] meets its assertions and permutes the vertex numbers: the
    scrambled values of 0, ..., 2^lgN - 1 are these numbers in another order,
    whatever the two 64-bit scrambling values are. *)
Theorem scramble_permutes lgN val0 val1 :
  1 <= lgN <= 63 ->
  exists l, mapM (fun v => scramble v lgN val0 val1) (seqZ 0 (2 ^ lgN)) = Some l /\
    l ≡ₚ seqZ 0 (2 ^ lgN).
Proof.
  intros Hn. exists (scramble_pure lgN val0 val1 <$> seqZ 0 (2 ^ lgN)). split.
  - induction (seqZ 0 (2 ^ lgN)) as [|v l IH]; [done|]. cbn [mapM fmap list_fmap].
    rewrite scramble_eq by done. cbn [mbind option_bind].
    change (list_fmap Z Z (scramble_pure lgN val0 val1) l) with (scramble_pure lgN val0 val1 <$> l).
    by rewrite IH.
  - apply inj_permutes; [intros; by apply scramble_range|intros v w; by apply scramble_inj].
Qed.

Lemma scramble_permutes_witness :
  exists l, mapM (fun v => scramble v 4 123456789 987654321) (seqZ 0 (2 ^ 4)) = Some l /\
    l ≡ₚ seqZ 0 (2 ^ 4).
Proof. apply (scramble_permutes 4 123456789 987654321). lia. Defined.

End Scramble.
