(* ===== verification/Graph.v ===== *)
(** * Graphs and breadth-first search (sources/graph500)

    The packed edges of generator/graph_generator.h, the graph an edge list
    stands for, what a breadth-first tree of it is, and the statement both
    searches share: mark an unseen neighbour and append it to the queue.  The
    searches of SeqList and SeqCsr are proved through the invariant of this file,
    and the checker of Verify against the same notion of a breadth-first tree. *)

From Stdlib Require Import ZArith Lia.
From stdpp Require Import list numbers.
From S2P Require Import Prelude Arrays.
#[local] Open Scope Z_scope.

(** Two 32-bit vertex numbers. *)
Record packed_edge := MkEdge { v0 : Z; v1 : Z }.

Definition get_v0_from_edge (p : packed_edge) : Z := v0 p.
Definition get_v1_from_edge (p : packed_edge) : Z := v1 p.
Definition write_edge (v0 v1 : Z) : packed_edge := MkEdge (u32 v0) (u32 v1).

#[export] Instance packed_edge_eq_dec : EqDecision packed_edge.
Proof. solve_decision. Defined.

(** The ends of an edge as the machine stores them. *)
Definition edge_ok (e : packed_edge) : Prop := in_u32 (v0 e) /\ in_u32 (v1 e).

Module Graph.

(** ** Adjacency, walks, distance *)

Definition joins (e : packed_edge) (u v : Z) : Prop :=
  (v0 e = u /\ v1 e = v) \/ (v0 e = v /\ v1 e = u).

Definition adj (E : list packed_edge) (u v : Z) : Prop := exists e, e ∈ E /\ joins e u v.

#[export] Instance adj_symmetric E : Symmetric (adj E).
Proof. intros u v (e & He & Hj). exists e. unfold joins in *. tauto. Qed.

Inductive walk (E : list packed_edge) (r : Z) : Z -> Z -> Prop :=
| walk_refl : walk E r 0 r
| walk_step n u v : walk E r n u -> adj E u v -> walk E r (n + 1) v.

Lemma walk_nonneg E r n v : walk E r n v -> 0 <= n.
Proof. induction 1; lia. Qed.

Definition reachable (E : list packed_edge) (r v : Z) : Prop := exists n, walk E r n v.

Definition dist (E : list packed_edge) (r v d : Z) : Prop :=
  walk E r d v /\ forall n, walk E r n v -> d <= n.

(** ** Breadth-first trees *)

(** [p] is the parent of a vertex that is one further away from the root. *)
Definition parent_of (E : list packed_edge) (r v p : Z) : Prop :=
  adj E p v /\ exists d, dist E r p d /\ dist E r v (d + 1).

(** An array of parents that is a breadth-first tree of the root's component;
    a vertex outside the component has a negative entry. *)
Definition bfs_tree (E : list packed_edge) (nv r : Z) (tree : list Z) : Prop :=
  0 <= r < nv /\ tree.[r] = Some r /\
  forall v, 0 <= v < nv -> v <> r ->
    exists p, tree.[v] = Some p /\
      ((0 <= p < nv /\ parent_of E r v p) \/ (p < 0 /\ ~ reachable E r v)).

(** Levels that grow by at most one along edges, start at the root and are
    reached through the tree are the distances. *)
Lemma levels_are_distances E r (inside : Z -> Prop) (lv : Z -> Z) :
  inside r -> lv r = 0 ->
  (forall u w, inside u -> adj E u w -> inside w /\ lv w <= lv u + 1) ->
  (forall v, inside v -> walk E r (lv v) v) ->
  (forall v, inside v -> dist E r v (lv v)) /\ (forall v, reachable E r v -> inside v).
Proof.
  intros Hr Hr0 Hcl Hw.
  assert (forall n v, walk E r n v -> inside v /\ lv v <= n) as Hle.
  { intros n v. induction 1 as [|n u v _ [Hu IH] Huv]; [split; [done|lia]|].
    destruct (Hcl u v Hu Huv) as [Hv Hlv]. split; [done|lia]. }
  split.
  - intros v Hv. split; [by apply Hw|]. intros n Hn. by apply Hle.
  - intros v (n & Hn). by apply (Hle n).
Qed.

Lemma dist_fun E r v d d' : dist E r v d -> dist E r v d' -> d = d'.
Proof.
  intros [H1 H2] [H3 H4]. pose proof (H2 _ H3). pose proof (H4 _ H1). lia.
Qed.

(** A list of distinct numbers below [n] has at most [n] elements. *)
Lemma nodup_bounded (l : list Z) n :
  0 <= n -> NoDup l -> (forall v, v ∈ l -> 0 <= v < n) -> alen l <= n.
Proof.
  intros Hn Hnd Hb. unfold alen.
  assert (l ⊆+ seqZ 0 n) as Hs.
  { apply NoDup_submseteq; [done|]. intros v Hv. apply elem_of_seqZ. specialize (Hb v Hv). lia. }
  apply submseteq_length in Hs. rewrite length_seqZ in Hs. lia.
Qed.

(** ** The largest vertex *)

(** The body of the loop that finds the largest vertex number. *)
Definition max_step (IJ : list packed_edge) (k maxvtx : Z) : option Z :=
  e ← IJ.[k];
  let maxvtx := if maxvtx <? get_v0_from_edge e then get_v0_from_edge e else maxvtx in
  Some (if maxvtx <? get_v1_from_edge e then get_v1_from_edge e else maxvtx).

Definition max_vertex (E : list packed_edge) (m : Z) : Prop :=
  -1 <= m < 2 ^ 32 /\ (forall u v, adj E u v -> 0 <= u < m + 1 /\ 0 <= v < m + 1) /\
  (m = -1 \/ exists u, adj E m u).

Lemma max_loop_ok (E : list packed_edge) :
  Forall edge_ok E ->
  exists m, for_z 0 (alen E) (max_step E) (-1) = Some m /\ max_vertex E m.
Proof.
  intros HE. rewrite list.Forall_forall in HE.
  assert (forall i e, E.[i] = Some e -> e ∈ E) as Hget.
  { intros i e He. pose proof (aget_some_range _ _ _ He). unfold aget in He.
    destruct (Z.ltb_spec i 0); [lia|]. by apply list_elem_of_lookup_2 in He. }
  destruct (for_z_inv (fun i m => -1 <= m < 2 ^ 32 /\
    (forall j e, j < i -> E.[j] = Some e -> v0 e <= m /\ v1 e <= m) /\
    (m = -1 \/ exists u, adj E m u)) 0 (alen E) (max_step E) (-1)) as (m & Hr & Hm & Hall & Hex).
  - apply alen_nonneg.
  - split; [lia|]. split; [|by left]. intros j e Hj He. apply aget_some_range in He. lia.
  - intros i m Hi (Hm & Hall & Hex). destruct (aget_in E i Hi) as (e & He). unfold max_step.
    rewrite He. cbn [mbind option_bind]. eexists. split; [done|]. unfold get_v0_from_edge, get_v1_from_edge.
    pose proof (Hget i e He) as Hin. destruct (HE e Hin) as [H0 H1]. unfold in_u32 in H0, H1.
    assert (adj E (v0 e) (v1 e)) as Ha by (exists e; split; [done|by left]).
    assert (adj E (v1 e) (v0 e)) as Ha' by (by symmetry).
    assert (forall m', m <= m' -> v0 e <= m' -> v1 e <= m' ->
      forall j e', j < i + 1 -> E.[j] = Some e' -> v0 e' <= m' /\ v1 e' <= m') as Hle.
    { intros m' ? ? ? j e' Hj He'. destruct (decide (j = i)) as [->|].
      - rewrite He in He'. by injection He' as <-.
      - destruct (Hall j e') as [? ?]; [lia|done|]. lia. }
    destruct (Z.ltb_spec m (v0 e)).
    + destruct (Z.ltb_spec (v0 e) (v1 e)).
      * split; [lia|]. split; [apply Hle; lia|]. right. eauto.
      * split; [lia|]. split; [apply Hle; lia|]. right. eauto.
    + destruct (Z.ltb_spec m (v1 e)).
      * split; [lia|]. split; [apply Hle; lia|]. right. eauto.
      * split; [lia|]. split; [apply Hle; lia|done].
  - exists m. split; [done|]. split; [done|]. split; [|done].
    intros u v (e & Hin & Hj). destruct (HE e Hin) as [H0 H1]. unfold in_u32 in H0, H1.
    apply list_elem_of_lookup in Hin as [i Hi]. rewrite <- aget_nat in Hi.
    pose proof (aget_some_range _ _ _ Hi). destruct (Hall (Z.of_nat i) e) as [? ?]; [lia|done|].
    destruct Hj as [[? ?]|[? ?]]; lia.
Qed.

(** ** The step of a search *)

Section Search.
Context (E : list packed_edge) (nv r : Z).
Context (Hrange : forall u v, adj E u v -> 0 <= u < nv /\ 0 <= v < nv).
(** How the code tests that a vertex is unseen. *)
Context (fresh : Z -> bool) (Hfresh : fresh (-1) = true) (Hseen : forall p, 0 <= p -> fresh p = false).

(** The array of parents, the queue and the end of its used part. *)
Record search := MkSearch { s_tree : list Z; s_vlist : list Z; s_k2 : Z }.

(** [if (fresh(bfs_tree[j])) { bfs_tree[j] = v; vlist[k2++] = j; }] *)
Definition visit (v j : Z) (s : search) : option search :=
  t ← (s_tree s).[j];
  if fresh t then
    tree ← (s_tree s).[j <- v];
    vlist ← (s_vlist s).[s_k2 s <- j];
    Some (MkSearch tree vlist (s_k2 s + 1))
  else Some s.

(** The vertices before position [k] of the queue are finished; of the one at
    [k] the neighbours in [seen] are. [q] is the used part, [lv] the levels. *)
Record bfs_inv (k : Z) (seen : list Z) (s : search) (q : list Z) (lv : Z -> Z) : Prop := {
  bi_vlist : exists rest, s_vlist s = q ++ rest;
  bi_room : alen (s_vlist s) = nv;
  bi_k2 : s_k2 s = alen q;
  bi_tree_len : nv <= alen (s_tree s);
  bi_nodup : NoDup q;
  bi_q : forall v, v ∈ q -> 0 <= v < nv;
  bi_tree : forall v, 0 <= v < nv ->
    exists p, (s_tree s).[v] = Some p /\ ((p = -1 /\ v ∉ q) \/ (0 <= p < nv /\ v ∈ q));
  bi_k : 0 <= k <= alen q;
  bi_root : q.[0] = Some r /\ lv r = 0 /\ (s_tree s).[r] = Some r;
  bi_parent : forall v, v ∈ q -> v <> r ->
    exists p, (s_tree s).[v] = Some p /\ p ∈ q /\ adj E p v /\ lv v = lv p + 1;
  bi_walk : forall v, v ∈ q -> walk E r (lv v) v;
  bi_sorted : forall i j u w, i <= j -> q.[i] = Some u -> q.[j] = Some w -> lv u <= lv w;
  bi_window : forall c w, q.[k] = Some c -> w ∈ q -> lv w <= lv c + 1;
  bi_closed : forall i u w, i < k -> q.[i] = Some u -> adj E u w -> w ∈ q /\ lv w <= lv u + 1;
  bi_seen : forall w, w ∈ seen -> w ∈ q;
}.

Lemma aget_snoc {A} (l : list A) x i :
  (l ++ [x]).[i] = if decide (i = alen l) then Some x else l.[i].
Proof.
  destruct (decide (i < alen l)).
  - rewrite aget_app_l by lia. by rewrite decide_False by lia.
  - rewrite aget_app_r by lia. destruct (decide (i = alen l)) as [->|].
    + by rewrite Z.sub_diag.
    + destruct (l.[i]) eqn:Ei; [apply aget_some_range in Ei; lia|].
      destruct ([x].[i - alen l]) eqn:Ej; [|done]. apply aget_some_range in Ej.
      change (alen [x]) with 1 in Ej. lia.
Qed.

(** Visiting a neighbour of the current vertex keeps the invariant. *)
Lemma visit_ok k seen s q lv c j :
  bfs_inv k seen s q lv -> q.[k] = Some c -> adj E c j ->
  exists s' q' lv', visit c j s = Some s' /\ bfs_inv k (j :: seen) s' q' lv' /\ q'.[k] = Some c.
Proof.
  intros [[rest Hv] Hroom Hk2 Htl Hnd Hq Htr Hk (Hr0 & Hlr & Htr0) Hpar Hwk Hso Hwin Hcl Hse] Hc Hadj.
  pose proof (proj2 (Hrange _ _ Hadj)) as Hj. destruct (Htr j Hj) as (p & Hp & Hcase). unfold visit.
  rewrite Hp. cbn [mbind option_bind]. destruct Hcase as [[-> Hjq]|[Hp0 Hjq]].
  - assert (c ∈ q) as Hcq by (apply elem_aget; eauto).
    assert (alen q < nv) as Hlt.
    { enough (alen (j :: q) <= nv) by (rewrite alen_cons in *; lia).
      apply nodup_bounded; [lia|by apply list.NoDup_cons|].
      intros v [->|Hvq]%elem_of_cons; [done|by apply Hq]. }
    rewrite Hfresh, aset_in by lia. cbn [mbind option_bind].
    rewrite aset_in by (pose proof (alen_nonneg q); lia). cbn [mbind option_bind].
    set (lv' := fun x => if decide (x = j) then lv c + 1 else lv x).
    assert (forall x, x ∈ q -> lv' x = lv x) as Hlv.
    { intros x Hx. unfold lv'. rewrite decide_False; [done|]. by intros ->. }
    assert (lv' j = lv c + 1) as Hlj by (unfold lv'; by rewrite decide_True).
    assert (r ∈ q) as Hrq by (apply elem_aget; eauto).
    assert (forall x y, x ∈ q -> (<[Z.to_nat j := c]> (s_tree s)).[x] = y <-> (s_tree s).[x] = y) as Hsame.
    { intros x y Hx. rewrite aget_insert by lia. rewrite decide_False; [done|]. by intros ->. }
    exists (MkSearch (<[Z.to_nat j := c]> (s_tree s)) (<[Z.to_nat (s_k2 s) := j]> (s_vlist s)) (s_k2 s + 1)),
      (q ++ [j]), lv'. split; [done|]. split.
    2:{ rewrite aget_snoc, decide_False; [done|]. apply aget_some_range in Hc. lia. }
    constructor; cbn [s_tree s_vlist s_k2].
    + destruct rest as [|x rest].
      { rewrite app_nil_r in Hv. rewrite Hv in Hroom. lia. }
      exists rest. rewrite Hv, Hk2. unfold alen. rewrite Nat2Z.id.
      rewrite insert_app_r_alt, Nat.sub_diag by lia. by rewrite <- app_assoc.
    + by rewrite alen_insert.
    + rewrite alen_app, Hk2. reflexivity.
    + by rewrite alen_insert.
    + apply list.NoDup_app. split; [done|]. split; [|apply NoDup_singleton].
      intros x Hx ->%list_elem_of_singleton. done.
    + intros v [Hvq| ->%list_elem_of_singleton]%elem_of_app; [by apply Hq|done].
    + intros v Hvr. rewrite aget_insert by lia. destruct (decide (v = j)) as [->|Hne].
      * exists c. split; [done|]. right. split; [by apply Hq|]. apply elem_of_app. right. by left.
      * destruct (Htr v Hvr) as (p & Hpv & Hcase). exists p. split; [done|].
        rewrite elem_of_app, list_elem_of_singleton. naive_solver.
    + rewrite alen_app. change (alen [j]) with 1. lia.
    + split; [|split; [by rewrite Hlv|by apply Hsame]].
      rewrite aget_snoc, decide_False; [done|]. apply aget_some_range in Hr0. lia.
    + intros v [Hvq| ->%list_elem_of_singleton]%elem_of_app Hvr.
      * destruct (Hpar v Hvq Hvr) as (p & Hpv & Hpq & Hpa & Hpl). exists p.
        split; [by apply Hsame|]. split; [apply elem_of_app; by left|]. by rewrite !Hlv.
      * exists c. split; [rewrite aget_insert by lia; by rewrite decide_True|].
        split; [apply elem_of_app; by left|]. by rewrite Hlj, Hlv.
    + intros v [Hvq| ->%list_elem_of_singleton]%elem_of_app.
      * rewrite Hlv by done. by apply Hwk.
      * rewrite Hlj. eapply walk_step; [by apply Hwk|done].
    + intros i i' u w Hii. rewrite !aget_snoc.
      destruct (decide (i = alen q)) as [->|]; destruct (decide (i' = alen q)) as [->|].
      * by intros [= <-] [= <-].
      * intros _ Hw. apply aget_some_range in Hw. lia.
      * intros Hu [= <-]. rewrite Hlj, Hlv by (apply elem_aget; eauto).
        apply (Hwin c u Hc). apply elem_aget; eauto.
      * intros Hu Hw. rewrite !Hlv by (apply elem_aget; eauto). by apply (Hso i i').
    + intros c' w Hc'. rewrite aget_snoc, decide_False in Hc' by (apply aget_some_range in Hc; lia).
      rewrite Hc in Hc'. injection Hc' as <-. rewrite (Hlv c Hcq).
      intros [Hwq| ->%list_elem_of_singleton]%elem_of_app.
      * rewrite Hlv by done. by apply Hwin.
      * lia.
    + intros i u w Hik. rewrite aget_snoc, decide_False by lia. intros Hu Huw.
      destruct (Hcl i u w Hik Hu Huw) as [Hwq Hl]. rewrite !Hlv by (done || apply elem_aget; eauto).
      split; [apply elem_of_app; by left|done].
    + intros w [->|Hw]%elem_of_cons; apply elem_of_app; [right; by left|left; by apply Hse].
  - rewrite Hseen by lia. exists s, q, lv. split; [done|]. split; [|done].
    constructor; try done; [by exists rest|]. intros w [->|Hw]%elem_of_cons; [done|by apply Hse].
Qed.

(** All neighbours of a vertex, one after the other. *)
Definition visits (v : Z) (l : list Z) (s : search) : option search :=
  foldl (fun s j => s ← s; visit v j s) (Some s) l.

Lemma visits_cons v j l s : visits v (j :: l) s = s ← visit v j s; visits v l s.
Proof.
  unfold visits. cbn [foldl mbind option_bind]. destruct (visit v j s) as [s'|]; [done|].
  induction l as [|x l IH]; [done|]. exact IH.
Qed.

Lemma visits_app v l1 l2 s : visits v (l1 ++ l2) s = s ← visits v l1 s; visits v l2 s.
Proof.
  revert s. induction l1 as [|j l1 IH]; intros s; [done|]. cbn [app]. rewrite !visits_cons.
  destruct (visit v j s) as [s'|]; [apply IH|done].
Qed.

Lemma visits_ok l k seen s q lv c :
  bfs_inv k seen s q lv -> q.[k] = Some c -> Forall (adj E c) l ->
  exists s' q' lv' seen', visits c l s = Some s' /\ bfs_inv k seen' s' q' lv' /\ q'.[k] = Some c /\
    (forall w, w ∈ seen \/ w ∈ l -> w ∈ seen').
Proof.
  revert seen s q lv. induction l as [|j l IH]; intros seen s q lv Hi Hc Hl.
  - exists s, q, lv, seen. split; [done|]. split; [done|]. split; [done|].
    intros w [Hw|Hw]; [done|]. by apply not_elem_of_nil in Hw.
  - apply list.Forall_cons in Hl as [Hj Hl]. rewrite visits_cons.
    destruct (visit_ok k seen s q lv c j Hi Hc Hj) as (s1 & q1 & lv1 & -> & Hi1 & Hc1).
    cbn [mbind option_bind].
    destruct (IH _ _ _ _ Hi1 Hc1 Hl) as (s' & q' & lv' & seen' & E' & Hi' & Hc' & Hs').
    exists s', q', lv', seen'. split; [done|]. split; [done|]. split; [done|].
    intros w [Hw|[->|Hw]%elem_of_cons]; apply Hs'; [left; by right|left; by left|by right].
Qed.

Lemma visits_grow l v s s' : visits v l s = Some s' -> s_k2 s <= s_k2 s'.
Proof.
  revert s. induction l as [|j l IH]; intros s; [by intros [= ->]|]. rewrite visits_cons.
  unfold visit. destruct ((s_tree s).[j]) as [t|]; [|done]. cbn [mbind option_bind].
  destruct (fresh t); [|cbn [mbind option_bind]; apply IH].
  destruct ((s_tree s).[j <- v]); [|done]. cbn [mbind option_bind].
  destruct ((s_vlist s).[s_k2 s <- j]); [|done]. cbn [mbind option_bind].
  intros H%IH. cbn [s_k2] in H. lia.
Qed.

(** A vertex whose neighbours are all seen is finished. *)
Lemma advance k seen s q lv c :
  bfs_inv k seen s q lv -> q.[k] = Some c -> (forall w, adj E c w -> w = c \/ w ∈ seen) ->
  bfs_inv (k + 1) [] s q lv.
Proof.
  intros [Hv Hroom Hk2 Htl Hnd Hq Htr Hk Hr0 Hpar Hwk Hso Hwin Hcl Hse] Hc Hall.
  pose proof (aget_some_range _ _ _ Hc) as Hkq. constructor; try done; [lia| | |].
  - intros c' w Hc' Hw. pose proof (Hwin c w Hc Hw).
    pose proof (Hso k (k + 1) c c' ltac:(lia) Hc Hc'). lia.
  - intros i u w Hi Hu Huw. destruct (decide (i = k)) as [->|]; [|by apply (Hcl i); [lia|..]].
    rewrite Hc in Hu. injection Hu as <-.
    assert (w ∈ q) as Hwq by (destruct (Hall w Huw) as [->|Hw]; [apply elem_aget; eauto|by apply Hse]).
    split; [done|by apply Hwin].
  - intros w Hw. by apply not_elem_of_nil in Hw.
Qed.

(** One vertex of the queue, with all its neighbours but possibly itself. *)
Lemma process_ok l k s q lv c :
  bfs_inv k [] s q lv -> q.[k] = Some c ->
  Forall (adj E c) l -> (forall w, adj E c w -> w = c \/ w ∈ l) ->
  exists s' q' lv', visits c l s = Some s' /\ bfs_inv (k + 1) [] s' q' lv'.
Proof.
  intros Hi Hc Hl Hall.
  destruct (visits_ok l k [] s q lv c Hi Hc Hl) as (s' & q' & lv' & seen' & E' & Hi' & Hc' & Hs).
  exists s', q', lv'. split; [done|]. eapply advance; [done|done|].
  intros w Hw. destruct (Hall w Hw) as [->|Hin]; [by left|right; apply Hs; by right].
Qed.

(** The state a search starts in. *)
Lemma search_start tree vlist :
  0 <= r < nv -> alen vlist = nv -> nv <= alen tree -> vlist.[0] = Some r ->
  (forall v, 0 <= v < nv -> tree.[v] = Some (if decide (v = r) then r else -1)) ->
  bfs_inv 0 [] (MkSearch tree vlist 1) [r] (fun _ => 0).
Proof.
  intros Hr Hl Htl Hv0 Htr. constructor; cbn [s_tree s_vlist s_k2].
  - destruct vlist as [|x rest]; [done|]. cbn in Hv0. injection Hv0 as ->. by exists rest.
  - done.
  - done.
  - done.
  - apply NoDup_singleton.
  - by intros v ->%list_elem_of_singleton.
  - intros v Hv. rewrite Htr by done. eexists. split; [done|].
    rewrite list_elem_of_singleton. destruct (decide (v = r)); [right|left]; done.
  - rewrite alen_cons. pose proof (@alen_nonneg Z []). lia.
  - split; [done|]. split; [done|]. rewrite Htr by done. by rewrite decide_True.
  - by intros v ->%list_elem_of_singleton.
  - intros v ->%list_elem_of_singleton. constructor.
  - done.
  - intros; lia.
  - intros i u w Hi Hu. apply aget_some_range in Hu. lia.
  - intros w Hw. by apply not_elem_of_nil in Hw.
Qed.

(** When the whole queue is finished the array is a breadth-first tree. *)
Lemma search_end seen s q lv :
  bfs_inv (alen q) seen s q lv -> bfs_tree E nv r (s_tree s).
Proof.
  intros [_ _ _ _ _ Hq Htr _ (Hr0 & Hlr & Htr0) Hpar Hwk _ _ Hcl _].
  assert (r ∈ q) as Hrq by (apply elem_aget; eauto).
  destruct (levels_are_distances E r (fun v => v ∈ q) lv) as [Hd Hre]; [done|done| |done|].
  { intros u w Hu Huw. apply elem_aget in Hu as [i Hi].
    pose proof (aget_some_range _ _ _ Hi). apply (Hcl i); [lia|done..]. }
  split; [by apply Hq|]. split; [done|]. intros v Hv Hvr.
  destruct (Htr v Hv) as (p & Hp & [[-> Hvq]|[Hp0 Hvq]]).
  - exists (-1). split; [done|]. right. split; [lia|]. intros Hvre. by apply Hvq, Hre.
  - exists p. split; [done|]. left. split; [done|].
    destruct (Hpar v Hvq Hvr) as (p' & Hp' & Hpq & Hpa & Hpl). rewrite Hp in Hp'.
    injection Hp' as <-. split; [done|]. exists (lv p). split; [by apply Hd|].
    rewrite <- Hpl. by apply Hd.
Qed.

(** The queue never holds more than the vertices. *)
Lemma queue_bound k seen s q lv : 0 <= nv -> bfs_inv k seen s q lv -> alen q <= nv.
Proof. intros Hnv Hi. apply nodup_bounded; [done|apply (bi_nodup _ _ _ _ _ Hi)|apply (bi_q _ _ _ _ _ Hi)]. Qed.

Lemma queue_get k seen s q lv i :
  bfs_inv k seen s q lv -> 0 <= i < alen q -> exists c, q.[i] = Some c /\ (s_vlist s).[i] = Some c.
Proof.
  intros Hi Hr. destruct (aget_in q i Hr) as [c Hc]. exists c. split; [done|].
  destruct (bi_vlist _ _ _ _ _ Hi) as [rest ->]. by rewrite aget_app_l by lia.
Qed.

End Search.
End Graph.
