(* ===== verification/Kronecker.v ===== *)
(** * The Kronecker edge generator (sources/graph500/generator/)

    graph_generator.c, the seed of utils.c and the two [make_graph] of
    make_graph.c.  The rejection loop of the sampler ends, the sampler has no
    bias, the edges stay inside the vertex range and an edge depends only on the
    seed and its own index, so that threads and processes may share the work. *)

From Stdlib Require Import ZArith Lia.
From stdpp Require Import list numbers.
From S2P Require Import Prelude Arrays ModArith Mrg MrgTable Scramble Graph.
#[local] Open Scope Z_scope.

Module Kronecker.
Import Mrg Scramble.

Definition INITIATOR_A_NUMERATOR : Z := 5700.
Definition INITIATOR_BC_NUMERATOR : Z := 1900.
Definition INITIATOR_DENOMINATOR : Z := 10000.

Definition limit : Z := 0x7FFFFFFF mod INITIATOR_DENOMINATOR.

(** What the sampler makes of an accepted value. *)
Definition classify (val : Z) : Z :=
  let spk_noise_factor := 0 in
  let adjusted_bc_numerator := u32 (INITIATOR_BC_NUMERATOR + spk_noise_factor) in
  let val := val mod INITIATOR_DENOMINATOR in
  if val <? adjusted_bc_numerator then 1 else
  let val := u32 (val - adjusted_bc_numerator) in
  if val <? adjusted_bc_numerator then 2 else
  let val := u32 (val - adjusted_bc_numerator) in
  if val <? INITIATOR_A_NUMERATOR then 0 else 3.

(** Spread of the two user seeds. *)
Definition make_mrg_seed (userseed1 userseed2 : Z) : list Z :=
  [ u32 (u32 (Z.land userseed1 0x3FFFFFFF) + 1);
    u32 (u32 (Z.land (Z.shiftr userseed1 30) 0x3FFFFFFF) + 1);
    u32 (u32 (Z.land userseed2 0x3FFFFFFF) + 1);
    u32 (u32 (Z.land (Z.shiftr userseed2 30) 0x3FFFFFFF) + 1);
    u32 (u32 (u32 (u64 (Z.shiftl (Z.shiftr userseed2 60) 4)) + u32 (Z.shiftr userseed1 60)) + 1) ].

(** The edges process [rank] of [size] generates. *)
Definition compute_edge_range (rank size M : Z) : option (Z * Z) :=
  assert! negb (size =? 0);
  let q := Z.quot M size in
  let r := Z.rem M size in
  a ← sint64 (rank * q); start_idx ← sint64 (a + if rank <? r then rank else r);
  b ← sint64 ((rank + 1) * q); end_idx ← sint64 (b + if rank + 1 <? r then rank + 1 else r);
  Some (start_idx, end_idx).

(** [xmalloc(n * sizeof(packed_edge))]: zeroed, the size in [size_t]. *)
Definition xmalloc_edges (n : Z) : list packed_edge :=
  replicate (Z.to_nat (u64 (n * 8) / 8)) (MkEdge 0 0).

Section Generator.
Context {MA : ModArith} (mrg_skip_table : list (list mrg_transition_matrix)).

(** [do { val = mrg_get_uint_orig(st); } while (val < limit);] *)
Fixpoint redraw (fuel : nat) (st : mrg_state) : option (mrg_state * Z) :=
  match fuel with
  | O => None
  | S fuel =>
      '(st, val) ← mrg_get_uint_orig st;
      let val := u32 val in
      if val <? limit then redraw fuel st else Some (st, val)
  end.

(** The sampler; with SPK_NOISE_LEVEL 0 the level is not used.  [DRAWS] draws
    are enough, see [bernoulli_terminates]. *)
Definition DRAWS : nat := 9.

Definition generate_4way_bernoulli (st : mrg_state) (level nlevels : Z)
    : option (mrg_state * Z) :=
  '(st, val) ← mrg_get_uint_orig st;
  let val := u32 val in
  '(st, val) ← (if val <? limit then redraw DRAWS st else Some (st, val));
  Some (st, classify val).

(** The loop of [make_one_edge]; [nverts] halves. *)
Fixpoint edge_loop (fuel : nat) (nverts level lgN : Z) (st : mrg_state) (base_src base_tgt : Z)
    : option (mrg_state * Z * Z) :=
  match fuel with
  | O => None
  | S fuel =>
      if 1 <? nverts then
        '(st, square) ← generate_4way_bernoulli st level lgN;
        let src_offset := Z.quot square 2 in
        let tgt_offset := Z.rem square 2 in
        assert! base_src <=? base_tgt;
        let '(src_offset, tgt_offset) :=
          if base_src =? base_tgt then
            if tgt_offset <? src_offset then (tgt_offset, src_offset)
            else (src_offset, tgt_offset)
          else (src_offset, tgt_offset) in
        let nverts := Z.quot nverts 2 in
        let level := level + 1 in
        base_src ← sint64 (base_src + nverts * src_offset);
        base_tgt ← sint64 (base_tgt + nverts * tgt_offset);
        edge_loop fuel nverts level lgN st base_src base_tgt
      else Some (st, base_src, base_tgt)
  end.

Definition make_one_edge (nverts level lgN : Z) (st : mrg_state) (val0 val1 : Z)
    : option (mrg_state * packed_edge) :=
  '(st, base_src, base_tgt) ← edge_loop 64 nverts level lgN st 0 0;
  s ← scramble base_src lgN val0 val1;
  t ← scramble base_tgt lgN val0 val1;
  Some (st, write_edge s t).

(** The two scrambling values, from a state far from those of the edges. *)
Definition scramble_values (state : mrg_state) : option (Z * Z) :=
  st ← mrg_skip mrg_skip_table state 50 7 0;
  '(st, a) ← mrg_get_uint_orig st;
  '(st, b) ← mrg_get_uint_orig st;
  '(st, c) ← mrg_get_uint_orig st;
  '(st, d) ← mrg_get_uint_orig st;
  Some (u64 (u64 (a * 0xFFFFFFFF) + b), u64 (u64 (c * 0xFFFFFFFF) + d)).

(** The body of the loop over the edges. *)
Definition generate_edge (state : mrg_state) (nverts logN start_edge val0 val1 ei : Z)
    (edges : list packed_edge) : option (list packed_edge) :=
  st ← mrg_skip mrg_skip_table state 0 (u64 ei) 0;
  '(_, e) ← make_one_edge nverts 0 logN st val0 val1;
  edges.[ei - start_edge <- e].

(** [order] puts the iterations of a loop in the order in which the threads run
    them. *)
Definition generate_kronecker_range (seed : list Z) (logN start_edge end_edge : Z)
    (order : list Z -> list Z) (edges : list packed_edge) : option (list packed_edge) :=
  assert! (0 <=? logN) && (logN <? 63);
  let nverts := Z.shiftl 1 logN in
  state ← mrg_seed seed;
  '(val0, val1) ← scramble_values state;
  foldl (fun edges ei => edges ← edges; generate_edge state nverts logN start_edge val0 val1 ei edges)
    (Some edges) (order (seqZ start_edge (end_edge - start_edge))).

Definition make_graph (log_numverts M userseed1 userseed2 : Z) (order : list Z -> list Z)
    : option (Z * list packed_edge) :=
  edges ← generate_kronecker_range (make_mrg_seed userseed1 userseed2) log_numverts 0 M order
            (xmalloc_edges M);
  Some (M, edges).

(** With MPI: what process [rank] of [size] makes. *)
Definition make_graph_mpi (rank size log_numverts M userseed1 userseed2 : Z) (order : list Z -> list Z)
    : option (Z * list packed_edge) :=
  '(start_idx, end_idx) ← compute_edge_range rank size M;
  nedges ← sint64 (end_idx - start_idx);
  edges ← generate_kronecker_range (make_mrg_seed userseed1 userseed2) log_numverts
            start_idx end_idx order (xmalloc_edges nedges);
  Some (nedges, edges).

End Generator.

(** ** The sampler *)

Definition zero_state : mrg_state := MkState 0 0 0 0 0.

(** A state the generator may be in: residues, not all zero. *)
Definition live (z : mrg_state) : Prop := fe_state z /\ z <> zero_state.

Lemma mul_Y_zero a : fe a -> (a * Y_MUL) mod P31 = 0 -> a = 0.
Proof.
  intros Ha H. assert ((a * Y_MUL * 1840344978) mod P31 = 0) as H'.
  { rewrite Z.mul_mod, H by done. reflexivity. }
  rewrite <- Z.mul_assoc in H'. rewrite Z.mul_mod in H' by done.
  change ((Y_MUL * 1840344978) mod P31) with 1 in H'.
  rewrite Z.mul_1_r, Zmod_mod, Z.mod_small in H' by done. done.
Qed.

Lemma step_live z : live z -> live (step z).
Proof.
  intros [Hf Hz]. split; [by apply step_fe|]. intros E. apply Hz.
  destruct z as [a b c d e]. unfold step in E. cbn in E. injection E as E1 -> -> -> ->.
  rewrite Z.mul_0_l, Z.add_0_l in E1. destruct Hf as (_ & _ & _ & _ & He). cbn in He.
  by rewrite (mul_Y_zero e).
Qed.

Lemma iter_step_S k z : 0 <= k -> iter_step (k + 1) z = step (iter_step k z).
Proof. intros. rewrite Z.add_comm, iter_step_add by lia. reflexivity. Qed.

Lemma iter_step_live k z : live z -> live (iter_step k z).
Proof. apply (N.iter_invariant _ _ step live step_live). Qed.

Lemma limit_value : limit = 3647.
Proof. reflexivity. Qed.

(** Two small values that the recurrence combines to a small one are both 0:
    20 X = p - 7, so the congruence leaves no other solution. *)
Lemma small_step a b :
  0 <= a < limit -> 0 <= b < limit -> (a * X_MUL + b * Y_MUL) mod P31 < limit -> a = 0 /\ b = 0.
Proof.
  rewrite limit_value. intros Ha Hb Hc.
  pose proof (Z.mod_pos_bound (a * X_MUL + b * Y_MUL) P31 eq_refl) as Hr.
  pose proof (Z.div_mod (a * X_MUL + b * Y_MUL) P31 ltac:(done)) as Hd.
  revert Hc Hr Hd. generalize ((a * X_MUL + b * Y_MUL) mod P31), ((a * X_MUL + b * Y_MUL) / P31).
  unfold P31, X_MUL, Y_MUL. intros c q Hc Hr Hd.
  assert (2089600 * b - 7 * a - 20 * c = 2147483647 * (20 * q - a)) as E by lia.
  assert (20 * q - a = 0 \/ 20 * q - a = 1 \/ 20 * q - a = 2 \/ 20 * q - a = 3) as [H|[H|[H|H]]]
    by lia; rewrite H in E; lia.
Qed.

(** After four steps the state shows the last five values drawn. *)
Lemma history y :
  iter_step 4 y = MkState (z1 (iter_step 4 y)) (z1 (iter_step 3 y)) (z1 (iter_step 2 y))
                    (z1 (iter_step 1 y)) (z1 y).
Proof.
  change 4 with (3 + 1). rewrite iter_step_S by lia.
  change 3 with (2 + 1). rewrite iter_step_S by lia.
  change 2 with (1 + 1). rewrite iter_step_S by lia. reflexivity.
Qed.

(** Among nine draws from a live state one is accepted. *)
Lemma accepted_draw z : live z -> exists k, 1 <= k <= 9 /\ limit <= z1 (iter_step k z).
Proof.
  intros Hz. destruct (decide (Forall (fun k => z1 (iter_step k z) < limit) (seqZ 1 9))) as [Hs|Hs].
  2:{ apply not_Forall_Exists in Hs; [|apply _]. apply list.Exists_exists in Hs as (k & Hk & Hl).
      apply elem_of_seqZ in Hk. exists k. split; [lia|]. unfold compose in Hl. lia. }
  exfalso. rewrite list.Forall_forall in Hs.
  assert (forall k, 1 <= k <= 9 -> 0 <= z1 (iter_step k z) < limit) as Hsm.
  { intros k Hk. split; [|apply Hs, elem_of_seqZ; lia].
    destruct (iter_step_fe k z (proj1 Hz)) as [H1 _]. unfold fe in H1. lia. }
  assert (forall k, 1 <= k <= 4 ->
    z1 (iter_step (4 + k) z) = 0 /\ z1 (iter_step k z) = 0) as Hzero.
  { intros k Hk. apply small_step; [apply Hsm; lia|apply Hsm; lia|].
    replace (z1 (iter_step k z)) with (z5 (iter_step (4 + k) z)) by (by rewrite iter_step_add by lia).
    change ((_ + _) mod P31) with (z1 (step (iter_step (4 + k) z))).
    rewrite <- iter_step_S by lia. apply Hsm. lia. }
  destruct (iter_step_live 5 z Hz) as [_ Hl]. apply Hl.
  change 5 with (4 + 1). rewrite iter_step_add, history by lia.
  rewrite <- !iter_step_add by lia. change (3 + 1) with 4. change (2 + 1) with 3.
  change (1 + 1) with 2.
  destruct (Hzero 1) as [-> ->]; [lia|]. destruct (Hzero 2) as [_ ->]; [lia|].
  destruct (Hzero 3) as [_ ->]; [lia|]. destruct (Hzero 4) as [_ ->]; [lia|]. reflexivity.
Qed.

Section Sampler.
Context {MA : ModArith}.

Lemma get_uint_ok z : fe_state z -> mrg_get_uint_orig z = Some (step z, z1 (step z)).
Proof. intros Hz. unfold mrg_get_uint_orig. by rewrite mrg_orig_step_ok. Qed.

Lemma u32_fe a : fe a -> u32 a = a.
Proof. unfold fe, P31. intros. apply u32_id. unfold in_u32. lia. Qed.

(** The first accepted value among the next [n] draws. *)
Lemma redraw_ok n z :
  live z -> (exists k, 1 <= k <= Z.of_nat n /\ limit <= z1 (iter_step k z)) ->
  exists k, 1 <= k <= Z.of_nat n /\ limit <= z1 (iter_step k z) /\
    (forall j, 1 <= j < k -> z1 (iter_step j z) < limit) /\
    redraw n z = Some (iter_step k z, z1 (iter_step k z)).
Proof.
  revert z. induction n as [|n IH]; intros z Hz (k & Hk & Hl); [lia|]. cbn [redraw].
  rewrite get_uint_ok by apply Hz. cbn [mbind option_bind].
  pose proof (step_live z Hz) as Hz'. rewrite u32_fe by apply Hz'.
  change (step z) with (iter_step 1 z) in *. destruct (Z.ltb_spec (z1 (iter_step 1 z)) limit).
  - assert (k <> 1) by (intros ->; lia).
    assert (forall j, 0 <= j -> iter_step j (iter_step 1 z) = iter_step (j + 1) z) as Hadd
      by (intros j Hj; by rewrite iter_step_add by lia).
    destruct (IH (iter_step 1 z) Hz') as (k' & Hk' & Hl' & Hf & ->).
    { exists (k - 1). split; [lia|]. rewrite Hadd by lia. by replace (k - 1 + 1) with k by lia. }
    rewrite Hadd in * by lia. exists (k' + 1). split; [lia|]. split; [done|]. split; [|done].
    intros j Hj. destruct (decide (j = 1)) as [->|]; [done|].
    replace j with (j - 1 + 1) by lia. rewrite <- Hadd by lia. apply Hf. lia.
  - exists 1. split; [lia|]. split; [done|]. split; [lia|done].
Qed.

(** The sampler returns the class of the first accepted value. *)
Lemma bernoulli_ok z level nlevels :
  live z ->
  exists k, 1 <= k <= 9 /\ limit <= z1 (iter_step k z) /\
    (forall j, 1 <= j < k -> z1 (iter_step j z) < limit) /\
    generate_4way_bernoulli z level nlevels
    = Some (iter_step k z, classify (z1 (iter_step k z))).
Proof.
  intros Hz. unfold generate_4way_bernoulli. rewrite get_uint_ok by apply Hz.
  cbn [mbind option_bind]. pose proof (step_live z Hz) as Hz'. rewrite u32_fe by apply Hz'.
  change (step z) with (iter_step 1 z) in *. destruct (Z.ltb_spec (z1 (iter_step 1 z)) limit).
  - destruct (accepted_draw z Hz) as (k & Hk & Hl). assert (k <> 1) by (intros ->; lia).
    assert (forall j, 0 <= j -> iter_step j (iter_step 1 z) = iter_step (j + 1) z) as Hadd
      by (intros j Hj; by rewrite iter_step_add by lia).
    destruct (redraw_ok DRAWS (iter_step 1 z) Hz') as (k' & Hk' & Hl' & Hf & ->).
    { exists (k - 1). split; [unfold DRAWS; lia|]. rewrite Hadd by lia.
      by replace (k - 1 + 1) with k by lia. }
    rewrite Hadd in * by lia. cbn [mbind option_bind].
    assert (k' + 1 <= k).
    { destruct (decide (k' + 1 <= k)); [done|]. exfalso.
      pose proof (Hf (k - 1) ltac:(lia)) as Hlt. rewrite Hadd in Hlt by lia.
      replace (k - 1 + 1) with k in Hlt by lia. lia. }
    exists (k' + 1). split; [lia|]. split; [done|]. split; [|done].
    intros j Hj. destruct (decide (j = 1)) as [->|]; [done|].
    replace j with (j - 1 + 1) by lia. rewrite <- Hadd by lia. apply Hf. lia.
  - cbn [mbind option_bind]. exists 1. split; [lia|]. split; [done|]. split; [lia|done].
Qed.

(** C24: the rejection loop of the sampler ends: from every state that is not all
    zero, at most nine draws give a value at or above the limit, and the sampler
    returns the class of the first such value. *)
Theorem bernoulli_terminates z level nlevels :
  live z ->
  exists k, 1 <= k <= 9 /\ limit <= z1 (iter_step k z) /\
    (forall j, 1 <= j < k -> z1 (iter_step j z) < limit) /\
    generate_4way_bernoulli z level nlevels
    = Some (iter_step k z, classify (z1 (iter_step k z))).
Proof. apply bernoulli_ok. Qed.

End Sampler.

Lemma live_example : live (MkState 1 2 3 4 5).
Proof. split; [|done]. unfold fe_state, fe, P31. cbn. lia. Qed.

Lemma bernoulli_terminates_witness :
  exists k, 1 <= k <= 9 /\ limit <= z1 (iter_step k (MkState 1 2 3 4 5)) /\
    (forall j, 1 <= j < k -> z1 (iter_step j (MkState 1 2 3 4 5)) < limit) /\
    generate_4way_bernoulli (MkState 1 2 3 4 5) 0 4
    = Some (iter_step k (MkState 1 2 3 4 5), classify (z1 (iter_step k (MkState 1 2 3 4 5)))).
Proof. apply (bernoulli_terminates (MkState 1 2 3 4 5) 0 4). apply live_example. Defined.

(** ** No bias *)

(** How many of the values [0, 10000) the sampler sends to each square. *)
Definition weight (q : Z) : Z :=
  if q =? 0 then INITIATOR_A_NUMERATOR
  else if q =? 3 then INITIATOR_DENOMINATOR - INITIATOR_A_NUMERATOR - 2 * INITIATOR_BC_NUMERATOR
  else INITIATOR_BC_NUMERATOR.

Definition count (f : Z -> bool) (l : list Z) : Z :=
  foldr (fun v n => (if f v then 1 else 0) + n) 0 l.

Lemma count_app f l1 l2 : count f (l1 ++ l2) = count f l1 + count f l2.
Proof. unfold count. induction l1 as [|v l1 IH]; cbn [app foldr]; lia. Qed.

Lemma count_fmap f g l : count f (g <$> l) = count (fun v => f (g v)) l.
Proof. unfold count. induction l as [|v l IH]; cbn; [done|]. cbn in IH. by rewrite IH. Qed.

Lemma count_ext f g l : (forall v, f v = g v) -> count f l = count g l.
Proof. intros H. unfold count. induction l as [|v l IH]; cbn [foldr]; [done|]. by rewrite H, IH. Qed.

Lemma count_blocks f m n k c :
  0 <= n -> 0 <= k -> (forall j, 0 <= j -> count f (seqZ (m + n * j) n) = c) ->
  count f (seqZ m (n * k)) = k * c.
Proof.
  intros Hn Hk Hb. pattern k. apply natlike_ind; [by rewrite Z.mul_0_r| |done].
  clear k Hk. intros k Hk IH. replace (n * Z.succ k) with (n * k + n) by lia.
  rewrite seqZ_app, count_app, IH, Hb by lia. lia.
Qed.

Lemma seqZ_shift m n d : seqZ (m + d) n = Z.add d <$> seqZ m n.
Proof. rewrite fmap_add_seqZ. f_equal. lia. Qed.

Lemma classify_period v j : classify (10000 * j + v) = classify v.
Proof.
  unfold classify, INITIATOR_DENOMINATOR. rewrite (Z.mul_comm 10000 j), Z.add_comm.
  by rewrite Z_mod_plus_full.
Qed.

Lemma classify_cases v :
  classify v = let r := v mod 10000 in
    if r <? 1900 then 1 else if r <? 3800 then 2 else if r <? 9500 then 0 else 3.
Proof.
  unfold classify, INITIATOR_DENOMINATOR, INITIATOR_BC_NUMERATOR, INITIATOR_A_NUMERATOR.
  change (u32 (1900 + 0)) with 1900. cbv zeta.
  pose proof (Z.mod_pos_bound v 10000 eq_refl) as Hr. revert Hr. generalize (v mod 10000).
  intros r Hr. destruct (Z.ltb_spec r 1900); [done|].
  rewrite (u32_id (r - 1900)) by (unfold in_u32; lia).
  destruct (Z.ltb_spec (r - 1900) 1900), (Z.ltb_spec r 3800); try lia.
  rewrite u32_id by (unfold in_u32; lia).
  destruct (Z.ltb_spec (r - 1900 - 1900) 5700), (Z.ltb_spec r 9500); lia || done.
Qed.

Lemma count_const f b m n :
  0 <= n -> (forall v, m <= v < m + n -> f v = b) -> count f (seqZ m n) = if b then n else 0.
Proof.
  intros Hn Hf. revert Hf. pattern n. apply natlike_ind; [by destruct b| |done]. clear n Hn.
  intros n Hn IH Hf. unfold Z.succ. rewrite seqZ_snoc, count_app, IH by (try done; intros; apply Hf; lia).
  unfold count. cbn [foldr]. rewrite Hf by lia. destruct b; lia.
Qed.

Ltac decide_class :=
  repeat match goal with |- context [?a <? ?b] => destruct (Z.ltb_spec a b); try lia end; done.

(** One period of the classes, from the limit on. *)
Lemma count_period q :
  0 <= q <= 3 -> count (fun v => classify v =? q) (seqZ limit 10000) = weight q.
Proof.
  intros Hq. rewrite limit_value.
  assert (seqZ 3647 10000 = seqZ 3647 153 ++ seqZ 3800 5700 ++ seqZ 9500 500 ++ seqZ 10000 1900 ++
    seqZ 11900 1747) as ->.
  { change (seqZ 3647 10000) with (seqZ 3647 (153 + (5700 + (500 + (1900 + 1747))))).
    rewrite !seqZ_app by lia. reflexivity. }
  rewrite !count_app.
  rewrite (count_const _ (2 =? q) 3647 153), (count_const _ (0 =? q) 3800 5700),
    (count_const _ (3 =? q) 9500 500), (count_const _ (1 =? q) 10000 1900),
    (count_const _ (2 =? q) 11900 1747); try lia.
  - unfold weight, INITIATOR_A_NUMERATOR, INITIATOR_DENOMINATOR, INITIATOR_BC_NUMERATOR.
    assert (q = 0 \/ q = 1 \/ q = 2 \/ q = 3) as [-> | [-> | [-> | ->]]] by lia; reflexivity.
  - intros v Hv. rewrite classify_cases. cbv zeta. replace (v mod 10000) with (v - 10000) by zdiv. decide_class.
  - intros v Hv. rewrite classify_cases. cbv zeta. replace (v mod 10000) with (v - 10000) by zdiv. decide_class.
  - intros v Hv. rewrite classify_cases. cbv zeta. replace (v mod 10000) with v by zdiv. decide_class.
  - intros v Hv. rewrite classify_cases. cbv zeta. replace (v mod 10000) with v by zdiv. decide_class.
  - intros v Hv. rewrite classify_cases. cbv zeta. replace (v mod 10000) with v by zdiv. decide_class.
Qed.

(** The sampler has no bias: of the values it accepts, each of the four
    squares gets its share in ten thousandths, 5700, 1900, 1900 and 500. *)
Theorem bernoulli_unbiased q :
  0 <= q <= 3 ->
  count (fun v => classify v =? q) (seqZ limit (P31 - limit)) * INITIATOR_DENOMINATOR
  = weight q * (P31 - limit).
Proof.
  intros Hq. change (P31 - limit) with (10000 * 214748).
  rewrite (count_blocks _ limit 10000 214748 (weight q)); [unfold INITIATOR_DENOMINATOR; lia|lia|lia|].
  intros j Hj. rewrite seqZ_shift, count_fmap.
  rewrite (count_ext _ (fun v => classify v =? q)) by (intros v; by rewrite classify_period).
  by apply count_period.
Qed.

Lemma bernoulli_unbiased_witness :
  count (fun v => classify v =? 3) (seqZ limit (P31 - limit)) * INITIATOR_DENOMINATOR
  = weight 3 * (P31 - limit).
Proof. apply (bernoulli_unbiased 3). lia. Defined.

(** ** Edges *)

Lemma classify_range v : 0 <= classify v <= 3.
Proof. unfold classify. repeat (destruct (_ <? _); [lia|]). lia. Qed.

Section Edges.
Context {MA : ModArith}.

(** The loop stays on or above the diagonal and inside the square it is in. *)
Lemma edge_loop_ok n fuel k a b N level lgN z :
  (n < fuel)%nat -> k = Z.of_nat n -> live z -> 0 <= a <= b -> 2 ^ k * (b + 1) <= N <= 2 ^ 62 ->
  exists z' s t, edge_loop fuel (2 ^ k) level lgN z (2 ^ k * a) (2 ^ k * b) = Some (z', s, t) /\
    live z' /\ 0 <= s <= t /\ t < N.
Proof.
  revert fuel k a b level z. induction n as [|n IH]; intros fuel k a b level z Hf -> Hz Hab HN;
    (destruct fuel as [|fuel]; [lia|]); cbn [edge_loop].
  - change (2 ^ Z.of_nat 0) with 1 in *. cbn [Z.ltb Z.compare Pos.compare Pos.compare_cont].
    exists z, (1 * a), (1 * b). split; [done|]. split; [done|]. lia.
  - rewrite Nat2Z.inj_succ, <- Z.add_1_r, Z.pow_add_r in * by lia. change (2 ^ 1) with 2 in *.
    set (h := 2 ^ Z.of_nat n) in *. assert (0 < h) as Hh by (apply Z.pow_pos_nonneg; lia).
    destruct (Z.ltb_spec 1 (h * 2)) as [_|]; [|lia].
    destruct (bernoulli_ok z level lgN Hz) as (j & Hj & _ & _ & ->). cbn [mbind option_bind].
    pose proof (classify_range (z1 (iter_step j z))) as Hq.
    set (q := classify (z1 (iter_step j z))) in *.
    rewrite Z.quot_div_nonneg, Z.rem_mod_nonneg by lia.
    assert (0 <= q / 2 <= 1 /\ 0 <= q mod 2 <= 1) as [Hs Ht] by zdiv.
    assert (h * 2 * a <=? h * 2 * b = true) as -> by (apply Z.leb_le; nia). cbn [check mbind option_bind].
    rewrite Z.quot_div_nonneg, Z.div_mul by lia.
    match goal with |- context [let '(x, y) := ?p in _] => set (off := p) end.
    assert (0 <= fst off <= 1 /\ 0 <= snd off <= 1 /\ (a = b -> fst off <= snd off)) as (H1 & H2 & H3).
    { unfold off. destruct (Z.eqb_spec (h * 2 * a) (h * 2 * b)) as [E|E].
      - destruct (Z.ltb_spec (q mod 2) (q / 2)); cbn [fst snd]; lia.
      - cbn [fst snd]. split; [done|]. split; [done|]. intros ->. done. }
    clearbody off. destruct off as [so to]. cbn [fst snd] in *.
    assert (h * 2 * a + h * so = h * (2 * a + so)) as -> by ring.
    assert (h * 2 * b + h * to = h * (2 * b + to)) as -> by ring.
    assert (2 * a + so <= 2 * b + to) by lia.
    assert (h * (2 * b + to + 1) <= N) by nia.
    rewrite !sint64_id by nia. cbn [mbind option_bind].
    apply (IH fuel (Z.of_nat n) (2 * a + so) (2 * b + to)); [lia|done|by apply iter_step_live|lia|].
    fold h. lia.
Qed.

Definition edge_in (logN : Z) (e : packed_edge) : Prop :=
  0 <= v0 e < 2 ^ Z.min logN 32 /\ 0 <= v1 e < 2 ^ Z.min logN 32.

Lemma u32_small_range x n : 0 <= n -> 0 <= x < 2 ^ n -> 0 <= u32 x < 2 ^ Z.min n 32.
Proof.
  intros Hn Hx. destruct (Z.min_spec n 32) as [[? ->]|[? ->]].
  - assert (2 ^ n <= 2 ^ 32) by (apply Z.pow_le_mono_r; lia).
    rewrite u32_id; [done|]. unfold in_u32. lia.
  - apply u32_range.
Qed.

Lemma make_one_edge_ok z logN val0 val1 :
  live z -> 1 <= logN <= 62 ->
  exists z' e, make_one_edge (2 ^ logN) 0 logN z val0 val1 = Some (z', e) /\ edge_in logN e.
Proof.
  intros Hz Hn. unfold make_one_edge.
  destruct (edge_loop_ok (Z.to_nat logN) 64 logN 0 0 (2 ^ logN) 0 logN z)
    as (z' & s & t & E & Hz' & Hs & Ht); [lia|lia|done|lia| |].
  { assert (2 ^ logN <= 2 ^ 62) by (apply Z.pow_le_mono_r; lia). lia. }
  rewrite Z.mul_0_r in E. rewrite E. cbn [mbind option_bind]. rewrite !scramble_eq by lia.
  cbn [mbind option_bind]. exists z'. eexists. split; [done|].
  split; cbn [v0 v1 write_edge]; (apply u32_small_range; [lia|apply scramble_range; lia]).
Qed.

End Edges.

(** ** Ranges of edges *)

Section Ranges.
Context {MA : ModArith} (tbl : list (list mrg_transition_matrix)) (Htbl : table_ok tbl).

(** The state [mrg_seed] makes of a good seed. *)
Definition seeded (seed : list Z) (z : mrg_state) : Prop := mrg_seed seed = Some z /\ live z.

(** The reference: edge number [ei] of the graph of a seed, made from its own
    state 2^64 [ei] steps after the seed. *)
Definition edge_of (z : mrg_state) (logN val0 val1 ei : Z) : option packed_edge :=
  snd <$> make_one_edge (2 ^ logN) 0 logN (iter_step (ei * 2 ^ 64) z) val0 val1.

Lemma edge_of_ok z logN val0 val1 ei :
  live z -> 1 <= logN <= 62 ->
  exists e, edge_of z logN val0 val1 ei = Some e /\ edge_in logN e.
Proof.
  intros Hz Hn. unfold edge_of.
  destruct (make_one_edge_ok (iter_step (ei * 2 ^ 64) z) logN val0 val1) as (z' & e & -> & He);
    [by apply iter_step_live|done|]. by exists e.
Qed.

Lemma generate_edge_ok z logN start val0 val1 ei edges :
  live z -> 1 <= logN <= 62 -> in_u64 ei -> 0 <= ei - start < alen edges ->
  exists e, edge_of z logN val0 val1 ei = Some e /\
    generate_edge tbl z (2 ^ logN) logN start val0 val1 ei edges
    = Some (<[Z.to_nat (ei - start) := e]> edges).
Proof.
  intros Hz Hn He Hi. destruct (edge_of_ok z logN val0 val1 ei Hz Hn) as (e & E & _).
  exists e. split; [done|]. unfold generate_edge. rewrite (u64_id ei) by done.
  rewrite (mrg_skip_ok tbl z 0 ei 0 Htbl (proj1 Hz)) by (done || unfold in_u64; lia).
  cbn [mbind option_bind]. unfold edge_of in E.
  replace (0 * 2 ^ 128 + ei * 2 ^ 64 + 0) with (ei * 2 ^ 64) by lia.
  destruct (make_one_edge _ _ _ _ _ _) as [[z' e']|]; [|done]. cbn in E. injection E as ->.
  cbn [mbind option_bind]. by rewrite aset_in.
Qed.

(** The loop writes the edge of every index it visits, in any order. *)
Lemma edges_loop_ok z logN start val0 val1 order edges :
  live z -> 1 <= logN <= 62 ->
  Forall (fun ei => in_u64 ei /\ 0 <= ei - start < alen edges) order ->
  exists edges',
    foldl (fun edges ei => edges ← edges; generate_edge tbl z (2 ^ logN) logN start val0 val1 ei edges)
      (Some edges) order = Some edges' /\ alen edges' = alen edges /\
    forall i, 0 <= i -> edges'.[i] =
      if decide (start + i ∈ order) then edge_of z logN val0 val1 (start + i) else edges.[i].
Proof.
  intros Hz Hn. revert edges. induction order as [|ei order IH]; intros edges Ho.
  - exists edges. split; [done|]. split; [done|]. intros i Hi.
    by rewrite decide_False by apply not_elem_of_nil.
  - apply list.Forall_cons in Ho as [[He Hi] Ho]. cbn [foldl mbind option_bind].
    destruct (generate_edge_ok z logN start val0 val1 ei edges) as (e & Ee & ->); [done..|].
    destruct (IH (<[Z.to_nat (ei - start) := e]> edges)) as (edges' & -> & Hl & Hg).
    { eapply list.Forall_impl; [exact Ho|]. intros j. cbn beta. by rewrite alen_insert. }
    exists edges'. split; [done|]. split; [by rewrite Hl, alen_insert|].
    intros i Hi'. rewrite Hg, aget_insert by done.
    destruct (decide (start + i ∈ order)) as [Hin|Hin].
    + by rewrite decide_True by (by right).
    + destruct (decide (i = ei - start)) as [->|Hne].
      * replace (start + (ei - start)) with ei by lia. by rewrite decide_True by (by left).
      * rewrite decide_False; [done|]. rewrite elem_of_cons. intros [?|?]; [lia|done].
Qed.

Lemma skip_fe z high middle low :
  fe_state z -> in_u64 high -> in_u64 middle -> in_u64 low ->
  exists y, mrg_skip tbl z high middle low = Some y /\ fe_state y.
Proof. intros. eexists. split; [by apply mrg_skip_ok|by apply iter_step_fe]. Qed.

Lemma scramble_values_ok z : live z -> exists v, scramble_values tbl z = Some v.
Proof.
  intros [Hz _]. unfold scramble_values.
  destruct (skip_fe z 50 7 0) as (y & -> & Hy); [done|unfold in_u64; lia..|].
  cbn [mbind option_bind].
  do 4 (rewrite get_uint_ok by (repeat apply step_fe; done); cbn [mbind option_bind]).
  eauto.
Qed.

(** Every iteration is run once. *)
Definition reorders (order : list Z -> list Z) : Prop := forall l, order l ≡ₚ l.

(** A range of edges is, for every order of the iterations, the list of the
    edges of its indices; the rest of the array is kept. *)
Lemma kronecker_range_ok seed z logN start_edge end_edge order edges :
  seeded seed z -> 1 <= logN <= 62 -> 0 <= start_edge <= end_edge -> end_edge <= 2 ^ 63 ->
  end_edge - start_edge <= alen edges -> reorders order ->
  exists val0 val1 edges',
    scramble_values tbl z = Some (val0, val1) /\
    generate_kronecker_range tbl seed logN start_edge end_edge order edges = Some edges' /\
    alen edges' = alen edges /\
    forall i, 0 <= i -> edges'.[i] =
      if i <? end_edge - start_edge then edge_of z logN val0 val1 (start_edge + i) else edges.[i].
Proof.
  intros [Hseed Hz] Hn Hs He Hl Hre. pose proof (Hre (seqZ start_edge (end_edge - start_edge))) as Ho. destruct (scramble_values_ok z Hz) as ([val0 val1] & Hv).
  destruct (edges_loop_ok z logN start_edge val0 val1 (order (seqZ start_edge (end_edge - start_edge))) edges Hz Hn) as (edges' & Hr & Hlen & Hg).
  { apply list.Forall_forall. intros ei Hei. rewrite Ho, elem_of_seqZ in Hei.
    unfold in_u64. lia. }
  exists val0, val1, edges'. split; [done|]. split; [|split; [done|]].
  - unfold generate_kronecker_range.
    assert ((0 <=? logN) && (logN <? 63) = true) as -> by lia. cbn [check mbind option_bind].
    rewrite Hseed. cbn [mbind option_bind]. rewrite Hv. cbn [mbind option_bind].
    rewrite Z.shiftl_1_l. exact Hr.
  - intros i Hi. rewrite Hg by done. destruct (Z.ltb_spec i (end_edge - start_edge)).
    + rewrite decide_True; [done|]. rewrite Ho, elem_of_seqZ. lia.
    + rewrite decide_False; [done|]. rewrite Ho, elem_of_seqZ. lia.
Qed.

End Ranges.

(** ** Seeds *)

(** Inverse of the spread. *)
Definition user_seeds (seed : list Z) : option (Z * Z) :=
  s0 ← seed.[0]; s1 ← seed.[1]; s2 ← seed.[2]; s3 ← seed.[3]; s4 ← seed.[4];
  Some ((s0 - 1) + (s1 - 1) * 2 ^ 30 + (s4 - 1) mod 16 * 2 ^ 60,
        (s2 - 1) + (s3 - 1) * 2 ^ 30 + (s4 - 1) / 16 * 2 ^ 60).

Lemma user_seeds_eq s0 s1 s2 s3 s4 :
  user_seeds [s0; s1; s2; s3; s4] =
    Some ((s0 - 1) + (s1 - 1) * 2 ^ 30 + (s4 - 1) mod 16 * 2 ^ 60,
          (s2 - 1) + (s3 - 1) * 2 ^ 30 + (s4 - 1) / 16 * 2 ^ 60).
Proof. reflexivity. Qed.

Lemma make_mrg_seed_eq a b :
  in_u64 a -> in_u64 b ->
  make_mrg_seed a b =
    [a mod 2 ^ 30 + 1; (a / 2 ^ 30) mod 2 ^ 30 + 1; b mod 2 ^ 30 + 1; (b / 2 ^ 30) mod 2 ^ 30 + 1;
     b / 2 ^ 60 * 16 + a / 2 ^ 60 + 1].
Proof.
  unfold in_u64. intros Ha Hb. unfold make_mrg_seed. change 0x3FFFFFFF with (Z.ones 30).
  rewrite !Z.land_ones, !Z.shiftr_div_pow2, !Z.shiftl_mul_pow2 by lia. change (2 ^ 4) with 16.
  assert (forall x, u32 (u32 (x mod 2 ^ 30) + 1) = x mod 2 ^ 30 + 1) as H30.
  { intros x. pose proof (Z.mod_pos_bound x (2 ^ 30) ltac:(lia)).
    rewrite !u32_id; unfold in_u32; rewrite ?u32_id by (unfold in_u32; lia); lia. }
  rewrite !H30. do 4 f_equal. f_equal.
  assert (0 <= a / 2 ^ 60 < 16 /\ 0 <= b / 2 ^ 60 < 16) as [Ha' Hb'].
  { split; (split; [apply Z.div_pos; lia|apply Z.div_lt_upper_bound; lia]). }
  rewrite (u64_id (b / 2 ^ 60 * 16)) by (unfold in_u64; lia).
  rewrite (u32_id (b / 2 ^ 60 * 16)), (u32_id (a / 2 ^ 60)) by (unfold in_u32; lia).
  rewrite (u32_id (b / 2 ^ 60 * 16 + a / 2 ^ 60)) by (unfold in_u32; lia).
  apply u32_id. unfold in_u32. lia.
Qed.

(** [make_mrg_seed] spreads the two 64-bit user seeds into five non-zero
    residues without losing a bit: the user seeds can be read back. *)
Theorem make_mrg_seed_roundtrip a b :
  in_u64 a -> in_u64 b ->
  Forall (fun s => 1 <= s < P31) (make_mrg_seed a b) /\
  user_seeds (make_mrg_seed a b) = Some (a, b).
Proof.
  intros Ha Hb. rewrite make_mrg_seed_eq by done. unfold in_u64 in *.
  assert (0 <= a / 2 ^ 60 < 16 /\ 0 <= b / 2 ^ 60 < 16) as [Ha' Hb'].
  { split; (split; [apply Z.div_pos; lia|apply Z.div_lt_upper_bound; lia]). }
  assert (forall x, 0 <= x -> x mod 2 ^ 30 + (x / 2 ^ 30) mod 2 ^ 30 * 2 ^ 30 + x / 2 ^ 60 * 2 ^ 60 = x)
    as Hx.
  { intros x Hx. change (2 ^ 60) with (2 ^ 30 * 2 ^ 30). rewrite <- Z.div_div by lia.
    pose proof (Z.div_mod x (2 ^ 30) ltac:(lia)).
    pose proof (Z.div_mod (x / 2 ^ 30) (2 ^ 30) ltac:(lia)). lia. }
  split.
  - pose proof (fun x => Z.mod_pos_bound x (2 ^ 30) ltac:(lia)) as Hm. unfold P31.
    pose proof (Hm a). pose proof (Hm (a / 2 ^ 30)). pose proof (Hm b). pose proof (Hm (b / 2 ^ 30)).
    rewrite !list.Forall_cons. repeat (split; [lia|]). apply list.Forall_nil. done.
  - rewrite user_seeds_eq, !Z.add_simpl_r.
    rewrite (Z.add_comm (b / 2 ^ 60 * 16)), Z_mod_plus_full.
    rewrite Z.div_add, (Z.mod_small (a / 2 ^ 60)), (Z.div_small (a / 2 ^ 60)), Z.add_0_l by lia.
    by rewrite !Hx by lia.
Qed.

Lemma make_mrg_seed_roundtrip_witness :
  Forall (fun s => 1 <= s < P31) (make_mrg_seed 0xdeadbeefcafebabe 0x0123456789abcdef) /\
  user_seeds (make_mrg_seed 0xdeadbeefcafebabe 0x0123456789abcdef)
  = Some (0xdeadbeefcafebabe, 0x0123456789abcdef).
Proof.
  apply (make_mrg_seed_roundtrip 0xdeadbeefcafebabe 0x0123456789abcdef); unfold in_u64; lia.
Defined.

(** ** Graphs *)

Lemma make_mrg_seed_seeded a b :
  in_u64 a -> in_u64 b -> exists z, seeded (make_mrg_seed a b) z.
Proof.
  intros Ha Hb. rewrite make_mrg_seed_eq by done. unfold in_u64 in *.
  assert (0 <= a / 2 ^ 60 < 16 /\ 0 <= b / 2 ^ 60 < 16) as [Ha' Hb'].
  { split; (split; [apply Z.div_pos; lia|apply Z.div_lt_upper_bound; lia]). }
  pose proof (fun x => Z.mod_pos_bound x (2 ^ 30) ltac:(lia)) as Hm.
  pose proof (Hm a). pose proof (Hm (a / 2 ^ 30)). pose proof (Hm b). pose proof (Hm (b / 2 ^ 30)).
  eexists. split; [reflexivity|]. split.
  - unfold fe_state, fe, P31. cbn -[Z.pow Z.modulo Z.div Z.mul Z.add]. lia.
  - unfold zero_state. intros [=]. lia.
Qed.

(** The first edge of process [r]; [share M size (r + 1)] ends its range. *)
Definition share (M size r : Z) : Z := r * (M / size) + Z.min r (M mod size).

Lemma share_bounds M size r :
  0 <= M -> 0 < size -> 0 <= r < size ->
  0 <= share M size r <= share M size (r + 1) /\ share M size (r + 1) <= M.
Proof.
  intros HM Hs Hr. unfold share. pose proof (Z.div_mod M size ltac:(lia)) as Hd.
  pose proof (Z.mod_pos_bound M size Hs). pose proof (Z.div_pos M size HM Hs).
  revert Hd H H0. generalize (M / size), (M mod size). intros q m Hd Hm Hq. nia.
Qed.

Lemma share_last M size : 0 < size -> share M size size = M.
Proof.
  intros Hs. unfold share. pose proof (Z.div_mod M size ltac:(lia)).
  pose proof (Z.mod_pos_bound M size Hs). lia.
Qed.

Lemma compute_edge_range_ok M size rank :
  0 <= M < 2 ^ 63 -> 0 < size -> 0 <= rank < size ->
  compute_edge_range rank size M = Some (share M size rank, share M size (rank + 1)).
Proof.
  intros HM Hs Hr. pose proof (share_bounds M size rank ltac:(lia) Hs Hr) as [Hb1 Hb2].
  unfold compute_edge_range. assert (size =? 0 = false) as -> by lia. cbn [negb check mbind option_bind].
  rewrite Z.quot_div_nonneg, Z.rem_mod_nonneg by lia.
  pose proof (Z.mod_pos_bound M size Hs). pose proof (Z.div_pos M size ltac:(lia) Hs).
  assert (forall r, (if r <? M mod size then r else M mod size) = Z.min r (M mod size)) as Hmin.
  { intros r. destruct (Z.ltb_spec r (M mod size)); lia. }
  rewrite !Hmin. unfold share in Hb1, Hb2.
  rewrite (sint64_id (rank * (M / size))) by nia. cbn [mbind option_bind].
  rewrite (sint64_id (rank * (M / size) + _)) by lia. cbn [mbind option_bind].
  rewrite (sint64_id ((rank + 1) * (M / size))) by nia. cbn [mbind option_bind].
  rewrite sint64_id by lia. reflexivity.
Qed.

Lemma alen_xmalloc n : 0 <= n < 2 ^ 61 -> alen (xmalloc_edges n) = n.
Proof.
  intros Hn. unfold xmalloc_edges, alen. rewrite length_replicate, u64_id by (unfold in_u64; lia).
  rewrite Z.div_mul by lia. lia.
Qed.

Section Graphs.
Context {MA : ModArith} (tbl : list (list mrg_transition_matrix)) (Htbl : table_ok tbl).
Context (logN M seed1 seed2 : Z).
Context (Hn : 1 <= logN <= 62) (HM : 0 <= M < 2 ^ 61) (H1 : in_u64 seed1) (H2 : in_u64 seed2).

(** The graph of the two user seeds, as a list of edges by index. *)
Definition is_graph (z : mrg_state) (start n : Z) (edges : list packed_edge) : Prop :=
  alen edges = n /\ exists val0 val1, scramble_values tbl z = Some (val0, val1) /\
  forall i, 0 <= i < n -> edges.[i] = edge_of z logN val0 val1 (start + i).

Lemma make_graph_ok z order :
  seeded (make_mrg_seed seed1 seed2) z -> reorders order ->
  exists edges, make_graph tbl logN M seed1 seed2 order = Some (M, edges) /\ is_graph z 0 M edges.
Proof.
  intros Hz Ho. unfold make_graph.
  destruct (kronecker_range_ok tbl Htbl (make_mrg_seed seed1 seed2) z logN 0 M order (xmalloc_edges M))
    as (val0 & val1 & edges & Hv & -> & Hl & Hg);
    [done|done|lia|lia|rewrite alen_xmalloc; lia|done|].
  cbn [mbind option_bind]. exists edges. split; [done|]. split; [by rewrite Hl, alen_xmalloc|].
  exists val0, val1. split; [done|]. intros i Hi. rewrite Hg by lia.
  destruct (Z.ltb_spec i (M - 0)); [done|lia].
Qed.

Lemma make_graph_mpi_ok z size rank order :
  0 < size -> 0 <= rank < size -> seeded (make_mrg_seed seed1 seed2) z ->
  reorders order ->
  exists edges,
    make_graph_mpi tbl rank size logN M seed1 seed2 order
    = Some (share M size (rank + 1) - share M size rank, edges) /\
    is_graph z (share M size rank) (share M size (rank + 1) - share M size rank) edges.
Proof.
  intros Hs Hr Hz Ho. pose proof (share_bounds M size rank ltac:(lia) Hs Hr) as [Hb1 Hb2].
  unfold make_graph_mpi. rewrite compute_edge_range_ok by lia. cbn [mbind option_bind].
  rewrite sint64_id by lia. cbn [mbind option_bind].
  set (n := share M size (rank + 1) - share M size rank) in *.
  destruct (kronecker_range_ok tbl Htbl (make_mrg_seed seed1 seed2) z logN (share M size rank)
    (share M size (rank + 1)) order (xmalloc_edges n))
    as (val0 & val1 & edges & Hv & -> & Hl & Hg);
    [done|done|lia|lia|rewrite alen_xmalloc; lia|done|].
  cbn [mbind option_bind]. exists edges. split; [done|]. split; [rewrite Hl, alen_xmalloc; lia|].
  exists val0, val1. split; [done|]. intros i Hi. rewrite Hg by lia. fold n.
  destruct (Z.ltb_spec i n); [done|lia].
Qed.

(** Consecutive ranges concatenate. *)
Lemma is_graph_app z a m n l k :
  0 <= m -> 0 <= n -> is_graph z a m l -> is_graph z (a + m) n k -> is_graph z a (m + n) (l ++ k).
Proof.
  intros Hm Hn' [Hl (v0' & v1' & Hv & Hgl)] [Hk (w0 & w1 & Hw & Hgk)].
  split; [rewrite alen_app; lia|]. exists v0', v1'. split; [done|].
  rewrite Hv in Hw. injection Hw as <- <-. intros i Hi. destruct (decide (i < m)).
  - rewrite aget_app_l by lia. apply Hgl. lia.
  - rewrite aget_app_r, Hgk by lia. f_equal. lia.
Qed.

Lemma is_graph_unique z a n l k : is_graph z a n l -> is_graph z a n k -> l = k.
Proof.
  intros [Hl (v0' & v1' & Hv & Hgl)] [Hk (w0 & w1 & Hw & Hgk)].
  rewrite Hv in Hw. injection Hw as <- <-. apply array_ext; [lia|].
  intros i Hi. by rewrite Hgl, Hgk by lia.
Qed.

Lemma is_graph_edges z a n l : live z -> is_graph z a n l -> Forall (edge_in logN) l.
Proof.
  intros Hz [Hl (v0' & v1' & _ & Hg)]. apply list.Forall_lookup. intros k e Hk.
  rewrite <- aget_nat in Hk. pose proof (aget_some_range _ _ _ Hk) as Hr.
  rewrite Hg in Hk by lia.
  destruct (edge_of_ok z logN v0' v1' (a + Z.of_nat k) Hz Hn) as (e' & E & He).
  rewrite E in Hk. by injection Hk as ->.
Qed.

End Graphs.

(** C22: [make_graph] terminates inside its array, for every order in which the
    threads take the edges, with the M edges asked for, and every end of an edge
    is a vertex number below 2^logN (below 2^32 where the packed edge cuts it). *)
Theorem make_graph_correct {MA : ModArith} logN M seed1 seed2 order :
  1 <= logN <= 62 -> 0 <= M < 2 ^ 61 -> in_u64 seed1 -> in_u64 seed2 -> reorders order ->
  exists edges, make_graph Table.mrg_skip_matrices logN M seed1 seed2 order = Some (M, edges) /\
    alen edges = M /\ Forall (edge_in logN) edges.
Proof.
  intros Hn HM H1 H2 Ho. destruct (make_mrg_seed_seeded seed1 seed2 H1 H2) as (z & Hz).
  destruct (make_graph_ok _ Table.mrg_skip_matrices_ok logN M seed1 seed2 Hn HM z order Hz Ho)
    as (edges & E & Hg).
  exists edges. split; [done|]. split; [apply Hg|].
  eapply is_graph_edges; [done|apply Hz|exact Hg].
Qed.

Lemma make_graph_correct_witness :
  exists edges, make_graph Table.mrg_skip_matrices 5 3 1 2 reverse = Some (3, edges) /\
    alen edges = 3 /\ Forall (edge_in 5) edges.
Proof.
  apply (make_graph_correct 5 3 1 2 reverse); [lia|lia|unfold in_u64; lia..|].
  intros l. apply reverse_Permutation.
Defined.

(** C23: the processes of an MPI run make together the graph one process makes:
    the ranges of [compute_edge_range] cover the edges without gap or overlap
    and the concatenation of the local arrays is the array of [make_graph]. *)
Theorem mpi_makes_the_graph {MA : ModArith} logN M seed1 seed2 size order orders :
  1 <= logN <= 62 -> 0 <= M < 2 ^ 61 -> in_u64 seed1 -> in_u64 seed2 -> 0 < size ->
  reorders order -> (forall rank, reorders (orders rank)) ->
  exists locals, mapM (fun rank => snd <$> make_graph_mpi Table.mrg_skip_matrices rank size logN M
                         seed1 seed2 (orders rank)) (seqZ 0 size) = Some locals /\
    make_graph Table.mrg_skip_matrices logN M seed1 seed2 order = Some (M, concat locals).
Proof.
  intros Hn HM H1 H2 Hs Ho Hos. destruct (make_mrg_seed_seeded seed1 seed2 H1 H2) as (z & Hz).
  pose proof Table.mrg_skip_matrices_ok as Htbl. revert Htbl.
  generalize Table.mrg_skip_matrices. intros tbl Htbl.
  destruct (make_graph_ok tbl Htbl logN M seed1 seed2 Hn HM z order Hz Ho) as (edges & -> & Hg).
  enough (forall n, 0 <= n -> n <= size -> exists locals,
    mapM (fun rank => snd <$> make_graph_mpi tbl rank size logN M seed1 seed2 (orders rank)) (seqZ 0 n)
      = Some locals /\ is_graph tbl logN z 0 (share M size n) (concat locals)) as Hall.
  { destruct (Hall size) as (locals & E & Hc); [lia|lia|]. exists locals. split; [done|].
    rewrite share_last in Hc by done. by rewrite (is_graph_unique tbl logN z 0 M _ _ Hg Hc). }
  intros n Hn0. pattern n. apply natlike_ind; [| |done].
  - intros _. exists []. split; [done|]. destruct Hg as [_ (a & b & Hv & _)].
    unfold share. rewrite Z.mul_0_l, Z.min_l by (apply Z.mod_pos_bound; lia).
    split; [done|]. exists a, b. split; [done|]. intros; lia.
  - clear n Hn0. intros n Hn0 IH Hle. destruct IH as (locals & E & Hc); [lia|].
    unfold Z.succ in *. rewrite seqZ_snoc, Z.add_0_l by done.
    destruct (make_graph_mpi_ok tbl Htbl logN M seed1 seed2 Hn HM z size n (orders n))
      as (l & El & Hl); [lia|lia|done|apply Hos|].
    exists (locals ++ [l]). split.
    + apply mapM_Some. apply List.Forall2_app; [by apply mapM_Some|].
      repeat constructor. by rewrite El.
    + rewrite concat_app. cbn [concat]. rewrite app_nil_r.
      pose proof (share_bounds M size n ltac:(lia) Hs ltac:(lia)) as [? ?].
      replace (share M size (n + 1)) with (share M size n + (share M size (n + 1) - share M size n)) by lia.
      apply is_graph_app; [lia|lia|done|by rewrite Z.add_0_l].
Qed.

Lemma mpi_makes_the_graph_witness :
  exists locals, mapM (fun rank => snd <$> make_graph_mpi Table.mrg_skip_matrices rank 2 5 3 1 2 id)
                   (seqZ 0 2) = Some locals /\
    make_graph Table.mrg_skip_matrices 5 3 1 2 reverse = Some (3, concat locals).
Proof.
  apply (mpi_makes_the_graph 5 3 1 2 2 reverse (fun _ => id)); [lia|lia|unfold in_u64; lia..|lia| |].
  - intros l. apply reverse_Permutation.
  - intros rank l. reflexivity.
Defined.

End Kronecker.
