(* ===== verification/Rmat.v ===== *)
(** * The R-MAT edge generator (sources/graph500/rmat.c)

    Every edge picks a quadrant per level with probabilities that are perturbed on
    the way down; then the vertices are relabelled and the edges shuffled, both by
    a Fisher-Yates permutation that draws real numbers.  Both builds are here,
    the one with OpenMP for every schedule of its threads.  [mrg_get_double_orig]
    of generator/splittable_mrg.c, which the permutations rely on to stay below 1,
    can return 1, but nothing above it. *)

From Stdlib Require Import ZArith Lia SpecFloat.
From stdpp Require Import list numbers.
From S2P Require Import Prelude Arrays Threads ModArith Mrg MrgTable Graph Kronecker Doubles.
#[local] Open Scope Z_scope.

Module Rmat.
Import Mrg Kronecker.

(** ** The code *)

Section Code.
Context {MA : ModArith} (mrg_skip_table : list (list mrg_transition_matrix)).

(** Which of the two calls in [mrg_get_double_orig] the compiler makes first. *)
Context (left_first : bool).

(** The literals (2^31 - 1)^(-1) and (2^31 - 1)^(-2). *)
Definition INV1 : double := literal 465661287524579692 (10 ^ 27).
Definition INV2 : double := literal 2168404346990492787 (10 ^ 37).

Definition real_of (u v : Z) : double := dadd (dmul (double_of u) INV1) (dmul (double_of v) INV2).

Definition mrg_get_double_orig (st : mrg_state) : option (mrg_state * double) :=
  '(st, a) ← mrg_get_uint_orig st;
  '(st, b) ← mrg_get_uint_orig st;
  Some (st, if left_first then real_of a b else real_of b a).

(** The perturbation of a probability, [P * (0.95 + r / 10)]. *)
Definition perturb (P r : double) : double := dmul P (dadd (literal 95 100) (ddiv r (double_of 10))).

(** The loop of [rmat_edge]. *)
Fixpoint quadrants (fuel : nat) (rn : list double) (rni i j bit : Z) (A B C D : double) : option (Z * Z) :=
  match fuel with
  | O => None
  | S fuel =>
      r ← rn.[rni];
      let '(i, j) :=
        if dltb A r then
          if dleb r (dadd A B) then (i, Z.lor j bit)
          else if dleb r (dadd (dadd A B) C) then (Z.lor i bit, j)
          else (Z.lor i bit, Z.lor j bit)
        else (i, j) in
      if 1 =? bit then Some (i, j) else
      ra ← rn.[rni + 1]; let A := perturb A ra in
      rb ← rn.[rni + 2]; let B := perturb B rb in
      rc ← rn.[rni + 3]; let C := perturb C rc in
      rd ← rn.[rni + 4]; let D := perturb D rd in
      let norm := ddiv (double_of 1) (dadd (dadd (dadd A B) C) D) in
      let A := dmul A norm in let B := dmul B norm in let C := dmul C norm in
      let D := dsub (double_of 1) (dadd (dadd A B) C) in
      quadrants fuel rn (rni + 5) i j (Z.shiftr bit 1) A B C D
  end.
Definition rmat_edge (SCALE : Z) (A B C D : double) (rn : list double) : option packed_edge :=
  '(i, j) ← quadrants (Z.to_nat SCALE) rn 0 0 0 (Z.shiftl 1 (SCALE - 1)) A B C D;
  Some (write_edge i j).

(** [k + (int64_t) floor (mrg_get_double_orig (st) * (nelem - k))] *)
Definition pick_place (k nelem : Z) (d : double) : option Z :=
  f ← dfloor (dmul d (double_of (nelem - k)));
  f ← sint64 f;
  sint64 (k + f).

Definition randpermute {E} (A : list E) (nelem : Z) (st : mrg_state) : option (list E * mrg_state) :=
  for_z 0 nelem (fun k '(A, st) =>
    '(st, d) ← mrg_get_double_orig st;
    place ← pick_place k nelem d;
    if k =? place then Some (A, st) else
    t ← A.[place]; x ← A.[k]; A ← A.[place <- x]; A ← A.[k <- t]; Some (A, st)) (A, st).

Definition permute_vertex_labels (IJ : list packed_edge) (nedge max_nvtx : Z) (st : mrg_state) (newlabel : list Z)
    : option (list packed_edge * mrg_state) :=
  newlabel ← for_z 0 max_nvtx (fun k l => l.[k <- k]) newlabel;
  '(newlabel, st) ← randpermute newlabel max_nvtx st;
  IJ ← for_z 0 nedge (fun k IJ =>
    e ← IJ.[k]; a ← newlabel.[get_v0_from_edge e]; b ← newlabel.[get_v1_from_edge e]; IJ.[k <- write_edge a b]) IJ;
  Some (IJ, st).

Definition permute_edgelist (IJ : list packed_edge) (nedge : Z) (st : mrg_state) : option (list packed_edge * mrg_state) :=
  randpermute IJ nedge st.

Definition NRAND (SCALE ne : Z) : Z := 5 * SCALE * ne.

(** The random numbers of an edge. *)
Definition draw_reals (n : Z) (st : mrg_state) : option (list double * mrg_state) :=
  for_z 0 n (fun k2 '(R, st) => '(st, d) ← mrg_get_double_orig st; R ← R.[k2 <- d]; Some (R, st)) (replicate (Z.to_nat n) dzero, st).

(** [prng] is the global state; [iwork] is fresh memory. *)
Definition rmat_edgelist (IJ : list packed_edge) (nedge SCALE : Z) (A B C : double) (prng : mrg_state)
    : option (list packed_edge * mrg_state) :=
  let D := dsub (double_of 1) (dadd (dadd A B) C) in
  let iwork := replicate (Z.to_nat (2 ^ SCALE)) 0 in
  '(IJ, _) ← for_z 0 nedge (fun k '(IJ, new_st) =>
    new_st ← mrg_skip mrg_skip_table new_st 1 (u64 (NRAND SCALE 1)) 0;
    '(Rlocal, new_st) ← draw_reals (NRAND SCALE 1) new_st;
    e ← rmat_edge SCALE A B C D Rlocal;
    IJ ← IJ.[k <- e];
    Some (IJ, new_st)) (IJ, prng);
  prng ← mrg_skip mrg_skip_table prng 1 (u64 (NRAND SCALE nedge)) 0;
  '(IJ, _) ← permute_vertex_labels IJ nedge (2 ^ SCALE) prng iwork;
  prng ← mrg_skip mrg_skip_table prng 1 (u64 (2 ^ SCALE)) 0;
  '(IJ, _) ← permute_edgelist IJ nedge prng;
  prng ← mrg_skip mrg_skip_table prng 1 (u64 nedge) 0;
  Some (IJ, prng).
End Code.

(** ** Real numbers *)

Lemma INV1_normal : normal (-84) (-82) INV1.
Proof. eexists _, _. split; [vm_compute; reflexivity|]. lia. Qed.
Lemma INV2_normal : normal (-115) (-113) INV2.
Proof. eexists _, _. split; [vm_compute; reflexivity|]. lia. Qed.

Lemma normal_mono lo hi lo' hi' x : lo' <= lo -> hi <= hi' -> normal lo hi x -> normal lo' hi' x.
Proof. intros ? ? (m & e & -> & Hm & He). exists m, e. split; [done|]. split; [done|lia]. Qed.

Lemma part_shape w c lo hi :
  0 <= w < P31 -> -300 <= lo -> hi <= -60 -> normal lo hi c ->
  dmul (double_of w) c = dzero \/ normal (lo - 0) (-2) (dmul (double_of w) c).
Proof.
  unfold P31. intros Hw Hlo Hhi Hc. destruct (decide (w = 0)) as [->|]; [left; by destruct Hc as (m & e & -> & _)|right].
  destruct (double_of_ok w ltac:(lia)) as [Nw _]. destruct (dmul_core (-52) 0 lo hi _ _ ltac:(lia) ltac:(lia) ltac:(lia) ltac:(lia) Nw Hc) as [N _].
  eapply normal_mono; [..|exact N]; lia.
Qed.

(** What is drawn is 0 or a positive number. *)
Lemma real_of_ok u v : 0 <= u < P31 -> 0 <= v < P31 -> real_of u v = dzero \/ normal (-115) 0 (real_of u v).
Proof.
  intros Hu Hv.
  unfold real_of. destruct (part_shape u INV1 (-84) (-82) Hu ltac:(lia) ltac:(lia) INV1_normal) as [->|N1], (part_shape v INV2 (-115) (-113) Hv ltac:(lia) ltac:(lia) INV2_normal) as [->|N2].
  - by left.
  - right. destruct N2 as (m & e & -> & Hm & He). exists m, e. split; [done|]. split; [done|lia].
  - right. destruct N1 as (m & e & -> & Hm & He). exists m, e. split; [done|]. split; [done|lia].
  - right. destruct (dadd_core (-115) (-2) (dmul (double_of u) INV1) (dmul (double_of v) INV2)) as [N _]; [lia..| | |].
    + eapply normal_mono; [..|exact N1]; lia.
    + eapply normal_mono; [..|exact N2]; lia.
    + eapply normal_mono; [..|exact N]; lia.
Qed.

(** The largest product of each of the two parts, rounded up; their sum is 1. *)
Definition PART1 : double := S754_finite false 0x1fffffffc00000 (-53).
Definition PART2 : double := S754_finite false 0x10000000000000 (-83).

Lemma part_below w c Y lo hi :
  0 <= w < P31 -> -300 <= lo -> hi <= -60 -> normal lo hi c -> normal (-83) (-53) Y -> (P31 - 1) * dval c <= dval Y ->
  dval (dmul (double_of w) c) <= dval Y.
Proof.
  unfold P31. intros Hw Hlo Hhi Hc HY Hmax. destruct (normal_dval _ _ _ HY) as [HYp|]; [|lia].
  destruct (decide (w = 0)) as [->|]; [destruct Hc as (m & e & -> & _); cbn [double_of binary_normalize dmul SFmul dval]; lia|].
  destruct (double_of_ok w ltac:(lia)) as [Nw Vw]. destruct (dmul_core (-52) 0 lo hi _ _ ltac:(lia) ltac:(lia) ltac:(lia) ltac:(lia) Nw Hc) as [N Herr].
  destruct (normal_dval _ _ _ Hc) as [Hcp|]; [|lia]. assert (0 < UNIT) as HU by (apply Z.pow_pos_nonneg; lia).
  apply (rounded_below (-52 + lo + 52) (0 + hi + 54) (-83) (-53) (dval (double_of w) * dval c) UNIT); [lia|lia|done|done|done|done|].
  rewrite Vw. set (U := UNIT) in *. clearbody U. set (V := dval c) in *. clearbody V. nia.
Qed.

Lemma real_of_below u v : 0 <= u < P31 -> 0 <= v < P31 -> dval (real_of u v) <= UNIT.
Proof.
  intros Hu Hv. assert (normal (-83) (-53) PART1 /\ normal (-83) (-53) PART2) as [N1 N2] by (split; eexists _, _; (split; [reflexivity|]); lia).
  pose proof (part_below u INV1 PART1 (-84) (-82) Hu ltac:(lia) ltac:(lia) INV1_normal N1 ltac:(apply Z.leb_le; vm_compute; reflexivity)) as H1.
  pose proof (part_below v INV2 PART2 (-115) (-113) Hv ltac:(lia) ltac:(lia) INV2_normal N2 ltac:(apply Z.leb_le; vm_compute; reflexivity)) as H2.
  assert (dval PART1 + dval PART2 = UNIT) as Hsum by (vm_compute; reflexivity).
  assert (0 <= dval PART1 /\ 0 <= dval PART2) as [Hp1 Hp2] by (split; apply Z.leb_le; vm_compute; reflexivity).
  unfold real_of. set (x := dmul (double_of u) INV1) in *. set (y := dmul (double_of v) INV2) in *.
  destruct (part_shape u INV1 (-84) (-82) Hu ltac:(lia) ltac:(lia) INV1_normal) as [Ex|Nx]; fold x in Ex || fold x in Nx;
    destruct (part_shape v INV2 (-115) (-113) Hv ltac:(lia) ltac:(lia) INV2_normal) as [Ey|Ny]; fold y in Ey || fold y in Ny.
  - rewrite Ex, Ey. cbn [dadd SFadd dzero dval]. lia.
  - rewrite Ex. assert (dadd dzero y = y) as -> by (by destruct Ny as (m & e & -> & _)). lia.
  - rewrite Ey. assert (dadd x dzero = x) as -> by (by destruct Nx as (m & e & -> & _)). lia.
  - destruct (dadd_core (-115) (-2) x y) as [N Herr]; [lia..|eapply normal_mono; [..|exact Nx]; lia|eapply normal_mono; [..|exact Ny]; lia|].
    destruct (double_of_ok 1 ltac:(lia)) as [N1' V1]. replace UNIT with (dval (double_of 1)) by lia.
    apply (rounded_below (-115) (-2 + 2) (-52) 0 (dval x + dval y) 1); [lia|lia|done|done|lia|by rewrite Z.mul_1_r|lia].
Qed.

(** A number below 1 picks a place among those that are left. *)
Lemma pick_place_ok k nelem d :
  0 <= k < nelem -> nelem < 2 ^ 53 -> d = dzero \/ normal (-115) 0 d -> dlt d (double_of 1) ->
  exists p, pick_place k nelem d = Some p /\ k <= p < nelem.
Proof.
  intros Hk Hn Hd H1. unfold pick_place. set (N := nelem - k). destruct (double_of_ok N ltac:(lia)) as [NN VN].
  assert (exists f, dfloor (dmul d (double_of N)) = Some f /\ 0 <= f < N) as (f & -> & Hf).
  { destruct Hd as [->|Nd].
    - exists 0. split; [|lia]. destruct NN as (m & e & -> & _). done.
    - destruct (dmul_core (-115) 0 (-52) 0 _ _ ltac:(lia) ltac:(lia) ltac:(lia) ltac:(lia) Nd NN) as [Np Herr].
      rewrite (dfloor_normal (-115) 54) by (done || lia || (eapply normal_mono; [..|exact Np]; lia)). eexists. split; [done|].
      destruct (double_of_ok 1 ltac:(lia)) as [N1 V1]. pose proof (proj1 (dlt_normal (-115) 0 (-52) 0 _ _ ltac:(lia) ltac:(lia) Nd N1) H1) as Hlt. rewrite V1 in Hlt.
      assert (2 ^ 53 * dval d <= (2 ^ 53 - 1) * UNIT) as Hbelow.
      { destruct Nd as (m & e & -> & Hm & He). cbn [dval] in *. unfold UNIT in *. rewrite Z.mul_1_l in Hlt.
        assert (e + 1074 < 1022) as He2.
        { destruct (decide (e + 1074 < 1022)); [done|]. exfalso. assert (2 ^ 1022 <= 2 ^ (e + 1074)) by (apply Z.pow_le_mono_r; lia).
          assert (2 ^ 52 * 2 ^ 1022 = 2 ^ 1074) by (rewrite <- Z.pow_add_r by lia; f_equal). nia. }
        assert (2 ^ (e + 1074) <= 2 ^ 1021) as Hp by (apply Z.pow_le_mono_r; lia). assert (2 ^ 53 * 2 ^ 1021 = 2 ^ 1074) as H53 by (rewrite <- Z.pow_add_r by lia; f_equal).
        assert (0 < 2 ^ (e + 1074)) by (apply Z.pow_pos_nonneg; lia). nia. }
      destruct (normal_dval _ _ _ Np) as [Hpos|]; [|lia]. destruct (normal_dval _ _ _ Nd) as [Hposd|]; [|lia].
      assert (0 < UNIT) as HU by (apply Z.pow_pos_nonneg; lia). rewrite VN in Herr. set (R := dval (dmul d (double_of N))) in *. set (X := dval d) in *. set (U := UNIT) in *. clearbody R X U.
      split; [apply Z.div_pos; lia|]. apply Z.div_lt_upper_bound; [done|].
      assert (2 ^ 53 * (R * U) <= (2 ^ 53 + 1) * (X * (N * U))) as E1 by lia.
      assert (2 ^ 53 * R <= (2 ^ 53 + 1) * (X * N)) as E2 by (apply (Z.mul_le_mono_pos_r _ _ U); [done|]; nia).
      assert (2 ^ 53 * (X * N) <= (2 ^ 53 - 1) * U * N) as E3 by nia. assert (0 < U * N) by nia. lia. }
  cbn [mbind option_bind]. rewrite sint64_id by lia. cbn [mbind option_bind]. rewrite sint64_id by lia. exists (k + f). split; [done|lia].
Qed.

(** ** Permutations *)

Section Permute.
Context {MA : ModArith} (left_first : bool).

(** The number drawn in state [z]. *)
Definition drawn (z : mrg_state) : double :=
  if left_first then real_of (z1 (step z)) (z1 (step (step z))) else real_of (z1 (step (step z))) (z1 (step z)).

(** The next [n] numbers are below 1. *)
Definition below_one (n : Z) (z : mrg_state) : Prop := forall k, 0 <= k < n -> dlt (drawn (iter_step (2 * k) z)) (double_of 1).

Lemma get_double_ok z : fe_state z -> mrg_get_double_orig left_first z = Some (step (step z), drawn z).
Proof.
  intros Hz. unfold mrg_get_double_orig. rewrite (get_uint_ok z Hz). cbn [mbind option_bind].
  rewrite (get_uint_ok (step z) (step_fe z Hz)). done.
Qed.

Lemma drawn_ok z : fe_state z -> drawn z = dzero \/ normal (-115) 0 (drawn z).
Proof.
  intros Hz. pose proof (step_fe z Hz) as H1. pose proof (step_fe _ H1) as H2. destruct H1 as (F1 & _), H2 as (F2 & _). unfold fe in *.
  unfold drawn. destruct left_first; by apply real_of_ok.
Qed.

Lemma drawn_below z : fe_state z -> dval (drawn z) <= UNIT.
Proof.
  intros Hz. pose proof (step_fe z Hz) as H1. pose proof (step_fe _ H1) as H2. destruct H1 as (F1 & _), H2 as (F2 & _). unfold fe in *.
  unfold drawn. destruct left_first; by apply real_of_below.
Qed.

Lemma swap_perm {E} (A : list E) i j x y :
  A.[i] = Some x -> A.[j] = Some y -> i <> j -> <[Z.to_nat i := y]> (<[Z.to_nat j := x]> A) ≡ₚ A.
Proof.
  intros Hi Hj Hne. pose proof (aget_some_range _ _ _ Hi). pose proof (aget_some_range _ _ _ Hj). unfold aget in *.
  destruct (Z.ltb_spec i 0), (Z.ltb_spec j 0); try lia. unfold alen in *. clear -Hi Hj Hne H H0.
  assert (Z.to_nat i <> Z.to_nat j) as Hn by lia. revert Hi Hj Hn. generalize (Z.to_nat i), (Z.to_nat j). clear. intros i j Hi Hj Hn.
  apply Permutation_inj. split; [by rewrite !length_insert|]. exists (fun k => if decide (k = i) then j else if decide (k = j) then i else k). split.
  - intros a b. repeat case_decide; congruence.
  - intros k. apply lookup_lt_Some in Hi as Li. apply lookup_lt_Some in Hj as Lj. destruct (decide (k = i)) as [->|].
    + rewrite list_lookup_insert_eq by (rewrite length_insert; lia). done.
    + rewrite list_lookup_insert_ne by done. destruct (decide (k = j)) as [->|].
      * rewrite list_lookup_insert_eq by lia. done.
      * by rewrite list_lookup_insert_ne.
Qed.

(** *** The shuffle of Fisher and Yates, on lists *)

(** Two elements change places. *)
Definition exchange {E} (i j : Z) (l : list E) : list E :=
  match l.[i], l.[j] with
  | Some x, Some y => <[Z.to_nat i := y]> (<[Z.to_nat j := x]> l)
  | _, _ => l
  end.

Definition fisher_yates {E} (place : Z -> Z) (n : Z) (l : list E) : list E :=
  foldl (fun l k => exchange k (place k) l) l (seqZ 0 n).

(** The place the number drawn in round [k] stands for: the number times what is
    left, in doubles, without its fraction. *)
Definition place (n : Z) (z : mrg_state) (k : Z) : Z :=
  k + default 0 (dfloor (dmul (drawn (iter_step (2 * k) z)) (double_of (n - k)))).

Lemma exchange_perm {E} i j (l : list E) : exchange i j l ≡ₚ l.
Proof.
  unfold exchange. destruct (l.[i]) as [x|] eqn:Ei; [|done]. destruct (l.[j]) as [y|] eqn:Ej; [|done].
  destruct (decide (i = j)) as [->|]; [|by apply swap_perm]. assert (x = y) as -> by congruence.
  pose proof (aget_some_range _ _ _ Ei). rewrite <- (Z2Nat.id j), aget_nat in Ej by lia. by rewrite list_insert_insert_eq, list_insert_id.
Qed.

Lemma fisher_yates_perm {E} pl n (l : list E) : fisher_yates pl n l ≡ₚ l.
Proof.
  unfold fisher_yates. generalize (seqZ 0 n). intros ks. revert l. induction ks as [|k ks IH]; intros l; [done|]. cbn [foldl].
  rewrite IH. apply exchange_perm.
Qed.

Lemma fisher_yates_S {E} pl k (l : list E) : 0 <= k -> fisher_yates pl (k + 1) l = exchange k (pl k) (fisher_yates pl k l).
Proof. intros Hk. unfold fisher_yates. rewrite seqZ_app, foldl_app by lia. done. Qed.

Lemma place_ok n z k : fe_state z -> 0 <= k < n -> n < 2 ^ 53 -> below_one n z ->
  pick_place k n (drawn (iter_step (2 * k) z)) = Some (place n z k) /\ k <= place n z k < n.
Proof.
  intros Hz Hk Hn Hb. destruct (pick_place_ok k n (drawn (iter_step (2 * k) z)) Hk Hn) as (p & Hp & Hpr); [by apply drawn_ok, iter_step_fe|by apply Hb|].
  assert (place n z k = p) as ->; [|done]. unfold pick_place, place in *. destruct (dfloor _) as [f|]; [|done]. cbn [mbind option_bind default] in *.
  apply bind_Some in Hp as (f' & Hf & Hp). unfold sint64 in Hf, Hp. cbn [from_option id]. repeat case_match; congruence.
Qed.

(** [randpermute] is that shuffle. *)
Lemma randpermute_ok {E} (A : list E) nelem z :
  fe_state z -> 0 <= nelem < 2 ^ 53 -> nelem <= alen A -> below_one nelem z ->
  randpermute left_first A nelem z = Some (fisher_yates (place nelem z) nelem A, iter_step (2 * nelem) z).
Proof.
  intros Hz Hn Hl Hb. unfold randpermute. edestruct (for_z_inv (fun k s => s = (fisher_yates (place nelem z) k A, iter_step (2 * k) z)) 0 nelem)
    as (r & -> & ->); [lia|done| |done].
  intros k r Hk ->. rewrite get_double_ok by (by apply iter_step_fe). cbn [mbind option_bind].
  destruct (place_ok nelem z k Hz Hk ltac:(lia) Hb) as [-> Hp]. cbn [mbind option_bind].
  assert (step (step (iter_step (2 * k) z)) = iter_step (2 * (k + 1)) z) as ->.
  { replace (2 * (k + 1)) with (2 * k + 1 + 1) by lia. by rewrite !iter_step_S by lia. }
  rewrite fisher_yates_S by lia. set (A1 := fisher_yates _ k A). assert (alen A1 = alen A) as Hl1 by (unfold alen, A1; by rewrite fisher_yates_perm).
  destruct (aget_in A1 (place nelem z k) ltac:(lia)) as [t Ht]. destruct (aget_in A1 k ltac:(lia)) as [w Hw].
  destruct (Z.eqb_spec k (place nelem z k)) as [Heq|Hne].
  - eexists. split; [done|]. f_equal. unfold exchange. rewrite <- Heq, Hw. rewrite <- (Z2Nat.id k), aget_nat in Hw by lia.
    rewrite Nat2Z.id in Hw || idtac. by rewrite list_insert_insert_eq, list_insert_id.
  - rewrite Ht, Hw. cbn [mbind option_bind]. rewrite aset_in by lia. cbn [mbind option_bind]. rewrite aset_in by (rewrite alen_insert; lia). cbn [mbind option_bind].
    eexists. split; [done|]. f_equal. unfold exchange. by rewrite Ht, Hw.
Qed.
End Permute.

(** [mrg_get_double_orig], documented to return a value in [0, 1), returns 1
    from some states of the generator, and the shuffle of [randpermute] then swaps
    with an element behind the end of the array: shuffling one element fails. *)
Theorem double_orig_reaches_one :
  exists z, live z /\ (forall left_first, exists z', mrg_get_double_orig (MA := mod_arith_64) left_first z = Some (z', double_of 1)) /\
    forall left_first E (x : E), randpermute (MA := mod_arith_64) left_first [x] 1 z = None.
Proof.
  exists (MkState 0 0 0 1595753209 307138669). split; [|split].
  - split; [|done]. unfold fe_state, fe, P31. cbn. lia.
  - intros []; eexists; vm_compute; reflexivity.
  - intros [] E x; vm_compute; reflexivity.
Qed.

(** ** Edges *)

Lemma quadrants_ok SCALE (l : nat) : forall rn rni i j A B C D,
  Z.of_nat l < SCALE -> 0 <= rni -> rni + 5 * Z.of_nat l + 1 <= alen rn -> 0 <= i < 2 ^ SCALE -> 0 <= j < 2 ^ SCALE ->
  exists i' j', quadrants (S l) rn rni i j (2 ^ Z.of_nat l) A B C D = Some (i', j') /\ 0 <= i' < 2 ^ SCALE /\ 0 <= j' < 2 ^ SCALE.
Proof.
  induction l as [|l IH]; intros rn rni i j A B C D Hl Hr Hlen Hi Hj.
  all: destruct (aget_in rn rni ltac:(lia)) as [r Er]; cbn [quadrants]; rewrite Er; cbn [mbind option_bind].
  all: match goal with |- context [Z.lor _ ?b] => assert (0 <= b < 2 ^ SCALE) as Hb
         by (split; [apply Z.pow_nonneg; lia|apply Z.pow_lt_mono_r; lia]) end.
  all: pose proof (lor_range SCALE i _ ltac:(lia) Hi Hb) as Hi2; pose proof (lor_range SCALE j _ ltac:(lia) Hj Hb) as Hj2.
  all: match goal with |- context [let '(_, _) := ?c in _] => assert (exists i' j', c = (i', j') /\ 0 <= i' < 2 ^ SCALE /\ 0 <= j' < 2 ^ SCALE)
         as (i' & j' & -> & Hi' & Hj') by (repeat case_match; eauto 6) end.
  - cbn. eauto 6.
  - destruct (Z.eqb_spec 1 (2 ^ Z.of_nat (S l))) as [E|_].
    { exfalso. assert (2 ^ 1 <= 2 ^ Z.of_nat (S l)) by (apply Z.pow_le_mono_r; lia). lia. }
    destruct (aget_in rn (rni + 1) ltac:(lia)) as [ra ->]. destruct (aget_in rn (rni + 2) ltac:(lia)) as [rb ->].
    destruct (aget_in rn (rni + 3) ltac:(lia)) as [rc ->]. destruct (aget_in rn (rni + 4) ltac:(lia)) as [rd ->]. cbn [mbind option_bind].
    assert (Z.shiftr (2 ^ Z.of_nat (S l)) 1 = 2 ^ Z.of_nat l) as ->.
    { rewrite Z.shiftr_div_pow2 by lia. rewrite Nat2Z.inj_succ, Z.pow_succ_r by lia. rewrite Z.mul_comm. by apply Z.div_mul. }
    apply IH; [lia..|done|done].
Qed.

(** The ends of an edge are vertices. *)
Definition edge_within (SCALE : Z) (e : packed_edge) : Prop := 0 <= v0 e < 2 ^ SCALE /\ 0 <= v1 e < 2 ^ SCALE.

Lemma rmat_edge_ok SCALE A B C D rn :
  1 <= SCALE <= 32 -> alen rn = NRAND SCALE 1 -> exists e, rmat_edge SCALE A B C D rn = Some e /\ edge_within SCALE e.
Proof.
  intros HS Hrn. unfold rmat_edge, NRAND in *. rewrite Z.shiftl_1_l. replace (Z.to_nat SCALE) with (S (Z.to_nat (SCALE - 1))) by lia.
  assert (2 ^ (SCALE - 1) = 2 ^ Z.of_nat (Z.to_nat (SCALE - 1))) as -> by (f_equal; lia). assert (0 < 2 ^ SCALE) by (apply Z.pow_pos_nonneg; lia).
  destruct (quadrants_ok SCALE (Z.to_nat (SCALE - 1)) rn 0 0 0 A B C D) as (i & j & -> & Hi & Hj); [lia..|]. cbn [mbind option_bind].
  eexists. split; [done|]. assert (2 ^ SCALE <= 2 ^ 32) by (apply Z.pow_le_mono_r; lia). unfold edge_within, write_edge. cbn [v0 v1].
  rewrite !u32_id by (unfold in_u32; lia). done.
Qed.

Section Edgelist.
Context {MA : ModArith} (tbl : list (list mrg_transition_matrix)) (Htbl : table_ok tbl) (left_first : bool).
Context (SCALE nedge : Z) (HS : 1 <= SCALE <= 32) (Hne : 0 <= nedge < 2 ^ 53).

(** The next [n] numbers. *)
Definition reals (n : Z) (z : mrg_state) : list double := (fun k => drawn left_first (iter_step (2 * k) z)) <$> seqZ 0 n.

Lemma alen_reals n z : 0 <= n -> alen (reals n z) = n.
Proof. intros Hn. unfold reals. rewrite alen_fmap. unfold alen. rewrite length_seqZ. lia. Qed.

Lemma draw_reals_ok n z : 0 <= n -> fe_state z -> draw_reals left_first n z = Some (reals n z, iter_step (2 * n) z).
Proof.
  intros Hn Hz. unfold draw_reals.
  edestruct (for_z_inv (fun k s => s = (reals k z ++ replicate (Z.to_nat (n - k)) dzero, iter_step (2 * k) z)) 0 n) as (r & -> & ->); [lia| | |].
  - by rewrite Z.sub_0_r.
  - intros k r Hk ->. rewrite get_double_ok by (by apply iter_step_fe). cbn [mbind option_bind].
    pose proof (alen_reals k z ltac:(lia)) as Hl. unfold alen in Hl. rewrite aset_in by (rewrite alen_app; unfold alen; rewrite length_replicate; lia). cbn [mbind option_bind].
    eexists. split; [done|]. f_equal.
    + rewrite insert_app_r_alt by lia. replace (Z.to_nat k - length (reals k z))%nat with O by lia.
      replace (Z.to_nat (n - k)) with (S (Z.to_nat (n - (k + 1)))) by lia. unfold reals. rewrite (seqZ_app 0 k 1), fmap_app, <- app_assoc by lia.
      cbn. done.
    + replace (2 * (k + 1)) with (2 * k + 1 + 1) by lia. by rewrite !iter_step_S by lia.
  - by rewrite Z.sub_diag, app_nil_r.
Qed.

(** The state after a skip by [n] times 2^64 and 2^128 steps. *)
Definition skip_to (n : Z) (z : mrg_state) : mrg_state := iter_step (2 ^ 128 + n * 2 ^ 64) z.

Lemma skip_ok z n : fe_state z -> in_u64 n -> mrg_skip tbl z 1 (u64 n) 0 = Some (skip_to n z).
Proof.
  intros Hz Hn. rewrite u64_id by done. rewrite mrg_skip_ok by (done || unfold in_u64; lia). unfold skip_to. do 2 f_equal. lia.
Qed.

Lemma skip_to_fe n z : fe_state z -> fe_state (skip_to n z).
Proof. apply iter_step_fe. Qed.

(** Edge [k] is the one that the probabilities and the numbers drawn from
    [edge_start k] on describe: every edge before it has skipped once and drawn
    [NRAND(1)] numbers. *)
Definition edge_start (k : Z) (z : mrg_state) : mrg_state :=
  iter_step ((k + 1) * (2 ^ 128 + NRAND SCALE 1 * 2 ^ 64) + k * (2 * NRAND SCALE 1)) z.
Definition is_edge (A B C : double) (z : mrg_state) (k : Z) (e : packed_edge) : Prop :=
  rmat_edge SCALE A B C (dsub (double_of 1) (dadd (dadd A B) C)) (reals (NRAND SCALE 1) (edge_start k z)) = Some e.

Lemma nrand_range : 0 <= NRAND SCALE 1 /\ in_u64 (NRAND SCALE 1) /\ in_u64 (NRAND SCALE nedge).
Proof. unfold NRAND, in_u64. nia. Qed.

(** The loop over the edges. *)
Lemma edges_made IJ A B C z :
  fe_state z -> alen IJ = nedge ->
  exists E z', for_z 0 nedge (fun k '(IJ, new_st) =>
    new_st ← mrg_skip tbl new_st 1 (u64 (NRAND SCALE 1)) 0;
    '(Rlocal, new_st) ← draw_reals left_first (NRAND SCALE 1) new_st;
    e ← rmat_edge SCALE A B C (dsub (double_of 1) (dadd (dadd A B) C)) Rlocal;
    IJ ← IJ.[k <- e];
    Some (IJ, new_st)) (IJ, z) = Some (E, z') /\
    alen E = nedge /\ forall k, 0 <= k < nedge -> exists e, E.[k] = Some e /\ is_edge A B C z k e /\ edge_within SCALE e.
Proof.
  intros Hz Hl. destruct nrand_range as (Hn0 & Hn1 & _). set (N := NRAND SCALE 1) in *. set (J := 2 ^ 128 + N * 2 ^ 64).
  assert (0 <= J) as HJ by (unfold J; lia). edestruct (for_z_inv (fun k '(E, y) => y = iter_step (k * J + k * (2 * N)) z /\ alen E = nedge /\
      forall i, 0 <= i < k -> exists e, E.[i] = Some e /\ is_edge A B C z i e /\ edge_within SCALE e) 0 nedge)
    as ([E y] & E0 & _ & HE & Hall); [lia| | |by exists E, y].
  - split; [done|]. split; [done|]. intros; lia.
  - intros k [E y] Hk (-> & HE & Hall). rewrite skip_ok by (done || by apply iter_step_fe). cbn [mbind option_bind].
    assert (skip_to N (iter_step (k * J + k * (2 * N)) z) = edge_start k z) as Es.
    { unfold skip_to, edge_start. fold N. fold J. rewrite <- iter_step_add by nia. f_equal. lia. }
    rewrite Es. assert (fe_state (edge_start k z)) as Hs by (by apply iter_step_fe). rewrite draw_reals_ok by done. cbn [mbind option_bind].
    destruct (rmat_edge_ok SCALE A B C (dsub (double_of 1) (dadd (dadd A B) C)) (reals N (edge_start k z)) HS (alen_reals N _ Hn0)) as (e & Ee & He).
    rewrite Ee. cbn [mbind option_bind]. rewrite aset_in by lia. cbn [mbind option_bind]. eexists. split; [done|]. split.
    { unfold edge_start. fold N J. rewrite <- iter_step_add by nia. f_equal. lia. }
    split; [by rewrite alen_insert|]. intros i Hi. rewrite aget_insert by lia. case_decide as Hd; [|apply Hall; lia].
    subst i. by exists e.
Qed.

Definition relabel (lab : list Z) (e : packed_edge) : option packed_edge :=
  a ← lab.[v0 e]; b ← lab.[v1 e]; Some (write_edge a b).

(** Every edge gets the labels of its ends. *)
Lemma labels_written lab E :
  alen E = nedge -> lab ≡ₚ seqZ 0 (2 ^ SCALE) -> Forall (edge_within SCALE) E ->
  exists E', for_z 0 nedge (fun k IJ =>
    e ← IJ.[k]; a ← lab.[get_v0_from_edge e]; b ← lab.[get_v1_from_edge e]; IJ.[k <- write_edge a b]) E = Some E' /\
    alen E' = nedge /\ mapM (relabel lab) E = Some E' /\ Forall (edge_within SCALE) E'.
Proof.
  intros Hl Hlab HE. assert (0 < 2 ^ SCALE <= 2 ^ 32) as Hpow by (split; [apply Z.pow_pos_nonneg; lia|apply Z.pow_le_mono_r; lia]).
  assert (alen lab = 2 ^ SCALE) as Hll by (unfold alen; rewrite Hlab, length_seqZ; lia).
  assert (forall v, 0 <= v < 2 ^ SCALE -> exists w, lab.[v] = Some w /\ 0 <= w < 2 ^ SCALE) as Hget.
  { intros v Hv. destruct (aget_in lab v ltac:(lia)) as [w Hw]. exists w. split; [done|]. assert (w ∈ lab) as Hin by (apply elem_aget; eauto).
    rewrite Hlab in Hin. apply elem_of_seqZ in Hin. lia. }
  assert (forall e, edge_within SCALE e -> exists e', relabel lab e = Some e' /\ edge_within SCALE e') as Hrel.
  { intros e [H0 H1]. destruct (Hget _ H0) as (a & Ea & Ha), (Hget _ H1) as (b & Eb & Hb). unfold relabel. rewrite Ea, Eb. cbn [mbind option_bind]. eexists. split; [done|].
    unfold edge_within, write_edge. cbn [v0 v1]. rewrite !u32_id by (unfold in_u32; lia). done. }
  assert (exists E', mapM (relabel lab) E = Some E' /\ Forall (edge_within SCALE) E') as (E' & Em & HE').
  { clear -HE Hrel. induction HE as [|e E He _ (E' & Em & HE')]; [by exists []|]. destruct (Hrel e He) as (e' & Er & He'). exists (e' :: E').
    cbn [mapM]. rewrite Er. cbn [mbind option_bind]. rewrite Em. split; [done|by constructor]. }
  exists E'. apply mapM_Some in Em as Hf. assert (alen E' = nedge) as Hl' by (unfold alen in *; apply Forall2_length in Hf; lia). split; [|done].
  match goal with |- for_z 0 nedge ?b E = _ => destruct (for_z_inv (fun k IJ => IJ = take (Z.to_nat k) E' ++ drop (Z.to_nat k) E) 0 nedge b E)
    as (IJ & E0 & ->) end; [lia| | |].
  - change (Z.to_nat 0) with O. by rewrite take_0, drop_0.
  - intros k IJ Hk ->. cbv beta. destruct (lookup_lt_is_Some_2 E (Z.to_nat k)) as [e Ee]; [unfold alen in *; lia|].
    destruct (Forall2_lookup_l _ _ _ _ _ Hf Ee) as (e' & Ee' & Hr). unfold relabel in Hr.
    assert (alen (take (Z.to_nat k) E') = k) as Hlt by (unfold alen in *; rewrite length_take; lia).
    rewrite (drop_S _ _ _ Ee).
    pose proof (aget_middle (take (Z.to_nat k) E') (drop (S (Z.to_nat k)) E) e) as Hg. rewrite Hlt in Hg. rewrite Hg. cbn [mbind option_bind]. unfold get_v0_from_edge, get_v1_from_edge.
    destruct (lab.[v0 e]) as [a|]; [|done]. cbn [mbind option_bind] in *. destruct (lab.[v1 e]) as [b|]; [|done]. cbn [mbind option_bind] in *. injection Hr as Hr.
    rewrite aset_in by (rewrite alen_app, alen_cons; pose proof (alen_nonneg (drop (S (Z.to_nat k)) E)); pose proof (alen_nonneg (take (Z.to_nat k) E')); lia).
    eexists. split; [done|]. rewrite Hr. replace (Z.to_nat (k + 1)) with (S (Z.to_nat k)) by lia. rewrite (take_S_r _ _ _ Ee'), <- app_assoc.
    rewrite insert_app_r_alt by (unfold alen in *; lia). f_equal. assert (Z.to_nat k - length (take (Z.to_nat k) E') = 0)%nat as -> by (unfold alen in *; lia). done.
  - rewrite E0. f_equal. rewrite take_ge, drop_ge, app_nil_r by (unfold alen in *; lia). done.
Qed.

(** The states from which the two shuffles draw, and the new names. *)
Definition label_state (z : mrg_state) : mrg_state := skip_to (NRAND SCALE nedge) z.
Definition order_state (z : mrg_state) : mrg_state := skip_to (2 ^ SCALE) (label_state z).
Definition labels (z : mrg_state) : list Z :=
  fisher_yates (place left_first (2 ^ SCALE) (label_state z)) (2 ^ SCALE) (seqZ 0 (2 ^ SCALE)).

(** The numbers of the two shuffles are below 1. *)
Definition shuffles_below_one (z : mrg_state) : Prop :=
  below_one left_first (2 ^ SCALE) (label_state z) /\ below_one left_first nedge (order_state z).

(** What the generator makes of the state [z]: [E] are the edges drawn, [E'] the
    same with their ends renamed, and [IJ'] is [E'] shuffled. *)
Definition made_from (A B C : double) (z : mrg_state) (IJ' : list packed_edge) : Prop :=
  exists E E', alen E = nedge /\
    (forall k, 0 <= k < nedge -> exists e, E.[k] = Some e /\ is_edge A B C z k e /\ edge_within SCALE e) /\
    labels z ≡ₚ seqZ 0 (2 ^ SCALE) /\ mapM (relabel (labels z)) E = Some E' /\
    IJ' = fisher_yates (place left_first nedge (order_state z)) nedge E' /\ IJ' ≡ₚ E'.

Lemma ids_written : exists ids, for_z 0 (2 ^ SCALE) (fun k l => l.[k <- k]) (replicate (Z.to_nat (2 ^ SCALE)) 0) = Some ids /\ ids = seqZ 0 (2 ^ SCALE).
Proof.
  assert (0 < 2 ^ SCALE) as Hpow by (apply Z.pow_pos_nonneg; lia).
  destruct (for_z_fill (2 ^ SCALE) (fun k => k) (replicate (Z.to_nat (2 ^ SCALE)) 0) (fun k => Some k)) as (ids & Eids & Hli & Hgi).
  { unfold alen. rewrite length_replicate. lia. } { done. }
  exists ids. split; [exact Eids|]. assert (alen ids = 2 ^ SCALE) as Hl2 by (rewrite Hli; unfold alen; rewrite length_replicate; lia).
  apply list_eq_same_length with (n := Z.to_nat (2 ^ SCALE)).
  - rewrite length_seqZ. done.
  - unfold alen in Hl2. lia.
  - intros i a b Hi Ha Hb. apply lookup_seqZ in Hb as [-> _]. specialize (Hgi (Z.of_nat i) ltac:(lia)). rewrite aget_nat, Ha in Hgi.
    destruct (Z.ltb_spec (Z.of_nat i) (2 ^ SCALE)); [|lia]. injection Hgi as ->. lia.
Qed.

Lemma rmat_edgelist_ok IJ A B C z :
  fe_state z -> alen IJ = nedge -> shuffles_below_one z ->
  exists IJ', rmat_edgelist tbl left_first IJ nedge SCALE A B C z = Some (IJ', skip_to nedge (order_state z)) /\
    made_from A B C z IJ' /\ alen IJ' = nedge /\ Forall (edge_within SCALE) IJ'.
Proof.
  intros Hz Hl [H1 H2]. assert (0 < 2 ^ SCALE <= 2 ^ 32) as Hpow by (split; [apply Z.pow_pos_nonneg; lia|apply Z.pow_le_mono_r; lia]).
  destruct nrand_range as (_ & _ & Hn). pose proof (skip_to_fe (NRAND SCALE nedge) z Hz) as Hy. pose proof (skip_to_fe (2 ^ SCALE) _ Hy) as Hy'.
  unfold rmat_edgelist. destruct (edges_made IJ A B C z Hz Hl) as (E & z0 & -> & HE & Hin). cbn [mbind option_bind].
  rewrite skip_ok by done. cbn [mbind option_bind]. unfold permute_vertex_labels. destruct ids_written as (ids & -> & ->). cbn [mbind option_bind].
  rewrite randpermute_ok by (done || lia || (unfold alen; rewrite length_seqZ; lia)). cbn [mbind option_bind].
  change (fisher_yates _ _ _) with (labels z). assert (labels z ≡ₚ seqZ 0 (2 ^ SCALE)) as Hlab by apply fisher_yates_perm.
  assert (Forall (edge_within SCALE) E) as Hw.
  { apply Forall_lookup. intros i e Hi. destruct (Hin (Z.of_nat i)) as (e' & Ee & _ & He); [apply lookup_lt_Some in Hi; unfold alen in *; lia|].
    rewrite aget_nat in Ee. congruence. }
  destruct (labels_written (labels z) E HE Hlab Hw) as (E' & -> & HE' & Em & Hin'). cbn [mbind option_bind].
  rewrite skip_ok by (done || unfold in_u64; lia). cbn [mbind option_bind]. unfold permute_edgelist.
  rewrite randpermute_ok by (done || lia). cbn [mbind option_bind]. rewrite skip_ok by (done || unfold in_u64; lia). cbn [mbind option_bind].
  pose proof (fisher_yates_perm (place left_first nedge (order_state z)) nedge E') as Hp. eexists. split; [done|].
  split; [|split; [unfold alen in *; by rewrite Hp|by rewrite Hp]]. by exists E, E'.
Qed.

(** C25: The R-MAT generator of the build without OpenMP.  From every state of
    the random numbers, with any probabilities, as long as the numbers of the two
    shuffles are below 1: all accesses are inside the arrays, the assertions hold
    and the function returns.  Edge [k] is made of the numbers that the recurrence
    yields from its own start on; the vertices are renamed by the Fisher-Yates
    shuffle of all of them, which is a permutation, and the renamed edges are put
    in the order of a second such shuffle, so that each of them is returned once;
    both shuffles take their places from the streams behind the skips, and the
    generator is left behind the last skip. *)
Theorem rmat_edgelist_permutes IJ A B C z :
  fe_state z -> alen IJ = nedge -> shuffles_below_one z ->
  exists IJ', rmat_edgelist tbl left_first IJ nedge SCALE A B C z = Some (IJ', skip_to nedge (order_state z)) /\
    made_from A B C z IJ' /\ alen IJ' = nedge /\ Forall (edge_within SCALE) IJ'.
Proof. apply rmat_edgelist_ok. Qed.
End Edgelist.

(** ** The shuffle of the edges with OpenMP *)

Section Locks.
Context {MA : ModArith} (tbl : list (list mrg_transition_matrix)) (left_first : bool).

(** [take_pe]: an edge whose first end is negative is taken by another thread,
    and the loop waits; [-1] is stored in the 32-bit fields. *)
Definition take_pe (A : list packed_edge) (p : Z) : option (list packed_edge * packed_edge) :=
  out ← A.[p];
  if get_v0_from_edge out <? 0 then None
  else A ← A.[p <- write_edge (-1) (-1)]; Some (A, out).

Definition release_pe (A : list packed_edge) (p : Z) (val : packed_edge) : option (list packed_edge) :=
  e ← A.[p];
  assert! get_v0_from_edge e =? -1;
  A.[p <- val].

(** An iteration, with the thread's own state of the generator. *)
Definition permute_step (nelem k : Z) (s : list packed_edge * mrg_state) : option (list packed_edge * mrg_state) :=
  let '(A, st) := s in
  '(A, Ak) ← take_pe A k;
  st ← mrg_skip tbl st 1 (u64 k) 0;
  '(st, d) ← mrg_get_double_orig left_first st;
  place ← pick_place k nelem d;
  if k =? place then A ← release_pe A k Ak; Some (A, st)
  else
    assert! k <? place;
    assert! place <? nelem;
    '(A, Aplace) ← take_pe A place;
    t ← A.[place]; x ← A.[k]; A ← A.[place <- x]; A ← A.[k <- t];
    A ← release_pe A place Ak;
    A ← release_pe A k Aplace;
    Some (A, st).

(** A thread: the iterations it has to do and its state; an iteration is a step. *)
Definition shuffle_step (nelem : Z) (_ : nat) (A : list packed_edge) (t : list Z * mrg_state) : option (list packed_edge * (list Z * mrg_state)) :=
  match t with
  | (k :: todo, st) => '(A, st) ← permute_step nelem k (A, st); Some (A, (todo, st))
  | ([], _) => None
  end.
Definition omp_permute_edgelist {team_of : Team} (fuel : nat) (IJ : list packed_edge) (nedge : Z) (st : mrg_state) : Par (list packed_edge) :=
  todos ← dealt 0 nedge;
  '(IJ, _) ← region (shuffle_step nedge) (fun t => bool_decide (fst t = [])) fuel IJ ((fun todo => (todo, st)) <$> todos);
  mret IJ.

(** [take_i64]: the label, or another round of the loop while it is taken. *)
Definition take_i64 (A : list Z) (p : Z) : option (list Z * option Z) :=
  oldval ← A.[p];
  if 0 <=? oldval then A ← A.[p <- -1]; Some (A, Some oldval) else Some (A, None).

Definition release_i64 (A : list Z) (p val : Z) : option (list Z) :=
  e ← A.[p];
  assert! e =? -1;
  A.[p <- val].

(** Where a thread is in an iteration of the shuffle of the labels: it has
    nothing, the label of [k], or the one of [place] still to be put into [k]. *)
Inductive holding :=
| Nothing
| First (Ak place : Z)
| Second (Aplace : Z).

Definition label_step (nelem : Z) (_ : nat) (A : list Z) (t : list Z * mrg_state * holding)
    : option (list Z * (list Z * mrg_state * holding)) :=
  match t with
  | ([], _, _) => None
  | (k :: todo, st, Nothing) =>
      '(A, got) ← take_i64 A k;
      match got with
      | None => Some (A, t)
      | Some Ak =>
          st ← mrg_skip tbl st 1 (u64 k) 0;
          '(st, d) ← mrg_get_double_orig left_first st;
          place ← pick_place k nelem d;
          if k =? place then A ← release_i64 A k Ak; Some (A, (todo, st, Nothing))
          else
            assert! k <? place;
            assert! place <? nelem;
            Some (A, (k :: todo, st, First Ak place))
      end
  | (k :: todo, st, First Ak place) =>
      '(A, got) ← take_i64 A place;
      match got with
      | None => Some (A, t)
      | Some Aplace =>
          t ← A.[place]; x ← A.[k]; A ← A.[place <- x]; A ← A.[k <- t];
          A ← release_i64 A place Ak;
          Some (A, (k :: todo, st, Second Aplace))
      end
  | (k :: todo, st, Second Aplace) => A ← release_i64 A k Aplace; Some (A, (todo, st, Nothing))
  end.

Definition omp_permute_vertex_labels {team_of : Team} (fuel : nat) (IJ : list packed_edge) (nedge max_nvtx : Z) (st : mrg_state)
    (newlabel : list Z) : Par (list packed_edge) :=
  newlabel ← par_for (fun k l => l.[k <- k]) fuel 0 max_nvtx newlabel;
  todos ← dealt 0 max_nvtx;
  '(newlabel, _) ← region (label_step max_nvtx) (fun '(todo, _, _) => bool_decide (todo = [])) fuel newlabel ((fun todo => (todo, st, Nothing)) <$> todos);
  par_for (fun k IJ =>
    e ← IJ.[k]; a ← newlabel.[get_v0_from_edge e]; b ← newlabel.[get_v1_from_edge e]; IJ.[k <- write_edge a b]) fuel 0 nedge IJ.

(** The edges, with the thread's own state of the generator. *)
Definition edge_step (SCALE : Z) (A B C D : double) (_ : nat) (IJ : list packed_edge) (t : list Z * mrg_state)
    : option (list packed_edge * (list Z * mrg_state)) :=
  match t with
  | (k :: todo, new_st) =>
      new_st ← mrg_skip tbl new_st 1 (u64 (NRAND SCALE 1)) 0;
      '(Rlocal, new_st) ← draw_reals left_first (NRAND SCALE 1) new_st;
      e ← rmat_edge SCALE A B C D Rlocal;
      IJ ← IJ.[k <- e];
      Some (IJ, (todo, new_st))
  | ([], _) => None
  end.

Definition omp_rmat_edgelist {team_of : Team} (fuel : nat) (IJ : list packed_edge) (nedge SCALE : Z) (A B C : double) (prng : mrg_state)
    : Par (list packed_edge * mrg_state) :=
  let D := dsub (double_of 1) (dadd (dadd A B) C) in
  let iwork := replicate (Z.to_nat (2 ^ SCALE)) 0 in
  todos ← dealt 0 nedge;
  '(IJ, _) ← region (edge_step SCALE A B C D) (fun t => bool_decide (fst t = [])) fuel IJ ((fun todo => (todo, prng)) <$> todos);
  prng ← lift (mrg_skip tbl prng 1 (u64 (NRAND SCALE nedge)) 0);
  IJ ← omp_permute_vertex_labels fuel IJ nedge (2 ^ SCALE) prng iwork;
  prng ← lift (mrg_skip tbl prng 1 (u64 (2 ^ SCALE)) 0);
  IJ ← omp_permute_edgelist fuel IJ nedge prng;
  prng ← lift (mrg_skip tbl prng 1 (u64 nedge) 0);
  mret (IJ, prng).

Lemma release_pe_fails A p val : Forall edge_ok A -> release_pe A p val = None.
Proof.
  intros HA. unfold release_pe. destruct (A.[p]) as [e|] eqn:Ee; [|done]. cbn [mbind option_bind].
  assert (edge_ok e) as [H0 _]. { assert (e ∈ A) as Hin by (apply elem_aget; eauto). rewrite list.Forall_forall in HA. by apply HA. }
  unfold in_u32 in H0. unfold get_v0_from_edge. destruct (Z.eqb_spec (v0 e) (-1)); [lia|done].
Qed.

Lemma edges_set A p e A' : Forall edge_ok A -> edge_ok e -> A.[p <- e] = Some A' -> Forall edge_ok A'.
Proof. intros HA He [_ ->]%aset_some. by apply Forall_insert. Qed.

Lemma edges_get A p e : Forall edge_ok A -> A.[p] = Some e -> edge_ok e.
Proof. intros HA He. rewrite list.Forall_forall in HA. apply HA, elem_aget. eauto. Qed.

Lemma write_edge_ok a b : edge_ok (write_edge a b).
Proof. split; cbn; apply u32_range. Qed.

Lemma take_pe_edges A p A' e : Forall edge_ok A -> take_pe A p = Some (A', e) -> Forall edge_ok A'.
Proof.
  intros HA. unfold take_pe. destruct (A.[p]) as [o|]; [|done]. cbn [mbind option_bind]. destruct (_ <? 0); [done|].
  destruct (A.[p <- _]) as [A1|] eqn:E1; [|done]. cbn [mbind option_bind]. intros [= <- _]. eapply edges_set; [exact HA|apply write_edge_ok|exact E1].
Qed.

Lemma permute_step_fails nelem k A st : Forall edge_ok A -> permute_step nelem k (A, st) = None.
Proof.
  intros HA. unfold permute_step. destruct (take_pe A k) as [[A1 Ak]|] eqn:E1; [|done]. cbn [mbind option_bind]. pose proof (take_pe_edges _ _ _ _ HA E1) as HA1.
  destruct (mrg_skip _ _ _ _ _) as [y|]; [|done]. cbn [mbind option_bind]. destruct (mrg_get_double_orig _ _) as [[y' d]|]; [|done]. cbn [mbind option_bind].
  destruct (pick_place _ _ _) as [p|]; [|done]. cbn [mbind option_bind]. destruct (k =? p); [by rewrite release_pe_fails|].
  destruct (k <? p); [|done]. cbn [mbind option_bind]. destruct (p <? nelem); [|done]. cbn [mbind option_bind].
  destruct (take_pe A1 p) as [[A2 Ap]|] eqn:E2; [|done]. cbn [mbind option_bind]. pose proof (take_pe_edges _ _ _ _ HA1 E2) as HA2.
  destruct (A2.[p]) as [t|] eqn:Et; [|done]. cbn [mbind option_bind]. destruct (A2.[k]) as [w|] eqn:Ew; [|done]. cbn [mbind option_bind].
  destruct (A2.[p <- w]) as [A3|] eqn:E3; [|done]. cbn [mbind option_bind]. destruct (A3.[k <- t]) as [A4|] eqn:E4; [|done]. cbn [mbind option_bind].
  rewrite release_pe_fails; [done|]. pose proof (edges_get _ _ _ HA2 Et). pose proof (edges_get _ _ _ HA2 Ew).
  by eapply edges_set; [eapply edges_set| |exact E4].
Qed.

(** With OpenMP the shuffle of the edges always fails.  [take_pe] marks an edge
    by storing -1 in fields of 32 bits without sign, which read back as 2^32 - 1;
    so no [release_pe] can meet its assertion that the edge is marked, and for
    every edge list that is not empty, every number of threads and every order of
    the iterations the program aborts. *)
Lemma omp_shuffle_aborts {team_of : Team} fuel IJ nedge st c :
  Forall edge_ok IJ -> 0 < nedge -> omp_permute_edgelist fuel IJ nedge st c = None.
Proof.
  intros HIJ Hn. unfold omp_permute_edgelist, mbind, Par_bind, dealt. pose proof (deal_all c 0 nedge) as Hall. set (todos := deal c 0 nedge) in *.
  set (ts := (fun todo => (todo, st)) <$> todos).
  assert (exists tid, tid ∈ running (fun t => bool_decide (fst t = [])) ts) as [tid0 Htid0].
  { assert (0 ∈ mjoin todos) as Hin by (rewrite Hall; apply elem_of_seqZ; lia). apply list_elem_of_join in Hin as (l & H0 & Hl).
    apply list_elem_of_lookup in Hl as [i Hi]. exists i. apply running_elem. exists (l, st). split; [unfold ts; by rewrite list_lookup_fmap, Hi|].
    cbn [fst]. apply bool_decide_eq_false. intros ->. by apply not_elem_of_nil in H0. }
  assert (region (shuffle_step nedge) (fun t => bool_decide (fst t = [])) fuel IJ ts c = None) as ->; [|done].
  destruct (running (fun t => bool_decide (fst t = [])) ts) as [|r0 rs] eqn:Er; [by apply not_elem_of_nil in Htid0|].
  destruct fuel as [|fuel]; cbn [region]; rewrite Er; [done|].
  destruct ((r0 :: rs) !! _) as [tid|] eqn:Etid; [|done]. cbn [mbind option_bind].
  assert (tid ∈ running (fun t => bool_decide (fst t = [])) ts) as (t & Ht & Hf)%running_elem by (rewrite Er; by eapply list_elem_of_lookup_2).
  rewrite Ht. cbn [mbind option_bind]. destruct t as [[|k todo] y]; [done|]. cbn [shuffle_step]. by rewrite permute_step_fails.
Qed.

Lemma rmat_edge_typed SCALE A B C D rn e : rmat_edge SCALE A B C D rn = Some e -> edge_ok e.
Proof. unfold rmat_edge. destruct (quadrants _ _ _ _ _ _ _ _ _ _) as [[i j]|]; [|done]. intros [= <-]. apply write_edge_ok. Qed.

Lemma omp_edges_typed {team_of : Team} fuel SCALE A B C D fin IJ ts :
  Forall edge_ok IJ -> if_returns (region (edge_step SCALE A B C D) fin fuel IJ ts) (fun r => Forall edge_ok (fst r)).
Proof.
  intros HIJ. apply (region_keeps _ _ (Forall edge_ok)); [done|]. intros tid E [[|k todo] y] E' t' HE Hs; [done|]. cbn [edge_step] in Hs.
  repeat (apply bind_Some in Hs as (? & ? & Hs) || case_match). injection Hs as <- _.
  eapply edges_set; [exact HE|by eapply rmat_edge_typed|done].
Qed.

Lemma omp_labels_typed {team_of : Team} fuel IJ nedge max_nvtx st newlabel :
  Forall edge_ok IJ -> if_returns (omp_permute_vertex_labels fuel IJ nedge max_nvtx st newlabel) (Forall edge_ok).
Proof.
  intros HIJ. unfold omp_permute_vertex_labels. do 3 (apply if_returns_bind, if_returns_any; intros ?). case_match.
  apply par_for_keeps; [done|]. intros k E E' HE Hs. repeat (apply bind_Some in Hs as (? & ? & Hs)).
  eapply edges_set; [exact HE|apply write_edge_ok|exact Hs].
Qed.

(** With OpenMP [rmat_edgelist] as a whole never returns, for any number of
    threads, any order of their steps and any deal of the iterations. *)
Theorem omp_rmat_aborts {team_of : Team} fuel IJ nedge SCALE A B C prng c :
  Forall edge_ok IJ -> 0 < nedge -> omp_rmat_edgelist fuel IJ nedge SCALE A B C prng c = None.
Proof.
  intros HIJ Hn. assert (if_returns (omp_rmat_edgelist fuel IJ nedge SCALE A B C prng) (fun _ => False)) as Hno.
  { unfold omp_rmat_edgelist. apply if_returns_bind, if_returns_any. intros todos. apply if_returns_bind.
    eapply if_returns_mono; [by apply omp_edges_typed|]. intros [E ts] HE. cbn [fst] in HE.
    apply if_returns_bind, if_returns_any. intros y. apply if_returns_bind. eapply if_returns_mono; [by apply omp_labels_typed|]. intros E' HE'.
    apply if_returns_bind, if_returns_any. intros y'. apply if_returns_bind. intros c1 E2 c2 E3. by rewrite omp_shuffle_aborts in E3. }
  destruct (omp_rmat_edgelist fuel IJ nedge SCALE A B C prng c) as [[r c']|] eqn:E; [|done]. by apply Hno in E.
Qed.
End Locks.

(** ** A run *)

(** [below_one], decided. *)
Definition below_one_b (left_first : bool) (n : Z) (z : mrg_state) : bool :=
  forallb (fun k => dltb (drawn left_first (iter_step (2 * k) z)) (double_of 1)) (seqZ 0 n).

Lemma below_one_decided left_first n z : below_one_b left_first n z = true -> below_one left_first n z.
Proof. unfold below_one_b. rewrite forallb_forall. intros H k Hk. apply H. apply list_elem_of_In, elem_of_seqZ. lia. Qed.

Lemma shuffles_decided {MA : ModArith} left_first tbl SCALE nedge z y y' :
  table_ok tbl -> 1 <= SCALE <= 32 -> 0 <= nedge < 2 ^ 53 -> fe_state z ->
  mrg_skip tbl z 1 (u64 (NRAND SCALE nedge)) 0 = Some y -> mrg_skip tbl y 1 (u64 (2 ^ SCALE)) 0 = Some y' ->
  below_one_b left_first (2 ^ SCALE) y = true -> below_one_b left_first nedge y' = true -> shuffles_below_one left_first SCALE nedge z.
Proof.
  intros Htbl HS Hn Hz Hy Hy' H1 H2. assert (0 < 2 ^ SCALE <= 2 ^ 32) as Hpow by (split; [apply Z.pow_pos_nonneg; lia|apply Z.pow_le_mono_r; lia]).
  rewrite (skip_ok tbl Htbl z (NRAND SCALE nedge) Hz) in Hy by (apply nrand_range; lia). injection Hy as <-.
  rewrite (skip_ok tbl Htbl _ (2 ^ SCALE)) in Hy' by (apply skip_to_fe, Hz || unfold in_u64; lia). injection Hy' as <-.
  split; by apply below_one_decided.
Qed.

Lemma rmat_edgelist_permutes_witness :
  exists IJ', rmat_edgelist Table.mrg_skip_matrices true [MkEdge 0 0; MkEdge 0 0] 2 1 (literal 57 100) (literal 19 100) (literal 19 100) (MkState 1 2 3 4 5)
      = Some (IJ', skip_to 2 (order_state 1 2 (MkState 1 2 3 4 5))) /\
    made_from true 1 2 (literal 57 100) (literal 19 100) (literal 19 100) (MkState 1 2 3 4 5) IJ' /\
    alen IJ' = 2 /\ Forall (edge_within 1) IJ'.
Proof.
  apply (rmat_edgelist_permutes Table.mrg_skip_matrices Table.mrg_skip_matrices_ok true 1 2); [lia|lia|apply live_example|done|].
  eapply (shuffles_decided true Table.mrg_skip_matrices); [apply Table.mrg_skip_matrices_ok|lia|lia|apply live_example|vm_compute; reflexivity..].
Defined.

Lemma omp_shuffle_aborts_witness :
  omp_permute_edgelist (team_of := first_first) Table.mrg_skip_matrices true 5 [MkEdge 1 2] 1 (MkState 1 2 3 4 5) O = None.
Proof. apply omp_shuffle_aborts; [|lia]. repeat constructor; cbn; unfold in_u32; lia. Defined.

End Rmat.
