(* ===== verification/SeqList.v ===== *)
(** * The list-based search (sources/graph500/seq-list/seq-list.c)

    The graph as one linked list of half-edges per vertex, and the search over
    it.  Half-edge [2 k + 1] of edge [k] hangs off the edge's first end and leads
    to its second, half-edge [2 k] the other way round. *)

From Stdlib Require Import ZArith Lia.
From stdpp Require Import list numbers.
From S2P Require Import Prelude Arrays Graph.
#[local] Open Scope Z_scope.

Module SeqList.
Import Graph.

(** The file's globals. *)
Record globals := MkGlobals {
  maxvtx : Z;
  maxdeg : Z;
  nIJ : Z;
  IJ : list packed_edge;
  head : list Z;
  deg : list Z;
  next : list Z;
}.

(** [xmalloc(n * sizeof(int64_t))]: zeroed words, the size in [size_t]. *)
Definition xmalloc_words (n : Z) : list Z := replicate (Z.to_nat (u64 (n * 8) / 8)) 0.

(** Hangs half-edge [t] off vertex [i]. *)
Definition push_half (nIJ i t : Z) (s : list Z * list Z * list Z) : option (list Z * list Z * list Z) :=
  let '(head, deg, next) := s in
  t_head ← head.[i];
  head ← head.[i <- t];
  assert! t_head <? 2 * nIJ;
  next ← next.[t <- t_head];
  d ← deg.[i];
  deg ← deg.[i <- d + 1];
  Some (head, deg, next).

(** The body of the loop that links the edges. *)
Definition add_edge (IJ : list packed_edge) (nIJ k : Z) (s : list Z * list Z * list Z)
    : option (list Z * list Z * list Z) :=
  e ← IJ.[k];
  let i := get_v0_from_edge e in
  let j := get_v1_from_edge e in
  if (0 <=? i) && (0 <=? j) && negb (i =? j) then
    let '(head, deg, next) := s in
    next ← next.[2 * k <- -1];
    next ← next.[1 + 2 * k <- -1];
    let t := 2 * k + 1 in
    s ← push_half nIJ i t (head, deg, next);
    push_half nIJ j (t - 1) s
  else Some s.

Definition init_vertex (k : Z) (s : list Z * list Z) : option (list Z * list Z) :=
  let '(head, deg) := s in
  head ← head.[k <- -1];
  deg ← deg.[k <- 0];
  Some (head, deg).

Definition max_degree (deg : list Z) (kg maxdeg : Z) : option Z :=
  d ← deg.[kg]; Some (if maxdeg <? d then d else maxdeg).

Definition create_graph_from_edgelist (IJ : list packed_edge) (nedge : Z) : option globals :=
  maxvtx ← for_z 0 nedge (max_step IJ) (-1);
  let nIJ := nedge in
  let block := xmalloc_words (2 * (maxvtx + 1) + 2 * nIJ) in
  let head := take (Z.to_nat (maxvtx + 1)) block in
  let deg := take (Z.to_nat (maxvtx + 1)) (drop (Z.to_nat (maxvtx + 1)) block) in
  let next := drop (Z.to_nat (maxvtx + 1)) (drop (Z.to_nat (maxvtx + 1)) block) in
  '(head, deg) ← for_z 0 (maxvtx + 1) init_vertex (head, deg);
  '(head, deg, next) ← for_z 0 nedge (add_edge IJ nIJ) (head, deg, next);
  maxdeg ← for_z 0 (maxvtx + 1) (max_degree deg) (-1);
  Some (MkGlobals maxvtx maxdeg nIJ IJ head deg next).

(** [while (p >= 0)] over the half-edges of [parent]. *)
Fixpoint follow (fuel : nat) (g : globals) (parent p : Z) (s : search) : option search :=
  match fuel with
  | O => None
  | S fuel =>
      if 0 <=? p then
        e ← (IJ g).[Z.quot p 2];
        let newv := if negb (Z.rem p 2 =? 0) then get_v1_from_edge e else get_v0_from_edge e in
        s ← visit (fun t => t <? 0) parent newv s;
        p ← (next g).[p];
        follow fuel g parent p s
      else Some s
  end.

(** [for (k = k1; k < k2; ++k)], whose body also moves [k1] and [k2]; the end
    [newk2] of the queue is part of the search. *)
Fixpoint scan_level (fuel : nat) (g : globals) (k k1 k2 : Z) (s : search)
    : option (Z * Z * search) :=
  match fuel with
  | O => None
  | S fuel =>
      if k <? k2 then
        parent ← (s_vlist s).[k];
        p ← (head g).[parent];
        s ← follow (S (length (next g))) g parent p s;
        scan_level fuel g (k + 1) k2 (s_k2 s) s
      else Some (k1, k2, s)
  end.

(** [while (k1 != k2)] *)
Fixpoint bfs_loop (fuel : nat) (g : globals) (k1 k2 : Z) (s : search) : option search :=
  match fuel with
  | O => None
  | S fuel =>
      if negb (k1 =? k2) then
        '(k1, k2, s) ← scan_level (S (length (head g))) g k1 k1 k2 s;
        bfs_loop fuel g k1 k2 s
      else Some s
  end.

(** The parents and the largest vertex. *)
Definition make_bfs_tree (g : globals) (bfs_tree_out : list Z) (srcvtx : Z) : option (list Z * Z) :=
  let nv := maxvtx g + 1 in
  bfs_tree ← bfs_tree_out.[srcvtx <- srcvtx];
  let vlist := xmalloc_words nv in
  bfs_tree ← bfs_tree.[srcvtx <- srcvtx];
  vlist ← vlist.[0 <- srcvtx];
  bfs_tree ← for_z 0 srcvtx (fun k t => t.[k <- -1]) bfs_tree;
  bfs_tree ← for_z (srcvtx + 1) nv (fun k t => t.[k <- -1]) bfs_tree;
  s ← bfs_loop (S (length (head g))) g 0 1 (MkSearch bfs_tree vlist 1);
  Some (s_tree s, maxvtx g).

(** ** The lists of half-edges *)

(** The half-edges of [v] among the first [k] edges, newest first. *)
Fixpoint halves (E : list packed_edge) (k : nat) (v : Z) : list Z :=
  match k with
  | O => []
  | S k =>
      match E !! k with
      | Some e =>
          if v0 e =? v1 e then halves E k v
          else if v1 e =? v then 2 * Z.of_nat k :: halves E k v
          else if v0 e =? v then 2 * Z.of_nat k + 1 :: halves E k v
          else halves E k v
      | None => halves E k v
      end
  end.

(** The vertex a half-edge leads to. *)
Definition target (E : list packed_edge) (p : Z) : option Z :=
  e ← E.[p / 2]; Some (if p mod 2 =? 0 then v0 e else v1 e).

(** The list of half-edges that starts at [p]. *)
Fixpoint linked (next : list Z) (p : Z) (l : list Z) : Prop :=
  match l with
  | [] => p = -1
  | t :: l => p = t /\ 0 <= t /\ exists q, next.[t] = Some q /\ linked next q l
  end.

Lemma linked_insert next p l i v :
  0 <= i < alen next -> i ∉ l -> linked next p l -> linked (<[Z.to_nat i := v]> next) p l.
Proof.
  revert p. induction l as [|t l IH]; intros p Hi Hn; [done|].
  rewrite not_elem_of_cons in Hn. destruct Hn as [Hne Hn].
  intros (-> & Ht & q & Hq & Hl). split; [done|]. split; [done|]. exists q.
  rewrite aget_insert by done. rewrite decide_False by done. split; [done|]. by apply IH.
Qed.

Lemma halves_bound E k v t : t ∈ halves E k v -> 0 <= t < 2 * Z.of_nat k.
Proof.
  induction k as [|k IH]; cbn [halves]; [by intros ?%not_elem_of_nil|].
  destruct (E !! k) as [e|]; [|intros ?%IH; lia].
  destruct (v0 e =? v1 e), (v1 e =? v), (v0 e =? v);
    rewrite ?elem_of_cons; try (intros ?%IH; lia);
    (intros [->|?%IH]; lia).
Qed.

Lemma length_halves E k v : (length (halves E k v) <= k)%nat.
Proof.
  induction k as [|k IH]; cbn [halves]; [done|]. destruct (E !! k) as [e|]; [|lia].
  destruct (v0 e =? v1 e), (v1 e =? v), (v0 e =? v); cbn [length]; lia.
Qed.

(** What the half-edges of a vertex lead to: the other ends of its edges. *)
Lemma halves_target E k v t :
  t ∈ halves E k v -> exists w, target E t = Some w /\ adj E v w /\ w <> v.
Proof.
  induction k as [|k IH]; cbn [halves]; [by intros ?%not_elem_of_nil|].
  destruct (E !! k) as [e|] eqn:He; [|done].
  assert (e ∈ E) as Hin by (by eapply list_elem_of_lookup_2).
  assert (E.[Z.of_nat k] = Some e) as Hget by (by rewrite aget_nat).
  destruct (Z.eqb_spec (v0 e) (v1 e)); [done|].
  destruct (Z.eqb_spec (v1 e) v) as [E1|].
  - intros [->|?]%elem_of_cons; [|by apply IH]. exists (v0 e). unfold target.
    replace (2 * Z.of_nat k / 2) with (Z.of_nat k) by zdiv.
    replace (2 * Z.of_nat k mod 2) with 0 by zdiv. rewrite Hget. split; [done|].
    split; [|congruence]. exists e. split; [done|]. by right.
  - destruct (Z.eqb_spec (v0 e) v) as [E0|]; [|done].
    intros [->|?]%elem_of_cons; [|by apply IH]. exists (v1 e). unfold target.
    replace ((2 * Z.of_nat k + 1) / 2) with (Z.of_nat k) by zdiv.
    replace ((2 * Z.of_nat k + 1) mod 2) with 1 by zdiv. rewrite Hget. split; [done|].
    split; [|congruence]. exists e. split; [done|]. by left.
Qed.

Lemma halves_complete E k v w e i :
  (i < k)%nat -> E !! i = Some e -> joins e v w -> w <> v ->
  exists t, t ∈ halves E k v /\ target E t = Some w.
Proof.
  intros Hi He Hj Hne. induction k as [|k IH]; [lia|]. cbn [halves].
  destruct (decide (i = k)) as [->|].
  - rewrite He. assert (E.[Z.of_nat k] = Some e) as Hget by (by rewrite aget_nat).
    destruct (Z.eqb_spec (v0 e) (v1 e)); [destruct Hj as [[? ?]|[? ?]]; congruence|].
    destruct Hj as [[E0 E1]|[E0 E1]].
    + destruct (Z.eqb_spec (v1 e) v); [congruence|].
      destruct (Z.eqb_spec (v0 e) v); [|done]. eexists. split; [by left|]. unfold target.
      replace ((2 * Z.of_nat k + 1) / 2) with (Z.of_nat k) by zdiv.
      replace ((2 * Z.of_nat k + 1) mod 2) with 1 by zdiv. rewrite Hget. by subst.
    + destruct (Z.eqb_spec (v1 e) v); [|done]. eexists. split; [by left|]. unfold target.
      replace (2 * Z.of_nat k / 2) with (Z.of_nat k) by zdiv.
      replace (2 * Z.of_nat k mod 2) with 0 by zdiv. rewrite Hget. by subst.
  - destruct IH as (t & Ht & Hw); [lia|]. exists t. split; [|done].
    destruct (E !! k) as [e'|]; [|done].
    destruct (v0 e' =? v1 e'), (v1 e' =? v), (v0 e' =? v); rewrite ?elem_of_cons; auto.
Qed.

(** ** Building the lists *)

(** Every vertex has the list [L v], whose length is its degree. *)
Record lists_ok (nv n : Z) (L : Z -> list Z) (s : list Z * list Z * list Z) : Prop := {
  lo_head : alen (fst (fst s)) = nv;
  lo_deg : alen (snd (fst s)) = nv;
  lo_next : alen (snd s) = 2 * n;
  lo_small : forall v t, t ∈ L v -> 0 <= t < 2 * n;
  lo_lists : forall v, 0 <= v < nv ->
    exists p, (fst (fst s)).[v] = Some p /\ linked (snd s) p (L v) /\
      (snd (fst s)).[v] = Some (alen (L v));
}.

Lemma linked_head next p l n : linked next p l -> (forall t, t ∈ l -> t < n) -> 0 <= n -> p < n.
Proof.
  destruct l as [|t l]; cbn [linked]; [lia|]. intros (-> & _) Hs _. apply Hs. by left.
Qed.

Lemma push_half_ok nv n L s i t :
  lists_ok nv n L s -> 0 <= i < nv -> 0 <= t < 2 * n -> (forall v, t ∉ L v) ->
  exists s', push_half n i t s = Some s' /\
    lists_ok nv n (fun v => if decide (v = i) then t :: L v else L v) s'.
Proof.
  destruct s as [[head deg] next]. intros [Hh Hd Hn Hsm Hl] Hi Ht Hnew. cbn [fst snd] in *.
  destruct (Hl i Hi) as (p & Hp & Hlk & Hdg). unfold push_half.
  rewrite Hp. cbn [mbind option_bind]. rewrite aset_in by lia. cbn [mbind option_bind].
  assert (p <? 2 * n = true) as ->.
  { apply Z.ltb_lt. eapply linked_head; [done| |lia]. intros x Hx. by apply (Hsm i). }
  cbn [check mbind option_bind]. rewrite aset_in by lia. cbn [mbind option_bind].
  rewrite Hdg. cbn [mbind option_bind]. rewrite aset_in by lia. cbn [mbind option_bind].
  eexists. split; [done|]. constructor; cbn [fst snd].
  - by rewrite alen_insert.
  - by rewrite alen_insert.
  - by rewrite alen_insert.
  - intros v x. case_decide; [|apply Hsm]. intros [->|Hx]%elem_of_cons; [done|by apply (Hsm v)].
  - intros v Hv. rewrite !aget_insert by lia. destruct (decide (v = i)) as [->|Hne].
    + exists t. split; [done|]. split; [|by rewrite alen_cons].
      cbn [linked]. split; [done|]. split; [lia|]. exists p.
      rewrite aget_insert, decide_True by lia. split; [done|].
      apply linked_insert; [lia|apply Hnew|done].
    + destruct (Hl v Hv) as (q & Hq & Hlq & Hdq). exists q. split; [done|]. split; [|done].
      apply linked_insert; [lia|apply Hnew|done].
Qed.

(** Resetting a cell that no list uses. *)
Lemma reset_half_ok nv n L head deg next t :
  lists_ok nv n L (head, deg, next) -> 0 <= t < 2 * n -> (forall v, t ∉ L v) ->
  next.[t <- -1] = Some (<[Z.to_nat t := -1]> next) /\
  lists_ok nv n L (head, deg, <[Z.to_nat t := -1]> next).
Proof.
  intros [Hh Hd Hn Hsm Hl] Ht Hnew. cbn [fst snd] in *. split; [apply aset_in; lia|].
  constructor; cbn [fst snd]; [done|done|by rewrite alen_insert|done|].
  intros v Hv. destruct (Hl v Hv) as (p & Hp & Hlk & Hdg). exists p. split; [done|]. split; [|done].
  apply linked_insert; [lia|apply Hnew|done].
Qed.

Lemma lists_ok_ext nv n L L' s : (forall v, L v = L' v) -> lists_ok nv n L s -> lists_ok nv n L' s.
Proof.
  intros He [Hh Hd Hn Hsm Hl]. constructor; [done|done|done| |].
  - intros v t. rewrite <- He. apply Hsm.
  - intros v Hv. rewrite <- He. by apply Hl.
Qed.

Section Create.
Context (E : list packed_edge) (HE : Forall edge_ok E) (m : Z) (Hm : max_vertex E m).

Lemma add_edge_ok k s :
  (k < length E)%nat -> lists_ok (m + 1) (alen E) (halves E k) s ->
  exists s', add_edge E (alen E) (Z.of_nat k) s = Some s' /\
    lists_ok (m + 1) (alen E) (halves E (S k)) s'.
Proof.
  intros Hk Hs. destruct s as [[head deg] next].
  destruct (lookup_lt_is_Some_2 E k Hk) as (e & He). unfold add_edge.
  rewrite aget_nat, He. cbn [mbind option_bind]. unfold get_v0_from_edge, get_v1_from_edge.
  assert (edge_ok e) as [H0 H1].
  { rewrite list.Forall_forall in HE. apply HE. by eapply list_elem_of_lookup_2. }
  unfold in_u32 in H0, H1.
  assert ((0 <=? v0 e) && (0 <=? v1 e) = true) as -> by lia. cbn [andb].
  destruct (Z.eqb_spec (v0 e) (v1 e)) as [Eq|Hne]; cbn [negb].
  - eexists. split; [done|]. eapply lists_ok_ext; [|exact Hs]. intros v. cbn [halves].
    rewrite He. by assert (v0 e =? v1 e = true) as -> by lia.
  - assert (adj E (v0 e) (v1 e)) as Ha.
    { exists e. split; [by eapply list_elem_of_lookup_2|by left]. }
    destruct Hm as (_ & Hrange & _). destruct (Hrange _ _ Ha) as [Hi Hj].
    assert (forall t v, 2 * Z.of_nat k <= t -> t ∉ halves E k v) as Hnew.
    { intros t v Ht Hin%halves_bound. lia. }
    assert (Z.of_nat k < alen E) by (unfold alen; lia).
    destruct (reset_half_ok _ _ _ _ _ _ (2 * Z.of_nat k) Hs) as [-> Hs1];
      [lia|intros v; apply Hnew; lia|]. cbn [mbind option_bind].
    destruct (reset_half_ok _ _ _ _ _ _ (1 + 2 * Z.of_nat k) Hs1) as [-> Hs2];
      [lia|intros v; apply Hnew; lia|]. cbn [mbind option_bind].
    destruct (push_half_ok _ _ _ _ (v0 e) (2 * Z.of_nat k + 1) Hs2) as (s3 & -> & Hs3);
      [done|lia|intros v; apply Hnew; lia|]. cbn [mbind option_bind].
    destruct (push_half_ok _ _ _ _ (v1 e) (2 * Z.of_nat k + 1 - 1) Hs3) as (s4 & -> & Hs4);
      [done|lia| |].
    { intros v. case_decide; [|apply Hnew; lia]. rewrite not_elem_of_cons.
      split; [lia|apply Hnew; lia]. }
    exists s4. split; [done|]. eapply lists_ok_ext; [|exact Hs4]. intros v. cbn beta. cbn [halves].
    rewrite He. assert (v0 e =? v1 e = false) as -> by lia.
    rewrite (Z.add_simpl_r (2 * Z.of_nat k) 1).
    destruct (Z.eqb_spec (v1 e) v) as [<-|].
    + rewrite decide_True by done. by rewrite decide_False by done.
    + rewrite decide_False by done. destruct (Z.eqb_spec (v0 e) v) as [<-|].
      * by rewrite decide_True.
      * by rewrite decide_False by done.
Qed.

Lemma init_ok head deg :
  alen head = m + 1 -> alen deg = m + 1 ->
  exists head' deg', for_z 0 (m + 1) init_vertex (head, deg) = Some (head', deg') /\
    alen head' = m + 1 /\ alen deg' = m + 1 /\
    forall v, 0 <= v < m + 1 -> head'.[v] = Some (-1) /\ deg'.[v] = Some 0.
Proof.
  intros Hh Hd.
  destruct (for_z_inv (fun i '(h, d) => alen h = m + 1 /\ alen d = m + 1 /\
    forall v, 0 <= v < i -> h.[v] = Some (-1) /\ d.[v] = Some 0) 0 (m + 1) init_vertex (head, deg))
    as ([h d] & Hr & Hh' & Hd' & Hc).
  - destruct Hm as [? _]. lia.
  - split; [done|]. split; [done|]. lia.
  - intros i [h d] Hi (Hh' & Hd' & Hc). unfold init_vertex.
    rewrite aset_in by lia. cbn [mbind option_bind]. rewrite aset_in by lia. cbn [mbind option_bind].
    eexists. split; [done|]. cbn beta iota. rewrite !alen_insert. split; [done|]. split; [done|].
    intros v Hv. rewrite !aget_insert by lia. destruct (decide (v = i)); [done|]. apply Hc. lia.
  - exists h, d. done.
Qed.

Lemma max_degree_ok deg L :
  alen deg = m + 1 -> (forall v, 0 <= v < m + 1 -> deg.[v] = Some (L v)) ->
  exists d, for_z 0 (m + 1) (max_degree deg) (-1) = Some d /\
    (forall v, 0 <= v < m + 1 -> L v <= d) /\ (d = -1 \/ exists v, 0 <= v < m + 1 /\ L v = d).
Proof.
  intros Hl Hd.
  destruct (for_z_inv (fun i d => (forall v, 0 <= v < i -> L v <= d) /\
    (d = -1 \/ exists v, 0 <= v < m + 1 /\ L v = d)) 0 (m + 1) (max_degree deg) (-1)) as (d & Hr & Hc).
  - destruct Hm as [? _]. lia.
  - split; [lia|by left].
  - intros i d Hi [Hc Hx]. unfold max_degree. rewrite Hd by lia. cbn [mbind option_bind].
    eexists. split; [done|]. destruct (Z.ltb_spec d (L i)); split.
    + intros v Hv. destruct (decide (v = i)) as [->|]; [lia|]. pose proof (Hc v ltac:(lia)). lia.
    + right. exists i. done.
    + intros v Hv. destruct (decide (v = i)) as [->|]; [lia|]. apply Hc. lia.
    + done.
  - exists d. done.
Qed.

Lemma alen_xmalloc_words n : 0 <= n < 2 ^ 61 -> alen (xmalloc_words n) = n.
Proof.
  intros Hn. unfold xmalloc_words, alen. rewrite length_replicate, u64_id by (unfold in_u64; lia).
  rewrite Z.div_mul by lia. lia.
Qed.

End Create.

(** What the globals hold once the graph of [E] is built. *)
Record graph_ok (E : list packed_edge) (g : globals) : Prop := {
  go_max : max_vertex E (maxvtx g);
  go_nIJ : nIJ g = alen E;
  go_IJ : IJ g = E;
  go_lists : lists_ok (maxvtx g + 1) (alen E) (halves E (length E)) (head g, deg g, next g);
  go_maxdeg : (forall v, 0 <= v < maxvtx g + 1 -> alen (halves E (length E) v) <= maxdeg g) /\
    (maxdeg g = -1 \/ exists v, 0 <= v < maxvtx g + 1 /\ alen (halves E (length E) v) = maxdeg g);
}.

Lemma create_ok E :
  Forall edge_ok E -> alen E < 2 ^ 58 ->
  exists g, create_graph_from_edgelist E (alen E) = Some g /\ graph_ok E g.
Proof.
  intros HE Hlen. unfold create_graph_from_edgelist.
  destruct (max_loop_ok E HE) as (m & -> & Hm). cbn [mbind option_bind].
  pose proof (alen_nonneg E) as Hn. pose proof Hm as [Hmr _].
  set (block := xmalloc_words (2 * (m + 1) + 2 * alen E)).
  assert (alen block = 2 * (m + 1) + 2 * alen E) as Hb by (apply alen_xmalloc_words; lia).
  unfold alen in Hb at 1.
  destruct (init_ok E m Hm (take (Z.to_nat (m + 1)) block)
    (take (Z.to_nat (m + 1)) (drop (Z.to_nat (m + 1)) block)))
    as (hd & dg & -> & Hh & Hd & Hc).
  { unfold alen. rewrite length_take. lia. }
  { unfold alen. rewrite length_take, length_drop. lia. }
  cbn [mbind option_bind].
  set (nx := drop (Z.to_nat (m + 1)) (drop (Z.to_nat (m + 1)) block)).
  assert (alen nx = 2 * alen E) as Hnx.
  { unfold nx. unfold alen at 1. rewrite !length_drop. lia. }
  destruct (for_z_inv (fun i s => lists_ok (m + 1) (alen E) (halves E (Z.to_nat i)) s) 0 (alen E)
    (add_edge E (alen E)) (hd, dg, nx)) as ([[hd' dg'] nx'] & -> & Hl).
  - done.
  - constructor; cbn [fst snd]; [done|done|done|by intros v t ?%not_elem_of_nil|].
    intros v Hv. destruct (Hc v Hv) as [-> ->]. by exists (-1).
  - intros i s Hi Hl. destruct (add_edge_ok E HE m Hm (Z.to_nat i) s) as (s' & Hs' & Hl').
    + unfold alen in Hi. lia.
    + done.
    + rewrite Z2Nat.id in Hs' by lia. exists s'. split; [done|].
      by replace (Z.to_nat (i + 1)) with (S (Z.to_nat i)) by lia.
  - unfold alen in Hl at 2. rewrite Nat2Z.id in Hl. cbn [mbind option_bind].
    destruct (max_degree_ok E m Hm dg' (fun v => alen (halves E (length E) v))) as (d & -> & Hdm).
    + apply (lo_deg _ _ _ _ Hl).
    + intros v Hv. by destruct (lo_lists _ _ _ _ Hl v Hv) as (p & _ & _ & ?).
    + cbn [mbind option_bind]. eexists. split; [done|]. constructor; done.
Qed.

(** ** The search *)

Section SearchProof.
Context (E : list packed_edge) (g : globals) (Hg : graph_ok E g).
Abbreviation nv := (maxvtx g + 1).
Abbreviation unseen := (fun t => t <? 0).

Lemma adj_range u v : adj E u v -> 0 <= u < nv /\ 0 <= v < nv.
Proof. destruct (go_max _ _ Hg) as (_ & H & _). apply H. Qed.

(** Following a list of half-edges visits their targets. *)
Lemma follow_visits parent l ws fuel p s :
  linked (next g) p l -> mapM (target E) l = Some ws -> (length l < fuel)%nat ->
  (forall t, t ∈ l -> 0 <= t) ->
  follow fuel g parent p s = visits unseen parent ws s.
Proof.
  revert ws fuel p s. induction l as [|t l IH]; intros ws fuel p s Hl Hw Hf Hpos;
    (destruct fuel as [|fuel]; [cbn [length] in Hf; lia|]); cbn [follow linked] in *.
  - subst p. cbn [mapM] in Hw. injection Hw as <-. done.
  - destruct Hl as (-> & Ht & q & Hq & Hl). assert (0 <=? t = true) as -> by lia.
    cbn [mapM] in Hw. destruct (target E t) as [w|] eqn:Ew; [|done]. cbn [mbind option_bind] in Hw.
    destruct (mapM (target E) l) as [ws'|] eqn:Ews; [|done]. injection Hw as <-.
    rewrite visits_cons. rewrite (go_IJ _ _ Hg), Z.quot_div_nonneg, Z.rem_mod_nonneg by lia.
    unfold target in Ew. destruct (E.[t / 2]) as [e|]; [|done]. cbn [mbind option_bind] in *.
    injection Ew as <-. unfold get_v0_from_edge, get_v1_from_edge.
    replace (if negb (t mod 2 =? 0) then v1 e else v0 e) with (if t mod 2 =? 0 then v0 e else v1 e)
      by (by destruct (t mod 2 =? 0)).
    destruct (visit _ _ _ s) as [s'|]; [|done]. cbn [mbind option_bind]. rewrite Hq.
    cbn [mbind option_bind]. apply IH; [done|done|cbn [length] in Hf; lia|].
    intros x Hx. apply Hpos. by right.
Qed.

(** The neighbours of a vertex in the order the search meets them. *)
Lemma neighbours v :
  exists ws, mapM (target E) (halves E (length E) v) = Some ws /\
    Forall (adj E v) ws /\ (forall w, adj E v w -> w = v \/ w ∈ ws).
Proof.
  assert (exists ws, mapM (target E) (halves E (length E) v) = Some ws) as (ws & Hws).
  { apply mapM_is_Some_2, list.Forall_forall. intros t Ht.
    destruct (halves_target _ _ _ _ Ht) as (w & Hw & _). by exists w. }
  exists ws. split; [done|]. apply mapM_Some in Hws. split.
  - apply list.Forall_forall. intros w Hw. apply list_elem_of_lookup in Hw as [i Hi].
    destruct (Forall2_lookup_r _ _ _ _ _ Hws Hi) as (t & Ht & Hw).
    apply list_elem_of_lookup_2, halves_target in Ht as (w' & Hw' & Ha & _). congruence.
  - intros w (e & He & Hj). destruct (decide (w = v)); [by left|right].
    apply list_elem_of_lookup in He as [i Hi]. pose proof (lookup_lt_Some _ _ _ Hi).
    destruct (halves_complete E (length E) v w e i) as (t & Ht & Hw); [done..|].
    apply list_elem_of_lookup in Ht as [j Hj'].
    destruct (Forall2_lookup_l _ _ _ _ _ Hws Hj') as (w' & Hw' & Hx).
    rewrite Hw in Hx. injection Hx as <-. by eapply list_elem_of_lookup_2.
Qed.

Context (r : Z).
Abbreviation inv := (bfs_inv E nv r).

(** One vertex of the queue. *)
Lemma step_ok k s q lv :
  inv k [] s q lv -> k < alen q ->
  exists c p s' q' lv', (s_vlist s).[k] = Some c /\ (head g).[c] = Some p /\
    follow (S (length (next g))) g c p s = Some s' /\ s_k2 s <= s_k2 s' /\
    inv (k + 1) [] s' q' lv'.
Proof.
  intros Hi Hk. pose proof (bi_k _ _ _ _ _ _ _ _ Hi) as Hk0.
  destruct (queue_get _ _ _ _ _ _ _ _ k Hi ltac:(lia)) as (c & Hc & Hv).
  assert (0 <= c < nv) as Hcr by (apply (bi_q _ _ _ _ _ _ _ _ Hi); apply elem_aget; eauto).
  destruct (lo_lists _ _ _ _ (go_lists _ _ Hg) c Hcr) as (p & Hp & Hl & _). cbn [fst snd] in *.
  destruct (neighbours c) as (ws & Hws & Hadj & Hall).
  assert (forall t, t ∈ halves E (length E) c -> 0 <= t < 2 * alen E) as Hb
    by (intros t Ht; by apply halves_bound in Ht).
  pose proof (length_halves E (length E) c).
  pose proof (lo_next _ _ _ _ (go_lists _ _ Hg)) as Hnx. cbn [fst snd] in Hnx. unfold alen in Hnx.
  destruct (process_ok E nv r adj_range unseen eq_refl (fun x Hx => proj2 (Z.ltb_ge x 0) Hx) ws k s q lv c)
    as (s' & q' & lv' & Hs' & Hi'); [done..|].
  exists c, p, s', q', lv'. split; [done|]. split; [done|].
  split; [|split; [by eapply visits_grow|done]]. rewrite <- Hs'. eapply follow_visits; [exact Hl|done|lia|]. intros t Ht%Hb. lia.
Qed.

(** The loop over the queue runs until the queue is empty. *)
Lemma scan_level_ok fuel k k1 s q lv :
  inv k [] s q lv -> k1 <= s_k2 s -> (k = s_k2 s -> k1 = k) ->
  nv - k < Z.of_nat fuel -> 0 <= nv ->
  exists s' q' lv', scan_level fuel g k k1 (s_k2 s) s = Some (s_k2 s', s_k2 s', s') /\
    inv (alen q') [] s' q' lv'.
Proof.
  revert k k1 s q lv. induction fuel as [|fuel IH]; intros k k1 s q lv Hi Hk1 Hend Hf Hnv;
    pose proof (bi_k2 _ _ _ _ _ _ _ _ Hi) as Hk2; pose proof (bi_k _ _ _ _ _ _ _ _ Hi) as Hk;
    pose proof (queue_bound _ _ _ _ _ _ _ _ Hnv Hi) as Hqb; [lia|].
  cbn [scan_level]. destruct (Z.ltb_spec k (s_k2 s)) as [Hlt|Hge].
  - destruct (step_ok k s q lv Hi ltac:(lia)) as (c & p & s' & q' & lv' & -> & Hp & Hs' & Hgr & Hi').
    cbn [mbind option_bind]. rewrite Hp. cbn [mbind option_bind]. rewrite Hs'. cbn [mbind option_bind].
    apply (IH (k + 1) (s_k2 s) s' q' lv'); [done|lia| |lia|done]. intros Hke. lia.
  - assert (k = s_k2 s) as Hks by lia. rewrite (Hend Hks), Hks. exists s, q, lv.
    split; [done|]. by rewrite <- Hk2, <- Hks.
Qed.

Lemma bfs_loop_ok s q lv fuel :
  0 <= nv -> inv 0 [] s q lv -> s_k2 s = 1 -> (2 <= fuel)%nat -> nv = alen (head g) ->
  exists s' q' lv', bfs_loop fuel g 0 1 s = Some s' /\ inv (alen q') [] s' q' lv'.
Proof.
  intros Hnv Hi Hk2 Hf Hh. destruct fuel as [|[|fuel]]; [lia|lia|]. cbn [bfs_loop Z.eqb negb].
  destruct (scan_level_ok (S (length (head g))) 0 0 s q lv) as (s' & q' & lv' & Hs & Hi');
    [done|lia|lia|unfold alen in Hh; lia|done|].
  rewrite Hk2 in Hs. rewrite Hs. cbn [mbind option_bind]. rewrite Z.eqb_refl. cbn [negb].
  by exists s', q', lv'.
Qed.

Lemma make_bfs_tree_ok out :
  0 <= r < nv -> nv <= alen out ->
  exists tree, make_bfs_tree g out r = Some (tree, maxvtx g) /\ bfs_tree E nv r tree /\
    nv <= alen tree.
Proof.
  intros Hr Hout. unfold make_bfs_tree. destruct (go_max _ _ Hg) as [Hmr _].
  rewrite (aset_in out) by lia. cbn [mbind option_bind].
  rewrite (aset_in (<[_ := _]> out)) by (rewrite alen_insert; lia). cbn [mbind option_bind].
  assert (alen (xmalloc_words nv) = nv) as Hvl by (apply alen_xmalloc_words; lia).
  rewrite aset_in by lia. cbn [mbind option_bind].
  set (t0 := <[Z.to_nat r := r]> (<[Z.to_nat r := r]> out)).
  assert (alen t0 = alen out) as Ht0 by (unfold t0; by rewrite !alen_insert).
  assert (t0.[r] = Some r) as Ht0r.
  { unfold t0. rewrite aget_insert by (rewrite alen_insert; lia). by rewrite decide_True. }
  destruct (fill_range_ok t0 0 r (-1)) as (t1 & -> & Ht1 & Hg1); [lia|lia|]. cbn [mbind option_bind].
  destruct (fill_range_ok t1 (r + 1) nv (-1)) as (t2 & -> & Ht2 & Hg2); [lia|lia|].
  cbn [mbind option_bind].
  assert (forall v, 0 <= v < nv -> t2.[v] = Some (if decide (v = r) then r else -1)) as Htree.
  { intros v Hv. rewrite Hg2, Hg1 by lia.
    destruct (Z.leb_spec (r + 1) v), (Z.ltb_spec v nv), (Z.leb_spec 0 v), (Z.ltb_spec v r);
      cbn [andb]; try lia; destruct (decide (v = r)); try lia; by subst. }
  destruct (bfs_loop_ok (MkSearch t2 (<[Z.to_nat 0 := r]> (xmalloc_words nv)) 1) [r] (fun _ => 0)
    (S (length (head g)))) as (s & q & lv & -> & Hi).
  - lia.
  - apply search_start; [done|by rewrite alen_insert|lia| |done].
    rewrite aget_insert by lia. by rewrite decide_True.
  - done.
  - pose proof (lo_head _ _ _ _ (go_lists _ _ Hg)) as Hh. cbn [fst snd] in Hh. unfold alen in Hh. lia.
  - symmetry. apply (lo_head _ _ _ _ (go_lists _ _ Hg)).
  - cbn [mbind option_bind]. exists (s_tree s). split; [done|]. split; [by eapply search_end|].
    apply (bi_tree_len _ _ _ _ _ _ _ _ Hi).
Qed.

End SearchProof.

(** C21: building the graph of an edge list and searching it from any of its
    vertices stays inside the arrays, meets the assertions, ends, and returns a
    breadth-first tree of the vertex's component: the parent of every vertex
    reached is a neighbour one step nearer to the root, and only the vertices
    that cannot be reached have no parent. *)
Theorem seq_list_bfs E out r :
  Forall edge_ok E -> alen E < 2 ^ 58 -> (exists v, adj E r v) ->
  exists g, create_graph_from_edgelist E (alen E) = Some g /\
    max_vertex E (maxvtx g) /\
    (maxvtx g < alen out ->
     exists tree, make_bfs_tree g out r = Some (tree, maxvtx g) /\
       bfs_tree E (maxvtx g + 1) r tree).
Proof.
  intros HE Hlen [v Hv]. destruct (create_ok E HE Hlen) as (g & Hc & Hg). exists g.
  split; [done|]. split; [apply (go_max _ _ Hg)|]. intros Hout.
  destruct (make_bfs_tree_ok E g Hg r out) as (tree & Ht & Hb & _); [|lia|by exists tree].
  by apply (adj_range E g Hg r v).
Qed.

Lemma seq_list_bfs_witness :
  exists g, create_graph_from_edgelist [MkEdge 0 3; MkEdge 3 1; MkEdge 2 2; MkEdge 1 0] 4 = Some g /\
    max_vertex [MkEdge 0 3; MkEdge 3 1; MkEdge 2 2; MkEdge 1 0] (maxvtx g) /\
    (maxvtx g < alen [7; 7; 7; 7] ->
     exists tree, make_bfs_tree g [7; 7; 7; 7] 3 = Some (tree, maxvtx g) /\
       bfs_tree [MkEdge 0 3; MkEdge 3 1; MkEdge 2 2; MkEdge 1 0] (maxvtx g + 1) 3 tree).
Proof.
  apply (seq_list_bfs [MkEdge 0 3; MkEdge 3 1; MkEdge 2 2; MkEdge 1 0] [7; 7; 7; 7] 3).
  - unfold edge_ok, in_u32. repeat (constructor; [cbn; lia|]). constructor.
  - vm_compute. reflexivity.
  - exists 1, (MkEdge 3 1). split; [right; left|by left].
Defined.

(** The edges at [v] that are not loops. *)
Definition at_vertex (v : Z) (e : packed_edge) : Prop := v0 e <> v1 e /\ (v0 e = v \/ v1 e = v).
#[export] Instance at_vertex_dec v e : Decision (at_vertex v e).
Proof. unfold at_vertex. apply _. Defined.

Lemma halves_count E k v : length (halves E k v) = length (filter (at_vertex v) (take k E)).
Proof.
  induction k as [|k IH]; [done|]. cbn [halves]. destruct (E !! k) as [e|] eqn:He.
  - rewrite (take_S_r _ _ _ He), list.filter_app, length_app, list.filter_cons, <- IH. unfold at_vertex at 1.
    destruct (Z.eqb_spec (v0 e) (v1 e)), (Z.eqb_spec (v1 e) v), (Z.eqb_spec (v0 e) v);
      (destruct (decide _) as [Hd|Hd]; [try (exfalso; naive_solver lia)|try (exfalso; naive_solver lia)]);
      cbn [length filter list_filter]; lia.
  - apply lookup_ge_None in He. rewrite IH. by rewrite !take_ge by lia.
Qed.

(** The degrees the construction stores are the numbers of edges, loops left
    out, at each vertex, and [maxdeg] is the largest of them, -1 without edges. *)
Theorem seq_list_degrees E :
  Forall edge_ok E -> alen E < 2 ^ 58 ->
  exists g, create_graph_from_edgelist E (alen E) = Some g /\
    (forall v, 0 <= v <= maxvtx g ->
      (deg g).[v] = Some (alen (filter (at_vertex v) E)) /\ alen (filter (at_vertex v) E) <= maxdeg g) /\
    (E = [] -> maxdeg g = -1) /\
    (E <> [] -> exists v, 0 <= v <= maxvtx g /\ alen (filter (at_vertex v) E) = maxdeg g).
Proof.
  intros HE Hlen. destruct (create_ok E HE Hlen) as (g & Hc & Hg). exists g. split; [done|].
  assert (forall v, alen (halves E (length E) v) = alen (filter (at_vertex v) E)) as Hcount.
  { intros v. unfold alen. by rewrite halves_count, take_ge. }
  destruct (go_maxdeg _ _ Hg) as [Hmax Hex]. split; [|split].
  - intros v Hv. rewrite <- Hcount. split; [|apply Hmax; lia].
    by destruct (lo_lists _ _ _ _ (go_lists _ _ Hg) v ltac:(lia)) as (p & _ & _ & ?).
  - intros ->. destruct Hex as [?|(v & Hv & _)]; [done|]. exfalso.
    destruct (go_max _ _ Hg) as (_ & _ & [Hm|(u & e & He & _)]); [lia|by apply not_elem_of_nil in He].
  - intros Hne. destruct E as [|e E']; [done|].
    assert (adj (e :: E') (v0 e) (v1 e)) as Ha by (exists e; split; [by left|by left]).
    pose proof (adj_range _ g Hg _ _ Ha) as [Hr _].
    destruct Hex as [Hm1|(v & Hv & Hd)].
    + pose proof (Hmax _ Hr) as Hle. pose proof (alen_nonneg (halves (e :: E') (length (e :: E')) (v0 e))). lia.
    + exists v. split; [lia|]. by rewrite <- Hcount.
Qed.

Lemma seq_list_degrees_witness :
  exists g, create_graph_from_edgelist [MkEdge 0 1; MkEdge 1 1; MkEdge 1 2] 3 = Some g /\
    (forall v, 0 <= v <= maxvtx g ->
      (deg g).[v] = Some (alen (filter (at_vertex v) [MkEdge 0 1; MkEdge 1 1; MkEdge 1 2])) /\
      alen (filter (at_vertex v) [MkEdge 0 1; MkEdge 1 1; MkEdge 1 2]) <= maxdeg g) /\
    ([MkEdge 0 1; MkEdge 1 1; MkEdge 1 2] = [] -> maxdeg g = -1) /\
    ([MkEdge 0 1; MkEdge 1 1; MkEdge 1 2] <> [] ->
      exists v, 0 <= v <= maxvtx g /\
        alen (filter (at_vertex v) [MkEdge 0 1; MkEdge 1 1; MkEdge 1 2]) = maxdeg g).
Proof.
  apply (seq_list_degrees [MkEdge 0 1; MkEdge 1 1; MkEdge 1 2]).
  - unfold edge_ok, in_u32. repeat (constructor; [cbn; lia|]). constructor.
  - vm_compute. reflexivity.
Defined.

End SeqList.
