(* ===== verification/Verify.v ===== *)
(** * The checker of search results (sources/graph500/verify.c)

    [compute_levels] and [verify_bfs_tree] as the sequential build runs them: the
    checker decides whether an array of parents is a breadth-first tree. *)

From Stdlib Require Import ZArith Lia.
From stdpp Require Import list numbers.
From S2P Require Import Prelude Arrays Graph.
#[local] Open Scope Z_scope.

Module Verify.
Import Graph.

(** ** The code *)

(** Runs up the tree until an already-leveled vertex:
    [while (parent >= 0 && level[parent] < 0 && nhop < nv)]. *)
Fixpoint climb (fuel : nat) (tree level : list Z) (nv parent nhop : Z) : option (Z * Z) :=
  match fuel with
  | O => None
  | S fuel =>
      if 0 <=? parent then
        l ← level.[parent];
        if (l <? 0) && (nhop <? nv) then
          p ← tree.[parent];
          assert! negb (parent =? p);
          climb fuel tree level nv p (nhop + 1)
        else Some (parent, nhop)
      else Some (parent, nhop)
  end.

(** Assigns levels until an already-leveled vertex: [while (level[parent] < 0)]. *)
Fixpoint assign (fuel : nat) (tree level : list Z) (parent nhop : Z) : option (list Z * Z * Z) :=
  match fuel with
  | O => None
  | S fuel =>
      l ← level.[parent];
      if l <? 0 then
        assert! 0 <? nhop;
        level ← level.[parent <- nhop];
        p ← tree.[parent];
        assign fuel tree level p (nhop - 1)
      else Some (level, parent, nhop)
  end.

(** The internal check: [while (level[parent] > 0)]. *)
Fixpoint recheck (fuel : nat) (tree level : list Z) (parent lastlvl nhop : Z) : option Z :=
  match fuel with
  | O => None
  | S fuel =>
      l ← level.[parent];
      if 0 <? l then
        assert! lastlvl =? 1 + l;
        p ← tree.[parent];
        recheck fuel tree level p l (nhop + 1)
      else Some nhop
  end.

(** The part of the loop body under [if (!terr)]: the levels of a path. *)
Definition level_path (tree level : list Z) (k parent nhop : Z) : option (list Z) :=
  l ← level.[parent];
  let nhop := nhop + l in
  '(level, parent, nhop) ← assign (S (length level)) tree level k nhop;
  l ← level.[parent];
  assert! nhop =? l;
  l ← level.[k];
  let lastlvl := l + 1 in
  _ ← recheck (S (Z.to_nat l)) tree level k lastlvl 0;
  Some level.

(** The body of the second loop of [compute_levels]. *)
Definition level_vertex (tree : list Z) (nv root k : Z) (s : Z * list Z) : option (Z * list Z) :=
  let '(err, level) := s in
  l ← level.[k];
  if 0 <=? l then Some (err, level)
  else
    let terr := err in
    p ← tree.[k];
    '(terr, level) ←
      (if (terr =? 0) && (0 <=? p) && negb (k =? root) then
         '(parent, nhop) ← climb (S (Z.to_nat nv)) tree level nv k 0;
         let terr := if nv <=? nhop then -1 else terr in
         let terr := if parent <? 0 then -2 else terr in
         if terr =? 0 then level ← level_path tree level k parent nhop; Some (terr, level)
         else Some (terr, level)
       else Some (terr, level));
    Some (if negb (terr =? 0) then terr else err, level).

Definition compute_levels (level : list Z) (nv : Z) (tree : list Z) (root : Z)
    : option (Z * list Z) :=
  level ← for_z 0 nv (fun k level => level.[k <- if k =? root then 0 else -1]) level;
  for_z 0 nv (level_vertex tree nv root) (0, level).

(** The locals of the loops of [verify_bfs_tree]. *)
Record locals := MkLocals {
  terr : Z;
  err : Z;
  nedge_traversed : Z;
  seen_edge : list Z;
}.

Definition mark (c : bool) (i : Z) (seen : list Z) : option (list Z) :=
  if c then seen.[i <- 1] else Some seen.

(** The body of the loop over the edges. *)
Definition check_edge (tree level : list Z) (max_bfsvtx : Z) (IJ : list packed_edge) (k : Z)
    (s : locals) : option locals :=
  e ← IJ.[k];
  let i := get_v0_from_edge e in
  let j := get_v1_from_edge e in
  let t := err s in
  if (i <? 0) || (j <? 0) then Some (MkLocals t (err s) (nedge_traversed s) (seen_edge s)) else
  let t := if (max_bfsvtx <? i) && (j <=? max_bfsvtx) then -10 else t in
  let t := if (max_bfsvtx <? j) && (i <=? max_bfsvtx) then -11 else t in
  let er := if negb (t =? 0) then t else err s in
  if negb (t =? 0) || (max_bfsvtx <? i) then Some (MkLocals t er (nedge_traversed s) (seen_edge s)) else
  ti ← tree.[i];
  tj ← tree.[j];
  let t := if (0 <=? ti) && (tj <? 0) then -12 else t in
  let t := if (0 <=? tj) && (ti <? 0) then -13 else t in
  let er := if negb (t =? 0) then t else er in
  if negb (t =? 0) || (ti <? 0) then Some (MkLocals t er (nedge_traversed s) (seen_edge s)) else
  let n := nedge_traversed s + 1 in
  seen ← mark (negb (i =? j) && (ti =? j)) i (seen_edge s);
  seen ← mark (negb (i =? j) && (tj =? i)) j seen;
  li ← level.[i];
  lj ← level.[j];
  let lvldiff := li - lj in
  let t := if (1 <? lvldiff) || (lvldiff <? -1) then -14 else t in
  let er := if negb (t =? 0) then t else er in
  Some (MkLocals t er n seen).

(** The body of the loop that looks for unseen tree edges and second roots. *)
Definition check_vertex (tree seen : list Z) (root k : Z) (er : Z) : option Z :=
  let t := er in
  if (t =? 0) && negb (k =? root) then
    p ← tree.[k];
    sk ← (if 0 <=? p then seen.[k] else Some 0);
    let t := if (0 <=? p) && (sk =? 0) then -15 else t in
    let t := if p =? k then -16 else t in
    Some (if negb (t =? 0) then t else er)
  else Some er.

(** [xmalloc_large]: zeroed words. *)
Definition xmalloc_large (n : Z) : list Z := replicate (Z.to_nat (u64 (n * 8) / 8)) 0.

Definition verify_bfs_tree (tree : list Z) (max_bfsvtx root : Z) (IJ : list packed_edge) (nedge : Z)
    : option Z :=
  let nv := max_bfsvtx + 1 in
  bad ← (if max_bfsvtx <? root then Some true else p ← tree.[root]; Some (negb (p =? root)));
  if (bad : bool) then Some (-999)
  else
    let block := xmalloc_large (2 * nv) in
    let seen := take (Z.to_nat nv) block in
    let level := drop (Z.to_nat nv) block in
    '(er, level) ← compute_levels level nv tree root;
    if negb (er =? 0) then Some er
    else
      seen ← for_z 0 nv (fun k seen => seen.[k <- 0]) seen;
      s ← for_z 0 nedge (check_edge tree level max_bfsvtx IJ) (MkLocals 0 er 0 seen);
      er ← (if terr s =? 0 then for_z 0 nv (check_vertex tree (seen_edge s) root) (err s)
            else Some (err s));
      if negb (er =? 0) then Some er else Some (nedge_traversed s).

(** ** Levels *)

Section Levels.
Context (tree : list Z) (nv root : Z).

(** An array the checker can read: every entry is below [nv], and no vertex but
    the root is its own parent (the code asserts that). *)
Definition typed_tree : Prop :=
  0 <= root < nv /\
  forall v, 0 <= v < nv -> exists p, tree.[v] = Some p /\ p < nv /\ (p = v -> v = root).

(** [n] hops from [v] to [p] over unleveled vertices, [p] being leveled. *)
Inductive chain (level : list Z) : nat -> Z -> Z -> Prop :=
| chain_here p l : level.[p] = Some l -> 0 <= l -> chain level O p p
| chain_hop n v w p l :
    level.[v] = Some l -> l < 0 -> tree.[v] = Some w -> chain level n w p -> chain level (S n) v p.

Lemma chain_inv_O level v p : chain level O v p -> v = p /\ exists l, level.[p] = Some l /\ 0 <= l.
Proof. inversion 1; subst. eauto. Qed.

Lemma chain_inv_S level n v p :
  chain level (S n) v p ->
  exists w l, level.[v] = Some l /\ l < 0 /\ tree.[v] = Some w /\ chain level n w p.
Proof. inversion 1; subst. eauto 10. Qed.

Lemma chain_end_level level n v p lp : chain level n v p -> level.[p] = Some lp -> 0 <= lp.
Proof. induction 1 as [p l Hl Hp|]; intros Hlp; [by rewrite Hl in Hlp; injection Hlp as <-|auto]. Qed.

Lemma chain_fun level m n v p q : chain level m v p -> chain level n v q -> m = n.
Proof.
  intros Hm. revert n q. induction Hm as [p l Hl Hp|m v w p l Hl Hn Hw Hm IH]; intros n q Hq;
    inversion Hq; simplify_eq; try lia. f_equal. eauto.
Qed.

(** Leveling a vertex that is farther away leaves the path alone. *)
Lemma chain_insert level n w p v x :
  chain level n w p -> 0 <= v < alen level -> (forall m q, chain level m v q -> (n < m)%nat) ->
  chain (<[Z.to_nat v := x]> level) n w p.
Proof.
  intros Hc Hv. induction Hc as [p l Hl Hp|n u w p l Hl Hn Hw Hc IH]; intros Hfar.
  - apply (chain_here _ _ l); [|done]. rewrite aget_insert by done. rewrite decide_False; [done|].
    intros ->. pose proof (Hfar O v (chain_here _ _ _ Hl Hp)). lia.
  - apply (chain_hop _ _ _ w _ l); [|done|done|].
    + rewrite aget_insert by done. rewrite decide_False; [done|]. intros ->.
      pose proof (Hfar _ _ (chain_hop _ _ _ _ _ _ Hl Hn Hw Hc)). lia.
    + apply IH. intros m q Hm. pose proof (Hfar m q Hm). lia.
Qed.

(** The levels set so far: the root has 0, every other leveled vertex one more
    than its parent. *)
Record levels_ok (level : list Z) : Prop := {
  lv_len : alen level = nv;
  lv_root : level.[root] = Some 0;
  lv_all : forall v, 0 <= v < nv -> exists l, level.[v] = Some l /\
    (l = -1 \/ (v = root /\ l = 0) \/
     (v <> root /\ 1 <= l /\ exists p, tree.[v] = Some p /\ 0 <= p < nv /\ level.[p] = Some (l - 1)));
}.

(** What a call adds: old levels stay, new ones fit their parents. *)
Definition extends (level level' : list Z) : Prop :=
  alen level' = alen level /\
  (forall x l, level.[x] = Some l -> 0 <= l -> level'.[x] = Some l) /\
  (forall x l', level'.[x] = Some l' -> level.[x] = Some l' \/
    (1 <= l' /\ (exists l, level.[x] = Some l /\ l < 0) /\
     exists p, tree.[x] = Some p /\ level'.[p] = Some (l' - 1))).

Lemma extends_refl level : extends level level.
Proof. split; [done|]. split; [done|]. intros x l Hl. by left. Qed.

Lemma extends_levels level level' : levels_ok level -> extends level level' -> levels_ok level'.
Proof.
  intros [Hlen Hroot Hall] (Hlen' & Hold & Hnew). constructor; [lia|by apply Hold|].
  intros v Hv. destruct (aget_in level' v ltac:(lia)) as (l' & Hl'). exists l'. split; [done|].
  destruct (Hnew v l' Hl') as [Hl|(H1 & (l & Hl & Hneg) & p & Hp & Hlp)].
  - destruct (Hall v Hv) as (l0 & Hl0 & Hcase). rewrite Hl in Hl0. injection Hl0 as <-.
    destruct Hcase as [?|[?|(? & ? & p & Hp & Hr & Hlp)]]; [by left|right; by left|].
    right; right. split; [done|]. split; [done|]. exists p. split; [done|]. split; [done|].
    apply Hold; [done|lia].
  - right; right. split; [intros ->; rewrite Hroot in Hl; injection Hl as <-; lia|].
    split; [done|]. exists p. split; [done|]. split; [|done].
    apply aget_some_range in Hlp. lia.
Qed.

Lemma assign_ok level n v p lp fuel :
  alen level = nv -> chain level n v p -> level.[p] = Some lp -> (n < fuel)%nat ->
  exists level', assign fuel tree level v (Z.of_nat n + lp) = Some (level', p, lp) /\
    extends level level' /\ level'.[v] = Some (Z.of_nat n + lp).
Proof.
  intros Hlen Hc. revert level Hlen Hc fuel.
  revert v. induction n as [|n IH]; intros v level Hlen Hc fuel Hlp Hf;
    (destruct fuel as [|fuel]; [lia|]); cbn [assign].
  - apply chain_inv_O in Hc as (-> & l & Hl & Hp). rewrite Hlp in Hl. injection Hl as <-.
    rewrite Hlp. cbn [mbind option_bind].
    assert (lp <? 0 = false) as -> by lia. exists level. split; [done|]. split; [apply extends_refl|done].
  - pose proof Hc as (w & l & Hl & Hneg & Hw & Hcw)%chain_inv_S. rewrite Hl. cbn [mbind option_bind].
    assert (l <? 0 = true) as -> by lia.
    pose proof (aget_some_range _ _ _ Hl) as Hv. pose proof (aget_some_range _ _ _ Hlp) as Hpr.
    assert (0 <= lp) as Hlp0.
    { by eapply chain_end_level. }
    assert (0 <? Z.of_nat (S n) + lp = true) as -> by (apply Z.ltb_lt; lia). cbn [check mbind option_bind].
    rewrite aset_in by done. cbn [mbind option_bind]. rewrite Hw. cbn [mbind option_bind].
    set (level1 := <[Z.to_nat v := Z.of_nat (S n) + lp]> level).
    assert (v <> p) as Hvp by (intros ->; simplify_eq; lia).
    assert (alen level1 = nv) as Hlen1 by (unfold level1; by rewrite alen_insert).
    assert (chain level1 n w p) as Hc1.
    { apply chain_insert; [done|done|]. intros m q Hm. pose proof (chain_fun _ _ _ _ _ _ Hm Hc). lia. }
    destruct (IH w level1 Hlen1 Hc1 fuel) as (level' & E & (Hlen' & Hold & Hnew) & Hw').
    + unfold level1. rewrite aget_insert by done. by rewrite decide_False.
    + lia.
    + replace (Z.of_nat (S n) + lp - 1) with (Z.of_nat n + lp) by lia. exists level'. split; [done|].
      assert (level1.[v] = Some (Z.of_nat (S n) + lp)) as H1v
        by (unfold level1; rewrite aget_insert by done; by rewrite decide_True).
      assert (level'.[v] = Some (Z.of_nat (S n) + lp)) as Hv' by (apply Hold; [done|lia]).
      split; [|done]. split; [unfold level1 in Hlen'; by rewrite alen_insert in Hlen'|]. split.
      * intros x lx Hx Hx0. apply Hold; [|done]. unfold level1. rewrite aget_insert by done.
        rewrite decide_False; [done|]. intros ->. simplify_eq. lia.
      * intros x lx Hx. destruct (decide (x = v)) as [->|Hne].
        -- right. rewrite Hv' in Hx. injection Hx as <-. split; [lia|]. split; [by exists l|].
           exists w. split; [done|]. rewrite Hw'. f_equal. lia.
        -- destruct (Hnew x lx Hx) as [H1|(H1 & (l1 & Hl1 & Hn1) & Hpx)].
           ++ left. unfold level1 in H1. rewrite aget_insert in H1 by done.
              by rewrite decide_False in H1.
           ++ right. split; [done|]. split; [|done]. exists l1. split; [|done].
              unfold level1 in Hl1. rewrite aget_insert in Hl1 by done. by rewrite decide_False in Hl1.
Qed.

(** The climb on an array the checker can read. *)
Lemma climb_ok level fuel parent nhop :
  typed_tree -> levels_ok level -> parent < nv -> 0 <= nhop <= nv -> nv - nhop < Z.of_nat fuel ->
  exists p n, climb fuel tree level nv parent nhop = Some (p, nhop + Z.of_nat n) /\
    nhop + Z.of_nat n <= nv /\
    (p < 0 \/ nhop + Z.of_nat n = nv \/ chain level n parent p).
Proof.
  intros [Hroot Htree] [Hlen Hlr _]. revert parent nhop. induction fuel as [|fuel IH]; intros parent nhop Hp Hn Hf; [lia|].
  cbn [climb]. destruct (Z.leb_spec 0 parent).
  2:{ exists parent, O. rewrite Z.add_0_r. split; [done|]. split; [lia|]. by left. }
  destruct (aget_in level parent ltac:(lia)) as (l & Hl). rewrite Hl. cbn [mbind option_bind].
  destruct (Z.ltb_spec l 0) as [Hneg|Hpos]; cbn [andb].
  2:{ exists parent, O. rewrite Z.add_0_r. split; [done|]. split; [lia|]. right; right.
      by apply (chain_here _ _ l). }
  destruct (Z.ltb_spec nhop nv) as [Hlt|Hge].
  2:{ exists parent, O. rewrite Z.add_0_r. split; [done|]. split; [lia|]. right; left. lia. }
  destruct (Htree parent ltac:(lia)) as (p & Hpt & Hpn & Hself). rewrite Hpt. cbn [mbind option_bind].
  destruct (Z.eqb_spec parent p) as [->|Hne]; [rewrite Hself in Hl by done; simplify_eq; lia|].
  cbn [negb check mbind option_bind].
  destruct (IH p (nhop + 1)) as (q & n & E & Hb & Hcase); [done|lia|lia|].
  exists q, (S n). replace (nhop + Z.of_nat (S n)) with (nhop + 1 + Z.of_nat n) by lia.
  split; [done|]. split; [done|]. destruct Hcase as [?|[?|Hc]]; [by left|right; left; lia|].
  right; right. by apply (chain_hop _ _ _ p _ l).
Qed.

Lemma chain_end level n v p : chain level n v p -> 0 <= p.
Proof. induction 1 as [p l Hl _|]; [apply aget_some_range in Hl; lia|done]. Qed.

(** A short path is climbed to its end. *)
Lemma climb_chain level fuel parent nhop n p :
  typed_tree -> levels_ok level -> chain level n parent p -> nhop + Z.of_nat n <= nv -> (n < fuel)%nat ->
  climb fuel tree level nv parent nhop = Some (p, nhop + Z.of_nat n).
Proof.
  intros [Hroot Htree] [Hlen Hlr _] Hc. revert fuel nhop.
  induction Hc as [p l Hl Hl0|n v w p l Hl Hneg Hw Hc IH]; intros fuel nhop Hn Hf;
    (destruct fuel as [|fuel]; [lia|]); cbn [climb]; pose proof (aget_some_range _ _ _ Hl) as Hr.
  - assert (0 <=? p = true) as -> by lia. rewrite Hl. cbn [mbind option_bind].
    assert (l <? 0 = false) as -> by lia. cbn [andb]. do 2 f_equal. lia.
  - assert (0 <=? v = true) as -> by lia. rewrite Hl. cbn [mbind option_bind].
    assert (l <? 0 = true) as -> by lia.
    assert (nhop <? nv = true) as -> by (apply Z.ltb_lt; lia). cbn [andb].
    destruct (Htree v ltac:(lia)) as (w' & Hw' & _ & Hself). rewrite Hw in Hw'. injection Hw' as <-.
    rewrite Hw. cbn [mbind option_bind].
    destruct (Z.eqb_spec v w) as [->|Hne]; [rewrite Hself in Hl by done; simplify_eq; lia|].
    cbn [negb check mbind option_bind]. rewrite IH by lia. do 2 f_equal. lia.
Qed.

Lemma recheck_ok level l parent nhop fuel :
  levels_ok level -> 0 <= parent < nv -> level.[parent] = Some l -> 0 <= l -> (Z.to_nat l < fuel)%nat ->
  exists n, recheck fuel tree level parent (l + 1) nhop = Some n.
Proof.
  intros [Hlen Hlr Hall]. revert l parent nhop. induction fuel as [|fuel IH]; intros l parent nhop Hp Hl Hl0 Hf;
    [lia|]. cbn [recheck]. rewrite Hl. cbn [mbind option_bind].
  destruct (Z.ltb_spec 0 l) as [Hpos|]; [|eauto].
  assert (l + 1 =? 1 + l = true) as -> by lia. cbn [check mbind option_bind].
  destruct (Hall parent Hp) as (l' & Hl' & Hcase). rewrite Hl in Hl'. injection Hl' as <-.
  destruct Hcase as [?|[[? ?]|(_ & _ & p & Hpt & Hpr & Hlp)]]; [lia|lia|].
  rewrite Hpt. cbn [mbind option_bind]. destruct (IH (l - 1) p (nhop + 1)) as (n & E); [done|done|lia|lia|].
  replace (l - 1 + 1) with l in E by lia. by exists n.
Qed.

Lemma level_path_ok level k n p :
  levels_ok level -> chain level n k p -> Z.of_nat n <= nv -> 0 <= k < nv ->
  exists level', level_path tree level k p (Z.of_nat n) = Some level' /\
    extends level level' /\ (exists l, level'.[k] = Some l /\ 0 <= l).
Proof.
  intros Hok Hc Hn Hk. unfold level_path. pose proof Hok as [Hlen _ _].
  assert (exists lp, level.[p] = Some lp) as (lp & Hlp) by (clear -Hc; induction Hc; eauto).
  pose proof (chain_end_level _ _ _ _ _ Hc Hlp) as Hlp0. rewrite Hlp. cbn [mbind option_bind].
  destruct (assign_ok level n k p lp (S (length level))) as (level' & -> & Hext & Hk');
    [done|done|done|unfold alen in Hlen; lia|]. cbn [mbind option_bind].
  pose proof Hext as (Hlen' & Hold & _). rewrite (Hold p lp Hlp Hlp0). cbn [mbind option_bind].
  rewrite Z.eqb_refl. cbn [check mbind option_bind]. rewrite Hk'. cbn [mbind option_bind].
  destruct (recheck_ok level' (Z.of_nat n + lp) k 0 (S (Z.to_nat (Z.of_nat n + lp)))) as (m & ->);
    [by eapply extends_levels|done|done|lia|lia|]. cbn [mbind option_bind].
  exists level'. split; [done|]. split; [done|]. exists (Z.of_nat n + lp). split; [done|lia].
Qed.

(** Why a vertex cannot be leveled: its ancestors leave the tree or do not end. *)
Definition stuck (level : list Z) (k : Z) : Prop :=
  forall n p, chain level n k p -> nv <= Z.of_nat n.

Lemma level_vertex_ok level k :
  typed_tree -> levels_ok level -> 0 <= k < nv ->
  exists er level', level_vertex tree nv root k (0, level) = Some (er, level') /\ er <= 0 /\
    (er = 0 -> extends level level' /\ exists l p, level'.[k] = Some l /\ tree.[k] = Some p /\
      (0 <= l \/ (p < 0 /\ level' = level))) /\
    (er <> 0 -> level' = level /\ (exists p, tree.[k] = Some p /\ 0 <= p) /\ stuck level k).
Proof.
  intros Hty Hok Hk. pose proof Hok as [Hlen Hlr Hall]. unfold level_vertex.
  destruct (aget_in level k ltac:(lia)) as (l & Hl). rewrite Hl. cbn [mbind option_bind].
  destruct (proj2 Hty k Hk) as (p & Hp & Hpn & _).
  destruct (Z.leb_spec 0 l) as [Hl0|Hneg].
  { exists 0, level. split; [done|]. split; [done|]. split; [|done]. intros _.
    split; [apply extends_refl|]. exists l, p. split; [done|]. split; [done|]. by left. }
  rewrite Hp. cbn [mbind option_bind Z.eqb andb].
  assert (k <> root) as Hkr by (intros ->; simplify_eq; lia).
  assert (k =? root = false) as -> by lia. cbn [negb]. rewrite andb_true_r.
  destruct (Z.leb_spec 0 p) as [Hp0|Hpneg].
  2:{ cbn [mbind option_bind Z.eqb negb]. exists 0, level. split; [done|]. split; [done|].
      split; [|done]. intros _. split; [apply extends_refl|]. exists l, p.
      split; [done|]. split; [done|]. by right. }
  destruct (climb_ok level (S (Z.to_nat nv)) k 0 Hty Hok) as (q & n & E & Hn & Hcase); [lia|lia|lia|].
  rewrite E. cbn [mbind option_bind]. rewrite Z.add_0_l in *.
  assert ((nv <= Z.of_nat n \/ q < 0) -> stuck level k) as Hstuck.
  { intros Hbad m q' Hc'. destruct (decide (nv <= Z.of_nat m)); [done|exfalso].
    rewrite (climb_chain level _ k 0 m q' Hty Hok Hc') in E by lia. injection E as -> En.
    pose proof (chain_end _ _ _ _ Hc'). lia. }
  destruct (Z.ltb_spec q 0) as [Hq|Hq].
  { cbn [Z.eqb mbind option_bind negb]. exists (-2), level. split; [done|]. split; [done|].
    split; [done|]. intros _. split; [done|]. split; [by exists p|]. apply Hstuck. by right. }
  destruct (Z.leb_spec nv (Z.of_nat n)) as [Hlong|Hshort].
  { cbn [Z.eqb mbind option_bind negb]. exists (-1), level. split; [done|]. split; [done|].
    split; [done|]. intros _. split; [done|]. split; [by exists p|]. apply Hstuck. by left. }
  destruct Hcase as [?|[?|Hc]]; [lia|lia|]. cbn [Z.eqb].
  destruct (level_path_ok level k n q Hok Hc Hn Hk) as (level' & -> & Hext & l' & Hl' & Hl0').
  cbn [mbind option_bind Z.eqb negb]. exists 0, level'. split; [done|]. split; [done|].
  split; [|done]. intros _. split; [done|]. exists l', p. split; [done|]. split; [done|]. by left.
Qed.

Lemma level_vertex_err er level k :
  typed_tree -> levels_ok level -> 0 <= k < nv -> er <> 0 ->
  level_vertex tree nv root k (er, level) = Some (er, level).
Proof.
  intros Hty Hok Hk Her. unfold level_vertex. pose proof Hok as [Hlen _ _].
  destruct (aget_in level k ltac:(lia)) as (l & ->). cbn [mbind option_bind].
  destruct (0 <=? l); [done|]. destruct (proj2 Hty k Hk) as (p & -> & _). cbn [mbind option_bind].
  assert (er =? 0 = false) as -> by lia. cbn [andb negb mbind option_bind].
  by assert (er =? 0 = false) as -> by lia.
Qed.

(** The levels of the whole tree, or an error and a vertex that is stuck. *)
Lemma compute_levels_ok level0 :
  typed_tree -> alen level0 = nv ->
  exists er level, compute_levels level0 nv tree root = Some (er, level) /\ er <= 0 /\
    (er = 0 -> levels_ok level /\
      forall v p, 0 <= v < nv -> tree.[v] = Some p -> 0 <= p -> exists l, level.[v] = Some l /\ 0 <= l) /\
    (er <> 0 -> exists level' k p, levels_ok level' /\ 0 <= k < nv /\ tree.[k] = Some p /\ 0 <= p /\
      stuck level' k).
Proof.
  intros Hty Hlen. pose proof Hty as [Hroot _]. unfold compute_levels.
  destruct (for_z_fill nv (fun k => if k =? root then 0 else -1) level0
    (fun k => Some (if k =? root then 0 else -1))) as (level1 & E1 & Hlen1 & Hg1); [lia|done|].
  cbn [mbind option_bind] in E1. rewrite E1. cbn [mbind option_bind].
  assert (levels_ok level1) as Hok1.
  { constructor; [lia| |].
    - rewrite Hg1 by lia. rewrite Z.eqb_refl. by assert (root <? nv = true) as -> by lia.
    - intros v Hv. rewrite Hg1 by lia. assert (v <? nv = true) as -> by lia. eexists. split; [done|].
      destruct (Z.eqb_spec v root); [right; left; done|by left]. }
  destruct (for_z_inv (fun i '(er, level) => er <= 0 /\ levels_ok level /\
    (er = 0 -> forall v p, 0 <= v < i -> tree.[v] = Some p -> 0 <= p ->
      exists l, level.[v] = Some l /\ 0 <= l) /\
    (er <> 0 -> exists level' k p, levels_ok level' /\ 0 <= k < nv /\ tree.[k] = Some p /\ 0 <= p /\
      stuck level' k)) 0 nv (level_vertex tree nv root) (0, level1)) as ([er level] & E & He & Hok & H0 & H1).
  - lia.
  - split; [done|]. split; [done|]. split; [lia|done].
  - intros i [er level] Hi (He & Hok & H0 & H1). destruct (decide (er = 0)) as [->|Hne].
    + destruct (level_vertex_ok level i Hty Hok Hi) as (er' & level' & -> & He' & Hz & Hnz).
      eexists. split; [done|]. cbn beta iota. split; [done|].
      assert (levels_ok level') as Hok'.
      { destruct (decide (er' = 0)) as [E0|E0]; [destruct (Hz E0) as [Hx _]; by eapply extends_levels|].
        by destruct (Hnz E0) as [-> _]. }
      split; [done|]. split.
      * intros E0 v p Hv Hp Hp0. destruct (Hz E0) as [(_ & Hold & _) (l & p' & Hl & Hp' & Hcase)].
        destruct (decide (v = i)) as [->|Hvi].
        -- exists l. split; [done|]. rewrite Hp in Hp'. injection Hp' as <-. destruct Hcase as [?|[? _]]; lia.
        -- destruct (H0 eq_refl v p ltac:(lia) Hp Hp0) as (lv & Hlv & Hlv0). exists lv.
           split; [by apply Hold|done].
      * intros E0. destruct (Hnz E0) as (_ & (p & Hp & Hp0) & Hst). by exists level, i, p.
    + rewrite level_vertex_err by done. eexists. split; [done|]. cbn beta iota.
      split; [done|]. split; [done|]. split; [done|]. done.
  - exists er, level. split; [done|]. split; [done|]. split; [|done]. intros E0. split; [done|].
    intros v p Hv. by apply H0.
Qed.

End Levels.

(** ** Edges *)

Section Edges.
Context (tree level : list Z) (nv root : Z) (E : list packed_edge).
Context (Hty : typed_tree tree nv root) (Hlen : alen level = nv) (HE : Forall edge_ok E).

(** Parent and level of a vertex, negative where there is none. *)
Definition tval (v : Z) : Z := default (-1) (tree.[v]).
Definition lval (v : Z) : Z := default (-1) (level.[v]).

Definition in_tree (e : packed_edge) : Prop := v0 e < nv /\ 0 <= tval (v0 e).
#[export] Instance in_tree_dec e : Decision (in_tree e).
Proof. unfold in_tree. apply _. Defined.

(** What the loop demands of an edge. *)
Definition good (e : packed_edge) : Prop :=
  (nv <= v0 e /\ nv <= v1 e) \/
  (v0 e < nv /\ v1 e < nv /\
   ((tval (v0 e) < 0 /\ tval (v1 e) < 0) \/
    (0 <= tval (v0 e) /\ 0 <= tval (v1 e) /\ -1 <= lval (v0 e) - lval (v1 e) <= 1))).
#[export] Instance good_dec e : Decision (good e).
Proof. unfold good. apply _. Defined.

(** The edge is the tree edge of [v]. *)
Definition tree_edge (v : Z) (e : packed_edge) : Prop :=
  in_tree e /\ v0 e <> v1 e /\ ((v = v0 e /\ tval (v0 e) = v1 e) \/ (v = v1 e /\ tval (v1 e) = v0 e)).
#[export] Instance tree_edge_dec v e : Decision (tree_edge v e).
Proof. unfold tree_edge. apply _. Defined.

Lemma tree_get v : 0 <= v < nv -> tree.[v] = Some (tval v).
Proof. intros Hv. unfold tval. by destruct (proj2 Hty v Hv) as (p & -> & _). Qed.

Lemma level_get v : 0 <= v < nv -> level.[v] = Some (lval v).
Proof. intros Hv. unfold lval. destruct (aget_in level v ltac:(lia)) as (l & ->). done. Qed.

Lemma mark_ok c i seen :
  0 <= i < alen seen -> exists seen', mark c i seen = Some seen' /\ alen seen' = alen seen /\
    forall v, seen'.[v] = if decide (c = true /\ v = i) then Some 1 else seen.[v].
Proof.
  intros Hi. unfold mark. destruct c.
  - rewrite aset_in by done. eexists. split; [done|]. split; [apply alen_insert|].
    intros v. rewrite aget_insert by done. destruct (decide (v = i)); case_decide; naive_solver.
  - exists seen. split; [done|]. split; [done|]. intros v. by rewrite decide_False by naive_solver.
Qed.

Lemma check_edge_ok k e s :
  E.[k] = Some e -> err s = 0 -> alen (seen_edge s) = nv ->
  exists s', check_edge tree level (nv - 1) E k s = Some s' /\ terr s' = err s' /\
    alen (seen_edge s') = nv /\ err s' <= 0 /\ (err s' = 0 <-> good e) /\
    (good e -> nedge_traversed s' = nedge_traversed s + (if decide (in_tree e) then 1 else 0) /\
      forall v, (seen_edge s').[v] = if decide (tree_edge v e) then Some 1 else (seen_edge s).[v]).
Proof.
  intros He Her Hsl. unfold check_edge. rewrite He. cbn [mbind option_bind].
  unfold get_v0_from_edge, get_v1_from_edge. set (i := v0 e). set (j := v1 e).
  assert (edge_ok e) as [Hi0 Hj0].
  { rewrite list.Forall_forall in HE. apply HE. apply elem_aget. eauto. }
  unfold in_u32 in Hi0, Hj0. fold i in Hi0. fold j in Hj0.
  assert ((i <? 0) || (j <? 0) = false) as -> by lia. rewrite Her.
  unfold good, in_tree, tree_edge, in_tree. fold i j.
  destruct (Z.ltb_spec (nv - 1) i), (Z.leb_spec j (nv - 1)); try lia; cbn [andb].
  - assert (nv - 1 <? j = false) as -> by lia. cbn [andb Z.eqb negb orb].
    eexists. split; [done|]. cbn [terr err nedge_traversed seen_edge]. split; [done|].
    split; [done|]. split; [done|]. split; [|naive_solver lia]. split; [done|]. naive_solver lia.
  - assert (i <=? nv - 1 = false) as -> by lia. rewrite andb_false_r. cbn [Z.eqb negb orb].
    eexists. split; [done|]. cbn [terr err nedge_traversed seen_edge]. split; [done|].
    split; [done|]. split; [done|]. split; [split; [intros _; left; lia|done]|]. intros _. split.
    + rewrite decide_False by lia. lia.
    + intros v. by rewrite decide_False by lia.
  - assert (nv - 1 <? j = false) as -> by lia. cbn [andb Z.eqb negb orb].
    rewrite !tree_get by lia. cbn [mbind option_bind].
    destruct (Z.leb_spec 0 (tval i)), (Z.ltb_spec (tval j) 0); cbn [andb].
    + assert (0 <=? tval j = false) as -> by lia. cbn [andb Z.eqb negb orb].
      eexists. split; [done|]. cbn [terr err nedge_traversed seen_edge]. split; [done|].
      split; [done|]. split; [done|]. split; [|naive_solver lia]. split; [done|]. naive_solver lia.
    + assert (tval i <? 0 = false) as -> by lia. rewrite andb_false_r. cbn [Z.eqb negb orb].
      destruct (mark_ok (negb (i =? j) && (tval i =? j)) i (seen_edge s)) as (seen1 & -> & Hl1 & Hg1); [lia|].
      cbn [mbind option_bind].
      destruct (mark_ok (negb (i =? j) && (tval j =? i)) j seen1) as (seen2 & -> & Hl2 & Hg2); [lia|].
      cbn [mbind option_bind]. rewrite !level_get by lia. cbn [mbind option_bind].
      eexists. split; [done|]. cbn [terr err nedge_traversed seen_edge].
      assert (forall v, seen2.[v] = if decide ((i < nv /\ 0 <= tval i) /\ i <> j /\
        (v = i /\ tval i = j \/ v = j /\ tval j = i)) then Some 1 else (seen_edge s).[v]) as Hseen.
      { intros v. rewrite Hg2, Hg1.
        destruct (Z.eqb_spec i j), (Z.eqb_spec (tval i) j), (Z.eqb_spec (tval j) i); cbn [negb andb];
          repeat case_decide; naive_solver lia. }
      destruct (Z.ltb_spec 1 (lval i - lval j)); cbn [orb Z.eqb negb].
      { split; [done|]. split; [lia|]. split; [done|]. split; [|naive_solver lia]. split; [done|].
        naive_solver lia. }
      destruct (Z.ltb_spec (lval i - lval j) (-1)); cbn [orb Z.eqb negb].
      { split; [done|]. split; [lia|]. split; [done|]. split; [|naive_solver lia]. split; [done|].
        naive_solver lia. }
      split; [done|]. split; [lia|]. split; [done|].
      split; [split; [intros _; right; lia|done]|]. intros _. split; [|exact Hseen].
      rewrite decide_True by lia. done.
    + assert (tval i <? 0 = true) as -> by lia. assert (0 <=? tval j = false) as -> by lia.
      cbn [andb Z.eqb negb orb]. eexists. split; [done|]. cbn [terr err nedge_traversed seen_edge].
      split; [done|]. split; [done|]. split; [done|]. split; [split; [intros _; right; lia|done]|].
      intros _. split; [rewrite decide_False by lia; lia|]. intros v. by rewrite decide_False by lia.
    + assert (tval i <? 0 = true) as -> by lia. assert (0 <=? tval j = true) as -> by lia.
      cbn [andb Z.eqb negb orb]. eexists. split; [done|]. cbn [terr err nedge_traversed seen_edge].
      split; [done|]. split; [done|]. split; [done|]. split; [|naive_solver lia]. split; [done|].
      naive_solver lia.
  - assert (nv - 1 <? j = true) as -> by lia. assert (i <=? nv - 1 = true) as -> by lia.
    cbn [andb Z.eqb negb orb]. eexists. split; [done|]. cbn [terr err nedge_traversed seen_edge].
    split; [done|]. split; [done|]. split; [done|]. split; [|naive_solver lia]. split; [done|].
    naive_solver lia.
Qed.

(** After an error the loop only keeps an error. *)
Lemma check_edge_err k e s :
  E.[k] = Some e -> err s < 0 -> alen (seen_edge s) = nv ->
  exists s', check_edge tree level (nv - 1) E k s = Some s' /\ terr s' = err s' /\ err s' < 0 /\
    alen (seen_edge s') = nv.
Proof.
  intros He Her Hsl. unfold check_edge. rewrite He. cbn [mbind option_bind].
  unfold get_v0_from_edge, get_v1_from_edge. destruct (_ || _).
  { eexists. split; [done|]. done. }
  set (t := if (nv - 1 <? v1 e) && _ then -11 else _).
  assert (t < 0) as Ht by (unfold t; repeat (destruct (_ && _); [lia|]); lia).
  assert (t =? 0 = false) as -> by lia. cbn [negb orb]. eexists. split; [done|]. done.
Qed.

(** ** The loops *)

Lemma check_edges_ok seen0 :
  alen seen0 = nv -> (forall v, 0 <= v < nv -> seen0.[v] = Some 0) ->
  exists s, for_z 0 (alen E) (check_edge tree level (nv - 1) E) (MkLocals 0 0 0 seen0) = Some s /\
    terr s = err s /\ err s <= 0 /\ (err s = 0 <-> Forall good E) /\ alen (seen_edge s) = nv /\
    (err s = 0 -> nedge_traversed s = alen (filter in_tree E) /\
      forall v, 0 <= v < nv ->
        (seen_edge s).[v] = Some (if decide (Exists (tree_edge v) E) then 1 else 0)).
Proof.
  intros Hl0 Hz.
  assert (forall i e, E.[i] = Some e -> take (Z.to_nat (i + 1)) E = take (Z.to_nat i) E ++ [e]) as Htake.
  { intros i e He. pose proof (aget_some_range _ _ _ He). unfold aget in He.
    destruct (Z.ltb_spec i 0); [lia|]. replace (Z.to_nat (i + 1)) with (S (Z.to_nat i)) by lia.
    by apply take_S_r. }
  destruct (for_z_inv (fun i s => terr s = err s /\ err s <= 0 /\
    (err s = 0 <-> Forall good (take (Z.to_nat i) E)) /\ alen (seen_edge s) = nv /\
    (err s = 0 -> nedge_traversed s = alen (filter in_tree (take (Z.to_nat i) E)) /\
      forall v, 0 <= v < nv ->
        (seen_edge s).[v] = Some (if decide (Exists (tree_edge v) (take (Z.to_nat i) E)) then 1 else 0)))
    0 (alen E) (check_edge tree level (nv - 1) E) (MkLocals 0 0 0 seen0)) as (s & Hs & Hinv).
  - apply alen_nonneg.
  - cbn [terr err nedge_traversed seen_edge]. change (take (Z.to_nat 0) E) with (@nil packed_edge).
    split; [done|]. split; [done|]. split; [split; [intros _; apply list.Forall_nil; done|done]|].
    split; [done|]. intros _. split; [done|]. intros v Hv. rewrite Hz by done.
    rewrite decide_False; [done|]. intros Hx%List.Exists_nil. done.
  - intros i s Hi (Ht & Hle & Hiff & Hsl & H0). destruct (aget_in E i Hi) as (e & He).
    rewrite (Htake i e He). destruct (decide (err s = 0)) as [Her|Her].
    + destruct (check_edge_ok i e s He Her Hsl) as (s' & -> & Ht' & Hsl' & Hle' & Hiff' & Hgood).
      exists s'. split; [done|]. split; [done|]. split; [done|]. split; [|split; [done|]].
      * rewrite list.Forall_app, list.Forall_singleton. tauto.
      * intros Her'. destruct (Hgood (proj1 Hiff' Her')) as [Hn Hseen]. destruct (H0 Her) as [Hn0 Hs0].
        rewrite list.filter_app, alen_app, Hn, Hn0. split.
        { rewrite list.filter_cons. f_equal. by destruct (decide (in_tree e)). }
        intros v Hv. rewrite Hseen, Hs0 by done.
        destruct (decide (Exists (tree_edge v) (take (Z.to_nat i) E ++ [e]))) as [Hx|Hx];
          rewrite list.Exists_app, List.Exists_cons, List.Exists_nil in Hx;
          repeat case_decide; naive_solver.
    + destruct (check_edge_err i e s He ltac:(lia) Hsl) as (s' & -> & Ht' & Hle' & Hsl').
      exists s'. split; [done|]. split; [done|]. split; [lia|].
      split; [rewrite list.Forall_app; split; [lia|intros [Hx _]; exfalso; by apply Her, Hiff]|].
      split; [done|]. lia.
  - exists s. split; [done|].
    assert (take (Z.to_nat (alen E)) E = E) as HtE by (apply take_ge; unfold alen; lia).
    by rewrite HtE in Hinv.
Qed.

(** What the last loop demands of a vertex. *)
Definition vertex_good (v : Z) : Prop :=
  v = root \/ ((0 <= tval v -> Exists (tree_edge v) E) /\ tval v <> v).

Lemma vertices_loop_ok seen :
  (forall v, 0 <= v < nv -> seen.[v] = Some (if decide (Exists (tree_edge v) E) then 1 else 0)) ->
  exists er, for_z 0 nv (check_vertex tree seen root) 0 = Some er /\ er <= 0 /\
    (er = 0 <-> forall v, 0 <= v < nv -> vertex_good v).
Proof.
  intros Hseen.
  destruct (for_z_inv (fun i er => er <= 0 /\ (er = 0 <-> forall v, 0 <= v < i -> vertex_good v))
    0 nv (check_vertex tree seen root) 0) as (er & Her & Hinv).
  - destruct Hty. lia.
  - split; [done|]. split; [lia|done].
  - intros i er Hi [Hle Hiff]. unfold check_vertex.
    assert ((forall v, 0 <= v < i + 1 -> vertex_good v) <->
      (forall v, 0 <= v < i -> vertex_good v) /\ vertex_good i) as Hsplit.
    { split; [intros H; split; [intros; apply H; lia|apply H; lia]|].
      intros [H1 H2] v Hv. destruct (decide (v = i)) as [->|]; [done|apply H1; lia]. }
    destruct (Z.eqb_spec er 0) as [->|Hne]; cbn [andb].
    + destruct (Z.eqb_spec i root) as [->|Hir]; cbn [negb].
      { exists 0. split; [done|]. split; [done|]. rewrite Hsplit, <- Hiff. split; [|done].
        intros _. split; [done|]. by left. }
      rewrite tree_get by lia. cbn [mbind option_bind].
      destruct (Z.leb_spec 0 (tval i)); cbn [mbind option_bind andb].
      * rewrite Hseen by lia. cbn [mbind option_bind].
        destruct (decide (Exists (tree_edge i) E)) as [Hx|Hx]; cbn [Z.eqb];
          (destruct (Z.eqb_spec (tval i) i); cbn [Z.eqb negb]; (eexists; split; [done|]; split; [done|]);
           rewrite Hsplit, <- Hiff; unfold vertex_good; naive_solver).
      * destruct (Z.eqb_spec (tval i) i); [lia|]. cbn [Z.eqb negb]. eexists. split; [done|].
        split; [done|]. rewrite Hsplit, <- Hiff. unfold vertex_good. split; [|done]. intros _.
        split; [done|]. right. split; [lia|done].
    + exists er. split; [done|]. split; [done|]. rewrite Hsplit, <- Hiff. tauto.
  - exists er. done.
Qed.

(** ** Accepted arrays are breadth-first trees *)

Lemma accepted_sound :
  levels_ok tree nv root level ->
  (forall v p, 0 <= v < nv -> tree.[v] = Some p -> 0 <= p -> exists l, level.[v] = Some l /\ 0 <= l) ->
  tree.[root] = Some root -> Forall good E -> (forall v, 0 <= v < nv -> vertex_good v) ->
  bfs_tree E nv root tree.
Proof.
  intros [_ Hlr Hall] Hin Hroot Hgood Hvg. pose proof Hty as [Hr Htree].
  assert (tval root = root) as Htr by (unfold tval; by rewrite Hroot).
  set (inside := fun v => 0 <= v < nv /\ 0 <= tval v).
  assert (inside root) as Hir by (split; [done|lia]).
  rewrite list.Forall_forall in Hgood, HE.
  (* a vertex of the tree other than the root has a neighbour as parent, one level up *)
  assert (forall v, inside v -> v <> root ->
    inside (tval v) /\ adj E (tval v) v /\ lval v = lval (tval v) + 1 /\ 1 <= lval v) as Hpar.
  { intros v [Hv Hv0] Hne. destruct (Hin v (tval v) Hv (tree_get v Hv) Hv0) as (l & Hl & Hl0).
    destruct (Hall v Hv) as (l' & Hl' & Hcase). rewrite Hl in Hl'. injection Hl' as <-.
    destruct Hcase as [?|[[? ?]|(_ & Hl1 & p & Hp & Hpr & Hlp)]]; [lia|done|].
    rewrite (tree_get v Hv) in Hp. injection Hp as Hp. subst p.
    assert (lval v = l) as Hlv by (unfold lval; by rewrite Hl).
    assert (lval (tval v) = l - 1) as Hlpv by (unfold lval; by rewrite Hlp).
    split; [|split; [|lia]].
    - split; [done|]. destruct (decide (tval v = root)) as [->|Hpr']; [lia|].
      destruct (Hall (tval v) Hpr) as (l2 & Hl2 & Hcase). rewrite Hlp in Hl2. injection Hl2 as <-.
      destruct Hcase as [?|[[? ?]|(_ & _ & p2 & Hp2 & Hp2r & _)]]; [lia|done|].
      rewrite (tree_get _ Hpr) in Hp2. injection Hp2 as ->. lia.
    - destruct (Hvg v Hv) as [?|[Hx _]]; [done|]. apply list.Exists_exists in Hx as (e & He & Hte); [|done].
      exists e. split; [done|]. destruct Hte as (_ & _ & [[-> ->]|[-> ->]]); [by right|by left]. }
  destruct (levels_are_distances E root inside lval) as [Hd Hre].
  - done.
  - unfold lval. by rewrite Hlr.
  - intros u w [Hu Hu0] (e & He & Hj). destruct (HE e He) as [H0 H1]. unfold in_u32 in H0, H1.
    destruct (Hgood e He) as [[? ?]|(Hb0 & Hb1 & [[? ?]|(Ht0 & Ht1 & Hdiff)])].
    + destruct Hj as [[? ?]|[? ?]]; lia.
    + destruct Hj as [[? ?]|[? ?]]; subst; lia.
    + unfold inside. destruct Hj as [[? ?]|[? ?]]; subst; lia.
  - intros v Hv. assert (forall n v, inside v -> lval v = Z.of_nat n -> walk E root (lval v) v) as Hw.
    { induction n as [|n IH]; intros x Hx Hlx; destruct (decide (x = root)) as [->|Hne].
      - rewrite Hlx. constructor.
      - destruct (Hpar x Hx Hne) as (_ & _ & _ & ?). lia.
      - unfold lval in Hlx. rewrite Hlr in Hlx. cbn in Hlx. lia.
      - destruct (Hpar x Hx Hne) as (Hp & Ha & Hl & _). rewrite Hl.
        eapply walk_step; [apply IH; [done|lia]|done]. }
    apply (Hw (Z.to_nat (lval v))); [done|]. destruct (decide (v = root)) as [->|Hne].
    + unfold lval. by rewrite Hlr.
    + destruct (Hpar v Hv Hne) as (_ & _ & _ & ?). lia.
  - split; [done|]. split; [done|]. intros v Hv Hne. exists (tval v). split; [by apply tree_get|].
    destruct (decide (0 <= tval v)) as [Ht|Ht].
    + left. destruct (Hpar v (conj Hv Ht) Hne) as (Hp & Ha & Hl & _). split; [apply Hp|].
      split; [done|]. exists (lval (tval v)). split; [by apply Hd|]. rewrite <- Hl. by apply Hd.
    + right. split; [lia|]. intros Hx%Hre. by destruct Hx.
Qed.

(** ** Breadth-first trees are accepted *)

Section Complete.
Context (Hbfs : bfs_tree E nv root tree).
Context (Hrange : forall u v, adj E u v -> 0 <= u < nv /\ 0 <= v < nv).

Lemma reach_range v : reachable E root v -> 0 <= v < nv.
Proof.
  intros [n Hw]. destruct Hw as [|n u v _ Ha]; [apply Hbfs|]. by apply (Hrange u v).
Qed.

Lemma dist_zero v : dist E root v 0 -> v = root.
Proof.
  intros [Hw _]. inversion Hw as [Hn Hv|n u w Hu Ha Hn Hv]; [done|].
  apply walk_nonneg in Hu. lia.
Qed.

(** The parent of a reachable vertex, one step nearer. *)
Lemma reach_parent v d :
  dist E root v (d + 1) -> 0 <= d -> v <> root /\ 0 <= tval v < nv /\ adj E (tval v) v /\
    dist E root (tval v) d.
Proof.
  intros Hd Hd0. assert (v <> root) as Hne.
  { intros ->. destruct Hd as [_ Hmin]. pose proof (Hmin 0 (walk_refl _ _)). lia. }
  assert (0 <= v < nv) as Hv by (apply reach_range; exists (d + 1); apply Hd).
  destruct Hbfs as (_ & _ & Hall). destruct (Hall v Hv Hne) as (p & Hp & [[Hpr Hpar]|[_ Hn]]).
  - rewrite tree_get in Hp by done. injection Hp as <-. split; [done|]. split; [done|].
    destruct Hpar as [Ha (d' & Hd' & Hdv)]. split; [done|].
    pose proof (dist_fun _ _ _ _ _ Hd Hdv).
    by replace d with d' by lia.
  - exfalso. apply Hn. exists (d + 1). apply Hd.
Qed.

Lemma reach_dist v : reachable E root v -> exists d, dist E root v d /\ 0 <= d.
Proof.
  intros Hv. destruct (decide (v = root)) as [->|Hne].
  - exists 0. split; [|done]. split; [constructor|]. intros n Hn. by apply walk_nonneg in Hn.
  - destruct Hbfs as (_ & _ & Hall). destruct (Hall v (reach_range v Hv) Hne) as (p & _ & [[_ Hpar]|[_ Hn]]);
      [|done]. destruct Hpar as [_ (d & Hdp & Hd)]. exists (d + 1). split; [done|].
    destruct Hdp as [Hw _]. apply walk_nonneg in Hw. lia.
Qed.

Lemma dist_bound v d : dist E root v d -> d < nv.
Proof.
  intros Hd. assert (0 <= d) as Hd0 by (destruct Hd as [Hw _]; by apply walk_nonneg in Hw).
  enough (forall n v, dist E root v (Z.of_nat n) -> exists l, NoDup l /\ length l = S n /\
    forall x, x ∈ l -> 0 <= x < nv /\ exists d, d <= Z.of_nat n /\ dist E root x d) as Hpath.
  { destruct (Hpath (Z.to_nat d) v) as (l & Hnd & Hll & Hl); [by rewrite Z2Nat.id|].
    pose proof (nodup_bounded l nv ltac:(destruct Hty; lia) Hnd (fun x Hx => proj1 (Hl x Hx))) as Hb.
    unfold alen in Hb. lia. }
  clear v d Hd Hd0. induction n as [|n IH]; intros v Hd.
  - exists [v]. split; [apply NoDup_singleton|]. split; [done|]. intros x ->%list_elem_of_singleton.
    split; [apply reach_range; exists 0; apply Hd|]. by exists 0.
  - rewrite Nat2Z.inj_succ in Hd. unfold Z.succ in Hd.
    destruct (reach_parent v (Z.of_nat n) Hd ltac:(lia)) as (Hne & Hp & Ha & Hdp).
    destruct (IH _ Hdp) as (l & Hnd & Hlen' & Hl). exists (v :: l). split; [|split; [cbn; lia|]].
    + apply list.NoDup_cons. split; [|done]. intros Hv. destruct (Hl v Hv) as (_ & d & Hdl & Hdv).
      pose proof (dist_fun _ _ _ _ _ Hd Hdv). lia.
    + intros x [->|Hx]%elem_of_cons.
      * split; [apply reach_range; eexists; apply Hd|]. exists (Z.of_nat n + 1). split; [lia|done].
      * destruct (Hl x Hx) as (Hr & d & Hdl & Hdx). split; [done|]. exists d. split; [lia|done].
Qed.

(** Nothing is stuck in a breadth-first tree. *)
Lemma not_stuck level' v :
  levels_ok tree nv root level' -> reachable E root v -> ~ stuck tree nv level' v.
Proof.
  intros [Hlen' Hlr' _] Hv. destruct (reach_dist v Hv) as (d & Hd & Hd0). pose proof (dist_bound v d Hd) as Hb.
  enough (forall n v, dist E root v (Z.of_nat n) -> exists m p, chain tree level' m v p /\ (m <= n)%nat) as Hc.
  { destruct (Hc (Z.to_nat d) v) as (m & p & Hch & Hm); [by rewrite Z2Nat.id|].
    intros Hst. pose proof (Hst m p Hch). lia. }
  clear v Hv d Hd Hd0 Hb. induction n as [|n IH]; intros v Hd.
  - apply dist_zero in Hd as ->. exists O, root. split; [by apply (chain_here _ _ _ 0)|lia].
  - assert (0 <= v < nv) as Hv by (apply reach_range; eexists; apply Hd).
    rewrite Nat2Z.inj_succ in Hd. unfold Z.succ in Hd.
    destruct (aget_in level' v ltac:(lia)) as (l & Hl). destruct (decide (0 <= l)).
    + exists O, v. split; [by apply (chain_here _ _ _ l)|lia].
    + destruct (reach_parent v (Z.of_nat n) Hd ltac:(lia)) as (Hne & Hp & Ha & Hdp).
      destruct (IH _ Hdp) as (m & p & Hch & Hm). exists (S m), p. split; [|lia].
      apply (chain_hop _ _ _ _ (tval v) _ l); [done|lia|by apply tree_get|done].
Qed.

Lemma tree_reachable v : 0 <= v < nv -> 0 <= tval v <-> reachable E root v.
Proof.
  intros Hv. destruct (decide (v = root)) as [->|Hne].
  - split; [intros _; exists 0; constructor|]. intros _. unfold tval.
    destruct Hbfs as (Hr & -> & _). cbn. lia.
  - destruct Hbfs as (_ & _ & Hall). destruct (Hall v Hv Hne) as (p & Hp & Hcase).
    rewrite tree_get in Hp by done. injection Hp as ->.
    destruct Hcase as [[Hp Hpar]|[Hneg Hn]].
    + split; [|lia]. intros _. destruct Hpar as [_ (d & _ & Hd)]. exists (d + 1). apply Hd.
    + split; [lia|done].
Qed.

(** The computed level is the distance. *)
Lemma level_is_dist v d :
  levels_ok tree nv root level ->
  (forall v p, 0 <= v < nv -> tree.[v] = Some p -> 0 <= p -> exists l, level.[v] = Some l /\ 0 <= l) ->
  dist E root v d -> lval v = d.
Proof.
  intros [_ Hlr Hall] Hin Hd. assert (0 <= d) as Hd0 by (destruct Hd as [Hw _]; by apply walk_nonneg in Hw).
  enough (forall n v, dist E root v (Z.of_nat n) -> lval v = Z.of_nat n) as Hn.
  { rewrite <- (Z2Nat.id d) in Hd |- * by done. by apply Hn. }
  clear v d Hd Hd0. induction n as [|n IH]; intros v Hd.
  - apply dist_zero in Hd as ->. unfold lval. by rewrite Hlr.
  - assert (0 <= v < nv) as Hv by (apply reach_range; eexists; apply Hd).
    rewrite Nat2Z.inj_succ in Hd |- *. unfold Z.succ in Hd |- *.
    destruct (reach_parent v (Z.of_nat n) Hd ltac:(lia)) as (Hne & Hp & Ha & Hdp).
    destruct (Hin v (tval v) Hv (tree_get v Hv)) as (l & Hl & Hl0); [lia|].
    destruct (Hall v Hv) as (l' & Hl' & Hcase). rewrite Hl in Hl'. injection Hl' as <-.
    destruct Hcase as [?|[[? ?]|(_ & Hl1 & p & Hpt & _ & Hlp)]]; [lia|done|].
    rewrite tree_get in Hpt by done. injection Hpt as Hpt. subst p. apply IH in Hdp.
    unfold lval in Hdp |- *. rewrite Hlp in Hdp. rewrite Hl. cbn in Hdp |- *. lia.
Qed.

Lemma complete_edges :
  levels_ok tree nv root level ->
  (forall v p, 0 <= v < nv -> tree.[v] = Some p -> 0 <= p -> exists l, level.[v] = Some l /\ 0 <= l) ->
  Forall good E.
Proof.
  intros Hok Hin. apply list.Forall_forall. intros e He.
  assert (adj E (v0 e) (v1 e)) as Ha by (exists e; split; [done|by left]).
  destruct (Hrange _ _ Ha) as [H0 H1]. right. split; [lia|]. split; [lia|].
  destruct (decide (0 <= tval (v0 e))) as [Ht|Ht].
  - right. apply tree_reachable in Ht; [|done].
    assert (reachable E root (v1 e)) as Ht1 by (destruct Ht as [n Hn]; exists (n + 1); by eapply walk_step).
    split; [by apply tree_reachable|]. split; [by apply tree_reachable|].
    destruct (reach_dist _ Ht) as (d0 & Hd0 & _). destruct (reach_dist _ Ht1) as (d1 & Hd1 & _).
    rewrite (level_is_dist _ d0 Hok Hin Hd0), (level_is_dist _ d1 Hok Hin Hd1).
    pose proof (proj2 Hd1 _ (walk_step _ _ _ _ _ (proj1 Hd0) Ha)).
    pose proof (proj2 Hd0 _ (walk_step _ _ _ _ _ (proj1 Hd1) (symmetry Ha))). lia.
  - left. split; [lia|]. destruct (decide (0 <= tval (v1 e))) as [Ht1|]; [|lia]. exfalso. apply Ht.
    apply tree_reachable; [done|]. apply tree_reachable in Ht1 as [n Hn]; [|done]. exists (n + 1).
    eapply walk_step; [done|]. by symmetry.
Qed.

Lemma complete_vertices v : 0 <= v < nv -> vertex_good v.
Proof.
  intros Hv. destruct (decide (v = root)) as [->|Hne]; [by left|right].
  assert (0 <= tval v -> exists d, dist E root v (d + 1) /\ 0 <= d) as Hdist.
  { intros Ht. apply tree_reachable in Ht; [|done]. destruct (reach_dist v Ht) as (d & Hd & Hd0).
    exists (d - 1). replace (d - 1 + 1) with d by lia. split; [done|].
    destruct (decide (d = 0)) as [->|]; [by apply dist_zero in Hd|lia]. }
  split.
  - intros Ht. destruct (Hdist Ht) as (d & Hd & Hd0).
    destruct (reach_parent v d Hd Hd0) as (_ & Hp & (e & He & Hj) & Hdp).
    apply list.Exists_exists. exists e. split; [done|].
    assert (tval v <> v) as Hns by (intros Hx; rewrite Hx in Hdp; pose proof (dist_fun _ _ _ _ _ Hd Hdp); lia).
    assert (0 <= tval (tval v)) as Htt by (apply tree_reachable; [done|]; eexists; apply Hdp).
    destruct Hj as [[E0 E1]|[E0 E1]]; unfold tree_edge, in_tree; rewrite ?E0, ?E1; naive_solver lia.
  - intros Hx. destruct (Hdist ltac:(lia)) as (d & Hd & Hd0).
    destruct (reach_parent v d Hd Hd0) as (_ & _ & _ & Hdp). rewrite Hx in Hdp.
    pose proof (dist_fun _ _ _ _ _ Hd Hdp). lia.
Qed.

End Complete.

End Edges.

(** ** The checker *)

Section Checker.
Context (tree : list Z) (m root : Z) (E : list packed_edge).
Context (Hty : typed_tree tree (m + 1) root) (HE : Forall edge_ok E) (Hm : m < 2 ^ 59).

(** What the checker returns: a negative code, or the number of tree edges when
    the levels exist and all edges and vertices pass. *)
Lemma verify_ok :
  exists c, verify_bfs_tree tree m root E (alen E) = Some c /\
    (0 <= c -> bfs_tree E (m + 1) root tree /\ c = alen (filter (in_tree tree (m + 1)) E)) /\
    (c < 0 -> (forall u v, adj E u v -> 0 <= u < m + 1 /\ 0 <= v < m + 1) ->
      ~ bfs_tree E (m + 1) root tree).
Proof.
  pose proof Hty as [Hr Htree]. unfold verify_bfs_tree.
  assert (m <? root = false) as -> by lia.
  destruct (Htree root Hr) as (p & Hp & _). rewrite Hp. cbn [mbind option_bind].
  destruct (Z.eqb_spec p root) as [->|Hpr]; cbn [negb].
  2:{ exists (-999). split; [done|]. split; [lia|]. intros _ _ (_ & Hx & _). congruence. }
  set (block := xmalloc_large (2 * (m + 1))).
  assert (alen block = 2 * (m + 1)) as Hblock.
  { unfold block, xmalloc_large, alen. rewrite length_replicate, u64_id by (unfold in_u64; lia).
    rewrite Z.div_mul by lia. lia. }
  unfold alen in Hblock.
  destruct (compute_levels_ok tree (m + 1) root (drop (Z.to_nat (m + 1)) block) Hty)
    as (er & level & -> & Her & H0 & H1).
  { unfold alen. rewrite length_drop. lia. }
  cbn [mbind option_bind]. destruct (Z.eqb_spec er 0) as [->|Hne]; cbn [negb].
  2:{ exists er. split; [done|]. split; [lia|]. intros _ Hrange Hbfs.
      destruct (H1 Hne) as (level' & k & pk & Hok & Hk & Hpk & Hpk0 & Hst).
      apply (not_stuck tree (m + 1) root E Hty Hbfs Hrange level' k Hok); [|done].
      apply (tree_reachable tree (m + 1) root E Hty Hbfs k Hk). unfold tval. by rewrite Hpk. }
  destruct (H0 eq_refl) as [Hok Hin]. clear H0 H1. pose proof (lv_len _ _ _ _ Hok) as Hlen.
  destruct (fill_range_ok (take (Z.to_nat (m + 1)) block) 0 (m + 1) 0) as (seen & -> & Hsl & Hsg);
    [lia|unfold alen; rewrite length_take; lia|]. cbn [mbind option_bind].
  assert (alen seen = m + 1) as Hsl' by (rewrite Hsl; unfold alen; rewrite length_take; lia).
  destruct (check_edges_ok tree level (m + 1) root E Hty Hlen HE seen) as
    (s & Hs & Hts & Hse & Hiff & Hssl & Hs0); [done| |].
  { intros v Hv. rewrite Hsg by lia. by assert ((0 <=? v) && (v <? m + 1) = true) as -> by lia. }
  rewrite Z.add_simpl_r in Hs. rewrite Hs. cbn [mbind option_bind]. rewrite Hts.
  destruct (Z.eqb_spec (err s) 0) as [He|He].
  2:{ cbn [mbind option_bind]. assert (err s =? 0 = false) as -> by lia. cbn [negb].
      exists (err s). split; [done|]. split; [lia|]. intros _ Hrange Hbfs. apply He, Hiff.
      by apply (complete_edges tree level (m + 1) root E Hty Hbfs Hrange Hok). }
  rewrite He. destruct (Hs0 He) as [Hn Hsv].
  destruct (vertices_loop_ok tree (m + 1) root E Hty (seen_edge s) Hsv) as (er & -> & Her' & Hiffv).
  cbn [mbind option_bind]. destruct (Z.eqb_spec er 0) as [->|Hne]; cbn [negb].
  - exists (nedge_traversed s). split; [done|]. split.
    + intros _. split; [|done].
      eapply (accepted_sound tree level (m + 1) root E); try done; [by apply Hiff|by apply Hiffv].
    + intros Hneg. pose proof (alen_nonneg (filter (in_tree tree (m + 1)) E)). lia.
  - exists er. split; [done|]. split; [lia|]. intros _ Hrange Hbfs. apply Hne, Hiffv. intros v Hv.
    by eapply (complete_vertices tree).
Qed.

End Checker.

(** The checker is sound: when [verify_bfs_tree] returns a count, the array is
    a breadth-first tree of the root's component and the count is the number of
    edges of the list inside the component. *)
Theorem verify_sound tree m root E c :
  typed_tree tree (m + 1) root -> Forall edge_ok E -> m < 2 ^ 59 ->
  verify_bfs_tree tree m root E (alen E) = Some c -> 0 <= c ->
  bfs_tree E (m + 1) root tree /\ c = alen (filter (in_tree tree (m + 1)) E) /\
  forall e, e ∈ E -> in_tree tree (m + 1) e -> reachable E root (v0 e) /\ reachable E root (v1 e).
Proof.
  intros Hty HE Hm Hc Hc0. destruct (verify_ok tree m root E Hty HE Hm) as (c' & Hc' & Hgood & _).
  rewrite Hc in Hc'. injection Hc' as <-. destruct (Hgood Hc0) as [Hbfs Hcount].
  split; [done|]. split; [done|]. intros e He [Hlt Ht].
  assert (0 <= v0 e < m + 1) as Hv.
  { rewrite list.Forall_forall in HE. destruct (HE e He) as [H0 _]. unfold in_u32 in H0. lia. }
  apply (tree_reachable tree (m + 1) root E Hty Hbfs _ Hv) in Ht. split; [done|].
  destruct Ht as [n Hn]. exists (n + 1). eapply walk_step; [done|]. exists e. split; [done|by left].
Qed.

Lemma verify_sound_witness :
  bfs_tree [MkEdge 0 1; MkEdge 1 2; MkEdge 3 3] 4 0 [0; 0; 1; -1] /\
  2 = alen (filter (in_tree [0; 0; 1; -1] 4) [MkEdge 0 1; MkEdge 1 2; MkEdge 3 3]) /\
  forall e, e ∈ [MkEdge 0 1; MkEdge 1 2; MkEdge 3 3] -> in_tree [0; 0; 1; -1] 4 e ->
    reachable [MkEdge 0 1; MkEdge 1 2; MkEdge 3 3] 0 (v0 e) /\
    reachable [MkEdge 0 1; MkEdge 1 2; MkEdge 3 3] 0 (v1 e).
Proof.
  apply (verify_sound [0; 0; 1; -1] 3 0 [MkEdge 0 1; MkEdge 1 2; MkEdge 3 3] 2).
  - split; [lia|]. intros v Hv.
    assert (v = 0 \/ v = 1 \/ v = 2 \/ v = 3) as [-> | [-> | [-> | ->]]] by lia;
      (eexists; split; [reflexivity|lia]).
  - unfold edge_ok, in_u32. repeat (constructor; [cbn; lia|]). constructor.
  - lia.
  - vm_compute. reflexivity.
  - lia.
Defined.

(** C11: on the edge list's own vertex range, for every array whose entries are
    below the number of vertices and in which only the root is its own parent
    (others make the code read out of bounds or assert), the checker returns,
    within its arrays and assertions, and decides the question: the result is a
    count exactly for the breadth-first trees and an error code for all other such
    arrays. *)
Theorem verify_decides tree m root E :
  typed_tree tree (m + 1) root -> Forall edge_ok E -> max_vertex E m ->
  exists c, verify_bfs_tree tree m root E (alen E) = Some c /\
    (0 <= c <-> bfs_tree E (m + 1) root tree).
Proof.
  intros Hty HE (Hm & Hrange & _).
  destruct (verify_ok tree m root E Hty HE ltac:(lia)) as (c & Hc & Hgood & Hbad).
  exists c. split; [done|]. split; [by intros Hc0; apply Hgood|]. intros Hbfs.
  destruct (decide (0 <= c)); [done|]. exfalso. apply Hbad; [lia|done|done].
Qed.

Lemma verify_decides_witness :
  exists c, verify_bfs_tree [0; 0; 0] 2 0 [MkEdge 0 1; MkEdge 1 2] 2 = Some c /\
    (0 <= c <-> bfs_tree [MkEdge 0 1; MkEdge 1 2] 3 0 [0; 0; 0]).
Proof.
  apply (verify_decides [0; 0; 0] 2 0 [MkEdge 0 1; MkEdge 1 2]).
  - split; [lia|]. intros v Hv. assert (v = 0 \/ v = 1 \/ v = 2) as [-> | [-> | ->]] by lia;
      (eexists; split; [reflexivity|lia]).
  - unfold edge_ok, in_u32. repeat (constructor; [cbn; lia|]). constructor.
  - split; [lia|]. split.
    + intros u v (e & He & Hj). rewrite !elem_of_cons in He. destruct He as [->|[->|He]];
        [| |by apply not_elem_of_nil in He]; destruct Hj as [[<- <-]|[<- <-]]; cbn; lia.
    + right. exists 1, (MkEdge 1 2). split; [right; left|by right].
Defined.

End Verify.
