(* ===== verification/SeqCsr.v ===== *)
(** * The compressed-row search (sources/graph500/seq-csr/seq-csr.c)

    The graph as compressed sparse rows: two offsets per vertex and one array of
    neighbours, filled, sorted and freed of duplicates row by row; and the
    search, level by level, over it. *)

From Stdlib Require Import ZArith Lia Sorted.
From stdpp Require Import list numbers sorting.
From S2P Require Import Prelude Arrays Graph.
#[local] Open Scope Z_scope.

Module SeqCsr.
Import Graph.

(** ** The code *)

Definition MINVECT_SIZE : Z := 2.

(** The file's globals; [xadj] is [xadjstore] from cell [MINVECT_SIZE] on. *)
Record globals := MkGlobals {
  maxvtx : Z;
  nv : Z;
  xoff : list Z;
  xadjstore : list Z;
}.

(** [xmalloc_large_ext(n * sizeof(int64_t))]: zeroed words. *)
Definition xmalloc_words (n : Z) : list Z := replicate (Z.to_nat (u64 (n * 8) / 8)) 0.

Definition xadj_get (store : list Z) (k : Z) : option Z := store.[k + MINVECT_SIZE].
Definition xadj_set (store : list Z) (k v : Z) : option (list Z) := store.[k + MINVECT_SIZE <- v].

Definition XOFF (xoff : list Z) (k : Z) : option Z := xoff.[2 * k].
Definition XENDOFF (xoff : list Z) (k : Z) : option Z := xoff.[1 + 2 * k].
Definition set_XOFF (xoff : list Z) (k v : Z) : option (list Z) := xoff.[2 * k <- v].
Definition set_XENDOFF (xoff : list Z) (k v : Z) : option (list Z) := xoff.[1 + 2 * k <- v].

Definition find_nv (IJ : list packed_edge) (nedge : Z) : option (Z * Z) :=
  maxvtx ← for_z 0 nedge (max_step IJ) (-1); Some (maxvtx, 1 + maxvtx).

(** [if (i >= 0) ++XOFF(i);] *)
Definition count_end (i : Z) (xoff : list Z) : option (list Z) :=
  if 0 <=? i then d ← XOFF xoff i; set_XOFF xoff i (d + 1) else Some xoff.

(** The body of the loop that counts degrees. *)
Definition count_edge (IJ : list packed_edge) (k : Z) (xoff : list Z) : option (list Z) :=
  e ← IJ.[k];
  let i := get_v0_from_edge e in
  let j := get_v1_from_edge e in
  if negb (i =? j) then xoff ← count_end i xoff; count_end j xoff
  else Some xoff.

(** The body of the loop that turns degrees into offsets. *)
Definition offset_step (k : Z) (s : list Z * Z) : option (list Z * Z) :=
  let '(xoff, accum) := s in
  tmp ← XOFF xoff k;
  let tmp := if tmp <? MINVECT_SIZE then MINVECT_SIZE else tmp in
  xoff ← set_XOFF xoff k accum;
  Some (xoff, accum + tmp).

Definition setup_deg_off (IJ : list packed_edge) (nedge nv : Z) (xoff : list Z)
    : option (list Z * list Z) :=
  xoff ← for_z 0 (2 * nv + 2) (fun k xoff => xoff.[k <- 0]) xoff;
  xoff ← for_z 0 nedge (count_edge IJ) xoff;
  '(xoff, accum) ← for_z 0 nv offset_step (xoff, 0);
  xoff ← set_XOFF xoff nv accum;
  xoff ← for_z 0 nv (fun k xoff => o ← XOFF xoff k; set_XENDOFF xoff k o) xoff;
  let store := xmalloc_words (accum + MINVECT_SIZE) in
  store ← for_z 0 (accum + MINVECT_SIZE) (fun k store => store.[k <- -1]) store;
  Some (xoff, store).

Definition scatter_edge (i j : Z) (s : list Z * list Z) : option (list Z * list Z) :=
  let '(xoff, store) := s in
  where_ ← XENDOFF xoff i;
  xoff ← set_XENDOFF xoff i (where_ + 1);
  store ← xadj_set store where_ j;
  Some (xoff, store).

Definition i64cmp (a b : Z) : Z := if a <? b then -1 else if b <? a then 1 else 0.

#[export] Instance i64cmp_dec : RelDecision (fun a b => i64cmp a b <= 0).
Proof. intros a b. apply _. Defined.

(** [qsort(&a[lo], n, sizeof(int64_t), i64cmp)] *)
Definition qsort (a : list Z) (lo n : Z) : option (list Z) :=
  assert! (0 <=? lo) && (0 <=? n) && (lo + n <=? alen a);
  Some (take (Z.to_nat lo) a ++
        merge_sort (fun a b => i64cmp a b <= 0) (take (Z.to_nat n) (drop (Z.to_nat lo) a)) ++
        drop (Z.to_nat (lo + n)) a).

(** The body of the loop that drops repeated neighbours. *)
Definition squeeze_step (k : Z) (s : Z * list Z) : option (Z * list Z) :=
  let '(kcur, store) := s in
  a ← xadj_get store k;
  b ← xadj_get store kcur;
  if negb (a =? b) then
    store ← xadj_set store (kcur + 1) a; Some (kcur + 1, store)
  else Some (kcur, store).

Definition pack_vtx_edges (i : Z) (s : list Z * list Z) : option (list Z * list Z) :=
  let '(xoff, store) := s in
  o ← XOFF xoff i;
  e ← XENDOFF xoff i;
  if e <=? o + 1 then Some (xoff, store)
  else
    store ← qsort store (o + MINVECT_SIZE) (e - o);
    '(kcur, store) ← for_z (o + 1) e squeeze_step (o, store);
    let kcur := kcur + 1 in
    store ← for_z kcur e (fun k store => xadj_set store k (-1)) store;
    xoff ← set_XENDOFF xoff i kcur;
    Some (xoff, store).

Definition pack_edges (nv : Z) (s : list Z * list Z) : option (list Z * list Z) :=
  for_z 0 nv pack_vtx_edges s.

(** The body of the loop of [gather_edges]. *)
Definition gather_edge (IJ : list packed_edge) (k : Z) (s : list Z * list Z)
    : option (list Z * list Z) :=
  e ← IJ.[k];
  let i := get_v0_from_edge e in
  let j := get_v1_from_edge e in
  if (0 <=? i) && (0 <=? j) && negb (i =? j) then s ← scatter_edge i j s; scatter_edge j i s
  else Some s.

Definition gather_edges (IJ : list packed_edge) (nedge nv : Z) (s : list Z * list Z)
    : option (list Z * list Z) :=
  s ← for_z 0 nedge (gather_edge IJ) s; pack_edges nv s.

Definition create_graph_from_edgelist (IJ : list packed_edge) (nedge : Z) : option globals :=
  '(maxvtx, nv) ← find_nv IJ nedge;
  let xoff := xmalloc_words (2 * nv + 2) in
  s ← setup_deg_off IJ nedge nv xoff;
  '(xoff, store) ← gather_edges IJ nedge nv s;
  Some (MkGlobals maxvtx nv xoff store).

(** The body of the loop over the level: all neighbours of [vlist[k]]. *)
Definition scan_vertex (g : globals) (k : Z) (s : search) : option search :=
  v ← (s_vlist s).[k];
  veo ← XENDOFF (xoff g) v;
  o ← XOFF (xoff g) v;
  for_z o veo (fun vo s => j ← xadj_get (xadjstore g) vo; visit (fun t => t =? -1) v j s) s.

(** [while (k1 != k2)], one level per round. *)
Fixpoint bfs_loop (fuel : nat) (g : globals) (k1 : Z) (s : search) : option search :=
  match fuel with
  | O => None
  | S fuel =>
      if negb (k1 =? s_k2 s) then
        let oldk2 := s_k2 s in
        s ← for_z k1 oldk2 (scan_vertex g) s;
        bfs_loop fuel g oldk2 s
      else Some s
  end.

Definition make_bfs_tree (g : globals) (bfs_tree_out : list Z) (srcvtx : Z) : option (list Z * Z) :=
  let vlist := xmalloc_words (nv g) in
  bfs_tree ← for_z 0 (nv g) (fun k t => t.[k <- -1]) bfs_tree_out;
  vlist ← vlist.[0 <- srcvtx];
  bfs_tree ← bfs_tree.[srcvtx <- srcvtx];
  s ← bfs_loop (S (Z.to_nat (nv g))) g 0 (MkSearch bfs_tree vlist 1);
  Some (s_tree s, maxvtx g).

(** ** Rows *)

(** The other ends of the edges at [v], among the first [k], in edge order. *)
Fixpoint row (E : list packed_edge) (k : nat) (v : Z) : list Z :=
  match k with
  | O => []
  | S k =>
      row E k v ++
      match E !! k with
      | Some e =>
          if v0 e =? v1 e then []
          else if v0 e =? v then [v1 e] else if v1 e =? v then [v0 e] else []
      | None => []
      end
  end.

Lemma row_mono E k k' v : (k <= k')%nat -> alen (row E k v) <= alen (row E k' v).
Proof.
  induction 1 as [|k' _ IH]; [done|]. cbn [row]. rewrite alen_app.
  pose proof (alen_nonneg (match E !! k' with
    | Some e => if v0 e =? v1 e then [] else if v0 e =? v then [v1 e] else if v1 e =? v then [v0 e] else []
    | None => [] end)). lia.
Qed.

Lemma row_adj E k v w : w ∈ row E k v -> adj E v w /\ w <> v.
Proof.
  induction k as [|k IH]; cbn [row]; [by intros ?%not_elem_of_nil|].
  rewrite elem_of_app. intros [?|Hw]; [by apply IH|].
  destruct (E !! k) as [e|] eqn:He; [|by apply not_elem_of_nil in Hw].
  apply list_elem_of_lookup_2 in He.
  destruct (Z.eqb_spec (v0 e) (v1 e)); [by apply not_elem_of_nil in Hw|].
  destruct (Z.eqb_spec (v0 e) v).
  - apply list_elem_of_singleton in Hw as ->. split; [|congruence]. exists e. split; [done|by left].
  - destruct (Z.eqb_spec (v1 e) v); [|by apply not_elem_of_nil in Hw].
    apply list_elem_of_singleton in Hw as ->. split; [|congruence]. exists e. split; [done|by right].
Qed.

Lemma row_complete E k v w i e :
  (i < k)%nat -> E !! i = Some e -> joins e v w -> w <> v -> w ∈ row E k v.
Proof.
  intros Hi He Hj Hne. induction k as [|k IH]; [lia|]. cbn [row]. apply elem_of_app.
  destruct (decide (i = k)) as [->|]; [right|left; apply IH; lia]. rewrite He.
  destruct (Z.eqb_spec (v0 e) (v1 e)); [destruct Hj as [[? ?]|[? ?]]; congruence|].
  destruct Hj as [[E0 E1]|[E0 E1]].
  - destruct (Z.eqb_spec (v0 e) v); [|done]. apply list_elem_of_singleton. done.
  - destruct (Z.eqb_spec (v0 e) v); [congruence|]. destruct (Z.eqb_spec (v1 e) v); [|done].
    apply list_elem_of_singleton. done.
Qed.

(** ** Offsets *)

(** The two offsets of every vertex. *)
Definition offsets (n : Z) (xoff : list Z) (f g : Z -> Z) : Prop :=
  alen xoff = 2 * n + 2 /\
  forall v, 0 <= v < n -> XOFF xoff v = Some (f v) /\ XENDOFF xoff v = Some (g v).

Definition upd (f : Z -> Z) (k x v : Z) : Z := if decide (v = k) then x else f v.

Lemma offsets_set_off n xoff f g k x :
  offsets n xoff f g -> 0 <= k < n ->
  exists xoff', set_XOFF xoff k x = Some xoff' /\ offsets n xoff' (upd f k x) g.
Proof.
  intros [Hl Hv] Hk. unfold set_XOFF. rewrite aset_in by lia. eexists. split; [done|].
  split; [by rewrite alen_insert|]. intros v Hvn. destruct (Hv v Hvn) as [Hf Hg].
  unfold XOFF, XENDOFF, upd in *. rewrite !aget_insert by lia.
  rewrite (decide_False (P := 1 + 2 * v = 2 * k)) by lia. split; [|done].
  destruct (decide (v = k)) as [->|]; [by rewrite decide_True|]. by rewrite decide_False by lia.
Qed.

Lemma offsets_set_end n xoff f g k x :
  offsets n xoff f g -> 0 <= k < n ->
  exists xoff', set_XENDOFF xoff k x = Some xoff' /\ offsets n xoff' f (upd g k x).
Proof.
  intros [Hl Hv] Hk. unfold set_XENDOFF. rewrite aset_in by lia. eexists. split; [done|].
  split; [by rewrite alen_insert|]. intros v Hvn. destruct (Hv v Hvn) as [Hf Hg].
  unfold XOFF, XENDOFF, upd in *. rewrite !aget_insert by lia.
  rewrite (decide_False (P := 2 * v = 1 + 2 * k)) by lia. split; [done|].
  destruct (decide (v = k)) as [->|]; [by rewrite decide_True|]. by rewrite decide_False by lia.
Qed.

Lemma offsets_ext n xoff f g f' g' :
  offsets n xoff f g -> (forall v, 0 <= v < n -> f v = f' v /\ g v = g' v) -> offsets n xoff f' g'.
Proof.
  intros [Hl Hv] He. split; [done|]. intros v Hvn. destruct (He v Hvn) as [<- <-]. by apply Hv.
Qed.

Section Build.
Context (E : list packed_edge) (HE : Forall edge_ok E) (m : Z) (Hm : max_vertex E m).
Abbreviation n := (m + 1).

(** Room of a row, start of a row. *)
Definition room (v : Z) : Z := Z.max MINVECT_SIZE (alen (row E (length E) v)).
Fixpoint start_nat (v : nat) : Z :=
  match v with O => 0 | S v => start_nat v + room (Z.of_nat v) end.
Definition start (v : Z) : Z := start_nat (Z.to_nat v).

Lemma room_pos v : 2 <= room v.
Proof. unfold room, MINVECT_SIZE. lia. Qed.

Lemma start_S v : 0 <= v -> start (v + 1) = start v + room v.
Proof.
  intros Hv. unfold start. replace (Z.to_nat (v + 1)) with (S (Z.to_nat v)) by lia.
  cbn [start_nat]. by rewrite Z2Nat.id.
Qed.

Lemma start_gap u v : 0 <= u < v -> start u + room u <= start v.
Proof.
  intros Hu. rewrite <- start_S by lia.
  assert (forall k : nat, start (u + 1) <= start (u + 1 + Z.of_nat k)) as Hk.
  { induction k as [|k IH]; [by rewrite Z.add_0_r|]. rewrite Nat2Z.inj_succ. unfold Z.succ.
    rewrite Z.add_assoc, (start_S (u + 1 + Z.of_nat k)) by lia. pose proof (room_pos (u + 1 + Z.of_nat k)). lia. }
  specialize (Hk (Z.to_nat (v - (u + 1)))). by replace (u + 1 + _) with v in Hk by lia.
Qed.

Lemma start_nonneg v : 0 <= v -> 0 <= start v.
Proof.
  intros Hv. destruct (decide (v = 0)) as [->|]; [done|].
  pose proof (start_gap 0 v ltac:(lia)). pose proof (room_pos 0). change (start 0) with 0 in *. lia.
Qed.

Lemma edge_get k : (k < length E)%nat -> exists e, E !! k = Some e /\ 0 <= v0 e < n /\ 0 <= v1 e < n.
Proof.
  intros Hk. destruct (lookup_lt_is_Some_2 E k Hk) as (e & He). exists e. split; [done|].
  destruct Hm as (_ & Hr & _). apply Hr. exists e. split; [by eapply list_elem_of_lookup_2|by left].
Qed.

(** The number of entries of a row after one more edge. *)
Lemma row_length_S k e v :
  E !! k = Some e ->
  alen (row E (S k) v) = alen (row E k v) +
    (if decide (v0 e <> v1 e /\ (v0 e = v \/ v1 e = v)) then 1 else 0).
Proof.
  intros He. cbn [row]. rewrite He, alen_app.
  destruct (Z.eqb_spec (v0 e) (v1 e)), (Z.eqb_spec (v0 e) v), (Z.eqb_spec (v1 e) v);
    case_decide; try (exfalso; naive_solver); done.
Qed.

Lemma count_end_ok i xoff f g :
  0 <= i < n -> offsets n xoff f g ->
  exists xoff', count_end i xoff = Some xoff' /\ offsets n xoff' (upd f i (f i + 1)) g.
Proof.
  intros Hi Ho. unfold count_end. assert (0 <=? i = true) as -> by lia.
  destruct (proj2 Ho i Hi) as [-> _]. cbn [mbind option_bind]. by apply offsets_set_off.
Qed.

Lemma count_edge_ok k xoff :
  (k < length E)%nat -> offsets n xoff (fun v => alen (row E k v)) (fun _ => 0) ->
  exists xoff', count_edge E (Z.of_nat k) xoff = Some xoff' /\
    offsets n xoff' (fun v => alen (row E (S k) v)) (fun _ => 0).
Proof.
  intros Hk Ho. destruct (edge_get k Hk) as (e & He & H0 & H1). unfold count_edge.
  rewrite aget_nat, He. cbn [mbind option_bind]. unfold get_v0_from_edge, get_v1_from_edge.
  destruct (Z.eqb_spec (v0 e) (v1 e)) as [Eq|Hne]; cbn [negb].
  - exists xoff. split; [done|]. eapply offsets_ext; [exact Ho|]. intros v Hv. cbn beta.
    rewrite (row_length_S k e v He), decide_False by tauto. lia.
  - destruct (count_end_ok (v0 e) xoff _ _ H0 Ho) as (x1 & -> & Ho1). cbn [mbind option_bind].
    destruct (count_end_ok (v1 e) x1 _ _ H1 Ho1) as (x2 & -> & Ho2). exists x2. split; [done|].
    eapply offsets_ext; [exact Ho2|]. intros v Hv. split; [|done]. rewrite (row_length_S k e v He).
    unfold upd. repeat case_decide; subst; try lia; exfalso; naive_solver.
Qed.

Lemma offset_step_ok k xoff :
  0 <= k < n ->
  offsets n xoff (fun v => if v <? k then start v else alen (row E (length E) v)) (fun _ => 0) ->
  exists xoff', offset_step k (xoff, start k) = Some (xoff', start (k + 1)) /\
    offsets n xoff' (fun v => if v <? k + 1 then start v else alen (row E (length E) v)) (fun _ => 0).
Proof.
  intros Hk Ho. unfold offset_step. destruct (proj2 Ho k Hk) as [-> _]. cbn [mbind option_bind].
  assert (k <? k = false) as -> by lia.
  destruct (offsets_set_off n xoff _ _ k (start k) Ho Hk) as (x & -> & Hx). cbn [mbind option_bind].
  exists x. split.
  - rewrite start_S by lia. do 3 f_equal. unfold room, MINVECT_SIZE.
    destruct (Z.ltb_spec (alen (row E (length E) k)) 2); lia.
  - eapply offsets_ext; [exact Hx|]. intros v Hv. split; [|done]. unfold upd.
    destruct (decide (v = k)) as [->|].
    + by assert (k <? k + 1 = true) as -> by lia.
    + destruct (Z.ltb_spec v k), (Z.ltb_spec v (k + 1)); lia || done.
Qed.

(** The rows fit: their starts stay below twice the vertices and edges. *)
Fixpoint total (f : Z -> Z) (N : nat) : Z :=
  match N with O => 0 | S N => total f N + f (Z.of_nat N) end.

Lemma total_le f g N : (forall v, 0 <= v < Z.of_nat N -> f v <= g v) -> total f N <= total g N.
Proof.
  induction N as [|N IH]; intros H; [done|]. cbn [total].
  pose proof (H (Z.of_nat N) ltac:(lia)). assert (total f N <= total g N) by (apply IH; intros; apply H; lia). lia.
Qed.

Lemma total_add f g N : total (fun v => f v + g v) N = total f N + total g N.
Proof. induction N as [|N IH]; [done|]. cbn [total]. lia. Qed.

Lemma total_one a N :
  total (fun v => if decide (v = a) then 1 else 0) N = if decide (0 <= a < Z.of_nat N) then 1 else 0.
Proof.
  induction N as [|N IH]; cbn [total]; [by rewrite decide_False by lia|]. rewrite IH.
  repeat case_decide; lia.
Qed.

Lemma total_rows k N : (k <= length E)%nat -> total (fun v => alen (row E k v)) N <= 2 * Z.of_nat k.
Proof.
  induction k as [|k IH]; intros Hk.
  - clear Hk. induction N as [|N IHN]; [done|]. cbn [total row] in *. change (alen []) with 0 in *. lia.
  - destruct (edge_get k ltac:(lia)) as (e & He & _). specialize (IH ltac:(lia)).
    assert (total (fun v => alen (row E (S k) v)) N <=
      total (fun v => alen (row E k v) +
        ((if decide (v = v0 e) then 1 else 0) + (if decide (v = v1 e) then 1 else 0))) N) as Hle.
    { apply total_le. intros v Hv. rewrite (row_length_S k e v He). repeat case_decide; try lia; naive_solver. }
    rewrite total_add, total_add, !total_one in Hle. repeat case_decide; lia.
Qed.

Lemma start_bound v : 0 <= v -> start v <= 2 * v + 2 * alen E.
Proof.
  intros Hv. unfold start. assert (forall N, start_nat N <= 2 * Z.of_nat N + total (fun v => alen (row E (length E) v)) N) as H.
  { induction N as [|N IH]; [done|]. cbn [start_nat total]. unfold room, MINVECT_SIZE.
    pose proof (alen_nonneg (row E (length E) (Z.of_nat N))). lia. }
  specialize (H (Z.to_nat v)). pose proof (total_rows (length E) (Z.to_nat v) ltac:(lia)).
  unfold alen at 1. lia.
Qed.

Lemma csr_alen_xmalloc k : 0 <= k < 2 ^ 61 -> alen (xmalloc_words k) = k.
Proof.
  intros Hk. unfold xmalloc_words, alen. rewrite length_replicate, u64_id by (unfold in_u64; lia).
  rewrite Z.div_mul by lia. lia.
Qed.

(** A row of the array of neighbours. *)
Definition row_at (store : list Z) (lo : Z) (l : list Z) : Prop :=
  forall i, 0 <= i < alen l -> xadj_get store (lo + i) = l.[i].

(** The state between the phases: every vertex has the row [R v]. *)
Definition rows_ok (R : Z -> list Z) (s : list Z * list Z) : Prop :=
  offsets n (fst s) start (fun v => start v + alen (R v)) /\
  alen (snd s) = start n + MINVECT_SIZE /\
  forall v, 0 <= v < n -> alen (R v) <= room v /\ row_at (snd s) (start v) (R v).

Lemma setup_ok xoff0 :
  alen E < 2 ^ 58 -> alen xoff0 = 2 * n + 2 ->
  exists s, setup_deg_off E (alen E) n xoff0 = Some s /\ rows_ok (row E 0) s.
Proof.
  intros Hlen Hx. destruct Hm as [Hmr _]. unfold setup_deg_off.
  destruct (fill_range_ok xoff0 0 (2 * n + 2) 0) as (x1 & -> & Hl1 & Hg1); [lia|lia|].
  cbn [mbind option_bind].
  destruct (for_z_inv (fun i x => offsets n x (fun v => alen (row E (Z.to_nat i) v)) (fun _ => 0))
    0 (alen E) (count_edge E) x1) as (x2 & -> & Ho2).
  - apply alen_nonneg.
  - split; [lia|]. intros v Hv. unfold XOFF, XENDOFF. rewrite !Hg1 by lia.
    assert ((0 <=? 2 * v) && (2 * v <? 2 * n + 2) = true) as -> by lia.
    assert ((0 <=? 1 + 2 * v) && (1 + 2 * v <? 2 * n + 2) = true) as -> by lia. done.
  - intros i x Hi Ho. destruct (count_edge_ok (Z.to_nat i) x) as (x' & Hx' & Ho').
    + unfold alen in Hi. lia.
    + done.
    + rewrite Z2Nat.id in Hx' by lia. exists x'. split; [done|].
      by replace (Z.to_nat (i + 1)) with (S (Z.to_nat i)) by lia.
  - cbn [mbind option_bind].
    replace (Z.to_nat (alen E)) with (length E) in Ho2 by (unfold alen; lia).
    destruct (for_z_inv (fun i '(x, accum) => accum = start i /\
      offsets n x (fun v => if v <? i then start v else alen (row E (length E) v)) (fun _ => 0))
      0 n offset_step (x2, 0)) as ([x3 accum] & -> & -> & Ho3).
    + lia.
    + split; [done|]. eapply offsets_ext; [exact Ho2|]. intros v Hv.
      by assert (v <? 0 = false) as -> by lia.
    + intros i [x accum] Hi [-> Ho]. destruct (offset_step_ok i x Hi Ho) as (x' & -> & Ho').
      eexists. split; [done|]. done.
    + cbn [mbind option_bind]. unfold set_XOFF at 1. pose proof Ho3 as [Hl3 Hg3].
      rewrite aset_in by lia. cbn [mbind option_bind].
      set (x4 := <[Z.to_nat (2 * n) := start n]> x3).
      assert (offsets n x4 start (fun _ => 0)) as Ho4.
      { unfold x4. split; [by rewrite alen_insert|]. intros v Hv. destruct (Hg3 v Hv) as [Hf Hg].
        unfold XOFF, XENDOFF in *. rewrite !aget_insert by lia. rewrite !decide_False by lia.
        assert (v <? n = true) as E' by lia. rewrite E' in Hf. done. }
      destruct (for_z_inv (fun i x => offsets n x start (fun v => if v <? i then start v else 0)) 0 n
        (fun k xoff => o ← XOFF xoff k; set_XENDOFF xoff k o) x4) as (x5 & -> & Ho5).
      * lia.
      * eapply offsets_ext; [exact Ho4|]. intros v Hv. by assert (v <? 0 = false) as -> by lia.
      * intros i x Hi Ho. destruct (proj2 Ho i Hi) as [-> _]. cbn [mbind option_bind].
        destruct (offsets_set_end n x _ _ i (start i) Ho Hi) as (x' & -> & Ho'). exists x'.
        split; [done|]. eapply offsets_ext; [exact Ho'|]. intros v Hv. split; [done|]. unfold upd.
        destruct (decide (v = i)) as [->|]; [by assert (i <? i + 1 = true) as -> by lia|].
        destruct (Z.ltb_spec v i), (Z.ltb_spec v (i + 1)); lia || done.
      * cbn [mbind option_bind]. pose proof (start_bound n ltac:(lia)) as Hsb.
        pose proof (start_nonneg n ltac:(lia)) as Hsn. pose proof (alen_nonneg E).
        assert (alen (xmalloc_words (start n + MINVECT_SIZE)) = start n + MINVECT_SIZE) as Hst
          by (apply csr_alen_xmalloc; unfold MINVECT_SIZE; lia).
        destruct (fill_range_ok (xmalloc_words (start n + MINVECT_SIZE)) 0 (start n + MINVECT_SIZE) (-1))
          as (store & -> & Hls & _); [lia|lia|]. cbn [mbind option_bind].
        eexists. split; [done|]. split; [|split; [cbn [snd]; lia|]].
        -- cbn [fst row]. eapply offsets_ext; [exact Ho5|]. intros v Hv.
           cbn beta. assert (v <? n = true) as -> by lia. change (alen []) with 0. lia.
        -- intros v Hv. cbn [row]. change (alen []) with 0. split; [pose proof (room_pos v); lia|].
           intros i Hi. change (alen []) with 0 in Hi. lia.
Qed.

(** ** Filling the rows *)

Definition updR (R : Z -> list Z) (k : Z) (l : list Z) (v : Z) : list Z := if decide (v = k) then l else R v.

Lemma rows_ok_ext R R' s :
  rows_ok R s -> (forall v, 0 <= v < n -> R v = R' v) -> rows_ok R' s.
Proof.
  intros (Ho & Hl & Hr) He. split; [|split; [done|]].
  - eapply offsets_ext; [exact Ho|]. intros v Hv. cbn beta. by rewrite He.
  - intros v Hv. rewrite <- He by done. by apply Hr.
Qed.

(** Rows of different vertices do not meet. *)
Lemma row_disjoint u v i j :
  0 <= u < n -> 0 <= v < n -> u <> v -> 0 <= i < room u -> 0 <= j < room v -> start u + i <> start v + j.
Proof.
  intros Hu Hv Hne Hi Hj. destruct (decide (u < v)).
  - pose proof (start_gap u v ltac:(lia)). lia.
  - pose proof (start_gap v u ltac:(lia)). lia.
Qed.

Lemma cell_in v i : 0 <= v < n -> 0 <= i < room v -> 0 <= start v + i < start n.
Proof.
  intros Hv Hi. pose proof (start_nonneg v ltac:(lia)).
  destruct (decide (v + 1 = n)) as [Ev|Hvn].
  - rewrite <- Ev, start_S by lia. lia.
  - pose proof (start_gap v n ltac:(lia)). lia.
Qed.

(** A new array that differs only inside the room of [v] keeps the other rows. *)
Lemma rows_change R xoff store xoff' store' v l :
  rows_ok R (xoff, store) -> 0 <= v < n -> alen l <= room v -> alen store' = alen store ->
  row_at store' (start v) l ->
  (forall k, (forall i, 0 <= i < room v -> k <> start v + i) -> xadj_get store' k = xadj_get store k) ->
  offsets n xoff' start (fun u => start u + alen (updR R v l u)) ->
  rows_ok (updR R v l) (xoff', store').
Proof.
  intros (_ & Hl & Hr) Hv Hroom Hls Hrow Hsame Ho. split; [done|]. cbn [fst snd] in *.
  split; [lia|]. intros u Hu. unfold updR. destruct (decide (u = v)) as [->|Hne]; [done|].
  destruct (Hr u Hu) as [Hru Hrow_u]. split; [done|]. intros i Hi. rewrite Hsame; [by apply Hrow_u|].
  intros j Hj. apply row_disjoint; [done|done|done|lia|done].
Qed.

Lemma xadj_set_ok store k x :
  0 <= k < alen store - MINVECT_SIZE ->
  exists store', xadj_set store k x = Some store' /\ alen store' = alen store /\
    forall j, xadj_get store' j = if decide (j = k) then Some x else xadj_get store j.
Proof.
  unfold MINVECT_SIZE, xadj_set, xadj_get. intros Hk. rewrite aset_in by (unfold MINVECT_SIZE; lia).
  eexists. split; [done|]. split; [apply alen_insert|]. intros j.
  rewrite aget_insert by (unfold MINVECT_SIZE; lia). repeat case_decide; done || lia.
Qed.

Lemma scatter_ok R s v w :
  rows_ok R s -> 0 <= v < n -> alen (R v) < room v ->
  exists s', scatter_edge v w s = Some s' /\ rows_ok (updR R v (R v ++ [w])) s'.
Proof.
  intros Hok Hv Hroom. destruct s as [xoff store]. pose proof Hok as (Ho & Hl & Hr). cbn [fst snd] in *.
  unfold scatter_edge. destruct (proj2 Ho v Hv) as [_ ->]. cbn [mbind option_bind].
  destruct (offsets_set_end n xoff _ _ v (start v + alen (R v) + 1) Ho Hv) as (xoff' & -> & Ho').
  cbn [mbind option_bind]. pose proof (alen_nonneg (R v)).
  pose proof (cell_in v (alen (R v)) Hv ltac:(lia)) as Hc.
  destruct (xadj_set_ok store (start v + alen (R v)) w) as (store' & -> & Hl' & Hg'); [lia|].
  cbn [mbind option_bind]. eexists. split; [done|]. destruct (Hr v Hv) as [_ Hrow].
  eapply rows_change; [exact Hok|done|rewrite alen_app; change (alen [w]) with 1; lia|done| | |].
  - intros i Hi. rewrite Hg', aget_snoc. rewrite alen_app in Hi. change (alen [w]) with 1 in Hi.
    destruct (decide (i = alen (R v))) as [->|]; [by rewrite decide_True|].
    rewrite decide_False by lia. apply Hrow. lia.
  - intros k Hk. rewrite Hg', decide_False; [done|]. apply Hk. lia.
  - eapply offsets_ext; [exact Ho'|]. intros u Hu. split; [done|]. unfold upd, updR.
    destruct (decide (u = v)) as [->|]; [|done]. rewrite alen_app. change (alen [w]) with 1. lia.
Qed.

Lemma gather_edge_ok k s :
  (k < length E)%nat -> rows_ok (row E k) s ->
  exists s', gather_edge E (Z.of_nat k) s = Some s' /\ rows_ok (row E (S k)) s'.
Proof.
  intros Hk Hok. destruct (edge_get k Hk) as (e & He & H0 & H1). unfold gather_edge.
  rewrite aget_nat, He. cbn [mbind option_bind]. unfold get_v0_from_edge, get_v1_from_edge.
  assert ((0 <=? v0 e) && (0 <=? v1 e) = true) as -> by lia. cbn [andb].
  destruct (Z.eqb_spec (v0 e) (v1 e)) as [Eq|Hne]; cbn [negb].
  - exists s. split; [done|]. eapply rows_ok_ext; [exact Hok|]. intros v Hv. cbn [row]. rewrite He.
    assert (v0 e =? v1 e = true) as -> by lia. by rewrite app_nil_r.
  - assert (forall v, v0 e = v \/ v1 e = v -> alen (row E k v) < room v) as Hroom.
    { intros v Hv. pose proof (row_mono E (S k) (length E) v ltac:(lia)) as Hmono.
      rewrite (row_length_S k e v He), decide_True in Hmono by tauto. unfold room. lia. }
    destruct (scatter_ok (row E k) s (v0 e) (v1 e) Hok H0) as (s1 & -> & Hok1); [apply Hroom; by left|].
    cbn [mbind option_bind].
    destruct (scatter_ok _ s1 (v1 e) (v0 e) Hok1 H1) as (s2 & -> & Hok2).
    { unfold updR. rewrite decide_False by done. apply Hroom. by right. }
    exists s2. split; [done|]. eapply rows_ok_ext; [exact Hok2|]. intros v Hv. unfold updR. cbn [row].
    rewrite He. assert (v0 e =? v1 e = false) as -> by lia.
    destruct (decide (v = v1 e)) as [->|].
    + rewrite decide_False by done. assert (v0 e =? v1 e = false) as -> by lia. by rewrite Z.eqb_refl.
    + destruct (decide (v = v0 e)) as [->|]; [by rewrite Z.eqb_refl|].
      assert (v0 e =? v = false) as -> by lia. assert (v1 e =? v = false) as -> by lia.
      by rewrite app_nil_r.
Qed.

End Build.

(** ** Sorting and squeezing a row *)

Definition push_new (d : list Z) (x : Z) : list Z := if decide (last d = Some x) then d else d ++ [x].
Definition squeeze (l : list Z) : list Z := foldl push_new [] l.
Definition packed (l : list Z) : list Z := squeeze (merge_sort (fun a b => i64cmp a b <= 0) l).

Lemma squeeze_snoc l x : squeeze (l ++ [x]) = push_new (squeeze l) x.
Proof. unfold squeeze. by rewrite foldl_app. Qed.

Lemma squeeze_elem l x : x ∈ squeeze l <-> x ∈ l.
Proof.
  induction l as [|y l IH] using rev_ind; [done|]. rewrite squeeze_snoc, elem_of_app, list_elem_of_singleton.
  unfold push_new. case_decide as Hl.
  - rewrite IH. split; [by left|]. intros [?| ->]; [done|]. apply IH.
    apply last_Some in Hl as [l' ->]. apply elem_of_app. right. by left.
  - by rewrite elem_of_app, list_elem_of_singleton, IH.
Qed.

Lemma squeeze_length l : alen (squeeze l) <= alen l.
Proof.
  induction l as [|y l IH] using rev_ind; [done|]. rewrite squeeze_snoc, alen_app. unfold push_new.
  change (alen [y]) with 1. case_decide; [lia|]. rewrite alen_app. change (alen [y]) with 1. lia.
Qed.

Lemma squeeze_nonempty l : l <> [] -> squeeze l <> [].
Proof.
  intros Hl Hs. destruct l as [|x l]; [done|].
  assert (x ∈ squeeze (x :: l)) as Hx by (apply squeeze_elem; by left).
  rewrite Hs in Hx. by apply not_elem_of_nil in Hx.
Qed.

Lemma i64cmp_le a b : i64cmp a b <= 0 <-> a <= b.
Proof. unfold i64cmp. destruct (Z.ltb_spec a b), (Z.ltb_spec b a); lia. Qed.

#[export] Instance i64cmp_total : Total (fun a b => i64cmp a b <= 0).
Proof. intros a b. rewrite !i64cmp_le. lia. Qed.
#[export] Instance i64cmp_trans : Transitive (fun a b => i64cmp a b <= 0).
Proof. intros a b c. rewrite !i64cmp_le. lia. Qed.

Lemma StronglySorted_snoc (R : Z -> Z -> Prop) l x :
  StronglySorted R (l ++ [x]) <-> StronglySorted R l /\ Forall (fun y => R y x) l.
Proof.
  induction l as [|y l IH]; cbn [app].
  - split; [intros _; split; constructor|]. intros _. constructor; constructor.
  - split.
    + intros Hs. apply StronglySorted_inv in Hs as [Hs Hy]. apply IH in Hs as [Hl Hx].
      apply list.Forall_app in Hy as [Hyl Hyx]. split; [by constructor|].
      constructor; [by apply list.Forall_cons in Hyx as [? _]|done].
    + intros [Hs Hf]. apply StronglySorted_inv in Hs as [Hs Hy]. apply list.Forall_cons in Hf as [Hyx Hf].
      constructor; [by apply IH|]. apply list.Forall_app. split; [done|]. by constructor.
Qed.

(** A sorted row loses exactly its repetitions. *)
Lemma squeeze_sorted l : StronglySorted Z.le l -> StronglySorted Z.lt (squeeze l).
Proof.
  induction l as [|x l IH] using rev_ind; [constructor|]. rewrite StronglySorted_snoc, squeeze_snoc.
  intros [Hs Hx]. specialize (IH Hs). unfold push_new. case_decide as Hl; [done|].
  apply StronglySorted_snoc. split; [done|]. rewrite list.Forall_forall in Hx |- *. intros y Hy.
  assert (y <= x) by (apply Hx; by apply squeeze_elem). destruct (decide (y = x)) as [->|]; [|lia].
  exfalso. apply Hl. destruct (last (squeeze l)) as [z|] eqn:Hz.
  - apply last_Some in Hz as [d Hd]. rewrite Hd in Hy, IH. apply StronglySorted_snoc in IH as [_ Hlt].
    f_equal. assert (z <= x) by (apply Hx, squeeze_elem; rewrite Hd; apply elem_of_app; right; by left).
    apply elem_of_app in Hy as [Hy|Hy%list_elem_of_singleton]; [|done].
    rewrite list.Forall_forall in Hlt. specialize (Hlt x Hy). lia.
  - apply last_None in Hz. rewrite Hz in Hy. by apply not_elem_of_nil in Hy.
Qed.

Lemma packed_sorted l : StronglySorted Z.lt (packed l).
Proof.
  apply squeeze_sorted. assert (StronglySorted (fun a b => i64cmp a b <= 0)
    (merge_sort (fun a b => i64cmp a b <= 0) l)) as Hs by (apply StronglySorted_merge_sort; apply _).
  induction Hs as [|x k Hs IH Hx]; constructor; [done|]. eapply list.Forall_impl; [exact Hx|].
  intros y. cbn beta. apply i64cmp_le.
Qed.

Lemma packed_elem l x : x ∈ packed l <-> x ∈ l.
Proof. unfold packed. rewrite squeeze_elem. by rewrite merge_sort_Permutation. Qed.

Lemma sort_length l : alen (merge_sort (fun a b => i64cmp a b <= 0) l) = alen l.
Proof. unfold alen. by rewrite merge_sort_Permutation. Qed.

Lemma packed_length l : alen (packed l) <= alen l.
Proof.
  unfold packed. pose proof (squeeze_length (merge_sort (fun a b => i64cmp a b <= 0) l)) as H.
  by rewrite sort_length in H.
Qed.

Lemma packed_short l : alen l <= 1 -> packed l = l.
Proof.
  intros Hl. destruct l as [|x [|y l]]; [done|reflexivity|].
  exfalso. rewrite !alen_cons in Hl. pose proof (alen_nonneg l). lia.
Qed.

(** [qsort] on a row of the array. *)
Lemma qsort_ok store lo l :
  0 <= lo -> lo + alen l <= alen store - MINVECT_SIZE -> row_at store lo l ->
  exists store', qsort store (lo + MINVECT_SIZE) (alen l) = Some store' /\ alen store' = alen store /\
    row_at store' lo (merge_sort (fun a b => i64cmp a b <= 0) l) /\
    forall k, k < lo \/ lo + alen l <= k -> xadj_get store' k = xadj_get store k.
Proof.
  unfold MINVECT_SIZE. intros Hlo Hhi Hrow. unfold qsort. pose proof (alen_nonneg l).
  assert ((0 <=? lo + 2) && (0 <=? alen l) && (lo + 2 + alen l <=? alen store) = true) as -> by lia.
  cbn [check mbind option_bind]. set (L := Z.to_nat (lo + 2)).
  assert (take (Z.to_nat (alen l)) (drop L store) = l) as ->.
  { apply array_ext.
    - unfold alen in *. rewrite length_take, length_drop. unfold L. lia.
    - intros i Hi. unfold alen in Hi at 1. rewrite length_take, length_drop in Hi.
      rewrite <- Hrow by lia. unfold xadj_get, MINVECT_SIZE, aget.
      destruct (Z.ltb_spec i 0); [lia|]. destruct (Z.ltb_spec (lo + i + 2) 0); [lia|].
      rewrite lookup_take_lt, lookup_drop by lia. f_equal. unfold L. lia. }
  set (sl := merge_sort _ l). assert (alen sl = alen l) as Hsl by apply sort_length.
  assert (alen (take L store) = lo + 2) as Ht by (unfold alen in *; rewrite length_take; unfold L; lia).
  eexists. split; [done|]. split; [|split].
  - rewrite !alen_app, Ht, Hsl. unfold alen in *. rewrite length_drop. lia.
  - intros i Hi. unfold xadj_get, MINVECT_SIZE. rewrite aget_app_r, Ht by lia.
    rewrite aget_app_l by lia. f_equal. lia.
  - intros k Hk. unfold xadj_get, MINVECT_SIZE. destruct Hk as [Hk|Hk].
    + rewrite aget_app_l by lia. unfold aget. destruct (Z.ltb_spec (k + 2) 0); [done|].
      apply lookup_take_lt. unfold L. lia.
    + rewrite aget_app_r, aget_app_r by lia. rewrite Ht, Hsl. unfold aget.
      destruct (Z.ltb_spec (k + 2) 0); [lia|].
      destruct (Z.ltb_spec (k + 2 - (lo + 2) - alen l) 0); [lia|]. rewrite lookup_drop. f_equal. lia.
Qed.

(** The loop that drops repetitions leaves the squeezed row in front. *)
Lemma squeeze_loop_ok store lo l :
  0 <= lo -> lo + alen l <= alen store - MINVECT_SIZE -> row_at store lo l -> 1 <= alen l ->
  exists kcur store', for_z (lo + 1) (lo + alen l) squeeze_step (lo, store) = Some (kcur, store') /\
    kcur + 1 = lo + alen (squeeze l) /\ alen store' = alen store /\ row_at store' lo (squeeze l) /\
    forall k, k < lo \/ lo + alen l <= k -> xadj_get store' k = xadj_get store k.
Proof.
  intros Hlo Hhi Hrow Hl.
  assert (forall i x, l.[i] = Some x -> take (Z.to_nat (i + 1)) l = take (Z.to_nat i) l ++ [x]) as Htake.
  { intros i x Hx. pose proof (aget_some_range _ _ _ Hx). unfold aget in Hx.
    destruct (Z.ltb_spec i 0); [lia|]. replace (Z.to_nat (i + 1)) with (S (Z.to_nat i)) by lia.
    by apply take_S_r. }
  destruct (for_z_inv (fun k '(kcur, st) => kcur + 1 = lo + alen (squeeze (take (Z.to_nat (k - lo)) l)) /\
      alen st = alen store /\ row_at st lo (squeeze (take (Z.to_nat (k - lo)) l)) /\
      (forall i, k - lo <= i < alen l -> xadj_get st (lo + i) = l.[i]) /\
      forall k, k < lo \/ lo + alen l <= k -> xadj_get st k = xadj_get store k)
    (lo + 1) (lo + alen l) squeeze_step (lo, store)) as ([kcur st] & Hr & Hk & Hls & Hrw & _ & Hout).
  - lia.
  - destruct (aget_in l 0 ltac:(lia)) as (x & Hx).
    replace (lo + 1 - lo) with (0 + 1) by lia. rewrite (Htake 0 x Hx).
    change (squeeze (take (Z.to_nat 0) l ++ [x])) with [x]. split; [done|]. split; [done|]. split.
    + intros i Hi. change (alen [x]) with 1 in Hi. assert (i = 0) as -> by lia.
      rewrite Hrow by lia. done.
    + split; [intros i Hi; apply Hrow; lia|done].
  - intros k [kcur st] Hk (Hkc & Hls & Hrw & Htl & Hout). cbn [squeeze_step].
    set (i := k - lo) in *. assert (k = lo + i) as Hki by (unfold i; lia).
    assert (1 <= i < alen l) as Hir by (unfold i; lia). clearbody i. subst k. destruct (aget_in l i ltac:(lia)) as (x & Hx).
    assert (xadj_get st (lo + i) = Some x) as Hgk by (rewrite Htl by lia; done).
    set (d := squeeze (take (Z.to_nat i) l)) in *.
    assert (alen d <= i) as Hdi.
    { unfold d. etransitivity; [apply squeeze_length|]. unfold alen. rewrite length_take. lia. }
    assert (d <> []) as Hd.
    { apply squeeze_nonempty. intros Hnil. apply (f_equal length) in Hnil. rewrite length_take in Hnil.
      unfold alen in Hl. cbn in Hnil. lia. }
    destruct (last d) as [y|] eqn:Hy; [|by apply last_None in Hy].
    apply last_Some in Hy as [d' Hd'].
    assert (alen d = alen d' + 1) as Hdl by (rewrite Hd', alen_app; done).
    assert (xadj_get st kcur = Some y) as Hgc.
    { replace kcur with (lo + alen d') by lia. rewrite Hrw by (pose proof (alen_nonneg d'); lia).
      rewrite Hd', aget_snoc. by rewrite decide_True. }
    unfold squeeze_step. rewrite Hgk. cbn [mbind option_bind]. rewrite Hgc. cbn [mbind option_bind].
    replace (lo + i + 1 - lo) with (i + 1) by lia. rewrite (Htake i x Hx), squeeze_snoc. fold d.
    unfold push_new. assert (last d = Some y) as Hly by (rewrite Hd'; apply last_snoc). rewrite Hly.
    destruct (Z.eqb_spec x y) as [->|Hxy]; cbn [negb].
    + eexists. split; [done|]. rewrite decide_True by done. split; [done|]. split; [done|].
      split; [done|]. split; [intros j Hj; apply Htl; lia|done].
    + destruct (xadj_set_ok st (kcur + 1) x) as (st' & -> & Hl' & Hg');
        [pose proof (alen_nonneg d); lia|]. cbn [mbind option_bind].
      eexists. split; [done|]. rewrite decide_False by congruence. rewrite alen_app. change (alen [x]) with 1.
      split; [lia|]. split; [lia|]. split; [|split].
      * intros j Hj. rewrite alen_app in Hj. change (alen [x]) with 1 in Hj. rewrite Hg', aget_snoc.
        destruct (decide (j = alen d)) as [->|]; [by rewrite decide_True by lia|].
        rewrite decide_False by lia. apply Hrw. lia.
      * intros j Hj. rewrite Hg', decide_False by lia. apply Htl. lia.
      * intros j Hj. pose proof (alen_nonneg d'); rewrite Hg', decide_False by lia. by apply Hout.
  - exists kcur, st. replace (lo + alen l - lo) with (alen l) in * by lia.
    assert (take (Z.to_nat (alen l)) l = l) as HtE by (apply take_ge; unfold alen; lia).
    rewrite HtE in *. done.
Qed.

(** Clearing a stretch of the array. *)
Lemma clear_ok store lo hi :
  0 <= lo <= hi -> hi <= alen store - MINVECT_SIZE ->
  exists store', for_z lo hi (fun k store => xadj_set store k (-1)) store = Some store' /\
    alen store' = alen store /\
    forall k, k < lo \/ hi <= k -> xadj_get store' k = xadj_get store k.
Proof.
  intros Hlo Hhi.
  destruct (for_z_inv (fun i st => alen st = alen store /\
    forall k, k < lo \/ hi <= k -> xadj_get st k = xadj_get store k) lo hi
    (fun k store => xadj_set store k (-1)) store) as (st & -> & Hst & Hk); [lia|done| |by exists st].
  intros i st Hi [Hl Hk]. destruct (xadj_set_ok st i (-1)) as (st' & -> & Hl' & Hg'); [lia|].
  exists st'. split; [done|]. split; [lia|]. intros k Hkr. rewrite Hg', decide_False by lia. by apply Hk.
Qed.

(** ** Packing all rows *)

Section Pack.
Context (E : list packed_edge) (m : Z) (Hm : max_vertex E m).
Abbreviation n := (m + 1).

Lemma pack_vtx_ok R s v :
  rows_ok E m R s -> 0 <= v < n ->
  exists s', pack_vtx_edges v s = Some s' /\ rows_ok E m (updR R v (packed (R v))) s'.
Proof.
  intros Hok Hv. destruct s as [xoff store]. pose proof Hok as (Ho & Hl & Hr). cbn [fst snd] in *.
  unfold pack_vtx_edges. destruct (proj2 Ho v Hv) as [-> ->]. cbn [mbind option_bind].
  destruct (Z.leb_spec (start E v + alen (R v)) (start E v + 1)) as [Hs|Hs].
  - eexists. split; [done|]. eapply rows_ok_ext; [exact Hok|]. intros u Hu. unfold updR.
    destruct (decide (u = v)) as [->|]; [|done]. symmetry. apply packed_short. lia.
  - destruct (Hr v Hv) as [Hroom Hrow]. pose proof (start_nonneg E v ltac:(lia)) as Hsv.
    pose proof (cell_in E m v (room E v - 1) Hv ltac:(pose proof (room_pos E v); lia)) as Hc.
    replace (start E v + alen (R v) - start E v) with (alen (R v)) by lia.
    destruct (qsort_ok store (start E v) (R v)) as (st1 & -> & Hl1 & Hr1 & Hs1); [done|lia|done|].
    cbn [mbind option_bind]. pose proof (sort_length (R v)) as Hsl.
    destruct (squeeze_loop_ok st1 (start E v) (merge_sort (fun a b => i64cmp a b <= 0) (R v)))
      as (kcur & st2 & Hsq & Hk & Hl2 & Hr2 & Hs2); [done|lia|done|lia|]. rewrite Hsl in Hsq, Hs2. rewrite Hsq.
    cbn [mbind option_bind]. fold (packed (R v)) in *. pose proof (packed_length (R v)) as Hpl.
    pose proof (alen_nonneg (packed (R v))) as Hpn. rewrite Hk.
    destruct (clear_ok st2 (start E v + alen (packed (R v))) (start E v + alen (R v)))
      as (st3 & -> & Hl3 & Hs3); [lia|lia|]. cbn [mbind option_bind].
    destruct (offsets_set_end n xoff _ _ v (start E v + alen (packed (R v))) Ho Hv) as (xoff' & -> & Ho').
    cbn [mbind option_bind]. eexists. split; [done|].
    eapply rows_change; [exact Hok|done|lia|lia| | |].
    + intros i Hi. rewrite Hs3 by lia. by apply Hr2.
    + intros k Hkr. assert (k < start E v \/ start E v + alen (R v) <= k) as Hko.
      { destruct (decide (k < start E v)); [by left|]. right.
        destruct (decide (start E v + alen (R v) <= k)); [done|]. exfalso.
        apply (Hkr (k - start E v)); lia. }
      rewrite Hs3, Hs2, Hs1 by lia. done.
    + eapply offsets_ext; [exact Ho'|]. intros u Hu. split; [done|]. unfold upd, updR.
      by destruct (decide (u = v)) as [->|].
Qed.

Lemma pack_edges_ok R s :
  rows_ok E m R s ->
  exists s', pack_edges n s = Some s' /\ rows_ok E m (fun v => packed (R v)) s'.
Proof.
  intros Hok. destruct Hm as [Hmr _]. unfold pack_edges.
  destruct (for_z_inv (fun i s => rows_ok E m (fun v => if v <? i then packed (R v) else R v) s) 0 n
    pack_vtx_edges s) as (s' & -> & Hs').
  - lia.
  - eapply rows_ok_ext; [exact Hok|]. intros v Hv. cbn beta. by assert (v <? 0 = false) as -> by lia.
  - intros i s1 Hi Hs1. destruct (pack_vtx_ok _ s1 i Hs1 Hi) as (s2 & -> & Hs2). exists s2. split; [done|].
    eapply rows_ok_ext; [exact Hs2|]. intros v Hv. unfold updR. destruct (decide (v = i)) as [->|].
    + assert (i <? i = false) as -> by lia. by assert (i <? i + 1 = true) as -> by lia.
    + destruct (Z.ltb_spec v i), (Z.ltb_spec v (i + 1)); done || lia.
  - exists s'. split; [done|]. eapply rows_ok_ext; [exact Hs'|]. intros v Hv. cbn beta.
    by assert (v <? n = true) as -> by lia.
Qed.

End Pack.

(** The finished graph: every vertex has its packed row. *)
Record graph_ok (E : list packed_edge) (g : globals) : Prop := {
  go_max : max_vertex E (maxvtx g);
  go_nv : nv g = maxvtx g + 1;
  go_rows : rows_ok E (maxvtx g) (fun v => packed (row E (length E) v)) (xoff g, xadjstore g);
}.

Lemma csr_create_ok E :
  Forall edge_ok E -> alen E < 2 ^ 58 ->
  exists g, create_graph_from_edgelist E (alen E) = Some g /\ graph_ok E g.
Proof.
  intros HE Hlen. unfold create_graph_from_edgelist, find_nv.
  destruct (max_loop_ok E HE) as (m & -> & Hm). cbn [mbind option_bind].
  pose proof Hm as [Hmr _]. rewrite (Z.add_comm 1 m).
  destruct (setup_ok E m Hm (xmalloc_words (2 * (m + 1) + 2)) Hlen) as (s & -> & Hs).
  { apply csr_alen_xmalloc. lia. }
  cbn [mbind option_bind]. unfold gather_edges.
  destruct (for_z_inv (fun i s => rows_ok E m (row E (Z.to_nat i)) s) 0 (alen E) (gather_edge E) s)
    as (s1 & -> & Hs1).
  - apply alen_nonneg.
  - done.
  - intros i s1 Hi Hs1. destruct (gather_edge_ok E m Hm (Z.to_nat i) s1) as (s2 & Hr2 & Hs2).
    + unfold alen in Hi. lia.
    + done.
    + rewrite Z2Nat.id in Hr2 by lia. exists s2. split; [done|].
      by replace (Z.to_nat (i + 1)) with (S (Z.to_nat i)) by lia.
  - cbn [mbind option_bind]. unfold alen in Hs1. rewrite Nat2Z.id in Hs1.
    destruct (pack_edges_ok E m Hm _ s1 Hs1) as ([x st] & -> & Hs2). cbn [mbind option_bind].
    eexists. split; [done|]. by constructor.
Qed.

(** ** The search *)

Section SearchProof.
Context (E : list packed_edge) (g : globals) (Hg : graph_ok E g).
Abbreviation N := (maxvtx g + 1).
Abbreviation unseen := (fun t => t =? -1).

Lemma csr_adj_range u v : adj E u v -> 0 <= u < N /\ 0 <= v < N.
Proof. destruct (go_max _ _ Hg) as (_ & H & _). apply H. Qed.

(** A row is a loop of visits. *)
Lemma scan_row v lo l s :
  row_at (xadjstore g) lo l ->
  for_z lo (lo + alen l) (fun vo s => j ← xadj_get (xadjstore g) vo; visit unseen v j s) s =
  visits unseen v l s.
Proof.
  revert lo s. induction l as [|j l IH]; intros lo s Hrow.
  - change (alen []) with 0. rewrite Z.add_0_r. by rewrite for_z_empty by lia.
  - rewrite alen_cons in *. pose proof (alen_nonneg l). rewrite for_z_step by lia. rewrite visits_cons.
    assert (xadj_get (xadjstore g) lo = Some j) as ->.
    { replace lo with (lo + 0) at 1 by lia. by rewrite Hrow by (rewrite alen_cons; lia). }
    cbn [mbind option_bind]. destruct (visit unseen v j s) as [s'|]; [|done]. cbn [mbind option_bind].
    replace (lo + (alen l + 1)) with (lo + 1 + alen l) by lia. apply IH. intros i Hi.
    replace (lo + 1 + i) with (lo + (1 + i)) by lia. rewrite Hrow by (rewrite alen_cons; lia).
    unfold aget. destruct (Z.ltb_spec (1 + i) 0), (Z.ltb_spec i 0); try lia.
    by replace (Z.to_nat (1 + i)) with (S (Z.to_nat i)) by lia.
Qed.

Lemma packed_row_adj v :
  Forall (adj E v) (packed (row E (length E) v)) /\
  (forall w, adj E v w -> w = v \/ w ∈ packed (row E (length E) v)).
Proof.
  split.
  - apply list.Forall_forall. intros w Hw. rewrite packed_elem in Hw. by apply row_adj in Hw as [? _].
  - intros w (e & He & Hj). destruct (decide (w = v)) as [|Hne]; [by left|right].
    apply packed_elem. apply list_elem_of_lookup in He as [i Hi].
    pose proof (lookup_lt_Some _ _ _ Hi). by eapply row_complete.
Qed.

Context (r : Z).
Abbreviation inv := (bfs_inv E N r).

Lemma scan_vertex_ok k s q lv :
  inv k [] s q lv -> k < alen q ->
  exists s' q' lv', scan_vertex g k s = Some s' /\ s_k2 s <= s_k2 s' /\ inv (k + 1) [] s' q' lv'.
Proof.
  intros Hi Hk. pose proof (bi_k _ _ _ _ _ _ _ _ Hi) as Hk0.
  destruct (queue_get _ _ _ _ _ _ _ _ k Hi ltac:(lia)) as (c & Hc & Hv).
  assert (0 <= c < N) as Hcr by (apply (bi_q _ _ _ _ _ _ _ _ Hi); apply elem_aget; eauto).
  destruct (go_rows _ _ Hg) as (Ho & _ & Hr). cbn [fst snd] in *. destruct (proj2 Ho c Hcr) as [Hoff Hend].
  unfold scan_vertex. rewrite Hv. cbn [mbind option_bind]. rewrite Hend. cbn [mbind option_bind].
  rewrite Hoff. cbn [mbind option_bind]. rewrite scan_row by (by apply Hr).
  destruct (packed_row_adj c) as [Hadj Hall].
  destruct (process_ok E N r csr_adj_range unseen eq_refl (fun x Hx => proj2 (Z.eqb_neq x (-1)) ltac:(lia))
    (packed (row E (length E) c)) k s q lv c) as (s' & q' & lv' & Hs' & Hi'); [done..|].
  exists s', q', lv'. split; [done|]. split; [by eapply visits_grow|done].
Qed.

(** One round takes the search from one level of the queue to the next. *)
Lemma level_ok k1 s q lv :
  inv k1 [] s q lv ->
  exists s' q' lv', for_z k1 (s_k2 s) (scan_vertex g) s = Some s' /\ s_k2 s <= s_k2 s' /\
    inv (s_k2 s) [] s' q' lv'.
Proof.
  intros Hi. pose proof (bi_k _ _ _ _ _ _ _ _ Hi) as Hk. pose proof (bi_k2 _ _ _ _ _ _ _ _ Hi) as Hk2.
  destruct (for_z_inv (fun k s' => s_k2 s <= s_k2 s' /\ exists q' lv', inv k [] s' q' lv') k1 (s_k2 s)
    (scan_vertex g) s) as (s' & -> & Hgr & q' & lv' & Hi').
  - lia.
  - split; [done|]. by exists q, lv.
  - intros k s1 Hkr (Hgr & q1 & lv1 & Hi1). pose proof (bi_k2 _ _ _ _ _ _ _ _ Hi1) as Hq1.
    destruct (scan_vertex_ok k s1 q1 lv1 Hi1 ltac:(lia)) as (s2 & q2 & lv2 & -> & Hgr2 & Hi2).
    exists s2. split; [done|]. split; [lia|]. by exists q2, lv2.
  - by exists s', q', lv'.
Qed.

(** Every round starts at a later cell of the queue, which has at most [nv]. *)
Lemma csr_bfs_loop_ok fuel k1 s q lv :
  0 <= N -> inv k1 [] s q lv -> N - k1 < Z.of_nat fuel ->
  exists s' q' lv', bfs_loop fuel g k1 s = Some s' /\ inv (alen q') [] s' q' lv'.
Proof.
  intros HN. revert k1 s q lv. induction fuel as [|fuel IH]; intros k1 s q lv Hi Hf;
    pose proof (bi_k _ _ _ _ _ _ _ _ Hi) as Hk; pose proof (bi_k2 _ _ _ _ _ _ _ _ Hi) as Hk2;
    pose proof (queue_bound _ _ _ _ _ _ _ _ HN Hi) as Hqb; [lia|].
  cbn [bfs_loop]. destruct (Z.eqb_spec k1 (s_k2 s)) as [He|Hne]; cbn [negb].
  - exists s, q, lv. split; [done|]. by rewrite <- Hk2, <- He.
  - destruct (level_ok k1 s q lv Hi) as (s' & q' & lv' & -> & Hgr & Hi'). cbn [mbind option_bind].
    apply (IH (s_k2 s) s' q' lv' Hi'). lia.
Qed.

Lemma csr_make_bfs_tree_ok out :
  0 <= r < N -> N <= alen out ->
  exists tree, make_bfs_tree g out r = Some (tree, maxvtx g) /\ bfs_tree E N r tree /\ N <= alen tree.
Proof.
  intros Hr Hout. unfold make_bfs_tree. destruct (go_max _ _ Hg) as [Hmr _]. rewrite (go_nv _ _ Hg).
  destruct (fill_range_ok out 0 N (-1)) as (t1 & -> & Ht1 & Hg1); [lia|lia|]. cbn [mbind option_bind].
  assert (alen (xmalloc_words N) = N) as Hvl by (apply csr_alen_xmalloc; lia).
  rewrite (aset_in (xmalloc_words N)) by lia. cbn [mbind option_bind].
  rewrite (aset_in t1) by lia. cbn [mbind option_bind].
  destruct (csr_bfs_loop_ok (S (Z.to_nat N)) 0
    (MkSearch (<[Z.to_nat r := r]> t1) (<[Z.to_nat 0 := r]> (xmalloc_words N)) 1) [r] (fun _ => 0))
    as (s & q & lv & -> & Hi).
  - lia.
  - apply search_start; [done|by rewrite alen_insert|rewrite alen_insert; lia| |].
    + rewrite aget_insert by lia. by rewrite decide_True.
    + intros v Hv. rewrite aget_insert by lia. destruct (decide (v = r)); [done|].
      rewrite Hg1 by lia. by assert ((0 <=? v) && (v <? N) = true) as -> by lia.
  - lia.
  - cbn [mbind option_bind]. exists (s_tree s). split; [done|]. split; [by eapply search_end|].
    apply (bi_tree_len _ _ _ _ _ _ _ _ Hi).
Qed.

End SearchProof.

(** C12: building the rows of an edge list and searching them from any of its
    vertices stays inside the arrays, ends, and returns a breadth-first tree of
    the vertex's component. *)
Theorem seq_csr_bfs E out r :
  Forall edge_ok E -> alen E < 2 ^ 58 -> (exists v, adj E r v) ->
  exists g, create_graph_from_edgelist E (alen E) = Some g /\
    max_vertex E (maxvtx g) /\
    (maxvtx g < alen out ->
     exists tree, make_bfs_tree g out r = Some (tree, maxvtx g) /\
       bfs_tree E (maxvtx g + 1) r tree).
Proof.
  intros HE Hlen [v Hv]. destruct (csr_create_ok E HE Hlen) as (g & Hc & Hg). exists g.
  split; [done|]. split; [apply (go_max _ _ Hg)|]. intros Hout.
  destruct (csr_make_bfs_tree_ok E g Hg r out) as (tree & Ht & Hb & _); [|lia|by exists tree].
  by apply (csr_adj_range E g Hg r v).
Qed.

Lemma seq_csr_bfs_witness :
  exists g, create_graph_from_edgelist [MkEdge 0 3; MkEdge 3 1; MkEdge 2 2; MkEdge 1 0] 4 = Some g /\
    max_vertex [MkEdge 0 3; MkEdge 3 1; MkEdge 2 2; MkEdge 1 0] (maxvtx g) /\
    (maxvtx g < alen [7; 7; 7; 7] ->
     exists tree, make_bfs_tree g [7; 7; 7; 7] 3 = Some (tree, maxvtx g) /\
       bfs_tree [MkEdge 0 3; MkEdge 3 1; MkEdge 2 2; MkEdge 1 0] (maxvtx g + 1) 3 tree).
Proof.
  apply (seq_csr_bfs [MkEdge 0 3; MkEdge 3 1; MkEdge 2 2; MkEdge 1 0] [7; 7; 7; 7] 3).
  - unfold edge_ok, in_u32. repeat (constructor; [cbn; lia|]). constructor.
  - vm_compute. reflexivity.
  - exists 1, (MkEdge 3 1). split; [right; left|by left].
Defined.

(** C13: between its two offsets every vertex has exactly its neighbours other
    than itself, in increasing order and without repetitions; the rows lie one
    behind the other, each with room for two entries at least, inside the array. *)
Theorem seq_csr_rows E :
  Forall edge_ok E -> alen E < 2 ^ 58 ->
  exists g, create_graph_from_edgelist E (alen E) = Some g /\
    forall v, 0 <= v <= maxvtx g ->
    exists o row, XOFF (xoff g) v = Some o /\ XENDOFF (xoff g) v = Some (o + alen row) /\
      (forall i, 0 <= i < alen row -> xadj_get (xadjstore g) (o + i) = row.[i]) /\
      (forall w, w ∈ row <-> adj E v w /\ w <> v) /\ StronglySorted Z.lt row /\
      (v < maxvtx g -> forall o', XOFF (xoff g) (v + 1) = Some o' -> o + Z.max 2 (alen row) <= o') /\
      0 <= o /\ o + Z.max 2 (alen row) <= alen (xadjstore g) - MINVECT_SIZE.
Proof.
  intros HE Hlen. destruct (csr_create_ok E HE Hlen) as (g & Hc & Hg). exists g. split; [done|].
  intros v Hv. destruct (go_rows _ _ Hg) as (Ho & Hl & Hr). cbn [fst snd] in *.
  destruct (proj2 Ho v ltac:(lia)) as [Hoff Hend]. destruct (Hr v ltac:(lia)) as [Hroom Hrow].
  pose proof (room_pos E v) as Hpos.
  exists (start E v), (packed (row E (length E) v)). split; [done|]. split; [done|]. split; [done|].
  split; [|split; [apply packed_sorted|split; [|split]]].
  - intros w. rewrite packed_elem. split; [apply row_adj|]. intros [(e & He & Hj) Hne].
    apply list_elem_of_lookup in He as [i Hi]. pose proof (lookup_lt_Some _ _ _ Hi).
    by eapply row_complete.
  - intros Hlt o' Ho'. destruct (proj2 Ho (v + 1) ltac:(lia)) as [Hoff' _]. rewrite Hoff' in Ho'.
    injection Ho' as <-. rewrite start_S by lia. lia.
  - apply start_nonneg. lia.
  - pose proof (cell_in E (maxvtx g) v (room E v - 1) ltac:(lia) ltac:(lia)). lia.
Qed.

Lemma seq_csr_rows_witness :
  exists g, create_graph_from_edgelist [MkEdge 0 1; MkEdge 1 1; MkEdge 1 0; MkEdge 1 2] 4 = Some g /\
    forall v, 0 <= v <= maxvtx g ->
    exists o row, XOFF (xoff g) v = Some o /\ XENDOFF (xoff g) v = Some (o + alen row) /\
      (forall i, 0 <= i < alen row -> xadj_get (xadjstore g) (o + i) = row.[i]) /\
      (forall w, w ∈ row <-> adj [MkEdge 0 1; MkEdge 1 1; MkEdge 1 0; MkEdge 1 2] v w /\ w <> v) /\
      StronglySorted Z.lt row /\
      (v < maxvtx g -> forall o', XOFF (xoff g) (v + 1) = Some o' -> o + Z.max 2 (alen row) <= o') /\
      0 <= o /\ o + Z.max 2 (alen row) <= alen (xadjstore g) - MINVECT_SIZE.
Proof.
  apply (seq_csr_rows [MkEdge 0 1; MkEdge 1 1; MkEdge 1 0; MkEdge 1 2]).
  - unfold edge_ok, in_u32. repeat (constructor; [cbn; lia|]). constructor.
  - vm_compute. reflexivity.
Defined.

End SeqCsr.
