(* ===== verification/Stream.v ===== *)
(** * STREAM: the four vector kernels and their check (sources/stream/stream.c)

    The arrays are filled, run through the kernels [NTIMES] times by parallel
    loops, and compared with scalars that go through the same operations.  The
    build is the one that maps its arrays and ends (not [__RUN_FOREVER__]), with
    [STREAM_TYPE] = [double]; a sum of products is rounded twice.  The clock, the
    placement on NUMA nodes and the report of the rates are left out. *)

From Stdlib Require Import ZArith Lia SpecFloat.
From stdpp Require Import list numbers.
From S2P Require Import Prelude Arrays Threads Doubles.
#[local] Open Scope Z_scope.

Module Stream.

(** ** The code *)

Record arrays := MkArrays { va : list double; vb : list double; vc : list double }.

Definition scalar : double := double_of 3.

Section Code.
Context {team_of : Team} (fuel : nat) (STREAM_ARRAY_SIZE NTIMES : Z).

(** The bodies of the parallel loops. *)
Definition fill_body (j : Z) (s : arrays) : option arrays :=
  a ← (va s).[j <- double_of 1]; b ← (vb s).[j <- double_of 2]; c ← (vc s).[j <- dzero]; Some (MkArrays a b c).
Definition double_body (j : Z) (s : arrays) : option arrays :=
  x ← (va s).[j]; a ← (va s).[j <- dmul (double_of 2) x]; Some (MkArrays a (vb s) (vc s)).
Definition Copy_body (j : Z) (s : arrays) : option arrays :=
  x ← (va s).[j]; c ← (vc s).[j <- x]; Some (MkArrays (va s) (vb s) c).
Definition Scale_body (j : Z) (s : arrays) : option arrays :=
  z ← (vc s).[j]; b ← (vb s).[j <- dmul scalar z]; Some (MkArrays (va s) b (vc s)).
Definition Add_body (j : Z) (s : arrays) : option arrays :=
  x ← (va s).[j]; y ← (vb s).[j]; c ← (vc s).[j <- dadd x y]; Some (MkArrays (va s) (vb s) c).
Definition Triad_body (j : Z) (s : arrays) : option arrays :=
  y ← (vb s).[j]; z ← (vc s).[j]; a ← (va s).[j <- dadd y (dmul scalar z)]; Some (MkArrays a (vb s) (vc s)).

Definition kernel (body : Z -> arrays -> option arrays) (s : arrays) : Par arrays := par_for body fuel 0 STREAM_ARRAY_SIZE s.

(** One round of the main loop, then all of them. *)
Definition kernels (s : arrays) : Par arrays :=
  s ← kernel Copy_body s; s ← kernel Scale_body s; s ← kernel Add_body s; kernel Triad_body s.
Fixpoint main_loop (k : nat) (s : arrays) : Par arrays :=
  match k with O => mret s | S k => s ← kernels s; main_loop k s end.

(** [abs], a macro *)
Definition dabs (x : double) : double := if dleb dzero x then x else SFopp x.

(** The scalars that go through the same operations. *)
Definition expected_round (v : double * double * double) : double * double * double :=
  let '(aj, bj, cj) := v in
  let cj := aj in let bj := dmul scalar cj in let cj := dadd aj bj in let aj := dadd bj (dmul scalar cj) in (aj, bj, cj).
Definition expected : double * double * double :=
  Nat.iter (Z.to_nat NTIMES) expected_round (dmul (double_of 2) (double_of 1), double_of 2, dzero).

(** [1.e-13] *)
Definition epsilon : double := ddiv (double_of 1) (double_of (10 ^ 13)).

Definition sum_errors (l : list double) (e : double) : option double :=
  for_z 0 STREAM_ARRAY_SIZE (fun j err => x ← l.[j]; Some (dadd err (dabs (dsub x e)))) dzero.

(** An array that fails is counted; [ierr] is the number of its bad elements. *)
Definition check_array (l : list double) (e avg : double) : option (option Z) :=
  if dltb epsilon (dabs (ddiv avg e)) then
    ierr ← for_z 0 STREAM_ARRAY_SIZE (fun j ierr =>
      x ← l.[j]; if dltb epsilon (dabs (dsub (ddiv x e) (double_of 1))) then sint32 (ierr + 1) else Some ierr) 0;
    Some (Some ierr)
  else Some None.

(** [err] and the numbers printed; 0 prints that the solution validates. *)
Definition checkSTREAMresults (s : arrays) : option (Z * list (option Z)) :=
  let '(aj, bj, cj) := expected in
  aSumErr ← sum_errors (va s) aj;
  bSumErr ← sum_errors (vb s) bj;
  cSumErr ← sum_errors (vc s) cj;
  let n := double_of STREAM_ARRAY_SIZE in
  ra ← check_array (va s) aj (ddiv aSumErr n);
  rb ← check_array (vb s) bj (ddiv bSumErr n);
  rc ← check_array (vc s) cj (ddiv cSumErr n);
  let found := [ra; rb; rc] in
  Some (alen (filter is_Some found), found).

(** What the checker printed, or -1 when an array could not be mapped. *)
Inductive run_result := MapFailed | Checked (err : Z) (found : list (option Z)) (s : arrays).

(** [mapped i] tells whether call [i] of [mmap] succeeds; fresh pages are zero. *)
Definition do_run (mapped : Z -> bool) : Par run_result :=
  if negb (mapped 0) then mret MapFailed else
  if negb (mapped 1) then mret MapFailed else
  if negb (mapped 2) then mret MapFailed else
  let page := replicate (Z.to_nat STREAM_ARRAY_SIZE) dzero in
  s ← kernel fill_body (MkArrays page page page);
  s ← kernel double_body s;
  s ← main_loop (Z.to_nat NTIMES) s;
  '(err, found) ← lift (checkSTREAMresults s);
  mret (Checked err found s).
End Code.

(** ** Doubles that are nothing *)

(** What is left when equal numbers are subtracted. *)
Definition nothing (x : double) : Prop := x = dzero \/ x = S754_nan.

Lemma dsub_self x : nothing (dsub x x).
Proof.
  unfold nothing, dsub. destruct x as [[]|[]| |s m e]; cbn [SFsub]; try by (left + right).
  left. rewrite Z.min_id, Z.sub_diag. done.
Qed.

Lemma dabs_nothing x : nothing x -> nothing (dabs x).
Proof. intros [-> | ->]; [by left|by right]. Qed.

Lemma dadd_nothing x y : nothing x -> nothing y -> nothing (dadd x y).
Proof. intros [-> | ->] [-> | ->]; by (left + right). Qed.

Lemma ddiv_nothing x y : nothing x -> nothing (ddiv x y) \/ ddiv x y = S754_zero true.
Proof. intros [-> | ->]; destruct y as [[]|[]| |[] m e]; cbn; unfold nothing; tauto. Qed.

Lemma quotient_passes x n e : nothing x -> dltb epsilon (dabs (ddiv (ddiv x n) e)) = false.
Proof.
  intros Hx. assert (nothing (ddiv (ddiv x n) e) \/ ddiv (ddiv x n) e = S754_zero true) as [[-> | ->]| ->]; [|done..].
  destruct (ddiv_nothing x n Hx) as [H| ->]; [by apply ddiv_nothing|]. destruct e as [[]|[]| |[] m k]; cbn; unfold nothing; tauto.
Qed.

(** ** Arrays whose elements are all the same *)

Section Proofs.
Context {team_of : Team} (fuel : nat) (N : Z) (HN : 0 <= N <= Z.of_nat fuel).

Definition sized (s : arrays) : Prop := alen (va s) = N /\ alen (vb s) = N /\ alen (vc s) = N.
Definition cells (s : arrays) (j : Z) : option (double * double * double) :=
  x ← (va s).[j]; y ← (vb s).[j]; z ← (vc s).[j]; Some (x, y, z).
Definition uniform (v : double * double * double) (s : arrays) : Prop := sized s /\ forall j, 0 <= j < N -> cells s j = Some v.

(** A body that changes place [j] only, by [g]. *)
Definition works (body : Z -> arrays -> option arrays) (g : double * double * double -> double * double * double) : Prop :=
  forall j s v, 0 <= j < N -> sized s -> cells s j = Some v -> exists s', body j s = Some s' /\ sized s' /\
    forall k, 0 <= k < N -> cells s' k = if decide (k = j) then Some (g v) else cells s k.

Lemma kernel_uniform body g v s :
  works body g -> uniform v s -> ends (kernel fuel N body s) (uniform (g v)).
Proof.
  intros Hb [Hs Hv]. eapply ends_mono.
  - apply (par_for_each body (fun h s => sized s /\ forall j, 0 <= j < N -> cells s j = Some (h j)) (fun _ => v) (fun _ => g v)).
    + intros h h' s1 Hh [Hs1 Hc]. split; [done|]. intros j Hj. rewrite <- Hh by done. by apply Hc.
    + done.
    + lia.
    + intros k h s1 Hk Hhk [Hs1 Hc]. destruct (Hb k s1 v Hk Hs1) as (s2 & E & Hs2 & Hc2); [rewrite Hc by done; by rewrite Hhk|].
      exists s2. split; [done|]. split; [done|]. intros j Hj. rewrite Hc2 by done. case_decide; [done|by apply Hc].
  - done.
Qed.

Lemma cells_get s j x y z : cells s j = Some (x, y, z) -> (va s).[j] = Some x /\ (vb s).[j] = Some y /\ (vc s).[j] = Some z.
Proof.
  unfold cells. destruct ((va s).[j]), ((vb s).[j]), ((vc s).[j]); cbn; naive_solver.
Qed.

(** A body reads its cell, computes and writes. *)
Ltac body_works :=
  intros j s [[x y] z] Hj (Ha & Hb & Hc) Hcell; destruct (cells_get _ _ _ _ _ Hcell) as (Ex & Ey & Ez); rewrite ?Ex, ?Ey, ?Ez; cbn [mbind option_bind];
  rewrite ?aset_in by lia; cbn [mbind option_bind]; eexists; split; [done|]; split; [by repeat split; cbn [va vb vc]; rewrite ?alen_insert|];
  intros k Hk; unfold cells; cbn [va vb vc]; rewrite ?aget_insert by lia; case_decide; [subst; by rewrite ?Ex, ?Ey, ?Ez|done].

Lemma fill_works : works fill_body (fun _ => (double_of 1, double_of 2, dzero)).
Proof. unfold works, fill_body. body_works. Qed.
Lemma double_works : works double_body (fun '(x, y, z) => (dmul (double_of 2) x, y, z)).
Proof. unfold works, double_body. body_works. Qed.
Lemma Copy_works : works Copy_body (fun '(x, y, _) => (x, y, x)).
Proof. unfold works, Copy_body. body_works. Qed.
Lemma Scale_works : works Scale_body (fun '(x, _, z) => (x, dmul scalar z, z)).
Proof. unfold works, Scale_body. body_works. Qed.
Lemma Add_works : works Add_body (fun '(x, y, _) => (x, y, dadd x y)).
Proof. unfold works, Add_body. body_works. Qed.
Lemma Triad_works : works Triad_body (fun '(_, y, z) => (dadd y (dmul scalar z), y, z)).
Proof. unfold works, Triad_body. body_works. Qed.

Lemma kernels_uniform v s : uniform v s -> ends (kernels fuel N s) (uniform (expected_round v)).
Proof.
  destruct v as [[x y] z]. intros Hs. unfold kernels.
  apply ends_bind. eapply ends_mono; [apply (kernel_uniform _ _ _ _ Copy_works Hs)|]. clear s Hs. intros s Hs.
  apply ends_bind. eapply ends_mono; [apply (kernel_uniform _ _ _ _ Scale_works Hs)|]. clear s Hs. intros s Hs.
  apply ends_bind. eapply ends_mono; [apply (kernel_uniform _ _ _ _ Add_works Hs)|]. clear s Hs. intros s Hs.
  apply (kernel_uniform _ _ _ _ Triad_works Hs).
Qed.

Lemma main_loop_uniform k : forall v s, uniform v s -> ends (main_loop fuel N k s) (uniform (Nat.iter k expected_round v)).
Proof.
  induction k as [|k IH]; intros v s Hs; cbn [main_loop]; [by apply ends_ret|]. apply ends_bind.
  eapply ends_mono; [by apply kernels_uniform|]. intros s1 Hs1. rewrite Nat.iter_succ_r. by apply IH.
Qed.

(** ** The check *)

Lemma sum_errors_nothing l e :
  (forall j, 0 <= j < N -> l.[j] = Some e) -> exists err, sum_errors N l e = Some err /\ nothing err.
Proof.
  intros Hl. unfold sum_errors. apply (for_z_inv (fun _ => nothing)); [lia|by left|]. intros j err Hj Herr. rewrite Hl by done.
  cbn [mbind option_bind]. eexists. split; [done|]. apply dadd_nothing; [done|]. apply dabs_nothing, dsub_self.
Qed.

Lemma check_passes NTIMES s : uniform (expected NTIMES) s -> checkSTREAMresults N NTIMES s = Some (0, [None; None; None]).
Proof.
  intros [_ Hv]. unfold checkSTREAMresults. destruct (expected NTIMES) as [[aj bj] cj].
  destruct (sum_errors_nothing (va s) aj) as (ea & -> & Ha); [intros j Hj; by destruct (cells_get _ _ _ _ _ (Hv j Hj))|].
  destruct (sum_errors_nothing (vb s) bj) as (eb & -> & Hb); [intros j Hj; by destruct (cells_get _ _ _ _ _ (Hv j Hj)) as (_ & ? & _)|].
  destruct (sum_errors_nothing (vc s) cj) as (ec & -> & Hc); [intros j Hj; by destruct (cells_get _ _ _ _ _ (Hv j Hj)) as (_ & _ & ?)|].
  cbn [mbind option_bind]. unfold check_array. rewrite !quotient_passes by done. done.
Qed.

(** C37: STREAM validates.  For every size, every number of rounds, every number of
    threads and every schedule, the run stays inside the arrays and ends; when the
    arrays could be mapped, every element of [a], [b] and [c] is the scalar that
    went through the same rounded operations, and the check finds no error in any
    array, also where the numbers have grown to infinity. *)
Theorem stream_validates NTIMES mapped :
  ends (do_run fuel N NTIMES mapped) (fun res =>
    match res with
    | MapFailed => exists i, 0 <= i < 3 /\ mapped i = false
    | Checked err found s => err = 0 /\ found = [None; None; None] /\ uniform (expected NTIMES) s
    end).
Proof.
  unfold do_run. destruct (mapped 0) eqn:E0; [|apply ends_ret; exists 0; split; [lia|done]].
  destruct (mapped 1) eqn:E1; [|apply ends_ret; exists 1; split; [lia|done]].
  destruct (mapped 2) eqn:E2; [|apply ends_ret; exists 2; split; [lia|done]]. cbn [negb]. set (page := replicate _ _).
  assert (alen page = N) as Hp by (unfold page, alen; rewrite length_replicate; lia).
  apply ends_bind. eapply ends_mono; [apply (kernel_uniform _ _ (dzero, dzero, dzero) _ fill_works)|].
  { split; [done|]. intros j Hj. unfold cells. cbn [va vb vc]. assert (page.[j] = Some dzero) as ->; [|done].
    unfold page, aget. destruct (Z.ltb_spec j 0); [lia|]. apply lookup_replicate_2. lia. }
  intros s Hs. apply ends_bind. eapply ends_mono; [apply (kernel_uniform _ _ _ _ double_works Hs)|]. clear s Hs. intros s Hs.
  apply ends_bind. eapply ends_mono; [apply (main_loop_uniform _ _ _ Hs)|]. clear s Hs. intros s Hs.
  apply ends_bind. eapply ends_lift; [by apply check_passes|]. by apply ends_ret.
Qed.
End Proofs.

(** The values of the ten rounds of the build are whole numbers. *)
Lemma expected_ten : expected 10 = (double_of 1153300781250, double_of 230660156250, double_of 307546875000).
Proof. vm_compute. reflexivity. Qed.

Lemma stream_validates_witness :
  ends (@do_run first_first 4 3 10 (fun _ => true)) (fun res =>
    match res with
    | MapFailed => exists i, 0 <= i < 3 /\ true = false
    | Checked err found s => err = 0 /\ found = [None; None; None] /\ uniform 3 (expected 10) s
    end).
Proof. apply (@stream_validates first_first 4 3); lia. Defined.

End Stream.
