(* ===== verification/Canneal.v ===== *)
(** * The generator of netlists (src/datasets/fast_canneal_int.c)

    Every thread prints the lines of its share of the elements into a buffer of
    its own and writes the buffer out, in a critical section, when it is nearly
    full.  The output is one line per element, in an order that depends on the
    schedule, each with a type and five connections. *)

From Stdlib Require Import ZArith Lia.
From stdpp Require Import list numbers.
From S2P Require Import Prelude Arrays CLib Threads.
#[local] Open Scope Z_scope.

Module Canneal.

(** ** The code *)

(** [rand_r] of the C library: a value and the new seed. *)
Class RandR := { rand_r : Z -> Z * Z; rand_r_range seed : 0 <= fst (rand_r seed) < 2 ^ 31 }.

(** [printf("%ld")] *)
Definition print_long (n : Z) : list Z := if n <? 0 then 45 :: decimal (- n) else decimal n.

Definition buf_size : Z := 64 * 1024 * 1024.

(** A thread: the element it is at, the end of its share, its seed, what is in
    its buffer, and whether it has written the rest. *)
Record thread := MkThread { at_i : Z; upto : Z; seed : Z; buffer : list Z; over : bool }.

(** [buf_pos += sprintf(buffer + buf_pos, ...)], with the terminating 0 *)
Definition append (buffer s : list Z) : option (list Z) :=
  assert! alen buffer + alen s + 1 <=? buf_size; Some (buffer ++ s).
(** [buffer[buf_pos++] = c] *)
Definition append_char (buffer : list Z) (c : Z) : option (list Z) :=
  assert! alen buffer <? buf_size; Some (buffer ++ [c]).

Section Code.
Context {rr : RandR} {team_of : Team}.

Definition print_conn (num_elements : Z) (s : list Z * Z) : option (list Z * Z) :=
  let '(buffer, seed) := s in
  let '(v, seed) := rand_r seed in
  let '(w, seed) := rand_r seed in
  p ← sint64 (v * w);
  assert! negb (num_elements =? 0);
  let conn := Z.rem p num_elements in
  let conn := if conn <? 0 then - conn else conn in
  buffer ← append buffer (9 :: print_long conn);
  Some (buffer, seed).

(** The line of element [i]. *)
Definition print_element (num_elements i : Z) (s : list Z * Z) : option (list Z * Z) :=
  let '(buffer, seed) := s in
  let '(v, seed) := rand_r seed in
  let type := 1 + v mod 2 in
  buffer ← append buffer (print_long i ++ 9 :: print_long type);
  '(buffer, seed) ← for_z 0 5 (fun _ => print_conn num_elements) (buffer, seed);
  buffer ← append_char buffer 10;
  Some (buffer, seed).

(** One element, or what is left in the buffer; [out] is what was written. *)
Definition thread_step (num_elements : Z) (_ : nat) (out : list Z) (t : thread) : option (list Z * thread) :=
  if at_i t <? upto t then
    '(buf, seed) ← print_element num_elements (at_i t) (buffer t, seed t);
    if buf_size - 512 <? alen buf then Some (out ++ buf, MkThread (at_i t + 1) (upto t) seed [] false)
    else Some (out, MkThread (at_i t + 1) (upto t) seed buf false)
  else Some (out ++ buffer t, MkThread (at_i t) (upto t) (seed t) [] true).

(** The share of thread [tid]. *)
Definition thread_start (num_elements chunk_size tid : Z) : option thread :=
  start ← sint64 (tid * chunk_size);
  last ← sint64 (start + chunk_size);
  Some (MkThread start (if num_elements <? last then num_elements else last) (u32 (tid + 12345)) [] false).

(** The exit status and the output; the region has as many threads as
    [omp_get_max_threads] said. *)
Definition main (fuel : nat) (args : list (list Z)) : Par (Z * list Z) :=
  match args with
  | [a1; a2; a3] =>
      let x := atol a1 in let y := atol a2 in let num_elements := atol a3 in
      area ← lift (if (x <=? 1) || (y <=? 1) then Some 0 else sint64 (x * y));
      if (x <=? 1) || (y <=? 1) || (area <=? num_elements) then mret (1, [])
      else
        let header := print_long num_elements ++ 9 :: print_long x ++ 9 :: print_long y ++ [10] in
        total ← lift (sint64 (num_elements + nt));
        let chunk_size := Z.quot (total - 1) nt in
        ts ← lift (mapM (thread_start num_elements chunk_size) (seqZ 0 nt));
        '(out, _) ← region (thread_step num_elements) over fuel header ts;
        mret (0, out)
  | _ => mret (1, [])
  end.
End Code.

(** ** Lines *)

Record element := MkElement { el_id : Z; el_type : Z; conns : list Z }.

Definition print_line (e : element) : list Z :=
  print_long (el_id e) ++ 9 :: print_long (el_type e) ++ mjoin ((fun c => 9 :: print_long c) <$> conns e) ++ [10].

(** An element of a netlist of [n]. *)
Definition valid (n : Z) (e : element) : Prop :=
  0 <= el_id e < n /\ (el_type e = 1 \/ el_type e = 2) /\ length (conns e) = 5%nat /\ Forall (fun c => 0 <= c < n) (conns e).

Definition lines (l : list element) : list Z := mjoin (print_line <$> l).

Lemma lines_snoc l e : lines (l ++ [e]) = lines l ++ print_line e.
Proof. unfold lines. rewrite fmap_app, join_app. cbn. by rewrite app_nil_r. Qed.

Lemma lines_app l k : lines (l ++ k) = lines l ++ lines k.
Proof. unfold lines. by rewrite fmap_app, join_app. Qed.

Lemma print_digits_length fuel n acc : alen (print_digits fuel n acc) <= Z.of_nat fuel + alen acc.
Proof.
  revert n acc. induction fuel as [|fuel IH]; intros n acc; cbn [print_digits]; [lia|].
  destruct (n <? 10); [rewrite alen_cons; lia|]. specialize (IH (n / 10) (48 + n mod 10 :: acc)). rewrite alen_cons in IH. lia.
Qed.

Lemma print_long_length n : 0 <= n -> alen (print_long n) <= 20.
Proof.
  intros Hn. unfold print_long. destruct (Z.ltb_spec n 0); [lia|]. pose proof (print_digits_length 20 n []) as Hd. rewrite alen_nil in Hd.
  unfold decimal. lia.
Qed.

Section Element.
Context {rr : RandR} (n : Z) (Hn : 0 < n < 2 ^ 63).

Lemma print_conn_ok buf seed :
  alen buf + 22 <= buf_size ->
  exists c seed', print_conn n (buf, seed) = Some (buf ++ 9 :: print_long c, seed') /\ 0 <= c < n.
Proof.
  intros Hb. unfold print_conn. pose proof (rand_r_range seed) as Hv. destruct (rand_r seed) as [v s1]. pose proof (rand_r_range s1) as Hw.
  destruct (rand_r s1) as [w s2]. cbn [fst] in *. rewrite sint64_id by nia. cbn [mbind option_bind]. rewrite check_true by lia. cbn [mbind option_bind].
  pose proof (Z.rem_bound_pos (v * w) n ltac:(nia) ltac:(lia)) as Hc. destruct (Z.ltb_spec (Z.rem (v * w) n) 0); [lia|].
  set (c := Z.rem (v * w) n) in *. clearbody c. pose proof (print_long_length c ltac:(lia)). unfold append. rewrite check_true by (rewrite alen_cons; lia).
  cbn [mbind option_bind]. by exists c, s2.
Qed.

Lemma print_element_ok i buf seed :
  0 <= i < n -> alen buf <= buf_size - 512 ->
  exists e seed', print_element n i (buf, seed) = Some (buf ++ print_line e, seed') /\ el_id e = i /\ valid n e /\ alen (print_line e) < 512.
Proof.
  intros Hi Hb. unfold print_element. pose proof (rand_r_range seed) as Hv. destruct (rand_r seed) as [v s1]. cbn [fst] in Hv.
  pose proof (Z.mod_pos_bound v 2 ltac:(lia)) as Hm. set (type := 1 + v mod 2). assert (type = 1 \/ type = 2) as Ht by (unfold type; lia). clearbody type.
  pose proof (print_long_length i ltac:(lia)) as Li. pose proof (print_long_length type ltac:(lia)) as Lt.
  unfold append at 1. rewrite check_true by (rewrite alen_app, alen_cons; lia). cbn [mbind option_bind].
  set (start := buf ++ print_long i ++ 9 :: print_long type). assert (alen start <= buf_size - 512 + 41) as Hs by (unfold start; rewrite !alen_app, alen_cons; lia).
  destruct (for_z_inv (fun j '(b, _) => exists cs, b = start ++ mjoin ((fun c => 9 :: print_long c) <$> cs) /\ alen cs = j /\
      alen b <= alen start + 21 * j /\ Forall (fun c => 0 <= c < n) cs) 0 5 (fun _ => print_conn n) (start, s1)) as ([b s2] & -> & cs & Eb & Hl & Hlen & Hcs).
  - lia.
  - exists []. split; [cbn; by rewrite app_nil_r|]. split; [done|]. split; [lia|constructor].
  - intros j [b s2] Hj (cs & Eb & Hl & Hlen & Hcs). destruct (print_conn_ok b s2 ltac:(lia)) as (c & s3 & -> & Hc). eexists. split; [done|].
    exists (cs ++ [c]). rewrite fmap_app, join_app. cbn [fmap list_fmap mjoin list_join]. rewrite app_nil_r. split; [by rewrite Eb, <- app_assoc|].
    rewrite !alen_app, !alen_cons, alen_nil. pose proof (print_long_length c ltac:(lia)). split; [lia|]. split; [lia|].
    apply Forall_app. split; [done|]. by constructor.
  - cbn [mbind option_bind]. unfold append_char. rewrite check_true by lia. cbn [mbind option_bind]. exists (MkElement i type cs), s2.
    assert (b ++ [10] = buf ++ print_line (MkElement i type cs)) as ->.
    { rewrite Eb. unfold start, print_line. cbn [el_id el_type conns]. by rewrite <- !app_assoc. }
    split; [done|]. split; [done|]. split.
    + split; [done|]. split; [done|]. split; [unfold alen in Hl; cbn [conns]; lia|done].
    + assert (alen b + 1 = alen buf + alen (print_line (MkElement i type cs))) as Hlen2; [|unfold start in Hlen; rewrite !alen_app, alen_cons in Hlen; lia].
      rewrite Eb. unfold start, print_line. cbn [el_id el_type conns]. rewrite !alen_app, !alen_cons, !alen_app, !alen_cons, alen_nil. lia.
Qed.
End Element.

(** ** The threads *)

(** The elements a thread has not printed yet. *)
Definition left_of (t : thread) : list Z := seqZ (at_i t) (upto t - at_i t).

(** A thread with the elements whose lines are in its buffer. *)
Definition buffered (n : Z) (z : thread * list element) : Prop :=
  buffer z.1 = lines z.2 /\ Forall (valid n) z.2 /\ alen (buffer z.1) <= buf_size - 512 /\
  (over z.1 = true -> left_of z.1 = [] /\ z.2 = []).

Definition pending (z : thread * list element) : list Z := (el_id <$> z.2) ++ left_of z.1.

Definition steps_left (t : thread) : nat := (length (left_of t) + if over t then 0 else 1)%nat.

(** What is written and what is not are the lines of all elements. *)
Definition writes (n : Z) (header out : list Z) (ts : list thread) : Prop :=
  exists zs W, ts = zs.*1 /\ Forall (buffered n) zs /\ out = header ++ lines W /\ Forall (valid n) W /\
    (el_id <$> W) ++ (zs ≫= pending) ≡ₚ seqZ 0 n.

Section Threads.
Context {rr : RandR} {team_of : Team} (n : Z) (Hn : n < 2 ^ 63) (header : list Z).

Lemma thread_step_ok out ts tid t :
  writes n header out ts -> ts !! tid = Some t -> over t = false ->
  exists out' t', thread_step n tid out t = Some (out', t') /\ writes n header out' (<[tid := t']> ts) /\ (steps_left t' < steps_left t)%nat.
Proof.
  intros (zs & W & -> & Hzs & -> & HW & Hall) Ht Hover. rewrite list_lookup_fmap in Ht. destruct (zs !! tid) as [[t0 B]|] eqn:Ez; [|done].
  injection Ht as ->. pose proof (Forall_lookup_1 _ _ _ _ Hzs Ez) as (Hbuf & HB & Hlen & _). cbn [fst snd] in *. unfold thread_step.
  assert (forall t' B', buffered n (t', B') -> Forall (buffered n) (<[tid := (t', B')]> zs)) as Hkeep by (intros; by apply Forall_insert).
  destruct (Z.ltb_spec (at_i t) (upto t)) as [Hlt|Hge].
  - assert (left_of t = at_i t :: seqZ (at_i t + 1) (upto t - (at_i t + 1))) as Eleft.
    { unfold left_of. rewrite seqZ_cons by lia. f_equal. f_equal. lia. }
    assert (forall t' B', exists rest, zs ≫= pending ≡ₚ pending (t, B) ++ rest /\ <[tid := (t', B')]> zs ≫= pending ≡ₚ pending (t', B') ++ rest) as Hbind
      by (intros; by apply bind_insert).
    assert (at_i t ∈ seqZ 0 n) as Hi%elem_of_seqZ.
    { rewrite <- Hall. destruct (Hbind t B) as (rest & -> & _). unfold pending. cbn [fst snd]. rewrite Eleft. rewrite !elem_of_app. right. left. right. left. }
    destruct (print_element_ok n ltac:(lia) (at_i t) (buffer t) (seed t) ltac:(lia) Hlen) as (e & s' & -> & Hid & He & Hle). cbn [mbind option_bind].
    destruct (Z.ltb_spec (buf_size - 512) (alen (buffer t ++ print_line e))) as [Hfull|Hroom].
    + eexists _, _. split; [done|]. split; [|unfold steps_left, left_of at 1; cbn [at_i upto over]; rewrite Eleft, Hover; cbn; lia].
      destruct (Hbind (MkThread (at_i t + 1) (upto t) s' [] false) []) as (rest & E1 & E2).
      eexists (<[tid := (MkThread (at_i t + 1) (upto t) s' [] false, [])]> zs), (W ++ B ++ [e]). split; [by rewrite list_fmap_insert|].
      split; [apply Hkeep; repeat split; done|]. split; [by rewrite Hbuf, !lines_app, <- !app_assoc; cbn; rewrite app_nil_r|].
      split; [rewrite !Forall_app; repeat split; [done|done|by constructor]|]. rewrite <- Hall, E1, E2. unfold pending. cbn [fst snd].
      rewrite Eleft, !fmap_app. cbn [fmap list_fmap]. rewrite Hid. unfold left_of. cbn [at_i upto]. by rewrite <- !app_assoc.
    + eexists _, _. split; [done|]. split; [|unfold steps_left, left_of at 1; cbn [at_i upto over]; rewrite Eleft, Hover; cbn; lia].
      destruct (Hbind (MkThread (at_i t + 1) (upto t) s' (buffer t ++ print_line e) false) (B ++ [e])) as (rest & E1 & E2).
      eexists (<[tid := (MkThread (at_i t + 1) (upto t) s' (buffer t ++ print_line e) false, B ++ [e])]> zs), W. split; [by rewrite list_fmap_insert|].
      split; [apply Hkeep; unfold buffered; cbn [fst snd buffer over]; split; [by rewrite lines_snoc, Hbuf|]; split; [rewrite Forall_app; split; [done|by constructor]|by split]|].
      split; [done|]. split; [done|]. rewrite <- Hall, E1, E2. unfold pending. cbn [fst snd].
      rewrite Eleft, !fmap_app. cbn [fmap list_fmap]. rewrite Hid. unfold left_of. cbn [at_i upto]. by rewrite <- !app_assoc.
  - assert (left_of t = []) as Eleft by (unfold left_of; apply seqZ_nil; lia).
    eexists _, _. split; [done|]. set (t' := MkThread _ _ _ _ _). assert (left_of t' = []) as Eleft' by (unfold left_of; apply seqZ_nil; cbn; lia).
    split; [|unfold steps_left; rewrite Eleft, Eleft', Hover; cbn; lia].
    destruct (bind_insert pending zs tid (t, B) (t', []) Ez) as (rest & E1 & E2).
    exists (<[tid := (t', [])]> zs), (W ++ B). split; [by rewrite list_fmap_insert|]. split; [apply Hkeep; repeat split; done|].
    split; [by rewrite Hbuf, lines_app, <- app_assoc|]. split; [by rewrite Forall_app|]. rewrite <- Hall, E1, E2. unfold pending. cbn [fst snd].
    rewrite Eleft, Eleft', fmap_app. cbn. by rewrite app_nil_r, <- app_assoc.
Qed.

Lemma threads_write fuel ts :
  writes n header header ts -> (sum_of steps_left ts <= fuel)%nat ->
  ends (region (thread_step n) over fuel header ts) (fun '(out, _) => exists W, out = header ++ lines W /\ el_id <$> W ≡ₚ seqZ 0 n /\ Forall (valid n) W).
Proof.
  intros Hts Hfuel. eapply ends_mono.
  - apply (region_ok _ _ (writes n header) (fun _ ts => sum_of steps_left ts)); [done|done|]. intros out ts1 tid t Hw Ht Hov.
    destruct (thread_step_ok out ts1 tid t Hw Ht Hov) as (out' & t' & E & Hw' & Hlt). exists out', t'. split; [done|]. split; [done|].
    pose proof (sum_of_insert steps_left ts1 tid t t' Ht). lia.
  - intros [out ts'] [(zs & W & -> & Hzs & -> & HW & Hall) Hov]. exists W. split; [done|]. split; [|done]. rewrite <- Hall.
    assert (zs ≫= pending = []) as ->; [|by rewrite app_nil_r]. clear -Hzs Hov. induction zs as [|[t B] zs IH]; [done|].
    cbn in Hov. apply list.Forall_cons in Hov as [Ho Hov], Hzs as [(_ & _ & _ & Hz) Hzs]. cbn [fst snd] in *. destruct (Hz Ho) as [Hl ->]. cbn. unfold pending at 1. cbn [fst snd].
    rewrite Hl. cbn. by apply IH.
Qed.
End Threads.

(** ** The shares *)

Section Shares.
Context {rr : RandR} {team_of : Team} (n : Z) (Hn : - 2 ^ 63 <= n) (Hnt : n + nt < 2 ^ 63).

Definition chunk : Z := Z.quot (n + nt - 1) nt.
Definition share (tid : Z) : thread := MkThread (tid * chunk) (Z.min n (tid * chunk + chunk)) (u32 (tid + 12345)) [] false.

Lemma chunk_pos : 0 < n -> 1 <= chunk /\ n <= nt * chunk <= n + nt - 1.
Proof.
  intros H. pose proof nt_pos as Hp. unfold chunk. rewrite Z.quot_div_nonneg by lia. generalize dependent nt. intros T _ Hp.
  pose proof (Z.div_mod (n + T - 1) T ltac:(lia)). pose proof (Z.mod_pos_bound (n + T - 1) T Hp). nia.
Qed.

Lemma chunk_neg : n <= 0 -> chunk <= 0 /\ (0 <= n + nt - 1 -> chunk = 0) /\ - 2 ^ 63 <= nt * chunk.
Proof.
  intros H. pose proof nt_pos as Hp. unfold chunk. generalize dependent nt. intros T _ Hp. destruct (decide (0 <= n + T - 1)).
  - rewrite Z.quot_small by lia. lia.
  - assert (Z.quot (n + T - 1) T = - (- (n + T - 1) / T)) as ->.
    { rewrite <- Z.quot_div_nonneg by lia. rewrite <- Z.quot_opp_l by lia. f_equal. lia. }
    pose proof (Z.div_mod (- (n + T - 1)) T ltac:(lia)). pose proof (Z.mod_pos_bound (- (n + T - 1)) T Hp).
    split; [nia|]. split; [intros; lia|]. nia.
Qed.

Lemma thread_start_ok tid : 0 <= tid < nt -> thread_start n chunk tid = Some (share tid).
Proof.
  intros Ht. unfold thread_start, share. destruct (decide (0 < n)) as [H|H].
  - destruct (chunk_pos H). rewrite sint64_id by nia. cbn [mbind option_bind]. rewrite sint64_id by nia. cbn [mbind option_bind].
    do 2 f_equal. destruct (Z.ltb_spec n (tid * chunk + chunk)); lia.
  - destruct (chunk_neg ltac:(lia)) as (? & _ & ?). rewrite sint64_id by nia. cbn [mbind option_bind]. rewrite sint64_id by nia. cbn [mbind option_bind].
    do 2 f_equal. destruct (Z.ltb_spec n (tid * chunk + chunk)); lia.
Qed.

Lemma all_started : mapM (thread_start n chunk) (seqZ 0 nt) = Some (share <$> seqZ 0 nt).
Proof.
  assert (forall l, (forall tid, tid ∈ l -> 0 <= tid < nt) -> mapM (thread_start n chunk) l = Some (share <$> l)) as H.
  { induction l as [|tid l IH]; intros Hl; [done|]. cbn [mapM]. rewrite thread_start_ok by (apply Hl; left). cbn [mbind option_bind].
    rewrite IH by (intros; apply Hl; by right). done. }
  apply H. intros tid Ht%elem_of_seqZ. lia.
Qed.

(** The shares of the first [k] threads. *)
Lemma shares_prefix (k : nat) : 0 < n -> seqZ 0 (Z.of_nat k) ≫= (fun tid => left_of (share tid)) = seqZ 0 (Z.min n (Z.of_nat k * chunk)).
Proof.
  intros H. destruct (chunk_pos H) as [Hc _]. induction k as [|k IH].
  - cbn. rewrite Z.min_r by lia. done.
  - replace (Z.of_nat (S k)) with (Z.of_nat k + 1) by lia. rewrite seqZ_app by lia. rewrite bind_app, IH. cbn [seqZ]. change (seqZ (0 + Z.of_nat k) 1) with [0 + Z.of_nat k].
    cbn [mbind list_bind]. rewrite app_nil_r. unfold left_of, share. cbn [at_i upto]. rewrite Z.add_0_l.
    replace ((Z.of_nat k + 1) * chunk) with (Z.of_nat k * chunk + chunk) by lia. set (s := Z.of_nat k * chunk). assert (0 <= s) by (unfold s; nia).
    destruct (decide (n <= s)).
    + rewrite (seqZ_nil s) by lia. rewrite app_nil_r. f_equal. lia.
    + rewrite (Z.min_r n s) by lia. rewrite <- (Z.add_0_l s) at 2. rewrite <- seqZ_app by lia. f_equal. lia.
Qed.

Lemma shares_all : seqZ 0 nt ≫= (fun tid => left_of (share tid)) = seqZ 0 n.
Proof.
  pose proof nt_pos as Hp. destruct (decide (0 < n)) as [H|H].
  - pose proof (shares_prefix (Z.to_nat nt) H) as E. rewrite Z2Nat.id in E by lia. rewrite E. destruct (chunk_pos H). f_equal. lia.
  - rewrite (seqZ_nil 0 n) by lia. destruct (chunk_neg ltac:(lia)) as (H1 & H2 & _).
    assert (forall l, (forall tid, tid ∈ l -> 0 <= tid) -> l ≫= (fun tid => left_of (share tid)) = []) as Hl; [|apply Hl; intros tid Ht%elem_of_seqZ; lia].
    induction l as [|tid l IH]; intros Hr; [done|]. cbn [mbind list_bind]. change (left_of (share tid) ++ (l ≫= (fun tid => left_of (share tid))) = []).
    rewrite IH by (intros; apply Hr; by right). rewrite app_nil_r. unfold left_of, share. cbn [at_i upto]. apply seqZ_nil.
    destruct (decide (0 <= n + nt - 1)) as [H0|]; [rewrite (H2 H0) in *; lia|lia].
Qed.
End Shares.

(** ** The program *)

Section Main.
Context {rr : RandR} {team_of : Team}.

Lemma fresh_steps n (l : list Z) :
  sum_of steps_left (share n <$> l) = (length (l ≫= (fun tid => left_of (share n tid))) + length l)%nat.
Proof.
  induction l as [|tid l IH]; [done|]. cbn [fmap list_fmap sum_of]. rewrite IH. unfold steps_left at 1. cbn [over share].
  change ((tid :: l) ≫= (fun tid => left_of (share n tid))) with (left_of (share n tid) ++ (l ≫= (fun tid => left_of (share n tid)))).
  rewrite length_app. cbn. lia.
Qed.

Lemma fresh_writes n header (l : list Z) :
  l ≫= (fun tid => left_of (share n tid)) = seqZ 0 n -> writes n header header (share n <$> l).
Proof.
  intros Hl. exists ((fun tid => (share n tid, [])) <$> l), []. split; [by rewrite <- list_fmap_compose|]. split.
  { apply Forall_fmap, Forall_true. intros tid. repeat split; done. }
  split; [cbn; by rewrite app_nil_r|]. split; [constructor|]. cbn [fmap list_fmap app]. rewrite <- Hl. clear. induction l as [|tid l IH]; [done|].
  change (left_of (share n tid) ++ (((fun tid => (share n tid, [])) <$> l) ≫= pending) ≡ₚ left_of (share n tid) ++ (l ≫= (fun tid => left_of (share n tid)))).
  by rewrite IH.
Qed.

(** C38: The netlist is complete.  With a grid larger than the number of elements
    and no overflow in the sizes, for every number of threads and every schedule,
    whatever [rand_r] returns: no buffer overflows, the program ends with status
    0, and its output is the header followed by one whole line per element, each
    element once, with type 1 or 2 and five connections to elements there are. *)
Theorem netlist_complete fuel a1 a2 a3 :
  let x := atol a1 in let y := atol a2 in let n := atol a3 in
  1 < x -> 1 < y -> x * y < 2 ^ 63 -> n < x * y -> n + nt < 2 ^ 63 -> Z.max 0 n + nt <= Z.of_nat fuel ->
  ends (main fuel [a1; a2; a3]) (fun '(status, out) => status = 0 /\ exists W,
    out = (print_long n ++ 9 :: print_long x ++ 9 :: print_long y ++ [10]) ++ lines W /\
    el_id <$> W ≡ₚ seqZ 0 n /\ Forall (valid n) W).
Proof.
  intros x y n Hx Hy Hxy Hn Hnt Hfuel. unfold main. fold x y n. pose proof nt_pos as Hp. pose proof (atol_range a3) as Hr. fold n in Hr. unfold in_s64 in Hr.
  assert ((x <=? 1) || (y <=? 1) = false) as E by lia. rewrite E. apply ends_bind. eapply ends_lift; [apply sint64_id; nia|].
  cbn [orb]. assert (x * y <=? n = false) as -> by lia. apply ends_bind. eapply ends_lift; [apply sint64_id; lia|].
  apply ends_bind. eapply ends_lift; [apply (all_started n); lia|]. apply ends_bind. pose proof (shares_all n) as Hall.
  eapply ends_mono.
  - apply (threads_write n); [nia|apply fresh_writes, Hall; lia|]. rewrite fresh_steps, Hall, !length_seqZ by lia. lia.
  - intros [out ts] HW. by apply ends_ret.
Qed.
End Main.

(** ** A run *)

Definition sample_rand_r : RandR := {|
  rand_r seed := ((seed * 1103515245 + 12345) mod 2 ^ 31, u32 (seed + 1));
  rand_r_range seed := Z.mod_pos_bound _ (2 ^ 31) eq_refl;
|}.

Lemma netlist_complete_witness :
  ends (@main sample_rand_r first_first 7 [[52]; [50]; [53]]) (fun '(status, out) => status = 0 /\ exists W,
    out = (print_long 5 ++ 9 :: print_long 4 ++ 9 :: print_long 2 ++ [10]) ++ lines W /\ el_id <$> W ≡ₚ seqZ 0 5 /\ Forall (valid 5) W).
Proof. apply (@netlist_complete sample_rand_r first_first 7 [52] [50] [53]); vm_compute; done. Defined.

End Canneal.
