(* ===== verification/OmpCsr.v ===== *)
(** * The OpenMP kernel: construction (sources/graph500/omp-csr/omp-csr.c)

    The compressed rows of SeqCsr, built by a team of threads: the largest
    vertex by compare-and-swap, degrees by atomic increments, offsets by a
    prefix sum over slices, rows by fetch-and-add.  Every order of the threads'
    steps ends in a graph that meets the specification of the sequential code;
    the arrays and their macros are those of SeqCsr. *)

From Stdlib Require Import ZArith Lia Sorted.
From stdpp Require Import list numbers.
From S2P Require Import Prelude Arrays Graph SeqCsr Threads.
#[local] Open Scope Z_scope.

Module OmpCsr.
Import Graph SeqCsr.

(** ** The atomic operations *)

(** Each returns the value before, and the value after. *)
Definition int64_fetch_add (p incr : Z) : Z * Z := (p, p + incr).
Definition int64_casval (p oldval newval : Z) : Z * Z := (p, if p =? oldval then newval else p).
Definition int64_cas (p oldval newval : Z) : bool * Z := if p =? oldval then (true, newval) else (false, p).

Section Code.
Context {team_of : Team} (fuel : nat).

(** ** The largest vertex *)

(** A thread's loop over its edges. *)
Definition scan_edge (IJ : list packed_edge) (_ : nat) (_ : unit) (t : list Z * Z) : option (unit * (list Z * Z)) :=
  let '(todo, tmaxvtx) := t in
  match todo with
  | k :: todo => tmaxvtx ← max_step IJ k tmaxvtx; Some (tt, (todo, tmaxvtx))
  | [] => None
  end.
Definition scanned (t : list Z * Z) : bool := match fst t with [] => true | _ => false end.

(** [gmaxvtx = maxvtx; while (tmaxvtx > gmaxvtx) gmaxvtx = int64_casval (...)],
    with [gmaxvtx] unset at first. *)
Definition raise_max (_ : nat) (maxvtx : Z) (t : Z * option Z) : option (Z * (Z * option Z)) :=
  let '(tmaxvtx, gmaxvtx) := t in
  match gmaxvtx with
  | None => Some (maxvtx, (tmaxvtx, Some maxvtx))
  | Some gmaxvtx =>
      let '(v, maxvtx) := int64_casval maxvtx gmaxvtx tmaxvtx in Some (maxvtx, (tmaxvtx, Some v))
  end.
Definition raised (t : Z * option Z) : bool := match t with (tmax, Some g) => negb (g <? tmax) | _ => false end.

Definition find_nv (IJ : list packed_edge) (nedge : Z) : Par (Z * Z) :=
  todos ← dealt 0 nedge;
  '(_, ts) ← region (scan_edge IJ) scanned fuel tt ((fun todo => (todo, -1)) <$> todos);
  '(maxvtx, _) ← region raise_max raised fuel (-1) ((fun t => (snd t, None)) <$> ts);
  mret (maxvtx, 1 + maxvtx).

(** ** Degrees and offsets *)

(** A thread's loop over its edges; [second] is the end of the current edge
    that is still to be counted. *)
Definition count_step (IJ : list packed_edge) (_ : nat) (xoff : list Z) (t : list Z * option Z)
    : option (list Z * (list Z * option Z)) :=
  let '(todo, second) := t in
  match second, todo with
  | Some j, _ => xoff ← count_end j xoff; Some (xoff, (todo, None))
  | None, k :: todo =>
      e ← IJ.[k];
      let i := get_v0_from_edge e in
      let j := get_v1_from_edge e in
      if negb (i =? j) then xoff ← count_end i xoff; Some (xoff, (todo, Some j))
      else Some (xoff, (todo, None))
  | None, [] => None
  end.
Definition counted (t : list Z * option Z) : bool := match t with ([], None) => true | _ => false end.

(** [if (XOFF(k) < MINVECT_SIZE) XOFF(k) = MINVECT_SIZE;] *)
Definition widen (k : Z) (xoff : list Z) : option (list Z) :=
  d ← XOFF xoff k; if d <? MINVECT_SIZE then set_XOFF xoff k MINVECT_SIZE else Some xoff.

(** The slice of thread [tid] begins here; it ends where the next one begins. *)
Definition slice_begin (nv tid : Z) : Z :=
  nv / nt * tid + (if tid <? nv mod nt then tid else nv mod nt).

(** [buf[tid] = 0; for (k...) buf[tid] += XOFF(k);] with [k] unset at first. *)
Definition sum_step (nv : Z) (xoff : list Z) (tid : nat) (buf : list Z) (t : option Z * Z)
    : option (list Z * (option Z * Z)) :=
  let tid := Z.of_nat tid in
  let '(k, slice_end) := t in
  match k with
  | None => buf ← buf.[tid <- 0]; Some (buf, (Some (slice_begin nv tid), slice_end))
  | Some k =>
      b ← buf.[tid]; d ← XOFF xoff k; buf ← buf.[tid <- b + d]; Some (buf, (Some (k + 1), slice_end))
  end.
Definition summed (t : option Z * Z) : bool := match t with (Some k, slice_end) => negb (k <? slice_end) | _ => false end.

(** [tmp = XOFF(k); XOFF(k) = t1; t1 += tmp;] *)
Definition place_step (_ : nat) (xoff : list Z) (t : Z * Z * Z) : option (list Z * (Z * Z * Z)) :=
  let '(k, slice_end, t1) := t in
  tmp ← XOFF xoff k; xoff ← set_XOFF xoff k t1; Some (xoff, (k + 1, slice_end, t1 + tmp)).
Definition placed (t : Z * Z * Z) : bool := let '(k, slice_end, _) := t in negb (k <? slice_end).

(** [t1 = tid ? buf[tid-1] : 0] *)
Definition first_offset (buf : list Z) (tid : Z) : option Z := if tid =? 0 then Some 0 else buf.[tid - 1].

Definition prefix_sum (nv : Z) (xoff buf : list Z) : Par (list Z * Z) :=
  '(buf, _) ← region (sum_step nv xoff) summed fuel buf ((fun tid => (None, slice_begin nv (tid + 1))) <$> seqZ 0 nt);
  buf ← lift (for_z 1 nt (fun k buf => a ← buf.[k]; b ← buf.[k - 1]; buf.[k <- a + b]) buf);
  ts ← lift (mapM (fun tid => t1 ← first_offset buf tid; Some (slice_begin nv tid, slice_begin nv (tid + 1), t1)) (seqZ 0 nt));
  '(xoff, _) ← region place_step placed fuel xoff ts;
  accum ← lift (buf.[nt - 1]);
  mret (xoff, accum).

(** [buf0] is what the stack held where [buf] was put. *)
Definition setup_deg_off (IJ : list packed_edge) (nedge nv : Z) (xoff buf0 : list Z) : Par (list Z * list Z) :=
  xoff ← par_for (fun k xoff => xoff.[k <- 0]) fuel 0 (2 * nv + 2) xoff;
  todos ← dealt 0 nedge;
  '(xoff, _) ← region (count_step IJ) counted fuel xoff ((fun todo => (todo, None)) <$> todos);
  xoff ← par_for widen fuel 0 nv xoff;
  '(xoff, accum) ← prefix_sum nv xoff buf0;
  xoff ← par_for (fun k xoff => o ← XOFF xoff k; set_XENDOFF xoff k o) fuel 0 nv xoff;
  xoff ← lift (set_XOFF xoff nv accum);
  let store := xmalloc_words (accum + MINVECT_SIZE) in
  store ← lift (for_z 0 (accum + MINVECT_SIZE) (fun k store => store.[k <- -1]) store);
  mret (xoff, store).

(** ** Rows *)

(** A thread of [gather_edges]: its edges, the calls of [scatter_edge] that the
    current one still asks for, and the write the current call still has to do. *)
Definition gather_thread : Type := list Z * list (Z * Z) * option (Z * Z).

Definition gather_step (IJ : list packed_edge) (_ : nat) (s : list Z * list Z) (t : gather_thread)
    : option (list Z * list Z * gather_thread) :=
  let '(xoff, store) := s in
  let '(todo, calls, write) := t in
  match write with
  | Some (where_, j) => store ← xadj_set store where_ j; Some (xoff, store, (todo, calls, None))
  | None =>
      match calls with
      | (i, j) :: calls =>
          p ← XENDOFF xoff i;
          let '(where_, p) := int64_fetch_add p 1 in
          xoff ← set_XENDOFF xoff i p;
          Some (xoff, store, (todo, calls, Some (where_, j)))
      | [] =>
          match todo with
          | k :: todo =>
              e ← IJ.[k];
              let i := get_v0_from_edge e in
              let j := get_v1_from_edge e in
              Some (xoff, store, (todo, if (0 <=? i) && (0 <=? j) && negb (i =? j) then [(i, j); (j, i)] else [], None))
          | [] => None
          end
      end
  end.
Definition gathered (t : gather_thread) : bool := match t with ([], [], None) => true | _ => false end.

Definition gather_edges (IJ : list packed_edge) (nedge nv : Z) (s : list Z * list Z) : Par (list Z * list Z) :=
  todos ← dealt 0 nedge;
  '(s, _) ← region (gather_step IJ) gathered fuel s ((fun todo => (todo, [], None)) <$> todos);
  par_for pack_vtx_edges fuel 0 nv s.

Definition create_rows (IJ : list packed_edge) (nedge : Z) (buf0 : list Z) : Par globals :=
  '(maxvtx, nv) ← find_nv IJ nedge;
  let xoff := xmalloc_words (2 * nv + 2) in
  s ← setup_deg_off IJ nedge nv xoff buf0;
  '(xoff, store) ← gather_edges IJ nedge nv s;
  mret (MkGlobals maxvtx nv xoff store).

End Code.

(** ** The largest vertex, proved *)

Section MaxProof.
Context {team_of : Team} (fuel : nat) (E : list packed_edge) (HE : Forall edge_ok E).

Definition seen_max (x : Z) : Prop := -1 <= x < 2 ^ 32 /\ (x = -1 \/ exists u, adj E x u).

Lemma max_step_ok k tmax e :
  E.[k] = Some e -> seen_max tmax ->
  exists tmax', max_step E k tmax = Some tmax' /\ seen_max tmax' /\ tmax <= tmax' /\ v0 e <= tmax' /\ v1 e <= tmax'.
Proof.
  intros He [Hr Hs]. unfold max_step. rewrite He. cbn [mbind option_bind]. eexists. split; [done|].
  assert (e ∈ E) as Hin by (apply elem_aget; eauto). rewrite list.Forall_forall in HE. destruct (HE e Hin) as [H0 H1].
  unfold in_u32, get_v0_from_edge, get_v1_from_edge in *.
  assert (adj E (v0 e) (v1 e)) as Ha by (exists e; split; [done|by left]).
  assert (adj E (v1 e) (v0 e)) as Ha' by (by symmetry).
  unfold seen_max. destruct (Z.ltb_spec tmax (v0 e)).
  - destruct (Z.ltb_spec (v0 e) (v1 e)); (split; [split; [lia|]; right; eauto|lia]).
  - destruct (Z.ltb_spec tmax (v1 e)); [split; [split; [lia|]; right; eauto|lia]|]. by repeat split; lia || done.
Qed.

Lemma scan_ends ts0 :
  mjoin ts0 ≡ₚ seqZ 0 (alen E) -> alen E <= Z.of_nat fuel ->
  ends (region (scan_edge E) scanned fuel tt ((fun todo => (todo, -1)) <$> ts0)) (fun '(_, ts) =>
    length ts = length ts0 /\ Forall (fun t => seen_max t.2) ts /\
    forall e, e ∈ E -> exists t, t ∈ ts /\ v0 e <= t.2 /\ v1 e <= t.2).
Proof.
  intros Hp Hf. eapply ends_mono.
  - apply (region_ok (scan_edge E) scanned (fun _ ts => length ts = length ts0 /\
      Forall (fun t => seen_max t.2 /\ Forall (fun k => 0 <= k < alen E) t.1) ts /\
      forall k e, E.[k] = Some e -> exists tid t, ts !! tid = Some t /\ (k ∈ t.1 \/ v0 e <= t.2 /\ v1 e <= t.2))
      (fun _ ts => sum_of (fun t => length t.1) ts)).
    + split; [by rewrite length_fmap|]. split.
      * apply Forall_fmap, list.Forall_forall. intros todo Hin. cbn. split; [split; [lia|by left]|].
        apply list.Forall_forall. intros k Hk. assert (k ∈ mjoin ts0) as Hk' by (apply list_elem_of_join; eauto).
        rewrite Hp in Hk'. apply elem_of_seqZ in Hk'. lia.
      * intros k e He. pose proof (aget_some_range _ _ _ He).
        assert (k ∈ mjoin ts0) as (todo & Hk & Hin)%list_elem_of_join by (rewrite Hp; apply elem_of_seqZ; lia).
        apply list_elem_of_lookup in Hin as [tid Ht]. exists tid, (todo, -1). rewrite list_lookup_fmap, Ht. split; [done|by left].
    + rewrite sum_of_fmap, sum_of_length, Hp, length_seqZ. lia.
    + intros [] ts tid [[|k todo] tmax] (Hl & Hok & Hcov) Ht Hfin; [done|].
      destruct (Forall_lookup_1 _ _ _ _ Hok Ht) as [Hs [Hk Htodo]%list.Forall_cons]. cbn [fst snd] in *.
      destruct (aget_in E k Hk) as [e He]. destruct (max_step_ok k tmax e He Hs) as (tmax' & Hstep & Hs' & Hle & H0 & H1).
      exists tt, (todo, tmax'). cbn [scan_edge]. rewrite Hstep. split; [done|].
      pose proof (sum_of_insert (fun t : list Z * Z => length t.1) ts tid _ (todo, tmax') Ht) as Hm. cbn in Hm. split; [|lia].
      split; [by rewrite length_insert|]. split; [by apply Forall_insert|].
      intros j e' He'. destruct (Hcov j e' He') as (tid' & t & Ht' & Hc). pose proof (lookup_lt_Some _ _ _ Ht) as Hlt.
      destruct (decide (tid' = tid)) as [->|Hne].
      * assert (t = (k :: todo, tmax)) as -> by congruence. exists tid, (todo, tmax').
        rewrite list_lookup_insert_eq by done. split; [done|]. cbn [fst snd] in *.
        destruct Hc as [[->|Hj]%elem_of_cons|[? ?]]; [|by left|right; lia]. right. by replace e' with e by congruence.
      * exists tid', t. by rewrite list_lookup_insert_ne.
  - intros [[] ts] [(Hl & Hok & Hcov) Hfin]. split; [done|]. split.
    { eapply list.Forall_impl; [exact Hok|]. by intros t [? _]. }
    intros e He. apply elem_aget in He as [k Hk]. destruct (Hcov k e Hk) as (tid & t & Ht & Hc).
    exists t. split; [by eapply list_elem_of_lookup_2|]. destruct Hc as [Hin|]; [|done]. exfalso.
    pose proof (Forall_lookup_1 _ _ _ _ Hfin Ht) as Hs. unfold scanned in Hs. destruct t.1; [by apply not_elem_of_nil in Hin|done].
Qed.

(** How many of the threads' maxima are above [x]. *)
Definition above (tmaxes : list Z) (x : Z) : nat := length (filter (fun y => x < y) tmaxes).

Lemma above_mono tmaxes x y : x <= y -> (above tmaxes y <= above tmaxes x)%nat.
Proof.
  intros Hxy. unfold above. induction tmaxes as [|z l IH]; [done|]. rewrite !filter_cons.
  repeat case_decide; cbn [length]; lia.
Qed.

Lemma above_lt tmaxes x y : x < y -> y ∈ tmaxes -> (above tmaxes y < above tmaxes x)%nat.
Proof.
  intros Hxy. induction tmaxes as [|z l IH]; [by intros ?%not_elem_of_nil|]. unfold above in *. rewrite !filter_cons.
  pose proof (above_mono l x y ltac:(lia)) as Hm. unfold above in Hm. intros [->|Hin]%elem_of_cons.
  - rewrite decide_False, decide_True by lia. cbn [length]. lia.
  - specialize (IH Hin). repeat case_decide; cbn [length]; lia.
Qed.

Lemma above_le tmaxes x : (above tmaxes x <= length tmaxes)%nat.
Proof. apply length_filter. Qed.

Lemma raise_ends (tmaxes : list Z) :
  Forall (fun x => -1 <= x) tmaxes -> alen tmaxes * (alen tmaxes + 2) <= Z.of_nat fuel ->
  ends (region raise_max raised fuel (-1) ((fun x => (x, None)) <$> tmaxes)) (fun '(maxvtx, _) =>
    maxvtx ∈ -1 :: tmaxes /\ Forall (fun x => x <= maxvtx) tmaxes).
Proof.
  intros Hge Hf. set (m := fun (mx : Z) (ts : list (Z * option Z)) => (above tmaxes mx +
    sum_of (fun t => match t.2 with None => S (length tmaxes) | Some g => above tmaxes g end) ts)%nat).
  eapply ends_mono.
  - apply (region_ok raise_max raised (fun mx ts => mx ∈ -1 :: tmaxes /\ ts.*1 = tmaxes /\
      Forall (fun t => forall g, t.2 = Some g -> -1 <= g <= mx) ts) m).
    + split; [left|]. split; [rewrite <- list_fmap_compose; apply list_fmap_id|].
      apply Forall_fmap, list.Forall_forall. by intros x _ g.
    + unfold m. rewrite sum_of_fmap. cbn [snd]. pose proof (above_le tmaxes (-1)).
      pose proof (sum_of_le (fun _ : Z => S (length tmaxes)) (S (length tmaxes)) tmaxes ltac:(done)).
      unfold alen in Hf. nia.
    + intros mx ts tid [tmax g] (Hmx & Hts & Hok) Ht Hfin. pose proof (Forall_lookup_1 _ _ _ _ Hok Ht) as Hg. cbn [snd] in Hg.
      assert (-1 <= mx) as Hmx1 by (apply elem_of_cons in Hmx as [->|Hmx]; [lia|]; rewrite list.Forall_forall in Hge; by apply Hge).
      assert (tmax ∈ tmaxes) as Htm by (rewrite <- Hts; apply list_elem_of_fmap; exists (tmax, g); split; [done|by eapply list_elem_of_lookup_2]).
      assert (forall t', t'.1 = tmax -> (<[tid := t']> ts).*1 = tmaxes) as Hkeep.
      { intros t' E'. rewrite list_fmap_insert, E', <- Hts. apply list_insert_id. by rewrite list_lookup_fmap, Ht. }
      assert (forall mx', mx <= mx' -> forall t', (forall g, t'.2 = Some g -> -1 <= g <= mx') ->
        Forall (fun t => forall g, t.2 = Some g -> -1 <= g <= mx') (<[tid := t']> ts)) as Hset.
      { intros mx' Hle t' Ht'. apply Forall_insert; [|done]. eapply list.Forall_impl; [exact Hok|].
        intros t Hx g' Hg'. specialize (Hx g' Hg'). lia. }
      pose proof (fun t' => sum_of_insert (fun t : Z * option Z =>
        match t.2 with None => S (length tmaxes) | Some g => above tmaxes g end) ts tid _ t' Ht) as Hsum.
      unfold raise_max, m. destruct g as [g|]; cbn [snd] in Hsum.
      * cbn [raised] in Hfin. assert (g < tmax) as Hlt by lia. destruct (Hg g eq_refl) as [Hg1 Hg2]. unfold int64_casval.
        destruct (Z.eqb_spec mx g) as [->|Hne].
        -- exists tmax, (tmax, Some g). split; [done|]. split; [split; [by right|]; split; [by apply Hkeep|]; apply Hset; [lia|]|].
           { intros g' [= <-]. lia. }
           specialize (Hsum (tmax, Some g)). cbn [snd] in Hsum. pose proof (above_lt tmaxes g tmax Hlt Htm). lia.
        -- exists mx, (tmax, Some mx). split; [done|]. split; [split; [done|]; split; [by apply Hkeep|]; apply Hset; [lia|]|].
           { intros g' [= <-]. lia. }
           specialize (Hsum (tmax, Some mx)). cbn [snd] in Hsum.
           assert (mx ∈ tmaxes) as Hmt by (apply elem_of_cons in Hmx as [->|?]; [lia|done]).
           pose proof (above_lt tmaxes g mx ltac:(lia) Hmt). lia.
      * exists mx, (tmax, Some mx). split; [done|]. split; [split; [done|]; split; [by apply Hkeep|]; apply Hset; [lia|]|].
        { intros g' [= <-]. lia. }
        specialize (Hsum (tmax, Some mx)). cbn [snd] in Hsum. pose proof (above_le tmaxes mx). lia.
  - intros [mx ts] [(Hmx & Hts & Hok) Hfin]. split; [done|]. rewrite <- Hts. apply Forall_fmap, list.Forall_forall.
    intros [tmax g] Hin. rewrite list.Forall_forall in Hok, Hfin. specialize (Hok _ Hin). specialize (Hfin _ Hin).
    destruct g as [g|]; [|done]. cbn in Hfin |- *. destruct (Hok g eq_refl). lia.
Qed.

Lemma find_nv_ends :
  alen E <= Z.of_nat fuel -> nt * (nt + 2) <= Z.of_nat fuel ->
  ends (find_nv fuel E (alen E)) (fun '(m, nv) => max_vertex E m /\ nv = 1 + m).
Proof.
  intros Hf1 Hf2. unfold find_nv. apply ends_bind, ends_dealt. intros todos Hlen Hp. rewrite Z.sub_0_r in Hp.
  apply ends_bind. eapply ends_mono; [by apply scan_ends|]. intros [_ ts] (Hl & Hs & Hcov). apply ends_bind.
  replace ((fun t : list Z * Z => (t.2, None)) <$> ts) with ((fun x => (x, None : option Z)) <$> ts.*2)
    by (by rewrite <- list_fmap_compose).
  eapply ends_mono; [apply raise_ends|].
  - apply Forall_fmap. eapply list.Forall_impl; [exact Hs|]. intros t [? _]. cbn. lia.
  - rewrite alen_fmap. unfold alen in *. by rewrite Hl, Hlen.
  - intros [mx _] [Hmx Hall]. apply ends_ret. split; [|done]. rewrite list.Forall_forall in Hs. rewrite list.Forall_forall in Hall.
    assert (seen_max mx) as [Hr Hex].
    { apply elem_of_cons in Hmx as [->|Hmx]; [split; [lia|by left]|]. apply list_elem_of_fmap in Hmx as (t & -> & Ht). by apply Hs. }
    split; [done|]. split; [|done]. intros u v (e & He & Hj). destruct (Hcov e He) as (t & Ht & H0 & H1).
    assert (t.2 <= mx) by (apply Hall, list_elem_of_fmap; eauto).
    rewrite list.Forall_forall in HE. destruct (HE e He) as [Hu0 Hu1]. unfold in_u32 in *.
    destruct Hj as [[? ?]|[? ?]]; lia.
Qed.
End MaxProof.

(** ** Degrees and offsets, proved *)

Section Setup.
Context {team_of : Team} (fuel : nat) (E : list packed_edge) (m : Z) (Hm : max_vertex E m).
Abbreviation n := (m + 1).

(** The ends that an edge counts. *)
Definition ends_of (k : Z) : list Z :=
  match E.[k] with Some e => if v0 e =? v1 e then [] else [v0 e; v1 e] | None => [] end.

Definition times (v : Z) (l : list Z) : Z := alen (filter (eq v) l).

Lemma times_app v l k : times v (l ++ k) = times v l + times v k.
Proof. unfold times. by rewrite list.filter_app, alen_app. Qed.

Lemma times_cons v x l : times v (x :: l) = (if decide (v = x) then 1 else 0) + times v l.
Proof. unfold times. rewrite filter_cons. case_decide; [rewrite alen_cons|]; lia. Qed.

#[local] Instance times_perm v : Proper ((≡ₚ) ==> eq) (times v).
Proof. intros l k Hp. unfold times, alen. by rewrite Hp. Qed.

Lemma edge_at k : 0 <= k < alen E -> exists e, E.[k] = Some e /\ 0 <= v0 e < n /\ 0 <= v1 e < n.
Proof.
  intros Hk. destruct (edge_get E m Hm (Z.to_nat k)) as (e & He & H0 & H1); [unfold alen in Hk; lia|].
  exists e. split; [|done]. unfold aget. destruct (Z.ltb_spec k 0); [lia|done].
Qed.

Lemma row_times (k : nat) v :
  (k <= length E)%nat -> times v (seqZ 0 (Z.of_nat k) ≫= ends_of) = alen (row E k v).
Proof.
  induction k as [|k IH]; intros Hk; [done|]. replace (Z.of_nat (S k)) with (Z.of_nat k + 1) by lia.
  rewrite seqZ_snoc, bind_app, times_app, IH by lia. destruct (edge_get E m Hm k ltac:(lia)) as (e & He & _).
  rewrite (row_length_S E k e v He). cbn [mbind list_bind]. rewrite app_nil_r. unfold ends_of. rewrite Z.add_0_l, aget_nat, He.
  destruct (Z.eqb_spec (v0 e) (v1 e)); [rewrite decide_False by tauto; done|].
  rewrite !times_cons. change (times v []) with 0. repeat case_decide; try lia; exfalso; naive_solver.
Qed.

(** The increments a thread still has to make. *)
Definition counts_left (t : list Z * option Z) : list Z := option_list t.2 ++ t.1 ≫= ends_of.

Definition count_ok (t : list Z * option Z) : Prop :=
  Forall (fun k => 0 <= k < alen E) t.1 /\ forall j, t.2 = Some j -> 0 <= j < n.

Definition degrees_left (xoff : list Z) (ts : list (list Z * option Z)) : Prop :=
  Forall count_ok ts /\
  offsets n xoff (fun v => alen (row E (length E) v) - times v (ts ≫= counts_left)) (fun _ => 0).

(** A step that changes the offsets by what it takes off the list. *)
Lemma degrees_step xoff xoff' ts tid t t' gone :
  degrees_left xoff ts -> ts !! tid = Some t -> counts_left t = gone ++ counts_left t' -> count_ok t' ->
  (forall f, offsets n xoff f (fun _ => 0) -> offsets n xoff' (fun v => f v + times v gone) (fun _ => 0)) ->
  degrees_left xoff' (<[tid := t']> ts).
Proof.
  intros [Hok Ho] Ht Hgone Hok' Hx. split; [by apply Forall_insert|].
  destruct (bind_insert counts_left ts tid t t' Ht) as (rest & E1 & E2).
  eapply offsets_ext; [exact (Hx _ Ho)|]. intros v Hv. split; [|done].
  rewrite E1, E2, Hgone, !times_app. lia.
Qed.

Lemma count_end_more i xoff :
  0 <= i < n -> forall f, offsets n xoff f (fun _ => 0) ->
  exists xoff', count_end i xoff = Some xoff' /\
    forall f, offsets n xoff f (fun _ => 0) -> offsets n xoff' (fun v => f v + times v [i]) (fun _ => 0).
Proof.
  intros Hi f Hf. destruct (count_end_ok m i xoff f _ Hi Hf) as (xoff' & E' & _). exists xoff'. split; [done|].
  intros f' Hf'. destruct (count_end_ok m i xoff f' _ Hi Hf') as (xoff2 & E2 & Ho). assert (xoff2 = xoff') as -> by congruence.
  eapply offsets_ext; [exact Ho|]. intros v Hv. split; [|done]. unfold upd. rewrite times_cons. change (times v []) with 0.
  repeat case_decide; subst; lia.
Qed.

Lemma count_ends todos xoff :
  mjoin todos ≡ₚ seqZ 0 (alen E) -> 2 * alen E <= Z.of_nat fuel ->
  offsets n xoff (fun _ => 0) (fun _ => 0) ->
  ends (region (count_step E) counted fuel xoff ((fun todo => (todo, None)) <$> todos)) (fun '(xoff', _) =>
    offsets n xoff' (fun v => alen (row E (length E) v)) (fun _ => 0)).
Proof.
  intros Hp Hf H0. eapply ends_mono.
  - apply (region_ok (count_step E) counted degrees_left
      (fun _ ts => sum_of (fun t : list Z * option Z => 2 * length t.1 + (if t.2 then 1 else 0))%nat ts)).
    + split.
      * apply Forall_fmap, list.Forall_forall. intros todo Hin. split; [|done]. cbn [fst]. apply list.Forall_forall.
        intros k Hk. assert (k ∈ mjoin todos) as Hk' by (apply list_elem_of_join; eauto).
        rewrite Hp in Hk'. apply elem_of_seqZ in Hk'. lia.
      * eapply offsets_ext; [exact H0|]. intros v Hv. split; [|done]. rewrite list_fmap_bind.
        assert (todos ≫= counts_left ∘ (fun todo => (todo, None)) = mjoin todos ≫= ends_of) as ->.
        { clear. induction todos as [|l todos IH]; [done|].
          change (mjoin (l :: todos)) with (l ++ mjoin todos). by rewrite bind_app, <- IH. }
        rewrite Hp. change (alen E) with (Z.of_nat (length E)). rewrite row_times by done. lia.
    + rewrite sum_of_fmap. cbn [fst snd].
      assert (forall l : list (list Z), sum_of (fun todo => 2 * length todo + 0)%nat l = (2 * length (mjoin l))%nat) as ->.
      { induction l as [|x l IH]; [done|]. cbn [sum_of]. rewrite IH. change (mjoin (x :: l)) with (x ++ mjoin l).
        rewrite length_app. lia. }
      rewrite Hp, length_seqZ. lia.
    + intros xf ts tid [todo second] HI Ht Hfin. pose proof HI as [Hok Ho].
      destruct (Forall_lookup_1 _ _ _ _ Hok Ht) as [Htodo Hsec]. cbn [fst snd] in *.
      pose proof (fun t' => sum_of_insert (fun t : list Z * option Z => 2 * length t.1 + (if t.2 then 1 else 0))%nat
        ts tid _ t' Ht) as Hsum. cbn [fst snd] in Hsum. unfold count_step.
      destruct second as [j|]; [|destruct todo as [|k todo]; [done|]].
      * destruct (count_end_more j xf (Hsec j eq_refl) _ Ho) as (xf' & -> & Hx). cbn [mbind option_bind].
        exists xf', (todo, None). split; [done|]. split; [|specialize (Hsum (todo, None)); cbn [fst snd length] in Hsum; lia].
        eapply degrees_step; [done|done| |split; [done|done]|done]. done.
      * apply list.Forall_cons in Htodo as [Hk Htodo]. destruct (edge_at k Hk) as (e & He & H1 & H2). rewrite He.
        cbn [mbind option_bind]. unfold get_v0_from_edge, get_v1_from_edge.
        assert (counts_left (k :: todo, None) = (if v0 e =? v1 e then [] else [v0 e; v1 e]) ++ counts_left (todo, None)) as Hcl.
        { unfold counts_left. cbn [fst snd option_list app mbind list_bind]. unfold ends_of at 1. by rewrite He. }
        destruct (Z.eqb_spec (v0 e) (v1 e)); cbn [negb].
        -- exists xf, (todo, None). split; [done|]. split; [|specialize (Hsum (todo, None)); cbn [fst snd length] in Hsum; lia].
           eapply degrees_step; [done|done|exact Hcl|done|]. intros f Hfo. eapply offsets_ext; [exact Hfo|].
           intros v Hv. change (times v []) with 0. split; [lia|done].
        -- destruct (count_end_more (v0 e) xf H1 _ Ho) as (xf' & -> & Hx). cbn [mbind option_bind].
           exists xf', (todo, Some (v1 e)). split; [done|]. split; [|specialize (Hsum (todo, Some (v1 e))); cbn [fst snd length] in Hsum; lia].
           eapply (degrees_step _ _ _ _ _ _ [v0 e]); [done|done|exact Hcl|split; [done|by intros j [= <-]]|done].
  - intros [xf ts] [[Hok Ho] Hfin]. eapply offsets_ext; [exact Ho|]. intros v Hv. split; [|done].
    assert (ts ≫= counts_left = []) as ->; [|change (times v []) with 0; lia].
    clear -Hfin. induction Hfin as [|[[|k todo] [j|]] ts Ht _ IH]; try done.
Qed.

Lemma widen_ends xoff :
  n <= Z.of_nat fuel -> offsets n xoff (fun v => alen (row E (length E) v)) (fun _ => 0) ->
  ends (par_for widen fuel 0 n xoff) (fun xoff' => offsets n xoff' (room E) (fun _ => 0)).
Proof.
  intros Hf H0. apply (par_for_each _ (fun h x => offsets n x h (fun _ => 0)) (fun v => alen (row E (length E) v)) (room E));
    [|exact H0|lia|].
  - intros h h' x Hh Hx. eapply offsets_ext; [exact Hx|]. intros v Hv. split; [by apply Hh|done].
  - intros k h x Hk Hh Hx. unfold widen. destruct (proj2 Hx k Hk) as [-> _]. cbn [mbind option_bind].
    rewrite Hh. destruct (Z.ltb_spec (alen (row E (length E) k)) MINVECT_SIZE) as [Hlt|Hge].
    + destruct (offsets_set_off n x h _ k MINVECT_SIZE Hx Hk) as (x' & -> & Hx'). exists x'. split; [done|].
      eapply offsets_ext; [exact Hx'|]. intros v Hv. split; [|done]. unfold upd. case_decide; [|done]. unfold room. lia.
    + exists x. split; [done|]. eapply offsets_ext; [exact Hx|]. intros v Hv. split; [|done].
      case_decide as Hvk; [|done]. subst v. rewrite Hh. unfold room. lia.
Qed.

(** ** The prefix sum *)

Abbreviation first := (slice_begin n).

Lemma slice_step tid : 0 <= tid < nt -> first tid <= first (tid + 1).
Proof.
  intros Ht. destruct Hm as [Hmr _]. pose proof nt_pos as Hnt. unfold slice_begin.
  pose proof (Z.mod_pos_bound n nt Hnt). assert (0 <= n / nt) by (apply Z.div_pos; lia).
  destruct (Z.ltb_spec tid (n mod nt)), (Z.ltb_spec (tid + 1) (n mod nt)); nia.
Qed.

Lemma slice_mono t1 t2 : 0 <= t1 <= t2 -> t2 <= nt -> first t1 <= first t2.
Proof.
  intros Ht1 Ht2. replace t2 with (t1 + Z.of_nat (Z.to_nat (t2 - t1))) in * by lia. generalize dependent (Z.to_nat (t2 - t1)).
  intros d. induction d as [|d IH]; intros Hd1 Hd2; [by rewrite Z.add_0_r|].
  specialize (IH ltac:(lia) ltac:(lia)). pose proof (slice_step (t1 + Z.of_nat d) ltac:(lia)) as Hs.
  replace (t1 + Z.of_nat (S d)) with (t1 + Z.of_nat d + 1) by lia. lia.
Qed.

Lemma slice_first : first 0 = 0.
Proof.
  destruct Hm as [Hmr _]. pose proof nt_pos as Hnt. unfold slice_begin. pose proof (Z.mod_pos_bound n nt Hnt).
  destruct (Z.ltb_spec 0 (n mod nt)); lia.
Qed.

Lemma slice_last : first nt = n.
Proof.
  destruct Hm as [Hmr _]. pose proof nt_pos as Hnt. unfold slice_begin. pose proof (Z.mod_pos_bound n nt Hnt).
  assert (nt <> 0) as Hnz by lia. pose proof (Z.div_mod n nt Hnz). destruct (Z.ltb_spec nt (n mod nt)); lia.
Qed.

Lemma slice_range tid : 0 <= tid <= nt -> 0 <= first tid <= n.
Proof.
  intros Ht. pose proof (slice_mono 0 tid ltac:(lia) ltac:(lia)). assert (first tid <= first nt) by (apply slice_mono; lia).
  rewrite slice_first, slice_last in *. lia.
Qed.

(** Every vertex is in a slice. *)
Lemma slice_of v : 0 <= v < n -> exists tid, 0 <= tid < nt /\ first tid <= v < first (tid + 1).
Proof.
  intros Hv. assert (forall k : nat, Z.of_nat k <= nt -> v < first (Z.of_nat k) ->
    exists tid, 0 <= tid < nt /\ first tid <= v < first (tid + 1)) as H.
  { induction k as [|k IH]; intros Hk Hvk; [change (Z.of_nat 0) with 0 in Hvk; rewrite slice_first in Hvk; lia|].
    destruct (decide (v < first (Z.of_nat k))); [apply IH; [lia|done]|]. exists (Z.of_nat k).
    replace (Z.of_nat k + 1) with (Z.of_nat (S k)) by lia. split; [lia|]. lia. }
  pose proof nt_pos. apply (H (Z.to_nat nt)); [lia|]. rewrite Z2Nat.id by lia. rewrite slice_last. lia.
Qed.

Lemma lookup_seqZ_nt tid : seqZ 0 nt !! tid = if decide (Z.of_nat tid < nt) then Some (Z.of_nat tid) else None.
Proof.
  case_decide; [rewrite lookup_seqZ_lt by lia; f_equal; lia|]. apply lookup_seqZ_ge. lia.
Qed.

(** The sums of the slices. *)
Definition sums (xoff buf : list Z) (ts : list (option Z * Z)) : Prop :=
  alen buf = nt /\ forall tid t, ts !! tid = Some t ->
    Z.of_nat tid < nt /\ t.2 = first (Z.of_nat tid + 1) /\
    forall k, t.1 = Some k -> first (Z.of_nat tid) <= k <= t.2 /\
      buf.[Z.of_nat tid] = Some (start E k - start E (first (Z.of_nat tid))).

Lemma sum_ends xoff buf :
  nt * (n + 1) <= Z.of_nat fuel -> offsets n xoff (room E) (fun _ => 0) -> alen buf = nt ->
  ends (region (sum_step n xoff) summed fuel buf ((fun tid => (None, first (tid + 1))) <$> seqZ 0 nt)) (fun '(buf', _) =>
    alen buf' = nt /\ forall tid, 0 <= tid < nt -> buf'.[tid] = Some (start E (first (tid + 1)) - start E (first tid))).
Proof.
  intros Hf Ho Hb. pose proof nt_pos as Hnt. destruct Hm as [Hmr _]. eapply ends_mono.
  - apply (region_ok (sum_step n xoff) summed (fun buf ts => sums xoff buf ts /\ alen ts = nt)
      (fun _ ts => sum_of (fun t : option Z * Z => match t.1 with Some k => Z.to_nat (t.2 - k) | None => S (Z.to_nat t.2) end) ts)).
    + split; [split; [done|]|rewrite alen_fmap; unfold alen; rewrite length_seqZ; lia].
      intros tid t Ht. rewrite list_lookup_fmap, lookup_seqZ_nt in Ht. case_decide; [|done]. by injection Ht as <-.
    + rewrite sum_of_fmap. cbn [fst snd]. etransitivity; [apply (sum_of_le _ (S (Z.to_nat n)))|rewrite length_seqZ; nia].
      intros tid Htid%elem_of_seqZ. pose proof (slice_range (tid + 1) ltac:(lia)). lia.
    + intros buf1 ts tid [k e] [[Hlb Hts] Hlts] Ht Hfin. destruct (Hts tid _ Ht) as (Htid & He & Hk). cbn [fst snd] in *.
      pose proof (slice_step (Z.of_nat tid) ltac:(lia)) as Hss. pose proof (slice_range (Z.of_nat tid) ltac:(lia)).
      pose proof (slice_range (Z.of_nat tid + 1) ltac:(lia)).
      pose proof (fun t' => sum_of_insert (fun t : option Z * Z => match t.1 with Some k => Z.to_nat (t.2 - k) | None => S (Z.to_nat t.2) end)
        ts tid _ t' Ht) as Hsum. cbn [fst snd] in Hsum.
      assert (forall buf' k' x, buf' = <[Z.to_nat (Z.of_nat tid) := x]> buf1 -> first (Z.of_nat tid) <= k' <= e ->
        x = start E k' - start E (first (Z.of_nat tid)) ->
        sums xoff buf' (<[tid := (Some k', e)]> ts) /\ alen (<[tid := (Some k', e)]> ts) = nt) as Hnext.
      { intros buf' k' x -> Hk' Hx. split; [|by rewrite alen_insert]. split; [by rewrite alen_insert|].
        intros tid' t' Ht'. destruct (decide (tid' = tid)) as [->|Hne].
        - rewrite list_lookup_insert_eq in Ht' by (by eapply lookup_lt_Some). injection Ht' as <-. cbn [fst snd].
          split; [done|]. split; [done|]. intros k1 [= <-]. split; [done|].
          rewrite aget_insert by lia. rewrite decide_True by lia. by rewrite Hx.
        - rewrite list_lookup_insert_ne in Ht' by done. destruct (Hts tid' t' Ht') as (? & ? & Hk1). split; [done|]. split; [done|].
          intros k1 Ek1. destruct (Hk1 k1 Ek1) as [? ?]. split; [done|]. rewrite aget_insert by lia. by rewrite decide_False by lia. }
      destruct k as [k|].
      * destruct (Hk k eq_refl) as [Hkr Hbk]. cbn [summed] in Hfin. assert (k < e) by lia. cbn [sum_step]. rewrite Hbk.
        cbn [mbind option_bind]. destruct (proj2 Ho k ltac:(lia)) as [-> _]. cbn [mbind option_bind]. rewrite aset_in by lia.
        cbn [mbind option_bind]. eexists _, _. split; [done|]. split.
        -- eapply Hnext; [done|lia|]. rewrite start_S by lia. lia.
        -- specialize (Hsum (Some (k + 1), e)). cbn [fst snd] in Hsum. lia.
      * cbn [sum_step]. rewrite aset_in by lia. cbn [mbind option_bind]. eexists _, _. split; [done|]. split.
        -- eapply Hnext; [done|lia|lia].
        -- specialize (Hsum (Some (first (Z.of_nat tid)), e)). cbn [fst snd] in Hsum. lia.
  - intros [buf1 ts] [[[Hlb Hts] Hlts] Hfin]. split; [done|]. intros tid Htid.
    destruct (lookup_lt_is_Some_2 ts (Z.to_nat tid)) as [[k e] Ht]; [unfold alen in Hlts; lia|].
    destruct (Hts _ _ Ht) as (_ & He & Hk). rewrite Z2Nat.id in * by lia. cbn [fst snd] in *.
    pose proof (Forall_lookup_1 _ _ _ _ Hfin Ht) as Hf1. destruct k as [k|]; [|done]. cbn [summed] in Hf1.
    destruct (Hk k eq_refl) as [Hkr ->]. do 2 f_equal. f_equal. lia.
Qed.

(** [for (k = 1; k < nt; ++k) buf[k] += buf[k-1];] *)
Lemma carry_ok buf :
  alen buf = nt -> (forall tid, 0 <= tid < nt -> buf.[tid] = Some (start E (first (tid + 1)) - start E (first tid))) ->
  exists buf', for_z 1 nt (fun k buf => a ← buf.[k]; b ← buf.[k - 1]; buf.[k <- a + b]) buf = Some buf' /\
    forall tid, 0 <= tid < nt -> buf'.[tid] = Some (start E (first (tid + 1))).
Proof.
  intros Hl Hb. pose proof nt_pos as Hnt. destruct (for_z_inv (fun i buf' => alen buf' = nt /\
    forall tid, 0 <= tid < nt -> buf'.[tid] = Some (if tid <? i then start E (first (tid + 1))
      else start E (first (tid + 1)) - start E (first tid))) 1 nt
    (fun k buf => a ← buf.[k]; b ← buf.[k - 1]; buf.[k <- a + b]) buf) as (buf' & -> & Hl' & Hb').
  - lia.
  - split; [done|]. intros tid Ht. rewrite Hb by done. destruct (Z.ltb_spec tid 1); [|done].
    assert (tid = 0) as -> by lia. rewrite slice_first. change (start E 0) with 0. f_equal. lia.
  - intros i b Hi [Hlb Hb1]. rewrite (Hb1 i), (Hb1 (i - 1)) by lia. cbn [mbind option_bind].
    assert (i <? i = false) as -> by lia. assert (i - 1 <? i = true) as -> by lia. rewrite aset_in by lia.
    eexists. split; [done|]. split; [by rewrite alen_insert|]. intros tid Ht. rewrite aget_insert by lia.
    case_decide as Hc.
    + subst tid. assert (i <? i + 1 = true) as -> by lia. replace (i - 1 + 1) with i by lia. f_equal. lia.
    + rewrite Hb1 by done. destruct (Z.ltb_spec tid i), (Z.ltb_spec tid (i + 1)); done || lia.
  - exists buf'. split; [done|]. intros tid Ht. rewrite Hb' by done. by assert (tid <? nt = true) as -> by lia.
Qed.

Lemma mapM_all {A B} (f : A -> option B) (g : A -> B) l : (forall x, x ∈ l -> f x = Some (g x)) -> mapM f l = Some (g <$> l).
Proof.
  intros H. apply mapM_Some_2. induction l as [|x l IH]; cbn; constructor; [apply H; left|].
  apply IH. intros y Hy. apply H. by right.
Qed.

(** The offsets of a slice are in place up to [k]. *)
Definition places (xoff : list Z) (ts : list (Z * Z * Z)) : Prop :=
  exists h, offsets n xoff h (fun _ => 0) /\ alen ts = nt /\
    forall tid k e t1, ts !! tid = Some (k, e, t1) ->
      Z.of_nat tid < nt /\ e = first (Z.of_nat tid + 1) /\ first (Z.of_nat tid) <= k <= e /\ t1 = start E k /\
      (forall v, first (Z.of_nat tid) <= v < k -> h v = start E v) /\ (forall v, k <= v < e -> h v = room E v).

Lemma place_ends xoff :
  n <= Z.of_nat fuel -> offsets n xoff (room E) (fun _ => 0) ->
  ends (region place_step placed fuel xoff ((fun tid => (first tid, first (tid + 1), start E (first tid))) <$> seqZ 0 nt))
    (fun '(xoff', _) => offsets n xoff' (start E) (fun _ => 0)).
Proof.
  intros Hf Ho. pose proof nt_pos as Hnt. destruct Hm as [Hmr _]. eapply ends_mono.
  - apply (region_ok place_step placed places (fun _ ts => sum_of (fun t : Z * Z * Z => Z.to_nat (t.1.2 - t.1.1)) ts)).
    + exists (room E). split; [done|]. split; [rewrite alen_fmap; unfold alen; rewrite length_seqZ; lia|].
      intros tid k e t1 Ht. rewrite list_lookup_fmap, lookup_seqZ_nt in Ht. case_decide; [|done]. injection Ht as <- <- <-.
      pose proof (slice_step (Z.of_nat tid) ltac:(lia)). repeat split; try lia.
    + rewrite sum_of_fmap. cbn [fst snd].
      assert (forall k : nat, Z.of_nat k <= nt ->
        Z.of_nat (sum_of (fun tid => Z.to_nat (first (tid + 1) - first tid)) (seqZ 0 (Z.of_nat k))) = first (Z.of_nat k)) as Hk.
      { induction k as [|k IH]; intros Hk; [by change (Z.of_nat 0) with 0; rewrite slice_first|].
        replace (Z.of_nat (S k)) with (Z.of_nat k + 1) by lia. rewrite seqZ_snoc by lia.
        assert (forall l x, sum_of (fun tid => Z.to_nat (first (tid + 1) - first tid)) (l ++ [x]) =
          (sum_of (fun tid => Z.to_nat (first (tid + 1) - first tid)) l + Z.to_nat (first (x + 1) - first x))%nat) as ->.
        { induction l as [|y l IHl]; intros x; cbn [app sum_of]; [lia|]. rewrite IHl. lia. }
        specialize (IH ltac:(lia)). pose proof (slice_step (Z.of_nat k) ltac:(lia)). rewrite Z.add_0_l. lia. }
      specialize (Hk (Z.to_nat nt)). rewrite Z2Nat.id, slice_last in Hk by lia. specialize (Hk ltac:(lia)). lia.
    + intros x ts tid [[k e] t1] (h & Hx & Hlts & Hts) Ht Hfin. cbn [placed] in Hfin.
      destruct (Hts tid k e t1 Ht) as (Htid & He & Hk & Ht1 & Hdone & Htodo).
      pose proof (slice_range (Z.of_nat tid) ltac:(lia)). pose proof (slice_range (Z.of_nat tid + 1) ltac:(lia)).
      assert (0 <= k < n) as Hkn by lia. cbn [place_step]. destruct (proj2 Hx k Hkn) as [-> _]. cbn [mbind option_bind].
      destruct (offsets_set_off n x h _ k t1 Hx Hkn) as (x' & -> & Hx'). cbn [mbind option_bind].
      exists x', (k + 1, e, t1 + h k). split; [done|].
      pose proof (sum_of_insert (fun t : Z * Z * Z => Z.to_nat (t.1.2 - t.1.1)) ts tid _ (k + 1, e, t1 + h k) Ht) as Hsum.
      cbn [fst snd] in Hsum. split; [|lia]. exists (upd h k t1). split; [done|]. split; [by rewrite alen_insert|].
      intros tid' k' e' t' Ht'. unfold upd. destruct (decide (tid' = tid)) as [->|Hne].
      * rewrite list_lookup_insert_eq in Ht' by (by eapply lookup_lt_Some). injection Ht' as <- <- <-.
        split; [done|]. split; [done|]. split; [lia|]. split; [rewrite start_S, (Htodo k) by lia; lia|]. split.
        -- intros v Hv. case_decide; [by subst|]. apply Hdone. lia.
        -- intros v Hv. rewrite decide_False by lia. apply Htodo. lia.
      * rewrite list_lookup_insert_ne in Ht' by done.
        destruct (Hts tid' k' e' t' Ht') as (Htid' & He' & Hk' & Ht1' & Hdone' & Htodo').
        assert (k < first (Z.of_nat tid') \/ e' <= k) as Hout.
        { destruct (decide (tid' < tid)%nat); [right|left].
          - pose proof (slice_mono (Z.of_nat tid' + 1) (Z.of_nat tid) ltac:(lia) ltac:(lia)). lia.
          - pose proof (slice_mono (Z.of_nat tid + 1) (Z.of_nat tid') ltac:(lia) ltac:(lia)). lia. }
        split; [done|]. split; [done|]. split; [done|]. split; [done|].
        split; intros v Hv; (rewrite decide_False by lia); [by apply Hdone'|by apply Htodo'].
  - intros [x ts] [(h & Hx & Hlts & Hts) Hfin]. eapply offsets_ext; [exact Hx|]. intros v Hv. split; [|done].
    destruct (slice_of v Hv) as (tid & Htid & Hin).
    destruct (lookup_lt_is_Some_2 ts (Z.to_nat tid)) as [[[k e] t1] Ht]; [unfold alen in Hlts; lia|].
    destruct (Hts _ _ _ _ Ht) as (_ & He & Hk & _ & Hdone & _). rewrite Z2Nat.id in * by lia.
    pose proof (Forall_lookup_1 _ _ _ _ Hfin Ht) as Hf1. cbn [placed] in Hf1. apply Hdone. lia.
Qed.

Lemma prefix_sum_ends xoff buf :
  nt * (n + 1) <= Z.of_nat fuel -> offsets n xoff (room E) (fun _ => 0) -> alen buf = nt ->
  ends (prefix_sum fuel n xoff buf) (fun '(xoff', accum) =>
    offsets n xoff' (start E) (fun _ => 0) /\ accum = start E n).
Proof.
  intros Hf Ho Hb. pose proof nt_pos as Hnt. destruct Hm as [Hmr _]. unfold prefix_sum. apply ends_bind.
  eapply ends_mono; [by apply sum_ends|]. intros [buf1 ts1] [Hl1 Hb1]. apply ends_bind.
  destruct (carry_ok buf1 Hl1 Hb1) as (buf2 & E2 & Hb2). eapply ends_lift; [exact E2|]. apply ends_bind.
  eapply ends_lift; [apply (mapM_all _ (fun tid => (first tid, first (tid + 1), start E (first tid))))|].
  { intros tid Htid%elem_of_seqZ. unfold first_offset. destruct (Z.eqb_spec tid 0) as [->|].
    - cbn [mbind option_bind]. by rewrite slice_first.
    - rewrite Hb2 by lia. cbn [mbind option_bind]. by replace (tid - 1 + 1) with tid by lia. }
  apply ends_bind. eapply ends_mono; [apply place_ends; [nia|done]|]. intros [x' ts2] Hx'. apply ends_bind.
  eapply ends_lift; [apply Hb2; lia|]. apply ends_ret. split; [done|]. replace (nt - 1 + 1) with nt by lia. by rewrite slice_last.
Qed.

Lemma setup_ends xoff0 buf :
  alen E < 2 ^ 58 -> alen xoff0 = 2 * n + 2 -> alen buf = nt ->
  2 * alen E <= Z.of_nat fuel -> (nt + 1) * (2 * n + 2) <= Z.of_nat fuel ->
  ends (setup_deg_off fuel E (alen E) n xoff0 buf) (rows_ok E m (row E 0)).
Proof.
  intros Hlen Hx Hb Hf1 Hf2. pose proof nt_pos as Hnt. pose proof Hm as [Hmr _]. unfold setup_deg_off.
  apply ends_bind. eapply ends_mono.
  { apply (par_for_each _ (fun h x => alen x = 2 * n + 2 /\ forall v, 0 <= v < 2 * n + 2 -> x.[v] = Some (h v))
      (fun v => default 0 (xoff0.[v])) (fun _ => 0)).
    - intros h h' x Hh [Hl Hg]. split; [done|]. intros v Hv. rewrite <- Hh by done. by apply Hg.
    - split; [done|]. intros v Hv. destruct (aget_in xoff0 v ltac:(lia)) as [y Hy]. by rewrite Hy.
    - nia.
    - intros k h x Hk _ [Hl Hg]. rewrite aset_in by lia. eexists. split; [done|]. split; [by rewrite alen_insert|].
      intros v Hv. rewrite aget_insert by lia. case_decide; [done|]. by apply Hg. }
  intros x1 [Hl1 Hg1]. assert (offsets n x1 (fun _ => 0) (fun _ => 0)) as Ho1.
  { split; [done|]. intros v Hv. unfold XOFF, XENDOFF. by rewrite !Hg1 by lia. }
  apply ends_bind, ends_dealt. intros todos _ Hp. rewrite Z.sub_0_r in Hp. apply ends_bind.
  eapply ends_mono; [by apply count_ends|]. intros [x2 ts2] Ho2. apply ends_bind.
  eapply ends_mono; [apply widen_ends; [nia|done]|]. intros x3 Ho3. apply ends_bind.
  eapply ends_mono; [apply prefix_sum_ends; [nia|done|done]|]. intros [x4 accum] [Ho4 ->]. apply ends_bind.
  eapply ends_mono.
  { apply (par_for_each _ (fun h x => offsets n x (start E) h) (fun _ => 0) (start E)); [|done|nia|].
    - intros h h' x Hh Ho. eapply offsets_ext; [exact Ho|]. intros v Hv. split; [done|by apply Hh].
    - intros k h x Hk _ Ho. destruct (proj2 Ho k Hk) as [-> _]. cbn [mbind option_bind].
      destruct (offsets_set_end n x _ _ k (start E k) Ho Hk) as (x' & -> & Ho'). exists x'. split; [done|]. exact Ho'. }
  intros x5 Ho5. apply ends_bind. pose proof Ho5 as [Hl5 Hg5].
  eapply ends_lift; [unfold set_XOFF; apply aset_in; lia|]. apply ends_bind.
  pose proof (start_bound E m Hm n ltac:(lia)) as Hsb. pose proof (start_nonneg E n ltac:(lia)) as Hsn. pose proof (alen_nonneg E).
  assert (alen (xmalloc_words (start E n + MINVECT_SIZE)) = start E n + MINVECT_SIZE) as Hst
    by (apply csr_alen_xmalloc; unfold MINVECT_SIZE; lia).
  destruct (fill_range_ok (xmalloc_words (start E n + MINVECT_SIZE)) 0 (start E n + MINVECT_SIZE) (-1))
    as (store & Es & Hls & _); [lia|lia|]. eapply ends_lift; [exact Es|]. apply ends_ret. split; [|split; [cbn [snd]; lia|]].
  - cbn [fst row]. split; [by rewrite alen_insert|]. intros v Hv. destruct (Hg5 v Hv) as [Hf Hg].
    unfold XOFF, XENDOFF in *. rewrite !aget_insert by lia. rewrite !decide_False by lia. change (alen []) with 0.
    by rewrite Z.add_0_r.
  - intros v Hv. cbn [row]. change (alen []) with 0. split; [pose proof (room_pos E v); lia|].
    intros i Hi. change (alen []) with 0 in Hi. lia.
Qed.
End Setup.

(** ** Rows, proved *)

Section Gather.
Context {team_of : Team} (fuel : nat) (E : list packed_edge) (m : Z) (Hm : max_vertex E m).
Abbreviation n := (m + 1).

(** The calls of [scatter_edge] that an edge asks for. *)
Definition arcs_of (k : Z) : list (Z * Z) :=
  match E.[k] with Some e => if v0 e =? v1 e then [] else [(v0 e, v1 e); (v1 e, v0 e)] | None => [] end.

(** The targets of the arcs that leave [v]. *)
Definition targets (v : Z) (l : list (Z * Z)) : list Z := (filter (fun a => a.1 = v) l).*2.

Lemma targets_app v l k : targets v (l ++ k) = targets v l ++ targets v k.
Proof. unfold targets. by rewrite list.filter_app, fmap_app. Qed.

Lemma targets_cons v i j l : targets v ((i, j) :: l) = (if decide (i = v) then [j] else []) ++ targets v l.
Proof. unfold targets. rewrite filter_cons. cbn [fst]. by case_decide. Qed.

#[local] Instance targets_perm v : Proper ((≡ₚ) ==> (≡ₚ)) (targets v).
Proof. intros l k Hp. unfold targets. by rewrite Hp. Qed.

Lemma row_targets (k : nat) v :
  (k <= length E)%nat -> targets v (seqZ 0 (Z.of_nat k) ≫= arcs_of) = row E k v.
Proof.
  induction k as [|k IH]; intros Hk; [done|]. replace (Z.of_nat (S k)) with (Z.of_nat k + 1) by lia.
  rewrite seqZ_snoc, bind_app, targets_app, IH by lia. cbn [row]. f_equal. cbn [mbind list_bind]. rewrite app_nil_r.
  destruct (edge_get E m Hm k ltac:(lia)) as (e & He & _). unfold arcs_of. rewrite Z.add_0_l, aget_nat, He.
  destruct (Z.eqb_spec (v0 e) (v1 e)); [done|]. rewrite !targets_cons.
  destruct (Z.eqb_spec (v0 e) v), (Z.eqb_spec (v1 e) v); repeat case_decide; try done; congruence.
Qed.

(** The arcs a thread has still to place. *)
Definition arcs_left (t : gather_thread) : list (Z * Z) := t.1.2 ++ t.1.1 ≫= arcs_of.

Definition arc_ok (a : Z * Z) : Prop := 0 <= a.1 < n.

Definition gather_ok (t : gather_thread) : Prop :=
  Forall (fun k => 0 <= k < alen E) t.1.1 /\ Forall arc_ok t.1.2.

(** Every vertex has the entries [R v]; the write of an entry may be pending. *)
Record filling (R : Z -> list Z) (s : list Z * list Z) (ts : list gather_thread) : Prop := {
  fi_threads : Forall gather_ok ts;
  fi_offsets : offsets n s.1 (start E) (fun v => start E v + alen (R v));
  fi_store : alen s.2 = start E n + MINVECT_SIZE;
  fi_rest : forall v, 0 <= v < n -> R v ++ targets v (ts ≫= arcs_left) ≡ₚ row E (length E) v;
  fi_cells : forall v i, 0 <= v < n -> 0 <= i < alen (R v) ->
    xadj_get s.2 (start E v + i) = (R v).[i] \/
    exists tid t x, ts !! tid = Some t /\ t.2 = Some (start E v + i, x) /\ (R v).[i] = Some x;
  fi_pending : forall tid t w x, ts !! tid = Some t -> t.2 = Some (w, x) ->
    exists v i, 0 <= v < n /\ 0 <= i < alen (R v) /\ w = start E v + i /\ (R v).[i] = Some x;
}.

Lemma filling_room R s ts v : filling R s ts -> 0 <= v < n -> alen (R v) + alen (targets v (ts ≫= arcs_left)) <= room E v.
Proof.
  intros Hfi Hv. pose proof (fi_rest _ _ _ Hfi v Hv) as Hp. apply Permutation_length in Hp. rewrite length_app in Hp.
  unfold room, alen. lia.
Qed.

(** The pending write of a thread. *)
Lemma fill_write R xoff store ts tid todo calls w x :
  filling R (xoff, store) ts -> ts !! tid = Some (todo, calls, Some (w, x)) ->
  exists store', xadj_set store w x = Some store' /\ filling R (xoff, store') (<[tid := (todo, calls, None)]> ts).
Proof.
  intros Hfi Ht. pose proof Hfi as [Hth Ho Hst Hrest Hcells Hpend]. cbn [fst snd] in *.
  destruct (Hpend tid _ w x Ht eq_refl) as (v & i & Hv & Hi & -> & Hx).
  pose proof (filling_room _ _ _ v Hfi Hv) as Hroom. pose proof (alen_nonneg (targets v (ts ≫= arcs_left))).
  pose proof (cell_in E m v i Hv ltac:(lia)) as Hc.
  destruct (xadj_set_ok store (start E v + i) x) as (store' & Es & Hl & Hg); [lia|]. exists store'. split; [done|].
  pose proof (lookup_lt_Some _ _ _ Ht) as Hlt. split; cbn [fst snd].
  - apply Forall_insert; [done|]. exact (Forall_lookup_1 _ _ _ _ Hth Ht).
  - done.
  - lia.
  - intros u Hu. destruct (bind_insert arcs_left ts tid _ (todo, calls, None) Ht) as (rest & E1 & E2).
    rewrite E2. change (arcs_left (todo, calls, None)) with (arcs_left (todo, calls, Some (start E v + i, x))).
    rewrite <- E1. by apply Hrest.
  - intros u j Hu Hj. rewrite Hg. case_decide as Heq.
    + left. destruct (decide (u = v)) as [->|Hne].
      * assert (j = i) as -> by lia. done.
      * exfalso. pose proof (filling_room _ _ _ u Hfi Hu). pose proof (alen_nonneg (targets u (ts ≫= arcs_left))).
        apply (row_disjoint E m u v j i); try done; lia.
    + destruct (Hcells u j Hu Hj) as [?|(tid' & t' & y & Ht' & Hp & Hy)]; [by left|right].
      exists tid', t', y. split; [|done]. destruct (decide (tid' = tid)) as [->|]; [|by rewrite list_lookup_insert_ne].
      exfalso. rewrite Ht in Ht'. injection Ht' as <-. cbn [snd] in Hp. injection Hp as Hp _. lia.
  - intros tid' t' w' x' Ht' Hp. destruct (decide (tid' = tid)) as [->|].
    + rewrite list_lookup_insert_eq in Ht' by done. by injection Ht' as <-.
    + rewrite list_lookup_insert_ne in Ht' by done. by eapply Hpend.
Qed.

(** The fetch-and-add of a call. *)
Lemma fill_fetch R xoff store ts tid todo i j calls :
  filling R (xoff, store) ts -> ts !! tid = Some (todo, (i, j) :: calls, None) ->
  exists xoff', XENDOFF xoff i = Some (start E i + alen (R i)) /\
    set_XENDOFF xoff i (start E i + alen (R i) + 1) = Some xoff' /\
    filling (updR R i (R i ++ [j])) (xoff', store) (<[tid := (todo, calls, Some (start E i + alen (R i), j))]> ts).
Proof.
  intros Hfi Ht. pose proof Hfi as [Hth Ho Hst Hrest Hcells Hpend]. cbn [fst snd] in *.
  destruct (Forall_lookup_1 _ _ _ _ Hth Ht) as [Htodo [Hi Hcalls]%list.Forall_cons]. cbn [fst snd] in *. unfold arc_ok in Hi. cbn in Hi.
  destruct (proj2 Ho i Hi) as [_ He]. destruct (offsets_set_end n xoff _ _ i (start E i + alen (R i) + 1) Ho Hi) as (xoff' & Es & Ho').
  exists xoff'. split; [done|]. split; [done|]. pose proof (lookup_lt_Some _ _ _ Ht) as Hlt.
  set (t' := (todo, calls, Some (start E i + alen (R i), j))). pose proof (alen_nonneg (R i)) as HRi.
  assert (forall u k, 0 <= k < alen (R u) -> (updR R i (R i ++ [j]) u).[k] = (R u).[k] /\ 0 <= k < alen (updR R i (R i ++ [j]) u)) as Hold.
  { intros u k Hk. unfold updR. case_decide; [subst u|done]. rewrite alen_app. rewrite aget_app_l by lia. change (alen [j]) with 1. split; [done|lia]. }
  split; cbn [fst snd].
  - by apply Forall_insert.
  - eapply offsets_ext; [exact Ho'|]. intros u Hu. split; [done|]. unfold upd, updR. case_decide; [|done]. rewrite alen_app.
    change (alen [j]) with 1. subst. lia.
  - done.
  - intros u Hu. destruct (bind_insert arcs_left ts tid _ t' Ht) as (rest & E1 & E2). specialize (Hrest u Hu).
    rewrite E1 in Hrest. rewrite E2. change (arcs_left (todo, (i, j) :: calls, None)) with ((i, j) :: arcs_left t') in Hrest.
    cbn [app] in Hrest. rewrite targets_cons in Hrest. unfold updR. repeat case_decide; subst; try done. by rewrite <- app_assoc.
  - intros u k Hu Hk. unfold updR in Hk. case_decide as Hui.
    + subst u. rewrite alen_app in Hk. change (alen [j]) with 1 in Hk. destruct (decide (k = alen (R i))) as [->|].
      * right. exists tid, t', j. rewrite list_lookup_insert_eq by done. split; [done|]. split; [done|].
        unfold updR. rewrite decide_True by done. apply aget_middle.
      * rewrite (proj1 (Hold i k ltac:(lia))).
        destruct (Hcells i k Hu ltac:(lia)) as [?|(tid' & t1 & y & Ht1 & Hp & Hy)]; [by left|right].
        exists tid', t1, y. split; [|done]. rewrite list_lookup_insert_ne; [done|]. intros ->. rewrite Ht in Ht1. by injection Ht1 as <-.
    + rewrite (proj1 (Hold u k Hk)).
      destruct (Hcells u k Hu Hk) as [?|(tid' & t1 & y & Ht1 & Hp & Hy)]; [by left|right].
      exists tid', t1, y. split; [|done]. rewrite list_lookup_insert_ne; [done|]. intros ->. rewrite Ht in Ht1. by injection Ht1 as <-.
  - intros tid' t1 w x Ht1 Hp. destruct (decide (tid' = tid)) as [->|].
    + rewrite list_lookup_insert_eq in Ht1 by done. injection Ht1 as <-. injection Hp as <- <-.
      exists i, (alen (R i)). split; [done|]. unfold updR. rewrite decide_True, alen_app by done. change (alen [j]) with 1.
      split; [lia|]. split; [done|]. apply aget_middle.
    + rewrite list_lookup_insert_ne in Ht1 by done. destruct (Hpend tid' t1 w x Ht1 Hp) as (v & k & Hv & Hk & -> & Hx).
      exists v, k. destruct (Hold v k Hk) as [-> ?]. done.
Qed.

(** The next edge of a thread. *)
Lemma fill_edge R s ts tid k todo e :
  filling R s ts -> ts !! tid = Some (k :: todo, [], None) -> E.[k] = Some e -> 0 <= v0 e < n -> 0 <= v1 e < n ->
  filling R s (<[tid := (todo, if v0 e =? v1 e then [] else [(v0 e, v1 e); (v1 e, v0 e)], None)]> ts).
Proof.
  intros Hfi Ht He H0 H1. pose proof Hfi as [Hth Ho Hst Hrest Hcells Hpend].
  destruct (Forall_lookup_1 _ _ _ _ Hth Ht) as [[Hk Htodo]%list.Forall_cons _]. cbn [fst snd] in *.
  set (t' := (todo, if v0 e =? v1 e then [] else [(v0 e, v1 e); (v1 e, v0 e)], None) : gather_thread).
  pose proof (lookup_lt_Some _ _ _ Ht) as Hlt.
  assert (arcs_left (k :: todo, [], None) = arcs_left t') as Hal.
  { unfold arcs_left. cbn [fst snd app mbind list_bind t']. unfold arcs_of at 1. by rewrite He. }
  split; try done.
  - apply Forall_insert; [done|]. split; [done|]. cbn [fst snd t']. destruct (v0 e =? v1 e); [constructor|].
    by repeat (apply list.Forall_cons; split; [done|]).
  - intros v Hv. destruct (bind_insert arcs_left ts tid _ t' Ht) as (rest & E1 & E2). rewrite E2, <- Hal, <- E1. by apply Hrest.
  - intros v i Hv Hi. destruct (Hcells v i Hv Hi) as [?|(tid' & t1 & y & Ht1 & Hp & Hy)]; [by left|right].
    exists tid', t1, y. split; [|done]. rewrite list_lookup_insert_ne; [done|]. intros ->. rewrite Ht in Ht1. by injection Ht1 as <-.
  - intros tid' t1 w x Ht1 Hp. destruct (decide (tid' = tid)) as [->|].
    + rewrite list_lookup_insert_eq in Ht1 by done. injection Ht1 as <-. done.
    + rewrite list_lookup_insert_ne in Ht1 by done. by eapply Hpend.
Qed.

Definition gather_work (t : gather_thread) : nat :=
  (5 * length t.1.1 + 2 * length t.1.2 + match t.2 with Some _ => 1 | None => 0 end)%nat.

Lemma gather_ends todos s :
  mjoin todos ≡ₚ seqZ 0 (alen E) -> 5 * alen E <= Z.of_nat fuel -> rows_ok E m (row E 0) s ->
  ends (region (gather_step E) gathered fuel s ((fun todo => (todo, [], None)) <$> todos)) (fun '(s', _) =>
    exists R, rows_ok E m R s' /\ forall v, 0 <= v < n -> R v ≡ₚ row E (length E) v).
Proof.
  intros Hp Hf (Ho & Hst & _). eapply ends_mono.
  - apply (region_ok (gather_step E) gathered (fun s ts => exists R, filling R s ts) (fun _ ts => sum_of gather_work ts)).
    + exists (row E 0). split; try done.
      * apply Forall_fmap, list.Forall_forall. intros todo Hin. split; [|constructor]. cbn [fst snd]. apply list.Forall_forall.
        intros k Hk. assert (k ∈ mjoin todos) as Hk' by (apply list_elem_of_join; eauto).
        rewrite Hp in Hk'. apply elem_of_seqZ in Hk'. lia.
      * intros v Hv. cbn [row app]. rewrite list_fmap_bind.
        assert (todos ≫= arcs_left ∘ (fun todo => (todo, [], None)) = mjoin todos ≫= arcs_of) as ->.
        { clear. induction todos as [|l todos IH]; [done|].
          change (mjoin (l :: todos)) with (l ++ mjoin todos). by rewrite bind_app, <- IH. }
        rewrite Hp. change (alen E) with (Z.of_nat (length E)). by rewrite row_targets.
      * intros v i Hv Hi. cbn [row] in Hi. change (alen []) with 0 in Hi. lia.
      * intros tid t w x Ht. rewrite list_lookup_fmap in Ht. destruct (todos !! tid); [|done]. by injection Ht as <-.
    + rewrite sum_of_fmap.
      assert (forall l : list (list Z), sum_of (fun todo => gather_work (todo, [], None)) l = (5 * length (mjoin l))%nat) as ->.
      { induction l as [|x l IH]; [done|]. cbn [sum_of]. rewrite IH. change (mjoin (x :: l)) with (x ++ mjoin l).
        rewrite length_app. unfold gather_work. cbn [fst snd length]. lia. }
      rewrite Hp, length_seqZ. lia.
    + intros [x st] ts tid [[todo calls] pend] [R HR] Ht Hfin.
      pose proof (fun t' => sum_of_insert gather_work ts tid _ t' Ht) as Hsum. unfold gather_work in Hsum at 2 4. cbn [fst snd] in Hsum.
      destruct pend as [[w y]|]; [|destruct calls as [|[i j] calls]; [destruct todo as [|k todo]; [done|]|]]; cbn [gather_step].
      * destruct (fill_write R x st ts tid todo calls w y HR Ht) as (st' & -> & HR'). cbn [mbind option_bind].
        eexists _, _. split; [done|]. split; [by exists R|]. specialize (Hsum (todo, calls, None)). cbn [fst snd] in Hsum. lia.
      * destruct (Forall_lookup_1 _ _ _ _ (fi_threads _ _ _ HR) Ht) as [[Hk _]%list.Forall_cons _].
        destruct (edge_at E m Hm k Hk) as (e & He & H0 & H1). rewrite He. cbn [mbind option_bind].
        unfold get_v0_from_edge, get_v1_from_edge. assert ((0 <=? v0 e) && (0 <=? v1 e) = true) as -> by lia. cbn [andb].
        pose proof (fill_edge R (x, st) ts tid k todo e HR Ht He H0 H1) as HR'.
        eexists _, _. split; [done|]. destruct (v0 e =? v1 e); cbn [negb]; (split; [by exists R|]).
        -- specialize (Hsum (todo, [], None)). cbn [fst snd length] in Hsum. lia.
        -- specialize (Hsum (todo, [(v0 e, v1 e); (v1 e, v0 e)], None)). cbn [fst snd length] in Hsum. lia.
      * destruct (fill_fetch R x st ts tid todo i j calls HR Ht) as (x' & -> & Es & HR'). cbn [mbind option_bind int64_fetch_add].
        rewrite Es. cbn [mbind option_bind]. eexists _, _. split; [done|]. split; [by eexists|].
        specialize (Hsum (todo, calls, Some (start E i + alen (R i), j))). cbn [fst snd length] in Hsum. lia.
  - intros [s' ts] [[R HR] Hfin]. pose proof HR as [Hth Ho' Hst' Hrest Hcells _]. exists R.
    assert (ts ≫= arcs_left = []) as Hal.
    { clear -Hfin. induction Hfin as [|[[[|] [|]] [|]] ts Ht _ IH]; try done. }
    rewrite Hal in Hrest. split; [|intros v Hv; specialize (Hrest v Hv); by rewrite app_nil_r in Hrest].
    split; [done|]. split; [done|]. intros v Hv. split.
    + specialize (Hrest v Hv). rewrite app_nil_r in Hrest. unfold room, alen. rewrite Hrest. lia.
    + intros i Hi. destruct (Hcells v i Hv Hi) as [?|(tid & t & y & Ht & Hpn & _)]; [done|].
      pose proof (Forall_lookup_1 _ _ _ _ Hfin Ht) as Hg. destruct t as [[[|] [|]] [|]]; done.
Qed.
End Gather.

(** A row and a permutation of it are packed alike. *)
Lemma ascending_unique (l k : list Z) :
  StronglySorted Z.lt l -> StronglySorted Z.lt k -> (forall x, x ∈ l <-> x ∈ k) -> l = k.
Proof.
  intros Hl. revert k. induction Hl as [|x l Hl IH Hx]; intros k Hk He.
  - destruct k as [|y k]; [done|]. exfalso. apply (not_elem_of_nil y), He. left.
  - destruct Hk as [|y k Hk Hy]; [exfalso; apply (not_elem_of_nil x), He; left|].
    rewrite list.Forall_forall in Hx, Hy.
    assert (x = y) as ->.
    { assert (x ∈ y :: k) as Hxk by (apply He; left). assert (y ∈ x :: l) as Hyl by (apply He; left).
      apply elem_of_cons in Hxk as [|Hxk]; [done|]. apply elem_of_cons in Hyl as [|Hyl]; [done|].
      specialize (Hx y Hyl). specialize (Hy x Hxk). lia. }
    f_equal. apply IH; [done|]. intros z. specialize (He z). rewrite !elem_of_cons in He. split; intros Hz.
    + destruct (proj1 He ltac:(by right)) as [->|]; [|done]. specialize (Hx y Hz). lia.
    + destruct (proj2 He ltac:(by right)) as [->|]; [|done]. specialize (Hy y Hz). lia.
Qed.

Lemma packed_perm l k : l ≡ₚ k -> packed l = packed k.
Proof.
  intros Hp. apply ascending_unique; [apply packed_sorted..|]. intros x. by rewrite !packed_elem, Hp.
Qed.

(** Steps that are enough for every region of the construction. *)
Definition build_steps {team_of : Team} (E : list packed_edge) (m : Z) : Z :=
  5 * alen E + (nt + 1) * (2 * (m + 1) + 2) + nt * (nt + 2).

(** Whatever the order of the threads' steps, the rows that come out are the
    rows of the sequential code. *)
Lemma create_rows_ends {team_of : Team} fuel E buf :
  Forall edge_ok E -> alen E < 2 ^ 58 -> alen buf = nt ->
  (forall m, max_vertex E m -> build_steps E m <= Z.of_nat fuel) ->
  ends (create_rows fuel E (alen E) buf) (graph_ok E).
Proof.
  intros HE Hlen Hb Hf. unfold build_steps in Hf. pose proof nt_pos as Hnt. pose proof (alen_nonneg E).
  destruct (max_loop_ok E HE) as (m0 & _ & Hm0). specialize (Hf m0 Hm0) as Hf0. pose proof Hm0 as [Hmr0 _].
  unfold create_rows. apply ends_bind. eapply ends_mono; [apply find_nv_ends; [done|nia|nia]|].
  intros [m nv] [Hm ->]. specialize (Hf m Hm). pose proof Hm as [Hmr _]. apply ends_bind. rewrite (Z.add_comm 1 m).
  eapply ends_mono; [apply (setup_ends fuel E m Hm); [done|apply csr_alen_xmalloc; lia|done|nia|nia]|]. intros s Hs.
  apply ends_bind. unfold gather_edges. apply ends_bind, ends_dealt. intros todos _ Hp. rewrite Z.sub_0_r in Hp.
  apply ends_bind. eapply ends_mono; [apply (gather_ends fuel E m Hm); [done|nia|done]|].
  intros [s1 ts1] (R & HR & HRp). eapply ends_mono.
  { apply (par_for_each _ (fun h s => rows_ok E m h s) R (fun v => packed (R v))); [|done|nia|].
    - intros h h' s' Hh Hs'. eapply rows_ok_ext; [exact Hs'|]. done.
    - intros k h s' Hk Hh Hs'. destruct (pack_vtx_ok E m h s' k Hs' Hk) as (s2 & -> & Hs2). exists s2. split; [done|].
      eapply rows_ok_ext; [exact Hs2|]. intros v Hv. unfold updR. case_decide; [by subst; rewrite Hh|done]. }
  intros [x st] Hs2. apply ends_ret. split; [done|done|]. cbn [maxvtx nv xoff xadjstore].
  eapply rows_ok_ext; [exact Hs2|]. intros v Hv. cbn beta. by apply packed_perm, HRp.
Qed.

Lemma max_vertex_unique (E : list packed_edge) m m' : max_vertex E m -> max_vertex E m' -> m = m'.
Proof.
  assert (forall a b, max_vertex E a -> max_vertex E b -> a <= b) as Hle; [|intros H1 H2; pose proof (Hle _ _ H1 H2); pose proof (Hle _ _ H2 H1); lia].
  intros a b (Ha & _ & [->|[u Hu]]) (Hb & Hin & _); [lia|]. destruct (Hin _ _ Hu). lia.
Qed.

(** C15: the rows that the threads build are those of the sequential kernel: for
    every team, every dealing of the iterations and every order of the steps,
    [create_rows] ends with the same largest vertex, the same offsets and the same
    entries in every row. *)
Theorem omp_rows_are_sequential {team_of : Team} fuel E buf :
  Forall edge_ok E -> alen E < 2 ^ 58 -> alen buf = nt ->
  (forall m, max_vertex E m -> build_steps E m <= Z.of_nat fuel) ->
  exists g0, SeqCsr.create_graph_from_edgelist E (alen E) = Some g0 /\
    ends (create_rows fuel E (alen E) buf) (fun g =>
      maxvtx g = maxvtx g0 /\ nv g = nv g0 /\
      forall v, 0 <= v < nv g0 ->
      exists o e, XOFF (xoff g0) v = Some o /\ XENDOFF (xoff g0) v = Some e /\
        XOFF (xoff g) v = Some o /\ XENDOFF (xoff g) v = Some e /\
        forall i, o <= i < e -> exists w, xadj_get (xadjstore g0) i = Some w /\ xadj_get (xadjstore g) i = Some w).
Proof.
  intros HE Hlen Hb Hf. destruct (csr_create_ok E HE Hlen) as (g0 & Hc & Hg0). exists g0. split; [done|].
  eapply ends_mono; [by apply create_rows_ends|]. intros g Hg.
  pose proof (max_vertex_unique E _ _ (go_max _ _ Hg) (go_max _ _ Hg0)) as Hmx. split; [done|].
  split; [by rewrite (go_nv _ _ Hg), (go_nv _ _ Hg0), Hmx|]. intros v Hv. rewrite (go_nv _ _ Hg0) in Hv.
  destruct (go_rows _ _ Hg0) as (Ho0 & _ & Hr0). destruct (go_rows _ _ Hg) as (Ho & _ & Hr). rewrite Hmx in Ho, Hr. cbn [fst snd] in *.
  destruct (proj2 Ho0 v Hv) as [-> ->]. destruct (proj2 Ho v Hv) as [-> ->]. eexists _, _. do 4 (split; [done|]).
  destruct (Hr0 v Hv) as [_ Hrow0]. destruct (Hr v Hv) as [_ Hrow]. set (l := packed (row E (length E) v)) in *.
  intros i Hi. destruct (aget_in l (i - start E v) ltac:(lia)) as [w Hw]. exists w.
  replace i with (start E v + (i - start E v)) by lia. rewrite Hrow0, Hrow by lia. done.
Qed.

Lemma omp_rows_are_sequential_witness :
  exists g0, SeqCsr.create_graph_from_edgelist [MkEdge 0 3; MkEdge 3 1; MkEdge 2 2] 3 = Some g0 /\
    ends (@create_rows first_first (Z.to_nat 100) [MkEdge 0 3; MkEdge 3 1; MkEdge 2 2] 3 [0; 0]) (fun g =>
      maxvtx g = maxvtx g0 /\ nv g = nv g0 /\
      forall v, 0 <= v < nv g0 ->
      exists o e, XOFF (xoff g0) v = Some o /\ XENDOFF (xoff g0) v = Some e /\
        XOFF (xoff g) v = Some o /\ XENDOFF (xoff g) v = Some e /\
        forall i, o <= i < e -> exists w, xadj_get (xadjstore g0) i = Some w /\ xadj_get (xadjstore g) i = Some w).
Proof.
  apply (@omp_rows_are_sequential first_first (Z.to_nat 100) [MkEdge 0 3; MkEdge 3 1; MkEdge 2 2] [0; 0]).
  - unfold edge_ok, in_u32. repeat (constructor; [cbn; lia|]). constructor.
  - vm_compute. reflexivity.
  - reflexivity.
  - intros m (_ & _ & [->|[u (e & He & Hj)]]); [vm_compute; discriminate|].
    assert (m <= 3) as Hm by (rewrite !elem_of_cons in He; destruct He as [->|[->|[->|He]]];
      [destruct Hj; cbn in *; lia..|by apply not_elem_of_nil in He]).
    unfold build_steps. change (alen [MkEdge 0 3; MkEdge 3 1; MkEdge 2 2]) with 3. change (@nt first_first) with 2. lia.
Defined.

End OmpCsr.
