(* ===== verification/Bitmap.v ===== *)
(** * Bitmaps (sources/graph500/omp-csr/bitmap.h)

    A bitmap is its array of 64-bit words.  [bm_get_next_bit] finds the next
    bit that is set; [bm_set_bit_atomic] is a loop around compare-and-swap, here
    the two steps of a thread: read the word, try to exchange it. *)

From Stdlib Require Import ZArith Lia.
From stdpp Require Import list numbers.
From S2P Require Import Prelude Arrays Graph Threads.
#[local] Open Scope Z_scope.

Module Bitmap.
Import Graph.

(** ** The code *)

Definition WORD_OFFSET (n : Z) : Z := n / 64.
Definition BIT_OFFSET (n : Z) : Z := Z.land n 63.

(** The value of a 64-bit integer converted to [int]. *)
Definition to_int (x : Z) : Z := let y := u32 x in if y <? 2 ^ 31 then y else y - 2 ^ 32.

Definition bm_reset (bm : list Z) : option (list Z) := for_z 0 (alen bm) (fun k bm => bm.[k <- 0]) bm.

(** [garbage] is what [xmalloc] returns; a negative number of words is refused. *)
Definition bm_init (size : Z) (garbage : Z -> Z) : option (list Z) :=
  let size := to_int size in
  let num_longs := Z.quot (size + 63) 64 in
  assert! 0 <=? num_longs;
  bm_reset (tab num_longs garbage).

(** The mask [1l << 63] is the sign bit. *)
Definition bm_get_bit (bm : list Z) (pos : Z) : option Z :=
  w ← bm.[WORD_OFFSET pos]; Some (Z.land w (u64 (Z.shiftl 1 (BIT_OFFSET pos)))).

(** [while (!temp) { it++; if (it >= bm->end) return -1; temp = *it; next += 64; }] *)
Fixpoint next_word (fuel : nat) (bm : list Z) (it next temp : Z) : option (option (Z * Z)) :=
  match fuel with
  | O => None
  | S fuel =>
      if temp =? 0 then
        let it := it + 1 in
        if alen bm <=? it then Some None
        else temp ← bm.[it]; next_word fuel bm it (next + 64) temp
      else Some (Some (next, temp))
  end.

Definition bm_get_next_bit (bm : list Z) (pos : Z) : option Z :=
  let bit_offset := BIT_OFFSET pos in
  let it := WORD_OFFSET pos in
  temp ← bm.[it];
  let temp := if negb (bit_offset =? 63) then Z.shiftr temp (bit_offset + 1) else 0 in
  r ← (if temp =? 0 then next_word (S (length bm)) bm it (Z.land pos 0xffffffc0) temp else Some (Some (pos + 1, temp)));
  match r with
  | None => Some (-1)
  | Some (next, temp) =>
      '(next, _) ← while_fuel 65 (fun '(_, temp) => Some (Z.land temp 1 =? 0))
        (fun '(next, temp) => Some (next + 1, Z.shiftr temp 1)) (next, temp);
      Some next
  end.

(** [old_val = *loc] *)
Definition set_read (bm : list Z) (pos : Z) : option Z := bm.[WORD_OFFSET pos].

(** [int64_cas (loc, old_val, new_val)]: the bitmap after it, and whether the
    word was exchanged. *)
Definition set_cas (bm : list Z) (pos old_val : Z) : option (list Z * bool) :=
  w ← bm.[WORD_OFFSET pos];
  if w =? old_val then
    bm ← bm.[WORD_OFFSET pos <- Z.lor old_val (Z.shiftl 1 (BIT_OFFSET pos))]; Some (bm, true)
  else Some (bm, false).

Definition bm_swap (a b : list Z) : list Z * list Z := (b, a).

(** ** The bits *)

Definition bit (bm : list Z) (i : Z) : bool :=
  match bm.[i / 64] with Some w => Z.testbit w (i mod 64) | None => false end.

(** A bitmap for [n] bits. *)
Definition bitmap_ok (n : Z) (bm : list Z) : Prop :=
  alen bm = (n + 63) / 64 /\ Forall in_u64 bm /\ forall i, bit bm i = true -> 0 <= i < n.

Lemma offset_mod n : BIT_OFFSET n = n mod 64.
Proof. unfold BIT_OFFSET. change 63 with (Z.ones 6). by rewrite Z.land_ones by lia. Qed.

Lemma word_in n bm i : bitmap_ok n bm -> 0 <= i < n -> exists w, bm.[i / 64] = Some w /\ in_u64 w.
Proof.
  intros (Hl & Hw & _) Hi. destruct (aget_in bm (i / 64)) as [w Hg]; [rewrite Hl; zdiv|]. exists w. split; [done|].
  rewrite list.Forall_forall in Hw. apply Hw, elem_aget. eauto.
Qed.

Lemma get_bit_ok n bm i : bitmap_ok n bm -> 0 <= i < n -> exists w, bm_get_bit bm i = Some w /\ (w =? 0) = negb (bit bm i).
Proof.
  intros Hb Hi. destruct (word_in n bm i Hb Hi) as (w & Hg & Hw). unfold bm_get_bit, WORD_OFFSET. rewrite Hg.
  cbn [mbind option_bind]. eexists. split; [done|]. unfold bit. rewrite Hg, offset_mod.
  pose proof (Z.mod_pos_bound i 64 ltac:(lia)) as Hm.
  rewrite Z.shiftl_1_l, u64_id by (unfold in_u64; split; [lia|apply Z.pow_lt_mono_r; lia]).
  destruct (Z.testbit w (i mod 64)) eqn:Et; cbn [negb].
  - apply Z.eqb_neq. intros E0. apply (f_equal (fun x => Z.testbit x (i mod 64))) in E0.
    rewrite Z.land_spec, Z.pow2_bits_true, Et, Z.bits_0 in E0 by lia. done.
  - apply Z.eqb_eq. apply Z.bits_inj'. intros j Hj. rewrite Z.land_spec, Z.bits_0.
    destruct (decide (j = i mod 64)) as [->|]; [by rewrite Et|]. rewrite Z.pow2_bits_false by lia. apply andb_false_r.
Qed.

Lemma bit_zero k i : bit (replicate k 0) i = false.
Proof.
  unfold bit, aget. destruct (i / 64 <? 0); [done|]. destruct (replicate k 0 !! _) as [w|] eqn:E; [|done].
  apply lookup_replicate in E as [-> _]. apply Z.bits_0.
Qed.

Lemma reset_ok bm : bm_reset bm = Some (replicate (length bm) 0).
Proof.
  unfold bm_reset. destruct (fill_range_ok bm 0 (alen bm) 0) as (b' & -> & Hl & Hg); [pose proof (alen_nonneg bm); lia|lia|].
  f_equal. apply array_ext; [unfold alen in *; rewrite length_replicate; lia|]. intros i Hi. rewrite Hg by lia.
  assert ((0 <=? i) && (i <? alen bm) = true) as -> by lia.
  unfold aget. destruct (Z.ltb_spec i 0); [lia|]. symmetry. apply lookup_replicate. split; [done|]. unfold alen in *. lia.
Qed.

Lemma reset_bitmap n bm : bitmap_ok n bm -> bitmap_ok n (replicate (length bm) 0).
Proof.
  intros (Hl & _ & _). split; [unfold alen in *; by rewrite length_replicate|]. split.
  - apply list.Forall_forall. intros w Hw. apply elem_of_replicate in Hw as [-> _]. unfold in_u64. lia.
  - intros i. by rewrite bit_zero.
Qed.

Lemma bm_init_ok n garbage : 0 <= n < 2 ^ 31 - 64 -> exists bm, bm_init n garbage = Some bm /\ bitmap_ok n bm /\ forall i, bit bm i = false.
Proof.
  intros Hn. unfold bm_init. assert (to_int n = n) as ->.
  { unfold to_int. rewrite u32_id by (unfold in_u32; lia). by assert (n <? 2 ^ 31 = true) as -> by lia. }
  rewrite Z.quot_div_nonneg by lia. rewrite check_true by (apply Z.leb_le; zdiv). cbn [mbind option_bind].
  rewrite reset_ok. eexists. split; [done|]. split; [|intros i; apply bit_zero].
  assert (alen (tab ((n + 63) / 64) garbage) = (n + 63) / 64) as Hl by (apply alen_tab; zdiv).
  split; [unfold alen in *; by rewrite length_replicate|]. split.
  - apply list.Forall_forall. intros w Hw. apply elem_of_replicate in Hw as [-> _]. unfold in_u64. lia.
  - intros i. by rewrite bit_zero.
Qed.

(** ** The next bit *)

Lemma shift_down fuel next temp :
  0 < temp < 2 ^ Z.of_nat fuel ->
  exists k, 0 <= k /\ while_fuel (S fuel) (fun '(_, temp) => Some (Z.land temp 1 =? 0))
      (fun '(next, temp) => Some (next + 1, Z.shiftr temp 1)) (next, temp) = Some (next + k, Z.shiftr temp k) /\
    Z.testbit temp k = true /\ forall j, 0 <= j < k -> Z.testbit temp j = false.
Proof.
  revert next temp. induction fuel as [|fuel IH]; intros next temp Ht; [cbn in Ht; lia|].
  rewrite Nat2Z.inj_succ, Z.pow_succ_r in Ht by lia.
  assert (forall x, (Z.land x 1 =? 0) = negb (Z.testbit x 0)) as Hodd.
  { intros x. change 1 with (Z.ones 1). rewrite Z.land_ones, Z.bit0_odd by lia. change (2 ^ 1) with 2.
    rewrite Zmod_odd. by destruct (Z.odd x). }
  cbn [while_fuel mbind option_bind]. rewrite Hodd. destruct (Z.testbit temp 0) eqn:E0; cbn [negb].
  - exists 0. split; [lia|]. rewrite Z.add_0_r, Z.shiftr_0_r. split; [done|]. split; [done|]. intros; lia.
  - assert (0 < Z.shiftr temp 1 < 2 ^ Z.of_nat fuel) as Hs.
    { rewrite Z.shiftr_div_pow2 by lia. change (2 ^ 1) with 2. rewrite Z.bit0_odd in E0.
      assert (Z.even temp = true) as Hev by (rewrite <- Z.negb_odd, E0; done). apply Z.even_spec in Hev as [q ->]. zdiv. }
    destruct (IH (next + 1) (Z.shiftr temp 1) Hs) as (k & Hk & E & Hb & Hlow). exists (k + 1). split; [lia|]. split.
    + cbn [while_fuel mbind option_bind] in E |- *. rewrite E. rewrite Z.shiftr_shiftr by lia. do 2 f_equal; [lia|]. f_equal. lia.
    + rewrite Z.shiftr_spec in Hb by lia. split; [done|]. intros j Hj. destruct (decide (j = 0)) as [->|]; [done|].
      specialize (Hlow (j - 1) ltac:(lia)). rewrite Z.shiftr_spec in Hlow by lia. by replace (j - 1 + 1) with j in Hlow by lia.
Qed.

Lemma word_zero bm it : bm.[it] = Some 0 -> forall i, 64 * it <= i < 64 * it + 64 -> bit bm i = false.
Proof. intros Hg i Hi. unfold bit. replace (i / 64) with it by zdiv. rewrite Hg. apply Z.bits_0. Qed.

(** The scan of the words leaves the rest of a word that is not zero. *)
Lemma next_word_ok fuel bm it temp :
  Forall in_u64 bm -> 0 <= it < alen bm -> temp = 0 -> alen bm - it <= Z.of_nat fuel ->
  (exists it' w, next_word (S fuel) bm it (64 * it) temp = Some (Some (64 * it', w)) /\ it < it' < alen bm /\
    bm.[it'] = Some w /\ 0 < w < 2 ^ 64 /\ forall i, 64 * it + 64 <= i < 64 * it' -> bit bm i = false) \/
  next_word (S fuel) bm it (64 * it) temp = Some None /\ forall i, 64 * it + 64 <= i -> bit bm i = false.
Proof.
  intros Hw. revert it temp. induction fuel as [|fuel IH]; intros it temp Hit -> Hf; [lia|].
  cbn [next_word]. cbn [Z.eqb]. destruct (Z.leb_spec (alen bm) (it + 1)) as [Hle|Hlt].
  - right. split; [done|]. intros i Hi. unfold bit. destruct (bm.[i / 64]) eqn:E; [|done]. apply aget_some_range in E. zdiv.
  - destruct (aget_in bm (it + 1) ltac:(lia)) as [w Hg]. rewrite Hg. cbn [mbind option_bind].
    assert (in_u64 w) as Hwr by (rewrite list.Forall_forall in Hw; apply Hw, elem_aget; eauto). unfold in_u64 in Hwr.
    replace (64 * it + 64) with (64 * (it + 1)) by lia. destruct (Z.eqb_spec w 0) as [->|Hne].
    + pose proof (word_zero bm (it + 1) Hg) as Hz.
      destruct (IH (it + 1) 0 ltac:(lia) eq_refl ltac:(lia)) as [(it' & w' & E & Hi' & Hg' & Hw' & Hz')|[E Hz']].
      * left. exists it', w'. cbn [next_word] in E |- *. cbn [Z.eqb] in E |- *. rewrite E. split; [done|]. split; [lia|]. split; [done|]. split; [done|].
        intros i Hi. destruct (decide (i < 64 * (it + 1) + 64)); [apply Hz; lia|apply Hz'; lia].
      * right. cbn [next_word] in E |- *. cbn [Z.eqb] in E |- *. rewrite E. split; [done|]. intros i Hi.
        destruct (decide (i < 64 * (it + 1) + 64)); [apply Hz; lia|apply Hz'; lia].
    + left. exists (it + 1), w. split; [done|]. split; [lia|]. split; [done|].
      split; [lia|]. intros; lia.
Qed.

Lemma mask_word pos : 0 <= pos < 2 ^ 32 -> Z.land pos 0xffffffc0 = 64 * (pos / 64).
Proof.
  intros Hp. change 0xffffffc0 with (Z.shiftl (Z.ones 26) 6). replace (64 * (pos / 64)) with (Z.shiftl (Z.shiftr pos 6) 6)
    by (rewrite Z.shiftl_mul_pow2, Z.shiftr_div_pow2 by lia; change (2 ^ 6) with 64; lia).
  apply Z.bits_inj'. intros j Hj. rewrite Z.land_spec, !Z.shiftl_spec by lia.
  destruct (decide (j < 6)); [rewrite !(Z.testbit_neg_r _ (j - 6)) by lia; apply andb_false_r|].
  rewrite Z.shiftr_spec, Z.sub_add by lia. destruct (decide (j < 32)).
  - by rewrite Z.ones_spec_low, andb_true_r by lia.
  - by rewrite (testbit_high 32 pos) by lia.
Qed.

(** The first set bit of what a word, which ends at [hi], still has from [next] on. *)
Lemma first_bit n bm pos next temp hi :
  (forall i, bit bm i = true -> 0 <= i < n) ->
  0 < temp < 2 ^ 64 -> pos < next -> (forall i, pos < i < next -> bit bm i = false) ->
  (forall j, 0 <= j -> Z.testbit temp j = bit bm (next + j) && (next + j <? hi)) ->
  exists r, ('(next, _) ← while_fuel 65 (fun '(_, temp) => Some (Z.land temp 1 =? 0))
        (fun '(next, temp) => Some (next + 1, Z.shiftr temp 1)) (next, temp); Some next) = Some r /\
    pos < r < n /\ bit bm r = true /\ forall i, pos < i < r -> bit bm i = false.
Proof.
  intros Hr Ht Hp Hz Heq. destruct (shift_down 64 next temp) as (k & Hk & -> & Hb & Hlow); [done|].
  cbn [mbind option_bind]. exists (next + k). split; [done|]. rewrite Heq in Hb by done. apply andb_prop in Hb as [Hb Hhi].
  pose proof (Hr _ Hb). split; [lia|]. split; [done|]. intros i Hi. destruct (decide (i < next)); [apply Hz; lia|].
  specialize (Hlow (i - next) ltac:(lia)). rewrite Heq in Hlow by lia. replace (next + (i - next)) with i in Hlow by lia.
  by assert (i <? hi = true) as E by lia; rewrite E, andb_true_r in Hlow.
Qed.

(** [bm_get_next_bit] returns the first bit after [pos] that is set, -1 when
    there is none. *)
Lemma next_bit_ok n bm pos :
  bitmap_ok n bm -> 0 <= pos < n -> n <= 2 ^ 32 ->
  exists next, bm_get_next_bit bm pos = Some next /\
    (next = -1 /\ (forall i, pos < i -> bit bm i = false) \/
     pos < next < n /\ bit bm next = true /\ forall i, pos < i < next -> bit bm i = false).
Proof.
  intros Hb Hpos Hn. destruct (word_in n bm pos Hb Hpos) as (w & Hg & Hw). destruct Hb as (Hl & Hws & Hrange).
  unfold bm_get_next_bit, WORD_OFFSET. rewrite Hg. cbn [mbind option_bind]. rewrite offset_mod, mask_word by lia.
  pose proof (Z.mod_pos_bound pos 64 ltac:(lia)) as Hm. pose proof (Z.div_mod pos 64 ltac:(lia)) as Hdm.
  set (it := pos / 64) in *. set (o := pos mod 64) in *. unfold in_u64 in Hw.
  remember (if negb (o =? 63) then Z.shiftr w (o + 1) else 0) as temp eqn:Etemp.
  assert (forall j, 0 <= j -> Z.testbit temp j = bit bm (pos + 1 + j) && (pos + 1 + j <? 64 * it + 64)) as Hbits.
  { intros j Hj. subst temp. destruct (Z.ltb_spec (pos + 1 + j) (64 * it + 64)).
    - assert (negb (o =? 63) = true) as -> by lia. rewrite andb_true_r, Z.shiftr_spec by lia. unfold bit.
      replace ((pos + 1 + j) / 64) with it by zdiv. rewrite Hg. f_equal. zdiv.
    - rewrite andb_false_r. destruct (negb (o =? 63)); [|apply Z.bits_0]. rewrite Z.shiftr_spec by lia. apply (testbit_high 64); lia. }
  assert (0 <= temp < 2 ^ 64) as Htr.
  { subst temp. destruct (negb _); [|lia]. rewrite Z.shiftr_div_pow2 by lia. split; [apply Z.div_pos; lia|].
    apply Z.div_lt_upper_bound; [lia|]. pose proof (Z.pow_pos_nonneg 2 (o + 1) ltac:(lia) ltac:(lia)). nia. }
  assert (temp = 0 -> forall i, pos < i < 64 * it + 64 -> bit bm i = false) as Hzero.
  { intros E0 i Hi. specialize (Hbits (i - pos - 1) ltac:(lia)). rewrite E0, Z.bits_0 in Hbits.
    replace (pos + 1 + (i - pos - 1)) with i in Hbits by lia. assert (i <? 64 * it + 64 = true) as E by lia.
    by rewrite E, andb_true_r in Hbits. }
  pose proof (aget_some_range _ _ _ Hg) as Hit. destruct (Z.eqb_spec temp 0) as [E0|Hne].
  - rewrite E0. destruct (next_word_ok (length bm) bm it 0 Hws Hit eq_refl ltac:(unfold alen; lia))
      as [(it' & w' & -> & Hit' & Hg' & Hw' & Hz')|[-> Hz']]; cbn [mbind option_bind].
    + assert (forall i, pos < i < 64 * it' -> bit bm i = false) as Hz2.
      { intros i Hi. destruct (decide (i < 64 * it + 64)); [apply Hzero; [done|lia]|apply Hz'; lia]. }
      destruct (first_bit n bm pos (64 * it') w' (64 * it' + 64)) as (r & -> & ? & ? & ?); try done; [lia| |].
      * intros j Hj. destruct (Z.ltb_spec (64 * it' + j) (64 * it' + 64)).
        -- rewrite andb_true_r. unfold bit. replace ((64 * it' + j) / 64) with it' by zdiv. rewrite Hg'. f_equal. zdiv.
        -- rewrite andb_false_r. apply (testbit_high 64); lia.
      * exists r. split; [done|]. by right.
    + exists (-1). split; [done|]. left. split; [done|]. intros i Hi.
      destruct (decide (i < 64 * it + 64)); [apply Hzero; [done|lia]|apply Hz'; lia].
  - cbn [mbind option_bind].
    destruct (first_bit n bm pos (pos + 1) temp (64 * it + 64)) as (r & -> & ? & ? & ?); try done; [lia|lia|lia|].
    exists r. split; [done|]. by right.
Qed.

(** ** Setting a bit *)

Lemma set_cas_ok n bm pos w :
  bitmap_ok n bm -> 0 <= pos < n -> bm.[pos / 64] = Some w ->
  exists bm', set_cas bm pos w = Some (bm', true) /\ bitmap_ok n bm' /\
    forall i, bit bm' i = bit bm i || bool_decide (i = pos).
Proof.
  intros (Hl & Hws & Hrange) Hpos Hg. pose proof (aget_some_range _ _ _ Hg) as Hit. unfold set_cas, WORD_OFFSET. rewrite Hg.
  cbn [mbind option_bind]. rewrite Z.eqb_refl, aset_in by done. cbn [mbind option_bind]. eexists. split; [done|].
  pose proof (Z.mod_pos_bound pos 64 ltac:(lia)) as Hm. set (bm' := <[_ := _]> bm).
  assert (in_u64 w) as Hw by (rewrite list.Forall_forall in Hws; apply Hws, elem_aget; eauto).
  assert (forall i, bit bm' i = bit bm i || bool_decide (i = pos)) as Hbits.
  { intros i. unfold bit, bm'. rewrite aget_insert by lia. case_decide as Hi.
    - rewrite Hi, Hg, offset_mod, Z.lor_spec, Z.shiftl_1_l. f_equal. pose proof (Z.mod_pos_bound i 64 ltac:(lia)).
      case_bool_decide as Hip; [subst; apply Z.pow2_bits_true; lia|]. apply Z.pow2_bits_false.
      pose proof (Z.div_mod pos 64 ltac:(lia)). pose proof (Z.div_mod i 64 ltac:(lia)). lia.
    - rewrite bool_decide_eq_false_2 by congruence. by rewrite orb_false_r. }
  split; [|done]. split; [unfold bm'; by rewrite alen_insert|]. split.
  - apply Forall_insert; [done|]. rewrite offset_mod, Z.shiftl_1_l. unfold in_u64 in *. apply (lor_range 64); [lia|done|].
    split; [lia|apply Z.pow_lt_mono_r; lia].
  - intros i. rewrite Hbits. intros [?|Hi]%orb_prop; [by apply Hrange|]. apply bool_decide_eq_true in Hi. by subst.
Qed.

Lemma set_cas_fail bm pos w old : bm.[pos / 64] = Some w -> w <> old -> set_cas bm pos old = Some (bm, false).
Proof. intros Hg Hne. unfold set_cas, WORD_OFFSET. rewrite Hg. cbn [mbind option_bind]. by destruct (Z.eqb_spec w old). Qed.
End Bitmap.
