(* ===== verification/OmpBfs.v ===== *)
(** * The OpenMP kernel: search (sources/graph500/omp-csr/omp-csr.c)

    A breadth-first search that changes between two kinds of steps.  Top-down,
    the threads take the vertices of the queue and claim their unseen neighbours
    by compare-and-swap; bottom-up, they take the unseen vertices and look for a
    neighbour in a bitmap of the frontier.  For every order of the threads'
    steps the search ends in a breadth-first tree (OmpSearch), or in [Split]: the threads'
    private counts, which are updated from a shared variable that another thread
    may already have cleared, can differ, and then the threads disagree about
    the next step and wait at different barriers. *)

From Stdlib Require Import ZArith Lia Sorted.
From stdpp Require Import list numbers.
From S2P Require Import Prelude Arrays Graph SeqCsr Threads OmpCsr Bitmap.
#[local] Open Scope Z_scope.

Module OmpBfs.
Import Graph SeqCsr OmpCsr Bitmap.

(** ** The code *)

Definition THREAD_BUF_LEN : Z := 16384.
Definition ALPHA : Z := 14.
Definition BETA : Z := 24.

(** The file's globals: the rows, the queue and the two bitmaps. *)
Record omp_globals := MkOmp { rows : globals; vlist : list Z; past : list Z; next : list Z }.

(** [vlist[at + i] = local[i]] for the first cells of [local]. *)
Definition copy_out (vlist : list Z) (at_ : Z) (local : list Z) : option (list Z) :=
  for_z 0 (alen local) (fun i vlist => x ← local.[i]; vlist.[at_ + i <- x]) vlist.

(** [int64_fetch_add (k2_p, n)], the assertion and the copy; nobody else touches
    the cells it fills. *)
Definition flush (nv : Z) (s : list Z * Z) (local : list Z) : option (list Z * Z) :=
  let '(vlist, k2) := s in
  let '(voff, k2) := int64_fetch_add k2 (alen local) in
  assert! voff + alen local <=? nv;
  vlist ← copy_out vlist voff local;
  Some (vlist, k2).

(** *** Top-down *)

(** What a thread is at: the vertex [v] with the part of its row still to scan
    (and the neighbour it is about to claim); [td_local] is its buffer. *)
Record td_thread := MkTd {
  td_todo : list Z;
  td_cur : option (Z * Z * Z);
  td_claim : option Z;
  td_local : list Z;
  td_done : bool;
}.

Record td_shared := MkTs { ts_tree : list Z; ts_vlist : list Z; ts_k2 : Z }.

Definition td_step (g : globals) (_ : nat) (s : td_shared) (t : td_thread) : option (td_shared * td_thread) :=
  match td_cur t with
  | Some (v, vo, veo) =>
      match td_claim t with
      | Some j =>
          (* int64_cas (&bfs_tree[j], -1, v) *)
          p ← (ts_tree s).[j];
          let '(won, p) := int64_cas p (-1) v in
          tree ← (ts_tree s).[j <- p];
          if won then
            if alen (td_local t) <? THREAD_BUF_LEN then
              Some (MkTs tree (ts_vlist s) (ts_k2 s), MkTd (td_todo t) (Some (v, vo + 1, veo)) None (td_local t ++ [j]) false)
            else
              '(vl, k2) ← flush (nv g) (ts_vlist s, ts_k2 s) (td_local t);
              Some (MkTs tree vl k2, MkTd (td_todo t) (Some (v, vo + 1, veo)) None [j] false)
          else Some (MkTs tree (ts_vlist s) (ts_k2 s), MkTd (td_todo t) (Some (v, vo + 1, veo)) None (td_local t) false)
      | None =>
          if vo <? veo then
            j ← xadj_get (xadjstore g) vo;
            p ← (ts_tree s).[j];
            if p =? -1 then Some (s, MkTd (td_todo t) (td_cur t) (Some j) (td_local t) false)
            else Some (s, MkTd (td_todo t) (Some (v, vo + 1, veo)) None (td_local t) false)
          else Some (s, MkTd (td_todo t) None None (td_local t) false)
      end
  | None =>
      match td_todo t with
      | k :: todo =>
          v ← (ts_vlist s).[k];
          veo ← XENDOFF (xoff g) v;
          vo ← XOFF (xoff g) v;
          Some (s, MkTd todo (Some (v, vo, veo)) None (td_local t) false)
      | [] =>
          if 0 <? alen (td_local t) then
            '(vl, k2) ← flush (nv g) (ts_vlist s, ts_k2 s) (td_local t);
            Some (MkTs (ts_tree s) vl k2, MkTd [] None None [] true)
          else Some (s, MkTd [] None None [] true)
      end
  end.

(** *** Setting bits, by several threads *)

(** The bit to set, and the word read for it. *)
Definition pending : Type := option (Z * option Z).

(** A step of [bm_set_bit_atomic]. *)
Definition set_step (bm : list Z) (pos : Z) (old_val : option Z) : option (list Z * pending) :=
  match old_val with
  | None => w ← set_read bm pos; Some (bm, Some (pos, Some w))
  | Some w =>
      '(bm, ok) ← set_cas bm pos w;
      Some (bm, if ok : bool then None else Some (pos, None))
  end.

Definition fill_step (vlist : list Z) (_ : nat) (bm : list Z) (t : list Z * pending) : option (list Z * (list Z * pending)) :=
  let '(todo, p) := t in
  match p with
  | Some (pos, old_val) => '(bm, p) ← set_step bm pos old_val; Some (bm, (todo, p))
  | None =>
      match todo with
      | q :: todo => v ← vlist.[q]; Some (bm, (todo, Some (v, None)))
      | [] => None
      end
  end.
Definition filled (t : list Z * pending) : bool := match t with ([], None) => true | _ => false end.

(** *** Bottom-up *)

(** [for (vo = XOFF(i); vo < XENDOFF(i); vo++) if (bm_get_bit(past, xadj[vo])) ... break;] *)
Fixpoint find_parent (n : nat) (g : globals) (past : list Z) (vo : Z) : option (option Z) :=
  match n with
  | O => Some None
  | S n =>
      j ← xadj_get (xadjstore g) vo;
      b ← bm_get_bit past j;
      if negb (b =? 0) then Some (Some j) else find_parent n g past (vo + 1)
  end.

Record bu_thread := MkBu { bu_todo : list Z; bu_set : pending; bu_awake : Z }.

(** An iteration reads the frontier and the rows, which do not change, and its
    own cell of [bfs_tree]: one step, followed by those that set the bit. *)
Definition bu_step (g : globals) (past : list Z) (_ : nat) (s : list Z * list Z) (t : bu_thread)
    : option (list Z * list Z * bu_thread) :=
  let '(tree, next) := s in
  match bu_set t with
  | Some (pos, old_val) =>
      '(next, p) ← set_step next pos old_val; Some (tree, next, MkBu (bu_todo t) p (bu_awake t))
  | None =>
      match bu_todo t with
      | i :: todo =>
          p ← tree.[i];
          if p =? -1 then
            o ← XOFF (xoff g) i;
            e ← XENDOFF (xoff g) i;
            r ← find_parent (Z.to_nat (e - o)) g past o;
            match r with
            | Some j => tree ← tree.[i <- j]; Some (tree, next, MkBu todo (Some (i, None)) (bu_awake t + 1))
            | None => Some (tree, next, MkBu todo None (bu_awake t))
            end
          else Some (tree, next, MkBu todo None (bu_awake t))
      | [] => None
      end
  end.
Definition bu_done (t : bu_thread) : bool := match bu_todo t, bu_set t with [], None => true | _, _ => false end.

(** *** The queue from the bitmap *)

(** The next vertex of the slice (-1 or past the end when there is none), the
    end of the slice, the buffer. *)
Record fq_thread := MkFq { fq_i : Z; fq_end : Z; fq_local : list Z; fq_done : bool }.

Definition flush_int (s : list Z * Z) (local : list Z) : option (list Z * Z) :=
  let '(vlist, k2) := s in
  let '(my_in, k2) := int64_fetch_add k2 (alen local) in
  vlist ← copy_out vlist (to_int my_in) local;
  Some (vlist, k2).

Definition fq_step (bm : list Z) (_ : nat) (s : list Z * Z) (t : fq_thread) : option (list Z * Z * fq_thread) :=
  if negb (fq_i t =? -1) && (fq_i t <? fq_end t) then
    assert! alen (fq_local t) <? THREAD_BUF_LEN;
    let local := fq_local t ++ [fq_i t] in
    i ← bm_get_next_bit bm (fq_i t);
    if alen local =? THREAD_BUF_LEN then s ← flush_int s local; Some (s, MkFq i (fq_end t) [] false)
    else Some (s, MkFq i (fq_end t) local false)
  else s ← flush_int s (fq_local t); Some (s, MkFq (fq_i t) (fq_end t) [] true).

Section Code.
Context {team_of : Team} (fuel : nat).

(** The slice of thread [tid]: its first vertex is looked at before the loop. *)
Definition fq_start (nv : Z) (bm : list Z) (tid : Z) : option fq_thread :=
  let nodes_per_thread := (nv + nt - 1) / nt in
  let i := nodes_per_thread * tid in
  if i <? nv then
    let i_end := i + nodes_per_thread in
    let i_end := if nv <=? i_end then nv else i_end in
    b ← bm_get_bit bm i;
    i' ← bm_get_next_bit bm i;
    Some (MkFq i' i_end (if negb (b =? 0) then [i] else []) false)
  else Some (MkFq (-1) 0 [] false).

Definition fill_queue_from_bitmap (nv : Z) (bm vlist : list Z) : Par (list Z * Z) :=
  ts ← lift (mapM (fq_start nv bm) (seqZ 0 nt));
  '(s, _) ← region (fq_step bm) fq_done fuel (vlist, 0) ts;
  mret s.

Definition fill_bitmap_from_queue (bm vlist : list Z) (out in_ : Z) : Par (list Z) :=
  todos ← dealt out in_;
  '(bm, _) ← region (fill_step vlist) filled fuel bm ((fun todo => (todo, None)) <$> todos);
  mret bm.

(** The new tree, [past], [next] and [awake_count]. *)
Definition bfs_bottom_up_step (g : globals) (tree past next : list Z) : Par (list Z * list Z * list Z * Z) :=
  let '(past, next) := bm_swap past next in
  next ← par_for (fun k next => next.[k <- 0]) fuel 0 (alen next) next;
  todos ← dealt 0 (nv g);
  '(s, ts) ← region (bu_step g past) bu_done fuel (tree, next) ((fun todo => MkBu todo None 0) <$> todos);
  mret (fst s, past, snd s, foldr (fun t sum => bu_awake t + sum) 0 ts).

(** [do ... while (awake_count > down_cutoff);] *)
Fixpoint bottom_up_loop (rounds : nat) (g : globals) (tree past next : list Z) : Par (list Z * list Z * list Z * Z) :=
  match rounds with
  | O => lift None
  | S rounds =>
      '(tree, past, next, awake_count) ← bfs_bottom_up_step g tree past next;
      if nv g / BETA <? awake_count then bottom_up_loop rounds g tree past next
      else mret (tree, past, next, awake_count)
  end.

Definition bfs_top_down_step (g : globals) (tree vlist : list Z) (k1 k2 : Z) : Par (list Z * list Z * Z * Z) :=
  let oldk2 := k2 in
  todos ← dealt k1 oldk2;
  '(s, _) ← region (td_step g) td_done fuel (MkTs tree vlist k2) ((fun todo => MkTd todo None None [] false) <$> todos);
  mret (ts_tree s, ts_vlist s, oldk2, ts_k2 s).

(** *** The counts of edges *)

(** After a top-down step: [edges_to_check -= scout_count], then the construct
    whose first thread to arrive does [scout_count = 0].  The shared state says
    whether one has arrived; a thread has its count and how far it is. *)
Inductive stage := Subtract | Arrive | Wait.

Definition count_edges (_ : nat) (s : Z * bool) (t : Z * stage) : option (Z * bool * (Z * stage)) :=
  let '(scout_count, taken) := s in
  let '(edges_to_check, st) := t in
  match st with
  | Subtract => Some (scout_count, taken, (edges_to_check - scout_count, Arrive))
  | Arrive => Some (if taken then scout_count else 0, true, (edges_to_check, Wait))
  | Wait => None
  end.
Definition waits (t : Z * stage) : bool := match t with (_, Wait) => true | _ => false end.

(** [for (i = k1; i < k2; i++) scout_count += XENDOFF(v) - XOFF(v);], the sum of
    a thread. *)
Definition scout_step (g : globals) (vlist : list Z) (_ : nat) (_ : unit) (t : list Z * Z) : option (unit * (list Z * Z)) :=
  let '(todo, sum) := t in
  match todo with
  | i :: todo =>
      v ← vlist.[i]; e ← XENDOFF (xoff g) v; o ← XOFF (xoff g) v; Some (tt, (todo, sum + (e - o)))
  | [] => None
  end.

Definition count_frontier (g : globals) (vlist : list Z) (k1 k2 scout_count : Z) : Par Z :=
  todos ← dealt k1 k2;
  '(_, ts) ← region (scout_step g vlist) scanned fuel tt ((fun todo => (todo, 0)) <$> todos);
  mret (scout_count + foldr (fun t sum => t.2 + sum) 0 ts).

(** *** The search *)

(** [Split]: the shared count and the threads' own when they go different ways. *)
Inductive outcome :=
| Searched (bfs_tree past next vlist : list Z)
| Split (scout_count : Z) (edges : list Z).

(** [scout_count < (edges_to_check - scout_count) / ALPHA], for one thread. *)
Definition goes_down (scout_count edges_to_check : Z) : bool :=
  scout_count <? Z.quot (edges_to_check - scout_count) ALPHA.

(** [while (awake_count != 0)]; [edges] has the threads' [edges_to_check]. *)
Fixpoint search_loop (rounds : nat) (g : globals) (tree vlist past next : list Z)
    (k1 k2 awake_count scout_count : Z) (edges : list Z) : Par outcome :=
  match rounds with
  | O => lift None
  | S rounds =>
      if awake_count =? 0 then mret (Searched tree past next vlist)
      else if forallb (goes_down scout_count) edges then
        '(tree, vlist, k1, k2) ← bfs_top_down_step g tree vlist k1 k2;
        '(s, ts) ← region count_edges waits fuel (scout_count, false) ((fun e => (e, Subtract)) <$> edges);
        scout_count ← count_frontier g vlist k1 k2 (fst s);
        search_loop rounds g tree vlist past next k1 k2 (k2 - k1) scout_count ts.*1
      else if forallb (fun e => negb (goes_down scout_count e)) edges then
        next ← fill_bitmap_from_queue next vlist k1 k2;
        '(tree, past, next, awake_count) ← bottom_up_loop fuel g tree past next;
        '(vlist, k2) ← fill_queue_from_bitmap (nv g) next vlist;
        scout_count ← count_frontier g vlist 0 k2 0;
        search_loop rounds g tree vlist past next 0 k2 awake_count scout_count edges
      else mret (Split scout_count edges)
  end.

(** The tree, [max_vtx_out] and the globals the next search starts from, or the
    counts with which the threads split. *)
Definition make_bfs_tree (G : omp_globals) (bfs_tree_out : list Z) (srcvtx : Z) : Par (list Z * Z * omp_globals + Z * list Z) :=
  let g := rows G in
  vl ← lift ((vlist G).[0 <- srcvtx]);
  tree ← lift (bfs_tree_out.[srcvtx <- srcvtx]);
  past ← lift (bm_reset (past G));
  next ← lift (bm_reset (next G));
  e ← lift (XENDOFF (xoff g) srcvtx);
  o ← lift (XOFF (xoff g) srcvtx);
  total ← lift (XOFF (xoff g) (nv g));
  tree ← par_for (fun k tree => tree.[k <- -1]) fuel 0 srcvtx tree;
  tree ← par_for (fun k tree => tree.[k <- -1]) fuel (srcvtx + 1) (nv g) tree;
  r ← search_loop fuel g tree vl past next 0 1 1 (e - o) (replicate (Z.to_nat nt) total);
  match r with
  | Searched tree past next vl => mret (inl (tree, maxvtx g, MkOmp g vl past next))
  | Split scout_count edges => mret (inr (scout_count, edges))
  end.

(** [garbage] is what the bitmaps' memory held.  The bitmaps and the queue, which
    the source allocates along with the offsets, are not used before the search. *)
Definition create_graph_from_edgelist (IJ : list packed_edge) (nedge : Z) (buf0 : list Z) (garbage : Z -> Z) : Par omp_globals :=
  g ← create_rows fuel IJ nedge buf0;
  let vl := xmalloc_words (nv g) in
  past ← lift (bm_init (nv g) garbage);
  next ← lift (bm_init (nv g) garbage);
  mret (MkOmp g vl past next).

End Code.

End OmpBfs.
