(* ===== verification/OmpTopDown.v ===== *)
(** * The OpenMP kernel: top-down steps, proved

    What holds after every level of the search: the vertices within a distance
    have their parents, the others have none.  A top-down step claims the next
    level in any order of the threads: every vertex of it once, each in the
    queue once. *)

From Stdlib Require Import ZArith Lia Sorted.
From stdpp Require Import list numbers.
From S2P Require Import Prelude Arrays Graph SeqCsr Threads OmpCsr Bitmap OmpBfs.
#[local] Open Scope Z_scope.

Module OmpTopDown.
Import Graph SeqCsr OmpCsr Bitmap OmpBfs.

(** ** Levels *)

Section Levels.
Context (E : list packed_edge) (g : globals) (Hg : graph_ok E g) (r : Z).
Abbreviation N := (maxvtx g + 1).

(** The neighbours of [v] but itself. *)
Definition nbrs (v : Z) : list Z := packed (row E (length E) v).

Lemma nbrs_adj v w : w ∈ nbrs v <-> adj E v w /\ w <> v.
Proof.
  unfold nbrs. rewrite packed_elem. split; [apply row_adj|]. intros [(e & He & Hj) Hne].
  apply list_elem_of_lookup in He as [i Hi]. pose proof (lookup_lt_Some _ _ _ Hi). by eapply row_complete.
Qed.

Lemma adj_in u v : adj E u v -> 0 <= u < N /\ 0 <= v < N.
Proof. destruct (go_max _ _ Hg) as (_ & H & _). apply H. Qed.

Lemma nbrs_length v : alen (nbrs v) <= N.
Proof.
  apply nodup_bounded; [destruct (go_max _ _ Hg) as [? _]; lia| |].
  - assert (StronglySorted Z.lt (nbrs v)) as Hs by apply packed_sorted. induction Hs as [|x l Hl IH Hx]; constructor; [|done].
    rewrite list.Forall_forall in Hx. intros Hin%Hx. lia.
  - intros w [Hw _]%nbrs_adj. exact (proj2 (adj_in _ _ Hw)).
Qed.

(** The row of a vertex in the arrays. *)
Lemma row_get v :
  0 <= v < N -> XOFF (xoff g) v = Some (start E v) /\ XENDOFF (xoff g) v = Some (start E v + alen (nbrs v)) /\
    forall i j, (nbrs v).[i] = Some j -> xadj_get (xadjstore g) (start E v + i) = Some j.
Proof.
  intros Hv. destruct (go_rows _ _ Hg) as (Ho & _ & Hr). cbn [fst snd] in *. destruct (proj2 Ho v Hv) as [H1 H2].
  split; [done|]. split; [done|]. intros i j Hj. destruct (Hr v Hv) as [_ Hrow]. rewrite Hrow; [done|]. by apply aget_some_range in Hj.
Qed.

Definition within (d v : Z) : Prop := exists n, n <= d /\ walk E r n v.

Lemma within_mono d d' v : d <= d' -> within d v -> within d' v.
Proof. intros Hd (n & Hn & Hw). exists n. split; [lia|done]. Qed.

Lemma dist_within d v : dist E r v d -> within d v.
Proof. intros [Hw _]. by exists d. Qed.

Lemma within_dist d v : within d v -> ~ within (d - 1) v -> dist E r v d.
Proof.
  intros (n & Hn & Hw) Hno. assert (n = d) as ->.
  { destruct (decide (n = d)); [done|]. exfalso. apply Hno. exists n. split; [lia|done]. }
  split; [done|]. intros n Hn'. destruct (decide (d <= n)); [done|]. exfalso. apply Hno. exists n. split; [lia|done].
Qed.

Lemma dist_not_within d v : dist E r v (d + 1) -> ~ within d v.
Proof. intros [_ Hmin] (n & Hn & Hw). specialize (Hmin n Hw). lia. Qed.

(** The vertices within [d] have their parents, the others have none. *)
Record level (d : Z) (tree : list Z) : Prop := {
  lv_len : N <= alen tree;
  lv_root : tree.[r] = Some r;
  lv_seen : forall v, 0 <= v < N ->
    (tree.[v] = Some (-1) /\ ~ within d v) \/
    (exists p, tree.[v] = Some p /\ 0 <= p /\ within d v /\ (v = r \/ (p < N /\ parent_of E r v p)));
}.

(** [C] becomes the next level. *)
Lemma level_next d tree tree' (C : list Z) :
  0 <= d -> level d tree -> N <= alen tree' ->
  (forall c, c ∈ C -> 0 <= c < N /\ tree.[c] = Some (-1) /\
    exists p, tree'.[c] = Some p /\ 0 <= p < N /\ dist E r p d /\ adj E p c) ->
  (forall v, v ∉ C -> tree'.[v] = tree.[v]) ->
  (forall v w, dist E r v d -> adj E v w -> w ∈ C \/ within d w) ->
  level (d + 1) tree' /\ forall v, v ∈ C <-> dist E r v (d + 1).
Proof.
  intros Hd [Hlen Hroot Hseen] Hlen' HC Hsame Hcov.
  assert (forall c, c ∈ C -> ~ within d c) as Hnew.
  { intros c Hc Hw. destruct (HC c Hc) as (Hcr & Ht & _). destruct (Hseen c Hcr) as [[_ ?]|(p & Hp & Hp0 & _)]; [done|].
    rewrite Ht in Hp. injection Hp as <-. lia. }
  assert (forall c, c ∈ C -> dist E r c (d + 1)) as HCd.
  { intros c Hc. destruct (HC c Hc) as (_ & _ & p & _ & _ & [Hwp _] & Ha). apply within_dist.
    - exists (d + 1). split; [lia|]. by eapply walk_step.
    - replace (d + 1 - 1) with d by lia. by apply Hnew. }
  assert (forall v, dist E r v (d + 1) -> v ∈ C) as HdC.
  { intros v Hv. pose proof (dist_not_within d v Hv) as Hno. destruct Hv as [Hw Hmin]. inversion Hw as [|n u v' Hwu Huv]; [lia|].
    assert (n = d) as -> by lia. assert (dist E r u d) as Hu.
    { split; [done|]. intros n' Hn'. pose proof (Hmin (n' + 1) (walk_step _ _ _ _ _ Hn' Huv)). lia. }
    by destruct (Hcov u v Hu Huv). }
  split; [|intros v; split; auto]. split; [done| |].
  - rewrite Hsame; [done|]. intros Hin. destruct (HC r Hin) as (_ & Ht & _). rewrite Hroot in Ht. injection Ht as Hr1.
    apply (Hnew r Hin). exists 0. split; [lia|constructor].
  - intros v Hv. destruct (decide (v ∈ C)) as [Hin|Hnin].
    + right. destruct (HC v Hin) as (_ & _ & p & Hp & Hpr & Hpd & Ha). exists p. split; [done|]. split; [lia|].
      split; [by apply dist_within, HCd|]. right. split; [lia|]. split; [done|]. exists d. split; [done|by apply HCd].
    + rewrite Hsame by done. destruct (Hseen v Hv) as [[Ht Hno]|(p & Hp & Hp0 & Hw & Hcase)].
      * left. split; [done|]. intros Hw. apply Hnin, HdC, within_dist; [done|]. by replace (d + 1 - 1) with d by lia.
      * right. exists p. split; [done|]. split; [done|]. split; [|done]. eapply within_mono; [|exact Hw]. lia.
Qed.

(** With an empty level the search is over. *)
Lemma level_last d tree :
  0 <= d -> 0 <= r < N -> level d tree -> (forall v, ~ dist E r v d) -> bfs_tree E N r tree.
Proof.
  intros Hd Hr [Hlen Hroot Hseen] Hempty. split; [done|]. split; [done|]. intros v Hv Hvr.
  assert (1 <= d) as Hd1.
  { destruct (decide (d = 0)) as [->|]; [|lia]. exfalso. apply (Hempty r). split; [constructor|]. intros k. apply walk_nonneg. }
  assert (forall n u, walk E r n u -> ~ ~ within (d - 1) u) as Hstop.
  { intros n u Hw. induction Hw as [|n u w Hw IH Hadj]; intros Hno.
    - apply Hno. exists 0. split; [lia|constructor].
    - apply IH. intros (n' & Hn' & Hwu). apply (Hempty w), within_dist; [|done].
      exists (n' + 1). split; [lia|]. by eapply walk_step. }
  destruct (Hseen v Hv) as [[Ht Hno]|(p & Hp & Hp0 & Hw & [?|[Hpn Hpar]])]; [|done|].
  - exists (-1). split; [done|]. right. split; [lia|]. intros [n Hn]. apply (Hstop n v Hn). intros Hin. apply Hno.
    eapply within_mono; [|exact Hin]. lia.
  - exists p. split; [done|]. by left.
Qed.
End Levels.

(** ** Writing to the queue *)

Lemma copy_out_ok pre rest local :
  alen local <= alen rest ->
  exists rest', copy_out (pre ++ rest) (alen pre) local = Some (pre ++ local ++ rest') /\ alen rest' = alen rest - alen local.
Proof.
  intros Hl. unfold copy_out. pose proof (alen_nonneg local).
  destruct (for_z_inv (fun i vl => exists rest', vl = pre ++ take (Z.to_nat i) local ++ rest' /\ alen rest' = alen rest - i) 0 (alen local)
    (fun i vl => x ← local.[i]; vl.[alen pre + i <- x]) (pre ++ rest)) as (vl & -> & rest' & -> & Hr).
  - done.
  - exists rest. split; [done|lia].
  - intros i vl Hi (rest' & -> & Hr'). destruct (aget_in local i Hi) as [x Hx]. rewrite Hx. cbn [mbind option_bind].
    destruct rest' as [|y rest']; [change (alen (@nil Z)) with 0 in Hr'; lia|]. rewrite alen_cons in Hr'.
    pose proof (alen_nonneg pre). assert (alen (take (Z.to_nat i) local) = i) as Ht by (unfold alen in *; rewrite length_take; lia).
    rewrite aset_in by (rewrite !alen_app, alen_cons, Ht; pose proof (alen_nonneg rest'); lia). eexists. split; [done|].
    exists rest'. split; [|lia]. assert (take (Z.to_nat (i + 1)) local = take (Z.to_nat i) local ++ [x]) as ->.
    { replace (Z.to_nat (i + 1)) with (S (Z.to_nat i)) by lia. apply take_S_r. unfold aget in Hx. by destruct (Z.ltb_spec i 0). }
    rewrite <- (app_assoc (take _ _)). cbn [app].
    replace (Z.to_nat (alen pre + i)) with (length pre + length (take (Z.to_nat i) local))%nat by (unfold alen in *; lia).
    rewrite insert_app_r. f_equal. rewrite <- (Nat.add_0_r (length (take _ _))). by rewrite insert_app_r.
  - exists rest'. rewrite take_ge in * by (unfold alen; lia). done.
Qed.

(** ** Top-down, proved *)

Section TopDown.
Context (E : list packed_edge) (g : globals) (Hg : graph_ok E g) (r : Z).
Abbreviation N := (maxvtx g + 1).
Abbreviation nbrs := (nbrs E).

(** The queue: [q] is its used part, whose cells from [k1] on are the level. *)
Record queue (d : Z) (vl : list Z) (k1 k2 : Z) (q : list Z) : Prop := {
  qu_vl : exists rest, vl = q ++ rest;
  qu_len : alen vl = N;
  qu_k2 : k2 = alen q;
  qu_k1 : 0 <= k1 <= k2;
  qu_nodup : NoDup q;
  qu_within : forall v, v ∈ q -> within E r d v /\ 0 <= v < N;
  qu_level : forall v, dist E r v d <-> exists k, k1 <= k /\ q.[k] = Some v;
}.

Context (d : Z) (Hd : 0 <= d) (tree : list Z) (Hlv : level E g r d tree) (q : list Z) (k1 : Z)
  (Hqnd : NoDup q) (Hqw : forall v, v ∈ q -> within E r d v /\ 0 <= v < N) (Hk1 : 0 <= k1)
  (Hql : forall v, dist E r v d <-> exists k, k1 <= k /\ q.[k] = Some v).

(** The arcs a thread still has to look at. *)
Definition td_arcs (t : td_thread) : list (Z * Z) :=
  match td_cur t with
  | Some (v, vo, _) => pair v <$> drop (Z.to_nat (vo - start E v)) (nbrs v)
  | None => []
  end ++ td_todo t ≫= fun k => match q.[k] with Some v => pair v <$> nbrs v | None => [] end.

Record td_ok (t : td_thread) : Prop := {
  to_todo : Forall (fun k => k1 <= k < alen q) (td_todo t);
  to_cur : forall v vo veo, td_cur t = Some (v, vo, veo) ->
    dist E r v d /\ 0 <= v < N /\ veo = start E v + alen (nbrs v) /\ start E v <= vo <= veo;
  to_claim : forall j, td_claim t = Some j ->
    exists v vo veo, td_cur t = Some (v, vo, veo) /\ (nbrs v).[vo - start E v] = Some j;
  to_done : td_done t = true -> td_todo t = [] /\ td_cur t = None /\ td_local t = [];
}.

Record td_inv (fl : list Z) (s : td_shared) (ts : list td_thread) : Prop := {
  ti_vl : exists rest, ts_vlist s = q ++ fl ++ rest;
  ti_len : alen (ts_vlist s) = N;
  ti_k2 : ts_k2 s = alen q + alen fl;
  ti_tree : alen (ts_tree s) = alen tree;
  ti_nodup : NoDup (fl ++ ts ≫= td_local);
  ti_claimed : forall c, c ∈ fl ++ ts ≫= td_local -> 0 <= c < N /\ tree.[c] = Some (-1) /\
    exists p, (ts_tree s).[c] = Some p /\ 0 <= p < N /\ dist E r p d /\ adj E p c;
  ti_same : forall v, v ∉ fl ++ ts ≫= td_local -> (ts_tree s).[v] = tree.[v];
  ti_threads : Forall td_ok ts;
  ti_cover : forall v j, dist E r v d -> j ∈ nbrs v ->
    (exists p, (ts_tree s).[j] = Some p /\ p <> -1) \/ (v, j) ∈ ts ≫= td_arcs;
}.

(** One step of one thread: what it claims, what it writes, what it leaves. *)
Lemma td_update fl s ts tid t t' fl' tree' vl' k2' added :
  td_inv fl s ts -> ts !! tid = Some t -> td_ok t' ->
  fl' ++ td_local t' ≡ₚ added ++ fl ++ td_local t ->
  NoDup added -> (forall c, c ∈ added -> 0 <= c < N /\ (ts_tree s).[c] = Some (-1) /\
    exists p, tree'.[c] = Some p /\ 0 <= p < N /\ dist E r p d /\ adj E p c) ->
  (forall v, v ∉ added -> tree'.[v] = (ts_tree s).[v]) -> alen tree' = alen (ts_tree s) ->
  (exists rest, vl' = q ++ fl' ++ rest) -> alen vl' = N -> k2' = alen q + alen fl' ->
  (forall a, a ∈ td_arcs t -> a ∈ td_arcs t' \/ exists p, tree'.[a.2] = Some p /\ p <> -1) ->
  td_inv fl' (MkTs tree' vl' k2') (<[tid := t']> ts).
Proof.
  intros [Hvl Hlen Hk2 Htl Hnd Hcl Hsame Hth Hcov] Ht Hok' Hperm Hna Hadd Hold Htl' Hvl' Hlen' Hk2' Harcs.
  destruct (bind_insert td_local ts tid t t' Ht) as (rest & E1 & E2).
  assert (fl' ++ <[tid := t']> ts ≫= td_local ≡ₚ added ++ fl ++ ts ≫= td_local) as Hp.
  { rewrite E1, E2, !app_assoc. rewrite (app_assoc added) in Hperm. by rewrite Hperm. }
  assert (forall c, c ∈ added -> c ∉ fl ++ ts ≫= td_local) as Hfresh.
  { intros c Ha Hc. destruct (Hadd c Ha) as (_ & Hm & _). destruct (Hcl c Hc) as (_ & _ & p & Hp' & Hp0 & _).
    rewrite Hm in Hp'. injection Hp' as <-. lia. }
  split; cbn [ts_vlist ts_tree ts_k2]; try done; [congruence| | | | |].
  - rewrite Hp. apply list.NoDup_app. split; [done|]. split; [done|done].
  - intros c Hc. rewrite Hp, elem_of_app in Hc. destruct Hc as [Ha|Hc].
    + destruct (Hadd c Ha) as (Hcr & Hm & Hpar). split; [done|]. split; [|done]. by rewrite <- Hsame by (by apply Hfresh).
    + destruct (Hcl c Hc) as (Hcr & Hm & p & Hpc & Hrest). split; [done|]. split; [done|]. exists p. split; [|done].
      rewrite Hold; [done|]. intros Ha. by apply (Hfresh c).
  - intros v Hv. rewrite Hp, not_elem_of_app in Hv. destruct Hv as [Ha Hv]. rewrite Hold by done. by apply Hsame.
  - by apply Forall_insert.
  - intros v j Hv Hj. destruct (bind_insert td_arcs ts tid t t' Ht) as (ra & A1 & A2). rewrite A2, elem_of_app.
    destruct (Hcov v j Hv Hj) as [(p & Hpj & Hp1)|Hin].
    + left. destruct (decide (j ∈ added)) as [Ha|Hna'].
      * destruct (Hadd j Ha) as (_ & _ & p' & ? & ? & _). exists p'. split; [done|lia].
      * exists p. split; [|done]. by rewrite Hold.
    + rewrite A1, elem_of_app in Hin. destruct Hin as [Hin|Hin]; [|by right; right].
      destruct (Harcs _ Hin) as [?|?]; [by right; left|by left].
Qed.

(** A step that leaves the tree and the queue as they are. *)
Lemma td_quiet fl s ts tid t t' :
  td_inv fl s ts -> ts !! tid = Some t -> td_ok t' -> td_local t' = td_local t ->
  (forall a, a ∈ td_arcs t -> a ∈ td_arcs t' \/ exists p, (ts_tree s).[a.2] = Some p /\ p <> -1) ->
  td_inv fl s (<[tid := t']> ts).
Proof.
  intros HI Ht Hok Hloc Harcs. pose proof HI as [Hvl Hlen Hk2 Htl _ _ _ _ _]. destruct s as [tr vl k2].
  eapply (td_update fl (MkTs tr vl k2) ts tid t t' fl tr vl k2 []); try done; [by rewrite Hloc|constructor|].
  by intros c ?%not_elem_of_nil.
Qed.

(** There is room in the queue for what a thread has claimed. *)
Lemma td_room fl s ts tid t : td_inv fl s ts -> ts !! tid = Some t -> alen q + alen fl + alen (td_local t) <= N.
Proof.
  intros [_ _ _ _ Hnd Hcl _ _ _] Ht. rewrite <- !alen_app, <- app_assoc.
  destruct (bind_insert td_local ts tid t t Ht) as (rest & E1 & _). rewrite E1, (app_assoc fl) in Hnd.
  assert (forall v, v ∈ fl ++ td_local t -> v ∈ fl ++ ts ≫= td_local) as Hin.
  { intros v Hv. rewrite E1, (app_assoc fl), elem_of_app. by left. }
  apply list.NoDup_app in Hnd as (Hnd & _ & _). apply nodup_bounded.
  - destruct (go_max _ _ Hg) as [? _]. lia.
  - apply list.NoDup_app. split; [done|]. split; [|done]. intros v Hvq Hvc.
    destruct (Hcl v) as (Hr & Hm & _); [by apply Hin|]. destruct (lv_seen _ _ _ _ _ Hlv v Hr) as [[_ Hno]|(p & Hp & Hp0 & _)].
    + by apply Hno, Hqw.
    + rewrite Hm in Hp. injection Hp as <-. lia.
  - intros v [Hv|Hv]%elem_of_app; [by apply Hqw|]. by apply Hcl, Hin.
Qed.

(** A flush of the buffer. *)
Lemma td_flush fl s ts tid t :
  td_inv fl s ts -> ts !! tid = Some t ->
  exists vl' rest, flush (nv g) (ts_vlist s, ts_k2 s) (td_local t) = Some (vl', ts_k2 s + alen (td_local t)) /\
    vl' = q ++ (fl ++ td_local t) ++ rest /\ alen vl' = N.
Proof.
  intros HI Ht. pose proof (td_room _ _ _ _ _ HI Ht) as Hroom. destruct HI as [[rest Hvl] Hlen Hk2 _ _ _ _ _ _].
  unfold flush, int64_fetch_add. rewrite (go_nv _ _ Hg), Hk2, check_true by lia. cbn [mbind option_bind].
  rewrite Hvl, app_assoc, <- alen_app. rewrite Hvl, !alen_app in Hlen.
  destruct (copy_out_ok (q ++ fl) rest (td_local t)) as (rest' & -> & Hr'); [lia|]. cbn [mbind option_bind].
  exists ((q ++ fl) ++ td_local t ++ rest'), rest'. split; [done|]. rewrite <- !app_assoc. split; [done|]. rewrite !alen_app. lia.
Qed.

Definition td_work (t : td_thread) : nat :=
  (2 * length (td_arcs t) + 2 * length (td_todo t) + (if td_cur t then 1 else 0) + (if td_done t then 0 else 1) -
   (if td_claim t then 1 else 0))%nat.

Lemma drop_next (l : list Z) i j : l.[i] = Some j -> drop (Z.to_nat i) l = j :: drop (Z.to_nat (i + 1)) l.
Proof.
  intros Hj. pose proof (aget_some_range _ _ _ Hj). unfold aget in Hj. destruct (Z.ltb_spec i 0); [lia|].
  replace (Z.to_nat (i + 1)) with (S (Z.to_nat i)) by lia. by apply drop_S.
Qed.

(** The arcs of a thread that goes on to the next entry of the row. *)
Lemma td_arcs_next todo v vo veo claim claim' local local' b b' j :
  (nbrs v).[vo - start E v] = Some j ->
  td_arcs (MkTd todo (Some (v, vo, veo)) claim local b) = (v, j) :: td_arcs (MkTd todo (Some (v, vo + 1, veo)) claim' local' b').
Proof.
  intros Hj. unfold td_arcs. cbn [td_cur td_todo]. rewrite (drop_next _ _ _ Hj).
  by replace (vo + 1 - start E v) with (vo - start E v + 1) by lia.
Qed.

Lemma td_work_next todo v vo veo claim local local' j :
  (nbrs v).[vo - start E v] = Some j ->
  lt (td_work (MkTd todo (Some (v, vo + 1, veo)) None local' false)) (td_work (MkTd todo (Some (v, vo, veo)) claim local false)).
Proof.
  intros Hj. unfold td_work. rewrite (td_arcs_next todo v vo veo claim None local local' false false j Hj).
  cbn [td_todo td_cur td_done td_claim length]. destruct claim; lia.
Qed.

Lemma td_work_claim todo v vo veo local j :
  (nbrs v).[vo - start E v] = Some j ->
  lt (td_work (MkTd todo (Some (v, vo, veo)) (Some j) local false)) (td_work (MkTd todo (Some (v, vo, veo)) None local false)).
Proof.
  intros Hj. unfold td_work. rewrite (td_arcs_next todo v vo veo (Some j) None local local false false j Hj).
  rewrite (td_arcs_next todo v vo veo None None local local false false j Hj). cbn [td_todo td_cur td_done td_claim length]. lia.
Qed.

Lemma td_ok_next todo v vo veo local :
  Forall (fun k => k1 <= k < alen q) todo -> dist E r v d -> 0 <= v < N -> veo = start E v + alen (nbrs v) ->
  start E v <= vo <= veo -> td_ok (MkTd todo (Some (v, vo, veo)) None local false).
Proof. intros. split; try done. cbn [td_cur]. by intros ? ? ? [= <- <- <-]. Qed.

Lemma td_step_ok fl s ts tid t :
  td_inv fl s ts -> ts !! tid = Some t -> td_done t = false ->
  exists s' t' fl', td_step g tid s t = Some (s', t') /\ td_inv fl' s' (<[tid := t']> ts) /\ (td_work t' < td_work t)%nat.
Proof.
  intros HI Ht Hnd. pose proof (Forall_lookup_1 _ _ _ _ (ti_threads _ _ _ HI) Ht) as [Htodo Hcur Hclaim _].
  destruct t as [todo cur claim local dn]. cbn [td_todo td_cur td_claim td_done] in *. subst dn.
  unfold td_step. cbn [td_cur td_claim td_todo td_local].
  destruct cur as [[[v vo] veo]|].
  - destruct (Hcur v vo veo eq_refl) as (Hdv & Hvr & -> & Hvo).
    destruct (row_get E g Hg v Hvr) as (_ & _ & Hget).
    destruct claim as [j|].
    + destruct (Hclaim j eq_refl) as (v' & vo' & veo' & [= <- <- <-] & Hj).
      pose proof (aget_some_range _ _ _ Hj) as Hjr.
      assert (j ∈ nbrs v) as [Ha _]%nbrs_adj by (apply elem_aget; eauto). pose proof (proj2 (adj_in E g Hg _ _ Ha)) as Hjn.
      pose proof (lv_len _ _ _ _ _ Hlv) as Hll. pose proof (ti_tree _ _ _ HI) as Htl.
      destruct (aget_in (ts_tree s) j ltac:(lia)) as [p Hp]. rewrite Hp. cbn [mbind option_bind].
      set (t := MkTd todo (Some (v, vo, start E v + alen (nbrs v))) (Some j) local false) in *.
      assert (forall local' fl' tree' vl' k2' added,
        fl' ++ local' ≡ₚ added ++ fl ++ local -> NoDup added ->
        (forall c, c ∈ added -> 0 <= c < N /\ (ts_tree s).[c] = Some (-1) /\
          exists p, tree'.[c] = Some p /\ 0 <= p < N /\ dist E r p d /\ adj E p c) ->
        (forall u, u ∉ added -> tree'.[u] = (ts_tree s).[u]) -> alen tree' = alen (ts_tree s) ->
        (exists rest, vl' = q ++ fl' ++ rest) -> alen vl' = N -> k2' = alen q + alen fl' ->
        (exists p, tree'.[j] = Some p /\ p <> -1) ->
        td_inv fl' (MkTs tree' vl' k2') (<[tid := MkTd todo (Some (v, vo + 1, start E v + alen (nbrs v))) None local' false]> ts)) as Hup.
      { intros local' fl' tree' vl' k2' added H1 H2 H3 H4 H5 H6 H7 H8 H9.
        eapply (td_update fl s ts tid t); try done; [apply td_ok_next; try done; lia|].
        unfold t. rewrite (td_arcs_next todo v vo _ _ None local local' false false j Hj). intros a [->|Hin]%elem_of_cons; [by right|by left]. }
      assert (forall local', lt (td_work (MkTd todo (Some (v, vo + 1, start E v + alen (nbrs v))) None local' false)) (td_work t)) as Hw
        by (intros local'; by apply td_work_next with (j := j)).
      unfold int64_cas. destruct (Z.eqb_spec p (-1)) as [->|Hne].
      * rewrite aset_in by lia. cbn [mbind option_bind]. set (tree' := <[Z.to_nat j := v]> (ts_tree s)).
        assert (forall u, u ∉ [j] -> tree'.[u] = (ts_tree s).[u]) as Hs'.
        { intros u Hu. unfold tree'. rewrite aget_insert by lia. rewrite decide_False; [done|]. intros ->. apply Hu. left. }
        assert (tree'.[j] = Some v) as Hj' by (unfold tree'; rewrite aget_insert by lia; by rewrite decide_True).
        assert (forall c, c ∈ [j] -> 0 <= c < N /\ (ts_tree s).[c] = Some (-1) /\
          exists p, tree'.[c] = Some p /\ 0 <= p < N /\ dist E r p d /\ adj E p c) as Hadd.
        { intros c ->%list_elem_of_singleton. split; [done|]. split; [done|]. by exists v. }
        assert (exists p, tree'.[j] = Some p /\ p <> -1) as Hmark by (exists v; split; [done|lia]).
        assert (alen tree' = alen (ts_tree s)) as Hl' by apply alen_insert.
        destruct (alen local <? THREAD_BUF_LEN).
        -- eexists _, _, fl. split; [done|]. split; [|apply Hw].
           apply (Hup (local ++ [j]) fl tree' (ts_vlist s) (ts_k2 s) [j]); try done; [|apply NoDup_singleton|apply HI|apply HI|apply HI].
           cbn [app]. rewrite app_assoc. by rewrite <- Permutation_cons_append.
        -- destruct (td_flush fl s ts tid t HI Ht) as (vl' & rest & Hfl & Hvl' & Hvlen). cbn [td_local t] in Hfl, Hvl'.
           rewrite Hfl. cbn [mbind option_bind]. eexists _, _, (fl ++ local). split; [done|]. split; [|apply Hw].
           apply (Hup [j] (fl ++ local) tree' vl' _ [j]); try done; [|apply NoDup_singleton|by exists rest|].
           ++ by rewrite <- Permutation_cons_append.
           ++ rewrite (ti_k2 _ _ _ HI), alen_app. lia.
      * rewrite aset_in by lia. cbn [mbind option_bind]. rewrite list_insert_id by (unfold aget in Hp; by destruct (Z.ltb_spec j 0)).
        eexists _, _, fl. split; [done|]. split; [|apply Hw].
        apply (Hup local fl (ts_tree s) (ts_vlist s) (ts_k2 s) []); try done; [constructor|by intros c ?%not_elem_of_nil|apply HI..|by exists p].
    + destruct (Z.ltb_spec vo (start E v + alen (nbrs v))) as [Hlt|Hge].
      * destruct (aget_in (nbrs v) (vo - start E v) ltac:(lia)) as [j Hj]. pose proof (Hget _ _ Hj) as Hx.
        replace (start E v + (vo - start E v)) with vo in Hx by lia. rewrite Hx. cbn [mbind option_bind].
        assert (j ∈ nbrs v) as [Ha _]%nbrs_adj by (apply elem_aget; eauto). pose proof (proj2 (adj_in E g Hg _ _ Ha)) as Hjn.
        pose proof (lv_len _ _ _ _ _ Hlv) as Hll. pose proof (ti_tree _ _ _ HI) as Htl.
        destruct (aget_in (ts_tree s) j ltac:(lia)) as [p Hp]. rewrite Hp. cbn [mbind option_bind].
        destruct (Z.eqb_spec p (-1)) as [->|Hne]; eexists _, _, fl; (split; [done|]).
        -- split; [|by apply td_work_claim].
           eapply td_quiet; [done|done| |done|by left]. split; try done. cbn [td_claim td_cur]. intros j' [= <-].
           by exists v, vo, (start E v + alen (nbrs v)).
        -- split; [|by apply td_work_next with (j := j)].
           eapply td_quiet; [done|done|apply td_ok_next; try done; lia|done|].
           rewrite (td_arcs_next todo v vo _ None None local local false false j Hj). intros a [->|Hin]%elem_of_cons; [right; by exists p|by left].
      * eexists _, _, fl. split; [done|].
        assert (drop (Z.to_nat (vo - start E v)) (nbrs v) = []) as Hdrop by (apply drop_ge; unfold alen in *; lia).
        split; [eapply td_quiet; [done|done|by split|done|]|].
        -- unfold td_arcs. cbn [td_cur td_todo]. rewrite Hdrop. cbn [fmap list_fmap app]. by left.
        -- unfold td_work, td_arcs. cbn [td_todo td_cur td_done td_claim]. rewrite Hdrop. cbn [fmap list_fmap app]. lia.
  - destruct claim as [j|]; [by destruct (Hclaim j eq_refl) as (? & ? & ? & ? & _)|].
    destruct todo as [|k todo].
    + destruct (td_flush fl s ts tid _ HI Ht) as (vl' & rest & Hfl & Hvl' & Hvlen). cbn [td_local] in Hfl, Hvl'.
      destruct (Z.ltb_spec 0 (alen local)).
      * rewrite Hfl. cbn [mbind option_bind]. eexists _, _, (fl ++ local). split; [done|].
        split; [|unfold td_work, td_arcs; cbn; lia].
        eapply (td_update fl s ts tid _ _ _ _ _ _ []); try done; [cbn [td_local app]; by rewrite app_nil_r|constructor| |by exists rest| |by left].
        -- by intros c ?%not_elem_of_nil.
        -- rewrite (ti_k2 _ _ _ HI), alen_app. lia.
      * assert (local = []) as -> by (destruct local; [done|rewrite alen_cons in *; pose proof (alen_nonneg local); lia]).
        eexists _, _, fl. split; [done|]. split; [|unfold td_work, td_arcs; cbn; lia].
        by eapply td_quiet; [done|done|split|done|left].
    + apply list.Forall_cons in Htodo as [Hk Htodo]. destruct (aget_in q k ltac:(lia)) as [v Hv].
      assert (v ∈ q) as Hin by (apply elem_aget; eauto). destruct (Hqw v Hin) as [_ Hvr].
      assert (dist E r v d) as Hdv by (apply Hql; exists k; split; [lia|done]).
      destruct (ti_vl _ _ _ HI) as [rest Hvl]. rewrite Hvl, aget_app_l, Hv by lia. cbn [mbind option_bind].
      destruct (row_get E g Hg v Hvr) as (-> & -> & _). cbn [mbind option_bind]. eexists _, _, fl. split; [done|].
      pose proof (alen_nonneg (nbrs v)).
      assert (td_arcs (MkTd (k :: todo) None None local false) =
        td_arcs (MkTd todo (Some (v, start E v, start E v + alen (nbrs v))) None local false)) as Harcs.
      { unfold td_arcs. cbn [td_cur td_todo mbind list_bind]. rewrite Hv, Z.sub_diag. done. }
      split; [eapply td_quiet; [done|done|apply td_ok_next; try done; lia|done|]|].
      * rewrite Harcs. by left.
      * unfold td_work. rewrite Harcs. cbn [td_todo td_cur td_done td_claim length]. lia.
Qed.

Context {team_of : Team} (fuel : nat).

(** Steps that are enough for a top-down step. *)
Definition td_steps : Z := 2 * N * N + 2 * N + nt.

Lemma td_start todos vl :
  mjoin todos ≡ₚ seqZ k1 (alen q - k1) -> k1 <= alen q -> (exists rest, vl = q ++ rest) -> alen vl = N ->
  td_inv [] (MkTs tree vl (alen q)) ((fun todo => MkTd todo None None [] false) <$> todos).
Proof.
  intros Hp Hk [rest Hvl] Hlen.
  assert (((fun todo => MkTd todo None None [] false) <$> todos) ≫= td_local = []) as Hloc.
  { clear. induction todos as [|l todos IH]; [done|]. exact IH. }
  split; cbn [ts_vlist ts_tree ts_k2 app]; rewrite ?Hloc; try done.
  - by exists rest.
  - change (alen (@nil Z)) with 0. lia.
  - constructor.
  - by intros c ?%not_elem_of_nil.
  - apply Forall_fmap, list.Forall_forall. intros todo Hin. split; try done. cbn [td_todo]. apply list.Forall_forall. intros k Hk'.
    assert (k ∈ mjoin todos) as Hkj by (apply list_elem_of_join; eauto). rewrite Hp in Hkj. apply elem_of_seqZ in Hkj. lia.
  - intros v j Hv Hj. right. apply Hql in Hv as (k & Hk1' & Hk'). pose proof (aget_some_range _ _ _ Hk').
    assert (k ∈ mjoin todos) as (todo & Hkt & Hin)%list_elem_of_join by (rewrite Hp; apply elem_of_seqZ; lia).
    apply list_elem_of_bind. exists (MkTd todo None None [] false). split; [|apply list_elem_of_fmap; eauto].
    unfold td_arcs. cbn [td_cur td_todo app]. apply list_elem_of_bind. exists k. split; [|done]. rewrite Hk'.
    apply list_elem_of_fmap. eauto.
Qed.

Lemma td_start_work todos :
  mjoin todos ≡ₚ seqZ k1 (alen q - k1) -> k1 <= alen q -> alen q <= N -> alen todos = nt ->
  Z.of_nat (sum_of td_work ((fun todo => MkTd todo None None [] false) <$> todos)) <= td_steps.
Proof.
  intros Hp Hk Hq Hnt. rewrite sum_of_fmap. set (f := fun k => match q.[k] with Some v => pair v <$> nbrs v | None => [] end).
  assert (sum_of (fun todo => td_work (MkTd todo None None [] false)) todos =
    2 * length (mjoin todos ≫= f) + 2 * length (mjoin todos) + length todos)%nat as ->.
  { clear. induction todos as [|l todos IH]; [done|]. cbn [sum_of]. rewrite IH. change (mjoin (l :: todos)) with (l ++ mjoin todos).
    rewrite bind_app, !length_app. unfold td_work, td_arcs. cbn [td_todo td_cur td_done td_claim app length]. fold f. lia. }
  assert (forall l : list Z, Z.of_nat (length (l ≫= f)) <= alen l * N) as Hlen.
  { induction l as [|k l IH]; [done|]. change ((k :: l) ≫= f) with (f k ++ (l ≫= f)). rewrite length_app, alen_cons.
    assert (Z.of_nat (length (f k)) <= N).
    { unfold f. destruct (q.[k]) as [v|]; [rewrite length_fmap; apply (nbrs_length E g Hg)|]. destruct (go_max _ _ Hg) as [? _]. cbn. lia. }
    lia. }
  specialize (Hlen (mjoin todos)). unfold alen in Hlen. rewrite Hp, length_seqZ in *. unfold td_steps. unfold alen in *. nia.
Qed.

Lemma td_ends vl k2 :
  queue d vl k1 k2 q -> td_steps <= Z.of_nat fuel ->
  ends (bfs_top_down_step fuel g tree vl k1 k2) (fun '(tree', vl', k1', k2') =>
    level E g r (d + 1) tree' /\ exists q', queue (d + 1) vl' k1' k2' q').
Proof.
  intros [Hvl Hlen -> Hk _ _ _] Hf. unfold bfs_top_down_step. apply ends_bind, ends_dealt. intros todos Hnt Hp. apply ends_bind.
  assert (alen q <= N) as HqN.
  { destruct Hvl as [rest Hvl]. rewrite Hvl, alen_app in Hlen. pose proof (alen_nonneg rest). lia. }
  eapply ends_mono.
  - apply (region_ok (td_step g) td_done (fun s ts => exists fl, td_inv fl s ts) (fun _ ts => sum_of td_work ts)).
    + exists []. by apply td_start; [|lia|..].
    + pose proof (td_start_work todos Hp ltac:(lia) HqN Hnt). lia.
    + intros s ts tid t [fl HI] Ht Hnd. destruct (td_step_ok fl s ts tid t HI Ht Hnd) as (s' & t' & fl' & Hs & HI' & Hw).
      exists s', t'. split; [done|]. split; [by exists fl'|]. pose proof (sum_of_insert td_work ts tid t t' Ht). lia.
  - intros [s ts] [[fl HI] Hfin]. apply ends_ret. destruct HI as [Hvl' Hlen' Hk2 Htl Hnd Hcl Hsame Hth Hcov].
    assert (ts ≫= td_local = [] /\ ts ≫= td_arcs = []) as [Hloc Harcs].
    { clear -Hfin Hth. induction Hfin as [|t ts Ht _ IH]; [done|]. apply list.Forall_cons in Hth as [Hok Hth].
      destruct (IH Hth) as [IH1 IH2]. destruct (to_done _ Hok Ht) as (H1 & H2 & H3). cbn [mbind list_bind].
      unfold td_arcs at 1. rewrite H1, H2, H3. by split. }
    rewrite Hloc, app_nil_r in *. rewrite Harcs in Hcov. pose proof (lv_len _ _ _ _ _ Hlv).
    destruct (level_next E g r d tree (ts_tree s) fl) as [Hlv' Hfl]; [done|done|lia|done|done| |].
    { intros v w Hv Hw. pose proof (proj2 (adj_in E g Hg _ _ Hw)) as Hwr.
      destruct (decide (w = v)) as [->|Hne]; [right; by apply dist_within|].
      destruct (Hcov v w Hv) as [(p & Hp' & Hp1)|Hin]; [by apply nbrs_adj| |by apply not_elem_of_nil in Hin].
      destruct (decide (w ∈ fl)) as [|Hnin]; [by left|right]. rewrite Hsame in Hp' by done.
      destruct (lv_seen _ _ _ _ _ Hlv w Hwr) as [[Hm _]|(p' & _ & _ & Hin & _)]; [congruence|done]. }
    split; [done|]. exists (q ++ fl). destruct Hvl' as [rest' Hvl'].
    assert (NoDup (q ++ fl)) as Hnd'.
    { apply list.NoDup_app. split; [done|]. split; [|done]. intros v Hvq Hvf. apply Hfl in Hvf.
      by apply (dist_not_within E r d v Hvf), Hqw. }
    split; try done.
    + exists rest'. by rewrite <- app_assoc.
    + by rewrite alen_app.
    + rewrite Hk2. pose proof (alen_nonneg fl). lia.
    + intros v [Hv|Hv]%elem_of_app.
      * destruct (Hqw v Hv) as [Hw ?]. split; [|done]. eapply within_mono; [|exact Hw]. lia.
      * split; [apply dist_within; by apply Hfl|]. by apply Hcl.
    + intros v. rewrite <- Hfl. split.
      * intros (i & Hi)%elem_aget. exists (alen q + i). pose proof (aget_some_range _ _ _ Hi). split; [lia|].
        rewrite aget_app_r by lia. by replace (alen q + i - alen q) with i by lia.
      * intros (k & Hkq & Hk'). rewrite aget_app_r in Hk' by done. apply elem_aget. eauto.
Qed.
End TopDown.

End OmpTopDown.
