(* ===== verification/OmpBottomUp.v ===== *)
(** * The OpenMP kernel: bitmaps and bottom-up steps, proved

    Setting bits by compare-and-swap ends, whoever goes first, and loses no bit;
    the queue becomes a bitmap; a bottom-up step finds the next level from a
    bitmap that has all of the last one. *)

From Stdlib Require Import ZArith Lia Sorted.
From stdpp Require Import list numbers.
From S2P Require Import Prelude Arrays Graph SeqCsr Threads OmpCsr Bitmap OmpBfs OmpTopDown.
#[local] Open Scope Z_scope.

Module OmpBottomUp.
Import Graph SeqCsr OmpCsr Bitmap OmpBfs OmpTopDown.

(** ** Setting bits, proved *)

(** Steps of a pending operation: a word that has changed since it was read
    costs an attempt. *)
Definition set_weight (bm : list Z) (p : pending) : nat :=
  match p with
  | None => 0
  | Some (_, None) => 2
  | Some (pos, Some w) => if decide (bm.[pos / 64] = Some w) then 1 else 3
  end.

Lemma set_step_ok n bm pos old_val :
  bitmap_ok n bm -> 0 <= pos < n ->
  exists bm' p', set_step bm pos old_val = Some (bm', p') /\ bitmap_ok n bm' /\
    (bm' = bm /\ (exists old', p' = Some (pos, old')) /\ (set_weight bm p' < set_weight bm (Some (pos, old_val)))%nat \/
     p' = None /\ forall i, bit bm' i = bit bm i || bool_decide (i = pos)).
Proof.
  intros Hb Hp. destruct (word_in n bm pos Hb Hp) as (w & Hg & _). destruct old_val as [old|]; cbn [set_step].
  - destruct (decide (w = old)) as [->|Hne].
    + destruct (set_cas_ok n bm pos old Hb Hp Hg) as (bm' & -> & Hb' & Hbits). cbn [mbind option_bind].
      exists bm', None. split; [done|]. split; [done|]. by right.
    + rewrite (set_cas_fail bm pos w old Hg Hne). cbn [mbind option_bind]. exists bm, (Some (pos, None)). split; [done|]. split; [done|].
      left. split; [done|]. split; [eauto|]. cbn [set_weight]. rewrite decide_False by congruence. lia.
  - unfold set_read, WORD_OFFSET. rewrite Hg. cbn [mbind option_bind]. exists bm, (Some (pos, Some w)). split; [done|]. split; [done|].
    left. split; [done|]. split; [eauto|]. cbn [set_weight]. rewrite decide_True by done. lia.
Qed.

Lemma weight_change {T} (f : T -> pending) bm bm' ts :
  (sum_of (fun t => set_weight bm' (f t)) ts <= sum_of (fun t => set_weight bm (f t)) ts + 2 * length ts)%nat.
Proof.
  induction ts as [|t ts IH]; [done|]. cbn [sum_of length].
  assert (set_weight bm' (f t) <= set_weight bm (f t) + 2)%nat; [|lia].
  unfold set_weight. destruct (f t) as [[pos [w|]]|]; [|lia|lia]. repeat case_decide; lia.
Qed.

(** The measure of a region in which [ops] operations are left to a thread. *)
Section SetMeasure.
Context {T : Type} (f : T -> pending) (ops : T -> nat).

Definition set_measure (bm : list Z) (ts : list T) : nat :=
  ((2 * length ts + 4) * sum_of ops ts + sum_of (fun t => set_weight bm (f t)) ts)%nat.

(** An attempt that fails, or a read. *)
Lemma measure_try bm ts tid t t' :
  ts !! tid = Some t -> (ops t' <= ops t)%nat -> (set_weight bm (f t') < set_weight bm (f t))%nat ->
  (set_measure bm (<[tid := t']> ts) < set_measure bm ts)%nat.
Proof.
  intros Ht Ho Hw. unfold set_measure. rewrite length_insert. pose proof (sum_of_insert ops ts tid t t' Ht).
  pose proof (sum_of_insert (fun t => set_weight bm (f t)) ts tid t t' Ht) as Hs. cbn beta in Hs. nia.
Qed.

(** An operation that is finished, or begun. *)
Lemma measure_op bm bm' ts tid t t' :
  ts !! tid = Some t -> (ops t' < ops t)%nat -> (set_weight bm' (f t') <= 2)%nat ->
  (set_measure bm' (<[tid := t']> ts) < set_measure bm ts)%nat.
Proof.
  intros Ht Ho Hw. unfold set_measure. rewrite length_insert. pose proof (sum_of_insert ops ts tid t t' Ht).
  pose proof (sum_of_insert (fun t => set_weight bm' (f t)) ts tid t t' Ht) as Hs. cbn beta in Hs.
  pose proof (weight_change f bm bm' ts). nia.
Qed.
End SetMeasure.

Section Fill.
Context {team_of : Team} (fuel : nat) (n : Z) (vl : list Z) (out in_ : Z) (bm : list Z).
Context (Hbm : bitmap_ok n bm) (Hvl : forall k, out <= k < in_ -> exists v, vl.[k] = Some v /\ 0 <= v < n).

Definition listed (v : Z) : Prop := exists k, out <= k < in_ /\ vl.[k] = Some v.

Record fill_inv (bm' : list Z) (ts : list (list Z * pending)) : Prop := {
  fl_bm : bitmap_ok n bm';
  fl_keeps : forall i, bit bm i = true -> bit bm' i = true;
  fl_only : forall i, bit bm' i = true -> bit bm i = true \/ listed i;
  fl_todo : forall tid t k, ts !! tid = Some t -> k ∈ t.1 -> out <= k < in_;
  fl_pend : forall tid t pos old, ts !! tid = Some t -> t.2 = Some (pos, old) -> listed pos /\ 0 <= pos < n;
  fl_cover : forall k v, out <= k < in_ -> vl.[k] = Some v -> bit bm' v = true \/
    exists tid t, ts !! tid = Some t /\ (k ∈ t.1 \/ exists old, t.2 = Some (v, old));
}.

Definition fill_ops (t : list Z * pending) : nat := (2 * length t.1 + if t.2 then 1 else 0)%nat.

(** A step of one thread. *)
Lemma fill_update bm' bm2 ts tid t t' :
  fill_inv bm' ts -> ts !! tid = Some t -> bitmap_ok n bm2 -> (forall k, k ∈ t'.1 -> k ∈ t.1) ->
  (forall pos old, t'.2 = Some (pos, old) -> listed pos /\ 0 <= pos < n) ->
  (forall i, bit bm' i = true -> bit bm2 i = true) -> (forall i, bit bm2 i = true -> bit bm' i = true \/ listed i) ->
  (forall k v, vl.[k] = Some v -> k ∈ t.1 \/ (exists old, t.2 = Some (v, old)) ->
    bit bm2 v = true \/ k ∈ t'.1 \/ exists old, t'.2 = Some (v, old)) ->
  fill_inv bm2 (<[tid := t']> ts).
Proof.
  intros [Hb Hk Ho Ht1 Hp Hc] Ht Hb2 Htodo Hpend Hk2 Ho2 Hcov. pose proof (lookup_lt_Some _ _ _ Ht) as Hlt.
  assert (forall tid' t1, <[tid := t']> ts !! tid' = Some t1 -> t1 = t' /\ tid' = tid \/ tid' <> tid /\ ts !! tid' = Some t1) as Hcase.
  { intros tid' t1 H1. destruct (decide (tid' = tid)) as [->|]; [rewrite list_lookup_insert_eq in H1 by done; left; split; [congruence|done]|].
    rewrite list_lookup_insert_ne in H1 by done. by right. }
  split; [done|auto| | | |].
  - intros i Hi. destruct (Ho2 i Hi) as [Hi'|]; [by apply Ho|by right].
  - intros tid' t1 k [[-> ->]|[_ H1]]%Hcase Hin; [by eapply Ht1; [exact Ht|apply Htodo]|by eapply Ht1].
  - intros tid' t1 pos old [[-> ->]|[_ H1]]%Hcase Hin; [by eapply Hpend|by eapply Hp].
  - intros k v Hkr Hv. destruct (Hc k v Hkr Hv) as [?|(tid' & t1 & H1 & Hin)]; [left; auto|].
    destruct (decide (tid' = tid)) as [->|Hne].
    + assert (t1 = t) as -> by congruence. destruct (Hcov k v Hv Hin) as [?|?]; [by left|right].
      exists tid, t'. by rewrite list_lookup_insert_eq.
    + right. exists tid', t1. by rewrite list_lookup_insert_ne.
Qed.

Lemma fill_ends :
  out <= in_ -> (2 * nt + 4) * (2 * (in_ - out)) <= Z.of_nat fuel ->
  ends (fill_bitmap_from_queue fuel bm vl out in_) (fun bm' =>
    bitmap_ok n bm' /\ forall i, bit bm' i = true <-> bit bm i = true \/ listed i).
Proof.
  intros Hio Hf. unfold fill_bitmap_from_queue. apply ends_bind, ends_dealt. intros todos Hnt Hp. apply ends_bind. eapply ends_mono.
  - apply (region_ok (fill_step vl) filled fill_inv (set_measure snd fill_ops)).
    + assert (forall tid t, ((fun todo => (todo, None)) <$> todos) !! tid = Some t ->
        exists todo : list Z, t = (todo, None : pending) /\ todos !! tid = Some todo) as Hinit.
      { intros tid t Ht. rewrite list_lookup_fmap in Ht. destruct (todos !! tid); [|done]. injection Ht as <-. eauto. }
      split; [done|done|by left| | |].
      * intros tid t k (todo & -> & Htd)%Hinit Hin. cbn [fst] in Hin.
        assert (k ∈ mjoin todos) as Hk by (apply list_elem_of_join; exists todo; split; [done|by eapply list_elem_of_lookup_2]).
        rewrite Hp in Hk. apply elem_of_seqZ in Hk. lia.
      * by intros tid t pos old (todo & -> & Htd)%Hinit.
      * intros k v Hk Hv. right. assert (k ∈ mjoin todos) as (todo & Hkt & Hin)%list_elem_of_join by (rewrite Hp; apply elem_of_seqZ; lia).
        apply list_elem_of_lookup in Hin as [tid Ht]. exists tid, (todo, None). rewrite list_lookup_fmap, Ht. split; [done|by left].
    + unfold set_measure. rewrite length_fmap, !sum_of_fmap. unfold fill_ops. cbn [fst snd set_weight].
      assert (sum_of (fun todo : list Z => 2 * length todo + 0)%nat todos = (2 * length (mjoin todos))%nat) as ->.
      { clear. induction todos as [|x l IH]; [done|]. cbn [sum_of]. rewrite IH. change (mjoin (x :: l)) with (x ++ mjoin l).
        rewrite length_app. lia. }
      pose proof (sum_of_le (fun _ : list Z => 0%nat) 0 todos ltac:(done)). rewrite Hp, length_seqZ. unfold alen in Hnt. nia.
    + intros bm1 ts tid [todo p] HI Ht Hfin. destruct p as [[pos old]|]; cbn [fill_step].
      * destruct (fl_pend _ _ HI tid _ pos old Ht eq_refl) as [Hls Hpr].
        destruct (set_step_ok n bm1 pos old (fl_bm _ _ HI) Hpr) as (bm2 & p' & -> & Hb2 & Hcase). cbn [mbind option_bind].
        eexists _, _. split; [done|]. destruct Hcase as [(-> & [old' ->] & Hw)|[-> Hbits]].
        -- split; [|by eapply measure_try].
           eapply fill_update; try done; [|by left|].
           { by intros pos' old1 [= <- <-]. }
           intros k v Hv [Hin|[old1 [= -> ->]]]; [by right; left|]. right. right. by exists old'.
        -- split; [|eapply measure_op; [done|unfold fill_ops; cbn; lia|cbn; lia]].
           eapply fill_update; try done; [intros i Hi; by rewrite Hbits, Hi| |].
           ++ intros i. rewrite Hbits. intros [?|Hi]%orb_prop; [by left|right]. apply bool_decide_eq_true in Hi. by subst.
           ++ intros k v Hv [Hin|[old1 [= -> ->]]]; [by right; left|left]. rewrite Hbits, bool_decide_eq_true_2 by done. apply orb_true_r.
      * destruct todo as [|k todo]; [done|]. assert (out <= k < in_) as Hkr by (eapply (fl_todo _ _ HI); [exact Ht|left]).
        destruct (Hvl k Hkr) as (v & Hv & Hvr). rewrite Hv. cbn [mbind option_bind]. eexists _, _. split; [done|].
        split; [|eapply measure_op; [done|unfold fill_ops; cbn; lia|cbn; lia]].
        eapply fill_update; try done; [apply HI|by right| |by left|].
        -- intros pos old [= <- <-]. split; [by exists k|done].
        -- intros k' v' Hv' [[->|Hin]%elem_of_cons|[old1 ?]]; [|by right; left|done]. right. right. exists None. cbn. congruence.
  - intros [bm1 ts] [HI Hfin]. apply ends_ret. split; [apply HI|]. intros i. split; [apply HI|].
    intros [Hi|(k & Hk & Hv)]; [by apply (fl_keeps _ _ HI)|].
    destruct (fl_cover _ _ HI k i Hk Hv) as [?|(tid & t & Ht & Hin)]; [done|]. exfalso.
    pose proof (Forall_lookup_1 _ _ _ _ Hfin Ht) as Hd. destruct t as [[|] [|]]; try done.
    destruct Hin as [Hin|[old Hin]]; [by apply not_elem_of_nil in Hin|done].
Qed.
End Fill.

(** ** Bottom-up, proved *)

Section BottomUp.
Context (E : list packed_edge) (g : globals) (Hg : graph_ok E g) (r : Z).
Abbreviation N := (maxvtx g + 1).
Abbreviation nbrs := (nbrs E).
Context (d : Z) (Hd : 0 <= d) (tree : list Z) (Hlv : level E g r d tree).

(** A frontier: all vertices of the level, and others seen before. *)
Definition frontier (d : Z) (bm : list Z) : Prop :=
  bitmap_ok N bm /\ (forall v, bit bm v = true -> within E r d v) /\ forall v, dist E r v d -> bit bm v = true.

Context (pst : list Z) (Hpast : frontier d pst).

Lemma find_parent_ok v : 0 <= v < N ->
  exists x, find_parent (Z.to_nat (start E v + alen (nbrs v) - start E v)) g pst (start E v) = Some x /\
    match x with
    | Some j => j ∈ nbrs v /\ bit pst j = true
    | None => forall j, j ∈ nbrs v -> bit pst j = false
    end.
Proof.
  intros Hv. destruct (row_get E g Hg v Hv) as (_ & _ & Hget). destruct Hpast as [Hb _].
  replace (start E v + alen (nbrs v) - start E v) with (alen (nbrs v)) by lia. unfold alen. rewrite Nat2Z.id.
  assert (forall l lo, (forall i j, l.[i] = Some j -> xadj_get (xadjstore g) (lo + i) = Some j /\ 0 <= j < N) ->
    exists x, find_parent (length l) g pst lo = Some x /\
      match x with Some j => j ∈ l /\ bit pst j = true | None => forall j, j ∈ l -> bit pst j = false end) as H.
  { induction l as [|j l IH]; intros lo Hl; cbn [length find_parent].
    - exists None. split; [done|]. by intros j ?%not_elem_of_nil.
    - destruct (Hl 0 j eq_refl) as [Hx Hj]. rewrite Z.add_0_r in Hx. rewrite Hx. cbn [mbind option_bind].
      destruct (get_bit_ok N pst j Hb Hj) as (w & -> & Hw). cbn [mbind option_bind]. rewrite Hw, negb_involutive.
      destruct (bit pst j) eqn:Ej.
      + exists (Some j). split; [done|]. split; [left|done].
      + destruct (IH (lo + 1)) as (x & -> & Hx').
        { intros i j' Hi. pose proof (aget_some_range _ _ _ Hi). destruct (Hl (1 + i) j') as [? ?].
          - rewrite aget_cons. destruct (Z.eqb_spec (1 + i) 0); [lia|]. by replace (1 + i - 1) with i by lia.
          - split; [|done]. by replace (lo + 1 + i) with (lo + (1 + i)) by lia. }
        exists x. split; [done|]. destruct x as [j'|].
        * destruct Hx'. split; [by right|done].
        * intros j' [->|Hin]%elem_of_cons; [done|by apply Hx']. }
  apply H. intros i j Hj. split; [by apply Hget|]. assert (j ∈ nbrs v) as [Ha _]%nbrs_adj by (apply elem_aget; eauto).
  exact (proj2 (adj_in E g Hg _ _ Ha)).
Qed.

Record bu_inv (C : list Z) (s : list Z * list Z) (ts : list bu_thread) : Prop := {
  bu_tree : alen s.1 = alen tree;
  bu_bm : bitmap_ok N s.2;
  bu_claimed : forall c, c ∈ C -> 0 <= c < N /\ tree.[c] = Some (-1) /\
    exists p, s.1.[c] = Some p /\ 0 <= p < N /\ dist E r p d /\ adj E p c;
  bu_same : forall v, v ∉ C -> s.1.[v] = tree.[v];
  bu_nodup : NoDup C;
  bu_todo_nodup : NoDup (ts ≫= bu_todo);
  bu_todo_new : forall i, i ∈ ts ≫= bu_todo -> 0 <= i < N /\ i ∉ C;
  bu_bits : forall i, bit s.2 i = true -> i ∈ C;
  bu_set_bits : forall c, c ∈ C -> bit s.2 c = true \/ exists tid t old, ts !! tid = Some t /\ bu_set t = Some (c, old);
  bu_pend : forall tid t c old, ts !! tid = Some t -> bu_set t = Some (c, old) -> c ∈ C;
  bu_count : foldr (fun t sum => bu_awake t + sum) 0 ts = alen C;
  bu_past : forall i, 0 <= i < N -> i ∉ ts ≫= bu_todo -> s.1.[i] = Some (-1) -> forall j, j ∈ nbrs i -> bit pst j = false;
}.

Lemma awake_insert ts tid t t' :
  ts !! tid = Some t ->
  foldr (fun t sum => bu_awake t + sum) 0 (<[tid := t']> ts) =
  foldr (fun t sum => bu_awake t + sum) 0 ts - bu_awake t + bu_awake t'.
Proof.
  revert tid. induction ts as [|t0 ts IH]; intros [|tid] Ht; try done.
  - injection Ht as ->. cbn. lia.
  - specialize (IH tid Ht). change (<[S tid := t']> (t0 :: ts)) with (t0 :: <[tid := t']> ts). cbn [foldr]. lia.
Qed.

(** A step of [bm_set_bit_atomic]. *)
Lemma bu_bit C tr nx nx' ts tid t p' pos old :
  bu_inv C (tr, nx) ts -> ts !! tid = Some t -> bu_set t = Some (pos, old) -> bitmap_ok N nx' ->
  (nx' = nx /\ (exists old', p' = Some (pos, old')) \/ p' = None /\ forall i, bit nx' i = bit nx i || bool_decide (i = pos)) ->
  bu_inv C (tr, nx') (<[tid := MkBu (bu_todo t) p' (bu_awake t)]> ts).
Proof.
  intros [Htl Hb Hcl Hsm Hnd Htn Htw Hbits Hset Hpend Hcnt Hps] Ht Hp Hb' Hcase. cbn [fst snd] in *.
  set (t' := MkBu (bu_todo t) p' (bu_awake t)). pose proof (lookup_lt_Some _ _ _ Ht) as Hlt.
  assert (<[tid := t']> ts ≫= bu_todo ≡ₚ ts ≫= bu_todo) as Htd.
  { destruct (bind_insert bu_todo ts tid t t' Ht) as (rest & E1 & E2). by rewrite E1, E2. }
  split; cbn [fst snd]; try done.
  - by rewrite Htd.
  - intros i Hi. rewrite Htd in Hi. by apply Htw.
  - intros i Hi. destruct Hcase as [[-> _]|[_ Hbt]]; [by apply Hbits|]. rewrite Hbt in Hi. apply orb_prop in Hi as [?|Hi]; [by apply Hbits|].
    apply bool_decide_eq_true in Hi. subst i. by eapply Hpend.
  - intros c Hc. destruct (Hset c Hc) as [Hbc|(tid' & t1 & old1 & Ht1 & Hp1)].
    + left. destruct Hcase as [[-> _]|[_ Hbt]]; [done|]. by rewrite Hbt, Hbc.
    + destruct (decide (tid' = tid)) as [->|Hne].
      * assert (t1 = t) as -> by congruence. rewrite Hp in Hp1. injection Hp1 as -> ->. destruct Hcase as [[_ [old' ->]]|[_ Hbt]].
        -- right. exists tid, t', old'. by rewrite list_lookup_insert_eq.
        -- left. rewrite Hbt, bool_decide_eq_true_2 by done. apply orb_true_r.
      * right. exists tid', t1, old1. by rewrite list_lookup_insert_ne.
  - intros tid' t1 c old1 Ht1 Hp1. destruct (decide (tid' = tid)) as [->|Hne].
    + rewrite list_lookup_insert_eq in Ht1 by done. injection Ht1 as <-. cbn [bu_set t'] in Hp1.
      destruct Hcase as [[_ [old' ->]]|[-> _]]; [|done]. injection Hp1 as <- <-. by eapply Hpend.
    + rewrite list_lookup_insert_ne in Ht1 by done. by eapply Hpend.
  - rewrite (awake_insert ts tid t t' Ht), Hcnt. cbn. lia.
  - intros i Hi Hin. rewrite Htd in Hin. by apply Hps.
Qed.

(** The search of a vertex for a parent in the frontier. *)
Lemma bu_vertex C tr nx ts tid t i todo tr' added :
  bu_inv C (tr, nx) ts -> ts !! tid = Some t -> bu_todo t = i :: todo -> bu_set t = None ->
  (added = [] /\ tr' = tr /\ (tr.[i] = Some (-1) -> forall j, j ∈ nbrs i -> bit pst j = false) \/
   added = [i] /\ tr.[i] = Some (-1) /\ exists j, j ∈ nbrs i /\ bit pst j = true /\ tr' = <[Z.to_nat i := j]> tr) ->
  bu_inv (added ++ C) (tr', nx)
    (<[tid := MkBu todo (match added with [] => None | c :: _ => Some (c, None) end) (bu_awake t + alen added)]> ts).
Proof.
  intros [Htl Hb Hcl Hsm Hnd Htn Htw Hbits Hset Hpend Hcnt Hps] Ht Htd0 Hp0 Hcase. cbn [fst snd] in *.
  set (t' := MkBu todo _ _). pose proof (lookup_lt_Some _ _ _ Ht) as Hlt.
  destruct (bind_insert bu_todo ts tid t t' Ht) as (rest & E1 & E2). rewrite Htd0 in E1. cbn [bu_todo t'] in E2.
  assert (ts ≫= bu_todo ≡ₚ i :: <[tid := t']> ts ≫= bu_todo) as Htd by (rewrite E1, E2; done).
  assert (0 <= i < N /\ i ∉ C) as [Hir HiC] by (apply Htw; rewrite Htd; left).
  pose proof Htn as Htn'. rewrite Htd in Htn'. apply list.NoDup_cons in Htn' as [Hifresh Htn'].
  pose proof (lv_len _ _ _ _ _ Hlv) as Hll.
  assert (forall v, v <> i -> tr'.[v] = tr.[v]) as Hother.
  { intros v Hv. destruct Hcase as [(_ & -> & _)|(_ & _ & j & _ & _ & ->)]; [done|]. rewrite aget_insert by lia. by rewrite decide_False. }
  assert (forall c, c ∈ added -> c = i /\ tr.[i] = Some (-1) /\ exists j, tr'.[i] = Some j /\ 0 <= j < N /\ dist E r j d /\ adj E j i) as Hadd.
  { intros c Hc. destruct Hcase as [(-> & _)|(-> & Hm & j & Hj & Hbj & ->)]; [by apply not_elem_of_nil in Hc|].
    apply list_elem_of_singleton in Hc as ->. split; [done|]. split; [done|]. exists j.
    apply nbrs_adj in Hj as [Ha _]. pose proof (proj2 (adj_in E g Hg _ _ Ha)). rewrite aget_insert by lia. rewrite decide_True by done.
    split; [done|]. split; [done|]. split; [|by symmetry].
    destruct Hpast as (_ & Hw & _). specialize (Hw j Hbj). apply within_dist; [done|]. intros (n' & Hn' & Hwj).
    rewrite Hsm in Hm by done. destruct (lv_seen _ _ _ _ _ Hlv i Hir) as [[_ Hno]|(p & Hp & Hp0' & _)].
    - apply Hno. exists (n' + 1). split; [lia|]. eapply walk_step; [done|by symmetry].
    - rewrite Hm in Hp. injection Hp as <-. lia. }
  split; cbn [fst snd].
  - destruct Hcase as [(_ & -> & _)|(_ & _ & j & _ & _ & ->)]; [done|]. by rewrite alen_insert.
  - done.
  - intros c [Hc|Hc]%elem_of_app.
    + destruct (Hadd c Hc) as (-> & Hm & Hpar). split; [done|]. split; [by rewrite <- Hsm|done].
    + destruct (Hcl c Hc) as (? & ? & p & Hpc & ?). split; [done|]. split; [done|]. exists p. split; [|done].
      rewrite Hother; [done|]. by intros ->.
  - intros v [Hv1 Hv2]%not_elem_of_app. destruct (decide (v = i)) as [->|]; [|by rewrite Hother, Hsm].
    destruct Hcase as [(_ & -> & _)|(-> & _)]; [by apply Hsm|]. exfalso. apply Hv1. left.
  - destruct Hcase as [(-> & _)|(-> & _)]; [done|]. by apply list.NoDup_cons.
  - done.
  - intros k Hk. destruct (Htw k) as [Hkr HkC]; [rewrite Htd; by right|]. split; [done|]. rewrite not_elem_of_app. split; [|done].
    intros Hka. destruct (Hadd k Hka) as (-> & _). done.
  - intros k Hk. apply elem_of_app. right. by apply Hbits.
  - intros c [Hc|Hc]%elem_of_app.
    + right. exists tid, t', None. rewrite list_lookup_insert_eq by done. split; [done|]. cbn [bu_set t'].
      destruct Hcase as [(-> & _)|(-> & _)]; [by apply not_elem_of_nil in Hc|]. by apply list_elem_of_singleton in Hc as ->.
    + destruct (Hset c Hc) as [?|(tid' & t1 & old1 & Ht1 & Hp1)]; [by left|right]. exists tid', t1, old1.
      rewrite list_lookup_insert_ne; [done|]. intros ->. congruence.
  - intros tid' t1 c old1 Ht1 Hp1. apply elem_of_app. destruct (decide (tid' = tid)) as [->|Hne].
    + rewrite list_lookup_insert_eq in Ht1 by done. injection Ht1 as <-. cbn [bu_set t'] in Hp1. left.
      destruct added as [|c' l]; [done|]. injection Hp1 as <- <-. left.
    + rewrite list_lookup_insert_ne in Ht1 by done. right. by eapply Hpend.
  - rewrite (awake_insert ts tid t t' Ht), Hcnt, alen_app. cbn [bu_awake t']. lia.
  - intros k Hk Hin Hm j Hj. destruct (decide (k = i)) as [->|Hne].
    + destruct Hcase as [(_ & -> & Hno)|(-> & _)]; [by apply Hno|]. exfalso.
      destruct (Hadd i ltac:(left)) as (_ & _ & j' & Hj' & ? & _). rewrite Hm in Hj'. injection Hj' as <-. lia.
    + rewrite Hother in Hm by done. apply (Hps k); try done. rewrite Htd. by intros [?|?]%elem_of_cons.
Qed.

Definition bu_ops (t : bu_thread) : nat := (2 * length (bu_todo t) + if bu_set t then 1 else 0)%nat.

Lemma bu_step_ok C s ts tid t :
  bu_inv C s ts -> ts !! tid = Some t -> bu_done t = false ->
  exists s' t' C', bu_step g pst tid s t = Some (s', t') /\ bu_inv C' s' (<[tid := t']> ts) /\
    (set_measure bu_set bu_ops s'.2 (<[tid := t']> ts) < set_measure bu_set bu_ops s.2 ts)%nat.
Proof.
  intros HI Ht Hfin. destruct s as [tr nx], t as [todo p aw]. cbn [bu_step bu_set bu_todo].
  destruct p as [[pos old]|]; cbn [bu_step bu_set bu_todo].
  - pose proof (bu_pend _ _ _ HI tid _ pos old Ht eq_refl) as Hpc. destruct (bu_claimed _ _ _ HI pos Hpc) as (Hpr & _).
    destruct (set_step_ok N nx pos old (bu_bm _ _ _ HI) Hpr) as (nx' & p' & -> & Hb' & Hcase). cbn [mbind option_bind].
    eexists _, _, C. split; [done|]. split.
    + eapply (bu_bit C tr nx nx' ts tid _ p' pos old HI Ht); [done|done|]. destruct Hcase as [(-> & ? & _)|?]; [by left|by right].
    + cbn [snd]. destruct Hcase as [(-> & [old' ->] & Hw)|[-> Hbits]].
      * by eapply measure_try.
      * eapply measure_op; [done|unfold bu_ops; cbn; lia|cbn; lia].
  - destruct todo as [|i todo]; [done|].
    assert (0 <= i < N /\ i ∉ C) as [Hir HiC].
    { apply (bu_todo_new _ _ _ HI). apply list_elem_of_bind. exists (MkBu (i :: todo) None aw). split; [left|by eapply list_elem_of_lookup_2]. }
    pose proof (lv_len _ _ _ _ _ Hlv). pose proof (bu_tree _ _ _ HI) as Htl. cbn [fst] in Htl.
    destruct (aget_in tr i ltac:(lia)) as [p Hp]. rewrite Hp. cbn [mbind option_bind].
    pose proof (fun tr' added => bu_vertex C tr nx ts tid _ i todo tr' added HI Ht eq_refl eq_refl) as Hv. cbn [bu_awake] in Hv.
    assert (forall t', bu_todo t' = todo -> (set_weight nx (bu_set t') <= 2)%nat ->
      (set_measure bu_set bu_ops nx (<[tid := t']> ts) < set_measure bu_set bu_ops nx ts)%nat) as Hmeas.
    { intros t' E1 E2. eapply measure_op; [done| |done]. unfold bu_ops. rewrite E1. cbn [bu_todo bu_set length].
      destruct (bu_set t'); lia. }
    destruct (Z.eqb_spec p (-1)) as [->|Hne].
    + destruct (row_get E g Hg i Hir) as (-> & -> & _). cbn [mbind option_bind].
      destruct (find_parent_ok i Hir) as (x & -> & Hx). cbn [mbind option_bind]. destruct x as [j|].
      * rewrite aset_in by lia. cbn [mbind option_bind]. eexists _, _, ([i] ++ C). split; [done|].
        split; [|cbn [snd]; apply Hmeas; cbn; done || lia].
        apply (Hv (<[Z.to_nat i := j]> tr) [i]). right. split; [done|]. split; [done|]. exists j. by destruct Hx.
      * eexists _, _, ([] ++ C). split; [done|]. split; [|cbn [snd]; apply Hmeas; cbn; done || lia].
        assert (aw = aw + alen (@nil Z)) as Haw by (change (alen (@nil Z)) with 0; lia). rewrite Haw at 1. apply (Hv tr []).
        left. split; [done|]. split; [done|]. done.
    + eexists _, _, ([] ++ C). split; [done|]. split; [|cbn [snd]; apply Hmeas; cbn; done || lia].
      assert (aw = aw + alen (@nil Z)) as Haw by (change (alen (@nil Z)) with 0; lia). rewrite Haw at 1. apply (Hv tr []).
      left. split; [done|]. split; [done|]. intros Hm. congruence.
Qed.

(** The vertices of a level, counted. *)
Definition counted_level (d a : Z) : Prop :=
  exists C, NoDup C /\ (forall v, v ∈ C <-> dist E r v d) /\ a = alen C.

Context {team_of : Team} (fuel : nat).

Lemma bu_start todos zero :
  mjoin todos ≡ₚ seqZ 0 N -> bitmap_ok N zero -> (forall i, bit zero i = false) ->
  bu_inv [] (tree, zero) ((fun todo => MkBu todo None 0) <$> todos).
Proof.
  intros Hp Hb Hz. assert (((fun todo => MkBu todo None 0) <$> todos) ≫= bu_todo = mjoin todos) as Htd.
  { clear. induction todos as [|l todos IH]; [done|]. change (mjoin (l :: todos)) with (l ++ mjoin todos). by rewrite <- IH. }
  split; cbn [fst snd]; rewrite ?Htd; try done.
  - by intros c ?%not_elem_of_nil.
  - constructor.
  - rewrite Hp. apply NoDup_seqZ.
  - intros i Hi. rewrite Hp in Hi. apply elem_of_seqZ in Hi. split; [lia|]. apply not_elem_of_nil.
  - intros i. by rewrite Hz.
  - by intros c ?%not_elem_of_nil.
  - intros tid t c old Ht. rewrite list_lookup_fmap in Ht. destruct (todos !! tid); [|done]. by injection Ht as <-.
  - clear. induction todos as [|l todos IH]; [done|]. cbn [fmap list_fmap foldr bu_awake]. by rewrite IH.
  - intros i Hi Hin. exfalso. apply Hin. rewrite Hp. apply elem_of_seqZ. lia.
Qed.

Lemma bu_ends todos zero :
  mjoin todos ≡ₚ seqZ 0 N -> alen todos = nt -> bitmap_ok N zero -> (forall i, bit zero i = false) ->
  (2 * nt + 4) * (2 * N) <= Z.of_nat fuel ->
  ends (region (bu_step g pst) bu_done fuel (tree, zero) ((fun todo => MkBu todo None 0) <$> todos)) (fun '(s, ts) =>
    level E g r (d + 1) s.1 /\ bitmap_ok N s.2 /\ (forall v, bit s.2 v = true <-> dist E r v (d + 1)) /\
    counted_level (d + 1) (foldr (fun t sum => bu_awake t + sum) 0 ts)).
Proof.
  intros Hp Hnt Hb Hz Hf. eapply ends_mono.
  - apply (region_ok (bu_step g pst) bu_done (fun s ts => exists C, bu_inv C s ts) (fun s ts => set_measure bu_set bu_ops s.2 ts)).
    + exists []. by apply bu_start.
    + unfold set_measure. rewrite length_fmap, !sum_of_fmap. unfold bu_ops. cbn [bu_todo bu_set set_weight snd].
      assert (sum_of (fun todo : list Z => 2 * length todo + 0)%nat todos = (2 * length (mjoin todos))%nat) as ->.
      { clear. induction todos as [|x l IH]; [done|]. cbn [sum_of]. rewrite IH. change (mjoin (x :: l)) with (x ++ mjoin l).
        rewrite length_app. lia. }
      pose proof (sum_of_le (fun _ : list Z => 0%nat) 0 todos ltac:(done)). rewrite Hp, length_seqZ.
      destruct (go_max _ _ Hg) as [? _]. unfold alen in Hnt. nia.
    + intros s ts tid t [C HI] Ht Hfin. destruct (bu_step_ok C s ts tid t HI Ht Hfin) as (s' & t' & C' & Hs & HI' & Hm).
      exists s', t'. split; [done|]. split; [by exists C'|done].
  - intros [[tr nx] ts] [[C HI] Hfin]. destruct HI as [Htl Hbm Hcl Hsm Hnd Htn Htw Hbits Hset Hpend Hcnt Hps]. cbn [fst snd] in *.
    assert (ts ≫= bu_todo = []) as Htd.
    { clear -Hfin. induction Hfin as [|[[|] [|] aw] ts Ht _ IH]; try done. }
    rewrite Htd in Hps. pose proof (lv_len _ _ _ _ _ Hlv) as Hll.
    destruct (level_next E g r d tree tr C) as [Hlv' HC]; [done|done|lia|done|done| |].
    { intros v w Hv Hw. destruct (adj_in E g Hg _ _ Hw) as [Hvr Hwr]. destruct (decide (w ∈ C)) as [|Hnin]; [by left|right].
      destruct (decide (w = v)) as [->|Hne]; [by apply dist_within|].
      destruct (lv_seen _ _ _ _ _ Hlv w Hwr) as [[Hm _]|(p & _ & _ & Hin & _)]; [|done]. exfalso.
      destruct Hpast as (_ & _ & Hpd). specialize (Hpd v Hv). rewrite (Hps w Hwr (not_elem_of_nil _)) in Hpd; [done| |].
      - by rewrite Hsm.
      - apply nbrs_adj. split; [by symmetry|done]. }
    split; [done|]. split; [done|]. split.
    + intros v. rewrite <- HC. split; [apply Hbits|]. intros Hv. destruct (Hset v Hv) as [?|(tid & t & old & Ht & Hpn)]; [done|].
      pose proof (Forall_lookup_1 _ _ _ _ Hfin Ht) as Hdn. unfold bu_done in Hdn. rewrite Hpn in Hdn. by destruct (bu_todo t).
    + exists C. split; [done|]. by split.
Qed.
End BottomUp.

End OmpBottomUp.
