(* ===== verification/OmpQueue.v ===== *)
(** * The OpenMP kernel: the queue from a bitmap, proved

    Every thread takes the bits of its slice of the bitmap; together they write
    each of them to the queue once. *)

From Stdlib Require Import ZArith Lia Sorted.
From stdpp Require Import list numbers.
From S2P Require Import Prelude Arrays Graph SeqCsr Threads OmpCsr Bitmap OmpBfs OmpTopDown.
#[local] Open Scope Z_scope.

Module OmpQueue.
Import Graph SeqCsr OmpCsr Bitmap OmpBfs OmpTopDown.

(** ** The queue from the bitmap, proved *)

Section FillQueue.
Context {team_of : Team} (fuel : nat) (n : Z) (bm : list Z) (Hbm : bitmap_ok n bm) (Hn : 0 <= n < 2 ^ 31 - 64).

(** The bits set in a range. *)
Definition bits (lo hi : Z) : list Z := filter (fun i => bit bm i = true) (seqZ lo (hi - lo)).

Lemma bits_elem lo hi i : i ∈ bits lo hi <-> lo <= i < hi /\ bit bm i = true.
Proof. unfold bits. rewrite list_elem_of_filter, elem_of_seqZ. split; intros []; split; [lia|done|done|lia]. Qed.

Lemma bits_app lo mid hi : lo <= mid <= hi -> bits lo hi = bits lo mid ++ bits mid hi.
Proof.
  intros Hm. unfold bits. replace (hi - lo) with ((mid - lo) + (hi - mid)) by lia. rewrite seqZ_app by lia.
  replace (lo + (mid - lo)) with mid by lia. apply list.filter_app.
Qed.

Lemma bits_empty lo hi : (forall i, lo <= i < hi -> bit bm i = false) -> bits lo hi = [].
Proof.
  intros Hz. destruct (bits lo hi) as [|i l] eqn:Eb; [done|]. assert (i ∈ bits lo hi) as [Hi Hb]%bits_elem by (rewrite Eb; left).
  by rewrite Hz in Hb.
Qed.

Lemma bits_cons lo hi : lo < hi -> bits lo hi = (if bit bm lo then [lo] else []) ++ bits (lo + 1) hi.
Proof.
  intros Hlt. rewrite (bits_app lo (lo + 1) hi) by lia. f_equal. unfold bits. replace (lo + 1 - lo) with 1 by lia.
  rewrite seqZ_cons by lia. change (seqZ (Z.succ lo) (Z.pred 1)) with (@nil Z). rewrite filter_cons, filter_nil. by destruct (bit bm lo).
Qed.

Lemma bits_length : alen (bits 0 n) <= n.
Proof.
  apply nodup_bounded; [lia|apply list.NoDup_filter, NoDup_seqZ|]. by intros v [? _]%bits_elem.
Qed.

(** What a thread has in its buffer, and what it will still find. *)
Definition fq_rem (t : fq_thread) : list Z := if fq_i t =? -1 then [] else bits (fq_i t) (fq_end t).
Definition fq_has (t : fq_thread) : list Z := fq_local t ++ fq_rem t.

Record fq_ok (t : fq_thread) : Prop := {
  fo_i : fq_i t = -1 \/ 0 <= fq_i t < n /\ (fq_i t < fq_end t -> bit bm (fq_i t) = true);
  fo_end : fq_end t <= n;
  fo_local : fq_done t = false -> alen (fq_local t) < THREAD_BUF_LEN;
  fo_done : fq_done t = true -> fq_has t = [];
}.

Record fq_inv (fl : list Z) (s : list Z * Z) (ts : list fq_thread) : Prop := {
  fi_vl : exists rest, s.1 = fl ++ rest;
  fi_len : alen s.1 = n;
  fi_k2 : s.2 = alen fl;
  fi_all : fl ++ ts ≫= fq_has ≡ₚ bits 0 n;
  fi_threads : Forall fq_ok ts;
}.

Lemma next_rem i e :
  0 <= i < n -> exists i', bm_get_next_bit bm i = Some i' /\ (i' = -1 \/ 0 <= i' < n /\ bit bm i' = true) /\
    forall local b, fq_rem (MkFq i' e local b) = bits (i + 1) e.
Proof.
  intros Hi. destruct (next_bit_ok n bm i Hbm Hi) as (i' & Hnx & Hcase); [lia|]. exists i'. split; [done|].
  destruct Hcase as [[-> Hz]|(Hr & Hb & Hz)].
  - split; [by left|]. intros local b. symmetry. apply bits_empty. intros j Hj. apply Hz. lia.
  - split; [right; split; [lia|done]|]. intros local b. unfold fq_rem. cbn [fq_i fq_end].
    destruct (Z.eqb_spec i' (-1)); [lia|]. destruct (decide (i' <= e)).
    + rewrite (bits_app (i + 1) i' e) by lia. rewrite (bits_empty (i + 1) i'); [done|]. intros j Hj. apply Hz. lia.
    + rewrite !bits_empty; [done| |intros; lia]. intros j Hj. apply Hz. lia.
Qed.

(** The slices of the threads. *)
Abbreviation npt := ((n + nt - 1) / nt).

Lemma slices : npt * nt >= n /\ 0 <= npt.
Proof.
  pose proof nt_pos as Hnt. split; [|apply Z.div_pos; lia]. assert (nt <> 0) as Hnz by lia.
  pose proof (Z.div_mod (n + nt - 1) nt Hnz). pose proof (Z.mod_pos_bound (n + nt - 1) nt Hnt). lia.
Qed.

Lemma fq_start_ok tid :
  0 <= tid -> exists t, fq_start n bm tid = Some t /\ fq_ok t /\ fq_done t = false /\
    fq_has t = bits ((npt * tid) `min` n) ((npt * (tid + 1)) `min` n).
Proof.
  intros Htid. destruct slices as [_ Hnp]. unfold fq_start. destruct (Z.ltb_spec (npt * tid) n) as [Hlt|Hge].
  - set (i := npt * tid) in *. assert (0 <= i) by (unfold i; nia). assert (0 < npt \/ npt = 0) as [Hp|Hp] by lia.
    2:{ exfalso. destruct slices as [Hs _]. rewrite Hp in Hs. lia. }
    destruct (get_bit_ok n bm i Hbm ltac:(lia)) as (w & -> & Hw). cbn [mbind option_bind].
    set (e := if n <=? i + npt then n else i + npt).
    assert (e = (npt * (tid + 1)) `min` n) as He by (unfold e; destruct (Z.leb_spec n (i + npt)); unfold i in *; lia).
    destruct (next_rem i e ltac:(lia)) as (i' & -> & Hi' & Hrem). cbn [mbind option_bind].
    eexists. split; [done|]. split; [|split; [done|]].
    + split; cbn [fq_i fq_end fq_local fq_done]; [|lia| |done].
      * destruct Hi' as [?|[? ?]]; [by left|right; by split].
      * intros _. unfold THREAD_BUF_LEN, alen. destruct (negb (w =? 0)); cbn [length]; lia.
    + unfold fq_has. rewrite Hrem. cbn [fq_local]. rewrite Hw, negb_involutive, Z.min_l by lia. rewrite <- He. symmetry. apply bits_cons.
      unfold e. destruct (n <=? i + npt); lia.
  - eexists. split; [done|]. split; [|split; [done|]].
    + split; cbn [fq_i fq_end fq_local fq_done]; [by left|lia| |done]. unfold THREAD_BUF_LEN, alen. cbn [length]. lia.
    + unfold fq_has, fq_rem. cbn [fq_local fq_i Z.eqb app]. symmetry. apply bits_empty. intros. nia.
Qed.

Lemma fq_all_start k m :
  0 <= k -> exists ts, mapM (fq_start n bm) (seqZ k (Z.of_nat m)) = Some ts /\ Forall fq_ok ts /\ length ts = m /\
    ts ≫= fq_has = bits ((npt * k) `min` n) ((npt * (k + Z.of_nat m)) `min` n).
Proof.
  revert k. induction m as [|m IH]; intros k Hk.
  - exists []. split; [done|]. split; [constructor|]. split; [done|]. symmetry. apply bits_empty. intros. lia.
  - destruct (fq_start_ok k Hk) as (t & Et & Hok & _ & Hh). destruct (IH (k + 1) ltac:(lia)) as (ts & Ets & Hoks & Hl & Hhs).
    exists (t :: ts). rewrite seqZ_cons by lia. replace (Z.pred (Z.of_nat (S m))) with (Z.of_nat m) by lia.
    change (Z.succ k) with (k + 1). cbn [mapM]. rewrite Et. cbn [mbind option_bind]. rewrite Ets. cbn [mbind option_bind].
    split; [done|]. split; [by constructor|]. split; [cbn; lia|]. transitivity (fq_has t ++ (ts ≫= fq_has)); [done|].
    rewrite Hh, Hhs. destruct slices as [_ Hnp].
    replace (k + 1 + Z.of_nat m) with (k + Z.of_nat (S m)) by lia. symmetry. apply bits_app. nia.
Qed.

(** The buffer goes to the end of the queue. *)
Lemma flush_int_ok fl s ts tid t t' local rest :
  fq_inv fl s ts -> ts !! tid = Some t -> fq_has t = local ++ rest -> fq_ok t' -> fq_has t' = rest ->
  exists s', flush_int s local = Some s' /\ fq_inv (fl ++ local) s' (<[tid := t']> ts).
Proof.
  intros [[vr Hvl] Hlen Hk2 Hall Hth] Ht Hh Hok Hh'. destruct s as [vl k2]. cbn [fst snd] in *. subst vl k2.
  destruct (bind_insert fq_has ts tid t t' Ht) as (others & E1 & E2). rewrite Hh in E1. rewrite Hh' in E2.
  assert ((fl ++ local) ++ <[tid := t']> ts ≫= fq_has ≡ₚ bits 0 n) as Hall'.
  { rewrite <- Hall, E1, E2, <- !app_assoc. done. }
  pose proof (f_equal Z.of_nat (Permutation_length Hall')) as Hpl. rewrite length_app, Nat2Z.inj_add in Hpl.
  change (Z.of_nat (length (fl ++ local))) with (alen (fl ++ local)) in Hpl.
  change (Z.of_nat (length (bits 0 n))) with (alen (bits 0 n)) in Hpl. rewrite alen_app in Hpl. pose proof bits_length.
  pose proof (alen_nonneg fl). pose proof (alen_nonneg local). rewrite alen_app in Hlen.
  unfold flush_int, int64_fetch_add. assert (to_int (alen fl) = alen fl) as ->.
  { unfold to_int. rewrite u32_id by (unfold in_u32; lia). by assert (alen fl <? 2 ^ 31 = true) as -> by lia. }
  destruct (copy_out_ok fl vr local) as (vr' & -> & Hr); [lia|]. cbn [mbind option_bind]. eexists. split; [done|].
  split; cbn [fst snd].
  - exists vr'. by rewrite <- app_assoc.
  - rewrite !alen_app. lia.
  - by rewrite alen_app.
  - done.
  - by apply Forall_insert.
Qed.

Definition fq_work (t : fq_thread) : nat := (length (fq_rem t) + if fq_done t then 0 else 1)%nat.

Lemma fq_step_ok fl s ts tid t :
  fq_inv fl s ts -> ts !! tid = Some t -> fq_done t = false ->
  exists s' t' fl', fq_step bm tid s t = Some (s', t') /\ fq_inv fl' s' (<[tid := t']> ts) /\ (fq_work t' < fq_work t)%nat.
Proof.
  intros HI Ht Hnd. pose proof (Forall_lookup_1 _ _ _ _ (fi_threads _ _ _ HI) Ht) as [Hi He Hloc _].
  destruct t as [i e local dn]. cbn [fq_i fq_end fq_local fq_done] in *. subst dn. specialize (Hloc eq_refl).
  unfold fq_step. cbn [fq_i fq_end fq_local].
  destruct (negb (i =? -1) && (i <? e)) eqn:Ec.
  - apply andb_prop in Ec as [Hi1%negb_true_iff%Z.eqb_neq Hie%Z.ltb_lt].
    destruct Hi as [?|[Hir Hbi]]; [done|]. specialize (Hbi Hie). rewrite check_true by lia. cbn [mbind option_bind].
    destruct (next_rem i e Hir) as (i' & -> & Hi' & Hrem). cbn [mbind option_bind].
    assert (fq_has (MkFq i e local false) = (local ++ [i]) ++ bits (i + 1) e) as Hh.
    { unfold fq_has, fq_rem. cbn [fq_i fq_local fq_end]. destruct (Z.eqb_spec i (-1)); [done|]. rewrite bits_cons, Hbi by lia.
      by rewrite <- app_assoc. }
    assert (forall l', lt (fq_work (MkFq i' e l' false)) (fq_work (MkFq i e local false))) as Hw.
    { intros l'. unfold fq_work. rewrite Hrem. unfold fq_rem. cbn [fq_i fq_end fq_done]. destruct (Z.eqb_spec i (-1)); [done|].
      rewrite (bits_cons i e), Hbi by lia. cbn [app length]. lia. }
    assert (forall l', alen l' < THREAD_BUF_LEN -> fq_ok (MkFq i' e l' false)) as Hok.
    { intros l' Hl'. split; cbn [fq_i fq_end fq_local fq_done]; try done. destruct Hi' as [?|[? ?]]; [by left|right; by split]. }
    destruct (Z.eqb_spec (alen (local ++ [i])) THREAD_BUF_LEN) as [Hfull|Hnf].
    + destruct (flush_int_ok fl s ts tid _ (MkFq i' e [] false) (local ++ [i]) (bits (i + 1) e) HI Ht Hh) as (s' & Efl & HI').
      * apply Hok. unfold THREAD_BUF_LEN, alen. cbn [length]. lia.
      * unfold fq_has. by rewrite Hrem.
      * rewrite Efl. cbn [mbind option_bind]. eexists _, _, _. split; [done|]. split; [exact HI'|apply Hw].
    + eexists _, _, fl. split; [done|]. split; [|apply Hw]. destruct HI as [H1 H2 H3 H4 H5]. split; try done.
      * destruct (bind_insert fq_has ts tid _ (MkFq i' e (local ++ [i]) false) Ht) as (others & E1 & E2).
        rewrite <- H4, E1, E2, Hh. unfold fq_has at 1. rewrite Hrem. done.
      * apply Forall_insert; [done|]. apply Hok. rewrite alen_app in *. unfold alen in *. cbn [length] in *. lia.
  - assert (fq_rem (MkFq i e local false) = []) as Hr0.
    { unfold fq_rem. cbn [fq_i fq_end]. destruct (Z.eqb_spec i (-1)); [done|]. cbn [negb andb] in Ec. apply bits_empty. intros. lia. }
    destruct (flush_int_ok fl s ts tid _ (MkFq i e [] true) local [] HI Ht) as (s' & Efl & HI').
    + unfold fq_has. by rewrite Hr0.
    + split; cbn [fq_i fq_end fq_local fq_done]; try done.
    + exact Hr0.
    + rewrite Efl. cbn [mbind option_bind]. eexists _, _, _. split; [done|]. split; [exact HI'|]. unfold fq_work.
      change (fq_rem (MkFq i e [] true)) with (fq_rem (MkFq i e local false)). rewrite Hr0. cbn. lia.
Qed.

Lemma fq_ends vl :
  alen vl = n -> n + nt <= Z.of_nat fuel ->
  ends (fill_queue_from_bitmap fuel n bm vl) (fun '(vl', k2) =>
    exists fl rest, vl' = fl ++ rest /\ alen vl' = n /\ k2 = alen fl /\ NoDup fl /\ forall v, v ∈ fl <-> bit bm v = true).
Proof.
  intros Hlen Hf. unfold fill_queue_from_bitmap. apply ends_bind. pose proof nt_pos as Hnt.
  destruct (fq_all_start 0 (Z.to_nat nt) ltac:(lia)) as (ts & Ets & Hok & Hl & Hh). rewrite Z2Nat.id in Ets, Hh by lia.
  destruct slices as [Hsl _]. rewrite Z.mul_0_r, Z.add_0_l, Z.min_l, Z.min_r in Hh by lia.
  eapply ends_lift; [exact Ets|]. apply ends_bind. eapply ends_mono.
  - apply (region_ok (fq_step bm) fq_done (fun s ts => exists fl, fq_inv fl s ts) (fun _ ts => sum_of fq_work ts)).
    + exists []. split; cbn [fst snd]; [by exists vl|done|done|by rewrite Hh|done].
    + assert (forall us, (sum_of fq_work us <= length (us ≫= fq_has) + length us)%nat) as Hs.
      { clear. induction us as [|u us IH]; [done|]. change ((u :: us) ≫= fq_has) with (fq_has u ++ (us ≫= fq_has)).
        rewrite length_app. cbn [sum_of length]. unfold fq_work at 1, fq_has at 1. rewrite length_app. destruct (fq_done u); lia. }
      specialize (Hs ts). rewrite Hh in Hs. pose proof bits_length. unfold alen in *. lia.
    + intros s us tid t [fl HI] Ht Hnd. destruct (fq_step_ok fl s us tid t HI Ht Hnd) as (s' & t' & fl' & Hs & HI' & Hw).
      exists s', t'. split; [done|]. split; [by exists fl'|]. pose proof (sum_of_insert fq_work us tid t t' Ht). lia.
  - intros [[vl' k2] us] [[fl [[rest Hvl] Hlen' Hk2 Hall Hth]] Hfin]. apply ends_ret. cbn [fst snd] in *.
    assert (us ≫= fq_has = []) as Hnone.
    { clear -Hfin Hth. induction Hfin as [|t ts Ht _ IH]; [done|]. apply list.Forall_cons in Hth as [Hok Hth].
      change ((t :: ts) ≫= fq_has) with (fq_has t ++ (ts ≫= fq_has)). by rewrite (fo_done _ Hok Ht), IH. }
    rewrite Hnone, app_nil_r in Hall. exists fl, rest. split; [done|]. split; [done|]. split; [done|]. split.
    + rewrite Hall. apply list.NoDup_filter, NoDup_seqZ.
    + intros v. rewrite Hall, bits_elem. split; [by intros []|]. intros Hv. split; [|done]. by apply Hbm.
Qed.
End FillQueue.

End OmpQueue.
