(* ===== verification/OmpSearch.v ===== *)
(** * The OpenMP kernel: the whole search, proved

    Both kinds of steps put together: for every team of threads the kernel ends
    in a breadth-first tree or with the threads split, and a schedule in which
    they do split. *)

From Stdlib Require Import ZArith Lia Sorted.
From stdpp Require Import list numbers.
From S2P Require Import Prelude Arrays Graph SeqCsr Threads OmpCsr Bitmap OmpBfs OmpTopDown OmpBottomUp OmpQueue.
#[local] Open Scope Z_scope.

Module OmpSearch.
Import Graph SeqCsr OmpCsr Bitmap OmpBfs OmpTopDown OmpBottomUp OmpQueue.

(** ** The whole search *)

Section Whole.
Context (E : list packed_edge) (g : globals) (Hg : graph_ok E g) (r : Z).
Abbreviation N := (maxvtx g + 1).
Context (HN : N < 2 ^ 31 - 64) (Hr : 0 <= r < N).
Context {team_of : Team} (fuel : nat).

(** Steps that are enough for every region of the search. *)
Definition search_steps : Z := (2 * N + 8 * nt + 8) * (N + 1).
Context (Hfuel : search_steps <= Z.of_nat fuel).

(** All vertices seen so far. *)
Definition seen_list (d : Z) (V : list Z) : Prop := NoDup V /\ forall v, v ∈ V <-> within E r d v.

Lemma within_range d v : within E r d v -> 0 <= v < N.
Proof. intros (n & _ & Hw). destruct Hw; [done|]. exact (proj2 (adj_in E g Hg _ _ H)). Qed.

Lemma seen_bound d V : seen_list d V -> alen V <= N.
Proof. intros [Hnd HV]. apply nodup_bounded; [lia|done|]. intros v Hv. apply (within_range d). by apply HV. Qed.

Lemma seen_next d V a :
  seen_list d V -> counted_level E r (d + 1) a -> exists V', seen_list (d + 1) V' /\ alen V' = alen V + a.
Proof.
  intros [Hnd HV] (C & HCnd & HC & ->). exists (V ++ C). split; [|apply alen_app]. split.
  - apply list.NoDup_app. split; [done|]. split; [|done]. intros v Hv1 Hv2. apply (dist_not_within E r d v); [by apply HC|by apply HV].
  - intros v. rewrite elem_of_app, HV, HC. split.
    + intros [Hw|Hw]; [eapply within_mono; [|exact Hw]; lia|by apply dist_within].
    + intros Hw. destruct (decide (v ∈ V)) as [Hin|Hnin]; [left; by apply HV|right]. apply within_dist; [done|].
      replace (d + 1 - 1) with d by lia. by rewrite <- HV.
Qed.

Lemma counted_zero d : counted_level E r d 0 -> forall v, ~ dist E r v d.
Proof.
  intros (C & _ & HC & Ha) v Hv. apply HC in Hv. destruct C; [by apply not_elem_of_nil in Hv|].
  rewrite alen_cons in Ha. pose proof (alen_nonneg C). lia.
Qed.

Lemma counted_nonneg d a : counted_level E r d a -> 0 <= a.
Proof. intros (C & _ & _ & ->). apply alen_nonneg. Qed.

Definition exact_frontier (d : Z) (bm : list Z) : Prop := bitmap_ok N bm /\ forall v, bit bm v = true <-> dist E r v d.

Lemma exact_is_frontier d bm : exact_frontier d bm -> frontier E g r d bm.
Proof.
  intros [Hb Hv]. split; [done|]. split; [|intros v; by rewrite Hv]. intros v Hbv. apply dist_within. by apply Hv.
Qed.

Lemma bottom_up_step_ends d tree pst nx :
  0 <= d -> level E g r d tree -> frontier E g r d nx -> bitmap_ok N pst ->
  ends (bfs_bottom_up_step fuel g tree pst nx) (fun '(tree', pst', nx', a) =>
    level E g r (d + 1) tree' /\ bitmap_ok N pst' /\ exact_frontier (d + 1) nx' /\ counted_level E r (d + 1) a).
Proof.
  intros Hd Hlv Hfr Hb. unfold bfs_bottom_up_step, bm_swap. cbn [fst snd]. apply ends_bind. pose proof nt_pos as Hnt.
  unfold search_steps in Hfuel. assert (alen pst <= N + 1) as Hlp by (destruct Hb as [-> _]; zdiv).
  eapply ends_mono.
  { apply (par_for_each _ (fun h x => alen x = alen pst /\ forall v, 0 <= v < alen pst -> x.[v] = Some (h v))
      (fun v => default 0 (pst.[v])) (fun _ => 0)).
    - intros h h' x Hh [Hl Hgt]. split; [done|]. intros v Hv. rewrite <- Hh by done. by apply Hgt.
    - split; [done|]. intros v Hv. destruct (aget_in pst v ltac:(lia)) as [y Hy]. by rewrite Hy.
    - nia.
    - intros k h x Hk _ [Hl Hgt]. rewrite aset_in by lia. eexists. split; [done|]. split; [by rewrite alen_insert|].
      intros v Hv. rewrite aget_insert by lia. case_decide; [done|]. by apply Hgt. }
  intros zero [Hlz Hgz]. assert (zero = replicate (length pst) 0) as ->.
  { apply array_ext; [unfold alen in *; rewrite length_replicate; lia|]. intros i Hi. rewrite Hgz by lia. unfold aget.
    destruct (Z.ltb_spec i 0); [lia|]. symmetry. apply lookup_replicate. split; [done|]. unfold alen in *. lia. }
  apply ends_bind, ends_dealt. intros todos Hlt Hp. rewrite (go_nv _ _ Hg), Z.sub_0_r in Hp. apply ends_bind.
  eapply ends_mono; [apply (bu_ends E g Hg r d Hd tree Hlv nx Hfr fuel todos); [done|done|by apply reset_bitmap|intros i; apply bit_zero|nia]|].
  intros [s ts] (Hlv' & Hb' & Hex & Hc). apply ends_ret. split; [done|]. split; [by destruct Hfr|]. split; [done|done].
Qed.

Lemma bottom_up_loop_ends rounds d tree pst nx V :
  0 <= d -> level E g r d tree -> frontier E g r d nx -> bitmap_ok N pst -> seen_list d V -> N - alen V < Z.of_nat rounds ->
  ends (bottom_up_loop fuel rounds g tree pst nx) (fun '(tree', pst', nx', a) =>
    exists d' V', 0 <= d' /\ level E g r d' tree' /\ bitmap_ok N pst' /\ exact_frontier d' nx' /\ counted_level E r d' a /\
      seen_list d' V' /\ alen V + a <= alen V').
Proof.
  revert d tree pst nx V. induction rounds as [|rounds IH]; intros d tree pst nx V Hd Hlv Hfr Hb HV Hr'.
  { pose proof (seen_bound d V HV). lia. }
  cbn [bottom_up_loop]. apply ends_bind. eapply ends_mono; [by apply bottom_up_step_ends|].
  intros [[[tree' pst'] nx'] a] (Hlv' & Hb' & Hex & Hc). destruct (seen_next d V a HV Hc) as (V' & HV' & HVl).
  pose proof (counted_nonneg _ _ Hc) as Ha. rewrite (go_nv _ _ Hg). unfold BETA.
  destruct (Z.ltb_spec (N / 24) a) as [Hlt|Hge].
  - assert (0 <= N / 24) by (apply Z.div_pos; lia).
    eapply ends_mono; [apply (IH (d + 1) tree' pst' nx' V'); try done; [lia|by apply exact_is_frontier|lia]|].
    intros [[[tree2 pst2] nx2] a2] (d2 & V2 & ? & ? & ? & ? & ? & ? & ?). exists d2, V2.
    do 6 (split; [done|]). lia.
  - apply ends_ret. exists (d + 1), V'. split; [lia|]. do 5 (split; [done|]). lia.
Qed.

(** The level that the queue holds, counted. *)
Lemma queue_counted d vl k1 k2 q : queue E g r d vl k1 k2 q -> counted_level E r d (k2 - k1).
Proof.
  intros [_ _ -> Hk Hnd _ Hql]. assert (alen (drop (Z.to_nat k1) q) = alen q - k1) as Hl.
  { unfold alen in *. rewrite length_drop. lia. }
  exists (drop (Z.to_nat k1) q). split; [|split; [|done]].
  - rewrite <- (take_drop (Z.to_nat k1) q) in Hnd. by apply list.NoDup_app in Hnd as (_ & _ & ?).
  - intros v. rewrite Hql, elem_aget. split.
    + intros (i & Hi). pose proof (aget_some_range _ _ _ Hi). exists (k1 + i). split; [lia|]. unfold aget in *.
      destruct (Z.ltb_spec i 0); [done|]. destruct (Z.ltb_spec (k1 + i) 0); [lia|]. rewrite lookup_drop in Hi. rewrite <- Hi. f_equal. lia.
    + intros (k & Hkk & Hk'). exists (k - k1). unfold aget in *. destruct (Z.ltb_spec k 0); [done|].
      destruct (Z.ltb_spec (k - k1) 0); [lia|]. rewrite lookup_drop, <- Hk'. f_equal. lia.
Qed.

(** The vertices of the queue. *)
Lemma omp_queue_get d vl k1 k2 q k :
  queue E g r d vl k1 k2 q -> k1 <= k < k2 -> exists v, vl.[k] = Some v /\ 0 <= v < N /\ dist E r v d.
Proof.
  intros [[rest ->] _ -> Hk _ Hw Hql] Hkr. destruct (aget_in q k ltac:(lia)) as [v Hv]. exists v.
  rewrite aget_app_l by lia. split; [done|]. split; [apply Hw, elem_aget; eauto|]. apply Hql. exists k. split; [lia|done].
Qed.

Definition stage_work (t : Z * stage) : nat := match t.2 with Subtract => 2 | Arrive => 1 | Wait => 0 end.

Lemma count_edges_ends scout edges :
  alen edges = nt -> ends (region count_edges waits fuel (scout, false) ((fun e => (e, Subtract)) <$> edges)) (fun '(_, ts) => alen ts = nt).
Proof.
  intros He. eapply ends_mono.
  - apply (region_ok count_edges waits (fun _ ts => alen ts = nt) (fun _ ts => sum_of stage_work ts)).
    + unfold alen in *. by rewrite length_fmap.
    + rewrite sum_of_fmap. pose proof (sum_of_le (fun e : Z => stage_work (e, Subtract)) 2 edges ltac:(done)) as Hs.
      unfold search_steps in Hfuel. pose proof nt_pos. unfold alen in *. nia.
    + intros [sc tk] ts tid [e st] Hl Ht Hw. destruct st; [| |done].
      * eexists _, _. split; [done|]. split; [unfold alen in *; by rewrite length_insert|].
        pose proof (sum_of_insert stage_work ts tid _ (e - sc, Arrive) Ht) as Hs. cbn [stage_work snd] in Hs. lia.
      * eexists _, _. split; [done|]. split; [unfold alen in *; by rewrite length_insert|].
        pose proof (sum_of_insert stage_work ts tid _ (e, Wait) Ht) as Hs. cbn [stage_work snd] in Hs. lia.
  - by intros [? ts] [Hl _].
Qed.

Lemma count_frontier_ends d vl k1 k2 q sc :
  queue E g r d vl k1 k2 q -> ends (count_frontier fuel g vl k1 k2 sc) (fun _ => True).
Proof.
  intros Hq. unfold count_frontier. apply ends_bind, ends_dealt. intros todos _ Hp. apply ends_bind. eapply ends_mono.
  - apply (region_ok (scout_step g vl) scanned (fun _ ts => forall i, i ∈ ts ≫= fst -> k1 <= i < k2) (fun _ ts => length (ts ≫= fst))).
    + intros i Hi. assert (i ∈ mjoin todos) as Hj; [|rewrite Hp in Hj; apply elem_of_seqZ in Hj; lia].
      apply list_elem_of_bind in Hi as (t & Hi & (todo & -> & Hin)%list_elem_of_fmap). apply list_elem_of_join. eauto.
    + assert (((fun todo : list Z => (todo, 0)) <$> todos) ≫= fst = mjoin todos) as ->.
      { clear. induction todos as [|l todos IH]; [done|]. change (mjoin (l :: todos)) with (l ++ mjoin todos). by rewrite <- IH. }
      rewrite Hp, length_seqZ. destruct Hq as [[rest Hvl] Hlen -> Hk _ _ _]. rewrite Hvl, alen_app in Hlen.
      pose proof (alen_nonneg rest). unfold search_steps in Hfuel. pose proof nt_pos. nia.
    + intros [] ts tid [todo sum] HI Ht Hs. destruct todo as [|i todo]; [done|].
      destruct (bind_insert fst ts tid (i :: todo, sum) (todo, sum) Ht) as (rest & E1 & _). cbn [fst] in E1.
      destruct (omp_queue_get d vl k1 k2 q i Hq) as (v & Hv & Hvr & _); [apply HI; rewrite E1; left|].
      destruct (row_get E g Hg v Hvr) as (Ho & He & _). cbn [scout_step]. rewrite Hv. cbn [mbind option_bind]. rewrite He, Ho.
      cbn [mbind option_bind]. eexists _, _. split; [done|].
      match goal with |- context [<[tid := ?t']> ts] => destruct (bind_insert fst ts tid _ t' Ht) as (rest' & E3 & E4) end.
      cbn [fst] in E3, E4. split.
      * intros j Hj. apply HI. rewrite E3. rewrite E4 in Hj. apply elem_of_app in Hj as [Hj|Hj]; [right|right]; apply elem_of_app; eauto.
      * rewrite E3, E4. cbn. lia.
  - intros [? ?] _. by apply ends_ret.
Qed.

(** A bottom-up phase, from a queue to a queue. *)
Lemma bottom_up_phase d tree vl pst nx k1 k2 q V :
  0 <= d -> level E g r d tree -> queue E g r d vl k1 k2 q -> bitmap_ok N pst -> bitmap_ok N nx ->
  (forall v, bit nx v = true -> within E r d v) -> seen_list d V ->
  ends (fill_bitmap_from_queue fuel nx vl k1 k2) (fun nx' =>
    ends (bottom_up_loop fuel fuel g tree pst nx') (fun '(tree', pst', nx'', a) =>
      ends (fill_queue_from_bitmap fuel (nv g) nx'' vl) (fun '(vl', k2') =>
        exists d' V' q', 0 <= d' /\ level E g r d' tree' /\ bitmap_ok N pst' /\ bitmap_ok N nx'' /\
          (forall v, bit nx'' v = true -> within E r d' v) /\ counted_level E r d' a /\
          seen_list d' V' /\ alen V + a <= alen V' /\ queue E g r d' vl' 0 k2' q'))).
Proof.
  intros Hd Hlv Hq Hbp Hbn Hnw HV. pose proof nt_pos as Hnt. unfold search_steps in Hfuel. pose proof Hq as [[rest Hvl] Hlen Hk2 Hk _ _ Hql].
  assert (k2 <= N) as Hk2N by (rewrite Hvl, alen_app in Hlen; pose proof (alen_nonneg rest); lia).
  eapply ends_mono; [apply (fill_ends fuel N vl k1 k2 nx Hbn); [|lia|nia]|].
  { intros k Hkr. destruct (omp_queue_get d vl k1 k2 q k Hq Hkr) as (v & ? & ? & _). eauto. }
  intros nx' [Hbn' Hbits]. assert (frontier E g r d nx') as Hfr.
  { split; [done|]. split.
    - intros v [Hv|(k & Hkr & Hv)]%Hbits; [by apply Hnw|]. destruct (omp_queue_get d vl k1 k2 q k Hq Hkr) as (v' & Hv' & _ & Hd').
      rewrite Hv in Hv'. injection Hv' as <-. by apply dist_within.
    - intros v Hv. apply Hbits. right. apply Hql in Hv as (k & Hkk & Hv). pose proof (aget_some_range _ _ _ Hv).
      exists k. split; [lia|]. by rewrite Hvl, aget_app_l by lia. }
  pose proof (alen_nonneg V). eapply ends_mono; [apply (bottom_up_loop_ends fuel d tree pst nx' V); try done; nia|].
  intros [[[tree' pst'] nx''] a] (d' & V' & Hd' & Hlv' & Hb' & [Hbx Hex] & Hc & HV' & Ha). rewrite (go_nv _ _ Hg).
  eapply ends_mono; [apply (fq_ends fuel N nx'' Hbx); [lia|done|nia]|].
  intros [vl' k2'] (fl & rest' & -> & Hlen' & -> & Hnd & Hfl). exists d', V', fl. do 4 (split; [done|]).
  split; [intros v Hv; apply dist_within; by apply Hex|]. do 3 (split; [done|]). pose proof (alen_nonneg fl). split; try done.
  - by exists rest'.
  - intros v Hv%Hfl. split; [apply dist_within; by apply Hex|by apply Hbx].
  - intros v. rewrite <- Hex, <- Hfl, elem_aget. split; [|intros (k & _ & ?); eauto].
    intros (k & Hk'). exists k. apply aget_some_range in Hk' as ?. split; [lia|done].
Qed.

(** One of the threads goes down and another does not. *)
Definition disagree (x : Z * list Z) : Prop :=
  alen x.2 = nt /\ exists i j e e', x.2 !! i = Some e /\ x.2 !! j = Some e' /\ goes_down x.1 e = true /\ goes_down x.1 e' = false.

Lemma split_disagree scout edges :
  alen edges = nt -> forallb (goes_down scout) edges = false -> forallb (fun e => negb (goes_down scout e)) edges = false ->
  disagree (scout, edges).
Proof.
  assert (forall p : Z -> bool, forallb p edges = false -> exists i e, edges !! i = Some e /\ p e = false) as Hex.
  { intros p. induction edges as [|e l IH]; [done|]. cbn [forallb]. destruct (p e) eqn:Ep; [|by exists O, e].
    intros (i & e' & Hi)%IH. by exists (S i), e'. }
  intros Hl (j & e' & Hj & He')%Hex (i & e & Hi & He)%Hex. split; [done|]. exists i, j, e, e'. split_and!; try done.
  by apply negb_false_iff.
Qed.

(** The search ends in a tree, or the threads split. *)
Definition searched (o : outcome) : Prop :=
  match o with
  | Searched tree pst nx vl => bfs_tree E N r tree /\ bitmap_ok N pst /\ bitmap_ok N nx /\ alen vl = N
  | Split scout edges => disagree (scout, edges)
  end.

Lemma search_loop_ends rounds d tree vl pst nx k1 k2 q V a scout edges :
  0 <= d -> level E g r d tree -> queue E g r d vl k1 k2 q -> bitmap_ok N pst -> bitmap_ok N nx ->
  (forall v, bit nx v = true -> within E r d v) -> seen_list d V -> counted_level E r d a -> alen edges = nt ->
  N - alen V + (if a =? 0 then 1 else 2) <= Z.of_nat rounds ->
  ends (search_loop fuel rounds g tree vl pst nx k1 k2 a scout edges) searched.
Proof.
  revert d tree vl pst nx k1 k2 q V a scout edges.
  induction rounds as [|rounds IH]; intros d tree vl pst nx k1 k2 q V a scout edges Hd Hlv Hq Hbp Hbn Hnw HV Hc He Hrd.
  { pose proof (seen_bound d V HV). destruct (a =? 0); lia. }
  cbn [search_loop]. destruct (Z.eqb_spec a 0) as [->|Ha].
  { apply ends_ret. split; [|by split; [|split; [|apply Hq]]]. by apply (level_last E g r d tree), counted_zero. }
  destruct (forallb (goes_down scout) edges) eqn:Edown.
  - pose proof Hq as [_ _ _ Hk Hnd Hqw Hql]. apply ends_bind. eapply ends_mono.
    { apply (td_ends E g Hg r d Hd tree Hlv q k1 Hnd Hqw (proj1 Hk) Hql fuel vl k2 Hq).
      unfold td_steps. unfold search_steps in Hfuel. pose proof nt_pos. nia. }
    intros [[[tree' vl'] k1'] k2'] (Hlv' & q' & Hq'). apply ends_bind. eapply ends_mono; [by apply count_edges_ends|].
    intros [s ts] Hts. apply ends_bind. eapply ends_mono; [by eapply count_frontier_ends|]. intros scout' _.
    pose proof (queue_counted _ _ _ _ _ Hq') as Hc'. destruct (seen_next d V _ HV Hc') as (V' & HV' & HVl).
    pose proof (counted_nonneg _ _ Hc'). apply (IH (d + 1) tree' vl' pst nx k1' k2' q' V'); try done; [lia| | |].
    + intros v Hv. eapply within_mono; [|by apply Hnw]. lia.
    + unfold alen in *. by rewrite length_fmap.
    + destruct (Z.eqb_spec (k2' - k1') 0); lia.
  - destruct (forallb (fun e => negb (goes_down scout e)) edges) eqn:Eup.
    + apply ends_bind. eapply ends_mono; [by apply (bottom_up_phase d tree vl pst nx k1 k2 q V)|]. intros nx' Hloop.
      apply ends_bind. eapply ends_mono; [exact Hloop|]. intros [[[tree' pst'] nx''] a'] Hfill.
      apply ends_bind. eapply ends_mono; [exact Hfill|].
      intros [vl' k2'] (d' & V' & q' & Hd' & Hlv' & Hbp' & Hbn' & Hnw' & Hc' & HV' & Hal & Hq').
      apply ends_bind. eapply ends_mono; [by eapply count_frontier_ends|]. intros scout' _.
      pose proof (counted_nonneg _ _ Hc'). eapply (IH d' tree' vl' pst' nx'' 0 k2' q' V' a'); try done.
      destruct (Z.eqb_spec a' 0); lia.
    + apply ends_ret. by apply split_disagree.
Qed.

(** What a search starts from and leaves. *)
Record ready (G : omp_globals) : Prop := {
  rd_rows : rows G = g;
  rd_vlist : alen (vlist G) = N;
  rd_past : bitmap_ok N (past G);
  rd_next : bitmap_ok N (next G);
}.

Lemma clear_tree_ends lo hi tree :
  0 <= lo -> hi <= N -> N <= alen tree ->
  ends (par_for (fun k tree => tree.[k <- -1]) fuel lo hi tree) (fun tree' =>
    alen tree' = alen tree /\ forall v, tree'.[v] = if decide (lo <= v < hi) then Some (-1) else tree.[v]).
Proof.
  intros Hlo Hhi Hl.
  apply (par_for_each _ (fun h x => alen x = alen tree /\ forall v, x.[v] = if decide (lo <= v < hi) then Some (h v) else tree.[v])
    (fun v => default 0 (tree.[v])) (fun _ => -1)).
  - intros h h' x Hh [Hlx Hx]. split; [done|]. intros v. rewrite Hx. case_decide; [by rewrite Hh|done].
  - split; [done|]. intros v. case_decide; [|done]. destruct (aget_in tree v ltac:(lia)) as [y Hy]. by rewrite Hy.
  - unfold search_steps in Hfuel. pose proof nt_pos. nia.
  - intros k h x Hk _ [Hlx Hx]. rewrite aset_in by lia. eexists. split; [done|]. split; [by rewrite alen_insert|]. intros v.
    rewrite aget_insert by lia. rewrite Hx. repeat case_decide; try done. lia.
Qed.

Lemma first_level tree :
  N <= alen tree -> tree.[r] = Some r -> (forall v, 0 <= v < N -> v <> r -> tree.[v] = Some (-1)) -> level E g r 0 tree.
Proof.
  intros Hl Hroot Hrest. split; [done|done|]. intros v Hv. destruct (decide (v = r)) as [->|Hne].
  - right. exists r. split; [done|]. split; [lia|]. split; [|by left]. exists 0. split; [done|constructor].
  - left. split; [by apply Hrest|]. intros (n & Hn & Hw). inversion Hw as [|n' u v' Hw' Ha]; [done|].
    apply walk_nonneg in Hw'. lia.
Qed.

Lemma make_bfs_tree_ends G out :
  ready G -> N <= alen out ->
  ends (make_bfs_tree fuel G out r) (fun o =>
    match o with
    | inl (tree, m, G') => m = maxvtx g /\ bfs_tree E N r tree /\ ready G'
    | inr split => disagree split
    end).
Proof.
  intros [Hrows Hvl Hbp Hbn] Hout. unfold make_bfs_tree. rewrite Hrows. destruct (row_get E g Hg r Hr) as (Ho & He & _).
  assert (exists total, XOFF (xoff g) (nv g) = Some total) as [total Ht].
  { destruct (go_rows _ _ Hg) as ([Hx _] & _). cbn [fst] in Hx. unfold XOFF. rewrite (go_nv _ _ Hg). apply aget_in. lia. }
  apply ends_bind. eapply ends_lift; [apply aset_in; lia|]. apply ends_bind. eapply ends_lift; [apply aset_in; lia|].
  apply ends_bind. eapply ends_lift; [apply reset_ok|]. apply ends_bind. eapply ends_lift; [apply reset_ok|].
  apply ends_bind. eapply ends_lift; [exact He|]. apply ends_bind. eapply ends_lift; [exact Ho|].
  apply ends_bind. eapply ends_lift; [exact Ht|]. rewrite (go_nv _ _ Hg).
  apply ends_bind. eapply ends_mono; [apply clear_tree_ends; [lia|lia|by rewrite alen_insert]|]. intros t1 [Hl1 Hg1]. rewrite alen_insert in Hl1.
  apply ends_bind. eapply ends_mono; [apply clear_tree_ends; lia|]. intros t2 [Hl2 Hg2].
  assert (level E g r 0 t2) as Hlv.
  { apply first_level; [lia| |].
    - rewrite Hg2, decide_False, Hg1, decide_False, aget_insert by lia. by rewrite decide_True.
    - intros v Hv Hne. rewrite Hg2. case_decide as H2; [done|]. rewrite Hg1, decide_True by lia. done. }
  assert (forall v, within E r 0 v <-> v = r) as Hw0.
  { intros v. split; [|intros ->; exists 0; split; [done|constructor]]. intros (n & Hn & Hw). inversion Hw as [|n' u v' Hw' Ha]; [done|].
    apply walk_nonneg in Hw'. lia. }
  assert (forall v, dist E r v 0 <-> v = r) as Hd0.
  { intros v. rewrite <- Hw0. split; [apply dist_within|]. intros Hw. apply within_dist; [done|]. intros (n & Hn & Hwn). apply walk_nonneg in Hwn. lia. }
  apply ends_bind. eapply ends_mono.
  - apply (search_loop_ends fuel 0 t2 _ _ _ 0 1 [r] [r] 1); try done.
    + destruct (vlist G) as [|x vl] eqn:Evl; [change (alen (@nil Z)) with 0 in Hvl; lia|]. split; try done.
      * by exists vl.
      * constructor; [apply not_elem_of_nil|constructor].
      * intros v ->%list_elem_of_singleton. split; [by apply Hw0|done].
      * intros v. rewrite Hd0. split; [intros ->; by exists 0|]. intros (k & Hk & Hv). assert (v ∈ [r]) as Hin by (apply elem_aget; eauto).
        by apply list_elem_of_singleton in Hin.
    + by apply reset_bitmap.
    + by apply reset_bitmap.
    + intros v. by rewrite bit_zero.
    + split; [apply NoDup_singleton|]. intros v. by rewrite Hw0, list_elem_of_singleton.
    + exists [r]. split; [apply NoDup_singleton|]. split; [|done]. intros v. by rewrite Hd0, list_elem_of_singleton.
    + unfold alen. rewrite length_replicate. pose proof nt_pos. lia.
    + change (alen [r]) with 1. cbn [Z.eqb]. unfold search_steps in Hfuel. pose proof nt_pos. nia.
  - intros [tree pst nx vl|sc es]; [|intros; by apply ends_ret]. intros (Hb & H1 & H2 & H3). apply ends_ret. split; [done|]. split; [done|]. by split.
Qed.
End Whole.

(** ** The kernel *)

Section Kernel.
Context {team_of : Team} (fuel : nat) (E : list packed_edge) (HE : Forall edge_ok E) (m : Z) (Hm : max_vertex E m).
Context (Hrange : m + 1 < 2 ^ 31 - 64) (Hlen : alen E < 2 ^ 58).

Lemma create_ends buf garbage :
  alen buf = nt -> build_steps E m <= Z.of_nat fuel ->
  ends (create_graph_from_edgelist fuel E (alen E) buf garbage) (fun G =>
    exists g, graph_ok E g /\ maxvtx g = m /\ ready g G).
Proof.
  intros Hbuf Hf. unfold create_graph_from_edgelist. apply ends_bind. eapply ends_mono; [apply create_rows_ends; try done|].
  { intros m' Hm'. by rewrite (max_vertex_unique E m' m Hm' Hm). }
  intros g Hg. pose proof (max_vertex_unique E _ _ (go_max _ _ Hg) Hm) as Hmx. pose proof Hm as [? _]. rewrite (go_nv _ _ Hg), Hmx.
  destruct (bm_init_ok (m + 1) garbage ltac:(lia)) as (bm & Hi & Hb & _).
  apply ends_bind. eapply ends_lift; [exact Hi|]. apply ends_bind. eapply ends_lift; [exact Hi|]. apply ends_ret.
  exists g. split; [done|]. split; [done|]. split; cbn [rows vlist past next]; rewrite ?Hmx; try done.
  apply csr_alen_xmalloc. lia.
Qed.
End Kernel.

(** The steps that are enough for a graph whose largest vertex is [m]. *)
Definition omp_steps {team_of : Team} (E : list packed_edge) (m : Z) : Z :=
  build_steps E m + (2 * (m + 1) + 8 * nt + 8) * (m + 2).

(** C14: for every number of threads, every distribution of the loops' iterations
    and every order of the threads' steps, for edge lists with fewer than 2^58
    edges whose vertices are fewer than 2^31 - 64 (the bitmaps' size is an [int]):
    building the rows in parallel and searching them, then searching them again,
    stays inside the arrays, ends, and gives a breadth-first tree each time, unless
    in front of a step of a search one thread takes the step to be top-down and
    another one takes it to be bottom-up, by the counts returned. *)
Theorem omp_csr_bfs {team_of : Team} fuel E m buf garbage out out2 r r2 :
  Forall edge_ok E -> alen E < 2 ^ 58 -> max_vertex E m -> m + 1 < 2 ^ 31 - 64 ->
  alen buf = nt -> omp_steps E m <= Z.of_nat fuel ->
  0 <= r <= m -> 0 <= r2 <= m -> m < alen out -> m < alen out2 ->
  ends (G ← create_graph_from_edgelist fuel E (alen E) buf garbage;
        x ← make_bfs_tree fuel G out r;
        match x with
        | inl (tree, m1, G) => y ← make_bfs_tree fuel G out2 r2; mret (inl (tree, m1, y))
        | inr split => mret (inr split)
        end)
    (fun x =>
      match x with
      | inl (tree, m1, y) => m1 = m /\ bfs_tree E (m + 1) r tree /\
          match y with inl (tree2, m2, _) => m2 = m /\ bfs_tree E (m + 1) r2 tree2 | inr split => disagree split end
      | inr split => disagree split
      end).
Proof.
  intros HE Hlen Hm Hrange Hbuf Hf Hr Hr2 Hout Hout2. unfold omp_steps, build_steps in Hf. pose proof nt_pos as Hnt. pose proof (alen_nonneg E).
  apply ends_bind. eapply ends_mono; [apply (create_ends fuel E HE m Hm Hrange Hlen buf garbage Hbuf); unfold build_steps; nia|].
  intros G (g & Hg & Hmx & HG). assert (search_steps g <= Z.of_nat fuel) as Hs by (unfold search_steps; rewrite Hmx; nia).
  apply ends_bind. eapply ends_mono; [apply (make_bfs_tree_ends E g Hg r ltac:(lia) ltac:(lia) fuel Hs G out HG); lia|].
  intros [[[tree m1] G1]|sp]; [|intros; by apply ends_ret]. intros (-> & Hb & HG1). rewrite Hmx in *.
  apply ends_bind. eapply ends_mono; [apply (make_bfs_tree_ends E g Hg r2 ltac:(lia) ltac:(lia) fuel Hs G1 out2 HG1); lia|].
  intros y Hy. apply ends_ret. split; [done|]. split; [done|]. rewrite Hmx in Hy.
  destruct y as [[[tree2 m2] G2]|sp]; [|done]. destruct Hy as (-> & Hb2 & _). done.
Qed.
(** ** A schedule that splits the threads *)

(** The path 0 - 1 - ... - 22. *)
Definition path : list packed_edge := (fun i => MkEdge i (i + 1)) <$> seqZ 0 22.

(** With two threads the search of a path of 23 vertices comes to a point where
    the threads disagree about the direction of the next step: one has cleared the
    shared count of edges before the other has subtracted it from its own. *)
Example omp_csr_split garbage :
  exists scout edges c, (G ← @create_graph_from_edgelist first_first (Z.to_nat 2000) path 22 [0; 0] garbage;
    @make_bfs_tree first_first (Z.to_nat 2000) G (replicate 23 0) 0) 0%nat = Some (inr (scout, edges), c) /\
    map (goes_down scout) edges = [false; true].
Proof. eexists _, _, _. split; vm_compute; reflexivity. Qed.

Lemma omp_csr_bfs_witness :
  let E := [MkEdge 0 3; MkEdge 3 1; MkEdge 2 2] in
  let searches : Par (list Z * Z * (list Z * Z * omp_globals + Z * list Z) + Z * list Z) :=
    (G ← @create_graph_from_edgelist first_first (Z.to_nat 500) E 3 [0; 0] (fun _ => 5);
     x ← @make_bfs_tree first_first (Z.to_nat 500) G [7; 7; 7; 7] 3;
     match x with
     | inl (tree, m1, G) => y ← @make_bfs_tree first_first (Z.to_nat 500) G [7; 7; 7; 7] 0; mret (inl (tree, m1, y))
     | inr split => mret (inr split)
     end) in
  ends searches (fun x =>
    match x with
    | inl (tree, m1, y) => m1 = 3 /\ bfs_tree E 4 3 tree /\
        match y with inl (tree2, m2, _) => m2 = 3 /\ bfs_tree E 4 0 tree2 | inr split => disagree (team_of := first_first) split end
    | inr split => disagree (team_of := first_first) split
    end) /\
  match searches O with
  | Some (inl (tree, _, inl (tree2, _, _)), _) => tree = [3; 3; -1; 3] /\ tree2 = [0; 3; -1; 0]
  | _ => False
  end.
Proof.
  cbv zeta. split; [|vm_compute; split; reflexivity].
  apply (@omp_csr_bfs first_first (Z.to_nat 500) [MkEdge 0 3; MkEdge 3 1; MkEdge 2 2] 3 [0; 0] (fun _ => 5) [7; 7; 7; 7] [7; 7; 7; 7] 3 0).
  - unfold edge_ok, in_u32. repeat (constructor; [cbn; lia|]). constructor.
  - vm_compute. reflexivity.
  - split; [lia|]. split.
    + intros u v (e & He & Hj). apply elem_of_cons in He as [->|He]; [destruct Hj; cbn in *; lia|].
      apply elem_of_cons in He as [->|He]; [destruct Hj; cbn in *; lia|]. apply list_elem_of_singleton in He as ->. destruct Hj; cbn in *; lia.
    + right. exists 1, (MkEdge 3 1). split; [right; left|by left].
  - lia.
  - reflexivity.
  - vm_compute. discriminate.
  - lia.
  - lia.
  - vm_compute. reflexivity.
  - vm_compute. reflexivity.
Defined.

End OmpSearch.
