(* ===== verification/Graph500.v ===== *)
(** * The benchmark (sources/graph500/graph500.c, prng.c)

    [run_bfs]: build the graph, sample the roots, search from every root and
    check every tree.  The search is one of the program's kernels, linked
    in by name; here it is an interface with the two promises the harness relies
    on, and SeqList and SeqCsr are its instances. *)

From Stdlib Require Import ZArith Lia SpecFloat.
From stdpp Require Import list numbers.
From S2P Require Import Prelude Arrays Doubles ModArith Mrg MrgTable Graph Kronecker Rmat SeqList SeqCsr Verify.
#[local] Open Scope Z_scope.

Module Graph500.
Import Mrg Graph.

(** ** The interface of a search kernel *)

Class Kernel (G : Type) := {
  kernel_create : list packed_edge -> Z -> option G;
  kernel_bfs : G -> list Z -> Z -> option (list Z * Z);
  (** [g] is the graph of the edges, whose largest vertex is [m]. *)
  kernel_graph : list packed_edge -> Z -> G -> Prop;
}.

Class KernelLaws (G : Type) `{Kernel G} := {
  kernel_create_ok E :
    Forall edge_ok E -> alen E < 2 ^ 58 ->
    exists g m, kernel_create E (alen E) = Some g /\ max_vertex E m /\ kernel_graph E m g;
  kernel_bfs_ok E m g out r :
    kernel_graph E m g -> 0 <= r <= m -> m < alen out ->
    exists tree, kernel_bfs g out r = Some (tree, m) /\ bfs_tree E (m + 1) r tree /\
      m < alen tree;
}.

#[export] Instance seq_list_kernel : Kernel SeqList.globals := {
  kernel_create := SeqList.create_graph_from_edgelist;
  kernel_bfs := SeqList.make_bfs_tree;
  kernel_graph E m g := SeqList.graph_ok E g /\ SeqList.maxvtx g = m;
}.

#[export] Instance seq_list_laws : KernelLaws SeqList.globals.
Proof.
  split.
  - intros E HE Hlen. destruct (SeqList.create_ok E HE Hlen) as (g & Hc & Hg).
    exists g, (SeqList.maxvtx g). split; [done|]. split; [by destruct Hg|done].
  - intros E m g out r [Hg <-] Hr Hout.
    destruct (SeqList.make_bfs_tree_ok E g Hg r out) as (tree & Ht & Hb & Hl); [lia|lia|].
    exists tree. split; [done|]. split; [done|lia].
Qed.

#[export] Instance seq_csr_kernel : Kernel SeqCsr.globals := {
  kernel_create := SeqCsr.create_graph_from_edgelist;
  kernel_bfs := SeqCsr.make_bfs_tree;
  kernel_graph E m g := SeqCsr.graph_ok E g /\ SeqCsr.maxvtx g = m;
}.

#[export] Instance seq_csr_laws : KernelLaws SeqCsr.globals.
Proof.
  split.
  - intros E HE Hlen. destruct (SeqCsr.csr_create_ok E HE Hlen) as (g & Hc & Hg).
    exists g, (SeqCsr.maxvtx g). split; [done|]. split; [by destruct Hg|done].
  - intros E m g out r [Hg <-] Hr Hout.
    destruct (SeqCsr.csr_make_bfs_tree_ok E g Hg r out) as (tree & Ht & Hb & Hl); [lia|lia|].
    exists tree. split; [done|]. split; [done|lia].
Qed.

(** ** The code *)

Definition NBFS_max : Z := 1.

(** prng.c: the seed of the root sampler. *)
Definition prng_make_mrg_seed (userseed : Z) : list Z :=
  [ u64 (Z.land userseed 0x3FFFFFFF + 1);
    u64 (Z.land (Z.shiftr userseed 30) 0x3FFFFFFF + 1);
    u64 (Z.land userseed 0x3FFFFFFF + 1);
    u64 (Z.land (Z.shiftr userseed 30) 0x3FFFFFFF + 1);
    u64 (u64 (u64 (Z.shiftl (Z.shiftr userseed 60) 4) + Z.shiftr userseed 60) + 1) ].

(** The user seed and the state of the sampler; [SEED] is what strtol makes of
    the environment variable, if it is set and without error. *)
Definition init_random (SEED : option Z) : option (Z * mrg_state) :=
  let seed := default (-1) SEED in
  let seed := if seed <? 0 then 0xDECAFBAD else seed in
  let userseed := u64 seed in
  st ← mrg_seed (prng_make_mrg_seed (u64 seed));
  Some (userseed, st).

(** What the process meets outside: the root file, the variable
    SKIP_VALIDATION and whether the two marker files can be created. *)
Record environment := MkEnv {
  rootname : option (option (list Z));
  SKIP_VALIDATION : bool;
  ready_file : bool;
  done_file : bool;
}.

Inductive outcome :=
| ExitFailure
| ExitMinus1
| AbortFailed
| ExitDone (NBFS : Z) (bfs_root bfs_nedge : list Z).

(** [xmalloc_large(n * size)]: zeroed cells of [size] bytes. *)
Definition xmalloc_cells (n size : Z) : list Z := replicate (Z.to_nat (u64 (n * size) / size)) 0.

(** The body of the loop that marks the ends of an edge. *)
Definition mark_edge (IJ : list packed_edge) (k : Z) (has_adj : list Z) : option (list Z) :=
  e ← IJ.[k];
  let i := get_v0_from_edge e in
  let j := get_v1_from_edge e in
  if negb (i =? j) then has_adj ← has_adj.[j <- 1]; has_adj.[i <- 1] else Some has_adj.

Definition count_adj (has_adj : list Z) (k nvtx_connected : Z) : option Z :=
  h ← has_adj.[k]; Some (if negb (h =? 0) then nvtx_connected + 1 else nvtx_connected).

(** [for (; i<m; i++) if (bfs_root[i] == challenge) break;] *)
Fixpoint find_root (fuel : nat) (bfs_root : list Z) (m challenge i : Z) : option Z :=
  match fuel with
  | O => None
  | S fuel =>
      if i <? m then
        r ← bfs_root.[i];
        if u64 r =? challenge then Some i else find_root fuel bfs_root m challenge (i + 1)
      else Some i
  end.

Section Harness.
Context {G : Type} `{Kernel G} {MA : ModArith}.
(** Which of the two calls in [mrg_get_double_orig] the compiler makes first. *)
Context (left_first : bool).

(** The vertex that is tried next:
    [(unsigned long)(mrg_get_double_orig(prng_state) * (double)(nvtx_scale-1))]. *)
Definition challenge_of (nvtx_scale : Z) (st : mrg_state) : option (mrg_state * Z) :=
  '(st, d) ← Rmat.mrg_get_double_orig left_first st;
  challenge ← ulong_of (dmul d (double_of (nvtx_scale - 1)));
  Some (st, challenge).

(** [for (k = 0; k < nvtx_scale && m < NBFS; ++k)], [n] rounds left. *)
Fixpoint sample_roots (n : nat) (nvtx_scale NBFS : Z) (has_adj : list Z) (st : mrg_state) (bfs_root : list Z) (m : Z)
    : option (mrg_state * list Z * Z) :=
  match n with
  | O => Some (st, bfs_root, m)
  | S n =>
      if m <? NBFS then
        '(st, challenge) ← challenge_of nvtx_scale st;
        h ← has_adj.[challenge];
        if negb (h =? 0) then
          i ← find_root (S (length bfs_root)) bfs_root m challenge 0;
          if i =? m then
            bfs_root ← bfs_root.[m <- challenge];
            sample_roots n nvtx_scale NBFS has_adj st bfs_root (m + 1)
          else sample_roots n nvtx_scale NBFS has_adj st bfs_root m
        else sample_roots n nvtx_scale NBFS has_adj st bfs_root m
      else Some (st, bfs_root, m)
  end.

(** The roots and their number, or the exit when there is none; [t] is the
    variable the code compares without having set it. *)
Definition choose_roots (nvtx_scale : Z) (IJ : list packed_edge) (nedge NBFS t : Z) (st : mrg_state)
    : option (option (list Z * Z)) :=
  let has_adj := xmalloc_cells nvtx_scale 4 in
  has_adj ← for_z 0 nvtx_scale (fun k a => a.[k <- 0]) has_adj;
  has_adj ← for_z 0 nedge (mark_edge IJ) has_adj;
  nvtx_connected ← for_z 0 nvtx_scale (count_adj has_adj) 0;
  '(st, bfs_root, m) ← sample_roots (Z.to_nat nvtx_scale) nvtx_scale NBFS has_adj st (replicate (Z.to_nat NBFS_max) 0) 0;
  if (nvtx_connected <=? t) && (m <? NBFS) then
    if 0 <? m then Some (Some (bfs_root, m)) else Some None
  else Some (Some (bfs_root, NBFS)).

Inductive status :=
| Running (bfs_tree bfs_nedge : list Z)
| Aborted.

(** The body of the loop of searches. *)
Definition search_step (env : environment) (nvtx_scale : Z) (IJ : list packed_edge) (nedge : Z) (g : G)
    (bfs_root : list Z) (m : Z) (s : status) : option status :=
  match s with
  | Aborted => Some Aborted
  | Running bfs_tree bfs_nedge =>
      root ← bfs_root.[m];
      assert! root <? nvtx_scale;
      '(bfs_tree, max_bfsvtx) ← kernel_bfs g bfs_tree root;
      if negb (SKIP_VALIDATION env) then
        c ← Verify.verify_bfs_tree bfs_tree max_bfsvtx root IJ nedge;
        bfs_nedge ← bfs_nedge.[m <- c];
        if c <? 0 then Some Aborted else Some (Running bfs_tree bfs_nedge)
      else Some (Running bfs_tree bfs_nedge)
  end.

Definition run_bfs (env : environment) (nvtx_scale : Z) (IJ : list packed_edge) (nedge NBFS t : Z)
    (st : mrg_state) : option outcome :=
  g ← kernel_create IJ nedge;
  let bfs_tree := xmalloc_cells nvtx_scale 8 in
  roots ← match rootname env with
          | None => choose_roots nvtx_scale IJ nedge NBFS t st
          | Some None => Some None
          | Some (Some bfs_root) => Some (Some (bfs_root, NBFS))
          end;
  match roots with
  | None => Some ExitFailure
  | Some (bfs_root, NBFS) =>
      root ← bfs_root.[0];
      '(bfs_tree, max_bfsvtx) ← kernel_bfs g bfs_tree root;
      if negb (ready_file env) then Some ExitMinus1
      else
        s ← for_z 0 NBFS (search_step env nvtx_scale IJ nedge g bfs_root)
              (Running bfs_tree (replicate (Z.to_nat NBFS_max) 0));
        match s with
        | Aborted => Some AbortFailed
        | Running _ bfs_nedge =>
            if negb (done_file env) then Some ExitMinus1 else Some (ExitDone NBFS bfs_root bfs_nedge)
        end
  end.

End Harness.

(** ** The roots *)

(** A vertex with an edge that is not a loop. *)
Definition connected (E : list packed_edge) (v : Z) : Prop := exists w, adj E v w /\ w <> v.

Section Roots.
Context (E : list packed_edge) (nvtx : Z) (Hnv : 1 <= nvtx <= 2 ^ 53).
Context (HE : forall e, e ∈ E -> 0 <= v0 e < nvtx /\ 0 <= v1 e < nvtx).

(** Marks are on connected vertices only. *)
Definition marks_ok (a : list Z) : Prop :=
  alen a = nvtx /\
  forall v, 0 <= v < nvtx -> exists h, a.[v] = Some h /\ (h = 0 \/ h = 1 /\ connected E v).

Lemma mark_vertex_ok a v : marks_ok a -> 0 <= v < nvtx -> connected E v ->
  exists a', a.[v <- 1] = Some a' /\ marks_ok a'.
Proof.
  intros [Hl Ha] Hv Hc. rewrite aset_in by lia. eexists. split; [done|].
  split; [by rewrite alen_insert|]. intros u Hu. rewrite aget_insert by lia.
  destruct (decide (u = v)) as [->|]; [|by apply Ha]. exists 1. split; [done|by right].
Qed.

Lemma mark_edge_ok k a :
  0 <= k < alen E -> marks_ok a -> exists a', mark_edge E k a = Some a' /\ marks_ok a'.
Proof.
  intros Hk Ha. destruct (aget_in E k Hk) as (e & He). unfold mark_edge. rewrite He.
  cbn [mbind option_bind]. unfold get_v0_from_edge, get_v1_from_edge.
  destruct (Z.eqb_spec (v0 e) (v1 e)) as [|Hne]; cbn [negb]; [by exists a|].
  assert (e ∈ E) as Hin by (apply elem_aget; eauto). destruct (HE e Hin) as [H0 H1].
  destruct (mark_vertex_ok a (v1 e) Ha H1) as (a1 & -> & Ha1).
  { exists (v0 e). split; [|done]. exists e. split; [done|by right]. }
  cbn [mbind option_bind]. apply mark_vertex_ok; [done|done|].
  exists (v1 e). split; [|congruence]. exists e. split; [done|by left].
Qed.

Lemma alen_cells n size : 0 < size -> 0 <= n * size < 2 ^ 64 -> alen (xmalloc_cells n size) = n.
Proof.
  intros Hs Hn. unfold xmalloc_cells, alen. rewrite length_replicate, u64_id by (unfold in_u64; lia).
  rewrite Z.div_mul by lia. nia.
Qed.

(** The first [m] cells are distinct connected vertices, the others are zero. *)
Record roots_ok (bfs_root : list Z) (m : Z) : Prop := {
  ro_len : alen bfs_root = NBFS_max;
  ro_m : 0 <= m <= NBFS_max;
  ro_roots : forall i, 0 <= i < m -> exists r, bfs_root.[i] = Some r /\ 0 <= r < nvtx /\ connected E r;
  ro_distinct : forall i j r, 0 <= i < m -> 0 <= j < m ->
    bfs_root.[i] = Some r -> bfs_root.[j] = Some r -> i = j;
  ro_zero : forall i, m <= i < NBFS_max -> bfs_root.[i] = Some 0;
}.

Lemma find_root_ok bfs_root m c fuel i :
  roots_ok bfs_root m -> 0 <= i <= m -> m - i < Z.of_nat fuel ->
  exists i', find_root fuel bfs_root m c i = Some i' /\ i' <= m /\
    (i' = m -> forall j, i <= j < m -> bfs_root.[j] <> Some c).
Proof.
  intros Hr. revert i. induction fuel as [|fuel IH]; intros i Hi Hf; [lia|]. cbn [find_root].
  destruct (Z.ltb_spec i m) as [Hlt|Hge].
  - destruct (ro_roots _ _ Hr i ltac:(lia)) as (r & Hg & Hrn & _). rewrite Hg. cbn [mbind option_bind].
    rewrite u64_id by (unfold in_u64; lia). destruct (Z.eqb_spec r c) as [->|Hne].
    + exists i. split; [done|]. split; lia.
    + destruct (IH (i + 1)) as (i' & -> & Hle & Hn); [lia|lia|]. exists i'. split; [done|].
      split; [done|]. intros He j Hj. destruct (decide (j = i)) as [->|]; [congruence|]. apply Hn; [done|lia].
  - exists i. split; [done|]. split; lia.
Qed.

Lemma add_root_ok bfs_root m c :
  roots_ok bfs_root m -> m < NBFS_max -> 0 <= c < nvtx -> connected E c ->
  (forall j, 0 <= j < m -> bfs_root.[j] <> Some c) ->
  exists bfs_root', bfs_root.[m <- c] = Some bfs_root' /\ roots_ok bfs_root' (m + 1).
Proof.
  intros [Hl Hm Hr Hd Hz] Hlt Hc Hcc Hnew. rewrite aset_in by lia. eexists. split; [done|].
  constructor; [by rewrite alen_insert|lia| | |].
  - intros i Hi. rewrite aget_insert by lia. destruct (decide (i = m)); [by exists c|]. apply Hr. lia.
  - intros i j r Hi Hj. rewrite !aget_insert by lia.
    destruct (decide (i = m)) as [->|]; destruct (decide (j = m)) as [->|]; [done| | |].
    + intros [= <-] Hx. exfalso. apply (Hnew j); [lia|done].
    + intros Hx [= <-]. exfalso. apply (Hnew i); [lia|done].
    + apply Hd; lia.
  - intros i Hi. rewrite aget_insert by lia. rewrite decide_False by lia. apply Hz. lia.
Qed.

Context {MA : ModArith} (left_first : bool).

(** The challenge is a vertex: the number drawn is at most 1, so its product
    with the largest vertex, rounded, is at most that vertex. *)
Lemma challenge_ok st : fe_state st ->
  exists c, challenge_of left_first nvtx st = Some (step (step st), c) /\ 0 <= c < nvtx.
Proof.
  clear HE. intros Hst. unfold challenge_of. rewrite Rmat.get_double_ok by done. cbn [mbind option_bind].
  assert (exists c, dtrunc (dmul (Rmat.drawn left_first st) (double_of (nvtx - 1))) = Some c /\ 0 <= c < nvtx) as (c & Hc & Hr).
  { pose proof (Rmat.drawn_below left_first st Hst) as Hle. pose proof (Rmat.drawn_ok left_first st Hst) as Hd.
    set (d := Rmat.drawn left_first st) in *. clearbody d.
    destruct (decide (nvtx = 1)) as [->|].
    { exists 0. split; [|lia]. destruct Hd as [->|(m & e & -> & _)]; done. }
    destruct (double_of_ok (nvtx - 1) ltac:(lia)) as [NN VN]. destruct Hd as [->|Nd].
    { exists 0. split; [|lia]. by destruct NN as (m & e & -> & _). }
    destruct (dmul_core (-115) 0 (-52) 0 _ _ ltac:(lia) ltac:(lia) ltac:(lia) ltac:(lia) Nd NN) as [Np Herr].
    rewrite (dtrunc_normal (-115 + -52 + 52) (0 + 0 + 54)) by (done || lia). eexists. split; [done|].
    assert (0 < UNIT) as HU by (apply Z.pow_pos_nonneg; lia). destruct (normal_dval _ _ _ Np) as [Hpos|]; [|lia].
    destruct (normal_dval _ _ _ NN) as [HposN|]; [|lia].
    pose proof (rounded_below (-115 + -52 + 52) (0 + 0 + 54) (-52) 0 _ UNIT _ _ ltac:(lia) ltac:(lia) Np NN HU Herr ltac:(nia)) as Hb.
    rewrite VN in Hb. split; [apply Z.div_pos; lia|]. apply Z.div_lt_upper_bound; [done|]. nia. }
  unfold ulong_of. rewrite Hc. cbn [mbind option_bind]. assert ((0 <=? c) && (c <? 2 ^ 64) = true) as -> by lia.
  cbn [check mbind option_bind]. by exists c.
Qed.

Lemma sample_roots_ok n NBFS has_adj st bfs_root m :
  marks_ok has_adj -> NBFS <= NBFS_max -> fe_state st -> roots_ok bfs_root m -> m <= NBFS ->
  exists st' bfs_root' m', sample_roots left_first n nvtx NBFS has_adj st bfs_root m = Some (st', bfs_root', m') /\
    roots_ok bfs_root' m' /\ m' <= NBFS.
Proof.
  intros Ha HN. revert st bfs_root m. induction n as [|n IH]; intros st bfs_root m Hst Hr Hm; cbn [sample_roots].
  { by exists st, bfs_root, m. }
  destruct (Z.ltb_spec m NBFS) as [Hlt|]; [|by exists st, bfs_root, m].
  destruct (challenge_ok st Hst) as (c & -> & Hch). cbn [mbind option_bind].
  assert (fe_state (step (step st))) as Hst' by (by do 2 apply step_fe). destruct (proj2 Ha c Hch) as (h & -> & Hh). cbn [mbind option_bind].
  destruct Hh as [->|[-> Hcc]]; cbn [Z.eqb negb]; [by apply IH|].
  pose proof (ro_m _ _ Hr) as Hm0. pose proof (ro_len _ _ Hr) as Hlen. unfold alen in Hlen.
  destruct (find_root_ok bfs_root m c (S (length bfs_root)) 0 Hr) as (i & -> & Hle & Hnew); [lia|lia|].
  cbn [mbind option_bind]. destruct (Z.eqb_spec i m) as [->|]; [|by apply IH].
  destruct (add_root_ok bfs_root m c Hr) as (r' & -> & Hr'); [lia|done|done| |].
  { intros j Hj. apply Hnew; [done|lia]. }
  cbn [mbind option_bind]. apply IH; [done|done|lia].
Qed.

Lemma marks_end a :
  marks_ok a -> exists c, for_z 0 nvtx (count_adj a) 0 = Some c /\ 0 <= c <= nvtx.
Proof.
  intros [Hl Ha]. destruct (for_z_inv (fun i c => 0 <= c <= i) 0 nvtx (count_adj a) 0) as (c & -> & Hc);
    [lia|lia| |by exists c].
  intros i c Hi Hc. unfold count_adj. destruct (Ha i Hi) as (h & -> & _). cbn [mbind option_bind].
  eexists. split; [done|]. destruct (negb (h =? 0)); lia.
Qed.

Lemma choose_roots_ok NBFS t st :
  fe_state st -> 0 <= NBFS <= NBFS_max ->
  exists res, choose_roots left_first nvtx E (alen E) NBFS t st = Some res /\
    match res with
    | None => 0 < NBFS /\ 0 <= t
    | Some (bfs_root, N) => exists m, roots_ok bfs_root m /\ m <= N <= NBFS /\ (0 < NBFS -> 0 < N) /\
        (nvtx <= t -> m = N) /\ (t < 0 -> N = NBFS)
    end.
Proof.
  intros Hst HN. unfold choose_roots. pose proof (alen_cells nvtx 4 ltac:(lia) ltac:(lia)) as Hl.
  destruct (fill_range_ok (xmalloc_cells nvtx 4) 0 nvtx 0) as (a & -> & Hla & Hga); [lia|lia|].
  cbn [mbind option_bind].
  destruct (for_z_inv (fun _ a => marks_ok a) 0 (alen E) (mark_edge E) a) as (a1 & -> & Ha1).
  { apply alen_nonneg. }
  { split; [lia|]. intros v Hv. rewrite Hga by lia. exists 0.
    assert ((0 <=? v) && (v <? nvtx) = true) as -> by lia. split; [done|by left]. }
  { intros k a2 Hk Ha2. by apply mark_edge_ok. }
  cbn [mbind option_bind]. destruct (marks_end a1 Ha1) as (c & -> & Hc). cbn [mbind option_bind].
  destruct (sample_roots_ok (Z.to_nat nvtx) NBFS a1 st (replicate (Z.to_nat NBFS_max) 0) 0)
    as (st' & roots & m & -> & Hr & Hm); [done|lia|done| |lia|].
  { constructor; [done|unfold NBFS_max; lia|lia|lia|]. intros i Hi. unfold NBFS_max in *.
    by assert (i = 0) as -> by lia. }
  cbn [mbind option_bind]. pose proof (ro_m _ _ Hr) as Hm0.
  destruct (Z.leb_spec c t), (Z.ltb_spec m NBFS); cbn [andb].
  1:{ destruct (Z.ltb_spec 0 m).
      - eexists. split; [done|]. exists m. split; [done|]. lia.
      - eexists. split; [done|]. cbn. lia. }
  all: eexists; split; [done|]; exists m; split; [done|]; lia.
Qed.

End Roots.

(** ** The searches *)

Lemma tree_typed E m r tree : bfs_tree E (m + 1) r tree -> Verify.typed_tree tree (m + 1) r.
Proof.
  intros (Hr & Htr & Hall). split; [done|]. intros v Hv. destruct (decide (v = r)) as [->|Hne].
  - exists r. split; [done|]. split; [lia|done].
  - destruct (Hall v Hv Hne) as (p & Hp & Hcase). exists p. split; [done|].
    destruct Hcase as [[Hpr (_ & d & Hd & Hd1)]|[Hp0 _]]; (split; [lia|]).
    + intros ->. pose proof (dist_fun _ _ _ _ _ Hd Hd1). lia.
    + lia.
Qed.

(** [c] is the number of the edges inside the component of [r]. *)
Definition component_edges (E : list packed_edge) (r c : Z) : Prop :=
  exists f : packed_edge -> bool,
    (forall e, e ∈ E -> f e = true <-> reachable E r (v0 e)) /\ c = alen (filter (fun e => f e = true) E).

Lemma verified E m r tree :
  Forall edge_ok E -> max_vertex E m -> bfs_tree E (m + 1) r tree ->
  exists c, Verify.verify_bfs_tree tree m r E (alen E) = Some c /\ 0 <= c /\ component_edges E r c.
Proof.
  intros HE Hm Hb. pose proof (tree_typed E m r tree Hb) as Hty. destruct Hm as (Hmr & Hrange & _).
  destruct (Verify.verify_ok tree m r E Hty HE ltac:(lia)) as (c & Hc & Hgood & Hbad).
  assert (0 <= c) as Hc0 by (destruct (decide (0 <= c)); [done|]; exfalso; apply Hbad; [lia|done|done]).
  exists c. split; [done|]. split; [done|]. destruct (Hgood Hc0) as [_ Hcount].
  exists (fun e => bool_decide (Verify.in_tree tree (m + 1) e)). split.
  - intros e He. rewrite bool_decide_eq_true. unfold Verify.in_tree.
    assert (adj E (v0 e) (v1 e)) as Ha by (exists e; split; [done|by left]).
    destruct (Hrange _ _ Ha) as [Hv _].
    rewrite (Verify.tree_reachable tree (m + 1) r E Hty Hb (v0 e) Hv). split; [tauto|]. intros; split; [lia|done].
  - rewrite Hcount. f_equal. apply list_filter_iff. intros e. by rewrite bool_decide_eq_true.
Qed.

Section Searches.
Context {G : Type} `{KernelLaws G}.
Context (E : list packed_edge) (m : Z) (g : G) (HE : Forall edge_ok E) (Hm : max_vertex E m).
Context (Hg : kernel_graph E m g) (env : environment) (nvtx : Z) (Hnv : m < nvtx).
Context (bfs_root : list Z) (N : Z) (HN : N <= NBFS_max).
Context (Hroots : forall i, 0 <= i < N -> exists r, bfs_root.[i] = Some r /\ 0 <= r <= m).

(** After [k] searches. *)
Definition searched (k : Z) (s : status) : Prop :=
  exists tree bfs_nedge, s = Running tree bfs_nedge /\ m < alen tree /\ alen bfs_nedge = NBFS_max /\
    (SKIP_VALIDATION env = false -> forall i r, 0 <= i < k -> bfs_root.[i] = Some r ->
      exists c, bfs_nedge.[i] = Some c /\ component_edges E r c).

Lemma search_step_ok k s :
  0 <= k < N -> searched k s ->
  exists s', search_step env nvtx E (alen E) g bfs_root k s = Some s' /\ searched (k + 1) s'.
Proof.
  intros Hk (tree & ne & -> & Htl & Hnl & Hc). unfold search_step.
  destruct (Hroots k Hk) as (r & Hr & Hrm). rewrite Hr. cbn [mbind option_bind].
  assert (r <? nvtx = true) as -> by lia. cbn [check mbind option_bind].
  destruct (kernel_bfs_ok E m g tree r Hg Hrm Htl) as (tree' & -> & Hb & Htl'). cbn [mbind option_bind].
  destruct (SKIP_VALIDATION env) eqn:Hskip; cbn [negb].
  { eexists. split; [done|]. exists tree', ne. split; [done|]. split; [done|]. split; [done|]. congruence. }
  destruct (verified E m r tree' HE Hm Hb) as (c & -> & Hc0 & Hcc). cbn [mbind option_bind].
  rewrite aset_in by lia. cbn [mbind option_bind]. assert (c <? 0 = false) as -> by lia.
  eexists. split; [done|]. exists tree', (<[Z.to_nat k := c]> ne). split; [done|]. split; [done|].
  split; [by rewrite alen_insert|]. intros _ i r' Hi Hr'. rewrite aget_insert by lia.
  destruct (decide (i = k)) as [->|].
  - rewrite Hr in Hr'. injection Hr' as <-. by exists c.
  - apply Hc; [done|lia|done].
Qed.

Lemma searches_ok tree :
  0 <= N -> m < alen tree ->
  exists s, for_z 0 N (search_step env nvtx E (alen E) g bfs_root)
              (Running tree (replicate (Z.to_nat NBFS_max) 0)) = Some s /\ searched N s.
Proof.
  intros HN0 Ht. apply (for_z_inv searched); [done| |].
  - exists tree, (replicate (Z.to_nat NBFS_max) 0). split; [done|]. split; [done|]. split; [done|].
    intros _ i r Hi. lia.
  - intros k s Hk Hs. by apply search_step_ok.
Qed.

End Searches.

(** Whatever the unset variable [t] holds, root sampling reads and writes
    inside its arrays and yields distinct vertices with an edge that is not a
    loop, followed by zeros if [t] is too small to lower the number of roots; no
    zeros are left when [t] is at least the number of vertices. *)
Theorem choose_roots_samples {MA : ModArith} left_first nvtx E NBFS t st :
  1 <= nvtx <= 2 ^ 53 -> (forall e, e ∈ E -> 0 <= v0 e < nvtx /\ 0 <= v1 e < nvtx) ->
  0 <= NBFS <= NBFS_max -> fe_state st ->
  exists res, choose_roots left_first nvtx E (alen E) NBFS t st = Some res /\
    match res with
    | None => 0 < NBFS /\ 0 <= t
    | Some (bfs_root, N) => exists m, roots_ok E nvtx bfs_root m /\ m <= N <= NBFS /\ (0 < NBFS -> 0 < N) /\
        (nvtx <= t -> m = N) /\ (t < 0 -> N = NBFS)
    end.
Proof. intros Hn HE HN Hst. by apply choose_roots_ok. Qed.

Lemma choose_roots_samples_witness :
  exists res, choose_roots (MA := mod_arith_64) true 4 [MkEdge 0 0; MkEdge 2 1] 2 1 7 (MkState 1 2 3 4 5) = Some res /\
    match res with
    | None => 0 < 1 /\ 0 <= 7
    | Some (bfs_root, N) =>
        exists m, roots_ok [MkEdge 0 0; MkEdge 2 1] 4 bfs_root m /\ m <= N <= 1 /\ (0 < 1 -> 0 < N) /\
        (4 <= 7 -> m = N) /\ (7 < 0 -> N = 1)
    end.
Proof.
  apply (choose_roots_samples true 4 [MkEdge 0 0; MkEdge 2 1] 1 7 (MkState 1 2 3 4 5)).
  - lia.
  - intros e He. rewrite !elem_of_cons in He.
    destruct He as [->|[->|He]]; [cbn; lia|cbn; lia|by apply not_elem_of_nil in He].
  - unfold NBFS_max. lia.
  - apply Kronecker.live_example.
Defined.

Lemma max_in_range E m nvtx :
  (forall e, e ∈ E -> 0 <= v0 e < nvtx /\ 0 <= v1 e < nvtx) -> 0 <= nvtx -> max_vertex E m -> m < nvtx.
Proof.
  intros HE Hn (_ & _ & [->|(u & e & He & Hj)]); [lia|]. destruct (HE e He), Hj as [[? ?]|[? ?]]; lia.
Qed.

Lemma max_nonneg E m : E <> [] -> max_vertex E m -> 0 <= m.
Proof.
  intros Hne (_ & Hr & _). destruct E as [|e E]; [done|].
  destruct (Hr (v0 e) (v1 e)) as [H0 _]; [|lia]. exists e. split; [by left|by left].
Qed.

(** What a run leaves: every search was made from a vertex and counted the edges
    of that vertex's component. *)
Definition good_run (E : list packed_edge) (env : environment) (NBFS : Z) (o : outcome) : Prop :=
  match o with
  | ExitFailure => True
  | ExitDone N bfs_root bfs_nedge =>
      1 <= N <= NBFS /\
      (SKIP_VALIDATION env = false -> forall i, 0 <= i < N ->
        exists r c, bfs_root.[i] = Some r /\ bfs_nedge.[i] = Some c /\ component_edges E r c)
  | ExitMinus1 => ready_file env = false \/ done_file env = false
  | AbortFailed => False
  end.

Lemma run_bfs_ok {G : Type} `{KernelLaws G} {MA : ModArith} left_first env nvtx E NBFS t st :
  1 <= nvtx <= 2 ^ 53 -> (forall e, e ∈ E -> 0 <= v0 e < nvtx /\ 0 <= v1 e < nvtx) ->
  Forall edge_ok E -> E <> [] -> alen E < 2 ^ 58 -> 1 <= NBFS <= NBFS_max ->
  fe_state st -> rootname env = None ->
  exists o, run_bfs left_first env nvtx E (alen E) NBFS t st = Some o /\ good_run E env NBFS o.
Proof.
  intros Hn Hin HE Hne Hlen HN Hst Hrn. unfold run_bfs.
  destruct (kernel_create_ok E HE Hlen) as (g & m & -> & Hm & Hg). cbn [mbind option_bind].
  pose proof (max_in_range E m nvtx Hin ltac:(lia) Hm) as Hmn. pose proof (max_nonneg E m Hne Hm) as Hm0.
  rewrite Hrn. destruct (choose_roots_ok E nvtx Hn Hin left_first NBFS t st Hst) as (res & -> & Hres); [lia|].
  cbn [mbind option_bind]. destruct res as [[roots N]|]; [|by exists ExitFailure].
  destruct Hres as (k & Hr & HkN & HN1 & _). specialize (HN1 ltac:(lia)).
  assert (forall i, 0 <= i < N -> exists r, roots.[i] = Some r /\ 0 <= r <= m) as Hroots.
  { intros i Hi. destruct (decide (i < k)).
    - destruct (ro_roots _ _ _ _ Hr i ltac:(lia)) as (r & -> & _ & w & Ha & _). exists r. split; [done|].
      destruct Hm as (_ & Hrange & _). destruct (Hrange _ _ Ha). lia.
    - exists 0. split; [apply (ro_zero _ _ _ _ Hr); lia|lia]. }
  destruct (Hroots 0 ltac:(lia)) as (r0 & -> & Hr0). cbn [mbind option_bind].
  destruct (kernel_bfs_ok E m g (xmalloc_cells nvtx 8) r0 Hg Hr0) as (tree & -> & _ & Htl);
    [rewrite alen_cells by lia; done|]. cbn [mbind option_bind].
  destruct (ready_file env) eqn:Hready; cbn [negb]; [|exists ExitMinus1; split; [done|by left]].
  destruct (searches_ok E m g HE Hm Hg env nvtx Hmn roots N ltac:(lia) Hroots tree ltac:(lia) Htl)
    as (s & -> & tr & ne & -> & _ & _ & Hcount). cbn [mbind option_bind].
  destruct (done_file env) eqn:Hdone; cbn [negb]; [|exists ExitMinus1; split; [done|by right]].
  eexists. split; [done|]. split; [lia|]. intros Hskip i Hi.
  destruct (Hroots i Hi) as (r & Hri & _). destruct (Hcount Hskip i r Hi Hri) as (c & Hc & Hcc).
  by exists r, c.
Qed.

(** C10: with any search kernel that keeps its promises, a run over a non-empty
    edge list finishes, inside its arrays and assertions and whatever the unset
    variable holds, and never aborts: every vertex that root sampling draws, in
    doubles, is inside the array of marks, every tree passes the check, and the
    numbers stored are the edge counts of the roots' components.  It needs at most
    2^53 vertices, fewer than 2^58 edges, a generator state in its fields, and
    that no root file is named. *)
Theorem run_bfs_never_aborts {G : Type} `{KernelLaws G} {MA : ModArith} left_first env nvtx E NBFS t st :
  1 <= nvtx <= 2 ^ 53 -> (forall e, e ∈ E -> 0 <= v0 e < nvtx /\ 0 <= v1 e < nvtx) ->
  Forall edge_ok E -> E <> [] -> alen E < 2 ^ 58 -> 1 <= NBFS <= NBFS_max ->
  fe_state st -> rootname env = None ->
  exists o, run_bfs left_first env nvtx E (alen E) NBFS t st = Some o /\ good_run E env NBFS o.
Proof. apply run_bfs_ok. Qed.

Lemma run_bfs_never_aborts_witness :
  exists o, run_bfs (G := SeqList.globals) (MA := mod_arith_64) true (MkEnv None false true true) 4
      [MkEdge 0 0; MkEdge 2 1] 2 1 0 (MkState 1500000000 2000000 3 4 5) = Some o /\
    good_run [MkEdge 0 0; MkEdge 2 1] (MkEnv None false true true) 1 o /\ o = ExitDone 1 [2] [1].
Proof.
  edestruct (run_bfs_never_aborts (G := SeqList.globals) true (MkEnv None false true true) 4
    [MkEdge 0 0; MkEdge 2 1] 1 0 (MkState 1500000000 2000000 3 4 5)) as (o & Ho & Hgood);
    [..|exists o; split; [exact Ho|split; [exact Hgood|]]].
  - lia.
  - intros e He. rewrite !elem_of_cons in He.
    destruct He as [->|[->|He]]; [cbn; lia|cbn; lia|by apply not_elem_of_nil in He].
  - unfold edge_ok, in_u32. repeat (constructor; [cbn; lia|]). constructor.
  - done.
  - vm_compute. reflexivity.
  - unfold NBFS_max. lia.
  - unfold fe_state, fe, P31. cbn. lia.
  - reflexivity.
  - vm_compute in Ho. by injection Ho as <-.
Defined.

(** ** The whole program *)

Lemma edges_of_scale SCALE E :
  1 <= SCALE <= 32 -> Forall (Kronecker.edge_in SCALE) E ->
  Forall edge_ok E /\ forall e, e ∈ E -> 0 <= v0 e < 2 ^ SCALE /\ 0 <= v1 e < 2 ^ SCALE.
Proof.
  intros HS HE. unfold Kronecker.edge_in in HE. rewrite Z.min_l in HE by lia.
  pose proof (Z.pow_le_mono_r 2 SCALE 32 ltac:(lia) ltac:(lia)) as Hp. rewrite list.Forall_forall in HE. split.
  - apply list.Forall_forall. intros e He. destruct (HE e He). unfold edge_ok, in_u32. lia.
  - intros e He. by apply HE.
Qed.

End Graph500.
