(* ===== verification/Options.v ===== *)
(** * The options of graph500 (src/sources/graph500/options.c)

    The command line sets the scale, the edge factor, the generator and its four
    probabilities, which are completed or normalised at the end.  The sum of the
    probabilities is a [long double], the 80-bit format of the machine. *)

From Stdlib Require Import ZArith Lia String SpecFloat.
From stdpp Require Import list numbers.
From S2P Require Import Prelude CLib Doubles LongDouble Getopt.
Import Getopt.
#[local] Open Scope Z_scope.

Module Options.

(** ** Numbers *)

(** [strtol(str, NULL, 10)]: the value, and whether [errno] was set. *)
Definition strtol (str : list Z) : Z * bool :=
  let s := skip_space str in
  let '(neg, s) := match s with
                   | c :: s' => if c =? 45 then (true, s') else if c =? 43 then (false, s') else (false, s)
                   | [] => (false, [])
                   end in
  let v := if neg then - fst (digits 0 s) else fst (digits 0 s) in
  if 2 ^ 63 <=? v then (2 ^ 63 - 1, true) else if v <? - 2 ^ 63 then (- 2 ^ 63, true) else (v, false).

(** ** Variables *)

Inductive param := PA | PB | PC | PD.
#[export] Instance param_eq_dec : EqDecision param.
Proof. solve_decision. Defined.

Record globals := MkGlobals {
  VERBOSE : bool;
  use_RMAT : bool;
  dumpname : option (list Z);
  rootname : option (list Z);
  prob : param -> double;
  SCALE : Z;
  edgefactor : Z;
}.

Definition A_PARAM : double := literal 57 100.
Definition B_PARAM : double := literal 19 100.
Definition C_PARAM : double := literal 19 100.
Definition default_prob (p : param) : double :=
  match p with
  | PA => A_PARAM | PB => B_PARAM | PC => C_PARAM
  | PD => dsub (double_of 1) (dadd (dadd A_PARAM B_PARAM) C_PARAM)
  end.
Definition default_SCALE : Z := 14.
Definition default_edgefactor : Z := 16.
Definition initial : globals := MkGlobals false false None None default_prob default_SCALE default_edgefactor.

(** The variables of the loop: [err], [nset] and [whichset] are local. *)
Record state := MkState { vars : globals; err : bool; nset : Z; whichset : Z }.

Definition bit (p : param) : Z := match p with PA => 1 | PB => 2 | PC => 4 | PD => 8 end.

(** How the function ends. *)
Inductive outcome := Returns (g : globals) | Exits (status : Z) | Aborts.

Definition set_prob (f : param -> double) (p : param) (x : double) : param -> double :=
  fun q => if decide (q = p) then x else f q.

Definition set_verbose g := MkGlobals true (use_RMAT g) (dumpname g) (rootname g) (prob g) (SCALE g) (edgefactor g).
Definition set_rmat g := MkGlobals (VERBOSE g) true (dumpname g) (rootname g) (prob g) (SCALE g) (edgefactor g).
Definition set_dump n g := MkGlobals (VERBOSE g) (use_RMAT g) n (rootname g) (prob g) (SCALE g) (edgefactor g).
Definition set_root n g := MkGlobals (VERBOSE g) (use_RMAT g) (dumpname g) n (prob g) (SCALE g) (edgefactor g).
Definition set_scale n g := MkGlobals (VERBOSE g) (use_RMAT g) (dumpname g) (rootname g) (prob g) n (edgefactor g).
Definition set_factor n g := MkGlobals (VERBOSE g) (use_RMAT g) (dumpname g) (rootname g) (prob g) (SCALE g) n.
Definition set_probs f g := MkGlobals (VERBOSE g) (use_RMAT g) (dumpname g) (rootname g) f (SCALE g) (edgefactor g).

Section Options.
(** [strtod] and whether it sets [errno]; [strdup], which may find no memory;
    the environment variable VERBOSE. *)
Context (strtod : list Z -> double * bool) (strdup : list Z -> option (list Z)) (env_verbose : bool).

Definition set_vars (g : globals) (s : state) : state := MkState g (err s) (nset s) (whichset s).
Definition set_err (e : bool) (s : state) : state := MkState (vars s) (err s || e) (nset s) (whichset s).

(** The cases of the four letters. *)
Definition option_prob (p : param) (optarg : list Z) (s : state) : state :=
  let '(x, errno) := strtod optarg in
  let s := set_vars (set_probs (set_prob (prob (vars s)) p x) (vars s)) s in
  let s := set_err (negb (Z.land (whichset s) (bit p) =? 0)) s in
  let s := set_err errno s in
  let s := set_err (dltb x dzero) s in
  MkState (vars s) (err s) (nset s + 1) (Z.lor (whichset s) (bit p)).

Definition option_scale (optarg : list Z) (s : state) : state :=
  let '(n, errno) := strtol optarg in
  set_err (n <=? 0) (set_err errno (set_vars (set_scale n (vars s)) s)).
Definition option_factor (optarg : list Z) (s : state) : state :=
  let '(n, errno) := strtol optarg in
  set_err (n <=? 0) (set_err errno (set_vars (set_factor n (vars s)) s)).

Definition option_dump (optarg : list Z) (s : state) : state :=
  let name := strdup optarg in
  set_err (negb (bool_decide (is_Some name))) (set_vars (set_dump name (vars s)) s).
Definition option_root (optarg : list Z) (s : state) : state :=
  let name := strdup optarg in
  set_err (negb (bool_decide (is_Some name))) (set_vars (set_root name (vars s)) s).

Definition is_char (c : Z) (s : string) : bool := streq [c] (chars s).

(** The switch: a new state, or the status of [exit]. *)
Definition get_option (r : result) (s : state) : state + Z :=
  match r with
  | Found c (Some optarg) =>
      if is_char c "o" then inl (option_dump optarg s)
      else if is_char c "r" then inl (option_root optarg s)
      else if is_char c "s" then inl (option_scale optarg s)
      else if is_char c "e" then inl (option_factor optarg s)
      else if is_char c "A" || is_char c "a" then inl (option_prob PA optarg s)
      else if is_char c "B" || is_char c "b" then inl (option_prob PB optarg s)
      else if is_char c "C" || is_char c "c" then inl (option_prob PC optarg s)
      else if is_char c "D" || is_char c "d" then inl (option_prob PD optarg s)
      else inl (set_err true s)
  | Found c None =>
      if is_char c "v" then inr 0
      else if is_char c "h" || is_char c "?" then inr 0
      else if is_char c "V" then inl (set_vars (set_verbose (vars s)) s)
      else if is_char c "R" then inl (set_vars (set_rmat (vars s)) s)
      else inl (set_err true s)
  | Unknown _ => inr 0
  end.

Fixpoint options_loop (rs : list result) (s : state) : state + Z :=
  match rs with
  | [] => inl s
  | r :: rs => match get_option r s with inl s => options_loop rs s | inr z => inr z end
  end.

(** The missing probability of three. *)
Definition complete (f : param -> double) (p a b c : param) : param -> double :=
  set_prob f p (dsub (double_of 1) (dadd (dadd (f a) (f b)) (f c))).

Definition negative (f : param -> double) : bool :=
  dltb (f PA) dzero || dltb (f PB) dzero || dltb (f PC) dzero || dltb (f PD) dzero.

(** The quotients are rounded to 64 bits and then to 53. *)
Definition normalise (f : param -> double) : param -> double :=
  let sum := ladd (ladd (ladd (f PA) (f PB)) (f PC)) (f PD) in
  let f := set_prob f PA (double_of_long_double (ldiv (f PA) sum)) in
  let f := set_prob f PB (double_of_long_double (ldiv (f PB) sum)) in
  let f := set_prob f PC (double_of_long_double (ldiv (f PC) sum)) in
  set_prob f PD (dsub (double_of 1) (dadd (dadd (f PA) (f PB)) (f PC))).

(** The end of the function. *)
Definition finish (s : state) : outcome :=
  let g := vars s in
  let f := prob g in
  if err s then Exits 1
  else if nset s =? 3 then
    match (if whichset s =? 7 then Some (complete f PD PA PB PC)
           else if whichset s =? 11 then Some (complete f PC PA PB PD)
           else if whichset s =? 13 then Some (complete f PB PA PC PD)
           else if whichset s =? 14 then Some (complete f PA PB PC PD)
           else None) with
    | None => Aborts
    | Some f => if negative f then Exits 1 else Returns (set_probs f g)
    end
  else if 0 <? nset s then Returns (set_probs (normalise f) g)
  else Returns g.

Definition optstring : list Z := chars "v?hRs:e:A:a:B:b:C:c:D:d:Vo:r:".

Definition get_options (args : list (list Z)) : outcome :=
  let g := if env_verbose then set_verbose initial else initial in
  match options_loop (results (scan optstring args)) (MkState g false 0 0) with
  | inl s => finish s
  | inr status => Exits status
  end.


(** ** What the options say *)

Definition prob_letter (c : Z) : option param :=
  if is_char c "A" || is_char c "a" then Some PA else if is_char c "B" || is_char c "b" then Some PB
  else if is_char c "C" || is_char c "c" then Some PC else if is_char c "D" || is_char c "d" then Some PD else None.

(** The probabilities given, the last one first. *)
Definition given_of (rs : list result) : list (param * double) :=
  foldl (fun given r =>
    match r with
    | Found c (Some optarg) =>
        match prob_letter c with Some p => (p, fst (strtod optarg)) :: given | None => given end
    | _ => given
    end) [] rs.

(** The last argument given with a letter, read by [read]. *)
Definition last_arg {A} (letter : string) (read : list Z -> A) (default : A) (rs : list result) : A :=
  foldl (fun n r =>
    match r with Found c (Some optarg) => if is_char c letter then read optarg else n | _ => n end) default rs.

Definition scale_of : list result -> Z := last_arg "s" (fun a => fst (strtol a)) default_SCALE.
Definition factor_of : list result -> Z := last_arg "e" (fun a => fst (strtol a)) default_edgefactor.

(** A letter without an argument is among the options. *)
Definition flag (letter : string) (rs : list result) : bool :=
  existsb (fun r => match r with Found c None => is_char c letter | _ => false end) rs.

(** The version, the help, and what [getopt] does not know. *)
Definition asks (r : result) : bool :=
  match r with
  | Found c None => is_char c "v" || (is_char c "h" || is_char c "?")
  | Found _ (Some _) => false
  | Unknown _ => true
  end.

(** An option that sets [err]: a name that cannot be copied, a number out of
    range or not positive, a probability out of range or negative, or none of the
    letters. *)
Definition refused (r : result) : bool :=
  match r with
  | Found c (Some optarg) =>
      if is_char c "o" || is_char c "r" then negb (bool_decide (is_Some (strdup optarg)))
      else if is_char c "s" || is_char c "e" then let '(n, errno) := strtol optarg in errno || (n <=? 0)
      else match prob_letter c with
           | Some _ => let '(x, errno) := strtod optarg in errno || dltb x dzero
           | None => true
           end
  | Found c None => negb (is_char c "V" || is_char c "R")
  | Unknown _ => false
  end.

(** One of the options is refused, or a probability is given twice. *)
Definition faulty (rs : list result) : bool :=
  existsb refused rs || negb (bool_decide (NoDup (given_of rs).*1)).

(** The values in effect before the end of the function. *)
Definition values (given : list (param * double)) (p : param) : double :=
  match List.find (fun x => bool_decide (x.1 = p)) given with Some (_, x) => x | None => default_prob p end.

(** The other three, in the order of the code. *)
Definition others (p : param) : param * param * param :=
  match p with PA => (PB, PC, PD) | PB => (PA, PC, PD) | PC => (PA, PB, PD) | PD => (PA, PB, PC) end.

(** What three leave of 1. *)
Definition rest_of (f : param -> double) (p : param) : double :=
  let '(a, b, c) := others p in dsub (double_of 1) (dadd (dadd (f a) (f b)) (f c)).

(** Zero or between 2^-401 and 2^400. *)
Definition ordinary : double -> Prop := sized0 (-400) 400.

(** [f] are the probabilities [v] divided by their sum: the first three up to a
    relative error of 2^-52, when the values are ordinary and not all zero, and
    the last one is what they leave of 1. *)
Definition normalised (v f : param -> double) : Prop :=
  let total := dval (v PA) + dval (v PB) + dval (v PC) + dval (v PD) in
  f PD = rest_of f PD /\
  ((forall p, ordinary (v p)) -> 0 < total ->
   forall p, p <> PD -> 2 ^ 52 * Z.abs (dval (f p) * total - UNIT * dval (v p)) <= UNIT * dval (v p)).

(** What the options make of the probabilities: nothing given, three given, or
    another number of them. *)
Inductive probabilities (given : list (param * double)) (f : param -> double) : Prop :=
| default_probs : given = [] -> (forall p, f p = default_prob p) -> probabilities given f
| three_probs p :
    length given = 3%nat -> p ∉ given.*1 -> (forall q, q <> p -> f q = values given q) ->
    f p = rest_of (values given) p -> dltb (f p) dzero = false -> probabilities given f
| normal_probs : length given <> 0%nat -> length given <> 3%nat -> normalised (values given) f -> probabilities given f.

(** How the function ends for the options [rs]. *)
Inductive ends_as (rs : list result) : outcome -> Prop :=
| ends_asked : existsb asks rs = true -> ends_as rs (Exits 0)
| ends_refused : existsb asks rs = false -> faulty rs = true -> ends_as rs (Exits 1)
| ends_negative p :
    existsb asks rs = false -> faulty rs = false -> length (given_of rs) = 3%nat -> p ∉ (given_of rs).*1 ->
    dltb (rest_of (values (given_of rs)) p) dzero = true -> ends_as rs (Exits 1)
| ends_returns g :
    existsb asks rs = false -> faulty rs = false ->
    VERBOSE g = env_verbose || flag "V" rs -> use_RMAT g = flag "R" rs ->
    dumpname g = last_arg "o" strdup None rs -> rootname g = last_arg "r" strdup None rs ->
    SCALE g = scale_of rs -> 1 <= SCALE g < 2 ^ 63 -> edgefactor g = factor_of rs -> 1 <= edgefactor g < 2 ^ 63 ->
    probabilities (given_of rs) (prob g) -> ends_as rs (Returns g).

(** ** The loop *)

(** [whichset] and [nset] as functions of the letters set. *)
Definition has (ps : list param) (p : param) : bool := bool_decide (p ∈ ps).
Definition mask (h : param -> bool) : Z :=
  (if h PA then 1 else 0) + (if h PB then 2 else 0) + (if h PC then 4 else 0) + (if h PD then 8 else 0).
Definition count (h : param -> bool) : Z :=
  (if h PA then 1 else 0) + (if h PB then 1 else 0) + (if h PC then 1 else 0) + (if h PD then 1 else 0).

Lemma has_cons p ps q : has (p :: ps) q = bool_decide (q = p) || has ps q.
Proof. unfold has. rewrite <- bool_decide_or. apply bool_decide_ext, list.elem_of_cons. Qed.

Lemma mask_cons p ps : mask (has (p :: ps)) = Z.lor (mask (has ps)) (bit p).
Proof.
  unfold mask. rewrite !has_cons. destruct p, (has ps PA), (has ps PB), (has ps PC), (has ps PD); reflexivity.
Qed.

Lemma count_cons p ps : has ps p = false -> count (has (p :: ps)) = count (has ps) + 1.
Proof.
  unfold count. rewrite !has_cons. destruct p; intros ->; cbn;
    destruct (has ps PA), (has ps PB), (has ps PC), (has ps PD); reflexivity.
Qed.

Lemma count_length ps : NoDup ps -> count (has ps) = Z.of_nat (length ps).
Proof.
  induction 1 as [|p ps Hp _ IH]; [done|]. rewrite count_cons, IH; [cbn [length]; lia|].
  unfold has. by apply bool_decide_eq_false.
Qed.

Lemma mask_has ps p : (Z.land (mask (has ps)) (bit p) =? 0) = negb (has ps p).
Proof. unfold mask. destruct p, (has ps PA), (has ps PB), (has ps PC), (has ps PD); reflexivity. Qed.

Lemma nodup_cons_b p ps : bool_decide (NoDup (p :: ps)) = negb (has ps p) && bool_decide (NoDup ps).
Proof.
  unfold has. rewrite <- bool_decide_not, <- bool_decide_and. apply bool_decide_ext, list.NoDup_cons.
Qed.

Lemma values_cons p x given q : values ((p, x) :: given) q = set_prob (values given) p x q.
Proof. unfold values, set_prob. cbn. repeat case_decide; repeat case_bool_decide; naive_solver. Qed.

Lemma given_of_snoc rs r :
  given_of (rs ++ [r]) =
  match r with
  | Found c (Some optarg) =>
      match prob_letter c with Some p => (p, fst (strtod optarg)) :: given_of rs | None => given_of rs end
  | _ => given_of rs
  end.
Proof. unfold given_of. by rewrite foldl_app. Qed.

Lemma last_arg_snoc {A} letter (read : list Z -> A) d rs r :
  last_arg letter read d (rs ++ [r]) =
  match r with Found c (Some optarg) => if is_char c letter then read optarg else last_arg letter read d rs
  | _ => last_arg letter read d rs end.
Proof. unfold last_arg. by rewrite foldl_app. Qed.

Lemma flag_snoc letter rs r :
  flag letter (rs ++ [r]) = flag letter rs || match r with Found c None => is_char c letter | _ => false end.
Proof. unfold flag. rewrite existsb_app. cbn [existsb]. by rewrite orb_false_r. Qed.

Lemma faulty_snoc rs r :
  faulty (rs ++ [r]) = faulty rs || (refused r ||
    match r with
    | Found c (Some _) => match prob_letter c with Some p => has (given_of rs).*1 p | None => false end
    | _ => false
    end).
Proof.
  unfold faulty. rewrite existsb_app, given_of_snoc. cbn [existsb]. rewrite orb_false_r.
  generalize (refused r). intros rf. set (nd := bool_decide (NoDup (given_of rs).*1)).
  destruct r as [c [optarg|]|]; [destruct (prob_letter c) as [p|]| |].
  { cbn [fmap list_fmap fst]. rewrite nodup_cons_b. fold nd. clearbody nd. destruct (existsb refused rs), rf, (has _ p), nd; done. }
  all: cbn iota; fold nd; clearbody nd; destruct (existsb refused rs), rf, nd; done.
Qed.

(** The state after the options [rs]. *)
Record tracks (rs : list result) (s : state) : Prop := {
  tr_probs p : prob (vars s) p = values (given_of rs) p;
  tr_nset : nset s = Z.of_nat (length (given_of rs));
  tr_whichset : whichset s = mask (has (given_of rs).*1);
  tr_err : err s = faulty rs;
  tr_verbose : VERBOSE (vars s) = env_verbose || flag "V" rs;
  tr_rmat : use_RMAT (vars s) = flag "R" rs;
  tr_dump : dumpname (vars s) = last_arg "o" strdup None rs;
  tr_root : rootname (vars s) = last_arg "r" strdup None rs;
  tr_scale : SCALE (vars s) = scale_of rs;
  tr_factor : edgefactor (vars s) = factor_of rs;
}.

Lemma is_char_eq c (a : Ascii.ascii) : is_char c (String a EmptyString) = true -> [c] = chars (String a EmptyString).
Proof. apply streq_true. Qed.

(** From the test of a letter to the letter. *)
Ltac letter H :=
  match type of H with
  | _ || _ = true => apply orb_true_iff in H as [H|H]; letter H
  | _ => apply is_char_eq in H; vm_compute in H; injection H as ->
  end.

(** The letter is known: what it changes, and what it leaves. *)
Ltac tracked Hs :=
  destruct Hs as [H1 H2 H3 H4 H5 H6 H7 H8 H9 H10]; constructor; unfold scale_of, factor_of in *;
  rewrite ?given_of_snoc, ?last_arg_snoc, ?flag_snoc, ?faulty_snoc; cbn -[is_char];
  repeat match goal with |- context [is_char ?c ?l] => let b := eval vm_compute in (is_char c l) in change (is_char c l) with b end;
  rewrite ?orb_false_r, ?orb_true_r; cbn; try done.

Lemma option_prob_tracks rs c p optarg s :
  c ∈ [65; 97; 66; 98; 67; 99; 68; 100] -> prob_letter c = Some p ->
  tracks rs s -> tracks (rs ++ [Found c (Some optarg)]) (option_prob p optarg s).
Proof.
  intros Hc Hp Hs. unfold option_prob. destruct (strtod optarg) as [x errno] eqn:Ex. destruct Hs as [H1 H2 H3 H4 H5 H6 H7 H8 H9 H10].
  assert (is_char c "o" = false /\ is_char c "r" = false /\ is_char c "s" = false /\ is_char c "e" = false) as (No & Nr & Ns & Ne).
  { rewrite !elem_of_cons, elem_of_nil in Hc. by repeat (destruct Hc as [->|Hc]; [done|]). }
  constructor; unfold scale_of, factor_of in *;
    rewrite ?given_of_snoc, ?last_arg_snoc, ?flag_snoc, ?faulty_snoc, ?Hp, ?Ex, ?No, ?Nr, ?Ns, ?Ne, ?orb_false_r; cbn [fst]; try done.
  - intros q. rewrite values_cons. cbn. unfold set_prob. by case_decide.
  - cbn. lia.
  - cbn. by rewrite mask_cons, H3.
  - cbn [refused]. rewrite No, Nr, Ns, Ne, Hp, Ex. cbn. rewrite H4, H3, mask_has, negb_involutive.
    destruct (faulty rs), (has _ p), errno, (dltb x dzero); done.
Qed.

Lemma option_number_tracks rs c optarg (set : Z -> globals -> globals) s :
  (c = 115 /\ set = set_scale \/ c = 101 /\ set = set_factor) -> tracks rs s ->
  tracks (rs ++ [Found c (Some optarg)])
    (let '(n, errno) := strtol optarg in set_err (n <=? 0) (set_err errno (set_vars (set n (vars s)) s))).
Proof.
  intros Hc Hs. destruct (strtol optarg) as [n errno] eqn:En. destruct Hc as [[-> ->]|[-> ->]]; tracked Hs; rewrite ?En; try done.
  all: rewrite H4; destruct (faulty rs), errno, (n <=? 0); done.
Qed.

Lemma get_option_tracks rs r s :
  tracks rs s -> asks r = false -> exists s', get_option r s = inl s' /\ tracks (rs ++ [r]) s'.
Proof.
  intros Hs Hr. unfold get_option. destruct r as [c [optarg|]|]; [| |done].
  - destruct (is_char c "o") eqn:E1.
    { letter E1. eexists. split; [done|]. tracked Hs. by rewrite H4. }
    destruct (is_char c "r") eqn:E2.
    { letter E2. eexists. split; [done|]. tracked Hs. by rewrite H4. }
    destruct (is_char c "s") eqn:E3.
    { letter E3. eexists. split; [done|]. apply option_number_tracks; [by left|done]. }
    destruct (is_char c "e") eqn:E4.
    { letter E4. eexists. split; [done|]. apply option_number_tracks; [by right|done]. }
    destruct (is_char c "A" || is_char c "a") eqn:E5.
    { eexists. split; [done|]. letter E5; apply option_prob_tracks; done || (rewrite !elem_of_cons; tauto). }
    destruct (is_char c "B" || is_char c "b") eqn:E6.
    { eexists. split; [done|]. letter E6; apply option_prob_tracks; done || (rewrite !elem_of_cons; tauto). }
    destruct (is_char c "C" || is_char c "c") eqn:E7.
    { eexists. split; [done|]. letter E7; apply option_prob_tracks; done || (rewrite !elem_of_cons; tauto). }
    destruct (is_char c "D" || is_char c "d") eqn:E8.
    { eexists. split; [done|]. letter E8; apply option_prob_tracks; done || (rewrite !elem_of_cons; tauto). }
    eexists. split; [done|]. assert (prob_letter c = None) as Hp by (unfold prob_letter; by rewrite E5, E6, E7, E8).
    destruct Hs as [H1 H2 H3 H4 H5 H6 H7 H8 H9 H10]. constructor; unfold scale_of, factor_of in *;
      rewrite ?given_of_snoc, ?last_arg_snoc, ?flag_snoc, ?faulty_snoc, ?Hp, ?E1, ?E2, ?E3, ?E4, ?orb_false_r; try done.
    cbn [refused]. rewrite E1, E2, E3, E4, Hp. cbn. by rewrite H4, ?orb_true_r.
  - cbn [asks] in Hr. apply orb_false_iff in Hr as [Hv Hh]. rewrite Hv, Hh.
    destruct (is_char c "V") eqn:E1; [letter E1; eexists; split; [done|]; tracked Hs|].
    destruct (is_char c "R") eqn:E2; [letter E2; eexists; split; [done|]; tracked Hs|].
    eexists. split; [done|]. destruct Hs as [H1 H2 H3 H4 H5 H6 H7 H8 H9 H10]. constructor; unfold scale_of, factor_of in *;
      rewrite ?given_of_snoc, ?last_arg_snoc, ?flag_snoc, ?faulty_snoc, ?E1, ?E2, ?orb_false_r; try done.
    cbn [refused]. rewrite E1, E2. cbn. by rewrite H4, ?orb_true_r.
Qed.

Lemma options_loop_tracks rs' rs s :
  tracks rs s ->
  if existsb asks rs' then options_loop rs' s = inr 0
  else exists s', options_loop rs' s = inl s' /\ tracks (rs ++ rs') s'.
Proof.
  revert rs s. induction rs' as [|r rs' IH]; intros rs s Hs; cbn [options_loop existsb]; [exists s; by rewrite app_nil_r|].
  destruct (asks r) eqn:Er; cbn [orb].
  - unfold get_option. destruct r as [c [optarg|]|]; [done| |done]. cbn [asks] in Er. destruct (is_char c "v"); [done|]. cbn [orb] in Er. by rewrite Er.
  - destruct (get_option_tracks rs r s Hs Er) as (s' & -> & Hs'). replace (rs ++ r :: rs') with ((rs ++ [r]) ++ rs') by (by rewrite <- app_assoc).
    by apply IH.
Qed.

Lemma tracks_start : tracks [] (MkState (if env_verbose then set_verbose initial else initial) false 0 0).
Proof. by constructor; destruct env_verbose. Qed.

(** ** The end of the function *)

Lemma strtol_range str : in_s64 (fst (strtol str)).
Proof.
  unfold strtol, in_s64. destruct (match skip_space str with [] => _ | _ => _ end) as [neg d].
  set (v := if neg then _ else _). destruct (Z.leb_spec (2 ^ 63) v); [cbn; lia|].
  destruct (Z.ltb_spec v (- 2 ^ 63)); cbn; lia.
Qed.

(** A number that is not refused is positive. *)
Lemma last_number_positive c d rs :
  c = "s"%string \/ c = "e"%string -> 1 <= d < 2 ^ 63 -> existsb refused rs = false -> 1 <= last_arg c (fun a => fst (strtol a)) d rs < 2 ^ 63.
Proof.
  intros Hc Hd. induction rs as [|r rs IH] using rev_ind; [done|]. rewrite existsb_app. cbn [existsb]. rewrite orb_false_r.
  intros [Hrs Hr]%orb_false_iff. specialize (IH Hrs). rewrite last_arg_snoc. destruct r as [l [optarg|]|]; [|done|done].
  destruct (is_char l c) eqn:El; [|done]. assert (l = 115 \/ l = 101) as Hl by (destruct Hc as [->| ->]; letter El; auto).
  pose proof (strtol_range optarg) as Hn. unfold in_s64 in Hn. assert (0 < fst (strtol optarg)); [|lia].
  assert (refused (Found l (Some optarg)) = let '(n, errno) := strtol optarg in errno || (n <=? 0)) as E by (destruct Hl as [-> | ->]; reflexivity).
  rewrite E in Hr. destruct (strtol optarg) as [n errno]. cbn [fst] in *. apply orb_false_iff in Hr as [_ Hr]. lia.
Qed.

Lemma normalise_shares f v : (forall p, f p = v p) -> normalised v (normalise f).
Proof.
  intros Hf. split; [reflexivity|]. intros Hv HT p Hp. pose proof (share_error (v p) (v PA) (v PB) (v PC) (v PD) (Hv PA) (Hv PB) (Hv PC) (Hv PD) HT (Hv p)) as He.
  assert (normalise f p = double_of_long_double (ldiv (v p) (ladd (ladd (ladd (v PA) (v PB)) (v PC)) (v PD)))) as ->; [|done].
  destruct p; [..|done]; rewrite <- !Hf; reflexivity.
Qed.

Lemma complete_ok f v p : (forall q, f q = v q) ->
  let '(a, b, c) := others p in complete f p a b c p = rest_of v p /\ forall q, q <> p -> complete f p a b c q = v q.
Proof.
  intros Hf. destruct p; cbn [others]; (split; [unfold rest_of; cbn [others]; by rewrite <- !Hf|]); intros q Hq; rewrite <- Hf;
    unfold complete, set_prob; by rewrite decide_False.
Qed.

(** Only the completed probability can be negative. *)
Lemma negative_completed f p :
  (forall q, q <> p -> dltb (f q) dzero = false) -> negative f = dltb (f p) dzero.
Proof.
  intros Hq. unfold negative. destruct p.
  1: rewrite (Hq PB), (Hq PC), (Hq PD) by done. 2: rewrite (Hq PA), (Hq PC), (Hq PD) by done.
  3: rewrite (Hq PA), (Hq PB), (Hq PD) by done. 4: rewrite (Hq PA), (Hq PB), (Hq PC) by done.
  all: by rewrite ?orb_false_r.
Qed.

Lemma given_signs rs : existsb refused rs = false -> forall p, dltb (values (given_of rs) p) dzero = false.
Proof.
  intros Hr p. induction rs as [|r rs IH] using rev_ind; [by destruct p|]. rewrite existsb_app in Hr. cbn [existsb] in Hr. rewrite orb_false_r in Hr.
  apply orb_false_iff in Hr as [Hrs Hr]. specialize (IH Hrs). rewrite given_of_snoc. destruct r as [c [optarg|]|]; [|done|done].
  destruct (prob_letter c) as [q|] eqn:Eq; [|done]. rewrite values_cons. unfold set_prob. case_decide; [|done].
  cbn [refused] in Hr. rewrite Eq in Hr. destruct (strtod optarg) as [x errno]. cbn [fst].
  assert (is_char c "o" || is_char c "r" = false /\ is_char c "s" || is_char c "e" = false) as [E1 E2].
  { unfold prob_letter in Eq. repeat (match type of Eq with (if ?b then _ else _) = _ => destruct b eqn:Eb end; [letter Eb; split; reflexivity|clear Eb]). done. }
  rewrite E1, E2 in Hr. by apply orb_false_iff in Hr as [_ ?].
Qed.

(** The switch over [whichset] finds the probability that is missing. *)
Lemma missing_found ps f (h := has ps) :
  count h = 3 ->
  exists p, h p = false /\
    (if mask h =? 7 then Some (complete f PD PA PB PC)
     else if mask h =? 11 then Some (complete f PC PA PB PD)
     else if mask h =? 13 then Some (complete f PB PA PC PD)
     else if mask h =? 14 then Some (complete f PA PB PC PD) else None) =
    Some (let '(a, b, c) := others p in complete f p a b c).
Proof.
  unfold count, mask. intros H3. destruct (h PA) eqn:EA, (h PB) eqn:EB, (h PC) eqn:EC, (h PD) eqn:ED; try lia; cbn;
    [exists PD|exists PC|exists PB|exists PA]; done.
Qed.

Lemma finish_ends rs s : tracks rs s -> existsb asks rs = false -> ends_as rs (finish s).
Proof.
  intros [H1 H2 H3 H4 H5 H6 H7 H8 H9 H10] Hask. unfold finish. rewrite H4. destruct (faulty rs) eqn:Hf; [by apply ends_refused|].
  pose proof Hf as [Hr Hnd%negb_false_iff%bool_decide_eq_true]%orb_false_iff.
  pose proof (last_number_positive "s" default_SCALE rs ltac:(by left) ltac:(by vm_compute) Hr) as HS.
  pose proof (last_number_positive "e" default_edgefactor rs ltac:(by right) ltac:(by vm_compute) Hr) as HE.
  set (given := given_of rs) in *.
  assert (forall f, probabilities given f -> ends_as rs (Returns (set_probs f (vars s)))) as Hret.
  { intros f Hp. apply ends_returns; cbn [set_probs VERBOSE use_RMAT dumpname rootname SCALE edgefactor prob]; rewrite ?H9, ?H10; done. }
  destruct (Z.eqb_spec (nset s) 3) as [E3|E3].
  - rewrite H3. destruct (missing_found given.*1 (prob (vars s))) as (p & Hp & ->).
    { rewrite count_length, length_fmap by done. lia. }
    apply bool_decide_eq_false in Hp. pose proof (complete_ok (prob (vars s)) (values given) p H1) as Hc. destruct (others p) as [[a b] c]. destruct Hc as [Hc Hq].
    rewrite (negative_completed _ p) by (intros q Hn; rewrite Hq by done; by apply given_signs). rewrite Hc.
    destruct (dltb (rest_of (values given) p) dzero) eqn:En.
    + eapply (ends_negative rs p); try done. unfold given in *. lia.
    + apply Hret. apply (three_probs _ _ p); [lia|done|done|done|by rewrite Hc].
  - destruct (Z.ltb_spec 0 (nset s)).
    + apply Hret. apply normal_probs; [lia|lia|by apply normalise_shares].
    + assert (given = []) as Hg by (apply nil_length_inv; lia). replace (vars s) with (set_probs (prob (vars s)) (vars s)) by (by destruct (vars s)).
      apply Hret. apply default_probs; [done|]. intros p. rewrite H1, Hg. done.
Qed.

Lemma get_options_ok args : ends_as (results (scan optstring args)) (get_options args).
Proof.
  unfold get_options. pose proof (options_loop_tracks (results (scan optstring args)) [] _ tracks_start) as Hl.
  destruct (existsb asks _) eqn:Ea; [rewrite Hl; by apply ends_asked|]. destruct Hl as (s & -> & Hs). by apply finish_ends.
Qed.

(** C20: the options.  For every command line, and whatever the C library makes of
    the numbers in it, the function ends in exactly one of these ways and never
    reaches its [abort].  A version or help option, or one that is not known, exits
    with success.  Else an option with a bad argument, or a probability given
    twice, exits with failure.  Else, when three probabilities are given and leave
    less than nothing of 1, it exits with failure.  Else it returns with the flags
    and the last names given, a scale and an edge factor that are the last ones
    given (or the defaults) and positive, and probabilities that are the defaults
    when none is given, three given ones and what they leave of 1, or else the
    given ones with the defaults divided by the sum of all four: each of the first
    three times that sum is the value it had, up to a relative error of 2^-52, if
    the four values are zero or between 2^-401 and 2^400 and not all zero, and the
    fourth is what the others leave of 1. *)
Theorem get_options_correct args : ends_as (results (scan optstring args)) (get_options args).
Proof. apply get_options_ok. Qed.
End Options.

(** ** Command lines *)

(** A reader of numbers that knows the whole ones. *)
Definition whole (str : list Z) : double * bool := (double_of (fst (strtol str)), snd (strtol str)).

(** [-s5 -A1 -b 2 -C4 -d1 -V] returns, with shares of eight; a negative edge factor and
    an [A] given twice do not; neither do three that leave less than nothing. *)
Lemma get_options_correct_witness :
  let args := [chars "-s5"; chars "-A1"; chars "-b"; chars "2"; chars "-C4"; chars "-d1"; chars "-V"] in
  ends_as whole Some false (results (scan optstring args)) (get_options whole Some false args) /\
  (exists g, get_options whole Some false args = Returns g /\ VERBOSE g = true /\ SCALE g = 5 /\ edgefactor g = 16 /\
     prob g PA = literal 1 8 /\ prob g PB = literal 2 8 /\ prob g PC = literal 4 8 /\ prob g PD = literal 1 8) /\
  get_options whole Some false [chars "-e-3"] = Exits 1 /\
  get_options whole Some false [chars "-A1"; chars "-a1"] = Exits 1 /\
  get_options whole Some false [chars "-A1"; chars "-B1"; chars "-C0"] = Exits 1 /\
  get_options whole Some false [chars "-A1"; chars "-a1"; chars "-h"] = Exits 0.
Proof.
  split; [apply (get_options_correct whole Some false)|].
  split; [eexists; split; [vm_compute; reflexivity|]; vm_compute; split_and!; reflexivity|].
  split_and!; vm_compute; reflexivity.
Defined.

(** An option the program does not know: the help, and success. *)
Lemma unknown_option_succeeds strtod strdup env : get_options strtod strdup env [chars "-x"] = Exits 0.
Proof. by destruct env. Qed.

(** Four probabilities of zero pass all checks and are normalised by their
    sum. *)
Theorem zero_probabilities strtod strdup :
  strtod (chars "0") = (dzero, false) ->
  exists g, get_options strtod strdup false [chars "-A0"; chars "-B0"; chars "-C0"; chars "-D0"] = Returns g /\
    forall p, prob g p = S754_nan.
Proof.
  intros H. unfold get_options.
  change (results _) with [Found 65 (Some (chars "0")); Found 66 (Some (chars "0")); Found 67 (Some (chars "0"));
                           Found 68 (Some (chars "0"))].
  cbn [options_loop get_option is_char streq]. unfold option_prob. rewrite H. eexists. split; [vm_compute; reflexivity|].
  by intros [].
Qed.
End Options.
