(* ===== verification/Graph500Main.v ===== *)
(** * graph500 from its command line (src/sources/graph500/graph500.c)

    [real_main] in full: the options, the two generators of edges and the
    branch that reads the edges from a file, in front of [run_bfs]. *)

From Stdlib Require Import ZArith Lia String.
From stdpp Require Import list numbers.
From S2P Require Import Prelude Arrays CLib Threads Doubles Getopt ModArith Mrg MrgTable Graph Kronecker Rmat SeqList SeqCsr Graph500 Options.
#[local] Open Scope Z_scope.

Module Graph500Main.
Import Mrg Graph Options.
#[local] Existing Instances Graph500.seq_csr_kernel Graph500.seq_csr_laws.

(** What the process meets outside, but for the name of the root file, which is
    an option: the edges in the file of a name, if it can be opened, and the
    roots, if they can be read. *)
Record system := MkSystem {
  open_dump : list Z -> option (list packed_edge);
  read_roots : list Z -> option (list Z);
  skip_validation : bool;
  ready_ok : bool;
  done_ok : bool;
}.

Definition environment_of (sys : system) (g : globals) : Graph500.environment :=
  Graph500.MkEnv (read_roots sys <$> rootname g) (skip_validation sys) (ready_ok sys) (done_ok sys).

(** How the program ends: in the options, with [return EXIT_FAILURE], or in
    [run_bfs], which never returns. *)
Inductive ending :=
| Optioned (status : Z)
| OptionsAborted
| ReturnFailure
| Ran (o : Graph500.outcome).

Section Main.
Context {G : Type} `{Graph500.Kernel G} {MA : ModArith}.
(** The build: with or without OpenMP, the threads and the steps they are given,
    and the order of the two calls in [mrg_get_double_orig]. *)
Context {team_of : Team} (openmp : bool) (fuel : nat) (left_first : bool).
Context (strtod : list Z -> double * bool) (strdup : list Z -> option (list Z)) (env_verbose : bool).
Context (sys : system).

(** The edge list of a generator: [nedge], [IJ] and the state of the random
    numbers. *)
Definition generate_edges (g : globals) (desired_nedge userseed : Z) (order : list Z -> list Z) (st : mrg_state)
    : option (Z * list packed_edge * mrg_state) :=
  if use_RMAT g then
    let IJ := Kronecker.xmalloc_edges desired_nedge in
    '(IJ, st) ←
      (if openmp then
         fst <$> Rmat.omp_rmat_edgelist Table.mrg_skip_matrices left_first fuel IJ desired_nedge (SCALE g)
                   (prob g PA) (prob g PB) (prob g PC) st O
       else
         Rmat.rmat_edgelist Table.mrg_skip_matrices left_first IJ desired_nedge (SCALE g)
           (prob g PA) (prob g PB) (prob g PC) st);
    Some (desired_nedge, IJ, st)
  else
    '(nedge, IJ) ← Kronecker.make_graph Table.mrg_skip_matrices (SCALE g) desired_nedge userseed userseed order;
    Some (nedge, IJ, st).

(** The edge list, or [None] for [return EXIT_FAILURE].  [nedge] is a global
    variable and 0 when the program starts, and so is [IJ]: the branch for a file
    asks for [nedge] edges. *)
Definition input_edges (g : globals) (desired_nedge userseed : Z) (order : list Z -> list Z) (st : mrg_state)
    : option (option (Z * list packed_edge * mrg_state)) :=
  match dumpname g with
  | None => input ← generate_edges g desired_nedge userseed order st; Some (Some input)
  | Some name =>
      let nedge := 0 in
      match open_dump sys name with
      | None => Some None
      | Some file =>
          if alen file <? nedge then Some None
          else Some (Some (nedge, take (Z.to_nat nedge) file, st))
      end
  end.

Definition real_main (args : list (list Z)) (SEED : option Z) (NBFS t : Z) (order : list Z -> list Z) : option ending :=
  match (match args with [] => Returns initial | _ => get_options strtod strdup env_verbose args end) with
  | Exits status => Some (Optioned status)
  | Aborts => Some OptionsAborted
  | Returns g =>
      assert! (0 <=? SCALE g) && (SCALE g <? 63);
      let nvtx_scale := Z.shiftl 1 (SCALE g) in
      '(userseed, st) ← Graph500.init_random SEED;
      desired_nedge ← sint64 (nvtx_scale * edgefactor g);
      assert! nvtx_scale <=? desired_nedge;
      assert! edgefactor g <=? desired_nedge;
      input ← input_edges g desired_nedge userseed order st;
      match input with
      | None => Some ReturnFailure
      | Some (nedge, IJ, st) =>
          o ← Graph500.run_bfs left_first (environment_of sys g) nvtx_scale IJ nedge NBFS t st;
          Some (Ran o)
      end
  end.
End Main.

(** ** Proofs *)

Lemma init_random_live SEED :
  match SEED with Some s => - 2 ^ 63 <= s < 2 ^ 63 | None => True end ->
  exists userseed st, Graph500.init_random SEED = Some (userseed, st) /\ in_u64 userseed /\ fe_state st.
Proof.
  intros Hs. unfold Graph500.init_random. set (seed := if _ <? 0 then _ else _). assert (in_u64 (u64 seed)) as Hu by apply u64_range.
  unfold in_u64 in Hu. set (x := u64 seed) in *. eexists x, _. split; [reflexivity|]. split; [done|].
  change 0x3FFFFFFF with (Z.ones 30). rewrite !Z.land_ones, !Z.shiftr_div_pow2, Z.shiftl_mul_pow2 by lia.
  pose proof (Z.mod_pos_bound x (2 ^ 30) ltac:(lia)). pose proof (Z.mod_pos_bound (x / 2 ^ 30) (2 ^ 30) ltac:(lia)).
  assert (0 <= x / 2 ^ 60 < 16) by (split; [apply Z.div_pos; lia|apply Z.div_lt_upper_bound; lia]).
  rewrite (u64_id (x / 2 ^ 60 * 2 ^ 4)) by (unfold in_u64; lia).
  rewrite (u64_id (x / 2 ^ 60 * 2 ^ 4 + x / 2 ^ 60)) by (unfold in_u64; lia).
  rewrite !u64_id by (unfold in_u64; lia). unfold fe_state, fe, P31. cbn -[Z.pow Z.modulo Z.div Z.mul Z.add]. lia.
Qed.


Section Runs.
Context {G : Type} `{Graph500.KernelLaws G} {MA : ModArith}.
Context {team_of : Team} (openmp : bool) (fuel : nat) (left_first : bool).
Context (strtod : list Z -> double * bool) (strdup : list Z -> option (list Z)) (env_verbose : bool) (sys : system).



(** The options in effect. *)
Definition options_of (args : list (list Z)) : outcome :=
  match args with [] => Returns initial | _ => get_options strtod strdup env_verbose args end.

Lemma options_positive args g : options_of args = Returns g -> 1 <= SCALE g /\ 1 <= edgefactor g.
Proof.
  unfold options_of. destruct args as [|a args]; [by intros [= <-]|]. intros Hopt.
  pose proof (get_options_ok strtod strdup env_verbose (a :: args)) as He. rewrite Hopt in He. inversion He. lia.
Qed.


(** *** The branch for a file *)

Lemma sample_none n NBFS a st roots nvtx :
  1 <= nvtx <= 2 ^ 53 -> fe_state st -> (forall v, 0 <= v < nvtx -> a.[v] = Some 0) ->
  exists st', Graph500.sample_roots left_first n nvtx NBFS a st roots 0 = Some (st', roots, 0).
Proof.
  intros Hn Hst Ha. revert st Hst. induction n as [|n IH]; intros st Hst; cbn [Graph500.sample_roots]; [by exists st|].
  destruct (0 <? NBFS); [|by exists st]. destruct (Graph500.challenge_ok nvtx Hn left_first st Hst) as (c & -> & Hc).
  cbn [mbind option_bind]. rewrite Ha by done. cbn. by apply IH, step_fe, step_fe.
Qed.

Lemma no_roots nvtx NBFS t st :
  1 <= nvtx <= 2 ^ 53 -> fe_state st -> 0 <= t -> 0 < NBFS ->
  Graph500.choose_roots left_first nvtx [] 0 NBFS t st = Some None.
Proof.
  intros Hn Hst Ht HN. unfold Graph500.choose_roots. pose proof (Graph500.alen_cells nvtx 4 ltac:(lia) ltac:(lia)) as Hl.
  destruct (fill_range_ok (Graph500.xmalloc_cells nvtx 4) 0 nvtx 0) as (a & -> & Hla & Hga); [lia|lia|].
  cbn [mbind option_bind]. rewrite for_z_empty by lia. cbn [mbind option_bind].
  assert (forall v, 0 <= v < nvtx -> a.[v] = Some 0) as Ha.
  { intros v Hv. rewrite Hga by lia. by assert ((0 <=? v) && (v <? nvtx) = true) as -> by lia. }
  destruct (for_z_inv (fun _ c => c = 0) 0 nvtx (Graph500.count_adj a) 0) as (c & -> & ->); [lia|done| |].
  { intros k c Hk ->. unfold Graph500.count_adj. rewrite Ha by lia. cbn. by eexists. }
  cbn [mbind option_bind].
  destruct (sample_none (Z.to_nat nvtx) NBFS a st (replicate (Z.to_nat Graph500.NBFS_max) 0) nvtx Hn Hst Ha) as (st' & ->).
  cbn [mbind option_bind]. by assert ((0 <=? t) && (0 <? NBFS) = true) as -> by lia.
Qed.

(** C34: the option that names a file with the edges.  Whatever edges the file
    holds, the program asks for none of them, since the number it asks for is a
    variable that nothing has set, finds no root in the empty graph and exits
    with failure (if the variable it compares, which is not set either, is not
    negative). *)
Theorem graph500_file_ignored args SEED NBFS t order g name file :
  options_of args = Returns g -> dumpname g = Some name -> rootname g = None -> open_dump sys name = Some file ->
  SCALE g <= 53 -> 2 ^ SCALE g * edgefactor g < 2 ^ 63 ->
  match SEED with Some s => - 2 ^ 63 <= s < 2 ^ 63 | None => True end ->
  0 <= t -> 0 < NBFS ->
  real_main openmp fuel left_first strtod strdup env_verbose sys args SEED NBFS t order = Some (Ran Graph500.ExitFailure).
Proof.
  intros Hopt Hd Hrn Hf HS Hlen Hseed Ht HN. destruct (options_positive args g Hopt) as [HS1 He1].
  unfold real_main. fold (options_of args). rewrite Hopt. assert ((0 <=? SCALE g) && (SCALE g <? 63) = true) as -> by lia.
  cbn [check mbind option_bind]. destruct (init_random_live SEED Hseed) as (us & st & -> & Hus & Hst).
  cbn [mbind option_bind]. rewrite Z.shiftl_1_l. pose proof (Z.pow_le_mono_r 2 1 (SCALE g) ltac:(lia) ltac:(lia)) as Hp1.
  pose proof (Z.pow_le_mono_r 2 (SCALE g) 53 ltac:(lia) ltac:(lia)) as Hp2.
  rewrite sint64_id by nia. cbn [mbind option_bind].
  assert (2 ^ SCALE g <=? 2 ^ SCALE g * edgefactor g = true) as -> by nia.
  assert (edgefactor g <=? 2 ^ SCALE g * edgefactor g = true) as -> by nia.
  cbn [check mbind option_bind]. unfold input_edges. rewrite Hd, Hf. pose proof (alen_nonneg file).
  destruct (Z.ltb_spec (alen file) 0); [lia|]. change (take (Z.to_nat 0) file) with (@nil packed_edge). cbn [mbind option_bind]. unfold Graph500.run_bfs.
  destruct (Graph500.kernel_create_ok (G := G) [] ltac:(constructor) ltac:(done)) as (gr & m & Hc & _). change (alen []) with 0 in Hc.
  rewrite Hc. cbn [mbind option_bind]. cbn [environment_of Graph500.rootname]. rewrite Hrn. cbn [fmap option_fmap option_map].
  by rewrite no_roots by (done || lia).
Qed.
End Runs.

(** ** Examples *)

Definition example_system : system := MkSystem (fun _ => Some [MkEdge 0 1]) (fun _ => None) false true true.
Definition no_strtod (_ : list Z) : double * bool := (dzero, true).


Lemma graph500_file_ignored_witness :
  real_main (G := SeqCsr.globals) (MA := mod_arith_64) (team_of := first_first) true 0 true no_strtod Some false example_system
    [chars "-s1"; chars "-o"; chars "edges"] None 1 0 id = Some (Ran Graph500.ExitFailure).
Proof.
  apply (graph500_file_ignored (G := SeqCsr.globals) (team_of := first_first) true 0 true no_strtod Some false example_system
    [chars "-s1"; chars "-o"; chars "edges"] None 1 0 id (set_dump (Some (chars "edges")) (set_scale 1 initial))
    (chars "edges") [MkEdge 0 1]).
  - reflexivity.
  - reflexivity.
  - reflexivity.
  - reflexivity.
  - cbn. lia.
  - reflexivity.
  - exact I.
  - lia.
  - lia.
Defined.
End Graph500Main.
