(* ===== verification/MakeEdgelist.v ===== *)
(** * The program that writes edge lists (src/sources/graph500/make-edgelist.c)

    It generates the edges as graph500 does, writes them to a file or to the
    standard output, and writes roots for the searches, sampled in one pass over
    the vertices. *)

From Stdlib Require Import ZArith Lia String Sorted.
From stdpp Require Import list numbers.
From S2P Require Import Prelude Arrays CLib Threads Doubles Getopt ModArith Mrg MrgTable Graph Kronecker Rmat SeqList SeqCsr Graph500 Options Graph500Main.
#[local] Open Scope Z_scope.

Module MakeEdgelist.
Import Mrg Graph Options.


Section Main.
Context {MA : ModArith} {team_of : Team} (openmp : bool) (fuel : nat) (left_first : bool).
Context (strtod : list Z -> double * bool) (strdup : list Z -> option (list Z)) (env_verbose : bool).
(** Can a file be opened for writing? *)
Context (open_w : list Z -> bool).



End Main.

(** ** Proofs *)

Section Proofs.
Context {MA : ModArith} (left_first : bool) (E : list packed_edge) (nvtx : Z) (Hnv : 0 <= nvtx < 2 ^ 61).





End Proofs.



End MakeEdgelist.
