(* ===== verification/XsBench.v ===== *)
(** * XSBench: the code (sources/xsbench/src/)

    A macroscopic cross section of a material at an energy is a sum, over the
    material's nuclides, of values interpolated in the nuclides' energy grids.
    The interval is found by a binary search in every nuclide's grid, by one
    search in the sorted union of all grids with an index for every nuclide, or
    from a table of bins.  The grids are one block of memory with a pointer to
    every row; an index of the union or of a bin is a pointer into one block of
    integers.  Memory is assumed to suffice; progress messages, timing, the files
    that tell the scripts when to measure, and the report are left out, and the
    build is the one without MPI, PAPI and binary files. *)

From Stdlib Require Import ZArith Lia String Sorted.
From stdpp Require Import list numbers.
From S2P Require Import Prelude Arrays CLib Threads Doubles.
#[local] Open Scope Z_scope.

Module XsBench.

(** ** XSbench_header.h *)

Record NuclideGridPoint := MkNGP {
  energy : double;
  total_xs : double;
  elastic_xs : double;
  absorbtion_xs : double;
  fission_xs : double;
  nu_fission_xs : double;
}.

(** [xs_ptrs] is an index into the block of integers. *)
Record GridPoint := MkGP { gp_energy : double; xs_ptrs : Z }.

Definition UNIONIZED : Z := 0.
Definition NUCLIDE : Z := 1.
Definition HASH : Z := 2.
Definition HISTORY_BASED : Z := 1.
Definition EVENT_BASED : Z := 2.

Record Inputs := MkInputs {
  nthreads : Z;
  n_isotopes : Z;
  n_gridpoints : Z;
  lookups : Z;
  HM : list Z;
  grid_type : Z;
  hash_bins : Z;
  particles : Z;
  simulation_method : Z;
}.

(** The rows' pointers and the block; the points and the block of integers. *)
Record matrix := MkMatrix { rows : list Z; points : list NuclideGridPoint }.
Record grid := MkGrid { egrid : list GridPoint; indices : list Z }.

Definition ngp (M : matrix) (i j : Z) : option NuclideGridPoint := r ← (rows M).[i]; (points M).[r + j].
Definition set_ngp (M : matrix) (i j : Z) (p : NuclideGridPoint) : option matrix :=
  r ← (rows M).[i]; full ← (points M).[r + j <- p]; Some (MkMatrix (rows M) full).
Definition xs_ptr (G : grid) (e i : Z) : option Z := p ← (egrid G).[e]; (indices G).[xs_ptrs p + i].
Definition set_xs_ptr (G : grid) (e i x : Z) : option grid :=
  p ← (egrid G).[e]; full ← (indices G).[xs_ptrs p + i <- x]; Some (MkGrid (egrid G) full).

(** ** XSutils.c *)

(** [int] counter against [size_t] bound; [junk] is what [malloc] returns. *)
Definition gpmatrix (junk : NuclideGridPoint) (m n : Z) : option matrix :=
  '(M, _) ← for_z 0 (m * n) (fun i '(M, j) =>
      assert! i <? 2 ^ 31 - 1;
      if i mod n =? 0 then M ← M.[j <- i]; Some (M, j + 1) else Some (M, j)) (replicate (Z.to_nat m) 0, 0);
  Some (MkMatrix M (replicate (Z.to_nat (m * n)) junk)).

Definition NGP_compare (i j : NuclideGridPoint) : Z :=
  if dltb (energy j) (energy i) then 1 else if dltb (energy i) (energy j) then -1 else 0.

(** A step of the generator. *)
Definition rn_next (seed : Z) : Z := u64 (16807 * seed) mod 2147483647.

(** The value and the new seed. *)
Definition rn (seed : Z) : double * Z :=
  let n1 := rn_next seed in (ddiv (double_of n1) (double_of 2147483647), n1).

(** [seed] is a static variable, 1337 at first. *)
Definition rn_v (seed : Z) : double * Z := rn seed.

(** The characters up to the terminating 0. *)
Definition hash (str : list Z) (nbins : Z) : option Z :=
  let h := foldl (fun hash c => u32 (u32 (u32 (Z.shiftl hash 5) + hash) + c)) 5381 str in
  assert! negb (u32 nbins =? 0);
  Some (h mod u32 nbins).

Definition estimate_mem_usage (x : Inputs) : Z :=
  let single_nuclide_grid := u64 (n_gridpoints x * 48) in
  let all_nuclide_grids := u64 (n_isotopes x * single_nuclide_grid) in
  let size_GridPoint := u64 (16 + n_isotopes x * 4) in
  let size_UEG := u64 (n_isotopes x * n_gridpoints x * size_GridPoint) in
  let size_hash_grid := u64 (hash_bins x * size_GridPoint) in
  let memtotal :=
    if grid_type x =? UNIONIZED then u64 (all_nuclide_grids + size_UEG)
    else if grid_type x =? NUCLIDE then all_nuclide_grids
    else u64 (all_nuclide_grids + size_hash_grid) in
  memtotal / 1048576.

(** ** CalculateXS.c *)

(** The loop of both searches, on the energies that [read] reads. *)
Definition search_step (read : Z -> option double) (quarry : double) (s : Z * Z) : option (Z * Z) :=
  let '(lowerLimit, upperLimit) := s in
  let examinationPoint := lowerLimit + Z.quot (upperLimit - lowerLimit) 2 in
  e ← read examinationPoint;
  Some (if dltb quarry e then (lowerLimit, examinationPoint) else (examinationPoint, upperLimit)).
Definition search (read : Z -> option double) (quarry : double) (low high : Z) : option Z :=
  '(lowerLimit, _) ← while_fuel (Z.to_nat (high - low + 1)) (fun '(l, u) => Some (1 <? u - l)) (search_step read quarry) (low, high);
  Some lowerLimit.

Definition grid_search (n : Z) (quarry : double) (A : list GridPoint) : option Z :=
  search (fun k => p ← A.[k]; Some (gp_energy p)) quarry 0 (n - 1).

(** [A] is row [nuc] of the matrix. *)
Definition grid_search_nuclide (quarry : double) (M : matrix) (nuc low high : Z) : option Z :=
  search (fun k => p ← ngp M nuc k; Some (energy p)) quarry low high.

(** The lower point of the interval, as the three kinds of grids find it. *)
Definition low_nuclide (p_energy : double) (nuc n_gridpoints : Z) (M : matrix) : option Z :=
  idx ← grid_search_nuclide p_energy M nuc 0 (n_gridpoints - 1);
  Some (if idx =? n_gridpoints - 1 then idx - 1 else idx).

Definition low_unionized (nuc n_gridpoints : Z) (G : grid) (idx : Z) : option Z :=
  p ← xs_ptr G idx nuc;
  Some (if p =? n_gridpoints - 1 then p - 1 else p).

Definition low_hash (p_energy : double) (nuc n_gridpoints : Z) (G : grid) (M : matrix) (idx hash_bins : Z) : option Z :=
  u_low ← xs_ptr G idx nuc;
  u_high ← (if idx =? hash_bins - 1 then sint32 (n_gridpoints - 1) else p ← xs_ptr G (idx + 1) nuc; sint32 (p + 1));
  low ← ngp M nuc u_low;
  high ← ngp M nuc u_high;
  lower ← (if dleb p_energy (energy low) then Some 0
           else if dleb (energy high) p_energy then sint32 (n_gridpoints - 1)
           else i ← grid_search_nuclide p_energy M nuc u_low u_high; sint32 i);
  Some (if lower =? n_gridpoints - 1 then lower - 1 else lower).

(** [high->xs - f * (high->xs - low->xs)] *)
Definition interpolate (f low high : double) : double := dsub high (dmul f (dsub high low)).

Definition calculate_micro_xs (p_energy : double) (nuc n_gridpoints : Z) (G : grid) (M : matrix)
    (idx grid_type hash_bins : Z) : option (list double) :=
  l ← (if grid_type =? NUCLIDE then low_nuclide p_energy nuc n_gridpoints M
       else if grid_type =? UNIONIZED then low_unionized nuc n_gridpoints G idx
       else low_hash p_energy nuc n_gridpoints G M idx hash_bins);
  low ← ngp M nuc l;
  high ← ngp M nuc (l + 1);
  let f := ddiv (dsub (energy high) p_energy) (dsub (energy high) (energy low)) in
  Some [interpolate f (total_xs low) (total_xs high);
        interpolate f (elastic_xs low) (elastic_xs high);
        interpolate f (absorbtion_xs low) (absorbtion_xs high);
        interpolate f (fission_xs low) (fission_xs high);
        interpolate f (nu_fission_xs low) (nu_fission_xs high)].

(** What the lookups read: sizes, concentrations, materials. *)
Record materials := MkMaterials { num_nucs : list Z; mats : list (list Z); concs : list (list double) }.

(** [1.0 / hash_bins] *)
Definition bin_width (hash_bins : Z) : double := ddiv (double_of 1) (double_of hash_bins).

Definition calculate_macro_xs (p_energy : double) (mat n_isotopes n_gridpoints : Z) (W : materials) (G : grid) (M : matrix)
    (grid_type hash_bins : Z) : option (list double) :=
  idx ← (if grid_type =? UNIONIZED then grid_search (n_isotopes * n_gridpoints) p_energy (egrid G)
         else if grid_type =? HASH then long_of (ddiv p_energy (bin_width hash_bins))
         else Some (-1));
  n ← (num_nucs W).[mat];
  for_z 0 n (fun j macro_xs_vector =>
    nucs ← (mats W).[mat];
    p_nuc ← nucs.[j];
    cs ← (concs W).[mat];
    conc ← cs.[j];
    xs_vector ← calculate_micro_xs p_energy p_nuc n_gridpoints G M idx grid_type hash_bins;
    Some (zip_with (fun macro xs => dadd macro (dmul xs conc)) macro_xs_vector xs_vector)) (replicate 5 dzero).

(** ** GridInit.c *)

(** [qsort] with [NGP_compare]: the order of equal energies is not specified. *)
Class Qsort := {
  qsort : list NuclideGridPoint -> list NuclideGridPoint;
  qsort_perm l : qsort l ≡ₚ l;
  qsort_sorted l : Forall (fun p => num (energy p)) l -> StronglySorted (fun p q => NGP_compare p q <= 0) (qsort l);
}.

(** The six numbers of a point, drawn one after the other. *)
Definition draw_point {S} (next : S -> double * S) (s : S) : NuclideGridPoint * S :=
  let '(a, s) := next s in let '(b, s) := next s in let '(c, s) := next s in
  let '(d, s) := next s in let '(e, s) := next s in let '(f, s) := next s in
  (MkNGP a b c d e f, s).
Definition fill_grids {S} (next : S -> double * S) (n_isotopes n_gridpoints : Z) (M : matrix) (s : S) : option (matrix * S) :=
  for_z 0 n_isotopes (fun i => for_z 0 n_gridpoints (fun j '(M, s) =>
    let '(p, s) := draw_point next s in M ← set_ngp M i j p; Some (M, s))) (M, s).

Definition RAND_MAX : Z := 2147483647.

(** The values of [rand()] since the program started. *)
Class Rand := { rand : nat -> Z; rand_range k : 0 <= rand k <= RAND_MAX }.
Definition rand_double {r : Rand} (k : nat) : double * nat := (ddiv (double_of (rand k)) (double_of RAND_MAX), S k).

Definition generate_grids {r : Rand} (n_isotopes n_gridpoints : Z) (M : matrix) (k : nat) : option (matrix * nat) :=
  fill_grids rand_double n_isotopes n_gridpoints M k.
Definition generate_grids_v (n_isotopes n_gridpoints : Z) (M : matrix) (seed : Z) : option (matrix * Z) :=
  fill_grids rn_v n_isotopes n_gridpoints M seed.

Section Code.
Context {qs : Qsort} {team_of : Team} (fuel : nat).

(** [qsort(&a[lo], n, ...)] *)
Definition sort_range (a : list NuclideGridPoint) (lo n : Z) : option (list NuclideGridPoint) :=
  assert! (0 <=? lo) && (0 <=? n) && (lo + n <=? alen a);
  Some (take (Z.to_nat lo) a ++ qsort (take (Z.to_nat n) (drop (Z.to_nat lo) a)) ++ drop (Z.to_nat (lo + n)) a).

Definition sort_nuclide_grids (n_isotopes n_gridpoints : Z) (M : matrix) : option matrix :=
  for_z 0 n_isotopes (fun i M =>
    r ← (rows M).[i]; full ← sort_range (points M) r n_gridpoints; Some (MkMatrix (rows M) full)) M.

(** The indices of the union are not set yet. *)
Definition generate_energy_grid (junk : NuclideGridPoint) (n_isotopes n_gridpoints : Z) (M : matrix) : option grid :=
  let n_unionized_grid_points := n_isotopes * n_gridpoints in
  let energy_grid := replicate (Z.to_nat n_unionized_grid_points) (MkGP dzero 0) in
  n_grid_sorted ← gpmatrix junk n_isotopes n_gridpoints;
  dst ← (rows n_grid_sorted).[0];
  src ← (rows M).[0];
  full ← for_z 0 n_unionized_grid_points (fun k full => copy full (dst + k) (points M) (src + k)) (points n_grid_sorted);
  full ← sort_range full dst n_unionized_grid_points;
  energy_grid ← for_z 0 n_unionized_grid_points (fun i g =>
    p ← full.[dst + i]; q ← g.[i]; g.[i <- MkGP (energy p) (xs_ptrs q)]) energy_grid;
  energy_grid ← for_z 0 n_unionized_grid_points (fun i g => q ← g.[i]; g.[i <- MkGP (gp_energy q) (n_isotopes * i)]) energy_grid;
  Some (MkGrid energy_grid (replicate (Z.to_nat (n_isotopes * n_unionized_grid_points)) 0)).

(** A nuclide at a point of the union: the index moves on by one at most. *)
Definition ptr_step (n_gridpoints : Z) (M : matrix) (e : Z) (unionized_energy : double) (i : Z)
    (s : grid * list Z * list double) : option (grid * list Z * list double) :=
  let '(G, idx_low, energy_high) := s in
  eh ← energy_high.[i];
  il ← idx_low.[i];
  if dltb unionized_energy eh then G ← set_xs_ptr G e i il; Some (G, idx_low, energy_high)
  else if il =? n_gridpoints - 2 then G ← set_xs_ptr G e i il; Some (G, idx_low, energy_high)
  else
    il ← sint32 (il + 1);
    idx_low ← idx_low.[i <- il];
    G ← set_xs_ptr G e i il;
    p ← ngp M i (il + 1);
    energy_high ← energy_high.[i <- energy p];
    Some (G, idx_low, energy_high).

Definition set_grid_ptrs (n_isotopes n_gridpoints : Z) (G : grid) (M : matrix) : option grid :=
  let idx_low := replicate (Z.to_nat n_isotopes) 0 in
  energy_high ← for_z 0 n_isotopes (fun i eh => p ← ngp M i 1; eh.[i <- energy p]) (replicate (Z.to_nat n_isotopes) dzero);
  '(G, _, _) ← for_z 0 (n_isotopes * n_gridpoints) (fun e s =>
    p ← (egrid (fst (fst s))).[e];
    for_z 0 n_isotopes (ptr_step n_gridpoints M e (gp_energy p)) s) (G, idx_low, energy_high);
  Some G.

(** The searches of a bin, by one iteration of the parallel loop. *)
Definition hash_bin (n_isotopes n_gridpoints : Z) (M : matrix) (du : double) (e : Z) (G : grid) : option grid :=
  let energy := dmul (double_of e) du in
  for_z 0 n_isotopes (fun i G =>
    x ← grid_search_nuclide energy M i 0 (n_gridpoints - 1); x ← sint32 x; set_xs_ptr G e i x) G.

Definition generate_hash_table (n_isotopes n_gridpoints hash_bins : Z) (M : matrix) : Par grid :=
  let G := MkGrid (replicate (Z.to_nat hash_bins) (MkGP dzero 0)) (replicate (Z.to_nat (n_isotopes * hash_bins)) 0) in
  eg ← lift (for_z 0 hash_bins (fun i g => q ← g.[i]; g.[i <- MkGP (gp_energy q) (n_isotopes * i)]) (egrid G));
  let du := bin_width hash_bins in
  par_for (hash_bin n_isotopes n_gridpoints M du) fuel 0 hash_bins (MkGrid eg (indices G)).

(** ** Materials.c *)

Definition load_num_nucs (n_isotopes : Z) : list Z :=
  [if n_isotopes =? 68 then 34 else 321; 5; 4; 4; 27; 21; 21; 21; 21; 21; 9; 9].

Definition mats0_Sml : list Z :=
  [58; 59; 60; 61; 40; 42; 43; 44; 45; 46; 1; 2; 3; 7; 8; 9; 10; 29; 57; 47; 48; 0; 62; 15; 33; 34; 52; 53; 54; 55; 56; 18; 23; 41].
(** [for( int i = 0; i < 321-34; i++ ) mats0_Lrg[34+i] = 68 + i;] *)
Definition mats0_Lrg : list Z := mats0_Sml ++ seqZ 68 (321 - 34).
Definition mats1 : list Z := [63; 64; 65; 66; 67].
Definition mats2 : list Z := [24; 41; 4; 5].
Definition mats4 : list Z :=
  [19; 20; 21; 22; 35; 36; 37; 38; 39; 25; 27; 28; 29; 30; 31; 32; 26; 49; 50; 51; 11; 12; 13; 14; 6; 16; 17].
Definition mats5 : list Z := [24; 41; 4; 5; 19; 20; 21; 22; 35; 36; 37; 38; 39; 25; 49; 50; 51; 11; 12; 13; 14].
Definition mats10 : list Z := [24; 41; 4; 5; 63; 64; 65; 66; 67].

(** [memcpy(mats[i], matsi, num_nucs[i] * sizeof(int))]: the sizes must agree. *)
Definition load_mats (num_nucs : list Z) (n_isotopes : Z) : option (list (list Z)) :=
  let src := [if n_isotopes =? 68 then mats0_Sml else mats0_Lrg; mats1; mats2; mats2; mats4; mats5; mats5; mats5; mats5; mats5; mats10; mats10] in
  mapM (fun '(n, l) => assert! (0 <=? n) && (n <=? alen l); Some (take (Z.to_nat n) l)) (zip num_nucs src).

Definition draw_concs {S} (next : S -> double * S) (n : Z) (s : S) : option (list double * S) :=
  for_z 0 n (fun j '(c, s) => let '(x, s) := next s in c ← c.[j <- x]; Some (c, s)) (replicate (Z.to_nat n) dzero, s).
Definition fill_concs {S} (next : S -> double * S) (num_nucs : list Z) (s : S) : option (list (list double) * S) :=
  for_z 0 12 (fun i '(concs, s) =>
    n ← num_nucs.[i]; '(c, s) ← draw_concs next n s; Some (concs ++ [c], s)) ([], s).
Definition load_concs {r : Rand} (num_nucs : list Z) (k : nat) : option (list (list double) * nat) := fill_concs rand_double num_nucs k.
Definition load_concs_v (num_nucs : list Z) (seed : Z) : option (list (list double) * Z) := fill_concs rn_v num_nucs seed.

(** A decimal fraction with three digits. *)
Definition milli (n : Z) : double := ddiv (double_of n) (double_of 1000).
Definition dist : list double :=
  milli <$> [140; 52; 275; 134; 154; 64; 66; 55; 8; 15; 25; 13].

(** [running] of pick [i] *)
Definition running (i : Z) : option double := for_down i 0 (fun j running => d ← dist.[j]; Some (dadd running d)) dzero.

Definition pick_mat (seed : Z) : option (Z * Z) :=
  let '(roll, seed) := rn seed in
  pick ← for_z 0 12 (fun i pick =>
    match pick with
    | Some _ => Some pick
    | None => r ← running i; Some (if dltb roll r then Some i else None)
    end) None;
  Some (default 0 pick, seed).

End Code.

(** ** Simulation.c *)

(** What the run reads and does not change. *)
Record data := MkData { d_grid : grid; d_matrix : matrix; d_mat : materials }.

(** The line that is hashed, as [sprintf] writes it. *)
Class Sprintf := { print_line : double -> Z -> list double -> list Z }.

Section Simulation.
Context {sp : Sprintf} {team_of : Team} (verification : bool) (fuel : nat) (x : Inputs) (D : data).

Definition lookup_xs (p_energy : double) (mat : Z) : option (list double) :=
  calculate_macro_xs p_energy mat (n_isotopes x) (n_gridpoints x) (d_mat D) (d_grid D) (d_matrix D) (grid_type x) (hash_bins x).

(** [vhash_local], 0 when there is no verification. *)
Definition vhash_local (p_energy : double) (mat : Z) (xs : list double) : option Z :=
  if verification then hash (print_line p_energy mat xs) 10000 else Some 0.

(** [((unsigned long) i + 1) * 13371337] *)
Definition particle_seed (i : Z) : Z := u64 (u64 (i + 1) * 13371337).

Definition event_lookup (i : Z) : option Z :=
  let seed := particle_seed i in
  let '(p_energy, seed) := rn seed in
  '(mat, _) ← pick_mat seed;
  xs ← lookup_xs p_energy mat;
  vhash_local p_energy mat xs.

(** [seed += macro_xs_vector[k] * (k+1)*1337*1337], computed as doubles. *)
Definition mix_seed (xs : list double) (k : Z) (seed : Z) : option Z :=
  v ← xs.[k];
  let d := dmul (dmul (dmul v (double_of (k + 1))) (double_of 1337)) (double_of 1337) in
  ulong_of (dadd (double_of seed) d).

Definition history_lookup (s : Z * double * Z * Z) : option (Z * double * Z * Z) :=
  let '(seed, p_energy, mat, vhash) := s in
  xs ← lookup_xs p_energy mat;
  h ← vhash_local p_energy mat xs;
  seed ← for_z 0 5 (mix_seed xs) seed;
  let '(p_energy, seed) := rn seed in
  '(mat, seed) ← pick_mat seed;
  Some (seed, p_energy, mat, u64 (vhash + h)).

Definition history_particle (p : Z) : option Z :=
  let seed := particle_seed p in
  let '(p_energy, seed) := rn seed in
  '(mat, seed) ← pick_mat seed;
  '(_, _, _, vhash) ← for_z 0 (lookups x) (fun _ => history_lookup) (seed, p_energy, mat, 0);
  Some vhash.

(** An iteration of the parallel loop by one thread: [todo] and its [vhash]. *)
Definition sim_step (iteration : Z -> option Z) (_ : nat) (_ : unit) (t : list Z * Z) : option (unit * (list Z * Z)) :=
  let '(todo, vhash) := t in
  match todo with
  | i :: todo => h ← iteration i; Some (tt, (todo, u64 (vhash + h)))
  | [] => None
  end.
Definition sim_done (t : list Z * Z) : bool := match fst t with [] => true | _ => false end.

(** [#pragma omp for] with [reduction(+:vhash)] *)
Definition simulate (iteration : Z -> option Z) (n : Z) : Par Z :=
  todos ← dealt 0 n;
  '(_, ts) ← region (sim_step iteration) sim_done fuel tt ((fun todo => (todo, 0)) <$> todos);
  mret (foldr (fun t sum => u64 (t.2 + sum)) 0 ts).

Definition run_event_based_simulation : Par Z := simulate event_lookup (lookups x).
Definition run_history_based_simulation : Par Z := simulate history_particle (particles x).
End Simulation.

(** ** read_CLI of io.c *)

(** The loop's state: the inputs, and what the user has set. *)
Record cli := MkCli { cli_in : Inputs; user_g : bool; default_lookups : bool; default_particles : bool }.

Definition defaults (num_procs : Z) : cli :=
  MkCli (MkInputs num_procs 355 11303 34 (chars "large") UNIONIZED 10000 500000 HISTORY_BASED) false true true.

Definition set_nthreads v x := MkInputs v (n_isotopes x) (n_gridpoints x) (lookups x) (HM x) (grid_type x) (hash_bins x) (particles x) (simulation_method x).
Definition set_n_isotopes v x := MkInputs (nthreads x) v (n_gridpoints x) (lookups x) (HM x) (grid_type x) (hash_bins x) (particles x) (simulation_method x).
Definition set_n_gridpoints v x := MkInputs (nthreads x) (n_isotopes x) v (lookups x) (HM x) (grid_type x) (hash_bins x) (particles x) (simulation_method x).
Definition set_lookups v x := MkInputs (nthreads x) (n_isotopes x) (n_gridpoints x) v (HM x) (grid_type x) (hash_bins x) (particles x) (simulation_method x).
Definition set_HM v x := MkInputs (nthreads x) (n_isotopes x) (n_gridpoints x) (lookups x) v (grid_type x) (hash_bins x) (particles x) (simulation_method x).
Definition set_grid_type v x := MkInputs (nthreads x) (n_isotopes x) (n_gridpoints x) (lookups x) (HM x) v (hash_bins x) (particles x) (simulation_method x).
Definition set_hash_bins v x := MkInputs (nthreads x) (n_isotopes x) (n_gridpoints x) (lookups x) (HM x) (grid_type x) v (particles x) (simulation_method x).
Definition set_particles v x := MkInputs (nthreads x) (n_isotopes x) (n_gridpoints x) (lookups x) (HM x) (grid_type x) (hash_bins x) v (simulation_method x).
Definition set_simulation_method v x := MkInputs (nthreads x) (n_isotopes x) (n_gridpoints x) (lookups x) (HM x) (grid_type x) (hash_bins x) (particles x) v.

(** An option with its argument; [None] is [print_CLI_error], which exits. *)
Definition cli_option (c : cli) (arg v : list Z) : option cli :=
  let '(MkCli x g l p) := c in
  if streq arg (chars "-t") then Some (MkCli (set_nthreads (atoi v) x) g l p)
  else if streq arg (chars "-g") then Some (MkCli (set_n_gridpoints (atol v) x) true l p)
  else if streq arg (chars "-m") then
    if streq v (chars "history") then Some (MkCli (set_simulation_method HISTORY_BASED x) g l p)
    else if streq v (chars "event") then
      let x := set_simulation_method EVENT_BASED x in
      Some (MkCli (if l && p then set_particles 0 (set_lookups (lookups x * particles x) x) else x) g l p)
    else None
  else if streq arg (chars "-l") then Some (MkCli (set_lookups (atoi v) x) g false p)
  else if streq arg (chars "-h") then Some (MkCli (set_hash_bins (atoi v) x) g l p)
  else if streq arg (chars "-p") then Some (MkCli (set_particles (atoi v) x) g l false)
  else if streq arg (chars "-s") then Some (MkCli (set_HM v x) g l p)
  else if streq arg (chars "-G") then
    if streq v (chars "unionized") then Some (MkCli (set_grid_type UNIONIZED x) g l p)
    else if streq v (chars "nuclide") then Some (MkCli (set_grid_type NUCLIDE x) g l p)
    else if streq v (chars "hash") then Some (MkCli (set_grid_type HASH x) g l p)
    else None
  else None.

Fixpoint cli_loop (args : list (list Z)) (c : cli) : option cli :=
  match args with
  | [] => Some c
  | [_] => None
  | arg :: v :: args => c ← cli_option c arg v; cli_loop args c
  end.

Definition read_CLI (num_procs : Z) (args : list (list Z)) : option Inputs :=
  c ← cli_loop args (defaults num_procs);
  let x := cli_in c in
  if nthreads x <? 1 then None
  else if n_isotopes x <? 1 then None
  else if n_gridpoints x <? 1 then None
  else if lookups x <? 1 then None
  else if hash_bins x <? 1 then None
  else if negb (strcaseeq (HM x) (chars "small")) && negb (strcaseeq (HM x) (chars "large")) &&
          negb (strcaseeq (HM x) (chars "XL")) && negb (strcaseeq (HM x) (chars "XXL")) then None
  else if strcaseeq (HM x) (chars "small") then Some (set_n_isotopes 68 x)
  else if strcaseeq (HM x) (chars "XL") && negb (user_g c) then Some (set_n_gridpoints 238847 x)
  else if strcaseeq (HM x) (chars "XXL") && negb (user_g c) then
    n ← long_of (dmul (double_of 238847) (ddiv (double_of 21) (double_of 10))); Some (set_n_gridpoints n x)
  else Some x.

(** ** real_main of Main.c *)

Section Main.
Context {qs : Qsort} {r : Rand} {sp : Sprintf} {team_of : Team} (verification : bool) (fuel : nat) (junk : NuclideGridPoint).

(** The grids and the materials; with verification they come from [rn_v]. *)
Definition prepare (x : Inputs) : Par data :=
  M ← lift (gpmatrix junk (n_isotopes x) (n_gridpoints x));
  '(M, k, seed) ← lift (if verification
    then '(M, seed) ← generate_grids_v (n_isotopes x) (n_gridpoints x) M 1337; Some (M, O, seed)
    else '(M, k) ← generate_grids (n_isotopes x) (n_gridpoints x) M O; Some (M, k, 1337));
  M ← lift (sort_nuclide_grids (n_isotopes x) (n_gridpoints x) M);
  G ← (if grid_type x =? UNIONIZED then
         G ← lift (generate_energy_grid junk (n_isotopes x) (n_gridpoints x) M);
         lift (set_grid_ptrs (n_isotopes x) (n_gridpoints x) G M)
       else if grid_type x =? HASH then generate_hash_table fuel (n_isotopes x) (n_gridpoints x) (hash_bins x) M
       else mret (MkGrid [] []));
  let num_nucs := load_num_nucs (n_isotopes x) in
  mats ← lift (load_mats num_nucs (n_isotopes x));
  concs ← lift (if verification then fst <$> load_concs_v num_nucs seed else fst <$> load_concs num_nucs k);
  mret (MkData G M (MkMaterials num_nucs mats concs)).

(** The exit status and the checksum that is printed; 4 is [print_CLI_error]. *)
Definition real_main (num_procs : Z) (args : list (list Z)) : Par (Z * option Z) :=
  match read_CLI num_procs args with
  | None => mret (4, None)
  | Some x =>
      D ← prepare x;
      vhash ← (if simulation_method x =? EVENT_BASED then run_event_based_simulation verification fuel x D
               else if simulation_method x =? HISTORY_BASED then run_history_based_simulation verification fuel x D
               else mret 0);
      mret (0, Some (vhash mod 1000000))
  end.
End Main.

End XsBench.
