(* ===== verification/XsSearch.v ===== *)
(** * XSBench: finding the interval

    Energies of a grid are a function of the index that never decreases.  The
    binary search returns the one interval that brackets an energy; the index
    that moves along the union of all grids ends up at the same interval, and so
    does a search between the bounds of a bin. *)

From Stdlib Require Import ZArith Lia.
From stdpp Require Import list numbers.
From S2P Require Import Prelude Arrays Doubles XsBench.
#[local] Open Scope Z_scope.

Module XsSearch.
Import XsBench.

(** [A] of the points 0 to [n - 1] is sorted. *)
Definition sorted (A : Z -> double) (n : Z) : Prop :=
  (forall k, 0 <= k < n -> num (A k)) /\ forall j k, 0 <= j <= k -> k < n -> dle (A j) (A k).

(** The interval from [l] to [l + 1] is the one for [q]: the first one takes
    everything below, the last one everything above. *)
Definition bracket (A : Z -> double) (n : Z) (q : double) (l : Z) : Prop :=
  0 <= l <= n - 2 /\ (l = 0 \/ dle (A l) q) /\ (l = n - 2 \/ dlt q (A (l + 1))).

Lemma bracket_unique A n q l l' : num q -> sorted A n -> bracket A n q l -> bracket A n q l' -> l = l'.
Proof.
  intros Hq [Hn Hs]. assert (forall a b, bracket A n q a -> bracket A n q b -> ~ a < b) as Hlt.
  { intros a b (Ha & _ & [?|Hqa]) (Hb & [?|Hbq] & _) Hab; [lia..|]. apply dlt_nle in Hqa; [|done|apply Hn; lia].
    apply Hqa, (dle_trans _ (A b)); [apply Hn; lia|apply Hn; lia|done|apply Hs; lia|done]. }
  intros H H'. pose proof (Hlt _ _ H H'). pose proof (Hlt _ _ H' H). lia.
Qed.

(** The loop of the searches keeps [A l <= q] on the left and [q < A u] on the
    right, except at the ends where it started. *)
Lemma search_ok (A : Z -> double) read q low high :
  num q -> low < high -> (forall k, low < k < high -> read k = Some (A k) /\ num (A k)) ->
  exists l, search read q low high = Some l /\ low <= l < high /\
    (l = low \/ dle (A l) q) /\ (l = high - 1 \/ dlt q (A (l + 1))).
Proof.
  intros Hq Hlh Hread. unfold search.
  destruct (while_fuel_inv (fun '(l, u) => low <= l < u /\ u <= high /\ (l = low \/ dle (A l) q) /\ (u = high \/ dlt q (A u)))
    (fun '(l, u) => Z.to_nat (u - l)) (Z.to_nat (high - low + 1)) (fun '(l, u) => Some (1 <? u - l)) (search_step read q) (low, high))
    as ([l u] & -> & (Hl & Hu & HA & HB) & Hc).
  - split; [lia|]. split; [lia|]. split; by left.
  - cbn. lia.
  - intros [l u] (Hl & Hu & HA & HB). destruct (Z.ltb_spec 1 (u - l)) as [H1|H1]; [right|by left]. split; [done|].
    unfold search_step. set (m := l + Z.quot (u - l) 2).
    assert (l < m < u) as Hm by (unfold m; rewrite Z.quot_div_nonneg by lia; zdiv).
    destruct (Hread m ltac:(lia)) as [-> Hnm]. cbn [mbind option_bind]. eexists. split; [done|].
    destruct (dltb q (A m)) eqn:Eq.
    + split; [|lia]. split; [lia|]. split; [lia|]. split; [done|by right].
    + split; [|lia]. split; [lia|]. split; [lia|]. split; [|done]. right. unfold dle. rewrite dltb_dleb in Eq by done.
      by destruct (dleb (A m) q).
  - cbn [mbind option_bind]. exists l. split; [done|]. injection Hc as Hc. assert (u = l + 1) as -> by lia.
    split; [lia|]. split; [done|]. destruct HB; [left; lia|by right].
Qed.

(** In a whole grid the result brackets the energy. *)
Lemma search_bracket (A : Z -> double) read q n :
  num q -> 2 <= n -> sorted A n -> (forall k, 0 <= k < n -> read k = Some (A k)) ->
  exists l, search read q 0 (n - 1) = Some l /\ bracket A n q l.
Proof.
  intros Hq Hn2 [Hn _] Hread. destruct (search_ok A read q 0 (n - 1)) as (l & -> & Hl & HA & HB); [done|lia| |].
  { intros k Hk. split; [apply Hread; lia|apply Hn; lia]. }
  exists l. split; [done|]. split; [lia|]. split; [done|]. destruct HB; [left; lia|by right].
Qed.

(** ** The index that moves along the union *)

Definition move (A : Z -> double) (n : Z) (u : double) (f : Z) : Z :=
  if dltb u (A (f + 1)) then f else if f =? n - 2 then f else f + 1.

(** The index after the energies [us]. *)
Definition moved (A : Z -> double) (n : Z) (us : list double) : Z := foldl (fun f u => move A n u f) 0 us.

Section Moved.
Context (A : Z -> double) (n : Z) (Hn : 2 <= n) (HA : sorted A n).

(** The energies of the grid from [k] on, as keys. *)
Definition left_from (k : Z) : list (Z * Z * Z) := (fun j => key (A j)) <$> seqZ k (n - k).

Lemma left_cons k : 0 <= k < n -> left_from k = key (A k) :: left_from (k + 1).
Proof.
  intros Hk. unfold left_from. rewrite seqZ_cons by lia. replace (Z.pred (n - k)) with (n - (k + 1)) by lia. done.
Qed.

Lemma below_antisym a b : ~ below a b -> ~ below b a -> a = b.
Proof. destruct a as [[? ?] ?], b as [[? ?] ?]. cbn. intros. repeat f_equal; lia. Qed.

(** The smallest energy to come, when it is one of the grid, is the next of the grid. *)
Lemma first_left u rest k others :
  0 <= k < n -> num u -> Forall num rest -> (forall x, x ∈ rest -> dle u x) ->
  key <$> u :: rest ≡ₚ left_from k ++ others -> key u ∈ left_from k -> key u = key (A k).
Proof.
  intros Hk Hu Hrest Hmin Hp Hin. destruct HA as [HnA Hs].
  assert (forall a, ~ below a a) as Hirr by (intros [[? ?] ?]; cbn; lia).
  assert (key (A k) ∈ key <$> u :: rest) as Hm by (rewrite Hp, left_cons by lia; left). cbn in Hm.
  apply below_antisym; intros Hb; (apply elem_of_cons in Hm as [E|Hm]; [rewrite E in Hb; by apply Hirr in Hb|]);
    apply list_elem_of_fmap in Hm as (x & Ex & Hx).
  - apply list_elem_of_fmap in Hin as (j & Ej & Hj%elem_of_seqZ). pose proof (Hs k j ltac:(lia) ltac:(lia)) as Hkj.
    apply dleb_key in Hkj; [|apply HnA; lia..]. rewrite <- Ej in Hkj. exact (Hkj Hb).
  - rewrite list.Forall_forall in Hrest. pose proof (Hmin x Hx) as Hux.
    apply dleb_key in Hux; [|done|by apply Hrest]. rewrite <- Ex in Hux. exact (Hux Hb).
Qed.

(** [us] have been seen, [rest] is to come, sorted: of the grid, the points below
    [k] have been seen; the index has passed them, and no others. *)
Definition moved_inv (us rest : list double) (k : Z) : Prop :=
  0 <= k <= n /\ (exists others, key <$> rest ≡ₚ left_from k ++ others) /\
  Z.min (n - 2) (k - 1) <= moved A n us <= n - 2 /\ 0 <= moved A n us /\
  (moved A n us = 0 \/ exists u, list.last us = Some u /\ dle (A (moved A n us)) u).

Lemma moved_snoc us u : moved A n (us ++ [u]) = move A n u (moved A n us).
Proof. unfold moved. by rewrite foldl_app. Qed.

Lemma moved_step us u rest k :
  Forall num (u :: rest) -> Forall (fun x => num x) us -> (forall x, x ∈ rest -> dle u x) -> (forall x, list.last us = Some x -> dle x u) ->
  moved_inv us (u :: rest) k -> exists k', moved_inv (us ++ [u]) rest k'.
Proof.
  intros Hnum Hnus Hmin Hlast (Hk & (others & Hp) & Hf & Hf0 & HAf). apply list.Forall_cons in Hnum as [Hu Hrest].
  destruct HA as [HnA Hs]. set (f := moved A n us) in *.
  assert (forall j, 0 <= j < n -> dle (A j) u <-> ~ below (key u) (key (A j))) as Hle by (intros j Hj; apply dleb_key; [by apply HnA|done]).
  assert (f = moved A n us) as Ef by done.
  assert (moved A n (us ++ [u]) = f \/ moved A n (us ++ [u]) = f + 1 /\ f < n - 2 /\ dle (A (f + 1)) u) as Hmv.
  { rewrite moved_snoc, <- Ef. unfold move. destruct (dltb u (A (f + 1))) eqn:El; [by left|]. destruct (Z.eqb_spec f (n - 2)); [by left|].
    right. split; [done|]. split; [lia|]. rewrite dltb_dleb in El by (done || apply HnA; lia). unfold dle. by destruct (dleb (A (f + 1)) u). }
  assert (moved A n (us ++ [u]) = 0 \/ exists u', list.last (us ++ [u]) = Some u' /\ dle (A (moved A n (us ++ [u]))) u') as HAf'.
  { rewrite last_snoc. destruct Hmv as [->|(-> & ? & ?)]; [|right; eauto]. destruct HAf as [?|(u' & Hu' & Hle')]; [by left|right].
    exists u. split; [done|]. eapply (dle_trans _ u'); [apply HnA; lia| |done|done|by apply Hlast].
    rewrite list.Forall_forall in Hnus. apply Hnus. by apply last_Some_elem_of. }
  destruct (decide (key u ∈ left_from k)) as [Hin|Hnin].
  - assert (k < n) as Hkn.
    { destruct (decide (k < n)); [done|]. unfold left_from in Hin. rewrite seqZ_nil in Hin by lia. by apply not_elem_of_nil in Hin. }
    pose proof (first_left u rest k others ltac:(lia) Hu Hrest Hmin Hp Hin) as Eu.
    exists (k + 1). split; [lia|]. split.
    { exists others. cbn in Hp. rewrite left_cons, Eu in Hp by lia. by apply Permutation_cons_inv in Hp. }
    split; [|split; [lia|done]]. split; [|lia]. destruct (decide (Z.min (n - 2) k <= f)); [lia|].
    assert (f + 1 = k) as Efk by lia. rewrite moved_snoc, <- Ef. unfold move. rewrite Efk, dltb_dleb by (done || apply HnA; lia).
    assert (dleb (A k) u = true) as ->. { apply Hle; [lia|]. rewrite Eu. destruct (key (A k)) as [[? ?] ?]. cbn. lia. }
    cbn [negb]. destruct (Z.eqb_spec f (n - 2)); lia.
  - assert (exists others', others ≡ₚ key u :: others') as (others' & Ho).
    { assert (key u ∈ left_from k ++ others) as Hm by (rewrite <- Hp; left). apply elem_of_app in Hm as [?|Hm]; [done|].
      by apply elem_of_Permutation in Hm. }
    exists k. split; [done|]. split; [|split; [lia|split; [lia|done]]]. exists others'.
    cbn in Hp. rewrite Ho, <- Permutation_middle in Hp. by apply Permutation_cons_inv in Hp.
Qed.
(** ** The union *)

Context (U : list double) (HUn : Forall num U) (HU : forall i j x y, (i <= j)%nat -> U !! i = Some x -> U !! j = Some y -> dle x y).
Context (HUA : exists others, key <$> U ≡ₚ left_from 0 ++ others).

Lemma moved_all e : (e <= length U)%nat -> exists k, moved_inv (take e U) (drop e U) k.
Proof.
  induction e as [|e IH]; intros He.
  - exists 0. split; [lia|]. split; [done|]. change (moved A n (take 0 U)) with 0. split; [lia|]. split; [lia|by left].
  - destruct IH as [k Hk]; [lia|]. destruct (lookup_lt_is_Some_2 U e ltac:(lia)) as [u Hu].
    rewrite (drop_S _ _ _ Hu) in Hk. rewrite (take_S_r _ _ _ Hu). apply (moved_step _ _ _ k); [| | | |done].
    + rewrite <- (drop_S _ _ _ Hu). by apply Forall_drop.
    + by apply Forall_take.
    + intros x (j & Hj)%list_elem_of_lookup. rewrite lookup_drop in Hj. eapply (HU e); [|done|done]. lia.
    + intros x (l & Hl)%last_Some. apply (HU (length l) e); [| |done].
      * apply (f_equal length) in Hl. rewrite length_take, length_app in Hl. cbn in Hl. lia.
      * assert (take e U !! length l = Some x) as Hx by (rewrite Hl; by rewrite lookup_app_r, Nat.sub_diag).
        apply lookup_take_Some in Hx. by destruct Hx.
Qed.

(** At the interval of the union that brackets [p] the index brackets [p] too.
    Below the whole union it must not have left the first interval. *)
Lemma moved_bracket (Uf : Z -> double) p l :
  num p -> 2 <= alen U -> (forall k, 0 <= k < alen U -> U !! Z.to_nat k = Some (Uf k)) ->
  bracket Uf (alen U) p l -> (dle (Uf 0) p \/ dlt (A 0) (A 1)) ->
  bracket A n p (moved A n (take (Z.to_nat (l + 1)) U)).
Proof.
  intros Hp HN HUf (Hl & Hlow & Hhigh) Hmin. destruct HA as [HnA Hs]. unfold alen in *.
  destruct (moved_all (Z.to_nat (l + 1))) as (k & Hk & (others & Hperm) & Hf & Hf0 & HAf); [lia|].
  set (f := moved A n _) in *. pose proof (HUf l ltac:(lia)) as Hul.
  assert (num (Uf l)) as Hnl. { rewrite list.Forall_forall in HUn. apply HUn. by eapply list_elem_of_lookup_2. }
  assert (num (Uf 0)) as Hn0. { rewrite list.Forall_forall in HUn. apply HUn. eapply (list_elem_of_lookup_2 _ (Z.to_nat 0)), HUf. lia. }
  split; [lia|]. split.
  - destruct HAf as [?|(u & Hu & Hle)]; [by left|]. replace (Z.to_nat (l + 1)) with (S (Z.to_nat l)) in Hu by lia.
    rewrite (take_S_r _ _ _ Hul), last_snoc in Hu. injection Hu as <-. destruct Hlow as [->|Hlow].
    + destruct Hmin as [H0|H01]; [right; eapply (dle_trans _ (Uf 0)); [apply HnA; lia|done..]|]. left.
      assert (f = 0 \/ f = 1) as [?|E1]; [|done|].
      { assert (f = move A n (Uf 0) 0) as ->; [|unfold move; destruct (dltb _ _); [by left|]; destruct (0 =? n - 2); [by left|by right]].
        unfold f. replace (Z.to_nat (0 + 1)) with 1%nat by lia. change (Z.to_nat 0) with 0%nat in Hul.
        destruct U as [|u0 U']; [done|]. cbn in Hul. by injection Hul as ->. }
      exfalso. rewrite E1 in Hle. apply dlt_nle in H01; [|apply HnA; lia..]. apply H01.
      destruct HUA as (o & HUA'). assert (key (A 0) ∈ key <$> U) as (x & Ex & Hx)%list_elem_of_fmap.
      { rewrite HUA', left_cons by lia. left. }
      assert (num x) as Hnx by (rewrite list.Forall_forall in HUn; by apply HUn).
      apply list_elem_of_lookup in Hx as (j & Hj). pose proof (HU 0 j _ _ ltac:(lia) Hul Hj) as H0x.
      assert (dle (A 1) x) as H1x by (eapply (dle_trans _ (Uf 0)); [apply HnA; lia|done..]).
      apply dleb_key; [apply HnA; lia..|]. rewrite Ex. apply dleb_key in H1x; [done|apply HnA; lia|done].
    + right. eapply (dle_trans _ (Uf l)); [apply HnA; lia|done..].
  - destruct (decide (f = n - 2)) as [?|Hfn]; [by left|right]. assert (k <= f + 1) as Hkf by lia.
    assert (key (A (f + 1)) ∈ key <$> drop (Z.to_nat (l + 1)) U) as (x & Ex & Hx)%list_elem_of_fmap.
    { rewrite Hperm. apply elem_of_app. left. apply list_elem_of_fmap. exists (f + 1). split; [done|]. apply elem_of_seqZ. lia. }
    assert (num x) as Hnx by (apply (Forall_drop _ (Z.to_nat (l + 1))) in HUn; rewrite list.Forall_forall in HUn; by apply HUn).
    assert (dlt p x -> dlt p (A (f + 1))) as Hgoal.
    { intros Hpx. apply dltb_key; [done|apply HnA; lia|]. rewrite Ex. by apply dltb_key. }
    apply Hgoal. apply list_elem_of_lookup in Hx as (j & Hj). rewrite lookup_drop in Hj.
    destruct Hhigh as [El|Hpl].
    + exfalso. apply Permutation_length in Hperm.
      rewrite length_fmap, length_drop, length_app in Hperm. unfold left_from in Hperm. rewrite length_fmap, length_seqZ in Hperm. lia.
    + assert (num (Uf (l + 1))) as Hn1.
      { rewrite list.Forall_forall in HUn. apply HUn. eapply (list_elem_of_lookup_2 _ (Z.to_nat (l + 1))), HUf.
        apply lookup_lt_Some in Hj. lia. }
      eapply (dlt_le_trans _ (Uf (l + 1))); [done|done|done|done|]. eapply (HU (Z.to_nat (l + 1))); [|apply HUf|exact Hj]; [lia|].
      apply lookup_lt_Some in Hj. lia.
Qed.
End Moved.

End XsSearch.
