(* ===== verification/XsGrid.v ===== *)
(** * XSBench: the grids, proved

    The matrix of grids, its rows sorted; the union with an index for every
    nuclide; the table of bins.  Everything stays inside the blocks. *)

From Stdlib Require Import ZArith Lia Sorted.
From stdpp Require Import list numbers.
From S2P Require Import Prelude Arrays Threads Doubles XsBench XsSearch.
#[local] Open Scope Z_scope.

Module XsGrid.
Import XsBench XsSearch.

Section Matrix.
Context (m n : Z) (Hm : 1 <= m) (Hn : 2 <= n) (Hmn : m * n < 2 ^ 31).

(** The energy of a point. *)
Definition en (M : matrix) (i j : Z) : double := from_option energy dzero ((points M).[n * i + j]).

Record matrix_shape (M : matrix) : Prop := {
  ms_rows : rows M = tab m (fun i => n * i);
  ms_len : alen (points M) = m * n;
}.

Record matrix_ok (M : matrix) : Prop := {
  mo_shape : matrix_shape M;
  mo_num : Forall (fun p => num (energy p)) (points M);
  mo_sorted : forall i, 0 <= i < m -> sorted (en M i) n;
}.

Lemma cell_range i j : 0 <= i < m -> 0 <= j < n -> 0 <= n * i + j < m * n.
Proof. nia. Qed.

Lemma ngp_shape M i j : matrix_shape M -> 0 <= i < m -> ngp M i j = (points M).[n * i + j].
Proof. intros [Hr _] Hi. unfold ngp. rewrite Hr, aget_tab by done. done. Qed.

Lemma ngp_ok M i j : matrix_shape M -> 0 <= i < m -> 0 <= j < n -> exists p, ngp M i j = Some p /\ energy p = en M i j.
Proof.
  intros Hs Hi Hj. rewrite (ngp_shape M i j Hs Hi). unfold en. destruct Hs as [_ Hl]. pose proof (cell_range i j Hi Hj).
  destruct (aget_in (points M) (n * i + j)) as [p Hp]; [lia|]. exists p. by rewrite Hp.
Qed.

Lemma set_ngp_ok M i j p :
  matrix_shape M -> 0 <= i < m -> 0 <= j < n ->
  exists M', set_ngp M i j p = Some M' /\ matrix_shape M' /\
    forall k, (points M').[k] = if decide (k = n * i + j) then Some p else (points M).[k].
Proof.
  intros [Hr Hl] Hi Hj. unfold set_ngp. rewrite Hr, aget_tab by done. cbn [mbind option_bind]. pose proof (cell_range i j Hi Hj).
  rewrite aset_in by lia. cbn [mbind option_bind]. eexists. split; [done|]. cbn [points rows]. split.
  - split; cbn [points rows]; [done|by rewrite alen_insert].
  - intros k. rewrite aget_insert by lia. done.
Qed.

(** [gpmatrix] puts a pointer at every [n]-th cell. *)
Lemma gpmatrix_ok junk : exists M, gpmatrix junk m n = Some M /\ matrix_shape M.
Proof.
  unfold gpmatrix. set (body := fun i '(M, j) => _).
  destruct (for_z_inv (fun i '(M, j) => j = (i + n - 1) / n /\ alen M = m /\ forall k, 0 <= k < j -> M.[k] = Some (n * k))
    0 (m * n) body (replicate (Z.to_nat m) 0, 0)) as ([M j] & -> & Hj & Hl & HM); [nia| | |].
  - split; [symmetry; apply Z.div_small; lia|]. split; [unfold alen; rewrite length_replicate; lia|]. intros; lia.
  - intros i [M j] Hi (Hj & Hl & HM). unfold body. rewrite check_true by lia. cbn [mbind option_bind].
    pose proof (Z.div_mod i n ltac:(lia)) as Hdm. pose proof (Z.mod_pos_bound i n ltac:(lia)) as Hmb.
    assert (j = i / n + (if decide (i mod n = 0) then 0 else 1)) as Ej.
    { rewrite Hj. case_decide as Hz.
      - symmetry. apply (Z.div_unique _ _ _ (n - 1)); lia.
      - symmetry. apply (Z.div_unique _ _ _ (i mod n - 1)); lia. }
    assert ((i + 1 + n - 1) / n = i / n + 1) as Ej'.
    { symmetry. apply (Z.div_unique _ _ _ (i mod n)); lia. }
    destruct (Z.eqb_spec (i mod n) 0) as [Hz|Hz].
    + rewrite decide_True in Ej by done. assert (0 <= j < m) as Hjm by (split; [pose proof (Z.div_pos i n); lia|]; nia).
      rewrite aset_in by lia. cbn [mbind option_bind]. eexists. split; [done|]. split; [lia|]. split; [by rewrite alen_insert|].
      intros k Hk. rewrite aget_insert by lia. case_decide as Hkj; [f_equal; nia|]. apply HM. lia.
    + rewrite decide_False in Ej by done. eexists. split; [done|]. split; [lia|]. split; [done|]. done.
  - cbn [mbind option_bind]. eexists. split; [done|].
    assert (j = m) as -> by (rewrite Hj; symmetry; apply (Z.div_unique _ _ _ (n - 1)); lia). split; cbn [rows points].
    + apply array_ext; [rewrite alen_tab by lia; done|]. intros k Hk. rewrite aget_tab by lia. apply HM. lia.
    + unfold alen. rewrite length_replicate. lia.
Qed.

(** Drawing the numbers. *)
Lemma fill_grids_ok {S} (next : S -> double * S) M s :
  (forall s, num (fst (next s))) -> matrix_shape M ->
  exists M' s', fill_grids next m n M s = Some (M', s') /\ matrix_shape M' /\ Forall (fun p => num (energy p)) (points M').
Proof.
  intros Hnext HM. unfold fill_grids.
  set (done_to := fun c (M : matrix) => matrix_shape M /\ forall k p, 0 <= k < c -> (points M).[k] = Some p -> num (energy p)).
  assert (exists Ms, for_z 0 m (fun i => for_z 0 n (fun j '(M, s) =>
    let '(p, s) := draw_point next s in M ← set_ngp M i j p; Some (M, s))) (M, s) = Some Ms /\ done_to (n * m) (fst Ms)) as (Ms & -> & HM' & Hall).
  { apply (for_z_inv (fun i Ms => done_to (n * i) (fst Ms))); [lia|split; [done|intros; lia]|].
    intros i Ms1 Hi [HM1 Hd1]. destruct (for_z_inv (fun j Ms => done_to (n * i + j) (fst Ms)) 0 n
      (fun j '(M, s) => let '(p, s) := draw_point next s in M ← set_ngp M i j p; Some (M, s)) Ms1) as (Ms2 & E2 & H2); [lia| | |].
    - split; [done|]. intros k p Hk. apply Hd1. lia.
    - intros j [M2 s2] Hj [HM2 Hd2]. cbn [fst] in *. destruct (draw_point next s2) as [p s3] eqn:Ep.
      assert (num (energy p)) as Hp.
      { unfold draw_point in Ep. pose proof (Hnext s2) as Hx. destruct (next s2) as [a s4].
        repeat match type of Ep with context [next ?z] => destruct (next z) as [? ?] end. by injection Ep as <- _. }
      destruct (set_ngp_ok M2 i j p HM2 Hi Hj) as (M3 & -> & HM3 & Hg3). cbn [mbind option_bind]. eexists. split; [done|]. cbn [fst].
      split; [done|]. intros k q Hk. rewrite Hg3. case_decide; [by intros [= <-]|]. apply Hd2. lia.
    - exists Ms2. split; [done|]. by replace (n * (i + 1)) with (n * i + n) by lia. }
  destruct Ms as [M' s']. cbn [fst] in *. exists M', s'. split; [done|]. split; [done|]. apply list.Forall_forall. intros p (k & Hk)%elem_aget.
  apply (Hall k); [|done]. apply aget_some_range in Hk. destruct HM' as [_ Hl]. lia.
Qed.
(** ** Sorting *)

Context {qs : Qsort}.

Lemma compare_le p q : num (energy p) -> num (energy q) -> NGP_compare p q <= 0 -> dle (energy p) (energy q).
Proof.
  intros Hp Hq. unfold NGP_compare. destruct (dltb (energy q) (energy p)) eqn:E1; [lia|]. intros _.
  rewrite dltb_dleb in E1 by done. unfold dle. by destruct (dleb (energy p) (energy q)).
Qed.

Lemma strongly_sorted_lookup {A} (R : A -> A -> Prop) l i j x y :
  StronglySorted R l -> (i < j)%nat -> l !! i = Some x -> l !! j = Some y -> R x y.
Proof.
  intros Hs. revert i j. induction Hs as [|z l Hs IH Hz]; intros [|i] [|j] Hij Hi Hj; try done; try lia; cbn in *.
  - injection Hi as ->. rewrite list.Forall_forall in Hz. apply Hz. by eapply list_elem_of_lookup_2.
  - by apply (IH i j); [lia|..].
Qed.

(** Sorted points, as a list. *)
Lemma qsort_le l i j p q :
  Forall (fun p => num (energy p)) l -> (i <= j)%nat -> qsort l !! i = Some p -> qsort l !! j = Some q -> dle (energy p) (energy q).
Proof.
  intros Hl Hij Hi Hj. assert (Forall (fun p => num (energy p)) (qsort l)) as Hl' by (by rewrite qsort_perm).
  pose proof (Forall_lookup_1 _ _ _ _ Hl' Hi) as Hp. pose proof (Forall_lookup_1 _ _ _ _ Hl' Hj) as Hq. cbn beta in Hp, Hq.
  destruct (decide (i = j)) as [->|Hne]; [rewrite Hi in Hj; injection Hj as <-; by apply dle_refl|].
  apply compare_le; [done|done|]. apply (strongly_sorted_lookup (fun p q => NGP_compare p q <= 0) (qsort l) i j); [by apply qsort_sorted|lia|done|done].
Qed.

Lemma aget_lookup {A} (l : list A) i : 0 <= i -> l.[i] = l !! Z.to_nat i.
Proof. intros Hi. unfold aget. by destruct (Z.ltb_spec i 0); [lia|]. Qed.

(** A range of a block, sorted; the rest stays. *)
Lemma sort_range_ok a lo k :
  0 <= lo -> 0 <= k -> lo + k <= alen a -> Forall (fun p => num (energy p)) a ->
  exists a', sort_range a lo k = Some a' /\ alen a' = alen a /\ a' ≡ₚ a /\
    (forall i, i < lo \/ lo + k <= i -> a'.[i] = a.[i]) /\
    (forall i j p q, lo <= i <= j -> j < lo + k -> a'.[i] = Some p -> a'.[j] = Some q -> dle (energy p) (energy q)).
Proof.
  intros Hlo Hk Hlen Ha. unfold sort_range. rewrite check_true by lia. cbn [mbind option_bind]. eexists. split; [done|].
  set (x := take (Z.to_nat lo) a). set (seg := take (Z.to_nat k) (drop (Z.to_nat lo) a)). set (z := drop (Z.to_nat (lo + k)) a).
  assert (a = x ++ seg ++ z) as Hsplit.
  { unfold x, seg, z. replace (Z.to_nat (lo + k)) with (Z.to_nat lo + Z.to_nat k)%nat by lia.
    rewrite <- drop_drop, take_drop, take_drop. done. }
  assert (alen x = lo) as Hx by (unfold alen, x in *; rewrite length_take; lia).
  assert (alen seg = k) as Hsg by (unfold alen, seg in *; rewrite length_take, length_drop; lia).
  assert (alen (qsort seg) = k) as Hq by (unfold alen in *; by rewrite qsort_perm).
  assert (Forall (fun p => num (energy p)) seg) as Hsn by (unfold seg; by apply Forall_take, Forall_drop).
  split; [rewrite Hsplit, !alen_app; lia|]. split; [transitivity (x ++ seg ++ z); [by rewrite qsort_perm|by rewrite <- Hsplit]|].
  clearbody x seg z. split.
  - intros i Hi. rewrite Hsplit. destruct (decide (i < lo)); [by rewrite !aget_app_l by lia|].
    rewrite !(aget_app_r x) by lia. rewrite !aget_app_r by lia. f_equal. lia.
  - intros i j p q Hi Hj. rewrite !(aget_app_r x), !aget_app_l, !aget_lookup by lia. intros Hp Hq'.
    apply (qsort_le seg (Z.to_nat (i - alen x)) (Z.to_nat (j - alen x))); [done|lia|done|done].
Qed.

Lemma en_get M i j p : (points M).[n * i + j] = Some p -> en M i j = energy p.
Proof. unfold en. by intros ->. Qed.

Lemma sort_nuclide_grids_ok M :
  matrix_shape M -> Forall (fun p => num (energy p)) (points M) ->
  exists M', sort_nuclide_grids m n M = Some M' /\ matrix_ok M'.
Proof.
  intros HM Hnum. unfold sort_nuclide_grids.
  destruct (for_z_inv (fun i M => matrix_shape M /\ Forall (fun p => num (energy p)) (points M) /\
      forall i', 0 <= i' < i -> sorted (en M i') n) 0 m
    (fun i M => r ← (rows M).[i]; full ← sort_range (points M) r n; Some (MkMatrix (rows M) full)) M) as (M' & E' & HM' & Hn' & Hs').
  - lia.
  - split; [done|]. split; [done|]. intros; lia.
  - intros i M1 Hi (HM1 & Hn1 & Hs1). pose proof HM1 as [Hr Hl]. rewrite Hr, aget_tab by done. cbn [mbind option_bind].
    destruct (sort_range_ok (points M1) (n * i) n) as (a & -> & Hla & Hpa & Hsame & Hle); [nia|lia|nia|done|].
    cbn [mbind option_bind]. eexists. split; [done|]. cbn [points rows]. assert (Forall (fun p => num (energy p)) a) as Hna by (by rewrite Hpa).
    split; [split; cbn [points rows]; [done|lia]|]. split; [done|]. intros i' Hi'. destruct (decide (i' = i)) as [->|Hne].
    + assert (forall j, 0 <= j < n -> exists p, a.[n * i + j] = Some p) as Hin by (intros j Hj; apply aget_in; nia).
      split.
      * intros k Hk. destruct (Hin k Hk) as [p Hp]. rewrite (en_get (MkMatrix _ a) i k p Hp). rewrite list.Forall_forall in Hna.
        apply Hna, elem_aget. eauto.
      * intros j k Hjk Hk. destruct (Hin j ltac:(lia)) as [p Hp]. destruct (Hin k ltac:(lia)) as [q Hq].
        rewrite (en_get (MkMatrix _ a) i j p Hp), (en_get (MkMatrix _ a) i k q Hq). by apply (Hle (n * i + j) (n * i + k)); [lia|lia|..].
    + assert (forall R k, 0 <= k < n -> en (MkMatrix R a) i' k = en M1 i' k) as Hek.
      { intros R k Hk. unfold en. cbn [points]. rewrite Hsame; [done|]. left. nia. }
      destruct (Hs1 i' ltac:(lia)) as [Hs1n Hs1s]. split; [intros k Hk; rewrite Hek by done; by apply Hs1n|].
      intros j k Hjk Hk. rewrite !Hek by lia. by apply Hs1s.
  - exists M'. split; [done|]. split; [done|done|done].
Qed.

(** ** The union *)

Record union_ok (M : matrix) (G : grid) : Prop := {
  uo_len : alen (egrid G) = m * n;
  uo_ptrs : forall e, 0 <= e < m * n -> exists p, (egrid G).[e] = Some p /\ xs_ptrs p = m * e;
  uo_indices : alen (indices G) = m * (m * n);
  uo_num : Forall num (gp_energy <$> egrid G);
  uo_sorted : forall i j x y, (i <= j)%nat -> (gp_energy <$> egrid G) !! i = Some x -> (gp_energy <$> egrid G) !! j = Some y -> dle x y;
  uo_all : key <$> (gp_energy <$> egrid G) ≡ₚ (key ∘ energy) <$> points M;
}.

(** A loop that replaces every cell by a function of itself and its index. *)
Lemma for_z_update {A} (f : Z -> A -> option A) (a : list A) :
  (forall i x, 0 <= i < alen a -> a.[i] = Some x -> is_Some (f i x)) ->
  exists a', for_z 0 (alen a) (fun i a => x ← a.[i]; y ← f i x; a.[i <- y]) a = Some a' /\ alen a' = alen a /\
    forall i x, a.[i] = Some x -> a'.[i] = f i x.
Proof.
  intros Hf. destruct (for_z_inv (fun i a' => alen a' = alen a /\ forall k x, a.[k] = Some x -> a'.[k] = if decide (k < i) then f k x else Some x)
    0 (alen a) (fun i a => x ← a.[i]; y ← f i x; a.[i <- y]) a) as (a' & -> & Hl & Ha).
  - apply alen_nonneg.
  - split; [done|]. intros k x Hk. rewrite decide_False; [done|]. apply aget_some_range in Hk. lia.
  - intros i a1 Hi (Hl & Ha). destruct (aget_in a i Hi) as [x Hx]. pose proof (Ha i x Hx) as Hai. rewrite decide_False in Hai by lia.
    rewrite Hai. cbn [mbind option_bind]. destruct (Hf i x Hi Hx) as [y Hy]. rewrite Hy. cbn [mbind option_bind].
    rewrite aset_in by lia. eexists. split; [done|]. split; [by rewrite alen_insert|]. intros k z Hz. rewrite aget_insert by lia.
    case_decide as Hk; [subst k; rewrite Hx in Hz; injection Hz as <-; by rewrite decide_True by lia|].
    rewrite (Ha k z Hz). by repeat case_decide; lia || done.
  - exists a'. split; [done|]. split; [done|]. intros i x Hx. rewrite (Ha i x Hx). rewrite decide_True; [done|]. apply aget_some_range in Hx. lia.
Qed.

Lemma for_z_copy {A} (a b : list A) :
  alen a = alen b -> for_z 0 (alen b) (fun k a => copy a (0 + k) b (0 + k)) a = Some b.
Proof.
  intros Hl. destruct (for_z_inv (fun i a' => alen a' = alen b /\ forall k, 0 <= k < i -> a'.[k] = b.[k])
    0 (alen b) (fun k a => copy a (0 + k) b (0 + k)) a) as (a' & -> & Hl' & Ha).
  - apply alen_nonneg.
  - split; [done|]. intros; lia.
  - intros i a1 Hi (Hl1 & Ha1). unfold copy. rewrite Z.add_0_l. destruct (aget_in b i Hi) as [x Hx]. rewrite Hx. cbn [mbind option_bind].
    rewrite aset_in by lia. eexists. split; [done|]. split; [by rewrite alen_insert|]. intros k Hk. rewrite aget_insert by lia.
    case_decide; [by subst|]. apply Ha1. lia.
  - f_equal. apply array_ext; [done|]. intros k Hk. apply Ha. lia.
Qed.

Lemma generate_energy_grid_ok junk M :
  matrix_ok M -> exists G, generate_energy_grid junk m n M = Some G /\ union_ok M G.
Proof.
  intros [HM Hnum Hsort]. unfold generate_energy_grid. destruct (gpmatrix_ok junk) as (S & -> & [HSr HSl]). cbn [mbind option_bind].
  destruct HM as [HMr HMl]. rewrite HSr, HMr, !aget_tab by lia. rewrite Z.mul_0_r. cbn [mbind option_bind].
  assert (0 <= m * n) as Hmn0 by nia. rewrite <- HMl, for_z_copy by lia. cbn [mbind option_bind].
  destruct (sort_range_ok (points M) 0 (alen (points M))) as (a & -> & Hla & Hpa & _ & Hle); [lia|lia|lia|done|]. cbn [mbind option_bind].
  set (g0 := replicate (Z.to_nat (alen (points M))) (MkGP dzero 0)).
  assert (alen g0 = alen (points M)) as Hg0 by (unfold g0, alen; rewrite length_replicate; lia).
  destruct (for_z_update (fun i q => p ← a.[0 + i]; Some (MkGP (energy p) (xs_ptrs q))) g0) as (g1 & E1 & Hl1 & Hg1).
  { intros i x Hi _. rewrite Z.add_0_l. destruct (aget_in a i ltac:(lia)) as [p Hp]. rewrite Hp. by eexists. }
  assert (for_z 0 (alen (points M)) (fun i g => p ← a.[0 + i]; q ← g.[i]; g.[i <- MkGP (energy p) (xs_ptrs q)]) g0 = Some g1) as E1'.
  { rewrite <- Hg0, <- E1. apply for_z_ext. intros i g. rewrite Z.add_0_l. by destruct (a.[i]), (g.[i]). }
  rewrite E1'. cbn [mbind option_bind].
  destruct (for_z_update (fun i q => Some (MkGP (gp_energy q) (m * i))) g1) as (g2 & E2 & Hl2 & Hg2); [by eexists|].
  assert (for_z 0 (alen (points M)) (fun i g => q ← g.[i]; g.[i <- MkGP (gp_energy q) (m * i)]) g1 = Some g2) as E2' by (by rewrite <- Hg0, <- Hl1, <- E2).
  rewrite E2'. cbn [mbind option_bind]. eexists. split; [done|].
  assert (forall e, 0 <= e < m * n -> exists p, a.[e] = Some p /\ g2.[e] = Some (MkGP (energy p) (m * e))) as Hget.
  { intros e He. destruct (aget_in a e ltac:(lia)) as [p Hp]. exists p. split; [done|]. destruct (aget_in g0 e ltac:(lia)) as [q Hq].
    pose proof (Hg1 e q Hq) as H1. rewrite Z.add_0_l, Hp in H1. cbn [mbind option_bind] in H1. by rewrite (Hg2 e _ H1). }
  assert (gp_energy <$> g2 = energy <$> a) as HU.
  { apply array_ext; [rewrite !alen_fmap; lia|]. rewrite alen_fmap. intros e He. destruct (Hget e ltac:(lia)) as (p & Hp & Hp2).
    by rewrite !aget_fmap, Hp, Hp2. }
  split; cbn [egrid indices]; rewrite ?HU.
  - lia.
  - intros e He. destruct (Hget e He) as (p & _ & Hp). by eexists.
  - rewrite HMl. unfold alen. rewrite length_replicate. nia.
  - apply Forall_fmap. by rewrite Hpa.
  - intros i j x y Hij Hi Hj. rewrite list_lookup_fmap in Hi, Hj. destruct (a !! i) as [p|] eqn:Ei; [|done]. destruct (a !! j) as [q|] eqn:Ej; [|done].
    injection Hi as <-. injection Hj as <-. pose proof (lookup_lt_Some _ _ _ Ej).
    apply (Hle (Z.of_nat i) (Z.of_nat j)); [lia|unfold alen in *; lia|by rewrite aget_nat|by rewrite aget_nat].
  - rewrite <- list_fmap_compose. by rewrite Hpa.
Qed.

(** The energies of one row are among those of the union. *)
Lemma union_row M G i : matrix_ok M -> union_ok M G -> 0 <= i < m ->
  exists others, key <$> (gp_energy <$> egrid G) ≡ₚ left_from (en M i) n 0 ++ others.
Proof.
  intros [[HMr HMl] _ _] HG Hi.
  enough (exists others, (key ∘ energy) <$> points M ≡ₚ left_from (en M i) n 0 ++ others) as (o & Ho)
    by (exists o; by rewrite (uo_all _ _ HG)).
  set (x := take (Z.to_nat (n * i)) (points M)). set (seg := take (Z.to_nat n) (drop (Z.to_nat (n * i)) (points M))).
  set (z := drop (Z.to_nat (n * i + n)) (points M)).
  assert (points M = x ++ seg ++ z) as Hsplit.
  { unfold x, seg, z. replace (Z.to_nat (n * i + n)) with (Z.to_nat (n * i) + Z.to_nat n)%nat by nia.
    rewrite <- drop_drop, take_drop, take_drop. done. }
  assert (alen x = n * i) as Hx by (unfold alen, x in *; rewrite length_take; nia).
  assert (alen seg = n) as Hsg by (unfold alen, seg in *; rewrite length_take, length_drop; nia).
  assert ((key ∘ energy) <$> seg = left_from (en M i) n 0) as Hseg.
  { unfold left_from. rewrite Z.sub_0_r. apply array_ext; rewrite alen_fmap; [unfold alen in *; rewrite length_fmap, length_seqZ; lia|].
    intros k Hk. rewrite aget_fmap. change ((fun j => key (en M i j)) <$> seqZ 0 n) with (tab n (fun j => key (en M i j))).
    rewrite aget_tab by lia. destruct (aget_in seg k Hk) as [p Hp]. rewrite Hp. cbn. f_equal. f_equal. symmetry. apply en_get.
    rewrite Hsplit, aget_app_r, aget_app_l by lia. by replace (n * i + k - alen x) with k by lia. }
  exists (((key ∘ energy) <$> x) ++ ((key ∘ energy) <$> z)). rewrite Hsplit at 1. rewrite !fmap_app, Hseg.
  rewrite !app_assoc. apply Permutation_app_tail, Permutation_app_comm.
Qed.

(** ** The indices of the union *)

Lemma moved_range A us : 0 <= moved A n us <= n - 2.
Proof.
  unfold moved. assert (forall f, 0 <= f <= n - 2 -> 0 <= foldl (fun f u => move A n u f) f us <= n - 2) as H; [|apply H; lia].
  induction us as [|u us IH]; intros f Hf; cbn [foldl]; [done|]. apply IH. unfold move.
  destruct (dltb u (A (f + 1))); [done|]. destruct (Z.eqb_spec f (n - 2)); lia.
Qed.

(** The index of nuclide [i] before point [e] of the union. *)
Definition index_at (M : matrix) (G : grid) (i e : Z) : Z := moved (en M i) n (take (Z.to_nat e) (gp_energy <$> egrid G)).

Lemma index_next M G i e p :
  (egrid G).[e] = Some p -> index_at M G i (e + 1) = move (en M i) n (gp_energy p) (index_at M G i e).
Proof.
  intros Hp. pose proof (aget_some_range _ _ _ Hp). unfold index_at. replace (Z.to_nat (e + 1)) with (S (Z.to_nat e)) by lia.
  rewrite (take_S_r _ _ (gp_energy p)); [apply moved_snoc|]. rewrite list_lookup_fmap, <- aget_lookup by lia. by rewrite Hp.
Qed.

(** [idx_low] and [energy_high] where nuclides below [c] are at point [e + 1],
    the others at [e]. *)
Definition at_point (M : matrix) (G : grid) (e c : Z) (il : list Z) (eh : list double) : Prop :=
  alen il = m /\ alen eh = m /\ forall i, 0 <= i < m ->
    let f := index_at M G i (if i <? c then e + 1 else e) in il.[i] = Some f /\ eh.[i] = Some (en M i (f + 1)).

(** The cells of the indices before nuclide [c] of point [e]. *)
Definition set_before (M : matrix) (G G' : grid) (e c : Z) : Prop :=
  egrid G' = egrid G /\ alen (indices G') = alen (indices G) /\
  forall e' i, 0 <= e' -> 0 <= i < m -> e' < e \/ (e' = e /\ i < c) -> (indices G').[m * e' + i] = Some (index_at M G i (e' + 1)).

Lemma set_index M G G' e i x :
  union_ok M G -> set_before M G G' e i -> 0 <= e < m * n -> 0 <= i < m -> x = index_at M G i (e + 1) ->
  exists G2, set_xs_ptr G' e i x = Some G2 /\ set_before M G G2 e (i + 1).
Proof.
  intros HG (Heg & Hl & Hset) He Hi ->. unfold set_xs_ptr. rewrite Heg. destruct (uo_ptrs _ _ HG e He) as (p & -> & Hp).
  cbn [mbind option_bind]. rewrite Hp. pose proof (uo_indices _ _ HG) as Hli. rewrite aset_in by nia. cbn [mbind option_bind].
  eexists. split; [done|]. split; [done|]. cbn [indices]. split; [by rewrite alen_insert|]. intros e' i' He' Hi' Hcase.
  rewrite aget_insert by nia. case_decide as Hc.
  - assert (e' = e) as -> by nia. by assert (i' = i) as -> by lia.
  - apply Hset; [done|done|]. destruct (decide (e' = e)) as [->|]; [right|left]; [split; [done|]|lia].
    destruct (decide (i' = i)) as [->|]; [done|]. lia.
Qed.

Lemma ptr_step_ok M G G' e i il eh p :
  matrix_ok M -> union_ok M G -> 0 <= e < m * n -> 0 <= i < m -> (egrid G).[e] = Some p ->
  at_point M G e i il eh -> set_before M G G' e i ->
  exists G2 il2 eh2, ptr_step n M e (gp_energy p) i (G', il, eh) = Some (G2, il2, eh2) /\
    at_point M G e (i + 1) il2 eh2 /\ set_before M G G2 e (i + 1).
Proof.
  intros HM HG He Hi Hp (Hlil & Hleh & Hat) Hset. unfold ptr_step.
  pose proof (Hat i Hi) as [Hil Heh]. assert (i <? i = false) as Ei by lia. rewrite Ei in Hil, Heh.
  rewrite Hil, Heh. cbn [mbind option_bind]. pose proof (index_next M G i e p Hp) as Hnext. unfold move in Hnext.
  set (f := index_at M G i e) in *. assert (0 <= f <= n - 2) as Hf by apply moved_range.
  assert (forall G2, (index_at M G i (e + 1) = f) -> set_before M G G2 e (i + 1) -> at_point M G e (i + 1) il eh) as Hstay.
  { intros G2 Est _. split; [done|]. split; [done|]. intros i' Hi'. destruct (decide (i' = i)) as [->|].
    - assert (i <? i + 1 = true) as -> by lia. by rewrite Est.
    - pose proof (Hat i' Hi') as H'. replace (i' <? i + 1) with (i' <? i) by lia. done. }
  destruct (dltb (gp_energy p) (en M i (f + 1))).
  - destruct (set_index M G G' e i f HG Hset He Hi) as (G2 & -> & HG2); [done|]. cbn [mbind option_bind].
    eexists _, _, _. split; [done|]. split; [by eapply Hstay|done].
  - destruct (Z.eqb_spec f (n - 2)) as [Ef|Nf].
    + destruct (set_index M G G' e i f HG Hset He Hi) as (G2 & -> & HG2); [done|]. cbn [mbind option_bind].
      eexists _, _, _. split; [done|]. split; [by eapply Hstay|done].
    + rewrite sint32_id by nia. cbn [mbind option_bind]. rewrite aset_in by lia. cbn [mbind option_bind].
      destruct (set_index M G G' e i (f + 1) HG Hset He Hi) as (G2 & -> & HG2); [done|]. cbn [mbind option_bind].
      destruct (ngp_ok M i (f + 1 + 1) (mo_shape _ HM) Hi) as (q & -> & Hq); [lia|]. cbn [mbind option_bind]. rewrite aset_in by lia.
      cbn [mbind option_bind]. eexists _, _, _. split; [done|]. split; [|done]. split; [by rewrite alen_insert|]. split; [by rewrite alen_insert|].
      intros i' Hi'. rewrite !aget_insert by lia. destruct (decide (i' = i)) as [->|].
      * assert (i <? i + 1 = true) as -> by lia. rewrite Hnext, Hq. done.
      * pose proof (Hat i' Hi') as H'. replace (i' <? i + 1) with (i' <? i) by lia. done.
Qed.

Lemma set_grid_ptrs_ok M G :
  matrix_ok M -> union_ok M G ->
  exists G', set_grid_ptrs m n G M = Some G' /\ egrid G' = egrid G /\
    forall e i, 0 <= e < m * n -> 0 <= i < m -> (indices G').[m * e + i] = Some (index_at M G i (e + 1)).
Proof.
  intros HM HG. unfold set_grid_ptrs.
  destruct (for_z_fill m (fun i => en M i 1) (replicate (Z.to_nat m) dzero) (fun i => p ← ngp M i 1; Some (energy p))) as (eh & Eeh & Hleh & Hgeh).
  { unfold alen. rewrite length_replicate. lia. }
  { intros i Hi. destruct (ngp_ok M i 1 (mo_shape _ HM) Hi ltac:(lia)) as (p & -> & <-). done. }
  assert (for_z 0 m (fun i eh => p ← ngp M i 1; eh.[i <- energy p]) (replicate (Z.to_nat m) dzero) = Some eh) as ->.
  { rewrite <- Eeh. apply for_z_ext. intros i a. by destruct (ngp M i 1). }
  cbn [mbind option_bind].
  destruct (for_z_inv (fun e '(G', il, eh) => at_point M G e 0 il eh /\ set_before M G G' e 0) 0 (m * n)
    (fun e s => p ← (egrid (fst (fst s))).[e]; for_z 0 m (ptr_step n M e (gp_energy p)) s) (G, replicate (Z.to_nat m) 0, eh))
    as ([[G' il'] eh'] & -> & _ & Heg & _ & Hset).
  - nia.
  - split; [|split; [done|split; [done|intros; lia]]]. split; [unfold alen; rewrite length_replicate; lia|].
    split; [rewrite Hleh; unfold alen; rewrite length_replicate; lia|]. intros i Hi. assert (i <? 0 = false) as -> by lia.
    change (index_at M G i 0) with 0. split; [rewrite aget_lookup by lia; apply lookup_replicate; lia|]. rewrite Hgeh by lia. by assert (i <? m = true) as -> by lia.
  - intros e [[G1 il1] eh1] He [Hat Hset]. cbn [fst]. pose proof Hset as (Heg & _). rewrite Heg.
    destruct (uo_ptrs _ _ HG e He) as (p & Hp & _). rewrite Hp. cbn [mbind option_bind].
    destruct (for_z_inv (fun i '(G', il, eh) => at_point M G e i il eh /\ set_before M G G' e i) 0 m
      (ptr_step n M e (gp_energy p)) (G1, il1, eh1)) as ([[G2 il2] eh2] & -> & Hat2 & Hset2); [lia|done| |].
    { intros i [[G3 il3] eh3] Hi [Hat3 Hset3].
      destruct (ptr_step_ok M G G3 e i il3 eh3 p HM HG He Hi Hp Hat3 Hset3) as (G4 & il4 & eh4 & -> & H4). eexists. split; [done|]. done. }
    eexists. split; [done|]. split.
    + destruct Hat2 as (? & ? & Hat2). split; [done|]. split; [done|]. intros i Hi. specialize (Hat2 i Hi).
      assert (i <? m = true) as Em by lia. rewrite Em in Hat2. assert (i <? 0 = false) as -> by lia. done.
    + destruct Hset2 as (? & ? & Hset2). split; [done|]. split; [done|]. intros e' i He' Hi Hcase. apply Hset2; [done|done|].
      destruct (decide (e' = e)); [right; split; [done|]; lia|left; lia].
  - cbn [mbind option_bind]. exists G'. split; [done|]. split; [done|]. intros e i He Hi. apply Hset; [lia|done|left; lia].
Qed.
End Matrix.

End XsGrid.
