(* ===== verification/XsBins.v ===== *)
(** * XSBench: the bins of an energy

    The energies are quotients [k / 2147483647], rounded; the bin of an energy is
    its rounded quotient by the rounded width of the bins.  The rounding errors
    are small enough: the bin exists, and the energy lies between the bounds that
    the table of bins was built from. *)

From Stdlib Require Import ZArith Lia Znumtheory SpecFloat.
From stdpp Require Import list numbers.
From S2P Require Import Prelude Doubles XsBench.
#[local] Open Scope Z_scope.

Module XsBins.
Import XsBench.

Definition MODULUS : Z := 2147483647.

(** None of [n] numbers from [d] on divides the modulus. *)
Fixpoint no_divisor (n : nat) (d : Z) : bool :=
  match n with O => true | S n => negb (MODULUS mod d =? 0) && no_divisor n (d + 1) end.

Lemma no_divisor_ok n d c : no_divisor n d = true -> 0 < d -> d <= c < d + Z.of_nat n -> ~ (c | MODULUS).
Proof.
  revert d. induction n as [|n IH]; intros d Hn Hd Hc; [lia|]. cbn [no_divisor] in Hn. apply andb_prop in Hn as [Hn1 Hn2].
  destruct (decide (c = d)) as [->|]; [|apply (IH (d + 1)); [done|lia|lia]].
  intros Hdiv. apply Z.mod_divide in Hdiv; [|lia]. by rewrite Hdiv in Hn1.
Qed.

Lemma modulus_prime : prime MODULUS.
Proof.
  assert (no_divisor (Z.to_nat 46400) 2 = true) as Hall by (vm_compute; reflexivity).
  assert (forall d, 2 <= d < 46402 -> ~ (d | MODULUS)) as Hno by (intros d Hd; apply (no_divisor_ok _ _ d Hall); lia).
  clear Hall. apply prime_alt. split; [reflexivity|]. intros d Hd [c Hc]. destruct (decide (d < 46402)) as [Hs|Hl].
  - apply (Hno d); [lia|]. by exists c.
  - unfold MODULUS in *. assert (0 < c) by nia. assert (c * 46402 <= c * d) as Hc1 by (apply Z.mul_le_mono_nonneg_l; lia).
    apply (Hno c); [|exists d; lia]. assert (c <> 1) by lia. lia.
Qed.

Lemma not_multiple k h e : 0 < k < MODULUS -> 0 < h < MODULUS -> k * h <> e * MODULUS.
Proof.
  intros Hk Hh E. destruct (prime_mult _ modulus_prime k h) as [[c Hc]|[c Hc]]; [by exists e|unfold MODULUS in *; lia|unfold MODULUS in *; lia].
Qed.

(** ** The errors of the three quotients, added up *)

Section Errors.
Context (k h e P D Q U : Z) (Hk : 0 < k < MODULUS) (Hh : 0 < h < 2 ^ 31) (He : 0 <= e) (HU : 0 < U) (HD : 0 < D).
Context (HP : 2 ^ 53 * Z.abs (P * MODULUS - k * U) <= k * U) (HDu : 2 ^ 53 * Z.abs (D * h - U) <= U)
  (HQ : 2 ^ 53 * Z.abs (Q * D - U * P) <= U * P).

Lemma bin_below : e * U <= Q -> 2 ^ 53 * (2 ^ 53 - 1) * (e * MODULUS) <= (2 ^ 53 + 1) * (2 ^ 53 + 1) * (k * h).
Proof.
  intros HeQ. assert (2 ^ 53 * (Q * D) <= (2 ^ 53 + 1) * (U * P)) as H0 by lia.
  assert (2 ^ 53 * (P * MODULUS) <= (2 ^ 53 + 1) * (k * U)) as H2 by lia. assert ((2 ^ 53 - 1) * U <= 2 ^ 53 * (D * h)) as H3 by lia.
  assert (0 < MODULUS) as HM by done. clear HP HDu HQ. set (T := 2 ^ 53) in *. set (M := MODULUS) in *. assert (0 < T) by (unfold T; lia).
  clearbody T M. assert (T * (e * D) * U <= (T + 1) * P * U) as H1.
  { assert (e * U * D <= Q * D) as HeD by (apply Z.mul_le_mono_nonneg_r; lia).
    assert (T * (e * U * D) <= T * (Q * D)) by (apply Z.mul_le_mono_nonneg_l; lia). lia. }
  apply Z.mul_le_mono_pos_r in H1; [|done].
  assert (T * (e * M) * ((T - 1) * U) <= T * (e * M) * (T * (D * h))) as H4 by (apply Z.mul_le_mono_nonneg_l; [nia|done]).
  assert (T * (e * D) * (T * M * h) <= (T + 1) * P * (T * M * h)) as H5 by (apply Z.mul_le_mono_nonneg_r; [nia|done]).
  assert ((T + 1) * h * (T * (P * M)) <= (T + 1) * h * ((T + 1) * (k * U))) as H6 by (apply Z.mul_le_mono_nonneg_l; [nia|done]).
  assert (0 < T * U) as HTU by nia. apply (Z.mul_le_mono_pos_r _ _ U HU). lia.
Qed.

Lemma bin_above : Q < (e + 1) * U -> (2 ^ 53 - 1) * (2 ^ 53 - 1) * (k * h) <= 2 ^ 53 * (2 ^ 53 + 1) * ((e + 1) * MODULUS).
Proof.
  intros HeQ. assert ((2 ^ 53 - 1) * (U * P) <= 2 ^ 53 * (Q * D)) as H0 by lia.
  assert ((2 ^ 53 - 1) * (k * U) <= 2 ^ 53 * (P * MODULUS)) as H2 by lia. assert (2 ^ 53 * (D * h) <= (2 ^ 53 + 1) * U) as H3 by lia.
  assert (0 < MODULUS) as HM by done. clear HP HDu HQ. set (T := 2 ^ 53) in *. set (M := MODULUS) in *. assert (1 < T) by (unfold T; lia).
  clearbody T M. assert ((T - 1) * P * U <= T * ((e + 1) * D) * U) as H1.
  { assert (Q * D <= (e + 1) * U * D) as HeD by (apply Z.mul_le_mono_nonneg_r; lia).
    assert (T * (Q * D) <= T * ((e + 1) * U * D)) by (apply Z.mul_le_mono_nonneg_l; lia). lia. }
  apply Z.mul_le_mono_pos_r in H1; [|done].
  assert (T * ((e + 1) * M) * (T * (D * h)) <= T * ((e + 1) * M) * ((T + 1) * U)) as H4 by (apply Z.mul_le_mono_nonneg_l; [nia|done]).
  assert ((T - 1) * P * (T * M * h) <= T * ((e + 1) * D) * (T * M * h)) as H5 by (apply Z.mul_le_mono_nonneg_r; [nia|done]).
  assert ((T - 1) * h * ((T - 1) * (k * U)) <= (T - 1) * h * (T * (P * M))) as H6 by (apply Z.mul_le_mono_nonneg_l; [nia|done]).
  apply (Z.mul_le_mono_pos_r _ _ U HU). lia.
Qed.

Lemma bin_in_range : e * U <= Q -> e < h.
Proof.
  intros HeQ. pose proof (bin_below HeQ) as Hb. destruct (decide (e < h)); [done|]. exfalso.
  assert (2 ^ 53 * (2 ^ 53 - 1) * (h * MODULUS) <= (2 ^ 53 + 1) * (2 ^ 53 + 1) * ((MODULUS - 1) * h)) as Hc by nia.
  unfold MODULUS in Hc. lia.
Qed.

(** A bound [X] of bin [c]. *)
Lemma bound_below c X : 0 <= c -> 2 ^ 53 * Z.abs (X - c * D) <= c * D -> c * MODULUS + 1 <= k * h -> c * MODULUS <= 2 ^ 51 -> X < P.
Proof.
  intros Hc HX Hkh Hs. set (M := MODULUS) in *. assert (0 < M) by (unfold M, MODULUS; lia). clearbody M.
  assert (2 ^ 53 * X <= (2 ^ 53 + 1) * (c * D)) as H1 by lia.
  assert (2 ^ 53 * (D * h) <= (2 ^ 53 + 1) * U) as H2 by lia. assert ((2 ^ 53 - 1) * (k * U) <= 2 ^ 53 * (P * M)) as H3 by lia.
  assert (2 ^ 53 * X * (2 ^ 53 * (M * h)) <= (2 ^ 53 + 1) * (c * M) * ((2 ^ 53 + 1) * U)) as H4.
  { transitivity ((2 ^ 53 + 1) * (c * M) * (2 ^ 53 * (D * h))); [|apply Z.mul_le_mono_nonneg_l; [nia|done]].
    transitivity ((2 ^ 53 + 1) * (c * D) * (2 ^ 53 * (M * h))); [apply Z.mul_le_mono_nonneg_r; [nia|done]|lia]. }
  assert (2 ^ 53 * h * ((2 ^ 53 - 1) * (k * U)) <= 2 ^ 53 * h * (2 ^ 53 * (P * M))) as H5 by (apply Z.mul_le_mono_nonneg_l; [nia|done]).
  assert ((2 ^ 53 + 1) * (2 ^ 53 + 1) * (c * M) < 2 ^ 53 * (2 ^ 53 - 1) * (k * h)) as H6 by lia.
  apply (Z.mul_lt_mono_pos_r U) in H6; [|done]. assert (0 < 2 ^ 53 * (2 ^ 53 * (M * h))) as Hpos by nia.
  apply (Z.mul_lt_mono_pos_r _ _ _ Hpos). lia.
Qed.

Lemma bound_above c X : 0 <= c -> 2 ^ 53 * Z.abs (X - c * D) <= c * D -> k * h + 1 <= c * MODULUS -> c * MODULUS <= 2 ^ 51 -> P < X.
Proof.
  intros Hc HX Hkh Hs. set (M := MODULUS) in *. assert (0 < M) by (unfold M, MODULUS; lia). clearbody M.
  assert ((2 ^ 53 - 1) * (c * D) <= 2 ^ 53 * X) as H1 by lia.
  assert ((2 ^ 53 - 1) * U <= 2 ^ 53 * (D * h)) as H2 by lia. assert (2 ^ 53 * (P * M) <= (2 ^ 53 + 1) * (k * U)) as H3 by lia.
  assert ((2 ^ 53 - 1) * (c * M) * ((2 ^ 53 - 1) * U) <= 2 ^ 53 * X * (2 ^ 53 * (M * h))) as H4.
  { transitivity ((2 ^ 53 - 1) * (c * M) * (2 ^ 53 * (D * h))); [apply Z.mul_le_mono_nonneg_l; [nia|done]|].
    transitivity ((2 ^ 53 - 1) * (c * D) * (2 ^ 53 * (M * h))); [lia|apply Z.mul_le_mono_nonneg_r; [nia|done]]. }
  assert (2 ^ 53 * h * (2 ^ 53 * (P * M)) <= 2 ^ 53 * h * ((2 ^ 53 + 1) * (k * U))) as H5 by (apply Z.mul_le_mono_nonneg_l; [nia|done]).
  assert (2 ^ 53 * (2 ^ 53 + 1) * (k * h) < (2 ^ 53 - 1) * (2 ^ 53 - 1) * (c * M)) as H6 by lia.
  apply (Z.mul_lt_mono_pos_r U) in H6; [|done]. assert (0 < 2 ^ 53 * (2 ^ 53 * (M * h))) as Hpos by nia.
  apply (Z.mul_lt_mono_pos_r _ _ _ Hpos). lia.
Qed.
End Errors.

(** ** The bin of an energy *)

(** The energy [k / 2147483647]. *)
Definition ratio (k : Z) : double := ddiv (double_of k) (double_of MODULUS).

(** The lower bound of bin [e]. *)
Definition bin_energy (h e : Z) : double := dmul (double_of e) (bin_width h).

Lemma UNIT_pos : 0 < UNIT.
Proof. apply Z.pow_pos_nonneg; lia. Qed.

Lemma quotient_ok k d :
  0 < k < 2 ^ 53 -> 0 < d < 2 ^ 53 ->
  normal (-105) 1 (ddiv (double_of k) (double_of d)) /\
  2 ^ 53 * Z.abs (dval (ddiv (double_of k) (double_of d)) * d - k * UNIT) <= k * UNIT.
Proof.
  intros Hk Hd. destruct (double_of_ok k Hk) as [Nk Vk]. destruct (double_of_ok d Hd) as [Nd Vd].
  destruct (ddiv_core (-52) 0 (-52) 0 (double_of k) (double_of d)) as [N Err]; [lia..|done|done|].
  split; [exact N|]. rewrite Vk, Vd in Err. set (X := dval (ddiv _ _)) in *. pose proof UNIT_pos as HU. clear Vk Vd N Nk Nd Hk Hd. set (U := UNIT) in *. clearbody U.
  apply (Z.mul_le_mono_pos_r _ _ U HU). replace (X * (d * U) - U * (k * U)) with ((X * d - k * U) * U) in Err by ring.
  rewrite Z.abs_mul, (Z.abs_eq U) in Err by lia. lia.
Qed.

Lemma ratio_zero : ratio 0 = S754_zero false.
Proof. reflexivity. Qed.

Lemma ratio_num k : 0 <= k < 2 ^ 53 -> num (ratio k).
Proof.
  intros Hk. destruct (decide (k = 0)) as [->|]; [done|]. eapply normal_num, (quotient_ok k MODULUS); [lia|done].
Qed.

(** What is known of the bin of a positive energy. *)
Lemma bin_spec k h :
  0 < k < MODULUS -> 0 < h < 2 ^ 31 ->
  exists e, long_of (ddiv (ratio k) (bin_width h)) = Some e /\ 0 <= e < h /\
    (forall c, 0 < c < 2 ^ 31 -> c * MODULUS <= 2 ^ 51 ->
      (c * MODULUS + 1 <= k * h -> dlt (bin_energy h c) (ratio k)) /\ (k * h + 1 <= c * MODULUS -> dlt (ratio k) (bin_energy h c))) /\
    2 ^ 53 * (2 ^ 53 - 1) * (e * MODULUS) <= (2 ^ 53 + 1) * (2 ^ 53 + 1) * (k * h) /\
    (2 ^ 53 - 1) * (2 ^ 53 - 1) * (k * h) <= 2 ^ 53 * (2 ^ 53 + 1) * ((e + 1) * MODULUS).
Proof.
  intros Hk Hh. pose proof UNIT_pos as HU. assert (0 < k < 2 ^ 53) as Hk' by (unfold MODULUS in *; lia).
  destruct (quotient_ok k MODULUS Hk' ltac:(done)) as [NP EP]. fold (ratio k) in NP, EP.
  destruct (quotient_ok 1 h ltac:(lia) ltac:(lia)) as [ND ED]. fold (bin_width h) in ND, ED. rewrite Z.mul_1_l in ED.
  destruct (ddiv_core (-105) 1 (-105) 1 (ratio k) (bin_width h)) as [NQ EQ]; [lia..|done|done|].
  destruct (normal_dval _ _ _ ND) as [HD|]; [|lia]. destruct (normal_dval _ _ _ NQ) as [HQ|]; [|lia]. destruct (normal_dval _ _ _ NP) as [HPp|]; [|lia].
  set (P := dval (ratio k)) in *. set (D := dval (bin_width h)) in *. set (Q := dval (ddiv _ _)) in *.
  pose proof (Z.div_mod Q UNIT ltac:(lia)) as Hdm. pose proof (Z.mod_pos_bound Q UNIT HU) as Hmb. pose proof (Z.div_pos Q UNIT ltac:(lia) HU) as Hq0.
  set (e := Q / UNIT) in *. assert (e * UNIT <= Q < (e + 1) * UNIT) as [He1 He2] by lia.
  pose proof (bin_in_range k h e P D Q UNIT Hk Hh Hq0 HU HD EP ED EQ He1) as Heh. exists e. split.
  { unfold long_of. rewrite (dtrunc_normal (-105 - 1 - 53) (1 - -105 - 51) _ ltac:(lia) NQ). cbn [mbind option_bind]. fold Q e. rewrite check_true by lia. done. }
  split; [lia|]. split.
  - intros c Hc Hcs. destruct (double_of_ok c ltac:(lia)) as [Nc Vc].
    destruct (dmul_core (-52) 0 (-105) 1 (double_of c) (bin_width h)) as [NX EX]; [lia..|done|done|]. fold (bin_energy h c) in NX, EX. fold D in EX.
    set (X := dval (bin_energy h c)) in *. rewrite Vc in EX.
    assert (2 ^ 53 * Z.abs (X - c * D) <= c * D) as EX'.
    { clear -EX HU HD Hc. set (U := UNIT) in *. clearbody U X D. apply (Z.mul_le_mono_pos_r _ _ U HU).
      replace (X * U - c * U * D) with ((X - c * D) * U) in EX by ring. rewrite Z.abs_mul, (Z.abs_eq U) in EX by lia. lia. }
    split; intros Hkh; (eapply dlt_normal; [| |eassumption|eassumption|]; [lia|lia|]).
    + apply (bound_below k h P D Q UNIT Hk Hh HU HD EP ED c X); done || lia.
    + apply (bound_above k h P D Q UNIT Hk Hh HU HD EP ED c X); done || lia.
  - split; [eapply (bin_below k h e P D Q UNIT)|eapply (bin_above k h e P D Q UNIT)]; done.
Qed.

(** The bin of every energy exists. *)
Lemma bin_ok k h : 0 <= k < MODULUS -> 0 < h < 2 ^ 31 ->
  exists e, long_of (ddiv (ratio k) (bin_width h)) = Some e /\ 0 <= e < h.
Proof.
  intros Hk Hh. destruct (decide (k = 0)) as [->|].
  - destruct (quotient_ok 1 h ltac:(lia) ltac:(lia)) as [(m & e & Em & _) _]. exists 0. split; [|lia].
    rewrite ratio_zero. unfold bin_width. rewrite Em. reflexivity.
  - destruct (bin_spec k h ltac:(lia) Hh) as (e & He & Her & _). by exists e.
Qed.

(** With at most 2^20 bins a positive energy lies strictly between its bin's bounds. *)
Lemma bin_bounds k h e : 0 < k < MODULUS -> 0 < h <= 2 ^ 20 -> long_of (ddiv (ratio k) (bin_width h)) = Some e ->
  dlt (bin_energy h e) (ratio k) /\ (e = h - 1 \/ dlt (ratio k) (bin_energy h (e + 1))).
Proof.
  intros Hk Hh He. destruct (bin_spec k h Hk ltac:(lia)) as (e' & He' & Her & Hb & H1 & H2). rewrite He in He'. injection He' as <-.
  pose proof (not_multiple k h e Hk ltac:(unfold MODULUS; lia)) as N1. pose proof (not_multiple k h (e + 1) Hk ltac:(unfold MODULUS; lia)) as N2.
  assert (e * MODULUS + 1 <= k * h) as G1 by (unfold MODULUS in *; lia).
  assert (k * h + 1 <= (e + 1) * MODULUS) as G2 by (unfold MODULUS in *; lia).
  split.
  - destruct (decide (e = 0)) as [->|].
    + destruct (quotient_ok 1 h ltac:(lia) ltac:(lia)) as [(m & x & Em & _) _]. destruct (quotient_ok k MODULUS ltac:(unfold MODULUS in *; lia) ltac:(done)) as [(m' & x' & Em' & _) _].
      unfold bin_energy, bin_width, ratio. rewrite Em, Em'. reflexivity.
    + apply Hb; [lia|unfold MODULUS; lia|done].
  - destruct (decide (e = h - 1)) as [|]; [by left|right]. apply Hb; [lia|unfold MODULUS; lia|done].
Qed.

End XsBins.
