(* ===== verification/XsLookup.v ===== *)
(** * XSBench: the lookups, proved

    The three kinds of grids find an interval of every nuclide's grid, and they
    find the same one: the union's index and the search in the bin agree with the
    binary search in the nuclide's own grid. *)

From Stdlib Require Import ZArith Lia SpecFloat.
From stdpp Require Import list numbers.
From S2P Require Import Prelude Arrays Threads Doubles XsBench XsSearch XsGrid XsBins.
#[local] Open Scope Z_scope.

Module XsLookup.
Import XsBench XsSearch XsGrid XsBins.

Section Lookup.
Context (m n : Z) (Hm : 1 <= m) (Hn : 2 <= n) (Hmn : m * n < 2 ^ 31).
Abbreviation en := (en n).
Context (M : matrix) (HM : matrix_ok m n M).

Lemma read_row nuc k : 0 <= nuc < m -> 0 <= k < n -> (p ← ngp M nuc k; Some (energy p)) = Some (en M nuc k).
Proof. intros Hi Hk. destruct (ngp_ok m n Hn Hmn M nuc k (mo_shape _ _ _ HM) Hi Hk) as (p & -> & <-). done. Qed.

(** ** The nuclide's own grid *)

Lemma row_search p nuc :
  num p -> 0 <= nuc < m -> exists l, grid_search_nuclide p M nuc 0 (n - 1) = Some l /\ bracket (en M nuc) n p l.
Proof.
  intros Hp Hi. apply search_bracket; [done|done|by apply (mo_sorted _ _ _ HM)|]. intros k Hk. by apply read_row.
Qed.

Lemma low_nuclide_ok p nuc :
  num p -> 0 <= nuc < m -> exists l, low_nuclide p nuc n M = Some l /\ bracket (en M nuc) n p l.
Proof.
  intros Hp Hi. destruct (row_search p nuc Hp Hi) as (l & E & Hb). exists l. unfold low_nuclide. rewrite E. cbn [mbind option_bind].
  destruct (Z.eqb_spec l (n - 1)) as [El|]; [|done]. destruct Hb as [? _]. lia.
Qed.

(** ** The union *)

(** The union [G] of the grids with its indices. *)
Definition indexed (G : grid) : Prop :=
  exists G0, union_ok m n M G0 /\ egrid G = egrid G0 /\
    forall e i, 0 <= e < m * n -> 0 <= i < m -> (indices G).[m * e + i] = Some (index_at n M G0 i (e + 1)).

Lemma union_search G p :
  num p -> indexed G -> exists idx, grid_search (m * n) p (egrid G) = Some idx /\ 0 <= idx < m * n /\
    forall nuc, 0 <= nuc < m -> exists l, low_unionized nuc n G idx = Some l /\ 0 <= l <= n - 2 /\
      ((exists i, 0 <= i < m /\ dle (en M i 0) p) \/ dlt (en M nuc 0) (en M nuc 1) -> bracket (en M nuc) n p l).
Proof.
  intros Hp (G0 & HG & Heg & Hidx). unfold grid_search. rewrite Heg. pose proof (uo_len _ _ _ _ HG) as Hlen.
  set (U := gp_energy <$> egrid G0). set (Uf := fun k => from_option gp_energy dzero ((egrid G0).[k])).
  assert (forall k, 0 <= k < m * n -> U !! Z.to_nat k = Some (Uf k)) as HUf.
  { intros k Hk. unfold U, Uf. rewrite list_lookup_fmap, <- aget_lookup by lia. destruct (aget_in (egrid G0) k ltac:(lia)) as [q Hq]. by rewrite Hq. }
  assert (alen U = m * n) as HlU by (unfold U; rewrite alen_fmap; done).
  assert (sorted Uf (m * n)) as Hsorted.
  { split.
    - intros k Hk. eapply (Forall_lookup_1 _ _ _ _ (uo_num _ _ _ _ HG)). by apply HUf.
    - intros j k Hjk Hk. eapply (uo_sorted _ _ _ _ HG (Z.to_nat j) (Z.to_nat k)); [lia|apply HUf; lia|apply HUf; lia]. }
  destruct (search_bracket Uf (fun k => q ← (egrid G0).[k]; Some (gp_energy q)) p (m * n)) as (idx & -> & Hb); [done|nia|done| |].
  { intros k Hk. unfold Uf. destruct (aget_in (egrid G0) k ltac:(lia)) as [q Hq]. by rewrite Hq. }
  exists idx. pose proof Hb as [Hir _]. split; [done|]. split; [lia|]. intros nuc Hi. exists (index_at n M G0 nuc (idx + 1)).
  pose proof (moved_range n Hn (en M nuc) (take (Z.to_nat (idx + 1)) U)) as Hmr. unfold low_unionized, xs_ptr. rewrite Heg.
  destruct (uo_ptrs _ _ _ _ HG idx ltac:(lia)) as (q & -> & Hq). cbn [mbind option_bind]. rewrite Hq, Hidx by lia. cbn [mbind option_bind].
  unfold index_at at 1 2 4. fold U. split; [|split; [done|]].
  - destruct (Z.eqb_spec (moved (en M nuc) n (take (Z.to_nat (idx + 1)) U)) (n - 1)); [lia|done].
  - intros Hcase. apply (moved_bracket (en M nuc) n Hn (mo_sorted _ _ _ HM nuc Hi) U (uo_num _ _ _ _ HG) (uo_sorted _ _ _ _ HG)
      (union_row m n Hm Hn Hmn M G0 nuc HM HG Hi) Uf p idx); [done|nia|by rewrite HlU|by rewrite HlU|].
    destruct Hcase as [(i & Hi' & Hle)|Hlt]; [left|by right].
    destruct (union_row m n Hm Hn Hmn M G0 i HM HG Hi') as (o & Ho).
    assert (key (en M i 0) ∈ key <$> (gp_energy <$> egrid G0)) as (x & Ex & Hx)%list_elem_of_fmap by (rewrite Ho, left_cons by lia; left).
    apply list_elem_of_lookup in Hx as (j & Hj). assert (num x) as Hnx by exact (Forall_lookup_1 _ _ _ _ (uo_num _ _ _ _ HG) Hj).
    assert (num (en M i 0)) as Hn0 by (apply (mo_sorted _ _ _ HM i Hi'); lia).
    apply (dle_trans _ x); [apply Hsorted; nia|done|done| |].
    + apply (uo_sorted _ _ _ _ HG (Z.to_nat 0) j); [lia|apply HUf; nia|done].
    + apply dleb_key; [done|done|]. rewrite <- Ex. by apply dleb_key.
Qed.

(** ** The bins *)

Context (h : Z) (Hh : 0 < h < 2 ^ 31).

Record table_ok (G : grid) : Prop := {
  to_ptrs : forall e, 0 <= e < h -> exists p, (egrid G).[e] = Some p /\ xs_ptrs p = m * e;
  to_index : forall e i, 0 <= e < h -> 0 <= i < m ->
    exists x, (indices G).[m * e + i] = Some x /\ bracket (en M i) n (bin_energy h e) x;
}.

Lemma table_get G e i : table_ok G -> 0 <= e < h -> 0 <= i < m ->
  exists x, xs_ptr G e i = Some x /\ bracket (en M i) n (bin_energy h e) x.
Proof.
  intros HG He Hi. unfold xs_ptr. destruct (to_ptrs _ HG e He) as (p & -> & Hp). cbn [mbind option_bind]. rewrite Hp.
  by apply (to_index _ HG).
Qed.

Lemma bin_energy_num e : 0 <= e < 2 ^ 53 -> num (bin_energy h e).
Proof.
  intros He. destruct (quotient_ok 1 h ltac:(lia) ltac:(lia)) as [ND _]. fold (bin_width h) in ND. unfold bin_energy.
  destruct (decide (e = 0)) as [->|]; [destruct ND as (a & b & -> & _); done|].
  destruct (double_of_ok e ltac:(lia)) as [Ne _]. eapply normal_num, (dmul_core (-52) 0 (-105) 1); [lia..|done|done].
Qed.

Lemma low_hash_ok G p nuc idx :
  num p -> table_ok G -> 0 <= nuc < m -> 0 <= idx < h ->
  exists l, low_hash p nuc n G M idx h = Some l /\ 0 <= l <= n - 2 /\
    (dlt (bin_energy h idx) p -> idx = h - 1 \/ dlt p (bin_energy h (idx + 1)) -> dlt (en M nuc 0) (en M nuc 1) ->
     bracket (en M nuc) n p l).
Proof.
  intros Hp HG Hi Hidx. destruct (mo_sorted _ _ _ HM nuc Hi) as [Hnum Hle]. unfold low_hash.
  destruct (table_get G idx nuc HG Hidx Hi) as (u_low & -> & (Hul & Hul1 & _)). cbn [mbind option_bind].
  assert (exists u_high, (if idx =? h - 1 then sint32 (n - 1) else x ← xs_ptr G (idx + 1) nuc; sint32 (x + 1)) = Some u_high /\
    1 <= u_high <= n - 1 /\ (idx = h - 1 \/ dlt p (bin_energy h (idx + 1)) -> u_high = n - 1 \/ dlt p (en M nuc u_high))) as (u_high & -> & Huh & Hend).
  { destruct (Z.eqb_spec idx (h - 1)) as [El|Nl].
    - exists (n - 1). rewrite sint32_id by nia. split; [done|]. split; [lia|]. by left.
    - destruct (table_get G (idx + 1) nuc HG ltac:(lia) Hi) as (x & -> & (Hx & _ & Hx2)). cbn [mbind option_bind]. rewrite sint32_id by nia.
      exists (x + 1). split; [done|]. split; [lia|]. intros [?|Hpb]; [lia|]. destruct Hx2 as [->|Hx2]; [left; lia|right].
      apply (dlt_le_trans _ (bin_energy h (idx + 1))); [done|apply bin_energy_num; lia|apply Hnum; lia|done|]. apply dlt_dle; [apply bin_energy_num; lia|apply Hnum; lia|done]. }
  cbn [mbind option_bind].
  destruct (ngp_ok m n Hn Hmn M nuc u_low (mo_shape _ _ _ HM) Hi ltac:(lia)) as (lo & -> & Elo). cbn [mbind option_bind].
  destruct (ngp_ok m n Hn Hmn M nuc u_high (mo_shape _ _ _ HM) Hi ltac:(lia)) as (hi & -> & Ehi). cbn [mbind option_bind]. rewrite Elo, Ehi.
  assert (num (en M nuc u_low)) as Hnl by (apply Hnum; lia). assert (num (en M nuc u_high)) as Hnh by (apply Hnum; lia).
  destruct (dleb p (en M nuc u_low)) eqn:El.
  - cbn [mbind option_bind]. exists 0. split; [destruct (Z.eqb_spec 0 (n - 1)); [lia|done]|]. split; [lia|]. intros Hb _ H01.
    assert (u_low = 0) as ->.
    { destruct Hul1 as [?|Hul1]; [done|]. exfalso. apply dlt_nle in Hb; [|apply bin_energy_num; lia|done]. apply Hb.
      by apply (dle_trans _ (en M nuc u_low)); [done|done|apply bin_energy_num; lia|..]. }
    split; [lia|]. split; [by left|]. right. by apply (dle_lt_trans _ (en M nuc 0)); [done|done|apply Hnum; lia|..].
  - assert (dlt (en M nuc u_low) p) as Hlp by (apply dlt_nle; [done|done|]; unfold dle; by rewrite El).
    destruct (dleb (en M nuc u_high) p) eqn:Eh.
    + rewrite sint32_id by nia. cbn [mbind option_bind]. exists (n - 2). split; [rewrite Z.eqb_refl; f_equal; lia|]. split; [lia|].
      intros _ Hb _. split; [lia|]. split; [|by left]. destruct (Hend Hb) as [->|Hph].
      * right. apply (dle_trans _ (en M nuc (n - 1))); [apply Hnum; lia|done|done|apply Hle; lia|done].
      * exfalso. apply dlt_nle in Hph; [|done|done]. by apply Hph.
    + assert (dlt p (en M nuc u_high)) as Hph by (apply dlt_nle; [done|done|]; unfold dle; by rewrite Eh).
      assert (u_low < u_high) as Hlt.
      { destruct (decide (u_low < u_high)); [done|]. exfalso. apply dlt_nle in Hlp; [|done|done]. apply Hlp.
        apply (dle_trans _ (en M nuc u_high)); [done|done|done|by apply dlt_dle|apply Hle; lia]. }
      unfold grid_search_nuclide. destruct (search_ok (en M nuc) (fun k => q ← ngp M nuc k; Some (energy q)) p u_low u_high) as (l & -> & Hl & HA & HB); [done|done| |].
      { intros k Hk. split; [apply read_row; lia|apply Hnum; lia]. }
      cbn [mbind option_bind]. rewrite sint32_id by nia. cbn [mbind option_bind]. exists l. split; [destruct (Z.eqb_spec l (n - 1)); [lia|done]|].
      split; [lia|]. intros _ _ _. split; [lia|]. split.
      * right. destruct HA as [->|?]; [by apply dlt_dle|done].
      * right. destruct HB as [->|?]; [by replace (u_high - 1 + 1) with u_high by lia|done].
Qed.

(** ** The low point of the interval *)

(** The low point of the interval, by the kind of the grid. *)
Definition low_point (gt : Z) (p : double) (nuc : Z) (G : grid) (idx : Z) : option Z :=
  if gt =? NUCLIDE then low_nuclide p nuc n M
  else if gt =? UNIONIZED then low_unionized nuc n G idx else low_hash p nuc n G M idx h.

Lemma micro_ok gt p nuc G idx l :
  0 <= nuc < m -> low_point gt p nuc G idx = Some l -> 0 <= l <= n - 2 ->
  exists xs, calculate_micro_xs p nuc n G M idx gt h = Some xs /\ length xs = 5%nat.
Proof.
  intros Hi Hl Hr. unfold calculate_micro_xs. fold (low_point gt p nuc G idx). rewrite Hl. cbn [mbind option_bind].
  destruct (ngp_ok m n Hn Hmn M nuc l (mo_shape _ _ _ HM) Hi ltac:(lia)) as (lo & -> & _). cbn [mbind option_bind].
  destruct (ngp_ok m n Hn Hmn M nuc (l + 1) (mo_shape _ _ _ HM) Hi ltac:(lia)) as (hi & -> & _). cbn [mbind option_bind]. by eexists.
Qed.

(** ** Building the table, in any order of the bins *)

Context {team_of : Team} (fuel : nat) (Hfuel : h <= Z.of_nat fuel).

Lemma hash_bin_ok G e :
  0 <= e < h -> (forall e, 0 <= e < h -> exists p, (egrid G).[e] = Some p /\ xs_ptrs p = m * e) -> alen (indices G) = m * h ->
  exists G', hash_bin m n M (bin_width h) e G = Some G' /\ egrid G' = egrid G /\ alen (indices G') = m * h /\
    (forall i, 0 <= i < m -> exists x, (indices G').[m * e + i] = Some x /\ bracket (en M i) n (bin_energy h e) x) /\
    (forall k, k < m * e \/ m * e + m <= k -> (indices G').[k] = (indices G).[k]).
Proof.
  intros He Hptr Hlen. unfold hash_bin. fold (bin_energy h e).
  destruct (for_z_inv (fun c G' => egrid G' = egrid G /\ alen (indices G') = m * h /\
    (forall i, 0 <= i < c -> exists x, (indices G').[m * e + i] = Some x /\ bracket (en M i) n (bin_energy h e) x) /\
    (forall k, k < m * e \/ m * e + m <= k -> (indices G').[k] = (indices G).[k])) 0 m
    (fun i G => x ← grid_search_nuclide (bin_energy h e) M i 0 (n - 1); x ← sint32 x; set_xs_ptr G e i x) G) as (G' & -> & HG'); [lia| | |by exists G'].
  - do 3 (split; [done || (intros; lia)|]). done.
  - intros c G1 Hc (Heg & Hl & Hset & Hsame). destruct (row_search (bin_energy h e) c) as (x & -> & Hx); [apply bin_energy_num; lia|done|].
    cbn [mbind option_bind]. pose proof Hx as [Hxr _]. rewrite sint32_id by nia. cbn [mbind option_bind]. unfold set_xs_ptr. rewrite Heg.
    destruct (Hptr e He) as (p & -> & Hp). cbn [mbind option_bind]. rewrite Hp, aset_in by nia. cbn [mbind option_bind]. eexists. split; [done|].
    cbn [egrid indices]. split; [done|]. split; [by rewrite alen_insert|]. split.
    + intros i Hi. rewrite aget_insert by nia. case_decide as Ei.
      * assert (i = c) as -> by lia. eauto.
      * apply Hset. lia.
    + intros k Hk. rewrite aget_insert by nia. rewrite decide_False by nia. by apply Hsame.
Qed.

Lemma generate_hash_table_ok : ends (generate_hash_table fuel m n h M) table_ok.
Proof.
  unfold generate_hash_table. set (g0 := replicate (Z.to_nat h) (MkGP dzero 0)). apply ends_bind.
  assert (alen g0 = h) as Hg0 by (unfold alen, g0; rewrite length_replicate; lia).
  destruct (for_z_update (fun i q => Some (MkGP (gp_energy q) (m * i))) g0) as (g1 & E1 & Hl1 & Hg1); [by eexists|]. rewrite Hg0 in E1.
  cbn [egrid indices]. eapply ends_lift; [exact E1|].
  assert (forall e, 0 <= e < h -> exists p, g1.[e] = Some p /\ xs_ptrs p = m * e) as Hptr.
  { intros e He. destruct (aget_in g0 e ltac:(lia)) as [q Hq]. rewrite (Hg1 e q Hq). by eexists. }
  set (ind0 := replicate (Z.to_nat (m * h)) 0). assert (alen ind0 = m * h) as Hi0 by (unfold alen, ind0; rewrite length_replicate; nia).
  eapply ends_mono.
  - apply (par_for_ok _ (fun todo G => (forall e, e ∈ todo -> 0 <= e < h) /\ egrid G = g1 /\ alen (indices G) = m * h /\
      forall e i, 0 <= e < h -> e ∉ todo -> 0 <= i < m -> exists x, (indices G).[m * e + i] = Some x /\ bracket (en M i) n (bin_energy h e) x)).
    + intros l l' G Hp (Hin & Heg & Hl & Hset). split; [intros e; rewrite <- Hp; apply Hin|]. split; [done|]. split; [done|].
      intros e i He Hni. rewrite <- Hp in Hni. by apply Hset.
    + cbn [egrid indices]. split; [intros e Hs%elem_of_seqZ; lia|]. split; [done|]. split; [done|]. intros e i He Hni. exfalso. apply Hni, elem_of_seqZ. lia.
    + lia.
    + intros e todo G (Hin & Heg & Hl & Hset). pose proof (Hin e ltac:(left)) as He.
      destruct (hash_bin_ok G e He) as (G' & -> & Heg' & Hl' & Hrow & Hsame); [by rewrite Heg|done|]. exists G'. split; [done|].
      split; [intros e' He'; apply Hin; by right|]. split; [congruence|]. split; [done|]. intros e' i He' Hni Hi.
      destruct (decide (e' = e)) as [->|Hne]; [by apply Hrow|]. rewrite Hsame by nia. apply Hset; [done| |done].
      intros [?|?]%elem_of_cons; done.
  - intros G (_ & Heg & _ & Hset). split; [by rewrite Heg|]. intros e i He Hi. apply Hset; [done|apply not_elem_of_nil|done].
Qed.
End Lookup.

(** ** Cross sections *)

Section Macro.
Context (m : Z).

Record materials_ok (W : materials) : Prop := {
  mt_nucs : forall mat, 0 <= mat < 12 -> exists k nucs cs,
    (num_nucs W).[mat] = Some k /\ (mats W).[mat] = Some nucs /\ alen nucs = k /\ (concs W).[mat] = Some cs /\ alen cs = k;
  mt_range : forall nucs nuc, nucs ∈ mats W -> nuc ∈ nucs -> 0 <= nuc < m;
}.

(** The sum over the nuclides of the material. *)
Definition macro_sum (micro : Z -> option (list double)) (W : materials) (mat : Z) : option (list double) :=
  k ← (num_nucs W).[mat];
  for_z 0 k (fun j macro_xs_vector =>
    nucs ← (mats W).[mat];
    p_nuc ← nucs.[j];
    cs ← (concs W).[mat];
    conc ← cs.[j];
    xs_vector ← micro p_nuc;
    Some (zip_with (fun macro xs => dadd macro (dmul xs conc)) macro_xs_vector xs_vector)) (replicate 5 dzero).

Lemma macro_ok micro W mat :
  materials_ok W -> 0 <= mat < 12 -> (forall nuc, 0 <= nuc < m -> exists xs, micro nuc = Some xs /\ length xs = 5%nat) ->
  exists xs, macro_sum micro W mat = Some xs /\ length xs = 5%nat.
Proof.
  intros HW Hmat Hmicro. unfold macro_sum. destruct (mt_nucs _ HW mat Hmat) as (k & nucs & cs & -> & Emt & Hln & Ecs & Hlc). cbn [mbind option_bind].
  apply (for_z_inv (fun _ v => length v = 5%nat)); [rewrite <- Hln; apply alen_nonneg|done|]. intros j v Hj Hv. rewrite Emt. cbn [mbind option_bind].
  destruct (aget_in nucs j ltac:(lia)) as [nuc Hnuc]. rewrite Hnuc. cbn [mbind option_bind]. rewrite Ecs. cbn [mbind option_bind].
  destruct (aget_in cs j ltac:(lia)) as [c Hc]. rewrite Hc. cbn [mbind option_bind].
  destruct (Hmicro nuc) as (xs & -> & Hxs). { eapply (mt_range _ HW nucs); apply elem_aget; eauto. }
  cbn [mbind option_bind]. eexists. split; [done|]. rewrite length_zip_with. lia.
Qed.

Lemma macro_ext micro micro' W mat :
  materials_ok W -> (forall nuc, 0 <= nuc < m -> micro nuc = micro' nuc) -> macro_sum micro W mat = macro_sum micro' W mat.
Proof.
  intros HW Heq. unfold macro_sum. destruct ((num_nucs W).[mat]) as [k|]; [|done]. cbn [mbind option_bind]. apply for_z_ext. intros j v.
  destruct ((mats W).[mat]) as [nucs|] eqn:Em; [|done]. cbn [mbind option_bind]. destruct (nucs.[j]) as [nuc|] eqn:En; [|done]. cbn [mbind option_bind].
  rewrite Heq; [done|]. eapply (mt_range _ HW nucs); apply elem_aget; eauto.
Qed.
End Macro.

End XsLookup.
