(* ===== verification/XsRun.v ===== *)
(** * XSBench: the run, proved

    What the command line accepts, what the preparation builds, and the run of
    the event-based simulation: every lookup ends inside the arrays, and every
    team of threads, with every kind of grid, prints the checksum that one thread
    computes with the nuclides' own grids. *)

From Stdlib Require Import ZArith Lia SpecFloat Sorted String.
From stdpp Require Import list numbers sorting.
From S2P Require Import Prelude Arrays CLib Threads Doubles XsBench XsSearch XsGrid XsBins XsLookup.
#[local] Open Scope Z_scope.

Module XsRun.
Import XsBench XsSearch XsGrid XsBins XsLookup.

(** ** Random numbers *)

Lemma rn_ratio seed : rn seed = (ratio (rn_next seed), rn_next seed).
Proof. done. Qed.

Lemma rn_next_range seed : 0 <= rn_next seed < MODULUS.
Proof. apply Z.mod_pos_bound. done. Qed.

Lemma rn_v_num seed : num (fst (rn_v seed)).
Proof. unfold rn_v. rewrite rn_ratio. apply ratio_num. pose proof (rn_next_range seed). unfold MODULUS in *. cbn [fst]. lia. Qed.

Lemma rand_double_num {r : Rand} k : num (fst (rand_double k)).
Proof. apply (ratio_num (rand k)). pose proof (rand_range k). unfold RAND_MAX in *. lia. Qed.

(** The energy of an event is not 0, as long as its seed does not wrap. *)
Lemma event_energy_pos i : 0 <= i -> (i + 1) * 13371337 * 16807 < 2 ^ 64 -> 0 < rn_next (particle_seed i).
Proof.
  intros Hi Hw. unfold particle_seed, rn_next. fold MODULUS. rewrite (u64_id (i + 1)) by (unfold in_u64; lia). rewrite (u64_id (_ * 13371337)) by (unfold in_u64; lia).
  rewrite u64_id by (unfold in_u64; lia). pose proof (Z.mod_pos_bound (16807 * ((i + 1) * 13371337)) MODULUS ltac:(done)) as Hr.
  destruct (decide ((16807 * ((i + 1) * 13371337)) mod MODULUS = 0)) as [E|]; [|lia]. exfalso.
  apply Z.mod_divide in E as [c Hc]; [|done]. apply (not_multiple (i + 1) (13371337 * 16807 mod MODULUS) (c - (i + 1) * (13371337 * 16807 / MODULUS))).
  - unfold MODULUS. lia.
  - done.
  - pose proof (Z.div_mod (13371337 * 16807) MODULUS ltac:(done)). lia.
Qed.

(** ** Materials *)

Lemma running_12 : exists l, mapM running (seqZ 0 12) = Some l.
Proof. eexists. vm_compute. reflexivity. Qed.

Lemma running_total i : 0 <= i < 12 -> is_Some (running i).
Proof.
  intros Hi. destruct running_12 as [l Hl]. apply mapM_Some in Hl.
  destruct (Forall2_lookup_l _ _ _ (Z.to_nat i) i Hl) as (y & _ & Hy); [|by eexists].
  apply lookup_seqZ. lia.
Qed.

Lemma pick_mat_ok seed : exists mat, pick_mat seed = Some (mat, rn_next seed) /\ 0 <= mat < 12.
Proof.
  unfold pick_mat. rewrite rn_ratio.
  destruct (for_z_inv (fun _ pick => forall mat, pick = Some mat -> 0 <= mat < 12) 0 12 (fun i pick =>
    match pick with
    | Some _ => Some pick
    | None => r ← running i; Some (if dltb (ratio (rn_next seed)) r then Some i else None)
    end) None) as (pick & -> & Hpick); [lia|done| |].
  - intros i [mat|] Hi Hm; [by eexists|]. destruct (running_total i Hi) as [v ->]. cbn [mbind option_bind]. eexists. split; [done|].
    intros mat. destruct (dltb _ v); intros [= <-]. done.
  - cbn [mbind option_bind]. eexists. split; [done|]. destruct pick as [mat|]; cbn; [by apply Hpick|lia].
Qed.

(** The two sizes of problems there are. *)
Definition problem_size (m : Z) : Prop := m = 68 \/ m = 355.

Lemma load_num_nucs_get m mat : 0 <= mat < 12 -> exists k, (load_num_nucs m).[mat] = Some k /\ 0 <= k.
Proof.
  intros Hmat. destruct (aget_in (load_num_nucs m) mat) as [k Hk]; [done|]. exists k. split; [done|].
  assert (k ∈ load_num_nucs m) as Hin by (apply elem_aget; eauto). unfold load_num_nucs in Hin. destruct (m =? 68); repeat (apply elem_of_cons in Hin as [->|Hin]; [lia|]); by apply not_elem_of_nil in Hin.
Qed.

(** The nuclides of every material are nuclides of the problem, as many as are counted. *)
Definition mats_fit (m : Z) (ms : list (list Z)) : bool :=
  bool_decide (alen <$> ms = load_num_nucs m) && forallb (forallb (fun nuc => (0 <=? nuc) && (nuc <? m))) ms.

Lemma load_mats_fit m : problem_size m -> exists ms, load_mats (load_num_nucs m) m = Some ms /\ mats_fit m ms = true.
Proof. intros [->| ->]; eexists; split; vm_compute; reflexivity. Qed.

Lemma load_mats_ok m : problem_size m -> exists ms, load_mats (load_num_nucs m) m = Some ms /\
  alen <$> ms = load_num_nucs m /\ forall nucs nuc, nucs ∈ ms -> nuc ∈ nucs -> 0 <= nuc < m.
Proof.
  intros Hm. destruct (load_mats_fit m Hm) as (ms & E & [Hl%bool_decide_eq_true Hf]%andb_prop). exists ms. split; [done|]. split; [done|].
  intros nucs nuc Hn%list_elem_of_In Hnuc%list_elem_of_In. rewrite forallb_forall in Hf. specialize (Hf _ Hn).
  rewrite forallb_forall in Hf. specialize (Hf _ Hnuc). lia.
Qed.

Lemma draw_concs_ok {S} (next : S -> double * S) n s : 0 <= n -> exists c s', draw_concs next n s = Some (c, s') /\ alen c = n.
Proof.
  intros Hn. unfold draw_concs. destruct (for_z_inv (fun _ '(c, _) => alen c = n) 0 n
    (fun j '(c, s) => let '(x, s) := next s in c ← c.[j <- x]; Some (c, s)) (replicate (Z.to_nat n) dzero, s)) as ([c s'] & -> & Hc).
  - done.
  - unfold alen. rewrite length_replicate. lia.
  - intros j [c s1] Hj Hc. destruct (next s1) as [v s2]. rewrite aset_in by lia. cbn [mbind option_bind]. eexists. split; [done|].
    cbv beta iota. by rewrite alen_insert.
  - by exists c, s'.
Qed.

Lemma fill_concs_ok {S} (next : S -> double * S) m s : exists cs s', fill_concs next (load_num_nucs m) s = Some (cs, s') /\
  forall mat, 0 <= mat < 12 -> exists c, cs.[mat] = Some c /\ (load_num_nucs m).[mat] = Some (alen c).
Proof.
  unfold fill_concs. destruct (for_z_inv (fun i '(cs, _) => alen cs = i /\
      forall mat, 0 <= mat < i -> exists c, cs.[mat] = Some c /\ (load_num_nucs m).[mat] = Some (alen c)) 0 12
    (fun i '(concs, s) => n ← (load_num_nucs m).[i]; '(c, s) ← draw_concs next n s; Some (concs ++ [c], s)) ([], s)) as ([cs s'] & -> & Hl & Hcs).
  - lia.
  - split; [done|]. intros; lia.
  - intros i [cs s1] Hi [Hl Hcs]. destruct (load_num_nucs_get m i Hi) as (k & Ek & Hk). rewrite Ek. cbn [mbind option_bind].
    destruct (draw_concs_ok next k s1 Hk) as (c & s2 & -> & Hc). eexists. split; [done|]. split; [rewrite alen_app, Hl; done|].
    intros mat Hmat. destruct (decide (mat = i)) as [->|].
    + exists c. split; [rewrite <- Hl; apply aget_middle|congruence].
    + rewrite aget_app_l by lia. apply Hcs. lia.
  - exists cs, s'. split; [done|]. by apply Hcs.
Qed.

Lemma materials_built m ms cs :
  alen <$> ms = load_num_nucs m -> (forall nucs nuc, nucs ∈ ms -> nuc ∈ nucs -> 0 <= nuc < m) ->
  (forall mat, 0 <= mat < 12 -> exists c, cs.[mat] = Some c /\ (load_num_nucs m).[mat] = Some (alen c)) ->
  materials_ok m (MkMaterials (load_num_nucs m) ms cs).
Proof.
  intros Hl Hr Hc. split; cbn [num_nucs mats concs]; [|done]. intros mat Hmat. destruct (Hc mat Hmat) as (c & Ec & En).
  rewrite En. rewrite <- Hl, aget_fmap in En. destruct (ms.[mat]) as [nucs|]; [|done]. injection En as En. by exists (alen c), nucs, c.
Qed.

(** ** Lookups on prepared data *)

(** What the command line and the memory of an [int] index allow. *)
Record inputs_ok (x : Inputs) : Prop := {
  io_isotopes : problem_size (n_isotopes x);
  io_points : 2 <= n_gridpoints x;
  io_int : n_isotopes x * n_gridpoints x < 2 ^ 31;
  io_bins : 0 < hash_bins x < 2 ^ 31;
  io_type : grid_type x = UNIONIZED \/ grid_type x = NUCLIDE \/ grid_type x = HASH;
}.

Record data_ok (x : Inputs) (D : data) : Prop := {
  do_matrix : matrix_ok (n_isotopes x) (n_gridpoints x) (d_matrix D);
  do_materials : materials_ok (n_isotopes x) (d_mat D);
  do_union : grid_type x = UNIONIZED -> indexed (n_isotopes x) (n_gridpoints x) (d_matrix D) (d_grid D);
  do_table : grid_type x = HASH -> table_ok (n_isotopes x) (n_gridpoints x) (d_matrix D) (hash_bins x) (d_grid D);
}.

(** The first two energies of every nuclide differ. *)
Definition distinct_start (m n : Z) (M : matrix) : Prop := forall nuc, 0 <= nuc < m -> dlt (en n M nuc 0) (en n M nuc 1).

Section Lookups.
Context (x : Inputs) (D : data) (Hx : inputs_ok x) (HD : data_ok x D).
Abbreviation m := (n_isotopes x).
Abbreviation n := (n_gridpoints x).
Abbreviation h := (hash_bins x).
Abbreviation M := (d_matrix D).

Lemma isotopes_pos : 1 <= m.
Proof. destruct (io_isotopes _ Hx) as [-> | ->]; lia. Qed.

(** The interval that a kind of grid gives, and when it is the nuclide's own. *)
Lemma find_interval k :
  0 <= k < MODULUS ->
  exists idx,
    (if grid_type x =? UNIONIZED then grid_search (m * n) (ratio k) (egrid (d_grid D))
     else if grid_type x =? HASH then long_of (ddiv (ratio k) (bin_width h)) else Some (-1)) = Some idx /\
    forall nuc, 0 <= nuc < m -> exists l, low_point n M h (grid_type x) (ratio k) nuc (d_grid D) idx = Some l /\ 0 <= l <= n - 2 /\
      (distinct_start m n M -> 0 < k -> h <= 2 ^ 20 -> bracket (en n M nuc) n (ratio k) l).
Proof.
  intros Hk. pose proof isotopes_pos as Hm. destruct Hx as [_ Hn Hmn Hh Hty], HD as [HM _ HU HT].
  assert (num (ratio k)) as Hp by (apply ratio_num; unfold MODULUS in *; lia). destruct Hty as [E|[E|E]]; rewrite E in *; cbn [Z.eqb UNIONIZED NUCLIDE HASH].
  - destruct (union_search m n Hm Hn Hmn M HM (d_grid D) (ratio k) Hp (HU eq_refl)) as (idx & -> & _ & Hidx). exists idx. split; [done|].
    intros nuc Hi. destruct (Hidx nuc Hi) as (l & El & Hl & Hb). exists l. split; [done|]. split; [done|]. intros Hd _ _. apply Hb. right. by apply Hd.
  - exists (-1). split; [done|]. intros nuc Hi. destruct (low_nuclide_ok m n Hn Hmn M HM (ratio k) nuc Hp Hi) as (l & El & Hb).
    exists l. split; [done|]. split; [apply Hb|done].
  - destruct (bin_ok k h Hk Hh) as (idx & Eb & Hidx). rewrite Eb. exists idx. split; [done|]. intros nuc Hi.
    destruct (low_hash_ok m n Hm Hn Hmn M HM h Hh (d_grid D) (ratio k) nuc idx Hp (HT eq_refl) Hi Hidx) as (l & El & Hl & Hb). exists l.
    split; [done|]. split; [done|]. intros Hd Hk0 Hh20. destruct (bin_bounds k h idx ltac:(lia) ltac:(lia) Eb) as [B1 B2].
    apply Hb; [done|done|]. by apply Hd.
Qed.

Lemma lookup_xs_ok k mat : 0 <= k < MODULUS -> 0 <= mat < 12 -> exists xs, lookup_xs x D (ratio k) mat = Some xs /\ length xs = 5%nat.
Proof.
  intros Hk Hmat. destruct (find_interval k Hk) as (idx & E & Hidx). unfold lookup_xs, calculate_macro_xs. rewrite E. cbn [mbind option_bind].
  apply (macro_ok m (fun nuc => calculate_micro_xs (ratio k) nuc n (d_grid D) M idx (grid_type x) h)); [apply HD|done|].
  intros nuc Hi. destruct (Hidx nuc Hi) as (l & El & Hl & _). destruct Hx as [_ Hn Hmn _ _].
  apply (micro_ok m n Hn Hmn M (do_matrix _ _ HD) h _ _ _ _ _ l Hi El Hl).
Qed.

(** The same data, with the nuclides' own grids. *)
Definition with_nuclide : Inputs := set_grid_type NUCLIDE x.
Definition without_grid : data := MkData (MkGrid [] []) M (d_mat D).

Lemma lookup_xs_nuclide k mat :
  0 < k < MODULUS -> h <= 2 ^ 20 -> distinct_start m n M -> lookup_xs x D (ratio k) mat = lookup_xs with_nuclide without_grid (ratio k) mat.
Proof.
  intros Hk Hh Hd. destruct (find_interval k ltac:(lia)) as (idx & E & Hidx). unfold lookup_xs at 1, calculate_macro_xs. rewrite E. cbn [mbind option_bind].
  transitivity (macro_sum (fun nuc => calculate_micro_xs (ratio k) nuc n (MkGrid [] []) M (-1) NUCLIDE h) (d_mat D) mat); [|done].
  transitivity (macro_sum (fun nuc => calculate_micro_xs (ratio k) nuc n (d_grid D) M idx (grid_type x) h) (d_mat D) mat); [done|].
  apply (macro_ext m); [apply HD|]. intros nuc Hi. destruct (Hidx nuc Hi) as (l & El & Hl & Hb). specialize (Hb Hd ltac:(lia) Hh).
  destruct Hx as [_ Hn Hmn _ _], HD as [HM _ _ _]. assert (num (ratio k)) as Hp by (apply ratio_num; unfold MODULUS in *; lia).
  destruct (low_nuclide_ok m n Hn Hmn M HM (ratio k) nuc Hp Hi) as (l' & El' & Hb').
  assert (l' = l) as -> by (eapply bracket_unique; [exact Hp|by apply (mo_sorted _ _ _ HM)|done|done]).
  unfold calculate_micro_xs. fold (low_point n M h (grid_type x) (ratio k) nuc (d_grid D) idx). rewrite El.
  cbn [Z.eqb NUCLIDE UNIONIZED]. by rewrite El'.
Qed.

(** ** The events *)

Context {sp : Sprintf} (verification : bool).

Lemma vhash_local_ok p mat xs : exists v, vhash_local verification p mat xs = Some v /\ 0 <= v < 10000.
Proof.
  unfold vhash_local. destruct verification; [|exists 0; split; [done|lia]]. unfold hash. eexists. split; [done|]. by apply Z.mod_pos_bound.
Qed.

Lemma event_lookup_ok i : exists v, event_lookup verification x D i = Some v /\ 0 <= v < 10000.
Proof.
  unfold event_lookup. rewrite rn_ratio. destruct (pick_mat_ok (rn_next (particle_seed i))) as (mat & -> & Hmat). cbn [mbind option_bind].
  destruct (lookup_xs_ok _ mat (rn_next_range (particle_seed i)) Hmat) as (xs & -> & _). cbn [mbind option_bind]. apply vhash_local_ok.
Qed.

Lemma event_lookup_nuclide i :
  h <= 2 ^ 20 -> distinct_start m n M -> 0 <= i -> (i + 1) * 13371337 * 16807 < 2 ^ 64 ->
  event_lookup verification x D i = event_lookup verification with_nuclide without_grid i.
Proof.
  intros Hh Hd Hi Hw. unfold event_lookup. rewrite rn_ratio. destruct (pick_mat _) as [[mat s]|]; [|done]. cbn [mbind option_bind].
  rewrite lookup_xs_nuclide; [done| |done|done]. pose proof (rn_next_range (particle_seed i)). pose proof (event_energy_pos i Hi Hw). lia.
Qed.
End Lookups.

(** ** A loop of independent iterations *)

Definition total (l : list Z) : Z := foldr Z.add 0 l.

#[export] Instance total_perm : Proper ((≡ₚ) ==> (=)) total.
Proof. intros l k Hp. unfold total. induction Hp; cbn in *; lia. Qed.

(** One thread, one iteration after the other. *)
Definition sequential (iteration : Z -> option Z) (n : Z) : option Z :=
  for_z 0 n (fun i vhash => h ← iteration i; Some (u64 (vhash + h))) 0.

Lemma sequential_ext f g n : (forall i, 0 <= i < n -> f i = g i) -> sequential f n = sequential g n.
Proof.
  intros Hfg. unfold sequential, for_z. rewrite Z.sub_0_r.
  enough (forall c lo v, (forall i, lo <= i < lo + Z.of_nat c -> f i = g i) -> for_nat c lo (fun i vhash => h ← f i; Some (u64 (vhash + h))) v =
    for_nat c lo (fun i vhash => h ← g i; Some (u64 (vhash + h))) v) as H by (apply H; intros i Hi; apply Hfg; lia).
  clear. induction c as [|c IH]; intros lo v Hfg; [done|]. cbn [for_nat]. rewrite Hfg by lia. destruct (g lo); [|done].
  cbn [mbind option_bind]. apply IH. intros i Hi. apply Hfg. lia.
Qed.

Section Simulate.
Context {team_of : Team} (iteration : Z -> option Z) (n : Z).
Definition value (i : Z) : Z := default 0 (iteration i).

Lemma sequential_inv v :
  sequential iteration n = Some v -> (forall i, 0 <= i < n -> is_Some (iteration i)) /\ v = u64 (total (value <$> seqZ 0 n)).
Proof.
  unfold sequential, for_z. rewrite Z.sub_0_r. intros Hrun.
  enough (forall c lo v0, 0 <= v0 < 2 ^ 64 -> for_nat c lo (fun i vhash => h ← iteration i; Some (u64 (vhash + h))) v0 = Some v ->
    (forall i, lo <= i < lo + Z.of_nat c -> is_Some (iteration i)) /\ v = u64 (v0 + total (value <$> seqZ lo (Z.of_nat c)))) as H.
  { destruct (H (Z.to_nat n) 0 0 ltac:(lia) Hrun) as [H1 H2]. split; [intros i Hi; apply H1; lia|].
    replace (seqZ 0 n) with (seqZ 0 (Z.of_nat (Z.to_nat n))); [done|]. destruct (decide (0 <= n)); [f_equal; lia|by rewrite !seqZ_nil by lia]. }
  clear Hrun. induction c as [|c IH]; intros lo v0 Hv0 Hrun; cbn [for_nat] in Hrun.
  - injection Hrun as <-. split; [intros; lia|]. cbn. symmetry. rewrite Z.add_0_r. by apply u64_id.
  - destruct (iteration lo) as [a|] eqn:Ea; [|done]. cbn [mbind option_bind] in Hrun. destruct (IH _ _ (u64_range _) Hrun) as [H1 H2]. split.
    + intros i Hi. destruct (decide (i = lo)) as [->|]; [by rewrite Ea|]. apply H1. lia.
    + rewrite seqZ_cons by lia. rewrite H2. unfold u64. rewrite Zplus_mod_idemp_l. replace (Z.pred (Z.of_nat (S c))) with (Z.of_nat c) by lia.
      cbn [fmap list_fmap total foldr]. unfold value at 2. rewrite Ea. cbn [default]. unfold Z.succ, total. f_equal. cbn. lia.
Qed.

Lemma total_insert l i a b : l !! i = Some a -> total (<[i := b]> l) = total l - a + b.
Proof.
  unfold total. revert i. induction l as [|c l IH]; intros [|i] Hi; try done; cbn in *.
  - injection Hi as ->. lia.
  - specialize (IH i Hi). unfold insert in IH |- *. lia.
Qed.

Lemma reduction_ok (ts : list (list Z * Z)) : foldr (fun t sum => u64 (t.2 + sum)) 0 ts = u64 (total (snd <$> ts)).
Proof. induction ts as [|[todo v] ts IH]; [done|]. cbn. rewrite IH. unfold u64. by rewrite Zplus_mod_idemp_r. Qed.

(** Every team of threads gives what one thread gives. *)
Lemma simulate_ok v fuel :
  sequential iteration n = Some v -> n <= Z.of_nat fuel -> ends (simulate fuel iteration n) (fun v' => v' = v).
Proof.
  intros [Hall ->]%sequential_inv Hfuel. unfold simulate. apply ends_bind, ends_dealt. intros todos _ Htodos. rewrite Z.sub_0_r in Htodos.
  apply ends_bind. eapply ends_mono.
  - apply (region_ok _ _ (fun _ ts => (forall i, i ∈ ts ≫= fst -> 0 <= i < n) /\
      u64 (total (snd <$> ts) + total (value <$> (ts ≫= fst))) = u64 (total (value <$> seqZ 0 n))) (fun _ ts => length (ts ≫= fst))).
    + assert (((fun todo => (todo, 0)) <$> todos) ≫= fst = mjoin todos) as ->.
      { clear. induction todos as [|l ls IH]; [done|]. cbn. by f_equal. }
      split; [intros i Hi; rewrite Htodos in Hi; apply elem_of_seqZ in Hi; lia|]. rewrite Htodos. f_equal.
      assert (total (snd <$> ((fun todo => (todo, 0)) <$> todos)) = 0) as ->; [|lia]. clear. induction todos as [|l ls IH]; [done|]. exact IH.
    + assert (((fun todo => (todo, 0)) <$> todos) ≫= fst = mjoin todos) as ->.
      { clear. induction todos as [|l ls IH]; [done|]. cbn. by f_equal. }
      rewrite Htodos, length_seqZ. lia.
    + intros [] ts tid [[|i todo] vh] [Hr Hs] Ht Hf; [done|]. destruct (bind_insert fst ts tid _ (todo, u64 (vh + value i)) Ht) as (rest & E1 & E2).
      cbn [fst] in E1, E2. assert (iteration i = Some (value i)) as Ei.
      { unfold value. destruct (Hall i) as [a ->]; [|done]. apply Hr. rewrite E1. left. }
      exists tt, (todo, u64 (vh + value i)). split; [cbn; by rewrite Ei|]. split.
      * split; [intros j Hj; apply Hr; rewrite E1; rewrite E2 in Hj; by right|]. rewrite <- Hs, E1, E2. rewrite list_fmap_insert. cbn [snd].
        rewrite (total_insert _ _ vh) by (rewrite list_lookup_fmap, Ht; done). cbn [fmap list_fmap app total foldr]. fold (total (value <$> todo ++ rest)).
        unfold u64. pose proof (Z.div_mod (vh + value i) (2 ^ 64) ltac:(lia)) as Hdm. set (q := (vh + value i) / 2 ^ 64) in *.
        change (foldr Z.add 0 (list_fmap Z Z value (todo ++ rest))) with (total (value <$> todo ++ rest)).
        match goal with |- ?a mod _ = ?b mod _ => replace b with (a + q * 2 ^ 64) by (cbn in *; lia) end. by rewrite Z.mod_add.
      * rewrite E1, E2. cbn. lia.
  - intros [[] ts] [[_ Hs] Hfin]. apply ends_ret. rewrite reduction_ok, <- Hs. f_equal.
    assert (ts ≫= fst = []) as ->; [|cbn; lia]. clear -Hfin. induction Hfin as [|[[|] v] ts Ht _ IH]; [done| |done]. exact IH.
Qed.
End Simulate.

(** ** The preparation *)

Section Prepare.
Context {qs : Qsort} {r : Rand} (verification : bool) (junk : NuclideGridPoint) (x : Inputs).

(** The grids of the nuclides, sorted, and where the random numbers are. *)
Definition nuclide_matrix : option (matrix * nat * Z) :=
  M ← gpmatrix junk (n_isotopes x) (n_gridpoints x);
  '(M, k, seed) ← (if verification
    then '(M, seed) ← generate_grids_v (n_isotopes x) (n_gridpoints x) M 1337; Some (M, O, seed)
    else '(M, k) ← generate_grids (n_isotopes x) (n_gridpoints x) M O; Some (M, k, 1337));
  M ← sort_nuclide_grids (n_isotopes x) (n_gridpoints x) M;
  Some (M, k, seed).

Definition material_data (k : nat) (seed : Z) : option materials :=
  let num_nucs := load_num_nucs (n_isotopes x) in
  mats ← load_mats num_nucs (n_isotopes x);
  concs ← (if verification then fst <$> load_concs_v num_nucs seed else fst <$> load_concs num_nucs k);
  Some (MkMaterials num_nucs mats concs).

(** What there is without an index: all that the nuclides' own grids need. *)
Definition nuclide_data : option data :=
  '(M, k, seed) ← nuclide_matrix; W ← material_data k seed; Some (MkData (MkGrid [] []) M W).

Lemma nuclide_matrix_ok : inputs_ok x -> exists M k seed, nuclide_matrix = Some (M, k, seed) /\ matrix_ok (n_isotopes x) (n_gridpoints x) M.
Proof.
  intros Hx. pose proof (isotopes_pos x Hx) as Hm. destruct Hx as [_ Hn Hmn _ _]. unfold nuclide_matrix.
  destruct (gpmatrix_ok (n_isotopes x) (n_gridpoints x) Hm Hn Hmn junk) as (M0 & -> & HM0). cbn [mbind option_bind].
  assert (exists M k seed, (if verification
    then '(M, seed) ← generate_grids_v (n_isotopes x) (n_gridpoints x) M0 1337; Some (M, O, seed)
    else '(M, k) ← generate_grids (n_isotopes x) (n_gridpoints x) M0 O; Some (M, k, 1337)) = Some (M, k, seed) /\
    matrix_shape (n_isotopes x) (n_gridpoints x) M /\ Forall (fun p => num (energy p)) (points M)) as (M1 & k & seed & E & HM1 & Hnum).
  { destruct verification.
    - unfold generate_grids_v. destruct (fill_grids_ok (n_isotopes x) (n_gridpoints x) Hm Hn Hmn rn_v M0 1337 rn_v_num HM0) as (M1 & s & -> & HM1 & Hnum).
      by exists M1, O, s.
    - unfold generate_grids. destruct (fill_grids_ok (n_isotopes x) (n_gridpoints x) Hm Hn Hmn rand_double M0 O rand_double_num HM0) as (M1 & s & -> & HM1 & Hnum).
      by exists M1, s, 1337. }
  rewrite E. cbn [mbind option_bind]. destruct (sort_nuclide_grids_ok (n_isotopes x) (n_gridpoints x) Hm Hn Hmn M1 HM1 Hnum) as (M & -> & HM).
  cbn [mbind option_bind]. by exists M, k, seed.
Qed.

Lemma material_data_ok k seed : problem_size (n_isotopes x) -> exists W, material_data k seed = Some W /\ materials_ok (n_isotopes x) W.
Proof.
  intros Hm. unfold material_data. destruct (load_mats_ok _ Hm) as (ms & -> & Hl & Hr). cbn [mbind option_bind].
  unfold load_concs_v, load_concs. destruct (fill_concs_ok rn_v (n_isotopes x) seed) as (c1 & s1 & E1 & H1).
  destruct (fill_concs_ok rand_double (n_isotopes x) k) as (c2 & s2 & E2 & H2). rewrite E1, E2.
  destruct verification; cbn; eexists; (split; [done|]); by apply materials_built.
Qed.

Lemma prepare_ok {team_of : Team} fuel :
  inputs_ok x -> hash_bins x <= Z.of_nat fuel ->
  exists D0, nuclide_data = Some D0 /\ ends (prepare verification fuel junk x) (fun D => data_ok x D /\ D0 = without_grid D).
Proof.
  intros Hx Hfuel. destruct (nuclide_matrix_ok Hx) as (M & k & seed & EM & HM). destruct (material_data_ok k seed (io_isotopes _ Hx)) as (W & EW & HW).
  exists (MkData (MkGrid [] []) M W). split; [unfold nuclide_data; rewrite EM; cbn [mbind option_bind]; by rewrite EW|].
  unfold nuclide_matrix in EM. destruct (gpmatrix _ _ _) as [M0|] eqn:E0; [|done]. cbn [mbind option_bind] in EM. unfold prepare. rewrite E0.
  apply ends_bind. eapply ends_lift; [done|]. match type of EM with (?o ≫= _) = _ => destruct o as [[[M1 k1] seed1]|] eqn:E1 end; [|done].
  cbn [mbind option_bind] in EM. apply ends_bind. eapply ends_lift; [done|]. cbn beta iota.
  destruct (sort_nuclide_grids _ _ M1) as [M2|] eqn:E2; [|done]. cbn [mbind option_bind] in EM. injection EM as -> -> ->.
  apply ends_bind. eapply ends_lift; [done|]. unfold material_data in EW. destruct (load_mats _ _) as [ms|] eqn:Ems; [|done]. cbn [mbind option_bind] in EW.
  match type of EW with (?o ≫= _) = _ => destruct o as [cs|] eqn:Ecs end; [|done]. cbn [mbind option_bind] in EW. injection EW as <-.
  assert (forall G, (grid_type x = UNIONIZED -> indexed (n_isotopes x) (n_gridpoints x) M G) ->
      (grid_type x = HASH -> table_ok (n_isotopes x) (n_gridpoints x) M (hash_bins x) G) ->
      ends (let num_nucs := load_num_nucs (n_isotopes x) in
        mats ← lift (Some ms); concs ← lift (Some cs); mret (MkData G M (MkMaterials num_nucs mats concs)))
        (fun D => data_ok x D /\ MkData (MkGrid [] []) M (MkMaterials (load_num_nucs (n_isotopes x)) ms cs) = without_grid D)) as Hrest.
  { intros G HU HT. apply ends_bind. eapply ends_lift; [done|]. apply ends_bind. eapply ends_lift; [done|]. by apply ends_ret. }
  pose proof (isotopes_pos x Hx) as Hm. destruct Hx as [_ Hn Hmn Hh Hty]. apply ends_bind.
  destruct Hty as [E|[E|E]]; rewrite E in *; cbn [Z.eqb UNIONIZED NUCLIDE HASH].
  - destruct (generate_energy_grid_ok _ _ Hm Hn Hmn junk M HM) as (G0 & -> & HG0). apply ends_bind. eapply ends_lift; [done|].
    destruct (set_grid_ptrs_ok _ _ Hm Hn Hmn M G0 HM HG0) as (G & -> & Heg & Hidx). eapply ends_lift; [done|].
    apply Hrest; [|done]. intros _. by exists G0.
  - apply ends_ret. by apply Hrest.
  - eapply ends_mono; [apply (generate_hash_table_ok _ _ Hm Hn Hmn M HM _ Hh); lia|]. intros G HG. by apply Hrest.
Qed.
End Prepare.

(** ** The command line *)

Definition in_int (v : Z) : Prop := - 2 ^ 31 <= v < 2 ^ 31.
Definition type_ok (t : Z) : Prop := t = UNIONIZED \/ t = NUCLIDE \/ t = HASH.
Definition method_ok (s : Z) : Prop := s = HISTORY_BASED \/ s = EVENT_BASED.

(** What every option keeps; as long as neither number was given, the lookups
    are the default, times the particles after [-m event]. *)
Record cli_ok (procs : Z) (c : cli) : Prop := {
  co_isotopes : n_isotopes (cli_in c) = 355;
  co_threads : in_int procs -> in_int (nthreads (cli_in c));
  co_points : in_s64 (n_gridpoints (cli_in c));
  co_particles : in_int (particles (cli_in c));
  co_bins : in_int (hash_bins (cli_in c));
  co_lookups : in_int (lookups (cli_in c));
  co_type : type_ok (grid_type (cli_in c));
  co_method : method_ok (simulation_method (cli_in c));
  co_default : default_lookups c = true -> default_particles c = true ->
    0 <= lookups (cli_in c) * particles (cli_in c) <= 17000000;
}.

Lemma cli_option_ok procs c arg v c' : cli_ok procs c -> cli_option c arg v = Some c' -> cli_ok procs c'.
Proof.
  intros [H1 HT HP HA H2 H3 H4 H5 H6]. destruct c as [x g l p]. cbn [cli_in default_lookups default_particles] in *. unfold cli_option.
  assert (forall s, in_int (atoi s)) as Hi by (intros s; apply s32_range). pose proof atol_range as Hal.
  repeat match goal with |- context [if streq ?a ?b then _ else _] => destruct (streq a b) end; intros [= <-].
  all: destruct x as [a1 a2 a3 a4 a5 a6 a7 a8 a9]; cbn in *; try (destruct l, p; cbn in * );
    split; cbn; try done; try (intros; lia); try (unfold type_ok, method_ok, in_int in *; tauto).
  all: unfold in_int; specialize (H6 eq_refl eq_refl); lia.
Qed.

Lemma cli_loop_ok procs args : forall c c', cli_ok procs c -> cli_loop args c = Some c' -> cli_ok procs c'.
Proof.
  induction args as [args IH] using (induction_ltof1 _ length). intros c c' Hc. destruct args as [|arg [|v args]]; cbn [cli_loop]; [by intros [= <-]|done|].
  destruct (cli_option c arg v) as [c1|] eqn:E; [|done]. cbn [mbind option_bind]. apply IH; [unfold ltof; cbn; lia|]. by eapply cli_option_ok.
Qed.

Lemma defaults_ok procs : cli_ok procs (defaults procs).
Proof. split; cbn; unfold in_int, in_s64, type_ok, method_ok; try tauto; lia. Qed.

Lemma xxl_points : long_of (dmul (double_of 238847) (ddiv (double_of 21) (double_of 10))) = Some 501578.
Proof. vm_compute. reflexivity. Qed.

(** What the run relies on. *)
Record accepted (x : Inputs) : Prop := {
  ac_isotopes : problem_size (n_isotopes x);
  ac_points : 1 <= n_gridpoints x < 2 ^ 63;
  ac_bins : 0 < hash_bins x < 2 ^ 31;
  ac_lookups : 0 < lookups x < 2 ^ 31;
  ac_particles : in_int (particles x);
  ac_type : type_ok (grid_type x);
  ac_method : method_ok (simulation_method x);
  ac_threads : 1 <= nthreads x;
}.

Lemma read_CLI_ok procs args x :
  read_CLI procs args = Some x -> accepted x /\ (in_int procs -> nthreads x < 2 ^ 31).
Proof.
  unfold read_CLI. destruct (cli_loop args (defaults procs)) as [c|] eqn:E; [|done]. cbn [mbind option_bind].
  destruct (cli_loop_ok _ _ _ _ (defaults_ok procs) E) as [H1 HT HP HA H2 H3 H4 H5 _]. clear E. destruct c as [x0 g l p].
  cbn [cli_in user_g default_lookups default_particles] in *. unfold in_int, in_s64 in *.
  destruct (Z.ltb_spec (nthreads x0) 1); [done|]. destruct (Z.ltb_spec (n_isotopes x0) 1); [done|]. destruct (Z.ltb_spec (n_gridpoints x0) 1); [done|].
  destruct (Z.ltb_spec (lookups x0) 1); [done|]. destruct (Z.ltb_spec (hash_bins x0) 1); [done|]. rewrite xxl_points. cbn [mbind option_bind].
  generalize (strcaseeq (HM x0) (chars "small"%string)) (strcaseeq (HM x0) (chars "large"%string)) (strcaseeq (HM x0) (chars "XL"%string)) (strcaseeq (HM x0) (chars "XXL"%string)).
  intros [] [] [] []; cbn [negb andb]; destruct g; cbn [negb andb]; intros [= <-].
  all: split; [split|]; cbn [n_isotopes n_gridpoints hash_bins lookups particles grid_type simulation_method nthreads set_n_isotopes set_n_gridpoints].
  all: unfold problem_size, in_int; try done; try lia; tauto.
Qed.

(** C40: The inputs that [read_CLI] accepts are well-formed: one of the two
    problem sizes, one of the three kinds of grids, one of the two methods, and
    positive numbers of points, bins, lookups and threads that have the values
    of their C types, so that the program does not wrap while it reads them. *)
Theorem read_CLI_typed procs args x :
  in_int procs -> read_CLI procs args = Some x -> accepted x /\ 1 <= nthreads x < 2 ^ 31.
Proof. intros Hp Hx. destruct (read_CLI_ok _ _ _ Hx) as [Ha Ht]. split; [done|]. pose proof (ac_threads _ Ha). specialize (Ht Hp). lia. Qed.

(** ** The event-based run *)

Section Run.
Context {qs : Qsort} {r : Rand} {sp : Sprintf} (verification : bool) (junk : NuclideGridPoint).
Context (procs : Z) (args : list (list Z)) (x : Inputs) (Hargs : read_CLI procs args = Some x).
Context (Hevent : simulation_method x = EVENT_BASED) (Hn : 2 <= n_gridpoints x) (Hmn : n_isotopes x * n_gridpoints x < 2 ^ 31).

Lemma run_inputs_ok : inputs_ok x.
Proof. destruct (read_CLI_ok _ _ _ Hargs) as [[] _]. by split. Qed.

(** The events one after the other, with the nuclides' own grids. *)
Definition reference : option (Z * option Z) :=
  D ← nuclide_data verification junk x;
  v ← sequential (event_lookup verification (with_nuclide x) D) (lookups x);
  Some (0, Some (v mod 1000000)).

Lemma events_total D : data_ok x D -> exists v, sequential (event_lookup verification x D) (lookups x) = Some v.
Proof.
  intros HD. destruct (for_z_inv (fun _ _ => True) 0 (lookups x) (fun i vhash => h ← event_lookup verification x D i; Some (u64 (vhash + h))) 0) as (v & Hv & _).
  - destruct (read_CLI_ok _ _ _ Hargs) as [[] _]. lia.
  - done.
  - intros i s _ _. destruct (event_lookup_ok x D run_inputs_ok HD verification i) as (v & -> & _). by eexists.
  - by exists v.
Qed.

Context {team_of : Team} (fuel : nat) (Hfuel : Z.max (hash_bins x) (lookups x) <= Z.of_nat fuel).

Lemma run_ends : exists D0, nuclide_data verification junk x = Some D0 /\
  ends (real_main verification fuel junk procs args) (fun res => exists D v, data_ok x D /\ D0 = without_grid D /\
    sequential (event_lookup verification x D) (lookups x) = Some v /\ res = (0, Some (v mod 1000000))).
Proof.
  destruct (prepare_ok verification junk x fuel run_inputs_ok ltac:(lia)) as (D0 & E0 & Hp). exists D0. split; [done|].
  unfold real_main. rewrite Hargs. apply ends_bind. eapply ends_mono; [exact Hp|]. intros D [HD ->]. apply ends_bind.
  rewrite Hevent. cbn [Z.eqb EVENT_BASED]. destruct (events_total D HD) as [v Hv]. unfold run_event_based_simulation.
  eapply ends_mono; [apply (simulate_ok _ _ v); [exact Hv|lia]|]. intros ? ->. apply ends_ret. by exists D, v.
Qed.

(** C17: The event-based run is safe.  For every command line that selects it and
    is accepted, with at least two points in every nuclide's grid and fewer than
    2^31 in all, whatever the kind of grid, the number of threads and the
    schedule, whatever [qsort] does with equal energies and whatever [rand]
    returns: no array is read or written out of range, no conversion is
    undefined, every loop ends, and the program prints a checksum below 10^6 and
    returns 0. *)
Theorem xs_event_run_ends :
  ends (real_main verification fuel junk procs args) (fun res => exists v, res = (0, Some v) /\ 0 <= v < 1000000).
Proof.
  destruct run_ends as (D0 & _ & Hrun). eapply ends_mono; [exact Hrun|]. intros res (D & v & _ & _ & _ & ->).
  eexists. split; [done|]. by apply Z.mod_pos_bound.
Qed.

(** C16: The three kinds of grids and all schedules compute the same.  When the
    first two energies of every nuclide differ, with at most 2^20 bins and no
    more lookups than the seeds' 64 bits allow, the unionized grid, the bins and
    the nuclides' own grids make every team of threads print the checksum of one
    thread that looks the events up one after the other in the nuclides' grids. *)
Theorem xs_event_run_reference :
  hash_bins x <= 2 ^ 20 -> lookups x * 13371337 * 16807 < 2 ^ 64 ->
  (forall D, nuclide_data verification junk x = Some D -> distinct_start (n_isotopes x) (n_gridpoints x) (d_matrix D)) ->
  ends (real_main verification fuel junk procs args) (fun res => reference = Some res).
Proof.
  intros Hh Hw Hd. destruct run_ends as (D0 & E0 & Hrun). eapply ends_mono; [exact Hrun|]. intros res (D & v & HD & -> & Hv & ->).
  unfold reference. rewrite E0. cbn [mbind option_bind]. specialize (Hd _ E0). cbn [without_grid d_matrix] in Hd.
  assert (sequential (event_lookup verification (with_nuclide x) (without_grid D)) (lookups x) = Some v) as ->; [|done].
  rewrite <- Hv. apply sequential_ext. intros i Hi.
  rewrite <- (event_lookup_nuclide x D run_inputs_ok HD); [done|done|done|lia|nia].
Qed.
End Run.

(** ** One point in every grid *)

(** [read_CLI] accepts [-g 1], but with one point in every nuclide's grid the
    preparation of the unionized grid reads the second point of the last
    nuclide, behind the end of the block. *)
Theorem xs_one_gridpoint m G M :
  1 <= m -> matrix_shape m 1 M -> set_grid_ptrs m 1 G M = None.
Proof.
  intros Hm HM. unfold set_grid_ptrs. destruct (for_z 0 m _ _) as [eh|] eqn:E; [|done]. exfalso. revert E.
  intros E. apply (for_z_partial (fun i _ => i < m)) in E; [lia|lia|lia|]. clear E. intros i eh1 eh2 Hi _.
  rewrite (ngp_shape m 1 M i 1 HM) by lia. destruct HM as [_ Hl]. destruct ((points M).[1 * i + 1]) as [p|] eqn:Ep; [|done].
  apply aget_some_range in Ep. intros _. lia.
Qed.

(** ** A run *)

(** Points by the keys of their energies. *)
Definition before (p q : NuclideGridPoint) : Prop := ~ below (key (energy q)) (key (energy p)).

#[export] Instance below_dec a b : Decision (below a b).
Proof. destruct a as [[? ?] ?], b as [[? ?] ?]. unfold below. apply _. Defined.
#[export] Instance before_dec : RelDecision before.
Proof. intros p q. unfold before. apply _. Defined.
#[export] Instance before_total : Total before.
Proof. intros p q. unfold before. destruct (key (energy p)) as [[? ?] ?], (key (energy q)) as [[? ?] ?]. cbn. lia. Qed.
#[export] Instance before_trans : Transitive before.
Proof. intros p q o Hpq Hqo. by eapply below_trans. Qed.

Lemma before_compare p q : num (energy p) -> num (energy q) -> before p q -> NGP_compare p q <= 0.
Proof.
  intros Hp Hq Hb. unfold NGP_compare. destruct (dltb (energy q) (energy p)) eqn:E; [|destruct (dltb (energy p) (energy q)); done].
  apply dltb_key in E; done.
Qed.

Lemma merge_sort_compare l :
  Forall (fun p => num (energy p)) l -> StronglySorted (fun p q => NGP_compare p q <= 0) (merge_sort before l).
Proof.
  intros Hl. assert (Forall (fun p => num (energy p)) (merge_sort before l)) as Hl' by (by rewrite merge_sort_Permutation).
  pose proof (StronglySorted_merge_sort before l) as Hs. induction Hs as [|p k Hs IH Hp]; [constructor|].
  apply list.Forall_cons in Hl' as [Hnp Hnk]. constructor; [by apply IH|]. apply list.Forall_forall. intros q Hq.
  rewrite list.Forall_forall in Hp, Hnk. apply before_compare; [done|by apply Hnk|by apply Hp].
Qed.

Definition sample_qsort : Qsort := {|
  qsort := merge_sort before; qsort_perm := merge_sort_Permutation before; qsort_sorted := merge_sort_compare;
|}.
Definition sample_rand : Rand := {| rand k := Z.of_nat k mod 1000; rand_range k := ltac:(unfold RAND_MAX; pose proof (Z.mod_pos_bound (Z.of_nat k) 1000 eq_refl); lia) |}.
Definition sample_sprintf : Sprintf := {| print_line _ mat xs := mat :: ((fun v => snd (key v) mod 10) <$> xs) |}.
Definition sample_junk : NuclideGridPoint := MkNGP dzero dzero dzero dzero dzero dzero.

(** The options, with the kind of the grid. *)
Definition sample_args (gt : string) : list (list Z) :=
  chars <$> ["-s"; "small"; "-g"; "2"; "-m"; "event"; "-l"; "3"; "-h"; "10"; "-G"; gt]%string.
Definition sample_inputs (gt : Z) : Inputs := MkInputs 4 68 2 3 (chars "small"%string) gt 10 0 EVENT_BASED.

#[local] Existing Instances sample_qsort sample_rand sample_sprintf first_first.

Lemma read_CLI_typed_witness : accepted (sample_inputs HASH) /\ 1 <= 4 < 2 ^ 31.
Proof. apply (read_CLI_typed 4 (sample_args "hash"%string)); [unfold in_int; lia|vm_compute; reflexivity]. Defined.

Lemma xs_event_run_ends_witness :
  ends (real_main true 10 sample_junk 4 (sample_args "unionized"%string)) (fun res => exists v, res = (0, Some v) /\ 0 <= v < 1000000).
Proof.
  apply (xs_event_run_ends true sample_junk 4 _ (sample_inputs UNIONIZED)); [vm_compute; reflexivity|reflexivity|vm_compute; done..].
Defined.

(** All rows' first two energies, compared. *)
Definition starts_distinct (x : Inputs) : bool :=
  match nuclide_data true sample_junk x with
  | Some D => forallb (fun nuc => dltb (en (n_gridpoints x) (d_matrix D) nuc 0) (en (n_gridpoints x) (d_matrix D) nuc 1)) (seqZ 0 (n_isotopes x))
  | None => false
  end.

Lemma starts_distinct_ok x : starts_distinct x = true -> forall D, nuclide_data true sample_junk x = Some D ->
  distinct_start (n_isotopes x) (n_gridpoints x) (d_matrix D).
Proof.
  unfold starts_distinct. intros H D E nuc Hi. rewrite E in H. rewrite forallb_forall in H. apply H. apply list_elem_of_In, elem_of_seqZ. lia.
Qed.

Lemma xs_event_run_reference_witness :
  ends (real_main true 10 sample_junk 4 (sample_args "hash"%string)) (fun res => reference true sample_junk (sample_inputs HASH) = Some res).
Proof.
  apply (xs_event_run_reference true sample_junk 4 _ (sample_inputs HASH)); [vm_compute; reflexivity|reflexivity|vm_compute; done..|].
  apply starts_distinct_ok. vm_compute. reflexivity.
Defined.

Lemma xs_one_gridpoint_witness :
  set_grid_ptrs 1 1 (MkGrid [MkGP dzero 0] [0]) (MkMatrix [0] [sample_junk]) = None.
Proof. apply (xs_one_gridpoint 1); [lia|]. split; reflexivity. Defined.

End XsRun.
